(* ===== verification/_CoqProject ===== *)
-Q . S2P
Prelude.v
PyStr.v
StrFacts.v
PyFloat.v
PyVal.v
Sha256.v
Regex.v
Json.v
State.v
Policy.v
Approval.v
ApprovalTokens.v
Glean.v
Memory.v
MemoryProps.v
JsonProps.v
ModelRouting.v
Inference.v
RunnerClient.v
Mcp.v
Executor.v
ExecutorProps.v
Verifier.v
VerifierProps.v
Router.v
ContextBuilder.v
PlannerMemory.v
Planner.v
RouterProps.v
RunRecord.v
Service.v
ServiceProps.v
Url.v
RateLimit.v
Auth.v
Healing.v
Http.v
HttpProps.v
Configuration.v
Sqlite.v
RunStore.v
RedisStore.v
ConfigProps.v
Serve.v
AuditSink.v
StoreProps.v
Qrag.v
LongTermMemory.v
ProcedureCache.v
Vericoding.v
Visualize.v
Checkpoints.v
SqliteSaver.v
RedisSaver.v
SaverProps.v
Base64.v
PostgresSaver.v
PgVector.v
NodeLlm.v
Graph.v
NodeFrames.v
NodeLlmProps.v
PlannerMemoryProps.v
PlannerProps.v
ContextProps.v
GraphProps.v
Lula.v
RunCommand.v
RunProps.v
Counting.v
Eval.v
TraceSite.v
Sandbox.v
MetaGraph.v
Scheduler.v
MetaGraphProps.v
ScipIndex.v
MultiRepo.v
Worktree.v
