(* ===== verification/Prelude.v ===== *)
(** * Lula orchestrator: a verification library

    A shallow embedding of the Python core of the repository ([py/src/lg_orch]) with
    the theorems that make it correct.  Every file below names the source file it
    models; definitions keep the source's names where Rocq allows it.

    ** The program

    A run of the orchestrator is a LangGraph state graph ([graph.py]): a dictionary,
    the state, is passed from node to node.  [ingest] rebuilds it from the request,
    [policy_gate] counts the loop and sets guards and budgets, [context_builder],
    [router], [planner] and [coder] prepare a plan, [executor] sends its tool calls to
    the runner, [verifier] judges the results, and the run goes back to the gate or on
    to [reporter].  Around it: the approval engine and its tokens, the meta-graph that
    schedules several such runs, the clients of the runner and of the models.  A server
    starts such runs as processes: [config.py] says how, the HTTP front end authorises and
    routes requests to the run service, which keeps their records and their store.

    ** Files

    Foundations (Python's values and library, as far as the source uses them):
    - [Prelude]: exceptions and the result monad, lists, stable sorting ([py_sorted]);
    - [PyStr], [StrFacts]: [str] methods on texts of characters U+0000 to U+00FF;
    - [PyFloat]: binary64 numbers ([SpecFloat]), [repr], comparison, [sum], division
      of integers and format specifications;
    - [PyVal]: the values of a state ([pyval]), dictionaries in insertion order,
      [isinstance], [str], [repr], [==], [int()], [json.dumps];
    - [Json], [JsonProps]: [json.loads] and its round trip with [_safe_json];
    - [Sha256]: SHA-256 and HMAC, run on test vectors;  [Regex]: the matcher of [re],
      sound and complete for its relational semantics.

    Components:
    - [State]: the models of [state.py] that nodes construct and dump, the event log of [trace.py];
    - [Policy]: [policy.py] and [nodes/policy_gate.py];
    - [Approval]: [approval_policy.py] and the vote handler of [api/service.py];
    - [ApprovalTokens]: [api/approvals.py] and the token checks of [nodes/executor.py];
    - [Glean]: [glean.py];
    - [Memory], [MemoryProps]: [memory.py];
    - [ModelRouting]: [model_routing.py];
    - [Inference]: [tools/inference_client.py];  [RunnerClient]: [tools/runner_client.py];
    - [Mcp]: [tools/mcp_client.py];
    - [ContextBuilder], [ContextProps]: [nodes/context_builder.py];
    - [PlannerMemory], [PlannerMemoryProps]: [nodes/_planner_memory.py];
    - [Planner], [PlannerProps]: [nodes/_planner_prompt.py] and [nodes/planner.py];
    - [Executor], [ExecutorProps]: [nodes/executor.py];
    - [Verifier], [VerifierProps]: [nodes/verifier.py];
    - [Router], [RouterProps]: [nodes/router.py] and [nodes/_utils.py];
    - [NodeLlm], [NodeLlmProps]: [nodes/ingest.py], [nodes/coder.py], [nodes/reporter.py];
    - [Graph], [NodeFrames], [GraphProps], [Lula]: [graph.py], the frames of the nodes, the
      run of the graph and its instance with the modelled nodes;
    - [RunRecord], [Service], [ServiceProps]: [api/service.py] and [api/streaming.py], the runs
      of the HTTP service and their event streams;
    - [Url], [RateLimit], [Auth], [Healing]: [urllib.parse] as used, [rate_limit.py], [auth.py],
      [healing_loop.py];
    - [Http], [HttpProps]: [remote_api.py] with [api/admin.py], [api/metrics.py],
      [spa/router.py] and the events of [audit.py]: one request, then the server as a step
      relation over the service and the healing loops;
    - [AuditSink]: the audit file and the sinks of [audit.py];
    - [Configuration], [ConfigProps]: [config.py];  [Serve]: the start of [serve_remote_api];
    - [Sqlite], [RunStore], [RedisStore], [StoreProps]: [run_store.py], tables with their
      conflict clauses, the two stores and the map both implement;
    - [Checkpoints], [SqliteSaver], [RedisSaver], [SaverProps]: [backends/_base.py],
      [backends/sqlite.py] and [backends/redis.py], the checkpoint savers of LangGraph;
      [Base64], [PostgresSaver]: [backends/postgres.py], over an interface to the driver;
      [PgVector]: [backends/pgvector.py];
    - [Qrag], [LongTermMemory]: [qrag.py] and [long_term_memory.py], the three
      tiers of the long-term memory;  [ProcedureCache]: [procedure_cache.py];
    - [Vericoding]: [vericoding.py];
    - [RunCommand], [RunProps]: [commands/run.py] and [write_run_trace] of [trace.py], a run as a
      process: from its arguments to its exit code, its trace file and its stored row;
    - [Counting], [Eval]: [eval/run.py], the binomial coefficients of [math.comb] and the
      evaluation harness over the modelled graph;
    - [Visualize]: the pages and console views of [visualize.py];  [TraceSite]: the trace site and the trace
      server of [main.py] and [commands/trace.py], the checks of the other commands;
    - [Sandbox]: [k8s_sandbox.py];
    - [MetaGraph], [Scheduler], [MetaGraphProps]: [meta_graph.py];
    - [ScipIndex], [MultiRepo]: [scip_index.py] and [multi_repo.py], with the run-multi command;
    - [Worktree]: [worktree.py], over an interface to git.

    ** How code is represented

    A function that may raise returns [res A]; an [except] clause is a match on its
    error with the clause's exception filter.  A dictionary is an association list in
    insertion order without duplicate keys; [{**state, k: v}] is [dset].  A node is a
    function from the state to the updated state.  What comes from outside (clock,
    environment variables, HTTP, models, pydantic's adapters, jsonschema, the prompt file)
    is a field of a record ([Env], [VEnv], [REnv], [LlmEnv], [IngestEnv], [CEnv], [PEnv],
    [World]) or of a class ([NonNegIntAdapter], [OrchGraph], [Redis], [CheckpointServer],
    [Serde], [LangGraph], [Numpy], [VectorIndex], [Git], [Postgres]), with the documented laws the code relies on.
    The asyncio scheduler of the meta-graph is a step relation over its interleavings, and so
    is the audit logger over those of its exports: each turn of an export on the shared sink is
    one step, and exports of different threads interleave.
    Code that does work before it raises keeps it: the executor returns the batches posted so
    far beside its result ([Executor.executor]), a generator the tuples it has yielded
    ([PostgresSaver.Yielded]).
    The service is a set of threads, each a resumption ([Service.Prog]) made of the sections
    its code executes under the lock and of the accesses between them; [Service.step]
    interleaves them with the ends of processes and the writing of trace files.  A section
    gets what the outside gives it ([Service.Outside]): clocks, process starts, store failures.

    ** What the theorems show

    - Graph: every run ends within [7 * L + 3] supersteps and [L] plan executions
      ([Lula.lula_terminates]); the nodes it executes are a path of an abstract loop machine
      that knows only the number of loops counted ([lula_refines_loop], [loop_step]); it
      ends with an answer of the reporter or with the exception of its last node
      ([lula_answers]); a completed run was reported for a positive verification or an
      exhausted budget ([graph_outcome]); the drawing is the graph ([mermaid_exact]).
    - Planning: the planner ends with a plan whatever the model does
      ([planner_always_plans]), only reads without a model ([local_plan_only_reads]), and
      recalled memories only add constraints to a plan ([recalled_constraints_keep_plan] of [PlannerMemoryProps],
      [semantic_recall_best]).
    - Context: its size is bounded by the two budgets ([context_bounded]), the tools it
      surfaces are the pinned ones ([surfaced_tools_pinned]), what a reset forgets, and what
      the node survives.
    - Safety of mutations: the executor posts no [apply_patch] without approval, outside the
      allow-list or over a budget, also when it raises ([executor_calls_guarded]); the gate denies by default;
      minted approval tokens pass the structural check; quorum, role and vote handling.
    - Verification: when a report is positive, how a failure is classified, what steers the
      next loop, that a failed result keeps failing, which recovery facts are kept.
    - Containment of models and networks: the router and the coder return whatever the
      model does; a completion makes at most twelve posts, waits between them for the times
      the retries allow and informs the circuit breaker once; the breaker's states over any event sequence; clients are shared ([clients_shared]); failed batches give one failed
      result per call.
    - Service: under any interleaving the records are consistent ([runs_consistent], by
      rely-guarantee: a thread between the two sections of [_mark_finished] owns its run) and
      the status of a run follows [lifecycle] ([run_life_cycle]); an approval starts one
      process for the pending challenge and no second one while that process runs
      ([approval_decides_once]); an execution in which the
      end of a run is that of its first process ([stale_exit_reported]).
    - HTTP: every call that reaches the service was permitted ([http_calls_permitted]), one
      audit record per request that is answered ([one_audit_record]; a server without what its
      mode needs leaves two), whose export keeps every event once as long as no two exports
      overlap in the sink ([audit_conserved]), the routes of runs
      ([run_requests_routed]), a client's bucket is its own ([client_isolated]), one healing
      loop at a time ([healing_one_at_a_time]); composed with the configuration: bearer mode
      guards whatever the file says ([bearer_config_guards]).
    - Configuration: what loads is valid ([load_config_valid]), what does not raises
      [ConfigError] ([load_config_errors]).
    - Run stores: SQLite and Redis implement the same map while no key of Redis expires
      ([run_stores_agree], through the interface [RunStoreSpec] that each discharges).
    - Checkpoints: for the histories LangGraph makes both savers answer with what was saved
      ([savers_agree], through the interface [SaverSpec] that each discharges); examples say
      where they differ outside of them.  The Postgres saver
      lists what was put ([postgres_lists_saved]) and never answers to [aget_tuple]
      ([postgres_never_reads]).
    - Memory stores: what is recalled fits the budget up to its separators, with and without
      the re-ranking ([recall_within_budget]), the re-ranking keeps the best scores ([retrieve_selects_best]);
      after any history of calls the procedure cache answers with the last procedure stored
      and the uses since the first ([cache_answers_last_store]).
    - Evaluation: the estimator [pass_at_k] is one minus the share of the draws without a
      correct sample ([pass_at_k_draws]);
      expectations on channels the graph does not have fail whatever a run does
      ([unreachable_expectations_fail]).
    - Runner invariants: what the four checks accept ([check_all_accepts]).
    - Trace pages: whatever a trace holds, the tags of its page are those of the renderer
      ([trace_pages_escape]); the trace server shows the traces of its directory and nothing
      else ([trace_server_confined]).
    - Worktrees: what a lease asks of git, in which order, whatever fails and wherever it is
      cancelled ([lease_protocol]); the cleanup removes exactly the worktrees whose directory is gone
      ([cleanup_removes_orphans]).
    - Sandbox: the check of a deployment accepts exactly the hardened ones
      ([sandbox_check_exact]).
    - Several repositories: such a run never succeeds ([multi_repo_never_succeeds]); run-multi
      answers with its inputs ([run_multi_echoes]).
    - Run command, composed with the graph, the configuration and the service: a configured run
      ends ([configured_run_ends]); the first run that needs an approval is suspended by the
      service ([first_run_suspends]), a resumed one never is ([resumed_run_never_suspended]);
      the pins of tools do not reach the run ([pins_not_forwarded]).
    - Scheduler: launch order and at most one launch of a task ([scheduler_launch_order]),
      termination, parallel bound, what is skipped, accounting of the
      result; graph construction accepts exactly the acyclic graphs; patches are atomic.
    - Memory and routing: budgets of the fitted context, pruning, fact packs, route
      decision, SLA fallback, round robin; [json.loads] inverts [_safe_json] on the values
      JSON has ([safe_json_roundtrip]).

    ** Fuel and bounds

    [kahn] runs with one unit per task, [Regex] repeats a star at most once per character,
    [json_loads] takes [2 * length + 2] units (each nesting level and each element consumes a
    character), transport retries are structurally 3 attempts with two waits (200 and 400 ms)
    and status retries 4 with three (1 to 60 s each), and
    [run_graph] is total for [7 * L + 3] units by [lula_terminates]; the run command gives it
    LangGraph's recursion limit, which is enough from that number on ([configured_run_ends]).  The theorems on these
    functions state totality or exactness, not only partial correctness.

    ** Not modelled

    - Texts outside U+0000 to U+00FF, Python's integer-digit and recursion limits, NaN in
      sorting keys; an [Unmodelled] error marks the few values outside the universe.  A source
      text with an em dash takes it as a parameter.
    - The branches for pydantic states ([isinstance(state, BaseModel)]): the graph passes
      dictionaries.  The best-effort validation of the router, which only logs.
    - Logging, metrics, tracing spans, locks (each method is one critical section).
    - Readings of the environment: [tomllib] and pydantic-settings (the parsed file and the
      overlays are given), the socket, the subprocess, the expiry of Redis keys, the matching
      of full-text queries and the migration of databases written by older versions.
    - The FastAPI dependencies (the server does not use FastAPI), the background refresh of
      the JWKS cache.
    - Schema creation and closing of the stores and savers, argparse and the dispatch to the
      commands, the Rust runner and the editor extension: I/O around the core. *)
From Stdlib Require Import ZArith Lia String Ascii List Bool Sorted.
From stdpp Require Import base tactics list strings option.

Declare Scope py_scope.
Delimit Scope py_scope with py.

(** ** Exceptions and the result monad

    A Python function that may raise returns [res A]: [Ok] is a normal return,
    [Err] the exception that leaves the function.  [ValidationError] is
    pydantic's exception (a subclass of [ValueError]), [BackendError] is
    [CheckpointBackendError] (a subclass of [RuntimeError]); [Unmodelled] marks the few
    inputs whose Python result is outside the value universe of [PyVal]. *)
Inductive pyexc : Type :=
| ValueError (msg : string)
| TypeError (msg : string)
| AttributeError (msg : string)
| KeyError (msg : string)
| IndexError (msg : string)
| OverflowError (msg : string)
| RuntimeError (msg : string)
| ZeroDivisionError (msg : string)
| ValidationError (msg : string)
| OSError (msg : string)
| ConfigError (msg : string)
| DatabaseError (msg : string)
| BackendError (msg : string)
| Unmodelled (msg : string).

Inductive res (A : Type) : Type :=
| Ok (a : A)
| Err (e : pyexc).
Arguments Ok {A} _.
Arguments Err {A} _.

(** [str(exc)]: the message ([KeyError] shows the repr of its key, which is
    what its [msg] holds). *)
Definition exc_str (e : pyexc) : string :=
  match e with
  | ValueError m | TypeError m | AttributeError m | KeyError m | IndexError m
  | OverflowError m | RuntimeError m | ZeroDivisionError m | ValidationError m
  | OSError m | ConfigError m | DatabaseError m | BackendError m | Unmodelled m => m
  end.

(** [except (TypeError, ValueError)]: [ValidationError] and [ConfigError] derive from
    [ValueError]. *)
Definition is_type_or_value_error (e : pyexc) : bool :=
  match e with ValueError _ | TypeError _ | ValidationError _ | ConfigError _ => true | _ => false end.

Definition is_value_error (e : pyexc) : bool :=
  match e with ValueError _ | ValidationError _ | ConfigError _ => true | _ => false end.

Definition bind_res {A B : Type} (r : res A) (f : A -> res B) : res B :=
  match r with Ok a => f a | Err e => Err e end.

Notation "'let!' x ':=' r 'in' k" := (bind_res r (fun x => k))
  (at level 10, x pattern, r at level 200, k at level 200) : py_scope.
Open Scope py_scope.

(** [try: r  except E: d] where [catches] is the handler's exception filter. *)
Definition try_except {A : Type} (r : res A) (catches : pyexc -> bool) (handler : pyexc -> res A) : res A :=
  match r with
  | Ok a => Ok a
  | Err e => if catches e then handler e else Err e
  end.

Definition is_ok {A : Type} (r : res A) : bool := match r with Ok _ => true | Err _ => false end.

Fixpoint map_res {A B : Type} (f : A -> res B) (l : list A) : res (list B) :=
  match l with
  | [] => Ok []
  | x :: r => let! y := f x in let! ys := map_res f r in Ok (y :: ys)
  end.

(** A loop whose body may raise: [for x in l: acc = body(acc, x)]. *)
Fixpoint fold_res {A B : Type} (f : B -> A -> res B) (acc : B) (l : list A) : res B :=
  match l with
  | [] => Ok acc
  | x :: r => let! acc' := f acc x in fold_res f acc' r
  end.

(** ** Tactics *)

(** Break every monadic bind of a hypothesis [_ = Ok _]. *)
Ltac inv_bind H :=
  match type of H with
  | bind_res ?r _ = Ok _ =>
      let E := fresh "Hb" in
      destruct r eqn:E; simpl in H; [inv_bind H | discriminate H]
  | _ => idtac
  end.

(** Case on the scrutinee of the innermost conditional of the goal. *)
Ltac case_if :=
  match goal with
  | |- context [if ?b then _ else _] =>
      lazymatch b with
      | context [if _ then _ else _] => fail
      | _ => let E := fresh "E" in destruct b eqn:E
      end
  end.

Ltac bool_prop :=
  repeat match goal with
  | H : (_ && _)%bool = true |- _ => apply andb_prop in H as [? ?]
  | H : (_ || _)%bool = false |- _ => apply orb_false_elim in H as [? ?]
  | H : negb _ = true |- _ => apply negb_true_iff in H
  | H : negb _ = false |- _ => apply negb_false_iff in H
  | H : (_ <? _)%Z = true |- _ => apply Z.ltb_lt in H
  | H : (_ <? _)%Z = false |- _ => apply Z.ltb_ge in H
  | H : (_ <=? _)%Z = true |- _ => apply Z.leb_le in H
  | H : (_ <=? _)%Z = false |- _ => apply Z.leb_gt in H
  | H : (_ =? _)%Z = true |- _ => apply Z.eqb_eq in H
  | H : (_ =? _)%Z = false |- _ => apply Z.eqb_neq in H
  | H : (_ =? _)%string = true |- _ => apply String.eqb_eq in H
  | H : (_ =? _)%string = false |- _ => apply String.eqb_neq in H
  end.

(** ** Generic lemmas *)

Lemma bind_Ok {A B : Type} (r : res A) (f : A -> res B) (b : B) :
  bind_res r f = Ok b <-> exists a, r = Ok a /\ f a = Ok b.
Proof.
  destruct r as [a|e]; simpl; split.
  - intros H. by exists a.
  - intros (a' & [= ->] & H). exact H.
  - discriminate.
  - intros (a' & H & _). discriminate.
Qed.

Lemma map_res_length {A B : Type} (f : A -> res B) l l' :
  map_res f l = Ok l' -> length l' = length l.
Proof.
  revert l'; induction l as [|x l IH]; intros l' H; simpl in *.
  - by injection H as <-.
  - inv_bind H. injection H as <-. simpl. by rewrite (IH _ eq_refl).
Qed.

Lemma map_res_total {A B : Type} (f : A -> res B) (g : A -> B) l :
  (forall x, f x = Ok (g x)) -> map_res f l = Ok (List.map g l).
Proof. intros Hf. induction l as [|x l IH]; simpl; [done|]. by rewrite Hf, IH. Qed.

Lemma map_res_In {A B : Type} (f : A -> res B) l out y : map_res f l = Ok out -> In y out -> exists x, In x l /\ f x = Ok y.
Proof.
  revert out. induction l as [|x l IH]; intros out; cbn [map_res]; [by intros [= <-]|].
  intros (z & Hz & (zs & Hzs & [= <-])%bind_Ok)%bind_Ok [<-|Hin]; [exists x; by split; [left|]|].
  destruct (IH zs Hzs Hin) as (x' & ? & ?). exists x'. by split; [right|].
Qed.

(** Invariant rule for monadic loops. *)
Lemma fold_res_inv {A B : Type} (I : B -> Prop) (f : B -> A -> res B) l acc acc' :
  I acc ->
  (forall b x b', I b -> In x l -> f b x = Ok b' -> I b') ->
  fold_res f acc l = Ok acc' -> I acc'.
Proof.
  revert acc; induction l as [|x l IH]; intros acc Hacc Hf H; simpl in *.
  - by injection H as <-.
  - inv_bind H. eapply IH; [|by intros; eapply Hf; eauto|exact H].
    eapply Hf; eauto.
Qed.

Lemma fold_res_total {A B : Type} (f : B -> A -> res B) (g : B -> A -> B) l acc :
  (forall b x, In x l -> f b x = Ok (g b x)) -> fold_res f acc l = Ok (fold_left g l acc).
Proof.
  revert acc; induction l as [|x l IH]; intros acc Hf; simpl; [done|].
  rewrite Hf by (by left). simpl. apply IH. intros b y Hy. apply Hf. by right.
Qed.

(** *** Python slices of lists *)

(** [l[-n:]] for [n >= 1]: the last [n] elements. *)
Definition last_n {A : Type} (n : nat) (l : list A) : list A := drop (length l - n) l.

Lemma last_n_length {A : Type} n (l : list A) : length (last_n n l) = Nat.min n (length l).
Proof. unfold last_n. rewrite length_drop. lia. Qed.

Lemma last_n_all {A : Type} n (l : list A) : (length l <= n)%nat -> last_n n l = l.
Proof. intros H. unfold last_n. replace (length l - n)%nat with 0%nat by lia. apply drop_0. Qed.

Lemma last_n_suffix {A : Type} n (l : list A) : last_n n l `suffix_of` l.
Proof. unfold last_n. exists (take (length l - n) l). by rewrite take_drop. Qed.

Lemma last_n_snoc {A : Type} n (l : list A) x :
  (1 <= n)%nat -> exists l', last_n n (l ++ [x]) = l' ++ [x].
Proof.
  intros Hn. unfold last_n. rewrite length_app; simpl.
  rewrite drop_app_le by lia. by eexists.
Qed.

Lemma filter_all {A : Type} (f : A -> bool) l : List.Forall (fun x => f x = true) l -> List.filter f l = l.
Proof. induction 1 as [|x l Hx _ IH]; simpl; [done|]. by rewrite Hx, IH. Qed.

(** *** Stable insertion sort by a boolean order: Python's [sorted] and
    [list.sort], which are stable.  [reverse=True] keeps the original order of
    equal keys: it sorts by the reversed strict order. *)
Section Sort.
Context {A : Type} (lt : A -> A -> bool).

(** Insert [x] before the first element that is strictly greater. *)
Fixpoint insert_sorted (x : A) (l : list A) : list A :=
  match l with
  | [] => [x]
  | y :: r => if lt x y then x :: y :: r else y :: insert_sorted x r
  end.

Definition py_sorted (l : list A) : list A := fold_left (fun acc x => insert_sorted x acc) l [].

Lemma insert_sorted_Permutation x l : Permutation (insert_sorted x l) (x :: l).
Proof.
  induction l as [|y l IH]; simpl; [done|].
  destruct (lt x y); [done|].
  rewrite IH. constructor.
Qed.

Lemma py_sorted_Permutation l : Permutation (py_sorted l) l.
Proof.
  unfold py_sorted.
  enough (H : forall acc, Permutation (fold_left (fun acc x => insert_sorted x acc) l acc) (acc ++ l)).
  { apply H. }
  induction l as [|x l IH]; intros acc; simpl; [by rewrite app_nil_r|].
  rewrite IH, insert_sorted_Permutation. simpl.
  apply Permutation_middle.
Qed.

Lemma py_sorted_length l : length (py_sorted l) = length l.
Proof. apply Permutation_length, py_sorted_Permutation. Qed.

Lemma py_sorted_In l x : In x (py_sorted l) <-> In x l.
Proof. split; apply Permutation_in; [|symmetry]; apply py_sorted_Permutation. Qed.

(** The sorted result is ordered: no element is strictly above a later one. *)
Context (lt_asym : forall x y, lt x y = true -> lt y x = false).
Context (nlt_trans : forall x y z, lt y x = false -> lt z y = false -> lt z x = false).

Definition ordered (l : list A) : Prop := StronglySorted (fun x y => lt y x = false) l.

Lemma insert_sorted_ordered x l : ordered l -> ordered (insert_sorted x l).
Proof.
  induction l as [|y l IH]; intros H; simpl.
  - repeat constructor.
  - apply StronglySorted_inv in H as [Hl Hy].
    destruct (lt x y) eqn:E.
    + constructor; [by constructor|]. constructor; [by apply lt_asym|].
      eapply List.Forall_impl; [|exact Hy]. intros z Hz. simpl in Hz.
      eapply nlt_trans; [apply lt_asym; exact E|exact Hz].
    + constructor; [by apply IH|].
      apply List.Forall_forall. intros z Hz.
      apply (Permutation_in _ (insert_sorted_Permutation x l)) in Hz as [<-|Hz]; [done|].
      rewrite List.Forall_forall in Hy. by apply Hy.
Qed.

Lemma py_sorted_ordered l : ordered (py_sorted l).
Proof.
  unfold py_sorted.
  enough (H : forall acc, ordered acc -> ordered (fold_left (fun acc x => insert_sorted x acc) l acc)).
  { apply H. constructor. }
  induction l as [|x l IH]; intros acc Hacc; simpl; [done|].
  by apply IH, insert_sorted_ordered.
Qed.
End Sort.

(** *** Strict total orders, and the lexicographic one of Python's tuples *)

Class StrictTotal {A : Type} (lt : A -> A -> bool) : Prop := {
  st_irrefl : forall x, lt x x = false;
  st_trans : forall x y z, lt x y = true -> lt y z = true -> lt x z = true;
  st_total : forall x y, lt x y = false -> lt y x = false -> x = y }.

Section StrictTotal.
Context {A : Type} (lt : A -> A -> bool) `{!StrictTotal lt}.

Lemma st_asym x y : lt x y = true -> lt y x = false.
Proof.
  intros H. destruct (lt y x) eqn:E; [|done]. by rewrite <- (st_irrefl x), (st_trans _ _ _ H E).
Qed.

Lemma st_ntrans x y z : lt y x = false -> lt z y = false -> lt z x = false.
Proof.
  intros H1 H2. destruct (lt z x) eqn:E; [|done]. destruct (lt y z) eqn:E1.
  - by rewrite <- H1, (st_trans _ _ _ E1 E).
  - by rewrite <- H1, <- (st_total _ _ H2 E1).
Qed.

(** Descending order. *)
#[export] Instance st_flip : StrictTotal (fun x y => lt y x).
Proof.
  split; [apply st_irrefl| |].
  - intros x y z H1 H2. exact (st_trans _ _ _ H2 H1).
  - intros x y H1 H2. by apply st_total.
Qed.
End StrictTotal.

#[export] Instance Z_ltb_total : StrictTotal Z.ltb.
Proof.
  split; intros *; [apply Z.ltb_irrefl|rewrite !Z.ltb_lt; lia|rewrite !Z.ltb_ge; lia].
Qed.

Definition lex {A B : Type} (lt : A -> A -> bool) (eq : A -> A -> bool) (lt' : B -> B -> bool) (x y : A * B) : bool :=
  lt (fst x) (fst y) || (eq (fst x) (fst y) && lt' (snd x) (snd y)).

Lemma lex_total {A B : Type} (lt : A -> A -> bool) eq (lt' : B -> B -> bool) :
  (forall x y, eq x y = true <-> x = y) -> StrictTotal lt -> StrictTotal lt' -> StrictTotal (lex lt eq lt').
Proof.
  intros He H H'. unfold lex. split.
  - intros [a b]. cbn. rewrite (st_irrefl (lt := lt)), (st_irrefl (lt := lt')). by rewrite andb_false_r.
  - intros [a b] [a' b'] [a2 b2]. cbn. rewrite !orb_true_iff, !andb_true_iff, !He.
    intros [H1|[-> H1]] [H2|[-> H2]]; [left; by eapply st_trans|by left|by left|right; split; [done|by eapply st_trans]].
  - intros [a b] [a' b']. cbn. rewrite !orb_false_iff. intros [H1 H2] [H3 H4].
    assert (a = a') as -> by by apply (st_total (lt := lt)).
    assert (E : eq a' a' = true) by by apply He. rewrite E in *. cbn in *.
    by rewrite (st_total (lt := lt') _ _ H2 H4).
Qed.

(** Sorting depends on the order of the list's elements only. *)
Lemma py_sorted_ext {A : Type} (lt lt' : A -> A -> bool) l :
  (forall x y, In x l -> In y l -> lt x y = lt' x y) -> py_sorted lt l = py_sorted lt' l.
Proof.
  intros H. unfold py_sorted.
  assert (Hins : forall x acc, (forall y, In y acc -> lt x y = lt' x y) ->
            insert_sorted lt x acc = insert_sorted lt' x acc).
  { intros x acc. induction acc as [|y acc IH]; intros Hx; simpl; [done|].
    rewrite (Hx y) by (by left). destruct (lt' x y); [done|]. rewrite IH; [done|].
    intros z Hz. apply Hx. by right. }
  enough (Hf : forall m acc, incl m l -> incl acc l ->
    fold_left (fun acc x => insert_sorted lt x acc) m acc = fold_left (fun acc x => insert_sorted lt' x acc) m acc)
    by (apply Hf; [apply incl_refl|apply incl_nil_l]).
  induction m as [|x m IH]; intros acc Hm Ha; simpl; [done|].
  assert (Hx : In x l) by (apply Hm; by left).
  rewrite Hins by (intros y Hy; apply H; auto).
  apply IH; [intros y Hy; apply Hm; by right|].
  intros y Hy. apply (Permutation_in _ (insert_sorted_Permutation lt' x acc)) in Hy as [<-|Hy]; auto.
Qed.

(** In an ordered list the element at position [i] satisfies an upward-closed
    predicate iff at least [length l - i] elements do. *)
Lemma ordered_nth_exceeds {A : Type} (lt : A -> A -> bool) (exceeds : A -> bool) l i x :
  (forall a b, In a l -> In b l -> exceeds a = true -> lt b a = false -> exceeds b = true) ->
  StronglySorted (fun x y => lt y x = false) l -> nth_error l i = Some x ->
  exceeds x = true <-> (length l - i <= length (List.filter exceeds l))%nat.
Proof.
  intros Hmono Hord Hx. revert i Hx Hmono. induction Hord as [|a l Hl IH Ha]; intros [|i] Hx Hmono; try done.
  - simpl in Hx. injection Hx as <-. simpl. destruct (exceeds a) eqn:E; simpl.
    + split; [|done]. intros _. rewrite filter_all; [lia|]. rewrite List.Forall_forall in *.
      intros b Hb. apply (Hmono a b); [by left|by right|done|by apply Ha].
    + split; [done|]. intros H. pose proof (List.filter_length_le exceeds l). lia.
  - simpl in Hx. rewrite (IH i Hx) by (intros b c Hb Hc; apply Hmono; by right).
    simpl. destruct (exceeds a) eqn:E; simpl; [|done].
    assert (Hall : length (List.filter exceeds l) = length l); [|rewrite Hall; lia].
    rewrite filter_all; [done|]. rewrite List.Forall_forall in *.
    intros b Hb. apply (Hmono a b); [by left|by right|done|by apply Ha].
Qed.

(** The first [n] of an ordered list: ordered, and none is after a later one. *)
Lemma ordered_app {A : Type} (lt : A -> A -> bool) l m :
  ordered lt (l ++ m) -> ordered lt l /\ forall x y, In x l -> In y m -> lt y x = false.
Proof.
  unfold ordered. induction l as [|a l IH]; intros H; simpl.
  - split; [constructor|done].
  - simpl in H. apply StronglySorted_inv in H as [H Ha]. rewrite List.Forall_forall in Ha.
    destruct (IH H) as [Hl Hx]. split.
    + constructor; [done|]. apply List.Forall_forall. intros y Hy. apply Ha, in_app_iff. by left.
    + intros x y [<-|Hin] Hy; [apply Ha, in_app_iff; by right|by apply Hx].
Qed.

Lemma filter_perm {A : Type} (f : A -> bool) l l' :
  Permutation l l' -> Permutation (List.filter f l) (List.filter f l').
Proof.
  induction 1 as [|x l l' _ IH|x y l|l l' l'' _ IH1 _ IH2]; simpl; [done| | |by rewrite IH1].
  - destruct (f x); [by constructor|done].
  - destruct (f x), (f y); try done. apply perm_swap.
Qed.

(** ** [List.find] on filtered and extended lists *)

Lemma find_filter {A} (f g : A -> bool) l : (forall x, f x = true -> g x = true) -> List.find f (List.filter g l) = List.find f l.
Proof.
  intros H. induction l as [|x l IH]; [done|]. cbn. destruct (g x) eqn:Eg; cbn; destruct (f x) eqn:Ef; try done.
  by rewrite (H x Ef) in Eg.
Qed.

Lemma find_filter_none {A} (f g : A -> bool) l : (forall x, f x = true -> g x = false) -> List.find f (List.filter g l) = None.
Proof.
  intros H. induction l as [|x l IH]; [done|]. cbn. destruct (g x) eqn:Eg; cbn; [|done]. destruct (f x) eqn:Ef; [|done].
  by rewrite (H x Ef) in Eg.
Qed.

Lemma find_app {A} (f : A -> bool) l m : List.find f (l ++ m) = match List.find f l with Some x => Some x | None => List.find f m end.
Proof. induction l as [|x l IH]; [done|]. cbn. by destruct (f x). Qed.

Lemma find_snoc {A} (f : A -> bool) l x : List.find f (l ++ [x])%list = match List.find f l with Some y => Some y | None => if f x then Some x else None end.
Proof. induction l as [|y l IH]; cbn; [done|]. destruct (f y); [done|exact IH]. Qed.

(** ** Results of a list, and prefixes of a sorted one *)

Lemma map_res_exists {A B : Type} (f : A -> res B) l :
  (forall x, In x l -> exists y, f x = Ok y) -> exists out, map_res f l = Ok out.
Proof.
  induction l as [|x l IH]; intros H; [by eexists|]. cbn [map_res]. destruct (H x (or_introl eq_refl)) as [y ->]. cbn [bind_res].
  destruct IH as [out ->]; [intros z Hz; apply H; by right|]. by eexists.
Qed.

Lemma firstn_In {A : Type} n (l : list A) x : In x (firstn n l) -> In x l.
Proof. rewrite <- (firstn_skipn n l) at 2. rewrite in_app_iff. tauto. Qed.

Lemma py_sorted_snoc {A} (lt : A -> A -> bool) l x : py_sorted lt (l ++ [x]) = insert_sorted lt x (py_sorted lt l).
Proof. unfold py_sorted. by rewrite fold_left_app. Qed.

Lemma insert_first {A} (lt : A -> A -> bool) x l : (forall y, In y l -> lt x y = true) -> insert_sorted lt x l = x :: l.
Proof. destruct l as [|y l]; [done|]. intros Hl. cbn. by rewrite (Hl y (or_introl eq_refl)). Qed.

(** The first [n] of a sorted list are ordered, and above what is left. *)
Lemma sorted_split {A : Type} (lt : A -> A -> bool) n l :
  (forall x y, lt x y = true -> lt y x = false) ->
  (forall x y z, lt y x = false -> lt z y = false -> lt z x = false) ->
  let kept := firstn n (py_sorted lt l) in
  let dropped := skipn n (py_sorted lt l) in
  Permutation (kept ++ dropped) l /\ length kept = Nat.min n (length l) /\
  ordered lt kept /\ forall x y, In x kept -> In y dropped -> lt y x = false.
Proof.
  intros Ha Ht kept dropped. pose proof (py_sorted_ordered lt Ha Ht l) as Ho.
  split; [unfold kept, dropped; rewrite firstn_skipn; apply py_sorted_Permutation|].
  split; [by unfold kept; rewrite length_firstn, py_sorted_length|].
  rewrite <- (firstn_skipn n (py_sorted lt l)) in Ho. by apply ordered_app in Ho.
Qed.
