(* ===== verification/PyStr.v ===== *)
(** * Python strings

    A [str] is the sequence of its code points.  The model keeps the code points
    U+0000..U+00FF, one [ascii] each, so [string] of the standard library is the
    type; every operation below is the CPython operation on such strings
    (white space, line boundaries, case and printability are the Unicode ones
    of that range). *)
From Stdlib Require Import ZArith Lia String Ascii List Bool.
From stdpp Require Import base tactics list strings option.
From S2P Require Import Prelude.
Local Open Scope string_scope.
Local Open Scope Z_scope.

Definition chr (n : Z) : ascii := ascii_of_N (Z.to_N n).
Definition ord (c : ascii) : Z := Z.of_N (N_of_ascii c).

(** The newline, and the other control characters, as one-character strings. *)
Definition nl : string := String "010"%char EmptyString.
Definition dq : string := String "034"%char EmptyString.
Definition sq : string := "'".
Definition bslash : string := "\".

Definition py_len (s : string) : Z := Z.of_nat (String.length s).

(** ** Character classes *)

(** [str.isspace] on one code point. *)
Definition is_space (c : ascii) : bool :=
  let n := ord c in
  ((9 <=? n) && (n <=? 13)) || ((28 <=? n) && (n <=? 32)) || (n =? 133) || (n =? 160).

Definition is_digit (c : ascii) : bool := (48 <=? ord c) && (ord c <=? 57).

(** A line boundary of [str.splitlines] ([\r\n] is one boundary, see below). *)
Definition is_linebreak (c : ascii) : bool :=
  let n := ord c in
  ((10 <=? n) && (n <=? 13)) || ((28 <=? n) && (n <=? 30)) || (n =? 133).

Definition lower_char (c : ascii) : ascii :=
  let n := ord c in
  if ((65 <=? n) && (n <=? 90)) || (((192 <=? n) && (n <=? 222)) && negb (n =? 215))
  then chr (n + 32) else c.

(** ** Elementary operations *)

Fixpoint str_map (f : ascii -> ascii) (s : string) : string :=
  match s with
  | EmptyString => EmptyString
  | String c r => String (f c) (str_map f r)
  end.

Definition lower (s : string) : string := str_map lower_char s.

Fixpoint lstrip_by (p : ascii -> bool) (s : string) : string :=
  match s with
  | EmptyString => EmptyString
  | String c r => if p c then lstrip_by p r else s
  end.

Fixpoint rstrip_by (p : ascii -> bool) (s : string) : string :=
  match s with
  | EmptyString => EmptyString
  | String c r =>
      match rstrip_by p r with
      | EmptyString => if p c then EmptyString else String c EmptyString
      | r' => String c r'
      end
  end.

Definition lstrip (s : string) : string := lstrip_by is_space s.
Definition rstrip (s : string) : string := rstrip_by is_space s.
Definition strip (s : string) : string := lstrip (rstrip s).

(** [s.startswith(p)], [s.endswith(p)]. *)
Fixpoint startswith (s p : string) : bool :=
  match p, s with
  | EmptyString, _ => true
  | String _ _, EmptyString => false
  | String a p', String b s' => (Ascii.eqb a b && startswith s' p')%bool
  end.

Fixpoint endswith (s p : string) : bool :=
  (String.eqb s p || match s with EmptyString => false | String _ r => endswith r p end)%bool.

(** [p in s]. *)
Fixpoint contains (p s : string) : bool :=
  (startswith s p || match s with EmptyString => false | String _ r => contains p r end)%bool.

(** [s[:n]] and [s[n:]] for [n >= 0]; [s[-n:]] for [n >= 1]. *)
Fixpoint str_take (n : nat) (s : string) : string :=
  match n, s with
  | S n', String c r => String c (str_take n' r)
  | _, _ => EmptyString
  end.

Fixpoint str_drop (n : nat) (s : string) : string :=
  match n, s with
  | S n', String _ r => str_drop n' r
  | _, _ => s
  end.

(** [s[:n]] for any integer [n] (a negative bound counts from the end). *)
Definition str_prefix (s : string) (n : Z) : string :=
  if 0 <=? n then str_take (Z.to_nat n) s
  else str_take (Z.to_nat (py_len s + n)) s.

(** [s[-n:]] for [n >= 1]. *)
Definition str_suffix (s : string) (n : nat) : string := str_drop (String.length s - n) s.

(** [sep.join(parts)]. *)
Fixpoint join (sep : string) (parts : list string) : string :=
  match parts with
  | [] => EmptyString
  | [x] => x
  | x :: r => x ++ sep ++ join sep r
  end.

(** [s.split(c)] on a one-character separator. *)
Fixpoint split_char (c : ascii) (s : string) : list string :=
  match s with
  | EmptyString => [EmptyString]
  | String a r =>
      if Ascii.eqb a c then EmptyString :: split_char c r
      else match split_char c r with
           | [] => [String a EmptyString]
           | w :: ws => String a w :: ws
           end
  end.

(** [s.split()]: the maximal runs of non-space characters. *)
Fixpoint split_ws (s : string) : list string :=
  match s with
  | EmptyString => []
  | String a r =>
      if is_space a then split_ws r
      else match r with
           | EmptyString => [String a EmptyString]
           | String b _ =>
               if is_space b then String a EmptyString :: split_ws r
               else match split_ws r with
                    | [] => [String a EmptyString]
                    | w :: ws => String a w :: ws
                    end
           end
  end.

(** [s.replace(a, b)] on one-character strings. *)
Definition replace_char (a b : ascii) (s : string) : string :=
  str_map (fun c => if Ascii.eqb c a then b else c) s.

(** [s.splitlines()]. *)
Fixpoint splitlines (s : string) : list string :=
  match s with
  | EmptyString => []
  | String c r =>
      if is_linebreak c then
        match r with
        | String d r' =>
            if (Ascii.eqb c "013"%char && Ascii.eqb d "010"%char)%bool
            then EmptyString :: splitlines r'
            else EmptyString :: splitlines r
        | EmptyString => [EmptyString]
        end
      else match r with
           | EmptyString => [String c EmptyString]
           | String d _ =>
               if is_linebreak d then
                 match splitlines r with
                 | _ :: ls => String c EmptyString :: ls
                 | [] => [String c EmptyString]
                 end
               else match splitlines r with
                    | l :: ls => String c l :: ls
                    | [] => [String c EmptyString]
                    end
           end
  end.

(** ** Integers and strings *)

Fixpoint digits_of_uint (u : Decimal.uint) : string :=
  match u with
  | Decimal.Nil => ""
  | Decimal.D0 u => "0" ++ digits_of_uint u
  | Decimal.D1 u => "1" ++ digits_of_uint u
  | Decimal.D2 u => "2" ++ digits_of_uint u
  | Decimal.D3 u => "3" ++ digits_of_uint u
  | Decimal.D4 u => "4" ++ digits_of_uint u
  | Decimal.D5 u => "5" ++ digits_of_uint u
  | Decimal.D6 u => "6" ++ digits_of_uint u
  | Decimal.D7 u => "7" ++ digits_of_uint u
  | Decimal.D8 u => "8" ++ digits_of_uint u
  | Decimal.D9 u => "9" ++ digits_of_uint u
  end.

(** [str(z)]. *)
Definition str_of_Z (z : Z) : string :=
  match z with
  | Z0 => "0"
  | Zpos p => digits_of_uint (Pos.to_uint p)
  | Zneg p => "-" ++ digits_of_uint (Pos.to_uint p)
  end.

(** The digits of an integer literal: one [_] is allowed between two digits.
    [prev] says whether the previous character was a digit. *)
Fixpoint parse_digits (acc : Z) (prev : bool) (s : string) : option Z :=
  match s with
  | EmptyString => if prev then Some acc else None
  | String c r =>
      if is_digit c then parse_digits (10 * acc + (ord c - 48)) true r
      else if (Ascii.eqb c "_" && prev)%bool then parse_digits acc false r
      else None
  end.

Fixpoint count_digits (s : string) : Z :=
  match s with
  | EmptyString => 0
  | String c r => (if is_digit c then 1 else 0) + count_digits r
  end.

(** [int(s)] in base 10 on the stripped text; [None] is the [ValueError]
    (malformed literal, or more than 4300 digits). *)
Definition parse_int (s : string) : option Z :=
  let t := strip s in
  if 4300 <? count_digits t then None
  else match t with
       | String "-" r => option_map Z.opp (parse_digits 0 false r)
       | String "+" r => parse_digits 0 false r
       | _ => parse_digits 0 false t
       end.

(** ** [repr] of a string *)

Definition hex_digit (n : Z) : ascii := if n <? 10 then chr (48 + n) else chr (87 + n).

Definition is_printable (c : ascii) : bool :=
  let n := ord c in
  ((32 <=? n) && (n <=? 126)) || ((161 <=? n) && negb (n =? 173)).

Definition repr_char (q : ascii) (c : ascii) : string :=
  if Ascii.eqb c q || Ascii.eqb c "\" then String "\" (String c EmptyString)
  else if ord c =? 9 then "\t"
  else if ord c =? 10 then "\n"
  else if ord c =? 13 then "\r"
  else if is_printable c then String c EmptyString
  else "\x" ++ String (hex_digit (ord c / 16)) (String (hex_digit (ord c mod 16)) EmptyString).

Fixpoint concat_map_str (f : ascii -> string) (s : string) : string :=
  match s with
  | EmptyString => EmptyString
  | String c r => f c ++ concat_map_str f r
  end.

Definition repr_str (s : string) : string :=
  let q := if (contains sq s && negb (contains dq s))%bool then "034"%char else "'"%char in
  String q (concat_map_str (repr_char q) s ++ String q EmptyString).

(** ** UTF-8 *)

(** [s.encode("utf-8")]: one byte below U+0080, two above. *)
Fixpoint utf8_encode (s : string) : list Z :=
  match s with
  | EmptyString => []
  | String c r =>
      let n := ord c in
      if n <? 128 then n :: utf8_encode r
      else (192 + n / 64) :: (128 + n mod 64) :: utf8_encode r
  end.

(** ** Ordering: Python compares strings by code point. *)
Definition str_lt (a b : string) : bool := String.ltb a b.

(** [s in l] for a list or a set of texts. *)
Definition str_in (s : string) (l : list string) : bool := existsb (String.eqb s) l.
