(* ===== verification/StrFacts.v ===== *)
(** * Lemmas on Python strings

    Lengths of the elementary operations, stripping, splitting and joining. *)
From Stdlib Require Import ZArith Lia String Ascii List Bool.
From stdpp Require Import base tactics list strings option.
From S2P Require Import Prelude PyStr.
Local Open Scope string_scope.
Local Open Scope Z_scope.

Lemma str_app_assoc (a b c : string) : (a ++ b) ++ c = a ++ (b ++ c).
Proof. induction a as [|x a IH]; [done|]. apply (f_equal (String x) IH). Qed.

Lemma str_app_nil s : s ++ "" = s.
Proof. induction s as [|c s IH]; [done|exact (f_equal (String c) IH)]. Qed.

Fixpoint all_chars (p : ascii -> bool) (s : string) : bool :=
  match s with EmptyString => true | String c r => p c && all_chars p r end.

Lemma all_chars_impl (p q : ascii -> bool) s :
  (forall c, p c = true -> q c = true) -> all_chars p s = true -> all_chars q s = true.
Proof.
  intros H. induction s as [|c s IH]; simpl; [done|]. intros E. bool_prop.
  apply andb_true_intro. auto.
Qed.

Lemma all_chars_app p s t : all_chars p (s ++ t) = (all_chars p s && all_chars p t)%bool.
Proof. induction s as [|c s IH]; simpl; [done|]. by rewrite IH, andb_assoc. Qed.

(** [c not in s]. *)
Definition lacks (c : ascii) (s : string) : bool := all_chars (fun a => negb (Ascii.eqb a c)) s.

Lemma split_char_lacks c s : lacks c s = true -> split_char c s = [s].
Proof.
  induction s as [|a s IH]; simpl; [done|]. intros H. unfold lacks in H; simpl in H. bool_prop.
  rewrite H. by rewrite IH.
Qed.

Lemma split_char_app c s r : lacks c s = true -> split_char c (s ++ String c r) = s :: split_char c r.
Proof.
  induction s as [|a s IH]; simpl; intros H.
  - by rewrite Ascii.eqb_refl.
  - unfold lacks in H; simpl in H. bool_prop. rewrite H. by rewrite IH.
Qed.

Lemma split_char_not_nil c s : split_char c s <> [].
Proof. destruct s; simpl; [done|]. destruct (Ascii.eqb a c); [done|]. by destruct (split_char c s). Qed.

(** A separator inside adds exactly one part. *)
Lemma split_char_length_app c s r :
  length (split_char c (s ++ String c r)) = (length (split_char c s) + length (split_char c r))%nat.
Proof.
  induction s as [|a s IH]; simpl; [by rewrite Ascii.eqb_refl|].
  destruct (Ascii.eqb a c); simpl; [by rewrite IH|].
  pose proof (split_char_not_nil c s). pose proof (split_char_not_nil c (s ++ String c r)).
  destruct (split_char c s), (split_char c (s ++ String c r)); simpl in *; done || lia.
Qed.

Lemma split_char_lacks_iff c s : length (split_char c s) = 1%nat <-> lacks c s = true.
Proof.
  split; [|by intros H; rewrite split_char_lacks].
  induction s as [|a s IH]; simpl; [done|]. unfold lacks; simpl. destruct (Ascii.eqb a c); simpl.
  - pose proof (split_char_not_nil c s). destruct (split_char c s); simpl; done || lia.
  - pose proof (split_char_not_nil c s). destruct (split_char c s); simpl in *; auto; done.
Qed.

Lemma rstrip_by_app p s t : rstrip_by p t <> "" -> rstrip_by p (s ++ t) = s ++ rstrip_by p t.
Proof.
  intros H. induction s as [|c s IH]; simpl; [done|]. rewrite IH.
  destruct s as [|d s]; simpl; [by destruct (rstrip_by p t)|done].
Qed.

Lemma rstrip_by_none p s : all_chars (fun c => negb (p c)) s = true -> rstrip_by p s = s.
Proof.
  induction s as [|c s IH]; simpl; [done|]. intros H. bool_prop. rewrite IH by done.
  destruct s; [by rewrite H|done].
Qed.

Lemma rstrip_by_length p s : (String.length (rstrip_by p s) <= String.length s)%nat.
Proof.
  induction s as [|c s IH]; simpl; [done|].
  destruct (rstrip_by p s) eqn:E; [destruct (p c); simpl; lia|]. simpl in *. lia.
Qed.

Lemma lstrip_by_length p s : (String.length (lstrip_by p s) <= String.length s)%nat.
Proof. induction s as [|c s IH]; simpl; [done|]. destruct (p c); simpl; lia. Qed.

(** A stripped, non-empty string starts with a non-space character. *)
Lemma strip_fixed_head s : strip s = s -> s <> "" -> exists c r, s = String c r /\ is_space c = false.
Proof.
  destruct s as [|c r]; [done|]. intros H _. exists c, r. split; [done|].
  destruct (is_space c) eqn:E; [|done]. exfalso.
  assert (L : (String.length (strip (String c r)) <= String.length r)%nat).
  { unfold strip, lstrip, rstrip. simpl.
    pose proof (rstrip_by_length is_space r) as L.
    destruct (rstrip_by is_space r) as [|d t]; [rewrite E; simpl; lia|].
    change (String.length (if is_space c then lstrip_by is_space (String d t) else String c (String d t))
            <= String.length r)%nat.
    rewrite E. by etransitivity; [apply lstrip_by_length|]. }
  rewrite H in L. simpl in L. lia.
Qed.

Lemma lacks_app c s t : lacks c (s ++ t) = (lacks c s && lacks c t)%bool.
Proof. apply all_chars_app. Qed.

Lemma lacks_cons c a s : lacks c (String a s) = (negb (Ascii.eqb a c) && lacks c s)%bool.
Proof. done. Qed.

Lemma strip_fixed_rstrip s : strip s = s -> s <> "" -> rstrip s = s.
Proof.
  intros H Hne. destruct (strip_fixed_head s H Hne) as (c & r & -> & Hsp).
  rewrite <- H at 2. unfold strip, rstrip, lstrip. simpl.
  destruct (rstrip_by is_space r); rewrite ?Hsp; simpl; by rewrite Hsp.
Qed.

(** Stripping twice is stripping once. *)
Lemma rstrip_by_idem p s : rstrip_by p (rstrip_by p s) = rstrip_by p s.
Proof.
  induction s as [|c s IH]; cbn [rstrip_by]; [done|].
  destruct (rstrip_by p s) as [|d t] eqn:E.
  - destruct (p c) eqn:Ec; cbn [rstrip_by]; [done|]. by rewrite Ec.
  - change (rstrip_by p (String c (String d t))) with
      (match rstrip_by p (String d t) with
       | EmptyString => if p c then EmptyString else String c EmptyString
       | String d' t' => String c (String d' t') end).
    by rewrite IH.
Qed.

Lemma rstrip_by_tail p c s : rstrip_by p (String c s) = String c s -> rstrip_by p s = s.
Proof.
  cbn [rstrip_by]. destruct (rstrip_by p s) as [|d t]; [|by intros [= ->]].
  destruct (p c); [done|]. by intros [= <-].
Qed.

Lemma lstrip_by_rstripped p s : rstrip_by p s = s -> rstrip_by p (lstrip_by p s) = lstrip_by p s.
Proof.
  induction s as [|c s IH]; cbn [lstrip_by]; [done|]. intros H. destruct (p c); [|exact H].
  apply IH. by eapply rstrip_by_tail.
Qed.

Lemma lstrip_by_idem p s : lstrip_by p (lstrip_by p s) = lstrip_by p s.
Proof. induction s as [|c s IH]; cbn [lstrip_by]; [done|]. destruct (p c) eqn:E; [done|]. cbn [lstrip_by]. by rewrite E. Qed.

Lemma strip_idem s : strip (strip s) = strip s.
Proof.
  unfold strip, lstrip, rstrip. rewrite lstrip_by_rstripped by apply rstrip_by_idem. apply lstrip_by_idem.
Qed.


(** ** Lengths *)

Lemma length_str_app (a b : string) : String.length (a ++ b) = (String.length a + String.length b)%nat.
Proof. induction a as [|c a IH]; [done|]. simpl. by rewrite IH. Qed.

Lemma py_len_app a b : py_len (a ++ b) = py_len a + py_len b.
Proof. unfold py_len. rewrite length_str_app. lia. Qed.

Lemma py_len_nonneg s : 0 <= py_len s.
Proof. unfold py_len. lia. Qed.

Lemma py_len_zero s : py_len s = 0 -> s = "".
Proof. destruct s; [done|]. unfold py_len. simpl. lia. Qed.

Lemma length_str_take n s : (String.length (str_take n s) <= n)%nat.
Proof. revert s. induction n as [|n IH]; intros [|c s]; simpl; try lia. specialize (IH s). lia. Qed.

Lemma length_str_drop n s : String.length (str_drop n s) = (String.length s - n)%nat.
Proof. revert s. induction n as [|n IH]; intros [|c s]; simpl; try lia. apply IH. Qed.

Lemma py_len_prefix s n : 0 <= n -> py_len (str_prefix s n) <= n.
Proof.
  intros Hn. unfold str_prefix. apply Z.leb_le in Hn as E. rewrite E. unfold py_len.
  pose proof (length_str_take (Z.to_nat n) s). lia.
Qed.

Lemma py_len_suffix s n : py_len (str_suffix s n) <= Z.of_nat n.
Proof. unfold str_suffix, py_len. rewrite length_str_drop. lia. Qed.

Lemma py_len_rstrip s : py_len (rstrip s) <= py_len s.
Proof. unfold py_len, rstrip. pose proof (rstrip_by_length is_space s). lia. Qed.

Lemma py_len_lstrip s : py_len (lstrip s) <= py_len s.
Proof. unfold py_len, lstrip. pose proof (lstrip_by_length is_space s). lia. Qed.

Lemma py_len_strip s : py_len (strip s) <= py_len s.
Proof. unfold strip. etransitivity; [apply py_len_lstrip|apply py_len_rstrip]. Qed.

Lemma startswith_app p s : startswith (p ++ s) p = true.
Proof. induction p as [|c p IH]; simpl; [by destruct s|]. by rewrite Ascii.eqb_refl, IH. Qed.

(** The length of a [join]: the parts and a separator between any two. *)
Definition total_len (l : list string) : Z := fold_right (fun s n => py_len s + n) 0 l.

Lemma total_len_app l m : total_len (l ++ m) = total_len l + total_len m.
Proof. induction l as [|s l IH]; simpl; [done|]. rewrite IH. lia. Qed.

Lemma total_len_nonneg l : 0 <= total_len l.
Proof. induction l as [|s l IH]; simpl; [done|]. pose proof (py_len_nonneg s). lia. Qed.

Lemma py_len_join sep l :
  py_len (join sep l) = total_len l + py_len sep * Z.max (Z.of_nat (length l) - 1) 0.
Proof.
  induction l as [|s l IH]; [unfold py_len; simpl; lia|]. destruct l as [|t l]; [simpl; lia|].
  change (join sep (s :: t :: l)) with (s ++ sep ++ join sep (t :: l)).
  rewrite !py_len_app, IH. cbn [total_len fold_right length]. fold (total_len l).
  pose proof (py_len_nonneg sep). nia.
Qed.

Lemma total_len_filter f l : total_len (List.filter f l) <= total_len l.
Proof.
  induction l as [|s l IH]; simpl; [lia|]. pose proof (py_len_nonneg s).
  destruct (f s); simpl; lia.
Qed.

Lemma strip_head c s : is_space c = false -> strip (String c s) <> "".
Proof.
  intros H. unfold strip, rstrip, lstrip. cbn [rstrip_by].
  destruct (rstrip_by is_space s); [rewrite H|]; cbn [lstrip_by]; by rewrite H.
Qed.

(** ** The order of strings *)

Lemma compare_refl s : String.compare s s = Eq.
Proof. induction s as [|c s IH]; cbn; [done|]. unfold Ascii.compare. by rewrite N.compare_refl. Qed.

Lemma compare_trans a b c :
  String.compare a b = Lt -> String.compare b c = Lt -> String.compare a c = Lt.
Proof.
  revert b c. induction a as [|x a IH]; intros [|y b] [|z c]; cbn; try done.
  unfold Ascii.compare. destruct (N.compare_spec (N_of_ascii x) (N_of_ascii y)) as [E1|E1|E1]; try done;
    destruct (N.compare_spec (N_of_ascii y) (N_of_ascii z)) as [E2|E2|E2]; try done; intros H1 H2;
    destruct (N.compare_spec (N_of_ascii x) (N_of_ascii z)) as [E3|E3|E3]; try done; try lia.
  by eapply IH.
Qed.

#[export] Instance str_lt_total : StrictTotal str_lt.
Proof.
  assert (Hlt : forall x y, str_lt x y = true <-> String.compare x y = Lt).
  { intros x y. unfold str_lt, String.ltb. by destruct (String.compare x y). }
  split.
  - intros x. unfold str_lt, String.ltb. by rewrite compare_refl.
  - intros x y z. rewrite !Hlt. apply compare_trans.
  - intros x y H1 H2. apply String.compare_eq_iff. unfold str_lt, String.ltb in *.
    rewrite String.compare_antisym in H2. by destruct (String.compare x y).
Qed.

Lemma str_in_In s l : str_in s l = true <-> In s l.
Proof.
  unfold str_in. rewrite existsb_exists. split; [by intros (x & Hx & ->%String.eqb_eq)|].
  intros H. exists s. split; [done|apply String.eqb_refl].
Qed.

Lemma endswith_app s p : endswith s p = true -> exists t, s = t ++ p.
Proof.
  induction s as [|a s IH]; intros H.
  - exists "". destruct p; [done|discriminate H].
  - cbn [endswith] in H. apply orb_true_iff in H as [H|H]; [exists ""; by apply String.eqb_eq in H|].
    destruct (IH H) as [t ->]. by exists (String a t).
Qed.

Lemma app_endswith t p : endswith (t ++ p) p = true.
Proof.
  induction t as [|a t IH].
  { assert (E : forall p, endswith p p = true) by (intros []; unfold endswith; by rewrite String.eqb_refl). apply E. }
  change ((String.eqb (String a (t ++ p)) p || endswith (t ++ p) p)%bool = true). by rewrite IH, orb_true_r.
Qed.
