(* ===== verification/PyFloat.v ===== *)
(** * Python floats

    A [float] is an IEEE 754 binary64 number: the standard library's
    [spec_float] with 53 bits of precision and [emax = 1024], which is a pure
    (axiom-free, executable) specification of the hardware operations.  Added
    here: comparison with (unbounded) integers, truncation, Python's [min] and
    [max], and [repr] (the shortest decimal that rounds to the number). *)
From Stdlib Require Import ZArith Lia String Ascii List Bool SpecFloat.
From stdpp Require Import base tactics list strings option.
From S2P Require Import Prelude PyStr StrFacts.
Local Open Scope string_scope.
Local Open Scope Z_scope.

Definition float : Type := spec_float.
Definition prec : Z := 53.
Definition emax : Z := 1024.

Definition fzero : float := S754_zero false.
Definition fadd : float -> float -> float := SFadd prec emax.
Definition fsub : float -> float -> float := SFsub prec emax.
Definition fmul : float -> float -> float := SFmul prec emax.
Definition fdiv : float -> float -> float := SFdiv prec emax.
Definition feqb : float -> float -> bool := SFeqb.
Definition fltb : float -> float -> bool := SFltb.
Definition fleb : float -> float -> bool := SFleb.
Definition is_nan (f : float) : bool := match f with S754_nan => true | _ => false end.

(** [float(z)]: correctly rounded; [None] is the [OverflowError] of an integer
    too large for a float. *)
Definition float_of_Z (z : Z) : float := binary_normalize prec emax z 0 false.
Definition float_of_int (z : Z) : option float :=
  match float_of_Z z with S754_infinity _ => None | f => Some f end.

(** The decimal literal [m / 10^k] (correctly rounded for [m < 2^53], [k <= 22]). *)
Definition float_lit (m : Z) (k : Z) : float := fdiv (float_of_Z m) (float_of_Z (10 ^ k)).

(** [int(f)] of a finite float: truncation towards zero. *)
Definition float_trunc (f : float) : option Z :=
  match f with
  | S754_zero _ => Some 0
  | S754_finite s m e =>
      let a := if 0 <=? e then Zpos m * 2 ^ e else Zpos m / 2 ^ (- e) in
      Some (if s then - a else a)
  | _ => None
  end.

(** Exact comparison of a float with an integer ([None]: unordered). *)
Definition cmp_float_Z (f : float) (z : Z) : option comparison :=
  match f with
  | S754_nan => None
  | S754_infinity s => Some (if s then Lt else Gt)
  | S754_zero _ => Some (0 ?= z)
  | S754_finite s m e =>
      let v := if s then Zneg m else Zpos m in
      Some (if 0 <=? e then v * 2 ^ e ?= z else v ?= z * 2 ^ (- e))
  end.

(** Python's [min(a, b)] returns [a] unless [b < a]; [max(a, b)] returns [a]
    unless [b > a]. *)
Definition fmin (a b : float) : float := if fltb b a then b else a.
Definition fmax (a b : float) : float := if fltb a b then b else a.

Lemma fltb_fleb a b : fltb a b = true -> fleb a b = true.
Proof. unfold fltb, fleb, SFltb, SFleb. destruct (SFcompare a b) as [[]|]; congruence. Qed.

Lemma SFcompare_refl a : is_nan a = false -> SFcompare a a = Some Eq.
Proof.
  destruct a as [s|s| |s m e]; simpl; try done.
  - by destruct s.
  - intros _. destruct s; rewrite Z.compare_refl; [|by rewrite Pos.compare_refl].
    change (Pos.compare_cont Eq m m) with (m ?= m)%positive. by rewrite Pos.compare_refl.
Qed.

Lemma fleb_refl a : is_nan a = false -> fleb a a = true.
Proof. intros H. unfold fleb, SFleb. by rewrite SFcompare_refl. Qed.

Lemma fmin_le a b : is_nan a = false -> fleb (fmin a b) a = true.
Proof.
  intros H. unfold fmin. destruct (fltb b a) eqn:E; [by apply fltb_fleb|by apply fleb_refl].
Qed.

(** ** [repr(f)] *)

(** The number is [m * 2^e]; a decimal [d * 10^q] denotes it when it lies in the
    rounding interval: half way to each neighbour (the lower neighbour of a
    power of two is half as far), bounds included when [m] is even.  Scaled by
    [4 * 2^-e'] everything is an integer comparison. *)
Definition in_rounding_interval (m e d q : Z) : bool :=
  let hi := 4 * m + 2 in
  let lo := if (m =? 2 ^ 52) && negb (e =? -1074) then 4 * m - 1 else 4 * m - 2 in
  (* compare  d * 10^q  with  x * 2^(e-2) *)
  let num := d * 10 ^ (Z.max q 0) * 2 ^ (Z.max (2 - e) 0) in
  let scale := 10 ^ (Z.max (- q) 0) * 2 ^ (Z.max (e - 2) 0) in
  if Z.even m then (lo * scale <=? num) && (num <=? hi * scale)
  else (lo * scale <? num) && (num <? hi * scale).

(** Number of decimal digits of a positive integer. *)
Definition ndigits (z : Z) : Z := py_len (str_of_Z z).

(** Decimal exponent: the number lies in [10^(p-1), 10^p). *)
Definition dec_exponent (m e : Z) : Z :=
  if 0 <=? e then ndigits (m * 2 ^ e)
  else
    let q := m / 2 ^ (- e) in
    if 0 <? q then ndigits q
    else
      (* below one: scale up by 10^400 *)
      ndigits (m * 10 ^ 400 / 2 ^ (- e)) - 400.

(** Closest [n]-digit decimals below and above, and the pick. *)
Definition decimal_candidates (m e n : Z) : list (Z * Z) :=
  let p := dec_exponent m e in
  let q := p - n in
  let num := m * 2 ^ (Z.max e 0) * 10 ^ (Z.max (- q) 0) in
  let den := 2 ^ (Z.max (- e) 0) * 10 ^ (Z.max q 0) in
  let d := num / den in
  let r := num mod den in
  if r =? 0 then [(d, q)]
  else if 2 * r <=? den then [(d, q); (d + 1, q)] else [(d + 1, q); (d, q)].

Fixpoint shortest (m e : Z) (n : nat) (fuel : nat) : Z * Z :=
  match fuel with
  | O => (m, 0)
  | S fuel' =>
      match List.filter (fun dq => in_rounding_interval m e (fst dq) (snd dq))
                   (decimal_candidates m e (Z.of_nat n)) with
      | dq :: _ => dq
      | [] => shortest m e (S n) fuel'
      end
  end.

Fixpoint rstrip_zeros (d q : Z) (fuel : nat) : Z * Z :=
  match fuel with
  | O => (d, q)
  | S f => if (d mod 10 =? 0) && (0 <? d) then rstrip_zeros (d / 10) (q + 1) f else (d, q)
  end.

Fixpoint zeros (n : nat) : string := match n with O => "" | S n' => "0" ++ zeros n' end.

(** Layout of the digits [ds] with the decimal point after [p] digits: exponent
    notation outside [-4 < p <= 16]. *)
Definition format_repr (ds : string) (p : Z) : string :=
  let n := py_len ds in
  if (-4 <? p) && (p <=? 16) then
    if p <=? 0 then "0." ++ zeros (Z.to_nat (- p)) ++ ds
    else if n <=? p then ds ++ zeros (Z.to_nat (p - n)) ++ ".0"
    else str_take (Z.to_nat p) ds ++ "." ++ str_drop (Z.to_nat p) ds
  else
    let ex := p - 1 in
    let mant := if n =? 1 then ds else str_take 1 ds ++ "." ++ str_drop 1 ds in
    let a := str_of_Z (Z.abs ex) in
    mant ++ "e" ++ (if ex <? 0 then "-" else "+") ++ (if py_len a <? 2 then "0" ++ a else a).

Definition repr_float (f : float) : string :=
  match f with
  | S754_nan => "nan"
  | S754_infinity s => if s then "-inf" else "inf"
  | S754_zero s => if s then "-0.0" else "0.0"
  | S754_finite s m e =>
      let '(d, q) := shortest (Zpos m) e 1 17 in
      let '(d, q) := rstrip_zeros d q 20 in
      let ds := str_of_Z d in
      (if s then "-" else "") ++ format_repr ds (py_len ds + q)
  end.

(** [json.dumps] of a float. *)
Definition json_float (f : float) : string :=
  match f with
  | S754_nan => "NaN"
  | S754_infinity s => if s then "-Infinity" else "Infinity"
  | _ => repr_float f
  end.

Example repr_tenth : repr_float (float_lit 1 1) = "0.1".
Proof. vm_compute. reflexivity. Qed.
Example repr_1e16 : repr_float (float_of_Z (10 ^ 16)) = "1e+16".
Proof. vm_compute. reflexivity. Qed.

(** ** The order of non-NaN floats

    [frank] maps a float to an integer triple whose lexicographic order is the
    comparison of [SFcompare] (sign, then exponent, then mantissa). *)
Definition frank (f : float) : Z * Z * Z :=
  match f with
  | S754_nan => (3, 0, 0)
  | S754_infinity s => (if s then -2 else 2, 0, 0)
  | S754_zero _ => (0, 0, 0)
  | S754_finite s m e => if s then (-1, - e, Zneg m) else (1, e, Zpos m)
  end.

Definition rank_lt (a b : Z * Z * Z) : Prop :=
  let '(a1, a2, a3) := a in let '(b1, b2, b3) := b in
  a1 < b1 \/ (a1 = b1 /\ (a2 < b2 \/ (a2 = b2 /\ a3 < b3))).

Lemma fltb_rank a b : is_nan a = false -> is_nan b = false -> fltb a b = true <-> rank_lt (frank a) (frank b).
Proof.
  unfold fltb, SFltb. intros Ha Hb.
  destruct a as [sa|sa| |sa ma ea], b as [sb|sb| |sb mb eb]; try done; simpl;
    try destruct sa; try destruct sb; unfold rank_lt; try (split; intros; (done || lia));
    change (Pos.compare_cont Eq ma mb) with (ma ?= mb)%positive;
    (destruct (Z.compare_spec ea eb) as [->|H|H]; simpl; try (split; intros; (done || lia)));
    destruct (Pos.compare_spec ma mb) as [->|H|H]; simpl; split; intros; try done; lia.
Qed.

Lemma fltb_asym a b : is_nan a = false -> is_nan b = false -> fltb a b = true -> fltb b a = false.
Proof.
  intros Ha Hb H. apply fltb_rank in H; [|done|done]. apply not_true_iff_false. intros H'.
  apply fltb_rank in H'; [|done|done]. unfold rank_lt in *.
  destruct (frank a) as [[??]?], (frank b) as [[??]?]. lia.
Qed.

Lemma nfltb_trans a b c :
  is_nan a = false -> is_nan b = false -> is_nan c = false ->
  fltb b a = false -> fltb c b = false -> fltb c a = false.
Proof.
  intros Ha Hb Hc. rewrite <- !not_true_iff_false, !fltb_rank by done. unfold rank_lt.
  destruct (frank a) as [[??]?], (frank b) as [[??]?], (frank c) as [[??]?]. lia.
Qed.

(** The same order as a boolean, total also on NaN (which it puts last). *)
Definition frank_ltb (a b : float) : bool :=
  let '(a1, a2, a3) := frank a in let '(b1, b2, b3) := frank b in
  (a1 <? b1) || ((a1 =? b1) && ((a2 <? b2) || ((a2 =? b2) && (a3 <? b3)))).

Lemma frank_ltb_spec a b : frank_ltb a b = true <-> rank_lt (frank a) (frank b).
Proof.
  unfold frank_ltb, rank_lt. destruct (frank a) as [[??]?], (frank b) as [[??]?].
  rewrite !orb_true_iff, !andb_true_iff, !orb_true_iff, !andb_true_iff, !Z.ltb_lt, !Z.eqb_eq. tauto.
Qed.

Lemma fltb_frank a b : is_nan a = false -> is_nan b = false -> fltb a b = frank_ltb a b.
Proof. intros Ha Hb. apply eq_true_iff_eq. by rewrite fltb_rank, frank_ltb_spec. Qed.

Lemma frank_ltb_asym a b : frank_ltb a b = true -> frank_ltb b a = false.
Proof.
  rewrite <- not_true_iff_false, !frank_ltb_spec. unfold rank_lt.
  destruct (frank a) as [[??]?], (frank b) as [[??]?]. lia.
Qed.

Lemma frank_ltb_ntrans a b c : frank_ltb b a = false -> frank_ltb c b = false -> frank_ltb c a = false.
Proof.
  rewrite <- !not_true_iff_false, !frank_ltb_spec. unfold rank_lt.
  destruct (frank a) as [[??]?], (frank b) as [[??]?], (frank c) as [[??]?]. lia.
Qed.

(** A list of floats without NaN. *)
Definition no_nan (l : list float) : Prop := List.Forall (fun f => is_nan f = false) l.

Lemma py_sorted_floats l : no_nan l -> ordered fltb (py_sorted fltb l).
Proof.
  intros H. rewrite (py_sorted_ext fltb frank_ltb).
  - assert (Ho : ordered frank_ltb (py_sorted frank_ltb l))
      by (apply py_sorted_ordered; [apply frank_ltb_asym|intros; eapply frank_ltb_ntrans; eauto]).
    assert (Hn : List.Forall (fun f => is_nan f = false) (py_sorted frank_ltb l)).
    { unfold no_nan in H. rewrite List.Forall_forall in *. intros x Hx. apply H. by apply py_sorted_In in Hx. }
    unfold ordered in *. induction Ho as [|a m Hm IH Ha]; [constructor|].
    inversion Hn; subst. constructor; [auto|]. rewrite List.Forall_forall in *.
    intros b Hb. rewrite fltb_frank; auto.
  - unfold no_nan in H. rewrite List.Forall_forall in H. intros x y Hx Hy. apply fltb_frank; auto.
Qed.

(** ** Arithmetic and formats *)

Definition one : float := float_of_Z 1.
Definition half : float := float_lit 5 1.
Definition fabs : float -> float := SFabs.
Definition fsqrt : float -> float := SFsqrt prec emax.
Definition is_finite (f : float) : bool := match f with S754_zero _ | S754_finite _ _ _ => true | _ => false end.

(** ** [sum] of floats: compensated, as Python 3.12 does *)

Fixpoint sum_from (hi lo : float) (l : list float) : float :=
  match l with
  | [] => if negb (feqb lo fzero) && is_finite lo then fadd hi lo else hi
  | x :: r =>
      let t := fadd hi x in
      let err := if fleb (fabs x) (fabs hi) then fadd (fsub hi t) x else fadd (fsub x t) hi in
      sum_from t (fadd lo err) r
  end.

Definition py_sum (l : list float) : float :=
  match l with [] => fzero | x :: r => sum_from (fadd fzero x) fzero r end.

(** Ten times 0.1: the naive sum is not 1. *)
Example sum_compensated : py_sum (List.repeat (float_lit 1 1) 10) = one.
Proof. by vm_compute. Qed.

(** ** [a / b] of integers: the float nearest to the quotient *)

Definition int_div (a b : Z) : res float :=
  if b =? 0 then Err (ZeroDivisionError "division by zero")
  else
    let neg := xorb (a <? 0) (b <? 0) in
    if a =? 0 then Ok (S754_zero neg)
    else
      let a := Z.abs a in let b := Z.abs b in
      (* 57 bits of the quotient, and one that says whether more follow *)
      let s := Z.max 0 (58 - (Z.log2 a - Z.log2 b)) in
      let q := (a * 2 ^ s) / b in
      let m := 2 * q + (if (a * 2 ^ s) mod b =? 0 then 0 else 1) in
      match binary_normalize prec emax (if neg then - m else m) (- s - 1) neg with
      | S754_infinity _ => Err (OverflowError "integer division result too large for a float")
      | f => Ok f
      end.

Example thirds : int_div 1 3 = Ok (fdiv one (float_of_Z 3)) /\ int_div (-7) 2 = Ok (fdiv (float_of_Z (-7)) (float_of_Z 2)).
Proof. by vm_compute. Qed.

(** Both operands are beyond the floats. *)
Example large_quotient : int_div (10 ^ 400) (10 ^ 399) = Ok (float_of_Z 10).
Proof. by vm_compute. Qed.

(** ** [f"{x:.nf}"], padding *)

Fixpoint spaces (n : nat) : string := match n with O => "" | S n => String " " (spaces n) end.

(** [f"{s:<w}"] and [f"{s:>w}"]. *)
Definition pad_right (w : Z) (s : string) : string := s ++ spaces (Z.to_nat (w - py_len s)).
Definition pad_left (w : Z) (s : string) : string := spaces (Z.to_nat (w - py_len s)) ++ s.

(** [num / 2^k] rounded to the nearest integer, to the even one in the middle. *)
Definition round_half_even (num k : Z) : Z :=
  let q := num / 2 ^ k in
  let r2 := 2 * (num mod 2 ^ k) in
  if r2 <? 2 ^ k then q else if 2 ^ k <? r2 then q + 1 else if Z.even q then q else q + 1.

Definition with_point (digits : Z) (n : Z) : string :=
  let s := str_of_Z n in
  let s := zeros (Z.to_nat (digits + 1 - py_len s)) ++ s in
  str_prefix s (py_len s - digits) ++ "." ++ str_drop (Z.to_nat (py_len s - digits)) s.

Definition format_fixed (digits : Z) (f : float) : string :=
  match f with
  | S754_nan => "nan"
  | S754_infinity s => if s then "-inf" else "inf"
  | S754_zero s => (if s then "-" else "") ++ with_point digits 0
  | S754_finite s m e =>
      let num := Zpos m * 10 ^ digits in
      (if s then "-" else "") ++ with_point digits (if 0 <=? e then num * 2 ^ e else round_half_even num (- e))
  end.

Example formatted :
  List.map (format_fixed 2) [half; one; float_lit 1255 2; float_lit 1005 3; float_of_Z (-3); float_lit 125 3; float_lit 999 3] =
    ["0.50"; "1.00"; "12.55"; "1.00"; "-3.00"; "0.12"; "1.00"].
Proof. by vm_compute. Qed.

(** ** Quotients between zero and one *)

Lemma int_div_zero b : 0 < b -> int_div 0 b = Ok fzero.
Proof. intros H. unfold int_div. destruct (Z.eqb_spec b 0); [lia|]. cbn. by destruct (Z.ltb_spec b 0); [lia|]. Qed.
