(* ===== verification/PyVal.v ===== *)
(** * Python values

    The orchestrator threads plain dicts of JSON-like values through its nodes
    and inspects them dynamically ([isinstance], [.get], [bool], [str], [int]).
    [pyval] is that universe; a [dict] is the insertion-ordered association list
    of its (string) keys, which is what iteration order, [json.dumps] and "last
    write wins in place" depend on.  Non-string keys and arbitrary objects are
    outside the universe. *)
From Stdlib Require Import ZArith Lia String Ascii List Bool.
From Stdlib Require Import SpecFloat.
From stdpp Require Import base tactics list strings option.
From S2P Require Import Prelude PyStr PyFloat.
Local Open Scope string_scope.
Local Open Scope Z_scope.

#[local] Unset Elimination Schemes.
Inductive pyval : Type :=
| PNone
| PBool (b : bool)
| PInt (z : Z)
| PFloat (f : float)
| PStr (s : string)
| PList (l : list pyval)
| PTuple (l : list pyval)
| PDict (d : list (string * pyval)).

#[local] Set Elimination Schemes.

Definition dict : Type := list (string * pyval).

(** ** Dict operations *)

Section Dict.
Context {V : Type}.

(** [k in d] / [d[k]]. *)
Fixpoint dlookup (k : string) (d : list (string * V)) : option V :=
  match d with
  | [] => None
  | (k', v) :: r => if String.eqb k k' then Some v else dlookup k r
  end.

Definition dhas (k : string) (d : list (string * V)) : bool :=
  match dlookup k d with Some _ => true | None => false end.

(** [d[k] = v]: in place when the key is present, at the end otherwise. *)
Fixpoint dset (k : string) (v : V) (d : list (string * V)) : list (string * V) :=
  match d with
  | [] => [(k, v)]
  | (k', v') :: r => if String.eqb k k' then (k', v) :: r else (k', v') :: dset k v r
  end.

(** [del d[k]] (no-op when absent). *)
Fixpoint ddel (k : string) (d : list (string * V)) : list (string * V) :=
  match d with
  | [] => []
  | (k', v') :: r => if String.eqb k k' then r else (k', v') :: ddel k r
  end.

(** [d.update(e)] and [{**d, **e}]. *)
Definition dupdate (d e : list (string * V)) : list (string * V) :=
  fold_left (fun acc kv => dset (fst kv) (snd kv) acc) e d.

Lemma dlookup_dset k v d k' :
  dlookup k' (dset k v d) = if String.eqb k' k then Some v else dlookup k' d.
Proof.
  induction d as [|[k1 v1] d IH]; simpl; [done|].
  destruct (String.eqb_spec k k1) as [->|Hk]; simpl.
  - by destruct (String.eqb k' k1).
  - rewrite IH. destruct (String.eqb_spec k' k1) as [->|]; [|done].
    destruct (String.eqb_spec k1 k); [congruence|done].
Qed.

Lemma dlookup_dset_eq k v d : dlookup k (dset k v d) = Some v.
Proof. by rewrite dlookup_dset, String.eqb_refl. Qed.

Lemma dlookup_dset_ne k v d k' : k' <> k -> dlookup k' (dset k v d) = dlookup k' d.
Proof. intros H. rewrite dlookup_dset. by apply String.eqb_neq in H as ->. Qed.

Lemma dhas_dset k v d k' : dhas k' (dset k v d) = (String.eqb k' k || dhas k' d)%bool.
Proof. unfold dhas. rewrite dlookup_dset. by destruct (String.eqb k' k). Qed.

Lemma dset_keys k v d :
  List.map fst (dset k v d) =
  if dhas k d then List.map fst d else (List.map fst d ++ [k])%list.
Proof.
  unfold dhas. induction d as [|[k1 v1] d IH]; simpl; [done|].
  destruct (String.eqb_spec k k1) as [->|Hk]; simpl; [done|].
  rewrite IH. by destruct (dlookup k d).
Qed.

Lemma dlookup_In k d v : dlookup k d = Some v -> In (k, v) d.
Proof.
  induction d as [|[k1 v1] d IH]; simpl; [done|].
  destruct (String.eqb_spec k k1) as [->|Hk]; [intros [= ->]; by left|].
  intros H; right; by apply IH.
Qed.

Lemma dlookup_None_keys k d : dlookup k d = None <-> ~ In k (List.map fst d).
Proof.
  induction d as [|[k1 v1] d IH]; simpl; [tauto|].
  destruct (String.eqb_spec k k1) as [->|Hk].
  - split; [done|]. intros H. exfalso. apply H. by left.
  - rewrite IH. split; [intros H [?|?]; [congruence|done]|tauto].
Qed.

Lemma dset_NoDup k v d :
  List.NoDup (List.map fst d) -> List.NoDup (List.map fst (dset k v d)).
Proof.
  intros H. rewrite dset_keys. unfold dhas. destruct (dlookup k d) eqn:E; [done|].
  apply dlookup_None_keys in E.
  apply Permutation.Permutation_NoDup with (l := k :: List.map fst d).
  - apply Permutation.Permutation_cons_append.
  - by constructor.
Qed.

Lemma dlookup_ddel k k' d :
  List.NoDup (List.map fst d) ->
  dlookup k' (ddel k d) = if String.eqb k' k then None else dlookup k' d.
Proof.
  induction d as [|[k1 v1] d IH]; simpl; intros Hnd; [by destruct (String.eqb k' k)|].
  inversion Hnd as [|? ? Hn1 Hnd1]; subst.
  destruct (String.eqb_spec k k1) as [->|Hk].
  - destruct (String.eqb_spec k' k1) as [->|]; [|done]. by apply dlookup_None_keys.
  - simpl. destruct (String.eqb_spec k' k1) as [->|].
    + destruct (String.eqb_spec k1 k); [congruence|done].
    + by apply IH.
Qed.

Lemma dset_dset k v w d : dset k v (dset k w d) = dset k v d.
Proof.
  induction d as [|[k' v'] d IH]; simpl; [by rewrite String.eqb_refl|].
  destruct (String.eqb_spec k k') as [->|Hn]; simpl.
  - by rewrite String.eqb_refl.
  - apply String.eqb_neq in Hn. by rewrite Hn, IH.
Qed.

Lemma dset_not_nil k v d : dset k v d <> [].
Proof. destruct d as [|[k' v'] d]; simpl; [done|]. by destruct (String.eqb k k'). Qed.
End Dict.

(** ** Truth, [isinstance], [str], [repr] *)

Definition is_list (v : pyval) : bool := match v with PList _ => true | _ => false end.
Definition is_dict (v : pyval) : bool := match v with PDict _ => true | _ => false end.
Definition is_str (v : pyval) : bool := match v with PStr _ => true | _ => false end.
Definition is_none (v : pyval) : bool := match v with PNone => true | _ => false end.
(** [isinstance(v, int)]: [bool] is a subclass of [int]. *)
Definition is_int (v : pyval) : bool := match v with PInt _ | PBool _ => true | _ => false end.
Definition is_bool (v : pyval) : bool := match v with PBool _ => true | _ => false end.

(** [bool(v)]. *)
Definition truthy (v : pyval) : bool :=
  match v with
  | PNone => false
  | PBool b => b
  | PInt z => negb (z =? 0)
  | PFloat f => match f with S754_zero _ => false | _ => true end
  | PStr s => negb (String.eqb s "")
  | PList l | PTuple l => match l with [] => false | _ => true end
  | PDict d => match d with [] => false | _ => true end
  end.

(** [a or b]. *)
Definition py_or (a b : pyval) : pyval := if truthy a then a else b.

Definition type_name (v : pyval) : string :=
  match v with
  | PNone => "NoneType" | PBool _ => "bool" | PInt _ => "int" | PFloat _ => "float"
  | PStr _ => "str" | PList _ => "list" | PTuple _ => "tuple" | PDict _ => "dict"
  end.

Fixpoint repr (v : pyval) : string :=
  match v with
  | PNone => "None"
  | PBool b => if b then "True" else "False"
  | PInt z => str_of_Z z
  | PFloat f => repr_float f
  | PStr s => repr_str s
  | PList l => "[" ++ join ", " (List.map repr l) ++ "]"
  | PTuple [x] => "(" ++ repr x ++ ",)"
  | PTuple l => "(" ++ join ", " (List.map repr l) ++ ")"
  | PDict d =>
      "{" ++ join ", " (List.map (fun kv => repr_str (fst kv) ++ ": " ++ repr (snd kv)) d) ++ "}"
  end.

(** [str(v)]. *)
Definition py_str (v : pyval) : string := match v with PStr s => s | _ => repr v end.

(** ** Equality: numbers compare by value across [bool], [int] and [float];
    dicts compare as maps. *)

Definition num_of (v : pyval) : option (Z + float) :=
  match v with
  | PBool b => Some (inl (if b then 1 else 0))
  | PInt z => Some (inl z)
  | PFloat f => Some (inr f)
  | _ => None
  end.

Definition num_cmp (a b : Z + float) : option comparison :=
  match a, b with
  | inl x, inl y => Some (x ?= y)
  | inr f, inl y => cmp_float_Z f y
  | inl x, inr g => option_map CompOpp (cmp_float_Z g x)
  | inr f, inr g => SFcompare f g
  end.

Fixpoint py_eq (a b : pyval) : bool :=
  match a, b with
  | PNone, PNone => true
  | PStr s, PStr t => String.eqb s t
  | PList l, PList m | PTuple l, PTuple m =>
      (fix go (l m : list pyval) : bool :=
         match l, m with
         | [], [] => true
         | x :: l', y :: m' => py_eq x y && go l' m'
         | _, _ => false
         end) l m
  | PDict d, PDict e =>
      Nat.eqb (length d) (length e) &&
      (fix go (d : list (string * pyval)) : bool :=
         match d with
         | [] => true
         | (k, v) :: d' =>
             match dlookup k e with
             | Some w => py_eq v w && go d'
             | None => false
             end
         end) d
  | _, _ =>
      match num_of a, num_of b with
      | Some x, Some y => match num_cmp x y with Some Eq => true | _ => false end
      | _, _ => false
      end
  end.

Definition py_in_list (v : pyval) (l : list pyval) : bool := existsb (fun x => py_eq x v) l.

(** ** Accessors and conversions that may raise *)

(** [v.get(k)] and [v.get(k, d)] on a value that should be a dict. *)
Definition attr_error (v : pyval) (attr : string) : pyexc :=
  AttributeError (sq ++ type_name v ++ "' object has no attribute '" ++ attr ++ sq).

(** On a dict proper. *)
Definition dget (d : dict) (k : string) (dflt : pyval) : pyval :=
  match dlookup k d with Some v => v | None => dflt end.

Definition get (v : pyval) (k : string) (dflt : pyval) : res pyval :=
  match v with
  | PDict d => Ok (dget d k dflt)
  | _ => Err (attr_error v "get")
  end.

(** [dict(x) if isinstance(x, dict) else {}], the idiom of every node. *)
Definition dict_or_empty (v : pyval) : dict := match v with PDict d => d | _ => [] end.
(** [list(x) if isinstance(x, list) else []]. *)
Definition list_or_empty (v : pyval) : list pyval := match v with PList l => l | _ => [] end.
(** [[e for e in l if isinstance(e, dict)]]. *)
Definition dicts_of (l : list pyval) : list dict :=
  flat_map (fun v => match v with PDict d => [d] | _ => [] end) l.

Definition not_iterable (v : pyval) : pyexc :=
  TypeError (sq ++ type_name v ++ "' object is not iterable").

Fixpoint chars (s : string) : list pyval :=
  match s with
  | EmptyString => []
  | String c r => PStr (String c EmptyString) :: chars r
  end.

(** The values [for x in v] goes through. *)
Definition py_iter (v : pyval) : res (list pyval) :=
  match v with
  | PList l | PTuple l => Ok l
  | PDict d => Ok (List.map (fun kv => PStr (fst kv)) d)
  | PStr s => Ok (chars s)
  | _ => Err (not_iterable v)
  end.

(** [len(v)]. *)
Definition py_length (v : pyval) : res Z :=
  match v with
  | PList l | PTuple l => Ok (Z.of_nat (length l))
  | PDict d => Ok (Z.of_nat (length d))
  | PStr s => Ok (py_len s)
  | _ => Err (TypeError ("object of type '" ++ type_name v ++ "' has no len()"))
  end.

(** One element of [dict(seq)]: a sequence of length two. *)
Definition dict_item (i : nat) (v : pyval) : res (string * pyval) :=
  let bad n := Err (ValueError ("dictionary update sequence element #" ++ str_of_Z (Z.of_nat i)
                      ++ " has length " ++ str_of_Z n ++ "; 2 is required")) in
  match py_iter v with
  | Ok [PStr k; x] => Ok (k, x)
  | Ok [_; _] => Err (Unmodelled "dict with a non-string key")
  | Ok l => bad (Z.of_nat (length l))
  | Err _ => Err (TypeError ("cannot convert dictionary update sequence element #"
                      ++ str_of_Z (Z.of_nat i) ++ " to a sequence"))
  end.

Fixpoint dict_items (i : nat) (acc : dict) (l : list pyval) : res dict :=
  match l with
  | [] => Ok acc
  | v :: r => let! kv := dict_item i v in dict_items (S i) (dset (fst kv) (snd kv) acc) r
  end.

(** [dict(v)]. *)
Definition py_dict (v : pyval) : res dict :=
  match v with
  | PDict d => Ok d
  | _ => let! l := py_iter v in dict_items 0 [] l
  end.

(** [int(v)]. *)
Definition py_int (v : pyval) : res Z :=
  match v with
  | PBool b => Ok (if b then 1 else 0)
  | PInt z => Ok z
  | PFloat f =>
      match float_trunc f with
      | Some z => Ok z
      | None => if is_nan f then Err (ValueError "cannot convert float NaN to integer")
                else Err (OverflowError "cannot convert float infinity to integer")
      end
  | PStr s =>
      match parse_int s with
      | Some z => Ok z
      | None =>
          if 4300 <? count_digits (strip s)
          then Err (ValueError ("Exceeds the limit (4300 digits) for integer string conversion: value has "
                      ++ str_of_Z (count_digits (strip s))
                      ++ " digits; use sys.set_int_max_str_digits() to increase the limit"))
          else Err (ValueError ("invalid literal for int() with base 10: " ++ repr_str s))
      end
  | _ => Err (TypeError ("int() argument must be a string, a bytes-like object or a real number, not '"
                         ++ type_name v ++ sq))
  end.

(** The integer under an [isinstance(v, int)] guard. *)
Definition int_of (v : pyval) : Z := match v with PInt z => z | PBool b => if b then 1 else 0 | _ => 0 end.

(** [float(v)] under an [isinstance(v, (int, float))] guard. *)
Definition num_to_float (v : pyval) : res float :=
  match v with
  | PFloat f => Ok f
  | _ => match float_of_int (int_of v) with
         | Some f => Ok f
         | None => Err (OverflowError "int too large to convert to float")
         end
  end.

(** [str(v).strip()], used on almost every field read. *)
Definition str_strip (v : pyval) : string := strip (py_str v).

(** ** [json.dumps(v, ensure_ascii=False, sort_keys=True)] and without [sort_keys] *)

Definition json_char (c : ascii) : string :=
  let n := ord c in
  if n =? 34 then "\" ++ dq
  else if n =? 92 then "\\"
  else if n =? 10 then "\n"
  else if n =? 13 then "\r"
  else if n =? 9 then "\t"
  else if n =? 8 then "\b"
  else if n =? 12 then "\f"
  else if n <? 32 then
    "\u00" ++ String (hex_digit (n / 16)) (String (hex_digit (n mod 16)) EmptyString)
  else String c EmptyString.

Definition json_str (s : string) : string := dq ++ concat_map_str json_char s ++ dq.

Definition key_lt {V : Type} (a b : string * V) : bool := str_lt (fst a) (fst b).

Section Json.
Context (sort_keys : bool).

Fixpoint json_dumps (v : pyval) : string :=
  match v with
  | PNone => "null"
  | PBool b => if b then "true" else "false"
  | PInt z => str_of_Z z
  | PFloat f => json_float f
  | PStr s => json_str s
  | PList l | PTuple l => "[" ++ join ", " (List.map json_dumps l) ++ "]"
  | PDict d =>
      (* members are rendered, then ordered by key when asked *)
      let members := List.map (fun kv => (fst kv, json_str (fst kv) ++ ": " ++ json_dumps (snd kv))) d in
      let ordered := if sort_keys then py_sorted key_lt members else members in
      "{" ++ join ", " (List.map snd ordered) ++ "}"
  end.
End Json.

(** ** Induction principle for the nested type *)
Section PyvalInd.
Context (P : pyval -> Prop).
Context (HNone : P PNone) (HBool : forall b, P (PBool b)) (HInt : forall z, P (PInt z))
        (HFloat : forall f, P (PFloat f)) (HStr : forall s, P (PStr s))
        (HList : forall l, List.Forall P l -> P (PList l))
        (HTuple : forall l, List.Forall P l -> P (PTuple l))
        (HDict : forall d, List.Forall (fun kv => P (snd kv)) d -> P (PDict d)).

Fixpoint pyval_nested_ind (v : pyval) : P v :=
  let list_ind := fix go (l : list pyval) : List.Forall P l :=
    match l with
    | [] => List.Forall_nil _
    | x :: r => @List.Forall_cons _ P x r (pyval_nested_ind x) (go r)
    end in
  let dict_ind := fix go (d : list (string * pyval)) : List.Forall (fun kv => P (snd kv)) d :=
    match d with
    | [] => List.Forall_nil _
    | kv :: r => @List.Forall_cons _ (fun kv => P (snd kv)) kv r (pyval_nested_ind (snd kv)) (go r)
    end in
  match v with
  | PNone => HNone
  | PBool b => HBool b
  | PInt z => HInt z
  | PFloat f => HFloat f
  | PStr s => HStr s
  | PList l => HList l (list_ind l)
  | PTuple l => HTuple l (list_ind l)
  | PDict d => HDict d (dict_ind d)
  end.
End PyvalInd.

(** Dicts whose keys are distinct, at every level: what a Python dict is. *)
Definition wf_keys {V : Type} (d : list (string * V)) : Prop := List.NoDup (List.map fst d).

(** ** Rewriting lemmas for reads after writes *)

Lemma dget_dset d k v k' dflt :
  dget (dset k v d) k' dflt = if String.eqb k' k then v else dget d k' dflt.
Proof. unfold dget. rewrite dlookup_dset. by destruct (String.eqb k' k). Qed.

Lemma dget_dset_eq d k v dflt : dget (dset k v d) k dflt = v.
Proof. by rewrite dget_dset, String.eqb_refl. Qed.

Lemma dget_dset_ne d k v k' dflt : String.eqb k' k = false -> dget (dset k v d) k' dflt = dget d k' dflt.
Proof. rewrite dget_dset. by intros ->. Qed.

Lemma dset_same {V} (d : list (string * V)) k v : dlookup k d = Some v -> dset k v d = d.
Proof.
  induction d as [|[k' v'] d IH]; simpl; [done|].
  destruct (String.eqb_spec k k') as [->|]; [by intros [= ->]|]. intros H. by rewrite IH.
Qed.

Lemma In_dset {V} k (v : V) d k' v' : In (k', v') (dset k v d) -> (k' = k /\ v' = v) \/ In (k', v') d.
Proof.
  induction d as [|[k1 v1] d IH]; simpl.
  - intros [[= <- <-]|[]]. by left.
  - destruct (String.eqb_spec k k1) as [->|]; simpl.
    + intros [[= <- <-]|H]; [by left|right; by right].
    + intros [H|H]; [right; by left|]. destruct (IH H) as [?|?]; [by left|right; by right].
Qed.

Lemma dlookup_dset_neb {V} (d : list (string * V)) k v k' :
  String.eqb k' k = false -> dlookup k' (dset k v d) = dlookup k' d.
Proof. rewrite dlookup_dset. by intros ->. Qed.

Create Rewrite HintDb pydict.
#[export] Hint Rewrite @dlookup_dset_eq dget_dset_eq : pydict.
#[export] Hint Rewrite dget_dset_ne using reflexivity : pydict.
#[export] Hint Rewrite @dlookup_dset_neb using reflexivity : pydict.

(** Normalise every read of a key after a chain of writes of literal keys. *)
Ltac dict_simpl := autorewrite with pydict.
Tactic Notation "dict_simpl" "in" hyp(H) := autorewrite with pydict in H.

Lemma dupdate_lookup (e d : dict) k :
  wf_keys e ->
  dlookup k (dupdate d e) = match dlookup k e with Some v => Some v | None => dlookup k d end.
Proof.
  unfold wf_keys, dupdate. revert d.
  induction e as [|[k1 v1] e IH]; intros d Hnd; simpl; [done|].
  inversion Hnd as [|? ? Hn1 Hnd1]; subst. rewrite IH by done.
  destruct (String.eqb_spec k k1) as [->|Hk].
  - apply dlookup_None_keys in Hn1. by rewrite Hn1, dlookup_dset_eq.
  - destruct (dlookup k e); [done|]. by rewrite dlookup_dset_ne.
Qed.

Lemma dupdate_wf (d e : dict) : wf_keys d -> wf_keys (dupdate d e).
Proof.
  unfold wf_keys, dupdate. revert d. induction e as [|kv e IH]; intros d H; simpl; [done|].
  by apply IH, dset_NoDup.
Qed.

Lemma py_str_PStr s : py_str (PStr s) = s.
Proof. done. Qed.

Lemma dicts_of_app l m : dicts_of (l ++ m) = (dicts_of l ++ dicts_of m)%list.
Proof. apply flat_map_app. Qed.

Lemma dicts_of_In d (l : list pyval) : In d (dicts_of l) <-> In (PDict d) l.
Proof.
  unfold dicts_of. rewrite in_flat_map. split.
  - intros (v & Hv & Hd). destruct v; try done. by destruct Hd as [<-|[]].
  - intros H. exists (PDict d). split; [done|by left].
Qed.

Lemma dicts_of_map (l : list dict) : dicts_of (List.map PDict l) = l.
Proof. induction l; simpl; [done|]. by f_equal. Qed.

Lemma chars_length s : Z.of_nat (length (chars s)) = py_len s.
Proof. unfold py_len. induction s as [|c s IH]; [done|]. simpl. lia. Qed.

(** What can be iterated has a length: the number of values. *)
Lemma py_iter_length v l : py_iter v = Ok l -> py_length v = Ok (Z.of_nat (length l)).
Proof.
  destruct v; simpl; try done; intros [= <-]; try done.
  - by rewrite chars_length.
  - by rewrite length_map.
Qed.
