(* ===== verification/Sha256.v ===== *)
(** * SHA-256 and HMAC-SHA256 ([hashlib.sha256], [hmac.new] of the standard library)

    The digest is used by the verifier (failure fingerprints), the procedure
    cache (content hashes) and the approval tokens (signatures).  Words are [Z]
    in [0, 2^32); bytes are [Z] in [0, 256). *)
From Stdlib Require Import ZArith Lia String Ascii List Bool.
From stdpp Require Import base tactics list strings option.
From S2P Require Import Prelude PyStr StrFacts.
Local Open Scope Z_scope.

Definition mask32 : Z := 4294967295.
Definition w32 (x : Z) : Z := Z.land x mask32.
Definition add32 (x y : Z) : Z := w32 (x + y).
Definition not32 (x : Z) : Z := Z.lxor x mask32.
Definition rotr (n x : Z) : Z := w32 (Z.lor (Z.shiftr x n) (Z.shiftl x (32 - n))).
Definition shr (n x : Z) : Z := Z.shiftr x n.

Definition ch (x y z : Z) : Z := Z.lxor (Z.land x y) (Z.land (not32 x) z).
Definition maj (x y z : Z) : Z := Z.lxor (Z.lxor (Z.land x y) (Z.land x z)) (Z.land y z).
Definition bsig0 (x : Z) : Z := Z.lxor (Z.lxor (rotr 2 x) (rotr 13 x)) (rotr 22 x).
Definition bsig1 (x : Z) : Z := Z.lxor (Z.lxor (rotr 6 x) (rotr 11 x)) (rotr 25 x).
Definition ssig0 (x : Z) : Z := Z.lxor (Z.lxor (rotr 7 x) (rotr 18 x)) (shr 3 x).
Definition ssig1 (x : Z) : Z := Z.lxor (Z.lxor (rotr 17 x) (rotr 19 x)) (shr 10 x).

(** The first 32 bits of the fractional parts of the square (cube) roots of the
    first primes. *)
Definition primes64 : list Z :=
  [2; 3; 5; 7; 11; 13; 17; 19; 23; 29; 31; 37; 41; 43; 47; 53; 59; 61; 67; 71; 73; 79; 83; 89; 97; 101;
   103; 107; 109; 113; 127; 131; 137; 139; 149; 151; 157; 163; 167; 173; 179; 181; 191; 193; 197; 199;
   211; 223; 227; 229; 233; 239; 241; 251; 257; 263; 269; 271; 277; 281; 283; 293; 307; 311].

(** Integer cube root by bisection on the bits. *)
Fixpoint cbrt_bits (n : nat) (acc x : Z) : Z :=
  match n with
  | O => acc
  | S n' =>
      let c := acc + 2 ^ Z.of_nat n' in
      cbrt_bits n' (if c * c * c <=? x then c else acc) x
  end.

Definition k256 : list Z := Eval vm_compute in
  List.map (fun p => w32 (cbrt_bits 36 0 (p * 2 ^ 96))) primes64.
Definition h256 : list Z := Eval vm_compute in
  List.map (fun p => w32 (Z.sqrt (p * 2 ^ 64))) (firstn 8 primes64).

(** ** Padding and blocks *)

Definition pad (msg : list Z) : list Z :=
  let len := Z.of_nat (length msg) in
  let zeros := (55 - len) mod 64 in
  (msg ++ [128] ++ repeat 0 (Z.to_nat zeros)
     ++ List.map (fun i => Z.land (Z.shiftr (8 * len) (8 * i)) 255) [7; 6; 5; 4; 3; 2; 1; 0])%list.

Fixpoint words (bs : list Z) : list Z :=
  match bs with
  | a :: b :: c :: d :: r => (a * 16777216 + b * 65536 + c * 256 + d) :: words r
  | _ => []
  end.

(** The message schedule, newest word first: [n] more words. *)
Fixpoint schedule (n : nat) (rev_w : list Z) : list Z :=
  match n with
  | O => rev_w
  | S n' =>
      let w i := nth i rev_w 0 in
      schedule n' (add32 (add32 (ssig1 (w 1%nat)) (w 6%nat)) (add32 (ssig0 (w 14%nat)) (w 15%nat)) :: rev_w)
  end.

Definition round (st : list Z) (kw : Z * Z) : list Z :=
  match st with
  | [a; b; c; d; e; f; g; h] =>
      let t1 := add32 (add32 h (bsig1 e)) (add32 (add32 (ch e f g) (fst kw)) (snd kw)) in
      let t2 := add32 (bsig0 a) (maj a b c) in
      [add32 t1 t2; a; b; c; add32 d t1; e; f; g]
  | _ => st
  end.

Definition compress (st : list Z) (block : list Z) : list Z :=
  let w := List.rev (schedule 48 (List.rev block)) in
  List.map (fun p => add32 (fst p) (snd p)) (List.combine st (fold_left round (List.combine k256 w) st)).

Fixpoint blocks (n : nat) (ws : list Z) : list (list Z) :=
  match n with
  | O => []
  | S n' => match ws with [] => [] | _ => firstn 16 ws :: blocks n' (skipn 16 ws) end
  end.

Definition bytes_of_word (w : Z) : list Z :=
  List.map (fun i => Z.land (Z.shiftr w (8 * i)) 255) [3; 2; 1; 0].

(** [hashlib.sha256(msg).digest()]. *)
Definition sha256 (msg : list Z) : list Z :=
  let ws := words (pad msg) in
  flat_map bytes_of_word (fold_left compress (blocks (length ws) ws) h256).

Fixpoint hexdigest (bs : list Z) : string :=
  match bs with
  | [] => EmptyString
  | b :: r => String (hex_digit (b / 16)) (String (hex_digit (b mod 16)) (hexdigest r))
  end.

(** [hmac.new(key, msg, sha256).digest()]. *)
Definition hmac_sha256 (key msg : list Z) : list Z :=
  let key := if Z.of_nat (length key) <=? 64 then key else sha256 key in
  let key := (key ++ repeat 0 (64 - length key))%list in
  let inner := sha256 (List.map (fun b => Z.lxor b 54) key ++ msg)%list in
  sha256 (List.map (fun b => Z.lxor b 92) key ++ inner)%list.

(** [hashlib.sha256(s.encode("utf-8")).hexdigest()]. *)
Definition sha256_hex (s : string) : string := hexdigest (sha256 (utf8_encode s)).

(** ** Test vectors *)

Example sha256_abc :
  sha256_hex "abc" = "ba7816bf8f01cfea414140de5dae2223b00361a396177a9cb410ff61f20015ad"%string.
Proof. vm_compute. reflexivity. Qed.

Example sha256_two_blocks :
  sha256_hex "abcdbcdecdefdefgefghfghighijhijkijkljklmklmnlmnomnopnopq" =
  "248d6a61d20638b8e5c026930c3e6039a33ce45964ff2167f6ecedd419db06c1"%string.
Proof. vm_compute. reflexivity. Qed.

Example hmac_jefe :
  hexdigest (hmac_sha256 (utf8_encode "Jefe") (utf8_encode "what do ya want for nothing?")) =
  "5bdcc146bf60754e6a042426089575c75a003f089d2739839dec58b964ec3843"%string.
Proof. vm_compute. reflexivity. Qed.

(** ** Lemmas *)

Lemma compress_length st b : length st = 8%nat -> length (compress st b) = 8%nat.
Proof.
  intros Hst. unfold compress. rewrite length_map, length_combine, Hst.
  set (l := List.combine k256 _). clearbody l.
  enough (length (fold_left round l st) = 8%nat) as -> by done.
  revert st Hst. induction l as [|kw l IH]; intros st Hst; simpl; [done|].
  apply IH. unfold round. do 8 (destruct st as [|? st]; [done|]). by destruct st.
Qed.

Lemma sha256_length msg : length (sha256 msg) = 32%nat.
Proof.
  unfold sha256. set (bl := blocks _ _). clearbody bl.
  assert (H : length (fold_left compress bl h256) = 8%nat).
  { assert (H0 : length h256 = 8%nat) by done. revert H0. generalize h256.
    induction bl as [|b bl IH]; intros st Hst; simpl; [done|]. by apply IH, compress_length. }
  generalize dependent (fold_left compress bl h256). intros st H.
  do 8 (destruct st as [|? st]; [done|]). by destruct st.
Qed.

(** The characters of a hexadecimal digest. *)
Definition is_hex (c : ascii) : bool :=
  let n := ord c in ((48 <=? n) && (n <=? 57)) || ((97 <=? n) && (n <=? 102)).

Lemma hexdigest_length bs : String.length (hexdigest bs) = (2 * length bs)%nat.
Proof. induction bs as [|b bs IH]; simpl; [done|]. rewrite IH. lia. Qed.

Lemma land255_range x : 0 <= Z.land x 255 < 256.
Proof.
  change 255 with (Z.ones 8). rewrite Z.land_ones by lia. apply Z.mod_pos_bound. lia.
Qed.

Lemma sha256_bytes msg : List.Forall (fun b => 0 <= b < 256) (sha256 msg).
Proof.
  unfold sha256. apply List.Forall_forall. intros b Hb. apply in_flat_map in Hb as (w & _ & Hb).
  unfold bytes_of_word in Hb. apply in_map_iff in Hb as (i & <- & _). apply land255_range.
Qed.

Lemma hex_digit_hex n : 0 <= n < 16 -> is_hex (hex_digit n) = true.
Proof.
  intros H. assert (Hn : exists k : nat, (k < 16)%nat /\ n = Z.of_nat k) by (exists (Z.to_nat n); lia).
  destruct Hn as (k & Hk & ->). do 16 (destruct k as [|k]; [reflexivity|]). lia.
Qed.

Lemma hexdigest_hex bs : List.Forall (fun b => 0 <= b < 256) bs -> all_chars is_hex (hexdigest bs) = true.
Proof.
  induction 1 as [|b bs Hb _ IH]; simpl; [done|]. rewrite IH.
  rewrite !hex_digit_hex; [done| |]; [apply Z.mod_pos_bound; lia|].
  split; [apply Z.div_pos; lia|apply Z.div_lt_upper_bound; lia].
Qed.

Lemma sha256_hex_shape s :
  String.length (sha256_hex s) = 64%nat /\ all_chars is_hex (sha256_hex s) = true.
Proof.
  unfold sha256_hex. split.
  - rewrite hexdigest_length, sha256_length. done.
  - apply hexdigest_hex, sha256_bytes.
Qed.
