(* ===== verification/Regex.v ===== *)
(** * Regular expressions ([re] of the standard library) and [fnmatch]

    The subset of Python's pattern language the program uses, as an abstract
    syntax; [ends] enumerates the end positions of the matches at a position in
    the order the backtracking engine tries them, so its head is what
    [Pattern.match] reports, and [search] is the truth of [re.search].
    [matches] is the declarative meaning; [ends_spec] proves them equivalent. *)
From Stdlib Require Import ZArith Lia String Ascii List Bool.
From stdpp Require Import base tactics list strings option.
From S2P Require Import Prelude PyStr.
Local Open Scope string_scope.

Inductive regex : Type :=
| REmpty
| RChar (p : ascii -> bool)
| RSeq (a b : regex)
| RAlt (a b : regex)
| RStar (greedy : bool) (r : regex)
| RWordB.

(** A position: the character before it (if any) and the rest of the subject. *)
Definition pos : Type := option ascii * string.

(** [\w] on one code point: [str.isalnum] or the underscore. *)
Definition is_word (c : ascii) : bool :=
  let n := ord c in
  (((48 <=? n) && (n <=? 57)) || ((65 <=? n) && (n <=? 90)) || ((97 <=? n) && (n <=? 122))
   || (n =? 95) || (n =? 170) || (n =? 178) || (n =? 179) || (n =? 181) || (n =? 185) || (n =? 186)
   || ((188 <=? n) && (n <=? 190)) || (((192 <=? n) && (n <=? 255)) && negb ((n =? 215) || (n =? 247))))%Z.

Definition word_boundary (p : pos) : bool :=
  let before := match fst p with Some c => is_word c | None => false end in
  let after := match snd p with String c _ => is_word c | EmptyString => false end in
  xorb before after.

Definition rest_len (p : pos) : nat := String.length (snd p).

(** The end positions of the matches of [r] from [p], in backtracking order.  An
    iteration of a star must consume a character, so the length of the rest
    bounds the iterations. *)
Fixpoint ends (r : regex) (p : pos) : list pos :=
  match r with
  | REmpty => [p]
  | RChar f => match snd p with
               | String c t => if f c then [(Some c, t)] else []
               | EmptyString => [] end
  | RSeq a b => flat_map (ends b) (ends a p)
  | RAlt a b => (ends a p ++ ends b p)%list
  | RWordB => if word_boundary p then [p] else []
  | RStar greedy q =>
      (fix star (fuel : nat) (p : pos) : list pos :=
         match fuel with
         | O => [p]
         | S fuel' =>
             let more := flat_map (star fuel')
                           (List.filter (fun e => Nat.ltb (rest_len e) (rest_len p)) (ends q p)) in
             if greedy then (more ++ [p])%list else p :: more
         end) (rest_len p) p
  end.

Definition nonempty {A : Type} (l : list A) : bool := match l with [] => false | _ => true end.

(** [re.search(r, s) is not None]. *)
Fixpoint search_from (r : regex) (prev : option ascii) (s : string) : bool :=
  (nonempty (ends r (prev, s))
   || match s with EmptyString => false | String c t => search_from r (Some c) t end)%bool.

Definition search (r : regex) (s : string) : bool := search_from r None s.

(** [re.findall(r, s)] for a pattern without groups: the texts of the successive
    non-overlapping matches; [skip] counts the characters of the last match still
    to be passed. *)
Fixpoint findall_from (r : regex) (skip : nat) (prev : option ascii) (s : string) : list string :=
  match s with
  | EmptyString => []
  | String c t =>
      match skip with
      | S k => findall_from r k (Some c) t
      | O =>
          match ends r (prev, s) with
          | e :: _ =>
              let n := (String.length s - rest_len e)%nat in
              str_take n s :: findall_from r (pred n) (Some c) t
          | [] => findall_from r 0 (Some c) t
          end
      end
  end.

Definition findall (r : regex) (s : string) : list string := findall_from r 0 None s.

(** ** Abbreviations of the pattern language *)

Definition rchar (c : ascii) : regex := RChar (Ascii.eqb c).
(** A literal under [re.IGNORECASE]. *)
Definition richar (c : ascii) : regex := RChar (fun a => Ascii.eqb (lower_char c) (lower_char a)).

Fixpoint rlit_by (f : ascii -> regex) (s : string) : regex :=
  match s with
  | EmptyString => REmpty
  | String c EmptyString => f c
  | String c r => RSeq (f c) (rlit_by f r)
  end.

Definition rlit : string -> regex := rlit_by rchar.
Definition rilit : string -> regex := rlit_by richar.

Fixpoint rseq (l : list regex) : regex :=
  match l with [] => REmpty | [r] => r | r :: t => RSeq r (rseq t) end.
Fixpoint ralt (l : list regex) : regex :=
  match l with [] => RChar (fun _ => false) | [r] => r | r :: t => RAlt r (ralt t) end.

Definition rstar : regex -> regex := RStar true.
Definition rlazy : regex -> regex := RStar false.
Definition rplus (r : regex) : regex := RSeq r (rstar r).
Definition ropt (r : regex) : regex := RAlt r REmpty.
Definition rspace : regex := RChar is_space.
Definition rnonspace : regex := RChar (fun c => negb (is_space c)).
Definition rdot : regex := RChar (fun c => negb (Ascii.eqb c "010")).
Definition rany : regex := RChar (fun _ => true).
Definition rclass (s : string) : regex := RChar (fun c => contains (String c EmptyString) s).
Definition rnonword : regex := RChar (fun c => negb (is_word c)).
Definition is_alpha (c : ascii) : bool :=
  let n := ord c in (((65 <=? n) && (n <=? 90)) || ((97 <=? n) && (n <=? 122)))%Z.
Definition ralpha : regex := RChar is_alpha.

Fixpoint rtimes (n : nat) (r : regex) : regex :=
  match n with O => REmpty | S O => r | S n' => RSeq r (rtimes n' r) end.
(** [r{n,}]. *)
Definition ratleast (n : nat) (r : regex) : regex := RSeq (rtimes n r) (rstar r).

(** ** [fnmatch.fnmatch] on a POSIX system (case-sensitive) *)

(** The items of a bracket expression, up to its closing bracket (a [\]] or [!]
    first is literal): the set and the rest of the pattern. *)
Fixpoint bracket_close (first : bool) (s : string) : option (string * string) :=
  match s with
  | EmptyString => None
  | String c r =>
      if (Ascii.eqb c "]" && negb first)%bool then Some (EmptyString, r)
      else match bracket_close false r with
           | Some (items, rest) => Some (String c items, rest)
           | None => None
           end
  end.

Fixpoint in_items (c : ascii) (items : string) : bool :=
  match items with
  | EmptyString => false
  | String a r =>
      match r with
      | String "-" (String b r') =>
          ((Z.leb (ord a) (ord c) && Z.leb (ord c) (ord b)) || in_items c r')%bool
      | _ => (Ascii.eqb a c || in_items c r)%bool
      end
  end.

(** The pattern as a regular expression; [fuel] bounds the pattern's length. *)
Fixpoint fn_translate (fuel : nat) (pat : string) : regex :=
  match fuel, pat with
  | S fuel', String c r =>
      if Ascii.eqb c "*" then RSeq (rstar rany) (fn_translate fuel' r)
      else if Ascii.eqb c "?" then RSeq rany (fn_translate fuel' r)
      else if Ascii.eqb c "[" then
        match r with
        | String "!" r1 =>
            match bracket_close true r1 with
            | Some (items, rest) =>
                RSeq (RChar (fun a => negb (in_items a items))) (fn_translate fuel' rest)
            | None => RSeq (rchar "[") (fn_translate fuel' r)
            end
        | _ =>
            match bracket_close true r with
            | Some (items, rest) => RSeq (RChar (fun a => in_items a items)) (fn_translate fuel' rest)
            | None => RSeq (rchar "[") (fn_translate fuel' r)
            end
        end
      else RSeq (rchar c) (fn_translate fuel' r)
  | _, _ => REmpty
  end.

(** [fnmatch.fnmatch(name, pat)]: the whole name must match. *)
Definition fnmatch (name pat : string) : bool :=
  existsb (fun e => String.eqb (snd e) "") (ends (fn_translate (String.length pat) pat) (None, name)).

(** ** Meaning *)

Inductive matches : regex -> pos -> pos -> Prop :=
| m_empty p : matches REmpty p p
| m_char f b c t : f c = true -> matches (RChar f) (b, String c t) (Some c, t)
| m_seq a b p q e : matches a p q -> matches b q e -> matches (RSeq a b) p e
| m_alt_l a b p e : matches a p e -> matches (RAlt a b) p e
| m_alt_r a b p e : matches b p e -> matches (RAlt a b) p e
| m_star_nil g r p : matches (RStar g r) p p
| m_star_cons g r p q e : matches r p q -> matches (RStar g r) q e -> matches (RStar g r) p e
| m_wordb p : word_boundary p = true -> matches RWordB p p.

Lemma matches_shrinks r p e : matches r p e -> e = p \/ (rest_len e < rest_len p)%nat.
Proof.
  induction 1 as [|f b c t H| a b p q e _ IH1 _ IH2| | | |g r p q e _ IH1 _ IH2|]; auto.
  - destruct IH1 as [->|], IH2 as [->|]; auto; right; lia.
  - destruct IH1 as [->|], IH2 as [->|]; auto; right; lia.
Qed.

Lemma ends_sound r p e : In e (ends r p) -> matches r p e.
Proof.
  revert p e. induction r as [|f|a IHa b IHb|a IHa b IHb|g r IH|]; intros p e; simpl.
  - intros [<-|[]]. constructor.
  - destruct p as [b [|c t]]; simpl; [done|]. destruct (f c) eqn:E; [|done].
    intros [<-|[]]. by constructor.
  - intros H. apply in_flat_map in H as (q & Hq & He). econstructor; eauto.
  - intros H. apply in_app_iff in H as [H|H]; [apply m_alt_l|apply m_alt_r]; auto.
  - generalize (rest_len p) as fuel. intros fuel. revert p e.
    induction fuel as [|fuel IHf]; intros p e; [intros [<-|[]]; constructor|].
    set (more := flat_map _ _). intros H.
    assert (Hm : In e more \/ e = p).
    { destruct g; [apply in_app_iff in H as [H|[<-|[]]]; auto|destruct H as [<-|H]; auto]. }
    destruct Hm as [Hm| ->]; [|constructor].
    apply in_flat_map in Hm as (q & Hq & He). apply filter_In in Hq as [Hq _].
    econstructor; [by apply IH|by apply IHf].
  - destruct (word_boundary p) eqn:E; [|done]. intros [<-|[]]. by constructor.
Qed.

(** One-character-at-least iterations suffice for a star. *)
Lemma star_ends_complete g r :
  (forall p e, matches r p e -> In e (ends r p)) ->
  forall fuel p e, (rest_len p <= fuel)%nat -> matches (RStar g r) p e ->
  In e ((fix star (fuel : nat) (p : pos) : list pos :=
         match fuel with
         | O => [p]
         | S fuel' =>
             let more := flat_map (star fuel')
                           (List.filter (fun e => Nat.ltb (rest_len e) (rest_len p)) (ends r p)) in
             if g then (more ++ [p])%list else p :: more
         end) fuel p).
Proof.
  intros IH fuel p e Hf H. remember (RStar g r) as sr eqn:Esr. revert fuel Hf.
  induction H as [| | | | |g' r' p|g' r' p q e H1 _ H2 IH2|]; try done; injection Esr as -> ->; intros fuel Hf.
  - destruct fuel as [|fuel]; [by left|]. cbv zeta. destruct g; [apply in_app_iff; right|]; by left.
  - destruct (matches_shrinks _ _ _ H1) as [->|Hlt]; [by apply IH2|].
    destruct fuel as [|fuel]; [lia|]. cbv zeta.
    assert (Hin : In e (flat_map ((fix star (fuel : nat) (p : pos) : list pos :=
         match fuel with
         | O => [p]
         | S fuel' =>
             let more := flat_map (star fuel')
                           (List.filter (fun e => Nat.ltb (rest_len e) (rest_len p)) (ends r p)) in
             if g then (more ++ [p])%list else p :: more
         end) fuel) (List.filter (fun e => Nat.ltb (rest_len e) (rest_len p)) (ends r p)))).
    { apply in_flat_map. exists q. split; [|apply IH2; [done|lia]].
      apply filter_In. split; [by apply IH|]. by apply Nat.ltb_lt. }
    destruct g; [apply in_app_iff; by left|by right].
Qed.

Lemma ends_complete r p e : matches r p e -> In e (ends r p).
Proof.
  revert p e. induction r as [|f|a IHa b IHb|a IHa b IHb|g r IH|]; intros p e H.
  - inversion H; subst. by left.
  - inversion H as [|f' b c t Hf| | | | | |]; subst. simpl. rewrite Hf. by left.
  - inversion H; subst. simpl. apply in_flat_map. eauto.
  - inversion H; subst; simpl; apply in_app_iff; auto.
  - simpl. by apply star_ends_complete.
  - inversion H as [| | | | | | |p' Hb]; subst. simpl. rewrite Hb. by left.
Qed.

Lemma ends_spec r p e : In e (ends r p) <-> matches r p e.
Proof. split; [apply ends_sound|apply ends_complete]. Qed.

(** [found r s]: some part of [s] matches [r]. *)
Inductive suffix_pos : option ascii -> string -> pos -> Prop :=
| sp_here b s : suffix_pos b s (b, s)
| sp_next b c t p : suffix_pos (Some c) t p -> suffix_pos b (String c t) p.

Definition found (r : regex) (s : string) : Prop :=
  exists p e, suffix_pos None s p /\ matches r p e.

Lemma nonempty_ends r p : nonempty (ends r p) = true <-> exists e, matches r p e.
Proof.
  split.
  - destruct (ends r p) as [|e l] eqn:E; [done|]. intros _. exists e. apply ends_spec. rewrite E. by left.
  - intros [e He]. apply ends_spec in He. by destruct (ends r p).
Qed.

Lemma search_from_spec r b s :
  search_from r b s = true <-> exists p e, suffix_pos b s p /\ matches r p e.
Proof.
  revert b. induction s as [|c t IH]; intros b; simpl; rewrite orb_true_iff, nonempty_ends.
  - split.
    + intros [[e He]|]; [|done]. exists (b, ""), e. split; [constructor|done].
    + intros (p & e & Hp & He). inversion Hp; subst. left. eauto.
  - rewrite IH. split.
    + intros [[e He]|(p & e & Hp & He)].
      * exists (b, String c t), e. split; [constructor|done].
      * exists p, e. split; [by constructor|done].
    + intros (p & e & Hp & He). inversion Hp; subst; [left; eauto|right; eauto].
Qed.

Lemma search_spec r s : search r s = true <-> found r s.
Proof. apply search_from_spec. Qed.
