(* ===== verification/Json.v ===== *)
(** * [json.loads] of the standard library

    The decoder on which the router's reading of a model's answer depends, and
    the inverse of [json.dumps] ([PyVal.json_dumps]).  Whitespace, the three
    non-standard constants, the number grammar, the escapes and "last value of a
    repeated key wins" are CPython's; all syntax errors are one exception
    ([JSONDecodeError], a [ValueError]), and the interpreter's recursion limit
    is not modelled. *)
From Stdlib Require Import ZArith Lia String Ascii List Bool.
From Stdlib Require Import SpecFloat.
From stdpp Require Import base tactics list strings option.
From S2P Require Import Prelude PyStr PyFloat PyVal.
Local Open Scope string_scope.
Local Open Scope Z_scope.

Definition json_error {A : Type} : res A := Err (ValueError "JSONDecodeError").

(** [except json.JSONDecodeError]. *)
Definition is_json_error (e : pyexc) : bool :=
  match e with ValueError m => String.eqb m "JSONDecodeError" | _ => false end.

(** ** Lexical elements *)

Definition json_space (c : ascii) : bool :=
  let n := ord c in (n =? 32) || (n =? 9) || (n =? 10) || (n =? 13).

Definition skip_ws (s : string) : string := lstrip_by json_space s.

(** The longest prefix of digits, and the rest. *)
Fixpoint span_digits (s : string) : string * string :=
  match s with
  | String c r => if is_digit c then let '(d, t) := span_digits r in (String c d, t) else ("", s)
  | EmptyString => ("", "")
  end.

Definition is_char (n : Z) (c : ascii) : bool := ord c =? n.

Definition digits_value (ds : string) : Z :=
  (fix go (acc : Z) (s : string) := match s with
     | EmptyString => acc
     | String c r => go (10 * acc + (ord c - 48)) r end) 0 ds.

(** [float("<m>e<k>")]: the binary64 nearest to [m * 10^k], [m >= 0]; [d] bounds the digits of [m]. *)
Definition decimal_float (neg : bool) (m k d : Z) : float :=
  let f :=
    if m =? 0 then S754_zero false
    else if 310 <? d + k then S754_infinity false
    else if d + k <? -400 then S754_zero false
    else if 0 <=? k then float_of_Z (m * 10 ^ k)
    else
      (* sixty-four extra bits and a sticky bit *)
      let q := m * 2 ^ (64 - 4 * k) in
      let r := 10 ^ (- k) in
      binary_normalize prec emax (2 * (q / r) + (if q mod r =? 0 then 0 else 1)) (4 * k - 65) false in
  if neg then SFopp f else f.

(** The exponent part: its value and the rest, when it is one. *)
Definition scan_exponent (s : string) : option (Z * string) :=
  match s with
  | String c r =>
      if is_char 101 c || is_char 69 c then
        let '(neg, r') := match r with
                          | String c' t => if is_char 45 c' then (true, t) else if is_char 43 c' then (false, t) else (false, r)
                          | EmptyString => (false, r) end in
        let '(ds, t) := span_digits r' in
        if String.eqb ds "" then None
        else Some ((if neg then - digits_value ds else digits_value ds), t)
      else None
  | EmptyString => None
  end.

Definition scan_fraction (s : string) : option (string * string) :=
  match s with
  | String c r =>
      if is_char 46 c then
        let '(ds, t) := span_digits r in if String.eqb ds "" then None else Some (ds, t)
      else None
  | EmptyString => None
  end.

(** The integer part of a number: a zero, or digits without a leading zero. *)
Definition scan_integer (s : string) : option (string * string) :=
  match s with
  | String c r => if is_char 48 c then Some (String c "", r)
                  else if is_digit c then Some (span_digits s) else None
  | EmptyString => None
  end.

Definition scan_number (neg : bool) (s : string) : res (pyval * string) :=
  match scan_integer s with
  | None => json_error
  | Some (ds, t) =>
      let '(frac, t) := match scan_fraction t with Some (f, t') => (f, t') | None => ("", t) end in
      let '(exp, t) := match scan_exponent t with Some (e, t') => (Some e, t') | None => (None, t) end in
      match frac, exp with
      | EmptyString, None =>
          if 4300 <? py_len ds then Err (ValueError "int string conversion limit")
          else Ok (PInt (if neg then - digits_value ds else digits_value ds), t)
      | _, _ =>
          let e := match exp with Some e => e | None => 0 end in
          Ok (PFloat (decimal_float neg (digits_value (ds ++ frac)) (e - py_len frac) (py_len (ds ++ frac))), t)
      end
  end.

(** ** Strings *)

Definition hex_value (c : ascii) : option Z :=
  let n := ord c in
  if (48 <=? n) && (n <=? 57) then Some (n - 48)
  else if (97 <=? n) && (n <=? 102) then Some (n - 87)
  else if (65 <=? n) && (n <=? 70) then Some (n - 55) else None.

Definition unescape (c : ascii) : option ascii :=
  let n := ord c in
  if (n =? 34) || (n =? 92) || (n =? 47) then Some c
  else if n =? 98 then Some (chr 8) else if n =? 102 then Some (chr 12)
  else if n =? 110 then Some (chr 10) else if n =? 114 then Some (chr 13)
  else if n =? 116 then Some (chr 9) else None.

(** The text after the opening quote: the value and the rest after the closing one. *)
Fixpoint scan_string (s : string) : res (string * string) :=
  match s with
  | EmptyString => json_error
  | String c r =>
      let n := ord c in
      if n =? 34 then Ok ("", r)
      else if n =? 92 then
        match r with
        | String e r' =>
            if is_char 117 e then
              match r' with
              | String a (String b (String c' (String d r''))) =>
                  match hex_value a, hex_value b, hex_value c', hex_value d with
                  | Some x, Some y, Some z, Some w =>
                      if 255 <? 4096 * x + 256 * y + 16 * z + w
                      then Err (Unmodelled "a code point above U+00FF")
                      else let! vt := scan_string r'' in
                           Ok (String (chr (4096 * x + 256 * y + 16 * z + w)) (fst vt), snd vt)
                  | _, _, _, _ => json_error
                  end
              | _ => json_error
              end
            else
              match unescape e with
              | Some c' => let! vt := scan_string r' in Ok (String c' (fst vt), snd vt)
              | None => json_error
              end
        | EmptyString => json_error
        end
      else if n <? 32 then json_error
      else let! vt := scan_string r in Ok (String c (fst vt), snd vt)
  end.

(** ** Values *)

Definition strip_prefix (p s : string) : option string :=
  if startswith s p then Some (str_drop (String.length p) s) else None.

Definition constants : list (string * pyval) :=
  [("null", PNone); ("true", PBool true); ("false", PBool false); ("NaN", PFloat S754_nan);
   ("Infinity", PFloat (S754_infinity false)); ("-Infinity", PFloat (S754_infinity true))].

Fixpoint scan_constant (cs : list (string * pyval)) (s : string) : option (pyval * string) :=
  match cs with
  | [] => None
  | (p, v) :: r => match strip_prefix p s with Some t => Some (v, t) | None => scan_constant r s end
  end.

(** The values that do not start with a quote, bracket or brace. *)
Definition scan_atom (s : string) : res (pyval * string) :=
  match scan_constant constants s with
  | Some vt => Ok vt
  | None => match s with
            | String c r => if is_char 45 c then scan_number true r else scan_number false s
            | EmptyString => json_error
            end
  end.

Fixpoint scan_once (fuel : nat) (s : string) : res (pyval * string) :=
  match fuel, s with
  | O, _ | _, EmptyString => json_error
  | S fuel, String c r =>
      if is_char 34 c then let! vt := scan_string r in Ok (PStr (fst vt), snd vt)
      else if is_char 91 c then
        match skip_ws r with
        | String c' t as s' =>
            if is_char 93 c' then Ok (PList [], t)
            else let! vt := scan_elements fuel s' in Ok (PList (fst vt), snd vt)
        | EmptyString => json_error
        end
      else if is_char 123 c then
        match skip_ws r with
        | String c' t as s' =>
            if is_char 125 c' then Ok (PDict [], t)
            else let! vt := scan_members fuel s' [] in Ok (PDict (fst vt), snd vt)
        | EmptyString => json_error
        end
      else scan_atom s
  end
(** After the opening bracket, with at least one element. *)
with scan_elements (fuel : nat) (s : string) : res (list pyval * string) :=
  match fuel with
  | O => json_error
  | S fuel =>
      let! vt := scan_once fuel s in
      match skip_ws (snd vt) with
      | String c t =>
          if is_char 93 c then Ok ([fst vt], t)
          else if is_char 44 c then
            let! rest := scan_elements fuel (skip_ws t) in Ok (fst vt :: fst rest, snd rest)
          else json_error
      | EmptyString => json_error
      end
  end
(** After the opening brace, with at least one member. *)
with scan_members (fuel : nat) (s : string) (acc : dict) : res (dict * string) :=
  match fuel, s with
  | O, _ | _, EmptyString => json_error
  | S fuel, String q r =>
      if negb (is_char 34 q) then json_error
      else
        let! kt := scan_string r in
        match skip_ws (snd kt) with
        | String colon t =>
            if negb (is_char 58 colon) then json_error
            else
              let! vt := scan_once fuel (skip_ws t) in
              let acc := dset (fst kt) (fst vt) acc in
              match skip_ws (snd vt) with
              | String c t' =>
                  if is_char 125 c then Ok (acc, t')
                  else if is_char 44 c then scan_members fuel (skip_ws t') acc
                  else json_error
              | EmptyString => json_error
              end
        | EmptyString => json_error
        end
  end.

(** Two units of fuel per character are enough: every nested call either consumes
    a character or follows one that did. *)
Definition json_loads (s : string) : res pyval :=
  let! vt := scan_once (2 * String.length s + 2) (skip_ws s) in
  match skip_ws (snd vt) with
  | EmptyString => Ok (fst vt)
  | _ => json_error
  end.

Example loads_nested :
  json_loads (" {" ++ dq ++ "a" ++ dq ++ ": [1, -2.5e1, null ,true], " ++ dq ++ "b" ++ dq ++ ":{}} ") =
  Ok (PDict [("a", PList [PInt 1; PFloat (float_of_Z (-25)); PNone; PBool true]); ("b", PDict [])]).
Proof. vm_compute. reflexivity. Qed.

Example loads_tenth : json_loads "0.1" = Ok (PFloat (float_lit 1 1)).
Proof. vm_compute. reflexivity. Qed.

Example loads_trailing_comma : json_loads "[1,]" = json_error.
Proof. vm_compute. reflexivity. Qed.

(** ** [float(v)] *)

(** An underscore is allowed between two digits, and dropped. *)
Fixpoint drop_underscores (prev : bool) (s : string) : option string :=
  match s with
  | EmptyString => Some EmptyString
  | String c r =>
      if Ascii.eqb c "_" then
        match r with
        | String d _ => if prev && is_digit d then drop_underscores false r else None
        | EmptyString => None
        end
      else option_map (String c) (drop_underscores (is_digit c) r)
  end.

Definition unsigned_float (neg : bool) (s : string) : option float :=
  if str_in s ["inf"; "infinity"] then Some (SpecFloat.S754_infinity neg)
  else if String.eqb s "nan" then Some SpecFloat.S754_nan
  else
    let '(ds, t) := span_digits s in
    let '(frac, t) := match t with String c t' => if Ascii.eqb c "." then span_digits t' else ("", t) | _ => ("", t) end in
    let '(e, t) := match scan_exponent t with Some (e, t') => (e, t') | None => (0, t) end in
    if String.eqb (ds ++ frac) "" || negb (String.eqb t "") then None
    else Some (decimal_float neg (digits_value (ds ++ frac)) (e - py_len frac) (py_len (ds ++ frac))).

Definition float_text (s : string) : option float :=
  match drop_underscores false (lower (strip s)) with
  | Some (String c r as t) =>
      if Ascii.eqb c "-" then unsigned_float true r
      else if Ascii.eqb c "+" then unsigned_float false r else unsigned_float false t
  | _ => None
  end.

Definition py_float (v : pyval) : res float :=
  match v with
  | PFloat _ | PInt _ | PBool _ => num_to_float v
  | PStr s => match float_text s with
              | Some f => Ok f
              | None => Err (ValueError ("could not convert string to float: " ++ repr_str s))
              end
  | _ => Err (TypeError ("float() argument must be a string or a real number, not '" ++ type_name v ++ sq))
  end.
