(* ===== verification/State.v ===== *)
(** * The state models ([state.py])

    The pydantic models the nodes construct, as records; [Literal] types are
    enumerations with their parser.  A constructor call that pydantic validates
    is a function into [res]: it fails with [ValidationError] exactly when a
    [Literal] field gets another string.  [<Model>_dump] is [model_dump()]: the
    fields in declaration order. *)
From Stdlib Require Import ZArith Lia String Ascii List Bool.
From stdpp Require Import base tactics list strings option.
From S2P Require Import Prelude PyStr PyFloat PyVal.
Local Open Scope string_scope.
Local Open Scope Z_scope.

(** ** [Literal] types *)

Inductive Intent := code_change | analysis | research | question | refactor | debug.
Inductive RouteLane := interactive | deep_planning | recovery_lane.
Inductive RetryTarget := rt_planner | rt_coder | rt_context_builder | rt_router.
Inductive ContextScope := stable_prefix | working_set | full_reset.
Inductive PlanAction := keep | amend | discard_reset.
Inductive ProviderUsed := local | remote.

#[export] Instance Intent_eq_dec : EqDecision Intent.
Proof. solve_decision. Defined.
#[export] Instance RouteLane_eq_dec : EqDecision RouteLane.
Proof. solve_decision. Defined.
#[export] Instance RetryTarget_eq_dec : EqDecision RetryTarget.
Proof. solve_decision. Defined.
#[export] Instance ContextScope_eq_dec : EqDecision ContextScope.
Proof. solve_decision. Defined.
#[export] Instance PlanAction_eq_dec : EqDecision PlanAction.
Proof. solve_decision. Defined.
#[export] Instance ProviderUsed_eq_dec : EqDecision ProviderUsed.
Proof. solve_decision. Defined.

(** A [Literal] type: its members and their spelling. *)
Class Literal (A : Type) := { members : list A; spelling : A -> string }.

#[export] Instance Intent_literal : Literal Intent := {
  members := [code_change; analysis; research; question; refactor; debug];
  spelling i := match i with
    | code_change => "code_change" | analysis => "analysis" | research => "research"
    | question => "question" | refactor => "refactor" | debug => "debug" end }.
#[export] Instance RouteLane_literal : Literal RouteLane := {
  members := [interactive; deep_planning; recovery_lane];
  spelling l := match l with
    | interactive => "interactive" | deep_planning => "deep_planning"
    | recovery_lane => "recovery" end }.
#[export] Instance RetryTarget_literal : Literal RetryTarget := {
  members := [rt_planner; rt_coder; rt_context_builder; rt_router];
  spelling t := match t with
    | rt_planner => "planner" | rt_coder => "coder"
    | rt_context_builder => "context_builder" | rt_router => "router" end }.
#[export] Instance ContextScope_literal : Literal ContextScope := {
  members := [stable_prefix; working_set; full_reset];
  spelling c := match c with
    | stable_prefix => "stable_prefix" | working_set => "working_set"
    | full_reset => "full_reset" end }.
#[export] Instance PlanAction_literal : Literal PlanAction := {
  members := [keep; amend; discard_reset];
  spelling p := match p with
    | keep => "keep" | amend => "amend" | discard_reset => "discard_reset" end }.
#[export] Instance ProviderUsed_literal : Literal ProviderUsed := {
  members := [local; remote];
  spelling p := match p with local => "local" | remote => "remote" end }.

(** Pydantic's validation of a string against a [Literal] type. *)
Definition parse_literal {A} `{Literal A} (s : string) : res A :=
  match List.find (fun a => String.eqb (spelling a) s) members with
  | Some a => Ok a
  | None => Err (ValidationError "literal_error")
  end.

Definition lit {A} `{Literal A} (a : A) : pyval := PStr (spelling a).

Lemma parse_literal_spelling {A} `{Literal A} s (a : A) :
  parse_literal s = Ok a -> s = spelling a.
Proof.
  unfold parse_literal. destruct (List.find _ _) eqn:E; [|done]. intros [= ->].
  apply List.find_some in E as [_ E]. by apply String.eqb_eq in E.
Qed.

Lemma RetryTarget_roundtrip (t : RetryTarget) : parse_literal (spelling t) = Ok t.
Proof. by destruct t. Qed.
Lemma ContextScope_roundtrip (t : ContextScope) : parse_literal (spelling t) = Ok t.
Proof. by destruct t. Qed.
Lemma PlanAction_roundtrip (t : PlanAction) : parse_literal (spelling t) = Ok t.
Proof. by destruct t. Qed.

Definition dump_opt {A} (f : A -> dict) (o : option A) : pyval :=
  match o with Some a => PDict (f a) | None => PNone end.
Definition lit_opt {A} `{Literal A} (o : option A) : pyval :=
  match o with Some a => lit a | None => PNone end.
Definition strs (l : list string) : pyval := PList (List.map PStr l).

(** ** Models *)

Record HandoffEvidence := { he_kind : string; he_detail : string; he_ref : string }.

Definition HandoffEvidence_dump (e : HandoffEvidence) : dict :=
  [("kind", PStr (he_kind e)); ("detail", PStr (he_detail e)); ("ref", PStr (he_ref e))].

Record AgentHandoff := {
  ah_producer : string; ah_consumer : string; ah_objective : string;
  ah_file_scope : list string; ah_evidence : list HandoffEvidence;
  ah_constraints : list string; ah_acceptance_checks : list string;
  ah_retry_budget : Z; ah_provenance : list string }.

Definition AgentHandoff_dump (h : AgentHandoff) : dict :=
  [("producer", PStr (ah_producer h)); ("consumer", PStr (ah_consumer h));
   ("objective", PStr (ah_objective h)); ("file_scope", strs (ah_file_scope h));
   ("evidence", PList (List.map (fun e => PDict (HandoffEvidence_dump e)) (ah_evidence h)));
   ("constraints", strs (ah_constraints h));
   ("acceptance_checks", strs (ah_acceptance_checks h));
   ("retry_budget", PInt (ah_retry_budget h)); ("provenance", strs (ah_provenance h))].

Record ToolCall := { tc_tool : string; tc_input : dict }.

Definition ToolCall_dump (c : ToolCall) : dict :=
  [("tool", PStr (tc_tool c)); ("input", PDict (tc_input c))].

Record PlanStep := {
  ps_id : string; ps_description : string; ps_tools : list ToolCall; ps_expected_outcome : string;
  ps_files_touched : list string; ps_handoff : option AgentHandoff }.

Definition ToolCalls_dump (l : list ToolCall) : pyval := PList (List.map (fun c => PDict (ToolCall_dump c)) l).

Definition PlanStep_dump (p : PlanStep) : dict :=
  [("id", PStr (ps_id p)); ("description", PStr (ps_description p)); ("tools", ToolCalls_dump (ps_tools p));
   ("expected_outcome", PStr (ps_expected_outcome p)); ("files_touched", strs (ps_files_touched p));
   ("handoff", dump_opt AgentHandoff_dump (ps_handoff p))].

Record RecoveryAction := {
  ra_failure_class : string; ra_failure_fingerprint : string; ra_rationale : string;
  ra_retry_target : RetryTarget; ra_context_scope : ContextScope; ra_plan_action : PlanAction }.

Definition RecoveryAction_dump (r : RecoveryAction) : dict :=
  [("failure_class", PStr (ra_failure_class r));
   ("failure_fingerprint", PStr (ra_failure_fingerprint r));
   ("rationale", PStr (ra_rationale r)); ("retry_target", lit (ra_retry_target r));
   ("context_scope", lit (ra_context_scope r)); ("plan_action", lit (ra_plan_action r))].

Record RecoveryPacket := {
  rp_action : RecoveryAction; rp_loop : Z; rp_origin : string; rp_summary : string;
  rp_last_check : string; rp_discard_reason : string }.

Definition RecoveryPacket_dump (p : RecoveryPacket) : dict :=
  (RecoveryAction_dump (rp_action p) ++
   [("loop", PInt (rp_loop p)); ("origin", PStr (rp_origin p)); ("summary", PStr (rp_summary p));
    ("last_check", PStr (rp_last_check p)); ("discard_reason", PStr (rp_discard_reason p))])%list.

Record PlannerOutput := {
  po_steps : list PlanStep; po_verification : list ToolCall; po_rollback : string;
  po_acceptance_criteria : list string; po_max_iterations : Z;
  po_recovery : option RecoveryAction; po_recovery_packet : option RecoveryPacket }.

Definition PlannerOutput_dump (p : PlannerOutput) : dict :=
  [("steps", PList (List.map (fun x => PDict (PlanStep_dump x)) (po_steps p)));
   ("verification", ToolCalls_dump (po_verification p)); ("rollback", PStr (po_rollback p));
   ("acceptance_criteria", strs (po_acceptance_criteria p)); ("max_iterations", PInt (po_max_iterations p));
   ("recovery", dump_opt RecoveryAction_dump (po_recovery p));
   ("recovery_packet", dump_opt RecoveryPacket_dump (po_recovery_packet p))].

Record RouterDecision := {
  rd_intent : Intent; rd_task_class : string; rd_lane : RouteLane; rd_rationale : string;
  rd_context_scope : ContextScope; rd_latency_sensitive : bool; rd_cache_affinity : string;
  rd_prefix_segment : string; rd_provider_used : ProviderUsed; rd_provider : string;
  rd_model : string; rd_context_tokens : Z; rd_compression_pressure : Z; rd_fact_count : Z }.

Definition RouterDecision_dump (r : RouterDecision) : dict :=
  [("intent", lit (rd_intent r)); ("task_class", PStr (rd_task_class r)); ("lane", lit (rd_lane r));
   ("rationale", PStr (rd_rationale r)); ("context_scope", lit (rd_context_scope r));
   ("latency_sensitive", PBool (rd_latency_sensitive r));
   ("cache_affinity", PStr (rd_cache_affinity r)); ("prefix_segment", PStr (rd_prefix_segment r));
   ("provider_used", lit (rd_provider_used r)); ("provider", PStr (rd_provider r));
   ("model", PStr (rd_model r)); ("context_tokens", PInt (rd_context_tokens r));
   ("compression_pressure", PInt (rd_compression_pressure r)); ("fact_count", PInt (rd_fact_count r))].

Record VerificationCheck := {
  vc_name : string; vc_ok : bool; vc_tool : string; vc_exit_code : Z; vc_summary : string }.

Definition VerificationCheck_dump (c : VerificationCheck) : dict :=
  [("name", PStr (vc_name c)); ("ok", PBool (vc_ok c)); ("tool", PStr (vc_tool c));
   ("exit_code", PInt (vc_exit_code c)); ("summary", PStr (vc_summary c))].

Record VerifierReport := {
  vr_ok : bool; vr_checks : list VerificationCheck; vr_acceptance_ok : bool;
  vr_acceptance_checks : list dict; vr_retry_target : option RetryTarget;
  vr_plan_action : PlanAction; vr_failure_class : string; vr_failure_fingerprint : string;
  vr_recovery : option RecoveryAction; vr_recovery_packet : option RecoveryPacket;
  vr_next_handoff : option AgentHandoff; vr_loop_summary : string }.

Definition VerifierReport_dump (r : VerifierReport) : dict :=
  [("ok", PBool (vr_ok r));
   ("checks", PList (List.map (fun c => PDict (VerificationCheck_dump c)) (vr_checks r)));
   ("acceptance_ok", PBool (vr_acceptance_ok r));
   ("acceptance_checks", PList (List.map PDict (vr_acceptance_checks r)));
   ("retry_target", lit_opt (vr_retry_target r)); ("plan_action", lit (vr_plan_action r));
   ("failure_class", PStr (vr_failure_class r));
   ("failure_fingerprint", PStr (vr_failure_fingerprint r));
   ("recovery", dump_opt RecoveryAction_dump (vr_recovery r));
   ("recovery_packet", dump_opt RecoveryPacket_dump (vr_recovery_packet r));
   ("next_handoff", dump_opt AgentHandoff_dump (vr_next_handoff r));
   ("loop_summary", PStr (vr_loop_summary r))].

Record ModelRoutingDecision := {
  mr_task_class : string; mr_lane : RouteLane; mr_provider_used : ProviderUsed;
  mr_provider : string; mr_model : string; mr_reason : string; mr_fallback_applied : bool;
  mr_cache_affinity : string; mr_prefix_segment : string; mr_context_tokens : Z;
  mr_compression_pressure : Z; mr_fact_count : Z; mr_retry_count : Z; mr_latency_sensitive : bool }.

Definition ModelRoutingDecision_dump (m : ModelRoutingDecision) : dict :=
  [("task_class", PStr (mr_task_class m)); ("lane", lit (mr_lane m));
   ("provider_used", lit (mr_provider_used m)); ("provider", PStr (mr_provider m));
   ("model", PStr (mr_model m)); ("reason", PStr (mr_reason m));
   ("fallback_applied", PBool (mr_fallback_applied m));
   ("cache_affinity", PStr (mr_cache_affinity m)); ("prefix_segment", PStr (mr_prefix_segment m));
   ("context_tokens", PInt (mr_context_tokens m));
   ("compression_pressure", PInt (mr_compression_pressure m));
   ("fact_count", PInt (mr_fact_count m)); ("retry_count", PInt (mr_retry_count m));
   ("latency_sensitive", PBool (mr_latency_sensitive m))].

(** ** [append_event] ([trace.py]) and [_state_to_dict] on dicts *)

(** [append_event(state, kind=.., data=..)]; [ts] is what [now_ms()] returned. *)
Definition append_event (ts : Z) (state : dict) (kind : string) (data : dict) : res dict :=
  let existing := py_or (dget state "_trace_events" (PList [])) (PList []) in
  let! events := py_iter existing in
  let event := PDict [("ts_ms", PInt ts); ("kind", PStr kind); ("data", PDict data)] in
  Ok (dset "_trace_events" (PList (events ++ [event])) state).

Lemma append_event_frame ts state kind data out k :
  append_event ts state kind data = Ok out ->
  String.eqb k "_trace_events" = false -> dlookup k out = dlookup k state.
Proof.
  unfold append_event. intros H Hk. inv_bind H. injection H as <-.
  by rewrite dlookup_dset_neb.
Qed.

Lemma append_event_dget ts state kind data out k d :
  append_event ts state kind data = Ok out ->
  String.eqb k "_trace_events" = false -> dget out k d = dget state k d.
Proof. intros H Hk. unfold dget. by rewrite (append_event_frame _ _ _ _ _ _ H Hk). Qed.

(** A state whose event log is a list (or absent) can always be appended to. *)
Definition events_ok (state : dict) : Prop :=
  exists l, dget state "_trace_events" (PList []) = PList l.

Lemma append_event_total ts state kind data :
  events_ok state ->
  exists out, append_event ts state kind data = Ok out /\ events_ok out.
Proof.
  intros [l Hl]. unfold append_event. rewrite Hl. unfold py_or.
  destruct l as [|x l]; simpl.
  - eexists. split; [done|]. eexists. by rewrite dget_dset_eq.
  - eexists. split; [done|]. eexists. by rewrite dget_dset_eq.
Qed.
