(* ===== verification/Policy.v ===== *)
(** * Policy: [policy.py] and [nodes/policy_gate.py]

    The network/approval policy decision, the loop budget and the node that
    writes both into the state at the start of every iteration. *)
From Stdlib Require Import ZArith Lia String Ascii List Bool.
From stdpp Require Import base tactics list strings option.
From S2P Require Import Prelude PyStr PyFloat PyVal State.
Local Open Scope string_scope.
Local Open Scope Z_scope.

(** [TypeAdapter(Annotated[int, Field(ge=0)]).validate_python] of pydantic: an
    interface.  [None] is a raised exception.  The laws are what pydantic
    documents for a non-negative integer field. *)
Class NonNegIntAdapter := {
  validate_python : pyval -> option Z;
  validate_nonneg : forall v z, validate_python v = Some z -> 0 <= z;
  validate_int : forall z, 0 <= z -> validate_python (PInt z) = Some z;
  validate_neg : forall z, z < 0 -> validate_python (PInt z) = None;
  validate_none : validate_python PNone = None }.

Record PolicyDecision := {
  allow_network : bool;
  require_approval_for_mutations : bool;
  allowed_write_paths : list string }.

Record LoopBudgetDecision := {
  allow : bool; current_loop : Z; max_loops : Z; halt_reason : string }.

Definition decide_policy (network_default : string) (require_approval : bool)
    (paths : list string) : PolicyDecision :=
  {| allow_network := String.eqb (lower (strip network_default)) "allow";
     require_approval_for_mutations := require_approval;
     allowed_write_paths :=
       List.map strip (List.filter (fun p => negb (String.eqb (strip p) "")) paths) |}.

Section Adapter.
Context `{NonNegIntAdapter}.

Definition _coerce_non_negative_int (value : pyval) (fallback : Z) : Z :=
  if is_bool value then fallback
  else
    let value' := match value with PStr s => PStr (strip s) | v => v end in
    match validate_python value' with Some z => z | None => fallback end.

Definition enforce_loop_budget (budgets : dict) (configured_max_loops : Z)
    (plan_max_iterations : option Z) : LoopBudgetDecision :=
  let safe_max := if 1 <=? configured_max_loops then configured_max_loops else 1 in
  let plan_limit :=
    match plan_max_iterations with
    | Some p => if 1 <=? p then Some p else None
    | None => None
    end in
  let effective_max := match plan_limit with Some p => Z.min safe_max p | None => safe_max end in
  let m0 := _coerce_non_negative_int (dget budgets "max_loops" PNone) effective_max in
  let m1 := if m0 <? 1 then effective_max else m0 in
  let max_loops := Z.min m1 effective_max in
  let cur := _coerce_non_negative_int (dget budgets "current_loop" PNone) 0 in
  if max_loops <=? cur then
    {| allow := false; current_loop := cur; max_loops := max_loops;
       halt_reason :=
         match plan_limit with
         | Some p => if max_loops =? p then "plan_max_iterations_exhausted"
                     else "max_loops_exhausted"
         | None => "max_loops_exhausted"
         end |}
  else
    {| allow := true; current_loop := cur + 1; max_loops := max_loops; halt_reason := "" |}.

(** ** The node *)

(** The guard fields, as [policy_gate]'s [try] block computes them; nothing in
    that block can raise on a dict, so its [except] branch is not reached. *)
Definition policy_guards (cfg_policy guards : dict) : dict :=
  let network_default := py_str (dget cfg_policy "network_default" (PStr "deny")) in
  let require_approval := truthy (dget cfg_policy "require_approval_for_mutations" (PBool true)) in
  let paths :=
    match dget cfg_policy "allowed_write_paths" (PTuple []) with
    | PList l | PTuple l =>
        flat_map (fun e => match e with PStr s => [strip s] | _ => [] end) l
    | _ => []
    end in
  let network_default :=
    if (String.eqb network_default "allow" || String.eqb network_default "deny")%bool
    then network_default else "deny" in
  let decision := decide_policy network_default require_approval paths in
  let g1 := dset "allow_network" (PBool (allow_network decision)) guards in
  let g2 := dset "require_approval_for_mutations"
                 (PBool (require_approval_for_mutations decision)) g1 in
  dset "allowed_write_paths" (strs (allowed_write_paths decision)) g2.

(** [try: int(raw)  except (TypeError, ValueError): d]. *)
Definition int_or (raw : pyval) (d : Z) : res Z :=
  try_except (py_int raw) is_type_or_value_error (fun _ => Ok d).

(** The report of an exhausted budget. *)
Definition budget_exhausted_report (reason : string) : dict :=
  [("ok", PBool false);
   ("checks", PList [PDict [("name", PStr "loop_budget"); ("ok", PBool false);
      ("tool", PStr "policy_gate"); ("exit_code", PInt 1);
      ("summary", PStr "Loop budget exhausted")]]);
   ("acceptance_ok", PBool false); ("acceptance_checks", PList []);
   ("retry_target", PStr "planner"); ("plan_action", PStr "keep");
   ("failure_class", PStr reason); ("failure_fingerprint", PStr reason);
   ("recovery", PNone); ("recovery_packet", PNone); ("loop_summary", PStr reason)].

(** The budgets written by the node. *)
Definition policy_budgets (budgets : dict) (d : LoopBudgetDecision)
    (plan_max_iterations max_tool_calls max_patch_bytes : Z) (raw_context : pyval) : dict :=
  let b := dset "max_loops" (PInt (max_loops d)) budgets in
  let b := dset "current_loop" (PInt (current_loop d)) b in
  let b := dset "loop" (PDict [("remaining", PInt (Z.max (max_loops d - current_loop d) 0))]) b in
  let b := if 1 <=? plan_max_iterations
           then dset "plan_max_iterations" (PInt plan_max_iterations) b else b in
  let b := dset "tool_calls_limit" (PInt (Z.max max_tool_calls 0)) b in
  let b := dset "tool_calls_used" (PInt 0) b in
  let b := dset "patch_bytes_limit" (PInt (Z.max max_patch_bytes 0)) b in
  dset "context" (PDict (dict_or_empty raw_context)) b.

Definition policy_gate (t0 t1 : Z) (state : dict) : res dict :=
  let! state := append_event t0 state "node" [("name", PStr "policy_gate"); ("phase", PStr "start")] in
  let! budgets := py_dict (dget state "budgets" (PDict [])) in
  let! guards := py_dict (dget state "guards" (PDict [])) in
  let! cfg_policy := py_dict (dget state "_config_policy" (PDict [])) in
  let guards := policy_guards cfg_policy guards in
  let raw_max_loops := dget state "_budget_max_loops" (PInt 3) in
  let raw_max_tool_calls := dget state "_budget_max_tool_calls_per_loop" (PInt 0) in
  let raw_max_patch_bytes := dget state "_budget_max_patch_bytes" (PInt 0) in
  let raw_context_budget := dget state "_budget_context" (PDict []) in
  let plan := dict_or_empty (dget state "plan" (PDict [])) in
  let! configured_max_loops := int_or raw_max_loops 3 in
  let! configured_max_tool_calls := int_or raw_max_tool_calls 0 in
  let! configured_max_patch_bytes := int_or raw_max_patch_bytes 0 in
  let plan_raw := dget plan "max_iterations" PNone in
  let! plan_max_iterations :=
    match plan_raw with PNone => Ok 0 | _ => int_or plan_raw 0 end in
  let loop_decision :=
    enforce_loop_budget budgets configured_max_loops
      (if 1 <=? plan_max_iterations then Some plan_max_iterations else None) in
  let budgets := policy_budgets budgets loop_decision plan_max_iterations
                   configured_max_tool_calls configured_max_patch_bytes raw_context_budget in
  let out := dset "halt_reason" (PStr (halt_reason loop_decision))
               (dset "budgets" (PDict budgets) (dset "guards" (PDict guards) state)) in
  let out := if allow loop_decision then out
             else dset "verification" (PDict (budget_exhausted_report (halt_reason loop_decision))) out in
  append_event t1 out "node" [("name", PStr "policy_gate"); ("phase", PStr "end")].

(** ** Properties *)

Lemma coerce_nonneg v f : 0 <= f -> 0 <= _coerce_non_negative_int v f.
Proof.
  intros Hf. unfold _coerce_non_negative_int. destruct (is_bool v); [done|].
  destruct (validate_python _) eqn:E; [by eapply validate_nonneg|done].
Qed.

Lemma coerce_int z f : 0 <= z -> _coerce_non_negative_int (PInt z) f = z.
Proof. intros Hz. unfold _coerce_non_negative_int; simpl. by rewrite validate_int. Qed.

Definition budget_halted (d : LoopBudgetDecision) : Prop :=
  halt_reason d = "max_loops_exhausted" \/ halt_reason d = "plan_max_iterations_exhausted".

(** What a caller may rely on: the abstract contract of the budget. *)
Record budget_spec (configured : Z) (plan : option Z) (d : LoopBudgetDecision) : Prop := {
  bs_pos : 1 <= max_loops d;
  bs_cap : max_loops d <= Z.max configured 1;
  bs_plan : forall p, plan = Some p -> 1 <= p -> max_loops d <= p;
  bs_cur : 0 <= current_loop d;
  bs_allow : allow d = true -> 1 <= current_loop d <= max_loops d /\ halt_reason d = "";
  bs_deny : allow d = false -> max_loops d <= current_loop d /\ budget_halted d }.

Lemma enforce_meets_spec budgets configured plan :
  budget_spec configured plan (enforce_loop_budget budgets configured plan).
Proof.
  unfold enforce_loop_budget.
  set (safe := if 1 <=? configured then configured else 1).
  set (pl := match plan with Some p => if 1 <=? p then Some p else None | None => None end).
  set (eff := match pl with Some p => Z.min safe p | None => safe end).
  set (m0 := _coerce_non_negative_int _ eff).
  set (m1 := if m0 <? 1 then eff else m0).
  set (cur := _coerce_non_negative_int _ 0).
  assert (Hcur : 0 <= cur) by (apply coerce_nonneg; lia).
  assert (Hsafe : safe = Z.max configured 1) by (unfold safe; destruct (1 <=? configured) eqn:E; bool_prop; lia).
  assert (Hplan : forall p, plan = Some p -> 1 <= p -> pl = Some p).
  { intros p -> Hp. unfold pl. by apply Z.leb_le in Hp as ->. }
  assert (Heff : 1 <= eff <= safe).
  { unfold eff, pl. destruct plan as [p|]; [|lia]. destruct (1 <=? p) eqn:E; bool_prop; lia. }
  assert (Hm : 1 <= Z.min m1 eff).
  { unfold m1. destruct (m0 <? 1) eqn:E; bool_prop; lia. }
  assert (Hle : forall p, plan = Some p -> 1 <= p -> Z.min m1 eff <= p).
  { intros p Hp Hp1. pose proof (Hplan p Hp Hp1) as E. unfold eff. rewrite E. lia. }
  destruct (Z.min m1 eff <=? cur) eqn:E; bool_prop;
    constructor; simpl; try done; try lia; intros _; (split; [lia|]); try done.
  unfold budget_halted; simpl. destruct pl; [destruct (_ =? _)|]; auto.
Qed.

Lemma enforce_counter budgets configured plan :
  let d := enforce_loop_budget budgets configured plan in
  let stored := _coerce_non_negative_int (dget budgets "current_loop" PNone) 0 in
  current_loop d = if allow d then stored + 1 else stored.
Proof. cbv zeta. unfold enforce_loop_budget. by destruct (_ <=? _). Qed.

(** The stored counters are exactly those the next call reads back. *)
Lemma enforce_next budgets configured plan d :
  enforce_loop_budget budgets configured plan = d ->
  dget budgets "current_loop" PNone = PInt (current_loop d - 1) ->
  1 <= current_loop d -> allow d = true ->
  current_loop d - 1 < max_loops d.
Proof.
  intros <- _ _ Ha. pose proof (enforce_meets_spec budgets configured plan) as S.
  apply (bs_allow _ _ _ S) in Ha as [? _]. lia.
Qed.

Lemma policy_budgets_current b d p t m c :
  dget (policy_budgets b d p t m c) "current_loop" PNone = PInt (current_loop d).
Proof. unfold policy_budgets. destruct (1 <=? p); dict_simpl; done. Qed.

Lemma policy_budgets_max b d p t m c :
  dget (policy_budgets b d p t m c) "max_loops" PNone = PInt (max_loops d).
Proof. unfold policy_budgets. destruct (1 <=? p); dict_simpl; done. Qed.

(** What one run of the node establishes, with the decision it took. *)
Lemma policy_gate_inv t0 t1 state out :
  policy_gate t0 t1 state = Ok out ->
  exists configured p tc pb budgets guards cfg,
    let d := enforce_loop_budget budgets configured (if 1 <=? p then Some p else None) in
    py_dict (dget state "budgets" (PDict [])) = Ok budgets /\
    py_dict (dget state "_config_policy" (PDict [])) = Ok cfg /\
    int_or (dget state "_budget_max_loops" (PInt 3)) 3 = Ok configured /\
    dget out "budgets" PNone =
      PDict (policy_budgets budgets d p tc pb (dget state "_budget_context" (PDict []))) /\
    dget out "guards" PNone = PDict (policy_guards cfg guards) /\
    dget out "halt_reason" PNone = PStr (halt_reason d) /\
    (allow d = false ->
       dget out "verification" PNone = PDict (budget_exhausted_report (halt_reason d))) /\
    (forall k, In k ["_budget_max_loops"; "plan"; "retry_target"; "context_reset_requested"] ->
       dlookup k out = dlookup k state).
Proof.
  unfold policy_gate. intros Hrun.
  destruct (append_event t0 state _ _) as [s0|] eqn:E0; simpl in Hrun; [|done].
  inv_bind Hrun.
  assert (F : forall k d, String.eqb k "_trace_events" = false -> dget s0 k d = dget state k d)
    by (intros; by eapply append_event_dget).
  rewrite !F in * by reflexivity.
  do 7 eexists. repeat split; try eassumption.
  1-4: rewrite (append_event_dget _ _ _ _ _ _ _ Hrun) by reflexivity.
  - destruct (allow _); dict_simpl; reflexivity.
  - destruct (allow _); dict_simpl; reflexivity.
  - destruct (allow _); dict_simpl; reflexivity.
  - destruct (allow _) eqn:Ea; [|intros _; dict_simpl; reflexivity].
    intros Hf. exfalso. unfold enforce_loop_budget in *. congruence.
  - intros k Hk. rewrite (append_event_frame _ _ _ _ _ k Hrun), <- (append_event_frame _ _ _ _ _ k E0);
      destruct Hk as [<-|[<-|[<-|[<-|[]]]]]; try reflexivity;
      destruct (allow _); dict_simpl; reflexivity.
Qed.
End Adapter.

(** ** Claims *)

(** A concrete adapter: non-negative integers, and strings of digits. *)
#[export] Instance int_adapter : NonNegIntAdapter.
Proof.
  refine {| validate_python v :=
    match v with
    | PInt z => if 0 <=? z then Some z else None
    | PStr s => match parse_int s with Some z => if 0 <=? z then Some z else None | None => None end
    | _ => None
    end |}.
  - intros v z. destruct v; try done.
    + destruct (0 <=? z0) eqn:E; [|done]. intros [= <-]. by bool_prop.
    + destruct (parse_int s) as [n|]; [|done]. destruct (0 <=? n) eqn:E; [|done]. intros [= <-]. by bool_prop.
  - intros z Hz. by apply Z.leb_le in Hz as ->.
  - intros z Hz. by apply Z.leb_gt in Hz as ->.
  - done.
Defined.

Lemma decide_policy_network p r l :
  p = "allow" \/ p = "deny" -> allow_network (decide_policy p r l) = String.eqb p "allow".
Proof. by intros [->| ->]. Qed.

(** The loop budget decision, for any stored counters: the limit is at least
    one and never above the configured limit (or one) nor above the plan's; an
    allowed iteration increments the counter by exactly one and stays within the
    limit, with no halt reason; a refused one leaves the counter, which has
    reached the limit, and names the halt reason. *)
Theorem enforce_loop_budget_spec `{NonNegIntAdapter} budgets configured plan :
  let d := enforce_loop_budget budgets configured plan in
  let stored := _coerce_non_negative_int (dget budgets "current_loop" PNone) 0 in
  1 <= max_loops d <= Z.max configured 1 /\
  (forall p, plan = Some p -> 1 <= p -> max_loops d <= p) /\
  (if allow d then current_loop d = stored + 1 /\ current_loop d <= max_loops d /\ halt_reason d = ""
   else current_loop d = stored /\ max_loops d <= stored /\ budget_halted d).
Proof.
  intros d stored. pose proof (enforce_meets_spec budgets configured plan) as S. fold d in S.
  split; [split; [apply (bs_pos _ _ _ S)|apply (bs_cap _ _ _ S)]|]. split; [apply (bs_plan _ _ _ S)|].
  pose proof (enforce_counter budgets configured plan) as C. cbv zeta in C. fold d stored in C.
  destruct (allow d) eqn:Ea.
  - apply (bs_allow _ _ _ S) in Ea as Hs. tauto.
  - apply (bs_deny _ _ _ S) in Ea as Hs. rewrite <- C. tauto.
Qed.

(** Deny by default: after [policy_gate] the network guard is on exactly when
    the configured ["network_default"] is the string ["allow"] (absent, any other
    text and any other value all deny), and mutations need approval unless the
    configuration holds a false value for it. *)
Theorem policy_gate_deny_by_default `{NonNegIntAdapter} t0 t1 state out cfg :
  policy_gate t0 t1 state = Ok out ->
  py_dict (dget state "_config_policy" (PDict [])) = Ok cfg ->
  exists guards, dget out "guards" PNone = PDict guards /\
    dget guards "allow_network" PNone =
      PBool (String.eqb (py_str (dget cfg "network_default" (PStr "deny"))) "allow") /\
    dget guards "require_approval_for_mutations" PNone =
      PBool (truthy (dget cfg "require_approval_for_mutations" (PBool true))).
Proof.
  intros Hrun Hcfg.
  apply policy_gate_inv in Hrun as (c & p & tc & pb & b & g & cfg' & Hrun). simpl in Hrun.
  destruct Hrun as (_ & Hc & _ & _ & Hg & _). rewrite Hcfg in Hc. injection Hc as <-.
  eexists. split; [exact Hg|]. unfold policy_guards. dict_simpl.
  split; [|done]. f_equal.
  set (nd := py_str _). destruct (String.eqb_spec nd "allow") as [->|Hn]; [done|].
  destruct (String.eqb_spec nd "deny") as [->|Hd]; [done|]. simpl. done.
Qed.

Lemma policy_gate_deny_by_default_witness :
  exists guards, dget (match policy_gate 1 2 [("_config_policy", PDict [("network_default", PStr "Allow")])] with
                       | Ok o => o | Err _ => [] end) "guards" PNone = PDict guards /\
    dget guards "allow_network" PNone = PBool false /\
    dget guards "require_approval_for_mutations" PNone = PBool true.
Proof.
  apply (policy_gate_deny_by_default 1 2 [("_config_policy", PDict [("network_default", PStr "Allow")])]
           _ [("network_default", PStr "Allow")]); vm_compute; reflexivity.
Defined.

(** The budgets [policy_gate] writes: the counters of the loop decision taken
    on the stored budgets and the configured limit, the remaining loops, a reset
    tool-call counter; when the budget is exhausted the verification report is
    replaced by a failed one whose class is the halt reason. *)
Theorem policy_gate_budgets `{NonNegIntAdapter} t0 t1 state out budgets configured :
  policy_gate t0 t1 state = Ok out ->
  py_dict (dget state "budgets" (PDict [])) = Ok budgets ->
  int_or (dget state "_budget_max_loops" (PInt 3)) 3 = Ok configured ->
  exists plan b,
    let d := enforce_loop_budget budgets configured plan in
    dget out "budgets" PNone = PDict b /\
    dget b "current_loop" PNone = PInt (current_loop d) /\
    dget b "max_loops" PNone = PInt (max_loops d) /\
    dget b "loop" PNone = PDict [("remaining", PInt (Z.max (max_loops d - current_loop d) 0))] /\
    dget b "tool_calls_used" PNone = PInt 0 /\
    dget out "halt_reason" PNone = PStr (halt_reason d) /\
    (allow d = false -> dget out "verification" PNone = PDict (budget_exhausted_report (halt_reason d))).
Proof.
  intros Hrun Hb Hc.
  apply policy_gate_inv in Hrun as (c & p & tc & pb & b & g & cfg & Hrun). simpl in Hrun.
  destruct Hrun as (Hb' & _ & Hc' & Hbud & _ & Hh & Hv & _).
  rewrite Hb in Hb'. injection Hb' as <-. rewrite Hc in Hc'. injection Hc' as <-.
  exists (if 1 <=? p then Some p else None). eexists. simpl.
  split; [exact Hbud|]. rewrite policy_budgets_current, policy_budgets_max.
  split; [done|]. split; [done|]. split; [|split; [|split; [exact Hh|exact Hv]]];
    unfold policy_budgets; destruct (1 <=? p); dict_simpl; done.
Qed.

Definition gate_state : dict :=
  [("budgets", PDict [("current_loop", PInt 2)]); ("_budget_max_loops", PInt 2)].

Lemma policy_gate_budgets_witness :
  exists plan b,
    let d := enforce_loop_budget [("current_loop", PInt 2)] 2 plan in
    dget (match policy_gate 1 2 gate_state with Ok o => o | Err _ => [] end) "budgets" PNone = PDict b /\
    dget b "current_loop" PNone = PInt (current_loop d).
Proof.
  destruct (policy_gate_budgets 1 2 gate_state (match policy_gate 1 2 gate_state with Ok o => o | Err _ => [] end)
              [("current_loop", PInt 2)] 2) as (plan & b & H1 & H2 & _);
    [vm_compute; reflexivity|reflexivity|reflexivity|].
  exists plan, b. split; [exact H1|exact H2].
Defined.

(** A configured loop limit that is an infinite float is not covered by
    [except (TypeError, ValueError)]: the [OverflowError] leaves the node. *)
Example policy_gate_infinite_limit :
  policy_gate 1 2 [("_budget_max_loops", PFloat (SpecFloat.S754_infinity false))] =
  Err (OverflowError "cannot convert float infinity to integer").
Proof. vm_compute. reflexivity. Qed.
