(* ===== verification/Approval.v ===== *)
(** * Approval policies: [approval_policy.py] and the voting of [api/service.py]

    A run waiting for approval is decided by one of three policies.  The engine
    is a pure function of the policy, the votes and the elapsed time; the
    service keeps one [ApprovalDecision] per run and re-evaluates it at each
    vote. *)
From Stdlib Require Import ZArith Lia String Ascii List Bool.
From stdpp Require Import base tactics list strings option gmap.
From S2P Require Import Prelude PyStr PyFloat PyVal.
Local Open Scope string_scope.
Local Open Scope Z_scope.

Inductive Status := pending | approved | rejected | timed_out.
#[export] Instance Status_eq_dec : EqDecision Status.
Proof. solve_decision. Defined.

(** [auto_action] is ["approve"] or ["reject"]. *)
Record TimedApprovalPolicy := { timeout_seconds : float; auto_action : string }.
Record QuorumApprovalPolicy := {
  required_approvals : Z; required_rejections : Z; allowed_reviewers : list string }.
Record RoleApprovalPolicy := { required_roles : list string; require_all_roles : bool }.

Inductive ApprovalPolicy :=
| Timed (p : TimedApprovalPolicy)
| Quorum (p : QuorumApprovalPolicy)
| Role (p : RoleApprovalPolicy).

Record ApprovalVote := {
  reviewer_id : string; role : option string; action : string;
  timestamp : float; comment : string }.

Record ApprovalDecision := {
  ad_run_id : string; ad_status : Status; ad_policy : ApprovalPolicy;
  ad_votes : list ApprovalVote; ad_created_at : float; ad_resolved_at : option float }.

Definition str_mem (s : string) (l : list string) : bool := existsb (String.eqb s) l.

(** [v.role in required_set]: [None] is in no set of strings. *)
Definition role_in (r : option string) (l : list string) : bool :=
  match r with Some s => str_mem s l | None => false end.

(** [sum(1 for v in votes if v.action == a)]. *)
Definition count_action (a : string) (votes : list ApprovalVote) : Z :=
  Z.of_nat (length (List.filter (fun v => String.eqb (action v) a) votes)).

Definition _evaluate_timed (p : TimedApprovalPolicy) (elapsed : float) : Status :=
  if fleb (timeout_seconds p) elapsed then
    if String.eqb (auto_action p) "approve" then approved else timed_out
  else pending.

Definition quorum_votes (p : QuorumApprovalPolicy) (votes : list ApprovalVote) : list ApprovalVote :=
  match allowed_reviewers p with
  | [] => votes
  | allowed => List.filter (fun v => str_mem (reviewer_id v) allowed) votes
  end.

Definition _evaluate_quorum (p : QuorumApprovalPolicy) (votes : list ApprovalVote) : Status :=
  let filtered := quorum_votes p votes in
  let approvals := count_action "approve" filtered in
  let rejections := count_action "reject" filtered in
  if required_rejections p <=? rejections then rejected
  else if required_approvals p <=? approvals then approved
  else pending.

(** [{v.role for v in votes if v.action == "approve" and v.role in required_set}],
    as the list of its elements (only membership and emptiness are used). *)
Definition approving_roles (required : list string) (votes : list ApprovalVote) : list string :=
  flat_map (fun v => if (String.eqb (action v) "approve" && role_in (role v) required)%bool
                     then match role v with Some r => [r] | None => [] end else []) votes.

Definition _evaluate_role (p : RoleApprovalPolicy) (votes : list ApprovalVote) : Status :=
  let required := required_roles p in
  if existsb (fun v => String.eqb (action v) "reject" && role_in (role v) required)%bool votes
  then rejected
  else
    let approving := approving_roles required votes in
    if require_all_roles p then
      match required with
      | [] => pending
      | _ => if forallb (fun r => str_mem r approving) required then approved else pending
      end
    else match approving with [] => pending | _ => approved end.

Definition evaluate (p : ApprovalPolicy) (votes : list ApprovalVote) (elapsed : float) : Status :=
  match p with
  | Timed q => _evaluate_timed q elapsed
  | Quorum q => _evaluate_quorum q votes
  | Role q => _evaluate_role q votes
  end.

(** ** The service's decisions: [set_approval_policy], [cast_vote] *)

(** What [cast_vote] asks of the run when it is pending approval. *)
Inductive RunAction := ApproveRun (run actor rationale : string) | RejectRun (run actor rationale : string).

Abbreviation decisions := (gmap string ApprovalDecision).

Definition set_approval_policy (ds : decisions) (run_id : string) (p : ApprovalPolicy) (now : float) : decisions :=
  <[run_id := {| ad_run_id := run_id; ad_status := pending; ad_policy := p; ad_votes := [];
                 ad_created_at := now; ad_resolved_at := None |}]> ds.

(** [cast_vote]: [now0 now1 now2] are the three clock readings (vote, elapsed,
    resolution) and [run_pending] says whether the run record exists and waits
    for approval.  Returns the new decisions, the reported status, the number of
    votes and the action forwarded to the run. *)
Definition cast_vote (ds : decisions) (run_id reviewer : string) (r : option string)
    (act cmt : string) (now0 now1 now2 : float) (run_pending : bool)
    : res (decisions * Status * Z * option RunAction) :=
  match ds !! run_id with
  | None => Err (KeyError (repr_str run_id))
  | Some d =>
      let vote := {| reviewer_id := reviewer; role := r; action := act;
                     timestamp := now0; comment := cmt |} in
      let votes := (ad_votes d ++ [vote])%list in
      let elapsed := fsub now1 (ad_created_at d) in
      let new_status := evaluate (ad_policy d) votes elapsed in
      let d' := {| ad_run_id := ad_run_id d; ad_status := new_status; ad_policy := ad_policy d;
                   ad_votes := votes; ad_created_at := ad_created_at d;
                   ad_resolved_at := if decide (new_status = pending) then ad_resolved_at d
                                     else Some now2 |} in
      let forwarded :=
        if run_pending then
          match new_status with
          | approved => Some (ApproveRun run_id reviewer cmt)
          | rejected | timed_out => Some (RejectRun run_id reviewer cmt)
          | pending => None
          end
        else None in
      Ok (<[run_id := d']> ds, new_status, Z.of_nat (length votes), forwarded)
  end.

(** ** Lemmas *)

Lemma str_mem_In s l : str_mem s l = true <-> In s l.
Proof.
  unfold str_mem. rewrite existsb_exists. split.
  - intros (x & Hx & E). apply String.eqb_eq in E. by subst.
  - intros H. exists s. by rewrite String.eqb_refl.
Qed.

Lemma count_action_app a l m : count_action a (l ++ m) = count_action a l + count_action a m.
Proof. unfold count_action. rewrite List.filter_app, length_app. lia. Qed.

Lemma quorum_votes_app p l m : quorum_votes p (l ++ m) = (quorum_votes p l ++ quorum_votes p m)%list.
Proof. unfold quorum_votes. destruct (allowed_reviewers p); [done|]. apply List.filter_app. Qed.

Lemma quorum_votes_strangers p l :
  allowed_reviewers p <> [] -> (forall v, In v l -> ~ In (reviewer_id v) (allowed_reviewers p)) ->
  quorum_votes p l = [].
Proof.
  unfold quorum_votes. destruct (allowed_reviewers p) as [|a r] eqn:E; [done|]. intros _.
  induction l as [|v l IH]; intros Hx; [done|]. cbn [List.filter].
  destruct (str_mem (reviewer_id v) (a :: r)) eqn:Em.
  - apply str_mem_In in Em. by destruct (Hx v (or_introl eq_refl)).
  - apply IH. intros u Hu. apply Hx. by right.
Qed.

Lemma count_action_nonneg a l : 0 <= count_action a l.
Proof. unfold count_action. lia. Qed.

Lemma approving_roles_spec required votes r :
  In r (approving_roles required votes) <->
  In r required /\ exists v, In v votes /\ action v = "approve" /\ role v = Some r.
Proof.
  unfold approving_roles. rewrite in_flat_map. split.
  - intros (v & Hv & Hr).
    destruct (String.eqb_spec (action v) "approve") as [Ha|]; simpl in Hr; [|done].
    destruct (role v) as [r'|] eqn:Er; simpl in Hr; [|done].
    destruct (str_mem r' required) eqn:Em; simpl in Hr; [|done].
    destruct Hr as [->|[]]. apply str_mem_In in Em. split; [done|]. by exists v.
  - intros (Hr & v & Hv & Ha & Er). exists v. split; [done|].
    rewrite Ha, Er; simpl. apply str_mem_In in Hr as ->. by left.
Qed.

Definition rejecting (required : list string) (v : ApprovalVote) : Prop :=
  action v = "reject" /\ exists r, role v = Some r /\ In r required.

Lemma role_in_spec r l : role_in r l = true <-> exists s, r = Some s /\ In s l.
Proof.
  destruct r as [s|]; simpl.
  - rewrite str_mem_In. split; [by exists s|]. by intros (s' & [= ->] & H).
  - split; [done|]. by intros (s & H & _).
Qed.

Lemma role_rejected_spec required votes :
  existsb (fun v => String.eqb (action v) "reject" && role_in (role v) required)%bool votes = true
  <-> exists v, In v votes /\ rejecting required v.
Proof.
  rewrite existsb_exists. unfold rejecting.
  split; intros (v & Hv & H); exists v; (split; [done|]).
  - apply andb_prop in H as [E R]. apply String.eqb_eq in E. by apply role_in_spec in R.
  - destruct H as [-> H]. by apply role_in_spec in H as ->.
Qed.

Lemma forallb_mem_incl l m : forallb (fun r => str_mem r m) l = true <-> incl l m.
Proof.
  rewrite forallb_forall. unfold incl. split; intros H x Hx; [apply str_mem_In|apply str_mem_In]; auto.
Qed.

(** ** Claims *)

(** The quorum policy: rejections win; it is approved exactly when the
    counted approvals reach the threshold and the rejections do not; it never
    times out; votes of reviewers outside a non-empty allow-list change nothing. *)
Theorem evaluate_quorum_spec p votes :
  let counted := quorum_votes p votes in
  let s := evaluate (Quorum p) votes in
  (forall e, s e = rejected <-> required_rejections p <= count_action "reject" counted) /\
  (forall e, s e = approved <-> count_action "reject" counted < required_rejections p /\
                      required_approvals p <= count_action "approve" counted) /\
  (forall e, s e <> timed_out) /\
  (forall e extra, (forall v, In v extra -> ~ In (reviewer_id v) (allowed_reviewers p)) ->
     allowed_reviewers p <> [] -> evaluate (Quorum p) (votes ++ extra) e = s e).
Proof.
  set (rej := count_action "reject" (quorum_votes p votes)).
  set (app := count_action "approve" (quorum_votes p votes)). simpl.
  assert (Hs : forall e, evaluate (Quorum p) votes e =
    if required_rejections p <=? rej then rejected
    else if required_approvals p <=? app then approved else pending) by done.
  simpl in Hs. split; [|split; [|split]].
  - intros _. rewrite (Hs fzero). repeat case_if; bool_prop; split; done || lia.
  - intros _. rewrite (Hs fzero). repeat case_if; bool_prop; split; try done; try lia; intros [? ?]; lia.
  - intros _. rewrite (Hs fzero). by repeat case_if.
  - intros _ extra Hx Hne. unfold _evaluate_quorum.
    by rewrite quorum_votes_app, (quorum_votes_strangers p extra Hne Hx), app_nil_r.
Qed.

(** The role policy: one rejection by a holder of a required role rejects;
    otherwise it is approved exactly when the required roles are all (non-empty
    list, [require_all_roles]) or at least one of them approved. *)
Theorem evaluate_role_spec p votes e :
  let approves r := exists v, In v votes /\ action v = "approve" /\ role v = Some r in
  let s := evaluate (Role p) votes e in
  (s = rejected <-> exists v, In v votes /\ rejecting (required_roles p) v) /\
  (s = approved <-> ~ (exists v, In v votes /\ rejecting (required_roles p) v) /\
     if require_all_roles p
     then required_roles p <> [] /\ forall r, In r (required_roles p) -> approves r
     else exists r, In r (required_roles p) /\ approves r) /\
  s <> timed_out.
Proof.
  simpl. unfold _evaluate_role. rewrite <- role_rejected_spec.
  set (req := required_roles p).
  set (rej := existsb _ votes). destruct rej.
  { split; [tauto|]. split; [split; [done|tauto]|done]. }
  destruct (require_all_roles p).
  - assert (Hall : forallb (fun r => str_mem r (approving_roles req votes)) req = true <->
      forall r, In r req -> exists v, In v votes /\ action v = "approve" /\ role v = Some r).
    { rewrite forallb_mem_incl. split; intros H r Hr; [by apply (proj1 (approving_roles_spec _ _ _) (H r Hr))|].
      apply approving_roles_spec. split; [done|]. by apply H. }
    destruct req as [|r0 req'] eqn:Er; [by split; [|split]; [|split; [done|intros (_ & H & _)]|]|].
    rewrite <- Hall. destruct (forallb _ _); (split; [done|]); (split; [|done]);
      split; try done; intros (_ & _ & H); done.
  - destruct (approving_roles req votes) as [|r l] eqn:Ea; (split; [done|]); (split; [|done]).
    + split; [done|]. intros (_ & r & Hr & Hv).
      assert (Hin : In r (approving_roles req votes)) by by apply approving_roles_spec.
      by rewrite Ea in Hin.
    + split; [|done]. intros _. split; [done|]. exists r.
      apply approving_roles_spec. rewrite Ea. by left.
Qed.

(** The outcome of a policy depends on the multiset of votes only, not on
    the order in which they arrived. *)
Theorem evaluate_order_independent p votes votes' e :
  Permutation votes votes' -> evaluate p votes e = evaluate p votes' e.
Proof.
  intros HP. pose proof (Permutation_sym HP) as HP'.
  assert (Hf : forall f : ApprovalVote -> bool, Permutation (List.filter f votes) (List.filter f votes'))
    by (intros f; by apply filter_perm).
  destruct p as [q|q|q]; [done| |]; simpl.
  - assert (Hc : forall a, count_action a (quorum_votes q votes) = count_action a (quorum_votes q votes')).
    { intros a. unfold count_action, quorum_votes. f_equal. apply Permutation_length.
      destruct (allowed_reviewers q); [apply Hf|]. by apply filter_perm, Hf. }
    unfold _evaluate_quorum. by rewrite !Hc.
  - unfold _evaluate_role.
    assert (He : forall f : ApprovalVote -> bool, existsb f votes = existsb f votes').
    { intros f. apply eq_true_iff_eq. rewrite !existsb_exists.
      split; intros (v & Hv & E); exists v; (split; [|done]); eauto using Permutation_in. }
    rewrite He. destruct (existsb _ votes'); [done|].
    set (req := required_roles q).
    assert (Ha : forall r, In r (approving_roles req votes) <-> In r (approving_roles req votes')).
    { intros r. rewrite !approving_roles_spec.
      split; intros (Hr & v & Hv & E); (split; [done|]); exists v; (split; [|done]); eauto using Permutation_in. }
    destruct (require_all_roles q).
    + destruct req as [|r0 rs]; [done|].
      assert (E : forallb (fun r => str_mem r (approving_roles (r0 :: rs) votes)) (r0 :: rs) =
                  forallb (fun r => str_mem r (approving_roles (r0 :: rs) votes')) (r0 :: rs)).
      { apply eq_true_iff_eq. rewrite !forallb_mem_incl. split; intros H r Hr; by apply Ha, H. }
      by rewrite E.
    + destruct (approving_roles req votes) as [|x l], (approving_roles req votes') as [|y l']; try done.
      * by destruct (proj2 (Ha y) (or_introl eq_refl)).
      * by destruct (proj1 (Ha x) (or_introl eq_refl)).
Qed.

Definition vote (who act : string) : ApprovalVote :=
  {| reviewer_id := who; role := Some who; action := act; timestamp := fzero; comment := "" |}.

Lemma evaluate_order_independent_witness :
  evaluate (Role {| required_roles := ["admin"; "security"]; require_all_roles := true |})
    [vote "admin" "approve"; vote "security" "approve"] fzero =
  evaluate (Role {| required_roles := ["admin"; "security"]; require_all_roles := true |})
    [vote "security" "approve"; vote "admin" "approve"] fzero.
Proof. apply evaluate_order_independent. apply perm_swap. Defined.

(** Casting a vote on a known run appends exactly that vote to that run's
    decision, reports and stores the engine's verdict on all votes so far, leaves
    every other run's decision alone, and asks for the run's approval (rejection)
    only when the verdict is approval (rejection or time-out) and the run is
    waiting; on an unknown run it raises [KeyError]. *)
Theorem cast_vote_spec (ds : decisions) run who r act cmt n0 n1 n2 waiting :
  match cast_vote ds run who r act cmt n0 n1 n2 waiting with
  | Err e => ds !! run = None /\ e = KeyError (repr_str run)
  | Ok (ds', s, n, fwd) =>
      exists d d' v, ds !! run = Some d /\ ds' !! run = Some d' /\
        ad_votes d' = (ad_votes d ++ [v])%list /\ reviewer_id v = who /\ action v = act /\
        s = evaluate (ad_policy d) (ad_votes d') (fsub n1 (ad_created_at d)) /\
        ad_status d' = s /\ ad_policy d' = ad_policy d /\
        n = Z.of_nat (length (ad_votes d)) + 1 /\
        (forall other, other <> run -> ds' !! other = ds !! other) /\
        (forall f, fwd = Some f -> waiting = true /\
           ((f = ApproveRun run who cmt /\ s = approved) \/
            (f = RejectRun run who cmt /\ (s = rejected \/ s = timed_out))))
  end.
Proof.
  unfold cast_vote. destruct (ds !! run) as [d|] eqn:E; [|done].
  set (v := {| reviewer_id := who |}). set (s := evaluate _ _ _).
  exists d. eexists. exists v. split; [done|]. split; [apply lookup_insert_eq|].
  repeat (split; [done|]). split.
  { rewrite length_app. simpl. lia. }
  split; [intros other Ho; by rewrite lookup_insert_ne|].
  intros f. destruct waiting; [|done]. destruct s; intros [= <-]; auto.
Qed.

(** A reviewer's repeated votes all count: one reviewer alone meets a quorum of two. *)
Example quorum_counts_repeated_votes :
  evaluate (Quorum {| required_approvals := 2; required_rejections := 1; allowed_reviewers := ["alice"; "bob"] |})
    [vote "alice" "approve"; vote "alice" "approve"] fzero = approved.
Proof. reflexivity. Qed.
