(* ===== verification/ApprovalTokens.v ===== *)
(** * Approval tokens: [api/approvals.py] and the token parsing of [nodes/executor.py]

    The challenge-response protocol between the approval endpoints, which mint
    a token for a challenge, and the executor, which checks the token's shape
    before it forwards it to the runner. *)
From Stdlib Require Import ZArith Lia String Ascii List Bool DecimalPos.
From stdpp Require Import base tactics list strings option.
From S2P Require Import Prelude PyStr StrFacts PyFloat PyVal Sha256.
Local Open Scope string_scope.
Local Open Scope Z_scope.

(** [_non_empty_str]: the stripped text of a non-blank string. *)
Definition _non_empty_str (raw : pyval) : option string :=
  match raw with
  | PStr s => let value := strip s in if String.eqb value "" then None else Some value
  | _ => None
  end.

(** [secret] is the environment's [LG_RUNNER_APPROVAL_SECRET], [iat] the clock in
    seconds and [nonce] what [secrets.token_hex(16)] returned. *)
Definition approval_token_for_challenge (secret : string) (iat : Z) (nonce challenge_id : string) : string :=
  if String.eqb secret "" then "approve:" ++ challenge_id
  else
    let message := challenge_id ++ "|" ++ str_of_Z iat ++ "|" ++ nonce in
    let signature := hexdigest (hmac_sha256 (utf8_encode secret) (utf8_encode message)) in
    challenge_id ++ "." ++ str_of_Z iat ++ "." ++ nonce ++ "." ++ signature.

Definition tool_name_for_approval (operation_class challenge_id : string) : string :=
  let joined := lower (operation_class ++ ":" ++ challenge_id) in
  if contains "apply_patch" joined then "apply_patch"
  else if contains "exec" joined then "exec"
  else "apply_patch".

Definition approval_summary_text (details : dict) : string :=
  let operation_class :=
    match _non_empty_str (dget details "operation_class" PNone) with Some s => s | None => "mutation" end in
  let challenge_id := _non_empty_str (dget details "challenge_id" PNone) in
  let reason :=
    match _non_empty_str (dget details "reason" PNone) with Some s => s | None => "approval_required" end in
  let summary := operation_class ++ " requires approval" in
  let summary := match challenge_id with Some c => summary ++ " (" ++ c ++ ")" | None => summary end in
  if existsb (String.eqb reason) ["approval_required"; "challenge_required"; "missing_approval_token"]
  then summary else summary ++ ": " ++ reason.

(** The payload [handle_spa_approve] hands to [service.approve_run]. *)
Definition spa_approve_payload (payload : dict) (auth_subject : string) : dict :=
  let actor := match _non_empty_str (dget payload "actor" PNone) with
               | Some a => a
               | None => if String.eqb auth_subject "" then "spa" else auth_subject end in
  let p := [("actor", PStr actor)] in
  let p := match _non_empty_str (dget payload "challenge_id" PNone) with
           | Some c => dset "challenge_id" (PStr c) p | None => p end in
  match _non_empty_str (dget payload "rationale" PNone) with
  | Some r => dset "rationale" (PStr r) p | None => p end.

(** ** The executor's side *)

(** A coerced token, as the dict the executor attaches to the call. *)
Definition token_dict (challenge_id token : string) : dict :=
  [("challenge_id", PStr challenge_id); ("token", PStr token)].

Definition all_nonempty (parts : list string) : bool :=
  forallb (fun p => negb (String.eqb p "")) parts.

Definition _coerce_approval_token (raw : pyval) : option dict :=
  match raw with
  | PDict d =>
      match dget d "challenge_id" PNone, dget d "token" PNone with
      | PStr challenge_id, PStr token =>
          if String.eqb (strip challenge_id) "" then None
          else if String.eqb (strip token) "" then None
          else
            let token_s := strip token in
            let accepted := Some (token_dict (strip challenge_id) token_s) in
            let dot_parts := split_char "." token_s in
            if Nat.eqb (length dot_parts) 4 then
              if all_nonempty dot_parts then accepted else None
            else
              let pipe_parts := split_char "|" token_s in
              if Nat.eqb (length pipe_parts) 4 then
                if all_nonempty pipe_parts then accepted else None
              else if (Nat.eqb (length dot_parts) 1 && Nat.eqb (length pipe_parts) 1)%bool then accepted
              else None
      | _, _ => None
      end
  | _ => None
  end.

Definition _approval_for_tool (state : dict) (tool_name : string) (input_payload : dict) : option dict :=
  match _coerce_approval_token (dget input_payload "approval" PNone) with
  | Some direct => Some direct
  | None =>
      let approvals :=
        match dget state "approvals" (PDict []) with
        | PDict ((_ :: _) as a) => a
        | _ => dict_or_empty (dget state "_resume_approvals" (PDict []))
        end in
      match approvals with
      | [] => None
      | _ =>
          match _coerce_approval_token (dget approvals tool_name PNone) with
          | Some t => Some t
          | None =>
              match dget approvals "mutations" PNone with
              | PDict m => _coerce_approval_token (dget m tool_name PNone)
              | _ => None
              end
          end
      end
  end.

(** ** Lemmas on strings *)

Lemma is_hex_facts c : is_hex c = true ->
  is_space c = false /\ Ascii.eqb c "." = false /\ Ascii.eqb c "|" = false.
Proof.
  intros H. unfold is_hex, is_space in *. split; [|split].
  - apply orb_prop in H as [H|H]; bool_prop;
      repeat (apply orb_false_intro); try (apply andb_false_iff); rewrite ?Z.leb_gt, ?Z.eqb_neq; lia.
  - destruct (Ascii.eqb_spec c "."); [subst; done|done].
  - destruct (Ascii.eqb_spec c "|"); [subst; done|done].
Qed.

(** The decimal digits (and sign) of an integer. *)
Lemma digits_hex u : all_chars is_hex (digits_of_uint u) = true.
Proof. induction u; simpl; done. Qed.

Lemma str_of_Z_lacks z : lacks "." (str_of_Z z) = true /\ lacks "|" (str_of_Z z) = true /\ str_of_Z z <> "".
Proof.
  assert (H : forall u c, (c = "."%char \/ c = "|"%char) -> lacks c (digits_of_uint u) = true).
  { intros u c Hc. unfold lacks. eapply all_chars_impl; [|apply digits_hex].
    intros a Ha. simpl. apply is_hex_facts in Ha as (_ & H1 & H2).
    destruct Hc as [->| ->]; [by rewrite H1|by rewrite H2]. }
  destruct z as [|p|p]; [done| |]; (split; [|split]); try apply H; auto; simpl; try done.
  pose proof (DecimalPos.Unsigned.to_uint_nonnil p) as Hn. by destruct (Pos.to_uint p).
Qed.

Lemma hex_lacks s : all_chars is_hex s = true -> lacks "." s = true /\ lacks "|" s = true.
Proof.
  intros H. split; (eapply all_chars_impl; [|exact H]); intros a Ha; simpl;
    apply is_hex_facts in Ha as (_ & H1 & H2); by rewrite ?H1, ?H2.
Qed.

Lemma signature_shape key msg :
  all_chars is_hex (hexdigest (hmac_sha256 key msg)) = true /\ hexdigest (hmac_sha256 key msg) <> "".
Proof.
  unfold hmac_sha256. split.
  - apply hexdigest_hex, sha256_bytes.
  - intros E. apply (f_equal String.length) in E. rewrite hexdigest_length, sha256_length in E. done.
Qed.

(** A token that starts with a stripped text and ends with a hexadecimal one is
    its own [strip]. *)
Lemma strip_token cid mid sig :
  strip cid = cid -> cid <> "" -> all_chars is_hex sig = true -> sig <> "" ->
  strip (cid ++ mid ++ sig) = cid ++ mid ++ sig.
Proof.
  intros Hc Hne Hs Hsn.
  assert (Hr : rstrip_by is_space sig = sig).
  { apply rstrip_by_none. eapply all_chars_impl; [|exact Hs]. intros a Ha. simpl.
    apply is_hex_facts in Ha as (H & _). by rewrite H. }
  unfold strip, rstrip. rewrite <- str_app_assoc, rstrip_by_app by by rewrite Hr. rewrite Hr, str_app_assoc.
  destruct (strip_fixed_head cid Hc Hne) as (c & r & -> & Hsp). unfold lstrip. simpl. by rewrite Hsp.
Qed.

(** ** Claims *)

Lemma coerce_stripped cid tok :
  strip cid = cid -> cid <> "" -> strip tok = tok -> tok <> "" ->
  _coerce_approval_token (PDict (token_dict cid tok)) =
    let accepted := Some (token_dict cid tok) in
    let dot_parts := split_char "." tok in
    let pipe_parts := split_char "|" tok in
    if Nat.eqb (length dot_parts) 4 then if all_nonempty dot_parts then accepted else None
    else if Nat.eqb (length pipe_parts) 4 then if all_nonempty pipe_parts then accepted else None
    else if (Nat.eqb (length dot_parts) 1 && Nat.eqb (length pipe_parts) 1)%bool then accepted else None.
Proof.
  intros Hc Hcn Ht Htn. unfold _coerce_approval_token, token_dict, dget.
  cbn [dlookup String.eqb Ascii.eqb Bool.eqb].
  rewrite Hc, Ht. apply String.eqb_neq in Hcn as ->. apply String.eqb_neq in Htn as ->. done.
Qed.

(** How many dot-separated parts a signed token has. *)
Lemma signed_token_parts cid iat nonce sig :
  lacks "." nonce = true -> lacks "." sig = true ->
  length (split_char "." (cid ++ "." ++ str_of_Z iat ++ "." ++ nonce ++ "." ++ sig)) =
  (length (split_char "." cid) + 3)%nat.
Proof.
  intros Hn Hs. change ("." ++ str_of_Z iat ++ "." ++ nonce ++ "." ++ sig)
    with (String "." (str_of_Z iat ++ String "." (nonce ++ String "." sig))).
  rewrite split_char_length_app.
  rewrite (split_char_app "." (str_of_Z iat)) by apply str_of_Z_lacks.
  rewrite (split_char_app "." nonce) by done. by rewrite (split_char_lacks "." sig).
Qed.

Lemma signed_token_split cid iat nonce sig :
  lacks "." cid = true -> lacks "." nonce = true -> lacks "." sig = true ->
  split_char "." (cid ++ "." ++ str_of_Z iat ++ "." ++ nonce ++ "." ++ sig) =
  [cid; str_of_Z iat; nonce; sig].
Proof.
  intros Hc Hn Hs. change ("." ++ str_of_Z iat ++ "." ++ nonce ++ "." ++ sig)
    with (String "." (str_of_Z iat ++ String "." (nonce ++ String "." sig))).
  rewrite (split_char_app "." cid) by done.
  rewrite (split_char_app "." (str_of_Z iat)) by apply str_of_Z_lacks.
  rewrite (split_char_app "." nonce) by done. by rewrite (split_char_lacks "." sig).
Qed.

(** The approval endpoints and the executor agree on tokens: a token minted
    with a secret for a trimmed challenge id without bars is accepted by the
    executor, unchanged, exactly when the challenge id has no dot; the plain
    token minted without a secret is accepted for ids with neither separator. *)
Theorem minted_token_accepted secret iat nonce cid :
  strip cid = cid -> cid <> "" -> lacks "|" cid = true ->
  all_chars is_hex nonce = true -> nonce <> "" ->
  let token := approval_token_for_challenge secret iat nonce cid in
  let verdict := _coerce_approval_token (PDict (token_dict cid token)) in
  (secret <> "" -> verdict = if lacks "." cid then Some (token_dict cid token) else None) /\
  (lacks "." cid = true -> verdict = Some (token_dict cid token)).
Proof.
  intros Hc Hcn Hbar Hn Hnn token verdict.
  destruct (hex_lacks nonce Hn) as [Hnd Hnb].
  assert (Hsigned : secret <> "" -> verdict = if lacks "." cid then Some (token_dict cid token) else None).
  { intros Hsec. unfold verdict, token, approval_token_for_challenge.
    apply String.eqb_neq in Hsec as ->. cbv zeta.
    set (sig := hexdigest _). destruct (signature_shape (utf8_encode secret)
      (utf8_encode (cid ++ "|" ++ str_of_Z iat ++ "|" ++ nonce))) as [Hs Hsn]. fold sig in Hs, Hsn.
    destruct (hex_lacks sig Hs) as [Hsd Hsb]. destruct (str_of_Z_lacks iat) as (_ & Hib & Hin).
    set (t := cid ++ _).
    assert (Ht : strip t = t).
    { unfold t. pose proof (strip_token cid ("." ++ str_of_Z iat ++ "." ++ nonce ++ ".") sig Hc Hcn Hs Hsn) as E.
      simpl in E. by rewrite !str_app_assoc in E. }
    assert (Htn : t <> "") by (unfold t; by destruct cid).
    rewrite coerce_stripped by done. cbv zeta.
    rewrite (split_char_lacks "|" t) by
      (unfold t; rewrite !lacks_app, Hbar, Hib, Hnb, Hsb; done).
    destruct (lacks "." cid) eqn:Ed.
    - unfold t. rewrite signed_token_split by done. simpl.
      apply String.eqb_neq in Hcn as ->. apply String.eqb_neq in Hin as ->.
      apply String.eqb_neq in Hnn as ->. by apply String.eqb_neq in Hsn as ->.
    - assert (Hl : length (split_char "." t) = (length (split_char "." cid) + 3)%nat)
        by by apply signed_token_parts.
      assert (length (split_char "." cid) <> 1%nat)
        by (intros E; apply split_char_lacks_iff in E; congruence).
      rewrite Hl. destruct (Nat.eqb_spec (length (split_char "." cid) + 3) 4); [lia|].
      destruct (Nat.eqb_spec (length (split_char "." cid) + 3) 1); [lia|done]. }
  split; [done|]. intros Hd. destruct (String.eqb_spec secret "") as [->|Hsec].
  - unfold verdict. assert (E : token = "approve:" ++ cid) by done. rewrite E, coerce_stripped; try done.
    + rewrite !split_char_lacks; [done| |]; by rewrite lacks_app, ?Hbar, ?Hd.
    + assert (Hr : rstrip_by is_space cid = cid) by by apply strip_fixed_rstrip.
      unfold strip, rstrip. by rewrite rstrip_by_app, Hr by by rewrite Hr.
  - by rewrite Hsigned, Hd.
Qed.

Lemma minted_token_accepted_witness :
  let nonce := "00112233445566778899aabbccddeeff" in
  let token := approval_token_for_challenge "s3cret" 1700000000 nonce "approval:apply_patch" in
  _coerce_approval_token (PDict (token_dict "approval:apply_patch" token)) =
  Some (token_dict "approval:apply_patch" token).
Proof.
  intros nonce token.
  apply (proj2 (minted_token_accepted "s3cret" 1700000000 nonce "approval:apply_patch"
                  ltac:(reflexivity) ltac:(discriminate) ltac:(reflexivity) ltac:(reflexivity) ltac:(discriminate))).
  reflexivity.
Defined.
