(* ===== verification/Glean.v ===== *)
(** * GLEAN auditor: [glean.py]

    Guidelines are regular expressions checked against the [str] of a tool's
    arguments (before) or result (after); the auditor accumulates violations. *)
From Stdlib Require Import ZArith Lia String Ascii List Bool.
From stdpp Require Import base tactics list strings option.
From S2P Require Import Prelude PyStr PyFloat PyVal Regex.
Local Open Scope string_scope.
Local Open Scope Z_scope.

(** [pattern] is the source text (it appears in the violation's detail) and
    [compiled] the expression it denotes. *)
Record Guideline := {
  id : string; description : string; check : string;
  pattern : string; compiled : regex; severity : string }.

Record GuidelineViolation := {
  guideline_id : string; gv_tool_name : string; detail : string; gv_severity : string }.

Record GleanAuditor := {
  _guidelines : list Guideline;
  _violations : list GuidelineViolation;
  _evidence : list dict }.

(** ** [DEFAULT_GUIDELINES] *)

Definition git_push : regex := rseq [rlit "git"; rplus rspace; rlit "push"; rplus rspace; rstar rdot].

Definition no_force_push : Guideline := {|
  id := "no-force-push";
  description := "Prevent force-pushing to remote git branches, which can destroy history.";
  check := "pre";
  pattern := "git\s+push\s+.*--force|git\s+push\s+.*-f\b";
  compiled := ralt [rseq [git_push; rlit "--force"]; rseq [git_push; rlit "-f"; RWordB]];
  severity := "block" |}.

(** [rm\s+.*-[a-zA-Z]*x[a-zA-Z]*y[a-zA-Z]*\s+/\W]. *)
Definition rm_flags (x y : ascii) : regex :=
  rseq [rlit "rm"; rplus rspace; rstar rdot; rlit "-"; rstar ralpha; rchar x; rstar ralpha; rchar y;
        rstar ralpha; rplus rspace; rlit "/"; rnonword].

Definition no_rm_rf_root : Guideline := {|
  id := "no-rm-rf-root";
  description := "Prevent recursive deletion of root or home directories.";
  check := "pre";
  pattern := "rm\s+.*-[a-zA-Z]*r[a-zA-Z]*f[a-zA-Z]*\s+/\W|rm\s+.*-[a-zA-Z]*f[a-zA-Z]*r[a-zA-Z]*\s+/\W|rm\s+.*-rf\s+~";
  compiled := ralt [rm_flags "r" "f"; rm_flags "f" "r";
                    rseq [rlit "rm"; rplus rspace; rstar rdot; rlit "-rf"; rplus rspace; rlit "~"]];
  severity := "block" |}.

Definition no_secret_in_stdout : Guideline := {|
  id := "no-secret-in-stdout";
  description := "Warn when output may contain secrets (API keys, passwords, tokens).";
  check := "post";
  pattern := "(?i)(api[_-]?key|secret|password|token|bearer)\s*[=:]\s*\S{8,}";
  compiled := rseq [ralt [rseq [rilit "api"; ropt (rclass "_-"); rilit "key"]; rilit "secret";
                          rilit "password"; rilit "token"; rilit "bearer"];
                    rstar rspace; rclass "=:"; rstar rspace; ratleast 8 rnonspace];
  severity := "warning" |}.

Definition DEFAULT_GUIDELINES : list Guideline := [no_force_push; no_rm_rf_root; no_secret_in_stdout].

(** ** Operations *)

Definition GleanAuditor_init : GleanAuditor := {| _guidelines := []; _violations := []; _evidence := [] |}.

Definition add_guideline (a : GleanAuditor) (g : Guideline) : GleanAuditor :=
  {| _guidelines := _guidelines a ++ [g]; _violations := _violations a; _evidence := _evidence a |}.

Definition record (a : GleanAuditor) (v : GuidelineViolation) : GleanAuditor :=
  {| _guidelines := _guidelines a; _violations := _violations a ++ [v]; _evidence := _evidence a |}.

Definition pre_violation (tool subject : string) (g : Guideline) : GuidelineViolation :=
  {| guideline_id := id g; gv_tool_name := tool;
     detail := "pre-execution pattern '" ++ pattern g ++ "' matched args: " ++ str_take 200 subject;
     gv_severity := severity g |}.

Definition post_violation (tool subject : string) (g : Guideline) : GuidelineViolation :=
  {| guideline_id := id g; gv_tool_name := tool;
     detail := "post-execution pattern '" ++ pattern g ++ "' matched result: " ++ str_take 200 subject;
     gv_severity := severity g |}.

(** The loop bodies. *)
Definition pre_step (tool_name subject : string) (acc : GleanAuditor * list GuidelineViolation) (g : Guideline)
    : GleanAuditor * list GuidelineViolation :=
  let '(a, blocking) := acc in
  if negb (String.eqb (check g) "pre") then (a, blocking)
  else if search (compiled g) subject then
    let violation := pre_violation tool_name subject g in
    (record a violation,
     if String.eqb (severity g) "block" then (blocking ++ [violation])%list else blocking)
  else (a, blocking).

Definition post_step (tool_name subject : string) (acc : GleanAuditor * list GuidelineViolation) (g : Guideline)
    : GleanAuditor * list GuidelineViolation :=
  let '(a, violations) := acc in
  if negb (String.eqb (check g) "post") then (a, violations)
  else if search (compiled g) subject then
    let violation := post_violation tool_name subject g in
    (record a violation, (violations ++ [violation])%list)
  else (a, violations).

Definition check_pre_execution (a : GleanAuditor) (tool_name : string) (tool_args : dict)
    : GleanAuditor * list GuidelineViolation :=
  fold_left (pre_step tool_name (py_str (PDict tool_args))) (_guidelines a) (a, []).

Definition check_post_execution (a : GleanAuditor) (tool_name : string) (result : pyval)
    : GleanAuditor * list GuidelineViolation :=
  fold_left (post_step tool_name (py_str result)) (_guidelines a) (a, []).

Definition record_evidence (a : GleanAuditor) (tool_name act det : string) : GleanAuditor :=
  let entry := [("tool_name", PStr tool_name); ("action", PStr act); ("detail", PStr det)] in
  {| _guidelines := _guidelines a; _violations := _violations a; _evidence := _evidence a ++ [entry] |}.

Definition blocking_of (vs : list GuidelineViolation) : list GuidelineViolation :=
  List.filter (fun v => String.eqb (gv_severity v) "block") vs.

Definition summary (a : GleanAuditor) : dict :=
  let blocking := blocking_of (_violations a) in
  [("guidelines_checked", PInt (Z.of_nat (length (_guidelines a))));
   ("violations", PInt (Z.of_nat (length (_violations a))));
   ("blocking_violations", PInt (Z.of_nat (length blocking)));
   ("evidence_entries", PInt (Z.of_nat (length (_evidence a))));
   ("compliant", PBool (Z.of_nat (length blocking) =? 0))].

Definition export_violations (a : GleanAuditor) : list dict :=
  List.map (fun v => [("guideline_id", PStr (guideline_id v)); ("tool_name", PStr (gv_tool_name v));
                      ("detail", PStr (detail v)); ("severity", PStr (gv_severity v))]) (_violations a).

(** ** Specification *)

(** The violations a phase produces: one per guideline of that phase whose
    pattern occurs in the subject. *)
Definition hits (phase : string) (subject : string) (gs : list Guideline) : list Guideline :=
  List.filter (fun g => String.eqb (check g) phase && search (compiled g) subject)%bool gs.

Definition recorded (a : GleanAuditor) (vs : list GuidelineViolation) : GleanAuditor :=
  {| _guidelines := _guidelines a; _violations := _violations a ++ vs; _evidence := _evidence a |}.

Lemma recorded_nil a : recorded a [] = a.
Proof. destruct a; unfold recorded; simpl. by rewrite app_nil_r. Qed.

Lemma pre_fold tool subject gs a acc b :
  let vs := List.map (pre_violation tool subject) (hits "pre" subject gs) in
  fold_left (pre_step tool subject) gs (recorded a acc, b) =
  (recorded a (acc ++ vs), (b ++ blocking_of vs)%list).
Proof.
  revert acc b. induction gs as [|g gs IH]; intros acc b; [by simpl; rewrite !app_nil_r|].
  cbn [fold_left]. unfold pre_step at 2. unfold hits. cbn [List.filter].
  destruct (String.eqb (check g) "pre"); [|apply IH]. cbn [negb andb].
  destruct (search (compiled g) subject); [|apply IH].
  change (record (recorded a acc) (pre_violation tool subject g))
    with {| _guidelines := _guidelines a;
            _violations := (_violations a ++ acc) ++ [pre_violation tool subject g];
            _evidence := _evidence a |}.
  rewrite <- app_assoc. fold (recorded a (acc ++ [pre_violation tool subject g])).
  rewrite IH. cbn [List.map]. f_equal; [by rewrite <- app_assoc|].
  unfold blocking_of. cbn [List.filter gv_severity pre_violation].
  destruct (String.eqb (severity g) "block"); by rewrite <- ?app_assoc.
Qed.

Lemma post_fold tool subject gs a acc b :
  let vs := List.map (post_violation tool subject) (hits "post" subject gs) in
  fold_left (post_step tool subject) gs (recorded a acc, b) = (recorded a (acc ++ vs), (b ++ vs)%list).
Proof.
  revert acc b. induction gs as [|g gs IH]; intros acc b; [by simpl; rewrite !app_nil_r|].
  cbn [fold_left]. unfold post_step at 2. unfold hits. cbn [List.filter].
  destruct (String.eqb (check g) "post"); [|apply IH]. cbn [negb andb].
  destruct (search (compiled g) subject); [|apply IH].
  change (record (recorded a acc) (post_violation tool subject g))
    with {| _guidelines := _guidelines a;
            _violations := (_violations a ++ acc) ++ [post_violation tool subject g];
            _evidence := _evidence a |}.
  rewrite <- app_assoc. fold (recorded a (acc ++ [post_violation tool subject g])).
  rewrite IH. cbn [List.map]. by rewrite <- !app_assoc.
Qed.

Lemma check_pre_eq a tool args :
  let vs := List.map (pre_violation tool (py_str (PDict args)))
                     (hits "pre" (py_str (PDict args)) (_guidelines a)) in
  check_pre_execution a tool args = (recorded a vs, blocking_of vs).
Proof.
  unfold check_pre_execution. rewrite <- (recorded_nil a) at 2. by rewrite pre_fold.
Qed.

Lemma check_post_eq a tool result :
  let vs := List.map (post_violation tool (py_str result)) (hits "post" (py_str result) (_guidelines a)) in
  check_post_execution a tool result = (recorded a vs, vs).
Proof.
  unfold check_post_execution. rewrite <- (recorded_nil a) at 2. by rewrite post_fold.
Qed.

(** The default auditor. *)
Definition default_auditor : GleanAuditor := fold_left add_guideline DEFAULT_GUIDELINES GleanAuditor_init.

(** ** Claims *)

(** The pre-execution check returns a blocking violation exactly when some
    registered ["pre"] guideline of severity ["block"] has a pattern that occurs
    (in the declarative sense of [matches]) in the [str] of the arguments; it
    returns one violation per such guideline, and records every violation,
    blocking or not, without touching the guidelines or the evidence. *)
Theorem check_pre_execution_spec a tool args :
  let subject := py_str (PDict args) in
  let '(a', blocking) := check_pre_execution a tool args in
  (blocking <> [] <-> exists g, In g (_guidelines a) /\ check g = "pre" /\ severity g = "block" /\
                                found (compiled g) subject) /\
  (forall v, In v blocking <-> exists g, In g (_guidelines a) /\ check g = "pre" /\ severity g = "block" /\
                                found (compiled g) subject /\ v = pre_violation tool subject g) /\
  (exists vs, _violations a' = (_violations a ++ vs)%list /\ blocking = blocking_of vs) /\
  _guidelines a' = _guidelines a /\ _evidence a' = _evidence a.
Proof.
  intros subject. pose proof (check_pre_eq a tool args) as E. fold subject in E. cbv zeta in E.
  destruct (check_pre_execution a tool args) as [a' blocking]. injection E as -> ->.
  set (vs := List.map _ _).
  assert (Hin : forall v, In v (blocking_of vs) <-> exists g, In g (_guidelines a) /\ check g = "pre" /\
      severity g = "block" /\ found (compiled g) subject /\ v = pre_violation tool subject g).
  { intros v. unfold blocking_of, vs, hits. rewrite filter_In, in_map_iff. split.
    - intros [(g & <- & Hg) Hs]. apply filter_In in Hg as [Hg Hp]. simpl in Hs. bool_prop.
      exists g. rewrite <- search_spec. auto.
    - intros (g & Hg & Hc & Hs & Hf & ->). apply search_spec in Hf. split.
      + exists g. split; [done|]. apply filter_In. split; [done|]. by rewrite Hc, Hf.
      + simpl. by rewrite Hs. }
  split; [|split; [exact Hin|split; [by exists vs|done]]]. split.
  - destruct (blocking_of vs) as [|v l] eqn:E; [done|]. intros _.
    destruct (proj1 (Hin v) (or_introl eq_refl)) as (g & H1 & H2 & H3 & H4 & _). by exists g.
  - intros (g & H1 & H2 & H3 & H4).
    assert (In (pre_violation tool subject g) (blocking_of vs)) by (apply Hin; by exists g).
    by destruct (blocking_of vs).
Qed.

(** Concrete commands against the default guidelines. *)
Example glean_blocks_force_push :
  List.map guideline_id (snd (check_pre_execution default_auditor "exec"
     [("cmd", PStr "git push origin main --force")])) = ["no-force-push"].
Proof. vm_compute. reflexivity. Qed.

Example glean_blocks_rm_rf_root :
  List.map guideline_id (snd (check_pre_execution default_auditor "exec" [("cmd", PStr "rm -rf /")])) =
  ["no-rm-rf-root"].
Proof. vm_compute. reflexivity. Qed.

Example glean_allows_feature_branch :
  snd (check_pre_execution default_auditor "exec" [("cmd", PStr "git push origin my-feature")]) = [].
Proof. vm_compute. reflexivity. Qed.

Example glean_warns_secret :
  List.map gv_severity (snd (check_post_execution default_auditor "exec"
     (PDict [("stdout", PStr "API_KEY=abcdefgh12345")]))) = ["warning"].
Proof. vm_compute. reflexivity. Qed.
