(* ===== verification/Memory.v ===== *)
(** * Working memory: [memory.py]

    Token budgets and context packing for the planner, tool-result summaries,
    recovery-fact ranking and the history-pruning policy.  States are dicts (the
    branches for pydantic models are not modelled). *)
From Stdlib Require Import ZArith Lia String Ascii List Bool.
From stdpp Require Import base tactics list strings option.
From S2P Require Import Prelude PyStr PyFloat PyVal State Sha256.
Local Open Scope string_scope.
Local Open Scope Z_scope.

Definition _PRUNED_READ_FILE_PREFIX : string := "[pruned_read_file_payload]".

(** ** Bounded integers and settings *)

Definition clamp (lo hi z : Z) : Z := Z.min (Z.max z lo) hi.

(** [_as_int]: [int] of a float is outside any [try], so it may raise. *)
Definition _as_int (value : pyval) (default minimum maximum : Z) : res Z :=
  match value with
  | PBool _ => Ok default
  | PInt z => Ok (clamp minimum maximum z)
  | PFloat f => let! z := py_int (PFloat f) in Ok (clamp minimum maximum z)
  | PStr s =>
      let text := strip s in
      if String.eqb text "" then Ok default
      else match parse_int text with
           | Some z => Ok (clamp minimum maximum z)
           | None => Ok default
           end
  | _ => Ok default
  end.

(** [_normalize_history_policy], with [_HISTORY_POLICY_DEFAULTS]. *)
Definition _normalize_history_policy (raw : dict) : res dict :=
  let! retain := _as_int (dget raw "retain_recent_tool_results" PNone) 40 5 500 in
  let! threshold := _as_int (dget raw "read_file_prune_threshold_chars" PNone) 4000 200 200000 in
  Ok [("schema_version", PInt 1); ("retain_recent_tool_results", PInt retain);
      ("read_file_prune_threshold_chars", PInt threshold)].

Definition _tool_results (state : dict) : list dict :=
  dicts_of (list_or_empty (dget state "tool_results" (PList []))).

Definition _provenance (state : dict) : list dict :=
  dicts_of (list_or_empty (dget state "provenance" (PList []))).

Definition approx_token_count (text : string) : Z :=
  if String.eqb text "" then 0 else Z.max 1 ((py_len text + 3) / 4).

Record ContextBudgets := {
  stable_prefix_tokens : Z; working_set_tokens : Z; tool_result_summary_chars : Z }.

Definition context_budget_settings (state : dict) : res ContextBudgets :=
  let src := dict_or_empty (dget state "_budget_context" (PDict [])) in
  let! a := _as_int (dget src "stable_prefix_tokens" PNone) 1600 200 100000 in
  let! b := _as_int (dget src "working_set_tokens" PNone) 1600 200 100000 in
  let! c := _as_int (dget src "tool_result_summary_chars" PNone) 480 80 20000 in
  Ok {| stable_prefix_tokens := a; working_set_tokens := b; tool_result_summary_chars := c |}.

(** [str] of an integer raises beyond 4300 digits, and [json.dumps] with it. *)
Fixpoint digits_ok (v : pyval) : bool :=
  match v with
  | PInt z => ndigits (Z.abs z) <=? 4300
  | PList l | PTuple l => forallb digits_ok l
  | PDict d => forallb (fun kv => digits_ok (snd kv)) d
  | _ => true
  end.
Definition digits_error : pyexc := ValueError "Exceeds the limit (4300 digits) for integer string conversion".

(** Any Python value: one that is encoded (JSON, with text keys), or one at which [json.dumps]
    raises [e] (an object of another class, keys that cannot be sorted, a cycle, or a
    container of such), with what its [str] gives. *)
Inductive any_value := Encodable (v : pyval) | Refused (e : pyexc) (str : res string).

(** [json.dumps(value, ensure_ascii=False, sort_keys=True)]. *)
Definition encode (v : any_value) : res string :=
  match v with Encodable v => if digits_ok v then Ok (json_dumps true v) else Err digits_error | Refused e _ => Err e end.
Definition str_value (v : any_value) : res string :=
  match v with Encodable v => if digits_ok v then Ok (py_str v) else Err digits_error | Refused _ str => str end.

Definition _safe_json (v : any_value) : res string :=
  match encode v with Ok text => Ok text | Err e => if is_type_or_value_error e then str_value v else Err e end.

(** Its text of the values that are in states: JSON, with integers of at most 4300 digits. *)
Definition safe_json (v : pyval) : string := json_dumps true v.

Lemma safe_json_text v : digits_ok v = true -> _safe_json (Encodable v) = Ok (safe_json v).
Proof. intros H. unfold _safe_json, encode. by rewrite H. Qed.

Definition _first_nonempty_line (text : string) : string :=
  match List.find (fun l => negb (String.eqb (strip l) "")) (splitlines text) with
  | Some l => strip l
  | None => ""
  end.

(** ** Semantic hits *)

Definition is_number (v : pyval) : bool := match v with PInt _ | PBool _ | PFloat _ => true | _ => false end.

Definition score_of (hit : dict) : res float :=
  let raw := dget hit "score" (PInt 0) in
  if is_number raw then num_to_float raw else Ok fzero.

Definition hit_key (hit : dict) : string :=
  let path := str_strip (dget hit "path" (PStr "")) in
  if String.eqb path "" then _first_nonempty_line (py_str (dget hit "snippet" (PStr ""))) else path.

Definition dedupe_step (best : list (string * dict)) (hit : dict) : res (list (string * dict)) :=
  let key := hit_key hit in
  if String.eqb key "" then Ok best
  else
    let! score := score_of hit in
    match dlookup key best with
    | None => Ok (dset key hit best)
    | Some current =>
        let! current_score := score_of current in
        Ok (if fltb current_score score then dset key hit best else best)
    end.

(** NaN scores make the order inconsistent and are not modelled. *)
Definition dedupe_semantic_hits (hits : list dict) : res (list dict) :=
  let! best := fold_res dedupe_step [] hits in
  let! keyed := map_res (fun kv => let! s := score_of (snd kv) in Ok (s, snd kv)) best in
  if existsb (fun p => is_nan (fst p)) keyed then Err (Unmodelled "sort with NaN keys")
  else Ok (List.map snd (py_sorted (fun a b : float * dict => fltb (fst b) (fst a)) keyed)).

(** ** Tool-result summaries *)

Definition str_or (a b : string) : string := if String.eqb a "" then b else a.

Definition summarize_tool_result (result : dict) (max_chars : Z) : dict :=
  let diagnostic_message :=
    match list_or_empty (dget result "diagnostics" (PList [])) with
    | PDict d :: _ => str_strip (dget d "message" (PStr ""))
    | _ => ""
    end in
  let detail := str_or diagnostic_message (_first_nonempty_line (py_str (dget result "stderr" (PStr "")))) in
  let detail := str_or detail (_first_nonempty_line (py_str (dget result "stdout" (PStr "")))) in
  let detail := if max_chars <? py_len detail
                then rstrip (str_prefix detail (max_chars - 3)) ++ "..." else detail in
  let artifacts := dict_or_empty (dget result "artifacts" (PDict [])) in
  [("tool", PStr (str_strip (dget result "tool" (PStr ""))));
   ("ok", PBool (truthy (dget result "ok" (PBool false))));
   ("exit_code", PInt (if is_int (dget result "exit_code" PNone)
                       then int_of (dget result "exit_code" (PInt 0)) else 0));
   ("summary", PStr detail);
   ("error", PStr (str_strip (dget artifacts "error" (PStr ""))))].

(** ** Fitting text into a token budget *)

Definition marker : string := nl ++ "...[compressed]..." ++ nl.

Definition _truncate_text_to_budget (text : string) (budget_tokens : Z) : string * bool :=
  if budget_tokens <=? 0 then ("", true)
  else
    let max_chars := budget_tokens * 4 in
    if py_len text <=? max_chars then (text, false)
    else if max_chars <=? 64 then (rstrip (str_prefix text max_chars), true)
    else
      let head_chars := Z.max ((max_chars - py_len marker) * 2 / 3) 40 in
      let tail_chars := Z.max (max_chars - py_len marker - head_chars) 20 in
      (rstrip (str_prefix text head_chars) ++ marker ++ lstrip (str_suffix text (Z.to_nat tail_chars)), true).

Definition decision (label act : string) (before after : Z) : dict :=
  [("segment", PStr label); ("action", PStr act); ("tokens_before", PInt before); ("tokens_after", PInt after)].

(** The loop state of [_fit_segments]. *)
Record fit_state := { remaining : Z; chunks : list string; decisions : list dict }.

Definition blank (s : string) : bool := String.eqb (strip s) "".

Definition block_of (label text : string) : string := strip ("[" ++ label ++ "]" ++ nl ++ text).

Definition fit_step (st : fit_state) (seg : string * string) : fit_state :=
  let '(label, text) := seg in
  if blank text then st
  else
    let block := block_of label text in
    let tokens_before := approx_token_count block in
    if remaining st <=? 0 then
      {| remaining := remaining st; chunks := chunks st;
         decisions := decisions st ++ [decision label "dropped" tokens_before 0] |}
    else if tokens_before <=? remaining st then
      {| remaining := remaining st - tokens_before; chunks := chunks st ++ [block]; decisions := decisions st |}
    else
      let '(compressed, did_compress) := _truncate_text_to_budget block (remaining st) in
      let tokens_after := approx_token_count compressed in
      {| remaining := Z.max (remaining st - tokens_after) 0;
         chunks := if blank compressed then chunks st else chunks st ++ [compressed];
         decisions := decisions st ++
           [decision label (if did_compress then "compressed" else "kept") tokens_before tokens_after] |}.

Definition _fit_segments (segments : list (string * string)) (budget_tokens : Z) : string * list dict :=
  let st := fold_left fit_step segments
              {| remaining := Z.max budget_tokens 0; chunks := []; decisions := [] |} in
  (strip (join (nl ++ nl) (List.filter (fun c => negb (blank c)) (chunks st))), decisions st).

Definition action_is (a : string) (d : dict) : bool := String.eqb (str_strip (dget d "action" (PStr ""))) a.

Definition count {A : Type} (f : A -> bool) (l : list A) : Z := Z.of_nat (length (List.filter f l)).

Record Pressure := { compressed_segments : Z; dropped_segments : Z; kept_segments : Z; score : Z }.

Definition _compression_pressure (ds : list dict) : Pressure :=
  let compressed := count (action_is "compressed") ds in
  let dropped := count (action_is "dropped") ds in
  let kept := count (fun d => negb (action_is "compressed" d || action_is "dropped" d)) ds in
  {| compressed_segments := compressed; dropped_segments := dropped; kept_segments := kept;
     score := compressed + dropped * 2 |}.

(** ** Recovery facts *)

Definition plain_int (v : pyval) : pyval := match v with PInt z => PInt z | _ => PInt 0 end.

Definition normalize_fact (fact : dict) : list dict :=
  let fingerprint := str_strip (dget fact "failure_fingerprint" (PStr "")) in
  let summary := str_strip (dget fact "summary" (dget fact "loop_summary" (PStr ""))) in
  if (String.eqb fingerprint "" && String.eqb summary "")%bool then []
  else
    let e := dset "kind" (PStr (str_or (str_strip (dget fact "kind" (PStr "fact"))) "fact")) fact in
    let e := dset "summary" (PStr summary) e in
    let e := dset "loop" (plain_int (dget fact "loop" (PInt 0))) e in
    [dset "salience" (plain_int (dget fact "salience" (PInt 0))) e].

Definition fact_key (e : dict) : string :=
  str_or (str_strip (dget e "failure_fingerprint" (PStr ""))) (str_strip (dget e "summary" (PStr ""))).

(** [int(e.get(k, 0) or 0)] on a normalised entry, which holds a plain integer. *)
Definition salience_of (e : dict) : Z := int_of (dget e "salience" (PInt 0)).
Definition loop_of (e : dict) : Z := int_of (dget e "loop" (PInt 0)).

Definition rank_le (a b : dict) : bool :=
  (salience_of a <? salience_of b) || ((salience_of a =? salience_of b) && (loop_of a <=? loop_of b)).

Definition fact_step (deduped : list (string * dict)) (entry : dict) : list (string * dict) :=
  let key := fact_key entry in
  match dlookup key deduped with
  | None => dset key entry deduped
  | Some current => if rank_le current entry then dset key entry deduped else deduped
  end.

Definition kind_rank (e : dict) : Z :=
  if String.eqb (str_strip (dget e "kind" (PStr ""))) "recovery_fact" then 1 else 0.

(** Strictly greater sort keys come first ([reverse=True]). *)
Definition fact_before (a b : dict) : bool :=
  (salience_of b <? salience_of a)
  || ((salience_of b =? salience_of a)
      && ((loop_of b <? loop_of a) || ((loop_of b =? loop_of a) && (kind_rank b <? kind_rank a)))).

Definition _fact_pack (facts : list dict) : list dict :=
  let normalized := flat_map normalize_fact facts in
  let deduped := fold_left fact_step normalized [] in
  firstn 8 (py_sorted fact_before (List.map snd deduped)).

(** ** Context layers *)

(** A long-term store, as [build_context_layers] uses it: what
    [retrieve_for_context(text, max_tokens=1000)] returns. *)
Definition long_term_store : Type := string -> string.

(** One [store_episode] call: run id, summary, outcome, metadata. *)
Definition episode : Type := (string * string * string * dict)%type.

Definition segment_json (label : string) (v : pyval) : string * string := (label, safe_json v).

Definition list_segment (label : string) (v : pyval) (n : nat) : list (string * string) :=
  match v with PList ((_ :: _) as l) => [segment_json label (PList (firstn n l))] | _ => [] end.

Definition text_segment (label : string) (v : pyval) : list (string * string) :=
  let t := str_strip v in if String.eqb t "" then [] else [(label, t)].

Definition repo_summary (repo_context : dict) : string :=
  let top_level := list_or_empty (dget repo_context "top_level" (PList [])) in
  join nl ["repo_root: " ++ py_str (dget repo_context "repo_root" (PStr ""));
           "has_py: " ++ repr (PBool (truthy (dget repo_context "has_py" (PBool false))));
           "has_rs: " ++ repr (PBool (truthy (dget repo_context "has_rs" (PBool false))));
           "top_level: " ++ join ", " (List.map py_str (firstn 30 top_level))].

Definition semantic_memories_of (repo_context : dict) : list dict :=
  dicts_of (list_or_empty (dget repo_context "semantic_memories" (PList []))).

Definition stable_segments (state repo_context : dict) (semantic_hits : list dict)
    (long_term : option long_term_store) : list (string * string) :=
  let pre :=
    match long_term with
    | Some retrieve =>
        let task_text := str_strip (dget state "task" (dget state "request" (PStr ""))) in
        if String.eqb task_text "" then []
        else let lt_content := retrieve task_text in
             if blank lt_content then [] else [("long_term_memories", lt_content)]
    | None => []
    end in
  let ast_map := dget repo_context "structural_ast_map" PNone in
  (pre ++ [("repo_summary", repo_summary repo_context)]
   ++ text_segment "repo_map" (dget repo_context "repo_map" (PStr ""))
   ++ (if truthy ast_map then [segment_json "structural_ast_map" ast_map] else [])
   ++ list_segment "semantic_hits" (PList (List.map PDict semantic_hits)) 8
   ++ text_segment "mcp_catalog" (dget repo_context "mcp_catalog" (PStr ""))
   ++ list_segment "episodic_facts" (dget repo_context "episodic_facts" (PList [])) 5
   ++ list_segment "semantic_memories" (PList (List.map PDict (semantic_memories_of repo_context))) 5
   ++ text_segment "mcp_recovery_hints" (dget repo_context "mcp_recovery_hints" (PStr "")))%list.

(** The episodes stored for the finalised loop summaries. *)
Definition stored_episodes (state : dict) (long_term : option long_term_store) : list episode :=
  match long_term with
  | None => []
  | Some _ =>
      let run_id_raw := dget state "run_id" (PStr "") in
      let run_id := if truthy run_id_raw then str_strip run_id_raw else "" in
      if String.eqb run_id "" then []
      else flat_map (fun entry =>
             let loop_summary_text := str_strip (dget entry "loop_summary" (dget entry "summary" (PStr ""))) in
             let outcome_text := str_strip (dget entry "outcome" (dget entry "status" (PStr ""))) in
             if String.eqb loop_summary_text "" then []
             else [(run_id, loop_summary_text, outcome_text,
                    [("loop", dget entry "loop" (PInt 0));
                     ("failure_class", dget entry "failure_class" (PStr ""))])])
             (dicts_of (list_or_empty (dget state "loop_summaries" (PList []))))
  end.

(** A dict of selected keys with their defaults. *)
Definition pick (d : dict) (keys : list (string * pyval)) : pyval :=
  PDict (List.map (fun kd => (fst kd, dget d (fst kd) (snd kd))) keys).

Definition fact_pack_of (state : dict) : list dict :=
  _fact_pack (dicts_of (list_or_empty (dget state "facts" (PList [])))).

Definition working_segments (state repo_context : dict) (summary_chars : Z) : list (string * string) :=
  let verification := dict_or_empty (dget state "verification" (PDict [])) in
  let recovery_packet :=
    dict_or_empty (dget state "recovery_packet" (dget verification "recovery_packet" (PDict []))) in
  let plan := dict_or_empty (dget state "plan" (PDict [])) in
  let facts := list_or_empty (dget state "facts" (PList [])) in
  let loop_summaries := list_or_empty (dget state "loop_summaries" (PList [])) in
  let recent := List.map (fun r => PDict (summarize_tool_result r summary_chars))
                         (last_n 6 (_tool_results state)) in
  ((match verification with [] => [] | _ =>
      [segment_json "verification" (pick verification
         [("ok", PNone); ("failure_class", PStr ""); ("failure_fingerprint", PStr "");
          ("loop_summary", PStr ""); ("recovery", PNone); ("recovery_packet", PNone)])] end)
   ++ (match recovery_packet with [] => [] | _ =>
      [segment_json "recovery_packet" (pick recovery_packet
         [("failure_class", PStr ""); ("failure_fingerprint", PStr ""); ("summary", PStr "");
          ("last_check", PStr ""); ("context_scope", PStr ""); ("plan_action", PStr "");
          ("retry_target", PStr "")])] end)
   ++ list_segment "recovery_fact_pack" (PList (List.map PDict (fact_pack_of state))) 5
   ++ list_segment "mcp_relevant_tools" (dget repo_context "mcp_relevant_tools" (PList [])) 5
   ++ list_segment "loop_summaries" (PList (last_n 3 loop_summaries)) 3
   ++ (match plan with [] => [] | _ =>
      [segment_json "current_plan" (pick plan
         [("steps", PList []); ("acceptance_criteria", PList []); ("max_iterations", PInt 1);
          ("recovery", PNone); ("recovery_packet", PNone)])] end)
   ++ list_segment "recent_tool_results" (PList recent) 6
   ++ list_segment "recent_facts" (PList (last_n 5 facts)) 5
   ++ list_segment "cached_procedures" (dget repo_context "cached_procedures" (PList [])) 3)%list.

Definition pressure_dump (p : Pressure) : dict :=
  [("compressed_segments", PInt (compressed_segments p)); ("dropped_segments", PInt (dropped_segments p));
   ("kept_segments", PInt (kept_segments p)); ("score", PInt (score p))].

Definition layer_dump (content : string) (budget : Z) : pyval :=
  PDict [("content", PStr content); ("token_budget", PInt budget);
         ("token_estimate", PInt (approx_token_count content))].

(** [build_context_layers]: the layers and the episodes handed to the store. *)
Definition build_context_layers (state repo_context : dict) (long_term : option long_term_store)
    : res (dict * list episode) :=
  let! budgets := context_budget_settings state in
  let! semantic_hits :=
    dedupe_semantic_hits (dicts_of (list_or_empty (dget repo_context "semantic_hits" (PList [])))) in
  let '(stable_text, stable_decisions) :=
    _fit_segments (stable_segments state repo_context semantic_hits long_term) (stable_prefix_tokens budgets) in
  let '(working_text, working_decisions) :=
    _fit_segments (working_segments state repo_context (tool_result_summary_chars budgets))
                  (working_set_tokens budgets) in
  let planner_context :=
    strip (join (nl ++ nl) (List.filter (fun p => negb (blank p)) [stable_text; working_text])) in
  let stable_pressure := _compression_pressure stable_decisions in
  let working_pressure := _compression_pressure working_decisions in
  let overall_score := Z.max (score stable_pressure) (score working_pressure) in
  let overall := [("score", PInt overall_score);
     ("compressed_segments", PInt (compressed_segments stable_pressure + compressed_segments working_pressure));
     ("dropped_segments", PInt (dropped_segments stable_pressure + dropped_segments working_pressure))] in
  let semantic_memory_count := Z.of_nat (length (semantic_memories_of repo_context)) in
  let combined_fact_count := Z.of_nat (length (fact_pack_of state)) + Z.min semantic_memory_count 3 in
  Ok ([("semantic_hits", PList (List.map PDict semantic_hits));
       ("stable_prefix", layer_dump stable_text (stable_prefix_tokens budgets));
       ("working_set", layer_dump working_text (working_set_tokens budgets));
       ("planner_context", PDict [("content", PStr planner_context);
          ("token_estimate", PInt (approx_token_count planner_context));
          ("stable_token_estimate", PInt (approx_token_count stable_text));
          ("working_set_token_estimate", PInt (approx_token_count working_text));
          ("compression_pressure", PInt overall_score);
          ("fact_count", PInt combined_fact_count);
          ("semantic_memory_count", PInt semantic_memory_count)]);
       ("compression", PDict [("stable_prefix", PList (List.map PDict stable_decisions));
          ("working_set", PList (List.map PDict working_decisions));
          ("pressure", PDict [("stable_prefix", PDict (pressure_dump stable_pressure));
             ("working_set", PDict (pressure_dump working_pressure));
             ("overall", PDict overall)])])],
      stored_episodes state long_term).

(** ** Provenance of compressions *)

Definition get_int (d : dict) (k : string) : res Z := py_int (dget d k (PInt 0)).

Definition record_compression_provenance (state compression_result : dict) (current_loop : Z) : res dict :=
  let provenance := _provenance state in
  let compression := dict_or_empty (dget compression_result "compression" (PDict [])) in
  let pressure := dict_or_empty (dget compression "pressure" (PDict [])) in
  let overall := dict_or_empty (dget pressure "overall" (PDict [])) in
  let stable := dicts_of (list_or_empty (dget compression "stable_prefix" (PList []))) in
  let working := dicts_of (list_or_empty (dget compression "working_set" (PList []))) in
  let! compressed := get_int overall "compressed_segments" in
  let! dropped := get_int overall "dropped_segments" in
  let! pressure_score := get_int overall "score" in
  let entry :=
    [("event", PStr "context_compression"); ("version", PInt 1); ("loop", PInt current_loop);
     ("stable_prefix_compressed", PInt (count (action_is "compressed") stable));
     ("stable_prefix_dropped", PInt (count (action_is "dropped") stable));
     ("working_set_compressed", PInt (count (action_is "compressed") working));
     ("working_set_dropped", PInt (count (action_is "dropped") working));
     ("total_compressed", PInt compressed); ("total_dropped", PInt dropped);
     ("pressure_score", PInt pressure_score);
     ("stable_prefix_decisions", PList (List.map PDict (firstn 5 stable)));
     ("working_set_decisions", PList (List.map PDict (firstn 5 working)))] in
  Ok (dset "provenance" (PList (List.map PDict (last_n 20 (provenance ++ [entry])))) state).

Definition sum_Z (l : list Z) : Z := fold_right Z.add 0 l.
Definition max_Z (l : list Z) : Z := match l with [] => 0 | x :: r => fold_left Z.max r x end.

Definition get_compression_summary (state : dict) : res dict :=
  let events := List.filter (fun e => String.eqb (str_strip (dget e "event" (PStr ""))) "context_compression")
                            (_provenance state) in
  match events with
  | [] => Ok [("total_events", PInt 0); ("total_compressed", PInt 0); ("total_dropped", PInt 0);
              ("max_pressure", PInt 0)]
  | _ =>
      let! compressed := map_res (fun e => get_int e "total_compressed") events in
      let! dropped := map_res (fun e => get_int e "total_dropped") events in
      let! pressures := map_res (fun e => get_int e "pressure_score") events in
      let! loops := map_res (fun e => get_int e "loop")
        (List.filter (fun e => match get_int e "total_compressed" with Ok z => 0 <? z | Err _ => false end) events) in
      Ok [("total_events", PInt (Z.of_nat (length events))); ("total_compressed", PInt (sum_Z compressed));
          ("total_dropped", PInt (sum_Z dropped)); ("max_pressure", PInt (max_Z pressures));
          ("loops_with_compression", PList (List.map PInt loops));
          ("last_event", PDict (List.last events []))]
  end.

(** ** History policy *)

Definition ensure_history_policy (state : dict) : res dict :=
  let policy_src := dict_or_empty (dget state "history_policy" (PDict [])) in
  let! normalized := _normalize_history_policy policy_src in
  if py_eq (PDict policy_src) (PDict normalized) then Ok state
  else Ok (dset "history_policy" (PDict normalized) state).

Definition trim_event (dropped kept : Z) : dict :=
  [("event", PStr "tool_result_window_trim"); ("reason", PStr "sliding_window_pre_verification");
   ("dropped", PInt dropped); ("kept", PInt kept)].

Definition prune_pre_verification_history (state : dict) : res dict :=
  let! state := ensure_history_policy state in
  match dget state "history_policy" (PDict []) with
  | PDict policy =>
      let! retain_recent := _as_int (dget policy "retain_recent_tool_results" PNone) 40 5 500 in
      let tool_results := _tool_results state in
      if Z.of_nat (length tool_results) <=? retain_recent then Ok state
      else
        let dropped := Z.of_nat (length tool_results) - retain_recent in
        let kept := last_n (Z.to_nat retain_recent) tool_results in
        let provenance := (_provenance state ++ [trim_event dropped retain_recent])%list in
        Ok (dset "provenance" (PList (List.map PDict provenance))
              (dset "tool_results" (PList (List.map PDict kept)) state))
  | _ => Ok state
  end.

(** Whether the post-verification pass evicts the payload of a result. *)
Definition evicts (threshold : Z) (result : dict) : option string :=
  match dget result "stdout" (PStr "") with
  | PStr stdout =>
      if (String.eqb (str_strip (dget result "tool" (PStr ""))) "read_file"
          && (threshold <=? py_len stdout) && negb (startswith stdout _PRUNED_READ_FILE_PREFIX))%bool
      then Some stdout else None
  | _ => None
  end.

Definition compact_result (result : dict) (stdout : string) : dict :=
  let digest := sha256_hex stdout in
  let artifacts := dict_or_empty (dget result "artifacts" (PDict [])) in
  let compact := dset "stdout" (PStr (_PRUNED_READ_FILE_PREFIX ++ " chars=" ++ str_of_Z (py_len stdout)
                                      ++ " sha256=" ++ digest)) result in
  dset "artifacts" (PDict (dset "pruned" (PDict
    [("reason", PStr "post_verify_after_apply_patch"); ("stdout_chars", PInt (py_len stdout));
     ("stdout_sha256", PStr digest)]) artifacts)) compact.

Definition evict_event (index : Z) (result : dict) (stdout : string) : dict :=
  let artifacts := dict_or_empty (dget result "artifacts" (PDict [])) in
  [("event", PStr "read_file_payload_evicted"); ("reason", PStr "post_verify_after_apply_patch");
   ("tool_index", PInt index);
   ("path", match dget artifacts "path" PNone with PStr p => PStr p | _ => PStr "" end);
   ("stdout_chars", PInt (py_len stdout)); ("stdout_sha256", PStr (sha256_hex stdout))].

(** The loop over [enumerate(tool_results)]: updated results and new events. *)
Fixpoint evict_loop (threshold index : Z) (results : list dict) : list dict * list dict :=
  match results with
  | [] => ([], [])
  | r :: rest =>
      let '(rs, es) := evict_loop threshold (index + 1) rest in
      match evicts threshold r with
      | Some stdout => (compact_result r stdout :: rs, evict_event index r stdout :: es)
      | None => (r :: rs, es)
      end
  end.

Definition verified_apply_patch (result : dict) : bool :=
  String.eqb (str_strip (dget result "tool" (PStr ""))) "apply_patch" && truthy (dget result "ok" (PBool false)).

Definition prune_post_verification_history (state : dict) : res dict :=
  let! state := ensure_history_policy state in
  match dget state "verification" (PDict []) with
  | PDict verification =>
      if negb (truthy (dget verification "ok" (PBool false))) then Ok state
      else
        let tool_results := _tool_results state in
        if negb (existsb verified_apply_patch tool_results) then Ok state
        else
          match dget state "history_policy" (PDict []) with
          | PDict policy =>
              let! threshold := _as_int (dget policy "read_file_prune_threshold_chars" PNone) 4000 200 200000 in
              let '(updated, events) := evict_loop threshold 0 tool_results in
              match events with
              | [] => Ok state
              | _ => Ok (dset "provenance" (PList (List.map PDict (_provenance state ++ events)))
                           (dset "tool_results" (PList (List.map PDict updated)) state))
              end
          | _ => Ok state
          end
  | _ => Ok state
  end.
