(* ===== verification/MemoryProps.v ===== *)
(** * Properties of the working memory ([memory.py])

    Size bounds of the packed context, losslessness when it fits, ranking of
    recovery facts, and the history-pruning passes. *)
From Stdlib Require Import ZArith Lia String Ascii List Bool Sorted Permutation.
From stdpp Require Import base tactics list strings option.
From S2P Require Import Prelude PyStr StrFacts PyFloat PyVal State Sha256 Memory.
Local Open Scope string_scope.
Local Open Scope Z_scope.

(** ** Token counts and truncation *)

Lemma approx_tokens_bound t : py_len t <= 4 * approx_token_count t.
Proof.
  unfold approx_token_count. destruct (String.eqb_spec t "") as [->|]; [unfold py_len; simpl; lia|].
  pose proof (Z.div_mod (py_len t + 3) 4). pose proof (Z.mod_pos_bound (py_len t + 3) 4). lia.
Qed.

Lemma approx_tokens_le t k : 0 <= k -> py_len t <= 4 * k -> approx_token_count t <= k.
Proof.
  intros Hk Ht. unfold approx_token_count. destruct (String.eqb_spec t "") as [->|Hn]; [lia|].
  assert (0 < py_len t) by (pose proof (py_len_nonneg t); destruct (Z.eq_dec (py_len t) 0) as [E|]; [|lia];
    by apply py_len_zero in E).
  apply Z.max_lub; [lia|]. apply Z.lt_succ_r. apply Z.div_lt_upper_bound; lia.
Qed.

Lemma approx_tokens_gt t k : 4 * k < py_len t -> k < approx_token_count t.
Proof. intros H. pose proof (approx_tokens_bound t). lia. Qed.

Lemma marker_len : py_len marker = 20.
Proof. reflexivity. Qed.

(** The length of a truncation, whatever the budget. *)
Lemma truncate_length t b :
  py_len (fst (_truncate_text_to_budget t b)) <= Z.max (4 * b) (if (17 <=? b) && (b <=? 19) then 80 else 0).
Proof.
  set (slack := if (17 <=? b) && (b <=? 19) then 80 else 0).
  assert (Hslack : 0 <= slack) by (unfold slack; case_if; lia).
  unfold _truncate_text_to_budget.
  destruct (b <=? 0) eqn:E0; bool_prop; [unfold py_len; simpl; lia|].
  destruct (py_len t <=? b * 4) eqn:E1; bool_prop; [cbn [fst]; lia|].
  destruct (b * 4 <=? 64) eqn:E2; bool_prop; cbn [fst].
  - etransitivity; [apply py_len_rstrip|]. etransitivity; [apply py_len_prefix; lia|]. lia.
  - rewrite !py_len_app, marker_len in *.
    set (head := Z.max ((b * 4 - 20) * 2 / 3) 40). set (tail := Z.max (b * 4 - 20 - head) 20).
    pose proof (py_len_rstrip (str_prefix t head)). pose proof (py_len_prefix t head).
    pose proof (py_len_lstrip (str_suffix t (Z.to_nat tail))). pose proof (py_len_suffix t (Z.to_nat tail)).
    assert (Hsum : head + tail <= Z.max (4 * b - 20) 60).
    { unfold tail, head. pose proof (Z.div_mod ((b * 4 - 20) * 2) 3).
      pose proof (Z.mod_pos_bound ((b * 4 - 20) * 2) 3). lia. }
    assert (Hs : b <= 19 -> slack = 80).
    { intros Hb. unfold slack. replace ((17 <=? b) && (b <=? 19))%bool with true; [done|].
      symmetry. apply andb_true_intro. split; apply Z.leb_le; lia. }
    clearbody slack. destruct (Z_le_gt_dec b 19) as [Hb|Hb]; [rewrite (Hs Hb)|]; lia.
Qed.

(** [_truncate_text_to_budget] respects its token budget, except for budgets
    of 17, 18 and 19 tokens, where it may return up to 80 characters (20 tokens);
    it reports a truncation exactly when the text does not fit, and returns a
    text that fits unchanged. *)
Theorem truncate_budget t b :
  let '(out, truncated) := _truncate_text_to_budget t b in
  (b <= 16 \/ 20 <= b -> approx_token_count out <= Z.max b 0) /\
  approx_token_count out <= Z.max b 20 /\
  (truncated = false <-> 0 < b /\ py_len t <= 4 * b) /\
  (truncated = false -> out = t).
Proof.
  pose proof (truncate_length t b) as H.
  destruct (_truncate_text_to_budget t b) as [out truncated] eqn:E. cbn [fst] in H.
  split; [|split; [|split]].
  - intros Hb. apply approx_tokens_le; [lia|].
    replace ((17 <=? b) && (b <=? 19))%bool with false in H; [lia|].
    symmetry. apply andb_false_iff. rewrite !Z.leb_gt. lia.
  - apply approx_tokens_le; [lia|]. destruct ((17 <=? b) && (b <=? 19)); lia.
  - revert E. unfold _truncate_text_to_budget. cbv zeta.
    destruct (b <=? 0) eqn:E0, (py_len t <=? b * 4) eqn:E1, (b * 4 <=? 64) eqn:E2; bool_prop;
      intros [= <- <-]; split; try done; try lia; intros [? ?]; lia.
  - revert E. unfold _truncate_text_to_budget. cbv zeta.
    destruct (b <=? 0), (py_len t <=? b * 4), (b * 4 <=? 64); by intros [= <- <-].
Qed.

(** A budget of 17 tokens (68 characters) is overrun: 80 characters come back. *)
Fixpoint xs (n : nat) : string := match n with O => "" | S n' => String "x" (xs n') end.
Example truncate_overruns : approx_token_count (fst (_truncate_text_to_budget (xs 200) 17)) = 20.
Proof. vm_compute. reflexivity. Qed.

(** ** Fitting segments *)

Definition fit_inv (B : Z) (st : fit_state) : Prop :=
  0 <= remaining st /\
  (total_len (chunks st) + 4 * remaining st <= 4 * B \/
   (remaining st = 0 /\ total_len (chunks st) <= 4 * B + 12)).

Lemma blank_app_chunks B st c r ds :
  0 <= r -> total_len (chunks st) + py_len c + 4 * r <= 4 * B \/
            (r = 0 /\ total_len (chunks st) + py_len c <= 4 * B + 12) ->
  fit_inv B {| remaining := r; chunks := chunks st ++ [c]; decisions := ds |}.
Proof.
  intros Hr H. split; [done|]. cbn [remaining chunks]. rewrite total_len_app. cbn [total_len fold_right]. lia.
Qed.

Lemma fit_step_inv B st seg : fit_inv B st -> fit_inv B (fit_step st seg).
Proof.
  destruct seg as [label text]. intros [Hr H]. unfold fit_step.
  destruct (blank text); [by split|]. cbv zeta. set (block := block_of label text).
  destruct (remaining st <=? 0) eqn:E0; bool_prop; [by split|].
  assert (Ht : total_len (chunks st) + 4 * remaining st <= 4 * B) by lia. clear H.
  destruct (approx_token_count block <=? remaining st) eqn:E1; bool_prop.
  - apply blank_app_chunks; [lia|]. left. pose proof (approx_tokens_bound block). lia.
  - pose proof (truncate_length block (remaining st)) as L.
    destruct (_truncate_text_to_budget block (remaining st)) as [c t]. cbn [fst] in L.
    set (b := ((17 <=? remaining st) && (remaining st <=? 19))%bool) in L.
    assert (Hb : b = true -> 17 <= remaining st) by (unfold b; intros; bool_prop; lia).
    assert (Hlen : py_len c <= 4 * remaining st \/ (py_len c <= 80 /\ 17 <= remaining st)).
    { destruct b; [right; split; [lia|auto]|lia] || (destruct b; [|lia]);
      destruct (Z_le_gt_dec (py_len c) (4 * remaining st)); [by left|right; split; [lia|by apply Hb]]. }
    pose proof (approx_tokens_bound c) as Hc. pose proof (py_len_nonneg c).
    assert (Hc4 : py_len c <= 4 * remaining st -> approx_token_count c <= remaining st)
      by (apply approx_tokens_le; lia).
    assert (Hgt : 4 * remaining st < py_len c -> remaining st < approx_token_count c)
      by apply approx_tokens_gt.
    destruct (blank c).
    + split; cbn [remaining chunks]; [lia|]. left.
      assert (0 <= approx_token_count c) by lia. lia.
    + apply blank_app_chunks; [lia|].
      destruct (Z_le_gt_dec (py_len c) (4 * remaining st)) as [Hle|Hg].
      * left. specialize (Hc4 Hle). lia.
      * right. specialize (Hgt ltac:(lia)). lia.
Qed.

Lemma fit_fold_inv B segs st : fit_inv B st -> fit_inv B (fold_left fit_step segs st).
Proof. revert st. induction segs as [|s segs IH]; intros st H; simpl; [done|]. by apply IH, fit_step_inv. Qed.

Lemma fit_chunks_length segs st :
  (length (chunks (fold_left fit_step segs st)) <= length (chunks st) + length segs)%nat.
Proof.
  revert st. induction segs as [|[label text] segs IH]; intros st; cbn [fold_left length]; [lia|].
  etransitivity; [apply IH|].
  enough (length (chunks (fit_step st (label, text))) <= S (length (chunks st)))%nat by lia.
  unfold fit_step. destruct (blank text); [lia|]. cbv zeta.
  destruct (remaining st <=? 0); [cbn [chunks]; lia|].
  destruct (_ <=? remaining st); [cbn [chunks]; rewrite length_app; simpl; lia|].
  destruct (_truncate_text_to_budget _ _) as [c d]. cbn [chunks].
  destruct (blank c); rewrite ?length_app; simpl; lia.
Qed.

(** The packed text of [_fit_segments] has at most four characters per budgeted
    token, plus the overrun of one truncation (12 characters) and two newlines
    between any two segments. *)
Theorem fit_segments_bound segs B :
  py_len (fst (_fit_segments segs B)) <= 4 * Z.max B 0 + 12 + 2 * Z.max (Z.of_nat (length segs) - 1) 0.
Proof.
  unfold _fit_segments. set (st0 := {| remaining := Z.max B 0; chunks := []; decisions := [] |}).
  set (st := fold_left fit_step segs st0). cbn [fst].
  assert (Hinv : fit_inv (Z.max B 0) st) by (apply fit_fold_inv; split; cbn; lia).
  assert (Hn : (length (chunks st) <= length segs)%nat) by apply (fit_chunks_length segs st0).
  set (l := List.filter _ (chunks st)).
  assert (Hl : (length l <= length (chunks st))%nat) by apply List.filter_length_le.
  pose proof (total_len_filter (fun c => negb (blank c)) (chunks st)) as Ht. fold l in Ht.
  etransitivity; [apply py_len_strip|]. rewrite py_len_join.
  assert (E : py_len (nl ++ nl) = 2) by reflexivity. rewrite E. destruct Hinv as [Hr H]. lia.
Qed.

(** The blocks of the non-blank segments. *)
Definition blocks_of (segs : list (string * string)) : list string :=
  flat_map (fun s => if blank (snd s) then [] else [block_of (fst s) (snd s)]) segs.

Definition token_total (l : list string) : Z := fold_right (fun s n => approx_token_count s + n) 0 l.

Lemma approx_tokens_nonneg t : 0 <= approx_token_count t.
Proof. unfold approx_token_count. case_if; lia. Qed.

Lemma token_total_nonneg l : 0 <= token_total l.
Proof. induction l as [|s l IH]; simpl; [done|]. pose proof (approx_tokens_nonneg s). lia. Qed.

(** A block starts with its bracketed label, so it is never blank. *)
Lemma block_not_blank label text : blank (block_of label text) = false.
Proof.
  unfold blank, block_of.
  assert (Hs : forall s, strip (String "[" s) <> "" /\ strip (strip (String "[" s)) <> "").
  { intros s. unfold strip, rstrip, lstrip. simpl.
    destruct (rstrip_by is_space s) as [|c r] eqn:E; simpl; [done|].
    split; [done|]. destruct (rstrip_by is_space r) as [|d t]; [|done]. simpl. by destruct (is_space c). }
  destruct (String.eqb_spec (strip (strip ("[" ++ label ++ "]" ++ nl ++ text))) "") as [E|]; [|done].
  by destruct (Hs (label ++ "]" ++ nl ++ text)).
Qed.

Lemma approx_tokens_pos t : t <> "" -> 0 < approx_token_count t.
Proof. intros H. unfold approx_token_count. apply String.eqb_neq in H as ->. lia. Qed.

Lemma block_not_empty label text : block_of label text <> "".
Proof. intros E. pose proof (block_not_blank label text) as H. by rewrite E in H. Qed.

Lemma fit_fold_lossless segs st :
  token_total (blocks_of segs) <= remaining st ->
  fold_left fit_step segs st =
  {| remaining := remaining st - token_total (blocks_of segs);
     chunks := chunks st ++ blocks_of segs; decisions := decisions st |}.
Proof.
  revert st. induction segs as [|[label text] segs IH]; intros st H; cbn [fold_left].
  - destruct st; cbn. by rewrite app_nil_r, Z.sub_0_r.
  - unfold blocks_of in H |- *. cbn [flat_map fst snd] in H |- *. fold (blocks_of segs) in H |- *.
    unfold fit_step at 2. destruct (blank text) eqn:Eb; [by apply IH|].
    cbn [app token_total fold_right] in H. fold (token_total (blocks_of segs)) in H.
    pose proof (token_total_nonneg (blocks_of segs)).
    pose proof (approx_tokens_pos _ (block_not_empty label text)).
    destruct (remaining st <=? 0) eqn:E0; bool_prop; [lia|].
    destruct (approx_token_count (block_of label text) <=? remaining st) eqn:E1; bool_prop; [|lia].
    rewrite IH by (cbn [remaining]; lia). cbn [remaining chunks decisions app token_total fold_right].
    fold (token_total (blocks_of segs)). f_equal; [lia|]. by rewrite <- app_assoc.
Qed.

(** Nothing is lost when everything fits: if the blocks' token estimates add
    up to at most the budget, [_fit_segments] keeps every non-blank segment, in
    order and whole, and records no compression decision. *)
Theorem fit_segments_lossless segs B :
  token_total (blocks_of segs) <= B ->
  _fit_segments segs B = (strip (join (nl ++ nl) (blocks_of segs)), []).
Proof.
  intros H. pose proof (token_total_nonneg (blocks_of segs)).
  unfold _fit_segments. rewrite fit_fold_lossless by (cbn [remaining]; lia).
  cbn [chunks decisions app]. f_equal. f_equal. f_equal.
  apply filter_all.
  apply List.Forall_forall. intros c Hc. unfold blocks_of in Hc. apply in_flat_map in Hc as ([l t] & _ & Hc).
  cbn [fst snd] in Hc. destruct (blank t); [done|]. destruct Hc as [<-|[]]. by rewrite block_not_blank.
Qed.

Lemma fit_segments_lossless_witness :
  _fit_segments [("a", "hello"); ("b", "  "); ("c", "world")] 8 =
  ("[a]" ++ nl ++ "hello" ++ nl ++ nl ++ "[c]" ++ nl ++ "world", []).
Proof.
  rewrite (fit_segments_lossless [("a", "hello"); ("b", "  "); ("c", "world")] 8).
  - vm_compute. reflexivity.
  - vm_compute. discriminate.
Defined.

(** The separators are not budgeted: two blocks of 100 tokens fill a budget of
    200 and give a text of 201. *)
Example fit_overruns :
  approx_token_count (fst (_fit_segments [("a", xs 396); ("b", xs 396)] 200)) = 201.
Proof. vm_compute. reflexivity. Qed.

(** ** History pruning *)

Lemma clamp_range lo hi z : lo <= hi -> lo <= clamp lo hi z <= hi.
Proof. unfold clamp. lia. Qed.

Lemma clamp_id lo hi z : lo <= z <= hi -> clamp lo hi z = z.
Proof. unfold clamp. lia. Qed.

Lemma as_int_range v d lo hi z : lo <= d <= hi -> _as_int v d lo hi = Ok z -> lo <= z <= hi.
Proof.
  intros Hd. assert (Hc : forall x, lo <= clamp lo hi x <= hi) by (intros x; apply clamp_range; lia).
  destruct v; cbn [_as_int]; try (intros [= <-]; auto; fail).
  - intros H. inv_bind H. injection H as <-. auto.
  - destruct (String.eqb (strip s) ""); [intros [= <-]; auto|].
    destruct (parse_int (strip s)); intros [= <-]; auto.
Qed.

Lemma as_int_PInt z d lo hi : lo <= z <= hi -> _as_int (PInt z) d lo hi = Ok z.
Proof. intros H. cbn [_as_int]. by rewrite clamp_id. Qed.

(** A normalised policy. *)
Definition policy_dict (retain threshold : Z) : dict :=
  [("schema_version", PInt 1); ("retain_recent_tool_results", PInt retain);
   ("read_file_prune_threshold_chars", PInt threshold)].

Lemma normalize_policy_inv raw p :
  _normalize_history_policy raw = Ok p ->
  exists r t, p = policy_dict r t /\ 5 <= r <= 500 /\ 200 <= t <= 200000.
Proof.
  unfold _normalize_history_policy. intros H. inv_bind H. injection H as <-.
  do 2 eexists. split; [done|]. split; (eapply as_int_range; [|eassumption]); lia.
Qed.

Lemma normalize_policy_dict r t :
  5 <= r <= 500 -> 200 <= t <= 200000 -> _normalize_history_policy (policy_dict r t) = Ok (policy_dict r t).
Proof.
  intros Hr Ht. unfold _normalize_history_policy.
  change (dget (policy_dict r t) "retain_recent_tool_results" PNone) with (PInt r).
  change (dget (policy_dict r t) "read_file_prune_threshold_chars" PNone) with (PInt t).
  rewrite !as_int_PInt by lia. done.
Qed.

Lemma policy_dict_eq r t : py_eq (PDict (policy_dict r t)) (PDict (policy_dict r t)) = true.
Proof. cbn. unfold num_cmp. rewrite !Z.compare_refl. done. Qed.

#[local] Arguments py_eq : simpl never.

(** The state [ensure_history_policy] returns is a fixed point of it. *)
Lemma ensure_policy_idem state out : ensure_history_policy state = Ok out -> ensure_history_policy out = Ok out.
Proof.
  unfold ensure_history_policy at 1. intros H. cbv zeta in H. inv_bind H.
  destruct (py_eq _ _) eqn:E.
  - injection H as <-. unfold ensure_history_policy. cbv zeta. rewrite Hb. simpl bind_res. by rewrite E.
  - injection H as <-. apply normalize_policy_inv in Hb as (r & t & -> & Hr & Ht).
    unfold ensure_history_policy. rewrite dget_dset_eq. cbn [dict_or_empty].
    rewrite normalize_policy_dict by done. cbn [bind_res]. by rewrite policy_dict_eq.
Qed.

Lemma ensure_policy_frame state out k :
  ensure_history_policy state = Ok out -> String.eqb k "history_policy" = false ->
  dlookup k out = dlookup k state.
Proof.
  unfold ensure_history_policy. cbv zeta. intros H Hk. inv_bind H.
  destruct (py_eq _ _); injection H as <-; [done|]. by rewrite dlookup_dset_neb.
Qed.

Lemma dlookup_dget (d e : dict) k dflt : dlookup k d = dlookup k e -> dget d k dflt = dget e k dflt.
Proof. unfold dget. by intros ->. Qed.

Lemma ensure_policy_results state out : ensure_history_policy state = Ok out -> _tool_results out = _tool_results state.
Proof. intros H. unfold _tool_results. by rewrite (dlookup_dget _ _ _ _ (ensure_policy_frame _ _ "tool_results" H eq_refl)). Qed.

Lemma ensure_policy_provenance state out : ensure_history_policy state = Ok out -> _provenance out = _provenance state.
Proof. intros H. unfold _provenance. by rewrite (dlookup_dget _ _ _ _ (ensure_policy_frame _ _ "provenance" H eq_refl)). Qed.

Lemma tool_results_dset l state : _tool_results (dset "tool_results" (PList (List.map PDict l)) state) = l.
Proof. unfold _tool_results. rewrite dget_dset_eq. apply dicts_of_map. Qed.

Lemma tool_results_other k v state :
  String.eqb k "tool_results" = false -> _tool_results (dset k v state) = _tool_results state.
Proof. intros Hk. unfold _tool_results. rewrite dget_dset_ne; [done|]. by rewrite String.eqb_sym. Qed.

Lemma provenance_dset l state : _provenance (dset "provenance" (PList (List.map PDict l)) state) = l.
Proof. unfold _provenance. rewrite dget_dset_eq. apply dicts_of_map. Qed.

Lemma history_policy_other k v state :
  String.eqb k "history_policy" = false ->
  dget (dset k v state) "history_policy" (PDict []) = dget state "history_policy" (PDict []).
Proof. intros Hk. apply dget_dset_ne. by rewrite String.eqb_sym. Qed.

Lemma ensure_policy_dict state out :
  ensure_history_policy state = Ok out -> exists p, dget out "history_policy" (PDict []) = PDict p.
Proof.
  unfold ensure_history_policy. cbv zeta. intros H. inv_bind H.
  destruct (py_eq _ _) eqn:E; injection H as <-.
  - destruct (dget state "history_policy" (PDict [])); try by eexists.
    all: apply normalize_policy_inv in Hb as (r & t & -> & _ & _); discriminate E.
  - eexists. by rewrite dget_dset_eq.
Qed.

(** The policy in place is the only thing it looks at. *)
Lemma ensure_policy_agree s s' :
  dlookup "history_policy" s' = dlookup "history_policy" s -> ensure_history_policy s = Ok s ->
  ensure_history_policy s' = Ok s'.
Proof.
  intros E H. unfold ensure_history_policy in *. cbv zeta in *. rewrite (dlookup_dget _ _ _ _ E).
  inv_bind H. cbn [bind_res]. destruct (py_eq _ _) eqn:Eq; [done|]. exfalso.
  injection H as H. apply (f_equal (fun d => dget d "history_policy" (PDict []))) in H.
  rewrite dget_dset_eq in H. apply normalize_policy_inv in Hb as (r & t & -> & _ & _).
  rewrite <- H in Eq. cbn [dict_or_empty] in Eq. by rewrite policy_dict_eq in Eq.
Qed.

Lemma ensure_policy_other state k v :
  String.eqb k "history_policy" = false -> ensure_history_policy state = Ok state ->
  ensure_history_policy (dset k v state) = Ok (dset k v state).
Proof. intros Hk. apply ensure_policy_agree, dlookup_dset_neb. by rewrite String.eqb_sym. Qed.

Lemma prune_pre_total s : ensure_history_policy s = Ok s -> exists out, prune_pre_verification_history s = Ok out.
Proof.
  intros H. unfold prune_pre_verification_history. rewrite H. cbn [bind_res].
  destruct (ensure_policy_dict _ _ H) as [p Hp]. rewrite Hp. unfold ensure_history_policy in H. rewrite Hp in H.
  cbn [dict_or_empty] in H. apply bind_Ok in H as (n & H & _). unfold _normalize_history_policy in H.
  apply bind_Ok in H as (retain & H & _). rewrite H. cbn [bind_res]. destruct (_ <=? _); eauto.
Qed.

(** What the trimming step of the pre-verification pass does to a state whose
    policy is in place. *)
Lemma prune_pre_cases state out :
  prune_pre_verification_history state = Ok out ->
  exists mid retain p, ensure_history_policy state = Ok mid /\
    dget mid "history_policy" (PDict []) = PDict p /\
    _as_int (dget p "retain_recent_tool_results" PNone) 40 5 500 = Ok retain /\
    let n := Z.of_nat (length (_tool_results mid)) in
    if n <=? retain then out = mid
    else out = dset "provenance" (PList (List.map PDict (_provenance mid ++ [trim_event (n - retain) retain])))
                 (dset "tool_results" (PList (List.map PDict (last_n (Z.to_nat retain) (_tool_results mid)))) mid).
Proof.
  unfold prune_pre_verification_history. intros H.
  destruct (ensure_history_policy state) as [mid|] eqn:Em; [|done]. cbn [bind_res] in H.
  destruct (ensure_policy_dict _ _ Em) as [p Hp]. rewrite Hp in H.
  destruct (_as_int _ _ _ _) as [retain|] eqn:Er; [|done]. cbn [bind_res] in H.
  exists mid, retain, p. do 3 (split; [done|]). cbv zeta in *. by case_if; injection H as <-.
Qed.

(** The pre-verification window: the tool results kept are exactly the last
    [retain] ones, for a limit between 5 and 500; a trim adds one provenance
    event with the number dropped, no other key than the results, the provenance
    and the policy changes, and running the pass again changes nothing. *)
Theorem prune_pre_window state out :
  prune_pre_verification_history state = Ok out ->
  exists retain, 5 <= retain <= 500 /\
    _tool_results out = last_n (Z.to_nat retain) (_tool_results state) /\
    (let n := Z.of_nat (length (_tool_results state)) in
     _provenance out = (_provenance state ++ if n <=? retain then [] else [trim_event (n - retain) retain])%list) /\
    (forall k, ~ In k ["tool_results"; "provenance"; "history_policy"] -> dlookup k out = dlookup k state) /\
    prune_pre_verification_history out = Ok out.
Proof.
  intros H. destruct (prune_pre_cases _ _ H) as (mid & retain & p & Em & Hp & Er & Hout). cbv zeta in Hout.
  assert (Hr : 5 <= retain <= 500) by (eapply as_int_range; [|exact Er]; lia).
  assert (Ei : ensure_history_policy mid = Ok mid) by by eapply ensure_policy_idem.
  assert (Hframe : forall k, ~ In k ["tool_results"; "provenance"; "history_policy"] ->
            String.eqb k "tool_results" = false /\ String.eqb k "provenance" = false /\
            dlookup k mid = dlookup k state).
  { intros k Hk. split; [|split; [|apply (ensure_policy_frame _ _ _ Em)]];
      apply String.eqb_neq; intros ->; apply Hk; simpl; tauto. }
  rewrite <- (ensure_policy_results _ _ Em), <- (ensure_policy_provenance _ _ Em).
  exists retain. split; [done|]. cbv zeta.
  destruct (Z.of_nat (length (_tool_results mid)) <=? retain) eqn:E; bool_prop; subst out.
  - rewrite last_n_all by lia. rewrite app_nil_r. do 2 (split; [done|]). split; [apply Hframe|].
    unfold prune_pre_verification_history. rewrite Ei. cbn [bind_res]. rewrite Hp, Er. cbn [bind_res].
    apply Z.leb_le in E. by rewrite E.
  - set (kept := last_n _ _). set (prov := (_ ++ _)%list).
    assert (Hk : _tool_results (dset "provenance" (PList (List.map PDict prov))
                   (dset "tool_results" (PList (List.map PDict kept)) mid)) = kept)
      by (rewrite tool_results_other by done; apply tool_results_dset).
    split; [done|]. split; [apply provenance_dset|]. split.
    + intros k Hn. destruct (Hframe k Hn) as (H1 & H2 & H3). by rewrite !dlookup_dset_neb.
    + unfold prune_pre_verification_history. rewrite !ensure_policy_other by (try apply ensure_policy_other; done).
      cbn [bind_res]. rewrite !history_policy_other by done. rewrite Hp, Er. cbn [bind_res]. rewrite Hk.
      unfold kept at 1. rewrite last_n_length.
      replace (Z.of_nat (Nat.min _ _) <=? retain) with true; [done|]. symmetry. apply Z.leb_le. lia.
Qed.

Definition six_results : dict :=
  [("history_policy", PDict [("retain_recent_tool_results", PInt 5)]);
   ("tool_results", PList (List.map (fun i => PDict [("tool", PStr "exec"); ("n", PInt i)]) [1; 2; 3; 4; 5; 6]))].

Lemma prune_pre_window_witness :
  exists retain, 5 <= retain <= 500 /\
    match prune_pre_verification_history six_results with
    | Ok out => _tool_results out = last_n (Z.to_nat retain) (_tool_results six_results)
    | Err _ => False end.
Proof.
  destruct (prune_pre_verification_history six_results) as [out|] eqn:E; [|vm_compute in E; discriminate E].
  destruct (prune_pre_window six_results out E) as (r & Hr & Ht & _). exists r. split; [exact Hr|exact Ht].
Defined.

(** *** Eviction of read-file payloads *)

Definition evicted (threshold : Z) (r : dict) : dict :=
  match evicts threshold r with Some stdout => compact_result r stdout | None => r end.

Lemma evict_loop_results t i rs : fst (evict_loop t i rs) = List.map (evicted t) rs.
Proof.
  revert i. induction rs as [|r rs IH]; intros i; simpl; [done|].
  specialize (IH (i + 1)). destruct (evict_loop t (i + 1) rs) as [us es]. simpl in IH. subst us.
  unfold evicted. by destruct (evicts t r).
Qed.

Lemma evict_loop_none t i rs :
  List.Forall (fun r => evicts t r = None) rs -> evict_loop t i rs = (rs, []).
Proof.
  intros H. revert i. induction H as [|r rs Hr _ IH]; intros i; simpl; [done|]. by rewrite IH, Hr.
Qed.

Lemma evict_loop_events t i rs :
  snd (evict_loop t i rs) = [] -> List.Forall (fun r => evicts t r = None) rs.
Proof.
  revert i. induction rs as [|r rs IH]; intros i; simpl; [by constructor|].
  specialize (IH (i + 1)). destruct (evict_loop t (i + 1) rs) as [us es]. simpl in IH.
  destruct (evicts t r) eqn:E; simpl; [done|]. intros ->. constructor; auto.
Qed.

(** A compacted result carries the marker, so it is never evicted again. *)
Lemma compact_stays t r stdout : evicts t (compact_result r stdout) = None.
Proof.
  unfold evicts, compact_result. rewrite dget_dset_ne by done. rewrite dget_dset_eq.
  change (_PRUNED_READ_FILE_PREFIX ++ " chars=" ++ str_of_Z (py_len stdout) ++ " sha256=" ++ sha256_hex stdout)
    with (_PRUNED_READ_FILE_PREFIX ++ (" chars=" ++ str_of_Z (py_len stdout) ++ " sha256=" ++ sha256_hex stdout)).
  rewrite startswith_app. by rewrite andb_false_r.
Qed.

Lemma evicted_stays t r : evicts t (evicted t r) = None.
Proof. unfold evicted. destruct (evicts t r) eqn:E; [apply compact_stays|done]. Qed.

Lemma evicted_other t r k :
  String.eqb k "stdout" = false -> String.eqb k "artifacts" = false -> dlookup k (evicted t r) = dlookup k r.
Proof.
  intros H1 H2. unfold evicted. destruct (evicts t r); [|done].
  unfold compact_result. by rewrite !dlookup_dset_neb.
Qed.

Lemma verified_evicted t r : verified_apply_patch (evicted t r) = verified_apply_patch r.
Proof.
  unfold verified_apply_patch.
  rewrite (dlookup_dget _ r "tool") by by apply evicted_other.
  by rewrite (dlookup_dget _ r "ok") by by apply evicted_other.
Qed.

Lemma prune_post_cases state out :
  prune_post_verification_history state = Ok out ->
  exists mid, ensure_history_policy state = Ok mid /\
    (out = mid /\ (forall v p t, dget mid "verification" (PDict []) = PDict v ->
         truthy (dget v "ok" (PBool false)) = true ->
         existsb verified_apply_patch (_tool_results mid) = true ->
         dget mid "history_policy" (PDict []) = PDict p ->
         _as_int (dget p "read_file_prune_threshold_chars" PNone) 4000 200 200000 = Ok t ->
         snd (evict_loop t 0 (_tool_results mid)) = []) \/
     exists v p t, dget mid "verification" (PDict []) = PDict v /\
       truthy (dget v "ok" (PBool false)) = true /\
       existsb verified_apply_patch (_tool_results mid) = true /\
       dget mid "history_policy" (PDict []) = PDict p /\
       _as_int (dget p "read_file_prune_threshold_chars" PNone) 4000 200 200000 = Ok t /\
       snd (evict_loop t 0 (_tool_results mid)) <> [] /\
       out = dset "provenance" (PList (List.map PDict (_provenance mid ++ snd (evict_loop t 0 (_tool_results mid)))))
               (dset "tool_results" (PList (List.map PDict (List.map (evicted t) (_tool_results mid)))) mid)).
Proof.
  unfold prune_post_verification_history. intros H.
  destruct (ensure_history_policy state) as [mid|] eqn:Em; [|done]. cbn [bind_res] in H.
  exists mid. split; [done|].
  destruct (dget mid "verification" (PDict [])) as [| | | | | | |v] eqn:Ev;
    try (injection H as <-; left; split; [done|intros; discriminate]; fail).
  destruct (truthy (dget v "ok" (PBool false))) eqn:Eok; cbn [negb] in H;
    [|injection H as <-; left; split; [done|]; intros v' p t [= <-] Hok; congruence].
  destruct (existsb verified_apply_patch (_tool_results mid)) eqn:Ex; cbn [negb] in H;
    [|injection H as <-; left; split; [done|]; intros v' p t _ _ Hx; congruence].
  destruct (ensure_policy_dict _ _ Em) as [p Hp]. rewrite Hp in H |- *.
  destruct (_as_int _ _ _ _) as [t|] eqn:Et; [|done]. cbn [bind_res] in H.
  pose proof (evict_loop_results t 0 (_tool_results mid)) as Hr.
  destruct (evict_loop t 0 (_tool_results mid)) as [us es] eqn:El. simpl in Hr. subst us.
  destruct es as [|e es]; injection H as <-.
  - left. split; [done|]. intros v' p' t' _ _ _ [= <-] Et'. rewrite Et in Et'. injection Et' as <-. by rewrite El.
  - right. exists v, p, t. rewrite El. cbn [fst snd]. do 5 (split; [done|]). by split.
Qed.

Lemma prune_post_frame state out k :
  prune_post_verification_history state = Ok out ->
  existsb (String.eqb k) ["tool_results"; "provenance"; "history_policy"] = false -> dlookup k out = dlookup k state.
Proof.
  intros H Hk. cbn in Hk. apply orb_false_elim in Hk as [K1 Hk]. apply orb_false_elim in Hk as [K2 Hk].
  apply orb_false_elim in Hk as [K3 _].
  destruct (prune_post_cases _ _ H) as (mid & Em & [[-> _]|(v & p & t & _ & _ & _ & _ & _ & _ & ->)]).
  - by apply (ensure_policy_frame _ _ _ Em).
  - rewrite !dlookup_dset_neb by done. by apply (ensure_policy_frame _ _ _ Em).
Qed.

(** A failed report prunes nothing. *)
Lemma prune_post_failed state out v :
  prune_post_verification_history state = Ok out -> dget state "verification" (PDict []) = PDict v ->
  truthy (dget v "ok" (PBool false)) = false -> ensure_history_policy state = Ok out.
Proof.
  intros H Hv Hok. destruct (prune_post_cases _ _ H) as (mid & Em & [[-> _]|(v' & p & t & Hv' & Hok' & _)]); [done|].
  rewrite (dlookup_dget _ _ _ _ (ensure_policy_frame _ _ "verification" Em eq_refl)) in Hv'. congruence.
Qed.

(** The post-verification eviction: no result is added, dropped or moved and
    each is either unchanged or a successful-run read-file payload replaced by
    its length and SHA-256, keeping every other key; the other keys of the state
    (except the provenance and the policy) are untouched; without a verified
    patch nothing is evicted; and a second pass changes nothing. *)
Theorem prune_post_evicts state out :
  prune_post_verification_history state = Ok out ->
  (exists t, 200 <= t <= 200000 /\
     (_tool_results out = _tool_results state \/ _tool_results out = List.map (evicted t) (_tool_results state)) /\
     (forall r s, In r (_tool_results state) -> evicts t r = Some s ->
        dget (evicted t r) "stdout" PNone =
          PStr (_PRUNED_READ_FILE_PREFIX ++ " chars=" ++ str_of_Z (py_len s) ++ " sha256=" ++ sha256_hex s) /\
        (forall k, k <> "stdout" -> k <> "artifacts" -> dlookup k (evicted t r) = dlookup k r))) /\
  (existsb verified_apply_patch (_tool_results state) = false -> _tool_results out = _tool_results state) /\
  (forall k, ~ In k ["tool_results"; "provenance"; "history_policy"] -> dlookup k out = dlookup k state) /\
  prune_post_verification_history out = Ok out.
Proof.
  intros H. destruct (prune_post_cases _ _ H) as (mid & Em & Hc).
  assert (Ei : ensure_history_policy mid = Ok mid) by by eapply ensure_policy_idem.
  rewrite <- (ensure_policy_results _ _ Em).
  assert (Hev : forall t r s, evicts t r = Some s ->
    dget (evicted t r) "stdout" PNone =
      PStr (_PRUNED_READ_FILE_PREFIX ++ " chars=" ++ str_of_Z (py_len s) ++ " sha256=" ++ sha256_hex s) /\
    (forall k, k <> "stdout" -> k <> "artifacts" -> dlookup k (evicted t r) = dlookup k r)).
  { intros t r s Es. split.
    - unfold evicted. rewrite Es. unfold compact_result. by rewrite dget_dset_ne, dget_dset_eq.
    - intros k H1 H2. by apply evicted_other; apply String.eqb_neq. }
  destruct Hc as [[-> Hnone]|(v & p & t & Hv & Hok & Hx & Hp & Ht & Hes & ->)].
  - split; [|split; [done|split]].
    + exists 4000. split; [lia|]. split; [by left|]. eauto.
    + intros k Hk. apply (ensure_policy_frame _ _ _ Em). apply String.eqb_neq. intros ->. apply Hk. simpl. tauto.
    + rewrite <- H. unfold prune_post_verification_history. by rewrite Em, Ei.
  - set (prov := (_ ++ _)%list). set (us := List.map (evicted t) _).
    assert (Hus : _tool_results (dset "provenance" (PList (List.map PDict prov))
                   (dset "tool_results" (PList (List.map PDict us)) mid)) = us)
      by (rewrite tool_results_other by done; apply tool_results_dset).
    split; [|split; [|split]].
    + exists t. split; [eapply as_int_range; [|exact Ht]; lia|]. split; [by right|]. eauto.
    + congruence.
    + intros k Hk. rewrite !dlookup_dset_neb by (apply String.eqb_neq; intros ->; apply Hk; simpl; tauto).
      apply (ensure_policy_frame _ _ _ Em). apply String.eqb_neq. intros ->. apply Hk. simpl. tauto.
    + unfold prune_post_verification_history. rewrite !ensure_policy_other by (try apply ensure_policy_other; done).
      cbn [bind_res]. rewrite !dget_dset_ne by done. rewrite Hv, Hok, Hus. cbn [negb].
      assert (Ex : existsb verified_apply_patch us = true).
      { apply existsb_exists in Hx as (r & Hr & Hvr). apply existsb_exists. exists (evicted t r).
        split; [by apply in_map|]. by rewrite verified_evicted. }
      rewrite Ex, Hp, Ht. cbn [negb bind_res].
      rewrite evict_loop_none; [done|]. apply List.Forall_forall. intros u Hu.
      apply in_map_iff in Hu as (r & <- & _). apply evicted_stays.
Qed.

Definition patched_state : dict :=
  [("verification", PDict [("ok", PBool true)]);
   ("history_policy", PDict [("read_file_prune_threshold_chars", PInt 200)]);
   ("tool_results", PList
      [PDict [("tool", PStr "read_file"); ("stdout", PStr (xs 300))];
       PDict [("tool", PStr "apply_patch"); ("ok", PBool true)]])].

Lemma prune_post_evicts_witness :
  match prune_post_verification_history patched_state with
  | Ok out => _tool_results out <> _tool_results patched_state /\ prune_post_verification_history out = Ok out
  | Err _ => False
  end.
Proof.
  destruct (prune_post_verification_history patched_state) as [out|] eqn:E; [|vm_compute in E; discriminate E].
  split; [|exact (proj2 (proj2 (proj2 (prune_post_evicts patched_state out E))))].
  vm_compute in E. injection E as <-. vm_compute. discriminate.
Defined.

(** ** Ranking of recovery facts *)

Lemma rank_le_iff a b :
  rank_le a b = true <->
  salience_of a < salience_of b \/ (salience_of a = salience_of b /\ loop_of a <= loop_of b).
Proof. unfold rank_le. rewrite orb_true_iff, andb_true_iff, Z.ltb_lt, Z.eqb_eq, Z.leb_le. lia. Qed.

Lemma rank_le_refl a : rank_le a a = true.
Proof. apply rank_le_iff. lia. Qed.

Lemma rank_le_trans a b c : rank_le a b = true -> rank_le b c = true -> rank_le a c = true.
Proof. rewrite !rank_le_iff. lia. Qed.

Lemma rank_le_total a b : rank_le a b = false -> rank_le b a = true.
Proof. intros H. apply rank_le_iff. apply not_true_iff_false in H. rewrite rank_le_iff in H. lia. Qed.

Lemma fact_before_iff a b :
  fact_before a b = true <->
  salience_of b < salience_of a \/
  (salience_of b = salience_of a /\
   (loop_of b < loop_of a \/ (loop_of b = loop_of a /\ kind_rank b < kind_rank a))).
Proof.
  unfold fact_before.
  rewrite !orb_true_iff, !andb_true_iff, !orb_true_iff, !andb_true_iff, !Z.ltb_lt, !Z.eqb_eq. lia.
Qed.

Lemma fact_before_asym a b : fact_before a b = true -> fact_before b a = false.
Proof. intros H. apply not_true_iff_false. rewrite !fact_before_iff in *. lia. Qed.

Lemma fact_before_ntrans a b c : fact_before b a = false -> fact_before c b = false -> fact_before c a = false.
Proof. rewrite <- !not_true_iff_false, !fact_before_iff. lia. Qed.

(** The deduplication loop: one entry per key, the best ranked one seen so far. *)
Record dedup_inv (seen : list dict) (d : list (string * dict)) : Prop := {
  di_nodup : List.NoDup (List.map fst d);
  di_key : forall k e, In (k, e) d -> fact_key e = k;
  di_seen : forall k e, In (k, e) d -> In e seen;
  di_best : forall e, In e seen -> exists o, dlookup (fact_key e) d = Some o /\ rank_le e o = true }.

Lemma In_dlookup_nodup {V} k (v : V) d : List.NoDup (List.map fst d) -> In (k, v) d -> dlookup k d = Some v.
Proof.
  induction d as [|[k1 v1] d IH]; simpl; [done|]. intros Hnd. inversion Hnd as [|? ? Hn Hnd']; subst.
  intros [[= <- <-]|H]; [by rewrite String.eqb_refl|].
  destruct (String.eqb_spec k k1) as [->|]; [|auto]. exfalso. apply Hn. by apply (in_map fst) in H.
Qed.

Lemma dedup_set seen d e :
  dedup_inv seen d ->
  (forall o, dlookup (fact_key e) d = Some o -> rank_le o e = true) ->
  dedup_inv (seen ++ [e]) (dset (fact_key e) e d).
Proof.
  intros [Hnd Hk Hs Hb] Hle. constructor.
  - by apply dset_NoDup.
  - intros k x H. apply In_dset in H as [[-> ->]|H]; auto.
  - intros k x H. apply in_app_iff. apply In_dset in H as [[-> ->]|H]; [right; by left|left; eauto].
  - intros x Hx. rewrite dlookup_dset. apply in_app_iff in Hx as [Hx|[<-|[]]].
    + destruct (String.eqb_spec (fact_key x) (fact_key e)) as [E|E]; [|auto].
      exists e. split; [done|]. destruct (Hb x Hx) as (o & Ho & Hr). rewrite E in Ho.
      eapply rank_le_trans; eauto.
    + rewrite String.eqb_refl. exists e. split; [done|apply rank_le_refl].
Qed.

Lemma dedup_step seen d e : dedup_inv seen d -> dedup_inv (seen ++ [e]) (fact_step d e).
Proof.
  intros H. unfold fact_step. destruct (dlookup (fact_key e) d) as [o|] eqn:E.
  - destruct (rank_le o e) eqn:Er.
    + apply dedup_set; [done|]. intros o' E'. congruence.
    + destruct H as [Hnd Hk Hs Hb]. constructor; [done|done| |].
      * intros k x Hx. apply in_app_iff. left. eauto.
      * intros x Hx. apply in_app_iff in Hx as [Hx|[<-|[]]]; [auto|]. exists o. split; [done|].
        by apply rank_le_total.
  - apply dedup_set; [done|]. intros o' E'. congruence.
Qed.

Lemma dedup_fold l seen d : dedup_inv seen d -> dedup_inv (seen ++ l) (fold_left fact_step l d).
Proof.
  revert seen d. induction l as [|e l IH]; intros seen d H; simpl; [by rewrite app_nil_r|].
  change (e :: l) with ([e] ++ l)%list. rewrite app_assoc. by apply IH, dedup_step.
Qed.

Lemma NoDup_map_firstn {A B} (f : A -> B) n l :
  List.NoDup (List.map f l) -> List.NoDup (List.map f (firstn n l)).
Proof.
  revert n. induction l as [|x l IH]; intros [|n] H; simpl; try constructor.
  - inversion H as [|? ? Hn Hnd]; subst. intros Hin. apply Hn.
    apply in_map_iff in Hin as (y & <- & Hy). apply in_map. rewrite <- (firstn_skipn n l). apply in_app_iff. by left.
  - inversion H; subst. auto.
Qed.

Lemma NoDup_map_filter {A B} (f : A -> B) g l :
  List.NoDup (List.map f l) -> List.NoDup (List.map f (List.filter g l)).
Proof.
  induction l as [|x l IH]; simpl; [done|]. intros H. inversion H as [|? ? Hn Hnd]; subst.
  destruct (g x); simpl; [|auto]. constructor; [|auto].
  intros Hi. apply Hn. apply in_map_iff in Hi as (y & <- & Hy). apply List.filter_In in Hy as [Hy _]. by apply in_map.
Qed.

(** The recovery-fact pack: at most eight facts, no two with the same key
    (fingerprint, else summary), each a normalised input fact that no input fact
    of the same key outranks (salience, then loop), in decreasing order; and a
    fact whose key is missing is not before any of the eight that were kept. *)
Theorem fact_pack_spec facts :
  let normalized := flat_map normalize_fact facts in
  let out := _fact_pack facts in
  (length out <= 8)%nat /\
  List.NoDup (List.map fact_key out) /\
  ordered fact_before out /\
  (forall o, In o out -> In o normalized /\
     forall e, In e normalized -> fact_key e = fact_key o -> rank_le e o = true) /\
  (forall e, In e normalized -> (exists o, In o out /\ fact_key o = fact_key e) \/
     (length out = 8%nat /\ exists best, In best normalized /\ fact_key best = fact_key e /\
        rank_le e best = true /\ forall o, In o out -> fact_before best o = false)).
Proof.
  intros normalized out. subst out. unfold _fact_pack. fold normalized.
  set (d := fold_left fact_step normalized []).
  assert (I : dedup_inv normalized d).
  { change normalized with ([] ++ normalized)%list at 1. apply dedup_fold.
    constructor; simpl; try done. constructor. }
  destruct I as [Hnd Hk Hs Hb].
  set (l := List.map snd d). set (s := py_sorted fact_before l).
  assert (HP : Permutation s l) by apply py_sorted_Permutation.
  assert (Hord : ordered fact_before s)
    by (apply py_sorted_ordered; [apply fact_before_asym|intros; eapply fact_before_ntrans; eauto]).
  assert (Hkeys : List.map fact_key l = List.map fst d).
  { unfold l. rewrite List.map_map. apply List.map_ext_in. intros [k e] He. simpl. by apply Hk. }
  assert (Hin : forall o, In o s -> In (fact_key o, o) d).
  { intros o Ho. apply (Permutation_in _ HP) in Ho. unfold l in Ho. apply in_map_iff in Ho as ([k e] & <- & He).
    simpl. by rewrite (Hk _ _ He). }
  assert (Hsplit : s = (firstn 8 s ++ skipn 8 s)%list) by (by rewrite firstn_skipn).
  rewrite Hsplit in Hord. apply ordered_app in Hord as [Hord Hlater].
  assert (Hfirst : forall o, In o (firstn 8 s) -> In o s)
    by (intros o Ho; rewrite Hsplit; apply in_app_iff; by left).
  split; [apply firstn_le_length|]. split.
  { apply NoDup_map_firstn. apply (Permutation_NoDup (l := List.map fact_key l)); [|by rewrite Hkeys].
    apply Permutation_map. by symmetry. }
  split; [done|]. split.
  { intros o Ho. apply Hfirst, Hin in Ho. split; [by apply Hs in Ho|].
    intros e He Ee. destruct (Hb e He) as (b & Eb & Hr). rewrite Ee in Eb.
    rewrite (In_dlookup_nodup _ _ _ Hnd Ho) in Eb. by injection Eb as <-. }
  intros e He. destruct (Hb e He) as (b & Eb & Hr). apply dlookup_In in Eb.
  assert (Hbs : In b s).
  { apply (Permutation_in _ (Permutation_sym HP)). unfold l. apply in_map_iff. by exists (fact_key e, b). }
  rewrite Hsplit in Hbs. apply in_app_iff in Hbs as [Hbs|Hbs].
  - left. exists b. split; [done|]. by apply Hk in Eb.
  - right. split.
    { rewrite firstn_length_le; [done|]. destruct (Nat.le_gt_cases 8 (length s)); [done|].
      rewrite skipn_all2 in Hbs by lia. by destruct Hbs. }
    exists b. split; [by apply Hs in Eb|]. split; [by apply Hk in Eb|]. split; [done|]. eauto.
Qed.
