(* ===== verification/JsonProps.v ===== *)
(** * Round trip of the JSON encoder and decoder

    What [json.dumps] writes for a value without floats and tuples,
    [json.loads] reads back: the same value, with the keys of every object in
    order when they were sorted. *)
From Stdlib Require Import ZArith Lia String Ascii List Bool DecimalFacts DecimalPos.
From stdpp Require Import base tactics list strings option.
From S2P Require Import Prelude PyStr StrFacts PyFloat PyVal Memory MemoryProps Json.
Local Open Scope string_scope.
Local Open Scope Z_scope.

(** ** Strings *)

Lemma scan_char c t :
  scan_string (json_char c ++ t) = let! vt := scan_string t in Ok (String c (fst vt), snd vt).
Proof. destruct c as [[] [] [] [] [] [] [] []]; reflexivity. Qed.

Lemma scan_string_dumps s rest : scan_string (concat_map_str json_char s ++ dq ++ rest) = Ok (s, rest).
Proof.
  induction s as [|c s IH]; [reflexivity|]. cbn [concat_map_str].
  by rewrite str_app_assoc, scan_char, IH.
Qed.

(** ** Integers *)

Definition digits_from : Z -> string -> Z :=
  fix go (acc : Z) (s : string) := match s with
    | EmptyString => acc
    | String c r => go (10 * acc + (ord c - 48)) r end.

Lemma digits_from_cons acc c s : digits_from acc (String c "" ++ s) = digits_from (10 * acc + (ord c - 48)) s.
Proof. reflexivity. Qed.

Lemma digits_acc u p : digits_from (Zpos p) (digits_of_uint u) = Zpos (Pos.of_uint_acc u p).
Proof.
  revert p; induction u; intros p; cbn [digits_of_uint Pos.of_uint_acc]; [done|..];
    rewrite digits_from_cons, <- IHu; f_equal; unfold ord; cbn; lia.
Qed.

Lemma digits_of_to p : digits_value (digits_of_uint (Pos.to_uint p)) = Zpos p.
Proof.
  assert (H : forall u, digits_from 0 (digits_of_uint u) = Z.of_N (Pos.of_uint u)).
  { induction u; cbn [digits_of_uint Pos.of_uint]; [done|exact IHu|..]; exact (digits_acc u _). }
  change (digits_from 0 (digits_of_uint (Pos.to_uint p)) = Zpos p). rewrite H.
  by rewrite Unsigned.of_to.
Qed.

(** The characters that may follow a value. *)
Definition closes (rest : string) : bool :=
  match rest with
  | EmptyString => true
  | String c _ => is_char 44 c || is_char 93 c || is_char 125 c
  end.

Lemma span_digits_cons c t :
  is_digit c = true ->
  span_digits (String c "" ++ t) = (String c "" ++ fst (span_digits t), snd (span_digits t)).
Proof. intros Hc. cbn [append span_digits]. change (String c "" ++ t) with (String c t). cbn [span_digits]. rewrite Hc. by destruct (span_digits t). Qed.

Lemma span_digits_app u rest :
  closes rest = true -> span_digits (digits_of_uint u ++ rest) = (digits_of_uint u, rest).
Proof.
  intros Hr. induction u; cbn [digits_of_uint]; [|by rewrite str_app_assoc, span_digits_cons, IHu..].
  change ("" ++ rest) with rest.
  destruct rest as [|c rest]; [done|]. cbn in Hr |- *. unfold is_char, is_digit in *.
  destruct ((48 <=? ord c) && (ord c <=? 57)) eqn:E; [|done]. exfalso. bool_prop.
  apply orb_prop in Hr as [Hr|Hr]; [apply orb_prop in Hr as [Hr|Hr]|]; bool_prop; lia.
Qed.

Lemma closes_number rest : closes rest = true -> scan_fraction rest = None /\ scan_exponent rest = None.
Proof.
  destruct rest as [|c rest]; [done|]. unfold closes, scan_fraction, scan_exponent, is_char. intros Hr.
  assert (H : ord c = 44 \/ ord c = 93 \/ ord c = 125)
    by (apply orb_prop in Hr as [Hr|Hr]; [apply orb_prop in Hr as [Hr|Hr]|]; bool_prop; lia).
  by destruct H as [->|[->| ->]].
Qed.

(** The text of a positive integer has no leading zero. *)
Lemma to_uint_head p :
  exists c t, digits_of_uint (Pos.to_uint p) = String c t /\ 49 <= ord c <= 57.
Proof.
  assert (Hz : forall u, Pos.to_uint p <> Decimal.D0 u).
  { intros u E. pose proof (Unsigned.to_of (Pos.to_uint p)) as H. rewrite Unsigned.of_to in H. cbn in H.
    rewrite E in H. unfold Decimal.unorm in H. cbn [Decimal.nzhead] in H.
    destruct (Decimal.nzhead u) eqn:En; try discriminate H.
    - injection H as ->. pose proof (Unsigned.to_uint_nonzero p). congruence.
    - by apply nzhead_nonzero in En. }
  pose proof (Unsigned.to_uint_nonnil p) as Hn. destruct (Pos.to_uint p) eqn:E; [done|by destruct (Hz u)|..];
    (do 2 eexists; split; [reflexivity|]; unfold ord; cbn; lia).
Qed.

Lemma scan_integer_digits p rest :
  closes rest = true ->
  scan_integer (digits_of_uint (Pos.to_uint p) ++ rest) = Some (digits_of_uint (Pos.to_uint p), rest).
Proof.
  intros Hr. pose proof (span_digits_app (Pos.to_uint p) rest Hr) as Hs.
  destruct (to_uint_head p) as (c & t & E & Hc). rewrite E in *. change (String c t ++ rest) with (String c (t ++ rest)) in *.
  unfold scan_integer, is_char, is_digit. destruct (Z.eqb_spec (ord c) 48); [lia|].
  destruct (Z.leb_spec 48 (ord c)), (Z.leb_spec (ord c) 57); try lia. cbn [andb]. by rewrite Hs.
Qed.

Lemma scan_number_digits neg p rest :
  closes rest = true -> py_len (digits_of_uint (Pos.to_uint p)) <= 4300 ->
  scan_number neg (digits_of_uint (Pos.to_uint p) ++ rest) = Ok (PInt (if neg then Zneg p else Zpos p), rest).
Proof.
  intros Hr Hl. unfold scan_number. rewrite scan_integer_digits by done.
  destruct (closes_number rest Hr) as [-> ->]. apply Z.ltb_ge in Hl as ->. rewrite digits_of_to. by destruct neg.
Qed.

(** No constant starts with a digit, or with a sign and a digit. *)
Lemma scan_constant_digit c t : 49 <= ord c <= 57 -> scan_constant constants (String c t) = None.
Proof.
  intros Hc. destruct c as [[] [] [] [] [] [] [] []]; try reflexivity; exfalso; unfold ord in Hc; cbn in Hc; lia.
Qed.

Lemma scan_constant_minus c t : 49 <= ord c <= 57 -> scan_constant constants (String "-" (String c t)) = None.
Proof.
  intros Hc. destruct c as [[] [] [] [] [] [] [] []]; try reflexivity; exfalso; unfold ord in Hc; cbn in Hc; lia.
Qed.

Lemma scan_atom_int z rest :
  closes rest = true -> ndigits (Z.abs z) <= 4300 -> scan_atom (str_of_Z z ++ rest) = Ok (PInt z, rest).
Proof.
  intros Hr. unfold ndigits, scan_atom. destruct z as [|p|p]; cbn [Z.abs str_of_Z]; intros Hl.
  - change ("0" ++ rest) with (String "0" rest).
    assert (E : scan_constant constants (String "0" rest) = None) by reflexivity. rewrite E.
    change (is_char 45 "0") with false. unfold scan_number. change (scan_integer (String "0" rest)) with (Some ("0", rest)).
    by destruct (closes_number rest Hr) as [-> ->].
  - pose proof (scan_number_digits false p rest Hr Hl) as Hs. destruct (to_uint_head p) as (c & t & E & Hc). rewrite E in *.
    change (String c t ++ rest) with (String c (t ++ rest)) in *. rewrite scan_constant_digit by done.
    unfold is_char. by destruct (Z.eqb_spec (ord c) 45); [lia|].
  - rewrite str_app_assoc. pose proof (scan_number_digits true p rest Hr Hl) as Hs.
    destruct (to_uint_head p) as (c & t & E & Hc). rewrite E in *. change (String c t ++ rest) with (String c (t ++ rest)) in *.
    change ("-" ++ String c (t ++ rest)) with (String "-" (String c (t ++ rest))).
    by rewrite scan_constant_minus.
Qed.

(** ** Values *)

Section Norm.
Context (sort_keys : bool).

Definition json_order {V : Type} (d : list (string * V)) : list (string * V) :=
  if sort_keys then py_sorted key_lt d else d.

(** The value read back: objects in the order their members were written. *)
Fixpoint json_norm (v : pyval) : pyval :=
  match v with
  | PList l => PList (List.map json_norm l)
  | PDict d => PDict (json_order (List.map (fun kv => (fst kv, json_norm (snd kv))) d))
  | _ => v
  end.
End Norm.

(** No float, no tuple, integers of at most 4300 digits, distinct keys. *)
Inductive jsonable : pyval -> Prop :=
| jsonable_none : jsonable PNone
| jsonable_bool b : jsonable (PBool b)
| jsonable_int z : ndigits (Z.abs z) <= 4300 -> jsonable (PInt z)
| jsonable_str s : jsonable (PStr s)
| jsonable_list l : List.Forall jsonable l -> jsonable (PList l)
| jsonable_dict d : wf_keys d -> List.Forall (fun kv => jsonable (snd kv)) d -> jsonable (PDict d).

Lemma insert_sorted_map {A B} (f : A -> B) lt lt' x l :
  (forall a b, lt' (f a) (f b) = lt a b) -> insert_sorted lt' (f x) (List.map f l) = List.map f (insert_sorted lt x l).
Proof. intros H. induction l as [|y l IH]; [done|]. cbn [List.map insert_sorted]. rewrite H. destruct (lt x y); [done|]. by rewrite IH. Qed.

Lemma py_sorted_map {A B} (f : A -> B) lt lt' l :
  (forall a b, lt' (f a) (f b) = lt a b) -> py_sorted lt' (List.map f l) = List.map f (py_sorted lt l).
Proof.
  intros H. unfold py_sorted.
  enough (G : forall acc, fold_left (fun acc x => insert_sorted lt' x acc) (List.map f l) (List.map f acc) =
            List.map f (fold_left (fun acc x => insert_sorted lt x acc) l acc)) by apply (G []).
  induction l as [|x l IH]; intros acc; [done|]. cbn [List.map fold_left]. rewrite (insert_sorted_map f lt lt') by done. apply IH.
Qed.

Lemma json_order_map {V W} (f : V -> W) sk (d : list (string * V)) :
  json_order sk (List.map (fun kv => (fst kv, f (snd kv))) d) = List.map (fun kv => (fst kv, f (snd kv))) (json_order sk d).
Proof. unfold json_order. destruct sk; [|done]. by apply py_sorted_map. Qed.

Lemma json_order_Permutation {V} sk (d : list (string * V)) : Permutation (json_order sk d) d.
Proof. destruct sk; [apply py_sorted_Permutation|done]. Qed.

Definition member (sk : bool) (kv : string * pyval) : string := json_str (fst kv) ++ ": " ++ json_dumps sk (snd kv).

Lemma json_dumps_dict sk d :
  json_dumps sk (PDict d) = "{" ++ join ", " (List.map (member sk) (json_order sk d)) ++ "}".
Proof.
  cbn [json_dumps]. do 2 f_equal. unfold json_order. destruct sk; [|by rewrite List.map_map].
  rewrite (py_sorted_map (fun kv : string * pyval => (fst kv, member true kv)) key_lt key_lt) by done.
  rewrite List.map_map. done.
Qed.

(** The first character of a value's text is no space and closes nothing. *)
Lemma dumps_head sk v :
  jsonable v -> exists c t, json_dumps sk v = String c t /\ json_space c = false /\ is_char 93 c = false.
Proof.
  destruct 1 as [|b|z Hz|s|l Hl|d Hd Hv].
  - by do 2 eexists.
  - destruct b; by do 2 eexists.
  - cbn [json_dumps]. destruct z as [|p|p]; [by do 2 eexists| |by do 2 eexists]. cbn [str_of_Z].
    destruct (to_uint_head p) as (c & t & -> & Hc). exists c, t. split; [done|].
    unfold json_space, is_char. destruct (Z.eqb_spec (ord c) 32), (Z.eqb_spec (ord c) 9), (Z.eqb_spec (ord c) 10),
      (Z.eqb_spec (ord c) 13), (Z.eqb_spec (ord c) 93); (lia || done).
  - by do 2 eexists.
  - by do 2 eexists.
  - rewrite json_dumps_dict. by do 2 eexists.
Qed.

Lemma skip_ws_head s : (exists c t, s = String c t /\ json_space c = false) -> skip_ws s = s.
Proof. intros (c & t & -> & H). unfold skip_ws. cbn [lstrip_by]. by rewrite H. Qed.

Lemma skip_ws_dumps sk v rest : jsonable v -> skip_ws (json_dumps sk v ++ rest) = json_dumps sk v ++ rest.
Proof. intros H. apply skip_ws_head. destruct (dumps_head sk v H) as (c & t & -> & Hc & _). by exists c, (t ++ rest). Qed.

Lemma skip_ws_closes rest : closes rest = true -> skip_ws rest = rest.
Proof.
  destruct rest as [|c rest]; [done|]. intros Hr. apply skip_ws_head. exists c, rest. split; [done|].
  destruct c as [[] [] [] [] [] [] [] []]; try done; discriminate Hr.
Qed.

(** ** The scanner on what the encoder wrote *)

Definition scans (sk : bool) (v : pyval) : Prop :=
  forall fuel rest, (2 * String.length (json_dumps sk v) <= fuel)%nat -> closes rest = true ->
    scan_once fuel (json_dumps sk v ++ rest) = Ok (json_norm sk v, rest).

Lemma join_cons sep x y l : join sep (x :: y :: l) = x ++ sep ++ join sep (y :: l).
Proof. reflexivity. Qed.

Lemma skip_ws_comma t : skip_ws (", " ++ t) = String "," (" " ++ t).
Proof. reflexivity. Qed.

(** After a comma: the next text starts at its own first character. *)
Lemma skip_ws_join x l rest :
  (exists c t, x = String c t /\ json_space c = false) ->
  skip_ws (" " ++ join ", " (x :: l) ++ rest) = join ", " (x :: l) ++ rest.
Proof.
  intros (c & t & -> & Hc). change (skip_ws (" " ++ ?s)) with (skip_ws s).
  apply skip_ws_head. exists c. destruct l; by eexists.
Qed.

Lemma scan_elements_dumps sk x l fuel rest :
  List.Forall jsonable (x :: l) -> List.Forall (scans sk) (x :: l) ->
  (2 * String.length (join ", " (List.map (json_dumps sk) (x :: l))) + 1 <= fuel)%nat ->
  scan_elements fuel (join ", " (List.map (json_dumps sk) (x :: l)) ++ "]" ++ rest) =
  Ok (List.map (json_norm sk) (x :: l), rest).
Proof.
  revert x fuel. induction l as [|y l IH]; intros x fuel HJ HS Hf; destruct fuel as [|fuel]; try lia;
    inversion HJ as [|? ? Jx HJ']; inversion HS as [|? ? Sx HS']; subst; cbn [scan_elements].
  - cbn [List.map join] in *. rewrite Sx by (first [lia | done]). reflexivity.
  - change (List.map (json_dumps sk) (x :: y :: l))
      with (json_dumps sk x :: json_dumps sk y :: List.map (json_dumps sk) l) in *.
    rewrite join_cons, !length_str_app in Hf. change (String.length ", ") with 2%nat in Hf. rewrite join_cons, !str_app_assoc.
    rewrite Sx by (first [lia | done]). cbn [bind_res fst snd].
    rewrite skip_ws_comma. change (is_char 93 ",") with false. change (is_char 44 ",") with true. cbn iota.
    inversion HJ' as [|? ? Jy _]; subst. destruct (dumps_head sk y Jy) as (c & t & E & Hc & _).
    rewrite skip_ws_join by eauto.
    change (json_dumps sk y :: List.map (json_dumps sk) l) with (List.map (json_dumps sk) (y :: l)) in *.
    rewrite (IH y fuel HJ' HS') by lia. reflexivity.
Qed.

Lemma json_order_In {V} sk (d : list (string * V)) x : In x (json_order sk d) <-> In x d.
Proof. split; apply Permutation_in; [|symmetry]; apply json_order_Permutation. Qed.

Lemma dset_missing {V} k (v : V) d : dlookup k d = None -> dset k v d = (d ++ [(k, v)])%list.
Proof.
  induction d as [|[k' v'] d IH]; [done|]. cbn [dlookup dset]. destruct (String.eqb k k'); [done|].
  intros H. by rewrite IH.
Qed.

Definition norm_member (sk : bool) (kv : string * pyval) : string * pyval := (fst kv, json_norm sk (snd kv)).

(** One member and what follows it. *)
Lemma scan_member sk kv fuel acc more :
  jsonable (snd kv) -> scans sk (snd kv) -> closes more = true -> dlookup (fst kv) acc = None ->
  (2 * String.length (json_dumps sk (snd kv)) <= fuel)%nat ->
  scan_members (S fuel) (member sk kv ++ more) acc =
  match more with
  | String c t =>
      if is_char 125 c then Ok ((acc ++ [norm_member sk kv])%list, t)
      else if is_char 44 c then scan_members fuel (skip_ws t) (acc ++ [norm_member sk kv])%list
      else json_error
  | EmptyString => json_error
  end.
Proof.
  intros HJ HS Hm Hk Hf. unfold member, json_str. rewrite !str_app_assoc.
  change (dq ++ ?s) with (String "034" s) at 1. cbn [scan_members]. change (negb (is_char 34 "034")) with false. cbn iota.
  rewrite scan_string_dumps. cbn [bind_res fst snd].
  change (skip_ws (": " ++ json_dumps sk (snd kv) ++ more)) with (String ":" (" " ++ json_dumps sk (snd kv) ++ more)).
  change (negb (is_char 58 ":")) with false. cbn iota.
  change (skip_ws (" " ++ json_dumps sk (snd kv) ++ more)) with (skip_ws (json_dumps sk (snd kv) ++ more)).
  rewrite skip_ws_dumps, HS by done. cbn [bind_res fst snd]. rewrite dset_missing by done.
  by rewrite skip_ws_closes.
Qed.

Lemma scan_members_dumps sk kv d fuel acc rest :
  List.Forall (fun kv => jsonable (snd kv)) (kv :: d) -> List.Forall (fun kv => scans sk (snd kv)) (kv :: d) ->
  List.NoDup (List.map fst (acc ++ kv :: d)%list) ->
  (2 * String.length (join ", " (List.map (member sk) (kv :: d))) + 1 <= fuel)%nat ->
  scan_members fuel (join ", " (List.map (member sk) (kv :: d)) ++ "}" ++ rest) acc =
  Ok ((acc ++ List.map (norm_member sk) (kv :: d))%list, rest).
Proof.
  revert kv fuel acc. induction d as [|kv' d IH]; intros kv fuel acc HJ HS Hnd Hf; destruct fuel as [|fuel]; try lia;
    inversion HJ as [|? ? Jx HJ']; inversion HS as [|? ? Sx HS']; subst.
  all: assert (Hk : dlookup (fst kv) acc = None)
    by (apply dlookup_None_keys; rewrite List.map_app in Hnd; cbn [List.map] in Hnd;
        apply List.NoDup_remove_2 in Hnd; rewrite in_app_iff in Hnd; tauto).
  all: assert (Hlen : (String.length (json_dumps sk (snd kv)) <= String.length (member sk kv))%nat)
    by (unfold member; rewrite !length_str_app; lia).
  - cbn [List.map join] in *. rewrite scan_member by (try done; lia). reflexivity.
  - change (List.map (member sk) (kv :: kv' :: d)) with (member sk kv :: member sk kv' :: List.map (member sk) d) in *.
    rewrite join_cons, !length_str_app in Hf. change (String.length ", ") with 2%nat in Hf.
    rewrite join_cons, !str_app_assoc. rewrite scan_member by (try done; lia).
    change (", " ++ ?t) with (String "," (" " ++ t)). cbn iota.
    change (is_char 125 ",") with false. change (is_char 44 ",") with true. cbn iota.
    rewrite skip_ws_join by (do 2 eexists; split; reflexivity).
    change (member sk kv' :: List.map (member sk) d) with (List.map (member sk) (kv' :: d)) in *.
    assert (Hnd' : List.NoDup (List.map fst ((acc ++ [norm_member sk kv]) ++ kv' :: d)%list))
      by (rewrite <- List.app_assoc; rewrite List.map_app in *; exact Hnd).
    rewrite IH by (done || lia).
    by rewrite <- List.app_assoc.
Qed.

Lemma scan_once_int z fuel rest :
  closes rest = true -> ndigits (Z.abs z) <= 4300 -> scan_once (S fuel) (str_of_Z z ++ rest) = Ok (PInt z, rest).
Proof.
  intros Hr Hl. pose proof (scan_atom_int z rest Hr Hl) as Hs. destruct z as [|p|p]; [exact Hs| |exact Hs].
  cbn [str_of_Z] in *. destruct (to_uint_head p) as (c & t & E & Hc). rewrite E in *.
  change (String c t ++ rest) with (String c (t ++ rest)) in *. cbn [scan_once]. unfold is_char.
  by destruct (Z.eqb_spec (ord c) 34), (Z.eqb_spec (ord c) 91), (Z.eqb_spec (ord c) 123); try lia.
Qed.

Lemma scan_once_list sk x l fuel rest :
  List.Forall jsonable (x :: l) -> List.Forall (scans sk) (x :: l) ->
  (2 * String.length (json_dumps sk (PList (x :: l))) <= S fuel)%nat ->
  scan_once (S fuel) (json_dumps sk (PList (x :: l)) ++ rest) = Ok (json_norm sk (PList (x :: l)), rest).
Proof.
  intros HJ HS Hf. change (json_dumps sk (PList (x :: l))) with ("[" ++ join ", " (List.map (json_dumps sk) (x :: l)) ++ "]") in *.
  rewrite !length_str_app in Hf. change (String.length "[") with 1%nat in Hf. change (String.length "]") with 1%nat in Hf.
  rewrite !str_app_assoc.
  assert (Hh : exists c t, join ", " (List.map (json_dumps sk) (x :: l)) ++ "]" ++ rest = String c t /\
                 json_space c = false /\ is_char 93 c = false).
  { inversion HJ as [|? ? Jx _]; subst. destruct (dumps_head sk x Jx) as (c & t & E & Hc). exists c.
    destruct l; cbn [List.map]; [|rewrite join_cons]; cbn [join]; rewrite E; eexists; (split; [reflexivity|done]). }
  destruct Hh as (c & t & E & Hc & Hn).
  change ("[" ++ ?s) with (String "[" s). cbn [scan_once].
  change (is_char 34 "[") with false. change (is_char 91 "[") with true. cbn iota.
  rewrite skip_ws_head by (rewrite E; eauto). rewrite E, Hn, <- E.
  by rewrite (scan_elements_dumps sk x l) by (done || lia).
Qed.

Lemma scan_once_dict sk kv d fuel rest :
  wf_keys (kv :: d) -> List.Forall (fun kv => jsonable (snd kv)) (kv :: d) ->
  List.Forall (fun kv => scans sk (snd kv)) (kv :: d) ->
  (2 * String.length (json_dumps sk (PDict (kv :: d))) <= S fuel)%nat ->
  scan_once (S fuel) (json_dumps sk (PDict (kv :: d)) ++ rest) = Ok (json_norm sk (PDict (kv :: d)), rest).
Proof.
  intros Hw HJ HS Hf. rewrite json_dumps_dict in *. cbn [json_norm].
  rewrite (json_order_map (json_norm sk)). change (fun kv => (fst kv, json_norm sk (snd kv))) with (norm_member sk).
  pose proof (json_order_Permutation sk (kv :: d)) as HP. set (e := json_order sk (kv :: d)) in *.
  assert (Hw' : List.NoDup (List.map fst e)) by (unfold wf_keys in Hw; by rewrite HP).
  assert (HJ' : List.Forall (fun kv => jsonable (snd kv)) e) by (eapply Permutation_Forall; [by symmetry|done]).
  assert (HS' : List.Forall (fun kv => scans sk (snd kv)) e) by (eapply Permutation_Forall; [by symmetry|done]).
  destruct e as [|kv' d'] eqn:Ee; [by apply Permutation_nil_cons in HP|].
  rewrite !length_str_app in Hf. change (String.length "{") with 1%nat in Hf. change (String.length "}") with 1%nat in Hf.
  rewrite !str_app_assoc. change ("{" ++ ?s) with (String "{" s). cbn [scan_once].
  change (is_char 34 "{") with false. change (is_char 91 "{") with false. change (is_char 123 "{") with true. cbn iota.
  assert (Hh : exists t, join ", " (List.map (member sk) (kv' :: d')) ++ "}" ++ rest = String "034" t)
    by (destruct d'; eexists; reflexivity).
  destruct Hh as (t & E). rewrite skip_ws_head by (rewrite E; by do 2 eexists). rewrite E.
  change (is_char 125 "034") with false. cbn iota. rewrite <- E.
  by rewrite (scan_members_dumps sk kv' d') by (done || lia).
Qed.

Lemma scan_prefix p v cs rest : scan_constant ((p, v) :: cs) (p ++ rest) = Some (v, rest).
Proof.
  cbn [scan_constant]. unfold strip_prefix. rewrite startswith_app.
  assert (E : str_drop (String.length p) (p ++ rest) = rest) by (induction p; done). by rewrite E.
Qed.

Lemma scan_atom_constant s vt : scan_constant constants s = Some vt -> scan_atom s = Ok vt.
Proof. unfold scan_atom. by intros ->. Qed.

Lemma jsonable_scans sk v : jsonable v -> scans sk v.
Proof.
  induction v as [|b|z|f|s|l IH|l _|d IH] using pyval_nested_ind; intros HJ; inversion HJ; subst; intros fuel rest Hf Hr;
    (destruct fuel as [|fuel]; [exfalso; destruct (dumps_head sk _ HJ) as (c & t & E & _); rewrite E in Hf; simpl in Hf; lia|]).
  - apply scan_atom_constant. exact (scan_prefix "null" PNone _ rest).
  - destruct b; apply scan_atom_constant; [exact (scan_prefix "true" (PBool true) (skipn 2 constants) rest)|exact (scan_prefix "false" (PBool false) (skipn 3 constants) rest)].
  - by apply scan_once_int.
  - cbn [json_dumps]. unfold json_str. rewrite !str_app_assoc. change (dq ++ ?s) with (String "034" s) at 1.
    cbn [scan_once]. change (is_char 34 "034") with true. cbn iota. by rewrite scan_string_dumps.
  - destruct l as [|x l]; [reflexivity|]. apply scan_once_list; [done| |done].
    rewrite List.Forall_forall in *. auto.
  - destruct d as [|kv d]; [by destruct sk|]. apply scan_once_dict; [done|done| |done].
    rewrite List.Forall_forall in *. auto.
Qed.

Lemma dumps_loads sk v : jsonable v -> json_loads (json_dumps sk v) = Ok (json_norm sk v).
Proof.
  intros H. unfold json_loads. pose proof (jsonable_scans sk v H (2 * String.length (json_dumps sk v) + 2)%nat "") as Hs.
  pose proof (skip_ws_dumps sk v "" H) as Hw.
  assert (Hnil : forall t, t ++ "" = t)
    by (induction t as [|c t IH]; [done|]; change (String c t ++ "") with (String c (t ++ "")); by rewrite IH).
  rewrite Hnil in *.
  rewrite Hw, Hs by (done || lia). reflexivity.
Qed.

(** ** The value read back is equal to the value written *)

Lemma py_eq_list l m :
  py_eq (PList l) (PList m) = Nat.eqb (length l) (length m) && forallb (fun p => py_eq (fst p) (snd p)) (combine l m).
Proof.
  change (py_eq (PList l) (PList m)) with
    ((fix go (l m : list pyval) : bool :=
         match l, m with [], [] => true | x :: l', y :: m' => py_eq x y && go l' m' | _, _ => false end) l m).
  revert m; induction l as [|x l IH]; intros [|y m]; try done. cbn [length Nat.eqb combine forallb fst snd].
  rewrite IH. destruct (py_eq x y), (length l =? length m)%nat; done.
Qed.

Lemma py_eq_dict d e :
  py_eq (PDict d) (PDict e) = Nat.eqb (length d) (length e) &&
    forallb (fun kv => match dlookup (fst kv) e with Some w => py_eq (snd kv) w | None => false end) d.
Proof.
  cbn [py_eq]. f_equal. induction d as [|[k v] d IH]; [done|]. cbn [forallb fst snd].
  destruct (dlookup k e); [|done]. by rewrite IH.
Qed.

Lemma py_eq_norm sk v : jsonable v -> py_eq v (json_norm sk v) = true.
Proof.
  induction v as [|b|z|f|s|l IH|l _|d IH] using pyval_nested_ind; intros HJ; inversion HJ; subst.
  - done.
  - by destruct b.
  - cbn. by rewrite Z.compare_refl.
  - cbn. apply String.eqb_refl.
  - cbn [json_norm]. rewrite py_eq_list, List.length_map, Nat.eqb_refl. cbn [andb].
    apply forallb_forall. intros [x y] Hin.
    assert (Hy : y = json_norm sk x /\ In x l).
    { clear -Hin. induction l as [|a l IHl]; [done|]. destruct Hin as [[= <- <-]|Hin]; [split; [done|by left]|].
      destruct (IHl Hin). split; [done|by right]. }
    destruct Hy as [-> Hx]. rewrite List.Forall_forall in *. cbn. auto.
  - cbn [json_norm]. rewrite (json_order_map (json_norm sk)).
    pose proof (json_order_Permutation sk d) as HP. set (e := json_order sk d) in *.
    rewrite py_eq_dict, List.length_map, (Permutation_length HP), Nat.eqb_refl. cbn [andb].
    apply forallb_forall. intros [k w] Hin. cbn [fst snd]. rewrite List.Forall_forall in *.
    erewrite In_dlookup_nodup; [exact (IH _ Hin (H1 _ Hin))| |].
    + rewrite List.map_map. cbn [fst]. unfold wf_keys in H0. by rewrite HP.
    + apply in_map_iff. exists (k, w). split; [done|]. by apply (Permutation_in _ (Permutation_sym HP)).
Qed.

Lemma jsonable_digits v : jsonable v -> digits_ok v = true.
Proof.
  induction v as [|b|z|f|s|l IH|l _|d IH] using pyval_nested_ind; intros HJ; inversion HJ; subst; cbn [digits_ok]; try done.
  - by apply Z.leb_le.
  - apply forallb_forall. rewrite List.Forall_forall in *. auto.
  - apply forallb_forall. rewrite List.Forall_forall in *. auto.
Qed.

(** C40: the serialisation of context segments.  For every JSON value without floats (text
    keys, distinct in each object; integers of at most 4300 digits) it is lossless:
    [_safe_json v] is a text that decodes to an equal value, with the keys of every object
    in order, so two such values with the same text are equal up to key order.  For a value
    at which [json.dumps] raises [TypeError] or [ValueError] it is what [str] gives, and any
    other exception leaves it. *)
Theorem safe_json_roundtrip :
  (forall v, jsonable v -> exists text,
     _safe_json (Encodable v) = Ok text /\ json_loads text = Ok (json_norm true v) /\ py_eq v (json_norm true v) = true /\
     (forall w, jsonable w -> _safe_json (Encodable w) = Ok text -> json_norm true w = json_norm true v)) /\
  forall e str, _safe_json (Refused e str) = if is_type_or_value_error e then str else Err e.
Proof.
  split; [|done]. intros v H. exists (safe_json v). split; [by apply safe_json_text, jsonable_digits|].
  split; [by apply dumps_loads|]. split; [by apply py_eq_norm|].
  intros w Hw E. rewrite safe_json_text in E by by apply jsonable_digits. injection E as E. unfold safe_json in E.
  pose proof (dumps_loads true v H) as Hv. pose proof (dumps_loads true w Hw) as Hw'. rewrite E, Hv in Hw'. by injection Hw'.
Qed.

Definition sample_json : pyval :=
  PDict [("b", PList [PInt (-120); PStr ("quote " ++ dq ++ " tab " ++ String (chr 9) "")]); ("a", PDict []); ("0", PNone)].

Lemma safe_json_roundtrip_witness :
  exists text, _safe_json (Encodable sample_json) = Ok text /\
    json_loads text =
      Ok (PDict [("0", PNone); ("a", PDict []); ("b", PList [PInt (-120); PStr ("quote " ++ dq ++ " tab " ++ String (chr 9) "")])]).
Proof.
  assert (J : jsonable sample_json).
  { unfold sample_json. constructor; [unfold wf_keys; cbn; repeat constructor; cbn; intuition discriminate|].
    repeat (constructor; cbn); vm_compute; discriminate. }
  destruct (proj1 safe_json_roundtrip sample_json J) as (text & E & L & _). exists text. split; [exact E|exact L].
Defined.

(** The text of an object of another class may be that of a JSON value. *)
Example fallback_collides :
  _safe_json (Refused (TypeError "Object of type Path is not JSON serializable") (Ok "7")) = _safe_json (Encodable (PInt 7)).
Proof. reflexivity. Qed.

