(* ===== verification/ModelRouting.v ===== *)
(** * Model routing: [model_routing.py]

    The local/remote routing decision, the routing telemetry, the latency-SLA
    fallback, the round-robin diversity policy and the shared reflection pool. *)
From Stdlib Require Import ZArith Lia String Ascii List Bool SpecFloat Sorted Permutation.
From stdpp Require Import base tactics list strings option.
From S2P Require Import Prelude PyStr PyFloat PyVal State.
Local Open Scope string_scope.
Local Open Scope Z_scope.

(** ** [decide_model_route] *)

(** The keyword arguments ([recovery_retry_threshold] is accepted and not used). *)
Record RouteRequest := {
  rq_task_class : string; rq_primary_provider : string; rq_primary_model : string;
  rq_local_provider : string; rq_fallback_task_classes : list string; rq_lane : option string;
  rq_context_tokens : Z; rq_retry_count : Z; rq_latency_sensitive : bool;
  rq_cache_affinity : string; rq_prefix_segment : string;
  rq_interactive_context_limit : Z; rq_deep_planning_context_limit : Z;
  rq_compression_pressure : Z; rq_fact_count : Z }.

Definition str_default (s dflt : string) : string := if String.eqb s "" then dflt else s.

Section Decide.
Context (q : RouteRequest).

Definition normalized_task : string := strip (rq_task_class q).
Definition normalized_lane : string := match rq_lane q with Some l => strip l | None => "" end.
Definition primary : string := str_default (strip (rq_primary_provider q)) "local".
Definition primary_model : string := str_default (strip (rq_primary_model q)) "deterministic".
Definition local_provider : string := str_default (strip (rq_local_provider q)) "local".
Definition fallback_set : list string :=
  List.filter (fun e => negb (String.eqb e "")) (List.map strip (rq_fallback_task_classes q)).
Definition pressure : Z := Z.max (rq_compression_pressure q) 0.
Definition facts_n : Z := Z.max (rq_fact_count q) 0.

(** The constructor call shared by the branches; [lane] is validated. *)
Definition routed (lane : string) (used : ProviderUsed) (provider model reason : string) (fallback : bool)
    : res ModelRoutingDecision :=
  let! l := parse_literal lane in
  Ok {| mr_task_class := normalized_task; mr_lane := l; mr_provider_used := used; mr_provider := provider;
        mr_model := model; mr_reason := reason; mr_fallback_applied := fallback;
        mr_cache_affinity := rq_cache_affinity q; mr_prefix_segment := rq_prefix_segment q;
        mr_context_tokens := Z.max (rq_context_tokens q) 0; mr_compression_pressure := pressure;
        mr_fact_count := facts_n; mr_retry_count := Z.max (rq_retry_count q) 0;
        mr_latency_sensitive := rq_latency_sensitive q |}.

Definition decide_model_route : res ModelRoutingDecision :=
  if String.eqb primary local_provider then
    routed (str_default normalized_lane "interactive") local local_provider primary_model
           "primary_provider_is_local" false
  else if String.eqb normalized_lane "recovery" then
    routed "recovery" remote primary primary_model "recovery_capability_path" false
  else if existsb (String.eqb normalized_task) fallback_set && (pressure <=? 0) && (facts_n <=? 0) then
    routed (str_default normalized_lane "interactive") local local_provider (local_provider ++ ":fallback")
           "fallback_task_class_policy" true
  else if String.eqb normalized_lane "interactive" && rq_latency_sensitive q
          && (rq_context_tokens q <=? Z.max (rq_interactive_context_limit q) 1)
          && (pressure <=? 0) && (facts_n <=? 0) then
    routed "interactive" local local_provider (local_provider ++ ":interactive")
           "interactive_low_latency_policy" false
  else if String.eqb normalized_lane "deep_planning"
          || (Z.max (rq_deep_planning_context_limit q) 1 <=? rq_context_tokens q)
          || (0 <? pressure) || (3 <=? facts_n) then
    routed (str_default normalized_lane "deep_planning") remote primary primary_model
           (if (0 <? pressure) || (3 <=? facts_n) then "compression_pressure_capability_path"
            else "high_context_capability_path") false
  else
    routed (str_default normalized_lane "interactive") remote primary primary_model
           "primary_provider_path" false.
End Decide.

(** ** Telemetry *)

Definition telemetry_of (state : dict) : dict := dict_or_empty (dget state "telemetry" (PDict [])).
Definition routes_of (state : dict) : list pyval :=
  list_or_empty (dget (telemetry_of state) "model_routing" (PList [])).

Definition latest_model_route (state : dict) (node_name : string) : dict :=
  match List.find (fun v => match v with
                            | PDict r => String.eqb (py_str (dget r "node" (PStr ""))) node_name
                            | _ => false end) (List.rev (routes_of state)) with
  | Some (PDict r) => r
  | _ => []
  end.

(** A numeric route field, or the planner context's estimate of it. *)
Definition route_metric (route repo_context : dict) (key sub : string) : Z :=
  let raw := dget route key (dget repo_context "planner_context" (PDict [])) in
  match raw with
  | PDict d => if is_int (dget d sub (PInt 0)) then int_of (dget d sub (PInt 0)) else 0
  | v => int_of v
  end.

(** [int(routing.get(k, d) or d)]. *)
Definition int_or_default (routing : dict) (k : string) (d : Z) : res Z :=
  py_int (py_or (dget routing k (PInt d)) (PInt d)).

Definition record_model_route (state : dict) (node_name task_class model_slot : string) : res dict :=
  let slot := dict_or_empty (dget (dict_or_empty (dget state "_models" (PDict []))) model_slot (PDict [])) in
  let routing := dict_or_empty (dget state "_model_routing_policy" (PDict [])) in
  let fallback_classes :=
    List.filter (fun s => negb (String.eqb s ""))
      (List.map str_strip (list_or_empty (dget routing "fallback_task_classes" (PList [])))) in
  let route := dict_or_empty (dget state "route" (PDict [])) in
  let budgets := dict_or_empty (dget state "budgets" (PDict [])) in
  let repo_context := dict_or_empty (dget state "repo_context" (PDict [])) in
  let lane_s := str_strip (dget route "lane" (PStr "")) in
  let lane := if String.eqb lane_s "" then None else Some lane_s in
  let cache_affinity :=
    str_strip (dget route "cache_affinity" (dget routing "default_cache_affinity" (PStr "workspace"))) in
  let prefix_segment := str_strip (dget route "prefix_segment" (PStr "stable_prefix")) in
  let! current_loop := py_int (dget budgets "current_loop" (PInt 0)) in
  let retry_count := Z.max (current_loop - 1) 0 in
  let latency_sensitive :=
    truthy (dget route "latency_sensitive"
              (PBool (negb (match lane with Some l => String.eqb l "deep_planning" | None => false end)))) in
  let! interactive_limit := int_or_default routing "interactive_context_limit" 1800 in
  let! deep_limit := int_or_default routing "deep_planning_context_limit" 3200 in
  let! _retry_threshold := int_or_default routing "recovery_retry_threshold" 1 in
  let! d := decide_model_route
    {| rq_task_class := task_class;
       rq_primary_provider := py_str (dget slot "provider" (PStr "local"));
       rq_primary_model := py_str (dget slot "model" (PStr "deterministic"));
       rq_local_provider := py_str (dget routing "local_provider" (PStr "local"));
       rq_fallback_task_classes := fallback_classes; rq_lane := lane;
       rq_context_tokens := route_metric route repo_context "context_tokens" "token_estimate";
       rq_retry_count := retry_count; rq_latency_sensitive := latency_sensitive;
       rq_cache_affinity := cache_affinity; rq_prefix_segment := prefix_segment;
       rq_interactive_context_limit := interactive_limit; rq_deep_planning_context_limit := deep_limit;
       rq_compression_pressure := route_metric route repo_context "compression_pressure" "compression_pressure";
       rq_fact_count := route_metric route repo_context "fact_count" "fact_count" |} in
  let entry := PDict (("node", PStr node_name) :: ModelRoutingDecision_dump d) in
  let telemetry := dset "model_routing" (PList (routes_of state ++ [entry])) (telemetry_of state) in
  Ok (dset "telemetry" (PDict telemetry) state).

(** The attributes of an inference response (not a string) that are read. *)
Record InferenceResponse := {
  ir_latency_ms : pyval; ir_provider : pyval; ir_model : pyval;
  ir_usage : pyval; ir_cache_metadata : pyval; ir_headers : pyval }.

(** [int(v) if isinstance(v, int) and not isinstance(v, bool) else 0]. *)
Definition plain_int_or_0 (v : pyval) : pyval := match v with PInt z => PInt z | _ => PInt 0 end.

Definition set_if_dict (k : string) (v : pyval) (d : dict) : dict :=
  match v with PDict (_ :: _) => dset k v d | _ => d end.

Definition set_if_text (k : string) (v : pyval) (d : dict) : dict :=
  let s := str_strip v in if String.eqb s "" then d else dset k (PStr s) d.

Definition inference_entry (state : dict) (node_name provider model : string)
    (response : option InferenceResponse) : dict :=
  let route := dict_or_empty (dget state "route" (PDict [])) in
  let latest := latest_model_route state node_name in
  let capture_metadata := truthy (dget state "_trace_capture_model_metadata" (PBool true)) in
  let s (d : dict) k dflt := PStr (py_str (dget d k dflt)) in
  let entry :=
    [("node", PStr node_name); ("provider", PStr provider); ("model", PStr model);
     ("lane", s route "lane" (PStr "interactive"));
     ("provider_used", s latest "provider_used" (dget route "provider_used" (PStr "")));
     ("task_class", s route "task_class" (dget latest "task_class" (PStr "")));
     ("reason", s latest "reason" (PStr ""));
     ("rationale", s route "rationale" (dget latest "reason" (PStr "")));
     ("context_scope", s route "context_scope" (PStr ""));
     ("fallback_applied", PBool (truthy (dget latest "fallback_applied" (PBool false))));
     ("cache_affinity", s route "cache_affinity" (PStr ""));
     ("prefix_segment", s route "prefix_segment" (PStr "stable_prefix"));
     ("context_tokens", plain_int_or_0 (dget latest "context_tokens" (PInt 0)));
     ("compression_pressure",
        plain_int_or_0 (dget latest "compression_pressure" (dget route "compression_pressure" (PInt 0))));
     ("fact_count", plain_int_or_0 (dget latest "fact_count" (dget route "fact_count" (PInt 0))));
     ("retry_count", plain_int_or_0 (dget latest "retry_count" (PInt 0)));
     ("latency_sensitive",
        PBool (truthy (dget latest "latency_sensitive" (dget route "latency_sensitive" (PBool true)))));
     ("latency_ms", PInt 0)] in
  match response with
  | None => entry
  | Some r =>
      let e := dset "latency_ms" (PInt (if is_int (ir_latency_ms r) then int_of (ir_latency_ms r) else 0)) entry in
      let e := set_if_text "provider" (ir_provider r) e in
      let e := set_if_text "model" (ir_model r) e in
      let e := set_if_dict "usage" (ir_usage r) e in
      let e := set_if_dict "cache_metadata" (ir_cache_metadata r) e in
      if capture_metadata then set_if_dict "headers" (ir_headers r) e else e
  end.

Definition record_inference_telemetry (state : dict) (node_name provider model : string)
    (response : option InferenceResponse) : dict :=
  let telemetry := telemetry_of state in
  let inference := list_or_empty (dget telemetry "inference" (PList [])) in
  let entry := PDict (inference_entry state node_name provider model response) in
  dset "telemetry" (PDict (dset "inference" (PList (inference ++ [entry])) telemetry)) state.

Definition tool_routing_metadata (state : dict) (stage : string) : dict :=
  let route := dict_or_empty (dget state "route" (PDict [])) in
  let latest := dict_or_empty (List.last (routes_of state) PNone) in
  let s (a b : dict) k dflt := PStr (py_str (dget a k (dget b k (PStr dflt)))) in
  [("stage", PStr stage); ("lane", s route latest "lane" "interactive");
   ("provider", s latest route "provider" ""); ("model", s latest route "model" "");
   ("task_class", s route latest "task_class" ""); ("cache_affinity", s route latest "cache_affinity" "");
   ("prefix_segment", s route latest "prefix_segment" "stable_prefix")].

(** ** Latency SLA *)

Record SlaEntry := { model_id : string; threshold_p95_s : float; fallback_model_id : string }.

(** [LatencyWindow]: a deque of at most [window_size] samples, oldest first. *)
Record LatencyWindow := { window_size : nat; _buf : list float }.

Definition LatencyWindow_init : LatencyWindow := {| window_size := 200; _buf := [] |}.

Definition record (w : LatencyWindow) (latency_s : float) : LatencyWindow :=
  {| window_size := window_size w; _buf := last_n (window_size w) (_buf w ++ [latency_s]) |}.

(** [int(n * 0.95)], capped by [n - 1]. *)
Definition p95_index (n : Z) : Z :=
  let idx := match float_trunc (fmul (float_of_Z n) (float_lit 95 2)) with Some z => z | None => 0 end in
  Z.min idx (n - 1).

Definition p95 (w : LatencyWindow) : option float :=
  let samples := _buf w in
  let n := Z.of_nat (length samples) in
  if n <? 5 then None
  else nth_error (py_sorted fltb samples) (Z.to_nat (p95_index n)).

Record SlaRoutingPolicy := {
  _thresholds : list (string * float);
  _fallbacks : list (string * string);
  _windows : list (string * LatencyWindow) }.

Definition record_latency (p : SlaRoutingPolicy) (m : string) (latency_s : float) : SlaRoutingPolicy :=
  let w := match dlookup m (_windows p) with Some w => w | None => LatencyWindow_init end in
  {| _thresholds := _thresholds p; _fallbacks := _fallbacks p;
     _windows := dset m (record w latency_s) (_windows p) |}.

Definition degraded (p : SlaRoutingPolicy) (m : string) (w : LatencyWindow) : bool :=
  match p95 w, dlookup m (_thresholds p) with
  | Some v, Some threshold => fltb threshold v
  | _, _ => false
  end.

Definition select_model (p : SlaRoutingPolicy) (requested_model : string) : string :=
  match dlookup requested_model (_windows p) with
  | None => requested_model
  | Some w =>
      if degraded p requested_model w then
        match dlookup requested_model (_fallbacks p) with Some f => f | None => requested_model end
      else requested_model
  end.

Definition degraded_models (p : SlaRoutingPolicy) : list string :=
  List.map fst (List.filter (fun mw => degraded p (fst mw) (snd mw)) (_windows p)).

Definition build_sla_policy (entries : list SlaEntry) : option SlaRoutingPolicy :=
  match entries with
  | [] => None
  | _ => Some {|
      _thresholds := fold_left (fun d e => dset (model_id e) (threshold_p95_s e) d) entries [];
      _fallbacks := fold_left (fun d e => dset (model_id e) (fallback_model_id e) d) entries [];
      _windows := [] |}
  end.

(** ** Diversity: temperature schedule and round robin *)

Definition _TEMPERATURE_SCHEDULE : list float :=
  List.map (fun m => float_lit m 1) [7; 3; 9; 5; 8; 4; 6; 10].

Record DiversityRoutingPolicy := { _models : list string; _index : nat; _temp_index : nat }.

Definition DiversityRoutingPolicy_init (models : list string) : res DiversityRoutingPolicy :=
  match models with
  | [] => Err (ValueError "DiversityRoutingPolicy requires at least one model")
  | _ => Ok {| _models := models; _index := 0; _temp_index := 0 |}
  end.

Definition next_temperature (p : DiversityRoutingPolicy) : DiversityRoutingPolicy * float :=
  ({| _models := _models p; _index := _index p; _temp_index := S (_temp_index p) |},
   nth (_temp_index p mod length _TEMPERATURE_SCHEDULE)%nat _TEMPERATURE_SCHEDULE fzero).

Definition reset_temperature (p : DiversityRoutingPolicy) : DiversityRoutingPolicy :=
  {| _models := _models p; _index := _index p; _temp_index := 0 |}.

Definition next_model (p : DiversityRoutingPolicy) : DiversityRoutingPolicy * string :=
  ({| _models := _models p; _index := S (_index p); _temp_index := _temp_index p |},
   nth (_index p mod length (_models p))%nat (_models p) "").

Definition reset (p : DiversityRoutingPolicy) : DiversityRoutingPolicy :=
  {| _models := _models p; _index := 0; _temp_index := _temp_index p |}.

Inductive RoutingPolicy := Sla (p : SlaRoutingPolicy) | Diversity (p : DiversityRoutingPolicy).

(** [env] is the value of [LG_MODEL_DIVERSITY] ([false] when unset). *)
Definition get_routing_policy (env : string) (sla_config : option (list SlaEntry))
    (diversity_models : option (list string)) : res (option RoutingPolicy) :=
  let diversity_enabled := existsb (String.eqb (lower env)) ["true"; "1"; "yes"] in
  match diversity_enabled, diversity_models with
  | true, Some ((_ :: _) as ms) =>
      let! p := DiversityRoutingPolicy_init ms in Ok (Some (Diversity p))
  | _, _ =>
      match sla_config with
      | Some entries => Ok (option_map Sla (build_sla_policy entries))
      | None => Ok None
      end
  end.

(** ** Shared reflections *)

Record FailureReflection := {
  loop_index : Z; model_used : string; failure_class : string; reflection : string; fr_timestamp : float }.

Record SharedReflectionPool := { _reflections : list FailureReflection; _max : Z }.

(** [l[k:]] for any integer [k]. *)
Definition slice_from {A : Type} (k : Z) (l : list A) : list A :=
  let n := Z.of_nat (length l) in
  skipn (Z.to_nat (if 0 <=? k then k else Z.max (n + k) 0)) l.

Definition add_reflection (p : SharedReflectionPool) (r : FailureReflection) : SharedReflectionPool :=
  let rs := (_reflections p ++ [r])%list in
  {| _reflections := if _max p <? Z.of_nat (length rs) then slice_from (- _max p) rs else rs; _max := _max p |}.

(** [em_dash] is the one-character string U+2014, outside the modelled range. *)
Definition get_context (em_dash : string) (p : SharedReflectionPool) : string :=
  match _reflections p with
  | [] => ""
  | rs => join nl ("Previous failure reflections:" ::
            List.map (fun r => "- Loop " ++ str_of_Z (loop_index r) ++ " (" ++ model_used r ++ "): "
                               ++ failure_class r ++ " " ++ em_dash ++ " " ++ reflection r) rs)
  end.

Definition clear (p : SharedReflectionPool) : SharedReflectionPool := {| _reflections := []; _max := _max p |}.

(** ** Properties *)

(** ** The decision *)

Lemma existsb_eqb_In s l : existsb (String.eqb s) l = true <-> In s l.
Proof.
  rewrite existsb_exists. split.
  - intros (x & Hx & E). apply String.eqb_eq in E. by subst.
  - intros H. exists s. by rewrite String.eqb_refl.
Qed.

(** The conditions under which the local provider is used. *)
Definition uses_local (q : RouteRequest) : Prop :=
  primary q = local_provider q \/
  (normalized_lane q <> "recovery" /\ rq_compression_pressure q <= 0 /\ rq_fact_count q <= 0 /\
   (In (normalized_task q) (fallback_set q) \/
    (normalized_lane q = "interactive" /\ rq_latency_sensitive q = true /\
     rq_context_tokens q <= Z.max (rq_interactive_context_limit q) 1))).

Definition uses_local_b (q : RouteRequest) : bool :=
  let quiet := (pressure q <=? 0) && (facts_n q <=? 0) in
  String.eqb (primary q) (local_provider q)
  || (negb (String.eqb (normalized_lane q) "recovery") && quiet
      && (existsb (String.eqb (normalized_task q)) (fallback_set q)
          || (String.eqb (normalized_lane q) "interactive" && rq_latency_sensitive q
              && (rq_context_tokens q <=? Z.max (rq_interactive_context_limit q) 1)))).

Lemma uses_local_iff q : uses_local_b q = true <-> uses_local q.
Proof.
  unfold uses_local_b, uses_local, pressure, facts_n.
  rewrite !orb_true_iff, !andb_true_iff, !orb_true_iff, !andb_true_iff, negb_true_iff, !String.eqb_eq,
    String.eqb_neq, !Z.leb_le, existsb_eqb_In.
  assert (Hp : forall z, Z.max z 0 <= 0 <-> z <= 0) by lia. rewrite !Hp. tauto.
Qed.

Lemma routed_inv q lane used provider model reason fb d :
  routed q lane used provider model reason fb = Ok d ->
  mr_provider_used d = used /\ mr_provider d = provider /\ mr_fallback_applied d = fb /\
  mr_context_tokens d = Z.max (rq_context_tokens q) 0 /\ mr_compression_pressure d = pressure q /\
  mr_fact_count d = facts_n q /\ mr_retry_count d = Z.max (rq_retry_count q) 0 /\ lane = spelling (mr_lane d).
Proof.
  unfold routed. destruct (parse_literal lane) as [l|] eqn:E; [|done]. intros [= <-].
  repeat (split; [done|]). by apply parse_literal_spelling.
Qed.

Lemma str_default_eq s dflt : s <> "" -> str_default s dflt = s.
Proof. unfold str_default. by destruct (String.eqb_spec s ""). Qed.

(** Every branch is a [routed] call with the provider the conditions name. *)
Lemma decide_routed q :
  exists lane model reason fb,
    decide_model_route q =
      routed q lane (if uses_local_b q then local else remote)
             (if uses_local_b q then local_provider q else primary q) model reason fb /\
    (fb = true -> uses_local_b q = true /\ In (normalized_task q) (fallback_set q)) /\
    (normalized_lane q <> "" -> lane = normalized_lane q).
Proof.
  unfold decide_model_route, uses_local_b. cbv zeta.
  destruct (String.eqb_spec (primary q) (local_provider q)) as [E1|E1].
  { do 4 eexists. split; [done|]. split; [done|]. apply str_default_eq. }
  destruct (String.eqb_spec (normalized_lane q) "recovery") as [E2|E2].
  { do 4 eexists. split; [done|]. split; [done|]. by rewrite E2. }
  destruct (existsb (String.eqb (normalized_task q)) (fallback_set q)) eqn:E3,
    (pressure q <=? 0) eqn:Ep, (facts_n q <=? 0) eqn:Ef; cbn [andb orb negb];
    [do 4 eexists; split; [done|]; split; [by rewrite <- existsb_eqb_In|apply str_default_eq]| | | | | | |];
    rewrite ?andb_false_r, ?andb_true_r; cbn [orb];
    try (case_if; (do 4 eexists; split; [done|]; split; [done|apply str_default_eq])).
  destruct (String.eqb_spec (normalized_lane q) "interactive") as [E4|E4]; cbn [andb];
    [destruct (rq_latency_sensitive q && (rq_context_tokens q <=? Z.max (rq_interactive_context_limit q) 1)) eqn:E5|].
  - do 4 eexists. split; [done|]. split; [done|]. by rewrite E4.
  - case_if; do 4 eexists; (split; [done|]; split; [done|apply str_default_eq]).
  - case_if; do 4 eexists; (split; [done|]; split; [done|apply str_default_eq]).
Qed.

(** The routing decision: the local provider is chosen exactly when it is the
    primary one, or the lane is not recovery, there is no compression pressure
    and no fact, and the task class is a fallback class or the request is
    interactive, latency-sensitive and small; otherwise the primary provider is
    used; a fallback is only ever applied to a local route of a fallback class;
    the lane asked for is kept and no reported counter is negative. *)
Theorem decide_model_route_spec q d :
  decide_model_route q = Ok d ->
  (mr_provider_used d = local <-> uses_local q) /\
  mr_provider d = (if decide (mr_provider_used d = local) then local_provider q else primary q) /\
  (mr_fallback_applied d = true -> mr_provider_used d = local /\ In (normalized_task q) (fallback_set q)) /\
  (normalized_lane q <> "" -> spelling (mr_lane d) = normalized_lane q) /\
  0 <= mr_context_tokens d /\ 0 <= mr_compression_pressure d /\ 0 <= mr_fact_count d /\ 0 <= mr_retry_count d.
Proof.
  destruct (decide_routed q) as (lane & model & reason & fb & -> & Hfb & Hlane). intros H.
  apply routed_inv in H as (-> & -> & -> & -> & -> & -> & -> & Hl).
  rewrite <- uses_local_iff. split; [by destruct (uses_local_b q)|].
  split; [destruct (uses_local_b q); case_decide; congruence|].
  split; [intros E; destruct (Hfb E) as [-> ?]; done|]. split; [intros Hn; by rewrite <- Hl, Hlane|].
  unfold pressure, facts_n. lia.
Qed.

Definition sample_request : RouteRequest := {|
  rq_task_class := "code_change"; rq_primary_provider := "digitalocean"; rq_primary_model := "gpt";
  rq_local_provider := "local"; rq_fallback_task_classes := ["question"]; rq_lane := Some "recovery";
  rq_context_tokens := 100; rq_retry_count := 1; rq_latency_sensitive := true;
  rq_cache_affinity := ""; rq_prefix_segment := ""; rq_interactive_context_limit := 1800;
  rq_deep_planning_context_limit := 3200; rq_compression_pressure := 0; rq_fact_count := 0 |}.

Lemma decide_model_route_spec_witness :
  match decide_model_route sample_request with
  | Ok d => mr_provider d = "digitalocean" /\ spelling (mr_lane d) = "recovery"
  | Err _ => False end.
Proof.
  destruct (decide_model_route sample_request) as [d|] eqn:E; [|vm_compute in E; discriminate E].
  destruct (decide_model_route_spec sample_request d E) as (_ & Hp & _ & Hl & _).
  split; [|apply Hl; discriminate]. rewrite Hp. vm_compute in E. injection E as <-. reflexivity.
Defined.

(** ** Telemetry round trip *)

Lemma routes_of_record state rs :
  routes_of (dset "telemetry" (PDict (dset "model_routing" (PList rs) (telemetry_of state))) state) = rs.
Proof. unfold routes_of, telemetry_of. rewrite dget_dset_eq. cbn [dict_or_empty]. by rewrite dget_dset_eq. Qed.

Lemma latest_snoc state rs node r :
  py_str (dget r "node" (PStr "")) = node -> routes_of state = (rs ++ [PDict r])%list ->
  latest_model_route state node = r.
Proof.
  intros Hn Hr. unfold latest_model_route. rewrite Hr, List.rev_app_distr. simpl.
  by rewrite Hn, String.eqb_refl.
Qed.

Lemma latest_other state state' node r :
  py_str (dget r "node" (PStr "")) <> node -> routes_of state' = (routes_of state ++ [PDict r])%list ->
  latest_model_route state' node = latest_model_route state node.
Proof.
  intros Hn Hr. unfold latest_model_route. rewrite Hr, List.rev_app_distr. simpl.
  by apply String.eqb_neq in Hn as ->.
Qed.

Lemma record_model_route_frame state node task slot out k :
  record_model_route state node task slot = Ok out -> String.eqb k "telemetry" = false -> dlookup k out = dlookup k state.
Proof.
  unfold record_model_route. cbv zeta. intros H Hk. inv_bind H. injection H as <-. by rewrite dlookup_dset_neb.
Qed.

(** A recorded route is read back: after [record_model_route] for a node, its
    latest route is the decision just taken, the latest routes of all other nodes
    and every state key but the telemetry are unchanged, earlier records are kept,
    and the tool metadata names the decision's provider and model. *)
Theorem record_model_route_latest state node task slot out :
  record_model_route state node task slot = Ok out ->
  exists d, latest_model_route out node = ("node", PStr node) :: ModelRoutingDecision_dump d /\
    (forall other, other <> node -> latest_model_route out other = latest_model_route state other) /\
    routes_of out = (routes_of state ++ [PDict (("node", PStr node) :: ModelRoutingDecision_dump d)])%list /\
    (forall k, k <> "telemetry" -> dlookup k out = dlookup k state) /\
    (forall stage, dget (tool_routing_metadata out stage) "provider" PNone = PStr (mr_provider d) /\
                   dget (tool_routing_metadata out stage) "model" PNone = PStr (mr_model d)).
Proof.
  unfold record_model_route. cbv zeta. intros H. inv_bind H. injection H as <-.
  match goal with Hd : decide_model_route _ = Ok ?d |- _ => exists d; clear Hd; set (e := ModelRoutingDecision_dump d) end.
  set (out := dset "telemetry" _ state).
  assert (Hr : routes_of out = (routes_of state ++ [PDict (("node", PStr node) :: e)])%list)
    by apply routes_of_record.
  split; [by eapply latest_snoc|]. split; [intros other Ho; eapply latest_other; [|exact Hr]; simpl; congruence|].
  split; [done|]. split; [intros k Hk; by apply dlookup_dset_ne|].
  intros stage. unfold tool_routing_metadata. rewrite Hr, List.last_last. done.
Qed.

Lemma record_model_route_latest_witness :
  exists d, latest_model_route (match record_model_route [] "planner" "analysis" "planner" with
                                | Ok o => o | Err _ => [] end) "planner" =
            ("node", PStr "planner") :: ModelRoutingDecision_dump d.
Proof.
  destruct (record_model_route_latest [] "planner" "analysis" "planner"
    (match record_model_route [] "planner" "analysis" "planner" with Ok o => o | Err _ => [] end)) as (d & H & _);
    [vm_compute; reflexivity|]. exists d. exact H.
Defined.

(** ** The latency SLA *)

(** The index never leaves the window, and is the 95th percentile's for every
    size a window can have. *)
Lemma p95_index_range n : 5 <= n <= 200 -> p95_index n = 19 * n / 20.
Proof.
  intros Hn.
  assert (H : forallb (fun k => p95_index (Z.of_nat k) =? 19 * Z.of_nat k / 20) (List.seq 5 196) = true)
    by (vm_compute; reflexivity).
  rewrite forallb_forall in H. specialize (H (Z.to_nat n)). rewrite Z2Nat.id in H by lia.
  apply Z.eqb_eq, H. apply in_seq. lia.
Qed.

(** The model's window holds [n] samples, between 5 and 200, without NaN. *)
Definition window_of (p : SlaRoutingPolicy) (m : string) (samples : list float) : Prop :=
  exists w, dlookup m (_windows p) = Some w /\ _buf w = samples /\ no_nan samples /\
            5 <= Z.of_nat (length samples) <= 200.

Lemma p95_exceeds w t v :
  no_nan (_buf w) -> is_nan t = false -> 5 <= Z.of_nat (length (_buf w)) <= 200 -> p95 w = Some v ->
  fltb t v = true <->
  Z.of_nat (length (_buf w)) - 19 * Z.of_nat (length (_buf w)) / 20 <= Z.of_nat (length (List.filter (fltb t) (_buf w))).
Proof.
  intros Hnan Ht Hn Hv. unfold p95 in Hv.
  destruct (Z.of_nat (length (_buf w)) <? 5) eqn:E; bool_prop; [lia|].
  rewrite p95_index_range in Hv by done.
  set (n := Z.of_nat (length (_buf w))) in *.
  assert (Hidx : 0 <= 19 * n / 20 < n).
  { split; [apply Z.div_pos; lia|apply Z.div_lt_upper_bound; lia]. }
  apply (ordered_nth_exceeds fltb (fltb t)) in Hv; [| |by apply py_sorted_floats].
  - rewrite Hv, py_sorted_length.
    rewrite (Permutation_length (filter_perm (fltb t) _ _ (py_sorted_Permutation fltb (_buf w)))).
    unfold n in *. lia.
  - unfold no_nan in Hnan. rewrite List.Forall_forall in Hnan.
    intros a b Ha Hb Hta Hba. apply py_sorted_In in Ha, Hb.
    destruct (fltb t b) eqn:Etb; [done|].
    assert (Hta' : fltb t a = false); [|congruence].
    (* t <= ... : not (t < b) and not (b < a) give not (t < a) *)
    pose proof (nfltb_trans a b t) as Htr. auto.
Qed.

(** The SLA fallback is the order statistic it is named after: for a model with
    a threshold and a fallback, and a window of 5 to 200 samples, the fallback is
    selected exactly when at least one sample in twenty (rounded up) exceeds the
    threshold. *)
Theorem select_model_sla p m t f samples :
  window_of p m samples -> dlookup m (_thresholds p) = Some t -> is_nan t = false ->
  dlookup m (_fallbacks p) = Some f ->
  let n := Z.of_nat (length samples) in
  select_model p m =
    if n - 19 * n / 20 <=? Z.of_nat (length (List.filter (fltb t) samples)) then f else m.
Proof.
  intros (w & Hw & <- & Hnan & Hn) Ht Htn Hf n. unfold select_model, degraded. rewrite Hw, Ht, Hf.
  assert (Hv : exists v, p95 w = Some v).
  { unfold p95. destruct (Z.of_nat (length (_buf w)) <? 5) eqn:E; bool_prop; [lia|].
    destruct (nth_error _ _) as [v|] eqn:Ev; [by exists v|].
    apply nth_error_None in Ev. rewrite py_sorted_length, p95_index_range in Ev by done.
    fold n in Ev. assert (0 <= 19 * n / 20 < n)
      by (split; [apply Z.div_pos|apply Z.div_lt_upper_bound]; unfold n; lia).
    unfold n in *. lia. }
  destruct Hv as [v Hv]. rewrite Hv. pose proof (p95_exceeds w t v Hnan Htn Hn Hv) as H. fold n in H.
  destruct (fltb t v), (n - 19 * n / 20 <=? _) eqn:E; try done; bool_prop; exfalso.
  - pose proof (proj1 H eq_refl). lia.
  - pose proof (proj2 H E). done.
Qed.

Definition slow_policy : SlaRoutingPolicy := {|
  _thresholds := [("big", float_of_Z 2)]; _fallbacks := [("big", "small")];
  _windows := [("big", {| window_size := 200; _buf := List.map float_of_Z [1; 1; 9; 1; 1; 1] |})] |}.

Lemma select_model_sla_witness : select_model slow_policy "big" = "small".
Proof.
  rewrite (select_model_sla slow_policy "big" (float_of_Z 2) "small" (List.map float_of_Z [1; 1; 9; 1; 1; 1])).
  - vm_compute. reflexivity.
  - eexists. split; [reflexivity|]. split; [reflexivity|]. split; [|vm_compute; split; discriminate].
    repeat (constructor; [vm_compute; reflexivity|]). constructor.
  - reflexivity.
  - vm_compute. reflexivity.
  - reflexivity.
Defined.

(** ** Round robin *)

(** The models of the next [k] calls. *)
Fixpoint calls (k : nat) (p : DiversityRoutingPolicy) : list string :=
  match k with
  | O => []
  | S k' => let '(p', m) := next_model p in m :: calls k' p'
  end.

Lemma calls_spec k p :
  calls k p = List.map (fun i => nth ((_index p + i) mod length (_models p))%nat (_models p) "") (List.seq 0 k).
Proof.
  revert p. induction k as [|k IH]; intros p; [done|]. simpl. rewrite Nat.add_0_r. f_equal.
  rewrite IH. cbn [_index _models]. rewrite <- List.seq_shift, List.map_map.
  apply List.map_ext. intros i. do 2 f_equal. lia.
Qed.

Lemma map_nth_seq {A} (l : list A) d : List.map (fun i => nth i l d) (List.seq 0 (length l)) = l.
Proof.
  apply nth_ext with (d := d) (d' := d); [by rewrite length_map, length_seq|].
  intros n Hn. rewrite length_map, length_seq in Hn.
  rewrite (nth_indep _ d (nth 0 l d)) by by rewrite length_map, length_seq.
  rewrite (map_nth (fun i => nth i l d)). by rewrite seq_nth.
Qed.

(** One turn of the wheel: consecutive residues are a permutation. *)
Lemma residues_permutation b n :
  (0 < n)%nat -> Permutation (List.map (fun i => (b + i) mod n)%nat (List.seq 0 n)) (List.seq 0 n).
Proof.
  intros Hn. apply NoDup_Permutation_bis.
  - apply NoDup_map_NoDup_ForallPairs; [|apply seq_NoDup].
    intros i j Hi Hj E. apply in_seq in Hi, Hj.
    pose proof (Nat.div_mod (b + i) n ltac:(lia)). pose proof (Nat.div_mod (b + j) n ltac:(lia)).
    assert (Hq : ((b + i) / n = (b + j) / n)%nat); [|nia].
    destruct (Nat.lt_trichotomy ((b + i) / n) ((b + j) / n)) as [H1|[H1|H1]]; [nia|done|nia].
  - by rewrite length_map, length_seq.
  - intros x Hx. apply in_map_iff in Hx as (i & <- & _). apply in_seq.
    pose proof (Nat.mod_upper_bound (b + i) n). lia.
Qed.

(** Diversity routing is fair: from any point of the rotation, any
    [length models] consecutive selections are a permutation of the pool, so
    every model is used exactly as often as it is listed. *)
Theorem round_robin_fair p :
  _models p <> [] -> Permutation (calls (length (_models p)) p) (_models p).
Proof.
  intros Hne. rewrite calls_spec. set (n := length (_models p)).
  assert (Hn : (0 < n)%nat) by (unfold n; destruct (_models p); simpl; [done|lia]).
  transitivity (List.map (fun j => nth j (_models p) "") (List.seq 0 n));
    [|by unfold n; rewrite map_nth_seq].
  change (List.map (fun i => nth ((_index p + i) mod n)%nat (_models p) "") (List.seq 0 n))
    with (List.map (fun i => (fun j => nth j (_models p) "") ((fun i => (_index p + i) mod n)%nat i)) (List.seq 0 n)).
  rewrite <- (List.map_map (fun i => (_index p + i) mod n)%nat (fun j => nth j (_models p) "")).
  apply Permutation_map. by apply residues_permutation.
Qed.

Lemma round_robin_fair_witness :
  let p := {| _models := ["a"; "b"; "c"]; _index := 7; _temp_index := 0 |} in
  Permutation (calls 3 p) ["a"; "b"; "c"].
Proof.
  intros p. apply (round_robin_fair p). discriminate.
Defined.

(** ** The reflection pool *)

Lemma slice_from_neg {A} k (l : list A) :
  0 < k -> slice_from (- k) l = last_n (Z.to_nat k) l.
Proof.
  intros Hk. unfold slice_from, last_n.
  destruct (0 <=? - k) eqn:E; bool_prop; [lia|].
  replace (Z.to_nat (Z.max (Z.of_nat (length l) + - k) 0)) with (length l - Z.to_nat k)%nat by lia. done.
Qed.

(** A pool with a positive limit keeps exactly the most recent reflections, at
    most the limit, in order, however many are added. *)
Theorem reflection_pool_window p rs :
  1 <= _max p -> Z.of_nat (length (_reflections p)) <= _max p ->
  _reflections (fold_left add_reflection rs p) = last_n (Z.to_nat (_max p)) (_reflections p ++ rs).
Proof.
  intros Hm. revert p Hm. induction rs as [|r rs IH]; intros p Hm Hlen; simpl.
  - rewrite app_nil_r, last_n_all; [done|lia].
  - assert (Hr : _reflections (add_reflection p r) = last_n (Z.to_nat (_max p)) (_reflections p ++ [r])).
    { unfold add_reflection. cbn [_reflections]. case_if; bool_prop.
      - by rewrite slice_from_neg by lia.
      - by rewrite last_n_all by lia. }
    rewrite IH; [|done|rewrite Hr, last_n_length; cbn [_max add_reflection]; lia].
    cbn [_max add_reflection]. rewrite Hr. unfold last_n. rewrite !length_app, length_drop, length_app. simpl.
    rewrite <- (drop_app_le (_reflections p ++ [r])) by (rewrite length_app; simpl; lia).
    rewrite drop_drop, <- app_assoc. f_equal. lia.
Qed.

Definition note (i : Z) : FailureReflection :=
  {| loop_index := i; model_used := "m"; failure_class := "f"; reflection := "r"; fr_timestamp := fzero |}.

Lemma reflection_pool_window_witness :
  _reflections (fold_left add_reflection (List.map note [1; 2; 3]) {| _reflections := []; _max := 2 |}) =
  [note 2; note 3].
Proof.
  rewrite (reflection_pool_window {| _reflections := []; _max := 2 |} (List.map note [1; 2; 3])).
  - reflexivity.
  - discriminate.
  - discriminate.
Defined.

(** With a limit of zero the slice from [-0] is the whole list: nothing is ever dropped. *)
Example reflection_pool_zero_unbounded :
  length (_reflections (fold_left add_reflection (List.map note [1; 2; 3]) {| _reflections := []; _max := 0 |})) = 3%nat.
Proof. reflexivity. Qed.
