(* ===== verification/Inference.v ===== *)
(** * The inference client: [tools/inference_client.py]

    The circuit breaker of a base URL, the two nested retries of a completion,
    the bodies of requests and the shared clients, the parsing of its answer and the streaming
    calls.  The network is a function
    of the number of posts made so far; readings of the clock are arguments. *)
From Stdlib Require Import ZArith Lia String Ascii List Bool.
From Stdlib Require Import SpecFloat.
From stdpp Require Import base tactics list strings option.
From S2P Require Import Prelude PyStr PyFloat PyVal Json ModelRouting.
Local Open Scope string_scope.
Local Open Scope Z_scope.

(** ** Circuit breaker *)

Definition _CB_FAILURE_THRESHOLD : Z := 5.
Definition _CB_OPEN_SECONDS : float := float_of_Z 30.

Inductive BreakerState := closed | opened | half_open.

Record CircuitBreaker := { _state : BreakerState; _failures : Z; _opened_at : float }.

Definition CircuitBreaker_init : CircuitBreaker := {| _state := closed; _failures := 0; _opened_at := fzero |}.

(** [allow_request] at [now]: the breaker afterwards and the answer. *)
Definition allow_request (now : float) (b : CircuitBreaker) : CircuitBreaker * bool :=
  match _state b with
  | closed => (b, true)
  | opened =>
      if fleb _CB_OPEN_SECONDS (fsub now (_opened_at b))
      then ({| _state := half_open; _failures := _failures b; _opened_at := _opened_at b |}, true)
      else (b, false)
  | half_open => (b, true)
  end.

Definition record_success (b : CircuitBreaker) : CircuitBreaker :=
  {| _state := closed; _failures := 0; _opened_at := _opened_at b |}.

Definition record_failure (now : float) (b : CircuitBreaker) : CircuitBreaker :=
  match _state b with
  | half_open => {| _state := opened; _failures := _failures b; _opened_at := now |}
  | s =>
      let failures := _failures b + 1 in
      if _CB_FAILURE_THRESHOLD <=? failures
      then {| _state := opened; _failures := failures; _opened_at := now |}
      else {| _state := s; _failures := failures; _opened_at := _opened_at b |}
  end.

(** The breakers of the process and the latency policy of the client. *)
Record Service := { _breakers : list (string * CircuitBreaker); sla_policy : SlaRoutingPolicy }.

Definition _get_breaker (svc : Service) (base_url : string) : CircuitBreaker :=
  match dlookup base_url (_breakers svc) with Some b => b | None => CircuitBreaker_init end.

Definition with_breaker (svc : Service) (base_url : string) (b : CircuitBreaker) : Service :=
  {| _breakers := dset base_url b (_breakers svc); sla_policy := sla_policy svc |}.

Definition with_latency (svc : Service) (model : string) (seconds : float) : Service :=
  {| _breakers := _breakers svc; sla_policy := record_latency (sla_policy svc) model seconds |}.

(** ** Requests *)

Record ToolDefinition := { t_name : string; t_description : string; t_parameters : dict }.

Definition tool_entry (t : ToolDefinition) : pyval :=
  PDict [("type", PStr "function");
         ("function", PDict [("name", PStr (t_name t)); ("description", PStr (t_description t)); ("parameters", PDict (t_parameters t))])].

(** The body that both calls send. *)
Definition base_payload (model system_prompt user_prompt : string) (temperature : float) (max_tokens : Z) : dict :=
  [("model", PStr model);
   ("messages", PList [PDict [("role", PStr "system"); ("content", PStr system_prompt)];
                       PDict [("role", PStr "user"); ("content", PStr user_prompt)]]);
   ("temperature", PFloat temperature); ("max_tokens", PInt (Z.max 1 max_tokens))].

(** The body of a completion: what [net] answers to. *)
Definition completion_payload (model system_prompt user_prompt : string) (temperature : float) (max_tokens : Z)
    (tools : option (list ToolDefinition)) (tool_choice : option string) : dict :=
  (base_payload model system_prompt user_prompt temperature max_tokens ++
   match tools with Some l => [("tools", PList (List.map tool_entry l))] | None => [] end ++
   match tool_choice with Some c => [("tool_choice", PStr c)] | None => [] end)%list.

Definition stream_payload (model system_prompt user_prompt : string) (temperature : float) (max_tokens : Z) : dict :=
  (base_payload model system_prompt user_prompt temperature max_tokens ++ [("stream", PBool true)])%list.

(** The clients of the process: one for a base URL, a key and a timeout.  A client is the
    number of its creation. *)
Definition client_key : Type := string * string * Z.
Record Clients := { _client_cache : list (client_key * nat); created : nat; closed_clients : list nat }.

Definition same_key (a b : client_key) : bool :=
  let '(u, k, t) := a in let '(u', k', t') := b in String.eqb u u' && String.eqb k k' && (t =? t').

Definition _get_or_create_client (key : client_key) (c : Clients) : Clients * nat :=
  match List.find (fun e => same_key key (fst e)) (_client_cache c) with
  | Some (_, n) => (c, n)
  | None => ({| _client_cache := (key, created c) :: _client_cache c; created := S (created c); closed_clients := closed_clients c |}, created c)
  end.

Definition clear_client_cache (c : Clients) : Clients :=
  {| _client_cache := []; created := created c; closed_clients := (closed_clients c ++ List.map snd (_client_cache c))%list |}.

(** ** Answers *)

Record ToolCall := { tc_id : string; tc_name : string; tc_arguments : pyval }.

Record Completion := {
  c_text : string; c_latency_ms : Z; c_provider : string; c_model : string; c_usage : dict;
  c_cache_metadata : dict; c_headers : dict; c_tool_calls : list ToolCall }.

(** What one post gives: an answer of status 2xx (what [resp.json()] gives, the
    headers, the latency), an error status with its [retry-after] header (the
    empty text without one), a [TransportError], another exception. *)
Inductive reply :=
| Reply (json : res pyval) (headers : list (string * string)) (latency_ms : Z)
| StatusReply (status : Z) (retry_after text : string)
| NoTransport (text : string)
| Broken (e : pyexc).

(** The exception that leaves a call. *)
Inductive failure :=
| HTTPStatusError (status : Z) (retry_after text : string)
| TransportFailure (text : string)
| Raised (e : pyexc).

Definition tool_arguments (raw : pyval) : res pyval :=
  match raw with
  | PStr s => try_except (json_loads s) is_value_error (fun _ => Ok (PDict []))
  | PDict d => Ok (PDict d)
  | _ => Ok (PDict [])
  end.

Definition parse_tool_call (tc : pyval) : res (list ToolCall) :=
  match tc with
  | PDict d =>
      match dget d "function" (PDict []) with
      | PDict fn =>
          let! args := tool_arguments (dget fn "arguments" (PStr "{}")) in
          let name := str_strip (dget fn "name" (PStr "")) in
          Ok (if String.eqb name "" then []
              else [{| tc_id := str_strip (dget d "id" (PStr "")); tc_name := name; tc_arguments := args |}])
      | _ => Ok []
      end
  | _ => Ok []
  end.

Definition has_marker (markers : list string) (key : string) : bool := existsb (fun m => contains m key) markers.

(** The headers that are kept, by their lower-cased names. *)
Definition kept_headers (markers : list string) (headers : list (string * string)) : dict :=
  fold_left (fun d kv => let k := lower (fst kv) in
    if has_marker markers k then dset k (PStr (snd kv)) d else d) headers [].

Definition first_message (body : dict) : res dict :=
  match dget body "choices" PNone with
  | PList (first :: _) =>
      match first with
      | PDict f => match dget f "message" PNone with PDict m => Ok m | _ => Err (RuntimeError "missing message") end
      | _ => Err (RuntimeError "invalid first choice")
      end
  | _ => Err (RuntimeError "missing choices in completion payload")
  end.

Definition completion_text (tool_calls : list ToolCall) (content : pyval) : res string :=
  match tool_calls, content with
  | _ :: _, PStr s => Ok s
  | _ :: _, _ => Ok ""
  | [], PStr s => if String.eqb (strip s) "" then Err (RuntimeError "missing content") else Ok s
  | [], _ => Err (RuntimeError "missing content")
  end.

(** What [_execute_request] does with an answer of status 2xx. *)
Definition parse_completion (model : string) (json : res pyval) (headers : list (string * string)) (latency_ms : Z)
    : res Completion :=
  let! body := json in
  match body with
  | PDict body =>
      let! message := first_message body in
      let! calls := map_res parse_tool_call (list_or_empty (dget message "tool_calls" PNone)) in
      let tool_calls := List.concat calls in
      let! text := completion_text tool_calls (dget message "content" PNone) in
      let kept := kept_headers ["cache"; "affinity"; "provider"; "model"; "request-id"] headers in
      Ok {| c_text := text; c_latency_ms := latency_ms;
            c_provider := str_default (str_strip (dget body "provider" (PStr "")))
                            (py_str (dget kept "x-model-provider" (PStr "")));
            c_model := str_default (str_strip (dget body "model" (PStr ""))) model;
            c_usage := dict_or_empty (dget body "usage" PNone);
            c_cache_metadata := kept_headers ["cache"; "affinity"; "prefix"] headers;
            c_headers := kept; c_tool_calls := tool_calls |}
  | _ => Err (RuntimeError "invalid completion payload")
  end.

Definition _execute_request (model : string) (r : reply) : Completion + failure :=
  match r with
  | Reply json headers latency =>
      match parse_completion model json headers latency with Ok c => inl c | Err e => inr (Raised e) end
  | StatusReply status retry_after text => inr (HTTPStatusError status retry_after text)
  | NoTransport text => inr (TransportFailure text)
  | Broken e => inr (Raised e)
  end.

(** ** The two retries *)

(** A sleep: between two tries of the transport, in milliseconds, or before a post is
    repeated because of its status, in seconds. *)
Inductive wait := Backoff (ms : Z) | HttpWait (s : Z).

(** [wait_exponential(multiplier=0.2, min=0.2, max=2.0)] after the try [attempt], from one. *)
Definition transport_wait (attempt : Z) : Z := Z.max 200 (Z.min (200 * 2 ^ (attempt - 1)) 2000).

(** [_do_transport] from its try [attempt]: up to [left + 1] posts while the transport fails;
    the second component counts the posts made by the call so far, the third has the sleeps. *)
Fixpoint _do_transport (left : nat) (attempt : Z) (net : nat -> reply) (posts : nat) (model : string)
    : (Completion + failure) * nat * list wait :=
  match _execute_request model (net posts), left with
  | inr (TransportFailure _), S left' =>
      let '(r, posts, waits) := _do_transport left' (attempt + 1) net (S posts) model in
      (r, posts, Backoff (transport_wait attempt) :: waits)
  | r, _ => (r, S posts, [])
  end.

(** Seconds; every branch of the code gives a whole number. *)
Definition _retry_wait_for_http (status : Z) (retry_after : string) (attempt : Z) : Z :=
  if status =? 429 then
    match parse_int (strip retry_after) with
    | Some parsed => Z.max 1 (Z.min parsed 60)
    | None => Z.min (2 ^ attempt) 30
    end
  else Z.min (2 ^ attempt) 30.

Definition retryable (status : Z) : bool := (status =? 429) || (500 <=? status).

(** The loop over [range(4)] from [attempt]: the result, the posts and the sleeps. *)
Fixpoint http_attempts (left : nat) (attempt : Z) (net : nat -> reply) (posts : nat) (model : string)
    : (Completion + failure) * nat * list wait :=
  let '(r, posts, backoffs) := _do_transport 2 1 net posts model in
  match r, left with
  | inr (HTTPStatusError status retry_after _), S left' =>
      if retryable status then
        let '(r, posts, waits) := http_attempts left' (attempt + 1) net posts model in
        (r, posts, (backoffs ++ HttpWait (_retry_wait_for_http status retry_after attempt) :: waits)%list)
      else (r, posts, backoffs)
  | _, _ => (r, posts, backoffs)
  end.

(** ** Completions *)

Record outcome := { o_service : Service; o_result : Completion + failure; o_posts : nat; o_waits : list wait }.

Definition seconds_of_ms (ms : Z) : float := fdiv (float_of_Z ms) (float_of_Z 1000).

(** [chat_completion]; [now] and [later] are the clock when the breaker is asked
    and when a failure is recorded. *)
Definition chat_completion (svc : Service) (base_url model : string) (net : nat -> reply) (now later : float) : outcome :=
  let effective_model := select_model (sla_policy svc) model in
  let '(breaker, allowed) := allow_request now (_get_breaker svc base_url) in
  if negb allowed then
    {| o_service := with_breaker svc base_url breaker; o_result := inr (Raised (RuntimeError "circuit_open"));
       o_posts := 0; o_waits := [] |}
  else
    let '(r, posts, waits) := http_attempts 3 0 net 0 effective_model in
    match r with
    | inl c =>
        {| o_service := with_latency (with_breaker svc base_url (record_success breaker)) effective_model
                          (seconds_of_ms (c_latency_ms c));
           o_result := inl c; o_posts := posts; o_waits := waits |}
    | inr f =>
        {| o_service := with_breaker svc base_url (record_failure later breaker);
           o_result := inr f; o_posts := posts; o_waits := waits |}
    end.

(** ** Streaming *)

(** [v[k]] with a text key, and [v[0]]. *)
Definition item_at_key (v : pyval) (k : string) : res pyval :=
  match v with
  | PDict d => match dlookup k d with Some x => Ok x | None => Err (KeyError (repr (PStr k))) end
  | PList _ => Err (TypeError "list indices must be integers or slices, not str")
  | PStr _ => Err (TypeError "string indices must be integers, not 'str'")
  | _ => Err (TypeError (sq ++ type_name v ++ "' object is not subscriptable"))
  end.

Definition first_item (v : pyval) : res pyval :=
  match v with
  | PList (x :: _) | PTuple (x :: _) => Ok x
  | PList [] => Err (IndexError "list index out of range")
  | PTuple [] => Err (IndexError "tuple index out of range")
  | PStr (String c _) => Ok (PStr (String c ""))
  | PStr "" => Err (IndexError "string index out of range")
  | PDict _ => Err (KeyError "0")
  | _ => Err (TypeError (sq ++ type_name v ++ "' object is not subscriptable"))
  end.

Definition data_prefix : string := "data: ".

(** The token of one line, if it carries one. *)
Definition stream_token (line : string) : res (list string) :=
  if negb (startswith line data_prefix) then Ok []
  else
    let data := str_drop (String.length data_prefix) line in
    if String.eqb data "[DONE]" then Ok []
    else
      let! chunk := json_loads data in
      let! choices := item_at_key chunk "choices" in
      let! choice := first_item choices in
      let! delta := item_at_key choice "delta" in
      let! content := get delta "content" (PStr "") in
      Ok (match content with PStr "" => [] | PStr s => [s] | _ => [] end).

(** What [client.send] gives: the lines of a 2xx answer, with the exception that
    cuts them off and the seconds they took, or a failure. *)
Inductive stream_reply :=
| Lines (lines : list string) (cut : option failure) (elapsed : float)
| StreamStatus (status : Z) (text : string)
| StreamNoTransport (text : string)
| StreamBroken (e : pyexc).

Fixpoint connect (left : nat) (net : nat -> stream_reply) (posts : nat) : stream_reply :=
  match net posts, left with
  | StreamNoTransport _, S left' => connect left' net (S posts)
  | r, _ => r
  end.

(** All the tokens, or the exception that ends the stream. *)
Definition stream_tokens (lines : list string) (cut : option failure) : list string + failure :=
  match map_res stream_token lines, cut with
  | Err e, _ => inr (Raised e)
  | Ok _, Some f => inr f
  | Ok tokens, None => inl (List.concat tokens)
  end.

(** [chat_completion_stream] consumed to its end. *)
Definition chat_completion_stream (svc : Service) (base_url model : string) (net : nat -> stream_reply) (now later : float)
    : Service * (list string + failure) :=
  let effective_model := select_model (sla_policy svc) model in
  let '(breaker, allowed) := allow_request now (_get_breaker svc base_url) in
  let svc := with_breaker svc base_url breaker in
  let fail f := (with_breaker svc base_url (record_failure later breaker), inr f) in
  if negb allowed then (svc, inr (Raised (RuntimeError "circuit_open")))
  else
    match connect 2 net 0 with
    | StreamStatus status text => fail (HTTPStatusError status "" text)
    | StreamNoTransport text => fail (TransportFailure text)
    | StreamBroken e => fail (Raised e)
    | Lines lines cut elapsed =>
        match stream_tokens lines cut with
        | inr f => fail f
        | inl tokens =>
            (with_latency (with_breaker svc base_url (record_success breaker)) effective_model elapsed, inl tokens)
        end
    end.

(** [chat_completion_stream_sync]: asks and informs the breaker once more around the
    stream; [clock] gives the four readings in order. *)
Definition chat_completion_stream_sync (svc : Service) (base_url model : string) (net : nat -> stream_reply)
    (clock : nat -> float) (latency_ms : Z) : Service * (Completion + failure) :=
  let effective_model := select_model (sla_policy svc) model in
  let '(breaker, allowed) := allow_request (clock 0%nat) (_get_breaker svc base_url) in
  let svc := with_breaker svc base_url breaker in
  if negb allowed then (svc, inr (Raised (RuntimeError "circuit_open")))
  else
    let '(svc, r) := chat_completion_stream svc base_url effective_model net (clock 1%nat) (clock 2%nat) in
    match r with
    | inr f => (with_breaker svc base_url (record_failure (clock 3%nat) (_get_breaker svc base_url)), inr f)
    | inl tokens =>
        let svc := with_breaker svc base_url (record_success (_get_breaker svc base_url)) in
        (with_latency svc effective_model (seconds_of_ms latency_ms),
         inl {| c_text := String.concat "" tokens; c_latency_ms := latency_ms; c_provider := "";
                c_model := effective_model; c_usage := []; c_cache_metadata := []; c_headers := [];
                c_tool_calls := [] |})
    end.

(** [collect_stream]. *)
Definition collect_stream (tokens : list string) : string := String.concat "" tokens.

(** ** The life of a breaker *)

(** What callers do to it, with the clock they read. *)
Inductive event := Asked (now : float) | Succeeded | FailedAt (now : float).

Definition apply_event (b : CircuitBreaker) (e : event) : CircuitBreaker :=
  match e with
  | Asked now => fst (allow_request now b)
  | Succeeded => record_success b
  | FailedAt now => record_failure now b
  end.

(** The failures since the last success, latest first. *)
Fixpoint failures_of (acc : list float) (es : list event) : list float :=
  match es with
  | [] => acc
  | Asked _ :: es => failures_of acc es
  | Succeeded :: es => failures_of [] es
  | FailedAt now :: es => failures_of (now :: acc) es
  end.

Definition breaker_inv (b : CircuitBreaker) (fs : list float) : Prop :=
  match _state b with
  | closed => _failures b = Z.of_nat (length fs) /\ Z.of_nat (length fs) < _CB_FAILURE_THRESHOLD
  | _ => _CB_FAILURE_THRESHOLD <= _failures b <= Z.of_nat (length fs) /\ hd_error fs = Some (_opened_at b)
  end.


Lemma breaker_step b fs e : breaker_inv b fs -> breaker_inv (apply_event b e) (failures_of fs [e]).
Proof.
  destruct b as [s f o]. unfold breaker_inv. destruct e as [now| |now]; cbn.
  - destruct s; cbn; try done. intros H. by destruct (fleb _ _).
  - intros _. split; [done|]. unfold _CB_FAILURE_THRESHOLD. lia.
  - unfold record_failure. cbn. destruct s; cbn [_state _failures _opened_at].
    + intros [-> Hl]. destruct (_CB_FAILURE_THRESHOLD <=? _) eqn:E; cbn [_state _failures _opened_at length hd_error];
        bool_prop; rewrite Nat2Z.inj_succ; split; try lia; done.
    + intros [Hf _]. destruct (_CB_FAILURE_THRESHOLD <=? _) eqn:E; bool_prop; [|lia].
      cbn [_state _failures _opened_at length hd_error]. rewrite Nat2Z.inj_succ. split; [lia|done].
    + intros [Hf _]. cbn [length hd_error]. rewrite Nat2Z.inj_succ. split; [lia|done].
Qed.

Lemma failures_of_app acc es es' : failures_of acc (es ++ es') = failures_of (failures_of acc es) es'.
Proof. revert acc. induction es as [|[t| |t] es IH]; intros acc; cbn; auto. Qed.

Lemma breaker_reachable es : breaker_inv (fold_left apply_event es CircuitBreaker_init) (failures_of [] es).
Proof.
  induction es as [|e es IH] using rev_ind; [by split; cbn|].
  rewrite fold_left_app, failures_of_app. cbn. by apply breaker_step.
Qed.

(** ** The retries of a completion *)

(** What is claimed of the sleeps. *)
Definition wait_ok (w : wait) : Prop := match w with Backoff ms => ms = 200 \/ ms = 400 | HttpWait s => 1 <= s <= 60 end.
Definition http_waits (ws : list wait) : nat := length (List.filter (fun w => match w with HttpWait _ => true | _ => false end) ws).
Definition backoffs (ws : list wait) : nat := length (List.filter (fun w => match w with Backoff _ => true | _ => false end) ws).

Lemma waits_split ws : (http_waits ws + backoffs ws = length ws)%nat.
Proof. unfold http_waits, backoffs. induction ws as [|[ms|s] ws IH]; cbn in *; lia. Qed.

Lemma http_waits_app ws ws' : http_waits (ws ++ ws') = (http_waits ws + http_waits ws')%nat.
Proof. unfold http_waits. by rewrite List.filter_app, length_app. Qed.

Lemma do_transport_spec left attempt net posts model r p ws :
  _do_transport left attempt net posts model = (r, p, ws) -> 1 <= attempt -> attempt + Z.of_nat left <= 3 ->
  p = (posts + S (length ws))%nat /\ (length ws <= left)%nat /\ r = _execute_request model (net (pred p)) /\
  http_waits ws = 0%nat /\ List.Forall wait_ok ws.
Proof.
  revert attempt posts r p ws. induction left as [|left IH]; intros attempt posts r p ws; cbn [_do_transport]; intros H Ha Hl.
  - assert (E : (_execute_request model (net posts), S posts, []) = (r, p, ws))
      by (by destruct (_execute_request model (net posts)) as [|[| |]]).
    injection E as <- <- <-. cbn. rewrite Nat.add_1_r. repeat split; [lia|constructor].
  - assert (Hstop : (_execute_request model (net posts), S posts, []) = (r, p, ws) ->
       p = (posts + S (length ws))%nat /\ (length ws <= S left)%nat /\ r = _execute_request model (net (pred p)) /\
       http_waits ws = 0%nat /\ List.Forall wait_ok ws).
    { intros [= <- <- <-]. cbn. rewrite Nat.add_1_r. repeat split; [lia|constructor]. }
    destruct (_execute_request model (net posts)) as [c|[st ra t|t|e]]; try (by apply Hstop).
    destruct (_do_transport left (attempt + 1) net (S posts) model) as [[r1 p1] ws1] eqn:E. injection H as <- <- <-.
    destruct (IH _ _ _ _ _ E) as (H1 & H2 & H3 & H4 & H5); [lia|lia|]. cbn [length]. repeat split; [lia|lia|done|done|].
    constructor; [|done]. cbn. assert (attempt = 1 \/ attempt = 2) as [-> | ->] by lia; [by left|by right].
Qed.

Lemma retry_wait_range status retry_after attempt :
  0 <= attempt -> 1 <= _retry_wait_for_http status retry_after attempt <= 60.
Proof.
  intros H. assert (1 <= 2 ^ attempt) by (change 1 with (2 ^ 0); apply Z.pow_le_mono_r; lia).
  unfold _retry_wait_for_http. destruct (status =? 429); [destruct (parse_int _)|]; lia.
Qed.

Definition gave_up (r : Completion + failure) : Prop :=
  match r with inr (HTTPStatusError status _ _) => retryable status = true | _ => False end.

Lemma http_attempts_spec left attempt net posts model r p ws :
  http_attempts left attempt net posts model = (r, p, ws) -> 0 <= attempt ->
  p = (posts + S (length ws))%nat /\ (backoffs ws <= 2 * S left)%nat /\ r = _execute_request model (net (pred p)) /\
  (http_waits ws <= left)%nat /\ (gave_up r -> http_waits ws = left) /\ List.Forall wait_ok ws.
Proof.
  revert attempt posts r p ws. induction left as [|left IH]; intros attempt posts r p ws; cbn [http_attempts];
    destruct (_do_transport 2 1 net posts model) as [[r0 p0] ws0] eqn:Et;
    (apply do_transport_spec in Et as (Hp & Hl & Hr & Hw & Hf); [|lia|lia]); intros H Ha; pose proof (waits_split ws0).
  - assert (E : (r0, p0, ws0) = (r, p, ws)) by (by destruct r0 as [|[| |]]). injection E as <- <- <-.
    split_and!; [lia|lia|done|lia|try done; intros; lia|done].
  - assert (Hstop : (r0, p0, ws0) = (r, p, ws) -> ~ gave_up r0 ->
       p = (posts + S (length ws))%nat /\ (backoffs ws <= 2 * S (S left))%nat /\ r = _execute_request model (net (pred p)) /\
       (http_waits ws <= S left)%nat /\ (gave_up r -> http_waits ws = S left) /\ List.Forall wait_ok ws).
    { intros [= <- <- <-] Hg. split_and!; [lia|lia|done|lia|try done; intros; lia|done]. }
    destruct r0 as [c|[st ra t|t|e]]; try (apply Hstop; [exact H|by intros []]).
    destruct (retryable st) eqn:Er; [|apply Hstop; [exact H|by cbn; rewrite Er]].
    destruct (http_attempts left (attempt + 1) net p0 model) as [[r1 p1] ws1] eqn:Eh. injection H as <- <- <-.
    destruct (IH _ _ _ _ _ Eh) as (H1 & H2 & H3 & H4 & H5 & H6); [lia|].
    assert (Eb : backoffs (ws0 ++ HttpWait (_retry_wait_for_http st ra attempt) :: ws1) = (backoffs ws0 + backoffs ws1)%nat)
      by (unfold backoffs; by rewrite List.filter_app, length_app).
    assert (Eh' : http_waits (HttpWait (_retry_wait_for_http st ra attempt) :: ws1) = S (http_waits ws1)) by done.
    rewrite Eb, http_waits_app, Eh', length_app. cbn [length].
    split_and!; [lia|lia|done|lia|intros Hg; specialize (H5 Hg); lia|].
    apply List.Forall_app. split; [done|]. constructor; [by apply retry_wait_range|done].
Qed.

(** ** The shared clients *)

Inductive ClientCall := GetClient (key : client_key) | ClearClients.
Definition client_call (c : Clients) (k : ClientCall) : Clients :=
  match k with GetClient key => fst (_get_or_create_client key c) | ClearClients => clear_client_cache c end.

Definition no_clients : Clients := {| _client_cache := []; created := 0; closed_clients := [] |}.

(** Cached clients are different, were created, and are not closed. *)
Record clients_ok (c : Clients) : Prop := {
  ck_once : List.NoDup (List.map snd (_client_cache c) ++ closed_clients c);
  ck_created : forall n, In n (List.map snd (_client_cache c) ++ closed_clients c) -> (n < created c)%nat }.

Lemma same_key_eq a b : same_key a b = true <-> a = b.
Proof.
  destruct a as [[u k] t], b as [[u' k'] t']. cbn. rewrite !andb_true_iff, !String.eqb_eq, Z.eqb_eq. split; [by intros [[-> ->] ->]|by intros [= -> -> ->]].
Qed.

Lemma client_call_ok c k : clients_ok c -> clients_ok (client_call c k).
Proof.
  intros [Ho Hc]. destruct k as [key|]; cbn [client_call].
  - unfold _get_or_create_client. destruct (List.find _ _) as [[? n]|]; [by split|]. split; cbn.
    + constructor; [|exact Ho]. intros Hin%Hc. lia.
    + intros n [<-|Hin%Hc]; lia.
  - split; cbn.
    + eapply Permutation_NoDup; [apply Permutation_app_comm|exact Ho].
    + intros n Hin%in_app_iff. apply Hc, in_app_iff. tauto.
Qed.

(** Whatever was asked for and cleared before: a client that is handed out is not closed,
    asking again gives the same client, and another base URL, key or timeout another one. *)
Theorem clients_shared calls key key' :
  let '(c, n) := _get_or_create_client key (fold_left client_call calls no_clients) in
  let '(c', n') := _get_or_create_client key' c in
  ~ In n (closed_clients c) /\ (n = n' <-> key = key').
Proof.
  assert (H : clients_ok (fold_left client_call calls no_clients)).
  { assert (G : forall l c, clients_ok c -> clients_ok (fold_left client_call l c)) by (induction l as [|k l IH]; intros c; [done|]; intros Hc; cbn; by apply IH, client_call_ok).
    apply G. split; cbn; [constructor|by intros]. }
  set (c0 := fold_left client_call calls no_clients) in *.
  assert (Hget : exists c n, _get_or_create_client key c0 = (c, n) /\ clients_ok c /\ List.find (fun e => same_key key (fst e)) (_client_cache c) = Some (key, n)).
  { pose proof (client_call_ok c0 (GetClient key) H) as H'. cbn [client_call] in H'. unfold _get_or_create_client in *.
    destruct (List.find _ (_client_cache c0)) as [[k0 n]|] eqn:E.
    - exists c0, n. split; [done|]. split; [exact H|]. apply find_some in E as E'. destruct E' as [_ E'%same_key_eq]. cbn in E'. by subst k0.
    - eexists _, _. split; [done|]. split; [exact H'|]. cbn. by rewrite (proj2 (same_key_eq key key) eq_refl). }
  destruct Hget as (c & n & -> & [Ho Hc] & Ef). unfold _get_or_create_client.
  assert (Hin : In n (List.map snd (_client_cache c))) by (apply find_some in Ef as [Hin _]; apply in_map_iff; by exists (key, n)).
  assert (Hopen : ~ In n (closed_clients c)) 
    by (apply NoDup_ListNoDup, list.NoDup_app in Ho as (_ & Hd & _); rewrite <- list_elem_of_In in *; by apply Hd).
  destruct (List.find (fun e => same_key key' (fst e)) (_client_cache c)) as [[k' n']|] eqn:E'.
  - split; [exact Hopen|]. split; [|intros ->; rewrite Ef in E'; by injection E' as _ ->].
    intros ->. apply find_some in E' as [Hin' Hk'%same_key_eq]. apply find_some in Ef as [Hin0 _]. cbn in Hk'. subst k'.
    apply List.NoDup_app_remove_r in Ho. clear - Ho Hin' Hin0. induction (_client_cache c) as [|[k m] l IH]; [done|].
    inversion Ho as [|? ? Hm Ho']; subst. destruct Hin' as [[= -> ->]|Hin'], Hin0 as [[= ->]|Hin0]; try done; [exfalso..|by apply IH]; apply Hm, in_map_iff; by eexists (_, _).
  - split; [exact Hopen|]. split; [|intros ->; by rewrite Ef in E']. intros ->. exfalso.
    assert (created c < created c)%nat by (apply Hc, in_app_iff; by left). lia.
Qed.

(** ** Claims *)

(** The circuit breaker over any sequence of requests, successes and failures:
    it is closed exactly when fewer than five failures were recorded since the last
    success, a refused request leaves it as it is, and it refuses exactly when it is
    open and the latest of those failures is less than thirty seconds old. *)
Theorem breaker_life es now :
  let b := fold_left apply_event es CircuitBreaker_init in
  let failures := failures_of [] es in
  (_state b = closed <-> (length failures < 5)%nat) /\
  (snd (allow_request now b) = false -> fst (allow_request now b) = b) /\
  (snd (allow_request now b) = false <->
     _state b = opened /\ exists t, hd_error failures = Some t /\ fleb (float_of_Z 30) (fsub now t) = false).
Proof.
  cbv zeta. pose proof (breaker_reachable es) as H. set (b := fold_left _ es _) in *. set (fs := failures_of [] es) in *.
  unfold breaker_inv, _CB_FAILURE_THRESHOLD in H. unfold allow_request. change _CB_OPEN_SECONDS with (float_of_Z 30).
  destruct (_state b).
  - destruct H as [_ H]. split; [split; [lia|done]|]. split; [done|]. split; [done|]. by intros [? _].
  - destruct H as [H Hh]. split; [split; [done|lia]|]. destruct (fleb _ _) eqn:E; cbn [fst snd].
    + split; [done|]. split; [done|]. intros (_ & t & Ht & Hf). rewrite Hh in Ht. injection Ht as <-. congruence.
    + split; [done|]. split; [|done]. intros _. split; [done|]. by exists (_opened_at b).
  - destruct H as [H Hh]. split; [split; [done|lia]|]. split; [done|]. split; [done|]. by intros [? _].
Qed.

(** C39: a completion against any network: a request the breaker refuses posts
    nothing and raises [circuit_open]; an admitted one makes between one and twelve
    posts, with one sleep between each two: at most three of one to sixty seconds,
    because of a status, and at most eight of 0.2 or 0.4 seconds, because the transport
    failed.  It returns what the last post gave, gives up on a retryable status only after
    the three sleeps of seconds, and informs the breaker exactly once; other URLs' breakers
    are untouched. *)
Theorem chat_completion_spec svc base_url model net now later :
  let o := chat_completion svc base_url model net now later in
  let asked := allow_request now (_get_breaker svc base_url) in
  (forall url, url <> base_url -> _get_breaker (o_service o) url = _get_breaker svc url) /\
  if snd asked then
    (1 <= o_posts o <= 12)%nat /\ o_posts o = S (length (o_waits o)) /\
    (http_waits (o_waits o) <= 3)%nat /\ (backoffs (o_waits o) <= 8)%nat /\
    List.Forall (fun w => match w with Backoff ms => ms = 200 \/ ms = 400 | HttpWait s => 1 <= s <= 60 end) (o_waits o) /\
    o_result o = _execute_request (select_model (sla_policy svc) model) (net (pred (o_posts o))) /\
    (gave_up (o_result o) -> http_waits (o_waits o) = 3%nat) /\
    _get_breaker (o_service o) base_url =
      match o_result o with inl _ => record_success (fst asked) | inr _ => record_failure later (fst asked) end
  else o_posts o = 0%nat /\ o_result o = inr (Raised (RuntimeError "circuit_open")) /\
       _get_breaker (o_service o) base_url = fst asked.
Proof.
  cbv zeta. unfold chat_completion. destruct (allow_request now _) as [b allowed]. cbn [fst snd].
  destruct allowed; cbn [negb].
  - destruct (http_attempts 3 0 net 0 _) as [[r p] ws] eqn:E. apply http_attempts_spec in E as (H1 & H2 & H3 & H4 & H5 & H6); [|done].
    cbn [Nat.add] in H1. pose proof (waits_split ws). assert (Hp : (1 <= p <= 12)%nat) by lia.
    destruct r as [c|f]; cbn [o_service o_result o_posts o_waits]; unfold _get_breaker; cbn [_breakers with_latency with_breaker];
      (split; [intros url Hu; by rewrite dlookup_dset_ne|]); rewrite dlookup_dset_eq; auto 12.
  - cbn [o_service o_result o_posts o_waits]. unfold _get_breaker. cbn [_breakers with_breaker].
    split; [intros url Hu; by rewrite dlookup_dset_ne|]. by rewrite dlookup_dset_eq.
Qed.

(** Three failed streams open the breaker of five failures: each one is recorded by
    the stream and again by its blocking wrapper. *)
Example stream_failure_counts_twice :
  let fails svc t := fst (chat_completion_stream_sync svc "u" "m" (fun _ => StreamStatus 400 "bad request")
                            (fun _ => float_of_Z t) 0) in
  let svc := {| _breakers := []; sla_policy := {| _thresholds := []; _fallbacks := []; _windows := [] |} |} in
  (_failures (_get_breaker (fails svc 1) "u"), _state (_get_breaker (fails (fails (fails svc 1) 2) 3) "u")) = (2, opened).
Proof. vm_compute. reflexivity. Qed.

(** A half-open breaker admits every request, not one probe. *)
Example half_open_admits_all :
  let b := {| _state := opened; _failures := 5; _opened_at := fzero |} in
  let first := allow_request (float_of_Z 30) b in
  let second := allow_request (float_of_Z 30) (fst first) in
  (snd first, snd second) = (true, true).
Proof. vm_compute. reflexivity. Qed.
