(* ===== verification/RunnerClient.v ===== *)
(** * Runner client: [tools/runner_client.py]

    The HTTP client of the tool runner.  The network is a parameter: what the
    [n]-th post of a payload gives.  Only transport errors are retried, three
    attempts in all; every HTTP failure becomes failed tool results. *)
From Stdlib Require Import ZArith Lia String Ascii List Bool.
From stdpp Require Import base tactics list strings option.
From S2P Require Import Prelude PyStr PyFloat PyVal Json Memory.
Local Open Scope string_scope.
Local Open Scope Z_scope.

(** What [httpx]'s [post] followed by [raise_for_status] gives: a success with
    the outcome of [resp.json()], an [HTTPStatusError] (its status, text and
    response body), a [TransportError], or another [HTTPError]. *)
Inductive http_outcome : Type :=
| Success (json : res pyval)
| StatusError (status : Z) (text : string) (json : res pyval)
| TransportError (text : string)
| OtherHTTPError (text : string).

Definition network : Type := nat -> dict -> http_outcome.

(** [@retry(stop_after_attempt(3), retry_if_exception_type(TransportError))]:
    the outcome of the last attempt and the number of posts. *)
Fixpoint retry (left : nat) (attempt : nat) (net : network) (payload : dict) : http_outcome * nat :=
  match net attempt payload, left with
  | TransportError _, S left' => retry left' (S attempt) net payload
  | o, _ => (o, S attempt)
  end.

Definition post (net : network) (payload : dict) : http_outcome * nat := retry 2 0 net payload.

(** ** Payloads *)

Definition stripped (v : pyval) : option string :=
  match v with
  | PStr s => if String.eqb (strip s) "" then None else Some (strip s)
  | _ => None
  end.

Definition set_stripped (k : string) (v : pyval) (d : dict) : dict :=
  match stripped v with Some s => dset k (PStr s) d | None => d end.

Definition _checkpoint_payload (input_payload : dict) : option dict :=
  match dget input_payload "_checkpoint" PNone with
  | PDict raw =>
      match stripped (dget raw "thread_id" PNone) with
      | None => None
      | Some thread_id =>
          let payload := [("thread_id", PStr thread_id);
                          ("checkpoint_ns", PStr (py_str (dget raw "checkpoint_ns" (PStr ""))))] in
          let checkpoint_id := py_or (dget raw "latest_checkpoint_id" PNone) (dget raw "resume_checkpoint_id" PNone) in
          Some (set_stripped "run_id" (dget raw "run_id" PNone) (set_stripped "checkpoint_id" checkpoint_id payload))
      end
  | _ => None
  end.

Definition _route_payload (input_payload : dict) : option dict :=
  match dget input_payload "_route" PNone with PDict raw => Some raw | _ => None end.

Definition set_opt (k : string) (o : option dict) (d : dict) : dict :=
  match o with Some v => dset k (PDict v) d | None => d end.

(** One call as it is sent. *)
Definition request_call (tool : string) (input : dict) : dict :=
  set_opt "route" (_route_payload input)
    (set_opt "checkpoint" (_checkpoint_payload input) [("tool", PStr tool); ("input", PDict input)]).

Definition call_tool (c : dict) : string := py_str (dget c "tool" (PStr "")).

Definition batch_payload (calls : list dict) : dict :=
  [("calls", PList (List.map (fun c => PDict (request_call (call_tool c)
                        (dict_or_empty (dget c "input" (PDict []))))) calls))].

(** ** Failed results *)

(** The approval challenge of a 428 response. *)
Definition approval_payload (status : Z) (json : res pyval) : option dict :=
  if status =? 428 then
    match json with
    | Ok (PDict body) => match dget body "approval" PNone with PDict a => Some a | _ => None end
    | _ => None
    end
  else None.

Definition status_artifacts (status : Z) (approval : option dict) : dict :=
  match approval with
  | Some a => [("error", PStr "approval_required"); ("status", PInt status); ("approval", PDict a)]
  | None => [("error", PStr "runner_http_error"); ("status", PInt status)]
  end.

Definition failed_result (tool stderr : string) (artifacts : dict) (route : option dict) : dict :=
  set_opt "route" route
    [("tool", PStr tool); ("ok", PBool false); ("exit_code", PInt 1); ("stdout", PStr "");
     ("stderr", PStr stderr); ("diagnostics", PList []); ("timing_ms", PInt 0);
     ("artifacts", PDict artifacts)].

(** [self._route_payload(c.get("input", {}))]: the input must be a dict. *)
Definition call_route (c : dict) : res (option dict) :=
  match dget c "input" (PDict []) with
  | PDict i => Ok (_route_payload i)
  | v => Err (attr_error v "get")
  end.

Definition failed_call (stderr : string) (artifacts : dict) (c : dict) : res dict :=
  let! route := call_route c in Ok (failed_result (call_tool c) stderr artifacts route).

Definition status_text (status : Z) (text : string) : string := "http_status=" ++ str_of_Z status ++ " " ++ text.

Definition unavailable : dict := [("error", PStr "runner_unavailable")].

(** ** Operations *)

Definition execute_tool (net : network) (tool : string) (input : dict) : res dict :=
  match fst (post net (request_call tool input)) with
  | Success json => let! body := json in py_dict body
  | StatusError status text json =>
      Ok (failed_result tool (status_text status text)
            (status_artifacts status (approval_payload status json)) (_route_payload input))
  | TransportError text | OtherHTTPError text =>
      Ok (failed_result tool text unavailable (_route_payload input))
  end.

(** The results of a successful batch response. *)
Definition batch_results (json : res pyval) : res (list dict) :=
  let! body := json in
  let! data := py_dict body in
  match dget data "results" PNone with
  | PList l => map_res py_dict l
  | _ => Err (RuntimeError "invalid batch response")
  end.

Definition batch_execute_tools (net : network) (calls : list dict) : res (list dict) :=
  match fst (post net (batch_payload calls)) with
  | Success json => batch_results json
  | StatusError status text json =>
      map_res (failed_call (status_text status text) (status_artifacts status (approval_payload status json))) calls
  | TransportError text | OtherHTTPError text => map_res (failed_call text unavailable) calls
  end.

(** ** Decoded results *)

(** What a successful envelope carries, decoded; [None] when there is nothing. *)
Definition envelope_json (env : dict) : option (res pyval) :=
  if truthy (dget env "ok" (PBool false)) then
    match dget env "stdout" (PStr "") with
    | PStr stdout => if blank stdout then None else Some (json_loads stdout)
    | _ => None
    end
  else None.

(** The same, where only an output that is not JSON is dropped. *)
Definition decoded_output (env : dict) : res (option pyval) :=
  match envelope_json env with
  | None => Ok None
  | Some (Ok v) => Ok (Some v)
  | Some (Err e) => if is_json_error e then Ok None else Err e
  end.

Definition with_prefix (path_prefix : option string) (payload : dict) : dict :=
  match path_prefix with
  | Some p => if String.eqb (strip p) "" then payload else dset "path_prefix" (PStr (strip p)) payload
  | None => payload
  end.

Definition get_ast_index_summary (net : network) (max_files : Z) (path_prefix : option string) : res dict :=
  let! env := execute_tool net "ast_index_summary" (with_prefix path_prefix [("max_files", PInt (Z.max 1 (Z.min max_files 2000)))]) in
  let! out := decoded_output env in
  Ok (match out with Some (PDict d) => d | _ => [] end).

Definition search_codebase (net : network) (query : string) (limit : Z) (path_prefix : option string) : res (list dict) :=
  if String.eqb (strip query) "" then Ok []
  else
    let! env := execute_tool net "search_codebase"
                  (with_prefix path_prefix [("query", PStr (strip query)); ("limit", PInt (Z.max 1 (Z.min limit 50)))]) in
    let! out := decoded_output env in
    Ok (match out with Some (PList l) => dicts_of l | _ => [] end).

(** ** Properties *)

Lemma retry_attempts left attempt net p :
  (attempt < snd (retry left attempt net p) <= attempt + S left)%nat.
Proof.
  revert attempt. induction left as [|left IH]; intros attempt; simpl.
  - destruct (net attempt p); simpl; lia.
  - destruct (net attempt p); simpl; try lia. specialize (IH (S attempt)). lia.
Qed.

(** The outcome is that of the last post; every earlier one was a transport error,
    and it is a transport error only when the attempts are used up. *)
Lemma retry_spec left attempt net p :
  let '(o, n) := retry left attempt net p in
  o = net (pred n) p /\
  (forall i, (attempt <= i < pred n)%nat -> exists t, net i p = TransportError t) /\
  ((exists t, o = TransportError t) -> n = (attempt + S left)%nat).
Proof.
  revert attempt. induction left as [|left IH]; intros attempt; simpl.
  - destruct (net attempt p) eqn:E; simpl; (split; [done|]); (split; [intros; lia|]);
      intros [? ?]; try done; lia.
  - destruct (net attempt p) eqn:E; try (split; [done|]; split; [simpl; intros; lia|by intros [? ?]]).
    specialize (IH (S attempt)). destruct (retry left (S attempt) net p) as [o n].
    destruct IH as (H1 & H2 & H3). split; [done|]. split.
    + intros i Hi. destruct (decide (i = attempt)) as [->|]; [eauto|]. apply H2. lia.
    + intros Ht. rewrite (H3 Ht). lia.
Qed.

Definition inputs_are_dicts (calls : list dict) : Prop :=
  List.Forall (fun c => is_dict (dget c "input" (PDict [])) = true) calls.

Definition is_failure (r : dict) : Prop :=
  dget r "ok" PNone = PBool false /\ dget r "exit_code" PNone = PInt 1.

Lemma failed_result_shape tool stderr a route :
  is_failure (failed_result tool stderr a route) /\
  dget (failed_result tool stderr a route) "tool" PNone = PStr tool /\
  dget (failed_result tool stderr a route) "artifacts" PNone = PDict a.
Proof. unfold is_failure, failed_result, set_opt. destruct route; done. Qed.

Lemma failed_calls stderr a calls :
  inputs_are_dicts calls ->
  exists rs, map_res (failed_call stderr a) calls = Ok rs /\
    List.Forall2 (fun c r => is_failure r /\ dget r "tool" PNone = PStr (call_tool c) /\
                             dget r "artifacts" PNone = PDict a) calls rs.
Proof.
  induction 1 as [|c calls Hc _ (rs & Hrs & IH)]; simpl; [by exists []|].
  unfold failed_call at 1, call_route. destruct (dget c "input" (PDict [])) as [| | | | | | |i] eqn:Ei; try done.
  cbn [bind_res]. rewrite Hrs. cbn [bind_res]. eexists. split; [done|]. constructor; [|done].
  apply failed_result_shape.
Qed.

(** A batch never loses a call to the network: at most three identical posts
    are made, a further one only after a transport error; when the last one fails
    (error status, transport or other HTTP error) the client returns exactly one
    failed result per call, in order and under the call's tool name, and it
    reports a required approval exactly for a 428 response that carries one. *)
Theorem batch_execute_failures net calls :
  inputs_are_dicts calls ->
  let '(o, n) := post net (batch_payload calls) in
  (1 <= n <= 3)%nat /\
  (forall i, (i < pred n)%nat -> exists t, net i (batch_payload calls) = TransportError t) /\
  match o with
  | Success json => batch_execute_tools net calls = batch_results json
  | _ =>
      exists rs error, batch_execute_tools net calls = Ok rs /\
        List.Forall2 (fun c r => is_failure r /\ dget r "tool" PNone = PStr (call_tool c) /\
          dget (dict_or_empty (dget r "artifacts" PNone)) "error" PNone = PStr error) calls rs /\
        (error = "approval_required" <-> exists text body a,
           o = StatusError 428 text (Ok (PDict body)) /\ dget body "approval" PNone = PDict a)
  end.
Proof.
  intros Hd. pose proof (retry_attempts 2 0 net (batch_payload calls)) as Hn.
  pose proof (retry_spec 2 0 net (batch_payload calls)) as Hs.
  unfold batch_execute_tools. fold (post net (batch_payload calls)) in Hn, Hs.
  destruct (post net (batch_payload calls)) as [o n]. cbn [fst snd] in *. destruct Hs as (_ & Hpre & _).
  split; [lia|]. split; [intros i Hi; apply Hpre; lia|].
  assert (Hfail : forall stderr a e, dget a "error" PNone = PStr e ->
    exists rs, map_res (failed_call stderr a) calls = Ok rs /\
      List.Forall2 (fun c r => is_failure r /\ dget r "tool" PNone = PStr (call_tool c) /\
          dget (dict_or_empty (dget r "artifacts" PNone)) "error" PNone = PStr e) calls rs).
  { intros stderr a e He. destruct (failed_calls stderr a calls Hd) as (rs & -> & HF). exists rs. split; [done|].
    eapply List.Forall2_impl; [|exact HF]. intros c r (H1 & H2 & H3). by rewrite H3. }
  destruct o as [json|status text json|text|text]; [done| | |].
  - destruct (approval_payload status json) as [a|] eqn:Ea.
    + destruct (Hfail (status_text status text) (status_artifacts status (Some a)) "approval_required" eq_refl)
        as (rs & -> & HF). exists rs, "approval_required". do 2 (split; [done|]). split; [|done]. intros _.
      unfold approval_payload in Ea. destruct (status =? 428) eqn:E; [|done]. bool_prop. subst status.
      destruct json as [[| | | | | | |body]|]; try done.
      destruct (dget body "approval" PNone) eqn:Eb; try done. eauto.
    + destruct (Hfail (status_text status text) (status_artifacts status None) "runner_http_error" eq_refl)
        as (rs & -> & HF). exists rs, "runner_http_error". do 2 (split; [done|]). split; [done|].
      intros (t & body & a & [= -> -> ->] & Hb). unfold approval_payload in Ea. simpl in Ea. by rewrite Hb in Ea.
  - destruct (Hfail text unavailable "runner_unavailable" eq_refl) as (rs & -> & HF).
    exists rs, "runner_unavailable". do 2 (split; [done|]). split; [done|]. by intros (? & ? & ? & ? & _).
  - destruct (Hfail text unavailable "runner_unavailable" eq_refl) as (rs & -> & HF).
    exists rs, "runner_unavailable". do 2 (split; [done|]). split; [done|]. by intros (? & ? & ? & ? & _).
Qed.

Definition flaky : network := fun n _ => match n with
  | O => TransportError "timeout"
  | _ => StatusError 428 "Precondition Required" (Ok (PDict [("approval", PDict [("required", PBool true)])])) end.

Lemma batch_execute_failures_witness :
  let calls := [[("tool", PStr "apply_patch"); ("input", PDict [])]] in
  snd (post flaky (batch_payload calls)) = 2%nat /\
  exists rs error, batch_execute_tools flaky calls = Ok rs /\ length rs = 1%nat /\ error = "approval_required".
Proof.
  intros calls. split; [reflexivity|].
  destruct (batch_execute_failures flaky calls) as (_ & _ & rs & error & H1 & H2 & H3);
    [repeat constructor|]. exists rs, error. split; [exact H1|]. split.
  - symmetry. exact (List.Forall2_length H2).
  - apply H3. do 3 eexists. split; reflexivity.
Defined.
