(* ===== verification/Mcp.v ===== *)
(** * MCP client: [tools/mcp_client.py]

    The client of the tool servers, which it reaches through the runner: the
    validation of a server's configuration, the discovery of tools with the
    pinning of a server's list by its hash, their summary, and the calls for
    resources and prompts.  [net i] is the network at the [i]-th server. *)
From Stdlib Require Import ZArith Lia String Ascii List Bool.
From stdpp Require Import base tactics list strings option.
From S2P Require Import Prelude PyStr PyFloat PyVal Sha256 Json Memory RunnerClient.
Local Open Scope string_scope.
Local Open Scope Z_scope.

(** ** The hash of a list of tools *)

(** [json.dumps(v, sort_keys=True, ensure_ascii=False, separators=(",", ":"))]. *)
Fixpoint json_compact (v : pyval) : string :=
  match v with
  | PList l | PTuple l => "[" ++ join "," (List.map json_compact l) ++ "]"
  | PDict d =>
      let members := List.map (fun kv => (fst kv, json_str (fst kv) ++ ":" ++ json_compact (snd kv))) d in
      "{" ++ join "," (List.map snd (py_sorted key_lt members)) ++ "}"
  | _ => json_dumps true v
  end.

Definition _compute_tools_hash (tools : list pyval) : string := sha256_hex (json_compact (PList tools)).

Definition _to_timeout (value : pyval) (default : Z) : res Z :=
  match value with
  | PBool _ => Ok default
  | PInt z => Ok (Z.max 1 z)
  | PFloat f => let! z := py_int (PFloat f) in Ok (Z.max 1 z)
  | PStr s => Ok (match py_int (PStr (strip s)) with Ok z => Z.max 1 z | Err _ => default end)
  | _ => Ok default
  end.

(** ** Server configurations *)

Section Client.
Context (server_configs : dict).

Fixpoint all_texts (bad : pyexc) (l : list pyval) : res (list string) :=
  match l with
  | [] => Ok []
  | PStr s :: r => let! rest := all_texts bad r in Ok (s :: rest)
  | _ :: _ => Err bad
  end.

Definition _server_payload (server_name : string) : res dict :=
  let bad what := ValueError (what ++ ": " ++ server_name) in
  match dget server_configs server_name PNone with
  | PDict raw =>
      match stripped (dget raw "command" PNone) with
      | None => Err (bad "invalid MCP server command")
      | Some command =>
          match dget raw "args" (PList []) with
          | PList args_raw =>
              let! args := all_texts (bad "invalid MCP server arg entry") args_raw in
              let! cwd := match dget raw "cwd" PNone with
                          | PNone => Ok None
                          | PStr s => Ok (stripped (PStr s))
                          | _ => Err (bad "invalid MCP server cwd")
                          end in
              match dget raw "env" (PDict []) with
              | PDict env_raw =>
                  let! env := all_texts (bad "invalid MCP server env entry") (List.map snd env_raw) in
                  let! timeout_s := _to_timeout (dget raw "timeout_s" (PInt 20)) 20 in
                  let payload := [("command", PStr command); ("args", PList (List.map PStr args));
                                  ("env", PDict (combine (List.map fst env_raw) (List.map PStr env)));
                                  ("timeout_s", PInt timeout_s)] in
                  Ok (match cwd with Some c => dset "cwd" (PStr c) payload | None => payload end)
              | _ => Err (bad "invalid MCP server env")
              end
          | _ => Err (bad "invalid MCP server args")
          end
      end
  | _ => Err (bad "unknown MCP server")
  end.

Definition server_names : list string := py_sorted str_lt (List.map fst server_configs).

(** ** Discovery *)

Definition pinned_hash (server_name : string) : string :=
  match dget server_configs server_name (PDict []) with
  | PDict cfg => lower (str_strip (dget cfg "schema_hash" (PStr "")))
  | _ => ""
  end.

Definition mismatch_entry (server_name expected actual : string) : dict :=
  [("server_name", PStr server_name); ("_schema_hash_mismatch", PBool true);
   ("_expected_hash", PStr expected); ("_actual_hash", PStr actual)].

Definition tagged (server_name hash : string) (tool : dict) : dict :=
  dset "_schema_hash" (PStr hash) (dset "server_name" (PStr server_name) tool).

(** The tools of one server's list, or its mismatch entry. *)
Definition checked_tools (server_name : string) (tools : list pyval) : list dict :=
  let expected := pinned_hash server_name in
  let actual := _compute_tools_hash tools in
  if negb (String.eqb expected "") && negb (String.eqb actual expected)
  then [mismatch_entry server_name expected actual]
  else List.map (tagged server_name actual) (dicts_of tools).

Definition discover_server (net : network) (server_name : string) : res (list dict) :=
  match _server_payload server_name with
  | Err e => if is_value_error e then Ok [] else Err e
  | Ok server =>
      let! env := execute_tool net "mcp_discover" [("server_name", PStr server_name); ("server", PDict server)] in
      match envelope_json env with
      | Some (Ok (PList tools)) => Ok (checked_tools server_name tools)
      | _ => Ok []
      end
  end.

Fixpoint discover_from (net : nat -> network) (i : nat) (names : list string) : res (list dict) :=
  match names with
  | [] => Ok []
  | name :: r =>
      let! tools := discover_server (net i) name in
      let! rest := discover_from net (S i) r in Ok (tools ++ rest)%list
  end.

Definition discover_tools (net : nat -> network) : res (list dict) := discover_from net 0 server_names.

(** ** Summary *)

Definition mismatched (tool : dict) : bool := truthy (dget tool "_schema_hash_mismatch" (PBool false)).
Definition server_of (tool : dict) : string := str_or (str_strip (dget tool "server_name" (PStr ""))) "unknown".
Definition tool_name (tool : dict) : string := str_strip (dget tool "name" (PStr "")).

(** [grouped.setdefault(server, []).append(tool)]. *)
Definition group (tools : list dict) : list (string * list dict) :=
  fold_left (fun g tool =>
    let s := server_of tool in
    dset s (match dlookup s g with Some l => l | None => [] end ++ [tool])%list g) tools [].

Definition tool_summary (tool : dict) : pyval :=
  PDict [("name", PStr (tool_name tool)); ("description", PStr (str_strip (dget tool "description" (PStr ""))));
         ("input_schema", dget tool "inputSchema" PNone)].

Definition server_summary (entry : string * list dict) : dict :=
  [("server_name", PStr (fst entry)); ("tool_count", PInt (Z.of_nat (length (snd entry))));
   ("tools", PList (List.map tool_summary (snd entry)))].

Definition server_line (entry : string * list dict) : string :=
  fst entry ++ ": " ++ str_or (join ", " (List.filter (fun n => negb (String.eqb n "")) (List.map tool_name (snd entry)))) "no tools".

Definition summarize_tools (discovered : list dict) : dict :=
  let grouped := group (List.filter (fun t => negb (mismatched t)) discovered) in
  let entries := List.map (fun s => (s, match dlookup s grouped with Some l => l | None => [] end))
                   (py_sorted str_lt (List.map fst grouped)) in
  [("server_count", PInt (Z.of_nat (length entries)));
   ("tool_count", PInt (fold_right (fun e z => Z.of_nat (length (snd e)) + z) 0 entries));
   ("servers", PList (List.map (fun e => PDict (server_summary e)) entries));
   ("summary", PStr (join nl (List.map server_line entries)));
   ("mismatch_servers", PList (List.map (fun t => PStr (py_str (dget t "server_name" (PStr ""))))
                                 (List.filter mismatched discovered)))].

(** ** Calls *)

Definition mcp_execute_tool (net : network) (server_name tool_name : string) (args : dict) : res dict :=
  let! server := _server_payload server_name in
  execute_tool net "mcp_execute" [("server_name", PStr server_name); ("tool_name", PStr tool_name);
                                  ("args", PDict args); ("server", PDict server)].

(** The calls that ask a server for something: nothing on an invalid configuration. *)
Definition ask (net : network) (tool server_name : string) (more : dict) : res (option (res pyval)) :=
  match _server_payload server_name with
  | Err e => if is_value_error e then Ok None else Err e
  | Ok server =>
      let! env := execute_tool net tool ([("server_name", PStr server_name)] ++ more ++ [("server", PDict server)])%list in
      Ok (envelope_json env)
  end.

Definition ask_list (net : network) (tool server_name : string) : res (list dict) :=
  let! r := ask net tool server_name [] in
  Ok (match r with Some (Ok (PList l)) => dicts_of l | _ => [] end).

Definition ask_dict (net : network) (tool server_name : string) (more : dict) : res dict :=
  let! r := ask net tool server_name more in
  Ok (match r with Some (Ok (PDict d)) => d | _ => [] end).

Definition list_resources (net : network) (server_name : string) : res (list dict) :=
  ask_list net "mcp_resources_list" server_name.
Definition read_resource (net : network) (server_name resource_uri : string) : res dict :=
  ask_dict net "mcp_resource_read" server_name [("resource_uri", PStr resource_uri)].
Definition list_prompts (net : network) (server_name : string) : res (list dict) :=
  ask_list net "mcp_prompts_list" server_name.
Definition get_prompt (net : network) (server_name prompt_name : string) (arguments : dict) : res dict :=
  ask_dict net "mcp_prompt_get" server_name [("prompt_name", PStr prompt_name); ("arguments", PDict arguments)].

(** ** Capabilities: [net i] are the networks of the calls made for the [i]-th server,
    the discovery (of all servers) first, then resources and prompts. *)

Definition of_server (server_name : string) (tool : dict) : bool :=
  py_eq (dget tool "server_name" PNone) (PStr server_name) && negb (truthy (dget tool "_schema_hash_mismatch" PNone)).

Definition server_capabilities (net : nat -> network) (server_name : string) : res (list (Z * Z * Z * string)) :=
  match _server_payload server_name with
  | Err e => if is_value_error e then Ok [] else Err e
  | Ok _ =>
      let n := length server_names in
      let! tools := discover_tools net in
      let! resources := list_resources (net n) server_name in
      let! prompts := list_prompts (net (S n)) server_name in
      Ok [(Z.of_nat (length (List.filter (of_server server_name) tools)),
           Z.of_nat (length resources), Z.of_nat (length prompts), server_name)]
  end.

Fixpoint capabilities_from (net : nat -> nat -> network) (i : nat) (names : list string)
    : res (list (Z * Z * Z * string)) :=
  match names with
  | [] => Ok []
  | name :: r =>
      let! c := server_capabilities (net i) name in
      let! rest := capabilities_from net (S i) r in Ok (c ++ rest)%list
  end.

Definition capability_dict (c : Z * Z * Z * string) : dict :=
  let '(t, r, p, s) := c in
  [("server_name", PStr s); ("tools", PInt t); ("resources", PInt r); ("prompts", PInt p)].

Definition summarize_capabilities (net : nat -> nat -> network) : res dict :=
  let! cs := capabilities_from net 0 server_names in
  let total (f : Z * Z * Z * string -> Z) := PInt (fold_right (fun c z => f c + z) 0 cs) in
  Ok [("tools_count", total (fun c => fst (fst (fst c)))); ("resources_count", total (fun c => snd (fst (fst c))));
      ("prompts_count", total (fun c => snd (fst c))); ("servers", PList (List.map (fun c => PDict (capability_dict c)) cs))].
End Client.
