(* ===== verification/Executor.v ===== *)
(** * Executor node: [nodes/executor.py]

    The node that runs a plan's tool calls: budgets, approvals, the write
    allow-list and the GLEAN audit in front of the runner client.  The network,
    the clocks, the random nonces and the environment variables are parameters.
    Python keeps the effects made before an exception, so the loop carries the
    node's variables in [xstate] and reports an exception beside them. *)
From Stdlib Require Import ZArith Lia String Ascii List Bool.
From stdpp Require Import base tactics list strings option.
From S2P Require Import Prelude PyStr PyFloat PyVal Regex State Memory ModelRouting Glean ApprovalTokens RunnerClient.
Local Open Scope string_scope.
Local Open Scope Z_scope.

(** ** Helpers *)

(** [validate_base_url] ([nodes/_utils.py]). *)
Definition validate_base_url (url label : string) : res unit :=
  if (startswith url "http://" || startswith url "https://")%bool then Ok tt
  else Err (ValueError (label ++ " must start with http:// or https://; got " ++ repr_str url)).

Definition _validate_base_url (url : string) : bool := is_ok (validate_base_url url "runner_base_url").

(** The executor's own [_as_int]. *)
Definition as_int (value : pyval) (default : Z) : Z :=
  match value with
  | PInt z => z
  | PStr s => match parse_int (strip s) with Some z => z | None => default end
  | _ => default
  end.

Definition utf8_len (s : string) : Z := Z.of_nat (length (utf8_encode s)).

Definition text_bytes (v : pyval) : Z := match v with PStr s => utf8_len s | _ => 0 end.

Definition change_bytes (change : pyval) : Z :=
  match change with
  | PDict d => text_bytes (dget d "content" PNone) + text_bytes (dget d "patch" PNone)
  | _ => 0
  end.

Definition _estimate_patch_bytes (input_payload : dict) : Z :=
  match dget input_payload "patch" PNone with
  | PStr patch => utf8_len patch
  | _ =>
      let total := sum_Z (List.map change_bytes (list_or_empty (dget input_payload "changes" (PList [])))) in
      if 0 <? total then total else utf8_len (json_dumps false (PDict input_payload))
  end.

Definition _budget_failure_result (tool message error_tag : string) (route_metadata extra : dict) : dict :=
  [("tool", PStr tool); ("ok", PBool false); ("exit_code", PInt 1); ("stdout", PStr "");
   ("stderr", PStr message); ("diagnostics", PList []); ("timing_ms", PInt 0);
   ("artifacts", PDict (dupdate [("error", PStr error_tag)] extra)); ("route", PDict route_metadata)].

Definition _normalize_rel_path (path : string) : string := replace_char "\" "/" (strip path).

Definition _configured_write_allowlist (guards : dict) : list string :=
  flat_map (fun e => match e with
                     | PStr s => if String.eqb (strip s) "" then [] else [_normalize_rel_path s]
                     | _ => [] end)
           (list_or_empty (dget guards "allowed_write_paths" (PList []))).

Fixpoint changed_paths (changes : list pyval) : option (list string) :=
  match changes with
  | [] => Some []
  | PDict c :: r =>
      match dget c "path" PNone with
      | PStr p =>
          if String.eqb (strip p) "" then None
          else option_map (cons (_normalize_rel_path p)) (changed_paths r)
      | _ => None
      end
  | _ :: _ => None
  end.

Definition _apply_patch_changed_paths (input_payload : dict) : option (list string) :=
  match dget input_payload "changes" (PList []) with
  | PList ((_ :: _) as changes) => changed_paths changes
  | _ => None
  end.

Definition _path_matches_allowlist (path : string) (allowed : list string) : bool :=
  existsb (fnmatch (_normalize_rel_path path)) allowed.

(** ** Environment and loop state *)

Record Env := {
  env_runner_base_url : option string;      (* LG_RUNNER_BASE_URL *)
  env_glean_enabled : string;               (* LG_GLEAN_ENABLED, "false" when unset *)
  env_approval_secret : string;             (* LG_RUNNER_APPROVAL_SECRET *)
  token_iat : nat -> nat -> Z;              (* clock and nonce of the token of step i, call j *)
  token_nonce : nat -> nat -> string;
  client_init : string -> option string -> option string -> bool;  (* httpx.Client succeeds *)
  net : nat -> network;                     (* the network at step i *)
  ts_start : Z; ts_step : nat -> Z; ts_glean : Z; ts_end : Z }.

Definition _maybe_create_glean_auditor (env : Env) : option GleanAuditor :=
  if existsb (String.eqb (lower (env_glean_enabled env))) ["true"; "1"; "yes"]
  then Some default_auditor else None.

(** What the node reads once before its loop. *)
Record Guards := {
  g_max_tool_calls : Z; g_max_patch_bytes : Z;
  g_require_approval : bool; g_allowed_write_paths : list string }.

(** ** One tool call *)

Inductive verdict : Type :=
| Queue (call : dict)              (* append to the batch *)
| Blocked (result : dict)          (* GLEAN: record the failure, go on *)
| Deny (result : dict).            (* record the failure, drop the batch, stop *)

Definition approval_required_result (tool : string) (route : dict) : dict :=
  _budget_failure_result tool "mutation approval required before apply_patch execution" "approval_required" route
    [("approval", PDict [("required", PBool true); ("status", PStr "challenge_required");
        ("operation_class", PStr "apply_patch"); ("challenge_id", PStr "approval:apply_patch");
        ("reason", PStr "missing_approval_token")])].

(** The approval attached to an [apply_patch] payload ([None]: denied). *)
Definition attach_approval (env : Env) (g : Guards) (i j : nat) (state payload : dict) : option dict :=
  if g_require_approval g then
    match _approval_for_tool state "apply_patch" payload with
    | None => None
    | Some approval => Some (dset "approval" (PDict approval) payload)
    end
  else
    let challenge := "approval:apply_patch" in
    let token := approval_token_for_challenge (env_approval_secret env) (token_iat env i j)
                   (token_nonce env i j) challenge in
    Some (dset "approval" (PDict (token_dict challenge token)) payload).

(** The write allow-list: the failure when the payload is not allowed. *)
Definition allowlist_denial (g : Guards) (route payload : dict) : option dict :=
  match g_allowed_write_paths g with
  | [] => None
  | allowed =>
      match _apply_patch_changed_paths payload with
      | Some ((_ :: _) as paths) =>
          match List.find (fun p => negb (_path_matches_allowlist p allowed)) paths with
          | Some denied =>
              Some (_budget_failure_result "apply_patch"
                ("write path denied by policy allowlist: path=" ++ denied) "write_path_not_allowed" route
                [("path", PStr denied); ("allowed_write_paths", strs allowed)])
          | None => None
          end
      | _ =>
          Some (_budget_failure_result "apply_patch"
            "apply_patch requires explicit change paths for write allowlist enforcement"
            "write_path_not_allowed" route [("allowed_write_paths", strs allowed)])
      end
  end.

Definition patch_size_denial (g : Guards) (route payload : dict) : option dict :=
  if 0 <? g_max_patch_bytes g then
    let patch_bytes := _estimate_patch_bytes payload in
    if g_max_patch_bytes g <? patch_bytes then
      Some (_budget_failure_result "apply_patch"
        ("patch-size budget exceeded: patch_bytes=" ++ str_of_Z patch_bytes ++ " limit="
         ++ str_of_Z (g_max_patch_bytes g)) "patch_size_budget_exceeded" route [])
    else None
  else None.

(** The mutation checks of an [apply_patch] call, in order: approval, allow-list,
    patch size. *)
Definition check_mutation (env : Env) (g : Guards) (i j : nat) (state route payload : dict) : dict + dict :=
  match attach_approval env g i j state payload with
  | None => inr (approval_required_result "apply_patch" route)
  | Some payload =>
      match allowlist_denial g route payload with
      | Some r => inr r
      | None => match patch_size_denial g route payload with Some r => inr r | None => inl payload end
      end
  end.

Definition glean_detail (blocking : list GuidelineViolation) : string := join "; " (List.map detail blocking).

Definition add_metadata (route checkpoint payload : dict) : dict :=
  let p := dset "_route" (PDict route) payload in
  match checkpoint with [] => p | _ => dset "_checkpoint" (PDict checkpoint) p end.

(** The body of the inner loop. *)
Definition plan_call (env : Env) (g : Guards) (i j : nat) (state route checkpoint : dict)
    (auditor : option GleanAuditor) (tool_call : pyval) : res (option GleanAuditor * verdict) :=
  let! raw_input := get tool_call "input" (PDict []) in
  let! payload := py_dict raw_input in
  let! raw_tool := get tool_call "tool" PNone in
  let tool_name := py_str raw_tool in
  let checked :=
    if String.eqb tool_name "apply_patch" then check_mutation env g i j state route payload
    else inl payload in
  match checked with
  | inr failure => Ok (auditor, Deny failure)
  | inl payload =>
      let call := [("tool", PStr tool_name); ("input", PDict (add_metadata route checkpoint payload))] in
      match auditor with
      | None => Ok (None, Queue call)
      | Some a =>
          let '(a', blocking) := check_pre_execution a tool_name payload in
          match blocking with
          | [] => Ok (Some a', Queue call)
          | _ => Ok (Some a', Blocked (_budget_failure_result tool_name
                     ("GLEAN blocked: " ++ glean_detail blocking) "glean_blocked" route []))
          end
      end
  end.

(** The inner loop: new results, auditor, the batch, whether it was denied, and
    the exception that ended it. *)
Record planned := {
  pl_results : list dict; pl_auditor : option GleanAuditor; pl_calls : list dict;
  pl_denied : bool; pl_exc : option pyexc }.

Fixpoint plan_calls (env : Env) (g : Guards) (i j : nat) (state route checkpoint : dict) (acc : planned)
    (tool_calls : list pyval) : planned :=
  match tool_calls with
  | [] => acc
  | tc :: rest =>
      match plan_call env g i j state route checkpoint (pl_auditor acc) tc with
      | Err e => {| pl_results := pl_results acc; pl_auditor := pl_auditor acc; pl_calls := pl_calls acc;
                    pl_denied := false; pl_exc := Some e |}
      | Ok (auditor, Deny r) =>
          {| pl_results := pl_results acc ++ [r]; pl_auditor := auditor; pl_calls := [];
             pl_denied := true; pl_exc := None |}
      | Ok (auditor, Blocked r) =>
          plan_calls env g i (S j) state route checkpoint
            {| pl_results := pl_results acc ++ [r]; pl_auditor := auditor; pl_calls := pl_calls acc;
               pl_denied := false; pl_exc := None |} rest
      | Ok (auditor, Queue call) =>
          plan_calls env g i (S j) state route checkpoint
            {| pl_results := pl_results acc; pl_auditor := auditor; pl_calls := pl_calls acc ++ [call];
               pl_denied := false; pl_exc := None |} rest
      end
  end.

(** ** After a batch *)

Definition set_text (k : string) (v : pyval) (d : dict) : dict := set_stripped k v d.

(** The checkpoint fields read from one result. *)
Definition checkpoint_from_snapshot (cp : dict) (result : dict) : dict :=
  match dget result "snapshot" PNone with
  | PDict meta =>
      let cp :=
        match dget meta "checkpoint" PNone with
        | PDict checkpoint =>
            let cp := set_text "thread_id" (dget checkpoint "thread_id" PNone) cp in
            let cp := match dget checkpoint "checkpoint_ns" PNone with
                      | PStr ns => dset "checkpoint_ns" (PStr ns) cp | _ => cp end in
            let cp := set_text "latest_checkpoint_id" (dget checkpoint "checkpoint_id" PNone) cp in
            set_text "run_id" (dget checkpoint "run_id" PNone) cp
        | _ => cp
        end in
      set_text "latest_snapshot_id" (dget meta "snapshot_id" PNone) cp
  | _ => cp
  end.

Definition checkpoint_from_undo (cp : dict) (result : dict) : dict :=
  match dget result "undo" PNone with
  | PDict meta =>
      let cp := set_text "latest_snapshot_id" (dget meta "restored_snapshot_id" PNone) cp in
      match dget meta "checkpoint" PNone with
      | PDict checkpoint => set_text "latest_checkpoint_id" (dget checkpoint "checkpoint_id" PNone) cp
      | _ => cp
      end
  | _ => cp
  end.

Definition update_checkpoint (cp : dict) (results : list dict) : dict :=
  fold_left (fun cp r => checkpoint_from_undo (checkpoint_from_snapshot cp r) r) results cp.

Definition patched (result : dict) : bool :=
  py_eq (dget result "tool" PNone) (PStr "apply_patch") && truthy (dget result "ok" (PBool false)).

Definition audit_results (a : option GleanAuditor) (results : list dict) : option GleanAuditor :=
  option_map (fun a => fold_left (fun a r =>
      fst (check_post_execution a (py_str (dget r "tool" (PStr ""))) (PDict r))) results a) a.

(** ** The node's loop *)

(** The node's variables; [xs_sent] lists the batches posted so far. *)
Record xstate := {
  xs_state : dict; xs_results : list pyval; xs_used : Z; xs_checkpoint : dict;
  xs_auditor : option GleanAuditor; xs_stop : bool; xs_sent : list (list dict) }.

Definition with_results (xs : xstate) (rs : list dict) (a : option GleanAuditor) (stop : bool) : xstate :=
  {| xs_state := xs_state xs; xs_results := xs_results xs ++ List.map PDict rs; xs_used := xs_used xs;
     xs_checkpoint := xs_checkpoint xs; xs_auditor := a; xs_stop := stop; xs_sent := xs_sent xs |}.

Definition call_budget_message (used planned limit : Z) : string :=
  "tool-call budget exceeded: used=" ++ str_of_Z used ++ " planned=" ++ str_of_Z planned
  ++ " limit=" ++ str_of_Z limit.

(** Sending the batch and recording its results; an exception after the results
    were added leaves them in place. *)
Definition send_batch (env : Env) (i : nat) (route : dict) (xs : xstate) (calls : list dict)
    : xstate * option pyexc :=
  let sent := (xs_sent xs ++ [calls])%list in
  match batch_execute_tools (net env i) calls with
  | Err e => ({| xs_state := xs_state xs; xs_results := xs_results xs; xs_used := xs_used xs;
                 xs_checkpoint := xs_checkpoint xs; xs_auditor := xs_auditor xs; xs_stop := xs_stop xs;
                 xs_sent := sent |}, Some e)
  | Ok batch_results =>
      let state := if existsb patched batch_results
                   then dset "_scip_index_stale" (PBool true) (xs_state xs) else xs_state xs in
      let xs' := {| xs_state := state; xs_results := xs_results xs ++ List.map PDict batch_results;
                    xs_used := xs_used xs + Z.of_nat (length calls);
                    xs_checkpoint := update_checkpoint (xs_checkpoint xs) batch_results;
                    xs_auditor := audit_results (xs_auditor xs) batch_results;
                    xs_stop := xs_stop xs; xs_sent := sent |} in
      match append_event (ts_step env i) state "tools"
              [("count", PInt (Z.of_nat (length calls)));
               ("tools", strs (List.map (fun c => py_str (dget c "tool" PNone)) calls));
               ("lane", dget route "lane" (PStr "interactive"))] with
      | Ok state' => ({| xs_state := state'; xs_results := xs_results xs'; xs_used := xs_used xs';
                         xs_checkpoint := xs_checkpoint xs'; xs_auditor := xs_auditor xs';
                         xs_stop := xs_stop xs'; xs_sent := xs_sent xs' |}, None)
      | Err e => (xs', Some e)
      end
  end.

(** The [try] body for one plan step. *)
Definition step_body (env : Env) (g : Guards) (i : nat) (xs : xstate) (step : pyval) : xstate * option pyexc :=
  let route := tool_routing_metadata (xs_state xs) "executor" in
  match get step "tools" (PList []) with
  | Err e => (xs, Some e)
  | Ok planned_tools =>
      let over_budget :=
        if 0 <? g_max_tool_calls g then
          let! n := py_length planned_tools in
          Ok (if g_max_tool_calls g <? xs_used xs + n then Some n else None)
        else Ok None in
      match over_budget with
      | Err e => (xs, Some e)
      | Ok (Some n) =>
          (with_results xs [_budget_failure_result "batch_execute"
             (call_budget_message (xs_used xs) n (g_max_tool_calls g)) "tool_call_budget_exceeded" route []]
             (xs_auditor xs) true, None)
      | Ok None =>
          match py_iter planned_tools with
          | Err e => (xs, Some e)
          | Ok tool_calls =>
              let p := plan_calls env g i 0 (xs_state xs) route (xs_checkpoint xs)
                         {| pl_results := []; pl_auditor := xs_auditor xs; pl_calls := [];
                            pl_denied := false; pl_exc := None |} tool_calls in
              let xs' := with_results xs (pl_results p) (pl_auditor p) (pl_denied p) in
              match pl_exc p, pl_calls p with
              | Some e, _ => (xs', Some e)
              | None, [] => (xs', None)
              | None, calls => send_batch env i route xs' calls
              end
          end
      end
  end.

(** [step.get("id")] of the [except] handler, which itself fails on a step that is
    not a dict: then the exception leaves the node. *)
Definition handle_failure (xs : xstate) (step : pyval) (e : pyexc) : xstate * option pyexc :=
  match get step "id" PNone with
  | Err e' => (xs, Some e')
  | Ok _ => ({| xs_state := xs_state xs;
        xs_results := xs_results xs ++ [PDict
          [("tool", PStr "batch_execute"); ("ok", PBool false); ("exit_code", PInt 1); ("stdout", PStr "");
           ("stderr", PStr (exc_str e)); ("diagnostics", PList []); ("timing_ms", PInt 0);
           ("artifacts", PDict [("error", PStr "executor_failed")]);
           ("route", PDict (tool_routing_metadata (xs_state xs) "executor"))]];
        xs_used := xs_used xs; xs_checkpoint := xs_checkpoint xs; xs_auditor := xs_auditor xs;
        xs_stop := true; xs_sent := xs_sent xs |}, None)
  end.

Definition exec_step (env : Env) (g : Guards) (i : nat) (xs : xstate) (step : pyval) : xstate * option pyexc :=
  match step_body env g i xs step with
  | (xs', None) => (xs', None)
  | (xs', Some e) => handle_failure xs' step e
  end.

Fixpoint exec_steps (env : Env) (g : Guards) (i : nat) (xs : xstate) (steps : list pyval)
    : xstate * option pyexc :=
  match steps with
  | [] => (xs, None)
  | step :: rest =>
      if xs_stop xs then (xs, None)
      else match exec_step env g i xs step with
           | (xs', Some e) => (xs', Some e)
           | (xs', None) => exec_steps env g (S i) xs' rest
           end
  end.

(** ** The node *)

Definition guards_of (state : dict) : Guards :=
  let guards := dict_or_empty (dget state "guards" (PDict [])) in
  {| g_max_tool_calls := as_int (dget state "_budget_max_tool_calls_per_loop" (PInt 0)) 0;
     g_max_patch_bytes := as_int (dget state "_budget_max_patch_bytes" (PInt 0)) 0;
     g_require_approval := truthy (dget guards "require_approval_for_mutations" (PBool false));
     g_allowed_write_paths := _configured_write_allowlist guards |}.

Definition default_runner_url : string := "http://lula-runner.lula-orch.svc.cluster.local:8088".

Definition runner_base_url (env : Env) (state : dict) : string :=
  py_str (dget state "_runner_base_url" (PStr
    match env_runner_base_url env with Some u => u | None => default_runner_url end)).

Definition opt_text (v : pyval) : option string := match v with PNone => None | v => Some (str_strip v) end.

Definition end_event (error : option string) : dict :=
  ([("name", PStr "executor"); ("phase", PStr "end")]
   ++ match error with Some e => [("error", PStr e)] | None => [] end)%list.

Definition initial (state : dict) (env : Env) : res xstate :=
  let! results := py_iter (dget state "tool_results" (PList [])) in
  Ok {| xs_state := state; xs_results := results;
        xs_used := as_int (dget (dict_or_empty (dget state "budgets" (PDict []))) "tool_calls_used" (PInt 0)) 0;
        xs_checkpoint := dict_or_empty (dget state "_checkpoint" (PDict []));
        xs_auditor := _maybe_create_glean_auditor env; xs_stop := false; xs_sent := [] |}.

(** The state after the loop. *)
Definition final_state (g : Guards) (budgets : dict) (xs : xstate) : dict :=
  let budgets := dset "patch_bytes_limit" (PInt (g_max_patch_bytes g))
                   (dset "tool_calls_limit" (PInt (g_max_tool_calls g))
                      (dset "tool_calls_used" (PInt (xs_used xs)) budgets)) in
  dset "budgets" (PDict budgets)
    (dset "_checkpoint" (PDict (xs_checkpoint xs))
       (dset "tool_results" (PList (xs_results xs)) (xs_state xs))).

(** The log call and the optional audit trail are outside the state and omitted. *)
Definition glean_event (env : Env) (xs : xstate) (out : dict) : res dict :=
  match xs_auditor xs with
  | Some a => append_event (ts_glean env) out "glean" (summary a)
  | None => Ok out
  end.

(** What follows the loop. *)
Definition finish_node (env : Env) (g : Guards) (budgets : dict) (xs : xstate) : res dict :=
  let! out := glean_event env xs (final_state g budgets xs) in
  let! out := append_event (ts_end env) out "node" (end_event None) in
  prune_pre_verification_history out.

(** The node once a plan was found. *)
Definition run_plan (env : Env) (state plan : dict) : list (list dict) * res dict :=
  let url := runner_base_url env state in
  if negb (_validate_base_url url) then
    ([], append_event (ts_end env) state "node" (end_event (Some "invalid_base_url")))
  else if negb (client_init env url (opt_text (dget state "_runner_api_key" PNone))
                  (opt_text (dget state "_request_id" PNone))) then
    ([], append_event (ts_end env) state "node" (end_event (Some "client_init_failed")))
  else
    let g := guards_of state in
    let budgets := dict_or_empty (dget state "budgets" (PDict [])) in
    match (let! xs0 := initial state env in
           let! steps := py_iter (dget plan "steps" (PList [])) in Ok (xs0, steps)) with
    | Err e => ([], Err e)
    | Ok (xs0, steps) =>
        let r := exec_steps env g 0 xs0 steps in
        (xs_sent (fst r), match snd r with Some e => Err e | None => finish_node env g budgets (fst r) end)
    end.

(** The batches the node posts, and its result: an exception that leaves the node does not
    take back what was posted before it. *)
Definition executor (env : Env) (state : dict) : list (list dict) * res dict :=
  if negb (truthy (dget state "_runner_enabled" (PBool true))) then ([], Ok state)
  else
    match (let! state := ensure_history_policy state in
           append_event (ts_start env) state "node" [("name", PStr "executor"); ("phase", PStr "start")]) with
    | Err e => ([], Err e)
    | Ok state =>
        match dget state "plan" PNone with
        | PDict plan => run_plan env state plan
        | _ => ([], Ok state)
        end
    end.
