(* ===== verification/ExecutorProps.v ===== *)
(** * Properties of the executor node ([nodes/executor.py])

    Every call the node posts respects the approval, allow-list, patch-size and
    call-count limits, whatever the plan, the network and the environment do. *)
From Stdlib Require Import ZArith Lia String Ascii List Bool.
From stdpp Require Import base tactics list strings option.
From S2P Require Import Prelude PyStr PyFloat PyVal Regex State Memory MemoryProps ModelRouting Glean ApprovalTokens RunnerClient Executor.
Local Open Scope string_scope.
Local Open Scope Z_scope.

(** ** What a posted call satisfies *)

Definition mutation_ok (g : Guards) (payload : dict) : Prop :=
  (g_require_approval g = true ->
     exists token raw, dget payload "approval" PNone = PDict token /\ _coerce_approval_token raw = Some token) /\
  (g_allowed_write_paths g <> [] ->
     exists paths, _apply_patch_changed_paths payload = Some paths /\ paths <> [] /\
       forall p, In p paths -> _path_matches_allowlist p (g_allowed_write_paths g) = true) /\
  (0 < g_max_patch_bytes g -> _estimate_patch_bytes payload <= g_max_patch_bytes g).

Definition call_allowed (g : Guards) (call : dict) : Prop :=
  exists tool payload route checkpoint,
    call = [("tool", PStr tool); ("input", PDict (add_metadata route checkpoint payload))] /\
    (tool = "apply_patch" -> mutation_ok g payload).

Lemma approval_for_tool_valid state tool payload token :
  _approval_for_tool state tool payload = Some token -> exists raw, _coerce_approval_token raw = Some token.
Proof.
  unfold _approval_for_tool. destruct (_coerce_approval_token _) eqn:E1; [intros [= <-]; eauto|].
  cbv zeta. match goal with |- match ?x with [] => _ | _ => _ end = _ -> _ => destruct x as [|kv a] end; [done|].
  destruct (_coerce_approval_token (dget (kv :: a) tool PNone)) eqn:E2; [intros [= <-]; eauto|].
  destruct (dget (kv :: a) "mutations" PNone); try done. eauto.
Qed.

Lemma attach_approval_ok env g i j state payload p :
  attach_approval env g i j state payload = Some p ->
  g_require_approval g = true -> exists token raw,
    dget p "approval" PNone = PDict token /\ _coerce_approval_token raw = Some token.
Proof.
  unfold attach_approval. intros H Hr. rewrite Hr in H.
  destruct (_approval_for_tool state "apply_patch" payload) as [tok|] eqn:E; [|done]. injection H as <-.
  apply approval_for_tool_valid in E as [raw Hraw]. exists tok, raw. by rewrite dget_dset_eq.
Qed.

Lemma allowlist_ok g route payload :
  allowlist_denial g route payload = None -> g_allowed_write_paths g <> [] ->
  exists paths, _apply_patch_changed_paths payload = Some paths /\ paths <> [] /\
    forall p, In p paths -> _path_matches_allowlist p (g_allowed_write_paths g) = true.
Proof.
  unfold allowlist_denial. destruct (g_allowed_write_paths g) as [|a l]; [done|]. intros H _.
  destruct (_apply_patch_changed_paths payload) as [[|p0 ps]|]; try done.
  destruct (List.find _ (p0 :: ps)) eqn:E; [done|]. exists (p0 :: ps). split; [done|]. split; [done|].
  intros p Hp. pose proof (List.find_none _ _ E p Hp) as Hn. by apply negb_false_iff in Hn.
Qed.

Lemma patch_size_ok g route payload :
  patch_size_denial g route payload = None -> 0 < g_max_patch_bytes g ->
  _estimate_patch_bytes payload <= g_max_patch_bytes g.
Proof.
  unfold patch_size_denial. intros H Hm. apply Z.ltb_lt in Hm. rewrite Hm in H. cbv zeta in H.
  destruct (g_max_patch_bytes g <? _estimate_patch_bytes payload) eqn:E; [done|]. by bool_prop.
Qed.

Lemma check_mutation_ok env g i j state route payload p :
  check_mutation env g i j state route payload = inl p -> mutation_ok g p.
Proof.
  unfold check_mutation. destruct (attach_approval env g i j state payload) as [q|] eqn:Ea; [|done].
  destruct (allowlist_denial g route q) eqn:El; [done|].
  destruct (patch_size_denial g route q) eqn:Ep; [done|]. intros [= <-].
  split; [by eapply attach_approval_ok|]. split; [by eapply allowlist_ok|by eapply patch_size_ok].
Qed.

Lemma plan_call_queue env g i j state route cp a tc a' call :
  plan_call env g i j state route cp a tc = Ok (a', Queue call) -> call_allowed g call.
Proof.
  unfold plan_call. intros H.
  destruct (get tc "input" (PDict [])) as [raw|]; [|done]. cbn [bind_res] in H.
  destruct (py_dict raw) as [payload|]; [|done]. cbn [bind_res] in H.
  destruct (get tc "tool" PNone) as [tool|]; [|done]. cbn [bind_res] in H. cbv zeta in H.
  destruct (if String.eqb (py_str tool) "apply_patch" then _ else _) as [p|f] eqn:Ec; [|done].
  assert (Hm : py_str tool = "apply_patch" -> mutation_ok g p).
  { intros E. rewrite E, String.eqb_refl in Ec. by eapply check_mutation_ok. }
  assert (Hc : call = [("tool", PStr (py_str tool)); ("input", PDict (add_metadata route cp p))]).
  { destruct a as [a|]; [|by injection H as _ <-].
    destruct (check_pre_execution a (py_str tool) p) as [a1 [|b bs]]; [by injection H as _ <-|done]. }
  by exists (py_str tool), p, route, cp.
Qed.

Definition all_allowed (g : Guards) (calls : list dict) : Prop := List.Forall (call_allowed g) calls.

(** The batch of a step: allowed calls, no more than planned; empty when denied. *)
Lemma plan_calls_spec env g i j state route cp acc tcs :
  all_allowed g (pl_calls acc) ->
  let p := plan_calls env g i j state route cp acc tcs in
  all_allowed g (pl_calls p) /\ (length (pl_calls p) <= length (pl_calls acc) + length tcs)%nat /\
  (pl_denied p = true -> pl_denied acc = true \/ (pl_calls p = [] /\ pl_exc p = None)).
Proof.
  revert j acc. induction tcs as [|tc tcs IH]; intros j acc Ha; simpl; [split; [done|]; split; [lia|tauto]|].
  destruct (plan_call env g i j state route cp (pl_auditor acc) tc) as [[a [call|r|r]]|e] eqn:E; simpl.
  - apply plan_call_queue in E.
    destruct (IH (S j) {| pl_results := pl_results acc; pl_auditor := a; pl_calls := pl_calls acc ++ [call];
                          pl_denied := false; pl_exc := None |}) as (H1 & H2 & H3).
    { apply List.Forall_app. split; [done|by constructor]. }
    split; [done|]. split; [cbn [pl_calls] in H2; rewrite length_app in H2; simpl in H2; lia|].
    intros Hd. destruct (H3 Hd) as [?|?]; [done|by right].
  - destruct (IH (S j) {| pl_results := pl_results acc ++ [r]; pl_auditor := a; pl_calls := pl_calls acc;
                          pl_denied := false; pl_exc := None |} Ha) as (H1 & H2 & H3).
    split; [done|]. split; [cbn [pl_calls] in H2; lia|].
    intros Hd. destruct (H3 Hd) as [?|?]; [done|by right].
  - split; [constructor|]. split; [lia|]. by right.
  - split; [done|]. split; [lia|done].
Qed.

(** ** The loop invariant *)

Definition total_calls (sent : list (list dict)) : Z := sum_Z (List.map (fun b => Z.of_nat (length b)) sent).

Lemma total_calls_snoc sent b : total_calls (sent ++ [b]) = total_calls sent + Z.of_nat (length b).
Proof.
  unfold total_calls, sum_Z. rewrite List.map_app. simpl.
  induction (List.map _ sent) as [|x l IH]; simpl; lia.
Qed.

(** What holds of the batches posted, given the number of calls already used: they
    are allowed, they are what the counter counts (unless the node is stopping),
    and they fit the limit. *)
Definition sent_ok (g : Guards) (used0 : Z) (xs : xstate) (failed : bool) : Prop :=
  List.Forall (all_allowed g) (xs_sent xs) /\
  (failed = false -> xs_stop xs = false -> xs_used xs = used0 + total_calls (xs_sent xs)) /\
  (0 < g_max_tool_calls g -> used0 <= g_max_tool_calls g ->
     used0 + total_calls (xs_sent xs) <= g_max_tool_calls g).

Definition raised (e : option pyexc) : bool := match e with Some _ => true | None => false end.

Lemma sent_ok_with g used0 xs rs a stop f :
  sent_ok g used0 xs false -> xs_stop xs = false -> sent_ok g used0 (with_results xs rs a stop) f.
Proof. intros (H1 & H2 & H3) Hst. split; [done|]. split; [|done]. intros _ _. by apply H2. Qed.

Lemma send_batch_ok env g used0 i route xs calls :
  sent_ok g used0 xs false -> xs_stop xs = false -> all_allowed g calls ->
  (0 < g_max_tool_calls g -> xs_used xs + Z.of_nat (length calls) <= g_max_tool_calls g) ->
  let '(xs', e) := send_batch env i route xs calls in sent_ok g used0 xs' (raised e).
Proof.
  intros (H1 & H2 & H3) Hst Ha Hlim. specialize (H2 eq_refl Hst).
  assert (Hall : List.Forall (all_allowed g) (xs_sent xs ++ [calls])%list)
    by (apply List.Forall_app; split; [done|by constructor]).
  unfold send_batch, sent_ok. destruct (batch_execute_tools (net env i) calls) as [rs|e]; cbv zeta.
  - destruct (append_event _ _ _ _); cbn [xs_sent xs_stop xs_used raised]; rewrite total_calls_snoc;
      (split; [done|]; split; [|lia]); [|done]. intros _ _. lia.
  - cbn [xs_sent xs_stop xs_used raised]. rewrite total_calls_snoc. split; [done|]. split; [done|lia].
Qed.

Lemma step_body_ok env g used0 i xs step :
  sent_ok g used0 xs false -> xs_stop xs = false ->
  let '(xs', e) := step_body env g i xs step in sent_ok g used0 xs' (raised e).
Proof.
  intros Hok Hst. unfold step_body. cbv zeta.
  assert (Hsame : forall f, sent_ok g used0 xs f) by (intros f; destruct Hok as (H1 & H2 & H3); split; auto).
  destruct (get step "tools" (PList [])) as [pt|e0]; [|apply Hsame].
  destruct (if 0 <? g_max_tool_calls g then _ else _) as [ob|e0] eqn:Eo; [|apply Hsame].
  destruct ob as [n|]; [by apply sent_ok_with|].
  destruct (py_iter pt) as [tcs|e0] eqn:Ei; [|apply Hsame].
  set (route := tool_routing_metadata (xs_state xs) "executor").
  set (p := plan_calls _ _ _ _ _ _ _ _ _).
  destruct (plan_calls_spec env g i 0 (xs_state xs) route (xs_checkpoint xs)
    {| pl_results := []; pl_auditor := xs_auditor xs; pl_calls := []; pl_denied := false; pl_exc := None |}
    tcs) as (Hall & Hlen & Hden); [constructor|]. fold p in Hall, Hlen, Hden.
  cbn [pl_calls length pl_denied] in Hlen, Hden.
  destruct (pl_exc p) as [e0|] eqn:Ee; [by apply sent_ok_with|].
  destruct (pl_calls p) as [|c cs] eqn:Ecalls; [by apply sent_ok_with|].
  assert (Hnd : pl_denied p = false)
    by (destruct (pl_denied p); [destruct (Hden eq_refl) as [?|[? _]]; done|done]).
  apply send_batch_ok; [by apply sent_ok_with|done|done|]. intros Hm.
  apply Z.ltb_lt in Hm. rewrite Hm, (py_iter_length _ _ Ei) in Eo. cbn [bind_res] in Eo.
  destruct (g_max_tool_calls g <? xs_used xs + Z.of_nat (length tcs)) eqn:Eg; [done|]. bool_prop.
  cbn [xs_used with_results]. lia.
Qed.

Lemma exec_step_ok env g used0 i xs step xs' r :
  sent_ok g used0 xs false -> xs_stop xs = false -> exec_step env g i xs step = (xs', r) ->
  sent_ok g used0 xs' (raised r).
Proof.
  intros Hok Hst. unfold exec_step. pose proof (step_body_ok env g used0 i xs step Hok Hst) as H.
  destruct (step_body env g i xs step) as [x [e|]]; [|by intros [= <- <-]].
  unfold handle_failure. destruct (get step "id" PNone); intros [= <- <-]; [|done].
  destruct H as (H1 & _ & H3). by split.
Qed.

Lemma exec_steps_ok env g used0 i xs steps xs' r :
  sent_ok g used0 xs false -> exec_steps env g i xs steps = (xs', r) -> sent_ok g used0 xs' (raised r).
Proof.
  revert i xs. induction steps as [|s steps IH]; intros i xs Hok; simpl; [by intros [= <- <-]|].
  destruct (xs_stop xs) eqn:Est; [by intros [= <- <-]|].
  destruct (exec_step env g i xs s) as [x [e|]] eqn:Ex; [intros [= <- <-]; by eapply exec_step_ok in Ex|].
  apply IH. by eapply exec_step_ok in Ex.
Qed.

(** ** The node *)

(** The start of the node keeps the keys the guards are read from. *)
Lemma guards_frame s s' :
  (forall k, k <> "history_policy" -> k <> "_trace_events" -> dlookup k s' = dlookup k s) ->
  guards_of s' = guards_of s /\ dget s' "budgets" (PDict []) = dget s "budgets" (PDict []).
Proof.
  intros H. assert (Hd : forall k d, k <> "history_policy" -> k <> "_trace_events" -> dget s' k d = dget s k d)
    by (intros k d H1 H2; apply dlookup_dget; auto).
  unfold guards_of. by rewrite !Hd.
Qed.

Definition used_before (state : dict) : Z :=
  as_int (dget (dict_or_empty (dget state "budgets" (PDict []))) "tool_calls_used" (PInt 0)) 0.

(** What is claimed of the batches [sent]. *)
Definition governed (g : Guards) (used : Z) (sent : list (list dict)) : Prop :=
  List.Forall (all_allowed g) sent /\
  (0 < g_max_tool_calls g -> used <= g_max_tool_calls g -> used + total_calls sent <= g_max_tool_calls g).

Lemma governed_nil g used : governed g used [].
Proof. split; [constructor|unfold total_calls; simpl; lia]. Qed.

Lemma run_plan_governed env s plan : governed (guards_of s) (used_before s) (fst (run_plan env s plan)).
Proof.
  unfold run_plan. cbv zeta. destruct (negb _); [apply governed_nil|]. destruct (negb _); [apply governed_nil|].
  destruct (let! xs0 := initial s env in _) as [[xs0 steps]|e] eqn:E0; [|apply governed_nil].
  apply bind_Ok in E0 as (xs1 & Hx & E0). apply bind_Ok in E0 as (steps' & _ & [= -> ->]).
  unfold initial in Hx. apply bind_Ok in Hx as (rs & _ & [= <-]). set (xs0 := {| xs_state := s |}).
  destruct (exec_steps env (guards_of s) 0 xs0 steps) as [xs r] eqn:Ex.
  apply (exec_steps_ok env (guards_of s) (used_before s)) in Ex; [by destruct Ex as (H1 & _ & H3)|].
  split; [constructor|]. split.
  - intros _ _. unfold xs0, total_calls. cbn [xs_used xs_sent List.map sum_Z fold_right]. unfold used_before. lia.
  - unfold xs0, total_calls. cbn. lia.
Qed.

(** C10: nothing ungoverned reaches the runner: whatever the plan, the network and
    the environment, and whether the node returns or is left by an exception, every call
    in every batch the executor posts is, when it is an [apply_patch], approved by a
    structurally valid token (if approval is required), confined to the write allow-list
    (if there is one) and within the patch-size budget; and with a call limit that the
    calls used before do not already exceed, the posted calls together with those used
    before never exceed it. *)
Theorem executor_calls_guarded env state :
  let sent := fst (executor env state) in
  let g := guards_of state in
  List.Forall (all_allowed g) sent /\
  (0 < g_max_tool_calls g -> used_before state <= g_max_tool_calls g ->
   used_before state + total_calls sent <= g_max_tool_calls g).
Proof.
  intros sent g. subst sent. change (governed g (used_before state) (fst (executor env state))).
  unfold executor. destruct (negb _); [apply governed_nil|].
  destruct (let! state := _ in _) as [s2|e] eqn:E12; [|apply governed_nil]. apply bind_Ok in E12 as (s1 & E1 & E2).
  destruct (guards_frame state s2) as [Hg Hb].
  { intros k Hk1 Hk2. rewrite (append_event_frame _ _ _ _ _ _ E2) by by apply String.eqb_neq.
    apply (ensure_policy_frame _ _ _ E1). by apply String.eqb_neq. }
  assert (Hu : used_before s2 = used_before state) by (unfold used_before; by rewrite Hb).
  destruct (dget s2 "plan" PNone) as [| | | | | | |plan]; try apply governed_nil.
  subst g. rewrite <- Hg, <- Hu. apply run_plan_governed.
Qed.

(** A concrete environment: the runner answers every call of a batch with success. *)
Definition sample_env : Env := {|
  env_runner_base_url := None; env_glean_enabled := "true"; env_approval_secret := "s3cret";
  token_iat _ _ := 1700000000; token_nonce _ _ := "00112233445566778899aabbccddeeff";
  client_init _ _ _ := true;
  net _ := fun _ _ => Success (Ok (PDict [("results", PList [PDict [("tool", PStr "apply_patch"); ("ok", PBool true)]])]));
  ts_start := 1; ts_step _ := 2; ts_glean := 3; ts_end := 4 |}.

Definition patch_call : pyval :=
  PDict [("tool", PStr "apply_patch");
         ("input", PDict [("changes", PList [PDict [("path", PStr "src/a.py"); ("content", PStr "pass")]]);
                          ("approval", PDict (token_dict "approval:apply_patch" "approve:approval:apply_patch"))])].

Definition sample_state (steps : list pyval) : dict :=
  [("plan", PDict [("steps", PList steps)]);
   ("guards", PDict [("require_approval_for_mutations", PBool true);
                     ("allowed_write_paths", PList [PStr "src/*.py"])]);
   ("_budget_max_tool_calls_per_loop", PInt 1); ("_budget_max_patch_bytes", PInt 100)].

Lemma executor_calls_guarded_witness :
  let state := sample_state [PDict [("tools", PList [patch_call])]; PDict [("tools", PList [patch_call])]] in
  let sent := fst (executor sample_env state) in
  length sent = 1%nat /\ List.Forall (all_allowed (guards_of state)) sent /\ total_calls sent <= 1.
Proof.
  intros state sent.
  assert (Hlen : length sent = 1%nat) by (vm_compute; reflexivity).
  assert (Hlim : g_max_tool_calls (guards_of state) = 1) by (vm_compute; reflexivity).
  assert (Hused : used_before state = 0) by (vm_compute; reflexivity).
  destruct (executor_calls_guarded sample_env state) as [H1 H2]. fold sent in H1, H2.
  split; [exact Hlen|]. split; [exact H1|]. rewrite Hlim, Hused in H2. specialize (H2 eq_refl). lia.
Defined.

(** A batch that was posted before an exception leaves the node: the second step is not a
    dict, on which the [except] handler itself raises. *)
Example posted_before_exception :
  let r := executor sample_env (sample_state [PDict [("tools", PList [patch_call])]; PStr "run"]) in
  length (fst r) = 1%nat /\ snd r = Err (AttributeError "'str' object has no attribute 'get'").
Proof. vm_compute. split; reflexivity. Qed.

(** The patch-size estimate looks at ["patch"] alone when it is present, so a
    payload may carry any amount of ["changes"] beside a small ["patch"]. *)
Example patch_size_ignores_changes :
  _estimate_patch_bytes [("patch", PStr "x");
    ("changes", PList [PDict [("path", PStr "src/a.py"); ("content", PStr (xs 1000))]])] = 1.
Proof. vm_compute. reflexivity. Qed.


(** A plan step that is not a dict: the [except] handler itself raises. *)
Example non_dict_step_escapes :
  executor sample_env (sample_state [PStr "run"]) = ([], Err (AttributeError "'str' object has no attribute 'get'")).
Proof. vm_compute. reflexivity. Qed.
