(* ===== verification/Verifier.v ===== *)
(** * Verifier node: [nodes/verifier.py]

    Runs the plan's verification calls, turns failed tool results into checks,
    classifies the failure into a recovery (retry target, context scope, plan
    action), evaluates the acceptance criteria and writes the report that steers
    the next iteration. *)
From Stdlib Require Import ZArith Lia String Ascii List Bool.
From stdpp Require Import base tactics list strings option.
From S2P Require Import Prelude PyStr PyFloat PyVal Sha256 Regex State Memory ModelRouting RunnerClient Executor.
Local Open Scope string_scope.
Local Open Scope Z_scope.

(** ** Hint tables *)

Definition _TEST_FAILURE_HINTS : list string :=
  ["assert"; "assertion"; "test_"; "tests/"; "test failed"; "expected"; "got"; "does not match"; "mismatch";
   "expected value"; "pytest"; "unittest"; "FAILED"; "test suite"].

Definition _ARCH_MISMATCH_HINTS : list string :=
  ["no such file"; "cannot find module"; "module not found"; "unresolved import"; "could not find";
   "cannot find file"; "file not found"; "path escapes root"; "read denied"].

(** ** Diagnostics *)

Definition _extract_diagnostics (result : dict) : list dict :=
  match dget result "diagnostics" (PList []) with
  | PList direct => dicts_of direct
  | _ =>
      match dget result "artifacts" (PDict []) with
      | PDict artifacts => dicts_of (list_or_empty (dget artifacts "diagnostics" (PList [])))
      | _ => []
      end
  end.

Definition _diagnostic_summary (d : dict) : string :=
  let file := str_strip (dget d "file" (PStr "")) in
  let line := dget d "line" PNone in
  let col := dget d "column" PNone in
  let code := str_strip (dget d "code" (PStr "")) in
  let message := str_strip (dget d "message" (PStr "")) in
  let location :=
    if String.eqb file "" then ""
    else if is_int line then
      let l := file ++ ":" ++ py_str line in
      if is_int col then l ++ ":" ++ py_str col else l
    else file in
  let code_prefix := if String.eqb code "" then "" else "[" ++ code ++ "] " in
  if negb (String.eqb location "") && negb (String.eqb message "") then
    strip (location ++ " " ++ code_prefix ++ message)
  else if negb (String.eqb message "") then strip (code_prefix ++ message)
  else "".

Definition first_summary (diagnostics : list dict) : string :=
  match diagnostics with d :: _ => _diagnostic_summary d | [] => "" end.

Definition artifacts_of (result : dict) : dict := dict_or_empty (dget result "artifacts" (PDict [])).

Definition short_digest (seed : string) : string := str_take 16 (sha256_hex seed).

Definition _failure_fingerprint (result : dict) (diagnostics : list dict) : string :=
  let direct := match diagnostics with d :: _ => str_strip (dget d "fingerprint" (PStr "")) | [] => "" end in
  if negb (String.eqb direct "") then direct
  else short_digest (join "|"
         [str_strip (dget result "tool" (PStr "")); str_strip (dget (artifacts_of result) "error" (PStr ""));
          first_summary diagnostics; _first_nonempty_line (py_str (dget result "stderr" (PStr "")))]).

(** [\bmissing\b] and [\bmodule\b|\bfile\b]. *)
Definition word (s : string) : regex := rseq [RWordB; rlit s; RWordB].

Definition _is_architecture_mismatch (tool : string) (diagnostics : list dict) (stderr : string)
    (artifacts : dict) : bool :=
  let tool_name := lower (strip tool) in
  if String.eqb tool_name "read_file" then true
  else
    let err_tag := lower (str_strip (dget artifacts "error" (PStr ""))) in
    if str_in err_tag ["read_denied"; "path escapes root"] then true
    else if existsb (fun d => str_in (lower (str_strip (dget d "code" (PStr "")))) ["e0432"; "e0583"; "f821"])
                    diagnostics then true
    else
      let messages := (List.map (fun d => lower (_diagnostic_summary d)) diagnostics
                       ++ (if String.eqb stderr "" then [] else [lower stderr]))%list in
      let joined := join nl messages in
      if existsb (fun hint => contains hint joined) _ARCH_MISMATCH_HINTS then true
      else search (word "missing") joined && search (RAlt (word "module") (word "file")) joined.

Definition result_ok (r : dict) : bool := truthy (dget r "ok" (PBool false)).

(** [apply_patch] or [write_file] succeeded earlier. *)
Definition patch_applied (tool_results : list dict) : bool :=
  existsb (fun r => str_in (lower (str_strip (dget r "tool" (PStr "")))) ["apply_patch"; "write_file"]
                    && result_ok r) tool_results.

Definition _is_test_failure_post_change (tool : string) (diagnostics : list dict) (stderr stdout : string)
    (tool_results : list dict) : bool :=
  let tool_lower := lower (strip tool) in
  let is_test_tool :=
    str_in tool_lower ["run_tests"; "pytest"; "cargo_test"; "test_runner"] || contains "test" tool_lower in
  let is_test_tool :=
    if is_test_tool then true
    else
      let all_text := lower (join " " (List.map _diagnostic_summary diagnostics ++ [stderr; stdout])) in
      existsb (fun hint => contains hint all_text) _TEST_FAILURE_HINTS in
  if is_test_tool then patch_applied tool_results else false.

(** ** Formal verification *)

(** [path.endswith(tuple)]. *)
Fixpoint endswith_any (path : string) (exts : list pyval) : res bool :=
  match exts with
  | [] => Ok false
  | PStr e :: r => if endswith path e then Ok true else endswith_any path r
  | v :: _ => Err (TypeError ("tuple for endswith must only contain str, not " ++ type_name v))
  end.

Definition add_changed (exts : list pyval) (files : list string) (change : pyval) : res (list string) :=
  match change with
  | PDict c =>
      let path := py_str (dget c "path" (PStr "")) in
      let! hit := endswith_any path exts in
      Ok (if hit && negb (str_in path files) then (files ++ [path])%list else files)
  | _ => Ok files
  end.

Definition add_result (exts : list pyval) (files : list string) (result : dict) : res (list string) :=
  if String.eqb (py_str (dget result "tool" (PStr ""))) "apply_patch" && truthy (dget result "ok" PNone) then
    match dget result "input" (PDict []) with
    | PDict input =>
        let! changes := py_iter (dget input "changes" (PList [])) in
        fold_res (add_changed exts) files changes
    | _ => Ok files
    end
  else Ok files.

Definition _requires_formal_verification (state : dict) (tool_results : list dict) : res (list string) :=
  if negb (truthy (dget state "_vericoding_enabled" (PBool false))) then Ok []
  else
    let! exts := py_iter (dget state "_vericoding_extensions" (PList [PStr ".rs"])) in
    fold_res (add_result exts) [] tool_results.

(** The runner as the verifier uses it: whether the client can be built, and the
    network of each of its two batches. *)
Record VEnv := {
  v_client : string -> option string -> option string -> res unit;
  v_net_calls : network; v_net_formal : network;
  v_schema_ok : dict -> bool;               (* jsonschema against the report schema, true without one *)
  v_ts_start : Z; v_ts_end : Z }.

Definition formal_failure (exit_code stdout : pyval) (stderr : string) (diagnostics : pyval)
    (artifacts route : dict) : dict :=
  [("tool", PStr "formal_verification"); ("ok", PBool false); ("exit_code", exit_code); ("stdout", stdout);
   ("stderr", PStr stderr); ("diagnostics", diagnostics); ("artifacts", PDict artifacts); ("route", PDict route)].

Definition formal_call (route : dict) : dict :=
  [("tool", PStr "exec");
   ("input", PDict [("cmd", PStr "cargo"); ("args", strs ["test"; "--all"; "--features"; "verify"]);
                    ("timeout_s", PInt 120); ("_route", PDict route)])].

Definition verifier_url (state : dict) : string :=
  py_str (dget state "_runner_base_url" (PStr "http://127.0.0.1:8088")).

(** The client is built outside the [try]. *)
Definition _run_formal_verification (env : VEnv) (state : dict) (files : list string) (route : dict)
    : res (option dict) :=
  match files with
  | [] => Ok None
  | _ =>
      let url := verifier_url state in
      if negb (_validate_base_url url) then
        Ok (Some (formal_failure (PInt 1) (PStr "") "invalid runner base url for formal verification" (PList [])
                    [("error", PStr "invalid_base_url")] route))
      else
        let! _ := v_client env url (opt_text (dget state "_runner_api_key" PNone))
                    (opt_text (dget state "_request_id" PNone)) in
        match batch_execute_tools (v_net_formal env) [formal_call route] with
        | Ok (result :: _) =>
            if truthy (dget result "ok" PNone) then Ok None
            else Ok (Some (formal_failure (dget result "exit_code" (PInt 1)) (dget result "stdout" (PStr ""))
                   ("Formal Verification Failed:" ++ nl ++ py_str (dget result "stderr" (PStr "")))
                   (dget result "diagnostics" (PList []))
                   [("error", PStr "formal_verification_failed"); ("files", strs files)] route))
        | Ok [] => Ok None
        | Err e => Ok (Some (formal_failure (PInt 1) (PStr "")
                     ("Failed to execute formal verification: " ++ exc_str e) (PList [])
                     [("error", PStr "formal_verification_execution_error")] route))
        end
  end.

(** ** Classification *)

Definition recovery_dict (failure_class fingerprint rationale retry_target context_scope plan_action : string)
    : dict :=
  [("failure_class", PStr failure_class); ("failure_fingerprint", PStr fingerprint);
   ("rationale", PStr rationale); ("retry_target", PStr retry_target);
   ("context_scope", PStr context_scope); ("plan_action", PStr plan_action)].

(** The recovery for the failing [result]. *)
Definition classify_result (tool_results : list dict) (current_loop : Z) (result : dict) : dict * string :=
  let tool := py_str (dget result "tool" (PStr "")) in
  let stderr := py_str (dget result "stderr" (PStr "")) in
  let artifacts := artifacts_of result in
  let diagnostics := _extract_diagnostics result in
  let fp := _failure_fingerprint result diagnostics in
  let error_tag := lower (str_strip (dget artifacts "error" (PStr ""))) in
  if _is_architecture_mismatch tool diagnostics stderr artifacts then
    (recovery_dict "architecture_mismatch" fp "tool failure indicates repository/context shape mismatch"
       "context_builder" "full_reset" "discard_reset", "architecture_mismatch_detected")
  else if String.eqb error_tag "formal_verification_failed" then
    (recovery_dict "formal_verification_failed" fp
       "Symbolic proof checker rejected the implementation. The logic must be mathematically verified."
       "planner" "working_set" "amend", "formal_verification_failed")
  else if str_in error_tag ["tool_call_budget_exceeded"; "patch_size_budget_exceeded"] then
    (recovery_dict "budget_exceeded" fp "the bounded execution budget blocked the current plan"
       "planner" "working_set" "amend", error_tag)
  else if _is_test_failure_post_change tool diagnostics stderr (py_str (dget result "stdout" (PStr "")))
            tool_results then
    (recovery_dict "test_failure_post_change" fp
       "test failed after a patch was applied; coder should attempt a localized repair before broader replanning"
       "coder" "working_set" "amend", "test_failure_post_change")
  else if patch_applied tool_results then
    (recovery_dict "localized_verification_failure" fp
       "verification failed after a bounded patch; coder should attempt a localized repair before broader replanning"
       "coder" "working_set" "amend", "localized_verification_failure")
  else if 2 <=? current_loop then
    (recovery_dict "repeated_verification_failure" fp
       "repeated failures require recovery routing before replanning" "router" "working_set" "amend",
     "repeated_verification_failure")
  else
    (recovery_dict "verification_failed" fp "verification found a failing tool result"
       "planner" "working_set" "keep", "verification_failed").

(** The latest failing result decides. *)
Definition _classify_retry (tool_results : list dict) (current_loop : Z) : dict * string :=
  match List.find (fun r => negb (result_ok r)) (List.rev tool_results) with
  | Some result => classify_result tool_results current_loop result
  | None =>
      (recovery_dict "verification_failed" "verification_failed"
         "verification reported a failure without a detailed tool result" "planner" "working_set" "keep",
       "verification_failed")
  end.

Definition text_or (d : dict) (k dflt : string) : string := str_or (str_strip (dget d k (PStr dflt))) dflt.

(** [RecoveryAction(...)]; the payload is its dump. *)
Definition _recovery_action_payload (recovery : dict) : res RecoveryAction :=
  let! t := parse_literal (text_or recovery "retry_target" "planner") in
  let! s := parse_literal (text_or recovery "context_scope" "working_set") in
  let! a := parse_literal (text_or recovery "plan_action" "keep") in
  Ok {| ra_failure_class := str_strip (dget recovery "failure_class" (PStr ""));
        ra_failure_fingerprint := str_strip (dget recovery "failure_fingerprint" (PStr ""));
        ra_rationale := str_strip (dget recovery "rationale" (PStr ""));
        ra_retry_target := t; ra_context_scope := s; ra_plan_action := a |}.

Definition _recovery_packet_payload (action : RecoveryAction) (current_loop : Z)
    (loop_summary last_check discard_reason : string) : RecoveryPacket :=
  {| rp_action := action; rp_loop := Z.max current_loop 0; rp_origin := "verifier"; rp_summary := loop_summary;
     rp_last_check := last_check; rp_discard_reason := discard_reason |}.

(** ** The handoff to the next node *)

Definition nonblank_texts (l : list pyval) : list string :=
  List.filter (fun s => negb (String.eqb s "")) (List.map str_strip l).

(** Order-preserving removal of duplicates. *)
Definition dedupe (l : list string) : list string :=
  fold_left (fun acc x => if str_in x acc then acc else (acc ++ [x])%list) l [].

Definition handoff_texts (consumer : string) : string * list string * list string :=
  if String.eqb consumer "coder" then
    ("Prepare a localized repair using the current plan and the latest verifier evidence.",
     ["Stay within the current file scope unless evidence proves a broader change is required.";
      "Prefer amending the existing bounded plan over broad replanning."],
     ["The localized failure is addressed without broadening scope unnecessarily."])
  else if String.eqb consumer "context_builder" then
    ("Rebuild repository context before the next bounded planning iteration.",
     ["Discard stale working-set assumptions before replanning."],
     ["The next context snapshot resolves the detected architecture mismatch."])
  else if String.eqb consumer "router" then
    ("Re-route the task after repeated verification failures.",
     ["Choose a stronger recovery topology before executing again."],
     ["The next route accounts for repeated failure evidence."])
  else
    ("Replan the next bounded iteration using the latest verifier evidence.",
     ["Prefer a bounded next step."],
     ["The next action addresses the verifier evidence."]).

Definition handoff_scope (state active_handoff : dict) : list string :=
  let active_scope := nonblank_texts (list_or_empty (dget active_handoff "file_scope" (PList []))) in
  let plan := dict_or_empty (dget state "plan" (PDict [])) in
  let touched := flat_map (fun step => nonblank_texts (list_or_empty (dget step "files_touched" (PList []))))
                          (dicts_of (list_or_empty (dget plan "steps" (PList [])))) in
  dedupe (active_scope ++ touched).

Definition evidence_if (kind detail ref : string) : list HandoffEvidence :=
  if String.eqb detail "" then [] else [{| he_kind := kind; he_detail := detail; he_ref := ref |}].

Definition _next_handoff_payload (state report : dict) (checks : list VerificationCheck) (current_loop : Z)
    : option AgentHandoff :=
  let consumer := str_strip (dget report "retry_target" (PStr "")) in
  if negb (str_in consumer ["planner"; "coder"; "context_builder"; "router"]) then None
  else
    let request := str_strip (dget state "request" (PStr "")) in
    let failure_class := str_strip (dget report "failure_class" (PStr "")) in
    let summary := str_or (str_strip (dget report "loop_summary" (PStr "")))
                     (match checks with c :: _ => strip (vc_summary c) | [] => "" end) in
    let active_handoff := dict_or_empty (dget state "active_handoff" (PDict [])) in
    let prior_objective := str_strip (dget active_handoff "objective" (PStr "")) in
    let '(objective, constraints, acceptance_checks) := handoff_texts consumer in
    Some {| ah_producer := "verifier"; ah_consumer := consumer; ah_objective := objective;
            ah_file_scope := handoff_scope state active_handoff;
            ah_evidence := evidence_if "request" request "user_request"
              ++ evidence_if "verification" summary (str_or failure_class "verification_failed")
              ++ evidence_if "prior_handoff" prior_objective (py_str (dget active_handoff "consumer" (PStr "")));
            ah_constraints := constraints; ah_acceptance_checks := acceptance_checks; ah_retry_budget := 1;
            ah_provenance := ["verifier:loop:" ++ str_of_Z current_loop;
                              "failure_class:" ++ str_or failure_class "verification_failed"] |}.

(** ** Loop summaries and recovery facts *)

Definition _loop_summary_entry (report : dict) (current_loop : Z) (criteria : list string) (checks : list dict)
    : dict :=
  let recovery_packet := dict_or_empty (dget report "recovery_packet" (PDict [])) in
  let unmet := List.map (fun e => str_strip (dget e "criterion" (PStr "")))
                        (List.filter (fun e => negb (result_ok e)) checks) in
  [("loop", PInt current_loop); ("failure_class", dget report "failure_class" (PStr ""));
   ("failure_fingerprint", dget report "failure_fingerprint" (PStr ""));
   ("retry_target", dget report "retry_target" PNone); ("plan_action", dget report "plan_action" (PStr "keep"));
   ("context_scope", dget recovery_packet "context_scope" (PStr ""));
   ("summary", dget report "loop_summary" (PStr "")); ("last_check", dget recovery_packet "last_check" (PStr ""));
   ("discard_reason", dget recovery_packet "discard_reason" (PStr "")); ("recovery", dget report "recovery" PNone);
   ("recovery_packet", match recovery_packet with [] => PNone | _ => PDict recovery_packet end);
   ("acceptance_criteria", strs criteria); ("acceptance_unmet", strs unmet);
   ("acceptance_ok", dget report "acceptance_ok" (PBool false))].

(** [int(entry.get(k, 0) or 0)]. *)
Definition int_field (e : dict) (k : string) : res Z := py_int (py_or (dget e k (PInt 0)) (PInt 0)).

Definition fact_rank (e : dict) : res (Z * Z) :=
  let! s := int_field e "salience" in let! l := int_field e "loop" in Ok (s, l).

(** [sort(key=.., reverse=True)]. *)
Definition rank_before (a b : (Z * Z) * dict) : bool :=
  let '((s1, l1), _) := a in let '((s2, l2), _) := b in
  (s2 <? s1) || ((s2 =? s1) && (l2 <? l1)).

Definition fact_fingerprint (e : dict) : string := str_strip (dget e "failure_fingerprint" (PStr "")).

Definition recovery_fact (report recovery_packet : dict) (current_loop : Z) : dict :=
  let plan_action := str_or (str_strip (dget report "plan_action" (PStr "keep"))) "keep" in
  let salience :=
    if String.eqb plan_action "discard_reset" then 10
    else if String.eqb (str_strip (dget report "retry_target" (PStr ""))) "router" then 8 else 6 in
  [("kind", PStr "recovery_fact"); ("loop", PInt current_loop);
   ("failure_class", PStr (str_strip (dget report "failure_class" (PStr ""))));
   ("failure_fingerprint", PStr (fact_fingerprint report));
   ("summary", PStr (str_strip (dget report "loop_summary" (PStr ""))));
   ("last_check", PStr (str_strip (dget recovery_packet "last_check" (PStr ""))));
   ("context_scope", PStr (str_strip (dget recovery_packet "context_scope" (PStr ""))));
   ("retry_target", dget report "retry_target" PNone); ("plan_action", PStr plan_action);
   ("salience", PInt salience)].

Definition _updated_recovery_facts (state report : dict) (current_loop : Z) : res (list dict) :=
  let facts := dicts_of (list_or_empty (dget state "facts" (PList []))) in
  match dict_or_empty (dget report "recovery_packet" (PDict [])) with
  | [] => Ok facts
  | recovery_packet =>
      let next_fact := recovery_fact report recovery_packet current_loop in
      let fingerprint := fact_fingerprint next_fact in
      let updated := (List.filter (fun e => negb (String.eqb (fact_fingerprint e) fingerprint)) facts
                      ++ [next_fact])%list in
      let! keyed := map_res (fun e => let! r := fact_rank e in Ok (r, e)) updated in
      Ok (firstn 12 (List.map snd (py_sorted rank_before keyed)))
  end.

(** ** Acceptance *)

Definition criteria_of (plan : dict) : res (list string) :=
  let! raw := py_iter (dget plan "acceptance_criteria" (PList [])) in
  Ok (flat_map (fun e => match e with
                         | PStr s => if String.eqb (strip s) "" then [] else [strip s]
                         | _ => [] end) raw).

Definition has_repo_context (repo_context : dict) : bool :=
  truthy (dget repo_context "repo_map" PNone)
  || (match dget repo_context "top_level" (PList []) with PList (_ :: _) => true | _ => false end)
  || truthy (dget repo_context "structural_ast_map" PNone) || truthy (dget repo_context "semantic_hits" PNone).

Definition acceptance_check (repo_ok steps_ok passed any_success : bool) (criterion : string) : dict :=
  let low := lower criterion in
  let entry ok yes no := [("criterion", PStr criterion); ("ok", PBool ok); ("detail", PStr (if ok then yes else no))] in
  if contains "context" low then entry repo_ok "repo_context_available" "repo_context_missing"
  else if contains "bounded" low || contains "next step" low then
    entry steps_ok "bounded_plan_available" "bounded_plan_missing"
  else if contains "request" low || contains "answered" low || contains "executed" low then
    entry (passed && (any_success || steps_ok)) "request_path_available" "request_path_incomplete"
  else entry passed "verification_passed" "verification_failed".

Definition _evaluate_acceptance_checks (state : dict) (tool_results : list dict) (checks : list VerificationCheck)
    : res (list dict) :=
  let plan := dict_or_empty (dget state "plan" (PDict [])) in
  let! criteria := criteria_of plan in
  let repo_context := dict_or_empty (dget state "repo_context" (PDict [])) in
  let steps_ok := match dget plan "steps" (PList []) with PList (_ :: _) => true | _ => false end in
  let passed := match checks with [] => true | _ => false end in
  Ok (List.map (acceptance_check (has_repo_context repo_context) steps_ok passed (existsb result_ok tool_results))
               criteria).

Definition _acceptance_failure (acceptance_checks : list dict) : dict * string * string :=
  match List.filter (fun e => negb (result_ok e)) acceptance_checks with
  | [] => ([], "", "")
  | (first :: _) as unmet =>
      let summary := str_or (str_strip (dget first "criterion" (PStr "acceptance criteria unmet")))
                            "acceptance criteria unmet" in
      let seed := join "|" (List.map (fun e => str_strip (dget e "criterion" (PStr ""))) unmet) in
      (recovery_dict "acceptance_criteria_unmet" (short_digest seed)
         "verification passed but acceptance criteria are not yet satisfied" "planner" "working_set" "amend",
       "acceptance_criteria_unmet", summary)
  end.

(** ** Checks and telemetry *)

Definition failure_summary (result : dict) (diagnostics : list dict) : string :=
  str_or (first_summary diagnostics) (_first_nonempty_line (py_str (dget result "stderr" (PStr "")))).

Definition _diagnostics_telemetry_entries (tool_results : list dict) (current_loop : Z) (report : dict) : list dict :=
  List.map (fun result =>
    let diagnostics := _extract_diagnostics result in
    [("loop", PInt current_loop); ("tool", PStr (str_strip (dget result "tool" (PStr ""))));
     ("failure_class", PStr (str_strip (dget report "failure_class" (PStr ""))));
     ("failure_fingerprint", PStr (_failure_fingerprint result diagnostics));
     ("error", PStr (str_strip (dget (artifacts_of result) "error" (PStr ""))));
     ("summary", PStr (failure_summary result diagnostics));
     ("diagnostic_count", PInt (Z.of_nat (length diagnostics)))])
    (List.filter (fun r => negb (result_ok r)) tool_results).

Fixpoint build_checks_from (idx : Z) (tool_results : list dict) : res (list VerificationCheck) :=
  match tool_results with
  | [] => Ok []
  | result :: rest =>
      if result_ok result then build_checks_from (idx + 1) rest
      else
        let! exit_code := try_except (py_int (dget result "exit_code" (PInt 1))) is_type_or_value_error (fun _ => Ok 1) in
        let check := {| vc_name := "tool_failure_" ++ str_of_Z (idx + 1); vc_ok := false;
                        vc_tool := py_str (dget result "tool" (PStr "unknown")); vc_exit_code := exit_code;
                        vc_summary := failure_summary result (_extract_diagnostics result) |} in
        let! checks := build_checks_from (idx + 1) rest in
        Ok (check :: checks)
  end.

Definition _build_checks (tool_results : list dict) : res (list VerificationCheck) := build_checks_from 0 tool_results.

(** The synthetic checks for blocking GLEAN summaries in the event log. *)
Definition glean_check (evt : pyval) : res (list VerificationCheck) :=
  match evt with
  | PDict e =>
      if py_eq (dget e "kind" PNone) (PStr "glean") then
        match dget e "data" (PDict []) with
        | PDict data =>
            let! n := int_field data "blocking_violations" in
            Ok (if 0 <? n then
                  [{| vc_name := "glean_blocking_violations"; vc_ok := false; vc_tool := "glean_audit";
                      vc_exit_code := 1;
                      vc_summary := "GLEAN audit found " ++ str_of_Z n ++ " blocking violation(s)" |}]
                else [])
        | _ => Ok []
        end
      else Ok []
  | _ => Ok []
  end.

Definition glean_checks (state : dict) : res (list VerificationCheck) :=
  let! cs := map_res glean_check (list_or_empty (dget state "_trace_events" (PList []))) in Ok (concat cs).

(** ** Verification calls *)

Definition batch_failure (stderr error : string) (route : dict) : dict :=
  [("tool", PStr "verification_batch"); ("ok", PBool false); ("exit_code", PInt 1); ("stdout", PStr "");
   ("stderr", PStr stderr); ("diagnostics", PList []); ("timing_ms", PInt 0);
   ("artifacts", PDict [("error", PStr error)]); ("route", PDict route)].

Definition verification_call (route checkpoint call : dict) : res dict :=
  let! input := py_dict (dget call "input" (PDict [])) in
  Ok [("tool", PStr (py_str (dget call "tool" (PStr "")))); ("input", PDict (add_metadata route checkpoint input))].

Definition verification_budget_message (used planned limit : Z) : string :=
  "tool-call budget exceeded during verification: used=" ++ str_of_Z used ++ " planned=" ++ str_of_Z planned
  ++ " limit=" ++ str_of_Z limit.

Definition _run_verification_calls (env : VEnv) (state : dict) (tool_results : list dict)
    : res (list dict * dict) :=
  let budgets := dict_or_empty (dget state "budgets" (PDict [])) in
  if negb (truthy (dget state "_runner_enabled" (PBool true))) then Ok (tool_results, budgets)
  else
    let plan := dict_or_empty (dget state "plan" (PDict [])) in
    let! raw := py_iter (dget plan "verification" (PList [])) in
    match dicts_of raw with
    | [] => Ok (tool_results, budgets)
    | verification_calls =>
        let url := verifier_url state in
        let route := tool_routing_metadata state "verifier" in
        let planned := Z.of_nat (length verification_calls) in
        if negb (_validate_base_url url) then
          Ok ((tool_results ++ [batch_failure "invalid runner base url" "invalid_base_url" route])%list, budgets)
        else
          let! limit := int_field state "_budget_max_tool_calls_per_loop" in
          let! used := int_field budgets "tool_calls_used" in
          if (0 <? limit) && (limit <? used + planned) then
            Ok ((tool_results ++ [batch_failure (verification_budget_message used planned limit)
                                    "tool_call_budget_exceeded" route])%list, budgets)
          else
            let checkpoint := dict_or_empty (dget state "_checkpoint" (PDict [])) in
            let! calls := map_res (verification_call route checkpoint) verification_calls in
            let! _ := v_client env url (opt_text (dget state "_runner_api_key" PNone))
                        (opt_text (dget state "_request_id" PNone)) in
            let! batch_results := batch_execute_tools (v_net_calls env) calls in
            Ok ((tool_results ++ batch_results)%list, dset "tool_calls_used" (PInt (used + planned)) budgets)
    end.

(** ** The report *)

(** The report of a failure with its recovery, shared by the two failing branches. *)
Definition failure_report (state : dict) (checks : list VerificationCheck) (acceptance : list dict)
    (action : RecoveryAction) (last_check discard_reason : string) (current_loop : Z) : VerifierReport :=
  let loop_summary := ra_failure_class action ++ ": " ++ last_check in
  {| vr_ok := false; vr_checks := checks; vr_acceptance_ok := false; vr_acceptance_checks := acceptance;
     vr_retry_target := Some (ra_retry_target action); vr_plan_action := ra_plan_action action;
     vr_failure_class := ra_failure_class action; vr_failure_fingerprint := ra_failure_fingerprint action;
     vr_recovery := Some action;
     vr_recovery_packet := Some (_recovery_packet_payload action current_loop loop_summary last_check discard_reason);
     vr_next_handoff := _next_handoff_payload state
       [("retry_target", lit (ra_retry_target action)); ("failure_class", PStr (ra_failure_class action));
        ("loop_summary", PStr loop_summary)] checks current_loop;
     vr_loop_summary := loop_summary |}.

Definition passed_report (acceptance : list dict) : VerifierReport :=
  {| vr_ok := true; vr_checks := []; vr_acceptance_ok := true; vr_acceptance_checks := acceptance;
     vr_retry_target := None; vr_plan_action := keep; vr_failure_class := ""; vr_failure_fingerprint := "";
     vr_recovery := None; vr_recovery_packet := None; vr_next_handoff := None;
     vr_loop_summary := "verification_passed" |}.

(** The [try] block: the report and the discard reason. *)
Definition make_report (state : dict) (tool_results : list dict) (checks : list VerificationCheck)
    (current_loop : Z) : res (VerifierReport * string) :=
  let! acceptance := _evaluate_acceptance_checks state tool_results checks in
  match checks with
  | first :: _ =>
      let '(recovery, discard_reason) := _classify_retry tool_results current_loop in
      let! action := _recovery_action_payload recovery in
      Ok (failure_report state checks acceptance action (vc_summary first) discard_reason current_loop, discard_reason)
  | [] =>
      if forallb result_ok acceptance then Ok (passed_report acceptance, "")
      else
        let '(recovery, discard_reason, last_check) := _acceptance_failure acceptance in
        let! action := _recovery_action_payload recovery in
        Ok (failure_report state [] acceptance action last_check discard_reason current_loop, discard_reason)
  end.

(** The fixed report of an internal failure. *)
Definition fallback_report (failure_class loop_summary : string) : dict :=
  [("ok", PBool false); ("checks", PList []); ("acceptance_ok", PBool false); ("acceptance_checks", PList []);
   ("retry_target", PStr "planner"); ("plan_action", PStr "keep"); ("failure_class", PStr failure_class);
   ("failure_fingerprint", PStr failure_class); ("recovery", PNone); ("recovery_packet", PNone);
   ("next_handoff", PNone); ("loop_summary", PStr loop_summary)].

(** The report without its null nullable-reference fields, as it is validated. *)
Definition report_for_validation (report : dict) : dict :=
  List.filter (fun kv => negb (str_in (fst kv) ["recovery"; "recovery_packet"; "next_handoff"] && is_none (snd kv)))
              report.

Definition final_report (env : VEnv) (r : res (VerifierReport * string)) : dict * string :=
  let '(report, discard_reason) :=
    match r with
    | Ok (report, reason) => (VerifierReport_dump report, reason)
    | Err _ => (fallback_report "verifier_failure" "verifier failed to classify results", "")
    end in
  if v_schema_ok env (report_for_validation report) then (report, discard_reason)
  else (fallback_report "schema_validation_failed" "schema_validation_failed", discard_reason).

(** ** Writing the state *)

(** What a failing report adds: loop summaries, facts and telemetry. *)
Definition failure_updates (state report : dict) (tool_results : list dict) (current_loop : Z)
    : res (list pyval * pyval * pyval) :=
  let loop_summaries := list_or_empty (dget state "loop_summaries" (PList [])) in
  if result_ok report then
    Ok (loop_summaries, dget state "facts" (PList []), dget state "telemetry" (PDict []))
  else
    let plan := dict_or_empty (dget state "plan" (PDict [])) in
    let criteria := nonblank_texts (list_or_empty (dget plan "acceptance_criteria" (PList []))) in
    let checks := dicts_of (list_or_empty (dget report "acceptance_checks" (PList []))) in
    let entry := PDict (_loop_summary_entry report current_loop criteria checks) in
    let! facts := _updated_recovery_facts state report current_loop in
    let telemetry := telemetry_of state in
    let diagnostics :=
      (list_or_empty (dget telemetry "diagnostics" (PList []))
       ++ List.map PDict (_diagnostics_telemetry_entries tool_results current_loop report))%list in
    let! compression := get_compression_summary state in
    let telemetry := dset "compression_summary" (PDict compression)
                       (dset "diagnostics" (PList (last_n 20 diagnostics)) telemetry) in
    Ok (last_n 5 (loop_summaries ++ [entry])%list, PList (List.map PDict facts), PDict telemetry).

(** The fields that steer the next iteration. *)
Definition steer (report : dict) (discard_reason : string) (out : dict) : dict :=
  if result_ok report then
    dset "plan_discard_reason" (PStr "")
      (dset "plan_discarded" (PBool false)
        (dset "context_reset_requested" (PBool false)
          (dset "recovery_packet" PNone (dset "active_handoff" PNone out))))
  else if py_eq (dget report "plan_action" PNone) (PStr "discard_reset") then
    dset "plan_discard_reason" (PStr (str_or discard_reason "architecture_mismatch_detected"))
      (dset "plan_discarded" (PBool true)
        (dset "context_reset_requested" (PBool true) (dset "plan" PNone out)))
  else out.

Definition verified_state (state report budgets : dict) (tool_results : list dict)
    (loop_summaries : list pyval) (facts telemetry : pyval) : dict :=
  let recovery_packet := match dget report "recovery_packet" (PDict []) with PDict p => PDict p | _ => PNone end in
  dset "telemetry" telemetry
    (dset "loop_summaries" (PList loop_summaries)
      (dset "recovery_packet" recovery_packet
        (dset "facts" facts
          (dset "retry_target" (dget report "retry_target" PNone)
            (dset "active_handoff" (dget report "next_handoff" PNone)
              (dset "budgets" (PDict budgets)
                (dset "verification" (PDict report)
                  (dset "tool_results" (PList (List.map PDict tool_results)) state)))))))).

(** The verification calls with their [except] branch. *)
Definition verification_results (env : VEnv) (state : dict) : list dict * dict :=
  let tool_results := _tool_results state in
  match _run_verification_calls env state tool_results with
  | Ok rb => rb
  | Err e => ((tool_results ++ [batch_failure (exc_str e) "verifier_execution_failed"
                                 (tool_routing_metadata state "verifier")])%list,
              dict_or_empty (dget state "budgets" (PDict [])))
  end.

(** All results of the iteration: the verification calls and the formal check. *)
Definition all_results (env : VEnv) (state : dict) : res (list dict * dict) :=
  let '(tool_results, budgets) := verification_results env state in
  let! files := _requires_formal_verification state tool_results in
  match files with
  | [] => Ok (tool_results, budgets)
  | _ =>
      if truthy (dget state "_runner_enabled" (PBool true)) then
        let! failure := _run_formal_verification env state files (tool_routing_metadata state "verifier") in
        match failure with
        | Some ((_ :: _) as f) => Ok ((tool_results ++ [f])%list, budgets)
        | _ => Ok (tool_results, budgets)
        end
      else Ok (tool_results, budgets)
  end.

(** The body of the node between its two events. *)
Definition verify (env : VEnv) (state : dict) : res dict :=
  let! rb := all_results env state in
  let '(tool_results, budgets) := rb in
  let! tool_checks := _build_checks tool_results in
  let! audit_checks := glean_checks state in
  let checks := (tool_checks ++ audit_checks)%list in
  let! current_loop := int_field (dict_or_empty (dget state "budgets" (PDict []))) "current_loop" in
  let '(report, discard_reason) := final_report env (make_report state tool_results checks current_loop) in
  let! updates := failure_updates state report tool_results current_loop in
  let '(loop_summaries, facts, telemetry) := updates in
  Ok (steer report discard_reason (verified_state state report budgets tool_results loop_summaries facts telemetry)).

Definition verifier_end_event (out : dict) : dict :=
  let report := dict_or_empty (dget out "verification" (PDict [])) in
  [("name", PStr "verifier"); ("phase", PStr "end"); ("ok", PBool (result_ok report));
   ("failure_class", dget report "failure_class" (PStr ""))].

Definition verifier (env : VEnv) (state : dict) : res dict :=
  let! state := ensure_history_policy state in
  let! state := record_model_route state "verifier" "lint_reflection" "router" in
  let! state := append_event (v_ts_start env) state "node" [("name", PStr "verifier"); ("phase", PStr "start")] in
  let! out := verify env state in
  let! out := append_event (v_ts_end env) out "node" (verifier_end_event out) in
  prune_post_verification_history out.
