(* ===== verification/VerifierProps.v ===== *)
(** * Properties of the verifier node

    When the report is positive, how failures are classified, how the report
    steers the next iteration, and the bounds of the failure memory. *)
From Stdlib Require Import ZArith Lia String Ascii List Bool Sorted.
From stdpp Require Import base tactics list strings option.
From S2P Require Import Prelude PyStr PyFloat PyVal Sha256 Regex State Memory MemoryProps ModelRouting RunnerClient Executor Verifier.
Local Open Scope string_scope.
Local Open Scope Z_scope.

(** ** The report of a run *)

Definition report_of (out : dict) : dict := dict_or_empty (dget out "verification" (PDict [])).

Lemma build_checks_nil i results :
  build_checks_from i results = Ok [] <-> forallb result_ok results = true.
Proof.
  revert i. induction results as [|r rest IH]; intros i; simpl; [done|].
  destruct (result_ok r); simpl; [apply IH|].
  destruct (try_except _ _ _); simpl; [|done].
  destruct (build_checks_from (i + 1) rest); done.
Qed.

(** The checks are one per failing result, in order, and all negative. *)
Lemma build_checks_length i results cs :
  build_checks_from i results = Ok cs ->
  length cs = length (List.filter (fun r => negb (result_ok r)) results) /\ List.Forall (fun c => vc_ok c = false) cs.
Proof.
  revert i cs. induction results as [|r rest IH]; intros i cs; simpl.
  - intros [= <-]. by split.
  - destruct (result_ok r); simpl; [apply IH|]. destruct (try_except _ _ _); simpl; [|done].
    destruct (build_checks_from (i + 1) rest) as [cs'|] eqn:E; simpl; [|done]. intros [= <-].
    destruct (IH _ _ E) as [Hl Hf]. simpl. split; [by rewrite Hl|by constructor].
Qed.

(** What one run of the body goes through. *)
Inductive verified (env : VEnv) (state out : dict) (results : list dict) (report : dict) : Prop :=
| Verified budgets tools audit loop reason summaries facts telemetry :
    all_results env state = Ok (results, budgets) ->
    _build_checks results = Ok tools ->
    glean_checks state = Ok audit ->
    int_field (dict_or_empty (dget state "budgets" (PDict []))) "current_loop" = Ok loop ->
    final_report env (make_report state results (tools ++ audit) loop) = (report, reason) ->
    failure_updates state report results loop = Ok (summaries, facts, telemetry) ->
    out = steer report reason (verified_state state report budgets results summaries facts telemetry) ->
    verified env state out results report.

Lemma verify_inv env state out : verify env state = Ok out -> exists results report, verified env state out results report.
Proof.
  unfold verify. intros H. apply bind_Ok in H as ([results budgets] & Hr & H).
  apply bind_Ok in H as (tools & Ht & H). apply bind_Ok in H as (audit & Ha & H).
  apply bind_Ok in H as (loop & Hl & H).
  destruct (final_report _ _) as [report reason] eqn:Hf.
  apply bind_Ok in H as ([[summaries facts] telemetry] & Hu & H). injection H as <-.
  exists results, report. econstructor; eauto.
Qed.

Definition steer_keys : list string :=
  ["active_handoff"; "recovery_packet"; "context_reset_requested"; "plan_discarded"; "plan_discard_reason"; "plan"].

Definition report_keys : list string :=
  ["telemetry"; "loop_summaries"; "facts"; "retry_target"; "budgets"; "verification"; "tool_results"].

Lemma str_in_app k l m : str_in k (l ++ m) = str_in k l || str_in k m.
Proof. apply existsb_app. Qed.

Lemma steer_frame report reason out k : str_in k steer_keys = false -> dlookup k (steer report reason out) = dlookup k out.
Proof.
  cbn. intros H. bool_prop. unfold steer.
  destruct (result_ok report); [|destruct (py_eq _ _); [|done]]; rewrite !dlookup_dset_ne by done; done.
Qed.

Lemma verified_report env state out results report :
  verified env state out results report ->
  report_of out = report /\ dget out "tool_results" PNone = PList (List.map PDict results).
Proof.
  intros [b t a l r s f te _ _ _ _ _ _ ->]. unfold report_of, dget.
  rewrite !steer_frame by reflexivity. unfold verified_state. dict_simpl. done.
Qed.

Lemma verified_results env state out results report :
  verified env state out results report -> _tool_results out = results.
Proof.
  intros [b t a l r s f te _ _ _ _ _ _ ->]. unfold _tool_results, dget. rewrite steer_frame by reflexivity.
  unfold verified_state. dict_simpl. cbn [list_or_empty]. apply dicts_of_map.
Qed.

(** The body writes no other key. *)
Lemma verified_frame env state out results report k :
  verified env state out results report -> str_in k (steer_keys ++ report_keys) = false -> dlookup k out = dlookup k state.
Proof.
  intros [b t a l r s f te _ _ _ _ _ _ ->]. rewrite str_in_app. intros H. apply orb_false_elim in H as [Hs H].
  rewrite steer_frame by done. cbn in H, Hs. bool_prop.
  unfold verified_state. rewrite !dlookup_dset_ne by done. done.
Qed.

(** ** When the report is positive *)

(** The conditions of a passed verification. *)
Definition iteration_ok (env : VEnv) (state : dict) (results : list dict) (acceptance : list dict) : Prop :=
  List.Forall (fun r => result_ok r = true) results /\ glean_checks state = Ok [] /\
  _evaluate_acceptance_checks state results [] = Ok acceptance /\
  List.Forall (fun e => result_ok e = true) acceptance /\
  v_schema_ok env (report_for_validation (VerifierReport_dump (passed_report acceptance))) = true.

Lemma make_report_ok state results checks loop report reason :
  make_report state results checks loop = Ok (report, reason) -> vr_ok report = true ->
  exists acceptance, checks = [] /\ _evaluate_acceptance_checks state results [] = Ok acceptance /\
    forallb result_ok acceptance = true /\ report = passed_report acceptance.
Proof.
  unfold make_report. intros H Hok. apply bind_Ok in H as (acc & Ha & H). destruct checks as [|c cs].
  - destruct (forallb result_ok acc) eqn:E.
    + injection H as <- <-. by exists acc.
    + destruct (_acceptance_failure acc) as [[rec dr] lc]. apply bind_Ok in H as (act & _ & H).
      injection H as <- <-. discriminate Hok.
  - destruct (_classify_retry _ _) as [rec dr]. apply bind_Ok in H as (act & _ & H).
    injection H as <- <-. discriminate Hok.
Qed.

Lemma dump_result_ok report : result_ok (VerifierReport_dump report) = vr_ok report.
Proof. done. Qed.

Lemma final_report_ok env r report reason :
  final_report env r = (report, reason) -> result_ok report = true ->
  exists rep, r = Ok (rep, reason) /\ report = VerifierReport_dump rep /\ vr_ok rep = true /\
    v_schema_ok env (report_for_validation report) = true.
Proof.
  unfold final_report. destruct r as [[rep rs]|e].
  - destruct (v_schema_ok _ _) eqn:E; intros [= <- <-]; [|done]. rewrite dump_result_ok. eauto.
  - destruct (v_schema_ok _ _) eqn:E; intros [= <- <-]; done.
Qed.

Lemma forallb_Forall {A} (f : A -> bool) l : forallb f l = true <-> List.Forall (fun x => f x = true) l.
Proof. rewrite forallb_forall, List.Forall_forall. done. Qed.

(** C15: soundness and completeness of the verdict: the report of a completed run
    is positive exactly when every tool result of the iteration succeeded (the
    accumulated ones, the verification calls and the formal check), no GLEAN
    summary in the event log has a blocking violation, every acceptance criterion
    of the plan evaluates to met, and the report passes its schema. *)
Theorem verify_ok_iff env state out :
  verify env state = Ok out ->
  exists results budgets, all_results env state = Ok (results, budgets) /\
    dget out "tool_results" PNone = PList (List.map PDict results) /\
    (result_ok (report_of out) = true <-> exists acceptance, iteration_ok env state results acceptance).
Proof.
  intros H. apply verify_inv in H as (results & report & V).
  destruct (verified_report _ _ _ _ _ V) as [-> Ht].
  destruct V as [b tools audit loop reason s f te Hr Hb Hg _ Hf _ _].
  exists results, b. split; [done|]. split; [done|]. split.
  - intros Hok. apply final_report_ok in Hf as (rep & Hm & -> & Hrep & Hs); [|done].
    apply make_report_ok in Hm as (acc & Hc & He & Ha & ->); [|done].
    apply app_eq_nil in Hc as [-> ->]. exists acc. unfold _build_checks in Hb. apply build_checks_nil in Hb.
    repeat split; try done; by apply forallb_Forall.
  - intros (acc & Hall & Hg' & He & Ha & Hs).
    apply forallb_Forall in Hall, Ha. apply (build_checks_nil 0) in Hall. unfold _build_checks in Hb.
    rewrite Hall in Hb. injection Hb as <-. rewrite Hg in Hg'. injection Hg' as ->.
    unfold final_report, make_report in Hf. cbn [app] in Hf. rewrite He in Hf. cbn [bind_res] in Hf.
    rewrite Ha, Hs in Hf. by injection Hf as <- _.
Qed.

(** A runner that answers every call of a batch with success. *)
Definition helpful (ok : bool) : network := fun _ _ =>
  Success (Ok (PDict [("results", PList [PDict [("tool", PStr "run_tests"); ("ok", PBool ok)]])])).

Definition sample_venv (ok : bool) : VEnv :=
  {| v_client _ _ _ := Ok tt; v_net_calls := helpful ok; v_net_formal := helpful true; v_schema_ok _ := true;
     v_ts_start := 1; v_ts_end := 2 |}.

Definition sample_vstate : dict :=
  [("plan", PDict [("verification", PList [PDict [("tool", PStr "run_tests"); ("input", PDict [])]]);
                   ("steps", PList [PDict []]); ("acceptance_criteria", PList [PStr "bounded next step"])]);
   ("budgets", PDict [("current_loop", PInt 1)])].

Definition body (ok : bool) (state : dict) : dict :=
  match verify (sample_venv ok) state with Ok out => out | Err _ => [] end.

Lemma verify_ok_iff_witness :
  exists results, dget (body true sample_vstate) "tool_results" PNone = PList (List.map PDict results) /\
    List.Forall (fun r => result_ok r = true) results /\ length results = 1%nat.
Proof.
  assert (H : verify (sample_venv true) sample_vstate = Ok (body true sample_vstate)) by (vm_compute; reflexivity).
  destruct (verify_ok_iff (sample_venv true) sample_vstate _ H) as (results & budgets & Hr & Ht & Hiff).
  assert (Hok : result_ok (report_of (body true sample_vstate)) = true) by (vm_compute; reflexivity).
  destruct (proj1 Hiff Hok) as (acc & Hall & _).
  exists results. split; [exact Ht|]. split; [exact Hall|].
  vm_compute in Hr. injection Hr as <- _. reflexivity.
Defined.

(** ** Failures persist *)

Lemma verification_results_prefix env state : _tool_results state `prefix_of` fst (verification_results env state).
Proof.
  unfold verification_results. destruct (_run_verification_calls _ _ _) as [[rs b]|e] eqn:E; cbn [fst].
  - unfold _run_verification_calls in E. destruct (negb _); [by injection E as <- _|].
    apply bind_Ok in E as (raw & _ & E). destruct (dicts_of raw) as [|c cs]; [by injection E as <- _|].
    cbv zeta in E. destruct (negb _); [injection E as <- _; by apply prefix_app_r|].
    apply bind_Ok in E as (limit & _ & E). apply bind_Ok in E as (used & _ & E).
    destruct (_ && _); [injection E as <- _; by apply prefix_app_r|].
    apply bind_Ok in E as (calls & _ & E). apply bind_Ok in E as (u & _ & E). apply bind_Ok in E as (bs & _ & E).
    injection E as <- _. by apply prefix_app_r.
  - by apply prefix_app_r.
Qed.

Lemma all_results_prefix env state results budgets :
  all_results env state = Ok (results, budgets) -> _tool_results state `prefix_of` results.
Proof.
  pose proof (verification_results_prefix env state) as Hp. unfold all_results.
  destruct (verification_results env state) as [rs b]. cbn [fst] in Hp. intros H.
  apply bind_Ok in H as (files & _ & H). destruct files as [|f fs]; [by injection H as <- _|].
  destruct (truthy _); [|by injection H as <- _].
  apply bind_Ok in H as (fl & _ & H).
  destruct fl as [[|kv fl]|]; injection H as <- _; try done. by apply prefix_app_r.
Qed.

Lemma tool_results_frame state out :
  dlookup "tool_results" out = dlookup "tool_results" state -> _tool_results out = _tool_results state.
Proof. intros H. unfold _tool_results. by rewrite (dlookup_dget _ _ _ _ H). Qed.

(** The node around its body. *)
Inductive run_verifier (env : VEnv) (state out : dict) : Prop :=
| RunVerifier s1 s2 s3 b1 b2 :
    ensure_history_policy state = Ok s1 ->
    record_model_route s1 "verifier" "lint_reflection" "router" = Ok s2 ->
    append_event (v_ts_start env) s2 "node" [("name", PStr "verifier"); ("phase", PStr "start")] = Ok s3 ->
    verify env s3 = Ok b1 ->
    append_event (v_ts_end env) b1 "node" (verifier_end_event b1) = Ok b2 ->
    prune_post_verification_history b2 = Ok out -> run_verifier env state out.

Lemma verifier_inv env state out : verifier env state = Ok out -> run_verifier env state out.
Proof.
  unfold verifier. intros H. apply bind_Ok in H as (s1 & H1 & H). apply bind_Ok in H as (s2 & H2 & H).
  apply bind_Ok in H as (s3 & H3 & H). apply bind_Ok in H as (b1 & H4 & H). apply bind_Ok in H as (b2 & H5 & H).
  by apply (RunVerifier _ _ _ s1 s2 s3 b1 b2).
Qed.

(** What precedes the body touches the policy, the telemetry and the events only. *)
Lemma verifier_before env s s1 s2 s3 k :
  ensure_history_policy s = Ok s1 -> record_model_route s1 "verifier" "lint_reflection" "router" = Ok s2 ->
  append_event (v_ts_start env) s2 "node" [("name", PStr "verifier"); ("phase", PStr "start")] = Ok s3 ->
  str_in k ["history_policy"; "telemetry"; "_trace_events"] = false -> dlookup k s3 = dlookup k s.
Proof.
  intros H1 H2 H3 Hk. cbn in Hk. apply orb_false_elim in Hk as [K1 Hk]. apply orb_false_elim in Hk as [K2 Hk].
  apply orb_false_elim in Hk as [K3 _].
  rewrite (append_event_frame _ _ _ _ _ _ H3), (record_model_route_frame _ _ _ _ _ _ H2),
    (ensure_policy_frame _ _ _ H1); done.
Qed.

Lemma run_verifier_report env state out :
  run_verifier env state out ->
  exists s body, verify env s = Ok body /\ report_of out = report_of body /\ _tool_results s = _tool_results state /\
    (result_ok (report_of body) = false -> _tool_results out = _tool_results body).
Proof.
  intros [s1 s2 s3 b1 b2 H1 H2 H3 H4 H5 H6]. exists s3, b1. split; [done|].
  assert (Hr : report_of b2 = report_of b1).
  { unfold report_of. by rewrite (append_event_dget _ _ _ _ _ "verification" _ H5). }
  split; [|split].
  - rewrite <- Hr. unfold report_of. by rewrite (dlookup_dget _ _ _ _ (prune_post_frame _ _ "verification" H6 eq_refl)).
  - by apply tool_results_frame, (verifier_before env _ s1 s2).
  - intros Hf. apply verify_inv in H4 as (rs & report & V). destruct (verified_report _ _ _ _ _ V) as [Hrep _].
    rewrite Hrep in Hf. assert (Hv : dget b2 "verification" (PDict []) = PDict report).
    { rewrite (append_event_dget _ _ _ _ _ "verification" _ H5) by done. destruct V as [b t a l r s f te _ _ _ _ _ _ ->].
      unfold dget. rewrite steer_frame by reflexivity. unfold verified_state. by dict_simpl. }
    rewrite (ensure_policy_results _ _ (prune_post_failed _ _ _ H6 Hv Hf)).
    apply tool_results_frame, (append_event_frame _ _ _ _ _ "tool_results" H5 eq_refl).
Qed.

(** A failed tool result is never forgotten by the verifier: when any stored
    result failed, the report is negative, and the results the node leaves start
    with the stored ones, so the next run over them fails too, whatever its own
    tool calls return. *)
Theorem failures_persist env state out r :
  verifier env state = Ok out -> In r (_tool_results state) -> result_ok r = false ->
  result_ok (report_of out) = false /\ _tool_results state `prefix_of` _tool_results out /\ In r (_tool_results out).
Proof.
  intros H Hin Hr. apply verifier_inv, run_verifier_report in H as (s & body & Hv & Hrep & Hs & Ho).
  apply verify_inv in Hv as (results & report & V). destruct (verified_report _ _ _ _ _ V) as [Hb Ht].
  assert (Hp : _tool_results state `prefix_of` results).
  { rewrite <- Hs. destruct V. by eapply all_results_prefix. }
  assert (Hinr : In r results) by (destruct Hp as [m ->]; apply in_app_iff; by left).
  assert (Hf : result_ok report = false).
  { destruct (result_ok report) eqn:Hok; [|done]. destruct V as [b tools audit loop reason su f te _ Hbu _ _ Hf _ _].
    apply final_report_ok in Hf as (rep & Hm & _ & Hrp & _); [|done].
    apply make_report_ok in Hm as (acc & Hc & _); [|done]. apply app_eq_nil in Hc as [-> _].
    apply build_checks_nil in Hbu. rewrite forallb_forall in Hbu. rewrite (Hbu _ Hinr) in Hr. done. }
  rewrite Hrep, Hb. split; [done|]. rewrite Ho by by rewrite Hb.
  by rewrite (verified_results _ _ _ _ _ V).
Qed.

Definition node (ok : bool) (state : dict) : dict :=
  match verifier (sample_venv ok) state with Ok out => out | Err _ => [] end.

Definition stale_state : dict :=
  ("tool_results", PList [PDict [("tool", PStr "read_file"); ("ok", PBool false)]]) :: sample_vstate.

(** Two consecutive runs whose own calls all succeed. *)
Lemma failures_persist_witness :
  result_ok (report_of (node true stale_state)) = false /\
  result_ok (report_of (node true (node true stale_state))) = false.
Proof.
  set (r := [("tool", PStr "read_file"); ("ok", PBool false)] : dict).
  assert (H1 : verifier (sample_venv true) stale_state = Ok (node true stale_state)) by (vm_compute; reflexivity).
  destruct (failures_persist (sample_venv true) stale_state _ r H1) as (Hf & _ & Hin);
    [left; reflexivity|reflexivity|].
  split; [exact Hf|].
  refine (proj1 (failures_persist (sample_venv true) (node true stale_state) _ r _ Hin eq_refl)).
  vm_compute. reflexivity.
Defined.

(** ** Classification *)

Definition latest_failure (results : list dict) : option dict :=
  List.find (fun r => negb (result_ok r)) (List.rev results).

Lemma latest_failure_spec results r :
  latest_failure results = Some r ->
  exists pre post, results = (pre ++ r :: post)%list /\ result_ok r = false /\
    List.Forall (fun x => result_ok x = true) post.
Proof.
  unfold latest_failure. intros H.
  assert (G : forall l, List.find (fun r => negb (result_ok r)) l = Some r ->
            exists a b, l = (a ++ r :: b)%list /\ result_ok r = false /\ List.Forall (fun x => result_ok x = true) a).
  { induction l as [|x l IH]; simpl; [done|]. destruct (result_ok x) eqn:E; simpl.
    - intros (a & b & -> & Hr & Ha)%IH. exists (x :: a), b. by repeat constructor.
    - intros [= ->]. by exists [], l. }
  apply G in H as (a & b & Hl & Hr & Ha). exists (List.rev b), (List.rev a). split; [|split; [done|]].
  - rewrite <- (List.rev_involutive results), Hl, List.rev_app_distr. cbn [List.rev]. by rewrite <- List.app_assoc.
  - by apply List.Forall_rev.
Qed.

Definition arch_mismatch (r : dict) : bool :=
  _is_architecture_mismatch (py_str (dget r "tool" (PStr ""))) (_extract_diagnostics r)
    (py_str (dget r "stderr" (PStr ""))) (artifacts_of r).

Definition error_tag (r : dict) : string := lower (str_strip (dget (artifacts_of r) "error" (PStr ""))).

(** The failures the planner amends without the coder. *)
Definition planner_tag (r : dict) : bool :=
  str_in (error_tag r) ["formal_verification_failed"; "tool_call_budget_exceeded"; "patch_size_budget_exceeded"].

(** The contract of a recovery for the failing result [r]: who continues, with
    which context and what happens to the plan. *)
Record recovery_ok (results : list dict) (loop : Z) (r : dict) (a : RecoveryAction) : Prop := {
  ro_arch : arch_mismatch r = true ->
    ra_failure_class a = "architecture_mismatch" /\ ra_retry_target a = rt_context_builder /\
    ra_context_scope a = full_reset /\ ra_plan_action a = discard_reset;
  ro_other : arch_mismatch r = false ->
    ra_retry_target a =
      (if planner_tag r then rt_planner else if patch_applied results then rt_coder
       else if 2 <=? loop then rt_router else rt_planner) /\
    ra_context_scope a = working_set /\
    ra_plan_action a =
      (if planner_tag r || patch_applied results || (2 <=? loop) then amend else keep) }.

Lemma recovery_payload_dict cls fp why t s a (T : RetryTarget) (S : ContextScope) (A : PlanAction) :
  t = spelling T -> s = spelling S -> a = spelling A ->
  _recovery_action_payload (recovery_dict cls fp why t s a) =
  Ok {| ra_failure_class := strip cls; ra_failure_fingerprint := strip fp; ra_rationale := strip why;
        ra_retry_target := T; ra_context_scope := S; ra_plan_action := A |}.
Proof. intros -> -> ->. by destruct T, S, A. Qed.

Lemma post_change_patched tool ds err out results :
  _is_test_failure_post_change tool ds err out results = true -> patch_applied results = true.
Proof. unfold _is_test_failure_post_change. cbv zeta. by case_match. Qed.

Lemma planner_tag_split r :
  planner_tag r = String.eqb (error_tag r) "formal_verification_failed" ||
    str_in (error_tag r) ["tool_call_budget_exceeded"; "patch_size_budget_exceeded"].
Proof. reflexivity. Qed.

Lemma classify_result_ok results loop r :
  exists a, _recovery_action_payload (fst (classify_result results loop r)) = Ok a /\ recovery_ok results loop r a.
Proof.
  unfold classify_result. fold (arch_mismatch r) (error_tag r). cbv zeta.
  pose proof (planner_tag_split r) as Hp.
  destruct (arch_mismatch r) eqn:Ea; cbn [fst].
  { erewrite (recovery_payload_dict _ _ _ _ _ _ rt_context_builder full_reset discard_reset) by reflexivity.
    eexists. split; [done|]. by split; [|congruence]. }
  destruct (String.eqb _ _) eqn:Ef; [|destruct (str_in _ _) eqn:Et].
  1-2: rewrite ?orb_true_r, ?orb_true_l in Hp; cbn [fst].
  1-2: erewrite (recovery_payload_dict _ _ _ _ _ _ rt_planner working_set amend) by reflexivity;
       eexists; split; [done|]; split; [congruence|]; intros _; by rewrite Hp.
  cbn [orb] in Hp. destruct (_is_test_failure_post_change _ _ _ _ _) eqn:Ep; [|destruct (patch_applied results) eqn:Eq].
  1: apply post_change_patched in Ep as Eq.
  1-2: cbn [fst]; erewrite (recovery_payload_dict _ _ _ _ _ _ rt_coder working_set amend) by reflexivity;
       eexists; split; [done|]; split; [congruence|]; intros _; by rewrite Hp, Eq.
  destruct (2 <=? loop) eqn:El; cbn [fst].
  - erewrite (recovery_payload_dict _ _ _ _ _ _ rt_router working_set amend) by reflexivity.
    eexists; split; [done|]; split; [congruence|]; intros _; by rewrite Hp, Eq, El.
  - erewrite (recovery_payload_dict _ _ _ _ _ _ rt_planner working_set keep) by reflexivity.
    eexists; split; [done|]; split; [congruence|]; intros _; by rewrite Hp, Eq, El.
Qed.

(** The recovery of a failed iteration, for any results and loop number: the
    payload is always valid, the latest failing result alone decides it, and its
    retry target, context scope and plan action are: an architecture mismatch
    resets the context and discards the plan; otherwise the plan survives, and
    the planner (formal verification and budget failures), the coder (after an
    applied patch), the router (from the second loop) or the planner continues. *)
Theorem classify_retry_spec results loop :
  exists a, _recovery_action_payload (fst (_classify_retry results loop)) = Ok a /\
    match latest_failure results with
    | Some r => recovery_ok results loop r a /\
        exists pre post, results = (pre ++ r :: post)%list /\ result_ok r = false /\
          List.Forall (fun x => result_ok x = true) post
    | None => ra_retry_target a = rt_planner /\ ra_context_scope a = working_set /\ ra_plan_action a = keep
    end.
Proof.
  unfold _classify_retry. fold (latest_failure results). destruct (latest_failure results) as [r|] eqn:E.
  - destruct (classify_result_ok results loop r) as (a & Ha & Ho). exists a. split; [done|]. split; [done|].
    by apply latest_failure_spec.
  - cbn [fst]. erewrite (recovery_payload_dict _ _ _ _ _ _ rt_planner working_set keep) by reflexivity.
    by eexists.
Qed.

(** ** Steering *)

(** The three shapes of a report. *)
Lemma make_report_fail state results checks loop rep reason :
  make_report state results checks loop = Ok (rep, reason) -> vr_ok rep = false ->
  exists acceptance action last_check, rep = failure_report state checks acceptance action last_check reason loop /\
    (ra_plan_action action = discard_reset ->
       exists r, latest_failure results = Some r /\ arch_mismatch r = true).
Proof.
  unfold make_report. intros H Hok. apply bind_Ok in H as (acc & Ha & H). destruct checks as [|c cs].
  - destruct (forallb result_ok acc); [injection H as <- _; discriminate Hok|].
    unfold _acceptance_failure in H. destruct (List.filter _ acc) as [|f fs].
    + cbn [_recovery_action_payload bind_res] in H. apply bind_Ok in H as (act & Hact & H). injection H as <- <-.
      exists acc, act, "". split; [done|]. vm_compute in Hact. injection Hact as <-. done.
    + cbv zeta in H. apply bind_Ok in H as (act & Hact & H). injection H as <- <-.
      eexists acc, act, _. split; [done|].
      erewrite (recovery_payload_dict _ _ _ _ _ _ rt_planner working_set amend) in Hact by reflexivity.
      by injection Hact as <-.
  - destruct (_classify_retry _ _) as [rec dr] eqn:Ec. apply bind_Ok in H as (act & Hact & H). injection H as <- <-.
    exists acc, act, (vc_summary c). split; [done|]. unfold _classify_retry in Ec. fold (latest_failure results) in Ec.
    destruct (latest_failure results) as [r|].
    + destruct (classify_result_ok results loop r) as (a & Ha' & [_ Ho]). rewrite Ec in Ha'. cbn [fst] in Ha'.
      rewrite Hact in Ha'. injection Ha' as <-. intros Hd. exists r. split; [done|].
      destruct (arch_mismatch r); [done|]. destruct (Ho eq_refl) as (_ & _ & Hp). rewrite Hd in Hp. by case_match.
    + injection Ec as <- _.
      erewrite (recovery_payload_dict _ _ _ _ _ _ rt_planner working_set keep) in Hact by reflexivity.
      by injection Hact as <-.
Qed.

Lemma final_report_fail env state results checks loop report reason :
  final_report env (make_report state results checks loop) = (report, reason) -> result_ok report = false ->
  (exists t : RetryTarget, dget report "retry_target" PNone = lit t) /\
  (dget report "plan_action" PNone = PStr "discard_reset" ->
     exists r, latest_failure results = Some r /\ arch_mismatch r = true) /\
  (exists a, dget report "plan_action" PNone = PStr a).
Proof.
  unfold final_report. destruct (make_report state results checks loop) as [[rep rs]|e] eqn:Em.
  - destruct (v_schema_ok _ _); intros [= <- <-] Hok; [|split; [by exists rt_planner|]; split; [done|by eexists]].
    rewrite dump_result_ok in Hok. destruct (make_report_fail _ _ _ _ _ _ Em Hok) as (acc & act & lc & -> & Hd).
    split; [by eexists|]. split; [|by eexists]. intros E. apply Hd.
    destruct act as [? ? ? ? ? []]; done.
  - destruct (v_schema_ok _ _); intros [= <- <-] _; (split; [by exists rt_planner|]; split; [done|by eexists]).
Qed.

(** How a completed run steers the graph: a positive report clears the retry
    target, the handoff and the recovery packet, keeps the plan and requests no
    reset; a negative one always names one of the four retry targets, and either
    keeps the plan as it is, or discards it and requests a context reset, which
    happens only when the latest failing result is an architecture mismatch. *)
Theorem verify_steering env state out :
  verify env state = Ok out ->
  if result_ok (report_of out) then
    dget out "retry_target" PNone = PNone /\ dget out "active_handoff" PNone = PNone /\
    dget out "recovery_packet" PNone = PNone /\ dget out "context_reset_requested" PNone = PBool false /\
    dget out "plan_discarded" PNone = PBool false /\ dlookup "plan" out = dlookup "plan" state
  else
    (exists t : RetryTarget, dget out "retry_target" PNone = lit t) /\
    (dlookup "plan" out = dlookup "plan" state \/
     dget out "plan" PNone = PNone /\ dget out "context_reset_requested" PNone = PBool true /\
     dget out "plan_discarded" PNone = PBool true /\
     exists r, latest_failure (_tool_results out) = Some r /\ arch_mismatch r = true).
Proof.
  intros H. apply verify_inv in H as (results & report & V). destruct (verified_report _ _ _ _ _ V) as [-> _].
  rewrite (verified_results _ _ _ _ _ V). destruct V as [b tools audit loop reason s f te _ _ _ _ Hf _ ->].
  destruct (result_ok report) eqn:Hok.
  - apply final_report_ok in Hf as (rep & Hm & -> & Hrep & _); [|done].
    apply make_report_ok in Hm as (acc & _ & _ & _ & ->); [|done].
    unfold steer. rewrite dump_result_ok. cbn [vr_ok passed_report]. unfold verified_state. by dict_simpl.
  - destruct (final_report_fail _ _ _ _ _ _ _ Hf Hok) as ([t Ht] & Hd & [a Ha]). split.
    + exists t. unfold dget at 1. rewrite steer_frame by reflexivity. unfold verified_state. by dict_simpl.
    + unfold steer. rewrite Hok, Ha. cbn [py_eq]. destruct (String.eqb_spec a "discard_reset") as [->|Hn].
      * right. dict_simpl. repeat split. by apply Hd.
      * left. unfold verified_state. by dict_simpl.
Qed.

Lemma verify_steering_witness :
  exists t : RetryTarget, dget (body false sample_vstate) "retry_target" PNone = lit t.
Proof.
  assert (H : verify (sample_venv false) sample_vstate = Ok (body false sample_vstate)) by (vm_compute; reflexivity).
  pose proof (verify_steering (sample_venv false) sample_vstate _ H) as S.
  assert (E : result_ok (report_of (body false sample_vstate)) = false) by (vm_compute; reflexivity).
  rewrite E in S. exact (proj1 S).
Defined.

(** ** The failure memory *)

(** [outranks a b]: [a] is before [b], by salience, then by loop. *)
Definition outranks (a b : dict) : Prop :=
  exists sa la sb lb, fact_rank a = Ok (sa, la) /\ fact_rank b = Ok (sb, lb) /\ (sb < sa \/ sb = sa /\ lb < la).

Lemma rank_before_iff a b :
  rank_before a b = true <-> fst (fst b) < fst (fst a) \/ fst (fst b) = fst (fst a) /\ snd (fst b) < snd (fst a).
Proof.
  destruct a as [[s1 l1] d1], b as [[s2 l2] d2]. cbn [rank_before fst snd].
  rewrite orb_true_iff, andb_true_iff, !Z.ltb_lt, Z.eqb_eq. lia.
Qed.

Lemma rank_before_asym a b : rank_before a b = true -> rank_before b a = false.
Proof. intros H. apply not_true_iff_false. rewrite rank_before_iff in *. lia. Qed.

Lemma rank_before_ntrans a b c : rank_before b a = false -> rank_before c b = false -> rank_before c a = false.
Proof. rewrite <- !not_true_iff_false, !rank_before_iff. lia. Qed.

Lemma keyed_facts facts keyed :
  map_res (fun e => let! r := fact_rank e in Ok (r, e)) facts = Ok keyed ->
  List.map snd keyed = facts /\ List.Forall (fun p => fact_rank (snd p) = Ok (fst p)) keyed.
Proof.
  revert keyed. induction facts as [|e facts IH]; intros keyed; cbn [map_res].
  - intros [= <-]. by split.
  - intros H. apply bind_Ok in H as (p & Hp & H). apply bind_Ok in H as (ps & Hps & H). injection H as <-.
    apply bind_Ok in Hp as (r & Hr & Hp). injection Hp as <-. destruct (IH _ Hps) as [<- Hf].
    split; [done|]. by constructor.
Qed.

Lemma not_outranks (p q : (Z * Z) * dict) :
  fact_rank (snd p) = Ok (fst p) -> fact_rank (snd q) = Ok (fst q) -> rank_before p q = false ->
  ~ outranks (snd p) (snd q).
Proof.
  intros Hp Hq Hb (sa & la & sb & lb & Ha & Hb' & Hlt). apply not_true_iff_false in Hb. apply Hb, rank_before_iff.
  rewrite Hp in Ha. rewrite Hq in Hb'. injection Ha as Ha. injection Hb' as Hb'. by rewrite Ha, Hb'.
Qed.

Lemma sorted_facts s :
  ordered rank_before s -> (forall p, In p s -> fact_rank (snd p) = Ok (fst p)) ->
  StronglySorted (fun a b => ~ outranks b a) (List.map snd s).
Proof.
  unfold ordered. induction 1 as [|p s Hs IH Hp]; intros Hr; cbn [List.map]; constructor.
  - apply IH. intros q Hq. apply Hr. by right.
  - apply List.Forall_forall. intros f Hf. apply in_map_iff in Hf as (q & <- & Hq).
    rewrite List.Forall_forall in Hp. apply not_outranks; [apply Hr; by right|apply Hr; by left|by apply Hp].
Qed.

(** The best [n] of the candidates. *)
Lemma best_facts n cands keyed :
  map_res (fun e => let! r := fact_rank e in Ok (r, e)) cands = Ok keyed ->
  let out := firstn n (List.map snd (py_sorted rank_before keyed)) in
  StronglySorted (fun a b => ~ outranks b a) out /\
  (forall f, In f out -> In f cands) /\
  (List.NoDup (List.map fact_fingerprint cands) -> List.NoDup (List.map fact_fingerprint out)) /\
  (forall f, In f cands -> In f out \/ length out = n /\ forall g, In g out -> ~ outranks f g).
Proof.
  intros H out. apply keyed_facts in H as [Hc Hr]. rewrite List.Forall_forall in Hr.
  set (s := py_sorted rank_before keyed) in *.
  assert (HP : Permutation s keyed) by apply py_sorted_Permutation.
  assert (Hs : forall p, In p s -> fact_rank (snd p) = Ok (fst p)) by (intros p Hp; by apply Hr, (Permutation_in _ HP)).
  assert (Hord : ordered rank_before s)
    by (apply py_sorted_ordered; [apply rank_before_asym|intros; eapply rank_before_ntrans; eauto]).
  assert (HPc : Permutation (List.map snd s) cands) by (rewrite <- Hc; by apply Permutation_map).
  rewrite <- (firstn_skipn n s) in Hord. apply ordered_app in Hord as [Hord Hlater].
  assert (Hout : out = List.map snd (firstn n s)) by (unfold out; by rewrite firstn_map).
  assert (Hin1 : forall p, In p (firstn n s) -> In p s) by (intros p Hp; rewrite <- (firstn_skipn n s); apply in_app_iff; auto).
  assert (Hin2 : forall p, In p (skipn n s) -> In p s) by (intros p Hp; rewrite <- (firstn_skipn n s); apply in_app_iff; auto).
  rewrite Hout. split; [apply sorted_facts; auto|]. split.
  { intros f Hf. apply (Permutation_in _ HPc). apply in_map_iff in Hf as (p & <- & Hp). apply in_map. auto. }
  split.
  { rewrite <- firstn_map. intros Hnd. apply NoDup_map_firstn. by rewrite HPc. }
  intros f Hf. apply (Permutation_in _ (Permutation_sym HPc)), in_map_iff in Hf as (p & <- & Hp).
  rewrite <- (firstn_skipn n s) in Hp. apply in_app_iff in Hp as [Hp|Hp]; [left; by apply in_map|right].
  rewrite length_map. split.
  - apply firstn_length_le. destruct (Nat.le_gt_cases n (length s)); [done|]. by rewrite skipn_all2 in Hp by lia.
  - intros g Hg. apply in_map_iff in Hg as (q & <- & Hq). apply not_outranks; auto.
Qed.

(** The recovery facts after a failed iteration: at most twelve, in decreasing
    order of salience then loop, the candidates being the new fact and the older
    facts of other failures; a fact of the same fingerprint is replaced, so
    distinct fingerprints stay distinct; and a candidate is dropped only when
    twelve others that it does not outrank are kept. *)
Theorem recovery_facts_spec state report loop facts :
  _updated_recovery_facts state report loop = Ok facts ->
  let packet := dict_or_empty (dget report "recovery_packet" (PDict [])) in
  let old := dicts_of (list_or_empty (dget state "facts" (PList []))) in
  let fact := recovery_fact report packet loop in
  packet <> [] ->
  (length facts <= 12)%nat /\
  StronglySorted (fun a b => ~ outranks b a) facts /\
  (forall f, In f facts -> f = fact \/ In f old /\ fact_fingerprint f <> fact_fingerprint fact) /\
  (List.NoDup (List.map fact_fingerprint old) -> List.NoDup (List.map fact_fingerprint facts)) /\
  (forall f, f = fact \/ In f old /\ fact_fingerprint f <> fact_fingerprint fact ->
     In f facts \/ length facts = 12%nat /\ forall g, In g facts -> ~ outranks f g).
Proof.
  intros H packet old fact Hp. unfold _updated_recovery_facts in H. fold packet old in H.
  destruct packet as [|kv packet'] eqn:Ep; [by destruct Hp|]. cbv zeta in H. fold fact in H.
  set (cands := (List.filter _ old ++ [fact])%list) in H.
  apply bind_Ok in H as (keyed & Hk & H). injection H as <-.
  assert (Hcand : forall f, In f cands <-> f = fact \/ In f old /\ fact_fingerprint f <> fact_fingerprint fact).
  { intros f. unfold cands. rewrite in_app_iff, List.filter_In, negb_true_iff, String.eqb_neq. cbn [In]. intuition. }
  destruct (best_facts 12 _ _ Hk) as (Hsort & Hin & Hnd & Hbest).
  split; [apply firstn_le_length|]. split; [done|]. split; [intros f Hf; by apply Hcand, Hin|]. split.
  - intros Hold. apply Hnd. unfold cands. rewrite List.map_app. cbn [List.map].
    apply List.NoDup_app; [|constructor; [intros []|constructor]|].
    + by apply NoDup_map_filter.
    + intros a Hi [<-|[]]. apply in_map_iff in Hi as (x & Hx & Hi). apply List.filter_In in Hi as [_ Hi].
      apply negb_true_iff, String.eqb_neq in Hi. done.
  - intros f Hf. by apply Hbest, Hcand.
Qed.

Definition arch_report : dict :=
  [("failure_class", PStr "architecture_mismatch"); ("failure_fingerprint", PStr "fp1");
   ("plan_action", PStr "discard_reset"); ("recovery_packet", PDict [("last_check", PStr "boom")])].

Definition fact_state : dict :=
  [("facts", PList [PDict [("failure_fingerprint", PStr "fp0"); ("salience", PInt 6)];
                    PDict [("failure_fingerprint", PStr "fp1"); ("salience", PInt 99)]])].

Definition updated_facts (state report : dict) (loop : Z) : list dict :=
  match _updated_recovery_facts state report loop with Ok fs => fs | Err _ => [] end.

Lemma recovery_facts_spec_witness :
  List.map fact_fingerprint (updated_facts fact_state arch_report 1) = ["fp1"; "fp0"] /\
  List.NoDup (List.map fact_fingerprint (updated_facts fact_state arch_report 1)).
Proof.
  split; [vm_compute; reflexivity|].
  assert (H : _updated_recovery_facts fact_state arch_report 1 = Ok (updated_facts fact_state arch_report 1))
    by (vm_compute; reflexivity).
  destruct (recovery_facts_spec fact_state arch_report 1 _ H) as (_ & _ & _ & Hnd & _); [vm_compute; discriminate|].
  apply Hnd. vm_compute. constructor; [intros [E|[]]; discriminate E|constructor; [intros []|constructor]].
Defined.
