(* ===== verification/Router.v ===== *)
(** * Router node: [nodes/router.py] and the helpers of [nodes/_utils.py]

    Intent classification, the deterministic default route, the extraction of a
    JSON block from a model's answer, the resolution of the remote client, and
    the node, which falls back to the default route whatever the model does. *)
From Stdlib Require Import ZArith Lia String Ascii List Bool.
From Stdlib Require Import SpecFloat.
From stdpp Require Import base tactics list strings option.
From S2P Require Import Prelude PyStr PyFloat PyVal Json Regex State Memory ModelRouting Executor Verifier.
Local Open Scope string_scope.
Local Open Scope Z_scope.

(** ** Intent *)

(** [_WORD_RE.findall]: the maximal runs of [[a-z0-9']]. *)
Definition word_char (c : ascii) : bool :=
  let n := ord c in ((97 <=? n) && (n <=? 122)) || is_digit c || (n =? 39).

Fixpoint findall_words (cur : string) (s : string) : list string :=
  match s with
  | EmptyString => if String.eqb cur "" then [] else [cur]
  | String c r =>
      if word_char c then findall_words (cur ++ String c "") r
      else ((if String.eqb cur "" then [] else [cur]) ++ findall_words "" r)%list
  end.

Definition code_words : list string :=
  ["implement"; "add"; "change"; "fix"; "refactor"; "write"; "create"; "build"; "generate"; "make"].

Definition meets (words hints : list string) : bool := existsb (fun w => str_in w hints) words.

Definition _classify_intent (request : string) : Intent :=
  let r := lower request in
  let words := findall_words "" r in
  if meets words code_words then code_change
  else if meets words ["debug"; "error"; "panic"; "exception"] || contains "stack trace" r then debug
  else if meets words ["research"; "compare"; "survey"; "latest"] then research
  else if str_in "why" words || str_in "how" words || str_in "explain" words then question
  else analysis.

(** ** The default route *)

(** [int(v) if isinstance(v, int) else d]. *)
Definition int_if (v : pyval) (d : Z) : Z := if is_int v then int_of v else d.

Definition dsub (d : dict) (k : string) : dict := dict_or_empty (dget d k (PDict [])).

(** What the decision reads from the state. *)
Record RouteInputs := {
  ri_intent : Intent; ri_verification : dict; ri_recovery : dict; ri_interactive_limit : Z;
  ri_cache_affinity : string; ri_token_estimate : Z; ri_working_set_tokens : Z; ri_compression_score : Z;
  ri_fact_count : Z; ri_semantic_count : Z; ri_retry_target : string; ri_fingerprint : string; ri_current_loop : Z }.

Definition route_recovery (state verification : dict) : dict :=
  let recovery := dsub verification "recovery" in
  match dict_or_empty (dget verification "recovery_packet" (dget state "recovery_packet" (PDict []))) with
  | [] => recovery
  | packet => packet
  end.

Definition token_estimate_of (planner_context repo_context : dict) : Z :=
  let t := int_if (dget planner_context "token_estimate" (PInt 0)) 0 in
  if t <=? 0 then approx_token_count (py_str (dget repo_context "repo_map" (PStr ""))) else t.

Definition route_inputs (state : dict) : res RouteInputs :=
  let verification := dsub state "verification" in
  let routing := dsub state "_model_routing_policy" in
  let! interactive_limit := int_or_default routing "interactive_context_limit" 1800 in
  let repo_context := dsub state "repo_context" in
  let planner_context := dsub repo_context "planner_context" in
  let token_estimate := token_estimate_of planner_context repo_context in
  let working_set := dsub repo_context "working_set" in
  let overall := dsub (dsub (dsub repo_context "compression") "pressure") "overall" in
  let state_fact_count := match dget state "facts" (PList []) with PList l => Z.of_nat (length l) | _ => 0 end in
  let memories := Z.of_nat (length (dicts_of (list_or_empty (dget repo_context "semantic_memories" (PList []))))) in
  let! current_loop := int_field (dsub state "budgets") "current_loop" in
  Ok {| ri_intent := _classify_intent (str_strip (dget state "request" (PStr "")));
        ri_verification := verification; ri_recovery := route_recovery state verification;
        ri_interactive_limit := interactive_limit;
        ri_cache_affinity := str_or (str_strip (dget routing "default_cache_affinity" (PStr "workspace"))) "workspace";
        ri_token_estimate := token_estimate;
        ri_working_set_tokens :=
          int_if (dget planner_context "working_set_token_estimate" (dget working_set "token_estimate" (PInt 0)))
                 token_estimate;
        ri_compression_score :=
          int_if (dget planner_context "compression_pressure" (dget overall "score" (PInt 0))) 0;
        ri_fact_count := int_if (dget planner_context "fact_count" (PInt state_fact_count)) state_fact_count;
        ri_semantic_count := int_if (dget planner_context "semantic_memory_count" (PInt memories)) memories;
        ri_retry_target := str_strip (dget state "retry_target" (PStr ""));
        ri_fingerprint := str_strip (dget verification "failure_fingerprint" (PStr ""));
        ri_current_loop := current_loop |}.

Definition recovery_route (i : RouteInputs) : res RouterDecision :=
  let failure_class :=
    py_str (dget (ri_recovery i) "failure_class"
              (dget (ri_verification i) "failure_class" (PStr "verification_failed"))) in
  let scope := str_or (py_str (dget (ri_recovery i) "context_scope" (PStr "working_set"))) "working_set" in
  let! context_scope := parse_literal scope in
  Ok {| rd_intent := ri_intent i; rd_task_class := str_or failure_class "recovery"; rd_lane := recovery_lane;
        rd_rationale := if ri_compression_score i <=? 0 then "verification requested a recovery route"
          else "verification requested recovery and compression pressure favors a stronger lane";
        rd_context_scope := context_scope; rd_latency_sensitive := false;
        rd_cache_affinity := ri_cache_affinity i ++ ":recovery:" ++ str_or (ri_fingerprint i) (str_of_Z (ri_current_loop i));
        rd_prefix_segment := if negb (String.eqb scope "stable_prefix") then "recovery_working_set" else "stable_prefix";
        rd_provider_used := local; rd_provider := ""; rd_model := "";
        rd_context_tokens := Z.max (ri_token_estimate i) (ri_working_set_tokens i);
        rd_compression_pressure := ri_compression_score i; rd_fact_count := ri_fact_count i |}.

Definition needs_planning (i : RouteInputs) : bool :=
  bool_decide (ri_intent i = code_change) || bool_decide (ri_intent i = refactor) || bool_decide (ri_intent i = debug)
  || (ri_interactive_limit i <? ri_token_estimate i) || (ri_interactive_limit i <? ri_working_set_tokens i)
  || (0 <? ri_compression_score i) || (3 <=? ri_fact_count i) || (2 <=? ri_semantic_count i).

Definition planning_route (i : RouteInputs) : RouterDecision :=
  {| rd_intent := ri_intent i; rd_task_class := "deep_planning"; rd_lane := deep_planning;
     rd_rationale :=
       if 0 <? ri_compression_score i then "context compression pressure requires deeper planning"
       else if 3 <=? ri_fact_count i then "recovery memory indicates deeper planning is needed"
       else if 2 <=? ri_semantic_count i then "semantic memory recall indicates deeper planning is needed"
       else "request complexity or context size requires deeper planning";
     rd_context_scope := stable_prefix; rd_latency_sensitive := false;
     rd_cache_affinity := ri_cache_affinity i ++ ":planner:" ++ str_of_Z (ri_current_loop i) ++ ":c"
                          ++ str_of_Z (ri_compression_score i);
     rd_prefix_segment := "stable_prefix"; rd_provider_used := local; rd_provider := ""; rd_model := "";
     rd_context_tokens := Z.max (ri_token_estimate i) (ri_working_set_tokens i);
     rd_compression_pressure := ri_compression_score i;
     rd_fact_count := Z.max (ri_fact_count i) (ri_semantic_count i) |}.

Definition interactive_route (i : RouteInputs) : RouterDecision :=
  {| rd_intent := ri_intent i; rd_task_class := spelling (ri_intent i); rd_lane := interactive;
     rd_rationale := if negb (String.eqb (ri_fingerprint i) "")
       then "interactive lane retained because failure signal did not require recovery"
       else "interactive lane selected for low-latency reasoning";
     rd_context_scope := stable_prefix; rd_latency_sensitive := true;
     rd_cache_affinity := ri_cache_affinity i ++ ":interactive"; rd_prefix_segment := "stable_prefix";
     rd_provider_used := local; rd_provider := ""; rd_model := "";
     rd_context_tokens := Z.max (ri_token_estimate i) (ri_working_set_tokens i);
     rd_compression_pressure := ri_compression_score i;
     rd_fact_count := Z.max (ri_fact_count i) (ri_semantic_count i) |}.

Definition needs_recovery (i : RouteInputs) : bool :=
  String.eqb (ri_retry_target i) "router" || truthy (PDict (ri_recovery i)).

Definition _default_route (state : dict) : res RouterDecision :=
  let! i := route_inputs state in
  if needs_recovery i then recovery_route i
  else if needs_planning i then Ok (planning_route i)
  else Ok (interactive_route i).

(** ** [extract_json_block] *)

(** The text of group 1 of the first match of [pre (grp) post]. *)
Definition group_at (pre grp post : regex) (p : pos) : list string :=
  flat_map (fun p1 =>
    flat_map (fun p2 =>
      if nonempty (ends post p2) then [str_take (rest_len p1 - rest_len p2) (snd p1)] else [])
      (ends grp p1)) (ends pre p).

Fixpoint search_group (pre grp post : regex) (prev : option ascii) (s : string) : option string :=
  match group_at pre grp post (prev, s) with
  | g :: _ => Some g
  | [] => match s with EmptyString => None | String c t => search_group pre grp post (Some c) t end
  end.

(** [_JSON_FENCE_RE]: case-insensitive, the dot matches newlines. *)
Definition fence_open : regex := rseq [rlit "```"; ropt (rilit "json"); rstar rspace].
Definition fence_body : regex :=
  RAlt (rseq [rchar "{"; rlazy rany; rchar "}"]) (rseq [rchar "["; rlazy rany; rchar "]"]).
Definition fence_close : regex := rseq [rstar rspace; rlit "```"].

(** From the first [open] to the last [close], when they are in that order. *)
Fixpoint find_char (c : ascii) (s : string) : option string :=
  match s with
  | EmptyString => None
  | String a r => if Ascii.eqb a c then Some s else find_char c r
  end.

Fixpoint upto_last (c : ascii) (s : string) : option string :=
  match s with
  | EmptyString => None
  | String a r =>
      match upto_last c r with
      | Some t => Some (String a t)
      | None => if Ascii.eqb a c then Some (String a "") else None
      end
  end.

Definition braced (open close : ascii) (text : string) : option string :=
  match find_char open text with
  | Some s => option_map strip (upto_last close s)
  | None => None
  end.

Definition extract_json_block (text : string) : option string :=
  match search_group fence_open fence_body fence_close None text with
  | Some g => Some (strip g)
  | None =>
      match braced "{" "}" text with
      | Some s => Some s
      | None => braced "[" "]" text
      end
  end.

Definition _extract_json_block (raw : string) : string :=
  match extract_json_block raw with Some s => s | None => strip raw end.

(** ** [resolve_inference_client] *)

Record ClientConfig := { cc_base_url : string; cc_api_key : string; cc_timeout_s : Z; cc_model : string }.

(** [InferenceClient(...)] of one configured provider. *)
Definition provider_client (cfg : dict) (label default_url model : string) : res ClientConfig :=
  let api_key := str_strip (dget cfg "api_key" (PStr "")) in
  if String.eqb api_key "" then Err (ValueError (label ++ ".api_key is not set"))
  else
    let base_url := rstrip_by (Ascii.eqb "/") (str_strip (dget cfg "base_url" (PStr default_url))) in
    if String.eqb base_url "" then Err (ValueError (label ++ ".base_url is empty"))
    else
      let! _ := validate_base_url base_url (label ++ ".base_url") in
      let timeout := dget cfg "timeout_s" (PInt 60) in
      Ok {| cc_base_url := base_url; cc_api_key := api_key;
            cc_timeout_s := if is_int timeout && (0 <? int_of timeout) then int_of timeout else 60; cc_model := model |}.

(** The message has an em dash, which is outside the modelled range of characters. *)
Definition resolve_inference_client (em_dash : string) (state : dict) (slot_name : string) : res ClientConfig :=
  let slot := dsub (dsub state "_models") slot_name in
  let provider := lower (str_strip (dget slot "provider" (PStr "local"))) in
  if str_in provider [""; "local"] then
    Err (ValueError ("provider for slot '" ++ slot_name ++ "' is 'local' " ++ em_dash ++ " no remote client needed"))
  else
    let model := str_strip (dget slot "model" (PStr "deterministic")) in
    if String.eqb model "" then Err (ValueError ("model name for slot '" ++ slot_name ++ "' is empty"))
    else
      let runtime := dsub state "_model_provider_runtime" in
      if String.eqb provider "openai_compatible" then
        provider_client (dsub runtime "openai_compatible") "openai_compatible" "https://api.openai.com/v1" model
      else provider_client (dsub runtime "digitalocean") "digitalocean" "https://inference.do-ai.run/v1" model.

(** ** The model call *)

(** A completion: the text alone, or a response with its metadata. *)
Inductive completion := CText (text : string) | CResponse (text : string) (meta : InferenceResponse).

Definition completion_text (c : completion) : string := match c with CText t | CResponse t _ => t end.
Definition completion_meta (c : completion) : option InferenceResponse :=
  match c with CText _ => None | CResponse _ m => Some m end.

(** What the node relies on outside [src]: the prompt file, the two completion
    calls of the client ([true] is the streaming one), pydantic's validation and
    JSON dump of a decision, and the clock. *)
Record REnv := {
  r_prompt_file : string -> res (option string);
  r_complete : bool -> ClientConfig -> string -> string -> float -> res completion;
  r_validate : dict -> res RouterDecision;
  r_dump_json : RouterDecision -> string;
  r_em_dash : string;
  r_ts_start : Z; r_ts_end : Z }.

Definition default_system_prompt : string :=
  "You are a router for a repo-aware coding orchestrator. Return strict JSON only.".

Definition user_prompt (env : REnv) (state : dict) (default_route : RouterDecision) : string :=
  "Classify the request and choose the best orchestration lane." ++ nl ++ "Return only JSON." ++ nl ++ nl
  ++ "request: " ++ str_strip (dget state "request" (PStr "")) ++ nl
  ++ "default_route: " ++ r_dump_json env default_route ++ nl
  ++ "planner_context_tokens: "
  ++ py_str (dget (dsub (dsub state "repo_context") "planner_context") "token_estimate" (PInt 0)) ++ nl
  ++ "verification: " ++ json_dumps false (dget state "verification" (PDict [])) ++ nl.

(** [max(0.0, min(temperature, 1.0))]. *)
Definition clamp_temperature (t : float) : float := fmax fzero (fmin t (float_of_Z 1)).

Definition slot_temperature (state : dict) : res float :=
  let raw := dget (dsub (dsub state "_models") "router") "temperature" (PFloat fzero) in
  if is_number raw then num_to_float raw else Ok fzero.

Definition call_model (env : REnv) (lane : RouteLane) (cfg : ClientConfig) (system user : string) (t : float)
    : res completion :=
  match lane with
  | interactive =>
      match r_complete env true cfg system user t with
      | Ok c => Ok c
      | Err _ => r_complete env false cfg system user t
      end
  | _ => r_complete env false cfg system user t
  end.

Definition _router_model_output (env : REnv) (state : dict) (default_route : RouterDecision) (route_decision : dict)
    : res (option (RouterDecision * completion)) :=
  if String.eqb (str_strip (dget route_decision "provider_used" (PStr "local"))) "local" then Ok None
  else
    let! temperature := slot_temperature state in
    match resolve_inference_client (r_em_dash env) state "router" with
    | Err e => if is_value_error e then Ok None else Err e
    | Ok cfg =>
        let! prompt := r_prompt_file env (py_str (dget state "_repo_root" (PStr "."))) in
        let system := match prompt with
                      | Some p => str_or (strip p) default_system_prompt
                      | None => default_system_prompt end in
        let! response := call_model env (rd_lane default_route) cfg system (user_prompt env state default_route)
                           (clamp_temperature temperature) in
        let! parsed := json_loads (_extract_json_block (completion_text response)) in
        match parsed with
        | PDict d => let! r := r_validate env d in Ok (Some (r, response))
        | _ => Err (ValueError "router completion did not return an object")
        end
    end.

(** ** The node *)

Definition set_nonempty (k s : string) (d : dict) : dict := if String.eqb s "" then d else dset k (PStr s) d.

(** The route payload: the decision with the provider, model and side that were routed. *)
Definition route_payload (r : RouterDecision) (route_decision : dict) : dict :=
  let provider := str_strip (dget route_decision "provider" (PStr "")) in
  let model := str_strip (dget route_decision "model" (PStr "")) in
  dset "provider_used" (PStr (py_str (py_or (dget route_decision "provider_used" (PStr "local")) (PStr "local"))))
    (set_nonempty "model" model (set_nonempty "provider" provider (RouterDecision_dump r))).

Definition routed_state (state payload : dict) : dict :=
  dset "retry_target" PNone (dset "intent" (dget payload "intent" PNone) (dset "route" (PDict payload) state)).

(** The [try] block and its [except]: the state with the chosen route. *)
Definition choose_route (env : REnv) (state : dict) (default_route : RouterDecision) (route_decision : dict) : dict :=
  match _router_model_output env state default_route route_decision with
  | Ok chosen =>
      let r := match chosen with Some (r, _) => r | None => default_route end in
      let response := match chosen with Some (_, c) => completion_meta c | None => None end in
      record_inference_telemetry (routed_state state (route_payload r route_decision)) "router"
        (str_strip (dget route_decision "provider" (PStr ""))) (str_strip (dget route_decision "model" (PStr ""))) response
  | Err _ => routed_state state (route_payload default_route route_decision)
  end.

Definition record_route (out : dict) : dict :=
  let telemetry := telemetry_of out in
  let routes := list_or_empty (dget telemetry "routing" (PList [])) in
  let route := dict_or_empty (dget out "route" (PDict [])) in
  dset "telemetry" (PDict (dset "routing" (PList (routes ++ [PDict route])) telemetry)) out.

Definition router (env : REnv) (state : dict) : res dict :=
  let! default_route := _default_route state in
  let with_default := dset "route" (PDict (RouterDecision_dump default_route)) state in
  let! with_default := record_model_route with_default "router" (rd_task_class default_route) "router" in
  let! state := append_event (r_ts_start env) with_default "node" [("name", PStr "router"); ("phase", PStr "start")] in
  let route_decision := latest_model_route state "router" in
  let out := record_route (choose_route env state default_route route_decision) in
  append_event (r_ts_end env) out "node"
    [("name", PStr "router"); ("phase", PStr "end");
     ("lane", dget (dict_or_empty (dget out "route" (PDict []))) "lane" (PStr "interactive"))].

Example extract_fenced :
  extract_json_block ("x ```JSON" ++ nl ++ "{" ++ dq ++ "a" ++ dq ++ ": {}}" ++ nl ++ "``` }") =
  Some ("{" ++ dq ++ "a" ++ dq ++ ": {}}").
Proof. vm_compute. reflexivity. Qed.

Example extract_raw : extract_json_block "say {1} or {2} " = Some "{1} or {2}".
Proof. vm_compute. reflexivity. Qed.
