(* ===== verification/ContextBuilder.v ===== *)
(** * Context builder node: [nodes/context_builder.py]

    The node that gathers what the planner sees of the repository: its files, the
    answers of the runner and of the tool servers, the stored facts, memories and
    procedures, fitted into the context layers.  Whatever the runner, the servers
    and the stores do, the node goes on without them. *)
From Stdlib Require Import ZArith Lia String Ascii List Bool.
From stdpp Require Import base tactics list strings option.
From S2P Require Import Prelude PyStr PyFloat PyVal Regex Json State Memory ModelRouting RunnerClient Mcp Executor Verifier Router.
Local Open Scope string_scope.
Local Open Scope Z_scope.

(** ** Files *)

(** What the node asks of the file system under the resolved root: whether a
    directory exists, and the existing entries of a directory with whether each is
    one itself ([None] is [OSError]). *)
Record FileSystem := {
  fs_is_dir : string -> bool;
  fs_list : list string -> option (list (string * bool)) }.

(** The three drawings of the tree (the last entry, another entry, a continued
    column) have characters outside the modelled range. *)
Record Glyphs := { g_last : string; g_entry : string; g_bar : string }.

Definition entry_lt (a b : string * bool) : bool := str_lt (fst a) (fst b).

(** [_walk(dir_path, prefix, depth)]; [levels] is [max_depth + 1 - depth]. *)
Fixpoint walk (fs : FileSystem) (g : Glyphs) (levels : nat) (dir : list string) (prefix : string) : list string :=
  match levels with
  | O => []
  | S levels =>
      match fs_list fs dir with
      | None => []
      | Some entries =>
          let paths := py_sorted entry_lt (List.filter (fun e => negb (startswith (fst e) ".")) entries) in
          (fix each (l : list (string * bool)) : list string :=
             match l with
             | [] => []
             | (name, is_dir) :: r =>
                 let is_last := match r with [] => true | _ => false end in
                 (prefix ++ (if is_last then g_last g else g_entry g) ++ name)%string
                 :: (if is_dir
                     then walk fs g levels (dir ++ [name])%list (prefix ++ if is_last then "    " else g_bar g)%string
                     else [])
                 ++ each r
             end%list) paths
      end
  end.

Definition _generate_repo_map (fs : FileSystem) (g : Glyphs) : string := join nl (walk fs g 4 [] "").

(** ** Words *)

Definition ascii_word : regex := rplus (RChar (fun c => is_alpha c || is_digit c || Ascii.eqb c "_")).
Definition ascii_words (s : string) : list string := findall ascii_word s.

Definition _semantic_query_from_request (request : string) : string :=
  match List.map lower (ascii_words request) with
  | [] => "repository structure"
  | tokens => join " " (firstn 8 tokens)
  end.

Example query : _semantic_query_from_request "Fix Parser.parse_expr!" = "fix parser parse_expr".
Proof. vm_compute. reflexivity. Qed.

(** ** The environment of the node *)

(** The resolution of the root, the file system, the HTTP client (an exception of
    its construction), the network of the batch and of the tool servers, the three
    stores, and the clock. *)
Record CEnv := {
  c_resolve : pyval -> res string;
  c_fs : FileSystem; c_glyphs : Glyphs;
  c_client_init : string -> option string -> option string -> res unit;
  c_net : network; c_mcp_net : nat -> network;
  c_episodes : string -> string -> string -> res (list dict);
  c_memories : string -> string -> res (list dict);
  c_procedures : string -> string -> res (list dict);
  c_ts_start : Z; c_ts_end : Z }.

(** [None] when the runner is disabled or its URL is not usable. *)
Definition _runner_client_from_state (env : CEnv) (state : dict) : res (option unit) :=
  if negb (truthy (dget state "_runner_enabled" (PBool true))) then Ok None
  else match dget state "_runner_base_url" PNone with
       | PStr raw =>
           if negb (_validate_base_url (strip raw)) then Ok None
           else
             let! _ := c_client_init env (strip raw) (opt_text (dget state "_runner_api_key" PNone))
                         (opt_text (dget state "_request_id" PNone)) in
             Ok (Some tt)
       | _ => Ok None
       end.

(** ** The runner's snapshot *)

(** The decoded output of a result of the batch, when there is one. *)
Definition result_json (result : option dict) : res (option pyval) :=
  match result with Some env => decoded_output env | None => Ok None end.

Definition snapshot_calls (query : string) : list dict :=
  [[("tool", PStr "ast_index_summary"); ("input", PDict [("max_files", PInt 200)])];
   [("tool", PStr "search_codebase"); ("input", PDict [("query", PStr query); ("limit", PInt 8)])]].

(** The structure of the code, the hits of the search and the query. *)
Definition _runner_context_snapshot (env : CEnv) (state : dict) : res (dict * list dict * string) :=
  let! client := _runner_client_from_state env state in
  match client with
  | None => Ok ([], [], "")
  | Some _ =>
      let query := _semantic_query_from_request (py_str (dget state "request" (PStr ""))) in
      let! results := batch_execute_tools (c_net env) (snapshot_calls query) in
      let! ast := result_json (nth_error results 0) in
      let! hits := result_json (nth_error results 1) in
      Ok (match ast with Some (PDict d) => d | _ => [] end,
          match hits with Some (PList l) => dicts_of l | _ => [] end, query)
  end.

(** ** The tool servers *)

(** The summary, its text and the tools, without the entries of mismatched servers. *)
Definition _mcp_catalog_snapshot (env : CEnv) (state : dict) : res (dict * string * list dict) :=
  if negb (truthy (dget state "_mcp_enabled" (PBool false))) then Ok ([], "", [])
  else
    let! client := _runner_client_from_state env state in
    match client, dict_or_empty (dget state "_mcp_servers" (PDict [])) with
    | None, _ | _, [] => Ok ([], "", [])
    | Some _, servers =>
        let! raw_tools := discover_tools servers (c_mcp_net env) in
        let summary := summarize_tools raw_tools in
        Ok (summary, str_strip (dget summary "summary" (PStr "")),
            List.filter (fun t => negb (mismatched t)) raw_tools)
    end.

Definition field (d : dict) (k : string) : string := str_strip (dget d k (PStr "")).

Definition candidate_tools (server : dict) : list dict :=
  let server_name := str_or (field server "server_name") "unknown" in
  flat_map (fun tool =>
    let name := field tool "name" in
    if String.eqb name "" then []
    else [[("server_name", PStr server_name); ("name", PStr name); ("description", PStr (field tool "description"))]])
    (dicts_of (list_or_empty (dget server "tools" (PList [])))).

(** Whether a keyword occurs in the name or the description. *)
Definition mentions (keywords : list string) (entry : dict) : bool :=
  let haystack := lower (field entry "name" ++ " " ++ field entry "description") in
  existsb (fun k => negb (String.eqb k "") && contains k haystack) keywords.

Definition _mcp_recovery_hints (state mcp_summary : dict) : string * list dict :=
  match mcp_summary with
  | [] => ("", [])
  | _ =>
      let packet := dsub state "recovery_packet" in
      let words s := List.map lower (ascii_words (lower s)) in
      let keywords := (words (field state "request") ++ words (field packet "failure_class")
                       ++ words (field packet "last_check"))%list in
      let fallback := flat_map candidate_tools (dicts_of (list_or_empty (dget mcp_summary "servers" (PList [])))) in
      let relevant := firstn 5 (match List.filter (mentions keywords) fallback with [] => fallback | l => l end) in
      let qualified t := (py_str (dget t "server_name" PNone) ++ "." ++ py_str (dget t "name" PNone))%string in
      let lines :=
        ((match packet with
          | [] => []
          | _ => ["recovery_focus: " ++ py_str (dget packet "failure_class" (PStr "")) ++ " | "
                  ++ py_str (dget packet "last_check" (PStr ""))]
          end)%string
         ++ (match relevant with [] => [] | _ => [("candidate_tools: " ++ join ", " (List.map qualified relevant))%string] end))%list in
      (strip (join nl (List.filter (fun l => negb (blank l)) lines)), relevant)
  end.

(** ** The stores: nothing when they are not configured or fail *)

Definition or_none {A : Type} (r : res (list A)) : list A := match r with Ok l => l | Err _ => [] end.

Definition _load_cached_procedures (env : CEnv) (state : dict) : list dict :=
  let path := field state "_procedure_cache_path" in
  let request := field state "request" in
  if String.eqb path "" || String.eqb request "" then [] else or_none (c_procedures env path request).

Definition _load_episodic_context (env : CEnv) (state : dict) : list dict :=
  let path := field state "_run_store_path" in
  let packet := dsub state "recovery_packet" in
  let fingerprint := field packet "failure_fingerprint" in
  let failure_class := field packet "failure_class" in
  if String.eqb path "" || (String.eqb fingerprint "" && String.eqb failure_class "") then []
  else or_none (c_episodes env path fingerprint failure_class).

Definition _load_semantic_context (env : CEnv) (state : dict) : list dict :=
  let path := field state "_run_store_path" in
  if String.eqb path "" then []
  else or_none (c_memories env path (_semantic_query_from_request (py_str (dget state "request" (PStr ""))))).

(** ** The repository context *)

Definition _PERSISTENT_REPO_CONTEXT_KEYS : list string := ["system_prompt"; "structural_ast_map"; "semantic_hits"].

(** What is kept of the stored context. *)
Definition kept_context (state : dict) : dict :=
  let existing := dict_or_empty (dget state "repo_context" (PDict [])) in
  if truthy (dget state "context_reset_requested" (PBool false)) then
    flat_map (fun k => match dlookup k existing with Some v => [(k, v)] | None => [] end) _PERSISTENT_REPO_CONTEXT_KEYS
  else existing.

Definition set_dict (k : string) (v : dict) (d : dict) : dict := match v with [] => d | _ => dset k (PDict v) d end.
Definition set_dicts (k : string) (v : list dict) (d : dict) : dict :=
  match v with [] => d | _ => dset k (PList (List.map PDict v)) d end.
Definition set_str (k : string) (v : string) (d : dict) : dict := if String.eqb v "" then d else dset k (PStr v) d.

Definition add_files (env : CEnv) (repo_root : string) (rc : dict) : dict :=
  let top_level := match fs_list (c_fs env) [] with
                   | Some entries => py_sorted str_lt (List.map fst entries) | None => [] end in
  dset "repo_map" (PStr (_generate_repo_map (c_fs env) (c_glyphs env)))
    (dset "top_level" (strs top_level)
       (dset "has_rs" (PBool (fs_is_dir (c_fs env) "rs"))
          (dset "has_py" (PBool (fs_is_dir (c_fs env) "py")) (dset "repo_root" (PStr repo_root) rc)))).

Definition add_snapshot (env : CEnv) (state rc : dict) : dict :=
  match _runner_context_snapshot env state with
  | Ok (ast_map, hits, query) =>
      set_dicts "semantic_hits" hits (set_str "semantic_query" query (set_dict "structural_ast_map" ast_map rc))
  | Err _ => rc
  end.

Definition catalog_line (tools : list dict) : string :=
  let names := List.map (fun t => field t "name") (List.filter (fun t => truthy (dget t "name" PNone)) tools) in
  match names with [] => "" | _ => "Available MCP tools: " ++ join ", " names end.

(** The context with what the tool servers offer, and the tools. *)
Definition add_mcp (env : CEnv) (state rc : dict) : dict * list dict :=
  match _mcp_catalog_snapshot env state with
  | Ok (summary, catalog, tools) =>
      let mismatches := dget summary "mismatch_servers" (PList []) in
      let '(hints, relevant) := _mcp_recovery_hints state summary in
      let rc := set_str "mcp_tools_catalog" (catalog_line tools) (set_str "mcp_catalog" catalog (set_dict "mcp_capabilities" summary rc)) in
      let rc := if truthy mismatches then dset "mcp_hash_mismatches" mismatches rc else rc in
      (set_dicts "mcp_relevant_tools" relevant (set_str "mcp_recovery_hints" hints rc), tools)
  | Err _ => (rc, [])
  end.

Definition add_stores (env : CEnv) (state rc : dict) : dict :=
  set_dicts "cached_procedures" (_load_cached_procedures env state)
    (set_dicts "semantic_memories" (_load_semantic_context env state)
       (set_dicts "episodic_facts" (_load_episodic_context env state) rc)).

(** The context before the layers are fitted, and the tools. *)
Definition gathered (env : CEnv) (state : dict) (repo_root : string) : dict * list dict :=
  let '(rc, tools) := add_mcp env state (add_snapshot env state (add_files env repo_root (kept_context state))) in
  (add_stores env state rc, tools).

Definition layer_keys : list string := ["semantic_hits"; "stable_prefix"; "working_set"; "planner_context"; "compression"].

Definition with_layers (layers rc : dict) : dict :=
  fold_left (fun rc k => dset k (dget layers k PNone) rc) layer_keys rc.

(** ** The node *)

Definition token_estimate (rc : dict) (k : string) : pyval := dget (dsub rc k) "token_estimate" (PInt 0).

Definition built_event (rc layers : dict) : dict :=
  [("event", PStr "context_layers_built"); ("stable_prefix_tokens", token_estimate rc "stable_prefix");
   ("working_set_tokens", token_estimate rc "working_set"); ("compression", dget layers "compression" PNone)].

Definition context_telemetry (rc out summary : dict) : dict :=
  dset "compression_summary" (PDict summary)
    (dset "context_budget" (PDict [("stable_prefix", dget rc "stable_prefix" PNone); ("working_set", dget rc "working_set" PNone)])
       (telemetry_of out)).

Definition context_start (env : CEnv) (state : dict) : res dict :=
  let! state := ensure_history_policy state in
  let! state := record_model_route state "context_builder" "summarization" "router" in
  append_event (c_ts_start env) state "node" [("name", PStr "context_builder"); ("phase", PStr "start")].

(** The rest of the node on the gathered context. *)
Definition context_end (env : CEnv) (state rc : dict) (tools : list dict) : res dict :=
  let! layers_episodes := build_context_layers state rc None in
  let layers := fst layers_episodes in
  let rc := with_layers layers rc in
  let! current_loop := py_int (py_or (dget (dsub state "budgets") "current_loop" (PInt 0)) (PInt 0)) in
  let! out := record_compression_provenance state layers current_loop in
  let provenance := (list_or_empty (dget out "provenance" (PList [])) ++ [PDict (built_event rc layers)])%list in
  let! summary := get_compression_summary out in
  let out := dset "mcp_tools" (PList (List.map PDict tools))
               (dset "telemetry" (PDict (context_telemetry rc out summary))
                  (dset "provenance" (PList (last_n 20 provenance)) (dset "repo_context" (PDict rc) out))) in
  let! top_level := py_length (dget rc "top_level" PNone) in
  let! out := append_event (c_ts_end env) out "node"
    [("name", PStr "context_builder"); ("phase", PStr "end"); ("top_level", PInt top_level);
     ("planner_context_tokens", token_estimate rc "planner_context")] in
  prune_pre_verification_history out.

Definition context_builder (env : CEnv) (state : dict) : res dict :=
  let! state := context_start env state in
  let! repo_root := c_resolve env (dget state "_repo_root" (PStr ".")) in
  let '(rc, tools) := gathered env state repo_root in
  context_end env state rc tools.
