(* ===== verification/PlannerMemory.v ===== *)
(** * What the planner recalls: [nodes/_planner_memory.py]

    The ranking of the semantic memories and of the cached procedures against the
    request, their rendering in the prompt, and the constraints they add to a
    plan.  A plan is the dict of its [model_dump()]. *)
From Stdlib Require Import ZArith Lia String Ascii List Bool.
From stdpp Require Import base tactics list strings option.
From S2P Require Import Prelude PyStr PyFloat PyVal Regex State Memory Verifier Router.
Local Open Scope string_scope.
Local Open Scope Z_scope.

(** ** Words and file names *)

(** [set(_WORD_RE.findall(text))]; the pattern is the router's. *)
Definition words_of (text : string) : list string := findall_words "" text.

(** [len(a.intersection(b))] of the two sets of words. *)
Definition overlap (a b : list string) : Z :=
  Z.of_nat (length (List.filter (fun w => str_in w b) (List.nodup string_dec a))).

(** [[A-Za-z0-9_.-]]. *)
Definition name_char : regex :=
  RChar (fun c => is_alpha c || is_digit c || contains (String c "") "_.-").

Definition _FILE_HINT_RE : regex :=
  rseq [rplus (RSeq (rplus name_char) (rchar "/")); rplus name_char; rchar "."; rplus name_char].

Example file_hints :
  findall _FILE_HINT_RE "see py/src/a.py, lib/x.tar.gz and README.md." = ["py/src/a.py"; "lib/x.tar.gz"].
Proof. vm_compute. reflexivity. Qed.

Definition _dedupe_strings (values : list string) : list string :=
  fold_left (fun out value =>
    let normalized := strip value in
    if String.eqb normalized "" || str_in normalized out then out else (out ++ [normalized])%list) values [].

(** A stripped text field of a dict. *)
Definition text (d : dict) (k : string) : string := str_strip (dget d k (PStr "")).

(** [[e for e in v if isinstance(e, str)]] of a list, else nothing. *)
Definition str_entries (v : pyval) : list string :=
  flat_map (fun e => match e with PStr s => [s] | _ => [] end) (list_or_empty v).

(** ** Ranking *)

(** The first [limit] of the entries in descending order of their keys. *)
Definition top_ranked {K : Type} (key_lt : K -> K -> bool) (limit : nat) (ranked : list (K * dict)) : list dict :=
  firstn limit (List.map snd (py_sorted (fun a b => key_lt (fst b) (fst a)) ranked)).

(** [(score, created_at, -idx)]. *)
Definition mem_key : Type := (Z * (string * Z))%type.
Definition mem_key_lt : mem_key -> mem_key -> bool := lex Z.ltb Z.eqb (lex str_lt String.eqb Z.ltb).

Definition semantic_score (request_tokens : list string) (kind source created_at summary : string) : Z :=
  overlap request_tokens (words_of (lower (kind ++ " " ++ source ++ " " ++ summary))) * 10
  + (if String.eqb kind "approval_history" then 3 else 0)
  + (if String.eqb kind "loop_summary" then 2 else 0)
  + (if String.eqb created_at "" then 0 else 1).

(** The memories with a summary, each with its key; [idx] is the position of the first. *)
Fixpoint semantic_keys (request_tokens : list string) (idx : Z) (memories : list dict) : list (mem_key * dict) :=
  match memories with
  | [] => []
  | memory :: r =>
      let summary := text memory "summary" in
      let created_at := text memory "created_at" in
      let rest := semantic_keys request_tokens (idx + 1) r in
      if String.eqb summary "" then rest
      else ((semantic_score request_tokens (text memory "kind") (text memory "source") created_at summary,
              (created_at, - idx)), memory) :: rest
  end.

Definition _rank_semantic_memories (request : string) (repo_context : dict) (limit : nat) : list dict :=
  let memories := dicts_of (list_or_empty (dget repo_context "semantic_memories" (PList []))) in
  top_ranked mem_key_lt limit (semantic_keys (words_of (lower request)) 0 memories).

(** [(score, use_count, created_at, -idx)]. *)
Definition proc_key : Type := (Z * mem_key)%type.
Definition proc_key_lt : proc_key -> proc_key -> bool := lex Z.ltb Z.eqb mem_key_lt.

(** The names of the tools of a cached procedure, once each, in order. *)
Definition tool_names (procedure : dict) : list string :=
  let steps := dicts_of (list_or_empty (dget procedure "steps" (PList []))) in
  let calls := flat_map (fun step => dicts_of (list_or_empty (dget step "tools" (PList [])))) steps in
  fold_left (fun names call =>
    let name := text call "tool" in
    if String.eqb name "" || str_in name names then names else (names ++ [name])%list) calls [].

Definition use_count (procedure : dict) : Z := int_if (dget procedure "use_count" (PInt 0)) 0.

Definition procedure_score (request_tokens : list string) (procedure : dict) : Z :=
  let haystack := lower (join " " (text procedure "canonical_name" :: text procedure "task_class" :: tool_names procedure)) in
  overlap request_tokens (words_of haystack) * 10 + Z.min (use_count procedure) 5.

Fixpoint procedure_keys (request_tokens : list string) (idx : Z) (cached : list dict) : list (proc_key * dict) :=
  match cached with
  | [] => []
  | p :: r =>
      ((procedure_score request_tokens p, (use_count p, (text p "created_at", - idx))), p)
      :: procedure_keys request_tokens (idx + 1) r
  end.

Definition _rank_cached_procedures (request : string) (repo_context : dict) (limit : nat) : list dict :=
  let cached := dicts_of (list_or_empty (dget repo_context "cached_procedures" (PList []))) in
  top_ranked proc_key_lt limit (procedure_keys (words_of (lower request)) 0 cached).

(** ** Prompts *)

Definition _planner_semantic_memory_prompt (repo_context : dict) (request : string) : string :=
  match _rank_semantic_memories request repo_context 4 with
  | [] => ""
  | ranked =>
      let compact (m : dict) := PDict (List.map (fun k => (k, PStr (text m k))) ["kind"; "source"; "summary"; "created_at"]) in
      "semantic_memory_recall: " ++ json_dumps true (PList (List.map compact ranked))
  end.

(** [int(procedure.get("use_count", 0) or 0)] may raise. *)
Definition compact_procedure (p : dict) : res pyval :=
  let! uses := py_int (py_or (dget p "use_count" (PInt 0)) (PInt 0)) in
  Ok (PDict [("procedure_id", PStr (text p "procedure_id")); ("canonical_name", PStr (text p "canonical_name"));
             ("task_class", PStr (text p "task_class")); ("use_count", PInt uses);
             ("step_count", PInt (Z.of_nat (length (list_or_empty (dget p "steps" (PList []))))))]).

Definition _planner_procedural_memory_prompt (repo_context : dict) (request : string) : res string :=
  match _rank_cached_procedures request repo_context 3 with
  | [] => Ok ""
  | ranked =>
      let! compact := map_res compact_procedure ranked in
      Ok ("procedural_memory_recall: " ++ json_dumps true (PList compact))
  end.

(** ** Constraints *)

Record MemoryConstraints := {
  mc_files_touched : list string; mc_acceptance_criteria : list string;
  mc_handoff_constraints : list string; mc_handoff_evidence : list dict }.

Definition memory_criterion (kind : string) : string :=
  if str_in kind ["approval_history"; "approval_summary"] then
    "Approval-sensitive changes preserve checkpoint-backed resume and auditability."
  else if String.eqb kind "loop_summary" then
    "Cross-run lessons recalled from semantic memory are incorporated into the bounded plan."
  else "Relevant recalled run knowledge is reflected in the plan.".

Definition memory_constraint (kind : string) : list string :=
  if str_in kind ["approval_history"; "approval_summary"] then
    ["Preserve approval and checkpoint compatibility for approval-sensitive mutations."]
  else if String.eqb kind "loop_summary" then
    ["Do not repeat a previously failed repair pattern without a concrete change in approach."]
  else [].

Definition memory_evidence (memory : dict) : dict :=
  let kind := text memory "kind" in
  let source := text memory "source" in
  [("kind", PStr "semantic_memory");
   ("ref", PStr (if String.eqb source "" then kind else kind ++ ":" ++ source));
   ("detail", PStr (text memory "summary"))].

Definition _semantic_memory_constraints (repo_context : dict) (request : string) : MemoryConstraints :=
  let used := List.filter (fun m => negb (String.eqb (text m "summary") ""))
                (_rank_semantic_memories request repo_context 4) in
  {| mc_files_touched := firstn 6 (_dedupe_strings (flat_map (fun m => findall _FILE_HINT_RE (text m "summary")) used));
     mc_acceptance_criteria := _dedupe_strings (List.map (fun m => memory_criterion (text m "kind")) used);
     mc_handoff_constraints := _dedupe_strings (flat_map (fun m => memory_constraint (text m "kind")) used);
     mc_handoff_evidence := firstn 4 (List.map memory_evidence used) |}.

(** [any(constraints.values())]. *)
Definition any_constraint (c : MemoryConstraints) : bool :=
  nonempty (mc_files_touched c) || nonempty (mc_acceptance_criteria c)
  || nonempty (mc_handoff_constraints c) || nonempty (mc_handoff_evidence c).

(** The handoff of a step when its consumer is the coder. *)
Definition coder_handoff_of (step : dict) : option dict :=
  match dget step "handoff" PNone with
  | PDict h => if String.eqb (text h "consumer") "coder" then Some h else None
  | _ => None
  end.

Definition evidence_of (handoff : dict) : list dict := dicts_of (list_or_empty (dget handoff "evidence" (PList []))).

(** The loop over the steps, which both kinds of constraints share: entries that
    are not dicts are kept. *)
Definition map_steps (f : dict -> dict) (plan : dict) : dict :=
  match dget plan "steps" (PList []) with
  | PList steps =>
      dset "steps" (PList (List.map (fun v => match v with PDict d => PDict (f d) | _ => v end) steps)) plan
  | _ => plan
  end.

Definition semantic_step (c : MemoryConstraints) (step : dict) : dict :=
  let files := _dedupe_strings (str_entries (dget step "files_touched" (PList [])) ++ mc_files_touched c) in
  let step := dset "files_touched" (strs files) step in
  match coder_handoff_of step with
  | Some h =>
      let h := dset "file_scope" (strs (_dedupe_strings (str_entries (dget h "file_scope" (PList [])) ++ files))) h in
      let h := dset "constraints" (strs (_dedupe_strings
                 (str_entries (dget h "constraints" (PList [])) ++ mc_handoff_constraints c))) h in
      let h := dset "evidence" (PList (List.map PDict (evidence_of h ++ mc_handoff_evidence c))) h in
      dset "handoff" (PDict h) step
  | None => step
  end.

Definition _apply_semantic_memory_constraints (plan repo_context : dict) (request : string) : dict :=
  let c := _semantic_memory_constraints repo_context request in
  if any_constraint c then
    let acceptance := str_entries (dget plan "acceptance_criteria" (PList [])) in
    map_steps (semantic_step c)
      (dset "acceptance_criteria" (strs (_dedupe_strings (acceptance ++ mc_acceptance_criteria c))) plan)
  else plan.

Definition procedure_criterion (name : string) : string :=
  "Validated procedure memory '" ++ name ++ "' is reused when compatible with current evidence.".
Definition procedure_constraint (name : string) : string :=
  "Prefer the validated cached procedure '" ++ name ++ "' when it remains compatible with current evidence.".
Definition procedure_evidence (ref name : string) : dict :=
  [("kind", PStr "procedure_cache"); ("ref", PStr ref);
   ("detail", PStr ("Validated procedure '" ++ name ++ "' is available for reuse."))].

Definition procedural_step (procedure_id name : string) (step : dict) : dict :=
  match coder_handoff_of step with
  | Some h =>
      let h := dset "constraints" (strs (_dedupe_strings
                 (str_entries (dget h "constraints" (PList [])) ++ [procedure_constraint name])))%list h in
      let ref := if String.eqb procedure_id "" then name else procedure_id in
      let h := dset "evidence" (PList (List.map PDict (evidence_of h ++ [procedure_evidence ref name])))%list h in
      dset "handoff" (PDict h) step
  | None => step
  end.

(** The plan, and the identity of the procedure that was recalled, if it has one. *)
Definition _apply_procedural_memory_constraints (plan repo_context : dict) (request : string)
    : dict * option string :=
  match _rank_cached_procedures request repo_context 1 with
  | [] => (plan, None)
  | procedure :: _ =>
      let procedure_id := text procedure "procedure_id" in
      let name := str_or (text procedure "canonical_name") "cached_procedure" in
      let verification := dicts_of (list_or_empty (dget procedure "verification" (PList []))) in
      let plan :=
        if nonempty verification && negb (truthy (dget plan "verification" PNone))
        then dset "verification" (PList (List.map PDict verification)) plan else plan in
      let acceptance := (str_entries (dget plan "acceptance_criteria" (PList [])) ++ [procedure_criterion name])%list in
      let plan := dset "acceptance_criteria" (strs (_dedupe_strings acceptance)) plan in
      (map_steps (procedural_step procedure_id name) plan,
       if String.eqb procedure_id "" then None else Some procedure_id)
  end.

(** The use that is recorded in the procedure cache: its file and the procedure.
    Whatever the cache raises is dropped. *)
Definition _record_selected_procedure_use (state : dict) (procedure_id : option string) : option (string * string) :=
  match procedure_id with
  | None => None
  | Some id =>
      let path := text state "_procedure_cache_path" in
      if String.eqb path "" then None else Some (path, id)
  end.
