(* ===== verification/Planner.v ===== *)
(** * Planner node: [nodes/_planner_prompt.py] and [nodes/planner.py]

    The deterministic fallback plan, the prompts, the model call and the node.
    The node's module keeps a pool of failure reflections for the life of the
    process and records the use of a cached procedure; both are part of its
    result next to the state. *)
From Stdlib Require Import ZArith Lia String Ascii List Bool.
From Stdlib Require Import SpecFloat.
From stdpp Require Import base tactics list strings option.
From S2P Require Import Prelude PyStr PyFloat PyVal Json Regex State Memory ModelRouting Verifier Router PlannerMemory.
Local Open Scope string_scope.
Local Open Scope Z_scope.

(** ** Intent *)

Definition what_is : regex := rseq [RWordB; rlit "what"; rplus rspace; rlit "is"; RWordB].

Definition _classify_intent (request : string) : Intent :=
  let r := lower request in
  let words := words_of r in
  if str_in "fix" words || contains "fix" r then code_change
  else if meets words ["implement"; "add"; "change"; "refactor"] then code_change
  else if str_in "why" words || str_in "how" words || str_in "explain" words || search what_is r then question
  else if meets words ["research"; "latest"; "compare"; "survey"] then research
  else if meets words ["debug"; "error"; "panic"; "exception"] || contains "stack trace" r then debug
  else analysis.

(** ** The PDF path of a request *)

(** Group 2 of [_PDF_PATH_RE]: a lazy run without quotes and newlines, up to [.pdf]. *)
Definition pdf_body : regex :=
  RSeq (rlazy (RChar (fun c => negb (contains (String c "") (dq ++ sq ++ nl ++ String "013" ""))))) (rilit ".pdf").

(** At one position: quoted first (the closing quote is the opening one), then bare. *)
Definition pdf_at (p : pos) : list string :=
  (group_at (rclass dq) pdf_body (rclass dq) p ++ group_at (rclass sq) pdf_body (rclass sq) p
   ++ group_at REmpty pdf_body REmpty p)%list.

Fixpoint search_pdf (prev : option ascii) (s : string) : option string :=
  match pdf_at (prev, s) with
  | g :: _ => Some g
  | [] => match s with EmptyString => None | String c t => search_pdf (Some c) t end
  end.

Definition _extract_pdf_path (request : string) : option string :=
  match search_pdf None request with
  | Some g => let candidate := strip g in if String.eqb candidate "" then None else Some candidate
  | None => None
  end.

(** ** Prompt parts *)

Definition _planner_mcp_prompt (repo_context : dict) : string :=
  let part label s := if String.eqb s "" then [] else [(label ++ ": " ++ s)%string] in
  let json label v := if truthy v then [(label ++ ": " ++ json_dumps true v)%string] else [] in
  let capabilities := dget repo_context "mcp_capabilities" (PDict []) in
  let relevant := dget repo_context "mcp_relevant_tools" (PList []) in
  join nl (part "mcp_catalog" (text repo_context "mcp_catalog")
           ++ (if is_dict capabilities then json "mcp_capabilities" capabilities else [])
           ++ part "mcp_recovery_hints" (text repo_context "mcp_recovery_hints")
           ++ (if is_list relevant then json "mcp_relevant_tools" relevant else []))%list.

(** The properties whose description is a dict, each with the text of its type. *)
Definition schema_summary (props : dict) : dict :=
  flat_map (fun kv => match snd kv with
                      | PDict v => [(fst kv, PStr (py_str (dget v "type" (PStr "any"))))]
                      | _ => [] end) props.

Definition tool_lines (tool : dict) : list string :=
  let name := text tool "name" in
  let description := text tool "description" in
  if String.eqb name "" then []
  else
    let line := "- `" ++ name ++ "`" ++ (if String.eqb description "" then "" else ": " ++ description) in
    match py_or (dget tool "inputSchema" PNone) (dget tool "input_schema" PNone) with
    | PDict schema =>
        match dget schema "properties" (PDict []) with
        | PDict (_ :: _ as props) => [line; "  Input schema: " ++ repr (PDict (schema_summary props))]
        | _ => [line]
        end
    | _ => [line]
    end.

Definition _format_mcp_tool_catalog (mcp_tools : list dict) : string :=
  match flat_map tool_lines mcp_tools with
  | [] => ""
  | lines => "## Available MCP Tools" ++ nl ++ join nl lines
  end.

(** ** The deterministic plan *)

Definition handoff_evidence (kind ref detail : string) : HandoffEvidence :=
  {| he_kind := kind; he_detail := detail; he_ref := ref |}.

Definition _default_step_handoff (request step_id expected_outcome : string) : option AgentHandoff :=
  let intent := _classify_intent request in
  let handoff objective more :=
    Some {| ah_producer := "planner"; ah_consumer := "coder"; ah_objective := objective; ah_file_scope := [];
            ah_evidence := [handoff_evidence "request" "user_request" (strip request);
                            handoff_evidence "expected_outcome" step_id expected_outcome];
            ah_constraints :=
              (["Prefer the smallest correct diff.";
                "Stay within the declared file scope or hand back a narrower follow-up request.";
                "Keep the change compatible with the planned verification steps."] ++ more)%list;
            ah_acceptance_checks := ["The proposed patch is grounded in gathered repository context.";
                                     "The change remains minimal and reviewable."];
            ah_retry_budget := 1; ah_provenance := ["plan:" ++ step_id] |} in
  match intent with
  | debug => handoff "Prepare a minimal repair grounded in the gathered repository context and failing evidence."
                     ["Preserve the failing reproduction until the fix is ready for verification."]
  | code_change | refactor =>
      handoff "Prepare a minimal patch proposal grounded in the gathered repository context." []
  | _ => None
  end.

Definition _first_step_handoff (plan : dict) : pyval :=
  match List.find (fun step => is_dict (dget step "handoff" PNone))
          (dicts_of (list_or_empty (dget plan "steps" (PList [])))) with
  | Some step => dget step "handoff" PNone
  | None => PNone
  end.

(** [verification and not verification.get("ok", True)]. *)
Definition failed_verification (verification : pyval) : res bool :=
  if truthy verification then let! ok := get verification "ok" (PBool true) in Ok (negb (truthy ok)) else Ok false.

Definition recovery_step (verification : dict) : PlanStep :=
  let failure_class := str_or (str_strip (dget verification "failure_class" (PStr "unknown"))) "unknown" in
  let action := str_or (str_strip (dget (dsub verification "recovery") "action" (PStr "retry"))) "retry" in
  {| ps_id := "step-0-recovery";
     ps_description := "Recovery from verification failure (" ++ failure_class ++ "): " ++ action
                       ++ " with updated context.";
     ps_tools := []; ps_expected_outcome := "Recovery action '" ++ action ++ "' applied for " ++ failure_class ++ ".";
     ps_files_touched := []; ps_handoff := None |}.

Definition list_files_call : ToolCall :=
  {| tc_tool := "list_files"; tc_input := [("path", PStr "."); ("recursive", PBool false)] |}.
Definition search_todo_call : ToolCall :=
  {| tc_tool := "search_files";
     tc_input := [("path", PStr "."); ("regex", PStr "TODO"); ("file_pattern", PStr "*.py")] |}.
Definition read_file_call (path : string) : ToolCall :=
  {| tc_tool := "read_file"; tc_input := [("path", PStr path)] |}.

Definition context_step (request : string) : PlanStep :=
  let '(second, outcome) :=
    match _extract_pdf_path request with
    | Some path => (read_file_call path, "Top-level repository structure and PDF requirements extracted.")
    | None => (search_todo_call, "Top-level repository structure and TODOs captured.")
    end in
  {| ps_id := "step-1"; ps_description := "Collect repository context.";
     ps_tools := [list_files_call; second]; ps_expected_outcome := outcome; ps_files_touched := [];
     ps_handoff := _default_step_handoff request "step-1" outcome |}.

Definition _default_plan (request : string) (verification : pyval) : res PlannerOutput :=
  let! failed := failed_verification verification in
  Ok {| po_steps := ((if failed then [recovery_step (dict_or_empty verification)] else []) ++ [context_step request])%list;
        po_verification := []; po_rollback := "No changes were made.";
        po_acceptance_criteria :=
          (["Necessary repository context was gathered.";
            "The request can be answered or executed with bounded next steps."]
           ++ (if failed then ["Recovery from prior verification failure has been addressed."] else []))%list;
        po_max_iterations := 1; po_recovery := None; po_recovery_packet := None |}.

Definition _recovery_action_from_packet (packet : dict) : dict :=
  let text_default k dflt := PStr (str_or (str_strip (dget packet k (PStr dflt))) dflt) in
  [("failure_class", PStr (text packet "failure_class"));
   ("failure_fingerprint", PStr (text packet "failure_fingerprint"));
   ("rationale", PStr (text packet "rationale"));
   ("retry_target", text_default "retry_target" "planner");
   ("context_scope", text_default "context_scope" "working_set");
   ("plan_action", text_default "plan_action" "keep")].

(** ** The model call *)

(** What the node finds outside [src]: the diversity switch ([false] when unset), a
    file under the repository root ([None] when it is not there or not readable),
    the completion calls ([true] is the streaming one), the JSON schema ([None] when
    it could not be loaded, else whether an object satisfies it), pydantic's
    validation of a plan, the reflections gathered so far, the rendering
    [type(exc).__name__: exc] of an exception, and the clock. *)
Record PEnv := {
  p_diversity : string;
  p_read_file : string -> string -> res (option string);
  p_complete : bool -> ClientConfig -> string -> string -> float -> res completion;
  p_schema : option (dict -> res bool);
  p_validate : dict -> res PlannerOutput;
  p_reflections : SharedReflectionPool;
  p_exc_text : pyexc -> string;
  p_em_dash : string;
  p_now : float; p_ts_start : Z; p_ts_end : Z }.

Definition default_system_prompt : string :=
  "You are a planner for a repo-aware coding assistant. Return strict JSON only.".

Definition repair_prefix : string :=
  "REPAIR MODE: The task is to fix one or more failing tests. Focus exclusively on:" ++ nl
  ++ "1. Reading the failing test(s) and the code they test." ++ nl
  ++ "2. Identifying the root cause (test expectation vs. implementation mismatch)." ++ nl
  ++ "3. Generating a targeted patch to fix the implementation (not the test, unless the test itself is incorrect)." ++ nl
  ++ "4. Verifying the fix by re-running only the affected test(s)." ++ nl
  ++ "Do not refactor unrelated code." ++ nl ++ nl.

Definition line_of (s : string) : string := if String.eqb s "" then "" else s ++ nl.

Definition plan_prompt (state repo_context route verification budgets : dict) (procedural schema : string) : string :=
  let request := text state "request" in
  let top_level := match dget repo_context "top_level" (PList []) with
                   | PList l => join ", " (List.map py_str (firstn 30 l)) | _ => "" end in
  let json d := json_dumps false (PDict d) in
  "Create a bounded execution plan for the request below."
  ++ " The response must be JSON matching planner_output.schema.json."
  ++ " Do not include prose outside JSON." ++ nl ++ nl
  ++ "request: " ++ request ++ nl ++ "top_level: " ++ top_level ++ nl ++ "route: " ++ json route ++ nl
  ++ "planner_context: " ++ py_str (dget (dsub repo_context "planner_context") "content" (PStr "")) ++ nl
  ++ "verification: " ++ json verification ++ nl ++ "budgets: " ++ json budgets ++ nl
  ++ line_of (_planner_mcp_prompt repo_context)
  ++ line_of (_format_mcp_tool_catalog (dicts_of (list_or_empty (dget state "mcp_tools" (PList [])))))
  ++ line_of (_planner_semantic_memory_prompt repo_context request)
  ++ line_of procedural
  ++ (if String.eqb schema "" then "" else nl ++ "schema:" ++ nl ++ schema).

Definition int_budget (state : dict) (k : string) (d : Z) : res Z := py_int (py_or (dget state k (PInt d)) (PInt d)).

(** The system prompt and the user prompt. *)
Definition _build_planner_prompts (env : PEnv) (state : dict) (repo_root : string) (repo_context route verification : dict)
    : res (string * string) :=
  let! prompt := p_read_file env repo_root "prompts/planner.md" in
  let system := match prompt with Some p => str_or (strip p) default_system_prompt | None => default_system_prompt end in
  let system := if truthy (dget state "test_repair_mode" (PBool false)) then repair_prefix ++ system else system in
  let! schema := p_read_file env repo_root "schemas/planner_output.schema.json" in
  let! calls := int_budget state "_budget_max_tool_calls_per_loop" 0 in
  let! bytes := int_budget state "_budget_max_patch_bytes" 0 in
  let! loops := int_budget state "_budget_max_loops" 1 in
  let budgets := [("max_tool_calls_per_loop", PInt calls); ("max_patch_bytes", PInt bytes); ("max_loops", PInt loops)] in
  let! procedural := _planner_procedural_memory_prompt repo_context (text state "request") in
  Ok (system, plan_prompt state repo_context route verification budgets procedural
                (match schema with Some t => t | None => "" end)).

Definition planner_temperature (state : dict) : res float :=
  let raw := dget (dsub (dsub state "_models") "planner") "temperature" (PFloat fzero) in
  if is_number raw then num_to_float raw else Ok fzero.

Definition with_model (cfg : ClientConfig) (model : string) : ClientConfig :=
  {| cc_base_url := cc_base_url cfg; cc_api_key := cc_api_key cfg; cc_timeout_s := cc_timeout_s cfg; cc_model := model |}.

(** The policy is made anew for this call, so it always gives its first model; a value
    of the state is not a policy object.  A first entry that is not a text would be
    sent as it is. *)
Definition preferred_model (env : PEnv) (state : dict) (cfg : ClientConfig) : res ClientConfig :=
  let models := list_or_empty (dget (dsub state "_model_routing_policy") "diversity_models" (PList [])) in
  let! policy := get_routing_policy (p_diversity env) None
                   (match models with [] => None | _ => Some (List.map py_str models) end) in
  match policy, models with
  | Some (Diversity d), v :: _ =>
      if truthy v && negb (is_str v) then Err (Unmodelled "a model name that is not a string")
      else Ok (with_model cfg (if truthy v then snd (next_model d) else cc_model cfg))
  | Some (Sla s), _ => Ok (with_model cfg (str_or (select_model s (cc_model cfg)) (cc_model cfg)))
  | _, _ => Ok cfg
  end.

Definition call_planner (env : PEnv) (lane : string) (cfg : ClientConfig) (system user : string) (t : float)
    : res completion :=
  if String.eqb lane "interactive" then
    match p_complete env true cfg system user t with
    | Ok c => Ok c
    | Err _ => p_complete env false cfg system user t
    end
  else p_complete env false cfg system user t.

(** The answer of the model: [None] for [null] and for an object the schema refuses. *)
Definition read_plan (env : PEnv) (raw : string) : res (option PlannerOutput) :=
  let! parsed := json_loads (_extract_json_block raw) in
  match parsed with
  | PNone => Ok None
  | PDict d =>
      let! valid := match p_schema env with Some check => check d | None => Ok true end in
      if valid then let! plan := p_validate env d in Ok (Some plan) else Ok None
  | _ => Err (ValueError "planner completion did not return an object")
  end.

Definition _planner_model_output (env : PEnv) (state route_decision : dict)
    : res (option (PlannerOutput * completion)) :=
  if String.eqb (str_strip (dget route_decision "provider_used" (PStr "local"))) "local" then Ok None
  else
    let! temperature := planner_temperature state in
    match resolve_inference_client (p_em_dash env) state "planner" with
    | Err e => if is_value_error e then Ok None else Err e
    | Ok cfg =>
        let! cfg := preferred_model env state cfg in
        let! prompts := _build_planner_prompts env state (py_str (dget state "_repo_root" (PStr ".")))
                          (dsub state "repo_context") (dsub state "route") (dsub state "verification") in
        let reflections := get_context (p_em_dash env) (p_reflections env) in
        let system := if String.eqb reflections "" then fst prompts else fst prompts ++ nl ++ nl ++ reflections in
        let! response := call_planner env (str_strip (dget route_decision "lane" (PStr "deep_planning"))) cfg system
                           (snd prompts) (clamp_temperature temperature) in
        let! plan := read_plan env (completion_text response) in
        Ok (option_map (fun p => (p, response)) plan)
    end.

(** ** The node *)

Definition reset_context (state : dict) : dict :=
  if truthy (dget state "context_reset_requested" (PBool false)) then
    dupdate state [("plan", PNone); ("facts", PList []); ("context_reset_requested", PBool false);
                   ("plan_discarded", PBool false); ("plan_discard_reason", PStr ""); ("retry_target", PNone)]
  else state.

Definition planner_start (env : PEnv) (state : dict) : res dict :=
  let! state := ensure_history_policy state in
  let! task_class := get (py_or (dget state "route" PNone) (PDict [])) "task_class" (PStr "context_condensation") in
  let! state := record_model_route state "planner" (py_str task_class) "planner" in
  let! state := append_event (p_ts_start env) state "node" [("name", PStr "planner"); ("phase", PStr "start")] in
  Ok (reset_context state).

Definition verification_of (state : dict) : pyval := py_or (dget state "verification" PNone) (PDict []).

(** The fields of the plan the configuration and the verifier's recovery decide. *)
Definition bound_iterations (state payload : dict) : res dict :=
  let! configured := int_budget state "_budget_max_loops" 1 in
  let! planned := py_int (py_or (dget payload "max_iterations" (PInt 1)) (PInt 1)) in
  Ok (dset "max_iterations" (PInt (Z.max 1 (Z.min planned configured))) payload).

Definition default_criteria (state payload : dict) : res dict :=
  if truthy (dget payload "acceptance_criteria" PNone) then Ok payload
  else
    let! plan := _default_plan (text state "request") (verification_of state) in
    Ok (dset "acceptance_criteria" (strs (po_acceptance_criteria plan)) payload).

Definition add_recovery (state payload : dict) : dict :=
  let verification := dsub state "verification" in
  let packet := dict_or_empty (dget state "recovery_packet" (dget verification "recovery_packet" (PDict []))) in
  let payload :=
    if is_none (dget payload "recovery" PNone) then
      match dget verification "recovery" PNone with
      | PDict r => dset "recovery" (PDict r) payload
      | _ => if nonempty packet then dset "recovery" (PDict (_recovery_action_from_packet packet)) payload else payload
      end
    else payload in
  if is_none (dget payload "recovery_packet" PNone) && nonempty packet
  then dset "recovery_packet" (PDict packet) payload else payload.

(** Both kinds of recalled constraints: the plan and the recalled procedure. *)
Definition recall (state plan : dict) : dict * option string :=
  let request := text state "request" in
  let repo_context := dsub state "repo_context" in
  _apply_procedural_memory_constraints (_apply_semantic_memory_constraints plan repo_context request) repo_context request.

(** The [try] block up to the use of the procedure: the plan, the procedure and the response. *)
Definition make_plan (env : PEnv) (state route_decision : dict)
    : res (dict * option string * option InferenceResponse) :=
  let! chosen := _planner_model_output env state route_decision in
  let! plan := match chosen with
               | Some (p, _) => Ok p
               | None => _default_plan (text state "request") (verification_of state)
               end in
  let! payload := bound_iterations state (PlannerOutput_dump plan) in
  let! payload := default_criteria state payload in
  let response := match chosen with Some (_, c) => completion_meta c | None => None end in
  Ok (recall state (add_recovery state payload), response).

Definition with_plan (state : dict) (intent : string) (plan : dict) : dict :=
  dset "active_handoff" (_first_step_handoff plan) (dset "plan" (PDict plan) (dset "intent" (PStr intent) state)).

Definition planner_end (env : PEnv) (out : dict) : res dict :=
  let! plan := get (py_or (dget out "plan" PNone) (PDict [])) "steps" (PList []) in
  let! steps := py_length plan in
  let! out := append_event (p_ts_end env) out "node"
                [("name", PStr "planner"); ("phase", PStr "end"); ("steps", PInt steps)] in
  prune_pre_verification_history out.

(** The rest of the [try] block. *)
Definition finish_plan (env : PEnv) (state route_decision plan : dict) (response : option InferenceResponse) : res dict :=
  let route := dsub state "route" in
  let intent := str_or (text route "intent") (spelling (_classify_intent (text state "request"))) in
  let out := record_inference_telemetry (with_plan state intent plan) "planner"
               (py_str (dget route_decision "provider" (PStr ""))) (py_str (dget route_decision "model" (PStr ""))) response in
  let! summary := get_compression_summary out in
  planner_end env (dset "telemetry" (PDict (dset "compression_summary" (PDict summary) (telemetry_of out))) out).

(** The new state, the reflections, and the uses recorded in the procedure cache. *)
Record planner_run := {
  pr_state : res dict; pr_pool : SharedReflectionPool; pr_uses : list (string * string) }.

Definition used (state : dict) (procedure_id : option string) : list (string * string) :=
  match _record_selected_procedure_use state procedure_id with Some u => [u] | None => [] end.

(** The plan of the [except] block. *)
Definition fallback_plan (state : dict) : res (dict * option string) :=
  let! plan := _default_plan (text state "request") (verification_of state) in
  Ok (recall state (dset "rollback" (PStr "Plan generation failed; deterministic fallback used.") (PlannerOutput_dump plan))).

Definition planner_failed (env : PEnv) (state route_decision : dict) (uses : list (string * string)) (e : pyexc) : planner_run :=
  match py_int (dget (dsub state "budgets") "current_loop" (PInt 0)) with
  | Err e' => {| pr_state := Err e'; pr_pool := p_reflections env; pr_uses := uses |}
  | Ok loop =>
      let pool := add_reflection (p_reflections env)
        {| loop_index := loop; model_used := py_str (dget route_decision "model" (PStr "unknown"));
           failure_class := "planner_exception"; reflection := "Planner failed with " ++ p_exc_text env e;
           fr_timestamp := p_now env |} in
      match fallback_plan state with
      | Err e' => {| pr_state := Err e'; pr_pool := pool; pr_uses := uses |}
      | Ok (plan, id) =>
          let intent := py_str (py_or (dget (dsub state "route") "intent" (PStr "analysis")) (PStr "analysis")) in
          {| pr_state := planner_end env (with_plan state intent plan); pr_pool := pool;
             pr_uses := (uses ++ used state id)%list |}
      end
  end.

Definition planner (env : PEnv) (state : dict) : planner_run :=
  match planner_start env state with
  | Err e => {| pr_state := Err e; pr_pool := p_reflections env; pr_uses := [] |}
  | Ok state =>
      let route_decision := latest_model_route state "planner" in
      match make_plan env state route_decision with
      | Err e => planner_failed env state route_decision [] e
      | Ok (plan, id, response) =>
          match finish_plan env state route_decision plan response with
          | Err e => planner_failed env state route_decision (used state id) e
          | Ok out => {| pr_state := Ok out; pr_pool := p_reflections env; pr_uses := used state id |}
          end
      end
  end.
