(* ===== verification/RouterProps.v ===== *)
(** * Properties of the router node

    Which lane the default route takes, and that no behaviour of the model can
    make the node fail or leave a stale retry target. *)
From Stdlib Require Import ZArith Lia String Ascii List Bool.
From stdpp Require Import base tactics list strings option.
From S2P Require Import Prelude PyStr PyFloat PyVal Json State Memory MemoryProps ModelRouting Executor Verifier Router.
Local Open Scope string_scope.
Local Open Scope Z_scope.

(** ** Lanes *)

(** The request and context are small enough for the interactive lane. *)
Definition lightweight (i : RouteInputs) : Prop :=
  ri_intent i <> code_change /\ ri_intent i <> refactor /\ ri_intent i <> debug /\
  ri_token_estimate i <= ri_interactive_limit i /\ ri_working_set_tokens i <= ri_interactive_limit i /\
  ri_compression_score i <= 0 /\ ri_fact_count i < 3 /\ ri_semantic_count i < 2.

Lemma needs_planning_false i : needs_planning i = false <-> lightweight i.
Proof.
  unfold needs_planning, lightweight.
  rewrite !orb_false_iff, !bool_decide_eq_false, !Z.ltb_ge, !Z.leb_gt. tauto.
Qed.

Lemma needs_recovery_true i : needs_recovery i = true <-> ri_retry_target i = "router" \/ ri_recovery i <> [].
Proof.
  unfold needs_recovery. rewrite orb_true_iff, String.eqb_eq. destruct (ri_recovery i); simpl; intuition congruence.
Qed.

(** The lane of the default route: recovery exactly when the router was asked to
    retry or a recovery packet is pending; otherwise deep planning unless the
    intent is read-only and tokens, compression, facts and memories are all under
    their limits; the decision is latency-sensitive on the interactive lane only,
    and outside recovery it never asks for more than the stable prefix. *)
Theorem default_route_lane state r :
  _default_route state = Ok r ->
  exists i, route_inputs state = Ok i /\ rd_intent r = _classify_intent (str_strip (dget state "request" (PStr ""))) /\
    (rd_lane r = recovery_lane <-> ri_retry_target i = "router" \/ ri_recovery i <> []) /\
    (rd_lane r = interactive <-> ri_retry_target i <> "router" /\ ri_recovery i = [] /\ lightweight i) /\
    (rd_latency_sensitive r = true <-> rd_lane r = interactive) /\
    (rd_lane r <> recovery_lane -> rd_context_scope r = stable_prefix) /\
    rd_context_tokens r = Z.max (ri_token_estimate i) (ri_working_set_tokens i).
Proof.
  unfold _default_route. intros H. apply bind_Ok in H as (i & Hi & H). exists i. split; [done|].
  assert (Hint : ri_intent i = _classify_intent (str_strip (dget state "request" (PStr "")))).
  { unfold route_inputs in Hi. cbv zeta in Hi. inv_bind Hi. by injection Hi as <-. }
  rewrite <- Hint. destruct (needs_recovery i) eqn:Er.
  - unfold recovery_route in H. cbv zeta in H. apply bind_Ok in H as (s & _ & H). injection H as <-.
    cbn [rd_intent rd_lane rd_latency_sensitive rd_context_scope rd_context_tokens].
    apply needs_recovery_true in Er. repeat split; try done; intuition congruence.
  - assert (Hno : ~ (ri_retry_target i = "router" \/ ri_recovery i <> []))
      by (rewrite <- needs_recovery_true; congruence).
    assert (Hrec : ri_recovery i = []) by (destruct (ri_recovery i); [done|exfalso; apply Hno; right; done]).
    destruct (needs_planning i) eqn:Ep; injection H as <-;
      cbn [planning_route interactive_route rd_intent rd_lane rd_latency_sensitive rd_context_scope rd_context_tokens].
    + assert (Hl : ~ lightweight i) by (rewrite <- needs_planning_false; congruence).
      split; [done|]. split; [by split|]. split; [split; [done|tauto]|]. by split; [|split].
    + apply needs_planning_false in Ep. split; [done|]. split; [by split|]. split; [split; [tauto|done]|].
      by split; [|split].
Qed.

Definition small_request : dict := [("request", PStr "Explain how the scheduler works")].

Lemma default_route_lane_witness :
  exists i, route_inputs small_request = Ok i /\ lightweight i.
Proof.
  destruct (_default_route small_request) as [r|] eqn:E; [|vm_compute in E; discriminate E].
  destruct (default_route_lane small_request r E) as (i & Hi & _ & _ & Hl & _).
  exists i. split; [exact Hi|]. apply Hl. vm_compute in E. injection E as <-. reflexivity.
Defined.

(** ** The node against any model *)

Definition routed_keys : list string := ["route"; "intent"; "retry_target"; "telemetry"].

Lemma routed_state_frame state payload k : str_in k routed_keys = false -> dlookup k (routed_state state payload) = dlookup k state.
Proof. cbn. intros H. bool_prop. unfold routed_state. by rewrite !dlookup_dset_ne by done. Qed.

Lemma telemetry_frame state node p m r k :
  k <> "telemetry" -> dlookup k (record_inference_telemetry state node p m r) = dlookup k state.
Proof. intros H. unfold record_inference_telemetry. by rewrite dlookup_dset_ne. Qed.

(** A completion of the model that was parsed and validated as the decision [r]. *)
Definition answered (env : REnv) (r : RouterDecision) : Prop :=
  exists stream cfg system user t c d,
    r_complete env stream cfg system user t = Ok c /\
    json_loads (_extract_json_block (completion_text c)) = Ok (PDict d) /\ r_validate env d = Ok r.

Lemma call_model_inv env lane cfg sys user t c :
  call_model env lane cfg sys user t = Ok c -> exists stream, r_complete env stream cfg sys user t = Ok c.
Proof. unfold call_model. destruct lane; eauto. destruct (r_complete env true _ _ _ _) eqn:E; [intros [= ->]|]; eauto. Qed.

Lemma model_output_answered env state default decision r c :
  _router_model_output env state default decision = Ok (Some (r, c)) -> answered env r.
Proof.
  unfold _router_model_output. destruct (String.eqb _ _); [done|]. intros E.
  apply bind_Ok in E as (t & _ & E). destruct (resolve_inference_client _ _ _) as [cfg|e]; [|by case_match].
  apply bind_Ok in E as (p & _ & E). apply bind_Ok in E as (resp & Hc & E). apply bind_Ok in E as (j & Hj & E).
  apply call_model_inv in Hc as (stream & Hc).
  destruct j; try done. apply bind_Ok in E as (r' & Hr & E). injection E as <- <-. unfold answered. eauto 10.
Qed.

(** The chosen route: the default one, or an answer of the model. *)
Lemma choose_route_inv env state default decision :
  exists r, (r = default \/ answered env r) /\
    forall k, k <> "telemetry" ->
      dlookup k (choose_route env state default decision) = dlookup k (routed_state state (route_payload r decision)).
Proof.
  unfold choose_route. destruct (_router_model_output env state default decision) as [[[r c]|]|e] eqn:E.
  - exists r. split; [right; by eapply model_output_answered|]. intros k Hk. by apply telemetry_frame.
  - exists default. split; [by left|]. intros k Hk. by apply telemetry_frame.
  - exists default. by split; [left|].
Qed.

Lemma set_nonempty_frame k k' v d : k <> k' -> dlookup k (set_nonempty k' v d) = dlookup k d.
Proof. intros H. unfold set_nonempty. destruct (String.eqb v ""); [done|]. by rewrite dlookup_dset_ne. Qed.

Lemma payload_dump k r decision :
  str_in k ["provider"; "model"; "provider_used"] = false ->
  dlookup k (route_payload r decision) = dlookup k (RouterDecision_dump r).
Proof.
  cbn. intros H. bool_prop. unfold route_payload. rewrite dlookup_dset_ne by done. by rewrite !set_nonempty_frame.
Qed.

Lemma append_event_events_ok ts state kind data out : append_event ts state kind data = Ok out -> events_ok out.
Proof. unfold append_event. intros H. inv_bind H. injection H as <-. eexists. by rewrite dget_dset_eq. Qed.

Lemma record_route_frame out k : k <> "telemetry" -> dlookup k (record_route out) = dlookup k out.
Proof. intros H. unfold record_route. by rewrite dlookup_dset_ne. Qed.

(** The state after the choice can always be appended to. *)
Lemma chosen_events_ok env state default decision :
  events_ok state -> events_ok (record_route (choose_route env state default decision)).
Proof.
  intros [l Hl]. exists l. rewrite <- Hl. apply dlookup_dget. rewrite record_route_frame by done.
  destruct (choose_route_inv env state default decision) as (r & _ & Hf). rewrite Hf by done.
  by apply routed_state_frame.
Qed.

Lemma router_inv env state :
  router env state =
  let! default := _default_route state in
  let! s1 := record_model_route (dset "route" (PDict (RouterDecision_dump default)) state) "router"
               (rd_task_class default) "router" in
  let! s2 := append_event (r_ts_start env) s1 "node" [("name", PStr "router"); ("phase", PStr "start")] in
  let out := record_route (choose_route env s2 default (latest_model_route s2 "router")) in
  append_event (r_ts_end env) out "node"
    [("name", PStr "router"); ("phase", PStr "end");
     ("lane", dget (dict_or_empty (dget out "route" (PDict []))) "lane" (PStr "interactive"))].
Proof. reflexivity. Qed.

Lemma append_event_ok_ts ts ts' state kind data out :
  append_event ts state kind data = Ok out -> exists out', append_event ts' state kind data = Ok out'.
Proof. unfold append_event. destruct (py_iter _); simpl; [eauto|done]. Qed.

(** The model cannot break the router: if the node completes in one
    environment it completes in every other, whatever the prompt file, the
    completions and the validation return or raise; it always clears the retry
    target; and the route and the intent it writes are those of the default
    decision, or of an answer that was decoded and validated. *)
Theorem router_contains_model env state out :
  router env state = Ok out ->
  (forall env', is_ok (router env' state) = true) /\
  dget out "retry_target" PNone = PNone /\
  exists default r payload, _default_route state = Ok default /\ (r = default \/ answered env r) /\
    dget out "route" PNone = PDict payload /\ dget out "intent" PNone = lit (rd_intent r) /\
    (forall k, str_in k ["provider"; "model"; "provider_used"] = false ->
       dlookup k payload = dlookup k (RouterDecision_dump r)).
Proof.
  rewrite router_inv. intros H. apply bind_Ok in H as (default & Hd & H). apply bind_Ok in H as (s1 & H1 & H).
  apply bind_Ok in H as (s2 & H2 & H). cbv zeta in H. split.
  - intros env'. rewrite router_inv, Hd. cbn [bind_res]. rewrite H1. cbn [bind_res].
    destruct (append_event_ok_ts _ (r_ts_start env') _ _ _ _ H2) as (s2' & H2'). rewrite H2'. cbn [bind_res].
    apply append_event_events_ok in H2'. cbv zeta.
    pose proof (chosen_events_ok env' s2' default (latest_model_route s2' "router") H2') as He.
    destruct (append_event_total (r_ts_end env') _ "node"
      [("name", PStr "router"); ("phase", PStr "end");
       ("lane", dget (dict_or_empty (dget (record_route (choose_route env' s2' default (latest_model_route s2' "router")))
                                       "route" (PDict []))) "lane" (PStr "interactive"))] He) as (o & Ho & _).
    by rewrite Ho.
  - destruct (choose_route_inv env s2 default (latest_model_route s2 "router")) as (r & Hr & Hf).
    assert (Hk : forall k, k <> "telemetry" -> k <> "_trace_events" ->
              dlookup k out = dlookup k (routed_state s2 (route_payload r (latest_model_route s2 "router")))).
    { intros k K1 K2. rewrite (append_event_frame _ _ _ _ _ _ H) by by apply String.eqb_neq.
      rewrite record_route_frame by done. by apply Hf. }
    unfold dget. rewrite !Hk by done. unfold routed_state. dict_simpl. split; [done|].
    do 3 eexists. split; [exact Hd|]. split; [exact Hr|]. split; [done|]. split.
    + unfold dget. by rewrite payload_dump.
    + intros k Hk'. by apply payload_dump.
Qed.

(** A remote slot whose streaming call fails and whose blocking call answers. *)
Definition sample_renv (answer : res completion) : REnv :=
  {| r_prompt_file _ := Ok None; r_complete stream _ _ _ _ := if stream then Err (RuntimeError "stream") else answer;
     r_validate d := match dget d "intent" PNone with
                     | PStr "question" => Ok (interactive_route {|
                         ri_intent := question; ri_verification := []; ri_recovery := []; ri_interactive_limit := 1800;
                         ri_cache_affinity := "w"; ri_token_estimate := 0; ri_working_set_tokens := 0;
                         ri_compression_score := 0; ri_fact_count := 0; ri_semantic_count := 0; ri_retry_target := "";
                         ri_fingerprint := ""; ri_current_loop := 0 |})
                     | _ => Err (ValidationError "intent") end;
     r_dump_json _ := "{}"; r_em_dash := "-"; r_ts_start := 1; r_ts_end := 2 |}.

Definition remote_state : dict :=
  [("request", PStr "fix the build"); ("retry_target", PStr "router");
   ("_models", PDict [("router", PDict [("provider", PStr "digitalocean"); ("model", PStr "m")])]);
   ("_model_provider_runtime", PDict [("digitalocean", PDict [("api_key", PStr "k")])])].

Definition routed_out (answer : res completion) : dict :=
  match router (sample_renv answer) remote_state with Ok out => out | Err _ => [] end.

Lemma router_contains_model_witness :
  is_ok (router (sample_renv (Err (TypeError "boom"))) remote_state) = true /\
  dget (routed_out (Ok (CText "{}"))) "retry_target" PNone = PNone /\
  dget (routed_out (Ok (CText ("{" ++ dq ++ "intent" ++ dq ++ ": " ++ dq ++ "question" ++ dq ++ "}")))) "intent" PNone = PStr "question".
Proof.
  assert (H : router (sample_renv (Ok (CText "{}"))) remote_state = Ok (routed_out (Ok (CText "{}")))) by (vm_compute; reflexivity).
  destruct (router_contains_model _ _ _ H) as (Hall & Hrt & _).
  split; [exact (Hall (sample_renv (Err (TypeError "boom"))))|]. split; [exact Hrt|]. vm_compute. reflexivity.
Defined.
