(* ===== verification/RunRecord.v ===== *)
(** * Run records of the service: [api/service.py] up to [RunRecord]

    The record of a run, the trace file its process writes, the approval the
    trace asks for, and what the service derives from them: the payload of a
    run, the command line of a resumption, the memories of a finished run. *)
From Stdlib Require Import ZArith Lia String Ascii List Bool.
From stdpp Require Import base tactics list strings option.
From S2P Require Import Prelude PyStr StrFacts PyFloat PyVal Regex Memory ApprovalTokens Verifier Router PlannerMemory.
Local Open Scope string_scope.
Local Open Scope Z_scope.

(** ** Run identifiers *)

Definition is_alnum (c : ascii) : bool := is_alpha c || is_digit c.

(** [[A-Za-z0-9][A-Za-z0-9._-]{0,127}]. *)
Definition run_id_text (s : string) : bool :=
  match s with
  | EmptyString => false
  | String c r => is_alnum c && all_chars (fun c => is_alnum c || contains (String c "") "._-") r && (py_len r <=? 127)
  end.

Definition _normalized_run_id (raw : pyval) : option string :=
  match _non_empty_str raw with
  | Some value => if run_id_text value then Some value else None
  | None => None
  end.

(** ** Trace files *)

(** What a trace file gives: nothing, a value, a failure the service catches
    ([OSError], [JSONDecodeError]), or another exception of reading it. *)
Inductive trace_file :=
| TAbsent
| TUnreadable
| TRaises (e : pyexc)
| TJson (v : pyval).

Definition _load_trace (f : trace_file) : res (option dict) :=
  match f with
  | TAbsent | TUnreadable => Ok None
  | TRaises e => Err e
  | TJson (PDict d) => Ok (Some d)
  | TJson _ => Ok None
  end.

(** ** Approval state *)

Record ApprovalState := {
  as_pending : bool; as_summary : string; as_details : dict; as_history : list dict;
  as_thread_id : string; as_checkpoint_id : string }.

(** The challenge a tool result carries. *)
Definition challenge_of (result : dict) : option dict :=
  let artifacts := dsub result "artifacts" in
  if String.eqb (lower (text artifacts "error")) "approval_required" then
    match dget artifacts "approval" (PDict []) with PDict d => Some d | _ => None end
  else None.

(** The first challenge of a list of results. *)
Fixpoint first_challenge (results : list dict) : option dict :=
  match results with
  | [] => None
  | r :: rest => match challenge_of r with Some d => Some d | None => first_challenge rest end
  end.

Definition _approval_state_from_trace (trace : option dict) : ApprovalState :=
  match trace with
  | None => {| as_pending := false; as_summary := ""; as_details := []; as_history := [];
               as_thread_id := ""; as_checkpoint_id := "" |}
  | Some t =>
      let checkpoint := dsub t "checkpoint" in
      let approval := dsub t "approval" in
      let details := dsub approval "pending_details" in
      let '(pending, details) :=
        if negb (dhas "pending" approval) && negb (nonempty details) then
          match first_challenge (rev (dicts_of (list_or_empty (dget t "tool_results" (PList []))))) with
          | Some d => (true, d)
          | None => (truthy (dget approval "pending" (PBool false)), details)
          end
        else (truthy (dget approval "pending" (PBool false)), details) in
      let summary := text approval "summary" in
      {| as_pending := pending;
         as_summary := if nonempty details && String.eqb summary "" then approval_summary_text details else summary;
         as_details := details;
         as_history := dicts_of (list_or_empty (dget approval "history" (PList [])));
         as_thread_id := text checkpoint "thread_id";
         as_checkpoint_id := str_strip (py_or (dget checkpoint "latest_checkpoint_id" PNone)
                                          (py_or (dget checkpoint "resume_checkpoint_id" PNone) (PStr ""))) |}
  end.

(** ** The record *)

Inductive RunStatus := running | cancelling | cancelled | succeeded | failed | suspended | rejected.

#[export] Instance RunStatus_eq_dec : EqDecision RunStatus.
Proof. solve_decision. Defined.

Definition status_name (st : RunStatus) : string :=
  match st with
  | running => "running" | cancelling => "cancelling" | cancelled => "cancelled" | succeeded => "succeeded"
  | failed => "failed" | suspended => "suspended" | rejected => "rejected"
  end.

(** What a record never changes. *)
Record RunSpec := {
  run_id : string; request : string; trace_out_dir : string; trace_path : string; created_at : string;
  request_id : string; auth_subject : string; client_ip : string }.

(** The approval a suspended run waits for. *)
Record PendingApproval := {
  pending_approval : bool; pending_approval_summary : string; pending_approval_details : dict }.

Definition no_approval : PendingApproval :=
  {| pending_approval := false; pending_approval_summary := ""; pending_approval_details := [] |}.

(** [process] is the number of the process in the order of their start. *)
Record RunRecord := {
  spec : RunSpec; argv : list string; process : option nat; started_at : string; status : RunStatus;
  finished_at : option string; exit_code : option Z; logs : list string; cancel_requested : bool;
  thread_id : string; checkpoint_id : string; pending : PendingApproval; approval_history : list dict;
  final : string }.

(** The assignments of the service to the fields of a record. *)
Definition set_ids (thread checkpoint : string) (r : RunRecord) : RunRecord :=
  {| spec := spec r; argv := argv r; process := process r; started_at := started_at r; status := status r;
     finished_at := finished_at r; exit_code := exit_code r; logs := logs r;
     cancel_requested := cancel_requested r; thread_id := thread; checkpoint_id := checkpoint;
     pending := pending r; approval_history := approval_history r; final := final r |}.

Definition set_pending (p : PendingApproval) (history : list dict) (r : RunRecord) : RunRecord :=
  {| spec := spec r; argv := argv r; process := process r; started_at := started_at r; status := status r;
     finished_at := finished_at r; exit_code := exit_code r; logs := logs r;
     cancel_requested := cancel_requested r; thread_id := thread_id r; checkpoint_id := checkpoint_id r;
     pending := p; approval_history := history; final := final r |}.

Definition set_status (st : RunStatus) (finished : option string) (code : option Z) (r : RunRecord) : RunRecord :=
  {| spec := spec r; argv := argv r; process := process r; started_at := started_at r; status := st;
     finished_at := finished; exit_code := code; logs := logs r; cancel_requested := cancel_requested r;
     thread_id := thread_id r; checkpoint_id := checkpoint_id r; pending := pending r;
     approval_history := approval_history r; final := final r |}.

Definition set_process (args : list string) (p : option nat) (started : string) (r : RunRecord) : RunRecord :=
  {| spec := spec r; argv := args; process := p; started_at := started; status := status r;
     finished_at := finished_at r; exit_code := exit_code r; logs := logs r;
     cancel_requested := cancel_requested r; thread_id := thread_id r; checkpoint_id := checkpoint_id r;
     pending := pending r; approval_history := approval_history r; final := final r |}.

Definition set_cancel (r : RunRecord) : RunRecord :=
  {| spec := spec r; argv := argv r; process := process r; started_at := started_at r; status := cancelling;
     finished_at := finished_at r; exit_code := exit_code r; logs := logs r; cancel_requested := true;
     thread_id := thread_id r; checkpoint_id := checkpoint_id r; pending := pending r;
     approval_history := approval_history r; final := final r |}.

Definition set_texts (lines : list string) (answer : string) (r : RunRecord) : RunRecord :=
  {| spec := spec r; argv := argv r; process := process r; started_at := started_at r; status := status r;
     finished_at := finished_at r; exit_code := exit_code r; logs := lines;
     cancel_requested := cancel_requested r; thread_id := thread_id r; checkpoint_id := checkpoint_id r;
     pending := pending r; approval_history := approval_history r; final := answer |}.

Definition add_log (line : string) (r : RunRecord) : RunRecord := set_texts (logs r ++ [line])%list (final r) r.

(** The status at the end of a process. *)
Definition end_status (r : RunRecord) (code : Z) : RunStatus :=
  if cancel_requested r then cancelled else if code =? 0 then succeeded else failed.

Definition finish (code : Z) (now : string) (r : RunRecord) : RunRecord :=
  set_status (end_status r code) (Some now) (Some code) r.

Definition _apply_approval_state_to_record (r : RunRecord) (a : ApprovalState) : RunRecord :=
  let r := set_ids (str_or (as_thread_id a) (thread_id r)) (str_or (as_checkpoint_id a) (checkpoint_id r)) r in
  let history := match as_history a with [] => approval_history r | h => h end in
  if as_pending a && negb (cancel_requested r)
  then set_pending {| pending_approval := true; pending_approval_summary := strip (as_summary a);
                      pending_approval_details := as_details a |} history
         (set_status suspended (finished_at r) (exit_code r) r)
  else set_pending no_approval history r.

Definition text_opt (o : option string) : pyval := match o with Some s => PStr s | None => PNone end.

(** The payload of a record that was refreshed. *)
Definition summary_payload (r : RunRecord) : dict :=
  ([("run_id", PStr (run_id (spec r))); ("request", PStr (request (spec r))); ("status", PStr (status_name (status r)));
    ("created_at", PStr (created_at (spec r))); ("started_at", PStr (started_at r)); ("finished_at", text_opt (finished_at r));
    ("exit_code", match exit_code r with Some z => PInt z | None => PNone end);
    ("trace_out_dir", PStr (trace_out_dir (spec r))); ("trace_path", PStr (trace_path (spec r)));
    ("log_lines", PInt (Z.of_nat (length (logs r)))); ("request_id", PStr (request_id (spec r)));
    ("auth_subject", PStr (auth_subject (spec r))); ("client_ip", PStr (client_ip (spec r))); ("thread_id", PStr (thread_id r));
    ("checkpoint_id", PStr (checkpoint_id r)); ("pending_approval", PBool (pending_approval (pending r)));
    ("pending_approval_summary", PStr (pending_approval_summary (pending r)));
    ("approval_history", PList (List.map PDict (approval_history r)));
    ("cancel_requested", PBool (cancel_requested r));
    ("cancellable", PBool (match finished_at r with None => negb (cancel_requested r) | Some _ => false end))]
   ++ (if String.eqb (final r) "" then [] else [("final", PStr (final r))]))%list.

(** ** The trace in the payload of a run *)

Definition _apply_trace_state_to_payload (payload : dict) (trace : option dict) : dict :=
  let out := dset "trace" (match trace with Some t => PDict t | None => PNone end)
               (dset "trace_ready" (PBool (match trace with Some _ => true | None => false end)) payload) in
  let out := match trace with
             | Some t => if String.eqb (text t "final") "" then out else dset "final" (PStr (text t "final")) out
             | None => out end in
  let a := _approval_state_from_trace trace in
  let out := dset "thread_id" (PStr (str_or (as_thread_id a) (text out "thread_id"))) out in
  let out := dset "checkpoint_id" (PStr (str_or (as_checkpoint_id a) (text out "checkpoint_id"))) out in
  let out := dset "pending_approval" (PBool (as_pending a)) out in
  let out := dset "pending_approval_summary" (PStr (strip (as_summary a))) out in
  let out := dset "pending_approval_details" (PDict (as_details a)) out in
  let out := match as_history a with
             | [] => if dhas "approval_history" out then out else dset "approval_history" (PList []) out
             | h => dset "approval_history" (PList (List.map PDict h)) out
             end in
  if as_pending a && negb (str_in (text out "status") ["cancelled"; "rejected"])
  then dset "status" (PStr "suspended") out else out.

(** ** The approval written back into the trace

    The trace to write, when the file holds one. *)
Definition trace_with_approval (trace : dict) (pending : bool) (details : dict) (history : list dict)
    (last_decision : option dict) : dict :=
  let approval := dset "history" (PList (List.map PDict history)) (dset "pending" (PBool pending) (dsub trace "approval")) in
  let approval :=
    match details with
    | [] => dset "summary" (PStr "") (ddel "pending_details" approval)
    | _ => dset "summary" (PStr (approval_summary_text details)) (dset "pending_details" (PDict details) approval)
    end in
  let approval := match last_decision with Some d => dset "last_decision" (PDict d) approval | None => approval end in
  dset "approval" (PDict approval) trace.

(** ** The command line of a resumption *)

(** The arguments without the flags of an earlier resumption; [skip] drops a flag's value. *)
Fixpoint without_resume (skip : bool) (args : list string) : list string :=
  match args with
  | [] => []
  | a :: rest =>
      if skip then without_resume false rest
      else if String.eqb a "--resume" then without_resume false rest
      else if str_in a ["--thread-id"; "--checkpoint-id"] then without_resume true rest
      else a :: without_resume false rest
  end.

Definition flag (name value : string) : list string := if String.eqb value "" then [] else [name; value].

Definition _resume_argv (r : RunRecord) : list string :=
  (without_resume false (argv r) ++ ["--resume"] ++ flag "--thread-id" (thread_id r)
   ++ flag "--checkpoint-id" (checkpoint_id r))%list.

(** ** The memories of a finished run *)

Definition memory_entry (kind source summary : string) : dict :=
  [("kind", PStr kind); ("source", PStr source); ("summary", PStr summary)].

Definition loop_memory (entry : dict) : list dict :=
  let summary := text entry "summary" in
  if String.eqb summary "" then []
  else [memory_entry "loop_summary" (str_or (text entry "failure_class") "loop_summary") summary].

Definition history_memory (entry : dict) : dict :=
  let decision := str_or (text entry "decision") "approval" in
  let actor := str_or (text entry "actor") "operator" in
  let summary := decision ++ " by " ++ actor in
  let challenge := text entry "challenge_id" in
  let summary := if String.eqb challenge "" then summary else summary ++ " for " ++ challenge in
  let rationale := text entry "rationale" in
  memory_entry "approval_history" decision
    (if String.eqb rationale "" then summary else summary ++ ": " ++ rationale).

Definition _semantic_memories_from_trace (trace : option dict) (request : string) : list dict :=
  match trace with
  | None => []
  | Some t =>
      let request_text := str_strip (dget t "request" (PStr request)) in
      let final_text := text t "final" in
      let a := _approval_state_from_trace trace in
      let summary := strip (as_summary a) in
      ((if String.eqb request_text "" then [] else [memory_entry "request" "user_request" request_text])
       ++ (if String.eqb final_text "" then [] else [memory_entry "final_output" "reporter" (str_take 600 final_text)])
       ++ flat_map loop_memory (last_n 5 (dicts_of (list_or_empty (dget t "loop_summaries" (PList [])))))
       ++ (if String.eqb summary "" then []
           else [memory_entry "approval_summary"
                   (str_or (str_strip (dget (as_details a) "operation_class" (PStr "approval"))) "approval") summary])
       ++ List.map history_memory (last_n 5 (as_history a)))%list
  end.
