(* ===== verification/Service.v ===== *)
(** * The run service: [RemoteAPIService] of [api/service.py]

    Every request runs in a thread of its own and every run has a thread that
    captures the output of its process.  A thread is a resumption ([Prog]): a
    sequence of atomic sections (the bodies of [with self._lock] and the accesses
    to files, processes and the store between them).  A section is a computation in
    a monad of state and exceptions; an exception keeps the state reached so far.
    [step] interleaves the threads with the ends of processes and the writing of
    trace files. *)
From Stdlib Require Import ZArith Lia String Ascii List Bool.
From stdpp Require Import base tactics list strings option gmap.
From S2P Require Import Prelude PyStr PyFloat PyVal Regex Memory Verifier Router PlannerMemory Approval ApprovalTokens RunRecord.
Local Open Scope string_scope.
Local Open Scope Z_scope.

(** ** The state of the service *)

(** A process: its command line, the variables set for it, the approvals of its
    [LG_RESUME_APPROVALS_FILE], the lines it prints, its exit status. *)
Record Proc := {
  p_argv : list string; p_env : list (string * string); p_approvals : option dict;
  p_output : list string; p_exit : option Z; p_signalled : bool }.

(** What the run store and the procedure cache were given. *)
Record Stores := {
  st_runs : list dict; st_facts : list (string * list pyval); st_memories : list (string * list dict);
  st_procedures : list dict }.

(** [_run_start_times], [LULA_ACTIVE_RUNS] and [LULA_RUNS_TOTAL]. *)
Record Metrics := { m_start_times : list (string * float); m_active : Z; m_total : list RunStatus }.

Record Service := {
  sv_runs : list (string * RunRecord); sv_decisions : decisions;
  sv_procs : list Proc; sv_files : list (string * trace_file);
  sv_stores : Stores; sv_metrics : Metrics }.

Definition set_runs (l : list (string * RunRecord)) (s : Service) : Service :=
  {| sv_runs := l; sv_decisions := sv_decisions s; sv_procs := sv_procs s; sv_files := sv_files s;
     sv_stores := sv_stores s; sv_metrics := sv_metrics s |}.
Definition set_decisions (d : decisions) (s : Service) : Service :=
  {| sv_runs := sv_runs s; sv_decisions := d; sv_procs := sv_procs s; sv_files := sv_files s;
     sv_stores := sv_stores s; sv_metrics := sv_metrics s |}.
Definition set_procs (p : list Proc) (s : Service) : Service :=
  {| sv_runs := sv_runs s; sv_decisions := sv_decisions s; sv_procs := p; sv_files := sv_files s;
     sv_stores := sv_stores s; sv_metrics := sv_metrics s |}.
Definition set_files (f : list (string * trace_file)) (s : Service) : Service :=
  {| sv_runs := sv_runs s; sv_decisions := sv_decisions s; sv_procs := sv_procs s; sv_files := f;
     sv_stores := sv_stores s; sv_metrics := sv_metrics s |}.
Definition set_stores (st : Stores) (s : Service) : Service :=
  {| sv_runs := sv_runs s; sv_decisions := sv_decisions s; sv_procs := sv_procs s; sv_files := sv_files s;
     sv_stores := st; sv_metrics := sv_metrics s |}.
Definition set_metrics (m : Metrics) (s : Service) : Service :=
  {| sv_runs := sv_runs s; sv_decisions := sv_decisions s; sv_procs := sv_procs s; sv_files := sv_files s;
     sv_stores := sv_stores s; sv_metrics := m |}.

Definition new_service : Service :=
  {| sv_runs := []; sv_decisions := ∅; sv_procs := []; sv_files := [];
     sv_stores := {| st_runs := []; st_facts := []; st_memories := []; st_procedures := [] |};
     sv_metrics := {| m_start_times := []; m_active := 0; m_total := [] |} |}.

(** ** The outside *)

(** The arguments of the constructor and the environment: [paths] gives the text of
    the trace directory and the path of the trace file of a run. *)
Record Config := {
  repo_root : string; executable : string; paths : option string -> string -> string * string;
  approval_secret : string; has_store : bool; has_cache : bool }.

(** What the outside gives to one section: clocks, random numbers, the start of a
    process (its exception, or its output and its exit status when it has already
    ended), the temporary file, the answers of the run store (one per call), what a
    trace file holds when writing it failed, whether the client of a stream can be
    written to, whether nothing was sent to it for [KEEPALIVE_INTERVAL], and what its
    queue holds ([None]: nothing; [Some None]: the end). *)
Record Outside := {
  o_utc : nat -> string; o_time : nat -> float; o_monotonic : float; o_iat : Z; o_nonce : string; o_uuid : string;
  o_spawn : res (list string * option Z); o_tempfile : option pyexc; o_store : nat -> option pyexc;
  o_persisted : string -> res (option dict); o_listed : res (list dict);
  o_searched : string -> Z -> res (list dict); o_torn : option trace_file;
  o_written : bool; o_late : bool; o_event : option (option dict) }.

(** ** Sections *)

Definition M (A : Type) : Type := Outside -> Service -> Service * res A.

Definition ret {A} (a : A) : M A := fun _ s => (s, Ok a).
Definition throw {A} (e : pyexc) : M A := fun _ s => (s, Err e).
Definition bind {A B} (m : M A) (f : A -> M B) : M B :=
  fun o s => match m o s with (s', Ok a) => f a o s' | (s', Err e) => (s', Err e) end.
Definition lift {A} (r : res A) : M A := fun _ s => (s, r).
Definition asks {A} (f : Outside -> A) : M A := fun o s => (s, Ok (f o)).
Definition gets {A} (f : Service -> A) : M A := fun _ s => (s, Ok (f s)).
Definition modify (f : Service -> Service) : M unit := fun _ s => (f s, Ok tt).
Definition when (b : bool) (m : M unit) : M unit := if b then m else ret tt.
(** [try: m  except Exception: pass]. *)
Definition pass (m : M unit) : M unit := fun o s => (fst (m o s), Ok tt).

Notation "'let*' x ':=' m 'in' k" := (bind m (fun x => k))
  (at level 10, x pattern, m at level 200, k at level 200) : py_scope.

Section Service.
Context (cfg : Config).

Definition record_of (id : string) : M (option RunRecord) := gets (fun s => dlookup id (sv_runs s)).
Definition put (id : string) (r : RunRecord) : M unit := modify (fun s => set_runs (dset id r (sv_runs s)) s).
Definition poll (p : nat) : M (option Z) := gets (fun s => match sv_procs s !! p with Some q => p_exit q | None => None end).
Definition file_of (path : string) (s : Service) : trace_file :=
  match dlookup path (sv_files s) with Some f => f | None => TAbsent end.
Definition load_trace (path : string) : M (option dict) := fun _ s => (s, _load_trace (file_of path s)).

(** The [n]-th call of the store in a section. *)
Definition store_call (n : nat) (f : Stores -> Stores) : M unit :=
  let* failure := asks (fun o => o_store o n) in
  match failure with
  | Some e => throw e
  | None => modify (fun s => set_stores (f (sv_stores s)) s)
  end.

Definition upsert (n : nat) (payload : dict) : M unit :=
  when (has_store cfg) (store_call n (fun st =>
    {| st_runs := (st_runs st ++ [payload])%list; st_facts := st_facts st; st_memories := st_memories st;
       st_procedures := st_procedures st |})).

Definition final_of (trace : option dict) (r : RunRecord) : RunRecord :=
  match trace with
  | Some t => if String.eqb (text t "final") "" then r else set_texts (logs r) (text t "final") r
  | None => r
  end.

Definition _refresh_record_locked (id : string) : M unit :=
  let* found := record_of id in
  match found with
  | Some r =>
      match finished_at r, process r with
      | None, Some p =>
          let* code := poll p in
          match code with
          | None => ret tt
          | Some code =>
              let* now := asks (fun o => o_utc o 0) in
              let* _ := put id (finish code now r) in
              let* trace := load_trace (trace_path (spec r)) in
              let r := final_of trace (_apply_approval_state_to_record (finish code now r) (_approval_state_from_trace trace)) in
              let* _ := put id r in
              upsert 0 (summary_payload r)
          end
      | _, _ => ret tt
      end
  | None => ret tt
  end.

(** The record after its refresh. *)
Definition refreshed (id : string) : M (option RunRecord) :=
  let* _ := _refresh_record_locked id in record_of id.

Definition _summary_payload_locked (id : string) : M dict :=
  let* r := refreshed id in ret (match r with Some r => summary_payload r | None => [] end).

Definition spawn (args : list string) (env : list (string * string)) (approvals : option dict) : M nat :=
  let* started := asks o_spawn in
  let* started := lift started in
  let* p := gets (fun s => length (sv_procs s)) in
  let* _ := modify (fun s => set_procs (sv_procs s ++ [{| p_argv := args; p_env := env; p_approvals := approvals;
                                     p_output := fst started; p_exit := snd started; p_signalled := false |}])%list s) in
  ret p.
End Service.

(** ** Threads *)

(** A thread: finished, at a section, starting another thread, or waiting for a process. *)
Inductive Prog :=
| Done (r : res pyval)
| Lock (m : Outside -> Service -> Service) (k : Outside -> Service -> Prog)
| Fork (child k : Prog)
| Wait (p : nat) (k : Z -> Prog).

Definition section {A} (m : M A) (k : A -> Prog) : Prog :=
  Lock (fun o s => fst (m o s)) (fun o s => match snd (m o s) with Ok a => k a | Err e => Done (Err e) end).

(** [p], then [k] on what it returns. *)
Fixpoint and_then (p : Prog) (k : pyval -> Prog) : Prog :=
  match p with
  | Done (Ok v) => k v
  | Done (Err e) => Done (Err e)
  | Lock m j => Lock m (fun o s => and_then (j o s) k)
  | Fork c j => Fork c (and_then j k)
  | Wait q j => Wait q (fun z => and_then (j z) k)
  end.

(** [with contextlib.suppress(...): p], then [k]. *)
Fixpoint suppress (catches : pyexc -> bool) (p : Prog) (k : Prog) : Prog :=
  match p with
  | Done (Ok _) => k
  | Done (Err e) => if catches e then k else Done (Err e)
  | Lock m j => Lock m (fun o s => suppress catches (j o s) k)
  | Fork c j => Fork c (suppress catches j k)
  | Wait q j => Wait q (fun z => suppress catches (j z) k)
  end.

(** [ValueError] or [RuntimeError]; [OSError]. *)
Definition is_value_or_runtime (e : pyexc) : bool :=
  match e with ValueError _ | ValidationError _ | ConfigError _ | RuntimeError _ | BackendError _ => true | _ => false end.
Definition is_os_error (e : pyexc) : bool := match e with OSError _ => true | _ => false end.

Definition none : Prog := Done (Ok PNone).

Section Handlers.
Context (cfg : Config).

(** ** Reading a run *)

(** The payload of a run with its trace, read after the lock was released. *)
Definition with_trace (payload : dict) : Prog :=
  match dlookup "trace_path" payload with
  | Some (PStr path) =>
      section (load_trace path) (fun trace => Done (Ok (PDict (_apply_trace_state_to_payload payload trace))))
  | Some v => Done (Err (TypeError (type_name v)))
  | None => Done (Err (KeyError (repr_str "trace_path")))
  end.

Definition in_memory (id : string) : M (option dict) :=
  let* r := record_of id in
  match r with Some _ => let* d := _summary_payload_locked cfg id in ret (Some d) | None => ret None end.

Definition get_run (run_id : string) : Prog :=
  match _normalized_run_id (PStr run_id) with
  | None => none
  | Some id =>
      section (in_memory id) (fun payload =>
        match payload with
        | Some d => with_trace d
        | None =>
            if has_store cfg then
              section (fun o s => (s, o_persisted o id)) (fun persisted =>
                match persisted with Some d => with_trace d | None => none end)
            else none
        end)
  end.

(** [get_run], which must find the run. *)
Definition must_get (run_id : string) : Prog :=
  and_then (get_run run_id) (fun v => if is_none v then Done (Err (RuntimeError "run_not_found")) else Done (Ok v)).

Definition get_logs (name : string) : Prog :=
  match _normalized_run_id (PStr name) with
  | None => none
  | Some id =>
      section (let* r := record_of id in
               match r with Some _ => refreshed cfg id | None => ret None end) (fun r =>
        match r with
        | None => none
        | Some r =>
            Done (Ok (PDict [("run_id", PStr (run_id (spec r))); ("status", PStr (status_name (status r)));
                             ("exit_code", match exit_code r with Some z => PInt z | None => PNone end);
                             ("cancel_requested", PBool (cancel_requested r));
                             ("logs", PList (List.map PStr (logs r)))]))
        end)
  end.

(** The payloads of the records, in the order of their creation. *)
Fixpoint summaries (ids : list string) : M (list (string * dict)) :=
  match ids with
  | [] => ret []
  | id :: rest => let* d := _summary_payload_locked cfg id in let* l := summaries rest in ret ((id, d) :: l)
  end.

Definition created_key (d : dict) : res string :=
  match dget d "created_at" (PStr "") with PStr s => Ok s | _ => Err (Unmodelled "created_at is not a text") end.

(** [sorted(payloads, key=created_at, reverse=True)]. *)
Definition newest_first (l : list dict) : res pyval :=
  let! keyed := map_res (fun d => let! k := created_key d in Ok (k, d)) l in
  Ok (PList (List.map (fun kd => PDict (snd kd)) (py_sorted (fun a b => str_lt (fst b) (fst a)) keyed))).

Definition persisted_key (d : dict) : res (string * dict) :=
  match dlookup "run_id" d with
  | Some (PStr id) => Ok (id, d)
  | Some _ => Err (Unmodelled "run_id is not a text")
  | None => Err (KeyError (repr_str "run_id"))
  end.

(** Later entries win; a key keeps its first position. *)
Definition merged (l : list (string * dict)) : list (string * dict) :=
  fold_left (fun acc kd => dset (fst kd) (snd kd) acc) l [].

Definition list_runs : Prog :=
  section (let* ids := gets (fun s => List.map fst (sv_runs s)) in summaries ids) (fun in_memory =>
    if has_store cfg then
      section (fun o s => (s, o_listed o)) (fun persisted =>
        match map_res persisted_key persisted with
        | Ok rows => Done (newest_first (List.map snd (merged (rows ++ in_memory)%list)))
        | Err e => Done (Err e)
        end)
    else Done (newest_first (List.map snd in_memory))).

Definition search_runs (query : string) (limit : Z) : Prog :=
  if has_store cfg then
    section (fun o s => (s, o_searched o query limit)) (fun found => Done (Ok (PList (List.map PDict found))))
  else Done (Ok (PList [])).

(** ** Streaming a run *)

(** The payload of one event and the number of log lines it covers. *)
Definition stream_payload (id : string) (seen : nat) : M (option (dict * nat)) :=
  let* found := record_of id in
  match found with
  | None => ret None
  | Some _ =>
      let* summary := _summary_payload_locked cfg id in
      let* r := record_of id in
      match r with
      | None => ret None
      | Some r =>
          let* trace := load_trace (trace_path (spec r)) in
          let lines := logs r in
          let payload := dset "new_log_lines" (PList (List.map PStr (skipn seen lines)))
                           (dset "log_lines" (PInt (Z.of_nat (length lines))) summary) in
          ret (Some (_apply_trace_state_to_payload payload trace, length lines))
      end
  end.

(** The events sent, before their encoding; [polls] is [MAX_EVENTS]. *)
Fixpoint stream (polls : nat) (id : string) (seen : nat) (sent : list pyval) : Prog :=
  let closing l := Done (Ok (PList l)) in
  let send e k := section (asks o_written) (fun ok : bool => if ok then k (sent ++ [e])%list else closing sent) in
  match polls with
  | O => closing sent
  | S polls =>
      section (stream_payload id seen) (fun found =>
        match found with
        | None => send (PDict [("error", PStr "not_found"); ("run_id", PStr id)]) closing
        | Some (payload, seen) =>
            send (PDict payload) (fun sent =>
              if negb (is_none (dget payload "finished_at" PNone)) then
                section (asks o_written) (fun ok : bool => closing (if ok then sent ++ [PStr "done"] else sent)%list)
              else
                section (asks (fun o => (o_late o, o_written o))) (fun late =>
                  match late with
                  | (true, true) => stream polls id seen (sent ++ [PStr "keepalive"])%list
                  | (true, false) => closing sent
                  | (false, _) => stream polls id seen sent
                  end))
        end)
  end.

Definition stream_run_sse (id : string) : Prog := stream 3000 id 0 [].

(** ** Streaming events: [api/streaming.py] *)

Definition closing (sent : list pyval) : Prog := Done (Ok (PList sent)).
Definition frame (kind : string) (fields : dict) : pyval := PDict (("type", PStr kind) :: fields).

(** The frames of the output lines of a tool. *)
Definition tool_stdout_lines (event : dict) : res (list pyval) :=
  if negb (py_in_list (dget event "kind" (PStr "")) [PStr "tool_result"; PStr "tool_call"]) then Ok []
  else
    match dget event "data" (PDict []) with
    | PDict data =>
        match dget data "stdout" (PStr "") with
        | PStr out =>
            let tool := py_str (dget data "tool" (dget data "name" (PStr ""))) in
            Ok (List.map (fun line => frame "tool_stdout" [("tool", PStr tool); ("line", PStr line)])
                  (List.filter (fun line => negb (String.eqb (strip line) "")) (splitlines out)))
        | v => if truthy v then Err (attr_error v "splitlines") else Ok []
        end
    | _ => Ok []
    end.

(** The lines, until a write fails. *)
Fixpoint _emit_tool_stdout_lines (lines sent : list pyval) (k : list pyval -> Prog) : Prog :=
  match lines with
  | [] => k sent
  | line :: rest =>
      section (asks o_written) (fun ok : bool => if ok then _emit_tool_stdout_lines rest (sent ++ [line])%list k else k sent)
  end.

(** An event and the lines of its tool; a failed write closes the stream. *)
Definition send_event (e : dict) (sent : list pyval) (k : list pyval -> Prog) : Prog :=
  section (asks o_written) (fun ok : bool =>
    if ok then
      match tool_stdout_lines e with
      | Ok lines => _emit_tool_stdout_lines lines (sent ++ [PDict e])%list k
      | Err x => Done (Err x)
      end
    else closing sent).

Fixpoint replay (events : list dict) (sent : list pyval) (k : list pyval -> Prog) : Prog :=
  match events with
  | [] => k sent
  | e :: rest => send_event e sent (fun sent => replay rest sent k)
  end.

(** Frames each of which is tried. *)
Fixpoint attempts (frames sent : list pyval) : Prog :=
  match frames with
  | [] => closing sent
  | f :: rest => section (asks o_written) (fun ok : bool => attempts rest (if ok then sent ++ [f] else sent)%list)
  end.

Definition _send_final_output (run : option dict) : list pyval :=
  match run with
  | Some d =>
      match dget d "trace" PNone with
      | PDict trace =>
          let text := str_strip (dget trace "final" (PStr "")) in
          if String.eqb text "" then [] else [frame "final_output" [("text", PStr text)]]
      | _ => []
      end
  | None => []
  end.

Definition ending (run : option dict) (sent : list pyval) : Prog :=
  attempts (_send_final_output run ++ [frame "done" []])%list sent.

Definition run_dict (v : pyval) : option dict := match v with PDict d => Some d | _ => None end.

Definition run_ended (run : option dict) : bool :=
  match run with Some d => negb (is_none (dget d "finished_at" PNone)) | None => true end.

(** The events of a running run: what its queue holds, or its end seen by a poll. *)
Fixpoint live (polls : nat) (id : string) (sent : list pyval) : Prog :=
  match polls with
  | O => closing sent
  | S polls =>
      let poll sent := and_then (get_run id) (fun v =>
        if run_ended (run_dict v) then ending (run_dict v) sent else live polls id sent) in
      section (asks (fun o => (o_event o, o_late o, o_written o))) (fun next =>
        match next with
        | (None, true, true) => poll (sent ++ [PStr "keepalive"])%list
        | (None, true, false) => closing sent
        | (None, false, _) => poll sent
        | (Some None, _, _) => and_then (get_run id) (fun v => ending (run_dict v) sent)
        | (Some (Some e), _, _) => send_event e sent (live polls id)
        end)
  end.

(** The events of the trace file; [except OSError: return] around every write. *)
Definition stream_new_sse (id : string) : Prog :=
  and_then (get_run id) (fun v =>
    match v with
    | PDict run =>
        section (load_trace (py_str (dget run "trace_path" (PStr "")))) (fun trace =>
          match (match trace with Some t => py_iter (dget t "events" (PList [])) | None => Ok [] end) with
          | Err e => Done (Err e)
          | Ok events =>
              replay (dicts_of events) [] (fun sent =>
                section (asks o_written) (fun ok : bool =>
                  if negb ok then closing sent
                  else if run_ended (Some run) then ending (Some run) sent
                  else suppress is_os_error (live 3000 id sent) none))
          end)
    | _ => attempts [PDict [("error", PStr "not_found"); ("run_id", PStr id)]] []
    end).

(** ** Cancelling *)

(** The payload of a finished run, or the process to terminate. *)
Definition cancel_locked (id : string) : M (pyval + option nat) :=
  let* found := record_of id in
  match found with
  | None => ret (inl PNone)
  | Some _ =>
      let* found := refreshed cfg id in
      match found with
      | None => ret (inl PNone)
      | Some r =>
          match finished_at r with
          | Some _ => let* d := _summary_payload_locked cfg id in ret (inl (PDict d))
          | None =>
              if cancel_requested r then ret (inr None)
              else let* _ := put id (set_cancel r) in ret (inr (process r))
          end
      end
  end.

(** [process.terminate()] on a process that still runs. *)
Definition terminate (p : nat) : M unit :=
  let* code := poll p in
  match code with
  | Some _ => ret tt
  | None => modify (fun s => set_procs (alter (fun q =>
      {| p_argv := p_argv q; p_env := p_env q; p_approvals := p_approvals q; p_output := p_output q;
         p_exit := p_exit q; p_signalled := true |}) p (sv_procs s)) s)
  end.

Definition cancel_run (run_id : string) : Prog :=
  match _normalized_run_id (PStr run_id) with
  | None => none
  | Some id =>
      section (cancel_locked id) (fun r =>
        match r with
        | inl v => Done (Ok v)
        | inr None => get_run id
        | inr (Some p) => section (terminate p) (fun _ => get_run id)
        end)
  end.

(** ** Writing the approval back *)

Definition write_file (path : string) (d : dict) : M unit :=
  let* torn := asks o_torn in
  modify (fun s => set_files (dset path (match torn with Some f => f | None => TJson (PDict d) end) (sv_files s)) s).

Definition _write_trace_approval_state (path : string) (pending : bool) (details : dict) (history : list dict)
    (last_decision : option dict) (k : Prog) : Prog :=
  section (load_trace path) (fun trace =>
    match trace with
    | None => k
    | Some t => section (write_file path (trace_with_approval t pending details history last_decision)) (fun _ => k)
    end).

(** ** The end of a process *)

(** The first section: whether the record was finished here. *)
Definition finish_locked (id : string) (code : Z) : M (option RunRecord) :=
  let* found := record_of id in
  match found with
  | None => ret None
  | Some r =>
      match finished_at r with
      | Some _ => ret None
      | None =>
          let* now := asks (fun o => o_utc o 0) in
          let r := finish code now r in
          let* _ := put id r in
          let* _ := modify (fun s => set_metrics
            {| m_start_times := ddel id (m_start_times (sv_metrics s)); m_active := m_active (sv_metrics s) - 1;
               m_total := (m_total (sv_metrics s) ++ [status r])%list |} s) in
          ret (Some r)
      end
  end.

(** The second one: the approval the trace asks for. *)
Definition apply_locked (id : string) (trace : option dict) : M (option (dict * RunRecord)) :=
  let* found := record_of id in
  match found with
  | None => ret None
  | Some r =>
      let* _ := put id (_apply_approval_state_to_record r (_approval_state_from_trace trace)) in
      let* payload := _summary_payload_locked cfg id in
      let* r := record_of id in
      ret (option_map (fun r => (payload, r)) r)
  end.

Definition state_of (trace : dict) : pyval := dget trace "state" (PDict trace).

Definition trace_facts (trace : dict) : list pyval :=
  match state_of trace with PDict d => list_or_empty (dget d "facts" (PList [])) | _ => [] end.

(** What a finished run leaves in the store. *)
Definition remember (id request : string) (payload : dict) (trace : option dict) : M unit :=
  when (has_store cfg) (
    let* _ := upsert cfg 0 payload in
    match trace with
    | None => ret tt
    | Some t => pass (
        let* _ := when (nonempty (trace_facts t)) (store_call 1 (fun st =>
          {| st_runs := st_runs st; st_facts := (st_facts st ++ [(id, trace_facts t)])%list; st_memories := st_memories st;
             st_procedures := st_procedures st |})) in
        store_call 2 (fun st =>
          {| st_runs := st_runs st; st_facts := st_facts st;
             st_memories := (st_memories st ++ [(id, _semantic_memories_from_trace trace request)])%list;
             st_procedures := st_procedures st |}))
    end).

Definition step_tool_names (step : dict) : res (list string) :=
  let! calls := py_iter (dget step "tools" (PList [])) in Ok (List.map (fun c => text c "tool") (dicts_of calls)).

Definition _canonical_procedure_name (steps : list pyval) : res string :=
  let! names := map_res step_tool_names (dicts_of steps) in
  let names := fold_left (fun acc n => if String.eqb n "" || str_in n acc then acc else (acc ++ [n])%list) (concat names) [] in
  Ok (match names with [] => "unnamed_procedure" | _ => join "_" (firstn 4 names) end).

(** The procedure of a trace: [None] when its plan has no steps. *)
Definition procedure_of (trace : dict) (request : string) (finished : string) : res (option dict) :=
  let! plan := get (state_of trace) "plan" (PDict []) in
  let plan := dict_or_empty plan in
  let! req := get (state_of trace) "request" (PStr request) in
  let! route := get (state_of trace) "route" (PDict []) in
  let! task_class := get route "task_class" (PStr "") in
  match dget plan "steps" (PList []) with
  | PList ((_ :: _) as steps) =>
      let! name := _canonical_procedure_name steps in
      Ok (Some [("canonical_name", PStr name); ("request", PStr (str_strip req));
                ("task_class", PStr (str_or (str_strip task_class) "analysis")); ("steps", PList steps);
                ("verification", PList (list_or_empty (dget plan "verification" (PList []))));
                ("created_at", PStr finished)])
  | _ => Ok None
  end.

Definition store_procedure (id request : string) (trace : option dict) : M unit :=
  match trace with
  | None => ret tt
  | Some t =>
      let* r := record_of id in
      let* now := asks (fun o => o_utc o 0) in
      let finished := match r with Some r => match finished_at r with Some f => f | None => now end | None => now end in
      let* procedure := lift (procedure_of t request finished) in
      match procedure with
      | None => ret tt
      | Some d => store_call 0 (fun st =>
          {| st_runs := st_runs st; st_facts := st_facts st; st_memories := st_memories st;
             st_procedures := (st_procedures st ++ [d])%list |})
      end
  end.

Definition procedure_path (path : string) (id request : string) (code : Z) : Prog :=
  if (code =? 0) && has_cache cfg then
    section (fun o s => (s, Ok (_load_trace (file_of path s)))) (fun trace =>
      match trace with
      | Ok t => section (pass (store_procedure id request t)) (fun _ => none)
      | Err _ => none
      end)
  else none.

Definition _mark_finished (id : string) (code : Z) : Prog :=
  section (finish_locked id code) (fun finished =>
    match finished with
    | None => none
    | Some r =>
        let path := trace_path (spec r) in
        section (load_trace path) (fun trace =>
          section (apply_locked id trace) (fun applied =>
            match applied with
            | None => none
            | Some (payload, r') =>
                section (remember id (request (spec r)) payload trace) (fun _ =>
                  let k := procedure_path path id (request (spec r)) code in
                  if truthy (dget payload "pending_approval" PNone) then
                    _write_trace_approval_state path true (pending_approval_details (pending r')) (approval_history r')
                      (List.last (List.map Some (approval_history r')) None) k
                  else k)
            end))
    end).

(** ** Capturing the output *)

Definition _append_log (id line : string) : M unit :=
  let* found := record_of id in
  match found with Some r => put id (add_log line r) | None => ret tt end.

Fixpoint append_lines (id : string) (lines : list string) (k : Prog) : Prog :=
  match lines with
  | [] => k
  | l :: rest => section (_append_log id l) (fun _ => append_lines id rest k)
  end.

(** The kill after [_RUN_TIMEOUT_SECS] is one of the ways a process ends. *)
Definition _capture_process_output (id : string) : Prog :=
  section (record_of id) (fun found =>
    match found with
    | None => none
    | Some r =>
        match process r with
        | None => none
        | Some p =>
            section (gets (fun s => match sv_procs s !! p with Some q => p_output q | None => [] end)) (fun lines =>
              append_lines id lines (Wait p (_mark_finished id)))
        end
    end).

(** ** Creating a run *)

Definition text_flag (payload : dict) (kf : string * string) : list string :=
  match _non_empty_str (dget payload (fst kf) PNone) with Some v => [snd kf; v] | None => [] end.

Definition create_argv (payload : dict) (request id out_dir view : string) : list string :=
  ([executable cfg; "-m"; "lg_orch.main"; "run"; request; "--repo-root"; repo_root cfg; "--trace";
    "--run-id"; id; "--trace-out-dir"; out_dir; "--view"; view]
   ++ flat_map (text_flag payload) [("profile", "--profile"); ("runner_base_url", "--runner-base-url");
                                    ("thread_id", "--thread-id"); ("checkpoint_id", "--checkpoint-id")]
   ++ (if truthy (dget payload "resume" PNone) then ["--resume"] else []))%list.

Definition set_var (name value : string) : list (string * string) := if String.eqb value "" then [] else [(name, value)].

Definition caller_env (request_id auth_subject client_ip : string) : list (string * string) :=
  (set_var "LG_REQUEST_ID" request_id ++ set_var "LG_REMOTE_API_AUTH_SUBJECT" auth_subject
   ++ set_var "LG_REMOTE_API_CLIENT_IP" client_ip)%list.

Definition or_empty (o : option string) : string := match o with Some s => s | None => "" end.

(** The checks and the record of a new run, before the lock. *)
Definition new_record (payload : dict) (request_id auth_subject client_ip : string) : M RunRecord :=
  match _non_empty_str (dget payload "request" PNone) with
  | None => throw (ValueError "invalid_request")
  | Some request =>
      let provided := dget payload "run_id" PNone in
      let* uuid := asks o_uuid in
      let* id := match _normalized_run_id provided with
                 | Some id => ret id
                 | None => if is_none provided then ret uuid else throw (ValueError "invalid_run_id")
                 end in
      let view := match _non_empty_str (dget payload "view" PNone) with Some v => v | None => "console" end in
      if negb (str_in view ["classic"; "console"]) then throw (ValueError "invalid_view")
      else
        let '(out_dir, path) := paths cfg (_non_empty_str (dget payload "trace_out_dir" PNone)) id in
        let* now := asks (fun o => o_utc o 0) in
        ret {| spec := {| run_id := id; request := request; trace_out_dir := out_dir; trace_path := path; created_at := now;
                          request_id := request_id; auth_subject := auth_subject; client_ip := client_ip |};
               argv := create_argv payload request id out_dir view; process := None; started_at := now;
               status := running; finished_at := None; exit_code := None; logs := []; cancel_requested := false;
               thread_id := or_empty (_non_empty_str (dget payload "thread_id" PNone));
               checkpoint_id := or_empty (_non_empty_str (dget payload "checkpoint_id" PNone));
               pending := no_approval; approval_history := []; final := "" |}
  end.

(** The record is inserted before its process is started. *)
Definition register (r : RunRecord) : M unit :=
  let id := run_id (spec r) in
  let* taken := gets (fun s => dhas id (sv_runs s)) in
  if taken then throw (ValueError "duplicate_run_id")
  else
    let* _ := put id r in
    let* _ := when (has_store cfg) (let* payload := _summary_payload_locked cfg id in upsert cfg 1 payload) in
    let* p := spawn (argv r) (caller_env (request_id (spec r)) (auth_subject (spec r)) (client_ip (spec r))) None in
    put id (set_process (argv r) (Some p) (started_at r) r).

Definition count_start (id : string) : M unit :=
  let* now := asks o_monotonic in
  modify (fun s => set_metrics {| m_start_times := dset id now (m_start_times (sv_metrics s));
                                  m_active := m_active (sv_metrics s) + 1; m_total := m_total (sv_metrics s) |} s).

Definition create_run (payload : dict) (request_id auth_subject client_ip : string) : Prog :=
  section (new_record payload request_id auth_subject client_ip) (fun r =>
    let id := run_id (spec r) in
    section (register r) (fun _ =>
      section (count_start id) (fun _ =>
        Fork (_capture_process_output id) (must_get id)))).

(** ** Approving and rejecting *)

Definition approver (payload : dict) (auth_subject : string) : string :=
  match _non_empty_str (dget payload "actor" PNone) with Some a => a | None => str_or auth_subject "operator" end.

Definition approval_entry (decision actor rationale challenge ts : string) : dict :=
  [("decision", PStr decision); ("actor", PStr actor); ("rationale", PStr rationale);
   ("challenge_id", PStr challenge); ("ts", PStr ts)].

(** The challenge an approval may answer. *)
Definition approvable (r : RunRecord) (provided : option string) : res string :=
  if negb (pending_approval (pending r)) then Err (ValueError "approval_not_pending")
  else match _non_empty_str (dget (pending_approval_details (pending r)) "challenge_id" PNone) with
       | None => Err (ValueError "approval_challenge_missing")
       | Some challenge =>
           if match provided with Some c => negb (String.eqb c challenge) | None => false end
           then Err (ValueError "challenge_id_mismatch")
           else if String.eqb (thread_id r) "" || String.eqb (checkpoint_id r) ""
           then Err (ValueError "resume_checkpoint_missing")
           else Ok challenge
       end.

(** The file of approvals of the resumed run: one token, for the tool of the challenge. *)
Definition approvals_payload (details : dict) (challenge : string) (iat : Z) (nonce : string) : dict :=
  let operation_class := match _non_empty_str (dget details "operation_class" PNone) with Some s => s | None => "apply_patch" end in
  let tool := tool_name_for_approval operation_class challenge in
  let token := token_dict challenge (approval_token_for_challenge (approval_secret cfg) iat nonce challenge) in
  [(tool, PDict token); ("mutations", PDict [(tool, PDict token)])].

Definition approval_context (history : list dict) (entry : dict) : string :=
  json_dumps false (PDict [("pending", PBool false); ("history", PList (List.map PDict history)); ("last_decision", PDict entry)]).

Record Decision := { dc_payload : dict; dc_path : string; dc_history : list dict; dc_entry : dict }.

Definition resumed (p : nat) (now : string) (history : list dict) (actor : string) (r : RunRecord) : RunRecord :=
  add_log ("[approval] approved by " ++ actor)
    (set_pending no_approval history (set_status running None None (set_process (_resume_argv r) (Some p) now r))).

(** The decision, the record being locked: [None] when there is no such run. *)
Definition approve_locked (id : string) (payload : dict) (auth : string) : M (option Decision) :=
  let actor := approver payload auth in
  let rationale := or_empty (_non_empty_str (dget payload "rationale" PNone)) in
  let* found := record_of id in
  match found with
  | None => ret None
  | Some _ =>
      let* found := refreshed cfg id in
      match found with
      | None => ret None
      | Some r =>
          let* challenge := lift (approvable r (_non_empty_str (dget payload "challenge_id" PNone))) in
          let* ts := asks (fun o => o_utc o 1%nat) in
          let entry := approval_entry "approved" actor rationale challenge ts in
          let history := (approval_history r ++ [entry])%list in
          let* approvals := asks (fun o => approvals_payload (pending_approval_details (pending r)) challenge (o_iat o) (o_nonce o)) in
          let* failure := asks o_tempfile in
          let* _ := match failure with Some e => throw e | None => ret tt end in
          let env := (caller_env (request_id (spec r)) (auth_subject (spec r)) (client_ip (spec r))
                      ++ [("LG_APPROVAL_CONTEXT_JSON", approval_context history entry)])%list in
          let* p := spawn (_resume_argv r) env (Some approvals) in
          let* now := asks (fun o => o_utc o 2%nat) in
          let* _ := put id (resumed p now history actor r) in
          let* payload := _summary_payload_locked cfg id in
          ret (Some {| dc_payload := payload; dc_path := trace_path (spec r); dc_history := history; dc_entry := entry |})
      end
  end.

Definition approve_run (name : string) (payload : dict) (auth : string) : Prog :=
  match _normalized_run_id (PStr name) with
  | None => none
  | Some id =>
      section (approve_locked id payload auth) (fun decided =>
        match decided with
        | None => none
        | Some d =>
            _write_trace_approval_state (dc_path d) false [] (dc_history d) (Some (dc_entry d))
              (section (upsert cfg 0 (dc_payload d)) (fun _ =>
                 Fork (_capture_process_output id) (must_get id)))
        end)
  end.

Definition refused (now : string) (history : list dict) (actor : string) (r : RunRecord) : RunRecord :=
  add_log ("[approval] rejected by " ++ actor) (set_pending no_approval history (set_status rejected (Some now) (Some 1) r)).

Definition reject_locked (id : string) (payload : dict) (auth : string) : M (option Decision) :=
  let actor := approver payload auth in
  let rationale := or_empty (_non_empty_str (dget payload "rationale" PNone)) in
  let* found := record_of id in
  match found with
  | None => ret None
  | Some _ =>
      let* found := refreshed cfg id in
      match found with
      | None => ret None
      | Some r =>
          if negb (pending_approval (pending r)) then throw (ValueError "approval_not_pending")
          else
            let challenge := or_empty (_non_empty_str (dget (pending_approval_details (pending r)) "challenge_id" PNone)) in
            let* ts := asks (fun o => o_utc o 1%nat) in
            let entry := approval_entry "rejected" actor rationale challenge ts in
            let history := (approval_history r ++ [entry])%list in
            let* now := asks (fun o => o_utc o 2%nat) in
            let* _ := put id (refused now history actor r) in
            let* payload := _summary_payload_locked cfg id in
            ret (Some {| dc_payload := payload; dc_path := trace_path (spec r); dc_history := history; dc_entry := entry |})
      end
  end.

Definition reject_run (name : string) (payload : dict) (auth : string) : Prog :=
  match _normalized_run_id (PStr name) with
  | None => none
  | Some id =>
      section (reject_locked id payload auth) (fun decided =>
        match decided with
        | None => none
        | Some d =>
            _write_trace_approval_state (dc_path d) false [] (dc_history d) (Some (dc_entry d))
              (section (upsert cfg 0 (dc_payload d)) (fun _ => get_run id))
        end)
  end.

(** ** Votes *)

Definition set_policy (id : string) (p : ApprovalPolicy) : Prog :=
  section (let* now := asks (fun o => o_time o 0) in
           modify (fun s => set_decisions (set_approval_policy (sv_decisions s) id p now) s))
    (fun _ => Done (Ok (PDict [("status", PStr "policy_set"); ("run_id", PStr id)]))).

Definition verdict_name (st : Status) : string :=
  match st with
  | Approval.pending => "pending" | approved => "approved" | Approval.rejected => "rejected" | timed_out => "timed_out"
  end.

(** The vote under the lock: the verdict, the number of votes, and what it asks of a waiting run. *)
Definition vote_locked (id reviewer : string) (role : option string) (act comment : string) : M (Status * Z * option RunAction) :=
  let* t0 := asks (fun o => o_time o 0) in
  let* t1 := asks (fun o => o_time o 1%nat) in
  let* t2 := asks (fun o => o_time o 2%nat) in
  let* ds := gets sv_decisions in
  let* voted := lift (cast_vote ds id reviewer role act comment t0 t1 t2 true) in
  let '(ds, st, n, forwarded) := voted in
  let* _ := modify (set_decisions ds) in
  ret (st, n, forwarded).

Definition is_waiting (id : string) : M bool :=
  let* r := record_of id in ret (match r with Some r => pending_approval (pending r) | None => false end).

Definition vote_run (id reviewer : string) (role : option string) (act comment : string) : Prog :=
  section (vote_locked id reviewer role act comment) (fun voted =>
    let '(st, n, forwarded) := voted in
    let answer := Done (Ok (PDict [("status", PStr (verdict_name st)); ("votes_cast", PInt n)])) in
    match forwarded with
    | None => answer
    | Some act =>
        section (is_waiting id) (fun waiting =>
          if waiting then
            match act with
            | ApproveRun id who why => suppress is_value_or_runtime (approve_run id [("actor", PStr who); ("rationale", PStr why)] "") answer
            | RejectRun id who why => suppress is_value_or_runtime (reject_run id [("actor", PStr who); ("rationale", PStr why)] "") answer
            end
          else answer)
    end).

(** ** Requests *)

Inductive Request :=
| Create (payload : dict) (request_id auth_subject client_ip : string)
| GetRun (id : string) | GetLogs (id : string) | ListRuns | Search (query : string) (limit : Z)
| Stream (id : string) | StreamNew (id : string) | Cancel (id : string)
| Approve (id : string) (payload : dict) (auth_subject : string)
| Reject (id : string) (payload : dict) (auth_subject : string)
| SetPolicy (id : string) (p : ApprovalPolicy)
| Vote (id reviewer : string) (role : option string) (act comment : string).

Definition handle (q : Request) : Prog :=
  match q with
  | Create payload request_id auth ip => create_run payload request_id auth ip
  | GetRun id => get_run id
  | GetLogs id => get_logs id
  | ListRuns => list_runs
  | Search query limit => search_runs query limit
  | Stream id => stream_run_sse id
  | StreamNew id => stream_new_sse id
  | Cancel id => cancel_run id
  | Approve id payload auth => approve_run id payload auth
  | Reject id payload auth => reject_run id payload auth
  | SetPolicy id p => set_policy id p
  | Vote id who role act comment => vote_run id who role act comment
  end.

(** ** The system *)

Record System := { service : Service; threads : list Prog }.

Definition set_exit (p : nat) (z : Z) (s : Service) : Service :=
  set_procs (alter (fun q => {| p_argv := p_argv q; p_env := p_env q; p_approvals := p_approvals q; p_output := p_output q;
                                p_exit := Some z; p_signalled := p_signalled q |}) p (sv_procs s)) s.

(** A thread executes a section, starts a thread or wakes up, a process ends, a trace
    file changes. *)
Inductive act : System -> System -> Prop :=
| act_lock i m k o s ts : ts !! i = Some (Lock m k) ->
    act {| service := s; threads := ts |} {| service := m o s; threads := <[i := k o s]> ts |}
| act_fork i c k s ts : ts !! i = Some (Fork c k) ->
    act {| service := s; threads := ts |} {| service := s; threads := <[i := k]> ts ++ [c] |}
| act_wake i p k q z s ts : ts !! i = Some (Wait p k) -> sv_procs s !! p = Some q -> p_exit q = Some z ->
    act {| service := s; threads := ts |} {| service := s; threads := <[i := k z]> ts |}
| act_exit p q z s ts : sv_procs s !! p = Some q -> p_exit q = None ->
    act {| service := s; threads := ts |} {| service := set_exit p z s; threads := ts |}
| act_trace path f s ts :
    act {| service := s; threads := ts |} {| service := set_files (dset path f (sv_files s)) s; threads := ts |}.

(** The thread of a request that arrives. *)
Definition arrive (q : Request) (sys : System) : System :=
  {| service := service sys; threads := threads sys ++ [handle q] |}.

Inductive step : System -> System -> Prop :=
| step_request q sys : step sys (arrive q sys)
| step_act sys sys' : act sys sys' -> step sys sys'.

Definition start : System := {| service := new_service; threads := [] |}.
Definition reachable (sys : System) : Prop := rtc step start sys.
End Handlers.
