(* ===== verification/ServiceProps.v ===== *)
(** * The runs under concurrency

    A rely-guarantee argument on the threads of the service: every section keeps
    the records consistent and moves their status along the life cycle, and a thread
    between the two sections of [_mark_finished] owns the finished record it saw. *)
From Stdlib Require Import ZArith Lia String Ascii List Bool Relations.
From stdpp Require Import base tactics list strings option gmap relations.
From S2P Require Import Prelude PyStr PyFloat PyVal Regex Memory Verifier Router PlannerMemory Approval ApprovalTokens RunRecord Service.
Local Open Scope string_scope.
Local Open Scope Z_scope.

(** ** The life cycle *)

(** What the status of a run means to its client. *)
Inductive lifecycle : RunStatus -> RunStatus -> Prop :=
| lc_cancel : lifecycle running cancelling
| lc_cancelled : lifecycle cancelling cancelled
| lc_succeed : lifecycle running succeeded
| lc_fail : lifecycle running failed
| lc_suspend st : st = succeeded \/ st = failed -> lifecycle st suspended
| lc_resume : lifecycle suspended running
| lc_reject : lifecycle suspended rejected.

(** The fields of a record agree with its status. *)
Definition consistent (r : RunRecord) : Prop :=
  match status r with
  | running => finished_at r = None /\ exit_code r = None /\ cancel_requested r = false /\ pending r = no_approval
  | cancelling => finished_at r = None /\ exit_code r = None /\ cancel_requested r = true /\ pending r = no_approval
  | cancelled => is_Some (finished_at r) /\ is_Some (exit_code r) /\ cancel_requested r = true /\ pending r = no_approval
  | succeeded => is_Some (finished_at r) /\ exit_code r = Some 0 /\ cancel_requested r = false /\ pending r = no_approval
  | failed => is_Some (finished_at r) /\ (exists z, exit_code r = Some z /\ z <> 0) /\ cancel_requested r = false /\
              pending r = no_approval
  | rejected => is_Some (finished_at r) /\ exit_code r = Some 1 /\ cancel_requested r = false /\ pending r = no_approval
  | suspended => is_Some (finished_at r) /\ is_Some (exit_code r) /\ cancel_requested r = false /\
                 pending_approval (pending r) = true
  end.

(** Finished, and nothing to decide. *)
Definition closed (r : RunRecord) : Prop := is_Some (finished_at r) /\ pending_approval (pending r) = false.

(** ** What a thread may do to the records *)

(** [h] is the run a thread owns. *)
Record becomes (h : option string) (id : string) (r r' : RunRecord) : Prop := {
  b_consistent : consistent r';
  b_spec : spec r' = spec r;
  b_status : rtc lifecycle (status r) (status r');
  b_logs : prefix (logs r) (logs r');
  b_closed : h <> Some id -> closed r -> closed r' /\ status r' = status r }.

Record wf (s : Service) : Prop := {
  wf_ids : wf_keys (sv_runs s);
  wf_records : forall id r, dlookup id (sv_runs s) = Some r -> consistent r /\ run_id (spec r) = id }.

Definition evolves (h : option string) (s s' : Service) : Prop :=
  forall id r, dlookup id (sv_runs s) = Some r -> exists r', dlookup id (sv_runs s') = Some r' /\ becomes h id r r'.

Definition moves (h : option string) (s s' : Service) : Prop := wf s -> wf s' /\ evolves h s s'.

Lemma becomes_refl h id r : consistent r -> becomes h id r r.
Proof. by split. Qed.

Lemma becomes_trans h id r1 r2 r3 : becomes h id r1 r2 -> becomes h id r2 r3 -> becomes h id r1 r3.
Proof.
  intros [A1 B1 C1 D1 E1] [A2 B2 C2 D2 E2]. split; [done|congruence|by etrans|by etrans|].
  intros Hh Hc. destruct (E1 Hh Hc) as [Hc' Hs]. destruct (E2 Hh Hc') as [Hc'' Hs']. split; [done|congruence].
Qed.

Lemma moves_same h s s' : sv_runs s' = sv_runs s -> moves h s s'.
Proof.
  intros E [W1 W2]. split; [split; by rewrite E|]. intros id r Hr. exists r. rewrite E. split; [done|].
  apply becomes_refl. by destruct (W2 id r Hr).
Qed.

Lemma moves_trans h s1 s2 s3 : moves h s1 s2 -> moves h s2 s3 -> moves h s1 s3.
Proof.
  intros H1 H2 W. destruct (H1 W) as [W2 E1]. destruct (H2 W2) as [W3 E2]. split; [done|].
  intros id r Hr. destruct (E1 id r Hr) as (r' & Hr' & B1). destruct (E2 id r' Hr') as (r'' & Hr'' & B2).
  exists r''. split; [done|]. by eapply becomes_trans.
Qed.

Lemma moves_put h s s' id r r' :
  dlookup id (sv_runs s) = Some r -> (consistent r -> becomes h id r r') -> sv_runs s' = dset id r' (sv_runs s) ->
  moves h s s'.
Proof.
  intros Hr HB E [W1 W2]. destruct (W2 id r Hr) as [Hc Hid]. specialize (HB Hc). split; [split|]; rewrite ?E.
  - by apply dset_NoDup.
  - intros k q. rewrite dlookup_dset. destruct (String.eqb_spec k id) as [->|].
    + intros [= <-]. destruct HB as [HB1 HB2]. split; [done|]. by rewrite HB2.
    + apply W2.
  - intros k q Hq. rewrite E, dlookup_dset. destruct (String.eqb_spec k id) as [->|].
    + exists r'. split; [done|]. congruence.
    + exists q. split; [done|]. apply becomes_refl. by destruct (W2 k q Hq).
Qed.

Lemma moves_insert h s id r :
  dlookup id (sv_runs s) = None -> consistent r -> run_id (spec r) = id ->
  moves h s (set_runs (dset id r (sv_runs s)) s).
Proof.
  intros Hn Hc Hid [W1 W2]. split; [split|].
  - by apply dset_NoDup.
  - intros k q. cbn [sv_runs set_runs]. rewrite dlookup_dset. destruct (String.eqb_spec k id) as [->|]; [|apply W2].
    by intros [= <-].
  - intros k q Hq. cbn [sv_runs set_runs]. rewrite dlookup_dset. destruct (String.eqb_spec k id) as [->|]; [congruence|].
    exists q. split; [done|]. apply becomes_refl. by destruct (W2 k q Hq).
Qed.

(** ** Sections *)

(** A section that moves the records as [h] may. *)
Definition sound {A} (h : option string) (m : M A) : Prop := forall o s, moves h s (fst (m o s)).

Lemma bind_eq {A B} (m : M A) (f : A -> M B) o s :
  bind m f o s = match snd (m o s) with Ok a => f a o (fst (m o s)) | Err e => (fst (m o s), Err e) end.
Proof. unfold bind. by destruct (m o s) as [s' [a|e]]. Qed.

Lemma moves_bind {A B} h (m : M A) (f : A -> M B) o s :
  moves h s (fst (m o s)) ->
  (forall a, snd (m o s) = Ok a -> moves h (fst (m o s)) (fst (f a o (fst (m o s))))) ->
  moves h s (fst (bind m f o s)).
Proof.
  intros H1 H2. rewrite bind_eq. destruct (snd (m o s)) as [a|e]; [|exact H1].
  eapply moves_trans; [exact H1|by apply H2].
Qed.

Lemma sound_bind {A B} h (m : M A) (f : A -> M B) : sound h m -> (forall a, sound h (f a)) -> sound h (bind m f).
Proof. intros H1 H2 o s. apply moves_bind; [apply H1|]. intros a _. apply H2. Qed.

Lemma sound_ret {A} h (a : A) : sound h (ret a). Proof. intros o s. apply moves_same; reflexivity. Qed.
Lemma sound_throw {A} h e : sound h (@throw A e). Proof. intros o s. apply moves_same; reflexivity. Qed.
Lemma sound_lift {A} h (r : res A) : sound h (lift r). Proof. intros o s. apply moves_same; reflexivity. Qed.
Lemma sound_asks {A} h (f : Outside -> A) : sound h (asks f). Proof. intros o s. apply moves_same; reflexivity. Qed.
Lemma sound_gets {A} h (f : Service -> A) : sound h (gets f). Proof. intros o s. apply moves_same; reflexivity. Qed.
Lemma sound_modify h f : (forall s, sv_runs (f s) = sv_runs s) -> sound h (modify f).
Proof. intros H o s. apply moves_same, H. Qed.
Lemma sound_when h b m : sound h m -> sound h (when b m).
Proof. destruct b; [done|]. intros _. apply sound_ret. Qed.
Lemma sound_pass h m : sound h m -> sound h (pass m).
Proof. intros H o s. exact (H o s). Qed.
Lemma sound_record_of h id : sound h (record_of id). Proof. apply sound_gets. Qed.
Lemma sound_poll h p : sound h (poll p). Proof. apply sound_gets. Qed.
Lemma sound_load h path : sound h (load_trace path). Proof. intros o s. apply moves_same; reflexivity. Qed.

#[export] Hint Resolve sound_bind sound_ret sound_throw sound_lift sound_asks sound_gets sound_when sound_pass
  sound_record_of sound_poll sound_load : sections.
#[export] Hint Extern 1 (sound _ (modify _)) => (by apply sound_modify) : sections.

(** Case analysis on the code of a section. *)
Ltac section_step :=
  lazymatch goal with
  | |- forall _, _ => intros ?
  | |- sound _ (bind _ _) => apply sound_bind
  | |- sound _ (when _ _) => apply sound_when
  | |- sound _ (pass _) => apply sound_pass
  | |- sound _ (let '(_, _) := ?e in _) => destruct e
  | |- sound _ (match ?e with _ => _ end) => destruct e
  | |- _ => solve [eauto with sections nocore]
  end.
Ltac solve_sound := repeat section_step.

Section Threads.
Context (cfg : Config).

Lemma sound_store_call h n f : sound h (store_call n f).
Proof. unfold store_call. solve_sound. Qed.
Hint Resolve sound_store_call : sections.

Lemma sound_upsert h n d : sound h (upsert cfg n d).
Proof. unfold upsert. solve_sound. Qed.
Hint Resolve sound_upsert : sections.

(** ** The assignments to a record *)

Lemma apply_approval_spec r a : spec (_apply_approval_state_to_record r a) = spec r.
Proof. unfold _apply_approval_state_to_record. by destruct (_ && _). Qed.

Lemma apply_approval_logs r a : logs (_apply_approval_state_to_record r a) = logs r.
Proof. unfold _apply_approval_state_to_record. by destruct (_ && _). Qed.

(** The trace of a finished run may suspend it, unless it was cancelled. *)
Lemma apply_approval_cases r a :
  consistent r -> status r = succeeded \/ status r = failed \/ status r = cancelled ->
  let r' := _apply_approval_state_to_record r a in
  consistent r' /\ is_Some (finished_at r') /\ finished_at r' = finished_at r /\
  (status r' = status r \/ (status r <> cancelled /\ status r' = suspended)).
Proof.
  intros Hc Hs. unfold _apply_approval_state_to_record. cbn [cancel_requested set_ids approval_history].
  unfold consistent in Hc |- *.
  destruct (as_pending a), (cancel_requested r) eqn:Ecr; cbn [andb negb];
    destruct Hs as [E|[E|E]]; rewrite E in Hc; destruct Hc as (H1 & H2 & H3 & H4); try congruence;
    cbn; rewrite ?E, ?Ecr; (split; [|split; [|split; [done|]]]); eauto 10.
  all: try (by left); try (right; split; congruence).
  all: split; [done|]; split; [|done]. all: destruct H2 as (z & -> & _); eauto.
Qed.

Lemma final_of_same trace r :
  let r' := final_of trace r in
  spec r' = spec r /\ status r' = status r /\ finished_at r' = finished_at r /\ logs r' = logs r /\
  pending r' = pending r /\ (consistent r -> consistent r').
Proof. unfold final_of. destruct trace as [t|]; [|done]. by destruct (String.eqb _ _). Qed.

Lemma rtc_one st st' : lifecycle st st' -> rtc lifecycle st st'.
Proof. apply rtc_once. Qed.

(** The end of a process that is still on record. *)
Lemma finish_becomes h id r code now :
  finished_at r = None -> consistent r ->
  becomes h id r (finish code now r) /\ is_Some (finished_at (finish code now r)) /\
  (status (finish code now r) = succeeded \/ status (finish code now r) = failed \/ status (finish code now r) = cancelled).
Proof.
  intros Hf Hc. unfold finish, end_status, consistent in *. destruct (status r) eqn:E;
    destruct Hc as (H1 & H2 & H3 & H4); rewrite Hf in H1; try (by destruct H1); rewrite H3.
  - destruct (Z.eqb_spec code 0) as [->|Hz]; cbn; (split; [split|]); cbn; rewrite ?E; eauto 10;
      try (apply rtc_one; constructor); intros _ [[? Hn] _]; congruence.
  - cbn. split; [split|]; cbn; rewrite ?E; eauto 10.
    + by apply rtc_one; constructor.
    + intros _ [[? Hn] _]; congruence.
Qed.

Lemma final_becomes h id trace r r0 : becomes h id r0 r -> becomes h id r0 (final_of trace r).
Proof.
  destruct (final_of_same trace r) as (E1 & E2 & E3 & E4 & E5 & E6).
  intros [A B C D E]. split; [by apply E6|congruence|by rewrite E2|by rewrite E4|].
  intros Hh Hc. destruct (E Hh Hc) as [[Hx Hy] Hz]. unfold closed. by rewrite E2, E3, E5.
Qed.

(** The end of a process, then what its trace asks for. *)
Lemma settle_becomes h id r code now trace a :
  finished_at r = None -> consistent r ->
  becomes h id r (final_of trace (_apply_approval_state_to_record (finish code now r) a)).
Proof.
  intros Hf Hc. destruct (finish_becomes h id r code now Hf Hc) as ([A B C D _] & _ & Hs).
  destruct (apply_approval_cases _ a A Hs) as (A' & _ & _ & Hst). apply final_becomes. split.
  - done.
  - by rewrite apply_approval_spec.
  - etrans; [exact C|]. destruct Hst as [->|[Hn ->]]; [done|].
    apply rtc_one, lc_suspend. by destruct Hs as [?|[?|?]]; auto.
  - by rewrite apply_approval_logs.
  - intros _ [[x Hx] _]. congruence.
Qed.

Lemma sound_refresh h id : sound h (_refresh_record_locked cfg id).
Proof.
  intros o s. unfold _refresh_record_locked. apply moves_bind; [apply sound_record_of|]. intros found [= <-].
  cbn [fst record_of gets]. destruct (dlookup id (sv_runs s)) as [r|] eqn:Hr; [|by apply sound_ret].
  destruct (finished_at r) eqn:Hf; [by apply sound_ret|]. destruct (process r) as [p|]; [|by apply sound_ret].
  apply moves_bind; [apply sound_poll|]. intros [code|] _; [|by apply sound_ret].
  apply moves_bind; [apply sound_asks|]. intros now [= <-]. cbn [fst asks poll gets].
  unfold put at 1, modify, bind at 1. cbn [fst snd]. set (s1 := set_runs _ s).
  unfold bind at 1, load_trace. destruct (_load_trace _) as [trace|e]; cbn [fst snd].
  - unfold bind, put, modify. eapply moves_trans; [|apply sound_upsert].
    eapply (moves_put h s _ id r); [done| |cbn; apply dset_dset]. intros Hc. by apply settle_becomes.
  - eapply (moves_put h s _ id r); [done| |reflexivity]. intros Hc. by apply finish_becomes.
Qed.
Hint Resolve sound_refresh : sections.

Lemma sound_refreshed h id : sound h (refreshed cfg id).
Proof. unfold refreshed. solve_sound. Qed.
Hint Resolve sound_refreshed : sections.

Lemma sound_summary h id : sound h (_summary_payload_locked cfg id).
Proof. unfold _summary_payload_locked. solve_sound. Qed.
Hint Resolve sound_summary : sections.

Lemma sound_summaries h ids : sound h (summaries cfg ids).
Proof. induction ids as [|id ids IH]; cbn [summaries]; solve_sound. Qed.
Hint Resolve sound_summaries : sections.

Lemma sound_spawn h args env approvals : sound h (spawn args env approvals).
Proof. unfold spawn. solve_sound. Qed.
Hint Resolve sound_spawn : sections.

Lemma sound_in_memory h id : sound h (in_memory cfg id).
Proof. unfold in_memory. solve_sound. Qed.

Lemma sound_remember h id request d trace : sound h (remember cfg id request d trace).
Proof. unfold remember. solve_sound. Qed.

Lemma sound_store_procedure h id request trace : sound h (store_procedure id request trace).
Proof. unfold store_procedure. solve_sound. Qed.

Lemma sound_terminate h p : sound h (terminate p).
Proof. unfold terminate. solve_sound. Qed.

Lemma sound_write_file h path d : sound h (write_file path d).
Proof. unfold write_file. solve_sound. Qed.

Lemma sound_count_start h id : sound h (count_start id).
Proof. unfold count_start. solve_sound. Qed.

Lemma sound_new_record h d a b c : sound h (new_record cfg d a b c).
Proof. unfold new_record. solve_sound. Qed.

Lemma sound_vote h id who role act cmt : sound h (vote_locked id who role act cmt).
Proof. unfold vote_locked. solve_sound. Qed.

Lemma consistent_running r : consistent r -> finished_at r = None -> cancel_requested r = false ->
  status r = running /\ exit_code r = None /\ pending r = no_approval.
Proof.
  unfold consistent. destruct (status r); intros (H1 & H2 & H3 & H4) Hf Hc; rewrite ?Hf in H1; try (by destruct H1); congruence.
Qed.

Lemma consistent_waiting r : consistent r -> pending_approval (pending r) = true ->
  status r = suspended /\ is_Some (finished_at r) /\ cancel_requested r = false.
Proof.
  unfold consistent, no_approval. destruct (status r); intros (H1 & H2 & H3 & H4) Hp; try done; rewrite H4 in Hp; done.
Qed.

Lemma cancel_becomes h id r :
  finished_at r = None -> cancel_requested r = false -> consistent r -> becomes h id r (set_cancel r).
Proof.
  intros Hf Hn Hc. destruct (consistent_running r Hc Hf Hn) as (Hs & He & Hp). split; try done.
  - rewrite Hs. apply rtc_one. constructor.
  - intros _ [[x Hx] _]. congruence.
Qed.

Lemma log_becomes h id line r : consistent r -> becomes h id r (add_log line r).
Proof. intros Hc. split; try done. by exists [line]. Qed.

Lemma resumed_becomes h id p now history actor r :
  pending_approval (pending r) = true -> consistent r -> becomes h id r (resumed p now history actor r).
Proof.
  intros Hp Hc. destruct (consistent_waiting r Hc Hp) as (Hs & Hf & Hn). split; try done.
  - rewrite Hs. apply rtc_one. constructor.
  - by eexists.
  - intros _ [_ Hx]. congruence.
Qed.

Lemma refused_becomes h id now history actor r :
  pending_approval (pending r) = true -> consistent r -> becomes h id r (refused now history actor r).
Proof.
  intros Hp Hc. destruct (consistent_waiting r Hc Hp) as (Hs & Hf & Hn). split; try done.
  - rewrite Hs. apply rtc_one. constructor.
  - by eexists.
  - intros _ [_ Hx]. congruence.
Qed.

(** An assignment to the record found at the beginning of the section or after its refresh. *)
Lemma put_found h id r r' o s :
  dlookup id (sv_runs s) = Some r -> (consistent r -> becomes h id r r') -> moves h s (fst (put id r' o s)).
Proof. intros Hr HB. by apply (moves_put h s _ id r r'). Qed.

Lemma refreshed_found id o s found :
  snd (refreshed cfg id o s) = Ok found -> found = dlookup id (sv_runs (fst (refreshed cfg id o s))).
Proof.
  unfold refreshed. rewrite bind_eq. destruct (snd (_refresh_record_locked cfg id o s)) as [u|e]; [|discriminate].
  unfold record_of, gets. cbn [fst snd]. congruence.
Qed.

Lemma sound_append_log h id line : sound h (_append_log id line).
Proof.
  intros o s. unfold _append_log. apply moves_bind; [apply sound_record_of|]. intros found [= <-].
  cbn [fst record_of gets]. destruct (dlookup id (sv_runs s)) as [r|] eqn:Hr; [|by apply sound_ret].
  apply (put_found h id r); [done|]. apply log_becomes.
Qed.

(** The prefix of the locked sections that refresh the record. *)
Lemma with_refreshed {A} h id o s (f : option RunRecord -> M A) :
  (forall s1, moves h s1 (fst (f (dlookup id (sv_runs s1)) o s1))) -> moves h s (fst (bind (refreshed cfg id) f o s)).
Proof. intros H. apply moves_bind; [apply sound_refreshed|]. intros found ->%refreshed_found. apply H. Qed.

Lemma sound_cancel h id : sound h (cancel_locked cfg id).
Proof.
  intros o s. unfold cancel_locked. apply moves_bind; [apply sound_record_of|]. intros [r0|] _; [|by apply sound_ret].
  apply with_refreshed. intros s1. destruct (dlookup id (sv_runs s1)) as [r|] eqn:Hr; [|by apply sound_ret].
  destruct (finished_at r) eqn:Hf; [by apply sound_bind; [apply sound_summary|intros d; apply sound_ret]|].
  destruct (cancel_requested r) eqn:Hc; [by apply sound_ret|].
  apply moves_bind; [|intros _ _; by apply sound_ret]. apply (put_found h id r); [done|]. by apply cancel_becomes.
Qed.

(** An approval or a rejection, once the record is known to wait. *)
Lemma sound_approve h id d auth : sound h (approve_locked cfg id d auth).
Proof.
  intros o s. unfold approve_locked. apply moves_bind; [apply sound_record_of|]. intros [r0|] _; [|by apply sound_ret].
  apply with_refreshed. intros s1. destruct (dlookup id (sv_runs s1)) as [r|] eqn:Hr; [|by apply sound_ret].
  apply moves_bind; [apply sound_lift|]. intros challenge Hch. cbn [fst lift].
  assert (Hp : pending_approval (pending r) = true).
  { cbn in Hch. unfold approvable in Hch. by destruct (pending_approval _). }
  do 2 (apply moves_bind; [apply sound_asks|]; intros ? _; cbn [fst asks]).
  apply moves_bind; [apply sound_asks|]; intros failure _; cbn [fst asks].
  destruct failure; [apply moves_bind; [apply sound_throw|discriminate]|]. apply moves_bind; [by apply sound_ret|]. intros _ _. cbn [fst ret].
  apply moves_bind; [apply sound_spawn|]. intros p Hsp. set (s2 := fst _).
  assert (Hr2 : dlookup id (sv_runs s2) = Some r).
  { subst s2. revert Hsp. unfold spawn. rewrite !bind_eq. cbn. by destruct (o_spawn o). }
  apply moves_bind; [apply sound_asks|]. intros now _. cbn [fst asks].
  apply moves_bind; [apply (put_found h id r); [done|]; by apply resumed_becomes|].
  intros _ _. apply (sound_bind h); [apply sound_summary|]. intros ?. apply sound_ret.
Qed.

Lemma sound_reject h id d auth : sound h (reject_locked cfg id d auth).
Proof.
  intros o s. unfold reject_locked. apply moves_bind; [apply sound_record_of|]. intros [r0|] _; [|by apply sound_ret].
  apply with_refreshed. intros s1. destruct (dlookup id (sv_runs s1)) as [r|] eqn:Hr; [|by apply sound_ret].
  destruct (pending_approval (pending r)) eqn:Hp; [|by apply sound_throw]. cbn [negb].
  do 2 (apply moves_bind; [apply sound_asks|]; intros ? _; cbn [fst asks]).
  apply moves_bind; [apply (put_found h id r); [done|]; by apply refused_becomes|].
  intros _ _. apply (sound_bind h); [apply sound_summary|]. intros ?. apply sound_ret.
Qed.

(** Nothing to refresh. *)
Lemma refresh_idle id o s r :
  dlookup id (sv_runs s) = Some r -> process r = None -> _refresh_record_locked cfg id o s = (s, Ok tt).
Proof. intros Hr Hp. unfold _refresh_record_locked, bind, record_of, gets. rewrite Hr, Hp. by destruct (finished_at r). Qed.

Lemma summary_idle id o s r :
  dlookup id (sv_runs s) = Some r -> process r = None -> _summary_payload_locked cfg id o s = (s, Ok (summary_payload r)).
Proof.
  intros Hr Hp. unfold _summary_payload_locked, refreshed, bind. rewrite (refresh_idle _ _ _ _ Hr Hp).
  unfold record_of, gets, ret. by rewrite Hr.
Qed.

Lemma upsert_runs n d o s : sv_runs (fst (upsert cfg n d o s)) = sv_runs s.
Proof. unfold upsert, when, store_call, bind, asks. destruct (has_store cfg); [|done]. by destruct (o_store o n). Qed.

Lemma spawn_runs args env approvals o s : sv_runs (fst (spawn args env approvals o s)) = sv_runs s.
Proof. unfold spawn, bind, asks, lift. by destruct (o_spawn o). Qed.

Lemma started_becomes h id r args p now : consistent r -> becomes h id r (set_process args p now r).
Proof. intros Hc. by split. Qed.

Lemma sound_register h r : consistent r -> process r = None -> sound h (register cfg r).
Proof.
  intros Hc Hp o s. unfold register. apply moves_bind; [apply sound_gets|]. intros taken [= <-]. cbn [fst gets].
  unfold dhas. destruct (dlookup _ _) as [?|] eqn:Hn; [by apply sound_throw|].
  apply moves_bind; [by apply moves_insert|]. intros _ _. set (s1 := fst _).
  assert (Hr1 : dlookup (run_id (spec r)) (sv_runs s1) = Some r) by apply dlookup_dset_eq.
  apply moves_bind; [apply sound_when, sound_bind; [apply sound_summary|intros ?; apply sound_upsert]|].
  intros _ _. set (s2 := fst _). assert (Hr2 : dlookup (run_id (spec r)) (sv_runs s2) = Some r).
  { subst s2. unfold when. destruct (has_store cfg); [|done]. rewrite bind_eq, (summary_idle _ _ _ _ Hr1 Hp).
    cbn [fst snd]. by rewrite upsert_runs. }
  apply moves_bind; [apply sound_spawn|]. intros p _. apply (put_found h _ r); [by rewrite spawn_runs|].
  apply started_becomes.
Qed.

Lemma new_record_consistent d a b c o s r :
  snd (new_record cfg d a b c o s) = Ok r -> consistent r /\ process r = None.
Proof.
  unfold new_record. destruct (_non_empty_str _) as [req|]; [|done]. rewrite bind_eq. cbn [snd fst asks].
  rewrite bind_eq. destruct (_normalized_run_id _); [|destruct (is_none _)]; cbn [snd fst ret throw]; try done.
  all: destruct (negb _); [done|]. all: destruct (paths cfg _ _). all: by intros [= <-].
Qed.

(** ** Threads *)

(** [h] is the run whose record the thread saw finished and still has to settle. *)
Definition holds (h : option string) (s : Service) : Prop :=
  match h with
  | None => True
  | Some id => exists r, dlookup id (sv_runs s) = Some r /\ closed r /\ status r <> rejected
  end.

(** A section may give up its run, keep it, or take one that was not finished. *)
Definition passes (h h' : option string) (s s' : Service) : Prop :=
  h' = None \/
  exists id, h' = Some id /\ holds h' s' /\
    (h = Some id \/ (h = None /\ exists r, dlookup id (sv_runs s) = Some r /\ ~ closed r)).

Inductive safe : option string -> Prog -> Prop :=
| safe_done r : safe None (Done r)
| safe_lock h next m k :
    (forall o s, wf s -> holds h s -> moves h s (m o s) /\ passes h (next o s) s (m o s)) ->
    (forall o s, safe (next o s) (k o s)) -> safe h (Lock m k)
| safe_fork h c k : safe None c -> safe h k -> safe h (Fork c k)
| safe_wait h p k : (forall z, safe h (k z)) -> safe h (Wait p k).

Lemma safe_section {A} h (next : A -> option string) (m : M A) k :
  (forall o s, wf s -> holds h s -> moves h s (fst (m o s)) /\
     forall a, snd (m o s) = Ok a -> passes h (next a) s (fst (m o s))) ->
  (forall o s a, snd (m o s) = Ok a -> safe (next a) (k a)) -> safe h (section m k).
Proof.
  intros H1 H2. apply (safe_lock h (fun o s => match snd (m o s) with Ok a => next a | Err _ => None end)).
  - intros o s W Hh. destruct (H1 o s W Hh) as [Hm Hp]. split; [exact Hm|]. destruct (snd (m o s)); [by apply Hp|by left].
  - intros o s. destruct (snd (m o s)) eqn:E; [by eapply H2|constructor].
Qed.

Lemma safe_plain {A} (m : M A) k :
  sound None m -> (forall o s a, snd (m o s) = Ok a -> safe None (k a)) -> safe None (section m k).
Proof.
  intros Hm Hk. apply (safe_section None (fun _ => None)); [|exact Hk]. intros o s _ _. split; [apply Hm|]. intros a _. by left.
Qed.

Lemma safe_and_then h p k : safe h p -> (forall v, safe None (k v)) -> safe h (and_then p k).
Proof.
  intros Hp Hk. induction Hp as [[v|e]|h next m j Hm _ IH|h c j Hc _ _ IH|h q j _ IH]; cbn [and_then].
  - apply Hk.
  - constructor.
  - by apply (safe_lock h next).
  - by constructor.
  - by constructor.
Qed.

Lemma safe_suppress catches h p k : safe h p -> safe None k -> safe h (suppress catches p k).
Proof.
  intros Hp Hk. induction Hp as [[v|e]|h next m j Hm _ IH|h c j Hc _ _ IH|h q j _ IH]; cbn [suppress].
  - exact Hk.
  - destruct (catches e); [exact Hk|constructor].
  - by apply (safe_lock h next).
  - by constructor.
  - by constructor.
Qed.

Ltac plain := apply safe_plain; [|intros ? ? ? ?].
Lemma safe_none : safe None none. Proof. constructor. Qed.
#[local] Hint Resolve safe_none safe_done : threads.

Lemma safe_with_trace d : safe None (with_trace d).
Proof.
  unfold with_trace. destruct (dlookup _ _) as [[]|]; try constructor. plain; [apply sound_load|constructor].
Qed.

Lemma safe_get_run name : safe None (get_run cfg name).
Proof.
  unfold get_run. destruct (_normalized_run_id _); [|constructor]. plain; [apply sound_in_memory|].
  destruct a as [d|]; [apply safe_with_trace|]. destruct (has_store cfg); [|constructor].
  plain; [intros ? ?; by apply moves_same|]. destruct a; [apply safe_with_trace|constructor].
Qed.

Lemma safe_must_get name : safe None (must_get cfg name).
Proof. apply safe_and_then; [apply safe_get_run|]. intros v. destruct (is_none v); constructor. Qed.

Lemma safe_get_logs name : safe None (get_logs cfg name).
Proof.
  unfold get_logs. destruct (_normalized_run_id _); [|constructor]. plain; [solve_sound|]. destruct a; constructor.
Qed.

Lemma safe_list_runs : safe None (list_runs cfg).
Proof.
  unfold list_runs. plain; [solve_sound|]. destruct (has_store cfg); [|constructor].
  plain; [intros ? ?; by apply moves_same|]. destruct (map_res _ _); constructor.
Qed.

Lemma safe_search query limit : safe None (search_runs cfg query limit).
Proof. unfold search_runs. destruct (has_store cfg); [|constructor]. plain; [intros ? ?; by apply moves_same|constructor]. Qed.

Lemma sound_stream_payload h id seen : sound h (stream_payload cfg id seen).
Proof. unfold stream_payload. solve_sound. Qed.

Lemma safe_stream polls id seen sent : safe None (stream cfg polls id seen sent).
Proof.
  revert seen sent. induction polls as [|polls IH]; intros seen sent; cbn [stream]; [constructor|].
  plain; [apply sound_stream_payload|]. destruct a as [[payload n]|]; (plain; [apply sound_asks|]); destruct a; try constructor.
  destruct (negb _); (plain; [apply sound_asks|]); [constructor|]. destruct a as [[] []]; try apply IH. constructor.
Qed.

(** The streaming of events reads only. *)
Lemma safe_attempts frames sent : safe None (attempts frames sent).
Proof. revert sent. induction frames as [|f rest IH]; intros sent; cbn [attempts]; [constructor|]. plain; [apply sound_asks|apply IH]. Qed.

Lemma safe_emit lines sent k : (forall sent, safe None (k sent)) -> safe None (_emit_tool_stdout_lines lines sent k).
Proof.
  intros Hk. revert sent. induction lines as [|l rest IH]; intros sent; cbn [_emit_tool_stdout_lines]; [apply Hk|].
  plain; [apply sound_asks|]. destruct a; [apply IH|apply Hk].
Qed.

Lemma safe_send e sent k : (forall sent, safe None (k sent)) -> safe None (send_event e sent k).
Proof.
  intros Hk. unfold send_event. plain; [apply sound_asks|]. destruct a; [|constructor].
  destruct (tool_stdout_lines e); [by apply safe_emit|constructor].
Qed.

Lemma safe_replay events sent k : (forall sent, safe None (k sent)) -> safe None (replay events sent k).
Proof.
  intros Hk. revert sent. induction events as [|e rest IH]; intros sent; cbn [replay]; [apply Hk|]. by apply safe_send.
Qed.

Lemma safe_live polls id sent : safe None (live cfg polls id sent).
Proof.
  revert sent. induction polls as [|polls IH]; intros sent; cbn [live]; [constructor|].
  assert (Hpoll : forall sent, safe None (and_then (get_run cfg id) (fun v =>
    if run_ended (run_dict v) then ending (run_dict v) sent else live cfg polls id sent))).
  { intros sent'. apply safe_and_then; [apply safe_get_run|]. intros v. destruct (run_ended _); [apply safe_attempts|apply IH]. }
  plain; [apply sound_asks|]. destruct a as [[[[e|]|] late] written].
  - by apply safe_send.
  - apply safe_and_then; [apply safe_get_run|]. intros v. apply safe_attempts.
  - destruct late; [destruct written|]; first [apply Hpoll|constructor].
Qed.

Lemma safe_stream_new id : safe None (stream_new_sse cfg id).
Proof.
  unfold stream_new_sse. apply safe_and_then; [apply safe_get_run|]. intros v. destruct v; try apply safe_attempts.
  plain; [apply sound_load|]. destruct (match a with Some _ => _ | None => _ end); [|constructor].
  apply safe_replay. intros sent. plain; [apply sound_asks|]. destruct a1; [|constructor]. cbn [negb].
  destruct (run_ended _); [apply safe_attempts|]. apply safe_suppress; [apply safe_live|constructor].
Qed.

Lemma safe_cancel name : safe None (cancel_run cfg name).
Proof.
  unfold cancel_run. destruct (_normalized_run_id _); [|constructor]. plain; [apply sound_cancel|].
  destruct a as [v|[p|]]; [constructor| |apply safe_get_run]. plain; [apply sound_terminate|apply safe_get_run].
Qed.

Lemma safe_write_approval path p d h l k : safe None k -> safe None (_write_trace_approval_state path p d h l k).
Proof.
  intros Hk. unfold _write_trace_approval_state. plain; [apply sound_load|]. destruct a; [|done].
  plain; [apply sound_write_file|done].
Qed.

Lemma safe_procedure path id request code : safe None (procedure_path cfg path id request code).
Proof.
  unfold procedure_path. destruct (_ && _); [|constructor]. plain; [intros ? ?; by apply moves_same|].
  destruct a as [t|e]; [|constructor]. plain; [|constructor]. apply sound_pass, sound_store_procedure.
Qed.

(** The first section of [_mark_finished] takes the run it finishes. *)
Lemma finish_takes id code o s :
  wf s ->
  let next (a : option RunRecord) := match a with Some _ => Some id | None => None end in
  moves None s (fst (finish_locked id code o s)) /\
  forall a, snd (finish_locked id code o s) = Ok a -> passes None (next a) s (fst (finish_locked id code o s)).
Proof.
  intros W next. unfold finish_locked, bind, record_of, gets.
  destruct (dlookup id (sv_runs s)) as [r|] eqn:Hr; cbn; [|split; [by apply moves_same|intros a [= <-]; by left]].
  destruct (finished_at r) eqn:Hf; cbn; [split; [by apply moves_same|intros a [= <-]; by left]|].
  destruct (wf_records s W id r Hr) as [Hc _]. set (f := finish code (o_utc o 0) r).
  destruct (finish_becomes None id r code (o_utc o 0) Hf Hc) as (HB & Hx & Hs). fold f in HB, Hx, Hs. split.
  - by apply (moves_put None s _ id r f).
  - intros a [= <-]. right. exists id. split; [done|]. split.
    + exists f. cbn [sv_runs set_metrics set_runs]. rewrite dlookup_dset_eq. split; [done|]. split.
      * split; [exact Hx|]. destruct HB as [Hcf _ _ _ _]. unfold consistent in Hcf.
        destruct Hs as [E|[E|E]]; rewrite E in Hcf; destruct Hcf as (_ & _ & _ & ->); done.
      * intros E. rewrite E in Hs. by destruct Hs as [?|[?|?]].
    + right. split; [done|]. exists r. split; [done|]. intros [[x Hy] _]. congruence.
Qed.

Lemma sound_apply id trace o s :
  wf s -> holds (Some id) s -> moves (Some id) s (fst (apply_locked cfg id trace o s)).
Proof.
  intros W (r & Hr & [Hf Hp] & Hn). destruct (wf_records s W id r Hr) as [Hc _].
  unfold apply_locked. apply moves_bind; [apply sound_record_of|]. intros found [= <-]. cbn [fst record_of gets].
  rewrite Hr. apply moves_bind; [|intros _ _; apply (sound_bind (Some id)); [apply sound_summary|]; solve_sound].
  apply (put_found (Some id) id r); [done|]. intros _.
  assert (Hs : status r = succeeded \/ status r = failed \/ status r = cancelled).
  { unfold consistent in Hc. destruct (status r); auto; destruct Hc as (H1 & H2 & H3 & H4); try congruence;
      rewrite H1 in Hf; by destruct Hf. }
  destruct (apply_approval_cases r (_approval_state_from_trace trace) Hc Hs) as (Hc' & _ & _ & Hst). split; try done.
  - apply apply_approval_spec.
  - destruct Hst as [->|[Hn' ->]]; [done|]. apply rtc_one, lc_suspend. by destruct Hs as [?|[?|?]]; auto.
  - by rewrite apply_approval_logs.
Qed.

Lemma safe_mark_finished id code : safe None (_mark_finished cfg id code).
Proof.
  unfold _mark_finished.
  apply (safe_section None (fun a : option RunRecord => match a with Some _ => Some id | None => None end)).
  { intros o s W _. by apply finish_takes. }
  intros _ _ [r|] _; [|constructor].
  apply (safe_section (Some id) (fun _ => Some id)).
  { intros o s W Hh. split; [apply sound_load|]. intros a _. right. exists id. split; [done|]. split; [exact Hh|by left]. }
  intros _ _ trace _. apply (safe_section (Some id) (fun _ => None)).
  { intros o s W Hh. split; [by apply sound_apply|]. intros a _. by left. }
  intros _ _ [[payload r']|] _; [|constructor]. plain; [apply sound_remember|].
  destruct (truthy _); [apply safe_write_approval|]; apply safe_procedure.
Qed.

Lemma safe_append_lines id lines k : safe None k -> safe None (append_lines id lines k).
Proof. intros Hk. induction lines as [|line lines IH]; cbn [append_lines]; [done|]. by plain; [apply sound_append_log|]. Qed.

Lemma safe_capture id : safe None (_capture_process_output cfg id).
Proof.
  unfold _capture_process_output. plain; [apply sound_record_of|]. destruct a as [r|]; [|constructor].
  destruct (process r) as [p|]; [|constructor]. plain; [apply sound_gets|].
  apply safe_append_lines. constructor. apply safe_mark_finished.
Qed.

Lemma safe_started id : safe None (Fork (_capture_process_output cfg id) (must_get cfg id)).
Proof. constructor; [apply safe_capture|apply safe_must_get]. Qed.

Lemma safe_create d a b c : safe None (create_run cfg d a b c).
Proof.
  unfold create_run. plain; [apply sound_new_record|]. destruct (new_record_consistent _ _ _ _ _ _ _ H) as [Hc Hp].
  plain; [by apply sound_register|]. plain; [apply sound_count_start|]. apply safe_started.
Qed.

Lemma safe_approve name d auth : safe None (approve_run cfg name d auth).
Proof.
  unfold approve_run. destruct (_normalized_run_id _); [|constructor]. plain; [apply sound_approve|].
  destruct a as [dec|]; [|constructor]. apply safe_write_approval. plain; [apply sound_upsert|apply safe_started].
Qed.

Lemma safe_reject name d auth : safe None (reject_run cfg name d auth).
Proof.
  unfold reject_run. destruct (_normalized_run_id _); [|constructor]. plain; [apply sound_reject|].
  destruct a as [dec|]; [|constructor]. apply safe_write_approval. plain; [apply sound_upsert|apply safe_get_run].
Qed.

Lemma safe_vote id who role act cmt : safe None (vote_run cfg id who role act cmt).
Proof.
  unfold vote_run. plain; [apply sound_vote|]. destruct a as [[st n] [f|]]; [|constructor].
  plain; [unfold is_waiting; solve_sound|]. destruct a; [|constructor].
  destruct f; apply safe_suppress; try constructor; [apply safe_approve|apply safe_reject].
Qed.

Lemma safe_handle q : safe None (handle cfg q).
Proof.
  destruct q; cbn [handle]; [apply safe_create|apply safe_get_run|apply safe_get_logs|apply safe_list_runs|apply safe_search
    |apply safe_stream|apply safe_stream_new|apply safe_cancel|apply safe_approve|apply safe_reject| |apply safe_vote].
  unfold set_policy. plain; [solve_sound|constructor].
Qed.

(** ** The system *)

Definition invariant (sys : System) : Prop :=
  wf (service sys) /\ exists hs : list (option string),
    Forall2 safe hs (threads sys) /\ (forall h, In h hs -> holds h (service sys)) /\
    (forall i j id, hs !! i = Some (Some id) -> hs !! j = Some (Some id) -> i = j).

(** What others do to a run a thread holds. *)
Lemma holds_kept h h' s s' : moves h s s' -> wf s -> h <> h' -> holds h' s -> holds h' s'.
Proof.
  intros Hm W Hn Hh. destruct h' as [id|]; [|done]. destruct Hh as (r & Hr & Hc & Hs).
  destruct (proj2 (Hm W) id r Hr) as (r' & Hr' & [_ _ _ _ HB]). exists r'. split; [done|].
  destruct (HB Hn Hc) as [Hc' ->]. done.
Qed.

(** A change of the outside, or by a thread that holds nothing. *)
Lemma invariant_moves s s' ts :
  (wf s -> wf s') -> (forall id, holds (Some id) s -> holds (Some id) s') ->
  invariant {| service := s; threads := ts |} -> invariant {| service := s'; threads := ts |}.
Proof.
  intros Hw Hk (W & hs & H1 & H2 & H3). split; [by apply Hw|]. exists hs. split; [done|]. split; [|done].
  intros [id|] Hin; [|done]. apply Hk. by apply (H2 (Some id)).
Qed.

Lemma invariant_lock i m k o s ts :
  ts !! i = Some (Lock m k) -> invariant {| service := s; threads := ts |} ->
  invariant {| service := m o s; threads := <[i := k o s]> ts |} /\ exists h, moves h s (m o s).
Proof.
  intros Hi (W & hs & H1 & H2 & H3). cbn [service threads] in *.
  destruct (Forall2_lookup_r _ _ _ _ _ H1 Hi) as (h & Hh & Hs). inversion Hs as [|? next ? ? Hm Hk| |]; subst.
  assert (Hh' : holds h s) by (apply H2, list_elem_of_In, list_elem_of_lookup; eauto).
  destruct (Hm o s W Hh') as [Hmv Hp]. split; [|eauto]. split; [by destruct (Hmv W)|].
  exists (<[i := next o s]> hs). cbn [service threads].
  assert (Hlt : (i < length hs)%nat) by (by eapply lookup_lt_Some).
  assert (Hothers : forall j id, j <> i -> hs !! j = Some (Some id) -> h <> Some id).
  { intros j id Hj E ->. by apply Hj, (H3 j i id). }
  split; [apply Forall2_insert; [done|apply Hk]|]. split.
  - intros h' Hin. apply list_elem_of_In, list_elem_of_lookup in Hin as [j Hj].
    destruct (decide (i = j)) as [<-|Hne].
    + rewrite list_lookup_insert_eq in Hj by done. injection Hj as <-. destruct Hp as [->|(id & -> & Hp & _)]; [done|exact Hp].
    + rewrite list_lookup_insert_ne in Hj by done. destruct h' as [id|]; [|done].
      apply (holds_kept h _ s); [done|done|by eapply Hothers; eauto|].
      apply H2, list_elem_of_In, list_elem_of_lookup. eauto.
  - assert (Hnew : forall j id, j <> i -> hs !! j = Some (Some id) -> next o s <> Some id).
    { intros j id Hj E En. destruct Hp as [Hp|(id' & Hp & _ & Hp')]; [congruence|].
      assert (id' = id) as -> by congruence. destruct Hp' as [->|(-> & r & Hr & Hncl)].
      - by eapply (Hothers j id).
      - destruct (H2 (Some id)) as (r' & Hr' & Hcl & _); [apply list_elem_of_In, list_elem_of_lookup; eauto|].
        assert (r' = r) as -> by congruence. done. }
    intros a b id Ha Hb. destruct (decide (a = i)) as [->|Hai], (decide (b = i)) as [->|Hbi]; [done| | |].
    + rewrite list_lookup_insert_eq in Ha by done. rewrite list_lookup_insert_ne in Hb by done. injection Ha as Ha.
      by destruct (Hnew b id Hbi Hb).
    + rewrite list_lookup_insert_eq in Hb by done. rewrite list_lookup_insert_ne in Ha by done. injection Hb as Hb.
      by destruct (Hnew a id Hai Ha).
    + rewrite !list_lookup_insert_ne in Ha, Hb by done. by eapply H3.
Qed.

(** Another thread, or a thread at a later point, that is safe with the same runs. *)
Lemma invariant_replace i p p' s ts :
  ts !! i = Some p -> (forall h, safe h p -> safe h p') ->
  invariant {| service := s; threads := ts |} -> invariant {| service := s; threads := <[i := p']> ts |}.
Proof.
  intros Hi Hp (W & hs & H1 & H2 & H3). split; [done|]. exists hs. split; [|done]. cbn [threads] in *.
  destruct (Forall2_lookup_r _ _ _ _ _ H1 Hi) as (h & Hh & Hs). rewrite <- (list_insert_id hs i h Hh).
  apply Forall2_insert; [done|]. by apply Hp.
Qed.

Lemma invariant_add p s ts :
  safe None p -> invariant {| service := s; threads := ts |} -> invariant {| service := s; threads := ts ++ [p] |}.
Proof.
  intros Hp (W & hs & H1 & H2 & H3). split; [done|]. exists (hs ++ [None])%list. cbn [service threads] in *.
  split; [apply Forall2_app; [done|by repeat constructor]|]. split.
  - intros h Hin. apply in_app_iff in Hin as [Hin|[<-|[]]]; [by apply H2|done].
  - intros a b id Ha Hb. apply lookup_app_Some in Ha as [Ha|[_ Ha]], Hb as [Hb|[_ Hb]]; [by eapply H3| | |];
      exfalso; [destruct (b - length hs)%nat as [|[|?]]|destruct (a - length hs)%nat as [|[|?]]
               |destruct (a - length hs)%nat as [|[|?]]]; done.
Qed.

Lemma invariant_step sys sys' : step cfg sys sys' -> invariant sys -> invariant sys' /\ exists h, moves h (service sys) (service sys').
Proof.
  assert (Hsame : forall s s' ts, sv_runs s' = sv_runs s -> invariant {| service := s; threads := ts |} ->
    invariant {| service := s'; threads := ts |} /\ exists h, moves h s s').
  { intros s s' ts E Hinv. split; [|exists None; by apply moves_same]. eapply invariant_moves; [| |exact Hinv].
    - intros [A B]. split; by rewrite E.
    - intros id. cbn. by rewrite E. }
  intros Hst Hinv. destruct Hst as [q [s ts]|sys sys' [i m k o s ts Hi|i c k s ts Hi|i p k q z s ts Hi|p q z s ts|path f s ts]];
    cbn [service arrive].
  - split; [|exists None; by apply moves_same]. apply invariant_add; [apply safe_handle|done].
  - by apply invariant_lock.
  - split; [|exists None; by apply moves_same]. assert (Hc : safe None c).
    { destruct Hinv as (_ & hs & H1 & _). destruct (Forall2_lookup_r _ _ _ _ _ H1 Hi) as (h & _ & Hs). by inversion Hs. }
    apply invariant_add; [exact Hc|]. eapply invariant_replace; [exact Hi| |exact Hinv]. intros h Hs. by inversion Hs.
  - split; [|exists None; by apply moves_same]. eapply invariant_replace; [exact Hi| |exact Hinv].
    intros h Hs. inversion Hs; subst; auto.
  - by apply Hsame.
  - by apply Hsame.
Qed.

Lemma invariant_start : invariant start.
Proof.
  split; [split; [constructor|done]|]. exists []. split; [constructor|]. split; [done|]. intros i j id Hi. by rewrite lookup_nil in Hi.
Qed.

Lemma reachable_invariant sys : reachable cfg sys -> invariant sys.
Proof.
  intros H. refine (rtc_ind_r invariant start invariant_start _ sys H).
  intros a b _ Hs Hi. by apply (invariant_step a b).
Qed.

(** ** Executions *)

(** What happens in one step, and what the outside gives to a section. *)
Inductive Event :=
| Arrive (q : Request) | Run (i : nat) (o : Outside) | Exit (p : nat) (z : Z) | Traced (path : string) (f : trace_file).

Definition advance (i : nat) (o : Outside) (s : Service) (ts : list Prog) (t : Prog) : option System :=
  match t with
  | Done _ => None
  | Lock m k => Some {| service := m o s; threads := <[i := k o s]> ts |}
  | Fork c k => Some {| service := s; threads := <[i := k]> ts ++ [c] |}
  | Wait p k => match sv_procs s !! p with
                | Some q => match p_exit q with Some z => Some {| service := s; threads := <[i := k z]> ts |} | None => None end
                | None => None
                end
  end.

Definition drive1 (sys : System) (e : Event) : option System :=
  let s := service sys in
  let ts := threads sys in
  match e with
  | Arrive q => Some (arrive cfg q sys)
  | Run i o => match ts !! i with Some t => advance i o s ts t | None => None end
  | Exit p z => match sv_procs s !! p with
                | Some q => match p_exit q with
                            | None => Some {| service := set_exit p z s; threads := ts |} | Some _ => None end
                | None => None
                end
  | Traced path f => Some {| service := set_files (dset path f (sv_files s)) s; threads := ts |}
  end.

Fixpoint drive (sys : System) (es : list Event) : option System :=
  match es with
  | [] => Some sys
  | e :: rest => match drive1 sys e with Some sys' => drive sys' rest | None => None end
  end.

Lemma event_step sys e sys' : drive1 sys e = Some sys' -> step cfg sys sys'.
Proof.
  destruct sys as [s ts], e as [q|i o|p z|path f]; cbn; [intros [= <-]; constructor| | |intros [= <-]; constructor; constructor].
  - destruct (ts !! i) as [[r|m k|c k|p k]|] eqn:Hi; cbn; try done; try (intros [= <-]; apply step_act; by econstructor).
    destruct (sv_procs s !! p) as [q|] eqn:Hp; [|done]. destruct (p_exit q) eqn:Hx; [|done]. intros [= <-]. apply step_act. by econstructor.
  - destruct (sv_procs s !! p) as [q|] eqn:Hp; [|done]. destruct (p_exit q) eqn:Hx; [done|]. intros [= <-]. apply step_act. by econstructor.
Qed.

Lemma drive_steps es : forall sys sys', drive sys es = Some sys' -> rtc (step cfg) sys sys'.
Proof.
  induction es as [|e es IH]; cbn; intros sys sys'; [by intros [= <-]|].
  destruct (drive1 sys e) as [s1|] eqn:E; [|done]. intros H. eapply rtc_l; [by eapply event_step|by apply IH].
Qed.
End Threads.

(** ** The life cycle of a run *)

Lemma lifecycle_terminal st st' : rtc lifecycle st st' -> st = cancelled \/ st = rejected -> st' = st.
Proof. intros H Hs. destruct H as [|? y ? H _]; [done|]. inversion H; subst; destruct Hs; naive_solver. Qed.

Lemma lifecycle_cancelling st st' : rtc lifecycle st st' -> st = cancelling -> st' = cancelling \/ st' = cancelled.
Proof.
  intros H Hs. destruct H as [|? y ? H H']; [by left|]. subst. inversion H; subst; [|naive_solver].
  right. by apply (lifecycle_terminal _ _ H'); left.
Qed.

Lemma rtc_invariant cfg sys sys' : rtc (step cfg) sys sys' -> invariant sys -> invariant sys'.
Proof. induction 1 as [|a b c Hs _ IH]; [done|]. intros Hi. by apply IH, (invariant_step cfg a b). Qed.

(** What one step does to a record, whichever thread makes it. *)
Record later (r r' : RunRecord) : Prop := {
  l_spec : spec r' = spec r; l_status : rtc lifecycle (status r) (status r'); l_logs : prefix (logs r) (logs r') }.

Lemma later_refl r : later r r.
Proof. by split. Qed.

Lemma later_trans r1 r2 r3 : later r1 r2 -> later r2 r3 -> later r1 r3.
Proof. intros [A B C] [A' B' C']. split; [congruence|by etrans|by etrans]. Qed.

Lemma steps_later cfg sys sys' :
  rtc (step cfg) sys sys' -> invariant sys ->
  forall id r, dlookup id (sv_runs (service sys)) = Some r ->
    exists r', dlookup id (sv_runs (service sys')) = Some r' /\ later r r'.
Proof.
  induction 1 as [a|a b c Hs _ IH]; intros Hi id r Hr; [exists r; split; [done|apply later_refl]|].
  destruct (invariant_step cfg a b Hs Hi) as [Hb [h Hm]]. destruct Hi as [W _].
  destruct (proj2 (Hm W) id r Hr) as (r1 & Hr1 & [_ B1 B2 B3 _]).
  destruct (IH Hb id r1 Hr1) as (r2 & Hr2 & L2). exists r2. split; [done|]. by eapply later_trans.
Qed.

(** C11: the records are consistent under concurrency: whatever requests arrive, however
    their sections, the capturing threads, the ends of processes and the writing of
    traces interleave, and whichever sections raise, every run on record has the
    identifier it is filed under and fields that agree with its status (the table
    [consistent]): only a finished and not cancelled run waits for an approval, a
    cancellation that was asked for is never reported as another end. *)
Theorem runs_consistent cfg sys id r :
  reachable cfg sys -> dlookup id (sv_runs (service sys)) = Some r -> consistent r /\ run_id (spec r) = id.
Proof. intros H Hr. destruct (reachable_invariant cfg sys H) as [W _]. by apply (wf_records _ W). Qed.

(** C12: the status of a run refines its life cycle: along any interleaved execution the
    run stays on record with what it was created with, its log only grows, and its
    status moves along the edges of [lifecycle]; a cancelled or rejected run never
    changes again, and a run being cancelled can only become cancelled. *)
Theorem run_life_cycle cfg sys sys' id r :
  reachable cfg sys -> rtc (step cfg) sys sys' -> dlookup id (sv_runs (service sys)) = Some r ->
  exists r', dlookup id (sv_runs (service sys')) = Some r' /\ spec r' = spec r /\ prefix (logs r) (logs r') /\
    rtc lifecycle (status r) (status r') /\
    (status r = cancelled \/ status r = rejected -> status r' = status r) /\
    (status r = cancelling -> status r' = cancelling \/ status r' = cancelled).
Proof.
  intros H Hs Hr. destruct (steps_later cfg sys sys' Hs (reachable_invariant cfg sys H) id r Hr) as (r' & Hr' & [A B C]).
  exists r'. repeat (split; [done|]). split; [by apply lifecycle_terminal|by apply lifecycle_cancelling].
Qed.

(** ** Approving *)

(** What an approval needs, and how it is refused. *)
Definition approval_of (r : RunRecord) (provided : option string) (challenge : string) : Prop :=
  pending_approval (pending r) = true /\
  _non_empty_str (dget (pending_approval_details (pending r)) "challenge_id" PNone) = Some challenge /\
  (provided = None \/ provided = Some challenge) /\ thread_id r <> "" /\ checkpoint_id r <> "".

Lemma approvable_spec r provided challenge : approvable r provided = Ok challenge <-> approval_of r provided challenge.
Proof.
  unfold approvable, approval_of. destruct (pending_approval (pending r)); cbn [negb]; [|split; [done|by intros []]].
  destruct (_non_empty_str _) as [c|]; [|split; [done|by intros (_ & ? & _)]].
  assert (Hp : (match provided with Some c' => negb (String.eqb c' c) | None => false end) = false <->
               provided = None \/ provided = Some c).
  { destruct provided as [c'|]; [|by split; auto]. destruct (String.eqb_spec c' c) as [->|]; cbn; split; auto; [done|].
    intros [?|?]; congruence. }
  destruct (match provided with Some _ => _ | None => _ end).
  { split; [done|]. intros (_ & [= <-] & H & _). apply Hp in H. done. }
  destruct (String.eqb_spec (thread_id r) ""), (String.eqb_spec (checkpoint_id r) ""); cbn;
    (split; [intros [= <-]; try done|intros (_ & [= <-] & _ & ? & ?); try done]). repeat (split; [tauto || done|]). done.
Qed.

Lemma upsert_procs cfg n d o s : sv_procs (fst (upsert cfg n d o s)) = sv_procs s.
Proof. unfold upsert, when, store_call, bind, asks. destruct (has_store cfg); [|done]. by destruct (o_store o n). Qed.

Lemma refreshed_procs cfg id o s : sv_procs (fst (refreshed cfg id o s)) = sv_procs s.
Proof.
  unfold refreshed. rewrite bind_eq.
  assert (E : sv_procs (fst (_refresh_record_locked cfg id o s)) = sv_procs s).
  { unfold _refresh_record_locked, bind, record_of, gets, asks, put, modify, poll, load_trace.
    destruct (dlookup id _) as [r|]; [|done]. destruct (finished_at r); [done|]. destruct (process r) as [p|]; [|done].
    unfold gets. destruct (match _ !! p with Some q => _ | None => _ end); [|done].
    destruct (_load_trace _); [|done]. by rewrite upsert_procs. }
  by destruct (snd _).
Qed.

Lemma summary_procs cfg id o s : sv_procs (fst (_summary_payload_locked cfg id o s)) = sv_procs s.
Proof.
  unfold _summary_payload_locked. rewrite bind_eq. rewrite <- (refreshed_procs cfg id o s).
  by destruct (snd (refreshed cfg id o s)).
Qed.

(** The start of a process, or its failure. *)
Lemma spawn_eq args env approvals o s :
  spawn args env approvals o s =
    match o_spawn o with
    | Ok started =>
        (set_procs (sv_procs s ++ [{| p_argv := args; p_env := env; p_approvals := approvals;
           p_output := fst started; p_exit := snd started; p_signalled := false |}])%list s, Ok (length (sv_procs s)))
    | Err e => (s, Err e)
    end.
Proof. unfold spawn. rewrite bind_eq. cbn [fst snd asks]. rewrite bind_eq. by destruct (o_spawn o). Qed.

(** A process that still runs leaves its record alone. *)
Lemma summary_running cfg id o s r p q :
  dlookup id (sv_runs s) = Some r -> process r = Some p -> sv_procs s !! p = Some q -> p_exit q = None ->
  _summary_payload_locked cfg id o s = (s, Ok (summary_payload r)).
Proof.
  intros Hr Hp Hq Hx. assert (E : _refresh_record_locked cfg id o s = (s, Ok tt)).
  { unfold _refresh_record_locked, bind, record_of, gets. rewrite Hr, Hp.
    destruct (finished_at r); [done|]. unfold poll, gets. cbn [fst snd]. by rewrite Hq, Hx. }
  unfold _summary_payload_locked, refreshed, bind. rewrite E. unfold record_of, gets, ret. by rewrite Hr.
Qed.

(** C35: an approval decides once.  Either no process is started and the record is as its
    refresh left it, and the call did not succeed; or the run was waiting for the challenge
    the caller answers, with a checkpoint to resume from, and exactly one process is
    started, with the resume command line and a token for that challenge alone; the decision
    is added to the history, and the run is running on that process and no longer waits, so
    a second approval of it is refused.  In that state the call refreshes the record once
    more: when the new process has not ended by then, the refresh changes nothing and the
    call succeeds; when it has, what is left is that refresh's (see [ended_at_once]). *)
Theorem approval_decides_once cfg id d auth o s :
  let s1 := fst (refreshed cfg id o s) in
  let '(s', out) := approve_locked cfg id d auth o s in
  (sv_procs s' = sv_procs s /\ sv_runs s' = sv_runs s1 /\ forall dec, out <> Ok (Some dec)) \/
  exists r challenge q s2 r' entry,
    dlookup id (sv_runs s1) = Some r /\ approval_of r (_non_empty_str (dget d "challenge_id" PNone)) challenge /\
    sv_procs s2 = (sv_procs s ++ [q])%list /\ p_argv q = _resume_argv r /\
    p_approvals q = Some (approvals_payload cfg (pending_approval_details (pending r)) challenge (o_iat o) (o_nonce o)) /\
    dlookup id (sv_runs s2) = Some r' /\ process r' = Some (length (sv_procs s)) /\ status r' = running /\
    approval_history r' = (approval_history r ++ [entry])%list /\
    (forall provided, approvable r' provided = Err (ValueError "approval_not_pending")) /\
    s' = fst (_summary_payload_locked cfg id o s2) /\ sv_procs s' = sv_procs s2 /\
    (forall dec, out = Ok (Some dec) -> dc_entry dec = entry) /\
    (p_exit q = None -> s' = s2 /\ exists dec, out = Ok (Some dec)).
Proof.
  intros s1. pose proof (refreshed_procs cfg id o s) as Hps. fold s1 in Hps. unfold approve_locked. rewrite bind_eq.
  cbn [fst snd record_of gets]. destruct (dlookup id (sv_runs s)) as [r0|] eqn:Hr0.
  2: { cbn. left. split; [done|]. subst s1. unfold refreshed, _refresh_record_locked, bind, record_of, gets. by rewrite Hr0. }
  rewrite bind_eq. fold s1. destruct (snd (refreshed cfg id o s)) as [found|e] eqn:Hf; [|by left].
  apply refreshed_found in Hf as ->. fold s1. destruct (dlookup id (sv_runs s1)) as [r|] eqn:Hr; [|by left].
  rewrite bind_eq. unfold lift at 1. cbn [fst snd]. destruct (approvable r _) as [challenge|e] eqn:Ha; [|by left].
  apply approvable_spec in Ha. do 3 (rewrite bind_eq; cbn [fst snd asks lift]).
  destruct (o_tempfile o); [by left|]. rewrite bind_eq. cbn [fst snd ret].
  rewrite bind_eq, spawn_eq. destruct (o_spawn o) as [started|e] eqn:Hsp; [|by left]. cbn [fst snd].
  set (q := {| p_argv := _ |}). do 2 (rewrite bind_eq; cbn [fst snd asks]). unfold put, modify. cbn [fst snd].
  set (r' := resumed _ _ _ _ r). set (s2 := set_runs _ _). rewrite bind_eq.
  assert (Hr2 : dlookup id (sv_runs s2) = Some r') by apply dlookup_dset_eq.
  assert (Hq : sv_procs s2 = (sv_procs s ++ [q])%list) by by rewrite <- Hps.
  assert (Hp : process r' = Some (length (sv_procs s))) by (cbn; by rewrite Hps).
  assert (Hn : sv_procs s2 !! length (sv_procs s) = Some q) by by rewrite Hq, lookup_app_r, Nat.sub_diag.
  pose proof (summary_running cfg id o s2 r' _ q Hr2 Hp Hn) as Hrun. pose proof (summary_procs cfg id o s2) as Hsp2.
  destruct (_summary_payload_locked cfg id o s2) as [s' out] eqn:Es. cbn [fst snd] in *.
  destruct out as [payload|e]; right; exists r, challenge, q, s2, r'; eexists; rewrite Es;
    (split; [done|]); (split; [exact Ha|]); (split; [exact Hq|]); do 2 (split; [done|]); (split; [exact Hr2|]); (split; [exact Hp|]);
    do 4 (split; [done|]); (split; [exact Hsp2|]).
  - split; [by intros dec [= <-]|]. intros Hx. injection (Hrun Hx) as -> _. by split; [|eexists].
  - split; [done|]. intros Hx. by specialize (Hrun Hx).
Qed.

(** ** Resuming again *)

Lemma without_resume_app skip l tail :
  without_resume false (without_resume skip l ++ tail) = (without_resume skip l ++ without_resume false tail)%list.
Proof.
  revert skip. induction l as [|a l IH]; intros skip; [done|]. cbn [without_resume].
  destruct skip; [apply IH|]. destruct (String.eqb a "--resume") eqn:E1; [apply IH|].
  destruct (str_in a _) eqn:E2; [apply IH|]. cbn [app without_resume]. by rewrite E1, E2, IH.
Qed.

(** The flags of a resumption do not pile up. *)
Lemma resume_argv_stable r r' :
  argv r' = _resume_argv r -> thread_id r' = thread_id r -> checkpoint_id r' = checkpoint_id r ->
  _resume_argv r' = _resume_argv r.
Proof.
  intros Ha Ht Hc. unfold _resume_argv at 1. rewrite Ha, Ht, Hc. unfold _resume_argv. rewrite without_resume_app.
  unfold flag. destruct (String.eqb (thread_id r) ""), (String.eqb (checkpoint_id r) ""); cbn; by rewrite app_nil_r.
Qed.

(** ** Executions of a small service *)

Definition demo : Config :=
  {| repo_root := "/repo"; executable := "python"; paths _ id := ("artifacts", "/repo/artifacts/run-" ++ id ++ ".json");
     approval_secret := ""; has_store := true; has_cache := true |}.

Definition calm : Outside :=
  {| o_utc _ := "2026-01-01T00:00:00Z"; o_time _ := fzero; o_monotonic := fzero; o_iat := 0; o_nonce := "00"; o_uuid := "u";
     o_spawn := Ok ([], None); o_tempfile := None; o_store _ := None; o_persisted _ := Ok None; o_listed := Ok [];
     o_searched _ _ := Ok []; o_torn := None; o_written := true; o_late := false; o_event := None |}.

(** [n] steps of the thread [i]. *)
Definition runs_of (i n : nat) : list Event := repeat (Run i calm) n.

Definition asked : Request := Create [("request", PStr "fix it"); ("run_id", PStr "r1")] "" "" "".

(** The creation by thread 0, and thread 1 waiting for the process. *)
Definition created : list Event := (Arrive asked :: runs_of 0 6 ++ runs_of 1 2)%list.

Definition challenge_trace : dict :=
  [("checkpoint", PDict [("thread_id", PStr "t"); ("latest_checkpoint_id", PStr "c")]);
   ("approval", PDict [("pending", PBool true); ("pending_details", PDict [("challenge_id", PStr "apply_patch:1")])])].

Definition demo_path : string := "/repo/artifacts/run-r1.json".

(** The process asks for an approval and ends, a poll notices it, the run is approved. *)
Definition approved_early : list Event :=
  (created ++ [Traced demo_path (TJson (PDict challenge_trace)); Exit 0 0; Run 1 calm; Arrive (GetRun "r1")] ++ runs_of 2 2
   ++ [Arrive (Approve "r1" [] "")] ++ runs_of 3 7)%list.

(** Only then the thread of the first process reports its end; the second process fails. *)
Definition stale_end : list Event :=
  (approved_early ++ runs_of 1 6 ++ runs_of 4 2 ++ [Exit 1 1] ++ runs_of 4 2)%list.

Definition ended_thread (t : Prog) : bool := match t with Done _ => true | _ => false end.

(** The system an execution leads to; nothing has happened when it is not possible. *)
Definition after (es : list Event) : System := match drive demo start es with Some sys => sys | None => start end.

Lemma after_reachable es : reachable demo (after es).
Proof.
  unfold after. destruct (drive demo start es) eqn:E; [by apply (drive_steps demo es)|apply rtc_refl].
Qed.

Lemma runs_consistent_witness :
  exists r, dlookup "r1" (sv_runs (service (after approved_early))) = Some r /\ status r = running /\
    (consistent r /\ run_id (spec r) = "r1").
Proof.
  destruct (dlookup "r1" (sv_runs (service (after approved_early)))) as [r|] eqn:E; [|vm_compute in E; discriminate E].
  exists r. split; [reflexivity|]. split; [vm_compute in E; injection E as <-; reflexivity|].
  exact (runs_consistent demo (after approved_early) "r1" r (after_reachable _) E).
Defined.

(** The poll in the middle of [approved_early] reports the run suspended. *)
Definition suspended_run : list Event := firstn 14 approved_early.

Lemma run_life_cycle_witness :
  exists r sys r', dlookup "r1" (sv_runs (service (after suspended_run))) = Some r /\ status r = suspended /\
    drive demo (after suspended_run) (skipn 14 stale_end) = Some sys /\
    dlookup "r1" (sv_runs (service sys)) = Some r' /\ rtc lifecycle (status r) (status r').
Proof.
  destruct (dlookup "r1" (sv_runs (service (after suspended_run)))) as [r|] eqn:E; [|vm_compute in E; discriminate E].
  destruct (drive demo (after suspended_run) (skipn 14 stale_end)) as [sys|] eqn:D; [|vm_compute in D; discriminate D].
  destruct (run_life_cycle demo (after suspended_run) sys "r1" r (after_reachable _) (drive_steps demo _ _ _ D) E)
    as (r' & Hr' & _ & _ & Hl & _).
  exists r, sys, r'. split; [reflexivity|]. split; [vm_compute in E; injection E as <-; reflexivity|].
  split; [reflexivity|]. split; [exact Hr'|exact Hl].
Defined.

Lemma approval_decides_once_witness :
  let s := service (after suspended_run) in
  exists dec s2 r', snd (approve_locked demo "r1" [] "" calm s) = Ok (Some dec) /\
    dlookup "r1" (sv_runs s2) = Some r' /\ status r' = running /\ approvable r' None = Err (ValueError "approval_not_pending").
Proof.
  intros s. pose proof (approval_decides_once demo "r1" [] "" calm s) as H. cbv zeta in H.
  destruct (approve_locked demo "r1" [] "" calm s) as [s' [[dec|]|e]] eqn:E; [|vm_compute in E; discriminate E..].
  destruct H as [(_ & _ & H)|(r & c & q & s2 & r' & entry & _ & _ & _ & _ & _ & Hr & _ & Hs & _ & Ha & _)]; [by destruct (H dec)|].
  exists dec, s2, r'. split; [reflexivity|]. by repeat split.
Defined.

(** A process that ends before the call has left its lock: the refresh reads the trace file
    of the suspended run, whose approval the call only clears after the lock, so that the
    run is suspended again for the same challenge and a second approval of it is accepted. *)
Definition hasty : Outside :=
  {| o_utc _ := "2026-01-01T00:00:00Z"; o_time _ := fzero; o_monotonic := fzero; o_iat := 0; o_nonce := "00"; o_uuid := "u";
     o_spawn := Ok ([], Some 1); o_tempfile := None; o_store _ := None; o_persisted _ := Ok None; o_listed := Ok [];
     o_searched _ _ := Ok []; o_torn := None; o_written := true; o_late := false; o_event := None |}.

Example ended_at_once :
  let s := fst (approve_locked demo "r1" [] "" hasty (service (after suspended_run))) in
  let s' := fst (approve_locked demo "r1" [] "" calm s) in
  option_map status (dlookup "r1" (sv_runs s)) = Some suspended /\
  (List.length (sv_procs s), List.length (sv_procs s')) = (2, 3)%nat.
Proof. vm_compute. repeat split. Qed.

(** The reported end of a resumed run may be that of its first process: an
    execution in which a poll notices the end of the suspended process, the run is
    approved and resumed, and only then the thread of the first process marks the run
    finished; when every thread is done the run has succeeded with exit code 0 while
    its process has failed with exit code 1. *)
Theorem stale_exit_reported :
  exists sys r q, reachable demo sys /\ forallb ended_thread (threads sys) = true /\
    dlookup "r1" (sv_runs (service sys)) = Some r /\ status r = succeeded /\ exit_code r = Some 0 /\
    process r = Some 1%nat /\ sv_procs (service sys) !! 1%nat = Some q /\ p_exit q = Some 1.
Proof.
  exists (after stale_end).
  destruct (dlookup "r1" (sv_runs (service (after stale_end)))) as [r|] eqn:E; [|vm_compute in E; discriminate E].
  destruct (sv_procs (service (after stale_end)) !! 1%nat) as [q|] eqn:P; [|vm_compute in P; discriminate P].
  exists r, q. split; [apply after_reachable|]. split; [vm_compute; reflexivity|].
  vm_compute in E. injection E as <-. vm_compute in P. injection P as <-. repeat split.
Qed.

(** A poll that comes before the thread of a finished process: the run is never counted
    as ended, and neither its memories nor its procedure are stored. *)
Definition worked_trace : dict :=
  [("final", PStr "done"); ("request", PStr "fix it");
   ("plan", PDict [("steps", PList [PDict [("tools", PList [PDict [("tool", PStr "read_file")]])]])])].

Definition finished_run : list Event := (created ++ [Traced demo_path (TJson (PDict worked_trace)); Exit 0 0])%list.
Definition remembered : Service -> Z * nat * nat :=
  fun s => (m_active (sv_metrics s), length (st_memories (sv_stores s)), length (st_procedures (sv_stores s))).

Example captured_run : remembered (service (after (finished_run ++ runs_of 1 7))) = (0, 1%nat, 1%nat).
Proof. vm_compute. reflexivity. Qed.

Example polled_run :
  let sys := after (finished_run ++ [Arrive (GetRun "r1")] ++ runs_of 2 2 ++ runs_of 1 2) in
  forallb ended_thread (threads sys) = true /\ remembered (service sys) = (1, 0%nat, 0%nat).
Proof. vm_compute. split; reflexivity. Qed.

(** A process that cannot be started leaves a run that is always running. *)
Definition no_spawn : Outside :=
  {| o_utc _ := "2026-01-01T00:00:00Z"; o_time _ := fzero; o_monotonic := fzero; o_iat := 0; o_nonce := "00"; o_uuid := "u";
     o_spawn := Err (RuntimeError "no such file"); o_tempfile := None; o_store _ := None; o_persisted _ := Ok None;
     o_listed := Ok []; o_searched _ _ := Ok []; o_torn := None; o_written := true; o_late := false; o_event := None |}.

Example unspawned_run :
  let sys := after ([Arrive asked; Run 0 no_spawn; Run 0 no_spawn; Arrive asked] ++ runs_of 1 2) in
  List.map (fun kr => (status (snd kr), process (snd kr))) (sv_runs (service sys)) = [(running, None)] /\
  threads sys !! 1%nat = Some (Done (Err (ValueError "duplicate_run_id"))).
Proof. vm_compute. split; reflexivity. Qed.
