(* ===== verification/Url.v ===== *)
(** * URLs: what the HTTP front end uses of [urllib.parse]

    [urlsplit], [unquote] and [parse_qs] of the standard library, on request
    targets.  [http.server] decodes the request line as ISO 8859-1, so a target is a
    text of [PyStr]. *)
From Stdlib Require Import ZArith Lia String Ascii List Bool.
From stdpp Require Import base tactics list strings option.
From S2P Require Import Prelude PyStr StrFacts PyVal Regex Json.
Local Open Scope string_scope.
Local Open Scope Z_scope.

(** [s.partition(c)] when [c] occurs: the text before its first occurrence, and after it. *)
Fixpoint cut (c : ascii) (s : string) : option (string * string) :=
  match s with
  | EmptyString => None
  | String a r =>
      if Ascii.eqb a c then Some (EmptyString, r)
      else match cut c r with Some (x, y) => Some (String a x, y) | None => None end
  end.

(** The longest prefix without a character of [stop], and the rest. *)
Fixpoint span_until (stop : ascii -> bool) (s : string) : string * string :=
  match s with
  | EmptyString => (EmptyString, EmptyString)
  | String a r =>
      if stop a then (EmptyString, s)
      else let '(x, y) := span_until stop r in (String a x, y)
  end.

Fixpoint str_filter (p : ascii -> bool) (s : string) : string :=
  match s with
  | EmptyString => EmptyString
  | String a r => if p a then String a (str_filter p r) else str_filter p r
  end.

Definition is_ascii (c : ascii) : bool := ord c <? 128.

(** ** [urlsplit] *)

Record SplitResult := { u_scheme : string; u_netloc : string; u_path : string; u_query : string; u_fragment : string }.

(** C0 control characters and the space are stripped; TAB, CR and LF are removed. *)
Definition c0_or_space (c : ascii) : bool := ord c <=? 32.
Definition unsafe_byte (c : ascii) : bool := (ord c =? 9) || (ord c =? 10) || (ord c =? 13).
Definition scheme_char (c : ascii) : bool :=
  is_alpha c || is_digit c || Ascii.eqb c "+" || Ascii.eqb c "-" || Ascii.eqb c ".".

Definition split_scheme (url : string) : string * string :=
  match cut ":" url with
  | Some (String a x, rest) =>
      if is_alpha a && all_chars scheme_char (String a x) then (lower (String a x), rest) else (EmptyString, url)
  | _ => (EmptyString, url)
  end.

Definition netloc_end (c : ascii) : bool := Ascii.eqb c "/" || Ascii.eqb c "?" || Ascii.eqb c "#".

(** The network location after [//]; one in brackets is checked by [ipaddress]. *)
Definition split_netloc (url : string) : res (string * string) :=
  if startswith url "//" then
    let '(netloc, rest) := span_until netloc_end (str_drop 2 url) in
    match contains "[" netloc, contains "]" netloc with
    | false, false => Ok (netloc, rest)
    | true, true => Err (Unmodelled "address in brackets")
    | _, _ => Err (ValueError "Invalid IPv6 URL")
    end
  else Ok (EmptyString, url).

Definition urlsplit (target : string) : res SplitResult :=
  let url := str_filter (fun c => negb (unsafe_byte c)) (lstrip_by c0_or_space target) in
  let '(scheme, url) := split_scheme url in
  let! (netloc, url) := split_netloc url in
  let '(url, fragment) := match cut "#" url with Some p => p | None => (url, EmptyString) end in
  let '(path, query) := match cut "?" url with Some p => p | None => (url, EmptyString) end in
  Ok {| u_scheme := scheme; u_netloc := netloc; u_path := path; u_query := query; u_fragment := fragment |}.

(** ** [parse_qs] *)

Definition hex_pair (a b : ascii) : option Z :=
  match hex_value a, hex_value b with Some x, Some y => Some (16 * x + y) | _, _ => None end.

(** The bytes of the ASCII characters and of the [%xx] escapes ([true]), and the
    characters that are not ASCII ([false]). *)
Fixpoint unquote_to_bytes (s : string) : list (bool * Z) :=
  match s with
  | EmptyString => []
  | String c r =>
      let plain := (is_ascii c, ord c) :: unquote_to_bytes r in
      if Ascii.eqb c "%" then
        match r with
        | String a (String b rest) =>
            match hex_pair a b with Some z => (true, z) :: unquote_to_bytes rest | None => plain end
        | _ => plain
        end
      else plain
  end.

(** UTF-8 decoding of the bytes, as far as ISO 8859-1 holds the result (what
    [errors="replace"] gives elsewhere has no text here). *)
Fixpoint decode_bytes (l : list (bool * Z)) : res string :=
  match l with
  | [] => Ok EmptyString
  | (false, z) :: r => let! s := decode_bytes r in Ok (String (chr z) s)
  | (true, z) :: r =>
      if z <? 128 then let! s := decode_bytes r in Ok (String (chr z) s)
      else match r with
           | (true, y) :: r' =>
               if ((z =? 194) || (z =? 195)) && (128 <=? y) && (y <=? 191)
               then let! s := decode_bytes r' in Ok (String (chr ((z - 192) * 64 + (y - 128))) s)
               else Err (Unmodelled "text outside ISO 8859-1")
           | _ => Err (Unmodelled "text outside ISO 8859-1")
           end
  end.

Definition unquote (s : string) : res string := decode_bytes (unquote_to_bytes s).

Definition unplus (s : string) : string := replace_char "+" " " s.

(** One [name=value] field; a field without a value is dropped ([keep_blank_values=False]). *)
Definition parse_field (field : string) : res (option (string * string)) :=
  match cut "=" field with
  | Some (_, EmptyString) | None => Ok None
  | Some (name, value) =>
      let! name := unquote (unplus name) in
      let! value := unquote (unplus value) in
      Ok (Some (name, value))
  end.

Definition add_value (acc : list (string * list string)) (nv : string * string) : list (string * list string) :=
  let '(name, value) := nv in
  dset name (match dlookup name acc with Some l => l ++ [value] | None => [value] end)%list acc.

Definition parse_qs (query : string) : res (list (string * list string)) :=
  let! fields := map_res parse_field (split_char "&" query) in
  Ok (fold_left add_value (omap (fun f => f) fields) []).

Definition qs_get (name : string) (q : list (string * list string)) : list string :=
  match dlookup name q with Some l => l | None => [] end.

(** ** Lemmas *)

Lemma cut_spec c s x y : cut c s = Some (x, y) -> s = x ++ String c y.
Proof.
  revert x; induction s as [|a r IH]; intros x H; simpl in H; [discriminate|].
  destruct (Ascii.eqb_spec a c) as [->|N]; [by simplify_eq|].
  destruct (cut c r) as [[x' y']|] eqn:E; simplify_eq. by rewrite (IH x' eq_refl).
Qed.

Lemma cut_app c x y : lacks c x = true -> cut c (x ++ String c y) = Some (x, y).
Proof.
  induction x as [|a r IH]; intros H; simpl; [by rewrite Ascii.eqb_refl|].
  rewrite lacks_cons in H. apply andb_true_iff in H as [H1 H2]. apply negb_true_iff in H1. by rewrite H1, IH.
Qed.

Lemma cut_none c s : lacks c s = true -> cut c s = None.
Proof.
  induction s as [|a r IH]; intros H; simpl; [done|].
  rewrite lacks_cons in H. apply andb_true_iff in H as [H1 H2]. apply negb_true_iff in H1. by rewrite H1, IH.
Qed.

Lemma str_filter_all p s : all_chars p s = true -> str_filter p s = s.
Proof. induction s as [|a r IH]; simpl; [done|]. intros [-> H]%andb_true_iff. by rewrite IH. Qed.

Example urlsplit_example :
  urlsplit "http://h:1/v1/runs/a?access_token=x%20y+z&q=&b=%41#f" =
  Ok {| u_scheme := "http"; u_netloc := "h:1"; u_path := "/v1/runs/a";
        u_query := "access_token=x%20y+z&q=&b=%41"; u_fragment := "f" |}.
Proof. reflexivity. Qed.

Example parse_qs_example :
  parse_qs "access_token=x%20y+z&q=&b=%41&b=2" = Ok [("access_token", ["x y z"]); ("b", ["A"; "2"])].
Proof. reflexivity. Qed.
