(* ===== verification/RateLimit.v ===== *)
(** * Rate limiting: [rate_limit.py] and [_RateLimiter] of [api/service.py]

    Token buckets over the readings of [time.monotonic()], which are arguments here.
    [_RateLimiter] is one bucket for the whole service: its [acquire] is that of
    [TokenBucket]. *)
From Stdlib Require Import ZArith Lia String List Bool.
From stdpp Require Import base tactics list strings option.
From S2P Require Import Prelude PyFloat PyVal.
Local Open Scope string_scope.
Local Open Scope Z_scope.

Record TokenBucket := { capacity : float; refill_rate : float; _tokens : float; _last_refill : float }.

(** [__post_init__]: a full bucket. *)
Definition new_bucket (capacity refill_rate now : float) : TokenBucket :=
  {| capacity := capacity; refill_rate := refill_rate; _tokens := capacity; _last_refill := now |}.

Definition one : float := float_of_Z 1.

Definition acquire (now : float) (b : TokenBucket) : TokenBucket * bool :=
  let elapsed := fsub now (_last_refill b) in
  let tokens := fmin (capacity b) (fadd (_tokens b) (fmul elapsed (refill_rate b))) in
  let set t := {| capacity := capacity b; refill_rate := refill_rate b; _tokens := t; _last_refill := now |} in
  if fleb one tokens then (set (fsub tokens one), true) else (set tokens, false).

(** [_RateLimiter(capacity=..., rate=...)]. *)
Definition new_service_limiter (capacity rate : Z) (now : float) : TokenBucket :=
  new_bucket (float_of_Z capacity) (float_of_Z rate) now.

Record RateLimiter := {
  _buckets : list (string * TokenBucket); _capacity : float; _refill_rate : float;
  total_requests : Z; total_rejections : Z }.

Definition new_limiter (capacity refill_rate : float) : RateLimiter :=
  {| _buckets := []; _capacity := capacity; _refill_rate := refill_rate; total_requests := 0; total_rejections := 0 |}.

(** The bucket of a client, created at its first request. *)
Definition bucket_of (client : string) (created : float) (r : RateLimiter) : TokenBucket :=
  match dlookup client (_buckets r) with
  | Some b => b
  | None => new_bucket (_capacity r) (_refill_rate r) created
  end.

(** [created] and [now] are the clock at the creation of the bucket and at [acquire]. *)
Definition check (client : string) (created now : float) (r : RateLimiter) : RateLimiter * bool :=
  let '(b, allowed) := acquire now (bucket_of client created r) in
  ({| _buckets := dset client b (_buckets r); _capacity := _capacity r; _refill_rate := _refill_rate r;
      total_requests := total_requests r + 1;
      total_rejections := if allowed then total_rejections r else total_rejections r + 1 |}, allowed).

Definition metrics (r : RateLimiter) : list (string * Z) :=
  [("total_requests", total_requests r); ("total_rejections", total_rejections r);
   ("active_buckets", Z.of_nat (length (_buckets r)))].

Definition is_stale (now max_idle : float) (kb : string * TokenBucket) : bool :=
  fltb max_idle (fsub now (_last_refill (snd kb))).

Definition cleanup (max_idle now : float) (r : RateLimiter) : RateLimiter * Z :=
  let stale := List.filter (is_stale now max_idle) (_buckets r) in
  ({| _buckets := List.filter (fun kb => negb (is_stale now max_idle kb)) (_buckets r);
      _capacity := _capacity r; _refill_rate := _refill_rate r;
      total_requests := total_requests r; total_rejections := total_rejections r |}, Z.of_nat (length stale)).

(** ** Histories of requests *)

(** A request: its client and the two readings of the clock. *)
Definition Arrival : Type := string * float * float.

(** The verdicts of a sequence of requests, with their clients. *)
Fixpoint verdicts (l : list Arrival) (r : RateLimiter) : list (string * bool) :=
  match l with
  | [] => []
  | (client, created, now) :: rest =>
      let '(r, allowed) := check client created now r in (client, allowed) :: verdicts rest r
  end.

Definition from (client : string) {A : Type} (key : A -> string) (l : list A) : list A :=
  List.filter (fun a => String.eqb (key a) client) l.

(** The limiters agree on the client. *)
Definition agree (client : string) (r r' : RateLimiter) : Prop :=
  dlookup client (_buckets r) = dlookup client (_buckets r') /\
  _capacity r = _capacity r' /\ _refill_rate r = _refill_rate r'.

Lemma check_agree client created now r r' :
  agree client r r' ->
  snd (check client created now r) = snd (check client created now r') /\
  agree client (fst (check client created now r)) (fst (check client created now r')).
Proof.
  intros (L & C & R). unfold check, bucket_of, agree. rewrite L, C, R.
  destruct (acquire now _) as [b ok]; simpl. by rewrite !dlookup_dset_eq.
Qed.

Lemma check_other client other created now r r' :
  other <> client -> agree client r r' -> agree client (fst (check other created now r)) r'.
Proof.
  intros N (L & C & R). unfold check, agree.
  destruct (acquire now _) as [b ok]; simpl. rewrite dlookup_dset_ne by congruence. done.
Qed.

(** The verdicts a client gets are those it would get alone. *)
Lemma verdicts_alone client l : forall r r', agree client r r' ->
  from client fst (verdicts l r) = verdicts (from client (fun a => fst (fst a)) l) r'.
Proof.
  induction l as [|[[other created] now] rest IH]; intros r r' A; [done|]. simpl.
  destruct (String.eqb_spec other client) as [->|N].
  - destruct (check_agree client created now r r' A) as [E A']. simpl.
    destruct (check client created now r) as [r1 ok], (check client created now r') as [r2 ok'].
    simpl in *. subst ok'. rewrite String.eqb_refl. f_equal. by apply IH.
  - pose proof (check_other client other created now r r' N A) as A'.
    destruct (check other created now r) as [r1 ok]. simpl in *.
    destruct (String.eqb_spec other client); [done|]. by apply IH.
Qed.

Lemma check_counts client created now r :
  total_requests (fst (check client created now r)) = total_requests r + 1 /\
  total_rejections (fst (check client created now r)) =
    total_rejections r + (if snd (check client created now r) then 0 else 1).
Proof. unfold check. destruct (acquire now _) as [b []]; simpl; lia. Qed.

(** The per-client limiter isolates its clients: whatever requests arrive, and in
    whatever order, the verdicts a client gets are those it would get alone. *)
Theorem client_isolated client capacity rate (l : list Arrival) :
  from client fst (verdicts l (new_limiter capacity rate)) =
  verdicts (from client (fun a => fst (fst a)) l) (new_limiter capacity rate).
Proof. by apply verdicts_alone. Qed.
