(* ===== verification/Auth.v ===== *)
(** * Authentication of requests: [auth.py]

    JWT verification, the roles a route requires, and the cache of the JWKS keys.
    [pyjwt] is third-party code: its functions are the record [Pyjwt]. *)
From Stdlib Require Import ZArith Lia String Ascii List Bool.
From stdpp Require Import base tactics list strings option.
From S2P Require Import Prelude PyStr PyFloat PyVal Url.
Local Open Scope string_scope.
Local Open Scope Z_scope.

(** [AuthError(status_code, detail)], or another exception. *)
Inductive auth_exc :=
| AuthError (status_code : Z) (detail : string)
| Raised (e : pyexc).

Definition auth (A : Type) : Type := A + auth_exc.

Definition bind_auth {A B : Type} (r : auth A) (f : A -> auth B) : auth B :=
  match r with inl a => f a | inr e => inr e end.
Notation "'let?' x ':=' r 'in' k" := (bind_auth r (fun x => k))
  (at level 10, x pattern, r at level 200, k at level 200) : py_scope.

Definition lift_res {A : Type} (r : res A) : auth A := match r with Ok a => inl a | Err e => inr (Raised e) end.

(** ** Settings and claims *)

Record JWTSettings := { jwt_secret : option string; jwks_url : option string }.

Definition given (o : option string) : bool :=
  match o with Some s => negb (String.eqb s "") | None => false end.

Definition enabled (s : JWTSettings) : bool := given (jwt_secret s) || given (jwks_url s).

Definition no_jwt : JWTSettings := {| jwt_secret := None; jwks_url := None |}.

Record TokenClaims := { sub : string; roles : list string; exp : Z; iat : Z }.

Definition anonymous : TokenClaims := {| sub := "anonymous"; roles := []; exp := 0; iat := 0 |}.

(** ** The cache of [_fetch_jwks] *)

(** For each URL its key set and the time it was fetched at. *)
Definition JwksCache : Type := list (string * (dict * float)).

Definition _JWKS_CACHE_TTL_SECONDS : Z := 300.

Definition fresh (url : string) (now : float) (cache : JwksCache) : option dict :=
  match dlookup url cache with
  | Some (data, fetched_at) =>
      match cmp_float_Z (fsub now fetched_at) _JWKS_CACHE_TTL_SECONDS with Some Lt => Some data | _ => None end
  | None => None
  end.

(** What the outside gives to [_fetch_jwks]: the clock at its three readings, the
    answer of the URL, and the entry another thread wrote during the request. *)
Record Fetch := { f_times : float * float * float; f_answer : res dict; f_raced : option (dict * float) }.

Definition _fetch_jwks (url : string) (o : Fetch) (cache : JwksCache) : JwksCache * res dict :=
  let '(t0, t1, t2) := f_times o in
  match fresh url t0 cache with
  | Some data => (cache, Ok data)
  | None =>
      match f_answer o with
      | Err e => (cache, Err e)
      | Ok data =>
          let cache := match f_raced o with Some entry => dset url entry cache | None => cache end in
          match fresh url t1 cache with
          | Some raced => (cache, Ok raced)
          | None => (dset url (data, t2) cache, Ok data)
          end
      end
  end.

(** ** [verify_token] *)

Inductive jwt_exc :=
| ExpiredSignatureError
| InvalidTokenError (msg : string)
| OtherError (e : pyexc).

(** What [auth.py] uses of [pyjwt]: [decode] with a shared secret or a public key
    and the accepted algorithms, [PyJWKSet] (the [key_id] and the key of each
    entry), [get_unverified_header]. *)
Record Pyjwt (Key : Type) := {
  decode : string -> string + Key -> list string -> dict + jwt_exc;
  PyJWKSet : pyval -> list (option string * Key) + pyexc;
  get_unverified_header : string -> dict + jwt_exc }.
Arguments decode {Key} _ _ _ _.
Arguments PyJWKSet {Key} _ _.
Arguments get_unverified_header {Key} _ _.

Section Verify.
Context {Key : Type} (pyjwt : Pyjwt Key).

(** [except _JWTExpiredSignatureError ... except _JWTInvalidTokenError]. *)
Definition jwt_result {A : Type} (r : A + jwt_exc) : auth A :=
  match r with
  | inl a => inl a
  | inr ExpiredSignatureError => inr (AuthError 401 "token_expired")
  | inr (InvalidTokenError msg) => inr (AuthError 401 ("invalid_token: " ++ msg))
  | inr (OtherError e) => inr (Raised e)
  end.

(** The first key whose id is [kid] (any key when the token names none). *)
Definition signing_key (kid : pyval) (keys : list (option string * Key)) : option Key :=
  let id_is k := match fst k with Some id => py_eq (PStr id) kid | None => false end in
  match List.find (fun k => is_none kid || id_is k) keys with Some k => Some (snd k) | None => None end.

(** The payload of the token. *)
Definition token_payload (token : string) (s : JWTSettings) (o : Fetch) (cache : JwksCache) : JwksCache * auth dict :=
  match jwt_secret s, jwks_url s with
  | Some (String _ _ as secret), _ => (cache, jwt_result (decode pyjwt token (inl secret) ["HS256"]))
  | _, Some (String _ _ as url) =>
      let '(cache, fetched) := _fetch_jwks url o cache in
      (cache,
       let? data := lift_res fetched in
       let? keys := match PyJWKSet pyjwt (dget data "keys" (PList [])) with inl l => inl l | inr e => inr (Raised e) end in
       let? header := jwt_result (get_unverified_header pyjwt token) in
       match signing_key (dget header "kid" PNone) keys with
       | None => inr (AuthError 401 "jwks_key_not_found")
       | Some key => jwt_result (decode pyjwt token (inr key) ["RS256"])
       end)
  | _, _ => (cache, inr (AuthError 401 "auth_not_configured"))
  end.

Definition is_number (v : pyval) : bool := match v with PInt _ | PBool _ | PFloat _ => true | _ => false end.

Definition role_names (v : pyval) : list string :=
  match v with PList l => omap (fun r => match r with PStr s => Some s | _ => None end) l | _ => [] end.

Definition claims_of (payload : dict) : auth TokenClaims :=
  let sub := str_strip (dget payload "sub" (PStr "")) in
  if String.eqb sub "" then inr (AuthError 401 "missing_sub_claim")
  else
    let roles := role_names (dget payload "roles" (PList [])) in
    let exp_raw := dget payload "exp" PNone in
    let iat_raw := dget payload "iat" PNone in
    if negb (is_number exp_raw) then inr (AuthError 401 "missing_exp_claim")
    else if negb (is_number iat_raw) then inr (AuthError 401 "missing_iat_claim")
    else
      let? exp := lift_res (py_int exp_raw) in
      let? iat := lift_res (py_int iat_raw) in
      inl {| sub := sub; roles := roles; exp := exp; iat := iat |}.

Definition verify_token (token : string) (s : JWTSettings) (o : Fetch) (cache : JwksCache) : JwksCache * auth TokenClaims :=
  if negb (enabled s) then (cache, inr (AuthError 401 "auth_not_configured"))
  else
    let '(cache, payload) := token_payload token s o cache in
    (cache, let? payload := payload in claims_of payload).

(** ** Helpers of the handler *)

Definition _extract_bearer_token (authorization : option string) : auth string :=
  match authorization with
  | None | Some EmptyString => inr (AuthError 401 "missing_authorization_header")
  | Some header =>
      match cut " " header with
      | Some (kind, token) =>
          if negb (String.eqb (lower kind) "bearer") || String.eqb (strip token) ""
          then inr (AuthError 401 "invalid_authorization_header")
          else inl (strip token)
      | None => inr (AuthError 401 "invalid_authorization_header")
      end
  end.

Definition has_role (claims : TokenClaims) (required : list string) : bool :=
  existsb (fun r => str_in r (roles claims)) required.

Definition _check_roles (claims : TokenClaims) (required : list string) : auth unit :=
  match required with
  | [] => inl tt
  | _ => if has_role claims required then inl tt
         else inr (AuthError 403 ("insufficient_roles: need one of " ++ repr (PList (List.map PStr required))))
  end.

Definition authorize_stdlib (authorization : option string) (s : JWTSettings) (required_roles : list string)
    (o : Fetch) (cache : JwksCache) : JwksCache * auth TokenClaims :=
  if negb (enabled s) then (cache, inl anonymous)
  else
    match _extract_bearer_token authorization with
    | inr e => (cache, inr e)
    | inl token =>
        let '(cache, verified) := verify_token token s o cache in
        (cache, let? claims := verified in let? _ := _check_roles claims required_roles in inl claims)
    end.
End Verify.

(** ** The roles a route requires *)

Definition _OPEN : list string := [].
Definition _REQUIRE_AUTH : list string := ["viewer"; "operator"; "admin"].
Definition _READERS : list string := ["viewer"; "operator"; "admin"].
Definition _OPERATORS : list string := ["operator"; "admin"].
Definition _ADMINS : list string := ["admin"].

(** [path_parts[-1] in names]. *)
Definition last_in (names : list string) (path_parts : list string) : bool :=
  match rev path_parts with last :: _ => str_in last names | [] => false end.

Definition three_or_more (path_parts : list string) : bool :=
  match path_parts with _ :: _ :: _ :: _ => true | _ => false end.

Definition run_routes : list string := ["/v1/runs"; "/runs"; "/runs/"].

Definition _route_policy (route method : string) (path_parts : list string) (jwt_enabled : bool) : list string :=
  let GET := String.eqb method "GET" in
  let POST := String.eqb method "POST" in
  let parts p := p path_parts in
  if String.eqb route "/healthz" then _OPEN
  else if str_in route ["/"; "/ui"] then _OPEN
  else if String.eqb route "/metrics" then if jwt_enabled then _ADMINS else _OPEN
  else if parts (fun p => match p with x :: _ => String.eqb x "app" | _ => false end) then _OPEN
  else if String.eqb method "DELETE" && parts (fun p => match p with [x; _] => String.eqb x "runs" | _ => false end) then _ADMINS
  else if String.eqb method "DELETE" &&
          parts (fun p => match p with [x; y; _; _] => String.eqb x "v1" && String.eqb y "runs" | _ => false end) then _ADMINS
  else if POST && str_in route run_routes then _OPERATORS
  else if GET && str_in route run_routes then _READERS
  else if String.eqb route "/runs/search" && GET then _READERS
  else if GET && parts (fun p => match p with [x; y; _] => String.eqb x "v1" && String.eqb y "runs" | _ => false end) then _READERS
  else if GET && parts (fun p => match p with [x; _] => String.eqb x "runs" | _ => false end) then _READERS
  else if GET && parts (fun p => match p with [x; _; z] => String.eqb x "runs" && String.eqb z "stream" | _ => false end) then _READERS
  else if three_or_more path_parts && last_in ["logs"; "cancel"] path_parts then _READERS
  else if POST && last_in ["approve"; "reject"] path_parts then _OPERATORS
  else if POST && parts (fun p => match p with [x; _; z] => String.eqb x "runs" && String.eqb z "vote" | _ => false end) then _OPERATORS
  else if parts (fun p => match p with [x; _; z] => String.eqb x "runs" && str_in z ["approval-policy"; "approval_policy"] | _ => false end)
       then _ADMINS
  else _REQUIRE_AUTH.
