(* ===== verification/Healing.v ===== *)
(** * The healing loop: [healing_loop.py] and its control in [api/service.py]

    A loop polls the test suite of a repository; a failing run makes a job, which is
    dispatched to a graph runner.  Jobs are objects shared by the history and the
    queue: the queue holds their positions in the history.  The loop is a coroutine:
    [advance] is what it does between two of its awaits, [CancelTask] the cancellation
    of its task. *)
From Stdlib Require Import ZArith Lia String Ascii List Bool.
From stdpp Require Import base tactics list strings option relations.
From S2P Require Import Prelude PyStr PyFloat PyVal Json Url.
Local Open Scope string_scope.
Local Open Scope Z_scope.

(** ** The test command *)

(** The states of [shlex.split]: between words, in a word, in a quotation, after an
    escape (in a word or in a quotation). *)
Inductive ShlexState := Between | InWord | InQuote (q : ascii) | Escaped (quotation : option ascii).

Definition is_quote (c : ascii) : bool := (ord c =? 34) || (ord c =? 39).
Definition is_escape (c : ascii) : bool := ord c =? 92.
Definition shell_space (c : ascii) : bool := (ord c =? 32) || (ord c =? 9) || (ord c =? 13) || (ord c =? 10).

(** [word] is the current word, reversed. *)
Fixpoint shlex (st : ShlexState) (word : list ascii) (s : string) : res (list string) :=
  let text := string_of_list_ascii (rev word) in
  match s, st with
  | EmptyString, Between => Ok []
  | EmptyString, InWord => Ok [text]
  | EmptyString, InQuote _ => Err (ValueError "No closing quotation")
  | EmptyString, Escaped _ => Err (ValueError "No escaped character")
  | String c r, (Between | InWord) =>
      if shell_space c then
        match st with
        | InWord => let! rest := shlex Between [] r in Ok (text :: rest)
        | _ => shlex Between [] r
        end
      else if is_escape c then shlex (Escaped None) word r
      else if is_quote c then shlex (InQuote c) word r
      else shlex InWord (c :: word) r
  | String c r, InQuote q =>
      if Ascii.eqb c q then shlex InWord word r
      else if is_escape c && (ord q =? 34) then shlex (Escaped (Some q)) word r
      else shlex (InQuote q) (c :: word) r
  | String c r, Escaped None => shlex InWord (c :: word) r
  | String c r, Escaped (Some q) =>
      shlex (InQuote q) (if is_escape c || Ascii.eqb c q then c :: word else c :: chr 92 :: word) r
  end.

Definition shlex_split (s : string) : res (list string) := shlex Between [] s.

(** [os.path.basename]: the text after the last slash. *)
Definition basename (path : string) : string := List.last (split_char "/" path) "".

Definition _ALLOWED_TEST_COMMANDS : list string := ["pytest"; "python"; "uv"; "npm"; "yarn"; "cargo"; "make"; "go"].

Definition _validate_test_command (cmd : string) : bool :=
  match shlex_split cmd with
  | Ok (binary :: _) => str_in (basename binary) _ALLOWED_TEST_COMMANDS
  | _ => false
  end.

(** [exists] says which files the root has; [package] is the text of [package.json]. *)
Definition detect_test_runner (has : string -> bool) (package : res string) : res string :=
  if has "Cargo.toml" then Ok "cargo test --all"
  else if has "package.json" then
    try_except
      (let! text := package in
       let! pkg := json_loads text in
       let! scripts := get pkg "scripts" (PDict []) in
       match scripts with
       | PDict _ | PList _ | PStr _ => Ok "npm test"
       | _ => Err (TypeError ("argument of type '" ++ type_name scripts ++ "' is not iterable"))
       end)
      (fun e => match e with OSError _ => true | _ => is_json_error e end)
      (fun _ => Ok "npm test")
  else if has "go.mod" then Ok "go test ./..."
  else if has "pyproject.toml" || has "pytest.ini" || has "setup.cfg" then Ok "python -m pytest"
  else if has "Makefile" then Ok "make test"
  else Ok "python -m pytest".

(** ** The report of a test run *)

(** The longest prefix of characters of [p], and the rest. *)
Definition span (p : ascii -> bool) (s : string) : string * string := span_until (fun c => negb (p c)) s.

(** The first match of [(\d+)\s+word]: the digits. *)
Fixpoint first_count (word s : string) : option string :=
  match s with
  | EmptyString => None
  | String c r =>
      if is_digit c then
        let '(digits, t) := span is_digit s in
        let '(blank, t) := span is_space t in
        if negb (String.eqb blank "") && startswith t word then Some digits else first_count word r
      else first_count word r
  end.

Definition count_of (word output : string) : res Z :=
  match first_count word output with None => Ok 0 | Some digits => py_int (PStr digits) end.

(** [_FAILED_LINE_RE.findall]; [bol]: at the beginning of a line. *)
Fixpoint failed_lines (fuel : nat) (bol : bool) (s : string) : list string :=
  match fuel, s with
  | S fuel, String c r =>
      let skip := failed_lines fuel (ord c =? 10) r in
      if bol && startswith s "FAILED" then
        let '(blank, t) := span is_space (str_drop 6 s) in
        let '(name, t) := span (fun c => negb (is_space c)) t in
        if negb (String.eqb blank "") && negb (String.eqb name "") then name :: failed_lines fuel false t else skip
      else skip
  | _, _ => []
  end.

Record TestSuiteResult := {
  run_id : string; ts_repo : string; passed : Z; failed : Z; errors : Z;
  failed_tests : list string; output : string; timestamp : float }.

(** [exec]: the output and the exit code of the subprocess, or its exception. *)
Definition poll_once (cmd repo id : string) (now : float) (exec : list string -> string + string * Z) : res TestSuiteResult :=
  let result p f e names out :=
    {| run_id := id; ts_repo := repo; passed := p; failed := f; errors := e; failed_tests := names; output := out; timestamp := now |} in
  if negb (_validate_test_command cmd) then Ok (result 0 0 1 [] ("Blocked unsafe test command: " ++ cmd))
  else
    let! parts := shlex_split cmd in
    let '(raw, code) := match exec parts with inl exc => (exc, 2) | inr oc => oc end in
    let! p := count_of "passed" raw in
    let! f := count_of "failed" raw in
    let! e := count_of "error" raw in
    let e := if (code =? 2) && (e =? 0) && (f =? 0) then 1 else e in
    Ok (result p f e (failed_lines (String.length raw) true raw) (str_prefix raw 4000)).

(** ** Jobs *)

Inductive JobStatus := Queued | Running | Healed | Failed | Skipped.
#[export] Instance JobStatus_eq_dec : EqDecision JobStatus.
Proof. solve_decision. Defined.

Record HealingJob := {
  job_id : string; repo_path : string; failing_tests : list string; priority : Z; created_at : float; status : JobStatus }.

Definition set_status (st : JobStatus) (j : HealingJob) : HealingJob :=
  {| job_id := job_id j; repo_path := repo_path j; failing_tests := failing_tests j; priority := priority j;
     created_at := created_at j; status := st |}.

Record HealingLoop := {
  _repo_path : string; _poll_interval : float; _max_concurrent_jobs : nat; has_runner : bool;
  test_runner_cmd : string; _job_history : list HealingJob; _pending_jobs : list nat }.

(** [HealingLoop(...)]; [detected] is the answer of [detect_test_runner]. *)
Definition new_loop (repo : string) (interval : float) (max_jobs : nat) (runner : bool) (test_runner : option string)
    (detected : res string) : res HealingLoop :=
  let! cmd := match test_runner with Some cmd => Ok cmd | None => detected end in
  Ok {| _repo_path := repo; _poll_interval := interval; _max_concurrent_jobs := max_jobs; has_runner := runner;
        test_runner_cmd := cmd; _job_history := []; _pending_jobs := [] |}.

Definition set_jobs (history : list HealingJob) (pending : list nat) (l : HealingLoop) : HealingLoop :=
  {| _repo_path := _repo_path l; _poll_interval := _poll_interval l; _max_concurrent_jobs := _max_concurrent_jobs l;
     has_runner := has_runner l; test_runner_cmd := test_runner_cmd l; _job_history := history; _pending_jobs := pending |}.

(** The job of a failing run, in the history and in the queue. *)
Definition enqueue (r : TestSuiteResult) (id : string) (now : float) (l : HealingLoop) : HealingLoop :=
  let job := {| job_id := id; repo_path := _repo_path l; failing_tests := failed_tests r; priority := 1;
                created_at := now; status := Queued |} in
  set_jobs (_job_history l ++ [job]) (_pending_jobs l ++ [length (_job_history l)]) l.

Definition mark (st : JobStatus) (i : nat) (l : HealingLoop) : HealingLoop :=
  set_jobs (alter (set_status st) i (_job_history l)) (_pending_jobs l) l.

Definition next_batch (l : HealingLoop) : list nat := firstn (_max_concurrent_jobs l) (_pending_jobs l).

(** [_dispatch_pending_jobs] up to the start of the jobs. *)
Definition dispatch (l : HealingLoop) : HealingLoop :=
  fold_right (mark Running) (set_jobs (_job_history l) (skipn (_max_concurrent_jobs l) (_pending_jobs l)) l) (next_batch l).

(** What the graph runner answers: the state of the run, or an exception. *)
Definition healed_by (answer : res pyval) : JobStatus :=
  match answer with
  | Ok (PDict result) =>
      match dget result "verification" (PDict []) with
      | PDict verification => if truthy (dget verification "ok" (PBool false)) then Healed else Failed
      | _ => Failed
      end
  | _ => Failed
  end.

Definition _run_job (l : HealingLoop) (answer : res pyval) : JobStatus :=
  if has_runner l then healed_by answer else Skipped.

(** ** The loop *)

Inductive Phase :=
| Polling | Dispatching | Healing (batch : list nat) | Sleeping
| Cancelled | Crashed (e : pyexc).

Record LoopState := { loop : HealingLoop; phase : Phase }.

Inductive LoopEvent :=
| Polled (id : string) (t : float) (exec : list string -> string + string * Z) (job : string) (now : float)
| Dispatch | JobEnds (i : nat) (answer : res pyval) | Slept | CancelTask.

(** The jobs of a batch run concurrently; the loop waits for all of them. *)
Definition after_batch (batch : list nat) : Phase := match batch with [] => Sleeping | _ => Healing batch end.

Definition advance (ev : LoopEvent) (s : LoopState) : option LoopState :=
  let l := loop s in
  match phase s, ev with
  | Polling, Polled id t exec job now =>
      match poll_once (test_runner_cmd l) (_repo_path l) id t exec with
      | Ok r => Some {| loop := if 0 <? failed r then enqueue r job now l else l; phase := Dispatching |}
      | Err e => Some {| loop := l; phase := Crashed e |}
      end
  | Dispatching, Dispatch => Some {| loop := dispatch l; phase := after_batch (next_batch l) |}
  | Healing batch, JobEnds i answer =>
      if decide (i ∈ batch) then
        Some {| loop := mark (_run_job l answer) i l; phase := after_batch (List.filter (fun j => negb (Nat.eqb j i)) batch) |}
      else None
  | Sleeping, Slept => Some {| loop := l; phase := Polling |}
  | (Polling | Healing _ | Sleeping), CancelTask => Some {| loop := l; phase := Cancelled |}
  | _, _ => None
  end.

Definition lstep (s s' : LoopState) : Prop := exists ev, advance ev s = Some s'.

Definition idle (l : HealingLoop) : LoopState := {| loop := l; phase := Polling |}.

Fixpoint advances (evs : list LoopEvent) (s : LoopState) : option LoopState :=
  match evs with
  | [] => Some s
  | ev :: rest => match advance ev s with Some s' => advances rest s' | None => None end
  end.

(** ** The control of the loops: [api/service.py] *)

(** Each loop has a thread.  Its task is created and registered by that thread, and
    the loop object is registered before the thread starts. *)
Record LoopThread := { lt_id : string; lt_state : LoopState; lt_registered : bool; lt_cancelled : bool }.

Record Loops := {
  _healing_loops : list (string * nat); _healing_tasks : list (string * nat); lo_threads : list LoopThread }.

Definition no_loops : Loops := {| _healing_loops := []; _healing_tasks := []; lo_threads := [] |}.

(** [start_healing_loop]: [id] is the new [loop_id]. *)
Definition start_healing_loop (id repo : string) (interval : float) (detected : res string) (h : Loops) : Loops * res pyval :=
  match new_loop repo interval 2 false None detected with
  | Err e => (h, Err e)
  | Ok l =>
      ({| _healing_loops := dset id (length (lo_threads h)) (_healing_loops h); _healing_tasks := _healing_tasks h;
          lo_threads := lo_threads h ++ [{| lt_id := id; lt_state := idle l; lt_registered := false; lt_cancelled := false |}] |},
       Ok (PDict [("loop_id", PStr id); ("status", PStr "started")]))
  end.

(** The thread of the loop [i] creates its task and registers it. *)
Definition register_task (id : string) (i : nat) (h : Loops) : Loops :=
  {| _healing_loops := _healing_loops h; _healing_tasks := dset id i (_healing_tasks h);
     lo_threads := alter (fun t => {| lt_id := lt_id t; lt_state := lt_state t; lt_registered := true; lt_cancelled := lt_cancelled t |}) i (lo_threads h) |}.

(** The first critical section of [stop_healing_loop], and [task.cancel()]. *)
Definition stop_read (id : string) (h : Loops) : Loops * bool :=
  match dlookup id (_healing_loops h) with
  | None => (h, false)
  | Some _ =>
      match dlookup id (_healing_tasks h) with
      | None => (h, true)
      | Some i =>
          ({| _healing_loops := _healing_loops h; _healing_tasks := _healing_tasks h;
              lo_threads := alter (fun t => {| lt_id := lt_id t; lt_state := lt_state t; lt_registered := lt_registered t; lt_cancelled := true |}) i (lo_threads h) |},
           true)
      end
  end.

(** The second one. *)
Definition stop_forget (id : string) (h : Loops) : Loops :=
  {| _healing_loops := ddel id (_healing_loops h); _healing_tasks := ddel id (_healing_tasks h); lo_threads := lo_threads h |}.

Definition stopped_payload (id : string) : pyval := PDict [("loop_id", PStr id); ("status", PStr "stopped")].

(** [stop_healing_loop] when no thread interferes. *)
Definition stop_healing_loop (id : string) (h : Loops) : Loops * pyval :=
  let '(h, found) := stop_read id h in
  if found then (stop_forget id h, stopped_payload id) else (h, PNone).

Definition status_text (st : JobStatus) : string :=
  match st with Queued => "queued" | Running => "running" | Healed => "healed" | Failed => "failed" | Skipped => "skipped" end.

Definition _job_dict (j : HealingJob) : pyval :=
  PDict [("job_id", PStr (job_id j)); ("repo_path", PStr (repo_path j));
         ("failing_tests", PList (List.map PStr (failing_tests j))); ("priority", PInt (priority j));
         ("created_at", PFloat (created_at j)); ("status", PStr (status_text (status j)))].

Definition get_healing_jobs (id : string) (h : Loops) : pyval :=
  match dlookup id (_healing_loops h) with
  | None => PNone
  | Some i =>
      match lo_threads h !! i with
      | Some t => PDict [("jobs", PList (List.map _job_dict (_job_history (loop (lt_state t)))))]
      | None => PNone
      end
  end.

(** A step of the loops: a thread registers its task; a running loop advances, or is
    cancelled when its task was asked to. *)
Inductive loops_step : Loops -> Loops -> Prop :=
| loops_register i t h : lo_threads h !! i = Some t -> lt_registered t = false ->
    loops_step h (register_task (lt_id t) i h)
| loops_advance i t ev s h : lo_threads h !! i = Some t -> lt_registered t = true ->
    (ev = CancelTask -> lt_cancelled t = true) -> advance ev (lt_state t) = Some s ->
    loops_step h {| _healing_loops := _healing_loops h; _healing_tasks := _healing_tasks h;
                    lo_threads := <[i := {| lt_id := lt_id t; lt_state := s; lt_registered := true; lt_cancelled := lt_cancelled t |}]> (lo_threads h) |}.

(** ** What a loop does with its jobs *)

Definition ended (j : HealingJob) : bool := match status j with Queued | Running => false | _ => true end.

(** The jobs that are not ended. *)
Definition active (l : HealingLoop) : list HealingJob := List.filter (fun j => negb (ended j)) (_job_history l).

(** All jobs ended but perhaps the last one, which has the status [st]. *)
Definition all_ended (l : HealingLoop) : Prop := _pending_jobs l = [] /\ forallb ended (_job_history l) = true.
Definition all_but_last (st : JobStatus) (pending : nat -> list nat) (l : HealingLoop) : Prop :=
  exists h j, _job_history l = (h ++ [j])%list /\ forallb ended h = true /\ status j = st /\ _pending_jobs l = pending (length h).

Definition one (i : nat) : list nat := [i].
Definition no_more (i : nat) : list nat := [].

(** The state of the jobs in each phase. *)
Inductive tidy : LoopState -> Prop :=
| tidy_rest l ph : all_ended l -> (forall batch, ph <> Healing batch) -> tidy {| loop := l; phase := ph |}
| tidy_queued l : all_but_last Queued one l -> tidy {| loop := l; phase := Dispatching |}
| tidy_running l h : all_but_last Running no_more l -> h = length (_job_history l) -> tidy {| loop := l; phase := Healing [(h - 1)%nat] |}
| tidy_stopped l : all_but_last Running no_more l -> tidy {| loop := l; phase := Cancelled |}.

Lemma mark_last st l h j : _job_history l = (h ++ [j])%list ->
  _job_history (mark st (length h) l) = (h ++ [set_status st j])%list.
Proof. intros E. cbn. rewrite E. rewrite <- (Nat.add_0_r (length h)). by rewrite alter_app_r. Qed.

Lemma active_ended l : forallb ended l = true -> List.filter (fun j => negb (ended j)) l = [].
Proof. induction l as [|j l IH]; cbn; [done|]. intros [-> H]%andb_true_iff. by apply IH. Qed.

Lemma dispatch_nothing l : _pending_jobs l = [] -> next_batch l = [] /\ all_ended (dispatch l) = all_ended l.
Proof. intros H. unfold all_ended, dispatch, next_batch. by rewrite H, firstn_nil, skipn_nil. Qed.

Lemma dispatch_queued m l : _max_concurrent_jobs l = S m -> all_but_last Queued one l ->
  exists h, next_batch l = [h] /\ S h = length (_job_history (dispatch l)) /\ all_but_last Running no_more (dispatch l).
Proof.
  intros Hm (h & j & E & Hh & Hj & Hp). exists (length h). unfold dispatch, next_batch. rewrite Hm, Hp.
  assert (E1 : firstn (S m) [length h] = [length h] /\ skipn (S m) [length h] = []) by (by destruct m).
  destruct E1 as [E1 E2]. unfold one. rewrite E1, E2. cbn [fold_right]. split; [done|].
  assert (E' : _job_history (mark Running (length h) (set_jobs (_job_history l) [] l)) = (h ++ [set_status Running j])%list) by (by apply mark_last).
  split; [rewrite E', length_app; cbn; lia|]. by exists h, (set_status Running j).
Qed.

Lemma ended_run_job l answer : ended (set_status (_run_job l answer) {| job_id := ""; repo_path := ""; failing_tests := []; priority := 0; created_at := fzero; status := Queued |}) = true.
Proof.
  unfold _run_job, healed_by. destruct (has_runner l); [|done]. destruct answer as [[]|]; try done.
  destruct (dget _ _ _); try done. by destruct (truthy _).
Qed.

Lemma advance_keeps_runner ev s s' : advance ev s = Some s' ->
  has_runner (loop s') = has_runner (loop s) /\ _max_concurrent_jobs (loop s') = _max_concurrent_jobs (loop s).
Proof.
  assert (Hfold : forall ids l, has_runner (fold_right (mark Running) l ids) = has_runner l /\
    _max_concurrent_jobs (fold_right (mark Running) l ids) = _max_concurrent_jobs l) by (induction ids; cbn; auto).
  destruct s as [l []], ev; cbn; try done; try (intros [= <-]; done).
  - destruct (poll_once _ _ _ _ _) as [r|e]; intros [= <-]; [|done]. cbn. by destruct (0 <? failed r).
  - intros [= <-]. exact (Hfold (next_batch l) (set_jobs (_job_history l) (skipn (_max_concurrent_jobs l) (_pending_jobs l)) l)).
  - destruct (decide _); [|done]. by intros [= <-].
Qed.

Lemma tidy_step m ev s s' : _max_concurrent_jobs (loop s) = S m -> tidy s -> advance ev s = Some s' -> tidy s'.
Proof.
  intros Hm Ht. destruct Ht as [l ph [Hp Hh] Hnb|l Hq|l h Hr ->|l Hr]; cbn [loop] in Hm.
  - destruct ph, ev; cbn; try done; try (by destruct (Hnb batch)).
    + destruct (poll_once _ _ _ _ _) as [r|e]; intros [= <-]; [|by constructor].
      destruct (0 <? failed r); [|by constructor]. apply tidy_queued. eexists _, _. split; [reflexivity|].
      split; [done|]. split; [done|]. cbn. by rewrite Hp.
    + intros [= <-]. by constructor.
    + destruct (dispatch_nothing l Hp) as [E1 E2]. rewrite E1. intros [= <-]. constructor; [|done]. rewrite E2. by split.
    + intros [= <-]. by constructor.
    + intros [= <-]. by constructor.
  - destruct ev; cbn; try done. intros [= <-]. destruct (dispatch_queued m l Hm Hq) as (h & -> & Hl & Hr). cbn [after_batch].
    replace h with (length (_job_history (dispatch l)) - 1)%nat by lia. by apply tidy_running.
  - destruct ev; cbn; try done; [|intros [= <-]; by apply tidy_stopped].
    destruct (decide _) as [Hi|]; [|done]. apply list_elem_of_singleton in Hi as ->. rewrite Nat.eqb_refl. cbn. intros [= <-].
    destruct Hr as (h & j & E & Hh & Hj & Hp). constructor; [|done]. split; [exact Hp|]. rewrite E, length_app.
    replace (length h + length [j] - 1)%nat with (length h) by (cbn; lia). rewrite (mark_last _ _ h j E), forallb_app, Hh. cbn [forallb].
    rewrite andb_true_r. exact (ended_run_job l answer).
  - by destruct ev.
Qed.

Lemma tidy_reachable m l s : _max_concurrent_jobs l = S m -> all_ended l -> rtc lstep (idle l) s -> tidy s.
Proof.
  intros Hm Hl H. assert (Hinv : tidy s /\ _max_concurrent_jobs (loop s) = S m); [|apply Hinv].
  refine (rtc_ind_r (fun s => tidy s /\ _max_concurrent_jobs (loop s) = S m) (idle l) _ _ s H).
  - split; [by constructor|done].
  - intros y z _ [ev Hz] [Hy Em]. split; [by eapply tidy_step|]. by rewrite (proj2 (advance_keeps_runner _ _ _ Hz)).
Qed.

Lemma tidy_active s : tidy s -> (length (active (loop s)) <= 1)%nat.
Proof.
  assert (Hlast : forall st p l, all_but_last st p l -> (length (active l) <= 1)%nat).
  { intros st p l (h & j & E & Hh & _). unfold active. rewrite E, List.filter_app, active_ended by done. cbn. destruct (negb _); cbn; lia. }
  destruct 1 as [l ph [_ Hh] _|l Hq|l h Hr _|l Hr]; cbn [loop]; [|by eapply Hlast..].
  unfold active. rewrite active_ended by done. cbn. lia.
Qed.

(** Without a graph runner no job is healed, or fails. *)
Definition unattempted (j : HealingJob) : Prop := In (status j) [Queued; Running; Skipped].

Lemma mark_unattempted st i l :
  In st [Queued; Running; Skipped] -> Forall unattempted (_job_history l) -> Forall unattempted (_job_history (mark st i l)).
Proof. intros Hs H. cbn. apply Forall_alter; [done|]. by intros. Qed.

Lemma advance_unattempted ev s s' : has_runner (loop s) = false -> advance ev s = Some s' ->
  Forall unattempted (_job_history (loop s)) -> Forall unattempted (_job_history (loop s')).
Proof.
  destruct s as [l []], ev; cbn [loop advance phase]; intros Hr; try done; try (intros [= <-]; done).
  - destruct (poll_once _ _ _ _ _) as [r|e]; intros [= <-]; [|done]. cbn [loop]. destruct (0 <? failed r); [|done].
    intros H. cbn. apply Forall_app. split; [done|]. constructor; [by left|constructor].
  - intros [= <-] H. cbn [loop]. unfold dispatch. induction (next_batch l) as [|i ids IH]; [done|].
    cbn [fold_right]. apply mark_unattempted; [cbn; tauto|exact IH].
  - destruct (decide _); [|done]. intros [= <-] H. cbn [loop]. unfold _run_job. rewrite Hr. apply mark_unattempted; [cbn; tauto|done].
Qed.

(** C37: a healing loop works on one job at a time: whatever the test runs report and
    whenever the loop is cancelled, at most one job is queued or running, and none while
    the loop polls or sleeps (so its limit of concurrent jobs never binds); a loop without
    a graph runner, the only kind the service starts, never heals a job. *)
Theorem healing_one_at_a_time repo interval m runner cmd detected l s :
  new_loop repo interval (S m) runner cmd detected = Ok l -> rtc lstep (idle l) s ->
  (length (active (loop s)) <= 1)%nat /\
  (phase s = Polling \/ phase s = Sleeping -> active (loop s) = []) /\
  (runner = false -> Forall unattempted (_job_history (loop s))).
Proof.
  unfold new_loop. intros Hl H. destruct (match cmd with Some c => Ok c | None => detected end) as [c|e]; [|done]. injection Hl as <-.
  match type of H with rtc lstep (idle ?l) _ => assert (Ht : tidy s) by (apply (tidy_reachable m l); done) end.
  split; [by apply tidy_active|]. split.
  - intros Hp. destruct Ht as [l ph [_ Hh] _|l Hq|l h Hr _|l Hr]; cbn in Hp; try (by destruct Hp). cbn. by apply active_ended.
  - intros ->. match type of H with rtc lstep (idle ?l) _ =>
      refine (proj1 (rtc_ind_r (fun s => Forall unattempted (_job_history (loop s)) /\ has_runner (loop s) = false) (idle l) _ _ s H)) end.
    + split; [constructor|done].
    + intros y z _ [ev Hz] [Hy Er]. split; [by eapply advance_unattempted|]. by rewrite (proj1 (advance_keeps_runner _ _ _ Hz)).
Qed.

(** ** Concrete loops *)

Definition demo_loop : HealingLoop :=
  {| _repo_path := "/repo"; _poll_interval := float_of_Z 60; _max_concurrent_jobs := 2; has_runner := false;
     test_runner_cmd := "python -m pytest"; _job_history := []; _pending_jobs := [] |}.

Definition failing_run (parts : list string) : string + string * Z :=
  inr ("FAILED tests/test_a.py::test_x" ++ nl ++ "1 failed, 2 passed in 0.1s", 1).

Definition one_round : list LoopEvent :=
  [Polled "r" fzero failing_run "j" fzero; Dispatch; JobEnds 0 (Ok (PDict [("verification", PDict [("ok", PBool true)])])); Slept].

Lemma advances_rtc evs : forall s s', advances evs s = Some s' -> rtc lstep s s'.
Proof.
  induction evs as [|ev evs IH]; intros s s'; cbn; [by intros [= <-]|].
  destruct (advance ev s) as [s1|] eqn:E; [|done]. intros H. eapply rtc_l; [by exists ev|by apply IH].
Qed.

Lemma healing_one_at_a_time_witness :
  exists s, advances one_round (idle demo_loop) = Some s /\ List.map status (_job_history (loop s)) = [Skipped] /\
    Forall unattempted (_job_history (loop s)).
Proof.
  eexists. split; [vm_compute; reflexivity|]. split; [reflexivity|].
  refine (proj2 (proj2 (healing_one_at_a_time "/repo" (float_of_Z 60) 1 false None (Ok "python -m pytest") demo_loop _ eq_refl _)) eq_refl).
  apply (advances_rtc one_round). vm_compute. reflexivity.
Defined.

(** A loop stopped before its thread registered the task goes on, and no request finds it. *)
Definition stop_race : Loops :=
  let h := fst (start_healing_loop "l1" "/repo" (float_of_Z 60) (Ok "pytest") no_loops) in
  register_task "l1" 0 (stop_forget "l1" (fst (stop_read "l1" h))).

Example stopped_loop_runs_on :
  snd (stop_read "l1" stop_race) = false /\
  List.map (fun t => (lt_registered t, lt_cancelled t, phase (lt_state t))) (lo_threads stop_race) = [(true, false, Polling)].
Proof. split; reflexivity. Qed.

(** Commands are refused by the name of their program only. *)
Example interpreter_is_allowed :
  _validate_test_command "python -c pass" = true /\ _validate_test_command "/tmp/x/pytest" = true /\ _validate_test_command "rm -rf /" = false.
Proof. repeat split. Qed.
