(* ===== verification/Http.v ===== *)
(** * The HTTP front end: [remote_api.py], [api/admin.py], [audit.py], [spa/router.py]

    A request passes the front door ([dispatch]): authorisation, rate limits, JWT
    roles, then the handler of its route, which replies or asks the run service.  The
    objects of the front door are each behind their own lock and touched once by a
    request, so its passage is one step of the system ([hstep]); the call of the
    service is a thread of [Service], interleaved with all the others. *)
From Stdlib Require Import ZArith Lia String Ascii List Bool.
From stdpp Require Import base tactics list strings option relations.
From S2P Require Import Prelude PyStr StrFacts PyFloat PyVal Json Approval ApprovalTokens Memory RunRecord Service.
From S2P Require Import Url RateLimit Auth Healing.
Local Open Scope string_scope.
Local Open Scope Z_scope.

(** ** Requests and responses *)

(** What [BaseHTTPRequestHandler] gives: the body is [None] when empty, [Some None]
    when its bytes are not UTF-8. *)
Record HttpRequest := {
  rq_method : string; rq_target : string; rq_authorization : option string; rq_id : option string;
  rq_forwarded_for : option string; rq_forwarded_proto : option string; rq_peer : string; rq_body : option (option string) }.

(** A body: a payload before its encoding by [json.dumps], or a text. *)
Inductive Body := Json (v : pyval) | Text (s : string).
Record Response := { rs_status : Z; rs_type : string; rs_body : Body }.

Definition _JSON_CONTENT_TYPE : string := "application/json; charset=utf-8".
Definition json_response (status : Z) (v : pyval) : Response :=
  {| rs_status := status; rs_type := _JSON_CONTENT_TYPE; rs_body := Json v |}.
Definition _json_response (status : Z) (payload : dict) : Response := json_response status (PDict payload).
Definition failure (status : Z) (error : string) : Response := _json_response status [("error", PStr error)].
Definition method_not_allowed : Response := failure 405 "method_not_allowed".

(** [_non_empty_str] of a header. *)
Definition header (raw : option string) : option string :=
  match raw with Some s => _non_empty_str (PStr s) | None => None end.

Definition _request_id_from_value (raw : option string) (uuid : string) : string :=
  match header raw with Some value => value | None => uuid end.

(** The first element of a comma-separated list. *)
Definition first_of (s : string) : string :=
  strip (match cut "," s with Some (first, _) => first | None => s end).

Definition _request_client_ip (peer : string) (forwarded_for : option string) (trust_forwarded_headers : bool) : string :=
  match forwarded_for with
  | Some value => if trust_forwarded_headers && negb (String.eqb (first_of value) "") then first_of value else peer
  | None => peer
  end.

Definition _request_scheme (forwarded_proto : option string) (trust_forwarded_headers : bool) : string :=
  match forwarded_proto with
  | Some value => if trust_forwarded_headers && negb (String.eqb (first_of value) "") then lower (first_of value) else "http"
  | None => "http"
  end.

(** [urlsplit(target).path.rstrip("/") or "/"]. *)
Definition route_of (path : string) : string :=
  let route := rstrip_by (Ascii.eqb "/") path in if String.eqb route "" then "/" else route.

(** [[p for p in route.split("/") if p]]. *)
Definition path_parts (route : string) : list string :=
  List.filter (fun p => negb (String.eqb p "")) (split_char "/" route).

(** ** Bearer authentication *)

Record Server := {
  auth_mode : string; expected_bearer_token : option string; allow_unauthenticated_healthz : bool;
  jwt_settings : JWTSettings; trust_forwarded : bool }.

Definition _spa_exts : list string := [".js"; ".css"; ".wasm"; ".svg"; ".png"; ".ico"].

(** [hmac.compare_digest] refuses texts that are not ASCII. *)
Definition compare_digest (a b : string) : res bool :=
  if all_chars is_ascii a && all_chars is_ascii b then Ok (String.eqb a b)
  else Err (TypeError "comparing strings with non-ASCII characters is not supported").

(** The credentials: the [Authorization] header, or else [access_token] of the query. *)
Definition credentials (authorization : option string) (query : string) : res (option string) :=
  match header authorization with
  | Some value => Ok (Some value)
  | None =>
      let! fields := parse_qs query in
      Ok (match qs_get "access_token" fields with
          | v :: _ => if String.eqb (strip v) "" then None else Some ("Bearer " ++ strip v)
          | [] => None
          end)
  end.

(** The subject, or the error response. *)
Definition _authorize_request (srv : Server) (route query : string) (authorization : option string) : res (string + Response) :=
  if String.eqb route "/healthz" && allow_unauthenticated_healthz srv then Ok (inl "")
  else if String.eqb route "/metrics" then Ok (inl "")
  else if startswith route "/app" then Ok (inl "")
  else if existsb (endswith route) _spa_exts then Ok (inl "")
  else if String.eqb (auth_mode srv) "off" then Ok (inl "")
  else if negb (String.eqb (auth_mode srv) "bearer") then Ok (inr (failure 500 "unsupported_auth_mode"))
  else
    match expected_bearer_token srv with
    | None => Ok (inr (failure 503 "remote_api_auth_not_configured"))
    | Some expected =>
        let! auth := credentials authorization query in
        match auth with
        | None => Ok (inr (failure 401 "missing_bearer_token"))
        | Some auth =>
            if negb (String.eqb (lower (str_take 7 auth)) "bearer ") then Ok (inr (failure 401 "missing_bearer_token"))
            else
              let! same := compare_digest (strip (str_drop 7 auth)) expected in
              Ok (if same then inl "bearer" else inr (failure 403 "invalid_bearer_token"))
        end
    end.

(** ** The audit log *)

Record AuditEvent := {
  ae_ts : string; ae_subject : string; ae_roles : list string; ae_action : string; ae_resource_id : option string;
  ae_outcome : string; ae_detail : option string }.

Definition json_opt (o : option string) : string := match o with Some s => json_str s | None => "null" end.

(** [to_jsonl]: [json.dumps] without spaces; the line ends with a newline. *)
Definition to_jsonl (e : AuditEvent) : string :=
  let field k v := json_str k ++ ":" ++ v in
  "{" ++ join "," [field "ts" (json_str (ae_ts e)); field "subject" (json_str (ae_subject e));
                   field "roles" ("[" ++ join "," (List.map json_str (ae_roles e)) ++ "]");
                   field "action" (json_str (ae_action e)); field "resource_id" (json_opt (ae_resource_id e));
                   field "outcome" (json_str (ae_outcome e)); field "detail" (json_opt (ae_detail e))] ++ "}".

Definition _audit_action_and_resource (method route : string) (parts : list string) : string * option string :=
  let GET := String.eqb method "GET" in
  let POST := String.eqb method "POST" in
  let v1 a b := String.eqb a "v1" && String.eqb b "runs" in
  let runs a := String.eqb a "runs" in
  let decided z := str_in z ["approve"; "reject"] in
  if POST && str_in route run_routes then ("run.create", None)
  else if GET && str_in route run_routes then ("run.list", None)
  else if String.eqb route "/runs/search" && GET then ("run.search", None)
  else
    match parts with
    | [a; b] => if GET && runs a then ("run.read", Some b) else ("api.request", None)
    | [a; b; c] =>
        if GET && v1 a b then ("run.read", Some c)
        else if POST && runs a && String.eqb c "cancel" then ("run.cancel", Some b)
        else if POST && runs a && decided c then ("run.approve", Some b)
        else if str_in c ["logs"; "stream"] then ("run.read", Some b)
        else ("api.request", None)
    | [a; b; c; d] =>
        if v1 a b && String.eqb d "cancel" then ("run.cancel", Some c)
        else if v1 a b && decided d then ("run.approve", Some c)
        else if str_in d ["logs"; "stream"] then ("run.read", Some c)
        else ("api.request", None)
    | _ =>
        match rev parts with
        | last :: before :: _ :: _ => if str_in last ["logs"; "stream"] then ("run.read", Some before) else ("api.request", None)
        | _ => ("api.request", None)
        end
    end.

(** The state of the front door; [audit] is [None] while no logger is set. *)
Record Front := {
  limiter : option TokenBucket; clients : option RateLimiter; jwks : JwksCache; audit : option (list AuditEvent) }.

Definition set_limiter (b : TokenBucket) (f : Front) : Front :=
  {| limiter := Some b; clients := clients f; jwks := jwks f; audit := audit f |}.
Definition set_clients (r : RateLimiter) (f : Front) : Front :=
  {| limiter := limiter f; clients := Some r; jwks := jwks f; audit := audit f |}.
Definition set_jwks (c : JwksCache) (f : Front) : Front :=
  {| limiter := limiter f; clients := clients f; jwks := c; audit := audit f |}.

Definition log (e : AuditEvent) (f : Front) : Front :=
  {| limiter := limiter f; clients := clients f; jwks := jwks f; audit := option_map (fun l => l ++ [e])%list (audit f) |}.

Definition event (ts subject method route outcome : string) (detail : option string) : AuditEvent :=
  let '(action, resource) := _audit_action_and_resource method route (path_parts route) in
  {| ae_ts := ts; ae_subject := subject; ae_roles := []; ae_action := action; ae_resource_id := resource;
     ae_outcome := outcome; ae_detail := detail |}.

(** ** Handlers *)

(** What a handler asks of the service. *)
Inductive Call :=
| OnRun (q : Request)
| StartHealing (repo : string) (interval : float) | StopHealing (id : string) | HealingJobs (id : string).

(** A reply (or the exception of the handler), or a call and what its answer becomes. *)
Inductive Outcome :=
| Reply (r : res Response)
| Ask (c : Call) (k : res pyval -> res Response).

(** The request as the handlers see it. *)
Record Ctx := {
  c_method : string; c_query : string; c_body : option (option string); c_subject : string;
  c_parts : list string; c_request_id : string; c_ip : string }.

Definition Handler : Type := Ctx -> Outcome.

Definition reply (r : Response) : Outcome := Reply (Ok r).
Definition is_method (name : string) (c : Ctx) : bool := String.eqb (c_method c) name.
Definition part (n : nat) (c : Ctx) : string := nth n (c_parts c) "".

(** [json.loads((request_body or b'{}').decode('utf-8'))], which must be an object;
    [None] is the response [invalid_json]. *)
Definition read_object (c : Ctx) : res (option dict) :=
  let text := match c_body c with None => Some "{}" | Some t => t end in
  match text with
  | None => Ok None
  | Some t =>
      match json_loads t with
      | Ok (PDict d) => Ok (Some d)
      | Ok _ => Ok None
      | Err e => if is_json_error e then Ok None else Err e
      end
  end.

Definition invalid_json : Response := failure 400 "invalid_json".

Definition with_object (c : Ctx) (k : dict -> Outcome) : Outcome :=
  match read_object c with
  | Ok (Some d) => k d
  | Ok None => reply invalid_json
  | Err e => Reply (Err e)
  end.

Definition not_found (key id : string) : Response := _json_response 404 [("error", PStr "not_found"); (key, PStr id)].

(** [status] with the payload, or 404. *)
Definition found (status : Z) (key id : string) (answer : res pyval) : res Response :=
  let! v := answer in Ok (if is_none v then not_found key id else json_response status v).

(** [except ValueError]: 409. *)
Definition decided (id : string) (answer : res pyval) : res Response :=
  match answer with
  | Err e => if is_value_error e then Ok (_json_response 409 [("error", PStr (exc_str e)); ("run_id", PStr id)]) else Err e
  | Ok v => found 202 "run_id" id (Ok v)
  end.

Definition created (answer : res pyval) : res Response :=
  match answer with
  | Ok v => Ok (json_response 201 v)
  | Err (OSError m) => Ok (_json_response 500 [("error", PStr "launch_failed"); ("detail", PStr m)])
  | Err e => if is_value_error e
             then Ok (failure (if String.eqb (exc_str e) "duplicate_run_id" then 409 else 400) (exc_str e))
             else Err e
  end.

Definition _hdl_root_ui : Handler := fun c =>
  if negb (is_method "GET" c) then reply method_not_allowed
  else reply {| rs_status := 200; rs_type := "text/html; charset=utf-8";
                rs_body := Text ("<html><head><meta http-equiv=" ++ dq ++ "refresh" ++ dq ++ " content=" ++ dq ++ "0;url=/app/" ++ dq
                  ++ "></head><body>Redirecting to <a href=" ++ dq ++ "/app/" ++ dq ++ ">/app/</a></body></html>") |}.

Definition _hdl_healthz : Handler := fun c =>
  if negb (is_method "GET" c) then reply method_not_allowed else reply (_json_response 200 [("ok", PBool true)]).

Definition listed (answer : res pyval) : res Response :=
  let! v := answer in Ok (_json_response 200 [("runs", v)]).

Definition _hdl_v1_runs : Handler := fun c =>
  if is_method "GET" c then Ask (OnRun ListRuns) listed
  else if negb (is_method "POST" c) then reply method_not_allowed
  else with_object c (fun d => Ask (OnRun (Create d (c_request_id c) (c_subject c) (c_ip c))) created).

Definition _hdl_runs_list : Handler := fun c =>
  if negb (is_method "GET" c) then reply method_not_allowed else Ask (OnRun ListRuns) listed.

(** [max(1, min(200, int(limit)))], 50 when it is no integer. *)
Definition search_limit (raw : string) : Z :=
  match parse_int raw with Some z => Z.max 1 (Z.min 200 z) | None => 50 end.

Definition searched (answer : res pyval) : res Response :=
  let! v := answer in
  let! n := py_length v in
  Ok (_json_response 200 [("results", v); ("total", PInt n)]).

Definition _hdl_runs_search : Handler := fun c =>
  if negb (is_method "GET" c) then reply method_not_allowed
  else
    match parse_qs (c_query c) with
    | Err e => Reply (Err e)
    | Ok fields =>
        let q := match qs_get "q" fields with v :: _ => strip v | [] => "" end in
        if String.eqb q ""
        then reply (_json_response 422 [("error", PStr "missing_required_param"); ("param", PStr "q")])
        else
          let limit := match qs_get "limit" fields with v :: _ => search_limit v | [] => 50 end in
          Ask (OnRun (Search q limit)) searched
    end.

Definition _hdl_v1_run_logs : Handler := fun c =>
  if negb (is_method "GET" c) then reply method_not_allowed
  else Ask (OnRun (GetLogs (part 2 c))) (found 200 "run_id" (part 2 c)).

Definition _hdl_v1_run_cancel : Handler := fun c =>
  if negb (is_method "POST" c) then reply method_not_allowed
  else Ask (OnRun (Cancel (part 2 c))) (found 202 "run_id" (part 2 c)).

(** The decision named by the last part of the path. *)
Definition decision (name id : string) (d : dict) (subject : string) : Request :=
  if String.eqb name "approve" then Approve id d subject else Reject id d subject.

Definition _hdl_v1_run_approve_reject : Handler := fun c =>
  if negb (is_method "POST" c) then reply method_not_allowed
  else with_object c (fun d => Ask (OnRun (decision (part 3 c) (part 2 c) d (c_subject c))) (decided (part 2 c))).

(** The markers that make the caller open a stream. *)
Definition sse (status : Z) (kind id : string) : Response := {| rs_status := status; rs_type := kind; rs_body := Text id |}.

Definition _hdl_v1_run_stream : Handler := fun c => reply (sse (-1) "sse" (part 2 c)).

Definition _hdl_v1_run_get : Handler := fun c =>
  if negb (is_method "GET" c) then reply method_not_allowed
  else Ask (OnRun (GetRun (part 2 c))) (found 200 "run_id" (part 2 c)).

Definition _hdl_runs_stream : Handler := fun c =>
  Ask (OnRun (GetRun (part 1 c))) (fun answer =>
    let! v := answer in Ok (if is_none v then not_found "run_id" (part 1 c) else sse (-2) "sse_new" (part 1 c))).

Definition _hdl_runs_approve_reject : Handler := fun c =>
  with_object c (fun d => Ask (OnRun (decision (part 2 c) (part 1 c) d (c_subject c))) (decided (part 1 c))).

(** [list(v)], whose elements must be texts. *)
Definition names_of (v : pyval) : res (list string) :=
  let! l := py_iter v in
  map_res (fun x => match x with PStr s => Ok s | _ => Err (Unmodelled "a name that is not a text") end) l.

(** The policy of the payload; [None] is [unknown_policy_kind].  [auto_action] is only
    compared with [approve], which the text of no other value equals. *)
Definition read_policy (d : dict) : res (option ApprovalPolicy) :=
  let kind := dget d "kind" PNone in
  if py_eq kind (PStr "timed") then
    let! timeout := py_float (dget d "timeout_seconds" (PFloat (float_of_Z 300))) in
    Ok (Some (Timed {| timeout_seconds := timeout; auto_action := py_str (dget d "auto_action" (PStr "reject")) |}))
  else if py_eq kind (PStr "quorum") then
    let! approvals := py_int (dget d "required_approvals" (PInt 1)) in
    let! rejections := py_int (dget d "required_rejections" (PInt 1)) in
    let! reviewers := names_of (dget d "allowed_reviewers" (PList [])) in
    Ok (Some (Quorum {| required_approvals := approvals; required_rejections := rejections; allowed_reviewers := reviewers |}))
  else if py_eq kind (PStr "role") then
    let! roles := names_of (dget d "required_roles" (PList [])) in
    Ok (Some (Role {| required_roles := roles; require_all_roles := truthy (dget d "require_all_roles" (PBool false)) |}))
  else Ok None.

Definition ok_response (answer : res pyval) : res Response := let! v := answer in Ok (json_response 200 v).

Definition _hdl_runs_approval_policy : Handler := fun c =>
  with_object c (fun d =>
    match dget d "policy" PNone with
    | PDict policy =>
        match read_policy policy with
        | Err e => Reply (Err e)
        | Ok None => reply (failure 400 "unknown_policy_kind")
        | Ok (Some p) => Ask (OnRun (SetPolicy (part 1 c) p)) ok_response
        end
    | _ => reply (failure 400 "missing_policy")
    end).

(** [except KeyError]: 404. *)
Definition voted (id : string) (answer : res pyval) : res Response :=
  match answer with
  | Err (KeyError _) => Ok (_json_response 404 [("error", PStr "policy_not_found"); ("run_id", PStr id)])
  | _ => ok_response answer
  end.

Definition _hdl_runs_vote : Handler := fun c =>
  with_object c (fun d =>
    match _non_empty_str (dget d "reviewer_id" PNone) with
    | None => reply (failure 400 "missing_reviewer_id")
    | Some reviewer =>
        match _non_empty_str (dget d "action" PNone) with
        | Some act =>
            if str_in act ["approve"; "reject"] then
              Ask (OnRun (Vote (part 1 c) reviewer (_non_empty_str (dget d "role" PNone)) act
                            (py_str (dget d "comment" (PStr ""))))) (voted (part 1 c))
            else reply (failure 400 "invalid_action")
        | None => reply (failure 400 "invalid_action")
        end
    end).

(** ** Static files: [spa/router.py] *)

(** The directory of the application: the components of its path, whether it exists,
    the resolved path and the bytes of the regular file at a subpath, MIME types. *)
Record Dist := {
  dist_path : list string; dist_is_dir : bool; dist_file : string -> option (list string * string);
  guess_type : string -> option string }.

(** [dist in target.resolve().parents]. *)
Fixpoint is_parent (dist path : list string) : bool :=
  match dist, path with
  | [], _ :: _ => true
  | x :: d, y :: p => String.eqb x y && is_parent d p
  | _, [] => false
  end.

Definition raw_response (status : Z) (type body : string) : Response :=
  {| rs_status := status; rs_type := type; rs_body := Text body |}.

Definition index_page (dist : Dist) : Response :=
  match dist_file dist "index.html" with
  | Some (_, bytes) => raw_response 200 "text/html; charset=utf-8" bytes
  | None => raw_response 404 "text/plain; charset=utf-8" "index.html not found in dist"
  end.

Definition spa_dispatch (dist : Dist) (subpath : string) : Response :=
  if negb (dist_is_dir dist)
  then raw_response 503 "text/plain; charset=utf-8" "SPA dist not found. Run: cd rs/spa-leptos && trunk build"
  else
    match (if String.eqb subpath "" then None else dist_file dist subpath) with
    | Some (path, bytes) =>
        if is_parent (dist_path dist) path
        then raw_response 200 (match guess_type dist subpath with Some t => t | None => "application/octet-stream" end) bytes
        else index_page dist
    | None => index_page dist
    end.

Definition _hdl_spa (dist : Dist) : Handler := fun c =>
  if negb (is_method "GET" c) then reply method_not_allowed
  else
    match c_parts c with
    | first :: rest => reply (spa_dispatch dist (join "/" (if String.eqb first "app" then rest else c_parts c)))
    | [] => reply (spa_dispatch dist "")
    end.

(** ** Metrics: [api/metrics.py] *)

Definition _rate_limiter_metrics_lines (limits : option RateLimiter) : string :=
  match limits with
  | None => ""
  | Some r =>
      join nl ["# HELP rate_limit_requests_total Total requests checked by per-client rate limiter";
               "# TYPE rate_limit_requests_total counter";
               "rate_limit_requests_total " ++ str_of_Z (total_requests r);
               "# HELP rate_limit_rejections_total Total requests rejected by per-client rate limiter";
               "# TYPE rate_limit_rejections_total counter";
               "rate_limit_rejections_total " ++ str_of_Z (total_rejections r)] ++ nl
  end.

(** [page] is what [prometheus_client] generates. *)
Definition _hdl_metrics (page : string) (limits : option RateLimiter) : Handler := fun c =>
  if negb (is_method "GET" c) then reply method_not_allowed
  else reply (raw_response 200 "text/plain; version=0.0.4; charset=utf-8" (page ++ _rate_limiter_metrics_lines limits)).

(** ** Healing routes: [api/admin.py] *)

Definition start_healing : Handler := fun c =>
  if negb (is_method "POST" c) then reply method_not_allowed
  else with_object c (fun d =>
    match _non_empty_str (dget d "repo_path" PNone) with
    | None => reply (failure 400 "missing_repo_path")
    | Some repo =>
        match try_except (py_float (dget d "poll_interval_seconds" (PFloat (float_of_Z 60)))) is_type_or_value_error
                (fun _ => Ok (float_of_Z 60)) with
        | Err e => Reply (Err e)
        | Ok interval => Ask (StartHealing repo interval) (fun answer => let! v := answer in Ok (json_response 201 v))
        end
    end).

Definition register_admin_routes (route : string) (c : Ctx) : option Outcome :=
  if String.eqb route "/healing/start" then Some (start_healing c)
  else
    match c_parts c with
    | [a; id; verb] =>
        if is_method "POST" c && String.eqb a "healing" && String.eqb verb "stop"
        then Some (Ask (StopHealing id) (found 200 "loop_id" id))
        else if is_method "GET" c && String.eqb a "healing" && String.eqb verb "jobs"
        then Some (Ask (HealingJobs id) (found 200 "loop_id" id))
        else None
    | _ => None
    end.

(** ** Routing *)

Definition _match_parameterized (dist : Dist) (method : string) (parts : list string) : option Handler :=
  let GET := String.eqb method "GET" in
  let POST := String.eqb method "POST" in
  let v1 a b := String.eqb a "v1" && String.eqb b "runs" in
  let decides z := str_in z ["approve"; "reject"] in
  let spa := match parts with x :: _ => if String.eqb x "app" then Some (_hdl_spa dist) else None | [] => None end in
  match parts with
  | [a; b; _; verb] =>
      if v1 a b && String.eqb verb "logs" then Some _hdl_v1_run_logs
      else if v1 a b && String.eqb verb "cancel" then Some _hdl_v1_run_cancel
      else if v1 a b && decides verb then Some _hdl_v1_run_approve_reject
      else if v1 a b && String.eqb verb "stream" then Some _hdl_v1_run_stream
      else spa
  | [a; b; verb] =>
      if v1 a b then Some _hdl_v1_run_get
      else if GET && String.eqb a "runs" && String.eqb verb "stream" then Some _hdl_runs_stream
      else if POST && String.eqb a "runs" && decides verb then Some _hdl_runs_approve_reject
      else if POST && String.eqb a "runs" && String.eqb verb "approval-policy" then Some _hdl_runs_approval_policy
      else if POST && String.eqb a "runs" && String.eqb verb "vote" then Some _hdl_runs_vote
      else spa
  | [a] =>
      if String.eqb a "app" then spa
      else if existsb (endswith a) [".js"; ".css"; ".wasm"] then Some (_hdl_spa dist) else None
  | _ => spa
  end.

(** ** The front door *)

(** What the outside gives to one request. *)
Record Given := {
  g_utc : nat -> string; g_clock : nat -> float; g_fetch : Fetch; g_uuid : string; g_dist : Dist; g_metrics : string }.

Definition _EXACT_ROUTE_TABLE (g : Given) (f : Front) : list (string * Handler) :=
  [("/metrics", _hdl_metrics (g_metrics g) (clients f)); ("/", _hdl_root_ui); ("/ui", _hdl_root_ui);
   ("/healthz", _hdl_healthz); ("/v1/runs", _hdl_v1_runs); ("/runs", _hdl_runs_list); ("/runs/", _hdl_runs_list);
   ("/runs/search", _hdl_runs_search)].

Definition route_request (g : Given) (f : Front) (route : string) (c : Ctx) : Outcome :=
  match dlookup route (_EXACT_ROUTE_TABLE g f) with
  | Some h => h c
  | None =>
      match _match_parameterized (g_dist g) (c_method c) (c_parts c) with
      | Some h => h c
      | None => match register_admin_routes route c with Some o => o | None => reply (failure 404 "not_found") end
      end
  end.

(** The two rate limits: the state after them, and whether the request passes. *)
Definition service_limit (g : Given) (f : Front) : Front * bool :=
  match limiter f with
  | Some b => let '(b, ok) := acquire (g_clock g 0%nat) b in (set_limiter b f, ok)
  | None => (f, true)
  end.

Definition client_limit (g : Given) (ip : string) (f : Front) : Front * bool :=
  match clients f with
  | Some r =>
      if String.eqb ip "" then (f, true)
      else let '(r, ok) := check ip (g_clock g 1%nat) (g_clock g 2%nat) r in (set_clients r f, ok)
  | None => (f, true)
  end.

Section FrontDoor.
Context {Key : Type} (pyjwt : Pyjwt Key) (srv : Server).

(** The JWT claims the route requires: the subject, an error response, or an exception. *)
Definition authorize_roles (g : Given) (rq : HttpRequest) (route : string) (parts : list string) (f : Front) : Front * auth string :=
  match _route_policy route (rq_method rq) parts (enabled (jwt_settings srv)) with
  | [] => (f, inl "")
  | required =>
      let '(cache, claims) := authorize_stdlib pyjwt (rq_authorization rq) (jwt_settings srv) required (g_fetch g) (jwks f) in
      (set_jwks cache f, let? c := claims in inl (if String.eqb (sub c) "anonymous" then "" else sub c))
  end.

(** [_api_http_dispatch]. *)
Definition _api_http_dispatch (g : Given) (rq : HttpRequest) (request_id ip : string) (f : Front) : Front * Outcome :=
  match urlsplit (rq_target rq) with
  | Err e => (f, Reply (Err e))
  | Ok url =>
      let route := route_of (u_path url) in
      let denied subject_detail := log (event (g_utc g 0%nat) "anonymous" (rq_method rq) route "denied" (Some subject_detail)) in
      match _authorize_request srv route (u_query url) (rq_authorization rq) with
      | Err e => (f, Reply (Err e))
      | Ok (inr error) => (denied "bearer_auth_failed" f, reply error)
      | Ok (inl bearer) =>
          let '(f, passes) := service_limit g f in
          if negb passes then (f, reply (failure 429 "rate_limit_exceeded"))
          else
            let '(f, passes) := client_limit g ip f in
            if negb passes then (f, reply (failure 429 "per_client_rate_limit_exceeded"))
            else
              let parts := path_parts route in
              let '(f, claims) := authorize_roles g rq route parts f in
              match claims with
              | inr (Raised e) => (f, Reply (Err e))
              | inr (AuthError status detail) => (denied detail f, reply (failure status detail))
              | inl subject =>
                  (f, route_request g f route
                        {| c_method := rq_method rq; c_query := u_query url; c_body := rq_body rq;
                           c_subject := if String.eqb subject "" then bearer else subject;
                           c_parts := parts; c_request_id := request_id; c_ip := ip |})
              end
      end
  end.

(** The audit record of [_api_http_response], and the response of [_handle_request]
    when the handler raised. *)
Definition internal_error : Response := failure 500 "internal_server_error".

Definition _api_http_response (g : Given) (rq : HttpRequest) (answer : res Response) (f : Front) : Front * Response :=
  match answer with
  | Err _ => (f, internal_error)
  | Ok r =>
      if (rs_status r =? 401) || (rs_status r =? 403) then (f, r)
      else
        match urlsplit (rq_target rq) with
        | Err _ => (f, internal_error)
        | Ok url =>
            (log (event (g_utc g 1%nat) (if String.eqb (auth_mode srv) "off" then "anonymous" else auth_mode srv)
                    (rq_method rq) (route_of (u_path url)) (if 500 <=? rs_status r then "error" else "ok") None) f, r)
        end
  end.

(** [_handle_request] up to the call of the service. *)
Definition _handle_request (g : Given) (rq : HttpRequest) (f : Front) : Front * Outcome :=
  _api_http_dispatch g rq (_request_id_from_value (rq_id rq) (g_uuid g))
    (_request_client_ip (rq_peer rq) (header (rq_forwarded_for rq)) (trust_forwarded srv)) f.
End FrontDoor.

(** ** The server as a step relation *)

(** A request whose thread in the service is [cn_thread]. *)
Record Connection := { cn_request : HttpRequest; cn_thread : nat; cn_answer : res pyval -> res Response }.

(** A [stop_healing_loop] between its two critical sections. *)
Record Stopping := { sp_request : HttpRequest; sp_id : string; sp_answer : res pyval -> res Response }.

Record HttpSystem := {
  front : Front; core : System; healing : Loops; connections : list Connection; stopping : list Stopping;
  replies : list (HttpRequest * Response); handed : list (HttpRequest * Call) }.

Definition set_front (f : Front) (hs : HttpSystem) : HttpSystem :=
  {| front := f; core := core hs; healing := healing hs; connections := connections hs; stopping := stopping hs;
     replies := replies hs; handed := handed hs |}.
Definition set_core (c : System) (hs : HttpSystem) : HttpSystem :=
  {| front := front hs; core := c; healing := healing hs; connections := connections hs; stopping := stopping hs;
     replies := replies hs; handed := handed hs |}.
Definition set_healing (l : Loops) (hs : HttpSystem) : HttpSystem :=
  {| front := front hs; core := core hs; healing := l; connections := connections hs; stopping := stopping hs;
     replies := replies hs; handed := handed hs |}.
Definition set_connections (l : list Connection) (hs : HttpSystem) : HttpSystem :=
  {| front := front hs; core := core hs; healing := healing hs; connections := l; stopping := stopping hs;
     replies := replies hs; handed := handed hs |}.
Definition set_stopping (l : list Stopping) (hs : HttpSystem) : HttpSystem :=
  {| front := front hs; core := core hs; healing := healing hs; connections := connections hs; stopping := l;
     replies := replies hs; handed := handed hs |}.
Definition add_reply (rq : HttpRequest) (r : Response) (hs : HttpSystem) : HttpSystem :=
  {| front := front hs; core := core hs; healing := healing hs; connections := connections hs; stopping := stopping hs;
     replies := replies hs ++ [(rq, r)]; handed := handed hs |}.
Definition hand (rq : HttpRequest) (c : Call) (hs : HttpSystem) : HttpSystem :=
  {| front := front hs; core := core hs; healing := healing hs; connections := connections hs; stopping := stopping hs;
     replies := replies hs; handed := handed hs ++ [(rq, c)] |}.

(** The stream a marker opens: the statuses [-1] and [-2]. *)
Definition stream_of (r : Response) : option Request :=
  match rs_body r with
  | Text id => if rs_status r =? -1 then Some (Stream id) else if rs_status r =? -2 then Some (StreamNew id) else None
  | Json _ => None
  end.

Section Server.
Context {Key : Type} (pyjwt : Pyjwt Key) (srv : Server) (cfg : Config).

(** The end of [_handle_request]: the audit record, the response, the stream. *)
Definition conclude (g : Given) (rq : HttpRequest) (answer : res Response) (hs : HttpSystem) : HttpSystem :=
  let '(f, r) := _api_http_response srv g rq answer (front hs) in
  let hs := add_reply rq r (set_front f hs) in
  match stream_of r with
  | Some q => hand rq (OnRun q) (set_core (arrive cfg q (core hs)) hs)
  | None => hs
  end.

(** A call of the healing loops; [id] is the identifier of a new loop, [detected] the
    test runner of its repository. *)
Definition on_healing (g : Given) (rq : HttpRequest) (c : Call) (k : res pyval -> res Response) (id : string)
    (detected : res string) (hs : HttpSystem) : HttpSystem :=
  match c with
  | StartHealing repo interval =>
      let '(l, answer) := start_healing_loop id repo interval detected (healing hs) in conclude g rq (k answer) (set_healing l hs)
  | StopHealing id =>
      let '(l, found) := stop_read id (healing hs) in
      if found then set_stopping (stopping hs ++ [{| sp_request := rq; sp_id := id; sp_answer := k |}]) (set_healing l hs)
      else conclude g rq (k (Ok PNone)) hs
  | HealingJobs id => conclude g rq (k (Ok (get_healing_jobs id (healing hs)))) hs
  | OnRun _ => hs
  end.

Definition is_healing (c : Call) : bool := match c with OnRun _ => false | _ => true end.

(** [do_GET] and [do_POST] are the only methods of the handler. *)
Definition served (rq : HttpRequest) : bool := str_in (rq_method rq) ["GET"; "POST"].

Inductive hstep : HttpSystem -> HttpSystem -> Prop :=
| h_reply g rq f r hs :
    served rq = true -> _handle_request pyjwt srv g rq (front hs) = (f, Reply r) -> hstep hs (conclude g rq r (set_front f hs))
| h_run g rq f q k hs :
    served rq = true -> _handle_request pyjwt srv g rq (front hs) = (f, Ask (OnRun q) k) ->
    hstep hs (hand rq (OnRun q)
      (set_connections (connections hs ++ [{| cn_request := rq; cn_thread := length (threads (core hs)); cn_answer := k |}])
        (set_core (arrive cfg q (core hs)) (set_front f hs))))
| h_healing g rq f c k id detected hs :
    served rq = true -> _handle_request pyjwt srv g rq (front hs) = (f, Ask c k) -> is_healing c = true ->
    hstep hs (on_healing g rq c k id detected (hand rq c (set_front f hs)))
| h_answer g j cn v hs :
    connections hs !! j = Some cn -> threads (core hs) !! cn_thread cn = Some (Done v) ->
    hstep hs (conclude g (cn_request cn) (cn_answer cn v) (set_connections (delete j (connections hs)) hs))
| h_stopped g j sp hs :
    stopping hs !! j = Some sp ->
    hstep hs (conclude g (sp_request sp) (sp_answer sp (Ok (stopped_payload (sp_id sp))))
      (set_stopping (delete j (stopping hs)) (set_healing (stop_forget (sp_id sp) (healing hs)) hs)))
| h_core c hs : act (core hs) c -> hstep hs (set_core c hs)
| h_loops l hs : loops_step (healing hs) l -> hstep hs (set_healing l hs).

Definition serving (f : Front) : HttpSystem :=
  {| front := f; core := start; healing := no_loops; connections := []; stopping := []; replies := []; handed := [] |}.

(** The server starts with an empty audit log and no keys. *)
Definition new_front (limit : option TokenBucket) (per_client : option RateLimiter) : Front :=
  {| limiter := limit; clients := per_client; jwks := []; audit := Some [] |}.
End Server.
