(* ===== verification/HttpProps.v ===== *)
(** * Theorems on the HTTP server

    Who may have the service do what ([permitted]), the routes that reach it, and what
    the audit log records. *)
From Stdlib Require Import ZArith Lia String Ascii List Bool.
From stdpp Require Import base tactics list strings option relations.
From S2P Require Import Prelude PyStr StrFacts PyFloat PyVal Json Approval ApprovalTokens RunRecord Service ServiceProps.
From S2P Require Import Url RateLimit Auth Healing Http.
Local Open Scope string_scope.
Local Open Scope Z_scope.

(** ** Paths *)

Lemma startswith_inv s p : startswith s p = true -> exists t, s = p ++ t.
Proof.
  revert s. induction p as [|a p IH]; intros s H; [by exists s|]. destruct s as [|b s]; [done|]. cbn in H.
  apply andb_true_iff in H as [H1 H2]. apply Ascii.eqb_eq in H1 as ->. destruct (IH s H2) as [t ->]. by exists t.
Qed.

(** Text added without the separator extends the last part, or the first one. *)
Lemma split_last c s p : lacks c p = true -> exists l w, split_char c (s ++ p) = (l ++ [(w ++ p)%string])%list.
Proof.
  intros Hp. induction s as [|a s (l & w & E)]; [exists [], ""; by apply split_char_lacks|].
  change (String a s ++ p) with (String a (s ++ p)). simpl. destruct (Ascii.eqb a c); [exists ("" :: l), w; by rewrite E|].
  rewrite E. destruct l as [|x l]; [by exists [], (String a w)|by exists (String a x :: l), w].
Qed.

Lemma split_first c p t : lacks c p = true -> exists w l, split_char c (p ++ t) = (p ++ w) :: l.
Proof.
  intros Hp. induction p as [|a p IH].
  - change ("" ++ t) with t. pose proof (split_char_not_nil c t). destruct (split_char c t) as [|w l]; [done|]. by exists w, l.
  - rewrite lacks_cons in Hp. apply andb_true_iff in Hp as [Ha Hp]. apply negb_true_iff in Ha.
    destruct (IH Hp) as (w & l & E). change (String a p ++ t) with (String a (p ++ t)).
    simpl. rewrite Ha, E. by exists w, l.
Qed.

Lemma parts_last route p :
  lacks "/" p = true -> p <> "" -> endswith route p = true ->
  exists l w, path_parts route = (l ++ [w])%list /\ endswith w p = true.
Proof.
  intros Hp Hne He. destruct (endswith_app _ _ He) as [t ->]. destruct (split_last "/" t p Hp) as (l & w & E).
  unfold path_parts. rewrite E, List.filter_app. cbn [List.filter].
  assert (Hn : String.eqb (w ++ p) "" = false) by (destruct w; [by destruct p|done]).
  rewrite Hn. eexists _, _. split; [reflexivity|apply app_endswith].
Qed.

Lemma parts_app route : startswith route "/app" = true -> exists w l, path_parts route = ("app" ++ w) :: l.
Proof.
  intros H. destruct (startswith_inv _ _ H) as [t ->]. destruct (split_first "/" "app" t eq_refl) as (w & l & E).
  unfold path_parts. change ("/app" ++ t) with (String "/" ("app" ++ t)). cbn [split_char Ascii.eqb Bool.eqb].
  rewrite E. cbn [List.filter String.eqb negb String.append]. by eexists _, _.
Qed.

(** ** What an outcome grants *)

(** The calls an outcome leads to: the one it asks for, the stream its answer opens. *)
Inductive grants : Outcome -> Call -> Prop :=
| grants_ask c k : grants (Ask c k) c
| grants_answer c k v r q : k v = Ok r -> stream_of r = Some q -> grants (Ask c k) (OnRun q)
| grants_reply r q : stream_of r = Some q -> grants (Reply (Ok r)) (OnRun q).

(** The routing table: method, path and call. *)
Inductive endpoint (method route : string) : list string -> Call -> Prop :=
| e_create d i s a : method = "POST" -> route = "/v1/runs" -> endpoint method route (path_parts route) (OnRun (Create d i s a))
| e_list : method = "GET" -> route = "/v1/runs" \/ route = "/runs" \/ route = "/runs/" ->
    endpoint method route (path_parts route) (OnRun ListRuns)
| e_search q n : method = "GET" -> route = "/runs/search" -> endpoint method route (path_parts route) (OnRun (Search q n))
| e_v1_get id : method = "GET" -> endpoint method route ["v1"; "runs"; id] (OnRun (GetRun id))
| e_v1_logs id : method = "GET" -> endpoint method route ["v1"; "runs"; id; "logs"] (OnRun (GetLogs id))
| e_v1_cancel id : method = "POST" -> endpoint method route ["v1"; "runs"; id; "cancel"] (OnRun (Cancel id))
| e_v1_decide id verb d s : method = "POST" -> verb = "approve" \/ verb = "reject" ->
    endpoint method route ["v1"; "runs"; id; verb] (OnRun (decision verb id d s))
| e_v1_stream id : endpoint method route ["v1"; "runs"; id; "stream"] (OnRun (Stream id))
| e_runs_read id : method = "GET" -> endpoint method route ["runs"; id; "stream"] (OnRun (GetRun id))
| e_runs_stream id : method = "GET" -> endpoint method route ["runs"; id; "stream"] (OnRun (StreamNew id))
| e_runs_decide id verb d s : method = "POST" -> verb = "approve" \/ verb = "reject" ->
    endpoint method route ["runs"; id; verb] (OnRun (decision verb id d s))
| e_runs_policy id p : method = "POST" -> endpoint method route ["runs"; id; "approval-policy"] (OnRun (SetPolicy id p))
| e_runs_vote id who role act cmt : method = "POST" -> endpoint method route ["runs"; id; "vote"] (OnRun (Vote id who role act cmt))
| e_heal_start repo t : route = "/healing/start" -> endpoint method route (path_parts route) (StartHealing repo t)
| e_heal_stop id : method = "POST" -> endpoint method route ["healing"; id; "stop"] (StopHealing id)
| e_heal_jobs id : method = "GET" -> endpoint method route ["healing"; id; "jobs"] (HealingJobs id).
#[local] Hint Constructors endpoint : routes.

Lemma grants_json status v c : ~ grants (reply (json_response status v)) c.
Proof. inversion 1; discriminate. Qed.

Lemma grants_raw status kind body c : 0 <= status -> ~ grants (reply (raw_response status kind body)) c.
Proof.
  intros Hs. inversion 1 as [| |r q E]; subst. unfold stream_of in E. cbn in E.
  destruct (Z.eqb_spec status (-1)); [lia|]. destruct (Z.eqb_spec status (-2)); [lia|discriminate].
Qed.

Lemma grants_error e c : ~ grants (Reply (Err e)) c.
Proof. inversion 1. Qed.

Lemma grants_object cx k c : grants (with_object cx k) c -> exists d, grants (k d) c.
Proof.
  unfold with_object. destruct (read_object cx) as [[d|]|e]; [by exists d| |]; intros H; exfalso;
    [by eapply grants_json|by eapply grants_error].
Qed.

(** An answer that opens no stream. *)
Definition plain_answer (k : res pyval -> res Response) : Prop := forall v r, k v = Ok r -> stream_of r = None.

Lemma grants_plain c k c' : plain_answer k -> grants (Ask c k) c' -> c' = c.
Proof. intros Hk. inversion 1 as [|? ? v r q E S|]; subst; [done|]. by rewrite (Hk v r E) in S. Qed.

Lemma plain_found status key id : plain_answer (found status key id).
Proof. intros [v|e] r; cbn; [|done]. intros [= <-]. by destruct (is_none v). Qed.

Lemma plain_listed : plain_answer listed.
Proof. intros [v|e] r; cbn; [|done]. by intros [= <-]. Qed.

Lemma plain_ok : plain_answer ok_response.
Proof. intros [v|e] r; cbn; [|done]. by intros [= <-]. Qed.

Lemma plain_searched : plain_answer searched.
Proof. intros [v|e] r; cbn; [|done]. destruct (py_length v); cbn; [|done]. by intros [= <-]. Qed.

Lemma plain_decided id : plain_answer (decided id).
Proof.
  intros [v|e] r; cbn; [apply (plain_found 202 "run_id" id (Ok v))|]. destruct (is_value_error e); [|done]. by intros [= <-].
Qed.

Lemma plain_created : plain_answer created.
Proof. intros [v|e] r; cbn; [by intros [= <-]|]. destruct e; cbn; try done; by intros [= <-]. Qed.

Lemma plain_voted id : plain_answer (voted id).
Proof. intros [v|e] r; cbn; [by intros [= <-]|]. destruct e; cbn; try done; by intros [= <-]. Qed.

#[local] Hint Resolve plain_found plain_listed plain_ok plain_searched plain_decided plain_created plain_voted : routes.

(** ** The routes *)

Ltac bools := repeat match goal with
  | H : (_ && _)%bool = true |- _ => apply andb_true_iff in H as [? H]
  | H : String.eqb _ _ = true |- _ => apply String.eqb_eq in H
  | H : is_method _ _ = true |- _ => unfold is_method in H
  end.

(** A handler that accepts one method. *)
Lemma guarded name c o call :
  grants (if negb (is_method name c) then reply method_not_allowed else o) call -> c_method c = name /\ grants o call.
Proof.
  unfold is_method. destruct (String.eqb_spec (c_method c) name); cbn [negb]; intros H; [done|]. exfalso. by eapply grants_json.
Qed.

Lemma v1_runs_grants c call : grants (_hdl_v1_runs c) call ->
  (c_method c = "GET" /\ call = OnRun ListRuns) \/ (c_method c = "POST" /\ exists d i s a, call = OnRun (Create d i s a)).
Proof.
  unfold _hdl_v1_runs, is_method at 1. destruct (String.eqb_spec (c_method c) "GET"); intros H.
  - left. apply grants_plain in H; [done|auto with routes].
  - right. apply guarded in H as [-> H]. apply grants_object in H as [d H]. apply grants_plain in H; [|auto with routes].
    split; [done|]. by eexists _, _, _, _.
Qed.

Lemma decide_grants (c : Ctx) verb id k call : plain_answer k ->
  grants (with_object c (fun d => Ask (OnRun (decision verb id d (c_subject c))) k)) call ->
  exists d s, call = OnRun (decision verb id d s).
Proof. intros Hk H. apply grants_object in H as [d H]. apply grants_plain in H; [|done]. by exists d, (c_subject c). Qed.

Lemma grants_quiet r call : stream_of r = None -> ~ grants (reply r) call.
Proof. intros E. inversion 1 as [| |? ? S]. by rewrite E in S. Qed.

Lemma spa_quiet dist p : stream_of (spa_dispatch dist p) = None.
Proof.
  assert (Hi : stream_of (index_page dist) = None) by (unfold index_page; by destruct (dist_file _ _) as [[]|]).
  unfold spa_dispatch. destruct (negb _); [done|]. destruct (if String.eqb p "" then _ else _) as [[path bytes]|]; [|exact Hi].
  by destruct (is_parent _ _).
Qed.

Lemma spa_grants dist c call : ~ grants (_hdl_spa dist c) call.
Proof.
  unfold _hdl_spa. destruct (negb _); [apply grants_json|]. destruct (c_parts c); apply grants_quiet, spa_quiet.
Qed.

Lemma either (s : string) : str_in s ["approve"; "reject"] = true -> s = "approve" \/ s = "reject".
Proof. cbn. intros H. apply orb_true_iff in H as [H|H]; [left|right]; bools; [done|]. rewrite orb_false_r in H. by bools. Qed.

(** The handler of a parameterised route, by its path. *)
Ltac route_cases H := repeat match type of H with
  | (if ?b then _ else _) = Some _ => destruct b eqn:?
  | None = Some _ => discriminate H
  | Some _ = Some _ => injection H as <-
  end.

Lemma match4_grants dist route a b id verb h c call :
  _match_parameterized dist (c_method c) [a; b; id; verb] = Some h -> c_parts c = [a; b; id; verb] ->
  grants (h c) call -> endpoint (c_method c) route [a; b; id; verb] call.
Proof.
  intros Hm Hp H. cbn [_match_parameterized] in Hm. route_cases Hm; bools; subst;
    unfold _hdl_v1_run_logs, _hdl_v1_run_cancel, _hdl_v1_run_approve_reject, _hdl_v1_run_stream, part in H; rewrite ?Hp in H; cbn [nth] in H.
  - apply guarded in H as [? H]. apply grants_plain in H; [subst; by constructor|auto with routes].
  - apply guarded in H as [? H]. apply grants_plain in H; [subst; by constructor|auto with routes].
  - apply guarded in H as [? H]. apply decide_grants in H as (d & s & ->); [|auto with routes]. constructor; [done|by apply either].
  - inversion H as [| |r q E]; subst. cbn in E. injection E as <-. constructor.
  - exfalso. by eapply spa_grants.
Qed.

Lemma policy_grants c call : grants (_hdl_runs_approval_policy c) call -> exists p, call = OnRun (SetPolicy (part 1 c) p).
Proof.
  intros H. apply grants_object in H as [d H]. destruct (dget d "policy" PNone); try (exfalso; by eapply grants_json).
  destruct (read_policy d0) as [[p|]|e]; [|exfalso; by eapply grants_json|exfalso; by eapply grants_error].
  exists p. apply grants_plain in H; [done|auto with routes].
Qed.

Lemma vote_grants c call : grants (_hdl_runs_vote c) call ->
  exists who role act cmt, call = OnRun (Vote (part 1 c) who role act cmt).
Proof.
  intros H. apply grants_object in H as [d H]. destruct (_non_empty_str _) as [who|]; [|exfalso; by eapply grants_json].
  destruct (_non_empty_str _) as [act|]; [|exfalso; by eapply grants_json].
  destruct (str_in act _); [|exfalso; by eapply grants_json]. apply grants_plain in H; [|auto with routes]. by eexists _, _, _, _.
Qed.

Lemma runs_stream_grants c call : grants (_hdl_runs_stream c) call ->
  call = OnRun (GetRun (part 1 c)) \/ call = OnRun (StreamNew (part 1 c)).
Proof.
  unfold _hdl_runs_stream. inversion 1 as [|? ? [v|e] r q E S|]; subst; [by left| |done].
  right. cbn in E. injection E as <-. destruct (is_none v); cbn in S; congruence.
Qed.

Lemma match3_grants dist route a id verb h c call :
  _match_parameterized dist (c_method c) [a; id; verb] = Some h -> c_parts c = [a; id; verb] ->
  grants (h c) call -> endpoint (c_method c) route [a; id; verb] call.
Proof.
  intros Hm Hp H. cbn [_match_parameterized] in Hm. route_cases Hm; bools; subst.
  - unfold _hdl_v1_run_get, part in H. rewrite ?Hp in H. cbn [nth] in H. apply guarded in H as [? H].
    apply grants_plain in H; [subst; by constructor|auto with routes].
  - apply runs_stream_grants in H. unfold part in H. rewrite Hp in H. cbn [nth] in H. destruct H as [->| ->]; by constructor.
  - unfold _hdl_runs_approve_reject, part in H. rewrite ?Hp in H. cbn [nth] in H.
    apply decide_grants in H as (d & s & ->); [|auto with routes]. constructor; [done|by apply either].
  - apply policy_grants in H as [p ->]. unfold part. rewrite Hp. by constructor.
  - apply vote_grants in H as (? & ? & ? & ? & ->). unfold part. rewrite Hp. by constructor.
  - exfalso. by eapply spa_grants.
Qed.

Lemma match_other dist route parts h c call :
  _match_parameterized dist (c_method c) parts = Some h -> c_parts c = parts -> grants (h c) call ->
  endpoint (c_method c) route parts call.
Proof.
  intros Hm Hp H. destruct parts as [|a [|b [|d [|e [|x l]]]]]; [done| | | | |].
  1, 2, 5: cbn [_match_parameterized] in Hm; route_cases Hm; exfalso; by eapply spa_grants.
  - by eapply match3_grants.
  - by eapply match4_grants.
Qed.

Lemma search_grants c call : grants (_hdl_runs_search c) call -> c_method c = "GET" /\ exists q n, call = OnRun (Search q n).
Proof.
  unfold _hdl_runs_search. intros [Hm H]%guarded. split; [done|].
  destruct (parse_qs _) as [fields|e]; [|exfalso; by eapply grants_error].
  destruct (String.eqb _ ""); [exfalso; by eapply grants_json|]. apply grants_plain in H; [|auto with routes]. by eexists _, _.
Qed.

Lemma start_grants c call : grants (start_healing c) call -> exists repo t, call = StartHealing repo t.
Proof.
  unfold start_healing. intros [_ H]%guarded. apply grants_object in H as [d H].
  destruct (_non_empty_str _) as [repo|]; [|exfalso; by eapply grants_json].
  destruct (try_except _ _ _) as [t|e]; [|exfalso; by eapply grants_error].
  apply grants_plain in H; [by exists repo, t|]. intros [v|e] r; cbn; [|done]. by intros [= <-].
Qed.

Lemma admin_grants route o c call :
  register_admin_routes route c = Some o -> c_parts c = path_parts route -> grants o call ->
  endpoint (c_method c) route (path_parts route) call.
Proof.
  unfold register_admin_routes. destruct (String.eqb_spec route "/healing/start") as [->|_]; intros Ho Hp H.
  - injection Ho as <-. apply start_grants in H as (repo & t & ->). by constructor.
  - rewrite <- Hp. destruct (c_parts c) as [|a [|id [|verb [|]]]]; try done.
    destruct (_ && _)%bool eqn:E1 in Ho; [|destruct (_ && _)%bool eqn:E2 in Ho; [|done]]; injection Ho as <-; bools; subst;
      (apply grants_plain in H; [subst; by constructor|auto with routes]).
Qed.

Lemma exact_grants g f route h c call :
  dlookup route (_EXACT_ROUTE_TABLE g f) = Some h -> grants (h c) call -> endpoint (c_method c) route (path_parts route) call.
Proof.
  unfold _EXACT_ROUTE_TABLE. cbn [dlookup]. intros Hl H. route_cases Hl; bools; subst.
  - exfalso. unfold _hdl_metrics in H. destruct (negb _); [by eapply grants_json|by eapply grants_raw in H].
  - exfalso. unfold _hdl_root_ui in H. destruct (negb _); [by eapply grants_json|]. revert H. by apply grants_quiet.
  - exfalso. unfold _hdl_root_ui in H. destruct (negb _); [by eapply grants_json|]. revert H. by apply grants_quiet.
  - exfalso. unfold _hdl_healthz in H. destruct (negb _); by eapply grants_json.
  - apply v1_runs_grants in H as [[Hm ->]|[Hm (d & i & s & a & ->)]]; constructor; auto.
  - unfold _hdl_runs_list in H. apply guarded in H as [Hm H]. apply grants_plain in H; [subst; constructor; auto|auto with routes].
  - unfold _hdl_runs_list in H. apply guarded in H as [Hm H]. apply grants_plain in H; [subst; constructor; auto|auto with routes].
  - apply search_grants in H as [Hm (q & n & ->)]. by constructor.
Qed.

(** Whatever a request makes the server do is in the routing table. *)
Lemma route_grants g f route c call :
  c_parts c = path_parts route -> grants (route_request g f route c) call ->
  endpoint (c_method c) route (path_parts route) call.
Proof.
  intros Hp. unfold route_request. destruct (dlookup route _) as [h|] eqn:Ee; [by apply exact_grants with (g := g) (f := f)|].
  rewrite Hp. destruct (_match_parameterized _ _ _) as [h|] eqn:Em; [by apply match_other with (dist := g_dist g)|].
  destruct (register_admin_routes route c) as [o|] eqn:Ea; [by apply admin_grants|]. intros H. exfalso. by eapply grants_json.
Qed.

(** ** Who may do what *)

(** The roles that may have a call made, one of which the token must carry. *)
Definition needed_roles (c : Call) : list string :=
  match c with
  | OnRun (Create _ _ _ _ | Approve _ _ _ | Reject _ _ _ | Vote _ _ _ _ _) => ["operator"; "admin"]
  | OnRun (SetPolicy _ _) => ["admin"]
  | _ => ["viewer"; "operator"; "admin"]
  end.

Lemma decision_roles verb id d s : needed_roles (OnRun (decision verb id d s)) = ["operator"; "admin"].
Proof. unfold decision. by destruct (String.eqb verb "approve"). Qed.

Lemma route_not route lit : path_parts route <> path_parts lit -> String.eqb route lit = false.
Proof. intros H. apply String.eqb_neq. by intros ->. Qed.

Lemma one_of (method : string) : str_in method ["GET"; "POST"] = true -> method = "GET" \/ method = "POST".
Proof. cbn. intros H. apply orb_true_iff in H as [H|H]; [left|right]; bools; [done|]. rewrite orb_false_r in H. by bools. Qed.

Lemma endpoint_policy method route parts call jwt :
  method = "GET" \/ method = "POST" -> endpoint method route parts call -> parts = path_parts route ->
  _route_policy route method parts jwt = needed_roles call.
Proof.
  intros Hm H Hp.
  destruct H; subst; rewrite ?decision_roles; try reflexivity;
    repeat match goal with E : _ \/ _ |- _ => destruct E end; subst; try reflexivity; try discriminate.
  all: unfold _route_policy, str_in, run_routes; cbn [existsb];
    repeat match goal with
    Hp : _ = path_parts ?r |- context[String.eqb ?r ?lit] => rewrite (route_not r lit) by (rewrite <- Hp; discriminate) end.
  all: reflexivity.
Qed.

(** A path the bearer check exempts reads at most a run whose name looks like a file. *)
Definition asset_read (c : Call) : Prop := exists id, c = OnRun (GetRun id) /\ existsb (endswith id) _spa_exts = true.

Definition exempt (route : string) : bool :=
  String.eqb route "/healthz" || String.eqb route "/metrics" || startswith route "/app" || existsb (endswith route) _spa_exts.

Lemma asset_parts route : existsb (endswith route) _spa_exts = true ->
  exists l w, path_parts route = (l ++ [w])%list /\ existsb (endswith w) _spa_exts = true.
Proof.
  intros (ext & Hin & He)%existsb_exists.
  destruct (parts_last route ext) as (l & w & E & Hw); [| |done|].
  - cbn in Hin. by repeat (destruct Hin as [<-|Hin]; [reflexivity|]).
  - intros ->. by repeat (destruct Hin as [Hin|Hin]; [discriminate|]).
  - exists l, w. split; [done|]. apply existsb_exists. by exists ext.
Qed.

Lemma endpoint_exempt method route parts call :
  endpoint method route parts call -> parts = path_parts route -> exempt route = true -> asset_read call.
Proof.
  unfold exempt. intros H Hp. rewrite !orb_true_iff. intros [[[E|E]|E]|E]; [exfalso..|].
  - apply String.eqb_eq in E as ->. destruct H; naive_solver.
  - apply String.eqb_eq in E as ->. destruct H; naive_solver.
  - destruct (parts_app _ E) as (w & l & El). rewrite El in Hp.
    destruct H; try discriminate; repeat match goal with E : _ \/ _ |- _ => destruct E end; subst; discriminate.
  - destruct (asset_parts _ E) as (l & w & El & Hw). rewrite El in Hp.
    apply (f_equal (fun p => List.last p "")) in Hp. rewrite List.last_last in Hp. subst w.
    destruct H; repeat match goal with E : _ \/ _ |- _ => destruct E end; subst; try discriminate. by exists id.
Qed.

(** A request presents a token: in its header, or as [access_token]. *)
Definition presents (rq : HttpRequest) (token : string) : Prop :=
  exists url value, urlsplit (rq_target rq) = Ok url /\
    credentials (rq_authorization rq) (u_query url) = Ok (Some value) /\
    lower (str_take 7 value) = "bearer " /\ strip (str_drop 7 value) = token.

(** The statuses of a denial; a server whose mode and token are set. *)
Definition is_denial (status : Z) : bool := (status =? 401) || (status =? 403).

Definition configured (srv : Server) : Prop :=
  auth_mode srv = "off" \/ auth_mode srv = "bearer" /\ is_Some (expected_bearer_token srv).

Section Authorised.
Context {Key : Type} (pyjwt : Pyjwt Key) (srv : Server).

(** The token of the header is verified, with its claims. *)
Definition verified (rq : HttpRequest) (claims : TokenClaims) : Prop :=
  exists token o cache, _extract_bearer_token (rq_authorization rq) = inl token /\
    snd (verify_token pyjwt token (jwt_settings srv) o cache) = inl claims.

(** The bearer mode asks for the server's token, except for a name like a file's; JWT
    settings ask for a role of the call. *)
Definition permitted (rq : HttpRequest) (c : Call) : Prop :=
  (auth_mode srv = "off" \/ asset_read c \/
   auth_mode srv = "bearer" /\ exists token, expected_bearer_token srv = Some token /\ presents rq token) /\
  (enabled (jwt_settings srv) = true -> exists claims, verified rq claims /\ has_role claims (needed_roles c) = true).

Lemma authorize_request_ok route query authorization subject :
  _authorize_request srv route query authorization = Ok (inl subject) ->
  exempt route = true \/ auth_mode srv = "off" \/
  auth_mode srv = "bearer" /\ exists token value, expected_bearer_token srv = Some token /\
    credentials authorization query = Ok (Some value) /\ lower (str_take 7 value) = "bearer " /\ strip (str_drop 7 value) = token.
Proof.
  unfold _authorize_request, exempt. intros H.
  destruct (String.eqb route "/healthz"); [by left|]. cbn [andb orb] in *.
  destruct (String.eqb route "/metrics"); [by left|]. destruct (startswith route "/app"); [by left|].
  destruct (existsb _ _spa_exts); [by left|]. right.
  destruct (String.eqb_spec (auth_mode srv) "off") as [E|_]; [by left|].
  destruct (String.eqb_spec (auth_mode srv) "bearer") as [E|_]; [|done]. right. split; [done|]. cbn [negb] in H.
  destruct (expected_bearer_token srv) as [token|]; [|done].
  destruct (credentials authorization query) as [[value|]|e]; cbn [bind_res] in H; try done.
  destruct (String.eqb_spec (lower (str_take 7 value)) "bearer ") as [E1|]; cbn [negb] in H; [|done].
  unfold compare_digest in H. destruct (_ && _)%bool; [|done]. cbn [bind_res] in H.
  destruct (String.eqb_spec (strip (str_drop 7 value)) token) as [E2|]; [|done]. by exists token, value.
Qed.

Lemma authorize_request_error route query authorization error :
  _authorize_request srv route query authorization = Ok (inr error) ->
  exists status detail, error = failure status detail /\
    (is_denial status = true \/ ~ configured srv /\ (status = 500 \/ status = 503)).
Proof.
  unfold _authorize_request. intros H. do 4 (match type of H with (if ?b then _ else _) = _ => destruct b; [done|] end).
  destruct (String.eqb_spec (auth_mode srv) "off") as [|N1]; [done|].
  destruct (String.eqb_spec (auth_mode srv) "bearer") as [|N2]; cbn [negb] in H.
  2: { injection H as <-. eexists _, _. split; [done|]. right. split; [by intros [|[]]|by left]. }
  destruct (expected_bearer_token srv) as [token|] eqn:Et.
  2: { injection H as <-. eexists _, _. split; [done|]. right. unfold configured; rewrite Et. split; [by intros [|[_ []]]|by right]. }
  destruct (credentials authorization query) as [[value|]|]; cbn [bind_res] in H; [| |done].
  2: { injection H as <-. eexists _, _. split; [done|by left]. }
  destruct (negb _); [injection H as <-; eexists _, _; split; [done|by left]|].
  destruct (compare_digest _ _) as [[]|]; cbn [bind_res] in H; [done| |done]. injection H as <-. eexists _, _. split; [done|by left].
Qed.

Lemma authorize_roles_ok g rq route parts f f' subject required :
  authorize_roles pyjwt srv g rq route parts f = (f', inl subject) ->
  _route_policy route (rq_method rq) parts (enabled (jwt_settings srv)) = required -> required <> [] ->
  enabled (jwt_settings srv) = true -> exists claims, verified rq claims /\ has_role claims required = true.
Proof.
  unfold authorize_roles. intros H Hr Hne He. rewrite Hr in H. destruct required as [|r required]; [done|].
  unfold authorize_stdlib in H. rewrite He in H. cbn [negb] in H.
  destruct (_extract_bearer_token _) as [token|e] eqn:Et; [|done].
  destruct (verify_token pyjwt token _ _ _) as [cache [claims|e]] eqn:Ev; [|done]. cbn [bind_auth] in H.
  exists claims. split; [exists token, (g_fetch g), (jwks f); by rewrite Ev|].
  unfold _check_roles in H. by destruct (has_role claims (r :: required)).
Qed.
End Authorised.

Section Reachable.
Context {Key : Type} (pyjwt : Pyjwt Key) (srv : Server) (cfg : Config).

Lemma needed_not_nil c : needed_roles c <> [].
Proof. by destruct c as [[]| | |]. Qed.


(** The front door lets through what is permitted. *)
Lemma handle_permitted g rq f f' o call :
  served rq = true -> _handle_request pyjwt srv g rq f = (f', o) -> grants o call -> permitted pyjwt srv rq call.
Proof.
  unfold _handle_request, _api_http_dispatch. intros Hs H Hg.
  destruct (urlsplit (rq_target rq)) as [url|e] eqn:Eu; [|by simplify_eq; apply grants_error in Hg].
  set (route := route_of (u_path url)) in *.
  destruct (_authorize_request srv route (u_query url) (rq_authorization rq)) as [[subject|error]|e] eqn:Ea;
    [| |by simplify_eq; apply grants_error in Hg].
  2: { apply authorize_request_error in Ea as (status & detail & -> & _). injection H as _ <-. by apply grants_json in Hg. }
  destruct (service_limit g f) as [f1 []]; cbn [negb] in H; [|injection H as _ <-; by apply grants_json in Hg].
  destruct (client_limit g _ f1) as [f2 []]; cbn [negb] in H; [|injection H as _ <-; by apply grants_json in Hg].
  destruct (authorize_roles pyjwt srv g rq route (path_parts route) f2) as [f3 [who|[status detail|e]]] eqn:Er;
    [|injection H as _ <-; by apply grants_json in Hg|injection H as _ <-; by apply grants_error in Hg].
  injection H as _ <-. apply route_grants in Hg; [|done]. cbn [c_method] in Hg. split.
  - destruct (authorize_request_ok srv _ _ _ _ Ea) as [E|[E|(E & token & value & E1 & E2 & E3 & E4)]]; [|by left|].
    + right. left. exact (endpoint_exempt _ _ _ _ Hg eq_refl E).
    + right. right. split; [done|]. exists token. split; [done|]. by exists url, value.
  - intros He. pose proof (endpoint_policy _ _ _ _ (enabled (jwt_settings srv)) (one_of _ Hs) Hg eq_refl) as Hr.
    eapply authorize_roles_ok; [exact Er|exact Hr|apply needed_not_nil|exact He].
Qed.

(** An answer opens a permitted stream only. *)
Definition good_answer (rq : HttpRequest) (answer : res Response) : Prop :=
  forall r q, answer = Ok r -> stream_of r = Some q -> permitted pyjwt srv rq (OnRun q).

Record lawful (hs : HttpSystem) : Prop := {
  lw_core : reachable cfg (core hs);
  lw_handed : forall rq c, In (rq, c) (handed hs) -> permitted pyjwt srv rq c;
  lw_connections : forall cn, In cn (connections hs) -> forall v, good_answer (cn_request cn) (cn_answer cn v);
  lw_stopping : forall sp, In sp (stopping hs) -> forall v, good_answer (sp_request sp) (sp_answer sp v) }.

Lemma lawful_same hs hs' :
  core hs' = core hs -> handed hs' = handed hs -> incl (connections hs') (connections hs) -> incl (stopping hs') (stopping hs) ->
  lawful hs -> lawful hs'.
Proof. intros E1 E2 I1 I2 [A B C D]. split; rewrite ?E1, ?E2; auto. Qed.

Lemma delete_incl {A} j (l : list A) : incl (delete j l) l.
Proof.
  revert j. induction l as [|x l IH]; intros [|j] y; cbn; [done|done|by right|]. intros [->|H]; [by left|right; by eapply IH].
Qed.

Ltac same_lawful Hl := match type of Hl with lawful ?h => apply (lawful_same h) end; [reflexivity|reflexivity| | |exact Hl]; first [apply delete_incl|apply incl_refl].

Lemma lawful_hand rq c hs : permitted pyjwt srv rq c -> lawful hs -> lawful (hand rq c hs).
Proof.
  intros Hp [A B C D]. split; [exact A| |exact C|exact D]. intros rq' c' [H|[[= <- <-]|[]]]%in_app_or; auto.
Qed.

Lemma lawful_core c hs : rtc (step cfg) (core hs) c -> lawful hs -> lawful (set_core c hs).
Proof. intros Hs [A B C D]. split; [exact (transitivity (R := rtc (step cfg)) A Hs)|exact B|exact C|exact D]. Qed.

Lemma response_same g rq answer f f' r :
  _api_http_response srv g rq answer f = (f', r) -> answer = Ok r \/ stream_of r = None.
Proof.
  unfold _api_http_response. destruct answer as [a|e]; [|intros [= _ <-]; by right].
  destruct (_ || _)%bool; [intros [= _ ->]; by left|]. destruct (urlsplit _); intros [= _ <-]; [by left|by right].
Qed.

Lemma lawful_conclude g rq answer hs : good_answer rq answer -> lawful hs -> lawful (conclude srv cfg g rq answer hs).
Proof.
  intros Hg Hl. unfold conclude. destruct (_api_http_response srv g rq answer (front hs)) as [f r] eqn:E.
  assert (Hl' : lawful (add_reply rq r (set_front f hs))) by (same_lawful Hl).
  destruct (stream_of r) as [q|] eqn:Eq; [|exact Hl']. apply lawful_hand.
  - destruct (response_same _ _ _ _ _ _ E) as [->|En]; [by eapply Hg|congruence].
  - apply lawful_core; [|exact Hl']. apply rtc_once. constructor.
Qed.

Lemma plain_good rq k : plain_answer k -> forall v, good_answer rq (k v).
Proof. intros Hk v r q E S. by rewrite (Hk v r E) in S. Qed.

(** The answers of an outcome the front door let through. *)
Lemma ask_good g rq f f' c k :
  served rq = true -> _handle_request pyjwt srv g rq f = (f', Ask c k) -> forall v, good_answer rq (k v).
Proof. intros Hs H v r q E S. eapply handle_permitted; [exact Hs|exact H|]. by eapply grants_answer. Qed.

Lemma lawful_healing g rq c k id detected hs :
  (forall v, good_answer rq (k v)) -> lawful hs -> lawful (on_healing srv cfg g rq c k id detected hs).
Proof.
  intros Hk Hl. destruct c as [q|repo t|name|name]; cbn [on_healing].
  - exact Hl.
  - destruct (start_healing_loop _ _ _ _ _) as [l v]. apply lawful_conclude; [apply Hk|]. same_lawful Hl.
  - destruct (stop_read _ _) as [l []]; [|by apply lawful_conclude]. destruct Hl as [A B C D]. split; [exact A|exact B|exact C|].
    intros sp [H|[<-|[]]]%in_app_or v; [by apply D|apply Hk].
  - by apply lawful_conclude.
Qed.

Lemma lawful_step hs hs' : hstep pyjwt srv cfg hs hs' -> lawful hs -> lawful hs'.
Proof.
  intros Hst Hl. assert (Hf : forall f, lawful (set_front f hs)) by (intros f; same_lawful Hl).
  destruct Hst as [g rq f r hs Hs H|g rq f q k hs Hs H|g rq f c k id detected hs Hs H Hc|g j cn v hs Hj Ht|g j sp hs Hj|c hs Ha|l hs _].
  - apply lawful_conclude; [|apply Hf]. intros a q -> S. eapply handle_permitted; [exact Hs|exact H|by constructor].
  - apply lawful_hand; [eapply handle_permitted; [exact Hs|exact H|constructor]|].
    destruct (lawful_core (arrive cfg q (core hs)) (set_front f hs) (rtc_once _ _ (step_request cfg q (core hs))) (Hf f)) as [A B C D].
    split; [exact A|exact B| |exact D]. intros cn [Hin|[<-|[]]]%in_app_or v; [by apply C|by eapply ask_good].
  - apply lawful_healing; [by eapply ask_good|]. apply lawful_hand; [|apply Hf].
    eapply handle_permitted; [exact Hs|exact H|constructor].
  - apply lawful_conclude; [|same_lawful Hl].
    eapply lw_connections; [exact Hl|]. apply list_elem_of_In. by eapply list_elem_of_lookup_2.
  - apply lawful_conclude; [|same_lawful Hl].
    eapply lw_stopping; [exact Hl|]. apply list_elem_of_In. by eapply list_elem_of_lookup_2.
  - apply lawful_core; [|exact Hl]. apply rtc_once. by constructor.
  - same_lawful Hl.
Qed.

Lemma lawful_reachable f hs : rtc (hstep pyjwt srv cfg) (serving f) hs -> lawful hs.
Proof.
  intros H. refine (rtc_ind_r (fun hs => lawful hs) (serving f) _ _ hs H); [|intros y z _ Hyz Hy; by eapply lawful_step].
  split; try done. apply rtc_refl.
Qed.

End Reachable.

(** ** The routes of a run *)

Definition path_char (c : ascii) : bool := is_alnum c || contains (String c "") "._-/".

Lemma path_char_facts c : path_char c = true ->
  unsafe_byte c = false /\ Ascii.eqb c ":" = false /\ Ascii.eqb c "#" = false /\ Ascii.eqb c "?" = false.
Proof. destruct c as [[] [] [] [] [] [] [] []]; vm_compute; auto. Qed.

Lemma run_id_char c : (is_alnum c || contains (String c "") "._-")%bool = true -> path_char c = true /\ Ascii.eqb c "/" = false.
Proof. destruct c as [[] [] [] [] [] [] [] []]; vm_compute; auto. Qed.

(** A path without query, fragment or scheme is its own split. *)
Lemma urlsplit_path c r :
  all_chars path_char (String "/" (String c r)) = true -> Ascii.eqb c "/" = false ->
  urlsplit (String "/" (String c r)) =
    Ok {| u_scheme := ""; u_netloc := ""; u_path := String "/" (String c r); u_query := ""; u_fragment := "" |}.
Proof.
  intros H Hc. set (path := String "/" (String c r)) in *.
  assert (Hall : forall p : ascii -> bool, (forall a, path_char a = true -> p a = true) -> all_chars p path = true)
    by (intros p Hp; by eapply all_chars_impl).
  assert (Hl : lacks ":" path = true /\ lacks "#" path = true /\ lacks "?" path = true).
  { repeat split; apply Hall; intros a Ha; destruct (path_char_facts a Ha) as (_ & E1 & E2 & E3); by rewrite ?E1, ?E2, ?E3. }
  destruct Hl as (L1 & L2 & L3). unfold urlsplit. change (lstrip_by c0_or_space path) with path.
  rewrite str_filter_all by (apply Hall; intros a Ha; by rewrite (proj1 (path_char_facts a Ha))).
  unfold split_scheme. rewrite (cut_none _ _ L1). unfold split_netloc.
  assert (Hs : startswith path "//" = false).
  { unfold path. cbn [startswith]. destruct (Ascii.eqb_spec "/" c) as [<-|]; [done|by rewrite andb_false_r]. }
  rewrite Hs. cbn [bind_res]. by rewrite (cut_none _ _ L2), (cut_none _ _ L3).
Qed.

Lemma run_id_facts id : run_id_text id = true -> all_chars path_char id = true /\ lacks "/" id = true /\ id <> "".
Proof.
  destruct id as [|c r]; cbn [run_id_text]; [done|]. intros [[Hc Hr]%andb_true_iff _]%andb_true_iff.
  assert (Hc' : (is_alnum c || contains (String c "") "._-")%bool = true) by (by rewrite Hc).
  split; [|split; [|done]]; cbn [all_chars]; unfold lacks; cbn [all_chars];
    rewrite ?(proj1 (run_id_char c Hc')), ?(proj2 (run_id_char c Hc')); cbn [negb andb];
    (eapply all_chars_impl; [|exact Hr]); intros a Ha; destruct (run_id_char a Ha) as [E1 E2]; by rewrite ?E1, ?E2.
Qed.

(** The requests on one run: method, what follows [/v1/runs/<id>] in the path, and
    the object of the body. *)
Definition endpoint_of (q : Request) : option (string * string * string * option dict) :=
  match q with
  | GetRun id => Some ("GET", id, "", None)
  | GetLogs id => Some ("GET", id, "/logs", None)
  | Cancel id => Some ("POST", id, "/cancel", None)
  | Approve id d "" => Some ("POST", id, "/approve", Some d)
  | Reject id d "" => Some ("POST", id, "/reject", Some d)
  | _ => None
  end.

Definition tails : list string := [""; "/logs"; "/cancel"; "/approve"; "/reject"].


(** The rest of the path after the identifier is taken apart as written. *)
Lemma run_path id tail :
  run_id_text id = true -> In tail tails ->
  urlsplit ("/v1/runs/" ++ id ++ tail) =
    Ok {| u_scheme := ""; u_netloc := ""; u_path := "/v1/runs/" ++ id ++ tail; u_query := ""; u_fragment := "" |} /\
  route_of ("/v1/runs/" ++ id ++ tail) = "/v1/runs/" ++ id ++ tail /\
  path_parts ("/v1/runs/" ++ id ++ tail) = (["v1"; "runs"; id] ++ path_parts tail)%list.
Proof.
  intros Hid Ht. destruct (run_id_facts id Hid) as (Hc & Hl & Hne).
  assert (Htail : all_chars path_char tail = true) by (cbn in Ht; by repeat (destruct Ht as [<-|Ht]; [reflexivity|])).
  split; [|split].
  - apply urlsplit_path; [|done]. change (all_chars path_char ("/v1/runs/" ++ id ++ tail) = true).
    by rewrite !all_chars_app, Hc, Htail.
  - unfold route_of. assert (E : rstrip_by (Ascii.eqb "/") ("/v1/runs/" ++ id ++ tail) = "/v1/runs/" ++ id ++ tail).
    { assert (Hi : rstrip_by (Ascii.eqb "/") (id ++ tail) = id ++ tail).
      { cbn in Ht. destruct Ht as [<-|Ht].
        - rewrite str_app_nil. apply rstrip_by_none. eapply all_chars_impl; [|exact Hl]. intros a. by rewrite Ascii.eqb_sym.
        - rewrite rstrip_by_app; repeat (destruct Ht as [<-|Ht]; [first [reflexivity|discriminate]|]); done. }
      rewrite rstrip_by_app; rewrite Hi; [done|]. by destruct id. }
    rewrite E. done.
  - unfold path_parts. change ("/v1/runs/" ++ id ++ tail) with (String "/" ("v1" ++ String "/" ("runs" ++ String "/" (id ++ tail)))).
    assert (Hs : List.filter (fun p => negb (String.eqb p "")) (split_char "/" (id ++ tail)) = id :: path_parts tail).
    { assert (En : String.eqb id "" = false) by (by destruct id). cbn in Ht. destruct Ht as [<-|Ht].
      - rewrite str_app_nil, (split_char_lacks _ _ Hl). cbn [List.filter]. by rewrite En.
      - repeat (destruct Ht as [<-|Ht];
          [match goal with |- context[id ++ String ?c ?r] => rewrite (split_char_app "/" id r Hl) end; cbn [List.filter]; by rewrite En|]).
        done. }
    change (split_char "/" (String "/" ("v1" ++ String "/" ("runs" ++ String "/" (id ++ tail)))))
      with ("" :: "v1" :: "runs" :: split_char "/" (id ++ tail)).
    cbn [List.filter negb String.eqb]. by rewrite Hs.
Qed.

(** Neither authentication nor limits are configured. *)
Definition unguarded (srv : Server) (f : Front) : Prop :=
  auth_mode srv = "off" /\ enabled (jwt_settings srv) = false /\ limiter f = None /\ clients f = None.

Definition reads_as (rq : HttpRequest) (d : dict) : Prop := exists text, rq_body rq = Some (Some text) /\ json_loads text = Ok (PDict d).

Lemma unguarded_route {Key} (pyjwt : Pyjwt Key) srv g rq f url :
  unguarded srv f -> urlsplit (rq_target rq) = Ok url ->
  exists cx, c_method cx = rq_method rq /\ c_body cx = rq_body rq /\ c_subject cx = "" /\
    c_parts cx = path_parts (route_of (u_path url)) /\
    snd (_handle_request pyjwt srv g rq f) = route_request g f (route_of (u_path url)) cx.
Proof.
  intros (Hm & Hj & Hl & Hc) Hu. unfold _handle_request, _api_http_dispatch. rewrite Hu.
  assert (Ha : _authorize_request srv (route_of (u_path url)) (u_query url) (rq_authorization rq) = Ok (inl "")).
  { unfold _authorize_request. rewrite Hm. do 4 (match goal with |- (if ?b then _ else _) = _ => destruct b; [done|] end). done. }
  rewrite Ha. unfold service_limit, client_limit. rewrite Hl, Hc. cbn [negb].
  unfold authorize_roles, authorize_stdlib. rewrite Hj. cbn [negb].
  destruct (_route_policy _ _ _ _); cbn [bind_auth]; eexists; (split; [|split; [|split; [|split; [|reflexivity]]]]); reflexivity.
Qed.

Lemma read_object_eq rq cx d : reads_as rq d -> c_body cx = rq_body rq -> read_object cx = Ok (Some d).
Proof. intros (text & E1 & E2) Hb. unfold read_object. by rewrite Hb, E1, E2. Qed.

(** Every request on a run reaches its operation. *)
Theorem run_requests_routed {Key} (pyjwt : Pyjwt Key) srv g rq f q method id tail body :
  unguarded srv f -> endpoint_of q = Some (method, id, tail, body) -> run_id_text id = true ->
  rq_method rq = method -> rq_target rq = "/v1/runs/" ++ id ++ tail ->
  (forall d, body = Some d -> reads_as rq d) ->
  exists k, snd (_handle_request pyjwt srv g rq f) = Ask (OnRun q) k.
Proof.
  intros Hu He Hid Hm Ht Hb.
  assert (Hin : In tail tails) by (destruct q as [| | | | | | | |? ? []|? ? []| |]; simplify_eq He; cbn; tauto).
  destruct (run_path id tail Hid Hin) as (E1 & E2 & E3). rewrite <- Ht in E1.
  destruct (unguarded_route pyjwt srv g rq f _ Hu E1) as (cx & Cm & Cb & Cs & Cp & ->). cbn [u_path] in *.
  rewrite Ht, E2 in *. rewrite E3 in Cp. clear E1 E2 E3 Hin Ht Hu.
  assert (Hr : forall h, _match_parameterized (g_dist g) method (["v1"; "runs"; id] ++ path_parts tail) = Some h ->
    route_request g f ("/v1/runs/" ++ id ++ tail) cx = h cx).
  { intros h Hh. unfold route_request. change (dlookup ("/v1/runs/" ++ id ++ tail) (_EXACT_ROUTE_TABLE g f)) with (@None Handler).
    by rewrite Cm, Hm, Cp, Hh. }
  rewrite Hm in Cm. clear Hm.
  destruct q as [| | | | | | | |? ? []|? ? []| |]; try discriminate He; injection He as <- <- <- <-; cbn in Cp; erewrite Hr by reflexivity;
    unfold _hdl_v1_run_get, _hdl_v1_run_logs, _hdl_v1_run_cancel, _hdl_v1_run_approve_reject, with_object, is_method, part;
    rewrite Cm, Cp; cbn [negb String.eqb nth]; try by eexists.
  all: match type of Hb with forall d, Some ?x = Some d -> _ => rewrite (read_object_eq rq cx x (Hb _ eq_refl) Cb), ?Cs end; by eexists.
Qed.

(** ** What the handlers answer *)

Inductive answers : Outcome -> Response -> Prop :=
| answers_reply r : answers (Reply (Ok r)) r
| answers_ask c k v r : k v = Ok r -> answers (Ask c k) r.

(** No handler answers as the authorisation does. *)
Definition settled (r : Response) : Prop := rs_status r <> 401 /\ rs_status r <> 403.
Definition tame (o : Outcome) : Prop := forall r, answers o r -> settled r.
Definition tame_answer (k : res pyval -> res Response) : Prop := forall v r, k v = Ok r -> settled r.

Lemma tame_reply r : settled r -> tame (reply r).
Proof. intros H r' Hr. by inversion Hr; subst. Qed.
Lemma tame_error e : tame (Reply (Err e)).
Proof. intros r Hr. by inversion Hr. Qed.
Lemma tame_ask c k : tame_answer k -> tame (Ask c k).
Proof. intros H r Hr. inversion Hr; subst. by eapply H. Qed.
Lemma tame_object c k : (forall d, tame (k d)) -> tame (with_object c k).
Proof. intros H. unfold with_object. destruct (read_object c) as [[d|]|e]; [apply H|by apply tame_reply|apply tame_error]. Qed.

Lemma tame_found status key id : status <> 401 -> status <> 403 -> tame_answer (found status key id).
Proof. intros H1 H2 [v|e] r; cbn; [|done]. intros [= <-]. by destruct (is_none v). Qed.
Lemma tame_listed : tame_answer listed.
Proof. intros [v|e] r; cbn; [|done]. by intros [= <-]. Qed.
Lemma tame_ok : tame_answer ok_response.
Proof. intros [v|e] r; cbn; [|done]. by intros [= <-]. Qed.
Lemma tame_searched : tame_answer searched.
Proof. intros [v|e] r; cbn; [|done]. destruct (py_length v); cbn; [|done]. by intros [= <-]. Qed.
Lemma tame_decided id : tame_answer (decided id).
Proof. intros [v|e] r; cbn; [by apply (tame_found 202 "run_id" id ltac:(done) ltac:(done) (Ok v))|]. destruct (is_value_error e); [|done]. by intros [= <-]. Qed.
Lemma tame_created : tame_answer created.
Proof.
  intros [v|e] r; cbn; [by intros [= <-]|]. destruct e as [m| | | | | | | |m|m|m|m|m|]; cbn; try done; intros [= <-]; unfold settled; cbn; by try destruct (String.eqb m _).
Qed.
Lemma tame_voted id : tame_answer (voted id).
Proof. intros [v|e] r; cbn; [by intros [= <-]|]. destruct e; cbn; try done; by intros [= <-]. Qed.
Lemma tame_opened id : tame_answer (fun answer => let! v := answer in Ok (if is_none v then not_found "run_id" id else sse (-2) "sse_new" id)).
Proof. intros [v|e] r; cbn; [|done]. intros [= <-]. by destruct (is_none v). Qed.
Lemma tame_started : tame_answer (fun answer => let! v := answer in Ok (json_response 201 v)).
Proof. intros [v|e] r; cbn; [|done]. by intros [= <-]. Qed.
#[local] Hint Resolve tame_found tame_listed tame_ok tame_searched tame_decided tame_created tame_voted tame_opened tame_started : routes.

Lemma tame_spa dist c : tame (_hdl_spa dist c).
Proof.
  assert (H : forall p, settled (spa_dispatch dist p)).
  { intros p. assert (Hi : settled (index_page dist)) by (unfold index_page; by destruct (dist_file _ _) as [[]|]).
    unfold spa_dispatch. destruct (negb _); [done|].
    destruct (if String.eqb p "" then _ else _) as [[path bytes]|]; [|exact Hi]. by destruct (is_parent _ _). }
  unfold _hdl_spa. destruct (negb _); [by apply tame_reply|]. destruct (c_parts c); apply tame_reply, H.
Qed.

Ltac tame := repeat first
  [ apply tame_spa | apply tame_object; intros ? | apply tame_error | apply tame_ask; solve [eauto with routes | apply tame_found; lia]
  | apply tame_reply; done
  | match goal with
    | |- tame (if ?b then _ else _) => destruct b
    | |- tame (match ?x with _ => _ end) => destruct x
    end ].

Lemma tame_match dist method parts h c : _match_parameterized dist method parts = Some h -> tame (h c).
Proof.
  intros H. unfold _match_parameterized in H.
  repeat match type of H with
  | (if ?b then _ else _) = Some _ => destruct b
  | (match ?x with _ => _ end) = Some _ => destruct x
  end; try discriminate H; injection H as <-; try apply tame_spa;
  unfold _hdl_v1_run_logs, _hdl_v1_run_cancel, _hdl_v1_run_approve_reject, _hdl_v1_run_stream, _hdl_v1_run_get,
    _hdl_runs_stream, _hdl_runs_approve_reject, _hdl_runs_approval_policy, _hdl_runs_vote; tame.
Qed.

Lemma tame_admin route c o : register_admin_routes route c = Some o -> tame o.
Proof.
  unfold register_admin_routes. intros H. repeat match type of H with
  | (if ?b then _ else _) = Some _ => destruct b
  | (match ?x with _ => _ end) = Some _ => destruct x
  end; try discriminate H; injection H as <-; unfold start_healing; tame.
Qed.

Lemma tame_exact g f route h c : dlookup route (_EXACT_ROUTE_TABLE g f) = Some h -> tame (h c).
Proof.
  unfold _EXACT_ROUTE_TABLE. cbn [dlookup]. intros Hl. route_cases Hl;
    unfold _hdl_metrics, _hdl_root_ui, _hdl_healthz, _hdl_v1_runs, _hdl_runs_list, _hdl_runs_search; tame.
Qed.

Lemma tame_route g f route c : tame (route_request g f route c).
Proof.
  unfold route_request. destruct (dlookup route _) as [h|] eqn:E1; [by eapply tame_exact|].
  destruct (_match_parameterized _ _ _) as [h|] eqn:E2; [by eapply tame_match|].
  destruct (register_admin_routes route c) eqn:E3; [by eapply tame_admin|by apply tame_reply].
Qed.

(** ** The audit log *)

Definition outcome_of (status : Z) : string :=
  if is_denial status then "denied" else if 500 <=? status then "error" else "ok".

(** What a record says of its request and response. *)
Definition records (rq : HttpRequest) (status : Z) (e : AuditEvent) : Prop :=
  exists url, urlsplit (rq_target rq) = Ok url /\ ae_outcome e = outcome_of status /\
    (ae_action e, ae_resource_id e) =
      _audit_action_and_resource (rq_method rq) (route_of (u_path url)) (path_parts (route_of (u_path url))).

Lemma event_facts ts subject method route outcome detail :
  ae_outcome (event ts subject method route outcome detail) = outcome /\
  (ae_action (event ts subject method route outcome detail), ae_resource_id (event ts subject method route outcome detail)) =
    _audit_action_and_resource method route (path_parts route).
Proof. unfold event. by destruct (_audit_action_and_resource _ _ _). Qed.

Lemma limits_keep_audit g f f1 ok : service_limit g f = (f1, ok) -> audit f1 = audit f.
Proof. unfold service_limit. destruct (limiter f); [destruct (acquire _ _)|]; by intros [= <- _]. Qed.

Lemma client_keeps_audit g ip f f1 ok : client_limit g ip f = (f1, ok) -> audit f1 = audit f.
Proof.
  unfold client_limit. destruct (clients f); [destruct (String.eqb ip ""); [|destruct (check _ _ _ _)]|]; by intros [= <- _].
Qed.

Section Audit.
Context {Key : Type} (pyjwt : Pyjwt Key) (srv : Server).

Lemma jwt_status {A} (x : A + jwt_exc) status detail : jwt_result x = inr (AuthError status detail) -> status = 401.
Proof. destruct x as [a|[]]; cbn; congruence. Qed.

Lemma lift_status {A} (x : res A) status detail : lift_res x <> inr (AuthError status detail).
Proof. by destruct x. Qed.

Lemma bind_status {A B} (x : auth A) (k : A -> auth B) status detail :
  bind_auth x k = inr (AuthError status detail) ->
  x = inr (AuthError status detail) \/ exists a, x = inl a /\ k a = inr (AuthError status detail).
Proof. destruct x as [a|e]; cbn; [intros H; right; by exists a|intros [= ->]; by left]. Qed.

Lemma payload_status token s o cache status detail :
  snd (token_payload pyjwt token s o cache) = inr (AuthError status detail) -> status = 401.
Proof.
  unfold token_payload. destruct (jwt_secret s) as [[|]|]; cbn [snd]; [|apply jwt_status|].
  all: destruct (jwks_url s) as [[|]|]; cbn [snd]; try congruence.
  all: destruct (_fetch_jwks _ o cache) as [c r]; cbn [snd]; intros [H|(data & _ & H)]%bind_status; [by apply lift_status in H|].
  all: apply bind_status in H as [H|(keys & _ & H)]; [by destruct (PyJWKSet _ _)|].
  all: apply bind_status in H as [H|(header & _ & H)]; [by eapply jwt_status|].
  all: destruct (signing_key _ _); [by eapply jwt_status|congruence].
Qed.

Lemma verify_status token s o cache status detail :
  snd (verify_token pyjwt token s o cache) = inr (AuthError status detail) -> status = 401.
Proof.
  unfold verify_token. destruct (negb _); [cbn; congruence|].
  destruct (token_payload pyjwt token s o cache) as [c r] eqn:Ep. cbn [snd].
  intros [H|(d & _ & H)]%bind_status; [apply (payload_status token s o cache status detail); rewrite Ep; exact H|]. revert H. unfold claims_of.
  destruct (String.eqb _ ""); [congruence|]. destruct (negb _); [congruence|]. destruct (negb _); [congruence|].
  intros [H|(e & _ & H)]%bind_status; [by apply lift_status in H|].
  apply bind_status in H as [H|(i & _ & H)]; [by apply lift_status in H|congruence].
Qed.

Lemma roles_status claims required status detail : _check_roles claims required = inr (AuthError status detail) -> status = 403.
Proof. unfold _check_roles. destruct required; [done|]. destruct (has_role _ _); [done|]. by intros [= <- _]. Qed.

Lemma roles_keep_audit g rq route parts f f1 r :
  authorize_roles pyjwt srv g rq route parts f = (f1, r) ->
  audit f1 = audit f /\ forall status detail, r = inr (AuthError status detail) -> is_denial status = true.
Proof.
  unfold authorize_roles. destruct (_route_policy _ _ _ _) as [|role required]; [by intros [= <- <-]|].
  unfold authorize_stdlib. destruct (negb _); [by intros [= <- <-]|].
  destruct (_extract_bearer_token _) as [token|e] eqn:Et.
  - destruct (verify_token pyjwt token _ _ _) as [cache v] eqn:Ev. intros [<- <-]%pair_equal_spec. split; [done|].
    intros status detail [H|(? & _ & ?)]%bind_status; [|done]. apply bind_status in H as [H|(claims & _ & H)].
    + by rewrite (verify_status token (jwt_settings srv) (g_fetch g) (jwks f) status detail) by (by rewrite Ev, H).
    + apply bind_status in H as [H|(? & _ & ?)]; [|done]. by rewrite (roles_status _ _ _ _ H).
  - intros [= <- <-]. split; [done|]. cbn [bind_auth]. intros status detail [= ->]. unfold _extract_bearer_token in Et.
    repeat match type of Et with context[match ?x with _ => _ end] => destruct x end; by simplify_eq.
Qed.

Lemma response_record g rq r f l :
  is_denial (rs_status r) = false -> audit f = Some l -> forall url, urlsplit (rq_target rq) = Ok url ->
  exists e, audit (fst (_api_http_response srv g rq (Ok r) f)) = Some (l ++ [e])%list /\ records rq (rs_status r) e.
Proof.
  intros Hd Hl url Hu. unfold _api_http_response. unfold is_denial in Hd. rewrite Hd, Hu. eexists. split; [cbn; by rewrite Hl|].
  exists url. split; [done|]. unfold outcome_of, is_denial. rewrite Hd. apply event_facts.
Qed.

(** The record the front door writes before the answer goes out: none, or, when the server
    lacks what its mode needs, that the request was denied. *)
Definition refused_at_door (rq : HttpRequest) (status : Z) (before : list AuditEvent) : Prop :=
  before = [] \/ ~ configured srv /\ (status = 500 \/ status = 503) /\ exists e, before = [e] /\ records rq 401 e.

(** The front door writes a record only for the refusals it answers itself. *)
Lemma handle_audit g rq f f1 o l r :
  audit f = Some l -> _handle_request pyjwt srv g rq f = (f1, o) -> answers o r ->
  exists url, urlsplit (rq_target rq) = Ok url /\
    ((is_denial (rs_status r) = false /\ exists before, audit f1 = Some (l ++ before)%list /\ refused_at_door rq (rs_status r) before) \/
     (is_denial (rs_status r) = true /\ exists e, audit f1 = Some (l ++ [e])%list /\ records rq (rs_status r) e)).
Proof.
  intros Hl H Ha. unfold _handle_request, _api_http_dispatch in H.
  destruct (urlsplit (rq_target rq)) as [url|e] eqn:Eu; [|by simplify_eq; inversion Ha]. exists url. split; [done|].
  assert (Hden : forall status detail g' f', is_denial status = true -> audit f' = Some l ->
    exists e, audit (log (event (g_utc g' 0%nat) "anonymous" (rq_method rq) (route_of (u_path url)) "denied" detail) f') =
      Some (l ++ [e])%list /\ records rq status e).
  { intros status detail g' f' Hs Hl'. eexists. split; [cbn; by rewrite Hl'|]. exists url. split; [done|].
    unfold outcome_of. rewrite Hs. apply event_facts. }
  destruct (_authorize_request srv _ _ _) as [[subject|error]|e] eqn:Ea; [| |by simplify_eq; inversion Ha].
  2: { injection H as <- <-. destruct (authorize_request_error srv _ _ _ _ Ea) as (status & detail & -> & Hin).
    inversion Ha; subst. destruct Hin as [Hin|[Hc Hs]]; [right; split; [exact Hin|by apply Hden]|]. left.
    split; [by destruct Hs as [-> | ->] |]. destruct (Hden 401 (Some "bearer_auth_failed") g f eq_refl Hl) as (e & E & R).
    exists [e]. split; [exact E|]. right. split; [exact Hc|]. split; [exact Hs|by exists e]. }
  destruct (service_limit g f) as [f2 b2] eqn:E2. pose proof (limits_keep_audit _ _ _ _ E2) as K2.
  assert (Hq : forall f', audit f' = audit f -> exists before, audit f' = Some (l ++ before)%list /\ refused_at_door rq (rs_status r) before).
  { intros f' ->. exists []. rewrite app_nil_r. by split; [|left]. }
  destruct b2; cbn [negb] in H; [|injection H as <- <-; inversion Ha; subst; left; split; [done|apply Hq; congruence]].
  destruct (client_limit g _ f2) as [f3 b3] eqn:E3. pose proof (client_keeps_audit _ _ _ _ _ E3) as K3.
  destruct b3; cbn [negb] in H; [|injection H as <- <-; inversion Ha; subst; left; split; [done|apply Hq; congruence]].
  destruct (authorize_roles pyjwt srv g rq _ _ f3) as [f4 who] eqn:E4. destruct (roles_keep_audit _ _ _ _ _ _ _ E4) as [K4 D4].
  destruct who as [who|[status detail|e]]; [| |by injection H as _ <-; inversion Ha].
  - injection H as <- <-. left. split; [|apply Hq; congruence]. apply tame_route in Ha as [N1 N2]. unfold is_denial.
    destruct (Z.eqb_spec (rs_status r) 401); [done|]. by destruct (Z.eqb_spec (rs_status r) 403).
  - injection H as <- <-. right. inversion Ha; subst. specialize (D4 _ _ eq_refl). split; [exact D4|]. apply Hden; [exact D4|congruence].
Qed.
End Audit.

(** ** The theorems *)

(** C13: every call the run service and the healing loops receive comes from a request that
    may make it: in bearer mode a request that presents the server's token (only the
    reading of a run named like a static file goes without), under JWT a request whose
    token is verified and carries a role of the call; and the service never leaves its own
    reachable states, whatever requests arrive and however they interleave. *)
Theorem http_calls_permitted {Key} (pyjwt : Pyjwt Key) srv cfg f hs rq c :
  rtc (hstep pyjwt srv cfg) (serving f) hs -> In (rq, c) (handed hs) ->
  reachable cfg (core hs) /\ permitted pyjwt srv rq c.
Proof. intros H Hin. destruct (lawful_reachable pyjwt srv cfg f hs H) as [A B _ _]. split; [exact A|by apply B]. Qed.

(** C34: on a server with an audit log, a request that is answered (that is, that does not
    end with an exception) leaves exactly one record, with its action and its outcome: at
    the door when it is denied (401 or 403, and the response adds none), with its response
    otherwise.  Only a server that lacks what its authentication needs, an unsupported mode
    or the bearer mode without a token, leaves two records for the requests it refuses for
    that (500 or 503): a denial at the door, then that response as an error. *)
Theorem one_audit_record {Key} (pyjwt : Pyjwt Key) srv g rq f f1 o l r :
  audit f = Some l -> _handle_request pyjwt srv g rq f = (f1, o) -> answers o r ->
  if is_denial (rs_status r) then
    (exists e, audit f1 = Some (l ++ [e])%list /\ records rq (rs_status r) e) /\
    forall g' f2, audit (fst (_api_http_response srv g' rq (Ok r) f2)) = audit f2
  else
    (exists before, audit f1 = Some (l ++ before)%list /\ refused_at_door srv rq (rs_status r) before) /\
    forall g' f2 l2, audit f2 = Some l2 ->
      exists e, audit (fst (_api_http_response srv g' rq (Ok r) f2)) = Some (l2 ++ [e])%list /\ records rq (rs_status r) e.
Proof.
  intros Hl H Ha. destruct (handle_audit pyjwt srv g rq f f1 o l r Hl H Ha) as (url & Hu & [[Hd H1]|[Hd H1]]); rewrite Hd.
  - split; [exact H1|]. intros g' f2 l2 H2. by eapply response_record.
  - split; [exact H1|]. intros g' f2. unfold _api_http_response. unfold is_denial in Hd. by rewrite Hd.
Qed.

Lemma bearer_head c : lower_char c = "b"%char -> is_space c = false.
Proof. destruct c as [[] [] [] [] [] [] [] []]; vm_compute; congruence. Qed.

(** The header both checks read. *)
Lemma same_token header token :
  _extract_bearer_token (Some header) = inl token ->
  _non_empty_str (PStr header) = Some (strip header) /\ strip (str_drop 7 (strip header)) = token.
Proof.
  unfold _extract_bearer_token. destruct header as [|a h]; [done|]. set (s := String a h).
  destruct (cut " " s) as [[kind t]|] eqn:Ec; [|done].
  destruct (String.eqb_spec (lower kind) "bearer") as [Hk|]; [|done]. cbn [negb orb].
  destruct (String.eqb_spec (strip t) "") as [|Hne]; [done|]. intros [= <-]. apply cut_spec in Ec.
  assert (Hr : rstrip t <> "") by (intros E; by apply Hne; unfold strip; rewrite E).
  assert (Hs : strip s = kind ++ String " " (rstrip t)).
  { assert (E1 : rstrip (String " " t) = String " " (rstrip t)) by (unfold rstrip in *; cbn [rstrip_by]; by destruct (rstrip_by is_space t)).
    unfold strip. rewrite Ec. unfold rstrip at 1. rewrite rstrip_by_app; unfold rstrip in E1; rewrite E1; [|done].
    destruct kind as [|b kind]; [done|]. change (String b kind ++ String " " (rstrip_by is_space t)) with (String b (kind ++ String " " (rstrip_by is_space t))).
    unfold lstrip. cbn [lstrip_by]. rewrite (bearer_head b); [done|]. by injection Hk. }
  unfold _non_empty_str. rewrite Hs. do 6 (destruct kind as [|? kind]; [discriminate Hk|]). destruct kind; [|discriminate Hk].
  split; [done|]. change (strip (rstrip t) = strip t). unfold strip, rstrip. by rewrite rstrip_by_idem.
Qed.

Lemma permitted_same_token {Key} (pyjwt : Pyjwt Key) srv rq c :
  permitted pyjwt srv rq c -> auth_mode srv = "bearer" -> enabled (jwt_settings srv) = true -> ~ asset_read c ->
  exists token o cache claims, expected_bearer_token srv = Some token /\
    snd (verify_token pyjwt token (jwt_settings srv) o cache) = inl claims.
Proof.
  intros [Hb Hj] Hm He Ha. destruct (Hj He) as (claims & (token & o & cache & Et & Ev) & _).
  destruct Hb as [Hb|[Hb|(_ & expected & Ex & (url & value & _ & Hc & _ & Hs))]]; [congruence|done|].
  exists expected, o, cache, claims. split; [exact Ex|].
  destruct (rq_authorization rq) as [header|]; [|done]. destruct (same_token header token Et) as [E1 E2].
  unfold credentials, Http.header in Hc. rewrite E1 in Hc. injection Hc as <-. by rewrite <- Hs, E2.
Qed.

(** C36: with the bearer mode and JWT both on, the run service and the healing loops are
    reached (but for the reading of a run named like a file) only while the server's own
    bearer token is itself a JWT that verifies: any other token configured shuts out
    every caller. *)
Theorem bearer_and_jwt_same_token {Key} (pyjwt : Pyjwt Key) srv cfg f hs rq c :
  rtc (hstep pyjwt srv cfg) (serving f) hs -> In (rq, c) (handed hs) ->
  auth_mode srv = "bearer" -> enabled (jwt_settings srv) = true -> ~ asset_read c ->
  exists token o cache claims, expected_bearer_token srv = Some token /\
    snd (verify_token pyjwt token (jwt_settings srv) o cache) = inl claims.
Proof.
  intros H Hin. destruct (lawful_reachable pyjwt srv cfg f hs H) as [_ B _ _].
  apply (permitted_same_token pyjwt srv rq c). by apply B.
Qed.

(** ** Concrete servers *)

Definition no_dist : Dist := {| dist_path := []; dist_is_dir := false; dist_file _ := None; guess_type _ := None |}.

Definition quiet : Given :=
  {| g_utc _ := "2026-01-01T00:00:00Z"; g_clock _ := fzero;
     g_fetch := {| f_times := (fzero, fzero, fzero); f_answer := Err (OSError "offline"); f_raced := None |};
     g_uuid := "u"; g_dist := no_dist; g_metrics := "" |}.

(** A library that knows two tokens: an operator's and a viewer's. *)
Definition two_tokens : Pyjwt string :=
  let claims who role := [("sub", PStr who); ("roles", PList [PStr role]); ("exp", PInt 10); ("iat", PInt 1)] in
  {| decode token key algs :=
       if String.eqb token "ann" then inl (claims "ann" "operator")
       else if String.eqb token "bob" then inl (claims "bob" "viewer") else inr (InvalidTokenError "Not enough segments");
     PyJWKSet _ := inr (RuntimeError "unused"); get_unverified_header _ := inl [] |}.

Definition server (mode : string) (token secret : option string) : Server :=
  {| auth_mode := mode; expected_bearer_token := token; allow_unauthenticated_healthz := true;
     jwt_settings := {| jwt_secret := secret; jwks_url := None |}; trust_forwarded := false |}.

Definition request (method target : string) (authorization body : option string) : HttpRequest :=
  {| rq_method := method; rq_target := target; rq_authorization := authorization; rq_id := None; rq_forwarded_for := None;
     rq_forwarded_proto := None; rq_peer := "127.0.0.1"; rq_body := option_map Some body |}.

Definition door : Front := new_front None None.
Definition approval : HttpRequest := request "POST" "/v1/runs/r1/approve" (Some "Bearer ann") (Some "{}").
Definition operators_only : Server := server "off" None (Some "secret").
Definition both_modes : Server := server "bearer" (Some "ann") (Some "secret").

(** The system after [approval] has been let through in the name of [who]. *)
Definition approval_asked (who : string) : HttpSystem :=
  hand approval (OnRun (Approve "r1" [] who))
    (set_connections [{| cn_request := approval; cn_thread := 0; cn_answer := decided "r1" |}]
      (set_core (arrive demo (Approve "r1" [] who) start) (serving door))).

Lemma approval_reached srv who :
  _handle_request two_tokens srv quiet approval door = (door, Ask (OnRun (Approve "r1" [] who)) (decided "r1")) ->
  rtc (hstep two_tokens srv demo) (serving door) (approval_asked who).
Proof.
  intros H. apply rtc_once.
  by apply (h_run two_tokens srv demo quiet approval door (Approve "r1" [] who) (decided "r1") (serving door)).
Qed.

Lemma http_calls_permitted_witness : permitted two_tokens operators_only approval (OnRun (Approve "r1" [] "ann")).
Proof.
  apply (http_calls_permitted two_tokens operators_only demo door (approval_asked "ann") approval (OnRun (Approve "r1" [] "ann"))
    (approval_reached operators_only "ann" eq_refl)). by left.
Defined.

Definition bobs_approval : HttpRequest := request "POST" "/v1/runs/r1/approve" (Some "Bearer bob") (Some "{}").

Lemma one_audit_record_witness :
  exists f1 e, audit f1 = Some [e] /\ records bobs_approval 403 e.
Proof.
  exists (fst (_handle_request two_tokens operators_only quiet bobs_approval door)).
  exact (proj1 (one_audit_record two_tokens operators_only quiet bobs_approval door _ _ []
    (failure 403 "insufficient_roles: need one of ['operator', 'admin']")
    eq_refl (surjective_pairing _) (answers_reply _))).
Defined.

Lemma run_requests_routed_witness :
  exists k, snd (_handle_request two_tokens (server "off" None None) quiet
    (request "POST" "/v1/runs/run-7.a/reject" None (Some "{}")) door) = Ask (OnRun (Reject "run-7.a" [] "")) k.
Proof.
  apply (run_requests_routed two_tokens (server "off" None None) quiet
    (request "POST" "/v1/runs/run-7.a/reject" None (Some "{}")) door (Reject "run-7.a" [] "") "POST" "run-7.a" "/reject" (Some []));
    try reflexivity; [by split|]. intros d [= <-]. exists "{}". split; reflexivity.
Defined.

Lemma bearer_and_jwt_same_token_witness :
  exists token o cache claims, Some "ann" = Some token /\
    snd (verify_token two_tokens token {| jwt_secret := Some "secret"; jwks_url := None |} o cache) = inl claims.
Proof.
  apply (bearer_and_jwt_same_token two_tokens both_modes demo door (approval_asked "ann") approval (OnRun (Approve "r1" [] "ann"))
    (approval_reached both_modes "ann" eq_refl)); [by left|reflexivity|reflexivity|by intros (id & ? & _)].
Defined.

(** Behaviours worth knowing.  A misconfigured server audits a refused request twice; a
    run named like a static file is read without the token; a token that is not ASCII
    makes the request fail without a record. *)
Example misconfigured_audited_twice :
  let srv := server "bearer" None None in
  let rq := request "GET" "/v1/runs" None None in
  let '(f, o) := _handle_request two_tokens srv quiet rq door in
  match o with
  | Reply answer => option_map (List.map ae_outcome) (audit (fst (_api_http_response srv quiet rq answer f)))
  | Ask _ _ => None
  end = Some ["denied"; "error"].
Proof. reflexivity. Qed.

Example asset_named_run_is_open :
  snd (_handle_request two_tokens (server "bearer" (Some "t") None) quiet (request "GET" "/v1/runs/build.js" None None) door) =
  Ask (OnRun (GetRun "build.js")) (found 200 "run_id" "build.js").
Proof. reflexivity. Qed.

Example non_ascii_token_fails :
  _handle_request two_tokens (server "bearer" (Some "t") None) quiet
    (request "GET" "/v1/runs" (Some ("Bearer " ++ String (chr 233) "")) None) door =
  (door, Reply (Err (TypeError "comparing strings with non-ASCII characters is not supported"))).
Proof. reflexivity. Qed.

(** A viewer may cancel a run, and start a healing loop. *)
Example viewer_cancels :
  snd (_handle_request two_tokens operators_only quiet (request "POST" "/v1/runs/r1/cancel" (Some "Bearer bob") None) door) =
  Ask (OnRun (Cancel "r1")) (found 202 "run_id" "r1").
Proof. reflexivity. Qed.

Example viewer_starts_healing : exists t k,
  snd (_handle_request two_tokens operators_only quiet
    (request "POST" "/healing/start" (Some "Bearer bob") (Some ("{" ++ json_str "repo_path" ++ ": " ++ json_str "/repo" ++ "}"))) door) =
  Ask (StartHealing "/repo" t) k.
Proof. by eexists _, _. Qed.

(** The role of a vote is the one the body claims. *)
Example vote_role_is_claimed : exists k,
  snd (_handle_request two_tokens operators_only quiet
    (request "POST" "/runs/r1/vote" (Some "Bearer ann")
      (Some ("{" ++ json_str "reviewer_id" ++ ":" ++ json_str "cto" ++ "," ++ json_str "action" ++ ":" ++ json_str "approve" ++ ","
             ++ json_str "role" ++ ":" ++ json_str "security" ++ "}"))) door) =
  Ask (OnRun (Vote "r1" "cto" (Some "security") "approve" "")) k.
Proof. by eexists. Qed.
