(* ===== verification/Configuration.v ===== *)
(** * The configuration: [config.py]

    [load_config] reads the TOML file of the profile and the environment variables into
    an [AppConfig].  [env] is [os.environ.get]; what [tomllib] makes of the file and what
    pydantic-settings makes of the environment are arguments of [load_config].  A TOML
    table is a dictionary in the order of the file; dates, which no field accepts as
    anything but a text or a truth value, are outside the universe. *)
From Stdlib Require Import ZArith Lia String Ascii List Bool.
From stdpp Require Import base tactics list strings option.
From S2P Require Import Prelude PyStr PyFloat PyVal Json.
Local Open Scope string_scope.
Local Open Scope Z_scope.

Definition config_error {A : Type} (message : string) : res A := Err (ConfigError message).
Definition invalid {A : Type} (what : string) : res A := config_error ("missing/invalid " ++ what).

(** [x or None] of a text. *)
Definition or_none (s : string) : option string := if String.eqb s "" then None else Some s.
Definition or_default (s dflt : string) : string := if String.eqb s "" then dflt else s.

(** [if not test: raise ConfigError(message)]. *)
Definition require (test : bool) (message : string) : res unit := if test then Ok tt else config_error message.

Definition _is_valid_sha256_hex (s : string) : bool :=
  (String.length s =? 64)%nat
  && forallb (fun c => is_digit c || ((97 <=? ord c) && (ord c <=? 102))) (list_ascii_of_string s).

Definition is_name_char (c : ascii) : bool :=
  is_digit c || ((65 <=? ord c) && (ord c <=? 90)) || ((97 <=? ord c) && (ord c <=? 122))
  || Ascii.eqb c "_" || Ascii.eqb c "-".

(** [_NAMESPACE_RE.fullmatch]. *)
Definition _NAMESPACE_RE (s : string) : bool :=
  (1 <=? String.length s)%nat && (String.length s <=? 64)%nat && forallb is_name_char (list_ascii_of_string s).

(** ** Coercion of a field *)

Definition nonblank (s : string) : bool := negb (String.eqb (strip s) "").

Definition _require_str (tbl : dict) (key : string) : res string :=
  match dget tbl key PNone with
  | PStr s => if nonblank s then Ok s else invalid key
  | _ => invalid key
  end.

(** [except Exception]: whatever [int] raises is the same error. *)
Definition _require_int (tbl : dict) (key : string) : res Z :=
  let read v := match py_int v with Ok z => Ok z | Err _ => invalid key end in
  match dget tbl key PNone with
  | PInt z => Ok z
  | PFloat f => read (PFloat f)
  | PStr s => read (PStr (strip s))
  | _ => invalid key
  end.

Definition _require_bool (tbl : dict) (key : string) : res bool :=
  match dget tbl key PNone with PBool b => Ok b | _ => invalid key end.

Definition _get_int (tbl : dict) (key : string) (dflt : Z) : res Z :=
  if dhas key tbl then _require_int tbl key else Ok dflt.

Definition _get_bool (tbl : dict) (key : string) (dflt : bool) : res bool :=
  if dhas key tbl then _require_bool tbl key else Ok dflt.

Definition quoted (key : string) : string := sq ++ key ++ sq.

Definition _require (raw : dict) (key section : string) : res pyval :=
  match dget raw key PNone with
  | PNone => config_error ("[" ++ section ++ "] missing required key " ++ quoted key)
  | v => Ok v
  end.

Definition _require_section_str (raw : dict) (key section : string) : res string :=
  let! v := _require raw key section in
  match v with
  | PStr s => if nonblank s then Ok (strip s) else config_error ("[" ++ section ++ "] " ++ quoted key ++ " must be a non-empty string")
  | _ => config_error ("[" ++ section ++ "] " ++ quoted key ++ " must be a non-empty string")
  end.

(** [int(val)] under [except (ValueError, TypeError)]: the [OverflowError] of an
    infinity passes. *)
Definition int_field (v : pyval) (message : string) : res Z :=
  let read v := try_except (py_int v) is_type_or_value_error (fun _ => config_error message) in
  match v with
  | PInt _ | PFloat _ => read v
  | PStr s => read (PStr (strip s))
  | _ => config_error message
  end.

Definition _require_section_int (raw : dict) (key section : string) : res Z :=
  let! v := _require raw key section in int_field v ("[" ++ section ++ "] " ++ quoted key ++ " must be an integer").

Definition _opt_str (raw : dict) (key dflt : string) : res string :=
  match dget raw key PNone with
  | PNone => Ok dflt
  | PStr s => Ok (strip s)
  | _ => config_error (quoted key ++ " must be a string")
  end.

Definition _opt_int (raw : dict) (key : string) (dflt : Z) : res Z :=
  match dget raw key PNone with
  | PNone => Ok dflt
  | v => int_field v (quoted key ++ " must be an integer")
  end.

Definition _opt_bool (raw : dict) (key : string) (dflt : bool) : res bool :=
  match dget raw key PNone with
  | PNone => Ok dflt
  | PBool b => Ok b
  | _ => config_error (quoted key ++ " must be a boolean")
  end.

(** A text field, stripped; [None] when it is absent or blank. *)
Definition opt_text (raw : dict) (key what : string) : res (option string) :=
  match dget raw key PNone with
  | PNone => Ok None
  | PStr s => Ok (or_none (strip s))
  | _ => invalid what
  end.

Definition _optional_str_tuple (tbl : dict) (key : string) : res (list string) :=
  match dget tbl key (PList []) with
  | PNone => Ok []
  | PList l => map_res (fun v => match v with
                                 | PStr s => if nonblank s then Ok (strip s) else invalid key
                                 | _ => invalid key
                                 end) l
  | _ => invalid key
  end.

Definition _parse_float (v : pyval) (dflt : float) : res float :=
  match v with
  | PInt _ | PFloat _ => num_to_float v
  | PStr s => try_except (py_float (PStr (strip s))) is_value_error (fun _ => Ok dflt)
  | _ => Ok dflt
  end.

(** A text that may not be blank, stripped. *)
Definition stripped_text (v : pyval) (what : string) : res string :=
  match v with
  | PStr s => if nonblank s then Ok (strip s) else invalid what
  | _ => invalid what
  end.

Definition int_from (least : Z) (v : pyval) (what : string) : res Z :=
  match v with
  | PInt z => let! _ := require (least <=? z) (what ++ " must be >= " ++ str_of_Z least) in Ok z
  | _ => invalid what
  end.

(** ** The records *)

Record Budgets := {
  max_loops : Z; max_tool_calls_per_loop : Z; max_patch_bytes : Z; tool_timeout_s : Z;
  stable_prefix_tokens : Z; working_set_tokens : Z; tool_result_summary_chars : Z }.

Record Policy := { network_default : string; require_approval_for_mutations : bool; allowed_write_paths : list string }.

Record Runner := { base_url : string; root_dir : string; api_key : option string }.

Record MCPServerConfig := {
  command : string; args : list string; cwd : option string; mcp_env : list (string * string); timeout_s : Z;
  schema_hash : option string }.

Record MCPConfig := { mcp_enabled : bool; servers : list (string * MCPServerConfig) }.

Record Trace := { trace_enabled : bool; output_dir : string; capture_model_metadata : bool }.

Record RemoteAPIConfig := {
  auth_mode : string; bearer_token : option string; allow_unauthenticated_healthz : bool;
  trust_forwarded_headers : bool; access_log_enabled : bool; run_store_path : option string; rate_limit_rps : Z;
  procedure_cache_path : option string; default_namespace : string; jwt_secret : option string; jwks_url : option string }.

Record Checkpoint := {
  cp_enabled : bool; db_path : string; namespace : string; thread_prefix : string; backend : string;
  redis_url : string; postgres_dsn : string; redis_ttl_seconds : Z }.

Record ModelEndpoint := { provider : string; model : string; temperature : float }.

Record ModelRouting := {
  local_provider : string; fallback_task_classes : list string; interactive_context_limit : Z;
  deep_planning_context_limit : Z; recovery_retry_threshold : Z; default_cache_affinity : string }.

(** [DigitalOceanServerless] and [OpenAICompatibleServerless]: the same fields. *)
Record Serverless := { sl_base_url : string; sl_api_key : option string; sl_timeout_s : Z }.

Record Models := {
  router : ModelEndpoint; planner : ModelEndpoint; routing : ModelRouting; digitalocean : Serverless;
  openai_compatible : Serverless }.

Record VericodingConfig := { vc_enabled : bool; extensions : list string }.

Record SlaEntry := { model_id : string; threshold_p95_s : float; fallback_model_id : string }.

Record AuditConfig := {
  log_path : string; sink_type : option string; s3_bucket : option string; s3_prefix : string; s3_region : string;
  gcs_bucket : option string; gcs_prefix : string }.

Record AppConfig := {
  profile : string; models : Models; budgets : Budgets; policy : Policy; runner : Runner; mcp : MCPConfig;
  trace : Trace; remote_api : RemoteAPIConfig; checkpoint : Checkpoint; vericoding : VericodingConfig;
  audit : AuditConfig; sla : list SlaEntry }.

(** The environment overlays, as pydantic-settings reads them. *)
Record RunnerSettings := { rs_base_url : string; rs_timeout : float; rs_api_key : string }.
Record AuthSettings := { as_mode : string; as_jwks_url : string; as_secret : string }.
Record CheckpointSettings := {
  cs_backend : string; cs_db_path : string; cs_namespace : string; cs_thread_prefix : string; cs_redis_url : string;
  cs_redis_ttl_seconds : Z }.

Section Environment.
Context (env : string -> option string).

(** [os.environ.get(name, "").strip()]. *)
Definition env_text (name : string) : string := strip (default "" (env name)).

Definition _opt_str_or_env (raw : dict) (key env_var : string) : res (option string) :=
  match dget raw key PNone with
  | PNone => Ok (match env env_var with Some s => or_none (strip s) | None => None end)
  | PStr s => Ok (or_none (strip s))
  | _ => invalid key
  end.

Definition _opt_int_or_env (raw : dict) (key env_var : string) (dflt : Z) : res Z :=
  match dget raw key PNone with
  | PNone =>
      match env env_var with
      | Some s => try_except (py_int (PStr (strip s))) is_value_error (fun _ => invalid env_var)
      | None => Ok dflt
      end
  | PInt z => Ok z
  | _ => invalid key
  end.

Definition _env_bool (name : string) (dflt : bool) : res bool :=
  match env name with
  | None => Ok dflt
  | Some raw =>
      let value := lower (strip raw) in
      if str_in value ["1"; "true"; "yes"; "on"] then Ok true
      else if str_in value ["0"; "false"; "no"; "off"] then Ok false
      else invalid ("env " ++ name)
  end.

(** ** The models *)

(** [key.upper()], of the two keys. *)
Definition upper_char (c : ascii) : ascii := if (97 <=? ord c) && (ord c <=? 122) then chr (ord c - 32) else c.

(** A text field with its default; the default also when it is blank or no text. *)
Definition text_or (tbl : dict) (key dflt : string) : string :=
  match dget tbl key (PStr dflt) with PStr s => or_default (strip s) dflt | _ => dflt end.

Definition _parse_model_endpoint (models_raw : dict) (key : string) : res ModelEndpoint :=
  match dget models_raw key PNone with
  | PDict section =>
      let! temp := _parse_float (dget section "temperature" (PFloat fzero)) fzero in
      let prefix := "LG_" ++ str_map upper_char key in
      Ok {| provider := or_default (env_text (prefix ++ "_PROVIDER")) (text_or section "provider" "local");
            model := or_default (env_text (prefix ++ "_MODEL")) (text_or section "model" "deterministic");
            temperature := temp |}
  | _ => Ok {| provider := "local"; model := "deterministic"; temperature := fzero |}
  end.

Definition default_classes : list string := ["summarization"; "lint_reflection"; "context_condensation"].

Definition task_classes (raw : pyval) : list string :=
  match flat_map (fun v => match v with PStr s => if nonblank s then [strip s] else [] | _ => [] end) (list_or_empty raw) with
  | [] => default_classes
  | classes => classes
  end.

Definition _parse_model_routing (models_raw : dict) : res ModelRouting :=
  match dget models_raw "routing" PNone with
  | PDict r =>
      let! interactive := _get_int r "interactive_context_limit" 1800 in
      let! deep := _get_int r "deep_planning_context_limit" 3200 in
      let! retries := _get_int r "recovery_retry_threshold" 1 in
      let! _ := require (1 <=? interactive) "models.routing.interactive_context_limit must be >= 1" in
      let! _ := require (interactive <=? deep)
        "models.routing.deep_planning_context_limit must be >= models.routing.interactive_context_limit" in
      let! _ := require (0 <=? retries) "models.routing.recovery_retry_threshold must be >= 0" in
      Ok {| local_provider := text_or r "local_provider" "local";
            fallback_task_classes := task_classes (dget r "fallback_task_classes" (PList []));
            interactive_context_limit := interactive; deep_planning_context_limit := deep;
            recovery_retry_threshold := retries; default_cache_affinity := text_or r "default_cache_affinity" "workspace" |}
  | _ => Ok {| local_provider := "local"; fallback_task_classes := default_classes; interactive_context_limit := 1800;
               deep_planning_context_limit := 3200; recovery_retry_threshold := 1; default_cache_affinity := "workspace" |}
  end.

Definition is_http (url : string) : bool := startswith url "http://" || startswith url "https://".

(** [os.environ.get(a) or os.environ.get(b)]. *)
Definition env_or (a b : string) : option string :=
  match env a with Some s => if String.eqb s "" then env b else Some s | None => env b end.

(** The body of the two parsers, which differ in the names. *)
Definition parse_serverless (name base env_a env_b : string) (models_raw : dict) : res Serverless :=
  let field x := "models." ++ name ++ "." ++ x in
  let section := dict_or_empty (dget models_raw name PNone) in
  let! url := match dget section "base_url" (PStr base) with
              | PStr s => if nonblank s then Ok (rstrip_by (Ascii.eqb "/") (strip s)) else invalid (field "base_url")
              | _ => invalid (field "base_url")
              end in
  let! _ := require (is_http url) (field "base_url must start with http:// or https://") in
  let! key := match dget section "api_key" PNone with
              | PNone => Ok (env_or env_a env_b)
              | PStr s => Ok (or_none (strip s))
              | _ => invalid (field "api_key")
              end in
  let! timeout := int_from 1 (dget section "timeout_s" (PInt 60)) (field "timeout_s") in
  Ok {| sl_base_url := url; sl_api_key := match key with Some k => or_none (strip k) | None => None end; sl_timeout_s := timeout |}.

Definition _parse_digitalocean_serverless : dict -> res Serverless :=
  parse_serverless "digitalocean" "https://inference.do-ai.run/v1" "MODEL_ACCESS_KEY" "DIGITAL_OCEAN_MODEL_ACCESS_KEY".

Definition _parse_openai_compatible_serverless : dict -> res Serverless :=
  parse_serverless "openai_compatible" "https://api.openai.com/v1" "OPENAI_COMPATIBLE_API_KEY" "MODEL_ACCESS_KEY".

(** ** The sections of [load_config] *)

Definition table (v : pyval) (name : string) : res dict := match v with PDict d => Ok d | _ => invalid name end.

Definition load_budgets (raw : dict) : res Budgets :=
  let! loops := _require_int raw "max_loops" in
  let! calls := _require_int raw "max_tool_calls_per_loop" in
  let! patch := _require_int raw "max_patch_bytes" in
  let! timeout := _require_int raw "tool_timeout_s" in
  let! prefix := _get_int raw "stable_prefix_tokens" 1600 in
  let! working := _get_int raw "working_set_tokens" 1600 in
  let! summary := _get_int raw "tool_result_summary_chars" 480 in
  let! _ := require (1 <=? loops) "budgets.max_loops must be >= 1" in
  let! _ := require (0 <=? calls) "budgets.max_tool_calls_per_loop must be >= 0" in
  let! _ := require (1 <=? patch) "budgets.max_patch_bytes must be >= 1" in
  let! _ := require (1 <=? timeout) "budgets.tool_timeout_s must be >= 1" in
  let! _ := require (1 <=? prefix) "budgets.stable_prefix_tokens must be >= 1" in
  let! _ := require (1 <=? working) "budgets.working_set_tokens must be >= 1" in
  let! _ := require (80 <=? summary) "budgets.tool_result_summary_chars must be >= 80" in
  Ok {| max_loops := loops; max_tool_calls_per_loop := calls; max_patch_bytes := patch; tool_timeout_s := timeout;
        stable_prefix_tokens := prefix; working_set_tokens := working; tool_result_summary_chars := summary |}.

Definition load_models (raw : dict) : res Models :=
  let! r := _parse_model_endpoint raw "router" in
  let! p := _parse_model_endpoint raw "planner" in
  let! m := _parse_model_routing raw in
  let! d := _parse_digitalocean_serverless raw in
  let! o := _parse_openai_compatible_serverless raw in
  Ok {| router := r; planner := p; routing := m; digitalocean := d; openai_compatible := o |}.

Definition load_policy (raw : dict) : res Policy :=
  let! network := _require_str raw "network_default" in
  let! approval := _require_bool raw "require_approval_for_mutations" in
  let! paths := _optional_str_tuple raw "allowed_write_paths" in
  let! _ := require (str_in network ["allow"; "deny"]) "policy.network_default must be one of: allow, deny" in
  Ok {| network_default := network; require_approval_for_mutations := approval; allowed_write_paths := paths |}.

Definition load_runner (raw : dict) : res Runner :=
  let! key := match dget raw "api_key" PNone with
              | PNone => Ok (match env "LG_RUNNER_API_KEY" with Some s => or_none (strip s) | None => None end)
              | PStr s => Ok (or_none (strip s))
              | _ => invalid "runner.api_key"
              end in
  let! url := if String.eqb (env_text "LG_RUNNER_BASE_URL") "" then _require_str raw "base_url"
              else Ok (env_text "LG_RUNNER_BASE_URL") in
  let! root := _require_str raw "root_dir" in
  let! _ := require (is_http url) "runner.base_url must start with http:// or https://" in
  Ok {| base_url := url; root_dir := root; api_key := key |}.

Definition load_schema_hash (v : pyval) (what : string) : res (option string) :=
  match v with
  | PNone => Ok None
  | PStr s =>
      let value := lower (strip s) in
      let! _ := require (String.eqb value "" || _is_valid_sha256_hex value)
        (what ++ " must be a 64-char lowercase hex SHA-256 or absent") in
      Ok (or_none value)
  | _ => invalid what
  end.

(** One entry of [mcp.servers], with the name it is stored under. *)
Definition load_server (kv : string * pyval) : res (string * MCPServerConfig) :=
  let '(name, data) := kv in
  let field x := "mcp.servers." ++ name ++ x in
  let! _ := if nonblank name then Ok tt else invalid "mcp.servers key" in
  let! d := table data ("mcp.servers." ++ name) in
  let! cmd := stripped_text (dget d "command" PNone) (field ".command") in
  let! args_raw := match dget d "args" (PList []) with PList l => Ok l | _ => invalid (field ".args") end in
  let! argv := map_res (fun v => match v with PStr s => Ok s | _ => invalid (field ".args entry") end) args_raw in
  let! dir := opt_text d "cwd" (field ".cwd") in
  let! env_raw := table (dget d "env" (PDict [])) (field ".env") in
  let! vars := map_res (fun kv => match snd kv with PStr s => Ok (fst kv, s) | _ => invalid (field ".env entry") end) env_raw in
  let! timeout := int_from 1 (dget d "timeout_s" (PInt 20)) (field ".timeout_s") in
  let! hash := load_schema_hash (dget d "schema_hash" PNone) (field ".schema_hash") in
  Ok (strip name, {| command := cmd; args := argv; cwd := dir; mcp_env := vars; timeout_s := timeout; schema_hash := hash |}).

Definition load_mcp (raw : dict) : res MCPConfig :=
  let! on := match dget raw "enabled" (PBool false) with PBool b => Ok b | _ => invalid "mcp.enabled" end in
  let! entries := table (dget raw "servers" (PDict [])) "mcp.servers" in
  let! loaded := fold_res (fun acc kv => let! s := load_server kv in Ok (dset (fst s) (snd s) acc)) [] entries in
  Ok {| mcp_enabled := on; servers := loaded |}.

Definition load_trace (raw : dict) : Trace :=
  {| trace_enabled := truthy (dget raw "enabled" (PBool false));
     output_dir := py_str (dget raw "output_dir" (PStr "artifacts/runs"));
     capture_model_metadata := truthy (dget raw "capture_model_metadata" (PBool true)) |}.

Definition load_auth_mode (raw : dict) : res string :=
  match dget raw "auth_mode" (PStr (default "off" (env "LG_REMOTE_API_AUTH_MODE"))) with
  | PStr s =>
      let mode := or_default (lower (strip s)) "off" in
      let! _ := require (str_in mode ["off"; "bearer"]) "remote_api.auth_mode must be one of: off, bearer" in
      Ok mode
  | _ => invalid "remote_api.auth_mode"
  end.

Definition load_namespace (raw : dict) : res string :=
  let! ns := match dget raw "default_namespace" PNone with
             | PNone => Ok (strip (default "" (env "LG_REMOTE_API_DEFAULT_NAMESPACE")))
             | PStr s => Ok (strip s)
             | _ => invalid "remote_api.default_namespace"
             end in
  let! _ := require (String.eqb ns "" || _NAMESPACE_RE ns) "remote_api.default_namespace must match [A-Za-z0-9_-]{1,64} or be empty" in
  Ok ns.

(** A flag whose default comes from the environment, which is read first. *)
Definition env_flag (raw : dict) (key env_var : string) (dflt : bool) : res bool :=
  let! dflt := _env_bool env_var dflt in _get_bool raw key dflt.

Definition load_remote_api (raw : dict) : res RemoteAPIConfig :=
  let! mode := load_auth_mode raw in
  let! token := _opt_str_or_env raw "bearer_token" "LG_REMOTE_API_BEARER_TOKEN" in
  let! _ := require (match token with Some _ => true | None => negb (String.eqb mode "bearer") end)
    "remote_api.bearer_token is required when remote_api.auth_mode=bearer" in
  let! store := _opt_str_or_env raw "run_store_path" "LG_REMOTE_API_RUN_STORE_PATH" in
  let! rps := _opt_int_or_env raw "rate_limit_rps" "LG_REMOTE_API_RATE_LIMIT_RPS" 0 in
  let! _ := require (negb (negb (rps =? 0) && (rps <? 1))) "remote_api.rate_limit_rps must be 0 (disabled) or >= 1" in
  let! cache := _opt_str_or_env raw "procedure_cache_path" "LG_REMOTE_API_PROCEDURE_CACHE_PATH" in
  let! ns := load_namespace raw in
  let! secret := _opt_str_or_env raw "jwt_secret" "JWT_SECRET" in
  let! jwks := _opt_str_or_env raw "jwks_url" "JWKS_URL" in
  let! healthz := env_flag raw "allow_unauthenticated_healthz" "LG_REMOTE_API_ALLOW_UNAUTHENTICATED_HEALTHZ" true in
  let! trust := env_flag raw "trust_forwarded_headers" "LG_REMOTE_API_TRUST_FORWARDED_HEADERS" false in
  let! access := env_flag raw "access_log_enabled" "LG_REMOTE_API_ACCESS_LOG_ENABLED" true in
  Ok {| auth_mode := mode; bearer_token := token; allow_unauthenticated_healthz := healthz; trust_forwarded_headers := trust;
        access_log_enabled := access; run_store_path := store; rate_limit_rps := rps; procedure_cache_path := cache;
        default_namespace := ns; jwt_secret := secret; jwks_url := jwks |}.

Definition _BACKENDS : list string := ["sqlite"; "redis"; "postgres"].

(** A text that may not be blank. *)
Definition checkpoint_text (raw : dict) (key dflt : string) : res string :=
  let! s := _opt_str raw key dflt in
  if String.eqb s "" then invalid ("checkpoint." ++ key) else Ok s.

Definition load_checkpoint (raw : dict) : res Checkpoint :=
  let! on := _opt_bool raw "enabled" true in
  let! path := checkpoint_text raw "db_path" "artifacts/checkpoints/langgraph.sqlite" in
  let! ns := checkpoint_text raw "namespace" "main" in
  let! prefix := checkpoint_text raw "thread_prefix" "lg-orch" in
  let! name := _opt_str raw "backend" "sqlite" in
  let chosen := or_default (lower name) "sqlite" in
  let! _ := require (str_in chosen _BACKENDS) "checkpoint.backend must be one of: sqlite, redis, postgres" in
  let! url := _opt_str raw "redis_url" "redis://localhost:6379/0" in
  let! dsn := _opt_str raw "postgres_dsn" "" in
  let! ttl := _opt_int raw "redis_ttl_seconds" 86400 in
  let! _ := require (1 <=? ttl) "checkpoint.redis_ttl_seconds must be >= 1" in
  Ok {| cp_enabled := on; db_path := path; namespace := ns; thread_prefix := prefix; backend := chosen;
        redis_url := or_default url "redis://localhost:6379/0"; postgres_dsn := dsn; redis_ttl_seconds := ttl |}.

Definition load_vericoding (raw : dict) : res VericodingConfig :=
  let! on := _get_bool raw "enabled" false in
  let! exts := _optional_str_tuple raw "extensions" in
  Ok {| vc_enabled := on; extensions := match exts with [] => [".rs"] | _ => exts end |}.

Definition load_sink_type (raw : dict) : res (option string) :=
  match dget raw "sink_type" PNone with
  | PNone => Ok None
  | PStr s =>
      let v := lower (strip s) in
      let! _ := require (String.eqb v "" || str_in v ["s3"; "gcs"]) "audit.sink_type must be one of: s3, gcs or absent" in
      Ok (or_none v)
  | _ => invalid "audit.sink_type"
  end.

Definition load_audit (raw : dict) : res AuditConfig :=
  let text key dflt := let! s := _opt_str raw key dflt in Ok (or_default s dflt) in
  let! path := text "log_path" "audit.jsonl" in
  let! sink := load_sink_type raw in
  let! bucket := opt_text raw "s3_bucket" "audit.s3_bucket" in
  let! prefix := text "s3_prefix" "audit" in
  let! region := text "s3_region" "us-east-1" in
  let! gbucket := opt_text raw "gcs_bucket" "audit.gcs_bucket" in
  let! gprefix := text "gcs_prefix" "audit" in
  Ok {| log_path := path; sink_type := sink; s3_bucket := bucket; s3_prefix := prefix; s3_region := region;
        gcs_bucket := gbucket; gcs_prefix := gprefix |}.

Definition load_sla_entry (idx : nat) (raw : pyval) : res SlaEntry :=
  let at_ := "sla.entries[" ++ str_of_Z (Z.of_nat idx) ++ "]" in
  let id key d := stripped_text (dget d key PNone) (at_ ++ "." ++ key) in
  let! d := table raw at_ in
  let! m := id "model_id" d in
  let! threshold := _parse_float (dget d "threshold_p95_s" PNone) (float_of_Z (-1)) in
  let! _ := if fltb threshold fzero then invalid (at_ ++ ".threshold_p95_s") else Ok tt in
  let! f := id "fallback_model_id" d in
  Ok {| model_id := m; threshold_p95_s := threshold; fallback_model_id := f |}.

Fixpoint load_sla_entries (idx : nat) (l : list pyval) : res (list SlaEntry) :=
  match l with
  | [] => Ok []
  | raw :: rest => let! e := load_sla_entry idx raw in let! es := load_sla_entries (S idx) rest in Ok (e :: es)
  end.

(** A section that is no table has no entries. *)
Definition load_sla (raw : pyval) : res (list SlaEntry) :=
  match raw with
  | PDict d => match dget d "entries" (PList []) with PList l => load_sla_entries 0 l | _ => invalid "sla.entries" end
  | _ => Ok []
  end.

(** ** The overlays: the environment wins over the file *)

Definition overlay (s dflt : string) : string := if String.eqb s "" then dflt else s.

Definition overlay_runner (s : RunnerSettings) (r : Runner) : Runner :=
  {| base_url := overlay (rs_base_url s) (base_url r); root_dir := root_dir r;
     api_key := if String.eqb (rs_api_key s) "" then api_key r else Some (rs_api_key s) |}.

Definition overlay_auth (s : AuthSettings) (r : RemoteAPIConfig) : res RemoteAPIConfig :=
  let! _ := require (String.eqb (as_mode s) "" || str_in (as_mode s) ["off"; "bearer"]) "LG_AUTH_MODE must be one of: off, bearer" in
  Ok {| auth_mode := overlay (as_mode s) (auth_mode r); bearer_token := bearer_token r;
        allow_unauthenticated_healthz := allow_unauthenticated_healthz r;
        trust_forwarded_headers := trust_forwarded_headers r; access_log_enabled := access_log_enabled r;
        run_store_path := run_store_path r; rate_limit_rps := rate_limit_rps r; procedure_cache_path := procedure_cache_path r;
        default_namespace := default_namespace r;
        jwt_secret := if String.eqb (as_secret s) "" then jwt_secret r else Some (as_secret s);
        jwks_url := if String.eqb (as_jwks_url s) "" then jwks_url r else Some (as_jwks_url s) |}.

Definition overlay_checkpoint (s : CheckpointSettings) (c : Checkpoint) : res Checkpoint :=
  let! _ := require (String.eqb (cs_backend s) "" || str_in (cs_backend s) _BACKENDS)
    "LG_CHECKPOINT_BACKEND must be one of: sqlite, redis, postgres" in
  Ok {| cp_enabled := cp_enabled c; db_path := overlay (cs_db_path s) (db_path c);
        namespace := overlay (cs_namespace s) (namespace c); thread_prefix := overlay (cs_thread_prefix s) (thread_prefix c);
        backend := overlay (cs_backend s) (backend c); redis_url := overlay (cs_redis_url s) (redis_url c);
        postgres_dsn := postgres_dsn c;
        redis_ttl_seconds := if 0 <? cs_redis_ttl_seconds s then cs_redis_ttl_seconds s else redis_ttl_seconds c |}.

(** ** [load_config] *)

Definition profile_name : string := or_default (strip (default "dev" (env "LG_PROFILE"))) "dev".
Definition cfg_path (repo_root : string) : string := repo_root ++ "/configs/runtime." ++ profile_name ++ ".toml".

(** [toml path] is [tomllib] on the file: [Ok None] is its [TOMLDecodeError], [Err e] what
    reading the file raised.  The tables are checked before any is read. *)
Definition load_config (repo_root : string) (toml : string -> res (option dict)) (runner_s : res RunnerSettings)
    (auth_s : res AuthSettings) (cp_s : res CheckpointSettings) : res AppConfig :=
  let! parsed := toml (cfg_path repo_root) in
  let! raw := match parsed with Some d => Ok d | None => config_error ("invalid toml: " ++ cfg_path repo_root) end in
  let required name := table (dget raw name PNone) name in
  let optional name := table (dget raw name (PDict [])) name in
  let! models_raw := optional "models" in
  let! budgets_raw := required "budgets" in
  let! policy_raw := required "policy" in
  let! runner_raw := required "runner" in
  let! mcp_raw := optional "mcp" in
  let! trace_raw := optional "trace" in
  let! remote_api_raw := optional "remote_api" in
  let! checkpoint_raw := optional "checkpoint" in
  let! vericoding_raw := optional "vericoding" in
  let! audit_raw := optional "audit" in
  let! b := load_budgets budgets_raw in
  let! m := load_models models_raw in
  let! p := load_policy policy_raw in
  let! r := load_runner runner_raw in
  let! tools := load_mcp mcp_raw in
  let! api := load_remote_api remote_api_raw in
  let! cp := load_checkpoint checkpoint_raw in
  let! vc := load_vericoding vericoding_raw in
  let! au := load_audit audit_raw in
  let! limits := load_sla (dget raw "sla" (PDict [])) in
  let! rs := runner_s in
  let! auth := auth_s in
  let! api := overlay_auth auth api in
  let! cs := cp_s in
  let! cp := overlay_checkpoint cs cp in
  Ok {| profile := profile_name; models := m; budgets := b; policy := p; runner := overlay_runner rs r; mcp := tools;
        trace := load_trace trace_raw; remote_api := api; checkpoint := cp; vericoding := vc; audit := au; sla := limits |}.

End Environment.
