(* ===== verification/Sqlite.v ===== *)
(** * Tables of [sqlite3]

    What the stores use of the database: tables whose rows are dictionaries from the
    columns to [NULL] ([PNone]), integers and texts, in the order of insertion; the
    binding of parameters, the affinity of columns, defaults and [NOT NULL]; the conflict
    clauses of [INSERT]; [LIKE]; [ORDER BY] on one or several columns.  A value a column
    would convert in a way not written out here is [Unmodelled].  Rows that [ORDER BY]
    leaves tied come in the order of insertion. *)
From Stdlib Require Import ZArith Lia String Ascii List Bool Sorted.
From stdpp Require Import base tactics list strings option.
From S2P Require Import Prelude PyStr PyFloat PyVal.
Local Open Scope string_scope.
Local Open Scope Z_scope.

Inductive affinity := TEXT | INTEGER.

(** A column: its name, its affinity, whether it is [NOT NULL], its default. *)
Record column := { col_name : string; col_affinity : affinity; not_null : bool; col_default : pyval }.

Definition text_column (name : string) : column :=
  {| col_name := name; col_affinity := TEXT; not_null := true; col_default := PNone |}.
Definition text_default (name dflt : string) : column :=
  {| col_name := name; col_affinity := TEXT; not_null := true; col_default := PStr dflt |}.
Definition text_null (name : string) : column :=
  {| col_name := name; col_affinity := TEXT; not_null := false; col_default := PNone |}.
Definition integer_default (name : string) (dflt : Z) : column :=
  {| col_name := name; col_affinity := INTEGER; not_null := true; col_default := PInt dflt |}.
Definition integer_null (name : string) : column :=
  {| col_name := name; col_affinity := INTEGER; not_null := false; col_default := PNone |}.

Definition int64 (z : Z) : bool := (- 2 ^ 63 <=? z) && (z <? 2 ^ 63).

(** The binding of the [i]-th parameter of a statement. *)
Definition adapt (i : nat) (v : pyval) : res pyval :=
  match v with
  | PNone | PStr _ => Ok v
  | PBool b => Ok (PInt (if b then 1 else 0))
  | PInt z => if int64 z then Ok v else Err (OverflowError "Python int too large to convert to SQLite INTEGER")
  | PFloat _ => Err (Unmodelled "REAL")
  | PList _ | PTuple _ | PDict _ =>
      Err (DatabaseError ("Error binding parameter " ++ str_of_Z (Z.of_nat i) ++ ": type '" ++ type_name v ++ "' is not supported"))
  end.

Definition has_digit (s : string) : bool := existsb is_digit (list_ascii_of_string s).

(** A text without a digit is no number. *)
Definition store_as (a : affinity) (v : pyval) : res pyval :=
  match a, v with
  | TEXT, PInt z => Ok (PStr (str_of_Z z))
  | INTEGER, PStr s => if has_digit s then Err (Unmodelled "numeric text") else Ok v
  | _, _ => Ok v
  end.

(** The parameters of a statement, by the column they are for. *)
Fixpoint bind_params (i : nat) (data : dict) : res dict :=
  match data with
  | [] => Ok []
  | (k, v) :: rest => let! v := adapt i v in let! rest := bind_params (S i) rest in Ok ((k, v) :: rest)
  end.

(** The value of a column of a new row; a [NULL] that [NOT NULL] forbids becomes the
    default ([OR REPLACE]) or is an error. *)
Definition column_value (tbl : string) (data : dict) (c : column) : res (string * pyval) :=
  let! v := match dlookup (col_name c) data with Some v => store_as (col_affinity c) v | None => Ok (col_default c) end in
  match v with
  | PNone =>
      if not_null c then
        match col_default c with
        | PNone => Err (DatabaseError ("NOT NULL constraint failed: " ++ tbl ++ "." ++ col_name c))
        | d => Ok (col_name c, d)
        end
      else Ok (col_name c, PNone)
  | _ => Ok (col_name c, v)
  end.

Definition new_row (tbl : string) (cols : list column) (data : dict) : res dict :=
  let! data := bind_params 1 data in map_res (column_value tbl data) cols.

Definition cell (r : dict) (col : string) : pyval := dget r col PNone.

(** [a = b] of SQL, of a text with a cell. *)
Definition is_text (s : string) (v : pyval) : bool := match v with PStr t => String.eqb s t | _ => false end.
Definition sql_eq (v w : pyval) : bool :=
  match v, w with PStr a, PStr b => String.eqb a b | PInt a, PInt b => Z.eqb a b | _, _ => false end.

(** Two rows agree on the columns of a key, none of them [NULL]. *)
Definition same_key (key : list string) (r r' : dict) : bool := forallb (fun c => sql_eq (cell r c) (cell r' c)) key.

Definition insert_or_replace (key : list string) (r : dict) (rows : list dict) : list dict :=
  List.filter (fun r' => negb (same_key key r r')) rows ++ [r].

(** ** [LIKE]: [%] and [_], letters of ASCII in either case *)

Definition ascii_lower (c : ascii) : ascii := if (65 <=? ord c) && (ord c <=? 90) then chr (ord c + 32) else c.

Fixpoint like (p : string) : string -> bool :=
  match p with
  | EmptyString => fun s => String.eqb s ""
  | String c p' =>
      if Ascii.eqb c "%" then
        fix any (s : string) : bool := like p' s || match s with String _ s' => any s' | EmptyString => false end
      else fun s =>
        match s with
        | String d s' => (Ascii.eqb c "_" || Ascii.eqb (ascii_lower c) (ascii_lower d)) && like p' s'
        | EmptyString => false
        end
  end.

Definition like_cell (p : string) (v : pyval) : bool := match v with PStr s => like p s | _ => false end.

(** ** [ORDER BY ... DESC] *)

Definition cell_lt (v w : pyval) : bool :=
  match v, w with
  | PNone, PNone => false | PNone, _ => true
  | PInt a, PInt b => a <? b | PInt _, PStr _ => true
  | PStr a, PStr b => str_lt a b
  | _, _ => false
  end.

(** [a] comes before [b]. *)
Fixpoint desc (cols : list string) (a b : dict) : bool :=
  match cols with
  | [] => false
  | c :: rest =>
      if cell_lt (cell b c) (cell a c) then true
      else if cell_lt (cell a c) (cell b c) then false else desc rest a b
  end.

Definition order_by_desc (cols : list string) (rows : list dict) : list dict := py_sorted (desc cols) rows.

(** [LIMIT n]: a negative one is none. *)
Definition limit_to {A : Type} (n : Z) (l : list A) : list A := if n <? 0 then l else firstn (Z.to_nat n) l.
