(* ===== verification/RunStore.v ===== *)
(** * The SQLite run store: [RunStore] of [run_store.py]

    Its three tables over [Sqlite].  A store is a connection with a namespace: the
    operations take the namespace and the database, which two stores may share.  The
    full-text indexes are SQLite's: [fts] and [bm25] give their matches, [None] when FTS5
    is missing. *)
From Stdlib Require Import ZArith Lia String Ascii List Bool.
From stdpp Require Import base tactics list strings option.
From S2P Require Import Prelude PyStr PyFloat PyVal Sqlite.
Local Open Scope string_scope.
Local Open Scope Z_scope.

Definition _COLUMNS : list string :=
  ["run_id"; "request"; "status"; "created_at"; "started_at"; "finished_at"; "exit_code"; "trace_out_dir"; "trace_path";
   "request_id"; "auth_subject"; "client_ip"; "thread_id"; "checkpoint_id"; "pending_approval"; "pending_approval_summary";
   "namespace"; "final"].

Definition _CREATE_TABLE : list column :=
  [text_null "run_id"; text_column "request"; text_column "status"; text_column "created_at"; text_column "started_at";
   text_null "finished_at"; integer_null "exit_code"; text_column "trace_out_dir"; text_column "trace_path";
   text_default "request_id" ""; text_default "auth_subject" ""; text_default "client_ip" ""; text_default "thread_id" "";
   text_default "checkpoint_id" ""; integer_default "pending_approval" 0; text_default "pending_approval_summary" "";
   text_default "namespace" ""; text_default "final" ""].

Definition _CREATE_RECOVERY_FACTS_TABLE : list column :=
  [text_column "fingerprint"; text_column "run_id"; integer_default "loop" 0; text_default "failure_class" "";
   text_default "summary" ""; text_default "last_check" ""; text_default "context_scope" ""; text_null "retry_target";
   text_default "plan_action" "keep"; integer_default "salience" 0; text_column "created_at"; text_default "namespace" ""].

(** Without its [id], which the table gives. *)
Definition _CREATE_SEMANTIC_MEMORIES_TABLE : list column :=
  [text_column "memory_key"; text_column "run_id"; text_default "kind" ""; text_default "source" "";
   text_default "summary" ""; text_column "created_at"; text_default "namespace" ""].

(** [next_id] is the sequence of [AUTOINCREMENT]. *)
Record Database := { runs : list dict; recovery_facts : list dict; semantic_memories : list dict; next_id : Z }.

Definition new_database : Database := {| runs := []; recovery_facts := []; semantic_memories := []; next_id := 1 |}.

Definition set_runs (l : list dict) (db : Database) : Database :=
  {| runs := l; recovery_facts := recovery_facts db; semantic_memories := semantic_memories db; next_id := next_id db |}.
Definition set_facts (l : list dict) (db : Database) : Database :=
  {| runs := runs db; recovery_facts := l; semantic_memories := semantic_memories db; next_id := next_id db |}.
Definition add_memory (r : dict) (db : Database) : Database :=
  {| runs := runs db; recovery_facts := recovery_facts db;
     semantic_memories :=
       insert_or_replace ["memory_key"; "run_id"; "namespace"] (("id", PInt (next_id db)) :: r) (semantic_memories db);
     next_id := next_id db + 1 |}.

(** [executemany]: the rows before a failing one stay. *)
Fixpoint each {A : Type} (f : A -> Database -> Database * res unit) (l : list A) (db : Database) : Database * res unit :=
  match l with
  | [] => (db, Ok tt)
  | x :: rest => match f x db with (db, Ok _) => each f rest db | failed => failed end
  end.

Section Store.
Context (ns : string).

(** A [namespace] argument, the store's own by default. *)
Definition scope (namespace : option string) : string := default ns namespace.
Definition in_namespace (ns : string) (r : dict) : bool := is_text ns (cell r "namespace").

(** ** Runs *)

Definition stored_columns (record : dict) : dict :=
  flat_map (fun k => match dlookup k record with Some v => [(k, v)] | None => [] end) _COLUMNS.

Definition upsert (record : dict) (db : Database) : Database * res unit :=
  match new_row "runs" _CREATE_TABLE (dset "namespace" (PStr ns) (stored_columns record)) with
  | Ok row => (set_runs (insert_or_replace ["run_id"] row (runs db)) db, Ok tt)
  | Err e => (db, Err e)
  end.

Definition get_run (run_id : string) (namespace : option string) (db : Database) : option dict :=
  List.find (fun r => is_text run_id (cell r "run_id") && in_namespace (scope namespace) r) (runs db).

Definition list_runs (namespace : option string) (db : Database) : list dict :=
  order_by_desc ["created_at"] (List.filter (in_namespace (scope namespace)) (runs db)).

Definition like_any (text : string) (cols : list string) (r : dict) : bool :=
  existsb (fun c => like_cell ("%" ++ text ++ "%") (cell r c)) cols.

(** [fts query rows] are the rows that match, best first; [None] is the
    [OperationalError] of a malformed query. *)
Definition search_runs (fts : option (string -> list dict -> option (list dict))) (query : string) (limit : Z)
    (namespace : option string) (db : Database) : list dict :=
  let query_text := strip query in
  if String.eqb query_text "" then []
  else
    let limit := Z.max 1 limit in
    match fts with
    | Some matching =>
        match matching query_text (runs db) with
        | Some l => limit_to limit (List.filter (in_namespace (scope namespace)) l)
        | None => []
        end
    | None =>
        limit_to limit (order_by_desc ["created_at"]
          (List.filter (fun r => in_namespace (scope namespace) r
             && like_any query_text ["run_id"; "request"; "status"; "pending_approval_summary"] r) (runs db)))
    end.

(** ** Recovery facts *)

Definition int_field (v : pyval) : pyval := match v with PInt _ => v | _ => PInt 0 end.
Definition or_text (s dflt : string) : string := if String.eqb s "" then dflt else s.

Definition fact_row (run_id now : string) (fact : dict) : option dict :=
  let text k dflt := PStr (str_strip (dget fact k dflt)) in
  let fingerprint := str_strip (dget fact "failure_fingerprint" (PStr "")) in
  if String.eqb fingerprint "" then None
  else Some
    [("fingerprint", PStr fingerprint); ("run_id", PStr run_id); ("loop", int_field (dget fact "loop" (PInt 0)));
     ("failure_class", text "failure_class" (PStr ""));
     ("summary", text "summary" (dget fact "loop_summary" (PStr "")));
     ("last_check", text "last_check" (PStr "")); ("context_scope", text "context_scope" (PStr ""));
     ("retry_target", match dget fact "retry_target" PNone with PNone => PNone | v => PStr (str_strip v) end);
     ("plan_action", PStr (or_text (str_strip (dget fact "plan_action" (PStr "keep"))) "keep"));
     ("salience", int_field (dget fact "salience" (PInt 0))); ("created_at", PStr now); ("namespace", PStr ns)].

Definition insert_fact (data : dict) (db : Database) : Database * res unit :=
  match new_row "recovery_facts" _CREATE_RECOVERY_FACTS_TABLE data with
  | Ok row => (set_facts (insert_or_replace ["fingerprint"; "run_id"] row (recovery_facts db)) db, Ok tt)
  | Err e => (db, Err e)
  end.

(** The rows of the dictionaries of a list. *)
Definition rows_of (f : dict -> option dict) (l : list pyval) : list dict :=
  flat_map (fun d => match f d with Some r => [r] | None => [] end) (dicts_of l).

Definition upsert_recovery_facts (run_id now : string) (facts : list pyval) (db : Database) : Database * res unit :=
  each insert_fact (rows_of (fact_row run_id now) facts) db.

Definition facts_where (keep : dict -> bool) (limit : Z) (db : Database) : list dict :=
  limit_to limit (order_by_desc ["salience"; "loop"]
    (List.filter (fun r => keep r && in_namespace ns r) (recovery_facts db))).

(** [if fingerprint:] and [if failure_class:] of optional texts. *)
Definition get_recent_recovery_facts (fingerprint failure_class : option string) (limit : Z) (db : Database) : list dict :=
  let limit := Z.max 1 limit in
  let having col s := facts_where (fun r => is_text s (cell r col)) limit db in
  let rest :=
    match failure_class with
    | Some c => if String.eqb c "" then facts_where (fun _ => true) limit db else having "failure_class" c
    | None => facts_where (fun _ => true) limit db
    end in
  match fingerprint with
  | Some f => if String.eqb f "" then rest else match having "fingerprint" f with [] => rest | rows => rows end
  | None => rest
  end.

Definition get_episodic_context (failure_fingerprint failure_class : string) (limit : Z) (db : Database) : list dict :=
  get_recent_recovery_facts (Some failure_fingerprint) (Some failure_class) limit db.

(** ** Semantic memories *)

Definition memory_row (run_id now : string) (memory : dict) : option dict :=
  let text k := str_strip (dget memory k (PStr "")) in
  let summary := text "summary" in
  if String.eqb summary "" then None
  else
    let key := if String.eqb (text "memory_key") "" then lower (text "kind" ++ "|" ++ text "source" ++ "|" ++ summary)
               else text "memory_key" in
    Some [("memory_key", PStr key); ("run_id", PStr run_id); ("kind", PStr (or_text (text "kind") "run_note"));
          ("source", PStr (text "source")); ("summary", PStr summary); ("created_at", PStr now); ("namespace", PStr ns)].

Definition insert_memory (data : dict) (db : Database) : Database * res unit :=
  match new_row "semantic_memories" _CREATE_SEMANTIC_MEMORIES_TABLE data with
  | Ok row => (add_memory row db, Ok tt)
  | Err e => (db, Err e)
  end.

Definition upsert_semantic_memories (run_id now : string) (memories : list pyval) (db : Database) : Database * res unit :=
  each insert_memory (rows_of (memory_row run_id now) memories) db.

Definition memory_answer (r : dict) (score : float) : dict :=
  (List.map (fun c => (c, cell r c)) ["run_id"; "kind"; "source"; "summary"; "created_at"] ++ [("score", PFloat score)])%list.

(** [bm25 query rows] are the matches with their scores, or what the query raises; the
    best score is the lowest. *)
Definition search_semantic_memories (bm25 : option (string -> list dict -> res (list (dict * float)))) (query : string)
    (limit : Z) (db : Database) : res (list dict) :=
  let query_text := strip query in
  let answers l := List.map (fun rs => memory_answer (fst rs) (snd rs)) (limit_to (Z.max 1 limit) l) in
  if String.eqb query_text "" then Ok []
  else
    match bm25 with
    | Some matching =>
        let! found := matching query_text (semantic_memories db) in
        let before a b := fltb (snd a) (snd b) || (negb (fltb (snd b) (snd a)) && desc ["created_at"] (fst a) (fst b)) in
        Ok (answers (py_sorted before (List.filter (fun rs => in_namespace ns (fst rs)) found)))
    | None =>
        let found := List.filter (fun r => in_namespace ns r && like_any query_text ["summary"; "source"; "kind"] r) (semantic_memories db) in
        Ok (answers (List.map (fun r => (r, fzero)) (order_by_desc ["created_at"] found)))
    end.

End Store.
