(* ===== verification/RedisStore.v ===== *)
(** * The Redis run store: [RedisRunStore] and [create_run_store] of [run_store.py]

    [Redis] is the server behind the client, with the documented behaviour the store
    relies on ([RedisLaws]).  A value is the ASCII text of [json.dumps]; a connection that
    fails leaves the operation where it is, which is not modelled. *)
From Stdlib Require Import ZArith Lia String Ascii List Bool.
From stdpp Require Import base tactics list strings option.
From S2P Require Import Prelude PyStr PyFloat PyVal Json Sqlite RunStore.
Local Open Scope string_scope.
Local Open Scope Z_scope.

(** [SETEX], [GET], [ZADD], [EXPIRE] and [ZREVRANGE key 0 -1].  Keys that expire are out of
    the model: the answers are those of the first [ttl] seconds. *)
Class Redis (S : Type) := {
  setex : string -> Z -> string -> S -> S;
  redis_get : string -> S -> option string;
  zadd : string -> string -> float -> S -> S;
  expire : string -> Z -> S -> S;
  zrevrange : string -> S -> list string }.

Class RedisLaws (S : Type) {R : Redis S} : Prop := {
  get_setex k ttl v s : 0 < ttl -> redis_get k (setex k ttl v s) = Some v;
  get_setex_ne k k' ttl v s : k' <> k -> redis_get k' (setex k ttl v s) = redis_get k' s;
  range_setex k k' ttl v s : k' <> k -> zrevrange k' (setex k ttl v s) = zrevrange k' s;
  range_zadd k m score s x : In x (zrevrange k (zadd k m score s)) <-> x = m \/ In x (zrevrange k s);
  range_zadd_ne k k' m score s : k' <> k -> zrevrange k' (zadd k m score s) = zrevrange k' s;
  get_zadd k k' m score s : k' <> k -> redis_get k' (zadd k m score s) = redis_get k' s;
  get_expire k k' ttl s : 0 < ttl -> redis_get k' (expire k ttl s) = redis_get k' s;
  range_expire k k' ttl s : 0 < ttl -> zrevrange k' (expire k ttl s) = zrevrange k' s }.

(** [json.dumps(data, default=str)]: ASCII only. *)
Definition ascii_char (c : ascii) : string :=
  if (32 <=? ord c) && (ord c <=? 126) then String c ""
  else "\u00" ++ String (hex_digit (ord c / 16)) (String (hex_digit (ord c mod 16)) "").
Definition dumps (v : pyval) : string := concat_map_str ascii_char (json_dumps false v).

Definition _RUN_KEY_PREFIX : string := "lula:run:".
Definition _RUN_INDEX_KEY : string := "lula:runs:index".
Definition _RECOVERY_KEY_PREFIX : string := "lula:recovery:".
Definition _RECOVERY_INDEX_KEY : string := "lula:recovery:index".
Definition _SEMANTIC_KEY_PREFIX : string := "lula:semantic:".
Definition _SEMANTIC_INDEX_KEY : string := "lula:semantic:index".
Definition _DEFAULT_TTL_SECONDS : Z := 86400.

Section Store.
Context {S : Type} {R : Redis S}.
Context (ns : string) (ttl : Z).

Definition _run_key (run_id : string) : string := _RUN_KEY_PREFIX ++ ns ++ ":" ++ run_id.
Definition _run_index_key : string := _RUN_INDEX_KEY ++ ":" ++ ns.
Definition _recovery_key (fingerprint run_id : string) : string :=
  _RECOVERY_KEY_PREFIX ++ ns ++ ":" ++ fingerprint ++ ":" ++ run_id.
Definition _recovery_index_key : string := _RECOVERY_INDEX_KEY ++ ":" ++ ns.
Definition _semantic_key (memory_key run_id : string) : string :=
  _SEMANTIC_KEY_PREFIX ++ ns ++ ":" ++ memory_key ++ ":" ++ run_id.
Definition _semantic_index_key : string := _SEMANTIC_INDEX_KEY ++ ":" ++ ns.

(** The three commands of every write. *)
Definition put (key : string) (data : dict) (index member : string) (score : float) (s : S) : S :=
  expire index ttl (zadd index member score (setex key ttl (dumps (PDict data)) s)).

(** ** Runs *)

(** [timestamp] is [datetime.fromisoformat(...).timestamp()], [None] when it raises;
    [now] is [time.time()].  A run id that is not a text is left out of the model. *)
Definition upsert (timestamp : string -> option float) (now : float) (record : dict) (s : S) : res S :=
  let data := dset "namespace" (PStr ns) (stored_columns record) in
  match dget data "run_id" (PStr "") with
  | PStr run_id =>
      if String.eqb run_id "" then Ok s
      else
        let score := default now (timestamp (py_str (dget data "created_at" (PStr "")))) in
        Ok (put (_run_key run_id) data _run_index_key run_id score s)
  | v => if truthy v then Err (Unmodelled "run_id") else Ok s
  end.

Definition get_run (run_id : string) (namespace : option string) (s : S) : res (option pyval) :=
  match redis_get (_RUN_KEY_PREFIX ++ scope ns namespace ++ ":" ++ run_id) s with
  | None => Ok None
  | Some raw => let! v := json_loads raw in Ok (Some v)
  end.

(** The texts of the keys that are still there, and their values. *)
Definition texts_of (keys : list string) (s : S) : list string :=
  flat_map (fun k => match redis_get k s with Some raw => [raw] | None => [] end) keys.
Definition loaded (keys : list string) (s : S) : res (list pyval) := map_res json_loads (texts_of keys s).

Definition list_runs (namespace : option string) (s : S) : res (list pyval) :=
  let ns := scope ns namespace in
  loaded (List.map (fun rid => _RUN_KEY_PREFIX ++ ns ++ ":" ++ rid) (zrevrange (_RUN_INDEX_KEY ++ ":" ++ ns) s)) s.

(** [query in " ".join(str(v.get(f, "")) for f in fields).lower()]. *)
Definition haystack (fields : list string) (v : pyval) : res string :=
  let! texts := map_res (fun f => let! x := get v f (PStr "") in Ok (py_str x)) fields in Ok (lower (join " " texts)).

(** The loop that loads and stops at the [limit]-th match. *)
Fixpoint first_matches {A : Type} (load : A -> res pyval) (limit : nat) (query : string) (fields : list string) (l : list A)
    : res (list pyval) :=
  match limit, l with
  | O, _ | _, [] => Ok []
  | Datatypes.S limit', x :: rest =>
      let! v := load x in
      let! text := haystack fields v in
      if contains query text then let! more := first_matches load limit' query fields rest in Ok (v :: more)
      else first_matches load limit query fields rest
  end.

Definition search_runs (query : string) (limit : Z) (namespace : option string) (s : S) : res (list pyval) :=
  let query_text := lower (strip query) in
  if String.eqb query_text "" then Ok []
  else
    let! all_runs := list_runs namespace s in
    first_matches Ok (Z.to_nat (Z.max 1 limit)) query_text ["run_id"; "request"; "status"; "pending_approval_summary"] all_runs.

(** ** Recovery facts *)

Definition put_fact (data : dict) (s : S) : S :=
  let fingerprint := py_str (dget data "fingerprint" PNone) in
  let run_id := py_str (dget data "run_id" PNone) in
  put (_recovery_key fingerprint run_id) data _recovery_index_key (fingerprint ++ ":" ++ run_id)
    (float_of_Z (int_of (dget data "salience" PNone))) s.

Definition upsert_recovery_facts (run_id now : string) (facts : list dict) (s : S) : S :=
  fold_left (fun s d => put_fact d s) (rows_of (fact_row ns run_id now) (List.map PDict facts)) s.

Definition fact_key (f : dict) : Z * Z := (int_of (dget f "salience" (PInt 0)), int_of (dget f "loop" (PInt 0))).

(** [sort(key=..., reverse=True)]: ties keep their order. *)
Definition fact_before (a b : dict) : bool :=
  let '(sa, la) := fact_key a in let '(sb, lb) := fact_key b in (sb <? sa) || ((sb =? sa) && (lb <? la)).

(** Facts that are dictionaries with integers, as the store writes them. *)
Definition plain_fact (v : pyval) : res dict :=
  match v with
  | PDict d =>
      match dget d "salience" (PInt 0), dget d "loop" (PInt 0) with
      | PInt _, PInt _ => Ok d
      | _, _ => Err (Unmodelled "fact")
      end
  | _ => Err (Unmodelled "fact")
  end.

Definition get_recent_recovery_facts (fingerprint failure_class : option string) (limit : Z) (s : S) : res (list dict) :=
  let limit := Z.to_nat (Z.max 1 limit) in
  let! raw := loaded (List.map (fun m => _RECOVERY_KEY_PREFIX ++ ns ++ ":" ++ m) (zrevrange _recovery_index_key s)) s in
  let! all_facts := map_res plain_fact raw in
  let top l := firstn limit (py_sorted fact_before l) in
  let having col s := List.filter (fun f => py_eq (dget f col PNone) (PStr s)) all_facts in
  let rest :=
    match failure_class with
    | Some c => if String.eqb c "" then top all_facts else top (having "failure_class" c)
    | None => top all_facts
    end in
  Ok (match fingerprint with
      | Some f => if String.eqb f "" then rest else match having "fingerprint" f with [] => rest | l => top l end
      | None => rest
      end).

(** ** Semantic memories *)

Definition put_memory (now : float) (data : dict) (s : S) : S :=
  let memory_key := py_str (dget data "memory_key" PNone) in
  let run_id := py_str (dget data "run_id" PNone) in
  put (_semantic_key memory_key run_id) data _semantic_index_key (memory_key ++ ":" ++ run_id) now s.

(** [times] are the readings of [time.time()], one per memory. *)
Fixpoint upsert_memories (times : nat -> float) (rows : list dict) (s : S) : S :=
  match rows with
  | [] => s
  | d :: rest => upsert_memories (fun i => times (Datatypes.S i)) rest (put_memory (times O) d s)
  end.

Definition upsert_semantic_memories (run_id now : string) (times : nat -> float) (memories : list dict) (s : S) : S :=
  upsert_memories times (rows_of (memory_row ns run_id now) (List.map PDict memories)) s.

(** [member.split(":", 1)] and the key of its two parts. *)
Fixpoint split_colon (s : string) : option (string * string) :=
  match s with
  | EmptyString => None
  | String c r =>
      if Ascii.eqb c ":" then Some ("", r)
      else match split_colon r with Some (a, b) => Some (String c a, b) | None => None end
  end.

Definition member_keys (members : list string) : list string :=
  flat_map (fun m => match split_colon m with Some (key, rid) => [_semantic_key key rid] | None => [] end) members.

Definition search_semantic_memories (query : string) (limit : Z) (s : S) : res (list pyval) :=
  let query_text := lower (strip query) in
  if String.eqb query_text "" then Ok []
  else
    first_matches json_loads (Z.to_nat (Z.max 1 limit)) query_text ["summary"; "source"; "kind"]
      (texts_of (member_keys (zrevrange _semantic_index_key s)) s).

End Store.

(** ** The choice of the store *)

Inductive Backend := OnRedis (url : string) | OnSqlite (path : string).

(** [reachable url]: the client connects and the server answers the ping. *)
Definition create_run_store (env : string -> option string) (reachable : string -> bool) (db_path redis_url : option string) : Backend :=
  let url := match redis_url with
             | Some u => if String.eqb u "" then default "" (env "LG_CHECKPOINT_REDIS_URL") else u
             | None => default "" (env "LG_CHECKPOINT_REDIS_URL")
             end in
  if negb (String.eqb url "") && reachable url then OnRedis url
  else OnSqlite (default "data/runs.sqlite" db_path).
