(* ===== verification/ConfigProps.v ===== *)
(** * What the configuration promises to the rest of the program

    A configuration that loads is [valid]: the limits, names and addresses its readers
    rely on.  A file that does not load fails with [ConfigError], except for the numbers
    of [finite]. *)
From Stdlib Require Import ZArith Lia String Ascii List Bool.
From stdpp Require Import base tactics list strings option.
From S2P Require Import Prelude PyStr StrFacts PyFloat PyVal Json Configuration.
Local Open Scope string_scope.
Local Open Scope Z_scope.

(** ** Validity *)

Definition valid_budgets (b : Budgets) : Prop :=
  1 <= max_loops b /\ 0 <= max_tool_calls_per_loop b /\ 1 <= max_patch_bytes b /\ 1 <= tool_timeout_s b /\
  1 <= stable_prefix_tokens b /\ 1 <= working_set_tokens b /\ 80 <= tool_result_summary_chars b.

Definition valid_serverless (s : Serverless) : Prop := is_http (sl_base_url s) = true /\ 1 <= sl_timeout_s s.

Definition valid_routing (r : ModelRouting) : Prop :=
  1 <= interactive_context_limit r <= deep_planning_context_limit r /\ 0 <= recovery_retry_threshold r /\
  fallback_task_classes r <> [].

Definition valid_models (m : Models) : Prop :=
  valid_routing (routing m) /\ valid_serverless (digitalocean m) /\ valid_serverless (openai_compatible m).

(** A pin is a digest in lower case. *)
Definition valid_server (s : MCPServerConfig) : Prop :=
  command s <> "" /\ 1 <= timeout_s s /\ match schema_hash s with Some h => _is_valid_sha256_hex h = true | None => True end.

(** [forced] is [LG_AUTH_MODE], which is not checked against the token. *)
Definition valid_remote_api (forced : string) (r : RemoteAPIConfig) : Prop :=
  (auth_mode r = "off" \/ auth_mode r = "bearer" /\ (forced = "bearer" \/ is_Some (bearer_token r))) /\
  0 <= rate_limit_rps r /\ (default_namespace r = "" \/ _NAMESPACE_RE (default_namespace r) = true).

Definition valid_checkpoint (c : Checkpoint) : Prop :=
  In (backend c) _BACKENDS /\ 1 <= redis_ttl_seconds c /\ db_path c <> "" /\ namespace c <> "" /\ thread_prefix c <> "".

Definition valid_sla (e : SlaEntry) : Prop :=
  model_id e <> "" /\ fallback_model_id e <> "" /\ fltb (threshold_p95_s e) fzero = false.

(** [url] is [LG_RUNNER_BASE_URL] as pydantic reads it, which is not checked. *)
Record valid (forced url : string) (c : AppConfig) : Prop := {
  v_budgets : valid_budgets (budgets c);
  v_models : valid_models (models c);
  v_policy : In (network_default (policy c)) ["allow"; "deny"];
  v_runner : is_http (base_url (runner c)) = true \/ base_url (runner c) = url /\ url <> "";
  v_servers : Forall (fun kv => fst kv <> "" /\ valid_server (snd kv)) (servers (mcp c));
  v_remote_api : valid_remote_api forced (remote_api c);
  v_checkpoint : valid_checkpoint (checkpoint c);
  v_vericoding : extensions (vericoding c) <> [];
  v_audit : match sink_type (audit c) with Some t => In t ["s3"; "gcs"] | None => True end;
  v_sla : Forall valid_sla (sla c) }.

(** ** Reading a section *)

Lemma Forall_dset {V} (P : string * V -> Prop) k v d : Forall P d -> P (k, v) -> Forall P (dset k v d).
Proof.
  induction 1 as [|[k' v'] d Hx Hd IH]; intros Hv; cbn; [by constructor|].
  destruct (String.eqb k k') eqn:E; [|by constructor; auto]. constructor; [|done]. by apply String.eqb_eq in E as <-.
Qed.

Lemma require_Ok b m u : require b m = Ok u <-> b = true.
Proof. unfold require. by destruct b, u. Qed.

Lemma nonblank_strip s : nonblank s = true -> strip s <> "".
Proof. unfold nonblank. intros H%negb_true_iff%String.eqb_neq. done. Qed.

Lemma or_default_not_empty s d : d <> "" -> or_default s d <> "".
Proof. unfold or_default. by destruct (String.eqb_spec s ""). Qed.

Lemma stripped_text_Ok v what s : stripped_text v what = Ok s -> s <> "".
Proof. destruct v; try done. cbn. destruct (nonblank s0) eqn:E; [|done]. intros [= <-]. by apply nonblank_strip. Qed.

Lemma int_from_Ok least v what z : int_from least v what = Ok z -> least <= z.
Proof. destruct v as [| |n| | | | |]; try done. cbn. unfold require. destruct (Z.leb_spec least n); [|done]. by intros [= <-]. Qed.

Lemma or_none_Some s t : or_none s = Some t -> s = t /\ t <> "".
Proof. unfold or_none. destruct (String.eqb_spec s ""); [done|]. by intros [= <-]. Qed.

Lemma load_schema_hash_Ok v what h :
  load_schema_hash v what = Ok h -> match h with Some x => _is_valid_sha256_hex x = true | None => True end.
Proof.
  destruct v; try done; [by intros [= <-]|]. cbn [load_schema_hash]. unfold require.
  destruct (String.eqb (lower (strip s)) "" || _) eqn:E; [|done]. intros [= <-].
  destruct (or_none _) eqn:En; [|done]. apply or_none_Some in En as [<- En]. by apply orb_true_iff in E as [E%String.eqb_eq|E].
Qed.

(** Open every step of a reading that succeeded. *)
Ltac loaded H :=
  repeat first
    [ progress cbn beta iota zeta in H
    | match type of H with
      | bind_res _ _ = Ok _ => let a := fresh "a" in let E := fresh "E" in apply bind_Ok in H as (a & E & H); loaded E
      | require _ _ = Ok _ => apply require_Ok in H
      | Ok _ = Ok _ => injection H as H; try subst
      | invalid _ = Ok _ => discriminate H
      | config_error _ = Ok _ => discriminate H
      | Err _ = Ok _ => discriminate H
      end ].

Lemma load_budgets_valid raw b : load_budgets raw = Ok b -> valid_budgets b.
Proof. unfold load_budgets. intros H. loaded H. bool_prop. unfold valid_budgets. cbn. lia. Qed.

Lemma task_classes_some v : task_classes v <> [].
Proof. unfold task_classes. by destruct (flat_map _ _). Qed.

Lemma parse_model_routing_valid raw r : _parse_model_routing raw = Ok r -> valid_routing r.
Proof.
  unfold _parse_model_routing. destruct (dget raw "routing" PNone); intros H; loaded H; unfold valid_routing; cbn;
    try (split; [lia|split; [lia|done]]).
  bool_prop. split; [lia|split; [lia|apply task_classes_some]].
Qed.

Section Environment.
Context (env : string -> option string).

Lemma parse_serverless_valid name base a b raw s : parse_serverless env name base a b raw = Ok s -> valid_serverless s.
Proof. unfold parse_serverless. intros H. loaded H. split; cbn; [done|eapply int_from_Ok; eassumption]. Qed.

Lemma load_models_valid raw m : load_models env raw = Ok m -> valid_models m.
Proof.
  unfold load_models. intros H. apply bind_Ok in H as (r & _ & H). apply bind_Ok in H as (p & _ & H).
  apply bind_Ok in H as (ro & Er & H). apply bind_Ok in H as (d & Ed & H). apply bind_Ok in H as (o & Eo & H).
  injection H as <-. split; [exact (parse_model_routing_valid _ _ Er)|].
  split; [exact (parse_serverless_valid _ _ _ _ _ _ Ed)|exact (parse_serverless_valid _ _ _ _ _ _ Eo)].
Qed.

Lemma load_policy_valid raw p : load_policy raw = Ok p -> In (network_default p) ["allow"; "deny"].
Proof. unfold load_policy. intros H. loaded H. by apply str_in_In. Qed.

Lemma load_runner_valid raw r : load_runner env raw = Ok r -> is_http (base_url r) = true.
Proof. unfold load_runner. intros H. loaded H. done. Qed.

Lemma load_server_valid kv s : load_server kv = Ok s -> fst s <> "" /\ valid_server (snd s).
Proof.
  destruct kv as [name data]. unfold load_server. intros H. loaded H. cbn.
  destruct (nonblank name) eqn:En; [|done]. split; [by apply nonblank_strip|]. split; [|split]; cbn.
  - eapply stripped_text_Ok; eassumption.
  - eapply int_from_Ok; eassumption.
  - eapply load_schema_hash_Ok; eassumption.
Qed.

Lemma load_mcp_valid raw m : load_mcp raw = Ok m -> Forall (fun kv => fst kv <> "" /\ valid_server (snd kv)) (servers m).
Proof.
  unfold load_mcp. intros H. loaded H. cbn.
  match goal with E : fold_res _ _ _ = Ok _ |- _ => revert E end.
  apply fold_res_inv; [constructor|]. intros acc kv acc' Hacc _ Hs. loaded Hs.
  apply Forall_dset; [done|]. match goal with E : load_server _ = Ok ?s |- _ => apply load_server_valid in E; by destruct s end.
Qed.

Lemma load_namespace_valid raw ns : load_namespace env raw = Ok ns -> ns = "" \/ _NAMESPACE_RE ns = true.
Proof.
  unfold load_namespace. intros H. loaded H.
  match goal with H : (_ || _)%bool = true |- _ => apply orb_true_iff in H as [?%String.eqb_eq|?] end; auto.
Qed.

Lemma load_auth_mode_valid raw m : load_auth_mode env raw = Ok m -> m = "off" \/ m = "bearer".
Proof.
  unfold load_auth_mode. destruct (dget _ _ _); intros H; loaded H.
  match goal with H : str_in _ _ = true |- _ => apply str_in_In in H as [H|[H|[]]]; rewrite <- H; auto end.
Qed.

Lemma load_remote_api_valid raw r : load_remote_api env raw = Ok r -> valid_remote_api "" r.
Proof.
  unfold load_remote_api. intros H. apply bind_Ok in H as (mode & Em & H). apply bind_Ok in H as (token & Et & H). loaded H.
  unfold valid_remote_api. cbn. split; [|split].
  - destruct (load_auth_mode_valid _ _ Em) as [->| ->]; [by left|right]. split; [done|]. right. by destruct token.
  - destruct (Z.eqb_spec a1 0); [lia|]. bool_prop. lia.
  - eapply load_namespace_valid; eassumption.
Qed.

Lemma checkpoint_text_valid raw k d s : checkpoint_text raw k d = Ok s -> s <> "".
Proof. unfold checkpoint_text. intros H. loaded H. destruct (String.eqb_spec a ""); loaded H. done. Qed.

Lemma load_checkpoint_valid raw c : load_checkpoint raw = Ok c -> valid_checkpoint c.
Proof.
  unfold load_checkpoint. intros H. apply bind_Ok in H as (on & _ & H).
  apply bind_Ok in H as (p & Ep%checkpoint_text_valid & H). apply bind_Ok in H as (n & En%checkpoint_text_valid & H).
  apply bind_Ok in H as (t & Et%checkpoint_text_valid & H). loaded H. bool_prop.
  unfold valid_checkpoint. cbn [backend redis_ttl_seconds db_path namespace thread_prefix].
  repeat split; try done. by apply str_in_In.
Qed.

Lemma load_vericoding_valid raw v : load_vericoding raw = Ok v -> extensions v <> [].
Proof. unfold load_vericoding. intros H. loaded H. cbn. by destruct a0. Qed.

Lemma load_sink_valid raw s : load_sink_type raw = Ok s -> match s with Some t => In t ["s3"; "gcs"] | None => True end.
Proof.
  unfold load_sink_type. destruct (dget _ _ _); intros H; loaded H; [done|].
  unfold or_none. destruct (String.eqb_spec (lower (strip s0)) ""); [done|].
  by apply str_in_In.
Qed.

Lemma load_audit_valid raw a : load_audit raw = Ok a -> match sink_type a with Some t => In t ["s3"; "gcs"] | None => True end.
Proof.
  unfold load_audit. intros H. apply bind_Ok in H as (p & _ & H). apply bind_Ok in H as (s & Es & H). loaded H. cbn.
  by apply (load_sink_valid _ _ Es).
Qed.

Lemma load_sla_entry_valid i raw e : load_sla_entry i raw = Ok e -> valid_sla e.
Proof.
  unfold load_sla_entry. intros H. loaded H.
  destruct (fltb _ _) eqn:Et; [done|]. split; [|split]; cbn; [eapply stripped_text_Ok; eassumption..|done].
Qed.

Lemma load_sla_valid raw l : load_sla raw = Ok l -> Forall valid_sla l.
Proof.
  assert (He : forall es i out, load_sla_entries i es = Ok out -> Forall valid_sla out).
  { induction es as [|x es IH]; intros i out H; cbn in H; loaded H; [constructor|].
    constructor; [eapply load_sla_entry_valid; eassumption|eapply IH; eassumption]. }
  destruct raw; cbn; intros H; loaded H; try constructor. destruct (dget _ _ _); loaded H. by apply (He _ _ _ H).
Qed.

End Environment.

(** ** The overlays *)

Lemma overlay_runner_valid s r :
  is_http (base_url r) = true ->
  is_http (base_url (overlay_runner s r)) = true \/ base_url (overlay_runner s r) = rs_base_url s /\ rs_base_url s <> "".
Proof. intros H. unfold overlay_runner, overlay. cbn. destruct (String.eqb_spec (rs_base_url s) ""); auto. Qed.

Lemma overlay_auth_valid s r r' : valid_remote_api "" r -> overlay_auth s r = Ok r' -> valid_remote_api (as_mode s) r'.
Proof.
  intros (Hm & Hr & Hn) H. unfold overlay_auth in H. loaded H. unfold valid_remote_api. cbn. split; [|done].
  unfold overlay. destruct (String.eqb_spec (as_mode s) "") as [Em|Em].
  - destruct Hm as [?|[? [?|?]]]; [by left|done|]. right. auto.
  - cbn [orb] in E. apply (str_in_In (as_mode s) ["off"; "bearer"]) in E as [E|[E|[]]]; rewrite <- E; auto.
Qed.

Lemma overlay_not_empty s d : d <> "" -> overlay s d <> "".
Proof. unfold overlay. by destruct (String.eqb_spec s ""). Qed.

Lemma overlay_checkpoint_valid s c c' : valid_checkpoint c -> overlay_checkpoint s c = Ok c' -> valid_checkpoint c'.
Proof.
  intros (Hb & Ht & Hd & Hn & Hp) H. unfold overlay_checkpoint in H. loaded H. unfold valid_checkpoint.
  cbn [backend redis_ttl_seconds db_path namespace thread_prefix]. repeat split; try by apply overlay_not_empty.
  - unfold overlay. destruct (String.eqb_spec (cs_backend s) ""); [done|]. by apply str_in_In.
  - destruct (Z.ltb_spec 0 (cs_redis_ttl_seconds s)); lia.
Qed.

(** ** Errors *)

(** Every error of [r] satisfies [P]. *)
Definition only {A} (P : pyexc -> Prop) (r : res A) : Prop := match r with Ok _ => True | Err e => P e end.

Lemma only_bind {A B} P (r : res A) (f : A -> res B) : only P r -> (forall a, r = Ok a -> only P (f a)) -> only P (bind_res r f).
Proof. destruct r; cbn; auto. Qed.

Definition is_config_error (e : pyexc) : Prop := match e with ConfigError _ => True | _ => False end.
Abbreviation reads := (only is_config_error).

(** The numbers a field can take: an integer that has a [float], no infinity for [int]. *)
Definition has_float (v : pyval) : Prop := match v with PInt z => is_Some (float_of_int z) | _ => True end.
Definition has_int (v : pyval) : Prop := match v with PFloat (SpecFloat.S754_infinity _) => False | _ => True end.

Fixpoint path (v : pyval) (keys : list string) : pyval :=
  match keys with [] => v | k :: rest => path (dget (dict_or_empty v) k PNone) rest end.

Definition finite (raw : dict) : Prop :=
  has_float (path (PDict raw) ["models"; "router"; "temperature"]) /\
  has_float (path (PDict raw) ["models"; "planner"; "temperature"]) /\
  has_int (path (PDict raw) ["checkpoint"; "redis_ttl_seconds"]) /\
  Forall (fun e => has_float (path e ["threshold_p95_s"])) (list_or_empty (path (PDict raw) ["sla"; "entries"])).

Create HintDb config discriminated.

(** Follow the steps of a reading. *)
Ltac reads :=
  repeat first
    [ exact I
    | progress cbn beta iota zeta
    | solve [eauto with config nocore]
    | match goal with
      | |- only _ (bind_res _ _) => apply only_bind; [|intros ? ?]
      | |- only _ (Ok _) => exact I
      | |- only _ (if ?b then _ else _) => destruct b eqn:?
      | |- only _ (match ?v with _ => _ end) => destruct v eqn:?
      end ].

Lemma reads_require b m : reads (require b m).
Proof. by destruct b. Qed.
Lemma reads_invalid {A} m : reads (@invalid A m).
Proof. done. Qed.
Lemma reads_config_error {A} m : reads (@config_error A m).
Proof. done. Qed.
#[local] Hint Resolve reads_require reads_invalid reads_config_error : config.

Lemma reads_map {A B} (f : A -> res B) l : (forall x, reads (f x)) -> reads (map_res f l).
Proof. intros Hf. induction l as [|x l IH]; cbn; reads; auto. Qed.

Lemma reads_fold {A B} (f : B -> A -> res B) l acc : (forall b x, reads (f b x)) -> reads (fold_res f acc l).
Proof. intros Hf. revert acc. induction l as [|x l IH]; intros acc; cbn; reads; auto. Qed.

Lemma reads_require_str d k : reads (_require_str d k).
Proof. unfold _require_str. reads. Qed.
Lemma reads_require_int d k : reads (_require_int d k).
Proof. unfold _require_int. reads. Qed.
Lemma reads_require_bool d k : reads (_require_bool d k).
Proof. unfold _require_bool. reads. Qed.
#[local] Hint Resolve reads_require_str reads_require_int reads_require_bool : config.
Lemma reads_get_int d k z : reads (_get_int d k z).
Proof. unfold _get_int. reads. Qed.
Lemma reads_get_bool d k b : reads (_get_bool d k b).
Proof. unfold _get_bool. reads. Qed.
Lemma reads_opt_str d k s : reads (_opt_str d k s).
Proof. unfold _opt_str. reads. Qed.
Lemma reads_opt_bool d k b : reads (_opt_bool d k b).
Proof. unfold _opt_bool. reads. Qed.
Lemma reads_opt_text d k w : reads (opt_text d k w).
Proof. unfold opt_text. reads. Qed.
Lemma reads_stripped_text v w : reads (stripped_text v w).
Proof. unfold stripped_text. reads. Qed.
Lemma reads_int_from n v w : reads (int_from n v w).
Proof. unfold int_from. reads. Qed.
Lemma reads_table v n : reads (table v n).
Proof. unfold table. reads. Qed.
Lemma reads_schema_hash v w : reads (load_schema_hash v w).
Proof. unfold load_schema_hash. reads. Qed.
Lemma reads_str_tuple d k : reads (_optional_str_tuple d k).
Proof. unfold _optional_str_tuple. reads. apply reads_map. intros x. reads. Qed.
#[local] Hint Resolve reads_get_int reads_get_bool reads_opt_str reads_opt_bool reads_opt_text reads_stripped_text
  reads_int_from reads_table reads_schema_hash reads_str_tuple : config.

Lemma py_int_error v e : has_int v -> py_int v = Err e -> is_type_or_value_error e = true.
Proof.
  destruct v; cbn; try done; try by intros _ [= <-].
  - destruct f; cbn; try done; by intros _ [= <-].
  - destruct (parse_int s); [done|]. destruct (_ <? _); by intros _ [= <-].
Qed.

Lemma reads_int_field v m : has_int v -> reads (int_field v m).
Proof.
  intros Hv. assert (Hr : forall w, has_int w -> reads (try_except (py_int w) is_type_or_value_error (fun _ => config_error m))).
  { intros w Hw. unfold try_except. destruct (py_int w) eqn:E; [done|]. by rewrite (py_int_error w e Hw E). }
  destruct v; cbn [int_field]; try done; by apply Hr.
Qed.

Lemma reads_opt_int d k z : has_int (dget d k PNone) -> reads (_opt_int d k z).
Proof. intros H. unfold _opt_int. destruct (dget d k PNone); try done; by apply reads_int_field. Qed.

Lemma reads_parse_float v d : has_float v -> reads (_parse_float v d).
Proof. destruct v; cbn; try done; [by intros [f ->]|]. intros _. by destruct (float_text _). Qed.
#[local] Hint Resolve reads_opt_int reads_parse_float : config.

Section EnvironmentErrors.
Context (env : string -> option string).

Lemma reads_opt_str_or_env d k v : reads (_opt_str_or_env env d k v).
Proof. unfold _opt_str_or_env. reads. Qed.

Lemma reads_opt_int_or_env d k v z : reads (_opt_int_or_env env d k v z).
Proof.
  unfold _opt_int_or_env. destruct (dget d k PNone); try done. destruct (env v) as [s|]; [|done].
  unfold try_except. cbn [py_int]. destruct (parse_int _); [done|]. by destruct (_ <? _).
Qed.

Lemma reads_env_bool n b : reads (_env_bool env n b).
Proof. unfold _env_bool. reads. Qed.
#[local] Hint Resolve reads_opt_str_or_env reads_opt_int_or_env reads_env_bool : config.

Lemma reads_endpoint raw key : has_float (path (PDict raw) [key; "temperature"]) -> reads (_parse_model_endpoint env raw key).
Proof.
  intros H. unfold _parse_model_endpoint. unfold path in H. cbn [dict_or_empty] in H.
  destruct (dget raw key PNone); try done. apply only_bind; [|done]. apply reads_parse_float.
  cbn [dict_or_empty] in H. unfold dget in *. by destruct (dlookup "temperature" d).
Qed.

Lemma reads_model_routing raw : reads (_parse_model_routing raw).
Proof. unfold _parse_model_routing. reads. Qed.
Lemma reads_serverless name base a b raw : reads (parse_serverless env name base a b raw).
Proof. unfold parse_serverless. reads. Qed.
#[local] Hint Resolve reads_endpoint reads_model_routing reads_serverless : config.

Lemma reads_models raw :
  has_float (path (PDict raw) ["router"; "temperature"]) -> has_float (path (PDict raw) ["planner"; "temperature"]) ->
  reads (load_models env raw).
Proof. intros Hr Hp. unfold load_models, _parse_digitalocean_serverless, _parse_openai_compatible_serverless. reads. Qed.

Lemma reads_budgets raw : reads (load_budgets raw).
Proof. unfold load_budgets. reads. Qed.
Lemma reads_policy raw : reads (load_policy raw).
Proof. unfold load_policy. reads. Qed.
Lemma reads_runner raw : reads (load_runner env raw).
Proof. unfold load_runner. reads. Qed.

Lemma reads_server kv : reads (load_server kv).
Proof. destruct kv. unfold load_server. reads; apply reads_map; intros; reads. Qed.

Lemma reads_mcp raw : reads (load_mcp raw).
Proof. unfold load_mcp. reads. apply reads_fold. intros acc kv. apply only_bind; [apply reads_server|done]. Qed.

Lemma reads_remote_api raw : reads (load_remote_api env raw).
Proof. unfold load_remote_api, load_auth_mode, load_namespace, env_flag. reads. Qed.

Lemma reads_checkpoint raw : has_int (dget raw "redis_ttl_seconds" PNone) -> reads (load_checkpoint raw).
Proof. intros H. unfold load_checkpoint, checkpoint_text. reads. Qed.

Lemma reads_vericoding raw : reads (load_vericoding raw).
Proof. unfold load_vericoding. reads. Qed.
Lemma reads_audit raw : reads (load_audit raw).
Proof. unfold load_audit, load_sink_type. reads. Qed.

Lemma reads_sla raw : Forall (fun e => has_float (path e ["threshold_p95_s"])) (list_or_empty (path raw ["entries"])) -> reads (load_sla raw).
Proof.
  destruct raw; try done. cbn [path dict_or_empty]. unfold load_sla.
  assert (He : forall es i, Forall (fun e => has_float (path e ["threshold_p95_s"])) es -> reads (load_sla_entries i es)).
  { induction es as [|x es IH]; intros i; cbn [load_sla_entries]; [done|]. intros Hall; inversion Hall as [|? ? Hx Hs]; subst.
    apply only_bind; [|intros; apply only_bind; [by apply IH|done]]. unfold load_sla_entry.
    destruct x; try done. unfold path in Hx. cbn [dict_or_empty] in Hx. apply only_bind; [done|]. intros a [= <-]. reads. }
  unfold dget. destruct (dlookup "entries" d) as [v|]; [|done]. destruct v; try done. intros H. by apply He.
Qed.

Lemma reads_overlay_auth s r : reads (overlay_auth s r).
Proof. unfold overlay_auth. reads. Qed.
Lemma reads_overlay_checkpoint s c : reads (overlay_checkpoint s c).
Proof. unfold overlay_checkpoint. reads. Qed.

End EnvironmentErrors.

Lemma only_mono {A} (P Q : pyexc -> Prop) (r : res A) : (forall e, P e -> Q e) -> only P r -> only Q r.
Proof. destruct r; cbn; auto. Qed.

Lemma path_table raw n d k ks :
  table (dget raw n (PDict [])) n = Ok d -> path (PDict raw) (n :: k :: ks) = path (PDict d) (k :: ks).
Proof.
  unfold dget at 1. cbn [path dict_or_empty]. unfold dget at 2. destruct (dlookup n raw) as [v|]; [|by intros [= <-]].
  destruct v; try done. by intros [= <-].
Qed.

Lemma load_config_sound env root toml rs auth cs c :
  load_config env root toml rs auth cs = Ok c ->
  exists r a, rs = Ok r /\ auth = Ok a /\ valid (as_mode a) (rs_base_url r) c.
Proof.
  unfold load_config. intros H.
  do 12 (apply bind_Ok in H as (? & _ & H)).
  apply bind_Ok in H as (b & Hb%load_budgets_valid & H). apply bind_Ok in H as (m & Hm%load_models_valid & H).
  apply bind_Ok in H as (p & Hp%load_policy_valid & H). apply bind_Ok in H as (r & Hr%load_runner_valid & H).
  apply bind_Ok in H as (t & Ht%load_mcp_valid & H). apply bind_Ok in H as (api & Ha%load_remote_api_valid & H).
  apply bind_Ok in H as (cp & Hc%load_checkpoint_valid & H). apply bind_Ok in H as (vc & Hv%load_vericoding_valid & H).
  apply bind_Ok in H as (au & Hu%load_audit_valid & H). apply bind_Ok in H as (sl & Hs%load_sla_valid & H).
  apply bind_Ok in H as (rs' & -> & H). apply bind_Ok in H as (a & -> & H).
  apply bind_Ok in H as (api' & Ha' & H). apply bind_Ok in H as (cs' & _ & H). apply bind_Ok in H as (cp' & Hc' & H).
  injection H as <-. exists rs', a. split; [done|]. split; [done|].
  constructor; cbn [budgets models policy runner mcp trace remote_api checkpoint vericoding audit sla]; try done.
  - by apply overlay_runner_valid.
  - by apply (overlay_auth_valid _ _ _ Ha Ha').
  - by apply (overlay_checkpoint_valid _ _ _ Hc Hc').
Qed.

(** ** The theorems *)

(** C17: a configuration that loads is valid: every limit is in its range, every address,
    backend, policy and pin is one the program knows, and a server in bearer mode has a
    token; except for what the environment overlays, which is not checked again. *)
Theorem load_config_valid env root toml rs auth cs c :
  load_config env root toml rs auth cs = Ok c ->
  exists r a, rs = Ok r /\ auth = Ok a /\ valid (as_mode a) (rs_base_url r) c.
Proof. apply load_config_sound. Qed.

(** C18: whatever the file and the environment hold, loading fails with [ConfigError] or
    with what reading the file or one of the overlays raised, provided the numbers of the
    file fit their fields ([finite]). *)
Theorem load_config_errors env root toml rs auth cs e :
  (forall raw, toml (cfg_path env root) = Ok (Some raw) -> finite raw) ->
  load_config env root toml rs auth cs = Err e ->
  is_config_error e \/ toml (cfg_path env root) = Err e \/ rs = Err e \/ auth = Err e \/ cs = Err e.
Proof.
  intros Hf H. set (P e := is_config_error e \/ toml (cfg_path env root) = Err e \/ rs = Err e \/ auth = Err e \/ cs = Err e).
  assert (Hr : forall A (r : res A), reads r -> only P r) by (intros A r; apply only_mono; by left).
  cut (only P (load_config env root toml rs auth cs)); [by rewrite H|]. clear H e. unfold load_config.
  apply only_bind; [unfold P; destruct (toml _) eqn:E; cbn; auto|]. intros [raw|] Eraw; [|by left].
  specialize (Hf raw Eraw) as (F1 & F2 & F3 & F4). cbn [bind_res].
  apply only_bind; [apply Hr; reads|]. intros models_raw Em. rewrite (path_table _ _ _ _ _ Em) in F1; rewrite (path_table _ _ _ _ _ Em) in F2.
  do 6 (apply only_bind; [apply Hr; reads|]; intros ? _).
  apply only_bind; [apply Hr; reads|]. intros cp_raw Ec. rewrite (path_table _ _ _ _ _ Ec) in F3.
  do 2 (apply only_bind; [apply Hr; reads|]; intros ? _).
  apply only_bind; [apply Hr, reads_budgets|]. intros ? _.
  apply only_bind; [by apply Hr, reads_models|]. intros ? _.
  apply only_bind; [apply Hr, reads_policy|]. intros ? _. apply only_bind; [apply Hr, reads_runner|]. intros ? _.
  apply only_bind; [apply Hr, reads_mcp|]. intros ? _. apply only_bind; [apply Hr, reads_remote_api|]. intros ? _.
  apply only_bind; [by apply Hr, reads_checkpoint|]. intros ? _. apply only_bind; [apply Hr, reads_vericoding|]. intros ? _.
  apply only_bind; [apply Hr, reads_audit|]. intros ? _.
  apply only_bind; [apply Hr, reads_sla; revert F4; cbn [path dict_or_empty]; unfold dget; by destruct (dlookup "sla" raw)|]. intros ? _.
  apply only_bind; [unfold P; destruct rs; cbn; auto|]. intros ? _.
  apply only_bind; [unfold P; destruct auth; cbn; auto 6|]. intros ? _. apply only_bind; [apply Hr, reads_overlay_auth|]. intros ? _.
  apply only_bind; [unfold P; destruct cs; cbn; auto 7|]. intros ? _. by apply only_bind; [apply Hr, reads_overlay_checkpoint|].
Qed.

(** ** Concrete files *)

(** An environment that sets [LG_RUNNER_BASE_URL] unless it is empty. *)
Definition address_env (url : string) : string -> option string :=
  fun name => if String.eqb name "LG_RUNNER_BASE_URL" then or_none url else None.
Definition no_runner_settings : RunnerSettings := {| rs_base_url := ""; rs_timeout := fzero; rs_api_key := "" |}.
Definition no_auth_settings : AuthSettings := {| as_mode := ""; as_jwks_url := ""; as_secret := "" |}.
Definition no_checkpoint_settings : CheckpointSettings :=
  {| cs_backend := ""; cs_db_path := ""; cs_namespace := ""; cs_thread_prefix := ""; cs_redis_url := ""; cs_redis_ttl_seconds := 0 |}.

Definition minimal (more : dict) : dict :=
  ([("budgets", PDict [("max_loops", PInt 3); ("max_tool_calls_per_loop", PStr " 12 "); ("max_patch_bytes", PFloat (float_of_Z 100));
                       ("tool_timeout_s", PInt 5)]);
    ("policy", PDict [("network_default", PStr "deny"); ("require_approval_for_mutations", PBool true)]);
    ("runner", PDict [("base_url", PStr "http://runner:8088"); ("root_dir", PStr "/repo")])] ++ more)%list.

Definition load (more : dict) (mode url : string) : res AppConfig :=
  load_config (address_env url) "/repo" (fun _ => Ok (Some (minimal more)))
    (Ok {| rs_base_url := url; rs_timeout := fzero; rs_api_key := "" |})
    (Ok {| as_mode := mode; as_jwks_url := ""; as_secret := "" |}) (Ok no_checkpoint_settings).

Definition pinned_server : dict :=
  [("mcp", PDict [("enabled", PBool true);
                  ("servers", PDict [("fs", PDict [("command", PStr "srv");
                    ("schema_hash", PStr "0123456789abcdef0123456789abcdef0123456789ABCDEF0123456789abcdef")])])])].

Lemma load_config_valid_witness :
  exists c r a, load pinned_server "" "" = Ok c /\ valid (as_mode a) (rs_base_url r) c.
Proof.
  destruct (load pinned_server "" "") as [c|e] eqn:E; [|vm_compute in E; discriminate E].
  destruct (load_config_valid _ _ _ _ _ _ c E) as (r & a & _ & _ & V). by exists c, r, a.
Defined.

Definition rejected : dict := [("checkpoint", PDict [("backend", PStr "mysql")])].

Lemma load_config_errors_witness : exists e, load rejected "" "" = Err e /\ is_config_error e.
Proof.
  destruct (load rejected "" "") as [c|e] eqn:E; [vm_compute in E; discriminate E|]. exists e. split; [done|].
  destruct (load_config_errors (address_env "") "/repo" (fun _ => Ok (Some (minimal rejected)))
    (Ok no_runner_settings) (Ok no_auth_settings) (Ok no_checkpoint_settings) e
    ltac:(intros raw [= <-]; repeat split; cbn; constructor) E) as [H|[H|[H|[H|H]]]]; [exact H|discriminate H..].
Defined.

(** [LG_AUTH_MODE] puts a server without a token in bearer mode; [LG_RUNNER_BASE_URL]
    replaces an address that was checked by one that is not; an infinite number of seconds
    is an [OverflowError]. *)
Example bearer_without_token :
  match load [] "bearer" "" with Ok c => (auth_mode (remote_api c), bearer_token (remote_api c)) | Err _ => ("", None) end = ("bearer", None).
Proof. reflexivity. Qed.

Example padded_address :
  match load [] "" " http://elsewhere" with Ok c => is_http (base_url (runner c)) | Err _ => true end = false.
Proof. reflexivity. Qed.

Example infinite_ttl :
  load [("checkpoint", PDict [("redis_ttl_seconds", PFloat (SpecFloat.S754_infinity false))])] "" "" =
  Err (OverflowError "cannot convert float infinity to integer").
Proof. reflexivity. Qed.
