(* ===== verification/Serve.v ===== *)
(** * From the configuration to the server: the start of [serve_remote_api]

    [remote_api.py] loads the configuration, builds the limiters and the stores and
    serves; a configuration that does not load ends the command with status 2. *)
From Stdlib Require Import ZArith Lia String List Bool.
From stdpp Require Import base tactics list strings option relations.
From S2P Require Import Prelude PyStr PyFloat PyVal Json Approval RunRecord Service ServiceProps RateLimit Auth Healing Http HttpProps.
From S2P Require Import Configuration ConfigProps RunStore RedisStore.
Local Open Scope string_scope.
Local Open Scope Z_scope.

Definition jwt_settings_from_config (secret url : option string) : JWTSettings :=
  {| Auth.jwt_secret := secret; Auth.jwks_url := url |}.

(** [LG_RATE_LIMIT_ENABLED], read once by the module; the defaults of [RateLimiter]. *)
Definition _per_client_rate_limiter (env : string -> option string) : option RateLimiter :=
  if str_in (lower (default "false" (env "LG_RATE_LIMIT_ENABLED"))) ["true"; "1"; "yes"]
  then Some (new_limiter (float_of_Z 60) (float_of_Z 1)) else None.

Definition rate_limiter (rps : Z) (now : float) : option TokenBucket :=
  if 0 <? rps then Some (new_service_limiter (Z.max (rps * 2) 10) rps now) else None.

Definition server_of (c : RemoteAPIConfig) : Server :=
  {| Http.auth_mode := auth_mode c; expected_bearer_token := bearer_token c;
     Http.allow_unauthenticated_healthz := allow_unauthenticated_healthz c;
     Http.jwt_settings := jwt_settings_from_config (jwt_secret c) (jwks_url c);
     trust_forwarded := trust_forwarded_headers c |}.

(** What is served: the server, the state of its front door, the store of its runs with
    its namespace, the procedure cache if there is one. *)
Record Served := {
  sd_server : Server; sd_front : Front; sd_store : Backend; sd_namespace : string; sd_cache : option string }.

Definition serve_remote_api (env : string -> option string) (reachable : string -> bool) (now : float)
    (config : res AppConfig) : Z + Served :=
  match config with
  | Err _ => inl 2
  | Ok cfg =>
      let c := remote_api cfg in
      inr {| sd_server := server_of c;
             sd_front := new_front (rate_limiter (rate_limit_rps c) now) (_per_client_rate_limiter env);
             sd_store := create_run_store env reachable (run_store_path c) None;
             sd_namespace := strip (default_namespace c);
             sd_cache := procedure_cache_path c |}
  end.

(** A loaded configuration gives a server that is configured, unless [LG_AUTH_MODE] put it
    in bearer mode. *)
Lemma served_configured forced url c : valid forced url c -> forced <> "bearer" -> configured (server_of (remote_api c)).
Proof.
  intros V Hf. destruct (v_remote_api _ _ _ V) as ([Hm|[Hm [?|Ht]]] & _); [by left|done|]. right. by split.
Qed.

(** C19: a served configuration that puts the server in bearer mode guards it: whatever
    requests arrive and however they interleave, every call that reaches the run service
    or the healing loops (but for the reading of a run named like a file) comes from a
    request that presented the configured token. *)
Theorem bearer_config_guards {Key} (pyjwt : Pyjwt Key) env root toml rs a cs c reachable now sd cfg hs rq call :
  load_config env root toml rs (Ok a) cs = Ok c -> as_mode a <> "bearer" -> auth_mode (remote_api c) = "bearer" ->
  serve_remote_api env reachable now (Ok c) = inr sd ->
  rtc (hstep pyjwt (sd_server sd) cfg) (serving (sd_front sd)) hs -> In (rq, call) (handed hs) -> ~ asset_read call ->
  configured (sd_server sd) /\ exists token, bearer_token (remote_api c) = Some token /\ presents rq token.
Proof.
  intros Hl Hf Hm [= <-] Hr Hin Ha. cbn [sd_server sd_front] in *.
  destruct (load_config_sound _ _ _ _ _ _ _ Hl) as (r & a' & _ & [= <-] & V).
  assert (Hc := served_configured _ _ _ V Hf). split; [exact Hc|].
  destruct (lawful_reachable pyjwt _ cfg _ hs Hr) as [_ B _ _]. destruct (B _ _ Hin) as [[H|[H|(_ & token & Ht & Hp)]] _].
  - cbn in H. congruence.
  - done.
  - exists token. split; [exact Ht|exact Hp].
Qed.

Definition bearer_section : dict :=
  [("remote_api", PDict [("auth_mode", PStr " Bearer "); ("bearer_token", PStr "ann"); ("default_namespace", PStr "prod")])].

Lemma bearer_config_guards_witness :
  exists c sd, load bearer_section "" "" = Ok c /\ serve_remote_api (address_env "") (fun _ => false) fzero (Ok c) = inr sd /\
    configured (sd_server sd) /\ exists token, bearer_token (remote_api c) = Some token /\ presents approval token.
Proof.
  destruct (load bearer_section "" "") as [c|e] eqn:E; [|vm_compute in E; discriminate E].
  exists c. eexists. split; [reflexivity|]. split; [reflexivity|].
  assert (Hm : auth_mode (remote_api c) = "bearer") by (vm_compute in E; injection E as <-; reflexivity).
  assert (Hs : server_of (remote_api c) = server "bearer" (Some "ann") None) by (vm_compute in E; injection E as <-; reflexivity).
  assert (Hf : new_front (rate_limiter (rate_limit_rps (remote_api c)) fzero) (_per_client_rate_limiter (address_env "")) = door)
    by (vm_compute in E; injection E as <-; reflexivity).
  refine (bearer_config_guards two_tokens _ _ _ _ no_auth_settings _ c (fun _ => false) fzero _ demo (approval_asked "bearer") approval
    (OnRun (Approve "r1" [] "bearer")) E _ Hm eq_refl _ _ _); cbn [sd_server sd_front].
  - discriminate.
  - rewrite Hs, Hf. apply approval_reached. reflexivity.
  - by left.
  - intros (id & ? & _). discriminate.
Defined.
