(* ===== verification/AuditSink.v ===== *)
(** * The audit log and its sinks: [audit.py]

    The file gets a line per event; a sink collects the events and uploads them in batches.
    [log] only starts an export: in the running event loop, or in a thread with a loop of its
    own.  Exports of different threads interleave, and the only thing they share is one
    [asyncio.Lock], which tests and sets its flag without a lock of its own and belongs to the
    first event loop that waits for it.  So an export is a sequence of turns on the shared
    sink, each of which nothing interrupts, and the logger is a step relation in which any
    export takes the next turn.  The two object stores are readings: the date, the random name
    and whether the upload succeeded; writing the file is taken to succeed. *)
From Stdlib Require Import ZArith Lia String Ascii List Bool Permutation.
From stdpp Require Import base tactics list strings option.
From S2P Require Import Prelude PyStr StrFacts PyFloat PyVal.
From S2P Require Http Configuration.
Local Open Scope string_scope.
Local Open Scope Z_scope.

Abbreviation AuditEvent := Http.AuditEvent.
Abbreviation to_jsonl := Http.to_jsonl.

(** ** Sinks *)

Inductive Target := S3AuditSink (bucket prefix region : string) | GCSAuditSink (bucket prefix : string).

Definition trimmed (prefix : string) : string := rstrip_by (Ascii.eqb "/") prefix.

(** [locked] is the flag of the lock. *)
Record Sink := { target : Target; batch : list AuditEvent; last_flush : float; locked : bool }.

Definition new_sink (t : Target) : Sink :=
  {| target := match t with
               | S3AuditSink b p r => S3AuditSink b (trimmed p) r
               | GCSAuditSink b p => GCSAuditSink b (trimmed p)
               end;
     batch := []; last_flush := fzero; locked := false |}.

Definition build_sink (config : Configuration.AuditConfig) : option Sink :=
  match Configuration.sink_type config with
  | None => None
  | Some "s3" =>
      let bucket := default "" (Configuration.s3_bucket config) in
      if String.eqb bucket "" then None
      else Some (new_sink (S3AuditSink bucket (Configuration.s3_prefix config) (Configuration.s3_region config)))
  | Some "gcs" =>
      let bucket := default "" (Configuration.gcs_bucket config) in
      if String.eqb bucket "" then None else Some (new_sink (GCSAuditSink bucket (Configuration.gcs_prefix config)))
  | Some _ => None
  end.

Definition max_batch : Z := 100.
Definition flush_interval : float := float_of_Z 5.

(** An object of a bucket, with the events it holds. *)
Record Object := { o_bucket : string; o_key : string; o_body : string; o_events : list AuditEvent }.

Definition object_of (t : Target) (date hex : string) (events : list AuditEvent) : Object :=
  let '(bucket, prefix) := match t with S3AuditSink b p _ | GCSAuditSink b p => (b, p) end in
  {| o_bucket := bucket; o_key := prefix ++ "/" ++ date ++ "/" ++ hex ++ ".jsonl"; o_body := join nl (List.map to_jsonl events);
     o_events := events |}.

(** What a turn reads: the clock, the names, whether the upload succeeds, and whether the
    lock, when it is taken, may be waited for in this event loop. *)
Record Reading := { now : float; date_str : string; hex : string; uploaded : bool; waits_here : bool }.

(** ** An export *)

(** Where an export is: not run yet; waiting for the lock; it has seen the lock free; it has
    the lock; it has appended its event; it is to flush; it has copied the batch; cleared it;
    it is to release the lock, and then to upload; it uploads. *)
Inductive Stage :=
| Scheduled | Waiting | Checked | Inside | Appended | Flushing (t : float) | Copied (t : float) (b : list AuditEvent)
| Cleared (t : float) (b : list AuditEvent) | Leaving (b : list AuditEvent) | Uploading (b : list AuditEvent).

(** What a turn leads to. *)
Inductive Fate := Goes (st : Stage) | Ends | Stores (o : Object) | Loses (events : list AuditEvent) | Refused.

Definition set_batch (b : list AuditEvent) (s : Sink) : Sink :=
  {| target := target s; batch := b; last_flush := last_flush s; locked := locked s |}.
Definition set_flush (t : float) (s : Sink) : Sink :=
  {| target := target s; batch := batch s; last_flush := t; locked := locked s |}.
Definition set_locked (v : bool) (s : Sink) : Sink :=
  {| target := target s; batch := batch s; last_flush := last_flush s; locked := v |}.

Definition should_flush (t : float) (s : Sink) : bool :=
  (max_batch <=? Z.of_nat (length (batch s))) || fleb flush_interval (fsub t (last_flush s)).

(** The next turn of the export of [e] at stage [st].  Without its library ([installed]) an
    export returns at once.  A lock that belongs to another event loop, and one that is
    released twice, raise [RuntimeError], which ends the export. *)
Definition turn (installed : bool) (r : Reading) (e : AuditEvent) (st : Stage) (s : Sink) : Sink * Fate :=
  match st with
  | Scheduled =>
      if negb installed then (s, Loses [e])
      else if locked s then (s, if waits_here r then Goes Waiting else Refused)
      else (s, Goes Checked)
  | Waiting => (s, if locked s then Goes Waiting else Goes Checked)
  | Checked => (set_locked true s, Goes Inside)
  | Inside => (set_batch (batch s ++ [e])%list s, Goes Appended)
  | Appended => (s, if should_flush (now r) s then Goes (Flushing (now r)) else Goes (Leaving []))
  | Flushing t => (s, Goes (Copied t (batch s)))
  | Copied t b => (set_batch [] s, Goes (Cleared t b))
  | Cleared t b => (set_flush t s, Goes (Leaving b))
  | Leaving b =>
      if locked s then (set_locked false s, match b with [] => Ends | _ => Goes (Uploading b) end)
      else (s, Loses b)
  | Uploading b => (s, if uploaded r then Stores (object_of (target s) (date_str r) (hex r) b) else Loses b)
  end.

(** ** The logger *)

Definition Export : Type := AuditEvent * Stage.

(** [objects], [lost] and [refused] are what became of the events; [overlapped]: an export
    took the lock although another had it. *)
Record AuditLogger := {
  file : string; sink : option Sink; exports : list Export; objects : list Object; lost : list AuditEvent;
  refused : list AuditEvent; overlapped : bool; logged : list AuditEvent }.

Definition AuditLogger_init (contents : string) (sink : option Sink) : AuditLogger :=
  {| file := contents; sink := sink; exports := []; objects := []; lost := []; refused := []; overlapped := false; logged := [] |}.

Definition log (event : AuditEvent) (l : AuditLogger) : AuditLogger :=
  {| file := file l ++ (to_jsonl event ++ nl); sink := sink l;
     exports := match sink l with Some _ => (exports l ++ [(event, Scheduled)])%list | None => exports l end;
     objects := objects l; lost := lost l; refused := refused l; overlapped := overlapped l; logged := (logged l ++ [event])%list |}.

Definition on_exports (e : AuditEvent) (f : Fate) : list Export := match f with Goes st => [(e, st)] | _ => [] end.
Definition on_objects (f : Fate) : list Object := match f with Stores o => [o] | _ => [] end.
Definition on_lost (f : Fate) : list AuditEvent := match f with Loses l => l | _ => [] end.
Definition on_refused (e : AuditEvent) (f : Fate) : list AuditEvent := match f with Refused => [e] | _ => [] end.

(** The export of [e], between [before] and [after], came to [f] and left the sink as [s]. *)
Definition settle (before : list Export) (e : AuditEvent) (after : list Export) (race : bool) (s : Sink) (f : Fate) (l : AuditLogger)
    : AuditLogger :=
  {| file := file l; sink := Some s; exports := (before ++ on_exports e f ++ after)%list; objects := (objects l ++ on_objects f)%list;
     lost := (lost l ++ on_lost f)%list; refused := (refused l ++ on_refused e f)%list; overlapped := overlapped l || race;
     logged := logged l |}.

Definition races (st : Stage) (s : Sink) : bool := match st with Checked => locked s | _ => false end.

Definition take_turn (installed : bool) (r : Reading) (before : list Export) (e : AuditEvent) (st : Stage) (after : list Export)
    (s : Sink) (l : AuditLogger) : AuditLogger :=
  let '(s', f) := turn installed r e st s in settle before e after (races st s) s' f l.

Inductive step (installed : bool) : AuditLogger -> AuditLogger -> Prop :=
| s_log l e : step installed l (log e l)
| s_turn l s r before e st after :
    sink l = Some s -> exports l = (before ++ (e, st) :: after)%list -> step installed l (take_turn installed r before e st after s l).

Inductive reachable (installed : bool) (l0 : AuditLogger) : AuditLogger -> Prop :=
| r_init : reachable installed l0 l0
| r_step l l' : reachable installed l0 l -> step installed l l' -> reachable installed l0 l'.

(** *** In one event loop *)

(** The section under the lock, which has no await: the batch to upload, empty when it is not
    time. *)
Definition take_batch (now : float) (event : AuditEvent) (s : Sink) : Sink * list AuditEvent :=
  let s := set_batch (batch s ++ [event])%list s in
  if should_flush now s then (set_flush now (set_batch [] s), batch s) else (s, []).

Definition section (installed : bool) (r : Reading) (e : AuditEvent) (s : Sink) : Sink * Fate :=
  if installed then let '(s', b) := take_batch (now r) e s in (s', match b with [] => Ends | _ => Goes (Uploading b) end)
  else (s, Loses [e]).

(** [log] in a running loop: an export runs to its upload without interruption. *)
Inductive loop_step (installed : bool) : AuditLogger -> AuditLogger -> Prop :=
| l_log l e : loop_step installed l (log e l)
| l_section l s r before e after s' f :
    sink l = Some s -> exports l = (before ++ (e, Scheduled) :: after)%list -> section installed r e s = (s', f) ->
    loop_step installed l (settle before e after false s' f l)
| l_upload l s r before e b after :
    sink l = Some s -> exports l = (before ++ (e, Uploading b) :: after)%list ->
    loop_step installed l (take_turn installed r before e (Uploading b) after s l).

Inductive loop_reachable (installed : bool) (l0 : AuditLogger) : AuditLogger -> Prop :=
| lr_init : loop_reachable installed l0 l0
| lr_step l l' : loop_reachable installed l0 l -> loop_step installed l l' -> loop_reachable installed l0 l'.

(** ** The lines of the file *)

Lemma lacks_join c sep l : lacks c sep = true -> Forall (fun s => lacks c s = true) l -> lacks c (join sep l) = true.
Proof.
  intros Hs H. induction H as [|s l Hl H IH]; [done|]. destruct l as [|t l]; [exact Hl|].
  change (join sep (s :: t :: l)) with (s ++ sep ++ join sep (t :: l)). by rewrite !lacks_app, Hl, Hs, IH.
Qed.

Lemma json_char_no_nl c : lacks "010" (json_char c) = true.
Proof. destruct c as [[] [] [] [] [] [] [] []]; vm_compute; reflexivity. Qed.

Lemma json_str_no_nl s : lacks "010" (json_str s) = true.
Proof.
  unfold json_str. rewrite !lacks_app. change (lacks "010" dq) with true. rewrite andb_true_r. cbn [andb].
  induction s as [|c s IH]; [done|]. cbn [concat_map_str]. by rewrite lacks_app, json_char_no_nl, IH.
Qed.

Lemma field_no_nl k v : lacks "010" v = true -> lacks "010" (json_str k ++ ":" ++ v) = true.
Proof. intros H. by rewrite !lacks_app, json_str_no_nl, H. Qed.

Lemma json_opt_no_nl o : lacks "010" (Http.json_opt o) = true.
Proof. destruct o; [apply json_str_no_nl|done]. Qed.

Lemma to_jsonl_one_line e : lacks "010" (to_jsonl e) = true.
Proof.
  unfold Http.to_jsonl. rewrite !lacks_app. apply andb_true_intro. split; [done|]. apply andb_true_intro. split; [|done].
  apply lacks_join; [done|]. repeat apply List.Forall_cons; [..|apply List.Forall_nil].
  all: apply field_no_nl; try apply json_str_no_nl; try apply json_opt_no_nl.
  rewrite !lacks_app. apply andb_true_intro. split; [done|]. apply andb_true_intro. split; [|done].
  apply lacks_join; [done|]. apply List.Forall_map. apply List.Forall_forall. intros x _. apply json_str_no_nl.
Qed.

Lemma split_lines l rest : Forall (fun s => lacks "010" s = true) l ->
  split_char "010" (fold_right (fun s t => s ++ String "010" t) rest l) = (l ++ split_char "010" rest)%list.
Proof. induction 1 as [|s l Hs _ IH]; [done|]. cbn [fold_right app]. by rewrite split_char_app, IH by exact Hs. Qed.

Lemma join_lines s l : join nl (s :: l) = s ++ fold_right (fun x t => String "010" x ++ t) "" l.
Proof.
  revert s. induction l as [|t l IH]; intros s; [cbn; induction s as [|c s IHs]; [done|exact (f_equal (String c) IHs)]|].
  change (join nl (s :: t :: l)) with (s ++ nl ++ join nl (t :: l)). rewrite IH. reflexivity.
Qed.

Lemma split_join l : l <> [] -> Forall (fun s => lacks "010" s = true) l -> split_char "010" (join nl l) = l.
Proof.
  intros Hn H. destruct l as [|s l]; [done|]. clear Hn. revert s H. induction l as [|t l IH]; intros s H; inversion_clear H as [|? ? Hs Hl].
  - by apply split_char_lacks.
  - change (join nl (s :: t :: l)) with (s ++ String "010" (join nl (t :: l))). by rewrite split_char_app, IH.
Qed.

(** ** What becomes of events *)

Definition bucket_of (t : Target) : string := match t with S3AuditSink b _ _ | GCSAuditSink b _ => b end.
Definition batch_of (o : option Sink) : list AuditEvent := match o with Some s => batch s | None => [] end.
Definition line (e : AuditEvent) : string := to_jsonl e.

(** An uploaded object: events of the configured bucket, one per line. *)
Definition object_ok (bucket : string) (o : Object) : Prop :=
  o_bucket o = bucket /\ o_events o <> [] /\ split_char "010" (o_body o) = List.map line (o_events o).

Lemma object_of_ok t date hex events : events <> [] -> object_ok (bucket_of t) (object_of t date hex events).
Proof.
  intros H. unfold object_ok, object_of. destruct t; cbn [o_bucket o_events o_body bucket_of]; (split; [done|]); (split; [done|]).
  all: apply split_join; [by destruct events|apply List.Forall_map, List.Forall_forall; intros e _; apply to_jsonl_one_line].
Qed.

Lemma object_of_events t date hex events : o_events (object_of t date hex events) = events.
Proof. by destruct t. Qed.

Definition lines (events : list AuditEvent) : string := fold_right (fun e t => line e ++ String "010" t) "" events.

Lemma lines_snoc events e : lines (events ++ [e]) = lines events ++ (line e ++ nl).
Proof.
  induction events as [|x events IH]; [done|]. cbn [app lines fold_right]. fold (lines (events ++ [e])). rewrite IH.
  change (fold_right _ _ events) with (lines events). change (String "010" (lines events ++ line e ++ nl)) with (String "010" (lines events) ++ (line e ++ nl)).
  by rewrite str_app_assoc.
Qed.

(** The events an export has taken and not passed on: its own, or those of its batch. *)
Definition held (x : Export) : list AuditEvent :=
  match snd x with
  | Scheduled | Waiting | Checked | Inside => [fst x]
  | Appended | Flushing _ | Copied _ _ => []
  | Cleared _ b | Leaving b | Uploading b => b
  end.
(** The events an export has a copy of. *)
Definition copies (x : Export) : list AuditEvent :=
  fst x :: match snd x with Copied _ b | Cleared _ b | Leaving b | Uploading b => b | _ => [] end.

(** *** In every interleaving *)

Definition upload_ok (x : Export) : Prop := match snd x with Uploading b => b <> [] | _ => True end.

Record sound (contents : string) (sink0 : option Sink) (l : AuditLogger) : Prop := {
  so_file : file l = contents ++ lines (logged l);
  so_sink : option_map target (sink l) = option_map target sink0;
  so_objects : forall s, sink l = Some s -> Forall (object_ok (bucket_of (target s))) (objects l);
  so_none : sink0 = None -> objects l = [];
  so_uploads : Forall upload_ok (exports l);
  so_events : incl (flat_map copies (exports l) ++ batch_of (sink l) ++ flat_map o_events (objects l)) (logged l) }.

Lemma turn_target installed r e st s : target (fst (turn installed r e st s)) = target s.
Proof. destruct st; cbn; repeat case_match; done. Qed.

(** What a turn passes on it had. *)
Lemma turn_events installed r e st s x :
  In x (flat_map copies (on_exports e (snd (turn installed r e st s))) ++ batch (fst (turn installed r e st s)) ++
        flat_map o_events (on_objects (snd (turn installed r e st s)))) ->
  In x (copies (e, st) ++ batch s).
Proof.
  unfold copies. destruct st; cbn -[object_of]; repeat case_match; cbn -[object_of];
    rewrite ?object_of_events; repeat (rewrite in_app_iff || cbn); tauto.
Qed.

Lemma turn_objects installed r e st s : upload_ok (e, st) ->
  Forall (object_ok (bucket_of (target s))) (on_objects (snd (turn installed r e st s))) /\
  Forall upload_ok (on_exports e (snd (turn installed r e st s))).
Proof.
  unfold upload_ok. cbn [snd]. intros H. destruct st; cbn -[object_of]; repeat case_match; cbn -[object_of]; split; repeat constructor; try done; by apply object_of_ok.
Qed.

Lemma log_sound contents sink0 e l : sound contents sink0 l -> sound contents sink0 (log e l).
Proof.
  intros [H1 H2 H3 H4 H5 H6]. constructor; cbn; try done.
  - by rewrite H1, lines_snoc, str_app_assoc.
  - destruct (sink l); [|done]. apply List.Forall_app. split; [done|]. by repeat constructor.
  - destruct (sink l); [rewrite flat_map_app; cbn|]; intros x Hx; rewrite in_app_iff; specialize (H6 x);
      rewrite !in_app_iff in *; cbn in *; tauto.
Qed.

Lemma turn_sound contents sink0 installed r before e st after s l :
  sound contents sink0 l -> sink l = Some s -> exports l = (before ++ (e, st) :: after)%list ->
  sound contents sink0 (take_turn installed r before e st after s l).
Proof.
  intros [H1 H2 H3 H4 H5 H6] Es Ee. unfold take_turn.
  pose proof (turn_target installed r e st s) as Ht. pose proof (turn_events installed r e st s) as Hev.
  rewrite Ee in H5, H6. rewrite Es in H2, H6. apply List.Forall_app in H5 as [H5 [Hx H5']%List.Forall_cons_iff].
  destruct (turn_objects installed r e st s Hx) as [Ho Hu]. destruct (turn installed r e st s) as [s' f]. cbn [fst snd] in *.
  constructor; cbn.
  - done.
  - rewrite Ht. by rewrite <- H2.
  - intros ? [= <-]. rewrite Ht. apply List.Forall_app. by split; [apply H3|].
  - intros ->. discriminate H2.
  - rewrite !List.Forall_app. done.
  - intros x Hin. specialize (Hev x). apply H6. rewrite !flat_map_app in *. cbn [flat_map batch_of] in *. rewrite !in_app_iff in *. tauto.
Qed.

(** *** When no two exports have the lock at once *)

Definition in_section (st : Stage) : bool :=
  match st with Scheduled | Waiting | Checked | Uploading _ => false | _ => true end.

Definition at_most (n : nat) (b : list AuditEvent) : Prop := (length b <= n)%nat.

(** The batch while an export has the lock. *)
Definition section_ok (st : Stage) (b : list AuditEvent) : Prop :=
  match st with
  | Inside => at_most 99 b
  | Appended | Flushing _ => at_most 100 b
  | Copied _ c => b = c /\ at_most 100 c
  | Cleared _ c => b = [] /\ at_most 100 c
  | Leaving c => at_most 99 b /\ at_most 100 c
  | _ => True
  end.

Definition sections (xs : list Export) : list Export := List.filter (fun x => in_section (snd x)) xs.

(** The lock is held by the one export that is in the section. *)
Definition exclusive (s : Sink) (xs : list Export) : Prop :=
  match sections xs with
  | [] => locked s = false /\ at_most 99 (batch s)
  | [x] => locked s = true /\ section_ok (snd x) (batch s)
  | _ => False
  end.

Definition small (x : Export) : Prop := match snd x with Uploading b => at_most 100 b | _ => True end.

Record conserved (s : Sink) (l : AuditLogger) : Prop := {
  co_exclusive : exclusive s (exports l);
  co_small : Forall small (exports l);
  co_objects : Forall (fun o => at_most 100 (o_events o)) (objects l);
  co_events : Permutation (logged l) (flat_map held (exports l) ++ batch s ++ flat_map o_events (objects l) ++ lost l ++ refused l) }.

Lemma sections_app xs ys : sections (xs ++ ys) = (sections xs ++ sections ys)%list.
Proof. apply List.filter_app. Qed.

Lemma sections_mid before x after :
  sections (before ++ x :: after) = (sections before ++ (if in_section (snd x) then [x] else []) ++ sections after)%list.
Proof. unfold sections. rewrite List.filter_app. cbn [List.filter]. by destruct (in_section (snd x)). Qed.

(** The stage of the export that takes a turn agrees with the lock. *)
Lemma exclusive_at s before e st after :
  exclusive s (before ++ (e, st) :: after) -> in_section st = true ->
  locked s = true /\ section_ok st (batch s) /\ sections before = [] /\ sections after = [].
Proof.
  unfold exclusive. rewrite sections_mid. cbn [snd]. intros H E. rewrite E in H. destruct (sections before) as [|b bs].
  - cbn [app] in H. destruct (sections after); [|done]. by destruct H.
  - exfalso. destruct bs; cbn in H; [by destruct (sections after)|done].
Qed.

Lemma exclusive_free s before e st after :
  exclusive s (before ++ (e, st) :: after) -> in_section st = false -> exclusive s (before ++ after).
Proof. unfold exclusive. rewrite sections_mid. cbn [snd]. intros H E. rewrite E in H. by rewrite sections_app. Qed.

Lemma unlocked_free s xs : exclusive s xs -> locked s = false -> sections xs = [] /\ at_most 99 (batch s).
Proof. unfold exclusive. destruct (sections xs) as [|x [|? ?]]; intros H E; [by destruct H|destruct H; congruence|done]. Qed.

Lemma exclusive_put s before x after :
  sections before = [] -> sections after = [] -> in_section (snd x) = true -> locked s = true -> section_ok (snd x) (batch s) ->
  exclusive s (before ++ [x] ++ after).
Proof. intros H1 H2 H3 H4 H5. unfold exclusive. cbn [app]. by rewrite sections_mid, H1, H2, H3. Qed.

Lemma exclusive_none s before xs after :
  sections before = [] -> sections after = [] -> sections xs = [] -> locked s = false -> at_most 99 (batch s) ->
  exclusive s (before ++ xs ++ after).
Proof. intros H1 H2 H3 H4 H5. unfold exclusive. by rewrite !sections_app, H1, H2, H3. Qed.

Lemma exclusive_same s before xs after :
  exclusive s (before ++ after) -> sections xs = [] -> exclusive s (before ++ xs ++ after).
Proof. unfold exclusive. rewrite !sections_app. intros H E. by rewrite E. Qed.

(** A turn keeps the lock exclusive, unless it takes it from another export. *)
Lemma turn_exclusive installed r before e st after s :
  exclusive s (before ++ (e, st) :: after) -> races st s = false ->
  let '(s', f) := turn installed r e st s in exclusive s' (before ++ on_exports e f ++ after).
Proof.
  intros H Hr. destruct (in_section st) eqn:Ei.
  - destruct (exclusive_at _ _ _ _ _ H Ei) as (Hl & Hs & H1 & H2).
    destruct st; try discriminate Ei; cbn [turn section_ok] in *; unfold at_most in *; rewrite ?Hl.
    + apply exclusive_put; try done. cbn. unfold at_most. rewrite length_app. cbn. lia.
    + destruct (should_flush (now r) s) eqn:Ef; (apply exclusive_put; [done..|]); cbn; unfold at_most; [exact Hs|]. cbn.
      unfold should_flush in Ef. apply orb_false_elim in Ef as [Ef _]. apply Z.leb_gt in Ef. unfold max_batch in Ef. split; lia.
    + apply exclusive_put; [done..|]. by split.
    + destruct Hs as [_ Hs]. apply exclusive_put; [done..|]. by split.
    + destruct Hs as [Hb Hs]. apply exclusive_put; [done..|]. cbn. unfold at_most. rewrite Hb. cbn. split; lia.
    + destruct Hs as [Hb Hs]. by destruct b; apply exclusive_none.
  - pose proof (exclusive_free _ _ _ _ _ H Ei) as H'. destruct st; try discriminate Ei; cbn [turn].
    + destruct installed; cbn [negb]; [|by apply exclusive_same]. destruct (locked s); [|by apply exclusive_same].
      by destruct (waits_here r); apply exclusive_same.
    + destruct (locked s); by apply exclusive_same.
    + cbn [races] in Hr. destruct (unlocked_free _ _ H' Hr) as [Hn Hb]. rewrite sections_app in Hn.
      apply app_eq_nil in Hn as [? ?]. by apply exclusive_put.
    + by destruct (uploaded r); apply exclusive_same.
Qed.

#[local] Instance AuditEvent_eq_dec : EqDecision AuditEvent.
Proof. solve_decision. Defined.

(** The events of the export that takes a turn go where the turn puts them. *)
Lemma moved (all before after b b' objs new lo dl re dr h h' : list AuditEvent) :
  Permutation (h ++ b) (h' ++ b' ++ new ++ dl ++ dr) -> Permutation all ((before ++ h ++ after) ++ b ++ objs ++ lo ++ re) ->
  Permutation all ((before ++ h' ++ after) ++ b' ++ (objs ++ new) ++ (lo ++ dl) ++ (re ++ dr)).
Proof.
  rewrite !(Permutation_count_occ AuditEvent_eq_dec). intros H1 H2 x. rewrite (H2 x). specialize (H1 x). clear H2.
  rewrite !count_occ_app in *. lia.
Qed.

Lemma turn_moves installed r e st s :
  (in_section st = true -> locked s = true /\ section_ok st (batch s)) ->
  let t := turn installed r e st s in
  Permutation (held (e, st) ++ batch s) (flat_map held (on_exports e (snd t)) ++ batch (fst t) ++
    flat_map o_events (on_objects (snd t)) ++ on_lost (snd t) ++ on_refused e (snd t)).
Proof.
  intros H t. subst t. destruct st; cbn -[object_of] in H |- *; try (destruct (H eq_refl) as [Hl Hs]; rewrite ?Hl); repeat case_match; cbn -[object_of];
    rewrite ?object_of_events, ?app_nil_r; try done; try apply Permutation_cons_append; try apply Permutation_app_comm.
  by destruct Hs as [-> _].
Qed.

Lemma turn_small installed r before e st after s :
  exclusive s (before ++ (e, st) :: after) -> small (e, st) ->
  Forall small (on_exports e (snd (turn installed r e st s))) /\
  Forall (fun o => at_most 100 (o_events o)) (on_objects (snd (turn installed r e st s))).
Proof.
  intros H Hx. assert (Hs : in_section st = true -> section_ok st (batch s)) by (intros Ei; by apply (exclusive_at _ _ _ _ _ H)).
  clear H. unfold small in *. cbn [snd] in *. destruct st; cbn -[object_of] in *; repeat case_match; cbn -[object_of];
    (split; repeat first [apply List.Forall_nil|apply List.Forall_cons]); cbn -[object_of]; rewrite ?object_of_events; try done.
  by destruct (Hs eq_refl).
Qed.

Lemma turn_conserved installed r before e st after s l :
  conserved s l -> exports l = (before ++ (e, st) :: after)%list -> races st s = false ->
  conserved (fst (turn installed r e st s)) (take_turn installed r before e st after s l).
Proof.
  intros [H1 H2 H3 H4] Ee Hr. rewrite Ee in H1, H2, H4. apply List.Forall_app in H2 as [H2 [Hx H2']%List.Forall_cons_iff].
  pose proof (turn_exclusive installed r before e st after s H1 Hr) as Hex.
  assert (Hs : in_section st = true -> locked s = true /\ section_ok st (batch s)).
  { intros Ei. by destruct (exclusive_at _ _ _ _ _ H1 Ei) as (? & ? & _). }
  pose proof (turn_moves installed r e st s Hs) as Hm. cbv zeta in Hm. destruct (turn_small installed r before e st after s H1 Hx) as [Hsm Hob].
  unfold take_turn. destruct (turn installed r e st s) as [s' f]. cbn [fst snd] in *. constructor; cbn.
  - exact Hex.
  - by rewrite !List.Forall_app.
  - by rewrite List.Forall_app.
  - rewrite !flat_map_app in *. cbn [flat_map] in H4. by eapply moved.
Qed.

Lemma log_conserved s e l : conserved s l -> sink l = Some s -> conserved s (log e l).
Proof.
  intros [H1 H2 H3 H4] Es. constructor; unfold log; cbn; rewrite ?Es; try done.
  - unfold exclusive in *. by rewrite sections_app, app_nil_r.
  - apply List.Forall_app. by split; [|repeat constructor].
  - rewrite (Permutation_count_occ AuditEvent_eq_dec) in *. intros x. specialize (H4 x).
    rewrite flat_map_app, !count_occ_app in *. cbn [count_occ flat_map app held snd fst] in *. lia.
Qed.

(** *** The two together *)

Lemma build_sink_new config s : build_sink config = Some s -> locked s = false /\ batch s = [].
Proof.
  unfold build_sink. destruct (Configuration.sink_type config) as [t|]; [|done]. repeat case_match; try done; by intros [= <-].
Qed.

Lemma reached installed contents sink0 l : (forall s, sink0 = Some s -> locked s = false /\ batch s = []) ->
  reachable installed (AuditLogger_init contents sink0) l ->
  sound contents sink0 l /\ (overlapped l = false -> forall s, sink l = Some s -> conserved s l).
Proof.
  intros H0 H. induction H as [|l l' _ [IHs IHc] Hs].
  { split.
    - constructor; cbn; try done; [by rewrite str_app_nil|]. intros x. destruct sink0 as [s|]; [|done]. cbn. by destruct (H0 s eq_refl) as [_ ->].
    - cbn. intros _ s ->. destruct (H0 s eq_refl) as [Hl Hb].
      constructor; cbn; [unfold exclusive, at_most; cbn; rewrite Hb; cbn; split; [done|lia]|constructor|constructor|by rewrite Hb]. }
  destruct Hs as [l e|l s r before e st after Es Ee].
  - split; [by apply log_sound|]. cbn. intros Ho s Es. by apply log_conserved; [apply IHc|].
  - split; [by apply turn_sound|]. unfold take_turn.
    pose proof (turn_conserved installed r before e st after s l) as Hc. unfold take_turn in Hc.
    destruct (turn installed r e st s) as [s' f]. cbn [fst settle overlapped sink] in *. intros Ho s2 [= <-].
    apply orb_false_elim in Ho as [Ho Hr]. by apply Hc; [apply IHc| |].
Qed.

(** C31: What becomes of audit events.  In every state a logger reaches, however the turns of
    its exports interleave (each in the loop that logs or in a thread of its own), the file
    holds what it held before followed by one line per logged event, in order, each upload is
    an object of the configured bucket whose lines are the JSON of its events, and those are
    events that were logged.  As long as no export took the lock while another had it, which
    [asyncio.Lock] does not prevent across threads, every logged event is in exactly one
    place: held by an export that has not ended, in the batch, in an uploaded object, lost
    with a failed upload (or with its library missing), or refused by the lock of another
    event loop; and no batch and no object has more than a hundred events. *)
Theorem audit_conserved installed contents config l :
  reachable installed (AuditLogger_init contents (build_sink config)) l ->
  (exists text, file l = contents ++ text /\ split_char "010" text = (List.map to_jsonl (logged l) ++ [""])%list) /\
  match build_sink config with
  | None => objects l = []
  | Some s0 =>
      Forall (fun o => o_bucket o = bucket_of (target s0) /\ o_events o <> [] /\
                       split_char "010" (o_body o) = List.map to_jsonl (o_events o) /\ incl (o_events o) (logged l)) (objects l) /\
      (overlapped l = false ->
       Permutation (logged l)
         (flat_map held (exports l) ++ batch_of (sink l) ++ flat_map o_events (objects l) ++ lost l ++ refused l) /\
       (length (batch_of (sink l)) <= 100)%nat /\ Forall (fun o => (length (o_events o) <= 100)%nat) (objects l))
  end.
Proof.
  intros H. destruct (reached _ _ _ _ (build_sink_new config) H) as [[Hf Ht Ho Hn _ Hi] Hc]. split.
  { exists (lines (logged l)). split; [exact Hf|]. unfold lines, line. clear. induction (logged l) as [|e es IH]; [done|].
    cbn [fold_right List.map app]. rewrite split_char_app by apply to_jsonl_one_line. by rewrite IH. }
  destruct (build_sink config) as [s0|]; [|by apply Hn]. destruct (sink l) as [s|] eqn:Es; [|done]. injection Ht as Ht. split.
  - specialize (Ho s eq_refl). rewrite List.Forall_forall in *. intros o Hin. destruct (Ho o Hin) as (H1 & H2 & H3). rewrite <- Ht.
    repeat split; try done. intros e He. apply Hi. rewrite !in_app_iff. do 2 right. apply in_flat_map. by exists o.
  - intros Hov. destruct (Hc Hov s eq_refl) as [He _ Hob Hp]. split; [exact Hp|]. split; [|exact Hob]. cbn [batch_of].
    unfold exclusive, at_most in He. destruct (sections (exports l)) as [|[e st] [|? ?]] eqn:E; [lia| |done].
    assert (Hin : In (e, st) (sections (exports l))) by (rewrite E; by left). apply filter_In in Hin as [_ Hin].
    destruct He as [_ He]. destruct st; try discriminate Hin; cbn in He; unfold at_most in He; try lia.
    all: destruct He as [E1 E2]; rewrite E1; cbn; lia.
Qed.

(** ** In one event loop *)

Section OneLoop.
Context (installed : bool) (r : Reading) (before : list Export) (e : AuditEvent) (after : list Export) (l : AuditLogger).

Definition at_stage (s : Sink) (st : Stage) : AuditLogger :=
  {| file := file l; sink := Some s; exports := (before ++ (e, st) :: after)%list; objects := objects l; lost := lost l;
     refused := refused l; overlapped := overlapped l; logged := logged l |}.

Lemma comes_to s st s' f : turn installed r e st s = (s', f) -> races st s = false ->
  step installed (at_stage s st) (settle before e after false s' f l).
Proof.
  intros E Hr. pose proof (s_turn installed (at_stage s st) s r before e st after eq_refl eq_refl) as X.
  unfold take_turn in X. rewrite E, Hr in X. exact X.
Qed.

Lemma goes_to s st s' st' : turn installed r e st s = (s', Goes st') -> races st s = false ->
  step installed (at_stage s st) (at_stage s' st').
Proof.
  intros E Hr. pose proof (comes_to s st s' (Goes st') E Hr) as X. unfold settle in X. cbn [on_exports on_objects on_lost on_refused app] in X.
  rewrite !app_nil_r, orb_false_r in X. exact X.
Qed.

(** The turns of an export that finds the lock free and is not interrupted are [section]. *)
Lemma section_turns s s' f : sink l = Some s -> exports l = (before ++ (e, Scheduled) :: after)%list -> locked s = false ->
  section installed r e s = (s', f) -> reachable installed l (settle before e after false s' f l) /\ locked s' = false.
Proof.
  intros Es Ee Hl Hsec. assert (El : l = at_stage s Scheduled) by (unfold at_stage; rewrite <- Es, <- Ee; by destruct l).
  assert (R0 : reachable installed l (at_stage s Scheduled)) by (rewrite <- El; apply r_init).
  assert (Next : forall s1 st s2 st2, reachable installed l (at_stage s1 st) -> turn installed r e st s1 = (s2, Goes st2) -> races st s1 = false ->
    reachable installed l (at_stage s2 st2)) by (intros; eapply r_step; [eassumption|by apply goes_to]).
  assert (Last : forall s1 st s2 f, reachable installed l (at_stage s1 st) -> turn installed r e st s1 = (s2, f) -> races st s1 = false ->
    reachable installed l (settle before e after false s2 f l)) by (intros; eapply r_step; [eassumption|by apply comes_to]).
  unfold section, take_batch in Hsec. destruct installed eqn:Ei; [|injection Hsec as <- <-; split; [by eapply Last|done]].
  set (s1 := set_batch (batch s ++ [e]) (set_locked true s)) in *.
  assert (R1 : reachable true l (at_stage s1 Appended)).
  { apply (Next (set_locked true s) Inside s1 Appended); [|done..]. apply (Next s Checked (set_locked true s) Inside); [|done|exact Hl].
    apply (Next s Scheduled s Checked R0); [cbn; by rewrite Hl|done]. }
  change (should_flush (now r) (set_batch (batch s ++ [e]) s)) with (should_flush (now r) s1) in Hsec.
  destruct (should_flush (now r) s1) eqn:Ef; injection Hsec as <- <-; (split; [|exact Hl]).
  - set (b := (batch s ++ [e])%list) in *. set (s2 := set_batch [] s1). set (s3 := set_flush (now r) s2).
    assert (R2 : reachable true l (at_stage s3 (Leaving b))).
    { apply (Next s2 (Cleared (now r) b) s3 (Leaving b)); [|done..].
      apply (Next s1 (Copied (now r) b) s2 (Cleared (now r) b)); [|done..].
      apply (Next s1 (Flushing (now r)) s1 (Copied (now r) b)); [|done..].
      apply (Next s1 Appended s1 (Flushing (now r)) R1); [cbn [turn]; by rewrite Ef|done]. }
    eapply (Last s3 (Leaving b)); [exact R2| |done]. cbn. unfold set_locked, set_flush, set_batch. cbn. rewrite <- Hl. by destruct b.
  - apply (Last s1 (Leaving [])); [apply (Next s1 Appended s1 (Leaving []) R1); [cbn [turn]; by rewrite Ef|done]| |done].
    cbn. unfold set_locked, set_batch. cbn. by rewrite <- Hl.
Qed.
End OneLoop.

(** No export is refused and none takes the lock from another. *)
Theorem one_loop_conserves installed contents config l :
  loop_reachable installed (AuditLogger_init contents (build_sink config)) l ->
  reachable installed (AuditLogger_init contents (build_sink config)) l /\ overlapped l = false /\ refused l = [].
Proof.
  intros H.
  cut (reachable installed (AuditLogger_init contents (build_sink config)) l /\ overlapped l = false /\ refused l = [] /\
       forall s, sink l = Some s -> locked s = false); [tauto|].
  assert (Trans : forall a b c, reachable installed a b -> reachable installed b c -> reachable installed a c).
  { intros a b c Hab Hbc. induction Hbc; [done|]. by eapply r_step. }
  induction H as [|l l' _ (IHr & IHo & IHf & IHl) Hs].
  { split; [constructor|]. split; [done|]. split; [done|]. intros s Es. by apply (build_sink_new config). }
  destruct Hs as [l e|l s r before e after s' f Es Ee Hsec|l s r before e b after Es Ee].
  - split; [by eapply r_step, s_log|]. done.
  - destruct (section_turns installed r before e after l s s' f Es Ee (IHl s Es) Hsec) as [Hr Hl].
    split; [by eapply Trans|]. cbn. rewrite IHo, IHf. split; [done|]. split; [|by intros ? [= <-]].
    unfold section in Hsec. destruct installed; [|by injection Hsec as _ <-].
    destruct (take_batch _ _ _) as [s2 [|? ?]]; by injection Hsec as _ <-.
  - split; [by eapply r_step, s_turn|]. unfold take_turn. cbn. rewrite IHo, IHf.
    destruct (uploaded r); cbn; (split; [done|]); (split; [done|]); intros ? [= <-]; by apply IHl.
Qed.

(** ** Two events to S3 *)
Module Sample.
Definition config : Configuration.AuditConfig :=
  {| Configuration.log_path := "audit.jsonl"; Configuration.sink_type := Some "s3"; Configuration.s3_bucket := Some "lula";
     Configuration.s3_prefix := "audit/"; Configuration.s3_region := "us-east-1"; Configuration.gcs_bucket := None; Configuration.gcs_prefix := "audit" |}.
Definition event (action : string) : AuditEvent :=
  {| Http.ae_ts := "2026-01-01T00:00:00Z"; Http.ae_subject := "anonymous"; Http.ae_roles := []; Http.ae_action := action;
     Http.ae_resource_id := None; Http.ae_outcome := "ok"; Http.ae_detail := None |}.
Definition at_ (t : Z) : Reading :=
  {| now := float_of_Z t; date_str := "2026-01-01"; hex := "0f"; uploaded := true; waits_here := false |}.

(** Both events are logged; then the exports take turns at the time [t], in the given order. *)
Definition logged_two : AuditLogger := log (event "run.list") (log (event "run.read") (AuditLogger_init "" (build_sink config))).

Definition pick (t : Z) (l : AuditLogger) (n : nat) : AuditLogger :=
  match nth_error (exports l) n, sink l with
  | Some (e, st), Some s => take_turn true (at_ t) (firstn n (exports l)) e st (skipn (S n) (exports l)) s l
  | _, _ => l
  end.
Definition run (t : Z) (turns : list nat) (l : AuditLogger) : AuditLogger := fold_left (pick t) turns l.

Lemma run_reachable t turns l0 l : reachable true l0 l -> reachable true l0 (run t turns l).
Proof.
  unfold run. revert l. induction turns as [|n turns IH]; intros l H; [done|]. apply IH. unfold pick.
  destruct (nth_error (exports l) n) as [[e st]|] eqn:E; [|exact H]. destruct (sink l) as [s|] eqn:Es; [|exact H].
  eapply r_step; [exact H|]. apply s_turn; [exact Es|]. symmetry. exact (firstn_skipn_middle n (exports l) E).
Qed.

Lemma two_reachable : reachable true (AuditLogger_init "" (build_sink config)) logged_two.
Proof. eapply r_step; [|apply s_log]. eapply r_step; [apply r_init|apply s_log]. Qed.

(** The second export runs first and uploads its event alone; the first, a second later, is
    kept until some later event: neither the end of the five seconds nor [close] uploads it. *)
Definition final : AuditLogger := run 101 [0; 0; 0; 0; 0]%nat (run 100 [1; 1; 1; 1; 1; 1; 1; 1; 1]%nat logged_two).

Example second_event_waits :
  List.map o_key (objects final) = ["audit/2026-01-01/0f.jsonl"] /\ flat_map o_events (objects final) = [event "run.list"] /\
  batch_of (sink final) = [event "run.read"] /\ exports final = [] /\ overlapped final = false.
Proof. by vm_compute. Qed.

Lemma audit_conserved_witness :
  (exists text, file final = "" ++ text /\ split_char "010" text = (List.map to_jsonl (logged final) ++ [""])%list) /\
  Permutation (logged final)
    (flat_map held (exports final) ++ batch_of (sink final) ++ flat_map o_events (objects final) ++ lost final ++ refused final).
Proof.
  assert (R : reachable true (AuditLogger_init "" (build_sink config)) final) by apply run_reachable, run_reachable, two_reachable.
  destruct (audit_conserved true "" config final R) as [H1 H2]. split; [exact H1|].
  assert (O : overlapped final = false) by (vm_compute; reflexivity). exact (proj1 (proj2 H2 O)).
Defined.

(** Two threads that both see the lock free: the first copies the batch, the second appends its
    event, the first clears.  The event is nowhere. *)
Definition raced : AuditLogger :=
  run 100 (List.concat [[0; 1; 0; 1]; [0; 0; 0]; [1]; [0; 0; 0; 0]; [0; 0; 0; 0; 0; 0; 0]])%nat logged_two.

Example overlap_loses :
  logged raced = [event "run.read"; event "run.list"] /\ flat_map o_events (objects raced) = [event "run.read"] /\
  exports raced = [] /\ (batch_of (sink raced), lost raced, refused raced) = ([], [], []) /\ overlapped raced = true.
Proof. by vm_compute. Qed.

(** A thread that finds the lock taken, in another loop than the one the lock belongs to. *)
Example contention_refuses :
  let l := run 100 [0; 0; 1]%nat logged_two in refused l = [event "run.list"] /\ overlapped l = false.
Proof. by vm_compute. Qed.
End Sample.
