(* ===== verification/StoreProps.v ===== *)
(** * The two run stores implement one map

    [RunStoreSpec] is what the service expects of its store: an accepted record is the
    one found under its run id afterwards, and nothing else changes.  The SQLite store and
    the Redis store both satisfy it, within one namespace. *)
From Stdlib Require Import ZArith Lia String Ascii List Bool.
From stdpp Require Import base tactics list strings option.
From S2P Require Import Prelude PyStr StrFacts PyFloat PyVal Json JsonProps Sqlite RunStore RedisStore.
Local Open Scope string_scope.
Local Open Scope Z_scope.

(** ** The interface *)

Class StoreOps (S : Type) := { s_upsert : dict -> S -> res S; s_get : string -> S -> res (option dict) }.

(** What the store of a namespace keeps of a record. *)
Definition kept (ns : string) (record : dict) : dict := dset "namespace" (PStr ns) (stored_columns record).

(** The answer [d] has every column that is kept of the record, with an equal value. *)
Definition shows (ns : string) (d record : dict) : Prop :=
  forall k v, dlookup k (kept ns record) = Some v -> py_eq v (cell d k) = true.

Definition record_id (record : dict) : option string :=
  match dlookup "run_id" record with Some (PStr id) => if String.eqb id "" then None else Some id | _ => None end.

Class RunStoreSpec (S : Type) {O : StoreOps S} (ns : string) (accepts : dict -> bool) : Prop := {
  accepted_has_id r : accepts r = true -> exists id, record_id r = Some id;
  upsert_spec r id s :
    accepts r = true -> record_id r = Some id ->
    exists s' d, s_upsert r s = Ok s' /\ s_get id s' = Ok (Some d) /\ shows ns d r /\
      forall id', id' <> id -> s_get id' s' = s_get id' s }.

Section Client.
Context {S : Type} {O : StoreOps S} (ns : string) (accepts : dict -> bool) {L : RunStoreSpec S ns accepts}.

Definition upserts (rs : list dict) (s : S) : res S := fold_res (fun s r => s_upsert r s) s rs.

(** The last record of a run. *)
Fixpoint last_record (id : string) (rs : list dict) : option dict :=
  match rs with
  | [] => None
  | r :: rest =>
      match last_record id rest with
      | Some r' => Some r'
      | None => match record_id r with Some id' => if String.eqb id id' then Some r else None | None => None end
      end
  end.

Lemma last_write_wins rs s :
  forallb accepts rs = true ->
  exists s', upserts rs s = Ok s' /\
    forall id, match last_record id rs with
               | Some r => exists d, s_get id s' = Ok (Some d) /\ shows ns d r
               | None => s_get id s' = s_get id s
               end.
Proof.
  revert s. induction rs as [|r rs IH]; intros s; [by exists s|]. cbn [forallb]. intros [Hr Hrs]%andb_prop.
  destruct (accepted_has_id r Hr) as [i Hi]. destruct (upsert_spec r i s Hr Hi) as (s1 & d & E & Hg & Hs & Ho).
  destruct (IH s1 Hrs) as (s' & E' & H'). exists s'. split; [unfold upserts; cbn [fold_res bind_res]; by rewrite E|].
  intros id. specialize (H' id). cbn [last_record]. destruct (last_record id rs); [exact H'|]. rewrite Hi.
  destruct (String.eqb_spec id i) as [->|Hne]; [exists d; by rewrite H'|]. by rewrite H', Ho.
Qed.
End Client.

(** ** Records the stores accept *)

Definition adaptable (v : pyval) : bool :=
  match v with
  | PNone | PStr _ | PBool _ => true
  | PInt z => int64 z && (ndigits (Z.abs z) <=? 4300)
  | _ => false
  end.

(** The value a column gets from a record is one it takes as it is. *)
Definition conforms (c : column) (v : option pyval) : bool :=
  match v with
  | None => negb (not_null c) || negb (is_none (col_default c))
  | Some PNone => negb (not_null c)
  | Some (PStr _) => match col_affinity c with TEXT => true | INTEGER => false end
  | Some (PInt _) | Some (PBool _) => match col_affinity c with INTEGER => true | TEXT => false end
  | _ => false
  end.

Definition ascii_text (s : string) : bool := forallb (fun c => (32 <=? ord c) && (ord c <=? 126)) (list_ascii_of_string s).

(** A record both stores take: typed columns, integers of 64 bits, ASCII. *)
Definition storable (ns : string) (record : dict) : bool :=
  forallb (fun kv => adaptable (snd kv)) (kept ns record)
  && forallb (fun c => conforms c (dlookup (col_name c) (kept ns record))) _CREATE_TABLE
  && ascii_text (json_dumps false (PDict (kept ns record)))
  && match record_id record with Some _ => true | None => false end.

(** ** SQLite *)

Definition adapted (v : pyval) : pyval := match v with PBool b => PInt (if b then 1 else 0) | _ => v end.

Lemma adapt_Ok i v : adaptable v = true -> adapt i v = Ok (adapted v).
Proof. destruct v; try done. cbn. intros [-> _]%andb_prop. done. Qed.

Lemma bind_params_Ok i data :
  forallb (fun kv => adaptable (snd kv)) data = true ->
  bind_params i data = Ok (List.map (fun kv => (fst kv, adapted (snd kv))) data).
Proof.
  revert i. induction data as [|[k v] data IH]; intros i; [done|]. cbn [forallb fst snd]. intros [Hv Hd]%andb_prop.
  cbn [bind_params]. by rewrite (adapt_Ok i v Hv), (IH _ Hd).
Qed.

Lemma dlookup_map {V W} (f : V -> W) k (d : list (string * V)) :
  dlookup k (List.map (fun kv => (fst kv, f (snd kv))) d) = option_map f (dlookup k d).
Proof. induction d as [|[k' v] d IH]; [done|]. cbn. by destruct (String.eqb k k'). Qed.

(** The row of a record. *)
Definition row_of (data : dict) (cols : list column) : dict :=
  List.map (fun c => (col_name c, match dlookup (col_name c) data with Some v => adapted v | None => col_default c end)) cols.

Lemma new_row_Ok tbl cols data :
  forallb (fun kv => adaptable (snd kv)) data = true ->
  forallb (fun c => conforms c (dlookup (col_name c) data)) cols = true ->
  new_row tbl cols data = Ok (row_of data cols).
Proof.
  intros Hd Hc. unfold new_row. rewrite (bind_params_Ok 1 data Hd). cbn [bind_res].
  induction cols as [|c cols IH]; [done|]. cbn [forallb] in Hc. apply andb_prop in Hc as [Hc Hcs].
  cbn [map_res row_of List.map]. rewrite (IH Hcs). unfold column_value. rewrite dlookup_map.
  destruct (dlookup (col_name c) data) as [v|]; cbn [option_map bind_res conforms] in *.
  - destruct v; cbn in *; try discriminate; destruct (col_affinity c); try discriminate; cbn; try done;
      by destruct (not_null c).
  - destruct (col_default c), (not_null c); done.
Qed.

Lemma row_cell data cols c :
  List.NoDup (List.map col_name cols) -> In c cols ->
  cell (row_of data cols) (col_name c) = match dlookup (col_name c) data with Some v => adapted v | None => col_default c end.
Proof.
  unfold cell, dget. induction cols as [|c' cols IH]; [done|]. cbn [List.map row_of dlookup].
  intros [Hn Hnd]%List.NoDup_cons_iff [->|Hin]; [by rewrite String.eqb_refl|].
  destruct (String.eqb_spec (col_name c) (col_name c')) as [E|_]; [|by apply IH].
  exfalso. apply Hn. rewrite <- E. apply in_map, Hin.
Qed.

Lemma adapted_eq v : adaptable v = true -> py_eq v (adapted v) = true.
Proof.
  destruct v; try done; cbn.
  - by destruct b.
  - intros _. by rewrite Z.compare_refl.
  - intros _. apply String.eqb_refl.
Qed.

Lemma py_eq_refl_adaptable v : adaptable v = true -> py_eq v v = true.
Proof.
  destruct v; try done; cbn.
  - by destruct b.
  - intros _. by rewrite Z.compare_refl.
  - intros _. apply String.eqb_refl.
Qed.

(** What is kept of a record are columns of the table. *)
Lemma stored_columns_lookup record k :
  dlookup k (stored_columns record) = if str_in k _COLUMNS then dlookup k record else None.
Proof.
  unfold stored_columns. induction _COLUMNS as [|c cols IH]; [done|]. cbn [flat_map str_in existsb].
  change (existsb (String.eqb k) cols) with (str_in k cols).
  destruct (String.eqb_spec k c) as [->|Hne]; cbn [orb].
  - destruct (dlookup c record) as [v|] eqn:E; [cbn; by rewrite String.eqb_refl|]. cbn [app]. rewrite IH. by destruct (str_in c cols).
  - destruct (dlookup c record) as [v|]; [|exact IH]. cbn [app dlookup]. by rewrite (proj2 (String.eqb_neq k c) Hne).
Qed.

Lemma kept_column ns record k v : dlookup k (kept ns record) = Some v -> exists c, In c _CREATE_TABLE /\ col_name c = k.
Proof.
  unfold kept. rewrite dlookup_dset, stored_columns_lookup. intros H.
  assert (Hk : In k (List.map col_name _CREATE_TABLE)).
  { change (List.map col_name _CREATE_TABLE) with _COLUMNS. destruct (String.eqb_spec k "namespace") as [->|_]; [cbn; tauto|].
    destruct (str_in k _COLUMNS) eqn:E; [|done]. unfold str_in in E. apply existsb_exists in E as (x & Hx & E).
    by apply String.eqb_eq in E as <-. }
  apply in_map_iff in Hk as (c & <- & Hc). by exists c.
Qed.

Lemma kept_run_id ns record id : record_id record = Some id -> dlookup "run_id" (kept ns record) = Some (PStr id).
Proof.
  unfold record_id, kept. rewrite dlookup_dset_ne by done. rewrite stored_columns_lookup. cbn [str_in existsb _COLUMNS].
  rewrite String.eqb_refl. cbn [orb]. destruct (dlookup "run_id" record) as [[| | | |s| | |]|]; try done.
  destruct (String.eqb s ""); [done|]. by intros [= ->].
Qed.

Lemma columns_NoDup : List.NoDup (List.map col_name _CREATE_TABLE).
Proof. apply NoDup_ListNoDup, (bool_decide_unpack _). vm_compute. exact I. Qed.

Lemma row_shows ns record :
  forallb (fun kv => adaptable (snd kv)) (kept ns record) = true -> shows ns (row_of (kept ns record) _CREATE_TABLE) record.
Proof.
  intros Ha k v Hk. destruct (kept_column _ _ _ _ Hk) as (c & Hc & <-).
  rewrite (row_cell _ _ _ columns_NoDup Hc), Hk.
  apply adapted_eq. rewrite forallb_forall in Ha. exact (Ha _ (dlookup_In _ _ _ Hk)).
Qed.

Lemma same_run_id id row r :
  cell row "run_id" = PStr id -> same_key ["run_id"] row r = is_text id (cell r "run_id").
Proof. intros H. unfold same_key. cbn [forallb]. rewrite H. destruct (cell r "run_id"); try done. cbn. by rewrite andb_true_r. Qed.

(** What a write does to the table of runs. *)
Lemma get_run_replace ns id row db ns' id' :
  cell row "run_id" = PStr id -> cell row "namespace" = PStr ns ->
  RunStore.get_run ns' id' None (set_runs (insert_or_replace ["run_id"] row (runs db)) db) =
  if String.eqb id' id then (if String.eqb ns' ns then Some row else None) else RunStore.get_run ns' id' None db.
Proof.
  intros Hi Hn. unfold RunStore.get_run, insert_or_replace. cbn [runs set_runs scope default]. rewrite find_app.
  assert (Hrow : is_text id' (cell row "run_id") && in_namespace ns' row = String.eqb id' id && String.eqb ns' ns).
  { unfold in_namespace. by rewrite Hi, Hn. }
  cbn [List.find]. rewrite Hrow. destruct (String.eqb_spec id' id) as [->|Hne]; cbn [andb].
  - rewrite find_filter_none; [by destruct (String.eqb ns' ns)|]. intros r [Hr _]%andb_prop. by rewrite (same_run_id id), Hr.
  - rewrite find_filter; [by destruct (List.find _ _)|]. intros r [Hr _]%andb_prop. rewrite (same_run_id id _ _ Hi).
    destruct (cell r "run_id"); try done. cbn in *. apply String.eqb_eq in Hr as <-. by destruct (String.eqb_spec id id'); [subst|].
Qed.

#[export] Instance sqlite_ops (ns : string) : StoreOps Database := {|
  s_upsert record db := match RunStore.upsert ns record db with (db', Ok _) => Ok db' | (_, Err e) => Err e end;
  s_get id db := Ok (RunStore.get_run ns id None db) |}.

Lemma sqlite_upsert_Ok ns r db :
  storable ns r = true ->
  RunStore.upsert ns r db =
    (set_runs (insert_or_replace ["run_id"] (row_of (kept ns r) _CREATE_TABLE) (runs db)) db, Ok tt).
Proof.
  unfold storable. intros [[[Ha Hc]%andb_prop _]%andb_prop _]%andb_prop. unfold RunStore.upsert.
  change (dset "namespace" (PStr ns) (stored_columns r)) with (kept ns r). by rewrite (new_row_Ok _ _ _ Ha Hc).
Qed.

Lemma storable_id ns r : storable ns r = true -> exists id, record_id r = Some id.
Proof. unfold storable. intros [_ H]%andb_prop. destruct (record_id r) as [id|]; [by exists id|done]. Qed.

Lemma storable_adaptable ns r : storable ns r = true -> forallb (fun kv => adaptable (snd kv)) (kept ns r) = true.
Proof. unfold storable. by intros [[[? _]%andb_prop _]%andb_prop _]%andb_prop. Qed.

(** The table after the write of an accepted record, as [get_run] sees it. *)
Lemma get_run_upsert ns r id db ns' id' :
  storable ns r = true -> record_id r = Some id ->
  RunStore.get_run ns' id' None (fst (RunStore.upsert ns r db)) =
  if String.eqb id' id then (if String.eqb ns' ns then Some (row_of (kept ns r) _CREATE_TABLE) else None)
  else RunStore.get_run ns' id' None db.
Proof.
  intros Hs Hid. rewrite (sqlite_upsert_Ok ns r db Hs). cbn [fst]. apply get_run_replace.
  - change "run_id" with (col_name (text_null "run_id")). rewrite (row_cell _ _ _ columns_NoDup) by (cbn; tauto).
    cbn [col_name text_null]. by rewrite (kept_run_id ns r id Hid).
  - change "namespace" with (col_name (text_default "namespace" "")) at 1.
    rewrite (row_cell _ _ _ columns_NoDup) by (cbn; tauto). cbn [col_name text_default]. unfold kept. by rewrite dlookup_dset_eq.
Qed.

#[export] Instance sqlite_spec ns : RunStoreSpec Database (O := sqlite_ops ns) ns (storable ns).
Proof.
  split; [apply storable_id|]. intros r id db Hs Hid. cbn [s_upsert s_get sqlite_ops].
  pose proof (get_run_upsert ns r id db ns) as G. rewrite (sqlite_upsert_Ok ns r db Hs) in *. cbn [fst] in G.
  eexists _, _. split; [done|]. split; [by rewrite (G id Hs Hid), !String.eqb_refl|].
  split; [by apply row_shows, storable_adaptable|]. intros id' Hne. by rewrite (G id' Hs Hid), (proj2 (String.eqb_neq id' id) Hne).
Qed.

(** ** Redis *)

Lemma ascii_char_printable c : (32 <=? ord c) && (ord c <=? 126) = true -> ascii_char c = String c "".
Proof. intros H. unfold ascii_char. by rewrite H. Qed.

Lemma dumps_ascii v : ascii_text (json_dumps false v) = true -> dumps v = json_dumps false v.
Proof.
  unfold dumps, ascii_text. induction (json_dumps false v) as [|c s IH]; [done|]. cbn [list_ascii_of_string forallb concat_map_str].
  intros [Hc Hs]%andb_prop. rewrite (ascii_char_printable c Hc). change (String c "" ++ concat_map_str ascii_char s)
    with (String c (concat_map_str ascii_char s)). by rewrite (IH Hs).
Qed.

Lemma json_norm_plain v : jsonable v -> json_norm false v = v.
Proof.
  induction v as [|b|z|f|s|l IH|l _|d IH] using pyval_nested_ind; intros HJ; inversion HJ; subst; cbn; try done.
  - f_equal. rewrite List.Forall_forall in *. rewrite <- (List.map_id l) at 2. apply map_ext_in. auto.
  - f_equal. unfold json_order. rewrite List.Forall_forall in *. rewrite <- (List.map_id d) at 2. apply map_ext_in.
    intros [k w] Hin. specialize (IH _ Hin (H1 _ Hin)). cbn in *. by rewrite IH.
Qed.

Lemma adaptable_jsonable v : adaptable v = true -> jsonable v.
Proof. destruct v; try done; try constructor. cbn in H. by apply andb_prop in H as [_ ?%Z.leb_le]. Qed.

Lemma kept_wf ns record : wf_keys (kept ns record).
Proof.
  unfold wf_keys, kept. apply dset_NoDup. unfold stored_columns. pose proof columns_NoDup as Hc.
  change (List.map col_name _CREATE_TABLE) with _COLUMNS in Hc. induction _COLUMNS as [|c cols IH]; [constructor|].
  apply List.NoDup_cons_iff in Hc as [Hc Hcs]. cbn [flat_map]. destruct (dlookup c record); [|by apply IH].
  cbn [app List.map fst]. constructor; [|by apply IH]. intros Hin. apply Hc. apply in_map_iff in Hin as ([k v] & <- & Hin).
  apply in_flat_map in Hin as (c' & Hc' & Hin). destruct (dlookup c' record); [|done]. by destruct Hin as [[= <- _]|[]].
Qed.

Lemma kept_loads ns r : storable ns r = true -> json_loads (dumps (PDict (kept ns r))) = Ok (PDict (kept ns r)).
Proof.
  unfold storable. intros [[[Ha _]%andb_prop Ht]%andb_prop _]%andb_prop. rewrite (dumps_ascii _ Ht).
  assert (HJ : jsonable (PDict (kept ns r))).
  { constructor; [apply kept_wf|]. apply List.Forall_forall. intros kv Hin. apply adaptable_jsonable.
    rewrite forallb_forall in Ha. by apply Ha. }
  by rewrite dumps_loads, json_norm_plain.
Qed.

Lemma append_cancel_l p a b : p ++ a = p ++ b -> a = b.
Proof.
  induction p as [|c p IH]; [done|]. change (String c p ++ a) with (String c (p ++ a)). change (String c p ++ b) with (String c (p ++ b)).
  intros [= H]. by apply IH.
Qed.

Lemma run_key_inj ns a b : _run_key ns a = _run_key ns b -> a = b.
Proof. unfold _run_key. intros H%append_cancel_l%append_cancel_l. change (":" ++ a) with (String ":" a) in H. by injection H. Qed.

(** The keys of runs are not those of the index. *)
Lemma run_key_not_index ns id : _run_key ns id <> _run_index_key ns.
Proof. unfold _run_key, _run_index_key, _RUN_KEY_PREFIX, _RUN_INDEX_KEY. cbn [String.append]. discriminate. Qed.

Section RedisSpec.
Context {S : Type} {R : Redis S} {RL : RedisLaws S} (ns : string) (ttl : Z) (timestamp : string -> option float) (now : float).

#[export] Instance redis_ops : StoreOps S := {|
  s_upsert record s := RedisStore.upsert ns ttl timestamp now record s;
  s_get id s :=
    let! v := RedisStore.get_run ns id None s in
    match v with
    | None => Ok None
    | Some (PDict d) => Ok (Some d)
    | Some _ => Err (Unmodelled "run")
    end |}.

Lemma put_get key data index member score s k :
  0 < ttl -> index <> key -> k <> index ->
  redis_get k (put ttl key data index member score s) = if String.eqb k key then Some (dumps (PDict data)) else redis_get k s.
Proof.
  intros Ht Hi Hk. unfold put. rewrite get_expire, get_zadd by done.
  destruct (String.eqb_spec k key) as [->|Hne]; [by rewrite get_setex|by rewrite get_setex_ne].
Qed.

Lemma redis_upsert_Ok r id s :
  record_id r = Some id ->
  exists score, RedisStore.upsert ns ttl timestamp now r s = Ok (put ttl (_run_key ns id) (kept ns r) (_run_index_key ns) id score s).
Proof.
  intros Hid. unfold RedisStore.upsert. change (dset "namespace" (PStr ns) (stored_columns r)) with (kept ns r).
  unfold dget at 1. rewrite (kept_run_id ns r id Hid).
  assert (Hne : String.eqb id "" = false).
  { unfold record_id in Hid. destruct (dlookup "run_id" r) as [[| | | |t| | |]|]; try done. destruct (String.eqb t "") eqn:E; [done|].
    injection Hid as ->. exact E. }
  rewrite Hne. by eexists.
Qed.

Lemma redis_spec : 0 < ttl -> RunStoreSpec S ns (storable ns).
Proof.
  intros Ht. split; [apply storable_id|]. intros r id s Hs Hid.
  destruct (redis_upsert_Ok r id s Hid) as [score E]. cbn [s_upsert s_get redis_ops]. eexists _, (kept ns r). split; [exact E|].
  assert (Hget : forall i, RedisStore.get_run ns i None (put ttl (_run_key ns id) (kept ns r) (_run_index_key ns) id score s) =
    if String.eqb i id then Ok (Some (PDict (kept ns r))) else RedisStore.get_run ns i None s).
  { intros i. unfold RedisStore.get_run. cbn [scope default]. fold (_run_key ns i).
    rewrite put_get; [|done|by apply not_eq_sym, run_key_not_index|apply run_key_not_index].
    destruct (String.eqb_spec i id) as [->|Hne]; [rewrite String.eqb_refl; by rewrite (kept_loads ns r Hs)|].
    by rewrite (proj2 (String.eqb_neq _ _) (fun H => Hne (run_key_inj ns i id H))). }
  split; [by rewrite Hget, String.eqb_refl|]. split.
  - intros k v Hk. unfold cell, dget. rewrite Hk. apply py_eq_refl_adaptable.
    unfold storable in Hs. apply andb_prop in Hs as [[[Ha _]%andb_prop _]%andb_prop _].
    rewrite forallb_forall in Ha. exact (Ha _ (dlookup_In _ _ _ Hk)).
  - intros i Hne. by rewrite Hget, (proj2 (String.eqb_neq i id) Hne).
Qed.
End RedisSpec.

(** ** What is listed *)

Section RedisList.
Context {S : Type} {R : Redis S} {RL : RedisLaws S} (ns : string) (ttl : Z) (timestamp : string -> option float) (now : float).
Context (Httl : 0 < ttl).

(** The runs of the namespace that the index knows. *)
Definition indexed (s : S) : list string := zrevrange (_run_index_key ns) s.

Lemma upsert_indexed r id s s' x :
  record_id r = Some id -> RedisStore.upsert ns ttl timestamp now r s = Ok s' -> In x (indexed s') <-> x = id \/ In x (indexed s).
Proof.
  intros Hid. destruct (redis_upsert_Ok ns ttl timestamp now r id s Hid) as [score ->]. intros [= <-]. unfold indexed, put.
  rewrite range_expire, range_zadd by done. rewrite range_setex; [done|]. apply not_eq_sym, run_key_not_index.
Qed.

Lemma upserts_indexed rs s s' x :
  forallb (storable ns) rs = true -> upserts (O := redis_ops ns ttl timestamp now) rs s = Ok s' ->
  In x (indexed s') <-> is_Some (last_record x rs) \/ In x (indexed s).
Proof.
  revert s. induction rs as [|r rs IH]; intros s; [intros _ [= <-]; split; [by right|intros [[? H]|H]; [discriminate H|exact H]]|].
  cbn [forallb]. intros [Hr Hrs]%andb_prop. unfold upserts. cbn [fold_res s_upsert redis_ops].
  destruct (RedisStore.upsert _ _ _ _ _ s) as [s1|e] eqn:E; [|done]. cbn [bind_res]. intros H. rewrite (IH s1 Hrs H).
  destruct (storable_id ns r Hr) as [i Hi]. rewrite (upsert_indexed r i s s1 x Hi E). cbn [last_record]. rewrite Hi.
  destruct (last_record x rs) as [r'|].
  - split; [by left; eexists|]. intros _. by left; eexists.
  - destruct (String.eqb_spec x i) as [->|Hne].
    + split; [by left; eexists|]. intros _. right. by left.
    + split; [intros [[? ?]|[?|?]]; [done|done|by right]|]. intros [[? ?]|?]; [done|]. right. by right.
Qed.

Lemma list_runs_indexed s :
  (forall id, In id (indexed s) -> exists d, RedisStore.get_run ns id None s = Ok (Some (PDict d)) /\ cell d "run_id" = PStr id) ->
  exists l, RedisStore.list_runs ns None s = Ok l /\
    forall id, (exists d, In (PDict d) l /\ cell d "run_id" = PStr id) <-> In id (indexed s).
Proof.
  unfold RedisStore.list_runs, loaded, texts_of. cbn [scope default]. fold (_run_index_key ns). fold (indexed s).
  induction (indexed s) as [|i ids IH]; intros H; [exists []; split; [done|]; intros id; split; [by intros (? & [] & _)|done]|].
  destruct (IH (fun id Hin => H id (or_intror Hin))) as (l & El & Hl). destruct (H i (or_introl eq_refl)) as (d & Hg & Hd).
  unfold RedisStore.get_run in Hg. cbn [scope default] in Hg. cbn [List.map flat_map].
  destruct (redis_get _ s) as [raw|]; [|done]. cbn [app map_res]. destruct (json_loads raw) as [v|]; [|done].
  cbn [bind_res] in *. injection Hg as ->. rewrite El. eexists. split; [done|]. intros id. split.
  - intros (d' & [[= <-]|Hin] & E); [left; congruence|]. right. apply Hl. by exists d'.
  - intros [<-|Hin]; [exists d; split; [by left|done]|]. apply Hl in Hin as (d' & Hin & E). exists d'. split; [by right|done].
Qed.
End RedisList.

Lemma shows_id ns d r id : record_id r = Some id -> shows ns d r -> cell d "run_id" = PStr id.
Proof.
  intros Hid H. specialize (H _ _ (kept_run_id ns r id Hid)). destruct (cell d "run_id"); try done. cbn in H.
  by apply String.eqb_eq in H as ->.
Qed.

Lemma last_record_id id rs r : last_record id rs = Some r -> record_id r = Some id.
Proof.
  induction rs as [|r' rs IH]; [done|]. cbn. destruct (last_record id rs); [by intros [= <-]; apply IH|].
  destruct (record_id r') as [i|] eqn:E; [|done]. destruct (String.eqb_spec id i) as [->|]; [|done]. by intros [= <-].
Qed.

Lemma sqlite_listed ns id db :
  (exists row, In row (RunStore.list_runs ns None db) /\ cell row "run_id" = PStr id) <-> is_Some (RunStore.get_run ns id None db).
Proof.
  unfold RunStore.list_runs, RunStore.get_run. cbn [scope default]. split.
  - intros (row & Hin & Hid). apply py_sorted_In, filter_In in Hin as [Hin Hn].
    destruct (List.find _ (runs db)) as [r|] eqn:E; [by exists r|]. eapply find_none in E; [|exact Hin].
    cbn in E. rewrite Hid, Hn in E. cbn in E. by rewrite String.eqb_refl in E.
  - intros [row E]. apply find_some in E as [Hin [Hid Hn]%andb_prop]. exists row. split.
    + apply py_sorted_In, filter_In. by split.
    + destruct (cell row "run_id"); try done. cbn in Hid. by apply String.eqb_eq in Hid as ->.
Qed.

(** A server without keys. *)
Definition empty_server {S} {R : Redis S} (s : S) : Prop :=
  (forall k, redis_get k s = None) /\ (forall k, zrevrange k s = []).

(** C20: the SQLite store and the Redis store implement the same map: after any sequence of
    records of one namespace, each typed like the table and in ASCII, from an empty
    database and an empty server, and as long as no key has expired on the server, both
    answer [get_run] with nothing for a run id that was not recorded, both show for each
    run that was every column of its last record, and both list exactly the runs that
    were recorded. *)
Theorem run_stores_agree {S} {R : Redis S} {RL : RedisLaws S} ns ttl timestamp now rs (s : S) :
  0 < ttl -> empty_server s -> forallb (storable ns) rs = true ->
  exists db s' listed,
    upserts (O := sqlite_ops ns) rs new_database = Ok db /\
    upserts (O := redis_ops ns ttl timestamp now) rs s = Ok s' /\ RedisStore.list_runs ns None s' = Ok listed /\
    forall id,
      match last_record id rs with
      | Some r => exists row d, RunStore.get_run ns id None db = Some row /\
                    RedisStore.get_run ns id None s' = Ok (Some (PDict d)) /\ shows ns row r /\ shows ns d r
      | None => RunStore.get_run ns id None db = None /\ RedisStore.get_run ns id None s' = Ok None
      end /\
      ((exists row, In row (RunStore.list_runs ns None db) /\ cell row "run_id" = PStr id) <-> is_Some (last_record id rs)) /\
      ((exists d, In (PDict d) listed /\ cell d "run_id" = PStr id) <-> is_Some (last_record id rs)).
Proof.
  intros Ht [Hk He'] Hrs. pose proof (He' (_run_index_key ns) : indexed ns s = []) as He. pose proof (redis_spec ns ttl timestamp now Ht) as RS.
  destruct (last_write_wins (O := sqlite_ops ns) ns (storable ns) rs new_database Hrs) as (db & Edb & Hdb).
  destruct (last_write_wins (O := redis_ops ns ttl timestamp now) ns (storable ns) rs s Hrs) as (s' & Es & Hs).
  assert (Hix : forall id, In id (indexed ns s') <-> is_Some (last_record id rs)).
  { intros id. rewrite (upserts_indexed ns ttl timestamp now Ht rs s s' id Hrs Es), He. split; [by intros [?|[]]|by left]. }
  assert (Hg : forall id r, last_record id rs = Some r ->
    exists d, RedisStore.get_run ns id None s' = Ok (Some (PDict d)) /\ shows ns d r).
  { intros id r Hr. specialize (Hs id). rewrite Hr in Hs. destruct Hs as (d & Hd & Hsh). cbn [s_get redis_ops] in Hd.
    exists d. split; [|exact Hsh]. destruct (RedisStore.get_run ns id None s') as [[[]|]|]; cbn in Hd; congruence. }
  destruct (list_runs_indexed ns s') as (listed & El & Hl).
  { intros id [r Hr]%Hix. destruct (Hg id r Hr) as (d & Hd & Hsh). exists d. split; [exact Hd|].
    apply (shows_id ns d r id); [by apply (last_record_id id rs)|exact Hsh]. }
  exists db, s', listed. do 3 (split; [assumption|]). intros id. specialize (Hdb id). cbn [s_get sqlite_ops] in Hdb.
  split; [|split; [|by rewrite Hl, Hix]].
  - destruct (last_record id rs) as [r|] eqn:Er; [|].
    2:{ split; [by injection Hdb|]. specialize (Hs id). rewrite Er in Hs. cbn [s_get redis_ops] in Hs.
        unfold RedisStore.get_run in Hs at 2. rewrite Hk in Hs. cbn [bind_res] in Hs.
        by destruct (RedisStore.get_run ns id None s') as [[[]|]|]. }
    destruct Hdb as (row & [= Hrow] & Hsh). destruct (Hg id r Er) as (d & Hd & Hsd). by exists row, d.
  - rewrite sqlite_listed. destruct (last_record id rs) as [r|].
    + destruct Hdb as (row & [= ->] & _). split; by eexists.
    + injection Hdb as ->. cbn. split; intros [? H]; discriminate H.
Qed.

(** ** Namespaces

    A write of SQLite takes the run id over from every other namespace, as [run_id] alone
    is the primary key; Redis keeps namespaces without a colon apart. *)
Lemma sqlite_takes_over ns ns' r id db :
  storable ns r = true -> record_id r = Some id -> ns' <> ns ->
  RunStore.get_run ns' id None (fst (RunStore.upsert ns r db)) = None.
Proof. intros Hs Hid Hne. rewrite (get_run_upsert ns r id db ns' id Hs Hid), String.eqb_refl. by rewrite (proj2 (String.eqb_neq ns' ns) Hne). Qed.

Lemma colon_split a b x y : lacks ":" a = true -> lacks ":" b = true -> a ++ ":" ++ x = b ++ ":" ++ y -> a = b /\ x = y.
Proof.
  revert b. induction a as [|c a IH]; intros [|d b] Ha Hb H.
  - change ("" ++ ":" ++ x) with (String ":" x) in H. change ("" ++ ":" ++ y) with (String ":" y) in H. by injection H.
  - change ("" ++ ":" ++ x) with (String ":" x) in H. change (String d b ++ ":" ++ y) with (String d (b ++ ":" ++ y)) in H.
    injection H as <- _. discriminate Hb.
  - change ("" ++ ":" ++ y) with (String ":" y) in H. change (String c a ++ ":" ++ x) with (String c (a ++ ":" ++ x)) in H.
    injection H as -> _. discriminate Ha.
  - change (String c a ++ ":" ++ x) with (String c (a ++ ":" ++ x)) in H.
    change (String d b ++ ":" ++ y) with (String d (b ++ ":" ++ y)) in H. injection H as -> H.
    cbn in Ha, Hb. apply andb_prop in Ha as [_ Ha], Hb as [_ Hb]. destruct (IH b Ha Hb H) as [-> ->]. done.
Qed.

Lemma redis_namespaces_apart {S} {R : Redis S} {RL : RedisLaws S} ns ns' ttl timestamp now r id id' s s' :
  0 < ttl -> lacks ":" ns = true -> lacks ":" ns' = true -> ns' <> ns -> record_id r = Some id ->
  RedisStore.upsert ns ttl timestamp now r s = Ok s' -> RedisStore.get_run ns' id' None s' = RedisStore.get_run ns' id' None s.
Proof.
  intros Ht Hc Hc' Hne Hid. destruct (redis_upsert_Ok ns ttl timestamp now r id s Hid) as [score ->]. intros [= <-].
  unfold RedisStore.get_run. cbn [scope default]. rewrite put_get; [|done|by apply not_eq_sym, run_key_not_index|].
  - destruct (String.eqb_spec (_RUN_KEY_PREFIX ++ ns' ++ ":" ++ id') (_run_key ns id)) as [E|_]; [|done].
    unfold _run_key in E. apply append_cancel_l, colon_split in E as [E _]; done.
  - unfold _run_index_key, _RUN_KEY_PREFIX, _RUN_INDEX_KEY. cbn [String.append]. discriminate.
Qed.

(** ** A server in memory *)

Lemma dset_keeps_key {V} k (v : V) d y w : In (y, w) d -> exists w', In (y, w') (dset k v d).
Proof.
  induction d as [|[k' v'] d IH]; [done|]. cbn. intros [[= -> ->]|H].
  - destruct (String.eqb_spec k y) as [->|_]; [exists v|exists w]; by left.
  - destruct (String.eqb k k'); [exists w; by right|]. destruct (IH H) as [w' Hw]. exists w'. by right.
Qed.

Inductive Value := Text (s : string) | Members (l : list (string * float)).

(** Keys with their values; nothing expires. *)
Definition Memory : Type := list (string * Value).

Definition members (k : string) (s : Memory) : list (string * float) :=
  match dlookup k s with Some (Members l) => l | _ => [] end.

#[export] Instance memory_server : Redis Memory := {|
  setex k _ v s := dset k (Text v) s;
  redis_get k s := match dlookup k s with Some (Text v) => Some v | _ => None end;
  zadd k m score s := dset k (Members (dset m score (members k s))) s;
  expire _ _ s := s;
  zrevrange k s := List.map fst (py_sorted (fun a b => frank_ltb (snd b) (snd a)) (members k s)) |}.

Lemma sorted_keys (l : list (string * float)) lt x : In x (List.map fst (py_sorted lt l)) <-> In x (List.map fst l).
Proof. rewrite !in_map_iff. split; intros (y & E & H); exists y; (split; [exact E|by apply py_sorted_In in H || apply py_sorted_In]). Qed.

#[export] Instance memory_laws : RedisLaws Memory.
Proof.
  split; cbn; try done; intros; unfold members.
  - by rewrite dlookup_dset_eq.
  - by rewrite dlookup_dset_ne.
  - by rewrite dlookup_dset_ne.
  - rewrite dlookup_dset_eq, !sorted_keys. fold (members k s). rewrite !in_map_iff. split.
    + intros ([y f] & <- & H). destruct (String.eqb_spec y m) as [->|Hne]; [by left|right]. cbn.
      apply In_dset in H as [[-> _]|H]; [done|]. by exists (y, f).
    + intros [->|([y f] & <- & H)]; [exists (m, score); split; [done|apply dlookup_In, dlookup_dset_eq]|].
      cbn. destruct (dset_keeps_key m score (members k s) y f H) as [g Hg]. by exists (y, g).
  - by rewrite dlookup_dset_ne.
  - by rewrite dlookup_dset_ne.
Qed.

(** ** Concrete records *)

Definition run_record (id status : string) (code : pyval) : dict :=
  [("run_id", PStr id); ("request", PStr "fix the tests"); ("status", PStr status); ("created_at", PStr "2026-01-01T00:00:00Z");
   ("started_at", PStr "2026-01-01T00:00:00Z"); ("finished_at", PNone); ("exit_code", code); ("trace_out_dir", PStr "out");
   ("trace_path", PStr "out/t.json"); ("log_lines", PInt 3); ("pending_approval", PBool false)].

Definition history : list dict := [run_record "r1" "running" PNone; run_record "r2" "running" PNone; run_record "r1" "succeeded" (PInt 0)].

Lemma run_stores_agree_witness :
  exists db (s' : Memory) row d,
    upserts (O := sqlite_ops "prod") history new_database = Ok db /\
    RunStore.get_run "prod" "r1" None db = Some row /\ RedisStore.get_run "prod" "r1" None s' = Ok (Some (PDict d)) /\
    shows "prod" row (run_record "r1" "succeeded" (PInt 0)) /\ shows "prod" d (run_record "r1" "succeeded" (PInt 0)) /\
    RunStore.get_run "prod" "r3" None db = None /\ RedisStore.get_run "prod" "r3" None s' = Ok None.
Proof.
  destruct (run_stores_agree (R := memory_server) "prod" 86400 (fun _ => None) fzero history ([] : Memory) ltac:(lia) (conj (fun _ => eq_refl) (fun _ => eq_refl))
    ltac:(vm_compute; reflexivity))
    as (db & s' & listed & Edb & _ & _ & H).
  destruct (H "r1") as [(row & d & Hr & Hd & S1 & S2) _]. destruct (H "r3") as [[N1 N2] _]. by exists db, s', row, d.
Defined.

(** The same run recorded in two namespaces: SQLite loses the first. *)
Example sqlite_moves_run :
  let db := fst (RunStore.upsert "b" (run_record "r1" "running" PNone)
              (fst (RunStore.upsert "a" (run_record "r1" "running" PNone) new_database))) in
  (is_ok (match RunStore.get_run "a" "r1" None db with Some _ => Ok tt | None => Err (KeyError "r1") end),
   length (RunStore.list_runs "b" None db)) = (false, 1%nat).
Proof. reflexivity. Qed.

(** Columns a later record leaves out return to their defaults. *)
Example replaced_column_forgotten :
  let db := fst (RunStore.upsert "" (run_record "r1" "running" PNone)
              (fst (RunStore.upsert "" (("final", PStr "done") :: run_record "r1" "running" PNone) new_database))) in
  option_map (fun r => cell r "final") (RunStore.get_run "" "r1" None db) = Some (PStr "").
Proof. reflexivity. Qed.
