(* ===== verification/Qrag.v ===== *)
(** * Value-based re-ranking of recalled memories: [qrag.py]

    Candidates are scored by similarity, age, success and the type of their task; the best
    are kept, and those that resemble a kept one are moved down.  [math.exp] and the clock
    are parameters. *)
From Stdlib Require Import ZArith Lia String Ascii List Bool Sorted Permutation.
From Stdlib Require Import SpecFloat.
From stdpp Require Import base tactics list strings option.
From S2P Require Import Prelude PyStr StrFacts PyFloat PyVal Json.
Local Open Scope string_scope.
Local Open Scope Z_scope.

Definition _cosine_sim (a b : list float) : float :=
  if negb (length a =? length b)%nat || (length a =? 0)%nat then fzero
  else
    let dot := py_sum (zip_with fmul a b) in
    let norm_a := fsqrt (py_sum (List.map (fun x => fmul x x) a)) in
    let norm_b := fsqrt (py_sum (List.map (fun x => fmul x x) b)) in
    if fltb norm_a (float_lit 1 9) || fltb norm_b (float_lit 1 9) then fzero else fdiv dot (fmul norm_a norm_b).

(** ** The retriever *)

Record QRAGRetriever := {
  similarity_weight : float; recency_weight : float; diversity_weight : float; success_weight : float;
  recency_halflife_days : float }.

Definition QRAGRetriever_init (similarity recency diversity success halflife : float) : res QRAGRetriever :=
  let total := fadd (fadd (fadd similarity recency) diversity) success in
  if fleb total fzero then Err (ValueError "weights must sum to a positive value")
  else Ok {| similarity_weight := fdiv similarity total; recency_weight := fdiv recency total;
             diversity_weight := fdiv diversity total; success_weight := fdiv success total;
             recency_halflife_days := fmax (float_lit 1 2) halflife |}.

(** [QRAGRetriever()]. *)
Definition default_retriever : res QRAGRetriever :=
  QRAGRetriever_init half (float_lit 2 1) (float_lit 15 2) (float_lit 15 2) (float_of_Z 7).

Record ScoredMemory := { content : string; metadata : dict; similarity : float; value : float; combined_score : float }.

Section Retriever.
Context (exp : float -> float) (self : QRAGRetriever).

(** [except (TypeError, ValueError): return 0.5]. *)
Definition or_neutral (r : res float) : res float :=
  match r with Ok f => Ok f | Err e => if is_type_or_value_error e then Ok half else Err e end.

Definition _success_score (metadata : dict) : res float :=
  match dget metadata "success" PNone with
  | PNone => Ok half
  | PBool b => Ok (if b then one else fzero)
  | v => or_neutral (let! f := py_float v in Ok (fmax fzero (fmin one f)))
  end.

Definition _recency_score (now : float) (created_at : pyval) : res float :=
  match created_at with
  | PNone => Ok half
  | v =>
      or_neutral
        (let! created := py_float v in
         let age := fmax fzero (fsub now created) in
         Ok (exp (fdiv (fmul (SFopp (float_lit 693 3)) age) (fmul (recency_halflife_days self) (float_of_Z 86400)))))
  end.

Definition task_match (mem_task_type query : string) : float :=
  let mem := lower (strip mem_task_type) in
  let query := lower (strip query) in
  if negb (String.eqb mem "") && String.eqb mem query then one
  else if negb (String.eqb mem "") && negb (String.eqb query "") && (contains mem query || contains query mem) then half
  else fzero.

Definition _compute_value (memory : dict) (query_task_type : string) : res float :=
  let! metadata := py_dict (dget memory "metadata" (PDict [])) in
  let! success := _success_score metadata in
  Ok (fadd (fmul (float_lit 6 1) (task_match (py_str (dget metadata "task_type" (PStr ""))) query_task_type))
           (fmul (float_lit 4 1) success)).

(** The body of the scoring loop, at its reading of the clock. *)
Definition scored_candidate (query_task_type : string) (cn : dict * float) : res ScoredMemory :=
  let '(cand, now) := cn in
  let! similarity := py_float (dget cand "similarity" (PFloat fzero)) in
  let! metadata := py_dict (dget cand "metadata" (PDict [])) in
  let! value := _compute_value cand query_task_type in
  let! recency := _recency_score now (dget metadata "created_at" PNone) in
  let! success := _success_score metadata in
  let combined :=
    fadd (fadd (fadd (fmul (similarity_weight self) similarity) (fmul (recency_weight self) recency))
            (fmul (success_weight self) success))
      (fmul (fsub one (diversity_weight self)) value) in
  Ok {| content := py_str (dget cand "content" (PStr "")); metadata := metadata; similarity := similarity; value := value;
        combined_score := combined |}.

Definition _extract_embedding (candidate : option dict) : res (list float) :=
  match candidate with
  | None => Ok []
  | Some c => match dget c "embedding" PNone with PList raw => map_res py_float raw | _ => Ok [] end
  end.

Definition _diversity_penalty (embedding : list float) (selected : list (list float)) : float :=
  match selected, embedding with
  | [], _ | _, [] => fzero
  | _, _ =>
      let max_sim := fold_left (fun m sel => let sim := _cosine_sim embedding sel in if fltb m sim then sim else m) selected fzero in
      fmax fzero (fmin one max_sim)
  end.

Definition with_score (m : ScoredMemory) (score : float) : ScoredMemory :=
  {| content := content m; metadata := metadata m; similarity := similarity m; value := value m; combined_score := score |}.

(** The selection loop: [room] more memories may be selected. *)
Fixpoint select_diverse (candidates : list dict) (room : nat) (selected_embeddings : list (list float)) (scored : list ScoredMemory)
    : res (list ScoredMemory) :=
  match scored, room with
  | [], _ | _, O => Ok []
  | mem :: rest, S room =>
      let! embedding := _extract_embedding (List.find (fun c => py_eq (dget c "content" PNone) (PStr (content mem))) candidates) in
      let mem :=
        match embedding, selected_embeddings with
        | _ :: _, _ :: _ =>
            with_score mem (fsub (combined_score mem) (fmul (diversity_weight self) (_diversity_penalty embedding selected_embeddings)))
        | _, _ => mem
        end in
      let embeddings := match embedding with [] => selected_embeddings | _ => (selected_embeddings ++ [embedding])%list end in
      let! others := select_diverse candidates room embeddings rest in
      Ok (mem :: others)
  end.

(** The best score first. *)
Definition higher (a b : ScoredMemory) : bool := frank_ltb (combined_score b) (combined_score a).

(** [clock i] is the clock when candidate [i] is scored. *)
Definition retrieve (clock : nat -> float) (candidates : list dict) (query_task_type : string) (top_k : Z) : res (list ScoredMemory) :=
  match candidates with
  | [] => Ok []
  | _ =>
      let! scored := map_res (scored_candidate query_task_type) (combine candidates (List.map clock (seq 0 (length candidates)))) in
      let! selected := select_diverse candidates (Z.to_nat (Z.max 1 top_k)) [] (py_sorted higher scored) in
      Ok (py_sorted higher selected)
  end.

(** ** Properties *)

(** What is the same of a memory before and after the selection. *)
Definition identity (m : ScoredMemory) : string * dict * float * float := (content m, metadata m, similarity m, value m).

Lemma select_identity candidates room embeddings scored selected :
  select_diverse candidates room embeddings scored = Ok selected ->
  List.map identity selected = List.map identity (firstn room scored).
Proof.
  revert room embeddings selected. induction scored as [|m scored IH]; intros [|room] embeddings selected; cbn [select_diverse firstn];
    [by intros [= <-]..|].
  destruct (_extract_embedding _) as [embedding|]; [|done]. cbn [bind_res].
  destruct (select_diverse candidates room _ scored) as [others|] eqn:E; [|done]. cbn [bind_res]. intros [= <-]. cbn [List.map].
  rewrite (IH _ _ _ E). f_equal. by destruct embedding, embeddings.
Qed.

Lemma higher_asym x y : higher x y = true -> higher y x = false.
Proof. apply frank_ltb_asym. Qed.

Lemma higher_ntrans x y z : higher y x = false -> higher z y = false -> higher z x = false.
Proof. unfold higher. intros H1 H2. by apply (frank_ltb_ntrans (combined_score z) (combined_score y)). Qed.

(** What is retrieved is the best candidates by their score before the selection: the
    penalty for resemblance only changes their order. *)
Theorem retrieve_selects_best clock candidates query_task_type top_k out :
  retrieve clock candidates query_task_type top_k = Ok out ->
  exists kept dropped,
    (candidates = [] /\ kept = [] /\ dropped = [] \/
     exists scored, map_res (scored_candidate query_task_type) (combine candidates (List.map clock (seq 0 (length candidates)))) = Ok scored /\
       Permutation (kept ++ dropped) scored) /\
    length kept = Nat.min (Z.to_nat (Z.max 1 top_k)) (length candidates) /\
    (forall x y, In x kept -> In y dropped -> higher y x = false) /\
    Permutation (List.map identity out) (List.map identity kept) /\ ordered higher out.
Proof.
  unfold retrieve. destruct candidates as [|c cs].
  { intros [= <-]. exists [], []. split; [by left|]. split; [by rewrite Nat.min_0_r|]. split; [by intros x y []|]. split; constructor. }
  set (cands := c :: cs). destruct (map_res _ _) as [scored|] eqn:Es; [|done]. cbn [bind_res].
  destruct (select_diverse _ _ _ _) as [selected|] eqn:Ed; [|done]. cbn [bind_res]. intros [= <-].
  set (room := Z.to_nat (Z.max 1 top_k)) in *.
  exists (firstn room (py_sorted higher scored)), (skipn room (py_sorted higher scored)).
  assert (Hl : length scored = length cands).
  { apply map_res_length in Es. by rewrite Es, length_combine, length_map, length_seq, Nat.min_id. }
  destruct (sorted_split higher room scored higher_asym higher_ntrans) as (Hp & Hn & _ & Hd).
  split; [right; by exists scored|]. split; [by rewrite Hn, Hl|]. split; [exact Hd|].
  split; [|apply py_sorted_ordered; [apply higher_asym|apply higher_ntrans]].
  rewrite <- (select_identity _ _ _ _ _ Ed). apply Permutation_map, py_sorted_Permutation.
Qed.
End Retriever.
