(* ===== verification/LongTermMemory.v ===== *)
(** * The long-term memory: [long_term_memory.py]

    Three tables of one SQLite database: facts with their embeddings, episodes of runs,
    procedures that worked.  numpy's vectors and the vector index of sqlite-vec are behind
    interfaces; rows are never deleted, so the next id is the number of rows plus one. *)
From Stdlib Require Import ZArith Lia String Ascii List Bool Sorted Permutation.
From stdpp Require Import base tactics list strings option.
From S2P Require Import Prelude PyStr StrFacts PyFloat PyVal Sha256 Json Memory JsonProps Qrag.
Local Open Scope string_scope.
Local Open Scope Z_scope.

(** ** Vectors *)

(** Arrays of 32-bit floats: [np.array], [astype], [np.dot] (which raises on different
    shapes), [np.linalg.norm], division by a number, [vec[0] = 1.0], [tolist]. *)
Class Numpy (Vec : Type) := {
  np_array : list float -> Vec; astype_float32 : Vec -> Vec; np_dot : Vec -> Vec -> res float; np_norm : Vec -> float;
  np_divide : Vec -> float -> Vec; np_set_first : Vec -> res Vec; tolist : Vec -> list float }.

(** The index of sqlite-vec: an insertion (which raises on a wrong dimension), and the ids
    of the nearest vectors, nearest first. *)
Class VectorIndex (Vec Index : Type) := {
  empty_index : Index;
  index_insert : Z -> Vec -> Index -> res Index;
  index_nearest : Vec -> Z -> Index -> res (list Z) }.

(** [int.from_bytes(b, "little", signed=True)] of four bytes. *)
Definition from_bytes (b0 b1 b2 b3 : Z) : Z :=
  let v := b0 + 256 * b1 + 65536 * b2 + 16777216 * b3 in if v <? 2147483648 then v else v - 4294967296.

Fixpoint chunk_values (h : list Z) : list Z :=
  match h with b0 :: b1 :: b2 :: b3 :: r => from_bytes b0 b1 b2 b3 :: chunk_values r | _ => [] end.

(** The chained digests: [n] rounds. *)
Fixpoint digest_chunks (n : nat) (h : list Z) : list Z :=
  match n with O => [] | S n => (chunk_values h ++ digest_chunks n (sha256 h))%list end.

(** A digest has eight chunks, so [dim] rounds are more than enough. *)
Definition stub_chunks (text : string) (dim : nat) : list Z := firstn dim (digest_chunks dim (sha256 (utf8_encode text))).

Section Embedders.
Context {Vec : Type} {numpy : Numpy Vec}.

Definition stub_embedder (text : string) (dim : nat) : res Vec :=
  let vec := np_array (List.map float_of_Z (stub_chunks text dim)) in
  let norm := np_norm vec in
  if fltb norm (float_lit 1 9) then let! vec := np_set_first vec in Ok (astype_float32 (np_divide vec one))
  else Ok (astype_float32 (np_divide vec norm)).

Definition _stub_embedder_as_list (text : string) : res (list float) := let! v := stub_embedder text 128 in Ok (tolist v).

(** The client of Ollama; [available] is what the first probe found. *)
Record OllamaEmbedder := { o_model : string; o_base_url : string; o_timeout : float; o_available : option bool }.

Definition OllamaEmbedder_init (model base_url : string) (timeout : float) : OllamaEmbedder :=
  {| o_model := model; o_base_url := rstrip_by (Ascii.eqb "/") base_url; o_timeout := timeout; o_available := None |}.

(** [reachable url]: the GET succeeds within two seconds. *)
Definition _probe (reachable : string -> bool) (self : OllamaEmbedder) : OllamaEmbedder * bool :=
  match o_available self with
  | Some b => (self, b)
  | None =>
      let b := reachable (o_base_url self ++ "/api/tags") in
      ({| o_model := o_model self; o_base_url := o_base_url self; o_timeout := o_timeout self; o_available := Some b |}, b)
  end.

(** [post url body timeout]: the body of the answer. *)
Definition ollama_embedding (post : string -> string -> float -> res string) (self : OllamaEmbedder) (text : string) : res (list float) :=
  let payload := json_dumps false (PDict [("model", PStr (o_model self)); ("prompt", PStr text)]) in
  let! answer := post (o_base_url self ++ "/api/embeddings") payload (o_timeout self) in
  let! data := json_loads answer in
  let! embedding := get data "embedding" (PList []) in
  if negb (truthy embedding) then _stub_embedder_as_list text
  else let! values := py_iter embedding in map_res py_float values.

Definition ollama_call (reachable : string -> bool) (post : string -> string -> float -> res string) (self : OllamaEmbedder) (text : string)
    : OllamaEmbedder * res (list float) :=
  let '(self, up) := _probe reachable self in
  if up then (self, match ollama_embedding post self text with Ok v => Ok v | Err _ => _stub_embedder_as_list text end)
  else (self, _stub_embedder_as_list text).

Definition probe_ollama (reachable : string -> bool) (base_url : string) : bool := reachable (base_url ++ "/api/tags").

Inductive EmbedderFn := StubEmbedder | Ollama (o : OllamaEmbedder).

(** [environ name default] is [os.environ.get]. *)
Definition make_embedder (environ : string -> string -> string) (provider : option string) (kwargs : dict) : res EmbedderFn :=
  let provider := default (environ "LG_EMBED_PROVIDER" "stub") provider in
  if String.eqb provider "ollama" then
    let base_url := py_str (dget kwargs "base_url" (PStr (environ "LG_EMBED_OLLAMA_URL" "http://localhost:11434"))) in
    let model := py_str (dget kwargs "model" (PStr (environ "LG_EMBED_OLLAMA_MODEL" "nomic-embed-text"))) in
    let! timeout := match dget kwargs "timeout" (PFloat (float_of_Z 10)) with
                    | (PInt _ | PBool _ | PFloat _) as v => num_to_float v
                    | _ => Ok (float_of_Z 10)
                    end in
    Ok (Ollama (OllamaEmbedder_init model base_url timeout))
  else Ok StubEmbedder.
End Embedders.

(** ** Helpers *)

Definition _TASK_TYPE_KEYWORDS : list (string * list string) :=
  [("code_change", ["refactor"; "implement"; "add"; "create"; "write"; "update"; "change"]);
   ("debug", ["fix"; "debug"; "repair"; "resolve"; "investigate"; "diagnose"]);
   ("analysis", ["analyze"; "review"; "check"; "audit"; "inspect"; "assess"]);
   ("test_repair", ["test"; "failing"; "broken"; "pytest"; "assertion"]);
   ("canary", ["canary"; "deploy"; "smoke"])].

Definition _infer_task_type (query : string) : string :=
  let lower := lower query in
  match List.find (fun tk => existsb (fun kw => contains kw lower) (snd tk)) _TASK_TYPE_KEYWORDS with
  | Some (task_type, _) => task_type
  | None => match split_ws lower with w :: _ => w | [] => "unknown" end
  end.

(** The keyword is looked for anywhere: in "address" as in "add". *)
Example inferred : List.map _infer_task_type ["Fix the parser"; "What is this address?"; "Explain it"; " "] = ["debug"; "code_change"; "explain"; "unknown"].
Proof. by vm_compute. Qed.

Definition _approx_tokens (text : string) : Z := if String.eqb text "" then 0 else Z.max 1 ((py_len text + 3) / 4).

(** ** The store *)

Inductive Tier := Semantic | Episodic | Procedural.

Record SemanticRow (Vec : Type) := { s_id : Z; s_content : string; s_metadata : string; s_embedding : Vec; s_created : float }.
Arguments s_id {Vec} _. Arguments s_content {Vec} _. Arguments s_metadata {Vec} _. Arguments s_embedding {Vec} _. Arguments s_created {Vec} _.
Record EpisodeRow := { e_id : Z; e_run : string; e_summary : string; e_outcome : string; e_metadata : string; e_created : float }.
Record ProcedureRow := { p_id : Z; p_task_type : string; p_steps : string; p_success : Z; p_metadata : string; p_created : float }.

Record MemoryRecord (Vec : Type) := {
  m_id : Z; m_tier : Tier; m_run : option string; m_content : string; m_metadata : pyval; m_created : float; m_embedding : option Vec }.
Arguments m_id {Vec} _. Arguments m_tier {Vec} _. Arguments m_run {Vec} _. Arguments m_content {Vec} _. Arguments m_metadata {Vec} _.
Arguments m_created {Vec} _. Arguments m_embedding {Vec} _.

(** [except (json.JSONDecodeError, TypeError)]. *)
Definition loads_or (text : string) (dflt : pyval) : res pyval :=
  match json_loads text with Ok v => Ok v | Err e => if is_json_error e then Ok dflt else Err e end.

(** [", ".join(v)]. *)
Fixpoint texts_of (i : Z) (l : list pyval) : res (list string) :=
  match l with
  | [] => Ok []
  | PStr s :: r => let! r := texts_of (i + 1) r in Ok (s :: r)
  | v :: _ => Err (TypeError ("sequence item " ++ str_of_Z i ++ ": expected str instance, " ++ type_name v ++ " found"))
  end.

Definition join_comma (v : pyval) : res string := let! l := py_iter v in let! l := texts_of 0 l in Ok (join ", " l).

Section Store.
Context {Vec Index : Type} {numpy : Numpy Vec} {vectors : VectorIndex Vec Index}.

(** [index] is there when sqlite-vec could be loaded. *)
Record Store := {
  semantic_memories : list (SemanticRow Vec); episodic_memories : list EpisodeRow; procedural_memories : list ProcedureRow;
  vec_memories : option Index }.

(** [embedder] is [_embed]; [exp], [clock] and [qrag_enabled] are for the re-ranking. *)
Context (embedder : string -> res Vec) (exp : float -> float) (clock : nat -> float) (qrag_enabled : bool).

Definition next_id {A : Type} (rows : list A) : Z := Z.of_nat (length rows) + 1.

Definition metadata_text (metadata : option dict) : string := json_dumps true (PDict (default [] metadata)).

(** The first row is not rolled back when the index refuses the vector. *)
Definition store_semantic (now : float) (content : string) (metadata : option dict) (s : Store) : Store * res Z :=
  match embedder content with
  | Err e => (s, Err e)
  | Ok embedding =>
      let rowid := next_id (semantic_memories s) in
      let row := {| s_id := rowid; s_content := content; s_metadata := metadata_text metadata; s_embedding := embedding; s_created := now |} in
      let with_index v := {| semantic_memories := (semantic_memories s ++ [row])%list; episodic_memories := episodic_memories s;
                             procedural_memories := procedural_memories s; vec_memories := v |} in
      match vec_memories s with
      | None => (with_index None, Ok rowid)
      | Some index =>
          match index_insert rowid embedding index with
          | Ok index => (with_index (Some index), Ok rowid)
          | Err e => (with_index (Some index), Err e)
          end
      end
  end.

Definition semantic_record (row : SemanticRow Vec) (vec : option Vec) : res (MemoryRecord Vec) :=
  let! meta := loads_or (s_metadata row) (PDict []) in
  Ok {| m_id := s_id row; m_tier := Semantic; m_run := None; m_content := s_content row; m_metadata := meta; m_created := s_created row;
        m_embedding := vec |}.

(** The rows of the nearest ids; an id without a row is left out. *)
Fixpoint rows_of_ids (rows : list (SemanticRow Vec)) (ids : list Z) : res (list (MemoryRecord Vec)) :=
  match ids with
  | [] => Ok []
  | i :: rest =>
      match List.find (fun r => s_id r =? i) rows with
      | None => rows_of_ids rows rest
      | Some row => let! r := semantic_record row (Some (s_embedding row)) in let! others := rows_of_ids rows rest in Ok (r :: others)
      end
  end.

Definition _search_semantic_vec (index : Index) (query_vec : Vec) (top_k : Z) (s : Store) : res (list (MemoryRecord Vec)) :=
  let! ids := index_nearest query_vec top_k index in rows_of_ids (semantic_memories s) ids.

(** A vector of another shape counts as not similar. *)
Definition similarity_of (query_vec : Vec) (row : SemanticRow Vec) : float * option Vec :=
  match np_dot query_vec (s_embedding row) with Ok sim => (sim, Some (s_embedding row)) | Err _ => (fzero, None) end.

Definition scored_row (query_vec : Vec) (row : SemanticRow Vec) : res (float * MemoryRecord Vec) :=
  let '(sim, vec) := similarity_of query_vec row in
  let! r := semantic_record row vec in Ok (sim, r).

Definition more_similar (a b : float * MemoryRecord Vec) : bool := frank_ltb (fst b) (fst a).

Definition _search_semantic_numpy (query_vec : Vec) (top_k : Z) (s : Store) : res (list (MemoryRecord Vec)) :=
  let! scored := map_res (scored_row query_vec) (semantic_memories s) in
  Ok (List.map snd (firstn (Z.to_nat top_k) (py_sorted more_similar scored))).

(** [{**rec.metadata, "created_at": rec.created_at}] and the other fields of a candidate. *)
Definition candidate_of (r : MemoryRecord Vec) : res dict :=
  match m_metadata r with
  | PDict meta =>
      Ok ([("content", PStr (m_content r)); ("metadata", PDict (dset "created_at" (PFloat (m_created r)) meta)); ("similarity", PFloat one)]
          ++ match m_embedding r with Some v => [("embedding", PList (List.map PFloat (tolist v)))] | None => [] end)%list
  | v => Err (TypeError (sq ++ type_name v ++ "' object is not a mapping"))
  end.

(** Of several records with the same content the last is taken. *)
Definition _rerank_qrag (results : list (MemoryRecord Vec)) (query : string) (top_k : Z) : res (list (MemoryRecord Vec)) :=
  match results with
  | [] => Ok []
  | _ =>
      let! candidates := map_res candidate_of results in
      let! retriever := default_retriever in
      let! scored := retrieve exp retriever clock candidates (_infer_task_type query) top_k in
      Ok (omap (fun m => List.find (fun r => String.eqb (m_content r) (content m)) (rev results)) scored)
  end.

Definition search_semantic (query : string) (top_k : Z) (s : Store) : res (list (MemoryRecord Vec)) :=
  let top_k := Z.max 1 top_k in
  let! query_vec := embedder query in
  let! results := match vec_memories s with
                  | Some index => _search_semantic_vec index query_vec top_k s
                  | None => _search_semantic_numpy query_vec top_k s
                  end in
  if qrag_enabled then _rerank_qrag results query top_k else Ok results.

(** *** Episodes *)

Definition store_episode (now : float) (run_id summary outcome : string) (metadata : option dict) (s : Store) : Store * Z :=
  let id := next_id (episodic_memories s) in
  let row := {| e_id := id; e_run := run_id; e_summary := summary; e_outcome := outcome; e_metadata := metadata_text metadata; e_created := now |} in
  ({| semantic_memories := semantic_memories s; episodic_memories := (episodic_memories s ++ [row])%list;
      procedural_memories := procedural_memories s; vec_memories := vec_memories s |}, id).

Definition episode_record (row : EpisodeRow) : res (MemoryRecord Vec) :=
  let! meta := loads_or (e_metadata row) (PDict []) in
  let content := if String.eqb (e_outcome row) "" then e_summary row else e_summary row ++ nl ++ "outcome: " ++ e_outcome row in
  Ok {| m_id := e_id row; m_tier := Episodic; m_run := Some (e_run row); m_content := content; m_metadata := meta; m_created := e_created row;
        m_embedding := None |}.

(** [ORDER BY created_at DESC]; rows of one time in the order they were stored. *)
Definition newest {A : Type} (created : A -> float) (rows : list A) : list A :=
  py_sorted (fun a b => frank_ltb (created b) (created a)) rows.

Definition get_episodes (limit : Z) (run_id : option string) (s : Store) : res (list (MemoryRecord Vec)) :=
  let rows := List.filter (fun r => match run_id with Some i => String.eqb (e_run r) i | None => true end) (episodic_memories s) in
  map_res episode_record (firstn (Z.to_nat (Z.max 1 limit)) (newest e_created rows)).

(** *** Procedures *)

Definition store_procedure (now : float) (task_type : string) (steps : list string) (success : bool) (metadata : option dict) (s : Store) : Store * Z :=
  let id := next_id (procedural_memories s) in
  let row := {| p_id := id; p_task_type := task_type; p_steps := json_dumps false (PList (List.map PStr steps));
                p_success := if success then 1 else 0; p_metadata := metadata_text metadata; p_created := now |} in
  ({| semantic_memories := semantic_memories s; episodic_memories := episodic_memories s;
      procedural_memories := (procedural_memories s ++ [row])%list; vec_memories := vec_memories s |}, id).

Definition procedure_record (row : ProcedureRow) : res (MemoryRecord Vec) :=
  let! steps := loads_or (p_steps row) (PList []) in
  let! meta := loads_or (p_metadata row) (PDict []) in
  let! steps := join_comma steps in
  Ok {| m_id := p_id row; m_tier := Procedural; m_run := None; m_content := "task_type: " ++ p_task_type row ++ nl ++ "steps: " ++ steps;
        m_metadata := meta; m_created := p_created row; m_embedding := None |}.

Definition get_procedures (task_type : string) (successful_only : bool) (s : Store) : res (list (MemoryRecord Vec)) :=
  map_res procedure_record
    (newest p_created
       (List.filter (fun r => String.eqb (p_task_type r) task_type && (negb successful_only || (p_success r =? 1))) (procedural_memories s))).

(** The latest three that worked, of any type. *)
Definition recent_procedures (s : Store) : res (list (MemoryRecord Vec)) :=
  map_res procedure_record (firstn 3 (newest p_created (List.filter (fun r => p_success r =? 1) (procedural_memories s)))).

(** *** Retrieval over the three tiers *)

(** A block that does not fit is cut to what is left. *)
Definition fit_block (pb : list string * Z) (block : string) : list string * Z :=
  let '(parts, budget) := pb in
  let tok := _approx_tokens block in
  if tok <=? budget then ((parts ++ [block])%list, budget - tok) else ((parts ++ [str_prefix block (budget * 4)])%list, 0).

Definition tier_block (label : string) (lines : list string) : string := "[long_term:" ++ label ++ "]" ++ nl ++ join nl lines.

Definition fit_tier (label : string) (line : MemoryRecord Vec -> string) (pb : list string * Z) (hits : list (MemoryRecord Vec))
    : list string * Z :=
  match hits with [] => pb | _ => fit_block pb (tier_block label (List.map line hits)) end.

Definition content_line (r : MemoryRecord Vec) : string := "- " ++ m_content r.
Definition episode_line (r : MemoryRecord Vec) : string :=
  let label := match m_run r with Some i => if String.eqb i "" then "" else "[" ++ i ++ "] " | None => "" end in
  "- " ++ label ++ m_content r.

Definition joined (parts : list string) : string := strip (join (nl ++ nl) parts).

Definition procedures_for (query : string) (s : Store) : res (list (MemoryRecord Vec)) :=
  let task_hint := if blank query then "" else _infer_task_type query in
  if String.eqb task_hint "" then Ok []
  else
    let! procs := get_procedures task_hint true s in
    match procs with [] => recent_procedures s | _ => Ok procs end.

Definition retrieve_for_context (query : string) (max_tokens : Z) (s : Store) : res string :=
  let! semantic_hits := search_semantic query 5 s in
  let pb := fit_tier "semantic" content_line ([], Z.max 1 max_tokens) semantic_hits in
  if snd pb <=? 0 then Ok (joined (fst pb))
  else
    let! episodes := get_episodes 5 None s in
    let pb := fit_tier "episodic" episode_line pb episodes in
    if snd pb <=? 0 then Ok (joined (fst pb))
    else
      let! procs := procedures_for query s in
      let pb := fit_tier "procedural" content_line pb (firstn 3 procs) in
      Ok (joined (List.filter (fun p => negb (blank p)) (fst pb))).
End Store.
Arguments Store : clear implicits.

(** ** Properties *)

(** ** Stored texts are read back *)

Lemma loads_metadata m : jsonable (PDict (default [] m)) -> loads_or (metadata_text m) (PDict []) = Ok (json_norm true (PDict (default [] m))).
Proof. intros H. unfold loads_or, metadata_text. by rewrite dumps_loads. Qed.

Lemma loads_steps steps : loads_or (json_dumps false (PList (List.map PStr steps))) (PList []) = Ok (PList (List.map PStr steps)).
Proof.
  unfold loads_or. rewrite dumps_loads; [|constructor; apply List.Forall_map, List.Forall_forall; intros; constructor].
  cbn [json_norm]. by rewrite List.map_map.
Qed.

Lemma join_steps steps : join_comma (PList (List.map PStr steps)) = Ok (join ", " steps).
Proof.
  unfold join_comma. cbn [py_iter bind_res]. assert (H : forall i, texts_of i (List.map PStr steps) = Ok steps); [|by rewrite H].
  induction steps as [|s steps IH]; intros i; [done|]. cbn [List.map texts_of]. by rewrite IH.
Qed.

(** ** Budgets *)

Lemma approx_bound t : py_len t <= 4 * _approx_tokens t.
Proof.
  unfold _approx_tokens. destruct (String.eqb_spec t "") as [->|_]; [by vm_compute|].
  pose proof (Z.div_mod (py_len t + 3) 4). pose proof (Z.mod_pos_bound (py_len t + 3) 4). lia.
Qed.

(** At most [n] parts, which leave [snd pb] of [total] tokens. *)
Definition within (total : Z) (n : nat) (pb : list string * Z) : Prop :=
  0 <= snd pb /\ total_len (fst pb) <= 4 * (total - snd pb) /\ (length (fst pb) <= n)%nat.

Lemma fit_within total n pb block : within total n pb -> within total (S n) (fit_block pb block).
Proof.
  destruct pb as [parts budget]. intros (Hb & Hl & Hn). cbn [fst snd] in *. unfold fit_block, within.
  pose proof (approx_bound block) as Ha. pose proof (py_len_nonneg block).
  destruct (Z.leb_spec (_approx_tokens block) budget); cbn [fst snd]; rewrite total_len_app, length_app; cbn.
  - lia.
  - pose proof (py_len_prefix block (budget * 4)). lia.
Qed.

Lemma tier_within {Vec} total n label line pb (hits : list (MemoryRecord Vec)) :
  within total n pb -> within total (S n) (fit_tier label line pb hits).
Proof. unfold fit_tier. destruct hits; [intros (? & ? & ?); split; [done|]; split; [done|lia]|apply fit_within]. Qed.

Lemma joined_within total n pb parts :
  within total n pb -> (1 <= n)%nat -> total_len parts <= total_len (fst pb) -> (length parts <= length (fst pb))%nat ->
  py_len (joined parts) <= 4 * (total - snd pb) + 2 * (Z.of_nat n - 1).
Proof.
  intros (Hb & Hl & Hn) Hone Ht Hp. unfold joined. pose proof (py_len_strip (join (nl ++ nl) parts)) as Hs. rewrite py_len_join in Hs.
  change (py_len (nl ++ nl)) with 2 in Hs. lia.
Qed.

Section Recall.
Context {Vec Index : Type} {numpy : Numpy Vec} {vectors : VectorIndex Vec Index}.
Context (embedder : string -> res Vec) (exp : float -> float) (clock : nat -> float).

(** ** Stores that are built by the operations *)

Inductive built : Store Vec Index -> Prop :=
| built_empty v : built {| semantic_memories := []; episodic_memories := []; procedural_memories := []; vec_memories := v |}
| built_semantic now c m s : built s -> jsonable (PDict (default [] m)) -> built (fst (store_semantic embedder now c m s))
| built_episode now r su o m s : built s -> jsonable (PDict (default [] m)) -> built (fst (store_episode now r su o m s))
| built_procedure now t st ok m s : built s -> jsonable (PDict (default [] m)) -> built (fst (store_procedure now t st ok m s)).

Record readable (s : Store Vec Index) : Prop := {
  rd_semantic row vec : In row (semantic_memories s) -> exists r, semantic_record row vec = Ok r;
  rd_episodes row : In row (episodic_memories s) -> exists r : MemoryRecord Vec, episode_record row = Ok r;
  rd_procedures row : In row (procedural_memories s) -> exists r : MemoryRecord Vec, procedure_record row = Ok r }.

Lemma built_readable s : built s -> readable s.
Proof.
  induction 1 as [v|now c m s _ [Hs He Hp] Hm|now r su o m s _ [Hs He Hp] Hm|now t st ok m s _ [Hs He Hp] Hm]; [by split| | |].
  - unfold store_semantic. destruct (embedder c) as [v|]; [|by split].
    assert (G : forall vs, readable {| semantic_memories := (semantic_memories s ++
        [{| s_id := next_id (semantic_memories s); s_content := c; s_metadata := metadata_text m; s_embedding := v; s_created := now |}])%list;
        episodic_memories := episodic_memories s; procedural_memories := procedural_memories s; vec_memories := vs |}).
    { intros vs. split; cbn -[metadata_text]; [|exact He|exact Hp]. intros row vec [Hin|[<-|[]]]%in_app_iff; [by apply Hs|].
      unfold semantic_record. cbn [s_metadata]. rewrite loads_metadata by done. by eexists. }
    destruct (vec_memories s) as [index|]; [destruct (index_insert _ v index)|]; apply G.
  - split; cbn -[metadata_text]; [exact Hs| |exact Hp]. intros row [Hin|[<-|[]]]%in_app_iff; [by apply He|].
    unfold episode_record. cbn [e_metadata]. rewrite loads_metadata by done. by eexists.
  - split; cbn -[metadata_text json_dumps]; [exact Hs|exact He|]. intros row [Hin|[<-|[]]]%in_app_iff; [by apply Hp|].
    unfold procedure_record. cbn [p_metadata p_steps]. rewrite loads_steps. cbn [bind_res]. rewrite loads_metadata by done. cbn [bind_res].
    rewrite join_steps. by eexists.
Qed.

Lemma newest_In {A} (created : A -> float) x l : In x (newest created l) <-> In x l.
Proof. apply py_sorted_In. Qed.

Lemma episodes_read s limit run : readable s -> exists l, get_episodes (Vec := Vec) limit run s = Ok l.
Proof.
  intros [_ He _]. apply map_res_exists. intros row [Hin _]%firstn_In%newest_In%filter_In. by apply He.
Qed.

Lemma procedures_read s query : readable s -> exists l, procedures_for query s = Ok l.
Proof.
  intros [_ _ Hp]. unfold procedures_for. destruct (String.eqb _ ""); [by eexists|].
  assert (G : exists l, get_procedures (if blank query then "" else _infer_task_type query) true s = Ok l).
  { apply map_res_exists. intros row [Hin _]%newest_In%filter_In. by apply Hp. }
  destruct G as [l ->]. cbn [bind_res]. destruct l; [|by eexists].
  apply map_res_exists. intros row [Hin _]%firstn_In%newest_In%filter_In. by apply Hp.
Qed.

(** The index answers. *)
Definition index_answers (query_vec : Vec) (s : Store Vec Index) : Prop :=
  forall index, vec_memories s = Some index -> is_ok (index_nearest query_vec 5 index) = true.

(** The record of a fact of the store. *)
Definition from_fact (s : Store Vec Index) (r : MemoryRecord Vec) : Prop :=
  exists row vec, In row (semantic_memories s) /\ semantic_record row vec = Ok r.

Lemma ids_read s ids : readable s -> exists l, rows_of_ids (semantic_memories s) ids = Ok l /\ List.Forall (from_fact s) l.
Proof.
  intros [Hs _ _]. induction ids as [|i ids (l & IH & IHl)]; [by exists []|]. cbn [rows_of_ids].
  destruct (List.find _ _) as [row|] eqn:E; [|by exists l]. apply find_some in E as [Hin _].
  destruct (Hs row (Some (s_embedding row)) Hin) as [r Er]. rewrite Er. cbn [bind_res]. rewrite IH.
  exists (r :: l). split; [done|]. constructor; [|done]. by exists row, (Some (s_embedding row)).
Qed.

(** What the two searches find. *)
Lemma facts_found s v :
  readable s -> index_answers v s ->
  exists l, match vec_memories s with
            | Some index => _search_semantic_vec index v 5 s
            | None => _search_semantic_numpy v 5 s
            end = Ok l /\ List.Forall (from_fact s) l.
Proof.
  intros Hr Hi. destruct (vec_memories s) as [index|] eqn:E.
  - unfold _search_semantic_vec. specialize (Hi index E). destruct (index_nearest v 5 index) as [ids|]; [|done].
    by apply ids_read.
  - unfold _search_semantic_numpy. destruct (map_res_exists (scored_row v) (semantic_memories s)) as [scored Es].
    { intros row Hin. unfold scored_row. destruct (similarity_of v row) as [sim vec].
      destruct (rd_semantic _ Hr row vec Hin) as [r ->]. by eexists. }
    rewrite Es. eexists. split; [done|]. apply List.Forall_forall. intros r Hin.
    apply in_map_iff in Hin as ([sim r'] & <- & Hin%firstn_In%py_sorted_In).
    destruct (map_res_In _ _ _ _ Es Hin) as (row & Hrow & E'). unfold scored_row in E'.
    destruct (similarity_of v row) as [sim' vec]. apply bind_Ok in E' as (r'' & Er & [= _ <-]). by exists row, vec.
Qed.

(** *** Re-ranking *)

Lemma built_facts s row : built s -> In row (semantic_memories s) -> exists d, loads_or (s_metadata row) (PDict []) = Ok (PDict d).
Proof.
  intros Hb. revert row. induction Hb as [v|now c m s _ IH Hm|now r su o m s _ IH Hm|now t st ok m s _ IH Hm]; intros row; [done| |apply IH..].
  unfold store_semantic. destruct (embedder c) as [v|]; [|apply IH].
  intros Hin. assert (Hrow : In row (semantic_memories s) \/ s_metadata row = metadata_text m).
  { destruct (vec_memories s) as [index|]; [destruct (index_insert _ v index)|]; cbn in Hin; apply in_app_iff in Hin as [Hin|[<-|[]]]; by auto. }
  destruct Hrow as [Hrow| ->]; [by apply IH|]. rewrite loads_metadata by done. by eexists.
Qed.

(** The success a fact's metadata gives can be scored: it is not an integer beyond the floats. *)
Definition rankable (s : Store Vec Index) : Prop :=
  forall row d, In row (semantic_memories s) -> loads_or (s_metadata row) (PDict []) = Ok (PDict d) -> is_ok (_success_score d) = true.

Lemma floats_read l : map_res py_float (List.map PFloat l) = Ok l.
Proof. induction l as [|f l IH]; [done|]. cbn [List.map map_res]. by rewrite IH. Qed.

(** A candidate of a fact, what it is scored with, and its vector. *)
Lemma candidate_read s r : built s -> rankable s -> from_fact s r ->
  exists c, candidate_of r = Ok c /\ (forall R task now, exists m, scored_candidate exp R task (c, now) = Ok m) /\
    is_ok (_extract_embedding (Some c)) = true.
Proof.
  intros Hb Hr (row & vec & Hin & Er). destruct (built_facts s row Hb Hin) as [d Ed].
  unfold semantic_record in Er. rewrite Ed in Er. injection Er as <-. specialize (Hr row d Hin Ed).
  unfold candidate_of. cbn [m_metadata m_content m_created m_embedding].
  set (meta := dset _ _ d). set (c := (_ ++ _)%list). exists c. split; [reflexivity|].
  assert (Hm : _success_score meta = _success_score d) by (unfold _success_score, meta; by rewrite dget_dset_ne).
  assert (Es : dget c "similarity" (PFloat fzero) = PFloat one) by by destruct vec.
  assert (Ec : dget c "metadata" (PDict []) = PDict meta) by by destruct vec.
  split.
  - intros R task now. unfold scored_candidate, _compute_value. rewrite Es, Ec. cbn [py_float num_to_float bind_res py_dict].
    rewrite Hm. destruct (_success_score d) as [sc|]; [cbn [bind_res]|done].
    unfold meta at 1. rewrite dget_dset_eq. cbn [_recency_score or_neutral py_float num_to_float bind_res]. by eexists.
  - unfold _extract_embedding. destruct vec as [v|]; cbn; [|done]. by rewrite floats_read.
Qed.

Lemma select_read R candidates : (forall c, In c candidates -> is_ok (_extract_embedding (Some c)) = true) ->
  forall scored room embeddings, exists l, select_diverse R candidates room embeddings scored = Ok l.
Proof.
  intros Hc scored. induction scored as [|m scored IH]; intros [|room] embeddings; cbn [select_diverse]; [by eexists..|].
  destruct (_extract_embedding _) as [e|] eqn:E.
  - cbn [bind_res]. destruct (IH room (match e with [] => embeddings | _ => (embeddings ++ [e])%list end)) as [l ->]. by eexists.
  - destruct (List.find _ _) as [c|] eqn:F; [|done]. apply find_some in F as [Hin _]. specialize (Hc c Hin). by rewrite E in Hc.
Qed.

Lemma rerank_read s l query top_k : built s -> rankable s -> List.Forall (from_fact s) l ->
  exists l', _rerank_qrag exp clock l query top_k = Ok l'.
Proof.
  intros Hb Hr Hl. rewrite List.Forall_forall in Hl. unfold _rerank_qrag. destruct l as [|r0 rest]; [by eexists|]. set (l := r0 :: rest) in *.
  destruct (map_res_exists candidate_of l) as [cs Ec].
  { intros r Hin. destruct (candidate_read s r Hb Hr (Hl r Hin)) as (c & -> & _). by eexists. }
  assert (Hc : forall c, In c cs -> (forall R task now, exists m, scored_candidate exp R task (c, now) = Ok m) /\
                 is_ok (_extract_embedding (Some c)) = true).
  { intros c Hin. destruct (map_res_In _ _ _ _ Ec Hin) as (r & Hrin & E).
    destruct (candidate_read s r Hb Hr (Hl r Hrin)) as (c' & E' & H). rewrite E in E'. by injection E' as <-. }
  rewrite Ec. cbn [bind_res]. destruct default_retriever as [R|] eqn:ER; [|vm_compute in ER; discriminate ER]. cbn [bind_res].
  assert (G : exists m, retrieve exp R clock cs (_infer_task_type query) top_k = Ok m); [|destruct G as [m ->]; by eexists].
  unfold retrieve. destruct cs as [|c cs]; [by eexists|]. set (cands := c :: cs) in *.
  destruct (map_res_exists (scored_candidate exp R (_infer_task_type query)) (combine cands (List.map clock (seq 0 (length cands))))) as [sc ->].
  { intros [c' now] Hin. apply in_combine_l in Hin. by apply Hc. }
  cbn [bind_res]. destruct (select_read R cands (fun c Hin => proj2 (Hc c Hin)) (py_sorted higher sc) (Z.to_nat (Z.max 1 top_k)) []) as [sel ->].
  by eexists.
Qed.

Lemma semantic_read s query v qrag :
  built s -> embedder query = Ok v -> index_answers v s -> (qrag = true -> rankable s) ->
  exists l, search_semantic embedder exp clock qrag query 5 s = Ok l.
Proof.
  intros Hb Ev Hi Hq. unfold search_semantic. rewrite Ev. cbn [bind_res]. change (Z.max 1 5) with 5.
  destruct (facts_found s v (built_readable s Hb) Hi) as (l & E & Hl). rewrite E. cbn [bind_res].
  destruct qrag; [|by eexists]. apply (rerank_read s); auto.
Qed.

(** C24: What the long-term memory recalls for a context is bounded by the token budget.
    Take a store built by its own operations, whose metadata can be read back from JSON,
    a query that can be embedded, and an index that answers; with [LG_QRAG_ENABLED], facts
    whose metadata gives no [success] that is an integer beyond the floats.  Then
    [retrieve_for_context], with re-ranking of the facts or without, returns a text, of at most four characters per token of the budget (at least one token)
    plus the four of the two separators between its blocks, so at most one token more than
    the budget. *)
Theorem recall_within_budget qrag query v max_tokens s :
  built s -> embedder query = Ok v -> index_answers v s -> (qrag = true -> rankable s) ->
  exists text, retrieve_for_context embedder exp clock qrag query max_tokens s = Ok text /\
    py_len text <= 4 * Z.max 1 max_tokens + 4 /\ _approx_tokens text <= Z.max 1 max_tokens + 1.
Proof.
  intros Hbuilt Ev Hi Hq. pose proof (built_readable s Hbuilt) as Hb. set (B := Z.max 1 max_tokens).
  cut (exists text, retrieve_for_context embedder exp clock qrag query max_tokens s = Ok text /\ py_len text <= 4 * B + 4).
  { intros (text & E & Hl). exists text. split; [done|]. split; [done|]. unfold _approx_tokens. destruct (String.eqb text ""); [lia|].
    assert ((py_len text + 3) / 4 < B + 2) by (apply Z.div_lt_upper_bound; lia). lia. }
  unfold retrieve_for_context. destruct (semantic_read s query v qrag Hbuilt Ev Hi Hq) as [hits ->]. cbn [bind_res]. fold B.
  assert (W0 : within B 0 ([], B)) by (split; cbn; lia).
  pose proof (tier_within _ _ "semantic" content_line _ hits W0) as W1. set (pb1 := fit_tier _ _ _ hits) in *.
  destruct (Z.leb_spec (snd pb1) 0).
  { eexists. split; [reflexivity|]. pose proof (joined_within _ _ _ (fst pb1) W1 ltac:(lia) ltac:(lia) ltac:(lia)). destruct W1 as (? & ? & ?). lia. }
  destruct (episodes_read s 5 None Hb) as [episodes ->]. cbn [bind_res].
  pose proof (tier_within _ _ "episodic" episode_line _ episodes W1) as W2. set (pb2 := fit_tier _ _ _ episodes) in *.
  destruct (Z.leb_spec (snd pb2) 0).
  { eexists. split; [reflexivity|]. pose proof (joined_within _ _ _ (fst pb2) W2 ltac:(lia) ltac:(lia) ltac:(lia)). destruct W2 as (? & ? & ?). lia. }
  destruct (procedures_read s query Hb) as [procs ->]. cbn [bind_res].
  pose proof (tier_within _ _ "procedural" content_line _ (firstn 3 procs) W2) as W3. set (pb3 := fit_tier _ _ _ (firstn 3 procs)) in *.
  eexists. split; [reflexivity|].
  pose proof (total_len_filter (fun p => negb (blank p)) (fst pb3)) as Ht. pose proof (List.filter_length_le (fun p => negb (blank p)) (fst pb3)) as Hl.
  pose proof (joined_within _ _ _ (List.filter (fun p => negb (blank p)) (fst pb3)) W3 ltac:(lia) Ht Hl) as J.
  destruct W3 as (? & ? & ?). lia.
Qed.

(** ** What is found *)

Lemma more_similar_asym (x y : float * MemoryRecord Vec) : more_similar x y = true -> more_similar y x = false.
Proof. apply frank_ltb_asym. Qed.

Lemma more_similar_ntrans (x y z : float * MemoryRecord Vec) : more_similar y x = false -> more_similar z y = false -> more_similar z x = false.
Proof. unfold more_similar. intros H1 H2. by apply (frank_ltb_ntrans (fst z) (fst y)). Qed.

(** Without the index the facts found are the most similar to the query, the most similar
    one first: every fact that is left out is at most as similar as those found. *)
Theorem semantic_search_best query v top_k s :
  built s -> vec_memories s = None -> embedder query = Ok v ->
  exists scored kept dropped, map_res (scored_row v) (semantic_memories s) = Ok scored /\
    search_semantic embedder exp clock false query top_k s = Ok (List.map snd kept) /\ Permutation (kept ++ dropped) scored /\
    length kept = Nat.min (Z.to_nat (Z.max 1 top_k)) (length (semantic_memories s)) /\ ordered more_similar kept /\
    forall x y, In x kept -> In y dropped -> frank_ltb (fst x) (fst y) = false.
Proof.
  intros Hb%built_readable Hn Ev.
  assert (G : exists scored, map_res (scored_row v) (semantic_memories s) = Ok scored).
  { apply map_res_exists. intros row Hin. unfold scored_row. destruct (similarity_of v row) as [sim vec].
    destruct (rd_semantic _ Hb row vec Hin) as [r ->]. by eexists. }
  destruct G as [scored Es]. set (n := Z.to_nat (Z.max 1 top_k)).
  destruct (sorted_split more_similar n scored more_similar_asym more_similar_ntrans) as (Hp & Hl & Ho & Hd).
  exists scored, (firstn n (py_sorted more_similar scored)), (skipn n (py_sorted more_similar scored)).
  split; [done|]. split; [unfold search_semantic, _search_semantic_numpy; rewrite Ev, Hn; cbn [bind_res]; by rewrite Es|].
  split; [exact Hp|]. split; [by rewrite Hl, (map_res_length _ _ _ Es)|]. by split.
Qed.

(** An episode is read back before all earlier ones, with its outcome and its metadata. *)
Theorem episode_recalled now run summary outcome metadata limit s :
  built s -> jsonable (PDict (default [] metadata)) ->
  (forall r, In r (episodic_memories s) -> frank_ltb (e_created r) now = true) ->
  forall wanted, wanted = None \/ wanted = Some run ->
  exists older, get_episodes (Vec := Vec) limit wanted (fst (store_episode now run summary outcome metadata s)) =
    Ok ({| m_id := next_id (episodic_memories s); m_tier := Episodic; m_run := Some run;
           m_content := if String.eqb outcome "" then summary else summary ++ nl ++ "outcome: " ++ outcome;
           m_metadata := json_norm true (PDict (default [] metadata)); m_created := now; m_embedding := None |} :: older).
Proof.
  intros Hb%built_readable Hj Hnew wanted Hw. unfold get_episodes, store_episode. cbn [fst episodic_memories].
  rewrite List.filter_app. cbn [List.filter e_run].
  assert (E : match wanted with Some i => String.eqb run i | None => true end = true)
    by (destruct Hw as [->| ->]; [done|apply String.eqb_refl]).
  rewrite E. unfold newest. rewrite py_sorted_snoc, insert_first.
  2:{ intros r [Hin _]%py_sorted_In%filter_In. by apply Hnew. }
  destruct (Z.to_nat (Z.max 1 limit)) as [|n] eqn:En; [lia|]. cbn [firstn map_res].
  unfold episode_record at 1. cbn [e_metadata e_outcome e_summary e_id e_run e_created]. rewrite loads_metadata by done. cbn [bind_res].
  destruct (map_res_exists (episode_record (Vec := Vec)) (firstn n (py_sorted (fun a b => frank_ltb (e_created b) (e_created a))
     (List.filter (fun r => match wanted with Some i => String.eqb (e_run r) i | None => true end) (episodic_memories s))))) as [older ->];
    [|by eexists]. intros r [Hin _]%firstn_In%py_sorted_In%filter_In. by apply (rd_episodes _ Hb).
Qed.
End Recall.

(** ** A store with vectors of one number *)

Module Sample.
#[local] Instance lists : Numpy (list float) := {
  np_array l := l; astype_float32 l := l;
  np_dot a b := if (length a =? length b)%nat then Ok (py_sum (zip_with fmul a b)) else Err (ValueError "shapes not aligned");
  np_norm a := fsqrt (py_sum (List.map (fun x => fmul x x) a)); np_divide a f := List.map (fun x => fdiv x f) a;
  np_set_first a := match a with [] => Err (IndexError "index 0 is out of bounds") | _ :: r => Ok (one :: r) end; tolist a := a }.

#[local] Instance listed : VectorIndex (list float) (list (Z * list float)) := {
  empty_index := [];
  index_insert i v l := Ok (l ++ [(i, v)])%list;
  index_nearest _ k l := Ok (List.map fst (firstn (Z.to_nat k) l)) }.

(** The similarity of two texts is the product of their lengths. *)
Definition embed (text : string) : res (list float) := Ok [float_of_Z (py_len text)].

Definition start : Store (list float) (list (Z * list float)) :=
  {| semantic_memories := []; episodic_memories := []; procedural_memories := []; vec_memories := None |}.
Definition with_fact := fst (store_semantic embed (float_of_Z 1) "pytest has -q" None start).
Definition with_episode := fst (store_episode (float_of_Z 2) "run-1" "Fixed the test." "done" None with_fact).
Definition with_procedure := fst (store_procedure (float_of_Z 3) "debug" ["read_file"; "apply_patch"] true None with_episode).

Lemma procedure_built : built embed with_procedure.
Proof.
  assert (Hj : jsonable (PDict (default [] None))) by repeat constructor.
  unfold with_procedure, with_episode, with_fact, start.
  apply built_procedure; [apply built_episode; [apply built_semantic; [apply built_empty|]|]|]; exact Hj.
Qed.

Lemma recall_within_budget_witness :
  exists text, retrieve_for_context embed id (fun _ => fzero) true "fix it" 20 with_procedure = Ok text /\
    py_len text <= 4 * Z.max 1 20 + 4 /\ _approx_tokens text <= Z.max 1 20 + 1.
Proof.
  apply (recall_within_budget embed id (fun _ => fzero) true "fix it" [float_of_Z 6] 20 with_procedure procedure_built); [reflexivity| |].
  - intros index E. discriminate E.
  - intros _ row d [<-|[]] E. vm_compute in E. injection E as <-. reflexivity.
Defined.

(** An integer beyond the floats is the one success that is not scored: the error is not
    among those the score turns into 0.5. *)
Example success_overflows :
  (is_ok (_success_score [("success", PInt (10 ^ 308))]), _success_score [("success", PInt (10 ^ 309))],
   is_ok (_success_score [("success", PStr "no")])) = (true, Err (OverflowError "int too large to convert to float"), true).
Proof. vm_compute. reflexivity. Qed.

Definition recalled (query : string) (max_tokens : Z) : string :=
  match retrieve_for_context embed id (fun _ => fzero) false query max_tokens with_procedure with Ok t => t | Err _ => "" end.

Example all_tiers :
  recalled "fix it" 1000 =
    "[long_term:semantic]" ++ nl ++ "- pytest has -q" ++ nl ++ nl ++
    "[long_term:episodic]" ++ nl ++ "- [run-1] Fixed the test." ++ nl ++ "outcome: done" ++ nl ++ nl ++
    "[long_term:procedural]" ++ nl ++ "- task_type: debug" ++ nl ++ "steps: read_file, apply_patch".
Proof. by vm_compute. Qed.

(** The separators are not counted: one token more than the budget. *)
Example one_token_over : _approx_tokens (recalled "fix it" 24) = 25.
Proof. by vm_compute. Qed.
End Sample.
