(* ===== verification/ProcedureCache.v ===== *)
(** * The procedure cache: [procedure_cache.py]

    One SQLite table of verified procedures, keyed by a hash of the name and the request. *)
From Stdlib Require Import ZArith Lia String Ascii List Bool Sorted Permutation.
From stdpp Require Import base tactics list strings option.
From S2P Require Import Prelude PyStr StrFacts PyVal Sha256 Json JsonProps Sqlite.
Local Open Scope string_scope.
Local Open Scope Z_scope.

Record Procedure := {
  procedure_id : string; canonical_name : string; request_hash : string; task_class : string; steps_json : string;
  verification_json : string; use_count : Z; last_used_at : option string; created_at : string }.

Definition Cache : Type := list Procedure.

(** The request in lower case, its words separated by one blank. *)
Definition normalized (request : string) : string := join " " (split_ws (lower request)).

Definition _canonical_request_hash (request : string) : string := str_take 32 (sha256_hex (normalized request)).

Definition _procedure_id (canonical_name request_hash : string) : string := str_take 24 (sha256_hex (canonical_name ++ "|" ++ request_hash)).

Arguments _canonical_request_hash : simpl never.
Arguments _procedure_id : simpl never.

(** [ON CONFLICT(procedure_id) DO UPDATE]: the uses of the procedure are kept. *)
Definition updated (new old : Procedure) : Procedure :=
  {| procedure_id := procedure_id old; canonical_name := canonical_name old; request_hash := request_hash old;
     task_class := task_class new; steps_json := steps_json new; verification_json := verification_json new;
     use_count := use_count old; last_used_at := last_used_at old; created_at := created_at new |}.

Definition has_id (id : string) (p : Procedure) : bool := String.eqb (procedure_id p) id.

Definition upsert (new : Procedure) (cache : Cache) : Cache :=
  if existsb (has_id (procedure_id new)) cache
  then List.map (fun p => if has_id (procedure_id new) p then updated new p else p) cache
  else (cache ++ [new])%list.

Definition new_procedure (name request task : string) (steps verification : list pyval) (created : string) : Procedure :=
  let request_hash := _canonical_request_hash request in
  {| procedure_id := _procedure_id name request_hash; canonical_name := name; request_hash := request_hash; task_class := task;
     steps_json := json_dumps true (PList steps); verification_json := json_dumps true (PList verification);
     use_count := 0; last_used_at := None; created_at := created |}.

Definition store_procedure (name request task : string) (steps verification : list pyval) (created : string) (cache : Cache) : Cache * string :=
  let p := new_procedure name request task steps verification created in (upsert p cache, procedure_id p).

Definition text_or_none (t : option string) : pyval := match t with Some s => PStr s | None => PNone end.

(** The row as a dictionary; nothing when one of its texts is no JSON. *)
Definition entry (p : Procedure) : res (option dict) :=
  match (let! steps := json_loads (steps_json p) in let! verification := json_loads (verification_json p) in Ok (steps, verification)) with
  | Ok (steps, verification) =>
      Ok (Some [("procedure_id", PStr (procedure_id p)); ("canonical_name", PStr (canonical_name p)); ("task_class", PStr (task_class p));
                ("steps", steps); ("verification", verification); ("use_count", PInt (use_count p));
                ("last_used_at", text_or_none (last_used_at p)); ("created_at", PStr (created_at p))])
  | Err e => if is_json_error e then Ok None else Err e
  end.

(** [ORDER BY use_count DESC]; rows of one count in the order they were stored. *)
Definition more_used (a b : Procedure) : bool := use_count b <? use_count a.

Definition matching (hash name : string) (p : Procedure) : bool :=
  String.eqb (request_hash p) hash && (String.eqb name "" || String.eqb (canonical_name p) name).

Definition lookup_procedure (request name : string) (limit : Z) (cache : Cache) : res (list dict) :=
  let rows := limit_to limit (py_sorted more_used (List.filter (matching (_canonical_request_hash request) name) cache)) in
  let! entries := map_res entry rows in Ok (omap id entries).

Definition record_use (id used_at : string) (cache : Cache) : Cache :=
  List.map (fun p =>
    if has_id id p then
      {| procedure_id := procedure_id p; canonical_name := canonical_name p; request_hash := request_hash p; task_class := task_class p;
         steps_json := steps_json p; verification_json := verification_json p; use_count := use_count p + 1;
         last_used_at := Some used_at; created_at := created_at p |}
    else p) cache.

Definition summary (p : Procedure) : dict :=
  [("procedure_id", PStr (procedure_id p)); ("canonical_name", PStr (canonical_name p)); ("task_class", PStr (task_class p));
   ("use_count", PInt (use_count p)); ("last_used_at", text_or_none (last_used_at p)); ("created_at", PStr (created_at p))].

Definition list_procedures (limit : Z) (cache : Cache) : list dict := List.map summary (limit_to limit (py_sorted more_used cache)).

(** ** Histories of the cache *)

Inductive Call :=
| Store (name request task : string) (steps verification : list pyval) (created : string)
| Use (id used_at : string).

Definition call (cache : Cache) (c : Call) : Cache :=
  match c with
  | Store name request task steps verification created => fst (store_procedure name request task steps verification created cache)
  | Use id used_at => record_use id used_at cache
  end.

Definition after (calls : list Call) : Cache := fold_left call calls [].

Definition stores (id : string) (c : Call) : bool :=
  match c with Store name request _ _ _ _ => String.eqb (_procedure_id name (_canonical_request_hash request)) id | Use _ _ => false end.

Definition uses (id : string) (c : Call) : bool := match c with Use i _ => String.eqb i id | Store _ _ _ _ _ _ => false end.

(** The uses of a procedure since it was stored for the first time. *)
Fixpoint counted (id : string) (calls : list Call) : Z :=
  match calls with
  | [] => 0
  | c :: rest => if stores id c then Z.of_nat (length (List.filter (uses id) rest)) else counted id rest
  end.

(** The texts of the last store of a procedure. *)
Definition last_stored (id : string) (calls : list Call) : option Call := List.find (stores id) (rev calls).

(** The row is keyed by its own name and request. *)
Definition keyed (cache : Cache) : Prop :=
  List.NoDup (List.map procedure_id cache) /\
  List.Forall (fun p => procedure_id p = _procedure_id (canonical_name p) (request_hash p)) cache.

Lemma upsert_ids p cache :
  List.map procedure_id (upsert p cache) =
    if existsb (has_id (procedure_id p)) cache then List.map procedure_id cache else (List.map procedure_id cache ++ [procedure_id p])%list.
Proof.
  unfold upsert. destruct (existsb _ cache); [|by rewrite List.map_app]. rewrite List.map_map. apply List.map_ext.
  intros q. by destruct (has_id _ q).
Qed.

Lemma has_id_In id cache : existsb (has_id id) cache = false -> ~ In id (List.map procedure_id cache).
Proof.
  intros H Hin. apply in_map_iff in Hin as (p & E & Hp). apply not_true_iff_false in H. apply H. apply existsb_exists.
  exists p. split; [done|]. unfold has_id. by rewrite E, String.eqb_refl.
Qed.

Lemma call_keyed cache c : keyed cache -> keyed (call cache c).
Proof.
  intros [Hn Hf]. destruct c as [name request task steps verification created|id at_]; cbn [call store_procedure fst].
  - set (p := new_procedure name request task steps verification created). split.
    + rewrite upsert_ids. destruct (existsb _ cache) eqn:E; [done|]. apply List.NoDup_app; [done|repeat constructor; by intros []|].
      intros x Hx [<-|[]]. by apply (has_id_In _ _ E).
    + unfold upsert. destruct (existsb _ cache); [|by apply List.Forall_app; split; [|repeat constructor]].
      apply List.Forall_map. revert Hf. apply List.Forall_impl. intros q Hq. by destruct (has_id _ q).
  - unfold record_use. split.
    + rewrite List.map_map. erewrite List.map_ext; [exact Hn|]. intros q. by destruct (has_id id q).
    + apply List.Forall_map. revert Hf. apply List.Forall_impl. intros q Hq. by destruct (has_id id q).
Qed.

Lemma after_keyed calls : keyed (after calls).
Proof.
  unfold after. assert (H : keyed []) by (split; constructor). revert H. generalize (@nil Procedure).
  induction calls as [|c calls IH]; intros cache H; [done|]. cbn [fold_left]. by apply IH, call_keyed.
Qed.

(** ** The cache refines a map of counted procedures *)

Definition row_at (id : string) (cache : Cache) : option Procedure := List.find (has_id id) cache.

Lemma find_map_same {A} (f : A -> bool) (g : A -> A) l : (forall x, f (g x) = f x) -> List.find f (List.map g l) = option_map g (List.find f l).
Proof. intros H. induction l as [|x l IH]; [done|]. cbn. rewrite H. by destruct (f x). Qed.

Lemma row_upsert id p cache :
  row_at id (upsert p cache) =
    if has_id id p then Some (match row_at id cache with Some old => updated p old | None => p end) else row_at id cache.
Proof.
  unfold row_at, upsert. destruct (existsb (has_id (procedure_id p)) cache) eqn:E.
  - rewrite find_map_same by (intros q; by destruct (has_id (procedure_id p) q)). destruct (has_id id p) eqn:Ep.
    + apply String.eqb_eq in Ep. rewrite Ep in E. destruct (List.find (has_id id) cache) as [old|] eqn:Ef.
      * apply find_some in Ef as [_ Ho]. cbn. by rewrite Ep, Ho.
      * apply existsb_exists in E as (q & Hq & Eq). by rewrite (find_none _ _ Ef q Hq) in Eq.
    + destruct (List.find (has_id id) cache) as [old|] eqn:Ef; [|done]. apply find_some in Ef as [_ Ho]. cbn.
      destruct (has_id (procedure_id p) old) eqn:Eo; [|done]. apply String.eqb_eq in Ho, Eo. unfold has_id in Ep.
      rewrite <- Eo, Ho, String.eqb_refl in Ep. done.
  - rewrite find_snoc. destruct (List.find (has_id id) cache) as [old|] eqn:Ef; [|by destruct (has_id id p)].
    destruct (has_id id p) eqn:Ep; [|done]. apply String.eqb_eq in Ep. rewrite Ep in E. apply find_some in Ef as [Hin Ho].
    assert (existsb (has_id id) cache = true) by (apply existsb_exists; eauto). congruence.
Qed.

Lemma row_use id i at_ cache :
  option_map use_count (row_at id (record_use i at_ cache)) =
    option_map (fun p => use_count p + (if String.eqb i id then 1 else 0)) (row_at id cache).
Proof.
  unfold row_at, record_use. rewrite find_map_same by (intros q; by destruct (has_id i q)).
  destruct (List.find (has_id id) cache) as [p|] eqn:Ef; [|done]. apply find_some in Ef as [_ Ho%String.eqb_eq]. cbn. f_equal.
  unfold has_id. rewrite Ho, String.eqb_sym. destruct (String.eqb i id); cbn; lia.
Qed.

Lemma counted_snoc id calls c :
  counted id (calls ++ [c]) = counted id calls + (if existsb (stores id) calls && uses id c then 1 else 0).
Proof.
  induction calls as [|d calls IH]; cbn [app counted existsb].
  - by destruct (stores id c).
  - destruct (stores id d); cbn [orb andb]; [|exact IH]. rewrite List.filter_app, length_app. cbn [List.filter].
    destruct (uses id c); cbn [length]; lia.
Qed.

Lemma last_stored_snoc id calls c : last_stored id (calls ++ [c]) = if stores id c then Some c else last_stored id calls.
Proof. unfold last_stored. by rewrite rev_app_distr. Qed.

Lemma last_stored_None id calls : last_stored id calls = None <-> existsb (stores id) calls = false.
Proof.
  unfold last_stored. split; intros H.
  - apply not_true_iff_false. intros (c & Hc & E)%existsb_exists. by rewrite (find_none _ _ H c (proj1 (in_rev _ _) Hc)) in E.
  - destruct (List.find _ _) as [c|] eqn:E; [|done]. apply find_some in E as [Hc E]. apply in_rev in Hc.
    assert (existsb (stores id) calls = true) by (apply existsb_exists; eauto). congruence.
Qed.

(** The row has the texts of a store. *)
Definition holds (p : Procedure) (c : Call) : Prop :=
  match c with
  | Store _ _ task steps verification created =>
      task_class p = task /\ steps_json p = json_dumps true (PList steps) /\ verification_json p = json_dumps true (PList verification) /\
      created_at p = created
  | Use _ _ => False
  end.

(** Where a row comes from: a store of its name and request. *)
Definition stored_by (p : Procedure) (c : Call) : Prop :=
  match c with Store name request _ _ _ _ => canonical_name p = name /\ request_hash p = _canonical_request_hash request | Use _ _ => False end.

Lemma after_snoc calls c : after (calls ++ [c]) = call (after calls) c.
Proof. unfold after. by rewrite fold_left_app. Qed.

Lemma row_after id calls :
  match row_at id (after calls) with
  | Some p => use_count p = counted id calls /\ (exists c, last_stored id calls = Some c /\ holds p c) /\ exists c, In c calls /\ stored_by p c
  | None => last_stored id calls = None
  end.
Proof.
  induction calls as [|c calls IH] using rev_ind; [done|]. rewrite after_snoc, counted_snoc, last_stored_snoc.
  assert (Hs : is_Some (row_at id (after calls)) <-> existsb (stores id) calls = true).
  { destruct (row_at id (after calls)) as [p|].
    - destruct IH as (_ & (c' & E & _) & _). split; [|by eexists]. intros _. apply not_false_iff_true. intros H%last_stored_None. congruence.
    - split; [by intros []|]. intros H. apply last_stored_None in IH. congruence. }
  destruct c as [name request task steps verification created|i at_]; cbn [call store_procedure fst stores uses].
  - rewrite row_upsert, andb_false_r, Z.add_0_r.
    set (p := new_procedure name request task steps verification created).
    change (has_id id p) with (String.eqb (_procedure_id name (_canonical_request_hash request)) id).
    destruct (String.eqb_spec (_procedure_id name (_canonical_request_hash request)) id) as [Ei|Ei].
    + destruct (row_at id (after calls)) as [old|].
      * destruct IH as (Hu & _ & (c & Hc & Hb)). split; [exact Hu|]. split; [by eexists|]. exists c. split; [apply in_app_iff; by left|].
        by destruct c.
      * apply last_stored_None in IH. split; [|split; [by eexists|eexists; split; [apply in_app_iff; right; by left|done]]].
        clear -IH. induction calls as [|d calls H]; [done|]. cbn in *. apply orb_false_iff in IH as [-> IH]. by apply H.
    + destruct (row_at id (after calls)) as [old|]; [|done]. destruct IH as (Hu & Hl & (c & Hc & Hb)).
      split; [exact Hu|]. split; [exact Hl|]. exists c. split; [apply in_app_iff; by left|done].
  - unfold row_at, record_use in *. rewrite find_map_same by (intros q; by destruct (has_id i q)).
    destruct (List.find (has_id id) (after calls)) as [p|] eqn:Ef; [|done]. cbn [option_map].
    destruct IH as (Hu & (c & Hl & Hh) & (c' & Hc & Hb)). rewrite (proj1 Hs (ex_intro _ p eq_refl)). apply find_some in Ef as [_ Ho%String.eqb_eq].
    assert (Ei : has_id i p = String.eqb i id) by (unfold has_id; rewrite Ho; apply String.eqb_sym). rewrite Ei.
    destruct (String.eqb i id); cbn; (split; [cbn; lia|]); (split; [exists c; split; [done|by destruct c]|]); exists c'; (split; [apply in_app_iff; by left|by destruct c']).
Qed.

Lemma filter_key {A} (f : A -> string) k (l : list A) : List.NoDup (List.map f l) ->
  List.filter (fun x => String.eqb (f x) k) l = option_list (List.find (fun x => String.eqb (f x) k) l).
Proof.
  induction l as [|x l IH]; [done|]. cbn. intros Hn. inversion Hn as [|? ? Hx Hl]; subst.
  destruct (String.eqb_spec (f x) k) as [Ek|]; [|by apply IH]. rewrite Ek in Hx. cbn. f_equal.
  assert (E : forall m, ~ In k (List.map f m) -> List.filter (fun x => String.eqb (f x) k) m = []); [|by apply E].
  induction m as [|y m IHm]; [done|]. cbn. intros H. destruct (String.eqb_spec (f y) k); [by destruct H; left|]. apply IHm. tauto.
Qed.

Lemma find_key {A} (f : A -> string) (l : list A) x : List.NoDup (List.map f l) -> In x l -> List.find (fun y => String.eqb (f y) (f x)) l = Some x.
Proof.
  induction l as [|y l IH]; [done|]. cbn. intros Hn. inversion Hn as [|? ? Hy Hl]; subst. intros [->|Hin]; [by rewrite String.eqb_refl|].
  destruct (String.eqb_spec (f y) (f x)) as [E|]; [|by apply IH]. exfalso. apply Hy. rewrite E. by apply in_map.
Qed.

(** No other name and request of the history has the id of this one. *)
Definition no_collision (name request : string) (calls : list Call) : Prop :=
  let id := _procedure_id name (_canonical_request_hash request) in
  forall c, In c calls -> stores id c = true ->
    match c with Store name' request' _ _ _ _ => name' = name /\ _canonical_request_hash request' = _canonical_request_hash request | Use _ _ => True end.

Definition texts_jsonable (c : Call) : Prop :=
  match c with Store _ _ _ steps verification _ => jsonable (PList steps) /\ jsonable (PList verification) | Use _ _ => True end.

(** The entry shows the store and the number of uses. *)
Definition shows_store (e : dict) (c : Call) (count : Z) : Prop :=
  match c with
  | Store name request task steps verification created =>
      dlookup "canonical_name" e = Some (PStr name) /\ dlookup "task_class" e = Some (PStr task) /\
      dlookup "steps" e = Some (json_norm true (PList steps)) /\ dlookup "verification" e = Some (json_norm true (PList verification)) /\
      dlookup "use_count" e = Some (PInt count) /\ dlookup "created_at" e = Some (PStr created)
  | Use _ _ => False
  end.

(** C25: The procedure cache answers with what was stored last.  After any history of stores and
    uses, whose steps and verifications can be read back from JSON, a look-up by a name and a
    request (up to case and blanks; no other stored name and request has its hash) finds
    nothing when nothing was stored under them, and otherwise one entry: the class, steps,
    verification and date of the last store, and the number of uses recorded since the first
    one. *)
Theorem cache_answers_last_store calls name request limit :
  name <> "" -> 1 <= limit -> List.Forall texts_jsonable calls -> no_collision name request calls ->
  let id := _procedure_id name (_canonical_request_hash request) in
  match last_stored id calls with
  | Some c => exists e, lookup_procedure request name limit (after calls) = Ok [e] /\ shows_store e c (counted id calls)
  | None => lookup_procedure request name limit (after calls) = Ok []
  end.
Proof.
  intros Hname Hlimit Hj Hc id. pose proof (after_keyed calls) as [Hn Hk]. pose proof (row_after id calls) as Hr.
  assert (Hp : forall p, In p (after calls) -> matching (_canonical_request_hash request) name p = String.eqb (procedure_id p) id).
  { intros p Hin. unfold matching. destruct (String.eqb_spec name "") as [|_]; [done|]. cbn [orb].
    pose proof (proj1 (List.Forall_forall _ _) Hk p Hin) as Ep. cbn in Ep. destruct (String.eqb_spec (procedure_id p) id) as [Ei|Ei].
    - pose proof (row_after (procedure_id p) calls) as H. unfold row_at, has_id in H. rewrite (find_key procedure_id _ _ Hn Hin) in H.
      destruct H as (_ & _ & (c & Hin' & Hb)). destruct c as [n' r' ? ? ? ?|]; [|done]. destruct Hb as [<- Hh].
      rewrite Hh in Ep. destruct (Hc _ Hin') as [-> Hh']; [by cbn; rewrite <- Ep, Ei, String.eqb_refl|]. by rewrite Hh, Hh', !String.eqb_refl.
    - apply andb_false_iff. destruct (String.eqb_spec (request_hash p) (_canonical_request_hash request)) as [Eh|]; [|by left]. right.
      apply String.eqb_neq. intros En. apply Ei. by rewrite Ep, Eh, En. }
  unfold lookup_procedure. rewrite (filter_ext_in _ _ _ Hp), (filter_key procedure_id id _ Hn).
  change (List.find _ (after calls)) with (row_at id (after calls)).
  destruct (row_at id (after calls)) as [p|] eqn:E.
  - destruct Hr as (Hu & (c & Hlast & Hh) & _). rewrite Hlast. destruct c as [n r task steps verification created|]; [|done].
    apply find_some in E as [Hin Ei%String.eqb_eq].
    change (py_sorted more_used (option_list (Some p))) with [p]. unfold limit_to. destruct (Z.ltb_spec limit 0); [lia|].
    replace (firstn (Z.to_nat limit) [p]) with [p] by (destruct (Z.to_nat limit) eqn:?; [lia|cbn [firstn]; by rewrite firstn_nil]).
    cbn [map_res bind_res]. unfold entry. destruct Hh as (Ht & Hs & Hv & Hcr). rewrite Hs, Hv.
    assert (Hl : In (Store n r task steps verification created) calls /\ stores id (Store n r task steps verification created) = true).
    { apply find_some in Hlast as [Hl1 Hl2]. by apply in_rev in Hl1. }
    destruct (proj1 (List.Forall_forall _ _) Hj _ (proj1 Hl)) as [Hj1 Hj2]. destruct (Hc _ (proj1 Hl) (proj2 Hl)) as [-> _].
    rewrite !dumps_loads by done. cbn [bind_res omap list_omap id]. eexists. split; [reflexivity|].
    specialize (Hp p Hin). rewrite Ei, String.eqb_refl in Hp. apply andb_prop in Hp as [_ Hp].
    destruct (String.eqb_spec name "") as [|_]; [done|]. apply String.eqb_eq in Hp.
    repeat split; cbn; congruence.
  - rewrite Hr. change (py_sorted more_used (option_list None)) with (@nil Procedure). unfold limit_to.
    destruct (limit <? 0); [done|]. by rewrite firstn_nil.
Qed.

(** ** A history *)

Definition sample_steps : list pyval := [PDict [("id", PStr "s1"); ("tools", PList [PDict [("tool", PStr "read_file")]])]].
Definition sample_calls : list Call :=
  [Store "read_file" "Fix  the Parser" "debug" [] [] "2026-01-01"; Use (_procedure_id "read_file" (_canonical_request_hash "fix the parser")) "2026-01-02";
   Store "read_file" "fix the parser" "analysis" sample_steps [] "2026-01-03"].

Lemma sample_last :
  last_stored (_procedure_id "read_file" (_canonical_request_hash "FIX the parser ")) sample_calls =
    Some (Store "read_file" "fix the parser" "analysis" sample_steps [] "2026-01-03").
Proof. by vm_compute. Qed.

Lemma sample_counted : counted (_procedure_id "read_file" (_canonical_request_hash "FIX the parser ")) sample_calls = 1.
Proof. by vm_compute. Qed.

Lemma sample_no_collision : no_collision "read_file" "FIX the parser " sample_calls.
Proof. intros c [<-|[<-|[<-|[]]]] _; [|done|]; by vm_compute. Qed.

Lemma cache_answers_last_store_witness :
  exists e, lookup_procedure "FIX the parser " "read_file" 3 (after sample_calls) = Ok [e] /\
    shows_store e (Store "read_file" "fix the parser" "analysis" sample_steps [] "2026-01-03") 1.
Proof.
  pose proof (cache_answers_last_store sample_calls "read_file" "FIX the parser " 3) as H. cbv zeta in H.
  rewrite sample_last, sample_counted in H. apply H; [done|lia| |exact sample_no_collision].
  repeat constructor; try (by intros []). all: intros [E|[]]; discriminate E.
Defined.
