(* ===== verification/Vericoding.v ===== *)
(** * The runner's invariants, checked in Python: [vericoding.py]

    Paths are POSIX: an anchor and the components [pathlib] keeps.  Whether a path exists and
    what [os.path.realpath] finds is the file system's. *)
From Stdlib Require Import ZArith Lia String Ascii List Bool.
From stdpp Require Import base tactics list strings option.
From S2P Require Import Prelude PyStr StrFacts.
Local Open Scope string_scope.
Local Open Scope Z_scope.

Record InvariantViolation := { invariant : string; message : string }.

Definition violation_text (v : InvariantViolation) : string := "invariant_violation[" ++ invariant v ++ "]: " ++ message v.

Definition _KNOWN_TOOLS : list string :=
  ["health"; "read_file"; "search_files"; "search_codebase"; "ast_index_summary"; "list_files"; "apply_patch"; "exec"; "undo";
   "mcp_discover"; "mcp_execute"; "mcp_resources_list"; "mcp_resource_read"; "mcp_prompts_list"; "mcp_prompt_get"].

Definition _SHELL_METACHARS : list string := ["`"; "$"; "("; ")"; "|"; ";"; "&"; ">"; "<"; nl].

(** ** Paths *)

Record Path := { anchor : string; parts : list string }.

Definition to_path (s : string) : Path :=
  {| anchor := if startswith s "//" && negb (startswith s "///") then "//" else if startswith s "/" then "/" else "";
     parts := List.filter (fun c => negb (String.eqb c "") && negb (String.eqb c ".")) (split_char "/" s) |}.

Definition path_text (p : Path) : string :=
  match anchor p, parts p with "", [] => "." | a, l => a ++ join "/" l end.

Definition is_absolute (p : Path) : bool := negb (String.eqb (anchor p) "").

(** [base / p]. *)
Definition under (base p : Path) : Path := if is_absolute p then p else {| anchor := anchor base; parts := (parts base ++ parts p)%list |}.

(** One component of [os.path.normpath]; the new components are kept in reverse. *)
Definition norm_step (absolute : bool) (rev_comps : list string) (comp : string) : list string :=
  if negb (String.eqb comp "..") then comp :: rev_comps
  else match rev_comps with
       | [] => if absolute then [] else [comp]
       | last :: rest => if String.eqb last ".." then comp :: rev_comps else rest
       end.

Definition normpath (p : Path) : Path :=
  {| anchor := anchor p; parts := rev (fold_left (norm_step (is_absolute p)) (parts p) []) |}.

Example normalized : path_text (normpath (to_path "/repo/./a//../../etc/passwd")) = "/etc/passwd".
Proof. by vm_compute. Qed.

Fixpoint starts_with_parts (l prefix : list string) {struct prefix} : bool :=
  match prefix, l with
  | [], _ => true
  | p :: prefix, x :: l => String.eqb x p && starts_with_parts l prefix
  | _, [] => false
  end.

(** [p.relative_to(base)] does not raise. *)
Definition is_relative_to (p base : Path) : bool := String.eqb (anchor p) (anchor base) && starts_with_parts (parts p) (parts base).

(** ** The checker *)

Section Checker.
(** [candidate.exists()] and [os.path.realpath]; [None] is an [OSError]. *)
Context (exists_path : Path -> option bool) (realpath : Path -> option Path).
(** The resolved root, and the allowed commands. *)
Context (_allowed_root : Path) (_allowed_commands : list string).

Definition candidate_of (path : string) : Path := under _allowed_root (to_path path).

Definition resolved_of (candidate : Path) : Path :=
  match exists_path candidate with
  | Some true => match realpath candidate with Some r => r | None => normpath candidate end
  | _ => normpath candidate
  end.

Definition check_path_confinement (path : string) : option InvariantViolation :=
  if is_relative_to (resolved_of (candidate_of path)) _allowed_root then None
  else Some {| invariant := "PathConfinementInvariant"; message := "path '" ++ path ++ "' escapes allowed root '" ++ path_text _allowed_root ++ "'" |}.

Definition check_command_allowlist (command : string) : option InvariantViolation :=
  let cmd := match split_ws command with t :: _ => strip t | [] => "" end in
  if String.eqb cmd "" then Some {| invariant := "CommandAllowlistInvariant"; message := "empty command string" |}
  else if str_in cmd _allowed_commands then None
  else Some {| invariant := "CommandAllowlistInvariant"; message := "command '" ++ cmd ++ "' is not in the allowlist" |}.

Fixpoint check_no_shell_metachars (args : list string) : option InvariantViolation :=
  match args with
  | [] => None
  | arg :: rest =>
      match List.find (fun ch => contains ch arg) _SHELL_METACHARS with
      | Some ch => Some {| invariant := "NoShellMetacharInvariant"; message := "argument contains shell metacharacter " ++ repr_str ch |}
      | None => check_no_shell_metachars rest
      end
  end.

Definition check_tool_name_known (tool_name : string) : option InvariantViolation :=
  if str_in tool_name _KNOWN_TOOLS then None
  else Some {| invariant := "ToolNameKnownInvariant"; message := "unknown tool '" ++ tool_name ++ "'" |}.

(** The first violation, when there is one. *)
Definition check_all (tool_name : string) (path command : option string) (args : list string) : option InvariantViolation :=
  match check_tool_name_known tool_name with
  | Some v => Some v
  | None =>
      match match path with Some p => check_path_confinement p | None => None end with
      | Some v => Some v
      | None =>
          match match command with Some c => check_command_allowlist c | None => None end with
          | Some v => Some v
          | None => check_no_shell_metachars args
          end
      end
  end.

(** ** What is accepted *)

Definition no_dotdot (l : list string) : Prop := ~ In ".." l.

Lemma norm_no_dotdot l acc : no_dotdot acc -> no_dotdot (fold_left (norm_step true) l acc).
Proof.
  revert acc. induction l as [|c l IH]; intros acc Ha; [done|]. cbn [fold_left]. apply IH. unfold norm_step.
  destruct (String.eqb_spec c "..") as [->|Hc]; cbn [negb].
  - destruct acc as [|x acc]; [done|]. destruct (String.eqb_spec x "..") as [->|]; [by destruct Ha; left|]. intros Hin. apply Ha. by right.
  - intros [->|Hin]; [done|by apply Ha].
Qed.

Lemma starts_with_spec l prefix : starts_with_parts l prefix = true -> exists rest, l = (prefix ++ rest)%list.
Proof.
  revert l. induction prefix as [|p prefix IH]; intros l; [by exists l|]. destruct l as [|x l]; [done|]. cbn.
  intros [->%String.eqb_eq H]%andb_prop. apply IH in H as [rest ->]. by exists rest.
Qed.

Lemma metachars_absent args : check_no_shell_metachars args = None <-> forall arg ch, In arg args -> In ch _SHELL_METACHARS -> contains ch arg = false.
Proof.
  induction args as [|a args IH]; cbn [check_no_shell_metachars]; [by split|].
  destruct (List.find _ _) as [ch|] eqn:E.
  - apply find_some in E as [Hin Hc]. split; [done|]. intros H. rewrite (H a ch (or_introl eq_refl) Hin) in Hc. done.
  - rewrite IH. split.
    + intros H arg ch [<-|Hin] Hch; [exact (find_none _ _ E ch Hch)|by apply H].
    + intros H arg ch Hin. apply H. by right.
Qed.

Lemma tool_accepted tool_name : check_tool_name_known tool_name = None <-> In tool_name _KNOWN_TOOLS.
Proof. unfold check_tool_name_known. rewrite <- str_in_In. by destruct (str_in tool_name _KNOWN_TOOLS). Qed.

Definition path_confined (p : string) : Prop :=
  exists rest, resolved_of (candidate_of p) = {| anchor := anchor _allowed_root; parts := (parts _allowed_root ++ rest)%list |} /\
    (resolved_of (candidate_of p) = normpath (candidate_of p) -> no_dotdot rest).

Definition command_allowed (c : string) : Prop :=
  exists cmd words, split_ws c = cmd :: words /\ strip cmd <> "" /\ In (strip cmd) _allowed_commands.

Lemma starts_with_app p r : starts_with_parts (p ++ r) p = true.
Proof. induction p as [|x p IH]; [done|]. cbn. by rewrite String.eqb_refl. Qed.

Lemma candidate_absolute p : is_absolute _allowed_root = true -> is_absolute (candidate_of p) = true.
Proof. intros H. unfold candidate_of, under. destruct (is_absolute (to_path p)) eqn:E; [exact E|exact H]. Qed.

Lemma confinement_accepted p :
  is_absolute _allowed_root = true -> no_dotdot (parts _allowed_root) -> check_path_confinement p = None <-> path_confined p.
Proof.
  intros Habs Hroot. unfold check_path_confinement, path_confined. set (r := resolved_of (candidate_of p)). split.
  - destruct (is_relative_to r _allowed_root) eqn:E; [|done]. intros _. unfold is_relative_to in E.
    apply andb_prop in E as [Ea%String.eqb_eq [rest Er]%starts_with_spec]. exists rest. split; [by destruct r; cbn in *; subst|].
    intros En Hin. assert (Hd : no_dotdot (parts r)).
    { rewrite En. unfold normpath. cbn [parts]. intros Hi%in_rev. revert Hi. rewrite (candidate_absolute p Habs).
      apply norm_no_dotdot. by intros []. }
    apply Hd. rewrite Er. apply in_app_iff. by right.
  - intros (rest & -> & _). unfold is_relative_to. cbn [anchor parts]. by rewrite String.eqb_refl, starts_with_app.
Qed.

Lemma command_accepted c : check_command_allowlist c = None <-> command_allowed c.
Proof.
  unfold check_command_allowlist, command_allowed. destruct (split_ws c) as [|w ws]; [split; [done|by intros (? & ? & ? & _)]|].
  destruct (String.eqb_spec (strip w) "") as [E|E]; [split; [done|by intros (? & ? & [= <- <-] & ? & _)]|].
  destruct (str_in (strip w) _allowed_commands) eqn:Ei; (split; [intros H|intros (? & ? & [= <- <-] & _ & Hi)]); try done.
  - exists w, ws. by apply str_in_In in Ei.
  - apply str_in_In in Hi. congruence.
Qed.

(** A check of what may not be given. *)
Lemma given_accepted {A V : Type} (o : option A) (f : A -> option V) :
  match o with Some a => f a | None => None end = None <-> forall a, o = Some a -> f a = None.
Proof. destruct o as [a|]; split; try done; [by intros H ? [= <-]|by intros H; apply H]. Qed.

(** A tool call that passes the four invariants is known, confined, allowed and free of
    shell characters, and only such a call passes.  With an absolute root without [..],
    [check_all] accepts exactly when the tool is in the list; the path, when given, resolves
    to the root followed by some components, among which there is no [..] when the path was
    normalised lexically; the first word of the command, when given, is an allowed command;
    and no argument has a shell metacharacter. *)
Theorem check_all_accepts tool_name path command args :
  is_absolute _allowed_root = true -> no_dotdot (parts _allowed_root) ->
  (check_all tool_name path command args = None <->
   In tool_name _KNOWN_TOOLS /\
   (forall p, path = Some p -> exists rest, resolved_of (candidate_of p) = {| anchor := anchor _allowed_root; parts := (parts _allowed_root ++ rest)%list |} /\
      (resolved_of (candidate_of p) = normpath (candidate_of p) -> no_dotdot rest)) /\
   (forall c, command = Some c -> exists cmd words, split_ws c = cmd :: words /\ strip cmd <> "" /\ In (strip cmd) _allowed_commands) /\
   (forall arg ch, In arg args -> In ch _SHELL_METACHARS -> contains ch arg = false)).
Proof.
  intros Habs Hroot. rewrite <- metachars_absent, <- tool_accepted. unfold check_all.
  assert (Hp : match path with Some p => check_path_confinement p | None => None end = None <->
    forall p, path = Some p -> path_confined p)
    by (rewrite given_accepted; split; intros H p E; apply (confinement_accepted p Habs Hroot), H, E).
  assert (Hc : match command with Some c => check_command_allowlist c | None => None end = None <->
    forall c, command = Some c -> command_allowed c)
    by (rewrite given_accepted; split; intros H c E; apply command_accepted, H, E).
  unfold path_confined, command_allowed in *. rewrite <- Hp, <- Hc.
  destruct (check_tool_name_known tool_name); [split; [done|by intros [? _]]|].
  destruct (match path with Some _ => _ | None => _ end); [split; [done|by intros (_ & ? & _)]|].
  destruct (match command with Some _ => _ | None => _ end); [split; [done|by intros (_ & _ & ? & _)]|]. tauto.
Qed.
End Checker.

(** ** A root with a link out of it *)

Module Sample.
Definition root : Path := to_path "/repo".
(** [/repo/link] is a link to [/etc]. *)
Definition exists_path (p : Path) : option bool := Some (str_in (path_text p) ["/repo"; "/repo/link"; "/repo/link/passwd"; "/repo/a.py"]).
Definition realpath (p : Path) : option Path :=
  Some (match parts p with "repo" :: "link" :: rest => {| anchor := "/"; parts := "etc" :: rest |} | _ => p end).

Abbreviation check := (check_path_confinement exists_path realpath root).

Lemma check_all_accepts_witness :
  In "read_file" _KNOWN_TOOLS /\
  (forall p, Some "src/../a.py" = Some p -> exists rest, resolved_of exists_path realpath (candidate_of root p) = {| anchor := anchor root; parts := (parts root ++ rest)%list |} /\
      (resolved_of exists_path realpath (candidate_of root p) = normpath (candidate_of root p) -> no_dotdot rest)) /\
  (forall c, Some "python -m pytest" = Some c -> exists cmd words, split_ws c = cmd :: words /\ strip cmd <> "" /\ In (strip cmd) ["python"]) /\
  (forall arg ch, In arg ["-q"] -> In ch _SHELL_METACHARS -> contains ch arg = false).
Proof.
  apply (check_all_accepts exists_path realpath root ["python"] "read_file" (Some "src/../a.py") (Some "python -m pytest") ["-q"]);
    [reflexivity| |vm_compute; reflexivity]. intros [E|[]]. discriminate E.
Defined.

(** A file behind the link is refused when it exists, and accepted when it does not: a new
    file may be written outside of the root. *)
Example new_file_escapes : check "link/passwd" <> None /\ check "link/new" = None /\ check "../etc/passwd" <> None.
Proof. by vm_compute. Qed.
End Sample.
