(* ===== verification/Visualize.v ===== *)
(** * The pages of a trace: [visualize.py]

    The HTML of the dashboard and of the index of a trace site, as the strings the code
    concatenates, and the console views, as what they hand to rich: texts, without their
    styles and widths.  The em dash and the full block, which are not in the universe of
    characters, are parameters. *)
From Stdlib Require Import ZArith Lia String Ascii List Bool.
From stdpp Require Import base tactics list strings option.
From S2P Require Import Prelude PyStr StrFacts PyFloat PyVal.
Local Open Scope string_scope.
Local Open Scope Z_scope.

(** ** The graph *)

Record GraphEdge := { src : string; dst : string }.

Definition without_quotes (s : string) : string := concat_map_str (fun c => if Ascii.eqb c (chr 34) then "" else String c "") s.

Definition graph_mermaid (nodes : list string) (edges : list GraphEdge) (direction : string) : string :=
  join nl ((("flowchart " ++ direction)%string
            :: List.map (fun n => let safe := without_quotes n in "  " ++ safe ++ "[" ++ dq ++ safe ++ dq ++ "]") nodes)
           ++ List.map (fun e => "  " ++ src e ++ " --> " ++ dst e) edges) ++ nl.

(** ** Texts *)

(** [html.escape]. *)
Definition escape_char (c : ascii) : string :=
  if Ascii.eqb c "&" then "&amp;"
  else if Ascii.eqb c "<" then "&lt;"
  else if Ascii.eqb c ">" then "&gt;"
  else if Ascii.eqb c (chr 34) then "&quot;"
  else if Ascii.eqb c "'" then "&#x27;"
  else String c "".
Definition escape (s : string) : string := concat_map_str escape_char s.

Definition middle_dot : string := String (chr 183) "".

(** [(ts_ms - start_ms) / 1000.0] *)
Definition _duration_s (ts_ms start_ms : Z) : res float :=
  match float_of_int (ts_ms - start_ms) with
  | Some d => Ok (fmax fzero (fdiv d (float_of_Z 1000)))
  | None => Err (OverflowError "int too large to convert to float")
  end.

Definition nonempty (l : list string) : list string := List.filter (fun s => negb (String.eqb s "")) l.
Definition or_text (s dflt : string) : string := if String.eqb s "" then dflt else s.

Definition _event_label (event : dict) : string :=
  let kind := py_str (dget event "kind" (PStr "event")) in
  let data := dict_or_empty (dget event "data" (PDict [])) in
  let label := join " / " (nonempty [str_strip (dget data "name" (PStr "")); str_strip (dget data "phase" (PStr ""))]) in
  if negb (String.eqb label "") then kind ++ ": " ++ label
  else match data with [] => kind | _ => kind ++ ": " ++ str_prefix (json_dumps true (PDict data)) 120 end.

Definition _tool_label (result : dict) : string :=
  let tool := py_str (dget result "tool" (PStr "unknown")) in
  match dget result "exit_code" PNone with
  | PInt z => tool ++ " (exit=" ++ str_of_Z z ++ ")"
  | PBool b => tool ++ " (exit=" ++ py_str (PBool b) ++ ")"
  | _ => tool
  end.

(** ** Markup *)

(** A tag with the attribute [k="v"]. *)
Definition tag_with (name k v : string) : string := "<" ++ (name ++ " " ++ k ++ "=" ++ dq ++ v ++ dq) ++ ">".
Definition classed (name v : string) : string := tag_with name "class" v.

Definition _html_card (title body : string) : string :=
  classed "section" "card" ++ nl ++ "  <h2>" ++ escape title ++ "</h2>" ++ nl ++ body ++ nl ++ "</section>".

Definition style_lines : list string :=
  ["    :root { color-scheme: dark; }";
   "    body { margin: 0; background: #0f172a; color: #e2e8f0; font-family: Segoe UI, Arial, sans-serif; }";
   "    main { max-width: 1120px; margin: 0 auto; padding: 24px; display: grid; gap: 16px; }";
   "    .card { background: #111827; border: 1px solid #334155; border-radius: 12px; padding: 16px 18px; }";
   "    h1, h2 { margin: 0 0 12px; }";
   "    h1 { font-size: 1.35rem; }";
   "    h2 { font-size: 1.05rem; }";
   "    .summary, .items { list-style: none; padding: 0; margin: 0; display: grid; gap: 10px; }";
   "    .summary li { display: grid; gap: 4px; }";
   "    .items li { display: flex; gap: 12px; align-items: flex-start; padding-top: 8px; border-top: 1px solid #1f2937; }";
   "    .items li:first-child { border-top: 0; padding-top: 0; }";
   "    .stack { display: grid; gap: 4px; }";
   "    .muted { color: #94a3b8; }";
   "    .links { margin-left: auto; white-space: nowrap; }";
   "    .mono, pre { font-family: ui-monospace, SFMono-Regular, Consolas, monospace; }";
   "    .mono { min-width: 84px; color: #93c5fd; }";
   "    .badge { min-width: 44px; padding: 2px 8px; border-radius: 999px; font-size: 0.75rem; text-align: center; }";
   "    .badge.ok { background: #14532d; color: #bbf7d0; }";
   "    .badge.err { background: #7f1d1d; color: #fecaca; }";
   "    a { color: #93c5fd; text-decoration: none; }";
   "    a:hover { text-decoration: underline; }";
   "    pre { margin: 0; white-space: pre-wrap; overflow-x: auto; }"].

Definition mermaid_script : string :=
  tag_with "script" "type" "module" ++ nl ++
  "import mermaid from " ++ dq ++ "https://cdn.jsdelivr.net/npm/mermaid@11/dist/mermaid.esm.min.mjs" ++ dq ++ ";" ++ nl ++
  "mermaid.initialize({ startOnLoad: true, theme: " ++ dq ++ "neutral" ++ dq ++ " });" ++ nl ++ "</script>".

(** What comes before and after the body. *)
Definition document_head (title : string) : string :=
  "<!DOCTYPE html>" ++ nl ++ tag_with "html" "lang" "en" ++ nl ++ "<head>" ++ nl ++
  "  " ++ tag_with "meta" "charset" "utf-8" ++ nl ++
  "  " ++ tag_with "meta" "name" ("viewport" ++ dq ++ " content=" ++ dq ++ "width=device-width, initial-scale=1") ++ nl ++
  "  <title>" ++ escape title ++ "</title>" ++ nl ++
  "  <style>" ++ nl ++ join nl style_lines ++ nl ++ "  </style>" ++ nl ++
  "</head>" ++ nl ++ "<body>" ++ nl ++ "<main>" ++ nl.
Definition document_foot (include_mermaid : bool) : string :=
  nl ++ "</main>" ++ nl ++ (if include_mermaid then mermaid_script else "") ++ nl ++ "</body>" ++ nl ++ "</html>" ++ nl.

Definition _html_document (title body : string) (include_mermaid : bool) : string :=
  document_head title ++ body ++ document_foot include_mermaid.

Definition items (body : string) : string := classed "ul" "items" ++ nl ++ body ++ nl ++ "</ul>".
Definition summary_line (name value : string) : string := "  <li><strong>" ++ name ++ "</strong><span>" ++ value ++ "</span></li>".
Definition link (href text : string) : string := tag_with "a" "href" (escape href) ++ text ++ "</a>".

(** ** The dashboard *)

Definition section (d : dict) (k : string) : dict := dict_or_empty (dget d k (PDict [])).
(** [[e for e in d.get(k, []) if isinstance(e, dict)]]. *)
Definition dict_items (d : dict) (k : string) : res (list dict) := let! l := py_iter (dget d k (PList [])) in Ok (dicts_of l).

Definition timeline_item (start_ms : Z) (event : dict) : res string :=
  let! ts := py_int (dget event "ts_ms" (PInt start_ms)) in
  let! offset := _duration_s ts start_ms in
  Ok ("<li>" ++ classed "span" "mono" ++ "+" ++ format_fixed 2 offset ++ "s</span><span>" ++ escape (_event_label event) ++ "</span></li>").

Definition timeline_items (events : list dict) : res string :=
  match events with
  | [] => Ok "<li><span>No events captured.</span></li>"
  | first :: _ =>
      let! start_ms := py_int (dget first "ts_ms" (PInt 0)) in
      let! l := map_res (timeline_item start_ms) (last_n 24 events) in
      Ok (join nl l)
  end.

Definition tool_item (result : dict) : string :=
  let ok := truthy (dget result "ok" (PBool false)) in
  "<li>" ++ classed "span" ("badge " ++ (if ok then "ok" else "err")) ++ (if ok then "OK" else "ERR") ++ "</span><span>" ++
  escape (_tool_label result) ++ "</span></li>".

Definition tool_items (tool_results : list dict) : string :=
  match tool_results with
  | [] => "<li><span>No tool invocations captured.</span></li>"
  | _ => join nl (List.map tool_item (last_n 24 tool_results))
  end.

(** [mermaid_graph and mermaid_graph.strip()]. *)
Definition drawn (mermaid_graph : option string) : option string :=
  match mermaid_graph with Some g => if String.eqb (strip g) "" then None else Some (strip g) | None => None end.

Definition graph_body (mermaid_graph : option string) : string :=
  match drawn mermaid_graph with
  | Some g => classed "pre" "mermaid" ++ escape g ++ "</pre>"
  | None => "<p>No graph available.</p>"
  end.

Definition verdict (verification : dict) (k name : string) : list string :=
  if dhas k verification then [summary_line name (escape (if truthy (dget verification k (PBool false)) then "passed" else "failed"))] else [].

(** [isinstance(v, int) and v > 0]; a [bool] is an [int]. *)
Definition positive_text (v : pyval) : option string :=
  match v with PInt z => if 0 <? z then Some (str_of_Z z) else None | PBool true => Some "True" | _ => None end.

Definition checkpoint_parts (checkpoint : dict) : list string :=
  let thread := str_strip (dget checkpoint "thread_id" (PStr "")) in
  let latest := dget checkpoint "latest_checkpoint_id" PNone in
  let resume := dget checkpoint "resume_checkpoint_id" PNone in
  let id := str_strip (if truthy latest then latest else if truthy resume then resume else PStr "") in
  ((if String.eqb thread "" then [] else ["thread=" ++ thread]%string) ++ (if String.eqb id "" then [] else ["checkpoint=" ++ id]%string))%list.

Definition intent_of (payload : dict) : string :=
  match dget payload "intent" PNone with PStr s => if String.eqb (strip s) "" then "(pending)" else s | _ => "(pending)" end.
Definition run_id_of (payload : dict) : string :=
  match dget payload "run_id" PNone with PStr s => strip s | _ => "(not captured)" end.

Definition approval_history_of (approval : dict) : list dict :=
  match dget approval "history" (PList []) with PList l => dicts_of l | _ => [] end.

Definition option_lines {A : Type} (o : option A) (f : A -> string) : list string := match o with Some a => [f a] | None => [] end.
(** A text that is present and not empty. *)
Definition given (o : option string) : option string := match o with Some s => if String.eqb s "" then None else Some s | None => None end.

Definition summary_lines (payload : dict) (diagnostics : list dict) (index_href trace_json_href : option string) : list string :=
  let verification := section payload "verification" in
  let approval := section payload "approval" in
  let checkpoint := section payload "checkpoint" in
  let working_set := section (section (section payload "telemetry") "context_budget") "working_set" in
  let halt_reason := str_strip (dget payload "halt_reason" (PStr "")) in
  let history := approval_history_of approval in
  ([summary_line "request" (escape (or_text (str_strip (dget payload "request" (PStr ""))) "(empty request)"));
    summary_line "intent" (escape (intent_of payload));
    summary_line "run_id" (escape (run_id_of payload))] ++
   verdict verification "ok" "verification" ++ verdict verification "acceptance_ok" "acceptance" ++
   (if String.eqb halt_reason "" then [] else [summary_line "halt_reason" (escape halt_reason)]) ++
   option_lines (positive_text (dget working_set "token_estimate" (PInt 0))) (summary_line "working_set_tokens") ++
   match diagnostics with [] => [] | _ => [summary_line "diagnostics" (str_of_Z (Z.of_nat (length diagnostics)))] end ++
   match checkpoint_parts checkpoint with [] => [] | l => [summary_line "checkpoint" (escape (join (" " ++ middle_dot ++ " ")%string l))] end ++
   (if truthy (dget approval "pending" (PBool false)) then
      [summary_line "approval" (escape (or_text (str_strip (dget approval "summary" (PStr "pending approval"))) "pending approval"))] else []) ++
   match history with [] => [] | _ => [summary_line "approval_history" (str_of_Z (Z.of_nat (length history)))] end ++
   option_lines (given index_href) (fun h => summary_line "site" (link h "All runs")) ++
   option_lines (given trace_json_href) (fun h => summary_line "trace" (link h "Raw JSON")))%list.

Section EmDash.
Context (em_dash : string).

Definition text_field (entry : dict) (k dflt : string) : string := or_text (str_strip (dget entry k (PStr ""))) dflt.

Definition approval_item (entry : dict) : string :=
  "<li>" ++ classed "span" "mono" ++ escape (py_str (dget entry "ts" (PStr ""))) ++ "</span>" ++
  classed "div" "stack" ++ "<strong>" ++ escape (text_field entry "decision" "decision") ++ "</strong>" ++
  classed "span" "muted" ++ "actor=" ++ escape (text_field entry "actor" "unknown") ++ " challenge=" ++
  escape (text_field entry "challenge_id" em_dash) ++ "</span><span>" ++ escape (text_field entry "rationale" "(no rationale)") ++
  "</span></div></li>".

Definition render_trace_dashboard_html (payload : dict) (mermaid_graph index_href trace_json_href : option string) : res string :=
  let! diagnostics := dict_items (section payload "telemetry") "diagnostics" in
  let! events := dict_items payload "events" in
  let! tool_results := dict_items payload "tool_results" in
  let! timeline := timeline_items events in
  let final := py_str (dget payload "final" (PStr "")) in
  let history := approval_history_of (section payload "approval") in
  let summary := _html_card "Lula Dashboard"
    (classed "ul" "summary" ++ nl ++ join nl (summary_lines payload diagnostics index_href trace_json_href) ++ nl ++ "</ul>") in
  let approvals := match history with
                   | [] => []
                   | _ => [_html_card "Approval History" (items (join nl (List.map approval_item (last_n 12 history))))]
                   end in
  let cards := (summary :: approvals ++
    [_html_card "Graph" (graph_body mermaid_graph); _html_card "Timeline" (items timeline);
     _html_card "Tool Results" (items (tool_items tool_results));
     _html_card "Final Output" ("<pre>" ++ escape (or_text final "(empty)") ++ "</pre>")%string])%list in
  Ok (_html_document "Lula Dashboard" (join nl cards) (match drawn mermaid_graph with Some _ => true | None => false end)).

(** ** The index *)

Definition flag_text (v : pyval) (on off : string) : list string :=
  match v with PBool true => [on] | PBool false => [off] | _ => [] end.

Definition _run_metadata_suffix (run : dict) : string :=
  let text k := str_strip (dget run k (PStr "")) in
  let named name v := if String.eqb v "" then [] else [(name ++ v)%string] in
  let parts := (flag_text (dget run "verification_ok" PNone) "verify=ok" "verify=fail" ++
                flag_text (dget run "acceptance_ok" PNone) "accept=ok" "accept=fail" ++
                named "halt=" (text "halt_reason") ++
                option_lines (positive_text (dget run "working_set_tokens" (PInt 0))) (fun t => ("working_set=" ++ t)%string) ++
                named "checkpoint=" (text "checkpoint_id") ++
                (if truthy (dget run "pending_approval" (PBool false)) then ["approval=pending"] else []))%list in
  let dot := " " ++ middle_dot ++ " " in
  match parts with [] => "" | _ => dot ++ join dot parts end.

(** [int(run.get(k, 0) or 0)]. *)
Definition count_at (run : dict) (k : string) : res Z :=
  let v := dget run k (PInt 0) in if truthy v then py_int v else Ok 0.

Definition index_item (run : dict) : res string :=
  let text k dflt := escape (py_str (dget run k (PStr dflt))) in
  let href := py_str (dget run "dashboard_href" (PStr "index.html")) in
  let dot := " " ++ middle_dot ++ " " in
  let! events := count_at run "events_count" in
  let! tools := count_at run "tool_results_count" in
  Ok ("<li>" ++ classed "div" "stack" ++ link href (text "request" "(empty request)") ++
      classed "span" "muted" ++ "run_id=" ++ text "run_id" "" ++ dot ++ "intent=" ++ text "intent" "(pending)" ++
      dot ++ "events=" ++ str_of_Z events ++ dot ++ "tools=" ++ str_of_Z tools ++ escape (_run_metadata_suffix run) ++ "</span></div>" ++
      classed "span" "links" ++ link href "Dashboard" ++ dot ++ link (py_str (dget run "trace_href" (PStr "#"))) "Trace JSON" ++ "</span></li>").

Definition render_trace_site_index_html (runs : list dict) : res string :=
  let! body := match runs with
               | [] => Ok "<li><span>No runs captured yet.</span></li>"
               | _ => let! l := map_res index_item runs in Ok (join nl l)
               end in
  let cards :=
    [_html_card "Lula Trace Site"
       ("<p>Static dashboards generated from file-based run traces.</p>" ++ nl ++
        classed "p" "muted" ++ "Open a dashboard for graph, timeline, tool results, and final output.</p>");
     _html_card "Runs" (items body)] in
  Ok (_html_document "Lula Trace Site" (join nl cards) false).
End EmDash.

(** ** The console *)

(** What is printed: a panel with its title, a table with its title and the cells of its rows. *)
Inductive Shown := Panel (title text : string) | Rows (title : string) (rows : list (list string)).

Definition _panel (title : string) (body_lines : list string) : Shown := Panel title (join nl body_lines).

(** [f"{idx:02d}"]. *)
Definition two_digits (n : Z) : string := if n <? 10 then "0" ++ str_of_Z n else str_of_Z n.

(** [enumerate(l, start=1)]. *)
Definition numbered {A : Type} (l : list A) : list (Z * A) := combine (List.map Z.of_nat (seq 1 (length l))) l.

Section Console.
Context (full_block : string).

Definition timeline_row (start_ms : Z) (ie : Z * dict) : res (list string) :=
  let '(idx, ev) := ie in
  let! ts_ms := py_int (dget ev "ts_ms" (PInt start_ms)) in
  let! delta := _duration_s ts_ms start_ms in
  let! units := py_int (PFloat (fmul delta (float_of_Z 3))) in
  let units := Z.min 24 units in
  Ok [two_digits idx; "+" ++ format_fixed 2 delta ++ "s"; py_str (dget ev "kind" (PStr "event"));
      if 0 <? units then join "" (List.repeat full_block (Z.to_nat units)) else middle_dot].

Definition render_timeline (events : list dict) : res Shown :=
  match events with
  | [] => Ok (_panel "Timeline" ["No events captured."])
  | first :: _ =>
      let! start_ms := py_int (dget first "ts_ms" (PInt 0)) in
      let! rows := map_res (timeline_row start_ms) (numbered (last_n 14 events)) in
      Ok (Rows "Timeline" rows)
  end.

Definition tool_row (ir : Z * dict) : list string :=
  [two_digits (fst ir); if truthy (dget (snd ir) "ok" (PBool false)) then "OK" else "ERR"; py_str (dget (snd ir) "tool" (PStr "unknown"))].

Definition render_tool_results (tool_results : list dict) : Shown :=
  match tool_results with
  | [] => _panel "Tool Results" ["No tool invocations captured."]
  | _ => Rows "Tool Results" (List.map tool_row (numbered (last_n 8 tool_results)))
  end.

(** [intent_line] loses the prefix it was given. *)
Definition render_run_header (request : string) (intent : option string) : Shown :=
  Panel "Lula Console" ("request: " ++ or_text (strip request) "(empty request)" ++ nl ++ "intent:  " ++
                        match given intent with Some i => i | None => "(pending)" end).

Definition console_lines (payload : dict) : list string :=
  let verification := section payload "verification" in
  let approval := section payload "approval" in
  let halt_reason := str_strip (dget payload "halt_reason" (PStr "")) in
  let said k name := if dhas k verification then [name ++ ": " ++ (if truthy (dget verification k (PBool false)) then "passed" else "failed")]%string else [] in
  let history := list_or_empty (dget approval "history" (PList [])) in
  let lines := (said "ok" "verification" ++ said "acceptance_ok" "acceptance" ++
                (if String.eqb halt_reason "" then [] else ["halt_reason: " ++ halt_reason]%string) ++
                (if truthy (dget approval "pending" (PBool false)) then ["approval: pending"] else []) ++
                match history with [] => [] | _ => ["approval_history: " ++ str_of_Z (Z.of_nat (length history))]%string end)%list in
  match lines with [] => ["No verification summary captured."] | _ => lines end.

(** The header and the verification are printed before the timeline is made. *)
Definition render_trace_dashboard (payload : dict) : res (list Shown * res (list Shown)) :=
  let intent := match dget payload "intent" PNone with PStr s => Some s | _ => None end in
  let! events := dict_items payload "events" in
  let! tool_results := dict_items payload "tool_results" in
  let final_lines := match splitlines (py_str (dget payload "final" (PStr ""))) with [] => ["(empty)"] | l => l end in
  Ok ([render_run_header (py_str (dget payload "request" (PStr ""))) intent; _panel "Verification" (console_lines payload)],
      let! timeline := render_timeline events in
      Ok [timeline; render_tool_results tool_results; _panel "Final Output" (firstn 8 final_lines)]).
End Console.

(** ** Tags of a page *)

(** The texts between a [<] and the next [>]; [inside] is the tag that is being read. *)
Fixpoint scan_tags (inside : option string) (s : string) : list string :=
  match s with
  | EmptyString => []
  | String c r =>
      match inside with
      | None => if Ascii.eqb c "<" then scan_tags (Some "") r else scan_tags None r
      | Some t => if Ascii.eqb c ">" then t :: scan_tags None r else scan_tags (Some (t ++ String c "")) r
      end
  end.
Definition tags (page : string) : list string := scan_tags None page.

(** [html.unescape], for the five entities of [escape]. *)
Fixpoint unescape (s : string) : string :=
  match s with
  | String "&" (String "a" (String "m" (String "p" (String ";" r)))) => String "&" (unescape r)
  | String "&" (String "l" (String "t" (String ";" r))) => String "<" (unescape r)
  | String "&" (String "g" (String "t" (String ";" r))) => String ">" (unescape r)
  | String "&" (String "q" (String "u" (String "o" (String "t" (String ";" r))))) => String (chr 34) (unescape r)
  | String "&" (String "#" (String "x" (String "2" (String "7" (String ";" r))))) => String "'" (unescape r)
  | String c r => String c (unescape r)
  | EmptyString => ""
  end.

Ltac shown IH :=
  match goal with |- _ = String ?c ?s => transitivity (String c (unescape (concat_map_str escape_char s))); [reflexivity|by rewrite IH] end.

(** What is shown is the text: no two texts look the same. *)
Lemma unescape_escape s : unescape (escape s) = s.
Proof.
  induction s as [|c s IH]; [done|]. unfold escape in *. cbn [concat_map_str]. unfold escape_char.
  destruct (Ascii.eqb_spec c "&") as [->|H1]; [shown IH|].
  destruct (Ascii.eqb_spec c "<") as [->|H2]; [shown IH|].
  destruct (Ascii.eqb_spec c ">") as [->|H3]; [shown IH|].
  destruct (Ascii.eqb_spec c (chr 34)) as [->|H4]; [shown IH|].
  destruct (Ascii.eqb_spec c "'") as [->|H5]; [shown IH|].
  change ((String c "" ++ concat_map_str escape_char s)%string) with (String c (concat_map_str escape_char s)).
  transitivity (String c (unescape (concat_map_str escape_char s))); [|by rewrite IH].
  destruct c as [[] [] [] [] [] [] [] []]; try reflexivity. done.
Qed.

(** ** The tags of the renderers *)

(** Whether the text leaves the scanner inside of a tag. *)
Fixpoint scan_end (inside : option string) (s : string) : option string :=
  match s with
  | EmptyString => inside
  | String c r =>
      match inside with
      | None => scan_end (if Ascii.eqb c "<" then Some "" else None) r
      | Some t => scan_end (if Ascii.eqb c ">" then None else Some (t ++ String c "")) r
      end
  end.

Lemma scan_app a b : forall inside, scan_tags inside (a ++ b) = (scan_tags inside a ++ scan_tags (scan_end inside a) b)%list.
Proof.
  induction a as [|c a IH]; intros inside; [done|]. change ((String c a ++ b)%string) with (String c (a ++ b)).
  cbn [scan_tags scan_end]. destruct inside as [t|]; case_match; rewrite IH; done.
Qed.

Lemma scan_end_app a b : forall inside, scan_end inside (a ++ b) = scan_end (scan_end inside a) b.
Proof.
  induction a as [|c a IH]; intros inside; [done|]. change ((String c a ++ b)%string) with (String c (a ++ b)).
  cbn [scan_end]. destruct inside as [t|]; apply IH.
Qed.

Definition attr (name k v : string) : string := name ++ " " ++ k ++ "=" ++ dq ++ v ++ dq.

Definition plain_tags : list string :=
  ["/section"; "h2"; "/h2"; "li"; "/li"; "span"; "/span"; "strong"; "/strong"; "/ul"; "/div"; "pre"; "/pre"; "p"; "/p"; "/a";
   attr "section" "class" "card"; attr "span" "class" "mono"; attr "span" "class" "badge ok"; attr "span" "class" "badge err";
   attr "span" "class" "muted"; attr "span" "class" "links"; attr "div" "class" "stack"; attr "ul" "class" "summary";
   attr "ul" "class" "items"; attr "pre" "class" "mermaid"; attr "p" "class" "muted"].

(** A tag of the cards: one of the renderer's, or a link to an escaped address. *)
Definition own_tag (t : string) : Prop := In t plain_tags \/ exists href, t = attr "a" "href" (escape href).

(** A text that leaves the scanner outside of tags, and has no tags but these. *)
Definition body (s : string) : Prop := scan_end None s = None /\ Forall own_tag (tags s).

Lemma body_app a b : body a -> body b -> body (a ++ b).
Proof.
  intros [Ha1 Ha2] [Hb1 Hb2]. split; [by rewrite scan_end_app, Ha1|]. unfold tags in *. rewrite scan_app, Ha1.
  by apply List.Forall_app.
Qed.

(** A literal of the source, by evaluation. *)
Lemma body_literal s : scan_end None s = None -> forallb (fun t => str_in t plain_tags) (tags s) = true -> body s.
Proof.
  intros H1 H2. split; [exact H1|]. apply List.Forall_forall. intros t Ht. left. rewrite forallb_forall in H2. by apply str_in_In, H2.
Qed.

Lemma body_plain s : lacks "<" s = true -> body s.
Proof.
  intros H. assert (G : scan_end None s = None /\ tags s = []).
  { unfold tags. induction s as [|c s IH]; [done|]. rewrite lacks_cons in H. apply andb_prop in H as [Hc Hs].
    cbn [scan_end scan_tags]. destruct (Ascii.eqb_spec c "<") as [->|_]; [done|]. exact (IH Hs). }
  destruct G as [H1 H2]. split; [exact H1|]. rewrite H2. constructor.
Qed.

Lemma escape_lacks c s : In c ["<"%char; ">"%char; chr 34] -> lacks c (escape s) = true.
Proof.
  intros Hc. unfold escape. induction s as [|a s IH]; [done|]. cbn [concat_map_str]. rewrite lacks_app, IH, andb_true_r.
  destruct Hc as [<-|[<-|[<-|[]]]]; destruct a as [[] [] [] [] [] [] [] []]; vm_compute; reflexivity.
Qed.

Lemma body_escape s : body (escape s).
Proof. apply body_plain, escape_lacks. by left. Qed.

Lemma body_join l : Forall body l -> body (join nl l).
Proof.
  induction 1 as [|s l Hs Hl IH]; [by apply body_literal|]. destruct l as [|t l]; [exact Hs|].
  change (join nl (s :: t :: l)) with (s ++ nl ++ join nl (t :: l)). apply body_app; [exact Hs|]. apply body_app; [by apply body_literal|exact IH].
Qed.

Lemma scan_inside t : lacks ">" t = true -> forall acc s, scan_tags (Some acc) (t ++ String ">" s) = (acc ++ t) :: scan_tags None s.
Proof.
  induction t as [|c t IH]; intros H acc s; [by rewrite str_app_nil|]. rewrite lacks_cons in H. apply andb_prop in H as [Hc Ht].
  change ((String c t ++ String ">" s)%string) with (String c (t ++ String ">" s)). cbn [scan_tags].
  apply negb_true_iff in Hc. rewrite Hc, (IH Ht). by rewrite str_app_assoc.
Qed.

Lemma scan_end_inside t : lacks ">" t = true -> forall acc, scan_end (Some acc) (t ++ ">") = None.
Proof.
  induction t as [|c t IH]; intros H acc; [done|]. rewrite lacks_cons in H. apply andb_prop in H as [Hc Ht].
  change ((String c t ++ ">")%string) with (String c (t ++ ">")). cbn [scan_end]. apply negb_true_iff in Hc. rewrite Hc. apply (IH Ht).
Qed.

Lemma body_link href text : body text -> body (link href text).
Proof.
  intros Ht. unfold link. apply body_app; [|apply body_app; [exact Ht|by apply body_literal]]. unfold tag_with.
  set (t := ("a" ++ " " ++ "href" ++ "=" ++ dq ++ escape href ++ dq)%string).
  assert (Hl : lacks ">" t = true) by (unfold t; rewrite !lacks_app, escape_lacks by (right; by left); reflexivity).
  split.
  - change (("<" ++ t ++ ">")%string) with (String "<" (t ++ ">")). cbn [scan_end]. by apply scan_end_inside.
  - change (("<" ++ t ++ ">")%string) with (String "<" (t ++ String ">" "")). unfold tags. cbn [scan_tags].
    change (Ascii.eqb "<" "<") with true. cbv beta iota. rewrite scan_inside by exact Hl. constructor; [|constructor]. right. by exists href.
Qed.

Lemma digits_no_tag u : lacks "<" (digits_of_uint u) = true.
Proof. induction u; cbn; done. Qed.

Lemma str_of_Z_no_tag z : lacks "<" (str_of_Z z) = true.
Proof. destruct z; cbn [str_of_Z]; rewrite ?lacks_app, ?digits_no_tag; done. Qed.

Lemma lacks_take c n s : lacks c s = true -> lacks c (str_take n s) = true.
Proof.
  revert n. induction s as [|a s IH]; intros [|n] H; try done. cbn [str_take]. rewrite lacks_cons in *. apply andb_prop in H as [H1 H2].
  by rewrite H1, IH.
Qed.

Lemma lacks_drop c n s : lacks c s = true -> lacks c (str_drop n s) = true.
Proof.
  revert n. induction s as [|a s IH]; intros [|n] H; try done. cbn [str_drop]. rewrite lacks_cons in H. apply andb_prop in H as [_ H2]. by apply IH.
Qed.

Lemma zeros_no_tag n : lacks "<" (zeros n) = true.
Proof. induction n; done. Qed.

Lemma with_point_no_tag d n : lacks "<" (with_point d n) = true.
Proof.
  unfold with_point. assert (H : lacks "<" (zeros (Z.to_nat (d + 1 - py_len (str_of_Z n))) ++ str_of_Z n) = true)
    by (rewrite lacks_app, zeros_no_tag, str_of_Z_no_tag; done).
  rewrite !lacks_app. unfold str_prefix. rewrite lacks_drop by exact H. case_match; rewrite lacks_take by exact H; done.
Qed.

Lemma format_fixed_no_tag d f : lacks "<" (format_fixed d f) = true.
Proof. destruct f as [[]|[]| |[] m e]; cbn [format_fixed]; rewrite ?lacks_app, ?with_point_no_tag; done. Qed.

Lemma positive_no_tag v t : positive_text v = Some t -> lacks "<" t = true.
Proof. destruct v as [|[]|z| | | | |]; try done; cbn; [by intros [= <-]|]. case_match; [intros [= <-]; apply str_of_Z_no_tag|done]. Qed.

Create HintDb markup.
#[export] Hint Resolve body_app body_escape body_join body_link : markup.
#[export] Hint Extern 1 (body (str_of_Z _)) => apply body_plain, str_of_Z_no_tag : markup.
#[export] Hint Extern 1 (body (format_fixed _ _)) => apply body_plain, format_fixed_no_tag : markup.

(** A concatenation of the source's literals, escaped texts, numbers and smaller markup. *)
Ltac markup :=
  repeat match goal with
  | |- body (_ ++ _) => apply body_app
  | |- body (if ?b then _ else _) => destruct b
  | |- body (escape _) => apply body_escape
  | |- body (str_of_Z _) => apply body_plain, str_of_Z_no_tag
  | |- body (format_fixed _ _) => apply body_plain, format_fixed_no_tag
  | |- body (link _ _) => apply body_link
  | |- body (join nl _) => apply body_join
  | |- body _ => first [assumption | apply body_literal; [reflexivity|reflexivity]]
  end.

Lemma body_card title s : body s -> body (_html_card title s).
Proof. intros H. unfold _html_card. markup. Qed.

Lemma body_items s : body s -> body (items s).
Proof. intros H. unfold items. markup. Qed.

Lemma body_summary name value : forallb (fun t => str_in t plain_tags) (tags name) = true -> scan_end None name = None -> body value -> body (summary_line name value).
Proof. intros H1 H2 H3. unfold summary_line. markup. by apply body_literal. Qed.

Lemma tool_item_body r : body (tool_item r).
Proof. unfold tool_item. destruct (truthy _); markup. Qed.

Lemma approval_item_body em_dash e : body (approval_item em_dash e).
Proof. unfold approval_item. markup. Qed.

Lemma timeline_item_body start e t : timeline_item start e = Ok t -> body t.
Proof. unfold timeline_item. intros (ts & _ & (o & _ & [= <-])%bind_Ok)%bind_Ok. markup. Qed.

Lemma map_res_body {A : Type} (f : A -> res string) l out : (forall x t, f x = Ok t -> body t) -> map_res f l = Ok out -> body (join nl out).
Proof.
  intros Hf H. apply body_join, List.Forall_forall. intros t Ht. destruct (map_res_In _ _ _ _ H Ht) as (x & _ & Hx). by eapply Hf.
Qed.

Lemma timeline_body events t : timeline_items events = Ok t -> body t.
Proof.
  unfold timeline_items. destruct events as [|e es]; [intros [= <-]; markup|].
  intros (start & _ & (l & Hl & [= <-])%bind_Ok)%bind_Ok. eapply map_res_body; [apply timeline_item_body|exact Hl].
Qed.

Lemma tools_body results : body (tool_items results).
Proof.
  unfold tool_items. destruct results as [|r rs]; [markup|]. apply body_join, List.Forall_map, List.Forall_forall. intros x _. apply tool_item_body.
Qed.

Lemma graph_body_body g : body (graph_body g).
Proof. unfold graph_body. destruct (drawn g); markup. Qed.

Lemma summary_body payload diagnostics index trace : Forall body (summary_lines payload diagnostics index trace).
Proof.
  unfold summary_lines.
  repeat (apply List.Forall_app; split).
  all: unfold verdict, option_lines, given; repeat case_match; simplify_eq/=; repeat apply List.Forall_cons; try apply List.Forall_nil.
  all: apply body_summary; try reflexivity; markup.
  all: apply body_plain; first [apply digits_no_tag|by eapply positive_no_tag].
Qed.

Lemma count_body run k z : count_at run k = Ok z -> body (str_of_Z z).
Proof. intros _. apply body_plain, str_of_Z_no_tag. Qed.

Lemma index_item_body run t : index_item run = Ok t -> body t.
Proof. unfold index_item. intros (e & _ & (o & _ & [= <-])%bind_Ok)%bind_Ok. markup. Qed.

(** ** The document *)

Definition head_tags : list string :=
  ["!DOCTYPE html"; attr "html" "lang" "en"; "head"; attr "meta" "charset" "utf-8";
   attr "meta" "name" ("viewport" ++ dq ++ " content=" ++ dq ++ "width=device-width, initial-scale=1");
   "title"; "/title"; "style"; "/style"; "/head"; "body"; "main"].
Definition foot_tags (include_mermaid : bool) : list string :=
  (["/main"] ++ (if include_mermaid then [attr "script" "type" "module"; "/script"] else []) ++ ["/body"; "/html"])%list.

Lemma tags_closed a b : scan_end None a = None -> tags (a ++ b) = (tags a ++ tags b)%list.
Proof. intros H. unfold tags. by rewrite scan_app, H. Qed.

Lemma document_tags title content include_mermaid :
  In title ["Lula Dashboard"; "Lula Trace Site"] -> body content ->
  tags (_html_document title content include_mermaid) = (head_tags ++ tags content ++ foot_tags include_mermaid)%list.
Proof.
  intros Ht [Hc _]. unfold _html_document.
  assert (Hh : scan_end None (document_head title) = None /\ tags (document_head title) = head_tags)
    by (destruct Ht as [<-|[<-|[]]]; vm_compute; done).
  rewrite tags_closed by apply Hh. rewrite tags_closed by exact Hc. rewrite (proj2 Hh). do 2 f_equal.
  destruct include_mermaid; vm_compute; reflexivity.
Qed.

Definition is_drawn (mermaid_graph : option string) : bool := match drawn mermaid_graph with Some _ => true | None => false end.

Lemma Ok_inj {A : Type} (a b : A) : Ok a = Ok b -> a = b.
Proof. congruence. Qed.

Lemma dashboard_body em_dash payload graph index trace page :
  render_trace_dashboard_html em_dash payload graph index trace = Ok page ->
  exists content, body content /\ page = _html_document "Lula Dashboard" content (is_drawn graph).
Proof.
  unfold render_trace_dashboard_html. intros (diagnostics & _ & H)%bind_Ok. apply bind_Ok in H as (events & _ & H).
  apply bind_Ok in H as (results & _ & H). apply bind_Ok in H as (timeline & Ht & H). apply Ok_inj in H as <-. eexists. split; [|reflexivity].
  apply body_join. constructor; [apply body_card; markup; apply summary_body|]. apply List.Forall_app. split.
  - destruct (approval_history_of _) as [|h hs]; [constructor|]. constructor; [|constructor]. apply body_card, body_items, body_join.
    apply List.Forall_map, List.Forall_forall. intros e _. apply approval_item_body.
  - repeat apply List.Forall_cons; [..|apply List.Forall_nil]; apply body_card; [apply graph_body_body|apply body_items; by eapply timeline_body|apply body_items, tools_body|markup].
Qed.

Lemma index_body runs page :
  render_trace_site_index_html runs = Ok page -> exists content, body content /\ page = _html_document "Lula Trace Site" content false.
Proof.
  unfold render_trace_site_index_html. intros (content & Hc & H)%bind_Ok. apply Ok_inj in H as <-. eexists. split; [|reflexivity].
  apply body_join. repeat apply List.Forall_cons; [..|apply List.Forall_nil]; apply body_card; [markup|]. apply body_items. destruct runs as [|r rs]; [injection Hc as <-; markup|].
  apply bind_Ok in Hc as (l & Hl & [= <-]). eapply map_res_body; [apply index_item_body|exact Hl].
Qed.

(** C32: No text of a trace becomes markup.  Whatever the trace and its texts are, the tags of
    its dashboard are those of the document around the tags of the cards, and each tag of a
    card is one of the renderer's own or a link to an escaped address: the page has the
    renderer's script when a graph is drawn, and no other.  The same holds for the index of a
    trace site; and what a reader sees of an escaped text is the text. *)
Theorem trace_pages_escape em_dash payload graph index trace runs :
  match render_trace_dashboard_html em_dash payload graph index trace with
  | Ok page => exists ts, tags page = (head_tags ++ ts ++ foot_tags (is_drawn graph))%list /\ Forall own_tag ts
  | Err _ => True
  end /\
  match render_trace_site_index_html runs with
  | Ok page => exists ts, tags page = (head_tags ++ ts ++ foot_tags false)%list /\ Forall own_tag ts
  | Err _ => True
  end /\
  forall text, unescape (escape text) = text.
Proof.
  split; [|split; [|exact unescape_escape]].
  - destruct (render_trace_dashboard_html _ _ _ _ _) as [page|] eqn:E; [|done]. apply dashboard_body in E as (content & Hb & ->).
    exists (tags content). split; [apply document_tags; [by left|exact Hb]|apply Hb].
  - destruct (render_trace_site_index_html _) as [page|] eqn:E; [|done]. apply index_body in E as (content & Hb & ->).
    exists (tags content). split; [apply document_tags; [right; by left|exact Hb]|apply Hb].
Qed.

(** The pages exist: a trace with a hostile request. *)
Example hostile : exists page,
  render_trace_dashboard_html "-" [("request", PStr "<script>x</script>"); ("events", PList [PDict [("kind", PStr "node"); ("ts_ms", PInt 5)]])] (Some "flowchart LR") (Some "/") None
    = Ok page /\ count_occ string_dec (tags page) "script" = 0%nat /\ contains "&lt;script&gt;x&lt;/script&gt;" page = true.
Proof. eexists. split; [vm_compute; reflexivity|split; vm_compute; reflexivity]. Qed.

(** A trace without events in the form of a list has no page. *)
Example null_events : render_trace_dashboard_html "-" [("events", PNone)] None None None = Err (not_iterable PNone).
Proof. by vm_compute. Qed.

(** ** The tables of the console *)

Lemma row_numbers full_block start ns evs rows :
  map_res (timeline_row full_block start) (combine ns evs) = Ok rows -> length ns = length evs -> List.map (List.hd "") rows = List.map two_digits ns.
Proof.
  revert evs rows. induction ns as [|n ns IH]; intros [|e evs] rows; cbn [combine map_res]; try done; [by intros [= <-]|].
  intros (row & E & (rest & Er & [= <-])%bind_Ok)%bind_Ok [= Hl]. cbn [List.map]. f_equal; [|by apply (IH evs)].
  cbn [timeline_row] in E. by apply bind_Ok in E as (ts & _ & (d & _ & (u & _ & [= <-])%bind_Ok)%bind_Ok).
Qed.

(** The timeline shows the last fourteen events, at most, numbered from one. *)
Lemma timeline_rows_last full_block events rows : render_timeline full_block events = Ok (Rows "Timeline" rows) ->
  length rows = Nat.min 14 (length events) /\ List.map (List.hd "") rows = List.map two_digits (List.map Z.of_nat (seq 1 (length rows))).
Proof.
  unfold render_timeline. destruct events as [|e l]; [done|]. set (shown := last_n 14 (e :: l)).
  intros (start & _ & (rs & Er & [= <-])%bind_Ok)%bind_Ok.
  assert (Hl : length (List.map Z.of_nat (seq 1 (length shown))) = length shown) by (by rewrite length_map, length_seq).
  assert (Hr : length rs = length shown) by (rewrite (map_res_length _ _ _ Er); unfold numbered; rewrite length_combine, Hl; lia).
  split; [rewrite Hr; unfold shown, last_n; rewrite length_drop; lia|]. rewrite Hr. by apply (row_numbers _ _ _ _ _ Er).
Qed.
