(* ===== verification/Checkpoints.v ===== *)
(** * What the checkpoint savers share: [backends/_base.py]

    LangGraph stores the states of a run as checkpoints through a saver.  This file has
    the configurations that name them and the tuples savers answer with.  Behind
    interfaces: LangGraph's serializer ([Serde]), its functions on configurations and its
    table of special writes ([LangGraph]). *)
From Stdlib Require Import ZArith Lia String Ascii List Bool.
From stdpp Require Import base tactics list strings option.
From S2P Require Import Prelude PyStr PyVal.
Local Open Scope string_scope.
Local Open Scope Z_scope.

(** [serde.dumps_typed] and [serde.loads_typed]; [Payload] is the type of the bytes. *)
Class Serde (Payload : Type) := {
  dumps_typed : pyval -> string * Payload;
  loads_typed : string -> Payload -> res pyval;
  no_bytes : Payload }.

(** A value is read back as it was written, and no type of a value is called [empty]. *)
Class SerdeLaws (Payload : Type) {S : Serde Payload} : Prop := {
  loads_dumps v : loads_typed (fst (dumps_typed v)) (snd (dumps_typed v)) = Ok v;
  type_not_empty v : fst (dumps_typed v) <> "empty" }.

(** [get_checkpoint_metadata], [get_checkpoint_id] and [WRITES_IDX_MAP] of LangGraph. *)
Class LangGraph := {
  get_checkpoint_metadata : dict -> pyval -> pyval;
  get_checkpoint_id : dict -> option string;
  WRITES_IDX_MAP : string -> option Z }.

(** ** Configurations *)

Definition parse_config (config : dict) : res (string * string * option string) :=
  match dget config "configurable" (PDict []) with
  | PDict c =>
      match dget c "thread_id" PNone with
      | PStr thread =>
          if String.eqb (strip thread) "" then Err (ValueError "missing configurable.thread_id")
          else
            Ok (strip thread, py_str (dget c "checkpoint_ns" (PStr "")),
                match dget c "checkpoint_id" PNone with PNone => None | v => Some (py_str v) end)
      | _ => Err (ValueError "missing configurable.thread_id")
      end
  | _ => Err (ValueError "configurable must be a dict")
  end.

(** The configuration that names a checkpoint. *)
Definition config_of (thread ns id : string) : dict :=
  [("configurable", PDict [("thread_id", PStr thread); ("checkpoint_ns", PStr ns); ("checkpoint_id", PStr id)])].

(** The one that names the latest checkpoint of a thread. *)
Definition thread_config (thread ns : string) : dict :=
  [("configurable", PDict [("thread_id", PStr thread); ("checkpoint_ns", PStr ns)])].

Record CheckpointTuple := {
  t_config : dict; t_checkpoint : dict; t_metadata : pyval; t_parent : option dict;
  t_writes : list (string * string * pyval) }.

(** [str(checkpoint["id"])]. *)
Definition checkpoint_id (checkpoint : dict) : res string :=
  match dlookup "id" checkpoint with Some v => Ok (py_str v) | None => Err (KeyError "'id'") end.

Definition parent_config (thread ns : string) (parent : option string) : option dict :=
  match parent with Some p => if String.eqb p "" then None else Some (config_of thread ns p) | None => None end.

(** [any(metadata.get(k) != v for k, v in filter.items())] is false. *)
Fixpoint metadata_matches (metadata : pyval) (filter : dict) : res bool :=
  match filter with
  | [] => Ok true
  | (k, v) :: rest =>
      let! m := get metadata k PNone in
      if py_eq m v then metadata_matches metadata rest else Ok false
  end.

(** A loaded checkpoint is a dictionary. *)
Definition as_checkpoint (v : pyval) : res dict :=
  match v with PDict d => Ok d | _ => Err (attr_error v "get") end.

(** A row that replaces those with its key. *)
Definition replace_row {A : Type} (same : A -> A -> bool) (r : A) (l : list A) : list A :=
  (List.filter (fun r' => negb (same r' r)) l ++ [r])%list.

Fixpoint enumerate {A : Type} (i : Z) (l : list A) : list (Z * A) :=
  match l with [] => [] | x :: r => (i, x) :: enumerate (i + 1) r end.
