(* ===== verification/SqliteSaver.v ===== *)
(** * The SQLite checkpoint saver: [backends/sqlite.py]

    Three tables: checkpoints without their channels, one row per channel and version,
    the pending writes.  Every operation is one transaction: an exception leaves the
    tables as they were. *)
From Stdlib Require Import ZArith Lia String Ascii List Bool.
From stdpp Require Import base tactics list strings option.
From S2P Require Import Prelude PyStr PyFloat PyVal Checkpoints.
Local Open Scope string_scope.
Local Open Scope Z_scope.

Section Saver.
Context {Payload : Type} `{Serde Payload} `{LangGraph}.

Record CheckpointRow := {
  c_thread : string; c_ns : string; c_id : string; checkpoint_type : string; checkpoint_blob : Payload;
  metadata_type : string; metadata_blob : Payload; parent_checkpoint_id : option string }.

Record BlobRow := {
  b_thread : string; b_ns : string; b_channel : string; b_version : string; b_type : string; b_payload : Payload }.

Record WriteRow := {
  w_thread : string; w_ns : string; w_checkpoint : string; w_task : string; w_idx : Z; w_channel : string;
  w_type : string; w_payload : Payload; w_path : string }.

Record Tables := { checkpoints : list CheckpointRow; checkpoint_blobs : list BlobRow; checkpoint_writes : list WriteRow }.

Definition empty_tables : Tables := {| checkpoints := []; checkpoint_blobs := []; checkpoint_writes := [] |}.

(** The primary keys. *)
Definition same_checkpoint (a b : CheckpointRow) : bool :=
  String.eqb (c_thread a) (c_thread b) && String.eqb (c_ns a) (c_ns b) && String.eqb (c_id a) (c_id b).

Definition same_blob (a b : BlobRow) : bool :=
  String.eqb (b_thread a) (b_thread b) && String.eqb (b_ns a) (b_ns b)
  && String.eqb (b_channel a) (b_channel b) && String.eqb (b_version a) (b_version b).

Definition same_write (a b : WriteRow) : bool :=
  String.eqb (w_thread a) (w_thread b) && String.eqb (w_ns a) (w_ns b) && String.eqb (w_checkpoint a) (w_checkpoint b)
  && String.eqb (w_task a) (w_task b) && (w_idx a =? w_idx b).

(** A version as the [TEXT] column keeps it. *)
Definition version_text (v : pyval) : res string :=
  match v with
  | PStr s => Ok s
  | PInt z => Ok (str_of_Z z)
  | PBool b => Ok (if b then "1" else "0")
  | _ => Err (Unmodelled "version")
  end.

(** ** Reading *)

Definition blob_at (thread ns channel version : string) (r : BlobRow) : bool :=
  String.eqb (b_thread r) thread && String.eqb (b_ns r) ns && String.eqb (b_channel r) channel && String.eqb (b_version r) version.

Fixpoint _load_channel_values (thread ns : string) (versions : dict) (blobs : list BlobRow) : res dict :=
  match versions with
  | [] => Ok []
  | (channel, version) :: rest =>
      let! version := version_text version in
      let! here :=
        match List.find (blob_at thread ns channel version) blobs with
        | None => Ok []
        | Some r => if String.eqb (b_type r) "empty" then Ok [] else let! v := loads_typed (b_type r) (b_payload r) in Ok [(channel, v)]
        end in
      let! others := _load_channel_values thread ns rest blobs in
      Ok (here ++ others)%list
  end.

Definition write_of (thread ns id : string) (r : WriteRow) : bool :=
  String.eqb (w_thread r) thread && String.eqb (w_ns r) ns && String.eqb (w_checkpoint r) id.

(** Writes with the same index come in the order they were put; SQL leaves it open. *)
Definition _load_pending_writes (thread ns id : string) (t : Tables) : res (list (string * string * pyval)) :=
  map_res (fun r => let! v := loads_typed (w_type r) (w_payload r) in Ok (w_task r, w_channel r, v))
    (py_sorted (fun a b => w_idx a <? w_idx b) (List.filter (write_of thread ns id) (checkpoint_writes t))).

Definition _row_to_checkpoint_tuple (requested : option dict) (r : CheckpointRow) (t : Tables) : res CheckpointTuple :=
  let! raw := loads_typed (checkpoint_type r) (checkpoint_blob r) in
  let! raw := as_checkpoint raw in
  let versions := dict_or_empty (dget raw "channel_versions" (PDict [])) in
  let! values := _load_channel_values (c_thread r) (c_ns r) versions (checkpoint_blobs t) in
  let! metadata := loads_typed (metadata_type r) (metadata_blob r) in
  let! writes := _load_pending_writes (c_thread r) (c_ns r) (c_id r) t in
  Ok {| t_config := default (config_of (c_thread r) (c_ns r) (c_id r)) requested;
        t_checkpoint := dset "channel_values" (PDict values) raw; t_metadata := metadata;
        t_parent := parent_config (c_thread r) (c_ns r) (parent_checkpoint_id r); t_writes := writes |}.

Definition of_thread (thread ns : string) (r : CheckpointRow) : bool :=
  String.eqb (c_thread r) thread && String.eqb (c_ns r) ns.

(** [ORDER BY checkpoint_id DESC]. *)
Definition newest_first (rows : list CheckpointRow) : list CheckpointRow := py_sorted (fun a b => str_lt (c_id b) (c_id a)) rows.

(** The checkpoint that is named, or the newest one of the thread. *)
Definition pick (thread : string) (id : option string) (t : Tables) (ns : string) : option CheckpointRow :=
  match id with
  | Some i => List.find (fun r => of_thread thread ns r && String.eqb (c_id r) i) (checkpoints t)
  | None => hd_error (newest_first (List.filter (of_thread thread ns) (checkpoints t)))
  end.

Definition get_tuple (config : dict) (t : Tables) : res (option CheckpointTuple) :=
  let! (thread, ns, id) := parse_config config in
  let row :=
    match pick thread id t ns with
    | Some r => Some r
    | None => if String.eqb ns "" then None else pick thread id t ""
    end in
  match row with
  | None => Ok None
  | Some r =>
      let! tuple := _row_to_checkpoint_tuple (match id with Some _ => Some config | None => None end) r t in
      Ok (Some tuple)
  end.

(** The rows the clauses of [list] select. *)
Definition selected (config before : option dict) (t : Tables) : res (list CheckpointRow) :=
  let! rows :=
    match config with
    | None => Ok (checkpoints t)
    | Some c =>
        let! (thread, ns, id) := parse_config c in
        Ok (List.filter (fun r => of_thread thread ns r && match id with Some i => String.eqb (c_id r) i | None => true end) (checkpoints t))
    end in
  Ok (match match before with Some b => get_checkpoint_id b | None => None end with
      | Some i => List.filter (fun r => str_lt (c_id r) i) rows
      | None => rows
      end).

(** [for row in rows: ... yield tuple_value]: the tuples whose metadata match. *)
Definition matching_tuples (filter : option dict) (rows : list CheckpointRow) (t : Tables) : res (list CheckpointTuple) :=
  let! found := map_res (fun r =>
    let! tuple := _row_to_checkpoint_tuple None r t in
    let! wanted := match filter with Some f => metadata_matches (t_metadata tuple) f | None => Ok true end in
    Ok (if wanted then [tuple] else [])) rows in
  Ok (List.concat found).

Definition list_tuples (config : option dict) (filter : option dict) (before : option dict) (limit : option Z) (t : Tables)
    : res (list CheckpointTuple) :=
  let! rows := selected config before t in
  let rows := newest_first rows in
  let rows := match limit with Some n => if 0 <=? n then firstn (Z.to_nat n) rows else rows | None => rows end in
  matching_tuples filter rows t.

(** ** Writing *)

(** One row of [new_versions]. *)
Definition put_blob (thread ns : string) (values : dict) (blobs : list BlobRow) (cv : string * pyval) : res (list BlobRow) :=
  let! version := version_text (snd cv) in
  let typed := match dlookup (fst cv) values with Some v => dumps_typed v | None => ("empty", no_bytes) end in
  Ok (replace_row same_blob {| b_thread := thread; b_ns := ns; b_channel := fst cv; b_version := version;
                               b_type := fst typed; b_payload := snd typed |} blobs).

(** The checkpoint without the values of its channels. *)
Definition stripped (checkpoint : dict) : dict := dset "channel_values" (PDict []) checkpoint.

Definition put (config checkpoint : dict) (metadata : pyval) (new_versions : dict) (t : Tables) : res (Tables * dict) :=
  let! (thread, ns, parent) := parse_config config in
  let values := dict_or_empty (dget checkpoint "channel_values" (PDict [])) in
  let typed := dumps_typed (PDict (stripped checkpoint)) in
  let meta := dumps_typed (get_checkpoint_metadata config metadata) in
  let! id := checkpoint_id checkpoint in
  let! blobs := fold_res (put_blob thread ns values) (checkpoint_blobs t) new_versions in
  let row := {| c_thread := thread; c_ns := ns; c_id := id; checkpoint_type := fst typed; checkpoint_blob := snd typed;
                metadata_type := fst meta; metadata_blob := snd meta; parent_checkpoint_id := parent |} in
  Ok ({| checkpoints := replace_row same_checkpoint row (checkpoints t); checkpoint_blobs := blobs;
         checkpoint_writes := checkpoint_writes t |}, config_of thread ns id).

(** One write; a write of a task that is already there is skipped, a special one replaced. *)
Definition put_write (thread ns id task path : string) (rows : list WriteRow) (iw : Z * (string * pyval)) : list WriteRow :=
  let '(i, (channel, value)) := iw in
  let idx := default i (WRITES_IDX_MAP channel) in
  let typed := dumps_typed value in
  let row := {| w_thread := thread; w_ns := ns; w_checkpoint := id; w_task := task; w_idx := idx; w_channel := channel;
                w_type := fst typed; w_payload := snd typed; w_path := path |} in
  if (0 <=? idx) && existsb (same_write row) rows then rows else replace_row same_write row rows.

Definition put_writes (config : dict) (writes : list (string * pyval)) (task path : string) (t : Tables) : res Tables :=
  let! (thread, ns, id) := parse_config config in
  match id with
  | None => Err (ValueError "missing configurable.checkpoint_id")
  | Some id =>
      Ok {| checkpoints := checkpoints t; checkpoint_blobs := checkpoint_blobs t;
            checkpoint_writes := fold_left (put_write thread ns id task path) (enumerate 0 writes) (checkpoint_writes t) |}
  end.

Definition delete_thread (thread : string) (t : Tables) : Tables :=
  {| checkpoints := List.filter (fun r => negb (String.eqb (c_thread r) thread)) (checkpoints t);
     checkpoint_blobs := List.filter (fun r => negb (String.eqb (b_thread r) thread)) (checkpoint_blobs t);
     checkpoint_writes := List.filter (fun r => negb (String.eqb (w_thread r) thread)) (checkpoint_writes t) |}.

(** The asynchronous methods run the synchronous ones in a thread. *)
Definition aget_tuple : dict -> Tables -> res (option CheckpointTuple) := get_tuple.
Definition alist : option dict -> option dict -> option dict -> option Z -> Tables -> res (list CheckpointTuple) := list_tuples.
Definition aput : dict -> dict -> pyval -> dict -> Tables -> res (Tables * dict) := put.
Definition aput_writes : dict -> list (string * pyval) -> string -> string -> Tables -> res Tables := put_writes.
Definition adelete_thread : string -> Tables -> Tables := delete_thread.
End Saver.
Arguments Tables : clear implicits. Arguments CheckpointRow : clear implicits. Arguments BlobRow : clear implicits.
Arguments WriteRow : clear implicits.
