(* ===== verification/RedisSaver.v ===== *)
(** * The Redis checkpoint saver: [backends/redis.py]

    A checkpoint is one packed value under its key; a sorted set of the thread orders the
    checkpoints by the time they were put.  [CheckpointServer] is the server with
    [msgpack], [None] when [msgpack] is not installed. *)
From Stdlib Require Import ZArith Lia String Ascii List Bool.
From stdpp Require Import base tactics list strings option.
From S2P Require Import Prelude PyStr PyFloat PyVal Checkpoints.
Local Open Scope string_scope.
Local Open Scope Z_scope.

Record Write (Payload : Type) := {
  w_task : string; w_idx : Z; w_channel : string; w_type : string; w_payload : Payload; w_path : string }.
Arguments w_task {Payload} _. Arguments w_idx {Payload} _. Arguments w_channel {Payload} _.
Arguments w_type {Payload} _. Arguments w_payload {Payload} _. Arguments w_path {Payload} _.

(** The dictionary that is packed. *)
Record Data (Payload : Type) := {
  checkpoint_type : string; checkpoint_blob : Payload; metadata_type : string; metadata_blob : Payload;
  parent_checkpoint_id : string; pending_writes : list (Write Payload) }.
Arguments checkpoint_type {Payload} _. Arguments checkpoint_blob {Payload} _. Arguments metadata_type {Payload} _.
Arguments metadata_blob {Payload} _. Arguments parent_checkpoint_id {Payload} _. Arguments pending_writes {Payload} _.

(** [packb] and [unpackb] of msgpack; [SET], [GET], [ZADD], [EXPIRE], [DEL] of the keys that
    match a pattern, and [ZREVRANGE key 0 -1 WITHSCORES], from which the other ranges derive. *)
Class CheckpointServer (Payload V S : Type) := {
  msgpack : option (Data Payload -> V);
  unpackb : V -> res (Data Payload);
  redis_set : string -> V -> S -> S;
  redis_get : string -> S -> option V;
  zadd : string -> string -> float -> S -> S;
  expire : string -> Z -> S -> S;
  delete_matching : string -> S -> S;
  zmembers : string -> S -> list (string * float) }.

(** Whether a member comes before another one in [ZREVRANGE]: a higher score, or the same
    score and a greater name. *)
Definition zbefore (a b : string * float) : bool :=
  frank_ltb (snd b) (snd a) || (negb (frank_ltb (snd a) (snd b)) && str_lt (fst b) (fst a)).

(** The members with a score set. *)
Definition zinsert (m : string) (score : float) (l : list (string * float)) : list (string * float) :=
  insert_sorted zbefore (m, score) (List.filter (fun x => negb (String.eqb (fst x) m)) l).

Class ServerLaws (Payload V S : Type) {R : CheckpointServer Payload V S} : Prop := {
  unpack_pack pack d : msgpack = Some pack -> unpackb (pack d) = Ok d;
  get_set k v s : redis_get k (redis_set k v s) = Some v;
  get_set_ne k k' v s : k' <> k -> redis_get k' (redis_set k v s) = redis_get k' s;
  members_set k k' v s : k' <> k -> zmembers k' (redis_set k v s) = zmembers k' s;
  members_zadd k m score s : zmembers k (zadd k m score s) = zinsert m score (zmembers k s);
  get_zadd k k' m score s : k' <> k -> redis_get k' (zadd k m score s) = redis_get k' s;
  get_expire k k' ttl s : 0 < ttl -> redis_get k' (expire k ttl s) = redis_get k' s;
  members_expire k k' ttl s : 0 < ttl -> zmembers k' (expire k ttl s) = zmembers k' s }.

Section Saver.
Context {Payload V S : Type} `{Serde Payload} `{LangGraph} `{CheckpointServer Payload V S}.
Context (_key_prefix : string) (_ttl_seconds : Z).

Definition _serialize (d : Data Payload) : res V :=
  match msgpack with
  | Some pack => Ok (pack d)
  | None => Err (TypeError "Object of type bytes is not JSON serializable")
  end.

Definition _deserialize (raw : V) : res (Data Payload) := unpackb raw.

Definition _ckpt_key (thread ns id : string) : string := _key_prefix ++ thread ++ ":" ++ ns ++ ":" ++ id.
Definition _blobs_key (thread ns channel version : string) : string :=
  _key_prefix ++ "blobs:" ++ thread ++ ":" ++ ns ++ ":" ++ channel ++ ":" ++ version.
Definition _writes_key (thread ns id : string) : string := _key_prefix ++ "writes:" ++ thread ++ ":" ++ ns ++ ":" ++ id.
Definition _idx_key (thread ns : string) : string := _key_prefix ++ "idx:" ++ thread ++ ":" ++ ns.

(** ** Reading *)

(** [except CheckpointBackendError: raise; except Exception as exc: raise ... from exc]. *)
Definition wrapped {A : Type} (what : string) (r : res A) : res A :=
  match r with
  | Ok a => Ok a
  | Err (BackendError m) => Err (BackendError m)
  | Err e => Err (BackendError (what ++ " failed: " ++ exc_str e))
  end.

Definition loaded_write (w : Write Payload) : res (string * string * pyval) :=
  let! v := loads_typed (w_type w) (w_payload w) in Ok (w_task w, w_channel w, v).

Definition _data_to_tuple (d : Data Payload) (thread ns id : string) (requested : option dict) : res CheckpointTuple :=
  let! checkpoint := loads_typed (checkpoint_type d) (checkpoint_blob d) in
  let! checkpoint := as_checkpoint checkpoint in
  let! metadata := loads_typed (metadata_type d) (metadata_blob d) in
  let! writes := map_res loaded_write (pending_writes d) in
  Ok {| t_config := default (config_of thread ns id) requested; t_checkpoint := checkpoint; t_metadata := metadata;
        t_parent := parent_config thread ns (Some (parent_checkpoint_id d)); t_writes := writes |}.

(** The tuple under a key; nothing when the key is not there. *)
Definition tuple_at (thread ns id : string) (requested : option dict) (s : S) : res (option CheckpointTuple) :=
  match redis_get (_ckpt_key thread ns id) s with
  | None => Ok None
  | Some raw =>
      let! d := _deserialize raw in
      let! t := _data_to_tuple d thread ns id requested in
      Ok (Some t)
  end.

Definition get_tuple_as (what : string) (config : dict) (s : S) : res (option CheckpointTuple) :=
  wrapped what
    (let! (thread, ns, id) := parse_config config in
     match id with
     | Some i => tuple_at thread ns i (Some config) s
     | None =>
         match zmembers (_idx_key thread ns) s with
         | [] => Ok None
         | (newest, _) :: _ => tuple_at thread ns newest None s
         end
     end).

Definition get_tuple : dict -> S -> res (option CheckpointTuple) := get_tuple_as "Redis get_tuple".
Definition aget_tuple : dict -> S -> res (option CheckpointTuple) := get_tuple_as "Redis aget_tuple".

(** [ZREVRANGEBYSCORE key top -inf LIMIT 0 count]; [None] is [+inf]. *)
Definition zrevrangebyscore (key : string) (top : option float) (count : option Z) (s : S) : list string :=
  let within := List.filter (fun m => match top with Some f => negb (frank_ltb f (snd m)) | None => true end) (zmembers key s) in
  List.map fst (match count with Some n => firstn (Z.to_nat n) within | None => within end).

Definition zscore (key m : string) (s : S) : option float := dlookup m (zmembers key s).

(** The tuples of the members; a member whose key is gone is left out. *)
Fixpoint listed_tuples (thread ns : string) (filter : option dict) (members : list string) (s : S) : res (list CheckpointTuple) :=
  match members with
  | [] => Ok []
  | id :: rest =>
      let! found := tuple_at thread ns id None s in
      let! here :=
        match found with
        | None => Ok []
        | Some t =>
            let! wanted := match filter with Some f => metadata_matches (t_metadata t) f | None => Ok true end in
            Ok (if wanted then [t] else [])
        end in
      let! others := listed_tuples thread ns filter rest s in
      Ok (here ++ others)%list
  end.

(** The id of [config] is not looked at; at most [limit] members are read, so the bound on
    what is yielded never binds. *)
Definition list_as (what : string) (config : option dict) (filter : option dict) (before : option dict) (limit : option Z) (s : S)
    : res (list CheckpointTuple) :=
  wrapped what
    match config with
    | None => Ok []
    | Some c =>
        let! (thread, ns, _) := parse_config c in
        let key := _idx_key thread ns in
        let top := match match before with Some b => get_checkpoint_id b | None => None end with
                   | Some i => zscore key i s
                   | None => None
                   end in
        let count := match limit with Some n => if 0 <=? n then Some n else None | None => None end in
        match limit with
        | Some n => if n <? 0 then Ok [] else listed_tuples thread ns filter (zrevrangebyscore key top count s) s
        | None => listed_tuples thread ns filter (zrevrangebyscore key top count s) s
        end
    end.

Definition list_tuples : option dict -> option dict -> option dict -> option Z -> S -> res (list CheckpointTuple) :=
  list_as "Redis list".
Definition alist : option dict -> option dict -> option dict -> option Z -> S -> res (list CheckpointTuple) :=
  list_as "Redis alist".

(** ** Writing *)

Definition put (now : float) (config checkpoint : dict) (metadata : pyval) (new_versions : dict) (s : S) : res (S * dict) :=
  let! (thread, ns, parent) := parse_config config in
  let! id := checkpoint_id checkpoint in
  let typed := dumps_typed (PDict checkpoint) in
  let meta := dumps_typed (get_checkpoint_metadata config metadata) in
  let! packed := _serialize {| checkpoint_type := fst typed; checkpoint_blob := snd typed; metadata_type := fst meta;
                               metadata_blob := snd meta; parent_checkpoint_id := default "" parent; pending_writes := [] |} in
  let key := _ckpt_key thread ns id in
  let index := _idx_key thread ns in
  Ok (expire index _ttl_seconds (expire key _ttl_seconds (zadd index id now (redis_set key packed s))), config_of thread ns id).

(** One write; a write of the task that was there before the call is skipped. *)
Definition put_write (task path : string) (existing acc : list (Write Payload)) (iw : Z * (string * pyval)) : list (Write Payload) :=
  let '(i, (channel, value)) := iw in
  let idx := default i (WRITES_IDX_MAP channel) in
  if (0 <=? idx) && existsb (fun w => String.eqb (w_task w) task && (w_idx w =? idx)) existing then acc
  else
    let typed := dumps_typed value in
    (acc ++ [{| w_task := task; w_idx := idx; w_channel := channel; w_type := fst typed; w_payload := snd typed; w_path := path |}])%list.

Definition put_writes (config : dict) (writes : list (string * pyval)) (task path : string) (s : S) : res S :=
  let! (thread, ns, id) := parse_config config in
  match id with
  | None => Err (ValueError "missing configurable.checkpoint_id")
  | Some id =>
      let key := _ckpt_key thread ns id in
      match redis_get key s with
      | None => Ok s
      | Some raw =>
          let! d := _deserialize raw in
          let existing := pending_writes d in
          let all := fold_left (put_write task path existing) (enumerate 0 writes) existing in
          let! packed := _serialize {| checkpoint_type := checkpoint_type d; checkpoint_blob := checkpoint_blob d;
                                       metadata_type := metadata_type d; metadata_blob := metadata_blob d;
                                       parent_checkpoint_id := parent_checkpoint_id d; pending_writes := all |} in
          Ok (expire key _ttl_seconds (redis_set key packed s))
      end
  end.

(** [adelete_thread]: the keys under the thread's prefix, which the index is not. *)
Definition adelete_thread (thread : string) (s : S) : S := delete_matching (_key_prefix ++ thread ++ ":*") s.

(** The asynchronous methods send the commands of the synchronous ones. *)
Definition aput : float -> dict -> dict -> pyval -> dict -> S -> res (S * dict) := put.
Definition aput_writes : dict -> list (string * pyval) -> string -> string -> S -> res S := put_writes.
End Saver.
