(* ===== verification/SaverProps.v ===== *)
(** * The checkpoint savers implement one history

    LangGraph saves the states of a thread one after the other: each checkpoint has a
    greater id than those before it, and the version of each of its channels is new or
    that of an earlier checkpoint with the same value.  For such histories both savers
    answer with what was saved ([SaverSpec]). *)
From Stdlib Require Import ZArith Lia String Ascii List Bool.
From stdpp Require Import base tactics list strings option.
From S2P Require Import Prelude PyStr StrFacts PyFloat PyVal Checkpoints.
From S2P Require SqliteSaver RedisSaver.
Local Open Scope string_scope.
Local Open Scope Z_scope.

(** ** Histories *)

Record Save := {
  sv_id : string; sv_checkpoint : dict; sv_metadata : pyval; sv_parent : option string; sv_new : dict; sv_time : float }.

Definition values (p : Save) : dict := dict_or_empty (dget (sv_checkpoint p) "channel_values" (PDict [])).
Definition versions (p : Save) : dict := dict_or_empty (dget (sv_checkpoint p) "channel_versions" (PDict [])).

(** The version of a channel, as a text. *)
Definition version_at (d : dict) (channel : string) : option string :=
  match dlookup channel d with
  | Some v => match SqliteSaver.version_text v with Ok s => Some s | Err _ => None end
  | None => None
  end.

Definition versioned (d : dict) : Prop := wf_keys d /\ List.Forall (fun kv => is_ok (SqliteSaver.version_text (snd kv)) = true) d.

(** A checkpoint as LangGraph builds it: every channel that has a value has a version. *)
Record well_formed (p : Save) : Prop := {
  wf_id : dlookup "id" (sv_checkpoint p) = Some (PStr (sv_id p));
  wf_parent : sv_parent p <> Some "";
  wf_channels : exists vs, dlookup "channel_values" (sv_checkpoint p) = Some (PDict vs);
  wf_versions : versioned (versions p);
  wf_new : versioned (sv_new p);
  wf_values : forall c, is_Some (dlookup c (values p)) -> is_Some (dlookup c (versions p)) }.

Record follows (h : list Save) (p : Save) : Prop := {
  f_id : forall q, In q h -> str_lt (sv_id q) (sv_id p) = true;
  f_time : forall q, In q h -> RedisSaver.zbefore (sv_id p, sv_time p) (sv_id q, sv_time q) = true;
  f_fresh : forall q c s, In q h -> version_at (sv_new p) c = Some s -> version_at (versions q) c <> Some s;
  f_covered : forall c s, version_at (versions p) c = Some s ->
    version_at (sv_new p) c = Some s \/
    exists q, In q h /\ version_at (versions q) c = Some s /\ dlookup c (values q) = dlookup c (values p) }.

Inductive disciplined : list Save -> Prop :=
| disciplined_nil : disciplined []
| disciplined_snoc h p : disciplined h -> well_formed p -> follows h p -> disciplined (h ++ [p]).

(** ** What a saver promises *)

Class Saver (St : Type) := {
  s_put : dict -> Save -> St -> res (St * dict);
  s_get : dict -> St -> res (option CheckpointTuple) }.

Section Spec.
Context `{LangGraph} (thread ns : string).

Definition config_for (parent : option string) : dict :=
  match parent with Some p => config_of thread ns p | None => thread_config thread ns end.

(** The tuple of a save, its channels in any order. *)
Record shows (p : Save) (t : CheckpointTuple) : Prop := {
  sh_checkpoint : exists vs, t_checkpoint t = dset "channel_values" (PDict vs) (sv_checkpoint p) /\
                    forall c, dlookup c vs = dlookup c (values p);
  sh_metadata : t_metadata t = get_checkpoint_metadata (config_for (sv_parent p)) (sv_metadata p);
  sh_parent : t_parent t = option_map (config_of thread ns) (sv_parent p);
  sh_config : t_config t = config_of thread ns (sv_id p);
  sh_writes : t_writes t = [] }.

Definition named (id : string) (h : list Save) : option Save := List.find (fun p => String.eqb (sv_id p) id) h.

Definition answers (found : option Save) (r : res (option CheckpointTuple)) : Prop :=
  match found with Some p => exists t, r = Ok (Some t) /\ shows p t | None => r = Ok None end.

Fixpoint saves {St} {O : Saver St} (h : list Save) (s : St) : res St :=
  match h with
  | [] => Ok s
  | p :: rest => let! (s, _) := s_put (config_for (sv_parent p)) p s in saves rest s
  end.

(** A history is saved; the latest checkpoint is the last one, every other is found by its id. *)
Class SaverSpec (St : Type) {O : Saver St} (init : St) : Prop := {
  saves_history h : disciplined h -> exists s, saves h init = Ok s /\
    answers (hd_error (rev h)) (s_get (thread_config thread ns) s) /\ forall id, answers (named id h) (s_get (config_of thread ns id) s) }.

Lemma saves_snoc {St} {O : Saver St} h p (s : St) :
  saves (h ++ [p]) s = let! s := saves h s in let! (s, _) := s_put (config_for (sv_parent p)) p s in Ok s.
Proof.
  revert s. induction h as [|q h IH]; intros s; cbn [saves app bind_res].
  - by destruct (s_put _ p s) as [[]|].
  - destruct (s_put _ q s) as [[s' ?]|]; cbn [bind_res]; [apply IH|done].
Qed.

Lemma parse_named id : strip thread = thread -> thread <> "" -> parse_config (config_of thread ns id) = Ok (thread, ns, Some id).
Proof. intros Hs Hn. cbn. rewrite Hs. by destruct (String.eqb_spec thread ""). Qed.

Lemma parse_thread : strip thread = thread -> thread <> "" -> parse_config (thread_config thread ns) = Ok (thread, ns, None).
Proof. intros Hs Hn. cbn. rewrite Hs. by destruct (String.eqb_spec thread ""). Qed.

Lemma parse_for parent : strip thread = thread -> thread <> "" -> parse_config (config_for parent) = Ok (thread, ns, parent).
Proof. destruct parent; [apply parse_named|apply parse_thread]. Qed.
End Spec.

(** What follows from a history being disciplined. *)
Lemma disciplined_inv h p : disciplined (h ++ [p]) -> disciplined h /\ well_formed p /\ follows h p.
Proof. inversion 1 as [E|h' p' ? ? ? E]; [by destruct h|]. by apply app_inj_2 in E as [-> [= ->]]. Qed.

Lemma disciplined_wf h p : disciplined h -> In p h -> well_formed p.
Proof.
  induction 1 as [|h q _ IH Hq _]; [done|]. rewrite in_app_iff. intros [Hin|[<-|[]]]; auto.
Qed.

Lemma disciplined_ids h : disciplined h -> List.NoDup (List.map sv_id h).
Proof.
  induction 1 as [|h p _ IH Hp Hf]; [constructor|]. rewrite List.map_app. apply List.NoDup_app; [exact IH|repeat constructor; by intros []|].
  intros x Hx [<-|[]]. apply in_map_iff in Hx as (q & E & Hq). pose proof (f_id _ _ Hf q Hq) as Hlt. rewrite E in Hlt.
  by rewrite (st_irrefl (lt := str_lt)) in Hlt.
Qed.

Lemma named_In h p : disciplined h -> In p h -> named (sv_id p) h = Some p.
Proof.
  intros Hd. pose proof (disciplined_ids h Hd) as Hn. clear Hd. unfold named.
  induction h as [|q h IH]; [done|]. inversion Hn as [|? ? Hq Hn']; subst. cbn [List.find]. intros [->|Hin].
  - by rewrite String.eqb_refl.
  - destruct (String.eqb_spec (sv_id q) (sv_id p)) as [E|_]; [|by apply IH].
    exfalso. apply Hq. rewrite E. by apply in_map.
Qed.

(** ** The SQLite saver *)

Section Sqlite.
Context {Payload : Type} `{Serde Payload} `{!SerdeLaws Payload} `{LangGraph} (thread ns : string).
Context (Hstrip : strip thread = thread) (Hthread : thread <> "").
Import SqliteSaver.

#[local] Instance sqlite_saver : Saver (Tables Payload) := {
  s_put config p t := put config (sv_checkpoint p) (sv_metadata p) (sv_new p) t;
  s_get config t := get_tuple config t }.

Definition row_of (p : Save) : CheckpointRow Payload :=
  let typed := dumps_typed (PDict (stripped (sv_checkpoint p))) in
  let meta := dumps_typed (get_checkpoint_metadata (config_for thread ns (sv_parent p)) (sv_metadata p)) in
  {| c_thread := thread; c_ns := ns; c_id := sv_id p; checkpoint_type := fst typed; checkpoint_blob := snd typed;
     metadata_type := fst meta; metadata_blob := snd meta; parent_checkpoint_id := sv_parent p |}.

(** The row of a channel's version. *)
Definition blob_of (channel version : string) (v : option pyval) : BlobRow Payload :=
  let typed := match v with Some v => dumps_typed v | None => ("empty", no_bytes) end in
  {| b_thread := thread; b_ns := ns; b_channel := channel; b_version := version; b_type := fst typed; b_payload := snd typed |}.

Definition found_blob (channel version : string) (blobs : list (BlobRow Payload)) : option (BlobRow Payload) :=
  List.find (blob_at thread ns channel version) blobs.

Lemma blob_at_spec channel version c s v :
  blob_at thread ns channel version (blob_of c s v) = String.eqb c channel && String.eqb s version.
Proof. unfold blob_at, blob_of. cbn. by rewrite !String.eqb_refl. Qed.

Lemma same_blob_at r channel version v : same_blob r (blob_of channel version v) = blob_at thread ns channel version r.
Proof. reflexivity. Qed.

(** Replacing the row of a key: the row is found at its key, the others where they were. *)
Lemma replace_blob c s v channel version blobs :
  found_blob channel version (replace_row same_blob (blob_of c s v) blobs) =
    if String.eqb c channel && String.eqb s version then Some (blob_of c s v) else found_blob channel version blobs.
Proof.
  unfold found_blob, replace_row. rewrite find_snoc, blob_at_spec.
  destruct (String.eqb c channel && String.eqb s version) eqn:E.
  - apply andb_prop in E as [->%String.eqb_eq ->%String.eqb_eq].
    assert (En : List.find (blob_at thread ns channel version)
                   (List.filter (fun r' => negb (same_blob r' (blob_of channel version v))) blobs) = None).
    { destruct (List.find _ _) as [r|] eqn:Ef; [|done]. apply find_some in Ef as [Hin Hb]. apply filter_In in Hin as [_ Hs].
      by rewrite same_blob_at, Hb in Hs. }
    by rewrite En.
  - rewrite find_filter; [by destruct (List.find _ blobs)|]. intros r Hb. rewrite same_blob_at. apply negb_true_iff, not_true_iff_false. intros Hs.
    apply not_true_iff_false in E. apply E. unfold blob_at in *. bool_prop. subst. by rewrite !String.eqb_refl.
Qed.

Lemma version_at_cons c0 v0 s0 l c :
  version_text v0 = Ok s0 -> version_at ((c0, v0) :: l) c = if String.eqb c c0 then Some s0 else version_at l c.
Proof. intros E. unfold version_at. cbn [dlookup]. destruct (String.eqb c c0); [by rewrite E|done]. Qed.

Lemma version_at_fresh (l : dict) c : ~ In c (List.map fst l) -> version_at l c = None.
Proof. intros Hn. unfold version_at. by rewrite (proj2 (dlookup_None_keys _ _)). Qed.

Lemma versioned_cons c0 v0 l : versioned ((c0, v0) :: l) -> ~ In c0 (List.map fst l) /\ versioned l /\ exists s, version_text v0 = Ok s.
Proof.
  intros [Hn Hv]. inversion Hn as [|? ? Hc Hn']; inversion Hv as [|? ? E Hv']; subst. split; [exact Hc|]. split; [by split|].
  cbn in E. destruct (version_text v0) as [s|]; [by exists s|done].
Qed.

(** The blobs of a save are found, the others are where they were. *)
Lemma put_blobs vs new blobs : versioned new ->
  exists blobs', fold_res (put_blob thread ns vs) blobs new = Ok blobs' /\
    forall c s, found_blob c s blobs' =
      if bool_decide (version_at new c = Some s) then Some (blob_of c s (dlookup c vs)) else found_blob c s blobs.
Proof.
  revert blobs. induction new as [|[c0 v0] l IH]; intros blobs Hv; [by exists blobs|].
  apply versioned_cons in Hv as (Hc & Hv & s0 & E). cbn [fold_res]. unfold put_blob at 1. cbn [fst snd]. rewrite E. cbn [bind_res].
  destruct (IH (replace_row same_blob (blob_of c0 s0 (dlookup c0 vs)) blobs) Hv) as (blobs' & Ef & Hf).
  exists blobs'. split; [exact Ef|]. intros c s. rewrite Hf, replace_blob, (version_at_cons _ _ _ _ _ E).
  destruct (String.eqb_spec c c0) as [->|Hne].
  - rewrite (version_at_fresh l c0 Hc), bool_decide_eq_false_2 by done. rewrite String.eqb_refl. cbn [andb].
    destruct (String.eqb_spec s0 s) as [->|Hs]; [by rewrite bool_decide_eq_true_2|]. rewrite bool_decide_eq_false_2; [done|congruence].
  - destruct (String.eqb_spec c0 c); [congruence|]. done.
Qed.

(** Channels whose blobs are there are loaded. *)
Lemma load_values vs l blobs : versioned l ->
  (forall c s, version_at l c = Some s -> found_blob c s blobs = Some (blob_of c s (dlookup c vs))) ->
  exists out, _load_channel_values thread ns l blobs = Ok out /\
    forall c, dlookup c out = if dhas c l then dlookup c vs else None.
Proof.
  induction l as [|[c0 v0] l IH]; intros Hv Hb; [by exists []|].
  apply versioned_cons in Hv as (Hc & Hv & s0 & E). cbn [_load_channel_values]. rewrite E. cbn [bind_res].
  pose proof (Hb c0 s0) as Hf. rewrite (version_at_cons _ _ _ _ _ E), String.eqb_refl in Hf. unfold found_blob in Hf. rewrite Hf by done.
  destruct IH as (out & Eo & Ho); [exact Hv| |].
  { intros c s Hs. apply Hb. rewrite (version_at_cons _ _ _ _ _ E). destruct (String.eqb_spec c c0) as [->|]; [|done].
    by rewrite version_at_fresh in Hs. }
  assert (Hd : dhas c0 l = false) by (unfold dhas; by rewrite (proj2 (dlookup_None_keys _ _) Hc)).
  assert (Hh : exists here, (if String.eqb (b_type (blob_of c0 s0 (dlookup c0 vs))) "empty" then Ok []
      else let! v := loads_typed (b_type (blob_of c0 s0 (dlookup c0 vs))) (b_payload (blob_of c0 s0 (dlookup c0 vs))) in Ok [(c0, v)])
      = Ok here /\ here = match dlookup c0 vs with Some v => [(c0, v)] | None => [] end).
  { unfold blob_of. cbn [b_type b_payload]. destruct (dlookup c0 vs) as [v|]; [|by eexists].
    destruct (String.eqb_spec (fst (dumps_typed v)) "empty") as [Et|_]; [by apply type_not_empty in Et|].
    rewrite loads_dumps. by eexists. }
  destruct Hh as (here & -> & ->). cbn [bind_res]. rewrite Eo. cbn [bind_res]. eexists. split; [reflexivity|].
  intros c. unfold dhas at 1. cbn [dlookup]. destruct (String.eqb_spec c c0) as [->|Hne].
  - destruct (dlookup c0 vs) as [v|]; cbn; [by rewrite String.eqb_refl|]. by rewrite Ho, Hd.
  - pose proof (Ho c) as Hoc. unfold dhas in Hoc. rewrite <- Hoc. destruct (dlookup c0 vs); cbn; [|done]. by destruct (String.eqb_spec c c0).
Qed.

(** The tables after a history. *)
Record tables_hold (h : list Save) (t : Tables Payload) : Prop := {
  th_rows : checkpoints t = List.map row_of h;
  th_blobs : forall q c s, In q h -> version_at (versions q) c = Some s ->
    found_blob c s (checkpoint_blobs t) = Some (blob_of c s (dlookup c (values q)));
  th_writes : checkpoint_writes t = [] }.

Lemma sqlite_put h p t :
  disciplined (h ++ [p]) -> tables_hold h t ->
  exists t' c, s_put (config_for thread ns (sv_parent p)) p t = Ok (t', c) /\ tables_hold (h ++ [p]) t'.
Proof.
  intros Hd [Hr Hb Hw]. apply disciplined_inv in Hd as (Hd & Hp & Hf).
  cbn [s_put sqlite_saver]. unfold put. rewrite parse_for by done. cbn [bind_res]. fold (values p).
  unfold checkpoint_id. rewrite (wf_id _ Hp). cbn [bind_res].
  destruct (put_blobs (values p) (sv_new p) (checkpoint_blobs t) (wf_new _ Hp)) as (blobs & -> & Hblobs). cbn [bind_res].
  eexists _, _. split; [reflexivity|]. split; cbn [checkpoints checkpoint_blobs checkpoint_writes]; [|intros q c s Hq Hs|exact Hw].
  - rewrite Hr, List.map_app. cbn [List.map]. unfold replace_row. f_equal. apply filter_all, List.Forall_map, List.Forall_forall.
    intros q Hq. apply negb_true_iff, not_true_iff_false. intros E. unfold same_checkpoint in E. cbn in E. bool_prop.
    pose proof (f_id _ _ Hf q Hq) as Hlt. match goal with E : sv_id q = sv_id p |- _ => rewrite E in Hlt end.
    by rewrite (st_irrefl (lt := str_lt)) in Hlt.
  - rewrite Hblobs. apply in_app_iff in Hq as [Hq|[<-|[]]].
    + rewrite bool_decide_eq_false_2; [by apply Hb|]. intros E. exact (f_fresh _ _ Hf q c s Hq E Hs).
    + destruct (bool_decide_reflect (version_at (sv_new p) c = Some s)) as [_|Hne]; [done|].
      destruct (f_covered _ _ Hf c s Hs) as [?|(q & Hq & Hs' & <-)]; [done|by apply Hb].
Qed.

Lemma row_shown h t q requested :
  disciplined h -> tables_hold h t -> In q h -> default (config_of thread ns (sv_id q)) requested = config_of thread ns (sv_id q) ->
  exists tuple, _row_to_checkpoint_tuple requested (row_of q) t = Ok tuple /\ shows thread ns q tuple.
Proof.
  intros Hd [_ Hb Hw] Hq Hreq. pose proof (disciplined_wf _ _ Hd Hq) as W. unfold _row_to_checkpoint_tuple.
  unfold row_of at 1 2. cbn [checkpoint_type checkpoint_blob]. rewrite loads_dumps. cbn [bind_res as_checkpoint].
  unfold stripped at 1. rewrite dget_dset_ne by done. fold (versions q).
  destruct (load_values (values q) (versions q) (checkpoint_blobs t) (wf_versions _ W)) as (out & Ho & Hv);
    [intros c s Hs; exact (Hb q c s Hq Hs)|].
  cbn [c_thread c_ns row_of]. rewrite Ho. cbn [bind_res]. unfold row_of at 1 2. cbn [metadata_type metadata_blob].
  rewrite loads_dumps. cbn [bind_res]. unfold _load_pending_writes. rewrite Hw. cbn [List.filter map_res bind_res].
  eexists. split; [reflexivity|]. split; cbn; [|done| |exact Hreq|done].
  - exists out. unfold stripped. rewrite dset_dset. split; [done|]. intros c. rewrite Hv. unfold dhas.
    destruct (dlookup c (versions q)) as [v|] eqn:Ev; [done|]. destruct (dlookup c (values q)) as [v|] eqn:E; [|done].
    destruct (wf_values _ W c) as [v' E']; [by eexists|congruence].
  - unfold parent_config. pose proof (wf_parent _ W) as Hpar. destruct (sv_parent q) as [x|]; [|done].
    cbn. destruct (String.eqb_spec x ""); [congruence|done].
Qed.

(** The newest row is that of the last save. *)
Lemma newest_last h : disciplined h -> hd_error (newest_first (List.map row_of h)) = option_map row_of (hd_error (rev h)).
Proof.
  intros Hd. destruct h as [|p h] using rev_ind; [done|]. apply disciplined_inv in Hd as (_ & _ & Hf).
  rewrite rev_app_distr, List.map_app. cbn [List.map rev app hd_error option_map]. unfold newest_first.
  rewrite py_sorted_snoc, insert_first; [done|]. intros r Hr. apply py_sorted_In, in_map_iff in Hr as (q & <- & Hq).
  exact (f_id _ _ Hf q Hq).
Qed.

Lemma found_row h id :
  List.find (fun r => of_thread thread ns r && String.eqb (c_id r) id) (List.map row_of h) = option_map row_of (named id h).
Proof.
  unfold named. induction h as [|q h IH]; [done|]. cbn [List.map List.find]. unfold of_thread, row_of at 1 2 3. cbn [c_thread c_ns c_id].
  rewrite !String.eqb_refl. cbn [andb]. by destruct (String.eqb (sv_id q) id).
Qed.

(** What [pick] finds, in this namespace and in the empty one. *)
Lemma picked h t id : disciplined h -> tables_hold h t ->
  pick thread id t ns = option_map row_of (match id with Some i => named i h | None => hd_error (rev h) end) /\
  (ns <> "" -> pick thread id t "" = None).
Proof.
  intros Hd [Hr _ _]. unfold pick. rewrite Hr.
  assert (Ha : forall n (l : list (CheckpointRow Payload)), (forall r, In r l -> of_thread thread n r = true) -> List.filter (of_thread thread n) l = l)
    by (intros n l Hl; apply filter_all, List.Forall_forall, Hl).
  assert (Hno : ns <> "" -> forall r, In r (List.map row_of h) -> of_thread thread "" r = false).
  { intros Hns r Hin. apply in_map_iff in Hin as (q & <- & _). unfold of_thread. cbn. rewrite String.eqb_refl. by apply String.eqb_neq. }
  destruct id as [i|]; split.
  - apply found_row.
  - intros Hns. destruct (List.find _ _) as [r|] eqn:E; [|done]. apply find_some in E as [Hin E]. by rewrite (Hno Hns r Hin) in E.
  - rewrite Ha; [by apply newest_last|]. intros r Hin. apply in_map_iff in Hin as (q & <- & _). unfold of_thread. cbn. by rewrite !String.eqb_refl.
  - intros Hns. replace (List.filter (of_thread thread "") (List.map row_of h)) with (@nil (CheckpointRow Payload)); [done|].
    symmetry. pose proof (Hno Hns) as Hn. clear - Hn. induction (List.map row_of h) as [|r l IH]; [done|]. cbn. rewrite (Hn r) by (by left).
    apply IH. intros r' Hin. apply Hn. by right.
Qed.

#[local] Instance sqlite_spec : SaverSpec thread ns (Tables Payload) empty_tables.
Proof.
  split. intros h Hd.
  assert (Hs : exists t, saves thread ns h empty_tables = Ok t /\ tables_hold h t).
  { induction h as [|p h IH] using rev_ind; [exists empty_tables; split; [done|by split]|].
    destruct (IH (proj1 (disciplined_inv _ _ Hd))) as (t & E & Ht). destruct (sqlite_put _ _ _ Hd Ht) as (t' & c & Ep & Ht').
    exists t'. split; [|exact Ht']. rewrite saves_snoc, E. cbn [bind_res]. by rewrite Ep. }
  destruct Hs as (t & E & Ht). exists t. split; [exact E|].
  assert (G : forall config id, parse_config config = Ok (thread, ns, id) ->
            (forall i, id = Some i -> config = config_of thread ns i) ->
            answers thread ns (match id with Some i => named i h | None => hd_error (rev h) end) (s_get config t)).
  { intros config id Hp Hc. destruct (picked h t id Hd Ht) as [H1 H2]. cbn [s_get sqlite_saver]. unfold get_tuple. rewrite Hp. cbn [bind_res].
    rewrite H1. destruct (match id with Some i => named i h | None => hd_error (rev h) end) as [q|] eqn:Eq; cbn [option_map answers].
    - assert (Hq : In q h /\ forall i, id = Some i -> sv_id q = i).
      { destruct id as [i|]; [apply find_some in Eq as [Hin Ei%String.eqb_eq]; split; [done|by intros ? [= <-]]|].
        split; [|done]. apply in_rev. destruct (rev h); [done|]. injection Eq as ->. by left. }
      destruct (row_shown h t q (match id with Some _ => Some config | None => None end) Hd Ht (proj1 Hq)) as (tuple & Et & Hsh).
      { destruct id as [i|]; [|done]. cbn. by rewrite (Hc i eq_refl), (proj2 Hq i eq_refl). }
      rewrite Et. by exists tuple.
    - destruct (String.eqb_spec ns "") as [_|Hns]; [done|]. by rewrite (H2 Hns). }
  split; [apply (G _ None); [by apply parse_thread|done]|]. intros id. apply (G _ (Some id)); [by apply parse_named|by intros i [= ->]].
Qed.
End Sqlite.

(** ** The Redis saver *)

Lemma append_cancel (l a b : string) : l ++ a = l ++ b -> a = b.
Proof. induction l as [|c l IH]; [done|]. change (String c l ++ a) with (String c (l ++ a)). intros [= H]. by apply IH. Qed.

Lemma starts_idx thread rest : startswith (thread ++ ":" ++ rest) "idx" = true -> startswith thread "idx" = true.
Proof.
  destruct thread as [|a [|b [|c t]]].
  4: { change (String a (String b (String c t)) ++ ":" ++ rest) with (String a (String b (String c (t ++ ":" ++ rest)))).
       cbn [startswith]. destruct (Ascii.eqb "i" a), (Ascii.eqb "d" b), (Ascii.eqb "x" c); try done. by destruct t. }
  all: cbn [String.append startswith]; try done.
Qed.

Section RedisServer.
Context {Payload V S : Type} `{Serde Payload} `{!SerdeLaws Payload} `{LangGraph}.
Context `{RedisSaver.CheckpointServer Payload V S} `{!RedisSaver.ServerLaws Payload V S}.
Context (thread ns prefix : string) (ttl : Z) (pack : RedisSaver.Data Payload -> V).
Context (Hstrip : strip thread = thread) (Hthread : thread <> "") (Hidx : startswith thread "idx" = false).
Context (Hpack : RedisSaver.msgpack = Some pack) (Httl : 0 < ttl).
Import RedisSaver.

#[local] Instance redis_saver : Saver S := {
  s_put config p s := put prefix ttl (sv_time p) config (sv_checkpoint p) (sv_metadata p) (sv_new p) s;
  s_get config s := get_tuple prefix config s }.

Abbreviation ckpt id := (_ckpt_key prefix thread ns id).
Abbreviation index := (_idx_key prefix thread ns).

Lemma ckpt_inj id id' : ckpt id = ckpt id' -> id = id'.
Proof. unfold _ckpt_key. intros E. by repeat apply append_cancel in E. Qed.

Lemma ckpt_index id : ckpt id <> index.
Proof.
  unfold _ckpt_key, _idx_key. intros E. apply append_cancel in E.
  assert (Hs : startswith (thread ++ ":" ++ ns ++ ":" ++ id) "idx" = true) by (by rewrite E).
  apply starts_idx in Hs. congruence.
Qed.

Definition data_of (p : Save) : Data Payload :=
  let typed := dumps_typed (PDict (sv_checkpoint p)) in
  let meta := dumps_typed (get_checkpoint_metadata (config_for thread ns (sv_parent p)) (sv_metadata p)) in
  {| checkpoint_type := fst typed; checkpoint_blob := snd typed; metadata_type := fst meta; metadata_blob := snd meta;
     parent_checkpoint_id := default "" (sv_parent p); pending_writes := [] |}.

(** The keys of the thread after a history. *)
Record server_holds (h : list Save) (s : S) : Prop := {
  rh_get : forall id, redis_get (ckpt id) s = option_map (fun p => pack (data_of p)) (named id h);
  rh_members : zmembers index s = rev (List.map (fun p => (sv_id p, sv_time p)) h) }.

Lemma named_snoc h p id : disciplined (h ++ [p]) -> named id (h ++ [p]) = if String.eqb (sv_id p) id then Some p else named id h.
Proof.
  intros Hd. destruct (String.eqb_spec (sv_id p) id) as [<-|Hne]; [apply named_In; [exact Hd|apply in_app_iff; right; by left]|].
  unfold named. rewrite find_snoc. destruct (List.find _ h); [done|]. by destruct (String.eqb_spec (sv_id p) id).
Qed.

Lemma redis_put h p s :
  disciplined (h ++ [p]) -> server_holds h s ->
  exists s' c, s_put (config_for thread ns (sv_parent p)) p s = Ok (s', c) /\ server_holds (h ++ [p]) s'.
Proof.
  intros Hd [Hg Hm]. assert (Hn : forall id, named id (h ++ [p]) = if String.eqb (sv_id p) id then Some p else named id h)
    by (intros id; by apply named_snoc).
  apply disciplined_inv in Hd as (Hd & Hp & Hf). cbn [s_put redis_saver]. unfold put. rewrite parse_for by done. cbn [bind_res].
  unfold checkpoint_id. rewrite (wf_id _ Hp). cbn [bind_res py_str]. unfold _serialize. rewrite Hpack. cbn [bind_res].
  eexists _, _. split; [reflexivity|]. split.
  - intros id. rewrite Hn, !get_expire, get_zadd by (exact Httl || apply ckpt_index).
    destruct (String.eqb_spec (sv_id p) id) as [<-|Hne]; [by rewrite get_set|].
    rewrite get_set_ne; [apply Hg|]. intros E. apply ckpt_inj in E. congruence.
  - rewrite !members_expire, members_zadd, members_set by (exact Httl || apply not_eq_sym, ckpt_index).
    rewrite Hm, List.map_app, rev_app_distr. cbn [List.map rev app]. unfold zinsert. rewrite filter_all, insert_first; [done| |].
    + intros y Hy. apply in_rev, in_map_iff in Hy as (q & <- & Hq). exact (f_time _ _ Hf q Hq).
    + apply List.Forall_forall. intros y Hy. apply in_rev, in_map_iff in Hy as (q & <- & Hq). cbn.
      apply negb_true_iff, String.eqb_neq. intros E. pose proof (f_id _ _ Hf q Hq) as Hlt. rewrite E in Hlt.
      by rewrite (st_irrefl (lt := str_lt)) in Hlt.
Qed.

Lemma data_shown h s q requested :
  disciplined h -> server_holds h s -> In q h -> default (config_of thread ns (sv_id q)) requested = config_of thread ns (sv_id q) ->
  exists tuple, tuple_at prefix thread ns (sv_id q) requested s = Ok (Some tuple) /\ shows thread ns q tuple.
Proof.
  intros Hd [Hg _] Hq Hreq. pose proof (disciplined_wf _ _ Hd Hq) as W. unfold tuple_at. rewrite Hg, (named_In h q Hd Hq).
  cbn [option_map]. unfold _deserialize. rewrite (unpack_pack pack) by exact Hpack. cbn [bind_res].
  unfold _data_to_tuple, data_of. cbn [checkpoint_type checkpoint_blob metadata_type metadata_blob pending_writes parent_checkpoint_id].
  rewrite loads_dumps. cbn [bind_res as_checkpoint]. rewrite loads_dumps. cbn [bind_res map_res].
  eexists. split; [reflexivity|]. split; cbn; [|done| |exact Hreq|done].
  - unfold values. destruct (wf_channels _ W) as [vs Ev].
    exists vs. unfold dget. rewrite Ev. split; [by rewrite dset_same|done].
  - pose proof (wf_parent _ W) as Hpar. unfold parent_config. destruct (sv_parent q) as [x|]; [|done].
    cbn. destruct (String.eqb_spec x ""); [congruence|done].
Qed.

#[local] Instance redis_spec s0 (Hempty : zmembers index s0 = []) (Hnone : forall id, redis_get (ckpt id) s0 = None) :
  SaverSpec thread ns S s0.
Proof.
  split. intros h Hd.
  assert (Hs : exists s, saves thread ns h s0 = Ok s /\ server_holds h s).
  { induction h as [|p h IH] using rev_ind; [exists s0; split; [done|by split]|].
    destruct (IH (proj1 (disciplined_inv _ _ Hd))) as (s & E & Hs). destruct (redis_put _ _ _ Hd Hs) as (s' & c & Ep & Hs').
    exists s'. split; [|exact Hs']. rewrite saves_snoc, E. cbn [bind_res]. by rewrite Ep. }
  destruct Hs as (s & E & Hs). exists s. split; [exact E|]. cbn [s_get redis_saver]. unfold get_tuple, get_tuple_as. split.
  - rewrite parse_thread by done. cbn [bind_res]. rewrite (rh_members _ _ Hs), <- List.map_rev.
    destruct (rev h) as [|q l] eqn:Er; [done|]. cbn [List.map hd_error answers].
    destruct (data_shown h s q None Hd Hs) as (t & -> & Ht); [|done|by exists t]. apply in_rev. rewrite Er. by left.
  - intros id. rewrite parse_named by done. cbn [bind_res]. destruct (named id h) as [q|] eqn:Eq; cbn [answers].
    + apply find_some in Eq as [Hin <-%String.eqb_eq].
      destruct (data_shown h s q (Some (config_of thread ns (sv_id q))) Hd Hs Hin eq_refl) as (t & -> & Ht). by exists t.
    + unfold tuple_at. by rewrite (rh_get _ _ Hs), Eq.
Qed.
End RedisServer.


(** ** Both savers *)

Section Agreement.
Context {Payload V S : Type} `{Serde Payload} `{!SerdeLaws Payload} `{LangGraph}.
Context `{RedisSaver.CheckpointServer Payload V S} `{!RedisSaver.ServerLaws Payload V S}.
Context (thread ns prefix : string) (ttl : Z) (pack : RedisSaver.Data Payload -> V).

(** C21: The two checkpoint backends implement the same store of checkpoints.  Take any
    history as LangGraph makes it, a thread whose name is not empty, has no surrounding
    blanks and does not begin with [idx], msgpack installed, a positive time to live, and
    a server without keys of the thread.  Then both savers store every checkpoint without
    an exception, and afterwards both answer a request for the latest checkpoint with the
    last one saved, and a request for any id with the checkpoint of that id, or with
    nothing when there is none: the same checkpoint, values of its channels, metadata and
    parent.  SQLite has put these together again from one row per channel and version. *)
Theorem savers_agree h s0 :
  strip thread = thread -> thread <> "" -> startswith thread "idx" = false ->
  RedisSaver.msgpack = Some pack -> 0 < ttl ->
  RedisSaver.zmembers (RedisSaver._idx_key prefix thread ns) s0 = [] ->
  (forall id, RedisSaver.redis_get (RedisSaver._ckpt_key prefix thread ns id) s0 = None) ->
  disciplined h ->
  exists t s,
    saves (O := sqlite_saver) thread ns h SqliteSaver.empty_tables = Ok t /\
    saves (O := redis_saver prefix ttl) thread ns h s0 = Ok s /\
    (answers thread ns (hd_error (rev h)) (SqliteSaver.get_tuple (thread_config thread ns) t) /\
     answers thread ns (hd_error (rev h)) (RedisSaver.get_tuple prefix (thread_config thread ns) s)) /\
    forall id,
      answers thread ns (named id h) (SqliteSaver.get_tuple (config_of thread ns id) t) /\
      answers thread ns (named id h) (RedisSaver.get_tuple prefix (config_of thread ns id) s).
Proof.
  intros Hstrip Hthread Hidx Hpack Httl Hempty Hnone Hd.
  destruct (@saves_history _ _ _ _ _ _ (sqlite_spec thread ns Hstrip Hthread) h Hd) as (t & Et & Lt & It).
  destruct (@saves_history _ _ _ _ _ _ (redis_spec thread ns prefix ttl pack Hstrip Hthread Hidx Hpack Httl s0 Hempty Hnone) h Hd)
    as (s & Es & Ls & Is).
  exists t, s. repeat split; [exact Et|exact Es|exact Lt|exact Ls|apply It|apply Is].
Qed.
End Agreement.

(** ** A server in memory, and a run of two checkpoints *)

Module Sample.
Record Memory := { kv : list (string * RedisSaver.Data pyval); zsets : list (string * list (string * float)) }.

Definition members_of (k : string) (m : Memory) : list (string * float) := default [] (dlookup k (zsets m)).

#[local] Instance plain : Serde pyval := { dumps_typed v := ("json", v); loads_typed _ v := Ok v; no_bytes := PNone }.
#[local] Instance plain_laws : SerdeLaws pyval.
Proof. by split. Qed.

#[local] Instance langgraph : LangGraph := {
  get_checkpoint_metadata _ m := m;
  get_checkpoint_id config :=
    match dlookup "configurable" config with
    | Some (PDict c) => match dlookup "checkpoint_id" c with Some (PStr i) => Some i | _ => None end
    | _ => None
    end;
  WRITES_IDX_MAP channel := if String.eqb channel "__error__" then Some (-1) else None }.

#[local] Instance memory : RedisSaver.CheckpointServer pyval (RedisSaver.Data pyval) Memory := {
  RedisSaver.msgpack := Some id;
  RedisSaver.unpackb := Ok;
  RedisSaver.redis_set k v m := {| kv := dset k v (kv m); zsets := zsets m |};
  RedisSaver.redis_get k m := dlookup k (kv m);
  RedisSaver.zadd k x score m := {| kv := kv m; zsets := dset k (RedisSaver.zinsert x score (members_of k m)) (zsets m) |};
  RedisSaver.expire _ _ m := m;
  RedisSaver.delete_matching pattern m :=
    let under (k : string) := startswith k (substring 0 (String.length pattern - 1) pattern) in
    {| kv := List.filter (fun x => negb (under (fst x))) (kv m);
       zsets := List.filter (fun x => negb (under (fst x))) (zsets m) |};
  RedisSaver.zmembers := members_of }.

Definition checkpoint (id : string) (versions values : dict) : dict :=
  [("id", PStr id); ("channel_values", PDict values); ("channel_versions", PDict versions)].

(** A first checkpoint with a value of [x], a second one that adds [y]. *)
Definition first : Save :=
  {| sv_id := "1"; sv_checkpoint := checkpoint "1" [("x", PStr "1")] [("x", PInt 5)]; sv_metadata := PDict [("step", PInt 0)];
     sv_parent := None; sv_new := [("x", PStr "1")]; sv_time := float_of_Z 1 |}.
Definition second : Save :=
  {| sv_id := "2"; sv_checkpoint := checkpoint "2" [("x", PStr "1"); ("y", PStr "2")] [("x", PInt 5); ("y", PInt 7)];
     sv_metadata := PDict [("step", PInt 1)]; sv_parent := Some "1"; sv_new := [("y", PStr "2")]; sv_time := float_of_Z 2 |}.
Definition nothing : Memory := {| kv := []; zsets := [] |}.

#[local] Instance memory_laws : RedisSaver.ServerLaws pyval (RedisSaver.Data pyval) Memory.
Proof.
  split; cbn; try done.
  - by intros pack d [= <-].
  - intros. by rewrite dlookup_dset_eq.
  - intros. by rewrite dlookup_dset_ne.
  - intros. unfold members_of. cbn. by rewrite dlookup_dset_eq.
Qed.

Lemma text_versioned x s l : versioned l -> ~ In x (List.map fst l) -> versioned ((x, PStr s) :: l).
Proof. intros [Hw Hf] Hn. split; [by constructor|by constructor]. Qed.

Lemma none_versioned : versioned [].
Proof. split; constructor. Qed.

Lemma version_one x s l c v : version_at ((x, PStr s) :: l) c = Some v -> (c = x /\ v = s) \/ version_at l c = Some v.
Proof. unfold version_at. cbn [dlookup]. destruct (String.eqb_spec c x) as [->|]; [|by right]. intros [= ->]. by left. Qed.

Lemma run_disciplined : disciplined [first; second].
Proof.
  change [first; second] with (([] ++ [first]) ++ [second])%list.
  assert (Hw : well_formed first /\ well_formed second).
  { split; split; try done; try (by eexists); repeat (apply text_versioned || apply none_versioned); cbn; try tauto; try (intros [?|[]]; congruence).
    all: intros c; unfold values, versions; cbn; repeat (destruct (String.eqb c _); [by eexists|]); by intros []. }
  constructor; [constructor; [constructor|apply Hw|]|apply Hw|]; split; cbn; try done.
  - intros c s Hs. by left.
  - by intros q [<-|[]].
  - by intros q [<-|[]].
  - intros q c s [<-|[]] Hs. apply version_one in Hs as [[-> ->]|Hs]; [by vm_compute|done].
  - intros c s Hs. apply version_one in Hs as [[-> ->]|Hs].
    + right. exists first. split; [by left|]. by split.
    + by left.
Qed.

Lemma savers_agree_witness :
  exists t s,
    saves (O := sqlite_saver) "t" "" [first; second] SqliteSaver.empty_tables = Ok t /\
    saves (O := redis_saver "lula:ckpt:" 86400) "t" "" [first; second] nothing = Ok s /\
    (answers "t" "" (Some second) (SqliteSaver.get_tuple (thread_config "t" "") t) /\
     answers "t" "" (Some second) (RedisSaver.get_tuple "lula:ckpt:" (thread_config "t" "") s)) /\
    forall id,
      answers "t" "" (named id [first; second]) (SqliteSaver.get_tuple (config_of "t" "" id) t) /\
      answers "t" "" (named id [first; second]) (RedisSaver.get_tuple "lula:ckpt:" (config_of "t" "" id) s).
Proof.
  apply (savers_agree "t" "" "lula:ckpt:" 86400 id [first; second] nothing); try reflexivity; try done.
  exact run_disciplined.
Defined.

(** ** Where they differ *)

Abbreviation redis_config id := (config_of "t" "" id).
Abbreviation prefix := "lula:ckpt:".

(** The state of both after the run. *)
Definition stored : Memory := match saves (O := redis_saver prefix 86400) "t" "" [first; second] nothing with Ok s => s | Err _ => nothing end.
Definition tables : SqliteSaver.Tables pyval :=
  match saves (O := sqlite_saver) "t" "" [first; second] SqliteSaver.empty_tables with Ok t => t | Err _ => SqliteSaver.empty_tables end.

Definition listed_ids (r : res (list CheckpointTuple)) : list string :=
  match r with Ok ts => List.map (fun t => default "" (get_checkpoint_id (t_config t))) ts | Err _ => [] end.

(** Checkpoints before the second one: SQLite lists the first, Redis the second too. *)
Example redis_before_is_inclusive :
  listed_ids (SqliteSaver.list_tuples (Some (thread_config "t" "")) None (Some (redis_config "2")) None tables) = ["1"] /\
  listed_ids (RedisSaver.list_tuples prefix (Some (thread_config "t" "")) None (Some (redis_config "2")) None stored) = ["2"; "1"].
Proof. by vm_compute. Qed.

(** The checkpoints of an id: SQLite lists it, Redis the whole thread. *)
Example redis_list_ignores_id :
  listed_ids (SqliteSaver.list_tuples (Some (redis_config "1")) None None None tables) = ["1"] /\
  listed_ids (RedisSaver.list_tuples prefix (Some (redis_config "1")) None None None stored) = ["2"; "1"].
Proof. by vm_compute. Qed.

(** The pending writes [r] shows. *)
Definition writes_of (r : res (option CheckpointTuple)) : list (string * string * pyval) :=
  match r with Ok (Some t) => t_writes t | _ => [] end.

Definition sqlite_writes (calls : list (list (string * pyval))) : list (string * string * pyval) :=
  match fold_res (fun t w => SqliteSaver.put_writes (redis_config "2") w "task" "" t) tables calls with
  | Ok t => writes_of (SqliteSaver.get_tuple (redis_config "2") t)
  | Err _ => []
  end.

Definition redis_writes (calls : list (list (string * pyval))) : list (string * string * pyval) :=
  match fold_res (fun s w => RedisSaver.put_writes prefix 86400 (redis_config "2") w "task" "" s) stored calls with
  | Ok s => writes_of (RedisSaver.get_tuple prefix (redis_config "2") s)
  | Err _ => []
  end.

(** A write of a task is kept when it is written again, by both. *)
Example writes_kept :
  sqlite_writes [[("x", PInt 1)]; [("x", PInt 2); ("y", PInt 3)]] = [("task", "x", PInt 1); ("task", "y", PInt 3)] /\
  redis_writes [[("x", PInt 1)]; [("x", PInt 2); ("y", PInt 3)]] = [("task", "x", PInt 1); ("task", "y", PInt 3)].
Proof. by vm_compute. Qed.

(** An error that is written again: SQLite replaces it, Redis keeps both. *)
Example redis_errors_pile_up :
  sqlite_writes [[("__error__", PStr "a")]; [("__error__", PStr "b")]] = [("task", "__error__", PStr "b")] /\
  redis_writes [[("__error__", PStr "a")]; [("__error__", PStr "b")]] =
    [("task", "__error__", PStr "a"); ("task", "__error__", PStr "b")].
Proof. by vm_compute. Qed.

(** Saving a checkpoint again keeps its writes in SQLite and forgets them in Redis. *)
Example redis_put_forgets_writes :
  (match SqliteSaver.put_writes (redis_config "2") [("x", PInt 1)] "task" "" tables with
   | Ok t => match s_put (Saver := sqlite_saver) (redis_config "1") second t with
             | Ok (t, _) => writes_of (SqliteSaver.get_tuple (redis_config "2") t)
             | Err _ => []
             end
   | Err _ => []
   end,
   match RedisSaver.put_writes prefix 86400 (redis_config "2") [("x", PInt 1)] "task" "" stored with
   | Ok s => match s_put (Saver := redis_saver prefix 86400) (redis_config "1") second s with
             | Ok (s, _) => writes_of (RedisSaver.get_tuple prefix (redis_config "2") s)
             | Err _ => []
             end
   | Err _ => []
   end) = ([("task", "x", PInt 1)], []).
Proof. by vm_compute. Qed.

(** Deleting a thread leaves its index on the server. *)
Example redis_index_survives :
  let s := RedisSaver.adelete_thread prefix "t" stored in
  kv s = [] /\ List.map fst (members_of "lula:ckpt:idx:t:" s) = ["2"; "1"].
Proof. by vm_compute. Qed.

(** Without msgpack no checkpoint is stored: JSON has no bytes. *)
Example json_stores_nothing :
  let bare := {| RedisSaver.msgpack := None; RedisSaver.unpackb := Ok; RedisSaver.redis_set _ _ m := m; RedisSaver.redis_get _ _ := None;
                 RedisSaver.zadd _ _ _ m := m; RedisSaver.expire _ _ m := m; RedisSaver.delete_matching _ m := m;
                 RedisSaver.zmembers _ _ := [] |} : RedisSaver.CheckpointServer pyval (RedisSaver.Data pyval) Memory in
  @RedisSaver.put _ _ _ plain langgraph bare prefix 86400 (float_of_Z 1) (thread_config "t" "") (sv_checkpoint first)
    (sv_metadata first) (sv_new first) nothing = Err (TypeError "Object of type bytes is not JSON serializable").
Proof. reflexivity. Qed.
End Sample.
