(* ===== verification/Base64.v ===== *)
(** * [base64] of the standard library

    Bytes are texts of characters U+0000 to U+00FF; an encoded text is decoded the way
    [binascii.a2b_base64] does by default: characters outside of the alphabet are skipped. *)
From Stdlib Require Import ZArith Lia String Ascii List Bool.
From stdpp Require Import base tactics list strings option.
From S2P Require Import Prelude PyStr StrFacts PyVal.
Local Open Scope string_scope.
Local Open Scope Z_scope.

Definition alphabet : string := "ABCDEFGHIJKLMNOPQRSTUVWXYZabcdefghijklmnopqrstuvwxyz0123456789+/".

(** The character of a number below 64, and the number of a character. *)
Definition letter (n : Z) : ascii := default "A"%char (String.get (Z.to_nat n) alphabet).

Definition value_of (c : ascii) : option Z :=
  let n := ord c in
  if (65 <=? n) && (n <=? 90) then Some (n - 65)
  else if (97 <=? n) && (n <=? 122) then Some (n - 71)
  else if (48 <=? n) && (n <=? 57) then Some (n + 4)
  else if n =? 43 then Some 62
  else if n =? 47 then Some 63
  else None.

Fixpoint b64encode (s : string) : string :=
  match s with
  | EmptyString => ""
  | String a EmptyString =>
      String (letter (ord a / 4)) (String (letter (ord a mod 4 * 16)) "==")
  | String a (String b EmptyString) =>
      String (letter (ord a / 4)) (String (letter (ord a mod 4 * 16 + ord b / 16)) (String (letter (ord b mod 16 * 4)) "="))
  | String a (String b (String c r)) =>
      String (letter (ord a / 4)) (String (letter (ord a mod 4 * 16 + ord b / 16))
        (String (letter (ord b mod 16 * 4 + ord c / 64)) (String (letter (ord c mod 64)) (b64encode r))))
  end.

(** The bytes read, with the position in the group of four where the reading ends and the
    number of characters of the alphabet read; [pads] is the number of [=] since the last one. *)
Fixpoint a2b (quad left pads : Z) (s : string) : string * Z * Z :=
  match s with
  | EmptyString => ("", quad, 0)
  | String c r =>
      if Ascii.eqb c "=" then
        if 2 <=? quad then if 4 <=? quad + (pads + 1) then ("", 0, 0) else a2b quad left (pads + 1) r
        else a2b quad left pads r
      else
        match value_of c with
        | None => a2b quad left pads r
        | Some v =>
            let '(bytes, final, n) :=
              if quad =? 0 then a2b 1 v 0 r
              else if quad =? 1 then let '(b, f, n) := a2b 2 (v mod 16) 0 r in (String (chr (left * 4 + v / 16)) b, f, n)
              else if quad =? 2 then let '(b, f, n) := a2b 3 (v mod 4) 0 r in (String (chr (left * 16 + v / 4)) b, f, n)
              else let '(b, f, n) := a2b 0 0 0 r in (String (chr (left * 64 + v)) b, f, n) in
            (bytes, final, n + 1)
        end
  end.

Definition b64decode (s : string) : res string :=
  if negb (all_chars (fun c => ord c <? 128) s) then Err (ValueError "string argument should contain only ASCII characters")
  else
    let '(bytes, final, n) := a2b 0 0 0 s in
    if final =? 0 then Ok bytes
    else if final =? 1 then
      Err (ValueError ("Invalid base64-encoded string: number of data characters (" ++ str_of_Z n ++ ") cannot be 1 more than a multiple of 4"))
    else Err (ValueError "Incorrect padding").

Example vectors :
  List.map b64encode [""; "f"; "fo"; "foo"; "foob"; "fooba"; "foobar"; String (chr 251) (String (chr 255) "")]
    = [""; "Zg=="; "Zm8="; "Zm9v"; "Zm9vYg=="; "Zm9vYmE="; "Zm9vYmFy"; "+/8="] /\
  List.map b64decode ["Zm9v"; "Zm 9v"; "Zg="; "Zm9vY"; "Zg==Zg=="; "=Zg=="]
    = [Ok "foo"; Ok "foo"; Err (ValueError "Incorrect padding");
       Err (ValueError "Invalid base64-encoded string: number of data characters (5) cannot be 1 more than a multiple of 4"); Ok "f"; Ok "f"].
Proof. vm_compute. auto. Qed.

(** ** Decoding what was encoded *)

(** What the decoder needs of a letter; the case analysis over the alphabet. *)
Definition letter_ok (n : Z) : bool :=
  match value_of (letter n) with Some m => m =? n | None => false end && negb (Ascii.eqb (letter n) "=") && (ord (letter n) <? 128).

Lemma letter_spec n : 0 <= n < 64 -> value_of (letter n) = Some n /\ Ascii.eqb (letter n) "=" = false /\ (ord (letter n) <? 128) = true.
Proof.
  intros H. assert (F : forallb letter_ok (List.map Z.of_nat (seq 0 64)) = true) by (vm_compute; reflexivity).
  rewrite forallb_forall in F. assert (E : letter_ok n = true).
  { apply F, in_map_iff. exists (Z.to_nat n). split; [lia|]. apply in_seq. lia. }
  unfold letter_ok in E. apply andb_prop in E as [[E1 E2%negb_true_iff]%andb_prop E3]. destruct (value_of (letter n)); [|done].
  apply Z.eqb_eq in E1 as ->. done.
Qed.

Lemma ord_byte c : 0 <= ord c < 256.
Proof. unfold ord. pose proof (N_ascii_bounded c). lia. Qed.

Lemma chr_of c n : n = ord c -> chr n = c.
Proof. intros ->. unfold chr, ord. by rewrite N2Z.id, ascii_N_embedding. Qed.

(** One letter read, by its position in the group. *)
Lemma a2b_letter quad left pads n r : 0 <= n < 64 ->
  a2b quad left pads (String (letter n) r) =
    let '(bytes, final, k) :=
      if quad =? 0 then a2b 1 n 0 r
      else if quad =? 1 then let '(b, f, k) := a2b 2 (n mod 16) 0 r in (String (chr (left * 4 + n / 16)) b, f, k)
      else if quad =? 2 then let '(b, f, k) := a2b 3 (n mod 4) 0 r in (String (chr (left * 16 + n / 4)) b, f, k)
      else let '(b, f, k) := a2b 0 0 0 r in (String (chr (left * 64 + n)) b, f, k) in
    (bytes, final, k + 1).
Proof. intros H. destruct (letter_spec n H) as (Hv & He & _). cbn [a2b]. by rewrite He, Hv. Qed.

Ltac ranges := Z.to_euclidean_division_equations; lia.
Ltac read_letter := rewrite a2b_letter by ranges; cbn [Z.eqb Pos.eqb].

(** Induction by groups of three. *)
Lemma string_ind3 (P : string -> Prop) :
  P "" -> (forall a, P (String a "")) -> (forall a b, P (String a (String b ""))) ->
  (forall a b c r, P r -> P (String a (String b (String c r)))) -> forall s, P s.
Proof.
  intros H0 H1 H2 H3. fix IH 1. intros [|a [|b [|c r]]]; [exact H0|apply H1|apply H2|apply H3, IH].
Qed.

Lemma a2b_encode s : exists n, a2b 0 0 0 (b64encode s) = (s, 0, n).
Proof.
  induction s as [|a|a b|a b c r [n IH]] using string_ind3; [by exists 0| | |]; cbn [b64encode];
    pose proof (ord_byte a); try pose proof (ord_byte b); try pose proof (ord_byte c).
  - do 2 read_letter. change (a2b 2 _ 0 "==") with ("", 0, 0). cbn beta iota. rewrite (chr_of a) by ranges. by eexists.
  - do 3 read_letter. change (a2b 3 _ 0 "=") with ("", 0, 0). cbn beta iota. rewrite (chr_of a), (chr_of b) by ranges. by eexists.
  - do 4 read_letter. rewrite IH. cbn beta iota. rewrite (chr_of a), (chr_of b), (chr_of c) by ranges. by eexists.
Qed.

Lemma letter_ascii n : 0 <= n < 64 -> (ord (letter n) <? 128) = true.
Proof. intros H. by destruct (letter_spec n H) as (_ & _ & E). Qed.

Lemma encode_ascii s : all_chars (fun c => ord c <? 128) (b64encode s) = true.
Proof.
  induction s as [|a|a b|a b c r IH] using string_ind3; [done| | |]; cbn [b64encode all_chars];
    pose proof (ord_byte a); try pose proof (ord_byte b); try pose proof (ord_byte c);
    rewrite !letter_ascii by ranges; done.
Qed.

(** What is encoded is decoded. *)
Lemma decode_encode s : b64decode (b64encode s) = Ok s.
Proof. unfold b64decode. rewrite encode_ascii. destruct (a2b_encode s) as [n ->]. done. Qed.

Lemma letter_nonzero n : 0 <= n < 64 -> negb (Ascii.eqb (letter n) (chr 0)) = true.
Proof.
  intros H. destruct (letter_spec n H) as (E & _ & _). destruct (Ascii.eqb_spec (letter n) (chr 0)) as [Ec|]; [|done].
  rewrite Ec in E. by vm_compute in E.
Qed.
