(* ===== verification/PostgresSaver.v ===== *)
(** * The Postgres checkpoint saver: [backends/postgres.py]

    One table with a row per checkpoint; the pending writes of a checkpoint are a JSON
    column of its row.  The connections of the pool are numbered; what a connection keeps
    from one use to the next is its row factory.  Every operation is one transaction: an
    exception leaves the table as it was.  The driver and the [JSONB] type are behind an
    interface ([Postgres]); bytes are texts of characters U+0000 to U+00FF. *)
From Stdlib Require Import ZArith Lia String Ascii List Bool.
From stdpp Require Import base tactics list strings option.
From S2P Require Import Prelude PyStr StrFacts PyVal Regex Json Base64 Checkpoints.
Local Open Scope string_scope.
Local Open Scope Z_scope.

(** What a column of a fetched row holds. *)
Inductive cell := CNull | CText (s : string) | CBytes (b : string) | CJson (v : pyval) | CTime (t : Z).

(** A fetched row: a tuple, or a dictionary. *)
Inductive fetched := Tuple (cells : list cell) | Dict (columns : list (string * cell)).

(** [tuple_row] and [dict_row] of psycopg, applied to the columns of a row; [jsonb v] is what
    is read from a [JSONB] column in which [json.dumps(v)] was written. *)
Class Postgres := {
  tuple_row : list (string * cell) -> fetched;
  dict_row : list (string * cell) -> fetched;
  jsonb : pyval -> res pyval }.

(** Texts without U+0000, which [JSONB] refuses. *)
Definition sql_text (s : string) : bool := lacks (chr 0) s.

(** An entry of texts and integers. *)
Definition plain (d : dict) : Prop := List.Forall (fun kv => match snd kv with PStr s => sql_text s = true | PInt _ => True | _ => False end) d.

(** Two dictionaries with the same values, in any order. *)
Definition same_dict (d d' : dict) : Prop := forall k, dlookup k d' = dlookup k d.

Class PostgresLaws `{P : Postgres} : Prop := {
  tuple_rows r : tuple_row r = Tuple (List.map snd r);
  dict_rows r : dict_row r = Dict r;
  jsonb_entries l : List.Forall plain l -> exists l', jsonb (PList (List.map PDict l)) = Ok (PList (List.map PDict l')) /\ Forall2 same_dict l l' }.

(** ** The name of the table *)

(** [^[A-Za-z_][A-Za-z0-9_]{0,62}$], which also matches before a final line feed. *)
Definition name_char (c : ascii) : bool := is_alpha c || is_digit c || Ascii.eqb c "_".
Definition identifier (s : string) : bool :=
  match s with
  | EmptyString => false
  | String c r => (is_alpha c || Ascii.eqb c "_") && all_chars name_char r && (String.length r <=? 62)%nat
  end.

Definition _validate_table_name (name : string) : res string :=
  if identifier name || (endswith name nl && identifier (str_take (String.length name - 1) name)) then Ok name
  else Err (ValueError ("Invalid table name: " ++ repr (PStr name))).

(** ** Rows *)

Record Row := {
  thread_id : string; checkpoint_ns : string; checkpoint_id : string; parent_checkpoint_id : option string;
  checkpoint : string; checkpoint_type : string; metadata_type : string; metadata_blob : string;
  pending_writes : pyval; created_at : Z }.

Definition text_cell (o : option string) : cell := match o with Some s => CText s | None => CNull end.

(** The columns of the table, in order. *)
Definition columns (r : Row) : list (string * cell) :=
  [("thread_id", CText (thread_id r)); ("checkpoint_ns", CText (checkpoint_ns r)); ("checkpoint_id", CText (checkpoint_id r));
   ("parent_checkpoint_id", text_cell (parent_checkpoint_id r)); ("checkpoint", CBytes (checkpoint r));
   ("checkpoint_type", CText (checkpoint_type r)); ("metadata", CNull); ("metadata_type", CText (metadata_type r));
   ("metadata_blob", CBytes (metadata_blob r)); ("pending_writes", CJson (pending_writes r)); ("created_at", CTime (created_at r))].

(** [uses_dict_rows c]: the row factory of the connection [c] was set. *)
Record Db := { rows : list Row; uses_dict_rows : nat -> bool }.

Section Saver.
Context `{Serde string} `{LangGraph} `{Postgres}.

Definition fetch (db : Db) (conn : nat) (r : Row) : fetched :=
  if uses_dict_rows db conn then dict_row (columns r) else tuple_row (columns r).

(** [dict(zip(cols, row_tuple))]: going through a dictionary gives its keys. *)
Definition zipped (cols : list string) (row : fetched) : list (string * cell) :=
  combine cols (match row with Tuple cells => cells | Dict d => List.map (fun kv => CText (fst kv)) d end).

Definition row_dict (db : Db) (conn : nat) (r : Row) : list (string * cell) := zipped (List.map fst (columns r)) (fetch db conn r).

(** [row[0]] of a row with one column. *)
Definition first_cell (row : fetched) : res cell :=
  match row with Tuple (c :: _) => Ok c | Tuple [] => Err (IndexError "tuple index out of range") | Dict _ => Err (KeyError "0") end.

(** ** Reading *)

Definition at_col (row : list (string * cell)) (k : string) : res cell :=
  match dlookup k row with Some c => Ok c | None => Err (KeyError (repr (PStr k))) end.

(** [str(cell)]. *)
Definition cell_str (c : cell) : res string :=
  match c with CText s => Ok s | CNull => Ok "None" | CJson v => Ok (py_str v) | _ => Err (Unmodelled "cell") end.
Definition str_at (row : list (string * cell)) (k : string) : res string := let! c := at_col row k in cell_str c.

(** [raw if isinstance(raw, (bytes, memoryview)) else bytes(raw)]. *)
Definition cell_bytes (c : cell) : res string :=
  match c with
  | CBytes b => Ok b
  | CText _ => Err (TypeError "string argument without an encoding")
  | CNull => Err (TypeError "cannot convert 'NoneType' object to bytes")
  | _ => Err (Unmodelled "bytes")
  end.
Definition cell_empty (c : cell) : bool := match c with CNull => true | CText s => String.eqb s "" | CJson v => negb (truthy v) | _ => false end.
Definition metadata_bytes (c : cell) : res string :=
  match c with CBytes b => Ok b | _ => if cell_empty c then Ok "" else cell_bytes c end.

(** One pending write. *)
Definition loaded_write (entry : dict) : res (string * string * pyval) :=
  let text k := py_str (dget entry k (PStr "")) in
  let! payload := match dget entry "payload" (PStr "") with PStr s => b64decode s | _ => Ok "" end in
  let! v := loads_typed (text "type_tag") payload in
  Ok (text "task_id", text "channel", v).

Definition cell_writes (c : cell) : list dict := match c with CJson (PList l) => dicts_of l | _ => [] end.

Definition _row_to_tuple (requested : option dict) (row : list (string * cell)) : res CheckpointTuple :=
  let! thread := str_at row "thread_id" in
  let! ns := str_at row "checkpoint_ns" in
  let! id := str_at row "checkpoint_id" in
  let! type := str_at row "checkpoint_type" in
  let! blob := at_col row "checkpoint" in
  let! payload := cell_bytes blob in
  let! loaded := loads_typed type payload in
  let! mtype := str_at row "metadata_type" in
  let! mblob := at_col row "metadata_blob" in
  let! mpayload := metadata_bytes mblob in
  let! metadata := if String.eqb mpayload "" then Ok (PDict []) else loads_typed mtype mpayload in
  let! parent := at_col row "parent_checkpoint_id" in
  let! pending := at_col row "pending_writes" in
  let! writes := map_res loaded_write (cell_writes pending) in
  let! loaded := match loaded with PDict d => Ok d | _ => Err (Unmodelled "checkpoint") end in
  Ok {| t_config := default (config_of thread ns id) requested; t_checkpoint := loaded; t_metadata := metadata;
        t_parent := parent_config thread ns (match parent with CText p => Some p | _ => None end); t_writes := writes |}.

(** The parameters of a statement; the driver refuses U+0000 in a text. *)
Definition bound_texts (l : list string) : res unit :=
  if forallb sql_text l then Ok tt else Err (DatabaseError "PostgreSQL text fields cannot contain NUL (0x00) bytes").

Definition of_thread (thread ns : string) (r : Row) : bool := String.eqb (thread_id r) thread && String.eqb (checkpoint_ns r) ns.
Definition is_row (thread ns id : string) (r : Row) : bool := of_thread thread ns r && String.eqb (checkpoint_id r) id.

(** [ORDER BY created_at DESC]; ties come in the order of the table. *)
Definition newest_first (l : list Row) : list Row := py_sorted (fun a b => created_at b <? created_at a) l.

Definition pick (thread ns : string) (id : option string) (l : list Row) : option Row :=
  match id with
  | Some i => List.find (is_row thread ns i) l
  | None => hd_error (newest_first (List.filter (of_thread thread ns) l))
  end.

(** On the connection [conn], whose row factory is set before the query. *)
Definition aget_tuple (conn : nat) (config : dict) (db : Db) : Db * res (option CheckpointTuple) :=
  match parse_config config with
  | Err e => (db, Err e)
  | Ok (thread, ns, id) =>
      let db := {| rows := rows db; uses_dict_rows := fun c => Nat.eqb c conn || uses_dict_rows db c |} in
      (db,
       let! _ := bound_texts ([thread; ns] ++ option_list id) in
       match pick thread ns id (rows db) with
       | None => Ok None
       | Some r =>
           let! t := _row_to_tuple (match id with Some _ => Some config | None => None end) (row_dict db conn r) in
           Ok (Some t)
       end)
  end.

(** The rows the clauses of [alist] select: [before] leaves out one checkpoint. *)
Definition selected (thread ns : string) (before : option string) (limit : option Z) (l : list Row) : list Row :=
  let found := newest_first (List.filter (fun r => of_thread thread ns r &&
                 match before with Some i => negb (String.eqb (checkpoint_id r) i) | None => true end) l) in
  match limit with Some n => if 0 <=? n then firstn (Z.to_nat n) found else found | None => found end.

(** One row of the result, which the filter may leave out. *)
Definition listed_tuple (conn : nat) (db : Db) (filter : option dict) (r : Row) : res (list CheckpointTuple) :=
  let! t := _row_to_tuple None (row_dict db conn r) in
  let! wanted := match filter with Some f => metadata_matches (t_metadata t) f | None => Ok true end in
  Ok (if wanted then [t] else []).

(** What a generator yields, and the exception that ends it before its end. *)
Definition Yielded : Type := list CheckpointTuple * option pyexc.

Fixpoint yields (row : Row -> res (list CheckpointTuple)) (l : list Row) : Yielded :=
  match l with
  | [] => ([], None)
  | r :: rest =>
      match row r with
      | Err e => ([], Some e)
      | Ok tuples => let more := yields row rest in ((tuples ++ fst more)%list, snd more)
      end
  end.

Definition before_id (before : option dict) : option string := match before with Some b => get_checkpoint_id b | None => None end.

(** The query of [alist]. *)
Definition select_listed (c : dict) (before : option dict) (limit : option Z) (db : Db) : res (list Row) :=
  let! (thread, ns, _) := parse_config c in
  let! _ := bound_texts ([thread; ns] ++ option_list (before_id before)) in
  Ok (selected thread ns (before_id before) limit (rows db)).

Definition alist (conn : nat) (config filter before : option dict) (limit : option Z) (db : Db) : Yielded :=
  match config with
  | None => ([], None)
  | Some c =>
      match select_listed c before limit db with
      | Err e => ([], Some e)
      | Ok found => yields (listed_tuple conn db filter) found
      end
  end.

(** ** Writing *)

(** [INSERT ... ON CONFLICT DO UPDATE]: a row with the key is updated in its place. *)
Fixpoint upsert (r : Row) (l : list Row) : list Row :=
  match l with
  | [] => [r]
  | r' :: rest => if is_row (thread_id r) (checkpoint_ns r) (checkpoint_id r) r' then r :: rest else r' :: upsert r rest
  end.

Definition aput (now : Z) (config ckpt : dict) (metadata : pyval) (new_versions : dict) (db : Db) : res (Db * dict) :=
  let! (thread, ns, parent) := parse_config config in
  let! id := Checkpoints.checkpoint_id ckpt in
  let typed := dumps_typed (PDict ckpt) in
  let meta := dumps_typed (get_checkpoint_metadata config metadata) in
  let parent := match parent with Some p => if String.eqb p "" then None else Some p | None => None end in
  let! _ := bound_texts ([thread; ns; id] ++ option_list parent ++ [fst typed; fst meta]) in
  let! pending := jsonb (PList []) in
  let row := {| thread_id := thread; checkpoint_ns := ns; checkpoint_id := id; parent_checkpoint_id := parent;
                checkpoint := snd typed; checkpoint_type := fst typed; metadata_type := fst meta; metadata_blob := snd meta;
                pending_writes := pending; created_at := now |} in
  Ok ({| rows := upsert row (rows db); uses_dict_rows := uses_dict_rows db |}, config_of thread ns id).

(** [(str(w.get("task_id", "")), int(w.get("idx", -999)))] of the entries that are dictionaries. *)
Definition write_key (w : dict) : res (string * Z) :=
  let! idx := py_int (dget w "idx" (PInt (-999))) in Ok (py_str (dget w "task_id" (PStr "")), idx).

Definition put_write (task path : string) (keys : list (string * Z)) (acc : list pyval) (iw : Z * (string * pyval)) : list pyval :=
  let '(i, (channel, value)) := iw in
  let idx := default i (WRITES_IDX_MAP channel) in
  if (0 <=? idx) && existsb (fun k => String.eqb (fst k) task && (snd k =? idx)) keys then acc
  else
    let typed := dumps_typed value in
    (acc ++ [PDict [("task_id", PStr task); ("idx", PInt idx); ("channel", PStr channel); ("type_tag", PStr (fst typed));
                    ("payload", PStr (b64encode (snd typed))); ("task_path", PStr path)]])%list.

(** [row[0] if row[0] is not None else []]; the column holds a list or nothing. *)
Definition existing_writes (c : cell) : res (list pyval) :=
  match c with CJson (PList l) => Ok l | CNull | CJson PNone => Ok [] | _ => Err (Unmodelled "pending_writes") end.

Definition set_writes (v : pyval) (r : Row) : Row :=
  {| thread_id := thread_id r; checkpoint_ns := checkpoint_ns r; checkpoint_id := checkpoint_id r;
     parent_checkpoint_id := parent_checkpoint_id r; checkpoint := checkpoint r; checkpoint_type := checkpoint_type r;
     metadata_type := metadata_type r; metadata_blob := metadata_blob r; pending_writes := v; created_at := created_at r |}.

Definition aput_writes (conn : nat) (config : dict) (writes : list (string * pyval)) (task path : string) (db : Db) : res Db :=
  let! (thread, ns, id) := parse_config config in
  match id with
  | None => Err (ValueError "missing configurable.checkpoint_id")
  | Some id =>
      let! _ := bound_texts [thread; ns; id] in
      match List.find (is_row thread ns id) (rows db) with
      | None => Ok db
      | Some r =>
          let column := [("pending_writes", CJson (pending_writes r))] in
          let! c := first_cell (if uses_dict_rows db conn then dict_row column else tuple_row column) in
          let! existing := existing_writes c in
          let! keys := map_res write_key (dicts_of existing) in
          let! v := jsonb (PList (fold_left (put_write task path keys) (enumerate 0 writes) existing)) in
          Ok {| rows := List.map (fun r => if is_row thread ns id r then set_writes v r else r) (rows db);
                uses_dict_rows := uses_dict_rows db |}
      end
  end.


(** The synchronous methods. *)
Definition no_sync {A : Type} (instead : string) : res A :=
  Err (RuntimeError ("PostgresCheckpointSaver does not support synchronous access. Use " ++ instead ++ " with an async runtime.")).
Definition get_tuple (config : dict) : res (option CheckpointTuple) := no_sync "aget_tuple()".
Definition list_tuples (config filter before : option dict) (limit : option Z) : res (list CheckpointTuple) := no_sync "alist()".
Definition put (config ckpt : dict) (metadata : pyval) (new_versions : dict) : res dict := no_sync "aput()".
Definition put_writes (config : dict) (writes : list (string * pyval)) (task path : string) : res unit := no_sync "aput_writes()".
End Saver.

(** ** What is saved is listed *)

Section Listing.
Context `{S : Serde string} `{LangGraph} `{P : Postgres} `{!PostgresLaws}.
Context (thread ns : string) (Hstrip : strip thread = thread) (Hthread : thread <> "").
Context (Hsql : sql_text thread = true) (Hns : sql_text ns = true).

(** A call of [aput]. *)
Record Save := { s_now : Z; s_id : string; s_parent : option string; s_checkpoint : dict; s_metadata : pyval; s_versions : dict }.

(** The configuration of the call: the parent's, or the thread's. *)
Definition config_for (parent : option string) : dict :=
  match parent with Some p => config_of thread ns p | None => thread_config thread ns end.

Definition aput_save (p : Save) (db : Db) : res (Db * dict) :=
  aput (s_now p) (config_for (s_parent p)) (s_checkpoint p) (s_metadata p) (s_versions p) db.

Fixpoint saves (h : list Save) (db : Db) : res Db :=
  match h with [] => Ok db | p :: rest => let! (db, _) := aput_save p db in saves rest db end.

(** The serializer reads back what it wrote. *)
Definition readable (v : pyval) : Prop := loads_typed (fst (dumps_typed v)) (snd (dumps_typed v)) = Ok v.

(** Texts the database takes, values that are read back, and bytes that say something. *)
Record storable (p : Save) : Prop := {
  st_read : readable (PDict (s_checkpoint p)) /\ readable (get_checkpoint_metadata (config_for (s_parent p)) (s_metadata p));
  st_id : dlookup "id" (s_checkpoint p) = Some (PStr (s_id p));
  st_texts : sql_text (s_id p) = true /\ forall q, s_parent p = Some q -> q <> "" /\ sql_text q = true;
  st_type : sql_text (fst (dumps_typed (PDict (s_checkpoint p)))) = true;
  st_meta : sql_text (fst (dumps_typed (get_checkpoint_metadata (config_for (s_parent p)) (s_metadata p)))) = true;
  st_blob : snd (dumps_typed (get_checkpoint_metadata (config_for (s_parent p)) (s_metadata p))) <> "" }.

(** Saves of different checkpoints, one after the other. *)
Inductive history : list Save -> Prop :=
| history_nil : history []
| history_snoc h p : history h -> storable p -> (forall q, In q h -> s_id q <> s_id p /\ s_now q < s_now p) -> history (h ++ [p]).

Definition tuple_of (p : Save) (writes : list (string * string * pyval)) : CheckpointTuple :=
  {| t_config := config_of thread ns (s_id p); t_checkpoint := s_checkpoint p;
     t_metadata := get_checkpoint_metadata (config_for (s_parent p)) (s_metadata p);
     t_parent := option_map (config_of thread ns) (s_parent p); t_writes := writes |}.

Definition row_of (p : Save) : Row :=
  let typed := dumps_typed (PDict (s_checkpoint p)) in
  let meta := dumps_typed (get_checkpoint_metadata (config_for (s_parent p)) (s_metadata p)) in
  {| thread_id := thread; checkpoint_ns := ns; checkpoint_id := s_id p; parent_checkpoint_id := s_parent p;
     checkpoint := snd typed; checkpoint_type := fst typed; metadata_type := fst meta; metadata_blob := snd meta;
     pending_writes := PList []; created_at := s_now p |}.

Lemma parse_config_for parent : parse_config (config_for parent) = Ok (thread, ns, parent).
Proof. destruct parent; cbn; rewrite Hstrip; by destruct (String.eqb_spec thread ""). Qed.

Lemma no_writes : jsonb (PList []) = Ok (PList []).
Proof. destruct (jsonb_entries [] ltac:(constructor)) as (l' & E & F). inversion F; subst. exact E. Qed.

(** A row without its key in the table is added at its end. *)
Lemma upsert_new r l : (forall r', In r' l -> is_row (thread_id r) (checkpoint_ns r) (checkpoint_id r) r' = false) -> upsert r l = (l ++ [r])%list.
Proof. induction l as [|r' l IH]; intros Hn; [done|]. cbn [upsert app]. rewrite (Hn r') by (by left). f_equal. apply IH. intros r'' Hin. apply Hn. by right. Qed.

Lemma put_row h p db db' :
  history (h ++ [p]) -> rows db' = (rows db ++ List.map row_of h)%list -> (forall r, In r (rows db) -> of_thread thread ns r = false) ->
  exists c, aput_save p db' = Ok ({| rows := rows db ++ List.map row_of (h ++ [p]); uses_dict_rows := uses_dict_rows db' |}, c).
Proof.
  intros Hh Hr Hn. inversion Hh as [E|h' p' _ Hp Hnew E]; [by destruct h|]. apply app_inj_2 in E as [-> [= ->]]; [|done].
  destruct Hp as [_ Hid [Hi Hpar] Ht Hm _]. unfold aput_save, aput. rewrite parse_config_for. cbn [bind_res].
  unfold Checkpoints.checkpoint_id. rewrite Hid. cbn [bind_res py_str].
  assert (Ep : match s_parent p with Some q => if String.eqb q "" then None else Some q | None => None end = s_parent p).
  { destruct (s_parent p) as [q|]; [|done]. destruct (Hpar q eq_refl) as [Hq _]. by destruct (String.eqb_spec q ""). }
  rewrite Ep. unfold bound_texts. rewrite !forallb_app. cbn [forallb]. rewrite Hsql, Hns, Hi, Ht, Hm.
  assert (Eq : forallb sql_text (option_list (s_parent p)) = true)
    by (destruct (s_parent p) as [q|]; [|done]; cbn; by rewrite (proj2 (Hpar q eq_refl))).
  rewrite Eq. cbn [andb bind_res]. rewrite no_writes. cbn [bind_res]. eexists. f_equal. f_equal. f_equal.
  cbn [rows uses_dict_rows]. rewrite Hr, upsert_new, List.map_app, app_assoc; [done|]. cbn [thread_id checkpoint_ns checkpoint_id]. intros r [Hin|Hin]%in_app_iff.
  - unfold is_row. by rewrite (Hn r Hin).
  - apply in_map_iff in Hin as (q & <- & Hq). unfold is_row. cbn. apply andb_false_iff. right. apply String.eqb_neq. by destruct (Hnew q Hq).
Qed.

Lemma saves_last h p db : saves (h ++ [p]) db = let! db := saves h db in let! (db, _) := aput_save p db in Ok db.
Proof.
  revert db. induction h as [|q h IH]; intros db; cbn [saves app bind_res].
  - by destruct (aput_save p db) as [[]|].
  - destruct (aput_save q db) as [[db' ?]|]; cbn [bind_res]; [apply IH|done].
Qed.

Lemma saves_rows h db : history h -> (forall r, In r (rows db) -> of_thread thread ns r = false) ->
  saves h db = Ok {| rows := rows db ++ List.map row_of h; uses_dict_rows := uses_dict_rows db |}.
Proof.
  intros Hh Hn. induction h as [|p h IH] using rev_ind; [cbn; rewrite app_nil_r; by destruct db|].
  assert (Hh' : history h) by (inversion Hh as [E|h' p' H' ? ? E]; [by destruct h|by apply app_inj_2 in E as [-> _]]).
  rewrite saves_last, (IH Hh'). cbn [bind_res].
  destruct (put_row h p db {| rows := rows db ++ List.map row_of h; uses_dict_rows := uses_dict_rows db |} Hh eq_refl Hn) as [c ->]. done.
Qed.

(** The row of a save, with its pending writes. *)
Definition row_with (f : Save -> pyval) (p : Save) : Row := set_writes (f p) (row_of p).

(** The rows of the thread, the newest first. *)
Lemma selected_rows f h db : history h -> (forall r, In r (rows db) -> of_thread thread ns r = false) ->
  selected thread ns None None (rows db ++ List.map (row_with f) h) = rev (List.map (row_with f) h).
Proof.
  intros Hh Hn. unfold selected. rewrite List.filter_app.
  assert (E1 : List.filter (fun r => of_thread thread ns r && true) (rows db) = []).
  { clear Hh. induction (rows db) as [|r l IH]; [done|]. cbn. rewrite (Hn r) by (by left). apply IH. intros r' Hin. apply Hn. by right. }
  assert (E2 : List.filter (fun r => of_thread thread ns r && true) (List.map (row_with f) h) = List.map (row_with f) h).
  { apply filter_all, List.Forall_map, List.Forall_forall. intros q _. unfold of_thread. cbn. by rewrite !String.eqb_refl. }
  rewrite E1, E2. cbn [app]. clear E1 E2 Hn. unfold newest_first. induction Hh as [|h p _ IH _ Hnew]; [done|].
  rewrite List.map_app, rev_app_distr. cbn [List.map rev app]. rewrite py_sorted_snoc, IH, insert_first; [done|].
  intros r Hr. apply in_rev, in_map_iff in Hr as (q & <- & Hq). apply Z.ltb_lt. by destruct (Hnew q Hq).
Qed.

(** *** A connection on which no checkpoint was asked for *)

Lemma combine_columns {A B} (l : list (A * B)) : combine (List.map fst l) (List.map snd l) = l.
Proof. induction l as [|[a b] l IH]; [done|]. cbn. by rewrite IH. Qed.

Lemma clean_row db conn r : uses_dict_rows db conn = false -> row_dict db conn r = columns r.
Proof. intros E. unfold row_dict, fetch, zipped. rewrite E, tuple_rows. apply combine_columns. Qed.

Lemma row_tuple p v ws : storable p -> map_res loaded_write (cell_writes (CJson v)) = Ok ws ->
  _row_to_tuple None (columns (set_writes v (row_of p))) = Ok (tuple_of p ws).
Proof.
  intros [[R1 R2] _ [_ Hpar] _ _ Hblob] Hw. unfold _row_to_tuple, str_at, at_col.
  cbn [columns dlookup String.eqb Ascii.eqb eqb bind_res cell_str cell_bytes metadata_bytes set_writes row_of thread_id checkpoint_ns checkpoint_id
       checkpoint_type checkpoint metadata_type metadata_blob parent_checkpoint_id pending_writes].
  rewrite R1. cbn [bind_res]. destruct (String.eqb_spec (snd (dumps_typed (get_checkpoint_metadata (config_for (s_parent p)) (s_metadata p)))) ""); [done|].
  rewrite R2. cbn [bind_res]. rewrite Hw. cbn [bind_res]. unfold tuple_of. do 2 f_equal.
  destruct (s_parent p) as [q|]; [|done]. cbn. destruct (Hpar q eq_refl) as [Hq _]. by destruct (String.eqb_spec q "").
Qed.

(** *** Pending writes *)

Definition entry (task path : string) (iw : Z * (string * pyval)) : dict :=
  let '(i, (channel, value)) := iw in
  let typed := dumps_typed value in
  [("task_id", PStr task); ("idx", PInt (default i (WRITES_IDX_MAP channel))); ("channel", PStr channel); ("type_tag", PStr (fst typed));
   ("payload", PStr (b64encode (snd typed))); ("task_path", PStr path)].

Lemma first_writes task path l acc : fold_left (put_write task path []) l acc = (acc ++ List.map PDict (List.map (entry task path) l))%list.
Proof.
  revert acc. induction l as [|[i [c v]] l IH]; intros acc; [by rewrite app_nil_r|]. cbn [fold_left List.map].
  rewrite IH. unfold put_write. cbn [existsb]. rewrite andb_false_r. by rewrite <- app_assoc.
Qed.

Lemma encoded_plain s : sql_text (b64encode s) = true.
Proof.
  unfold sql_text, lacks. induction s as [|a|a b|a b c r IH] using string_ind3; [done| | |]; cbn [b64encode all_chars];
    pose proof (ord_byte a); try pose proof (ord_byte b); try pose proof (ord_byte c); rewrite !letter_nonzero by ranges; done.
Qed.

Definition write_storable (w : string * pyval) : Prop :=
  sql_text (fst w) = true /\ sql_text (fst (dumps_typed (snd w))) = true /\ readable (snd w).

Lemma entries_plain task path i l : sql_text task = true -> sql_text path = true -> List.Forall write_storable l ->
  List.Forall plain (List.map (entry task path) (enumerate i l)).
Proof.
  intros Ht Hp Hl. revert i. induction Hl as [|[c v] l (Hc & Hv & _) _ IH]; intros i; [constructor|]. cbn [enumerate List.map]. constructor; [|apply IH].
  unfold plain, entry. repeat constructor; try done. apply encoded_plain.
Qed.

Lemma entry_loaded task path i c v d : readable v -> same_dict (entry task path (i, (c, v))) d -> loaded_write d = Ok (task, c, v).
Proof.
  intros R Hs. unfold loaded_write, dget. rewrite !Hs. cbn [entry dlookup String.eqb Ascii.eqb eqb py_str].
  rewrite decode_encode. cbn [bind_res]. by rewrite R.
Qed.

Lemma entries_loaded task path i l ds : List.Forall write_storable l -> Forall2 same_dict (List.map (entry task path) (enumerate i l)) ds ->
  map_res loaded_write (dicts_of (List.map PDict ds)) = Ok (List.map (fun w => (task, fst w, snd w)) l).
Proof.
  intros Hl. revert i ds. induction Hl as [|[c v] l (_ & _ & R) _ IH]; intros i ds F; inversion F as [|? d ? ds' Hd F']; subst; [done|].
  cbn [List.map]. change (dicts_of (PDict d :: List.map PDict ds')) with (d :: dicts_of (List.map PDict ds')).
  cbn [map_res]. rewrite (entry_loaded _ _ _ _ _ _ R Hd). cbn [bind_res]. by rewrite (IH _ _ F').
Qed.

Lemma history_storable h p : history h -> In p h -> storable p.
Proof. induction 1 as [|h q _ IH Hq _]; [done|]. intros [Hin|[<-|[]]]%in_app_iff; auto. Qed.

(** A save is found under its id. *)
Lemma found_save h p db : history h -> In p h -> (forall r, In r (rows db) -> of_thread thread ns r = false) ->
  List.find (is_row thread ns (s_id p)) (rows db ++ List.map row_of h) = Some (row_of p).
Proof.
  intros Hh Hp Hn. assert (E : List.find (is_row thread ns (s_id p)) (rows db) = None).
  { destruct (List.find _ (rows db)) as [r|] eqn:E; [|done]. apply find_some in E as [Hin E]. unfold is_row in E. by rewrite (Hn r Hin) in E. }
  rewrite find_app, E. clear E Hn. induction Hh as [|h q Hh IH _ Hnew]; [done|]. rewrite List.map_app, find_app. cbn [List.map List.find].
  apply in_app_iff in Hp as [Hp|[<-|[]]]; [by rewrite (IH Hp)|].
  assert (E : List.find (is_row thread ns (s_id q)) (List.map row_of h) = None).
  { destruct (List.find _ (List.map row_of h)) as [r|] eqn:E; [|done]. apply find_some in E as [Hin E].
    apply in_map_iff in Hin as (q' & <- & Hq'). unfold is_row in E. apply andb_prop in E as [_ E%String.eqb_eq]. by destruct (Hnew q' Hq'). }
  rewrite E. unfold is_row, of_thread. cbn. by rewrite !String.eqb_refl.
Qed.

(** The pending writes of one save. *)
Definition on (id : string) (v : pyval) (q : Save) : pyval := if String.eqb (s_id q) id then v else PList [].

Lemma updated_rows h id v db : (forall r, In r (rows db) -> of_thread thread ns r = false) ->
  List.map (fun r => if is_row thread ns id r then set_writes v r else r) (rows db ++ List.map row_of h) = (rows db ++ List.map (row_with (on id v)) h)%list.
Proof.
  intros Hn. rewrite List.map_app, List.map_map. f_equal.
  - induction (rows db) as [|r l IH]; [done|]. cbn. unfold is_row at 1. rewrite (Hn r) by (by left). f_equal. apply IH. intros r' Hin. apply Hn. by right.
  - apply List.map_ext. intros q. unfold is_row, of_thread, row_with, on. cbn. rewrite !String.eqb_refl. cbn. by destruct (String.eqb (s_id q) id).
Qed.

(** C23: What the saver saves, it lists.  On a connection on which no checkpoint was asked
    for: after any sequence of [aput]s of different checkpoints of a thread and one
    [aput_writes] for one of them, [alist] yields the checkpoints, the newest first, each
    with its metadata, its parent and the writes that were put, read back through the
    serializer, base64 and the [JSONB] column. *)
Theorem postgres_lists_saved h p writes task path db conn :
  history h -> In p h -> (forall r, In r (rows db) -> of_thread thread ns r = false) -> uses_dict_rows db conn = false ->
  sql_text task = true -> sql_text path = true -> List.Forall write_storable writes ->
  exists db1 db2, saves h db = Ok db1 /\ aput_writes conn (config_of thread ns (s_id p)) writes task path db1 = Ok db2 /\
    alist conn (Some (thread_config thread ns)) None None None db2 =
      (List.map (fun q => tuple_of q (if String.eqb (s_id q) (s_id p) then List.map (fun w => (task, fst w, snd w)) writes else [])) (rev h), None).
Proof.
  intros Hh Hp Hn Hc Ht Hpath Hw. rewrite (saves_rows h db Hh Hn). exists {| rows := rows db ++ List.map row_of h; uses_dict_rows := uses_dict_rows db |}. unfold aput_writes.
  rewrite (parse_config_for (Some (s_id p)) : parse_config (config_of thread ns (s_id p)) = _). cbn [bind_res]. unfold bound_texts at 1.
  cbn [forallb rows uses_dict_rows]. destruct (history_storable h p Hh Hp) as [_ _ [Hid _] _ _ _]. rewrite Hsql, Hns, Hid. cbn [andb bind_res].
  rewrite (found_save h p db Hh Hp Hn), Hc, tuple_rows. cbn [List.map first_cell bind_res snd existing_writes row_of pending_writes dicts_of map_res].
  change (map_res write_key (dicts_of [])) with (@Ok (list (string * Z)) []). cbn [bind_res]. rewrite first_writes. cbn [app]. destruct (jsonb_entries _ (entries_plain task path 0 writes Ht Hpath Hw)) as (ds & -> & Hds).
  cbn [bind_res]. rewrite (updated_rows h (s_id p) _ db Hn). eexists. split; [reflexivity|]. split; [reflexivity|].
  unfold alist, select_listed. rewrite (parse_config_for None : parse_config (thread_config thread ns) = _). cbn [bind_res before_id].
  assert (Eb : bound_texts ([thread; ns] ++ option_list None) = Ok tt) by (unfold bound_texts; cbn; by rewrite Hsql, Hns).
  cbv zeta. rewrite Eb. cbn [bind_res rows]. rewrite (selected_rows _ h db Hh Hn), <- List.map_rev.
  assert (Hin : forall q, In q (rev h) -> storable q) by (intros q Hq%in_rev; by apply (history_storable h)).
  induction (rev h) as [|q l IH]; [done|]. cbn [List.map yields]. unfold listed_tuple at 1. rewrite clean_row by exact Hc. unfold row_with at 1, on at 1.
  rewrite (row_tuple q _ (if String.eqb (s_id q) (s_id p) then List.map (fun w => (task, fst w, snd w)) writes else [])).
  - cbn [bind_res]. rewrite IH; [done|]. intros q' Hq'. apply Hin. by right.
  - apply Hin. by left.
  - destruct (String.eqb (s_id q) (s_id p)); [|done]. exact (entries_loaded task path 0 writes ds Hw Hds).
Qed.
End Listing.

(** ** What is asked for is not read *)

Section Asking.
Context `{S : Serde string} `{LangGraph} `{P : Postgres} `{!PostgresLaws}.












End Asking.

(** ** A database *)
Module Sample.
#[local] Instance json_serde : Serde string := {
  dumps_typed v := ("json", json_dumps false v);
  loads_typed t s := if String.eqb t "json" then json_loads s else Err (RuntimeError "unknown type");
  no_bytes := "" }.
#[local] Instance langgraph : LangGraph := {
  get_checkpoint_metadata _ m := m;
  get_checkpoint_id config := match parse_config config with Ok (_, _, id) => id | Err _ => None end;
  WRITES_IDX_MAP channel := if String.eqb channel "__error__" then Some (-1) else None }.
#[local] Instance driver : Postgres := { tuple_row r := Tuple (List.map snd r); dict_row r := Dict r; jsonb v := Ok v }.
#[local] Instance driver_laws : PostgresLaws.
Proof. split; [done|done|]. intros l _. exists l. split; [done|]. induction l; constructor; done. Qed.

Definition save (id : string) (parent : option string) (now : Z) : Save :=
  {| s_now := now; s_id := id; s_parent := parent; s_checkpoint := [("id", PStr id); ("step", PInt now)];
     s_metadata := PDict [("source", PStr "loop")]; s_versions := [] |}.
Definition two : list Save := [save "c1" None 10; save "c2" (Some "c1") 20].
Definition one_write : list (string * pyval) := [("messages", PList [PStr "hi"; PNone])].
Definition empty : Db := {| rows := []; uses_dict_rows := fun _ => false |}.

(** Two checkpoints are put, the list shows both; then the newest is asked for, on the
    connection 0: it raises, the list on that connection raises as well, on the connection
    1 it does not. *)
Definition stored : Db := match saves "t" "" two empty with Ok db => db | Err _ => empty end.
Definition asked_once : Db := fst (aget_tuple 0 (thread_config "t" "") stored).
Definition listed (conn : nat) (db : Db) : list (option dict) * option pyexc :=
  let y := alist conn (Some (thread_config "t" "")) None None None db in (List.map t_parent (fst y), snd y).

Example asked_then_listed :
  listed 0 stored = ([Some (config_of "t" "" "c1"); None], None) /\
  snd (aget_tuple 0 (thread_config "t" "") stored) = Err (TypeError "string argument without an encoding") /\
  listed 0 asked_once = ([], Some (TypeError "string argument without an encoding")) /\
  listed 1 asked_once = listed 0 stored /\
  aput_writes 0 (config_of "t" "" "c1") one_write "task" "" asked_once = Err (KeyError "0").
Proof. vm_compute. auto. Qed.

(** [before] leaves out the checkpoint it names and keeps those after it. *)
Example before_keeps_newer :
  List.map t_config (fst (alist 0 (Some (thread_config "t" "")) None (Some (config_of "t" "" "c1")) None stored))
    = [config_of "t" "" "c2"].
Proof. vm_compute. reflexivity. Qed.

(** A checkpoint that is put again loses its pending writes. *)
Example put_again_drops_writes :
  (let! db := aput_writes 0 (config_of "t" "" "c2") one_write "task" "" stored in
   let! (db, _) := aput_save "t" "" (save "c2" (Some "c1") 30) db in
   Ok (List.map t_writes (fst (alist 0 (Some (thread_config "t" "")) None None (Some 1) db)))) = Ok [[]].
Proof. vm_compute. reflexivity. Qed.

Example names :
  List.map (fun n => is_ok (_validate_table_name n)) ["lula_checkpoints"; "_t1"; ""; "1t"; "a;b"; "t" ++ nl; "t" ++ nl ++ nl] =
    [true; true; false; false; false; true; false].
Proof. vm_compute. reflexivity. Qed.

Lemma two_history : history "t" "" two.
Proof.
  apply (history_snoc "t" "" [save "c1" None 10]); [apply (history_snoc "t" "" [] (save "c1" None 10)); [constructor| |by intros q []]| |].
  1, 2: split; vm_compute; try done; (split; [done|]); by intros q [= <-].
  intros q [<-|[]]. split; vm_compute; done.
Qed.

Lemma postgres_lists_saved_witness :
  history "t" "" two /\
  exists db1 db2, saves "t" "" two empty = Ok db1 /\ aput_writes 1 (config_of "t" "" "c2") one_write "task" "" db1 = Ok db2 /\
    alist 1 (Some (thread_config "t" "")) None None None db2 =
      (List.map (fun q => tuple_of "t" "" q (if String.eqb (s_id q) "c2" then List.map (fun w => ("task", fst w, snd w)) one_write else [])) (rev two), None).
Proof.
  split; [exact two_history|].
  apply (postgres_lists_saved "t" "" eq_refl ltac:(done) eq_refl eq_refl two (save "c2" (Some "c1") 20) one_write "task" "" empty 1).
  - exact two_history.
  - right. by left.
  - by intros r [].
  - reflexivity.
  - reflexivity.
  - reflexivity.
  - repeat constructor.
Defined.

End Sample.
