(* ===== verification/PgVector.v ===== *)
(** * The vector store of Postgres: [backends/pgvector.py]

    One table of memories with their embeddings, searched by cosine distance.  The type
    [vector] of pgvector with its operator is behind an interface ([Pgvector]); [JSONB] is
    that of [PostgresSaver]. *)
From Stdlib Require Import ZArith Lia String Ascii List Bool Sorted Permutation.
From stdpp Require Import base tactics list strings option.
From S2P Require Import Prelude PyStr StrFacts PyFloat PyVal Json PostgresSaver.
Local Open Scope string_scope.
Local Open Scope Z_scope.

(** [cast dim text] is [text::vector(dim)], [query text] is [text::vector], [cosine_distance]
    is [<=>], which raises on different dimensions. *)
Class Pgvector (Vec : Type) := {
  cast : Z -> string -> res Vec;
  query : string -> res Vec;
  cosine_distance : Vec -> Vec -> res float }.

Section Store.
Context {Vec : Type} `{Pgvector Vec} `{Postgres}.
Context (_embedding_dim : Z) (_embedder : string -> res (list float)).

Record Memory := { id : Z; content : string; metadata : pyval; embedding : Vec; created_at : float }.

(** The rows, and the next number of the sequence. *)
Record Table := { memories : list Memory; next_id : Z }.

Record PgMemoryRecord := { r_id : option Z; r_content : string; r_metadata : dict; r_created_at : float; distance : option float }.

(** [f"[{','.join(str(v) for v in vec)}]"] *)
Definition vec_str (vec : list float) : string := "[" ++ join "," (List.map repr_float vec) ++ "]".

(** A statement that fails stores nothing; whether it used up a number of the sequence is
    not modelled. *)
Definition store_semantic (now : float) (text : string) (meta : option dict) (emb : option (list float)) (t : Table) : Table * res Z :=
  let embedded := match emb with Some v => Ok v | None => _embedder text end in
  match embedded with
  | Err e => (t, Err e)
  | Ok vec =>
      match bound_texts [text] with
      | Err e => (t, Err e)
      | Ok _ =>
          match jsonb (PDict (default [] meta)), cast _embedding_dim (vec_str vec) with
          | Ok m, Ok v =>
              ({| memories := memories t ++ [{| id := next_id t; content := text; metadata := m; embedding := v; created_at := now |}];
                  next_id := next_id t + 1 |}, Ok (next_id t))
          | Err e, _ | _, Err e => (t, Err e)
          end
      end
  end.

(** Ascending, as Postgres orders numbers: NaN is the greatest. *)
Definition nearer (a b : float) : bool := negb (is_nan a) && (is_nan b || frank_ltb a b).

Definition with_distance (q : Vec) (m : Memory) : res (Memory * float) :=
  let! d := cosine_distance (embedding m) q in Ok (m, d).

(** A column read as a text is parsed. *)
Definition metadata_of (v : pyval) : dict :=
  match v with
  | PStr s => match json_loads s with Ok (PDict d) => d | _ => [] end
  | PDict d => d
  | _ => []
  end.

Definition record_of (md : Memory * float) : PgMemoryRecord :=
  {| r_id := Some (id (fst md)); r_content := content (fst md); r_metadata := metadata_of (metadata (fst md));
     r_created_at := created_at (fst md); distance := Some (snd md) |}.

Definition search_semantic (query_text : string) (top_k : Z) (t : Table) : res (list PgMemoryRecord) :=
  let top_k := Z.max 1 top_k in
  let! query_vec := _embedder query_text in
  let! q := query (vec_str query_vec) in
  let! found := map_res (with_distance q) (memories t) in
  Ok (List.map record_of (firstn (Z.to_nat top_k) (py_sorted (fun a b => nearer (snd a) (snd b)) found))).

(** ** Properties *)

Lemma nearer_asym a b : nearer a b = true -> nearer b a = false.
Proof.
  unfold nearer. intros [Ha Hb]%andb_prop. apply andb_false_iff. destruct (is_nan b); [by left|]. right. cbn [orb] in Hb.
  apply negb_true_iff in Ha. rewrite Ha. cbn [orb]. apply frank_ltb_spec in Hb. apply not_true_iff_false. rewrite frank_ltb_spec. unfold rank_lt in *.
  destruct (frank a) as [[??]?], (frank b) as [[??]?]. lia.
Qed.

Lemma nearer_trans a b c : nearer b a = false -> nearer c b = false -> nearer c a = false.
Proof.
  unfold nearer. destruct (is_nan a) eqn:Ea, (is_nan b) eqn:Eb, (is_nan c) eqn:Ec; cbn; try done.
  intros H1 H2. apply not_true_iff_false in H1, H2. apply not_true_iff_false. rewrite frank_ltb_spec in *. unfold rank_lt in *.
  destruct (frank a) as [[??]?], (frank b) as [[??]?], (frank c) as [[??]?]. lia.
Qed.

(** A search gives the nearest memories, the nearest first: as many as asked for, at least
    one when there is one, and none that is left out is nearer than one that is given. *)
Theorem search_gives_nearest query_text top_k t out :
  search_semantic query_text top_k t = Ok out ->
  exists q found kept dropped,
    map_res (with_distance q) (memories t) = Ok found /\ Permutation (kept ++ dropped) found /\
    out = List.map record_of kept /\ length kept = Nat.min (Z.to_nat (Z.max 1 top_k)) (length (memories t)) /\
    ordered (fun a b => nearer (snd a) (snd b)) kept /\
    forall x y, In x kept -> In y dropped -> nearer (snd y) (snd x) = false.
Proof.
  unfold search_semantic. intros (v & _ & (q & _ & (found & Ef & [= <-])%bind_Ok)%bind_Ok)%bind_Ok.
  destruct (sorted_split (fun a b => nearer (snd a) (snd b)) (Z.to_nat (Z.max 1 top_k)) found) as (Hp & Hl & Ho & Hd);
    [intros x y; apply nearer_asym|intros x y z; apply nearer_trans|].
  eexists q, found, _, _. split; [exact Ef|]. split; [exact Hp|]. split; [done|]. split; [|by split].
  by rewrite Hl, (map_res_length _ _ _ Ef).
Qed.

(** A memory that was stored is the one added, under the number that is returned. *)
Theorem stored_memory now text meta emb t t' n :
  store_semantic now text meta emb t = (t', Ok n) ->
  n = next_id t /\ next_id t' = n + 1 /\
  exists m, memories t' = (memories t ++ [m])%list /\ id m = n /\ content m = text /\ jsonb (PDict (default [] meta)) = Ok (metadata m).
Proof.
  unfold store_semantic. destruct (match emb with Some v => Ok v | None => _embedder text end) as [vec|]; [|done].
  destruct (bound_texts [text]); [|done]. destruct (jsonb _) as [m|]; [|done]. destruct (cast _ _) as [v|]; [|done].
  intros [= <- <-]. split; [done|]. split; [done|]. by eexists.
Qed.
End Store.

(** ** A table *)
Module Sample.
#[local] Instance texts : Pgvector string := {
  cast _ s := if String.eqb s "[]" then Err (DatabaseError "vector must have at least 1 dimension") else Ok s;
  query s := Ok s;
  cosine_distance a b := Ok (if String.eqb a b then fzero else float_of_Z 1) }.
#[local] Instance driver : Postgres := { tuple_row r := Tuple (List.map snd r); dict_row r := Dict r; jsonb v := Ok v }.
Definition embedder (s : string) : res (list float) := Ok [float_of_Z (py_len s)].

Definition two : Table (Vec := string) :=
  let t := {| memories := []; next_id := 1 |} in
  let t := fst (store_semantic 1 embedder fzero "abc" None None t) in
  fst (store_semantic 1 embedder fzero "de" (Some [("k", PInt 1)]) None t).

Example searched :
  (let! l := search_semantic embedder "xy" 0 two in Ok (List.map (fun r => (r_id r, r_content r, r_metadata r)) l)) = Ok [(Some 2, "de", [("k", PInt 1)])] /\
  snd (store_semantic 1 embedder fzero "f" None (Some []) two) = Err (DatabaseError "vector must have at least 1 dimension").
Proof. vm_compute. auto. Qed.
End Sample.
