(* ===== verification/NodeLlm.v ===== *)
(** * Ingest, coder and reporter: [nodes/ingest.py], [nodes/coder.py], [nodes/reporter.py]

    The entry node, which rebuilds the state from its request and its internal
    keys, and the two nodes that may ask a model for text and do without it when
    none is configured or it fails.  [_get_inference_config] and the choice
    between streaming and blocking are the same text in both nodes. *)
From Stdlib Require Import ZArith Lia String Ascii List Bool.
From Stdlib Require Import SpecFloat.
From stdpp Require Import base tactics list strings option.
From S2P Require Import Prelude PyStr PyFloat PyVal State Memory ModelRouting Executor Verifier Router.
Local Open Scope string_scope.
Local Open Scope Z_scope.

(** ** Ingest *)

Definition _ORCH_DEFAULTS : dict :=
  [("intent", PStr "analysis"); ("repo_context", PDict []); ("facts", PList []); ("plan", PNone);
   ("tool_results", PList []); ("patches", PList []); ("verification", PNone); ("final", PStr "");
   ("guards", PDict []); ("budgets", PDict []); ("approvals", PDict []); ("security", PDict []);
   ("telemetry", PDict []); ("route", PNone); ("active_handoff", PNone); ("retry_target", PNone);
   ("recovery_packet", PNone); ("context_reset_requested", PBool false); ("plan_discarded", PBool false);
   ("plan_discard_reason", PStr ""); ("halt_reason", PStr ""); ("loop_summaries", PList []);
   ("history_policy", PDict []); ("provenance", PList []); ("checkpoint", PDict []); ("snapshots", PList []);
   ("undo", PDict []); ("resume", PDict [])].

(** [validate_state({"request": ..}).model_dump()] of pydantic, the fresh run id and the clock. *)
Record IngestEnv := { i_validate : string -> res dict; i_uuid : string; i_ts : Z }.

Definition internal_keys (uuid : string) (raw : dict) : dict :=
  let internal := List.filter (fun kv => startswith (fst kv) "_") raw in
  let existing := dget internal "_run_id" PNone in
  dset "_run_id" (if truthy existing then existing else PStr uuid) internal.

Definition ingest (env : IngestEnv) (raw : dict) : res dict :=
  let req := str_strip (dget raw "request" (PStr "")) in
  let validated := match i_validate env req with
                   | Ok d => d
                   | Err _ => dupdate [("request", PStr req)] _ORCH_DEFAULTS
                   end in
  append_event (i_ts env) (dupdate validated (internal_keys (i_uuid env) raw)) "node"
    [("name", PStr "ingest"); ("phase", PStr "end")].

(** ** The model call of the coder and the reporter *)

(** The environment variables, the blocking completion and the streaming one
    (which also publishes its chunks): each given the client and the prompts. *)
Record LlmEnv := {
  l_getenv : string -> string;               (* the empty text when unset *)
  l_complete : ClientConfig -> string -> string -> float -> res string;
  l_stream : string -> ClientConfig -> string -> string -> float -> res string;
  l_ts_start : Z; l_ts_end : Z }.

(** [(x or "").strip()] of a configuration value. *)
Definition cfg_text (v : pyval) : string := str_strip (py_or v (PStr "")).

Definition provider_config (cfg : dict) (env_key default_url model : string) : option ClientConfig :=
  let api_key := str_or (cfg_text (dget cfg "api_key" PNone)) (strip env_key) in
  if String.eqb api_key "" then None
  else
    let base_url := rstrip_by (Ascii.eqb "/") (str_strip (dget cfg "base_url" (PStr default_url))) in
    let timeout := dget cfg "timeout_s" (PInt 60) in
    if String.eqb base_url "" || negb (_validate_base_url base_url) then None
    else Some {| cc_base_url := base_url; cc_api_key := api_key;
                 cc_timeout_s := if is_int timeout && (0 <? int_of timeout) then int_of timeout else 60;
                 cc_model := model |}.

Definition _get_inference_config (env : LlmEnv) (state : dict) : option ClientConfig :=
  let slot := dsub (dsub state "_models") "planner" in
  let provider := lower (str_strip (dget slot "provider" (PStr "local"))) in
  if str_in provider [""; "local"] then None
  else
    let model := str_strip (dget slot "model" (PStr "")) in
    if String.eqb model "" then None
    else
      let runtime := dsub state "_model_provider_runtime" in
      if String.eqb provider "openai_compatible" then
        provider_config (dsub runtime "openai_compatible") (l_getenv env "OPENAI_API_KEY")
          "https://api.openai.com/v1" model
      else
        provider_config (dsub runtime "digitalocean")
          (str_or (l_getenv env "MODEL_ACCESS_KEY") (l_getenv env "DIGITAL_OCEAN_MODEL_ACCESS_KEY"))
          "https://inference.do-ai.run/v1" model.

(** Streaming when the state has a ["run_id"], blocking otherwise or when streaming raises. *)
Definition synthesize (env : LlmEnv) (state : dict) (cfg : ClientConfig) (system user : string) (t : float)
    : res string :=
  match dget state "run_id" PNone with
  | PStr run_id =>
      if String.eqb (strip run_id) "" then l_complete env cfg system user t
      else match l_stream env (strip run_id) cfg system user t with
           | Ok text => Ok text
           | Err _ => l_complete env cfg system user t
           end
  | _ => l_complete env cfg system user t
  end.

(** ** Coder *)

Module Coder.

Definition _SYSTEM_PROMPT : string :=
  "You are a coder for a repo-aware coding assistant. " ++
  "Given the handoff objective, file scope, evidence, and constraints, " ++
  "produce a concise patch description or implementation guidance. " ++
  "Be specific: name the exact files, functions, and minimal changes required. " ++
  "Prefer the smallest correct diff.".

(** [[str(p).strip() for p in v if isinstance(v, list) and str(p).strip()]]: the value is
    iterated before it is known to be a list. *)
Definition scope_paths (v : pyval) : res (list string) :=
  let! items := py_iter v in
  Ok (if is_list v then nonblank_texts items else []).

(** [[str(i).strip() for i in v if isinstance(i, str) and i.strip()]] of a list, else nothing. *)
Definition texts_of (v : pyval) : list string :=
  flat_map (fun e => match e with PStr s => if String.eqb (strip s) "" then [] else [strip s] | _ => [] end)
           (list_or_empty v).

Record Handoff := {
  h_producer : string; h_consumer : string; h_objective : string; h_file_scope : list string;
  h_evidence : list dict; h_constraints : list string; h_acceptance_checks : list string;
  h_retry_budget : pyval; h_provenance : list string }.

Definition _coerce_handoff (raw : pyval) : res (option Handoff) :=
  match raw with
  | PDict d =>
      let text k := str_strip (dget d k (PStr "")) in
      if String.eqb (text "producer") "" || String.eqb (text "consumer") "" || String.eqb (text "objective") ""
      then Ok None
      else
        let! file_scope := scope_paths (dget d "file_scope" (PList [])) in
        let budget := dget d "retry_budget" (PInt 1) in
        Ok (Some {| h_producer := text "producer"; h_consumer := text "consumer"; h_objective := text "objective";
                    h_file_scope := file_scope;
                    h_evidence := dicts_of (list_or_empty (dget d "evidence" (PList [])));
                    h_constraints := texts_of (dget d "constraints" (PList []));
                    h_acceptance_checks := texts_of (dget d "acceptance_checks" (PList []));
                    h_retry_budget := if is_int budget && (0 <=? int_of budget) then budget else PInt 1;
                    h_provenance := texts_of (dget d "provenance" (PList [])) |})
  | _ => Ok None
  end.

Definition _first_step (plan : dict) : option dict :=
  List.hd_error (dicts_of (list_or_empty (dget plan "steps" (PList [])))).

Definition _dedupe (items : list string) : list string :=
  fold_left (fun out item =>
    let n := strip item in
    if String.eqb n "" || str_in n out then out else (out ++ [n])%list) items [].

Definition or_text (s dflt : string) : string := str_or s dflt.

Definition guidance_prompt (h : Handoff) : string :=
  let evidence := str_prefix (join nl (List.filter (fun s => negb (String.eqb s ""))
                    (List.map (fun e => str_strip (dget e "detail" (PStr ""))) (h_evidence h)))) 800 in
  let constraints := str_prefix (join nl (h_constraints h)) 400 in
  "Objective: " ++ strip (h_objective h) ++ nl ++ nl
  ++ "File scope: " ++ or_text (join ", " (h_file_scope h)) "(not specified)" ++ nl ++ nl
  ++ "Evidence:" ++ nl ++ or_text evidence "(none)" ++ nl ++ nl
  ++ "Constraints:" ++ nl ++ or_text constraints "(none)" ++ nl ++ nl
  ++ "Produce concise patch guidance.".

Definition _llm_code_synthesis (env : LlmEnv) (state : dict) (h : Handoff) : res (option string) :=
  match _get_inference_config env state with
  | None => Ok None
  | Some cfg =>
      let! text := synthesize env state cfg _SYSTEM_PROMPT (guidance_prompt h) (float_lit 2 1) in Ok (Some text)
  end.

Definition evidence_entry (kind ref detail : string) : dict :=
  [("kind", PStr kind); ("ref", PStr ref); ("detail", PStr detail)].

Definition bounded_rule : string := "Execute only the current step's planned tools.".

(** The handoff to the executor, before the guidance of the model. *)
Definition next_handoff (source : Handoff) (step_id description outcome : string) (files_touched : list string)
    (guidance : option string) : res dict :=
  let! retry_budget := py_int (py_or (h_retry_budget source) (PInt 0)) in
  let evidence :=
    (h_evidence source
     ++ (if String.eqb description "" then [] else [evidence_entry "plan_step" step_id description])
     ++ (if String.eqb outcome "" then [] else [evidence_entry "expected_outcome" step_id outcome])
     ++ (match guidance with
         | Some g => if String.eqb g "" then [] else [evidence_entry "llm_guidance" step_id (str_prefix g 600)]
         | None => [] end))%list in
  let checks :=
    if negb (String.eqb outcome "") && negb (str_in outcome (h_acceptance_checks source))
    then (h_acceptance_checks source ++ [outcome])%list else h_acceptance_checks source in
  Ok [("producer", PStr "coder"); ("consumer", PStr "executor");
      ("objective", PStr "Execute the bounded tool sequence prepared by the coder for the current step.");
      ("file_scope", strs (_dedupe (h_file_scope source ++ files_touched)));
      ("evidence", PList (List.map PDict evidence));
      ("constraints", strs (_dedupe (h_constraints source ++ [bounded_rule])));
      ("acceptance_checks", strs (_dedupe checks)); ("retry_budget", PInt retry_budget);
      ("provenance", strs (_dedupe (h_provenance source ++ [("coder:" ++ step_id)%string])%list))].

Definition for_coder (h : option Handoff) : option Handoff :=
  match h with Some h' => if String.eqb (h_consumer h') "coder" then Some h' else None | None => None end.

Definition end_event (env : LlmEnv) (state : dict) (more : dict) : res dict :=
  append_event (l_ts_end env) state "node" (("name", PStr "coder") :: ("phase", PStr "end") :: more).

Definition coder (env : LlmEnv) (state : dict) : res dict :=
  let! state := append_event (l_ts_start env) state "node" [("name", PStr "coder"); ("phase", PStr "start")] in
  match _first_step (dict_or_empty (dget state "plan" (PDict []))) with
  | None => end_event env state [("handoff", PStr "none")]
  | Some step =>
      let! active_handoff := _coerce_handoff (dget state "active_handoff" PNone) in
      let! step_handoff := _coerce_handoff (dget step "handoff" PNone) in
      match (match for_coder active_handoff with Some h => Some h | None => for_coder step_handoff end) with
      | None => end_event env state [("handoff", PStr "pass_through")]
      | Some source =>
          let step_id := str_or (str_strip (dget step "id" (PStr "step"))) "step" in
          let! files_touched := scope_paths (dget step "files_touched" (PList [])) in
          let guidance := match _llm_code_synthesis env state source with Ok g => g | Err _ => None end in
          let! handoff := next_handoff source step_id (str_strip (dget step "description" (PStr "")))
                            (str_strip (dget step "expected_outcome" (PStr ""))) files_touched guidance in
          let out := dset "retry_target" PNone (dset "active_handoff" (PDict handoff) state) in
          end_event env out [("handoff_consumer", PStr "executor"); ("step_id", PStr step_id)]
      end
  end.
End Coder.

(** ** Reporter *)

Module Reporter.

Definition _SYSTEM_PROMPT : string :=
  "You are a reporter for a repo-aware coding assistant. " ++
  "Given the user's request and the tool results gathered, produce a direct, " ++
  "complete, human-readable answer. Be specific: include file names, line numbers, " ++
  "function names, and code snippets where relevant. If the request was a code " ++
  "change, confirm what was changed and whether tests passed.".

Definition result_chunk (tr : dict) : string :=
  let stdout := str_prefix (py_str (dget tr "stdout" (PStr ""))) 500 in
  let stderr := str_prefix (py_str (dget tr "stderr" (PStr ""))) 200 in
  "[" ++ py_str (dget tr "tool" (PStr "unknown")) ++ "] ok=" ++ py_str (dget tr "ok" (PBool true))
  ++ (if String.eqb stdout "" then "" else nl ++ "stdout: " ++ stdout)
  ++ (if String.eqb stderr "" then "" else nl ++ "stderr: " ++ stderr).

Definition _summarize_tool_results (tool_results : list pyval) : string :=
  str_prefix (join (nl ++ nl) (List.map result_chunk (dicts_of tool_results))) 2000.

Definition line_if (c : bool) (line : string) : list string := if c then [line] else [].

Definition unmet_criteria (verification : dict) : list string :=
  List.filter (fun s => negb (String.eqb s ""))
    (List.map (fun e => str_strip (dget e "criterion" (PStr "")))
      (List.filter (fun e => negb (result_ok e))
        (dicts_of (list_or_empty (dget verification "acceptance_checks" (PList [])))))).

Definition _structured_summary (state : dict) : res string :=
  let repo_context := dget state "repo_context" (PDict []) in
  let tool_results := dget state "tool_results" (PList []) in
  let verification := dsub state "verification" in
  let! repo_root := get repo_context "repo_root" PNone in
  let! top_level := get repo_context "top_level" PNone in
  let! calls := if truthy tool_results
                then let! n := py_length tool_results in Ok ["tool_calls: " ++ str_of_Z n] else Ok [] in
  let unmet := unmet_criteria verification in
  let halt_reason := str_strip (dget state "halt_reason" (PStr "")) in
  Ok (join nl
    ([("intent: " ++ py_str (dget state "intent" PNone))%string; ("repo_root: " ++ py_str repo_root)%string;
      ("top_level: " ++ py_str top_level)%string]
     ++ calls
     ++ line_if (dhas "ok" verification) ("verification_ok: " ++ py_str (dget verification "ok" PNone))%string
     ++ line_if (dhas "acceptance_ok" verification) ("acceptance_ok: " ++ py_str (dget verification "acceptance_ok" PNone))%string
     ++ line_if (match unmet with [] => false | _ => true end) ("acceptance_unmet: " ++ py_str (strs unmet))%string
     ++ line_if (negb (String.eqb halt_reason "")) ("halt_reason: " ++ halt_reason)%string)%list).

Definition report_prompt (state : dict) : string :=
  "Request: " ++ str_strip (dget state "request" (PStr "")) ++ nl ++ nl ++ "Tool results:" ++ nl
  ++ _summarize_tool_results (list_or_empty (dget state "tool_results" (PList []))) ++ nl ++ nl
  ++ "Produce the final answer.".

Definition _llm_synthesis (env : LlmEnv) (state : dict) : res (option string) :=
  match _get_inference_config env state with
  | None => Ok None
  | Some cfg =>
      let! text := synthesize env state cfg _SYSTEM_PROMPT (report_prompt state) (float_lit 3 1) in Ok (Some text)
  end.

(** [type(exc).__name__]. *)
Definition exc_name (e : pyexc) : string :=
  match e with
  | ValueError _ => "ValueError" | TypeError _ => "TypeError" | AttributeError _ => "AttributeError"
  | KeyError _ => "KeyError" | IndexError _ => "IndexError" | OverflowError _ => "OverflowError"
  | RuntimeError _ => "RuntimeError" | ZeroDivisionError _ => "ZeroDivisionError"
  | ValidationError _ => "ValidationError" | OSError _ => "OSError" | ConfigError _ => "ConfigError"
  | DatabaseError _ => "DatabaseError" | BackendError _ => "CheckpointBackendError" | Unmodelled _ => ""
  end.

(** The text of the final answer. *)
Definition final_text (env : LlmEnv) (state : dict) : string :=
  let summary llm_error :=
    match _structured_summary state with
    | Ok s => if String.eqb llm_error "" then s else s ++ nl ++ llm_error
    | Err e => "error: reporter failed: " ++ exc_str e
    end in
  match _llm_synthesis env state with
  | Ok (Some text) => if String.eqb text "" then summary "" else text
  | Ok None => summary ""
  | Err e => summary ("llm_error: " ++ exc_name e ++ ": " ++ exc_str e)
  end.

Definition reporter (env : LlmEnv) (state : dict) : res dict :=
  let! state := append_event (l_ts_start env) state "node" [("name", PStr "reporter"); ("phase", PStr "start")] in
  append_event (l_ts_end env) (dset "final" (PStr (final_text env state)) state) "node"
    [("name", PStr "reporter"); ("phase", PStr "end")].
End Reporter.
