(* ===== verification/Graph.v ===== *)
(** * The orchestration graph: [graph.py]

    The nodes, the two routing functions and the execution of the compiled graph.
    The nodes and LangGraph's merge of a node's update into the state are an
    interface ([OrchGraph]); [NodeContract] states what the loop of the graph
    asks of every node, and is proved for the modelled ones in [GraphProps]. *)
From Stdlib Require Import ZArith Lia String Ascii List Bool.
From stdpp Require Import base tactics list strings option.
From S2P Require Import Prelude PyStr PyVal State Policy Verifier.
Local Open Scope string_scope.
Local Open Scope Z_scope.

Inductive Node :=
| n_ingest | n_policy_gate | n_context_builder | n_router | n_planner | n_coder | n_executor | n_verifier
| n_reporter | n_END.

#[export] Instance Node_eq_dec : EqDecision Node.
Proof. solve_decision. Defined.

Definition node_name (n : Node) : string :=
  match n with
  | n_ingest => "ingest" | n_policy_gate => "policy_gate" | n_context_builder => "context_builder"
  | n_router => "router" | n_planner => "planner" | n_coder => "coder" | n_executor => "executor"
  | n_verifier => "verifier" | n_reporter => "reporter" | n_END => "END"
  end.

(** ** Routing *)

Definition halting (state : dict) : bool :=
  str_in (str_strip (dget state "halt_reason" (PStr ""))) ["max_loops_exhausted"; "plan_max_iterations_exhausted"].

Definition route_after_policy_gate (state : dict) : Node :=
  if halting state then n_reporter
  else if truthy (dget state "context_reset_requested" (PBool false)) then n_context_builder
  else
    let retry_target := dget state "retry_target" PNone in
    if py_eq retry_target (PStr "router") then n_router
    else if py_eq retry_target (PStr "planner") then n_planner
    else if py_eq retry_target (PStr "coder") then n_coder
    else if py_eq retry_target (PStr "context_builder") then n_context_builder
    else n_context_builder.

(** A value that is no dict has no attribute [ok]. *)
Definition route_after_verifier (state : dict) : Node :=
  match dget state "verification" PNone with
  | PDict v => if truthy (dget v "ok" PNone) then n_reporter else n_policy_gate
  | _ => n_policy_gate
  end.

(** The edges of [build_graph]. *)
Definition successor (n : Node) (state : dict) : Node :=
  match n with
  | n_ingest => n_policy_gate
  | n_policy_gate => route_after_policy_gate state
  | n_context_builder => n_router
  | n_router => n_planner
  | n_planner => n_coder
  | n_coder => n_executor
  | n_executor => n_verifier
  | n_verifier => route_after_verifier state
  | n_reporter => n_END
  | n_END => n_END
  end.

(** The edges [export_mermaid] draws. *)
Definition mermaid_nodes : list Node :=
  [n_ingest; n_policy_gate; n_context_builder; n_router; n_planner; n_coder; n_executor; n_verifier; n_reporter; n_END].

Definition mermaid_edges : list (Node * Node) :=
  [(n_ingest, n_policy_gate); (n_policy_gate, n_context_builder); (n_policy_gate, n_router);
   (n_policy_gate, n_planner); (n_policy_gate, n_coder); (n_policy_gate, n_reporter);
   (n_context_builder, n_router); (n_router, n_planner); (n_planner, n_coder); (n_coder, n_executor);
   (n_executor, n_verifier); (n_verifier, n_reporter); (n_verifier, n_policy_gate); (n_reporter, n_END)].

(** ** Execution *)

(** The channels of [OrchStateDict] the routing and the loop budget read. *)
Definition loop_channels : list string :=
  ["halt_reason"; "context_reset_requested"; "retry_target"; "verification"; "budgets"; "_budget_max_loops"; "plan"].

(** The nodes, and the merge of an update: a declared key of the update replaces
    the channel's value, other channels keep theirs. *)
Class OrchGraph := {
  run_node : Node -> dict -> res dict;
  merge : dict -> dict -> dict;
  merge_channel : forall s u k, In k loop_channels ->
    dlookup k (merge s u) = match dlookup k u with Some v => Some v | None => dlookup k s end }.

Section Run.
Context `{OrchGraph}.

(** One superstep. *)
Definition graph_step (n : Node) (state : dict) : res (Node * dict) :=
  let! update := run_node n state in
  let state := merge state update in
  Ok (successor n state, state).

(** [app.invoke] from node [n], with the nodes executed: [None] when the fuel runs out first. *)
Fixpoint run_graph (fuel : nat) (n : Node) (state : dict) : list Node * option (res dict) :=
  if bool_decide (n = n_END) then ([], Some (Ok state))
  else
    match fuel with
    | O => ([], None)
    | S fuel' =>
        match graph_step n state with
        | Err e => ([n], Some (Err e))
        | Ok (n', state') =>
            let '(visited, outcome) := run_graph fuel' n' state' in (n :: visited, outcome)
        end
    end.

Definition invoke (fuel : nat) (state : dict) : list Node * option (res dict) := run_graph fuel n_ingest state.

(** The loop counter the gate wrote. *)
Definition loop_counter (state : dict) (c : Z) : Prop :=
  exists b, dget state "budgets" PNone = PDict b /\ dget b "current_loop" PNone = PInt c.

(** What the loop relies on: the gate is [policy_gate], no other node moves the
    configured limit, and the nodes inside the loop keep the loop counter. *)
Class NodeContract (adapter : NonNegIntAdapter) := {
  gate_is_policy : forall s, exists t0 t1, run_node n_policy_gate s = policy_gate t0 t1 s;
  ingest_limit : forall s u, wf_keys s -> run_node n_ingest s = Ok u ->
    dlookup "_budget_max_loops" (merge s u) = dlookup "_budget_max_loops" s;
  keeps_limit : forall n s u, ~ In n [n_ingest; n_policy_gate] -> run_node n s = Ok u ->
    dlookup "_budget_max_loops" (merge s u) = dlookup "_budget_max_loops" s;
  keeps_counter : forall n s u c,
    In n [n_context_builder; n_router; n_planner; n_coder; n_executor; n_verifier] ->
    run_node n s = Ok u -> loop_counter s c -> loop_counter (merge s u) c }.
End Run.
