(* ===== verification/NodeFrames.v ===== *)
(** * Frames of the nodes

    Which keys of the state each modelled node may change, and that the nodes of
    the loop keep the loop counter that [policy_gate] wrote. *)
From Stdlib Require Import ZArith Lia String Ascii List Bool.
From stdpp Require Import base tactics list strings option.
From S2P Require Import Prelude PyStr PyFloat PyVal State Policy Memory MemoryProps ModelRouting RunnerClient Executor Verifier VerifierProps Router RouterProps NodeLlm Graph.
Local Open Scope string_scope.
Local Open Scope Z_scope.

(** [same_but ks s s']: no key outside [ks] changed. *)
Definition same_but (ks : list string) (s s' : dict) : Prop :=
  forall k, str_in k ks = false -> dlookup k s' = dlookup k s.

Lemma same_but_refl ks s : same_but ks s s.
Proof. by intros k _. Qed.

Lemma same_but_trans ks s1 s2 s3 : same_but ks s1 s2 -> same_but ks s2 s3 -> same_but ks s1 s3.
Proof. intros H1 H2 k Hk. by rewrite H2, H1. Qed.

Lemma str_in_neq k k' ks : str_in k ks = false -> In k' ks -> k <> k'.
Proof.
  intros H Hin ->. assert (str_in k' ks = true); [|congruence].
  apply existsb_exists. exists k'. split; [done|apply String.eqb_refl].
Qed.

Lemma str_in_incl k ks ks' : incl ks ks' -> str_in k ks' = false -> str_in k ks = false.
Proof.
  intros Hi Hk. apply not_true_iff_false. intros E. apply existsb_exists in E as (x & Hx & Ex).
  apply String.eqb_eq in Ex as ->. by apply (str_in_neq x x ks' Hk (Hi _ Hx)).
Qed.

Lemma same_but_weaken ks ks' s s' : incl ks ks' -> same_but ks s s' -> same_but ks' s s'.
Proof. intros Hi H k Hk. apply H. by eapply str_in_incl. Qed.

Lemma same_but_dset ks s k v : In k ks -> same_but ks s (dset k v s).
Proof. intros Hin k' Hk. apply dlookup_dset_ne. by eapply str_in_neq. Qed.

Lemma same_but_event ks ts s kind data s' :
  append_event ts s kind data = Ok s' -> In "_trace_events" ks -> same_but ks s s'.
Proof. intros H Hin k Hk. apply (append_event_frame _ _ _ _ _ _ H). apply String.eqb_neq. by eapply str_in_neq. Qed.

Lemma same_but_policy ks s s' : ensure_history_policy s = Ok s' -> In "history_policy" ks -> same_but ks s s'.
Proof. intros H Hin k Hk. apply (ensure_policy_frame _ _ _ H). apply String.eqb_neq. by eapply str_in_neq. Qed.

Lemma same_but_route ks s n t m s' : record_model_route s n t m = Ok s' -> In "telemetry" ks -> same_but ks s s'.
Proof. intros H Hin k Hk. apply (record_model_route_frame _ _ _ _ _ _ H). apply String.eqb_neq. by eapply str_in_neq. Qed.

(** Goals [In "key" [...]] and [incl [...] [...]] with literal keys. *)
Ltac in_keys := cbn; repeat (first [left; reflexivity | right]).
Ltac incl_keys := let x := fresh in let Hx := fresh in
  intros x Hx; repeat (destruct Hx as [<-|Hx]; [in_keys|]); destruct Hx.

(** ** Executor *)

Definition executor_keys : list string :=
  ["history_policy"; "_trace_events"; "_scip_index_stale"; "budgets"; "_checkpoint"; "tool_results"; "provenance"].

Lemma send_batch_frame env i route xs calls :
  same_but ["_trace_events"; "_scip_index_stale"] (xs_state xs) (xs_state (fst (send_batch env i route xs calls))).
Proof.
  unfold send_batch. destruct (batch_execute_tools _ _) as [rs|e]; [|apply same_but_refl]. cbv zeta.
  set (st := if existsb patched rs then _ else _).
  assert (Hst : same_but ["_trace_events"; "_scip_index_stale"] (xs_state xs) st)
    by (unfold st; destruct (existsb patched rs); [apply same_but_dset; in_keys|apply same_but_refl]).
  destruct (append_event _ st _ _) as [st'|e] eqn:E; cbn [fst xs_state]; [|done].
  eapply same_but_trans; [exact Hst|]. eapply same_but_event; [exact E|in_keys].
Qed.

Lemma exec_step_frame env g i xs step xs' r :
  exec_step env g i xs step = (xs', r) -> same_but ["_trace_events"; "_scip_index_stale"] (xs_state xs) (xs_state xs').
Proof.
  unfold exec_step. destruct (step_body env g i xs step) as [x e] eqn:Eb.
  assert (Hx : same_but ["_trace_events"; "_scip_index_stale"] (xs_state xs) (xs_state x)).
  { unfold step_body in Eb. cbv zeta in Eb.
    repeat (match type of Eb with
            | (match ?d with _ => _ end) = _ => destruct d
            end; try (injection Eb as <- _; apply same_but_refl)).
    match type of Eb with send_batch ?env ?i ?r ?xs ?cs = _ => pose proof (send_batch_frame env i r xs cs) as Hs end.
    by rewrite Eb in Hs. }
  destruct e as [e|]; [|by intros [= <- _]]. unfold handle_failure. by destruct (get step _ _); intros [= <- _].
Qed.

Lemma exec_steps_frame env g i xs steps xs' r :
  exec_steps env g i xs steps = (xs', r) -> same_but ["_trace_events"; "_scip_index_stale"] (xs_state xs) (xs_state xs').
Proof.
  revert i xs. induction steps as [|s steps IH]; intros i xs; cbn [exec_steps]; [intros [= <- _]; apply same_but_refl|].
  destruct (xs_stop xs); [intros [= <- _]; apply same_but_refl|].
  destruct (exec_step env g i xs s) as [x [e|]] eqn:Hx; [intros [= <- _]; by eapply exec_step_frame|].
  intros H. eapply same_but_trans; [by eapply exec_step_frame|by eapply IH].
Qed.

Lemma same_but_prune_pre ks s s' :
  prune_pre_verification_history s = Ok s' -> incl ["history_policy"; "tool_results"; "provenance"] ks -> same_but ks s s'.
Proof.
  intros H Hi. destruct (prune_pre_cases _ _ H) as (mid & retain & p & Em & _ & _ & Hout). cbv zeta in Hout.
  assert (Hm : same_but ks s mid) by (eapply same_but_policy; [exact Em|apply Hi; in_keys]).
  destruct (_ <=? _); subst s'; [done|].
  eapply same_but_trans; [exact Hm|]. eapply same_but_trans; apply same_but_dset, Hi; in_keys.
Qed.

Lemma loop_counter_frame ks s s' c : same_but ks s s' -> str_in "budgets" ks = false -> loop_counter s c -> loop_counter s' c.
Proof. intros H Hk (b & Hb & Hc). exists b. split; [|done]. rewrite <- Hb. by apply dlookup_dget, H. Qed.

Lemma executor_frame env state out :
  snd (executor env state) = Ok out ->
  same_but executor_keys state out /\ (forall c, loop_counter state c -> loop_counter out c).
Proof.
  intros H. unfold executor in H. destruct (negb _); [injection H as <-; by split; [apply same_but_refl|]|].
  destruct (let! state := _ in _) as [s2|e] eqn:E12; [|done]. apply bind_Ok in E12 as (s1 & H1 & H2).
  assert (F2 : same_but ["history_policy"; "_trace_events"] state s2).
  { eapply same_but_trans; [eapply same_but_policy; [exact H1|in_keys]|eapply same_but_event; [exact H2|in_keys]]. }
  assert (Hkeep : forall o, same_but ["history_policy"; "_trace_events"] s2 o ->
            same_but executor_keys state o /\ (forall c, loop_counter state c -> loop_counter o c)).
  { intros o Ho. assert (F : same_but ["history_policy"; "_trace_events"] state o) by (by eapply same_but_trans). split.
    - eapply same_but_weaken; [|exact F]. incl_keys.
    - intros c. by apply (loop_counter_frame _ _ _ _ F). }
  destruct (dget s2 "plan" PNone); try (injection H as <-; apply Hkeep, same_but_refl).
  unfold run_plan in H. cbv zeta in H.
  destruct (negb _); [apply Hkeep; eapply same_but_event; [exact H|in_keys]|].
  destruct (negb _); [apply Hkeep; eapply same_but_event; [exact H|in_keys]|].
  destruct (let! xs0 := initial s2 env in _) as [[xs0 steps]|e] eqn:E0; [|done].
  apply bind_Ok in E0 as (xs0' & Hx0 & E0). apply bind_Ok in E0 as (steps' & _ & [= -> ->]).
  destruct (exec_steps _ _ _ xs0 steps) as [xs [e|]] eqn:Hxs; [done|]. cbn [fst snd] in H. unfold finish_node in H.
  apply bind_Ok in H as (o1 & Hg & H). apply bind_Ok in H as (o2 & He & Hp). rename out into o3.
  unfold initial in Hx0. apply bind_Ok in Hx0 as (rs & _ & Hx0). injection Hx0 as <-.
  apply exec_steps_frame in Hxs. cbn [xs_state] in Hxs.
  set (budgets := dict_or_empty (dget s2 "budgets" (PDict []))) in *. set (f := final_state _ budgets xs) in *.
  assert (F3 : same_but ["_trace_events"; "history_policy"; "tool_results"; "provenance"] f o3).
  { eapply same_but_trans; [|eapply same_but_prune_pre; [exact Hp|incl_keys]].
    eapply same_but_trans; [|eapply same_but_event; [exact He|in_keys]].
    unfold glean_event in Hg. destruct (xs_auditor xs); [eapply same_but_event; [exact Hg|in_keys]|].
    injection Hg as <-. apply same_but_refl. }
  split.
  - eapply same_but_trans; [eapply same_but_weaken; [|exact F2]; incl_keys|].
    eapply same_but_trans; [eapply same_but_weaken; [|exact Hxs]; incl_keys|].
    eapply same_but_trans; [|eapply same_but_weaken; [|exact F3]; incl_keys].
    unfold f, final_state. repeat (eapply same_but_trans; [|apply same_but_dset; in_keys]). apply same_but_refl.
  - intros c (b & Hb & Hc). apply (loop_counter_frame _ _ _ _ F3 eq_refl). unfold f, final_state.
    eexists. rewrite dget_dset_eq. split; [done|]. dict_simpl.
    unfold budgets. assert (E : dget s2 "budgets" (PDict []) = PDict b); [|by rewrite E].
    rewrite (dlookup_dget _ _ _ _ (F2 "budgets" eq_refl)). unfold dget in *. by destruct (dlookup "budgets" state); subst.
Qed.

(** ** Router *)

Definition router_keys : list string := ["route"; "intent"; "retry_target"; "telemetry"; "_trace_events"].

Lemma router_frame env state out : router env state = Ok out -> same_but router_keys state out.
Proof.
  rewrite router_inv. intros H. apply bind_Ok in H as (default & _ & H). apply bind_Ok in H as (s1 & H1 & H).
  apply bind_Ok in H as (s2 & H2 & H). cbv zeta in H.
  set (chosen := choose_route env s2 default _) in *.
  assert (Hc : same_but router_keys s2 (record_route chosen)).
  { intros k Hk. assert (k <> "telemetry") by (eapply str_in_neq; [exact Hk|in_keys]).
    rewrite record_route_frame by done.
    destruct (choose_route_inv env s2 default (latest_model_route s2 "router")) as (r & _ & Hf).
    unfold chosen. rewrite Hf by done. apply routed_state_frame. eapply str_in_incl; [|exact Hk].
    incl_keys. }
  eapply same_but_trans; [apply (same_but_dset _ _ "route"); in_keys|].
  eapply same_but_trans; [eapply same_but_route; [exact H1|in_keys]|].
  eapply same_but_trans; [eapply same_but_event; [exact H2|in_keys]|].
  eapply same_but_trans; [exact Hc|eapply same_but_event; [exact H|in_keys]].
Qed.

(** ** Verifier *)

Definition verifier_keys : list string :=
  ["history_policy"; "provenance"; "_trace_events"; "telemetry"; "loop_summaries"; "facts"; "retry_target"; "budgets";
   "verification"; "tool_results"; "active_handoff"; "recovery_packet"; "context_reset_requested"; "plan_discarded";
   "plan_discard_reason"; "plan"].

(** The budgets returned by the verification calls are the stored ones, up to the call counter. *)
Definition budgets_grow (stored budgets : dict) : Prop :=
  forall k, k <> "tool_calls_used" -> dlookup k budgets = dlookup k stored.

Lemma verification_budgets env state tools rs budgets :
  _run_verification_calls env state tools = Ok (rs, budgets) ->
  budgets_grow (dict_or_empty (dget state "budgets" (PDict []))) budgets.
Proof.
  unfold _run_verification_calls, budgets_grow. set (stored := dict_or_empty _). cbv zeta.
  destruct (negb _); [by intros [= _ <-]|].
  intros H. apply bind_Ok in H as (raw & _ & H). destruct (dicts_of raw) as [|c cs]; [by injection H as _ <-|].
  destruct (negb _); [by injection H as _ <-|].
  apply bind_Ok in H as (l & _ & H). apply bind_Ok in H as (u & _ & H). destruct (_ && _); [by injection H as _ <-|].
  apply bind_Ok in H as (cl & _ & H). apply bind_Ok in H as (? & _ & H). apply bind_Ok in H as (br & _ & H).
  injection H as _ <-. intros k Hk. by apply dlookup_dset_ne.
Qed.

Lemma all_results_budgets env state rs budgets :
  all_results env state = Ok (rs, budgets) -> budgets_grow (dict_or_empty (dget state "budgets" (PDict []))) budgets.
Proof.
  unfold all_results, verification_results.
  destruct (_run_verification_calls env state _) as [[rs0 b0]|e] eqn:E.
  - apply verification_budgets in E. intros H. apply bind_Ok in H as (files & _ & H).
    destruct files; [by injection H as _ <-|]. destruct (truthy _); [|by injection H as _ <-].
    apply bind_Ok in H as (f & _ & H). destruct f as [[|]|]; by injection H as _ <-.
  - intros H. apply bind_Ok in H as (files & _ & H).
    destruct files; [by injection H as _ <-|]. destruct (truthy _); [|by injection H as _ <-].
    apply bind_Ok in H as (f & _ & H). destruct f as [[|]|]; by injection H as _ <-.
Qed.

Lemma verified_budgets env state out results report :
  verified env state out results report ->
  exists b, dget out "budgets" PNone = PDict b /\ budgets_grow (dict_or_empty (dget state "budgets" (PDict []))) b.
Proof.
  intros [b t a l r s f te Hr _ _ _ _ _ ->]. exists b. split; [|by eapply all_results_budgets].
  unfold dget. rewrite steer_frame by reflexivity. unfold verified_state. dict_simpl. done.
Qed.

Lemma same_but_prune_post ks s s' :
  prune_post_verification_history s = Ok s' -> incl ["tool_results"; "provenance"; "history_policy"] ks -> same_but ks s s'.
Proof. intros H Hi k Hk. apply (prune_post_frame _ _ _ H). exact (str_in_incl k _ _ Hi Hk). Qed.

Lemma verifier_frame env state out :
  verifier env state = Ok out ->
  same_but verifier_keys state out /\ (forall c, loop_counter state c -> loop_counter out c).
Proof.
  intros H. apply verifier_inv in H. destruct H as [s1 s2 s3 b1 b2 H1 H2 H3 H4 H5 H6].
  apply verify_inv in H4 as (results & report & V).
  assert (F3 : same_but ["history_policy"; "telemetry"; "_trace_events"] state s3) by (intros k; by eapply verifier_before).
  assert (Fo : same_but ["_trace_events"; "tool_results"; "provenance"; "history_policy"] b1 out).
  { eapply same_but_trans; [eapply same_but_event; [exact H5|in_keys]|]. eapply same_but_prune_post; [exact H6|incl_keys]. }
  split.
  - eapply same_but_trans; [eapply same_but_weaken; [|exact F3]; incl_keys|].
    eapply same_but_trans; [|eapply same_but_weaken; [|exact Fo]; incl_keys].
    intros k Hk. eapply verified_frame; [exact V|]. eapply str_in_incl; [|exact Hk]. incl_keys.
  - intros c Hc. apply (loop_counter_frame _ _ _ _ F3 eq_refl) in Hc as (b & Hb & Hc).
    apply (loop_counter_frame _ _ _ _ Fo eq_refl).
    destruct (verified_budgets _ _ _ _ _ V) as (b' & Hb' & Hg). exists b'. split; [exact Hb'|].
    rewrite <- Hc. apply dlookup_dget. rewrite Hg by done. do 2 f_equal.
    unfold dget in *. by destruct (dlookup "budgets" s3); subst.
Qed.

(** ** Coder, reporter and ingest *)

Definition coder_keys : list string := ["_trace_events"; "active_handoff"; "retry_target"].

Lemma coder_frame env state out : Coder.coder env state = Ok out -> same_but coder_keys state out.
Proof.
  unfold Coder.coder. intros H. apply bind_Ok in H as (s1 & H1 & H).
  eapply same_but_trans; [eapply same_but_event; [exact H1|in_keys]|].
  destruct (Coder._first_step _) as [step|]; [|eapply same_but_event; [exact H|in_keys]].
  apply bind_Ok in H as (ah & _ & H). apply bind_Ok in H as (sh & _ & H).
  destruct (match Coder.for_coder ah with Some h => _ | None => _ end) as [src|];
    [|eapply same_but_event; [exact H|in_keys]].
  apply bind_Ok in H as (ft & _ & H). cbv zeta in H. apply bind_Ok in H as (h & _ & H).
  eapply same_but_trans; [|eapply same_but_event; [exact H|in_keys]].
  eapply same_but_trans; apply same_but_dset; in_keys.
Qed.

Lemma reporter_frame env state out :
  Reporter.reporter env state = Ok out -> same_but ["_trace_events"; "final"] state out.
Proof.
  unfold Reporter.reporter. intros H. apply bind_Ok in H as (s1 & H1 & H).
  eapply same_but_trans; [eapply same_but_event; [exact H1|in_keys]|].
  eapply same_but_trans; [|eapply same_but_event; [exact H|in_keys]]. apply same_but_dset. in_keys.
Qed.

Lemma lookup_filter (p : string * pyval -> bool) (d : dict) k :
  (forall v, p (k, v) = true) -> dlookup k (List.filter p d) = dlookup k d.
Proof.
  intros Hp. induction d as [|[k' v] d IH]; cbn; [done|].
  destruct (String.eqb_spec k k') as [->|Hk].
  - rewrite Hp. cbn. by rewrite String.eqb_refl.
  - destruct (p (k', v)); cbn; [|done]. apply String.eqb_neq in Hk. by rewrite Hk.
Qed.

Lemma dlookup_app (d e : dict) k :
  dlookup k (d ++ e)%list = match dlookup k d with Some v => Some v | None => dlookup k e end.
Proof. induction d as [|[k' v] d IH]; cbn; [done|]. by destruct (String.eqb k k'). Qed.

Lemma filter_wf (p : string * pyval -> bool) (d : dict) : wf_keys d -> wf_keys (List.filter p d).
Proof. unfold wf_keys. intros H. by apply NoDup_map_filter. Qed.

(** Ingest keeps every internal key but the run id. *)
Lemma ingest_internal env raw out k v :
  wf_keys raw -> ingest env raw = Ok out -> startswith k "_" = true ->
  str_in k ["_run_id"; "_trace_events"] = false -> dlookup k raw = Some v -> dlookup k out = Some v.
Proof.
  intros Hwf H Hs Hk Hv. unfold ingest in H. cbv zeta in H.
  rewrite (append_event_frame _ _ _ _ _ k H) by (apply String.eqb_neq; eapply str_in_neq; [exact Hk|in_keys]).
  set (validated := match i_validate env _ with Ok d => d | Err _ => _ end).
  assert (Hi : dlookup k (internal_keys (i_uuid env) raw) = Some v).
  { unfold internal_keys. rewrite dlookup_dset_ne by (eapply str_in_neq; [exact Hk|in_keys]).
    rewrite lookup_filter by (intros; exact Hs). exact Hv. }
  rewrite dupdate_lookup; [by rewrite Hi|]. unfold internal_keys. apply dset_NoDup. by apply filter_wf.
Qed.
