(* ===== verification/NodeLlmProps.v ===== *)
(** * What the coder and the reporter guarantee

    Whatever a model answers, the coder hands exactly the bounded step over and the
    reporter gives a final text. *)
From Stdlib Require Import ZArith Lia String Ascii List Bool.
From stdpp Require Import base tactics list strings option.
From S2P Require Import Prelude PyStr StrFacts PyFloat PyVal State Memory MemoryProps Executor Verifier VerifierProps Router RouterProps NodeLlm Graph NodeFrames.
Import Coder.
Local Open Scope string_scope.
Local Open Scope Z_scope.

(** ** Lists of stripped texts *)

Definition clean (s : string) : Prop := strip s = s /\ s <> "".

Lemma strip_clean s : strip s <> "" -> clean (strip s).
Proof. intros H. split; [apply strip_idem|done]. Qed.

Lemma nonblank_clean l : List.Forall clean (nonblank_texts l).
Proof.
  unfold nonblank_texts. apply Forall_forall. intros s Hs. apply filter_In in Hs as [Hs Hn].
  apply in_map_iff in Hs as (v & <- & _). apply strip_clean. intros E. unfold str_strip in Hn. by rewrite E in Hn.
Qed.

Lemma scope_paths_clean v l : scope_paths v = Ok l -> List.Forall clean l.
Proof.
  unfold scope_paths. intros H. apply bind_Ok in H as (items & _ & H). injection H as <-.
  destruct (is_list v); [apply nonblank_clean|constructor].
Qed.

Lemma texts_of_clean v : List.Forall clean (texts_of v).
Proof.
  unfold texts_of. apply Forall_forall. intros s Hs. apply in_flat_map in Hs as (e & _ & Hs).
  destruct e; cbn in Hs; try done. destruct (String.eqb_spec (strip s0) "") as [|Hn]; [done|].
  destruct Hs as [<-|[]]. by apply strip_clean.
Qed.

(** [_dedupe] has each stripped non-blank text once, in the order of the first ones. *)
Lemma dedupe_fold items out :
  List.NoDup out ->
  let r := fold_left (fun out item =>
    let n := strip item in if String.eqb n "" || str_in n out then out else (out ++ [n])%list) items out in
  List.NoDup r /\ (forall s, In s r <-> In s out \/ (s <> "" /\ exists x, In x items /\ strip x = s)).
Proof.
  revert out. induction items as [|x items IH]; intros out Hnd; cbn [fold_left].
  { split; [done|]. intros s. split; [by left|]. by intros [?|(_ & ? & [] & _)]. }
  cbv zeta. destruct (String.eqb_spec (strip x) "") as [E|E]; cbn [orb]; [|destruct (str_in (strip x) out) eqn:Ei].
  - destruct (IH out Hnd) as [H1 H2]. split; [exact H1|]. intros s. rewrite H2. split; intros [H|(Hs & y & Hy & Hy')]; auto.
    + right. split; [done|]. exists y. split; [by right|done].
    + right. split; [done|]. destruct Hy as [<-|Hy]; [congruence|]. by exists y.
  - apply str_in_In in Ei. destruct (IH out Hnd) as [H1 H2]. split; [exact H1|]. intros s. rewrite H2.
    split; intros [H|(Hs & y & Hy & Hy')]; auto.
    + right. split; [done|]. exists y. split; [by right|done].
    + destruct Hy as [<-|Hy]; [left; congruence|]. right. split; [done|]. by exists y.
  - assert (Hx : ~ In (strip x) out) by (rewrite <- str_in_In; congruence).
    destruct (IH (out ++ [strip x])%list) as [H1 H2].
    { apply Permutation.Permutation_NoDup with (l := strip x :: out); [apply Permutation.Permutation_cons_append|by constructor]. }
    split; [exact H1|]. intros s. rewrite H2, in_app_iff. cbn. split.
    + intros [[H|[<-|[]]]|(Hs & y & Hy & Hy')]; auto; right; (split; [done|]); eexists; (split; [|done]); auto.
    + intros [H|(Hs & y & [<-|Hy] & Hy')]; auto. right. split; [done|]. by exists y.
Qed.

Lemma dedupe_In items s : In s (_dedupe items) <-> s <> "" /\ exists x, In x items /\ strip x = s.
Proof. destruct (dedupe_fold items [] (NoDup_nil _)) as [_ H]. unfold _dedupe. rewrite H. cbn. tauto. Qed.

Lemma dedupe_spec items :
  List.Forall clean items -> List.NoDup (_dedupe items) /\ (forall s, In s (_dedupe items) <-> In s items).
Proof.
  intros Hc. split; [apply (dedupe_fold items [] (NoDup_nil _))|]. intros s. rewrite dedupe_In.
  rewrite List.Forall_forall in Hc. split.
  - intros (_ & x & Hx & <-). by destruct (Hc x Hx) as [-> _].
  - intros Hs. destruct (Hc s Hs) as [H1 H2]. split; [done|]. by exists s.
Qed.

(** ** Coder *)

Lemma coerce_clean raw h :
  _coerce_handoff raw = Ok (Some h) -> List.Forall clean (h_file_scope h) /\ List.Forall clean (h_constraints h).
Proof.
  unfold _coerce_handoff. destruct raw; try done. destruct (_ || _); [done|]. intros H.
  apply bind_Ok in H as (scope & Hs & H). injection H as <-. cbn.
  split; [by eapply scope_paths_clean|apply texts_of_clean].
Qed.

(** The step and the handoff the coder works on, if any. *)
Definition work_of (state : dict) : res (option (dict * Handoff)) :=
  match _first_step (dict_or_empty (dget state "plan" (PDict []))) with
  | None => Ok None
  | Some step =>
      let! active := _coerce_handoff (dget state "active_handoff" PNone) in
      let! own := _coerce_handoff (dget step "handoff" PNone) in
      Ok (match for_coder active with
          | Some h => Some (step, h)
          | None => option_map (pair step) (for_coder own)
          end)
  end.

Lemma for_coder_Some h h' : for_coder h = Some h' -> h = Some h'.
Proof. unfold for_coder. destruct h as [x|]; [|done]. by destruct (String.eqb _ _). Qed.

Lemma work_clean state step h :
  work_of state = Ok (Some (step, h)) -> List.Forall clean (h_file_scope h) /\ List.Forall clean (h_constraints h).
Proof.
  unfold work_of. destruct (_first_step _) as [st|]; [|done]. intros H.
  apply bind_Ok in H as (a & Ha & H). apply bind_Ok in H as (o & Ho & H). injection H as H.
  destruct (for_coder a) as [h1|] eqn:E1; [apply for_coder_Some in E1; injection H as <- <-; subst a; by eapply coerce_clean|].
  destruct (for_coder o) as [h2|] eqn:E2; [|done]. apply for_coder_Some in E2. injection H as <- <-. subst o. by eapply coerce_clean.
Qed.

Lemma work_frame ts state kind data s : append_event ts state kind data = Ok s -> work_of s = work_of state.
Proof.
  intros H. unfold work_of. by rewrite !(append_event_dget _ _ _ _ _ _ _ H) by reflexivity.
Qed.

Lemma coder_eq env state :
  coder env state =
  let! s := append_event (l_ts_start env) state "node" [("name", PStr "coder"); ("phase", PStr "start")] in
  match _first_step (dict_or_empty (dget s "plan" (PDict []))) with
  | None => end_event env s [("handoff", PStr "none")]
  | Some _ =>
      let! work := work_of s in
      match work with
      | None => end_event env s [("handoff", PStr "pass_through")]
      | Some (step, source) =>
          let step_id := str_or (str_strip (dget step "id" (PStr "step"))) "step" in
          let! files := scope_paths (dget step "files_touched" (PList [])) in
          let guidance := match _llm_code_synthesis env s source with Ok g => g | Err _ => None end in
          let! h := next_handoff source step_id (str_strip (dget step "description" (PStr "")))
                      (str_strip (dget step "expected_outcome" (PStr ""))) files guidance in
          end_event env (dset "retry_target" PNone (dset "active_handoff" (PDict h) s))
            [("handoff_consumer", PStr "executor"); ("step_id", PStr step_id)]
      end
  end.
Proof.
  unfold coder. destruct (append_event _ _ _ _) as [s|]; cbn [bind_res]; [|done].
  unfold work_of. destruct (_first_step _) as [step|]; [|done].
  destruct (_coerce_handoff (dget s "active_handoff" PNone)) as [a|]; cbn [bind_res]; [|done].
  destruct (_coerce_handoff (dget step "handoff" PNone)) as [o|]; cbn [bind_res]; [|done].
  destruct (for_coder a); [done|]. by destruct (for_coder o).
Qed.

(** What the handoff to the executor holds, whatever guidance the model gave. *)
Lemma next_handoff_spec source id desc outcome files g h :
  next_handoff source id desc outcome files g = Ok h ->
  List.Forall clean (h_file_scope source) -> List.Forall clean (h_constraints source) -> List.Forall clean files ->
  dget h "consumer" PNone = PStr "executor" /\
  exists scope rules,
    dget h "file_scope" PNone = strs scope /\ List.NoDup scope /\
    (forall p, In p scope <-> In p (h_file_scope source) \/ In p files) /\
    dget h "constraints" PNone = strs rules /\
    (forall r, In r rules <-> In r (h_constraints source) \/ r = bounded_rule).
Proof.
  intros H Hs Hc Hf. unfold next_handoff in H. apply bind_Ok in H as (b & _ & H). injection H as <-.
  split; [reflexivity|]. do 2 eexists. split; [reflexivity|].
  destruct (dedupe_spec (h_file_scope source ++ files)%list) as [H1 H2]; [by apply Forall_app|].
  split; [exact H1|]. split; [intros p; by rewrite H2, in_app_iff|]. split; [reflexivity|].
  destruct (dedupe_spec (h_constraints source ++ [bounded_rule])%list) as [_ H3].
  { apply Forall_app. split; [done|]. repeat constructor; by vm_compute. }
  intros r. rewrite H3, in_app_iff. cbn. intuition congruence.
Qed.

Lemma end_event_ok env s more k v k' v' : events_ok s -> k <> "_trace_events" -> k' <> "_trace_events" ->
  is_ok (end_event env (dset k v (dset k' v' s)) more) = true /\ is_ok (end_event env s more) = true.
Proof.
  intros [l Hl] H1 H2. unfold end_event. split.
  - destruct (append_event_total (l_ts_end env) (dset k v (dset k' v' s)) "node" (("name", PStr "coder") :: ("phase", PStr "end") :: more))
      as (o & -> & _); [|done]. exists l. rewrite <- Hl. apply dlookup_dget. rewrite !dlookup_dset_ne by congruence. done.
  - destruct (append_event_total (l_ts_end env) s "node" (("name", PStr "coder") :: ("phase", PStr "end") :: more))
      as (o & -> & _); [by exists l|done].
Qed.

(** Whether the node returns does not depend on its environment. *)
Definition coder_returns (state : dict) : bool :=
  is_ok (append_event 0 state "node" []) &&
  match _first_step (dict_or_empty (dget state "plan" (PDict []))) with
  | None => true
  | Some _ =>
      match work_of state with
      | Err _ => false
      | Ok None => true
      | Ok (Some (step, source)) =>
          is_ok (scope_paths (dget step "files_touched" (PList []))) && is_ok (py_int (py_or (h_retry_budget source) (PInt 0)))
      end
  end.

Lemma coder_ok env state : is_ok (coder env state) = coder_returns state.
Proof.
  rewrite coder_eq. unfold coder_returns. destruct (append_event (l_ts_start env) state _ _) as [s|e] eqn:Es; cbn [bind_res].
  2: { assert (E : is_ok (append_event 0 state "node" []) = false); [|by rewrite E].
       unfold append_event in *. by destruct (py_iter _). }
  assert (E : is_ok (append_event 0 state "node" []) = true) by (unfold append_event in *; by destruct (py_iter _)).
  rewrite E. cbn [andb]. pose proof (append_event_events_ok _ _ _ _ _ Es) as Hev.
  rewrite (append_event_dget _ _ _ _ _ _ _ Es) by reflexivity. rewrite (work_frame _ _ _ _ _ Es).
  destruct (_first_step _); [|by eapply (end_event_ok env s _ "a" PNone "b" PNone)].
  destruct (work_of state) as [[[step source]|]|]; cbn [bind_res]; [|by eapply (end_event_ok env s _ "a" PNone "b" PNone)|done].
  destruct (scope_paths _) as [files|]; cbn [bind_res is_ok andb]; [|done]. unfold next_handoff.
  destruct (py_int _); cbn [bind_res is_ok]; [|done]. by apply end_event_ok.
Qed.

(** The coder's handoff: with no handoff addressed to it the node only logs;
    otherwise it hands the first step over to the executor with a file scope that
    has each path of the source handoff and of the step once, and no other, with
    the rule that only the planned tools be executed, and clears the retry target;
    nothing else changes, and no answer or failure of the model can stop it. *)
Theorem coder_handoff env state out :
  coder env state = Ok out ->
  (forall env', is_ok (coder env' state) = true) /\
  match work_of state with
  | Err _ => False
  | Ok None => same_but ["_trace_events"] state out
  | Ok (Some (step, source)) =>
      same_but coder_keys state out /\ dget out "retry_target" (PBool true) = PNone /\
      exists h scope rules files,
        dget out "active_handoff" PNone = PDict h /\ dget h "consumer" PNone = PStr "executor" /\
        scope_paths (dget step "files_touched" (PList [])) = Ok files /\
        dget h "file_scope" PNone = strs scope /\ List.NoDup scope /\
        (forall p, In p scope <-> In p (h_file_scope source) \/ In p files) /\
        dget h "constraints" PNone = strs rules /\
        (forall r, In r rules <-> In r (h_constraints source) \/ r = bounded_rule)
  end.
Proof.
  intros H. assert (Hframe : same_but coder_keys state out) by (by eapply coder_frame).
  split; [intros env'; rewrite coder_ok, <- (coder_ok env); by rewrite H|].
  rewrite coder_eq in H. apply bind_Ok in H as (s & Hs & H). rewrite (work_frame _ _ _ _ _ Hs) in H.
  assert (Hlog : forall o more, end_event env s more = Ok o -> same_but ["_trace_events"] state o).
  { intros o more Ho. eapply same_but_trans; eapply same_but_event; [exact Hs|in_keys|exact Ho|in_keys]. }
  destruct (_first_step _) as [st|] eqn:Ef.
  2: { rewrite (append_event_dget _ _ _ _ _ _ _ Hs) in Ef by reflexivity. unfold work_of. rewrite Ef. by eapply Hlog. }
  apply bind_Ok in H as (w & Hw & H). rewrite Hw. destruct w as [[step source]|]; [|by eapply Hlog].
  cbv zeta in H. apply bind_Ok in H as (files & Hfiles & H). apply bind_Ok in H as (h & Hh & H).
  split; [exact Hframe|].
  split; [unfold end_event in H; rewrite (append_event_dget _ _ _ _ _ _ _ H) by reflexivity; apply dget_dset_eq|].
  destruct (work_clean _ _ _ Hw) as [Cs Cc].
  apply next_handoff_spec in Hh as (Hcons & scope & rules & Hh); [|done|done|by eapply scope_paths_clean].
  exists h, scope, rules, files. split; [|by split].
  unfold end_event in H. rewrite (append_event_dget _ _ _ _ _ _ _ H) by reflexivity.
  rewrite dget_dset_ne by reflexivity. apply dget_dset_eq.
Qed.

Definition llm (answer : res string) : LlmEnv :=
  {| l_getenv _ := "key"; l_complete _ _ _ _ := answer; l_stream _ _ _ _ _ := Err (RuntimeError "no stream");
     l_ts_start := 1; l_ts_end := 2 |}.

Definition handoff_to_coder : dict :=
  [("producer", PStr "planner"); ("consumer", PStr "coder"); ("objective", PStr "fix it");
   ("file_scope", PList [PStr " a.py "; PStr "b.py"])].

Definition coder_state : dict :=
  [("plan", PDict [("steps", PList [PDict [("id", PStr "s1"); ("handoff", PDict handoff_to_coder);
                                           ("files_touched", PList [PStr "b.py"; PStr "c.py"])]])]);
   ("_models", PDict [("planner", PDict [("provider", PStr "digitalocean"); ("model", PStr "m")])])].

Definition coded (answer : res string) : dict := match coder (llm answer) coder_state with Ok o => o | Err _ => [] end.

Lemma coder_handoff_witness :
  exists h, dget (coded (Ok "guide")) "active_handoff" PNone = PDict h /\ dget h "consumer" PNone = PStr "executor" /\
    dget h "file_scope" PNone = strs ["a.py"; "b.py"; "c.py"] /\
    is_ok (coder (llm (Err (RuntimeError "down"))) coder_state) = true.
Proof.
  destruct (coder_handoff (llm (Ok "guide")) coder_state (coded (Ok "guide"))) as [Hany Hw]; [vm_compute; reflexivity|].
  destruct (work_of coder_state) as [[[step source]|]|] eqn:Ew; [|vm_compute in Ew; discriminate Ew..].
  destruct Hw as (_ & _ & h & scope & rules & files & Hh & Hc & _).
  exists h. split; [exact Hh|]. split; [exact Hc|]. split; [|apply Hany].
  vm_compute in Hh. injection Hh as <-. reflexivity.
Defined.
