(* ===== verification/PlannerMemoryProps.v ===== *)
(** * What recalled memories may change

    The ranking keeps the best entries; the constraints recalled for a plan never
    add, drop or reorder a step and never change a tool call. *)
From Stdlib Require Import ZArith Lia String Ascii List Bool Sorted.
From stdpp Require Import base tactics list strings option.
From S2P Require Import Prelude PyStr StrFacts PyFloat PyVal Regex State Memory MemoryProps Executor Verifier Router NodeLlm NodeFrames NodeLlmProps PlannerMemory.
Local Open Scope string_scope.
Local Open Scope Z_scope.

(** ** Ranking *)

#[export] Instance mem_key_total : StrictTotal mem_key_lt.
Proof. apply lex_total; [apply Z.eqb_eq|exact _|]. apply lex_total; [apply String.eqb_eq|exact _|exact _]. Qed.

#[export] Instance proc_key_total : StrictTotal proc_key_lt.
Proof. apply lex_total; [apply Z.eqb_eq|exact _|exact _]. Qed.

Section Ranking.
Context {K : Type} (lt : K -> K -> bool) `{!StrictTotal lt}.

(** The best [limit] of the entries in descending order, and the rest below them. *)
Definition best (limit : nat) (ranked kept dropped : list (K * dict)) : Prop :=
  Permutation (kept ++ dropped) ranked /\ length kept = Nat.min limit (length ranked) /\
  StronglySorted (fun x y => lt (fst x) (fst y) = false) kept /\
  (forall x y, In x kept -> In y dropped -> lt (fst x) (fst y) = false).

Lemma top_ranked_best limit ranked :
  exists kept dropped, top_ranked lt limit ranked = List.map snd kept /\ best limit ranked kept dropped.
Proof.
  set (below := fun a b : K * dict => lt (fst b) (fst a)).
  exists (firstn limit (py_sorted below ranked)), (skipn limit (py_sorted below ranked)).
  split; [unfold top_ranked; by rewrite firstn_map|].
  apply (sorted_split below limit ranked); unfold below.
  - intros x y. apply (st_asym (fun a b => lt b a)).
  - intros x y z. apply (st_ntrans (fun a b => lt b a)).
Qed.
End Ranking.

(** The memories that take part, with their positions. *)
Definition candidates (repo_context : dict) : list dict :=
  dicts_of (list_or_empty (dget repo_context "semantic_memories" (PList []))).

Lemma semantic_keys_spec tokens idx memories k m :
  In (k, m) (semantic_keys tokens idx memories) <->
  exists i, nth_error memories i = Some m /\ text m "summary" <> "" /\
    k = (semantic_score tokens (text m "kind") (text m "source") (text m "created_at") (text m "summary"),
         (text m "created_at", - (idx + Z.of_nat i))).
Proof.
  revert idx. induction memories as [|x memories IH]; intros idx; cbn [semantic_keys].
  - split; [intros []|]. by intros ([|i] & H & _).
  - assert (Hsplit : forall P : nat -> Prop, (exists i, P i) <-> P 0%nat \/ exists i, P (S i)).
    { intros P. split; [intros [[|i] H]; eauto|]. by intros [H|[i H]]; eexists. }
    rewrite Hsplit. cbn [nth_error].
    assert (Hrest : In (k, m) (semantic_keys tokens (idx + 1) memories) <->
      exists i, nth_error memories i = Some m /\ text m "summary" <> "" /\
        k = (semantic_score tokens (text m "kind") (text m "source") (text m "created_at") (text m "summary"),
             (text m "created_at", - (idx + Z.of_nat (S i))))).
    { rewrite IH. split; intros (i & H1 & H2 & ->); exists i; (do 2 (split; [done|])); do 3 f_equal; lia. }
    cbv zeta. destruct (String.eqb_spec (text x "summary") "") as [E|E].
    + rewrite Hrest. split; [by right|]. intros [([= ->] & H & _)|H]; [congruence|done].
    + cbn [In]. rewrite Hrest. split; (intros [H|H]; [left|by right]).
      * injection H as <- <-. split; [done|]. split; [done|]. do 3 f_equal. lia.
      * destruct H as ([= ->] & _ & ->). do 3 f_equal. lia.
Qed.

(** The memories recalled for a request are the best [limit] of those with a
    summary: in descending order of word overlap with the request (with the bonuses
    of their kind), then of date, then of position; no memory left out is above a
    recalled one. *)
Theorem semantic_recall_best request repo_context limit :
  let tokens := words_of (lower request) in
  exists kept dropped,
    _rank_semantic_memories request repo_context limit = List.map snd kept /\
    best mem_key_lt limit (semantic_keys tokens 0 (candidates repo_context)) kept dropped /\
    (forall k m, In (k, m) (kept ++ dropped) <->
       exists i, nth_error (candidates repo_context) i = Some m /\ text m "summary" <> "" /\
         k = (semantic_score tokens (text m "kind") (text m "source") (text m "created_at") (text m "summary"),
              (text m "created_at", - Z.of_nat i))).
Proof.
  intros tokens.
  destruct (top_ranked_best mem_key_lt limit (semantic_keys tokens 0 (candidates repo_context)))
    as (kept & dropped & E & B).
  exists kept, dropped. split; [exact E|]. split; [exact B|]. intros k m. destruct B as [Hp _].
  rewrite <- (semantic_keys_spec tokens 0). split; [|symmetry in Hp]; by apply Permutation_in.
Qed.

Lemma rank_semantic_In request repo_context limit m :
  In m (_rank_semantic_memories request repo_context limit) -> text m "summary" <> "".
Proof.
  unfold _rank_semantic_memories, top_ranked. intros H.
  assert (Hin : forall l : list dict, In m (firstn limit l) -> In m l)
    by (intros l Hm; rewrite <- (firstn_skipn limit l); apply in_app_iff; by left).
  apply Hin in H. apply in_map_iff in H as ([k m'] & <- & H). apply py_sorted_In in H. cbn.
  by apply semantic_keys_spec in H as (i & _ & H & _).
Qed.

(** ** What a recalled constraint keeps *)

(** Every non-blank text of the list at [k] is still there, stripped. *)
Definition texts_kept (k : string) (d d' : dict) : Prop :=
  forall s, In s (str_entries (dget d k (PList []))) -> strip s <> "" ->
    In (strip s) (str_entries (dget d' k (PList []))).

Lemma str_entries_strs l : str_entries (strs l) = l.
Proof. unfold str_entries, strs. cbn. induction l as [|s l IH]; cbn; [done|]. by rewrite IH. Qed.


Lemma texts_kept_dedupe k d d' more :
  dget d' k (PList []) = strs (_dedupe_strings (str_entries (dget d k (PList [])) ++ more)) -> texts_kept k d d'.
Proof.
  intros E s Hs Hn. rewrite E, str_entries_strs. apply dedupe_In. split; [done|].
  exists s. split; [|done]. apply in_app_iff. by left.
Qed.

(** The evidence of a handoff only grows at its end. *)
Definition evidence_kept (h h' : dict) : Prop := exists more, evidence_of h' = (evidence_of h ++ more)%list.

(** A handoff, and its constraints either all kept as they are or all kept stripped. *)
Definition handoff_kept (h h' : dict) : Prop :=
  same_but ["file_scope"; "constraints"; "evidence"] h h' /\
  (dlookup "constraints" h' = dlookup "constraints" h \/ texts_kept "constraints" h h') /\ evidence_kept h h'.

Definition step_kept (v v' : pyval) : Prop :=
  match v, v' with
  | PDict d, PDict d' =>
      same_but ["files_touched"; "handoff"] d d' /\
      match dget d "handoff" PNone, dget d' "handoff" PNone with
      | PDict h, PDict h' => handoff_kept h h'
      | x, y => x = y
      end
  | _, _ => v = v'
  end.

Definition steps_of (plan : dict) : list pyval := list_or_empty (dget plan "steps" (PList [])).

Definition plan_kept (plan plan' : dict) : Prop :=
  same_but ["steps"; "acceptance_criteria"; "verification"] plan plan' /\
  (truthy (dget plan "verification" PNone) = true -> dlookup "verification" plan' = dlookup "verification" plan) /\
  (dlookup "acceptance_criteria" plan' = dlookup "acceptance_criteria" plan \/ texts_kept "acceptance_criteria" plan plan') /\
  Forall2 step_kept (steps_of plan) (steps_of plan').

Lemma texts_trans k d1 d2 d3 :
  (dlookup k d2 = dlookup k d1 \/ texts_kept k d1 d2) -> (dlookup k d3 = dlookup k d2 \/ texts_kept k d2 d3) ->
  dlookup k d3 = dlookup k d1 \/ texts_kept k d1 d3.
Proof.
  intros [H1|H1] [H2|H2].
  - left. congruence.
  - right. intros s Hs Hn. apply H2; [|done]. by rewrite (dlookup_dget _ _ _ _ H1).
  - right. intros s Hs Hn. rewrite (dlookup_dget _ _ _ _ H2). by apply H1.
  - right. intros s Hs Hn. rewrite <- strip_idem. apply H2; [by apply H1|]. by rewrite strip_idem.
Qed.

Lemma handoff_kept_refl h : handoff_kept h h.
Proof. split; [apply same_but_refl|]. split; [by left|]. exists []. by rewrite app_nil_r. Qed.

Lemma handoff_kept_trans h1 h2 h3 : handoff_kept h1 h2 -> handoff_kept h2 h3 -> handoff_kept h1 h3.
Proof.
  intros (A1 & B1 & m1 & C1) (A2 & B2 & m2 & C2). split; [by eapply same_but_trans|].
  split; [by eapply texts_trans|]. exists (m1 ++ m2)%list. by rewrite C2, C1, app_assoc.
Qed.

Lemma step_kept_refl v : step_kept v v.
Proof.
  destruct v; try done. split; [apply same_but_refl|].
  destruct (dget d "handoff" PNone); try done. apply handoff_kept_refl.
Qed.

Lemma step_kept_trans v1 v2 v3 : step_kept v1 v2 -> step_kept v2 v3 -> step_kept v1 v3.
Proof.
  unfold step_kept. destruct v1, v2, v3; try congruence. intros [A1 B1] [A2 B2].
  split; [by eapply same_but_trans|].
  destruct (dget d "handoff" PNone), (dget d0 "handoff" PNone), (dget d1 "handoff" PNone); try congruence.
  by eapply handoff_kept_trans.
Qed.

Lemma Forall2_refl {A} (R : A -> A -> Prop) l : (forall x, R x x) -> Forall2 R l l.
Proof. intros H. induction l; by constructor. Qed.

Lemma plan_kept_refl plan : plan_kept plan plan.
Proof.
  split; [apply same_but_refl|]. split; [done|]. split; [by left|]. apply Forall2_refl, step_kept_refl.
Qed.

Lemma plan_kept_trans p1 p2 p3 : plan_kept p1 p2 -> plan_kept p2 p3 -> plan_kept p1 p3.
Proof.
  intros (A1 & V1 & B1 & C1) (A2 & V2 & B2 & C2). split; [by eapply same_but_trans|]. split; [|split].
  - intros H. rewrite V2; [by apply V1|]. by rewrite (dlookup_dget _ _ _ _ (V1 H)).
  - by eapply texts_trans.
  - clear -C1 C2. revert C2. generalize (steps_of p3). induction C1 as [|x y l l' Hx _ IH]; intros l3 H; inversion H; subst;
      constructor; [by eapply step_kept_trans|by apply IH].
Qed.

(** The loop over the steps keeps the plan when its body keeps each step. *)
Lemma map_steps_kept f plan :
  (forall d, step_kept (PDict d) (PDict (f d))) -> plan_kept plan (map_steps f plan).
Proof.
  intros Hf. unfold map_steps. destruct (dget plan "steps" (PList [])) as [| | | | |steps| |] eqn:E;
    try apply plan_kept_refl.
  split; [apply same_but_dset; in_keys|]. split; [intros _; by apply dlookup_dset_ne|].
  split; [left; by apply dlookup_dset_ne|].
  unfold steps_of. rewrite E, dget_dset_eq. cbn [list_or_empty]. clear E.
  induction steps as [|v steps IH]; cbn [List.map]; constructor; [|exact IH].
  destruct v; try apply step_kept_refl. apply Hf.
Qed.

(** A step whose handoff to the coder is replaced by one that keeps it. *)
Lemma step_kept_handoff d d' h h' :
  same_but ["files_touched"; "handoff"] d d' -> coder_handoff_of d = Some h -> handoff_kept h h' ->
  dget d' "handoff" PNone = PDict h' -> step_kept (PDict d) (PDict d').
Proof.
  intros Hf Hc Hk E. split; [exact Hf|]. rewrite E. unfold coder_handoff_of in Hc.
  destruct (dget d "handoff" PNone); try done. destruct (String.eqb _ _); [|done]. by injection Hc as ->.
Qed.

Lemma evidence_of_grown h l more :
  evidence_of (dset "evidence" (PList (List.map PDict (l ++ more))) h) = (l ++ more)%list.
Proof. unfold evidence_of. rewrite dget_dset_eq. apply dicts_of_map. Qed.

Lemma semantic_step_kept c d : step_kept (PDict d) (PDict (semantic_step c d)).
Proof.
  unfold semantic_step. cbv zeta. set (files := _dedupe_strings _). set (d1 := dset "files_touched" _ d).
  assert (F1 : same_but ["files_touched"; "handoff"] d d1) by (apply same_but_dset; in_keys).
  assert (Hh : forall x, dget d1 "handoff" x = dget d "handoff" x) by (intros x; by apply dget_dset_ne).
  destruct (coder_handoff_of d1) as [h|] eqn:E.
  - assert (E' : coder_handoff_of d = Some h) by (unfold coder_handoff_of in *; by rewrite Hh in E).
    eapply step_kept_handoff; [|exact E'| |apply dget_dset_eq].
    + eapply same_but_trans; [exact F1|]. apply same_but_dset. in_keys.
    + split; [|split].
      * repeat (eapply same_but_trans; [|apply same_but_dset; in_keys]). apply same_but_refl.
      * right. apply texts_kept_dedupe with (more := mc_handoff_constraints c). dict_simpl. done.
      * exists (mc_handoff_evidence c). rewrite evidence_of_grown. unfold evidence_of. dict_simpl. done.
  - split; [exact F1|]. rewrite Hh. destruct (dget d "handoff" PNone); try done. apply handoff_kept_refl.
Qed.

Lemma procedural_step_kept id name d : step_kept (PDict d) (PDict (procedural_step id name d)).
Proof.
  unfold procedural_step. destruct (coder_handoff_of d) as [h|] eqn:E; [|apply step_kept_refl]. cbv zeta.
  eapply step_kept_handoff; [apply same_but_dset; in_keys|exact E| |apply dget_dset_eq].
  split; [|split].
  - repeat (eapply same_but_trans; [|apply same_but_dset; in_keys]). apply same_but_refl.
  - right. apply texts_kept_dedupe with (more := [procedure_constraint name]). dict_simpl. done.
  - eexists. rewrite evidence_of_grown. unfold evidence_of. dict_simpl. done.
Qed.

Lemma dset_criteria_kept more plan :
  plan_kept plan (dset "acceptance_criteria"
    (strs (_dedupe_strings (str_entries (dget plan "acceptance_criteria" (PList [])) ++ more))) plan).
Proof.
  split; [apply same_but_dset; in_keys|]. split; [intros _; by apply dlookup_dset_ne|]. split.
  - right. apply texts_kept_dedupe with (more := more). apply dget_dset_eq.
  - unfold steps_of. rewrite dget_dset_ne by done. apply Forall2_refl, step_kept_refl.
Qed.

Lemma semantic_constraints_kept plan repo_context request :
  plan_kept plan (_apply_semantic_memory_constraints plan repo_context request).
Proof.
  unfold _apply_semantic_memory_constraints. cbv zeta. destruct (any_constraint _); [|apply plan_kept_refl].
  eapply plan_kept_trans; [apply dset_criteria_kept|]. apply map_steps_kept. intros d. apply semantic_step_kept.
Qed.

Lemma dset_verification_kept plan v :
  truthy (dget plan "verification" PNone) = false -> plan_kept plan (dset "verification" v plan).
Proof.
  intros H. split; [apply same_but_dset; in_keys|]. split; [congruence|].
  split; [left; by apply dlookup_dset_ne|]. unfold steps_of. rewrite dget_dset_ne by done.
  apply Forall2_refl, step_kept_refl.
Qed.

Lemma procedural_constraints_kept plan repo_context request :
  plan_kept plan (fst (_apply_procedural_memory_constraints plan repo_context request)).
Proof.
  unfold _apply_procedural_memory_constraints.
  destruct (_rank_cached_procedures _ _ _) as [|p ps]; [apply plan_kept_refl|]. cbv zeta. cbn [fst].
  match goal with |- context [dget ?x "acceptance_criteria" _] => set (plan1 := x) end.
  assert (H1 : plan_kept plan plan1).
  { unfold plan1. destruct (_ && _) eqn:E; [|apply plan_kept_refl]. bool_prop. by apply dset_verification_kept. }
  eapply plan_kept_trans; [exact H1|]. eapply plan_kept_trans; [apply dset_criteria_kept|].
  apply map_steps_kept. intros d. apply procedural_step_kept.
Qed.

(** What recalled memories do to a plan: for any plan, memories and cached
    procedures, the constraints they add keep the steps, their number and their
    order, every key of a step but its files and its handoff (so every tool call),
    every key of a handoff but its scope, constraints and evidence; constraints,
    criteria and evidence only grow; the verification calls of a plan that has some
    are kept, and so is every other key of the plan. *)
Theorem recalled_constraints_keep_plan plan repo_context request :
  plan_kept plan (fst (_apply_procedural_memory_constraints
    (_apply_semantic_memory_constraints plan repo_context request) repo_context request)).
Proof. eapply plan_kept_trans; [apply semantic_constraints_kept|apply procedural_constraints_kept]. Qed.

(** ** The criteria stay non-empty *)

Definition some_criteria (plan : dict) : Prop :=
  exists c cs, dget plan "acceptance_criteria" PNone = PList (c :: cs).

Lemma dedupe_some values s : In s values -> strip s <> "" -> exists c cs, strs (_dedupe_strings values) = PList (c :: cs).
Proof.
  intros Hs Hn. assert (H : In (strip s) (_dedupe_strings values)) by (apply dedupe_In; eauto).
  unfold strs. destruct (_dedupe_strings values); [done|]. cbn. eauto.
Qed.

Lemma map_steps_criteria f plan : some_criteria plan -> some_criteria (map_steps f plan).
Proof.
  intros (c & cs & H). exists c, cs. unfold map_steps. destruct (dget plan "steps" _); try done.
  by rewrite dget_dset_ne.
Qed.

Lemma memory_criterion_clean kind : strip (memory_criterion kind) <> "".
Proof.
  unfold memory_criterion. destruct (str_in _ _); [by vm_compute|]. destruct (String.eqb _ _); by vm_compute.
Qed.

Lemma semantic_criteria plan repo_context request :
  some_criteria plan -> some_criteria (_apply_semantic_memory_constraints plan repo_context request).
Proof.
  intros H. unfold _apply_semantic_memory_constraints. cbv zeta. destruct (any_constraint _) eqn:E; [|exact H].
  apply map_steps_criteria. unfold some_criteria. rewrite dget_dset_eq.
  unfold _semantic_memory_constraints in *. cbv zeta in *. cbn [mc_acceptance_criteria].
  destruct (List.filter _ _) as [|m ms]; [done|].
  assert (Hin : In (strip (memory_criterion (text m "kind")))
            (_dedupe_strings (List.map (fun m => memory_criterion (text m "kind")) (m :: ms)))).
  { apply dedupe_In. split; [apply memory_criterion_clean|]. eexists. split; [by left|done]. }
  eapply dedupe_some; [apply in_app_iff; right; exact Hin|]. rewrite strip_idem. apply memory_criterion_clean.
Qed.

Lemma recalled_criteria plan repo_context request :
  some_criteria plan -> some_criteria (fst (_apply_procedural_memory_constraints
    (_apply_semantic_memory_constraints plan repo_context request) repo_context request)).
Proof.
  intros H. apply (semantic_criteria _ repo_context request) in H.
  unfold _apply_procedural_memory_constraints. destruct (_rank_cached_procedures _ _ _) as [|p ps]; [exact H|].
  cbv zeta. cbn [fst]. apply map_steps_criteria. unfold some_criteria. rewrite dget_dset_eq.
  eapply dedupe_some; [apply in_app_iff; right; by left|]. unfold procedure_criterion.
  by apply (strip_head "V"%char).
Qed.

(** ** The tool calls of a plan *)

Definition calls_of (plan : dict) : list pyval :=
  flat_map (fun step => list_or_empty (dget step "tools" (PList []))) (dicts_of (steps_of plan)).

Lemma plan_kept_calls plan plan' : plan_kept plan plan' -> calls_of plan' = calls_of plan.
Proof.
  intros (_ & _ & _ & H). unfold calls_of. induction H as [|v v' l l' Hv _ IH]; [done|].
  unfold dicts_of in *. cbn [flat_map]. destruct v, v'; try discriminate Hv; try exact IH.
  destruct Hv as [Hf _]. cbn [app flat_map]. by rewrite (dlookup_dget _ _ _ _ (Hf "tools" eq_refl)), IH.
Qed.

Definition steps_listed (plan : dict) : Prop := exists l, dget plan "steps" (PList []) = PList l.

Lemma map_steps_listed f plan : steps_listed plan -> steps_listed (map_steps f plan).
Proof. intros [l H]. unfold map_steps. rewrite H. eexists. by rewrite dget_dset_eq. Qed.

Lemma steps_listed_dset k v plan : k <> "steps" -> steps_listed plan -> steps_listed (dset k v plan).
Proof. intros Hk [l H]. exists l. rewrite dget_dset_ne; [done|]. apply String.eqb_neq. congruence. Qed.

Lemma recalled_steps_listed plan repo_context request :
  steps_listed plan -> steps_listed (fst (_apply_procedural_memory_constraints
    (_apply_semantic_memory_constraints plan repo_context request) repo_context request)).
Proof.
  intros H. unfold _apply_procedural_memory_constraints, _apply_semantic_memory_constraints. cbv zeta.
  set (plan1 := if any_constraint _ then _ else plan).
  assert (H1 : steps_listed plan1).
  { unfold plan1. destruct (any_constraint _); [|done]. by apply map_steps_listed, steps_listed_dset. }
  destruct (_rank_cached_procedures _ _ _) as [|p ps]; [exact H1|]. cbn [fst].
  apply map_steps_listed, steps_listed_dset; [done|]. destruct (_ && _); [by apply steps_listed_dset|exact H1].
Qed.
