(* ===== verification/PlannerProps.v ===== *)
(** * What the planner guarantees

    The planner always ends with a plan, whatever the model, its schema, the files
    and the memories are: a validated answer, or the deterministic plan, which only
    reads.  Also the frame of the node, for the graph. *)
From Stdlib Require Import ZArith Lia String Ascii List Bool.
From Stdlib Require Import SpecFloat.
From stdpp Require Import base tactics list strings option.
From S2P Require Import Prelude PyStr StrFacts PyFloat PyVal Regex Json State Memory MemoryProps ModelRouting Executor Verifier Router PlannerMemory Planner RouterProps NodeLlm NodeFrames PlannerMemoryProps.
Local Open Scope string_scope.
Local Open Scope Z_scope.

Example quoted_pdf : _extract_pdf_path ("read " ++ dq ++ "docs/a b.PDF" ++ dq ++ " now") = Some "docs/a b.PDF".
Proof. vm_compute. reflexivity. Qed.
Example bare_pdf : _extract_pdf_path "docs/spec.pdf please" = Some "docs/spec.pdf".
Proof. vm_compute. reflexivity. Qed.
Example prose_pdf : _extract_pdf_path "please read docs/spec.pdf" = Some "please read docs/spec.pdf".
Proof. vm_compute. reflexivity. Qed.
Example what_is_intent : _classify_intent "What  is a prefix?" = code_change.
Proof. vm_compute. reflexivity. Qed.

(** ** The frame of the node *)

Definition planner_keys : list string :=
  ["history_policy"; "telemetry"; "_trace_events"; "plan"; "facts"; "context_reset_requested"; "plan_discarded";
   "plan_discard_reason"; "retry_target"; "intent"; "active_handoff"; "tool_results"; "provenance"].

Lemma reset_context_frame s :
  same_but ["plan"; "facts"; "context_reset_requested"; "plan_discarded"; "plan_discard_reason"; "retry_target"] s (reset_context s).
Proof.
  unfold reset_context. destruct (truthy _); [|apply same_but_refl]. unfold dupdate. cbn [fold_left fst snd].
  repeat (eapply same_but_trans; [|apply same_but_dset; in_keys]). apply same_but_refl.
Qed.

(** What the start of the node does: the history policy and the log are in place. *)
Lemma planner_start_inv env state s :
  planner_start env state = Ok s ->
  same_but ["history_policy"; "telemetry"; "_trace_events"; "plan"; "facts"; "context_reset_requested";
            "plan_discarded"; "plan_discard_reason"; "retry_target"] state s /\
  ensure_history_policy s = Ok s /\ events_ok s /\ (exists l, py_int (dget (dsub s "budgets") "current_loop" (PInt 0)) = Ok l).
Proof.
  unfold planner_start. intros H. apply bind_Ok in H as (s1 & H1 & H). apply bind_Ok in H as (t & _ & H).
  apply bind_Ok in H as (s2 & H2 & H). apply bind_Ok in H as (s3 & H3 & H). injection H as <-.
  assert (F2 : same_but ["telemetry"] s1 s2) by (eapply same_but_route; [exact H2|in_keys]).
  assert (F3 : same_but ["_trace_events"] s2 s3) by (eapply same_but_event; [exact H3|in_keys]).
  pose proof (reset_context_frame s3) as F4.
  assert (F : same_but ["telemetry"; "_trace_events"; "plan"; "facts"; "context_reset_requested"; "plan_discarded";
                        "plan_discard_reason"; "retry_target"] s1 (reset_context s3)).
  { eapply same_but_trans; [eapply same_but_weaken; [|exact F2]; incl_keys|].
    eapply same_but_trans; [eapply same_but_weaken; [|exact F3]; incl_keys|].
    eapply same_but_weaken; [|exact F4]. incl_keys. }
  split; [|split; [|split]].
  - eapply same_but_trans; [eapply same_but_policy; [exact H1|in_keys]|]. eapply same_but_weaken; [|exact F]. incl_keys.
  - eapply ensure_policy_agree; [exact (F "history_policy" eq_refl)|by eapply ensure_policy_idem].
  - apply append_event_events_ok in H3 as [l Hl]. exists l. rewrite <- Hl. by apply dlookup_dget, F4.
  - unfold record_model_route in H2. cbv zeta in H2. apply bind_Ok in H2 as (l & Hl & _). exists l. rewrite <- Hl.
    unfold dsub. by rewrite (dlookup_dget _ _ _ _ (F "budgets" eq_refl)).
Qed.

Lemma planner_end_frame env out o :
  planner_end env out = Ok o -> same_but ["_trace_events"; "history_policy"; "tool_results"; "provenance"] out o.
Proof.
  unfold planner_end. intros H. apply bind_Ok in H as (? & _ & H). apply bind_Ok in H as (? & _ & H).
  apply bind_Ok in H as (o' & Ho & H).
  eapply same_but_trans; [eapply same_but_event; [exact Ho|in_keys]|]. eapply same_but_prune_pre; [exact H|incl_keys].
Qed.

Lemma with_plan_frame s intent plan : same_but ["intent"; "plan"; "active_handoff"] s (with_plan s intent plan).
Proof. unfold with_plan. repeat (eapply same_but_trans; [|apply same_but_dset; in_keys]). apply same_but_refl. Qed.

(** The state before the end event of the [try] block. *)
Lemma finish_plan_inv env s decision plan r out :
  finish_plan env s decision plan r = Ok out ->
  exists intent t, planner_end env (dset "telemetry" t (with_plan s intent plan)) = Ok out.
Proof.
  unfold finish_plan. cbv zeta. intros H. apply bind_Ok in H as (summary & _ & H).
  unfold record_inference_telemetry in H. cbv zeta in H. rewrite dset_dset in H. eauto.
Qed.

(** How a run of the node ended: with the plan of the [try] block or of its handler. *)
Inductive planned (env : PEnv) (s : dict) : dict -> string -> dict -> Prop :=
| planned_model intent t plan id r out :
    make_plan env s (latest_model_route s "planner") = Ok (plan, id, r) ->
    planner_end env (dset "telemetry" t (with_plan s intent plan)) = Ok out -> planned env s plan intent out
| planned_fallback intent plan id out :
    fallback_plan s = Ok (plan, id) ->
    planner_end env (with_plan s intent plan) = Ok out -> planned env s plan intent out.

Lemma planner_failed_inv env s decision uses e out :
  pr_state (planner_failed env s decision uses e) = Ok out -> exists plan intent, planned env s plan intent out.
Proof.
  unfold planner_failed. destruct (py_int _) as [l|]; [|done]. cbv zeta.
  destruct (fallback_plan s) as [[plan id]|] eqn:E; [|done]. cbn [pr_state]. intros H.
  do 2 eexists. by eapply planned_fallback.
Qed.

Lemma planner_inv env state out :
  pr_state (planner env state) = Ok out ->
  exists s plan intent, planner_start env state = Ok s /\ planned env s plan intent out.
Proof.
  unfold planner. destruct (planner_start env state) as [s|]; [|done]. cbv zeta.
  destruct (make_plan env s _) as [[[plan id] r]|e] eqn:Em.
  - destruct (finish_plan env s _ plan r) as [o|e] eqn:Ef; cbn [pr_state].
    + intros [= <-]. apply finish_plan_inv in Ef as (intent & t & Ef). do 3 eexists. split; [done|]. by eapply planned_model.
    + intros H. apply planner_failed_inv in H as (p & i & H). eauto.
  - intros H. apply planner_failed_inv in H as (p & i & H). eauto.
Qed.

(** What every outcome shares: the plan is in the state, and the frame. *)
Lemma planned_state env s plan intent out :
  planned env s plan intent out ->
  same_but ["telemetry"; "intent"; "plan"; "active_handoff"; "_trace_events"; "history_policy"; "tool_results"; "provenance"] s out /\
  dget out "plan" PNone = PDict plan /\ dget out "active_handoff" PNone = _first_step_handoff plan /\
  dget out "intent" PNone = PStr intent.
Proof.
  intros H. pose proof (with_plan_frame s intent plan) as Fw.
  destruct H as [intent t plan id r out _ H|intent plan id out _ H]; pose proof (planner_end_frame _ _ _ H) as Fe;
    (split; [|by rewrite (dlookup_dget _ _ "plan" _ (Fe "plan" eq_refl)),
                (dlookup_dget _ _ "active_handoff" _ (Fe "active_handoff" eq_refl)),
                (dlookup_dget _ _ "intent" _ (Fe "intent" eq_refl)); unfold with_plan; dict_simpl]).
  - eapply same_but_trans; [eapply same_but_weaken; [|exact Fw]; incl_keys|].
    eapply same_but_trans; [apply (same_but_dset _ _ "telemetry"); in_keys|]. eapply same_but_weaken; [|exact Fe]. incl_keys.
  - eapply same_but_trans; [eapply same_but_weaken; [|exact Fw]; incl_keys|]. eapply same_but_weaken; [|exact Fe]. incl_keys.
Qed.

Lemma planner_frame env state out : pr_state (planner env state) = Ok out -> same_but planner_keys state out.
Proof.
  intros H. apply planner_inv in H as (s & plan & intent & Hs & H). apply planner_start_inv in Hs as [F _].
  apply planned_state in H as [F' _].
  eapply same_but_trans; [eapply same_but_weaken; [|exact F]; incl_keys|]. eapply same_but_weaken; [|exact F']. incl_keys.
Qed.

(** ** The plan of each outcome *)

(** A plan the model returned, that the schema did not refuse and pydantic validated. *)
Definition answered_plan (env : PEnv) (p : PlannerOutput) : Prop :=
  exists stream cfg system user t c d,
    p_complete env stream cfg system user t = Ok c /\
    json_loads (_extract_json_block (completion_text c)) = Ok (PDict d) /\
    match p_schema env with Some check => check d = Ok true | None => True end /\ p_validate env d = Ok p.

Lemma call_planner_inv env lane cfg sys user t c :
  call_planner env lane cfg sys user t = Ok c -> exists stream, p_complete env stream cfg sys user t = Ok c.
Proof.
  unfold call_planner. destruct (String.eqb _ _); eauto.
  destruct (p_complete env true _ _ _ _) eqn:E; [intros [= ->]|]; eauto.
Qed.

Lemma read_plan_inv env raw p :
  read_plan env raw = Ok (Some p) ->
  exists d, json_loads (_extract_json_block raw) = Ok (PDict d) /\
    match p_schema env with Some check => check d = Ok true | None => True end /\ p_validate env d = Ok p.
Proof.
  unfold read_plan. intros H. apply bind_Ok in H as (j & Hj & H). destruct j; try done.
  apply bind_Ok in H as (valid & Hv & H). destruct valid; [|done]. apply bind_Ok in H as (p' & Hp & H).
  injection H as <-. exists d. split; [done|]. split; [|done]. by destruct (p_schema env).
Qed.

(** The planner's slot is routed to the local provider: no model is asked. *)
Definition local_slot (s : dict) : Prop :=
  str_strip (dget (latest_model_route s "planner") "provider_used" (PStr "local")) = "local".

Lemma planner_output_answered env s p c :
  _planner_model_output env s (latest_model_route s "planner") = Ok (Some (p, c)) -> ~ local_slot s /\ answered_plan env p.
Proof.
  unfold _planner_model_output. destruct (String.eqb_spec (str_strip (dget (latest_model_route s "planner") "provider_used" (PStr "local"))) "local") as [|Hn];
    [done|]. intros E. split; [exact Hn|].
  apply bind_Ok in E as (t & _ & E). destruct (resolve_inference_client _ _ _) as [cfg|e]; [|by case_match].
  apply bind_Ok in E as (cfg' & _ & E). apply bind_Ok in E as (pr & _ & E). cbv zeta in E.
  apply bind_Ok in E as (resp & Hc & E). apply bind_Ok in E as (o & Ho & E).
  destruct o as [p'|]; [|done]. injection E as <- <-.
  apply call_planner_inv in Hc as (stream & Hc). apply read_plan_inv in Ho as (d & H1 & H2 & H3).
  unfold answered_plan. eauto 12.
Qed.

Lemma add_recovery_frame s payload : same_but ["recovery"; "recovery_packet"] payload (add_recovery s payload).
Proof.
  unfold add_recovery. cbv zeta.
  match goal with |- context [dget ?x "recovery_packet" PNone] => set (p1 := x) end.
  assert (H : same_but ["recovery"; "recovery_packet"] payload p1).
  { unfold p1. destruct (is_none _); [|apply same_but_refl].
    destruct (dget (dsub s "verification") "recovery" PNone); try (apply same_but_dset; in_keys);
      (destruct (nonempty _); [apply same_but_dset; in_keys|apply same_but_refl]). }
  destruct (_ && _); [|exact H]. eapply same_but_trans; [exact H|]. apply same_but_dset. in_keys.
Qed.

(** A payload made of the plan [p]. *)
Record made_of (s : dict) (p : PlannerOutput) (payload : dict) : Prop := {
  mo_steps : dlookup "steps" payload = dlookup "steps" (PlannerOutput_dump p);
  mo_iterations : exists n, dget payload "max_iterations" PNone = PInt n /\ 1 <= n <= Z.max 1 (po_max_iterations p) /\
    n <= Z.max 1 (match int_budget s "_budget_max_loops" 1 with Ok c => c | Err _ => 1 end);
  mo_criteria : some_criteria payload }.

Lemma strs_truthy l : truthy (strs l) = true -> exists c cs, strs l = PList (c :: cs).
Proof. destruct l; [done|]. cbn. eauto. Qed.

Lemma made_of_kept s p payload payload' :
  made_of s p payload -> same_but ["recovery"; "recovery_packet"; "rollback"] payload payload' -> made_of s p payload'.
Proof.
  intros [H1 (n & H2 & H2') (c & cs & H3)] F. split; [by rewrite F| |].
  - exists n. by rewrite (dlookup_dget _ _ _ _ (F "max_iterations" eq_refl)).
  - exists c, cs. by rewrite (dlookup_dget _ _ _ _ (F "acceptance_criteria" eq_refl)).
Qed.

Lemma default_plan_inv request v p :
  _default_plan request v = Ok p ->
  po_max_iterations p = 1 /\ some_criteria (PlannerOutput_dump p) /\ po_verification p = [] /\
  flat_map ps_tools (po_steps p) = ps_tools (context_step request).
Proof.
  unfold _default_plan. intros H. apply bind_Ok in H as (failed & _ & H). injection H as <-.
  split; [done|]. split; [by do 2 eexists|]. split; [done|]. cbn [po_steps]. rewrite flat_map_app. cbn [flat_map].
  rewrite app_nil_r. by destruct failed.
Qed.

Lemma bound_iterations_made s p payload :
  bound_iterations s (PlannerOutput_dump p) = Ok payload ->
  exists n, payload = dset "max_iterations" (PInt n) (PlannerOutput_dump p) /\ 1 <= n <= Z.max 1 (po_max_iterations p) /\
    n <= Z.max 1 (match int_budget s "_budget_max_loops" 1 with Ok c => c | Err _ => 1 end).
Proof.
  unfold bound_iterations. intros H. apply bind_Ok in H as (c & Hc & H). apply bind_Ok in H as (n & Hn & H).
  injection H as <-. rewrite Hc. eexists. split; [done|].
  assert (n = po_max_iterations p \/ (po_max_iterations p = 0 /\ n = 1)).
  { change (dget (PlannerOutput_dump p) "max_iterations" (PInt 1)) with (PInt (po_max_iterations p)) in Hn.
    unfold py_or in Hn. cbn [truthy] in Hn. destruct (Z.eqb_spec (po_max_iterations p) 0) as [E|E]; cbn in Hn; injection Hn; auto. }
  lia.
Qed.

Lemma made_of_criteria s p payload payload' :
  dlookup "acceptance_criteria" payload = dlookup "acceptance_criteria" (PlannerOutput_dump p) ->
  dlookup "steps" payload = dlookup "steps" (PlannerOutput_dump p) ->
  (exists n, dget payload "max_iterations" PNone = PInt n /\ 1 <= n <= Z.max 1 (po_max_iterations p) /\
    n <= Z.max 1 (match int_budget s "_budget_max_loops" 1 with Ok c => c | Err _ => 1 end)) ->
  default_criteria s payload = Ok payload' -> made_of s p payload'.
Proof.
  unfold default_criteria. intros Hc Hs (n & Hn) H.
  assert (E : dget payload "acceptance_criteria" PNone = strs (po_acceptance_criteria p)) by (unfold dget; by rewrite Hc).
  rewrite E in H. destruct (truthy _) eqn:Et.
  - injection H as <-. apply strs_truthy in Et as (c & cs & Et). split; [done|eauto|].
    exists c, cs. by rewrite E.
  - apply bind_Ok in H as (d & Hd & H). injection H as <-. apply default_plan_inv in Hd as (_ & (c & cs & Hd) & _).
    split; [by rewrite dlookup_dset_ne|exists n; by rewrite dget_dset_ne|].
    exists c, cs. rewrite dget_dset_eq. exact Hd.
Qed.

(** Where a plan comes from: a model that was asked, or the request. *)
Definition source_of (env : PEnv) (s : dict) (p : PlannerOutput) : Prop :=
  (~ local_slot s /\ answered_plan env p) \/ _default_plan (text s "request") (verification_of s) = Ok p.

(** A recalled plan made of [p]. *)
Definition recalled_from (env : PEnv) (s plan : dict) : Prop :=
  exists p payload, source_of env s p /\ made_of s p payload /\ plan = fst (recall s payload).

Lemma recall_kept s plan : plan_kept plan (fst (recall s plan)).
Proof. eapply plan_kept_trans; [apply semantic_constraints_kept|apply procedural_constraints_kept]. Qed.

Lemma make_plan_inv env s decision plan id r :
  decision = latest_model_route s "planner" -> make_plan env s decision = Ok (plan, id, r) -> recalled_from env s plan.
Proof.
  unfold make_plan. intros Ed H. apply bind_Ok in H as (chosen & Hc & H). apply bind_Ok in H as (p & Hp & H).
  apply bind_Ok in H as (p1 & H1 & H). apply bind_Ok in H as (p2 & H2 & H). cbv zeta in H.
  exists p, (add_recovery s p2). split; [|split].
  - destruct chosen as [[p' c]|]; [left|by right]. injection Hp as <-. subst decision. by eapply planner_output_answered.
  - eapply made_of_kept; [|eapply same_but_weaken; [|apply add_recovery_frame]; incl_keys].
    apply bound_iterations_made in H1 as (n & -> & Hn).
    eapply made_of_criteria; [| | |exact H2]; [by rewrite dlookup_dset_ne|by rewrite dlookup_dset_ne|].
    exists n. by rewrite dget_dset_eq.
  - injection H as H _. by rewrite H.
Qed.

Lemma fallback_plan_inv env s plan id : fallback_plan s = Ok (plan, id) -> recalled_from env s plan.
Proof.
  unfold fallback_plan. intros H. apply bind_Ok in H as (p & Hp & H).
  set (payload := dset "rollback" _ _) in H. injection H as H.
  exists p, payload. split; [by right|]. split; [|by rewrite H].
  apply default_plan_inv in Hp as (Hm & Hc & _).
  eapply made_of_kept with (payload := PlannerOutput_dump p); [|apply same_but_dset; in_keys].
  split; [done| |exact Hc]. exists 1. unfold dget. cbn. rewrite Hm. split; [done|].
  destruct (int_budget _ _ _); lia.
Qed.

(** The fallback never fails when the stored verification is falsy or a dict. *)
Lemma fallback_plan_total s :
  is_dict (verification_of s) = true -> exists plan id, fallback_plan s = Ok (plan, id) /\ steps_listed plan.
Proof.
  intros Hv. unfold fallback_plan, _default_plan, failed_verification.
  destruct (verification_of s) as [| | | | | | |v]; try done.
  set (f := negb (truthy (dget v "ok" (PBool true)))).
  assert (E : exists failed, (if truthy (PDict v) then let! ok := get (PDict v) "ok" (PBool true) in Ok (negb (truthy ok))
                              else Ok false) = Ok failed) by (destruct (truthy (PDict v)); cbn; eauto).
  destruct E as [failed ->]. cbn [bind_res].
  match goal with |- context [Ok (recall s ?x)] => destruct (recall s x) as [plan id] eqn:Er;
    assert (Hl : steps_listed (fst (recall s x))) end.
  { apply recalled_steps_listed, steps_listed_dset; [done|]. by eexists. }
  rewrite Er in Hl. eauto.
Qed.

Lemma planner_end_total env out plan :
  events_ok out -> ensure_history_policy out = Ok out -> dget out "plan" PNone = PDict plan -> steps_listed plan ->
  exists o, planner_end env out = Ok o.
Proof.
  intros He Hp Hplan [l Hl]. unfold planner_end. rewrite Hplan.
  assert (E : exists n, (let! v := get (py_or (PDict plan) (PDict [])) "steps" (PList []) in py_length v) = Ok n).
  { unfold py_or. destruct plan as [|kv plan]; cbn [truthy get bind_res]; [cbn; eauto|]. rewrite Hl. cbn. eauto. }
  destruct E as [n E]. apply bind_Ok in E as (v & Hv & E). rewrite Hv. cbn [bind_res]. rewrite E. cbn [bind_res].
  destruct (append_event_total (p_ts_end env) out "node"
    [("name", PStr "planner"); ("phase", PStr "end"); ("steps", PInt n)] He) as (o & Ho & _).
  rewrite Ho. cbn [bind_res]. apply prune_pre_total. eapply ensure_policy_agree; [|exact Hp].
  by apply (append_event_frame _ _ _ _ _ _ Ho).
Qed.

Lemma planner_failed_total env s decision uses e :
  ensure_history_policy s = Ok s -> events_ok s -> (exists l, py_int (dget (dsub s "budgets") "current_loop" (PInt 0)) = Ok l) ->
  is_dict (verification_of s) = true -> exists out, pr_state (planner_failed env s decision uses e) = Ok out.
Proof.
  intros Hp [l0 Hev] [l Hl] Hv. unfold planner_failed. rewrite Hl. cbv zeta.
  destruct (fallback_plan_total s Hv) as (plan & id & -> & Hs). cbn [pr_state].
  pose proof (with_plan_frame s (py_str (py_or (dget (dsub s "route") "intent" (PStr "analysis")) (PStr "analysis"))) plan) as F.
  eapply planner_end_total; [| | |exact Hs].
  - exists l0. rewrite <- Hev. by apply dlookup_dget, F.
  - eapply ensure_policy_agree; [|exact Hp]. by apply F.
  - unfold with_plan. by dict_simpl.
Qed.

Lemma planner_total env state s :
  planner_start env state = Ok s -> is_dict (verification_of s) = true -> exists out, pr_state (planner env state) = Ok out.
Proof.
  intros Hs Hv. unfold planner. rewrite Hs. cbv zeta. apply planner_start_inv in Hs as (_ & Hp & He & Hl).
  destruct (make_plan env s _) as [[[plan id] r]|e]; [|by apply planner_failed_total].
  destruct (finish_plan env s _ plan r) as [o|e]; [eexists; reflexivity|by apply planner_failed_total].
Qed.

(** The outcome of a run, as a recalled plan. *)
Lemma planned_recalled env s plan intent out : planned env s plan intent out -> recalled_from env s plan.
Proof. intros [? ? ? ? ? ? Hm _|? ? ? ? Hm _]; [by eapply make_plan_inv|by eapply fallback_plan_inv]. Qed.

Definition planned_calls (p : PlannerOutput) : list pyval :=
  List.map (fun c => PDict (ToolCall_dump c)) (flat_map ps_tools (po_steps p)).

Lemma made_of_calls s p payload : made_of s p payload -> calls_of payload = planned_calls p.
Proof.
  intros [H _ _]. unfold calls_of, steps_of, planned_calls. rewrite (dlookup_dget _ _ _ _ H).
  change (dget (PlannerOutput_dump p) "steps" (PList [])) with (PList (List.map (fun x => PDict (PlanStep_dump x)) (po_steps p))).
  cbn [list_or_empty]. rewrite <- (map_map PlanStep_dump PDict), dicts_of_map.
  induction (po_steps p) as [|x l IH]; cbn [List.map flat_map]; [done|]. by rewrite map_app, <- IH.
Qed.

(** C14: the planner always plans: when its log and routing bookkeeping succeed and the
    stored verification is absent or a dict, the node ends with a plan whatever the
    model, the schema, pydantic, the files and the memories do.  The calls of the plan
    are those of a validated answer of the model or of the deterministic plan, in
    order; its iterations are at least 1 and within the configured loops; it has an
    acceptance criterion; and the active handoff is the first one of its steps. *)
Theorem planner_always_plans env state s :
  planner_start env state = Ok s -> is_dict (verification_of s) = true ->
  exists out plan p,
    pr_state (planner env state) = Ok out /\ dget out "plan" PNone = PDict plan /\
    ((~ local_slot s /\ answered_plan env p) \/ _default_plan (text s "request") (verification_of s) = Ok p) /\
    calls_of plan = planned_calls p /\
    (exists n, dget plan "max_iterations" PNone = PInt n /\ 1 <= n <= Z.max 1 (po_max_iterations p) /\
       n <= Z.max 1 (match int_budget s "_budget_max_loops" 1 with Ok c => c | Err _ => 1 end)) /\
    some_criteria plan /\ dget out "active_handoff" PNone = _first_step_handoff plan.
Proof.
  intros Hs Hv. destruct (planner_total env state s Hs Hv) as [out Ho].
  destruct (planner_inv _ _ _ Ho) as (s' & plan & intent & Hs' & Hp). assert (s' = s) as -> by congruence.
  destruct (planned_state _ _ _ _ _ Hp) as (_ & Hplan & Hh & _).
  destruct (planned_recalled _ _ _ _ _ Hp) as (p & payload & Hor & Hm & E). exists out, plan, p. do 3 (split; [done|]).
  pose proof (recall_kept s payload) as Hk. rewrite <- E in Hk. split; [|split; [|split; [|exact Hh]]].
  - by rewrite (plan_kept_calls _ _ Hk), (made_of_calls _ _ _ Hm).
  - destruct Hm as [_ (n & Hn & Hr) _]. exists n. destruct Hk as [F _].
    by rewrite (dlookup_dget _ _ _ _ (F "max_iterations" eq_refl)).
  - rewrite E. apply recalled_criteria. by destruct Hm.
Qed.

(** A remote planner whose stream breaks off and whose blocking answer is not JSON. *)
Definition failing_planner : PEnv :=
  {| p_diversity := "false"; p_read_file _ _ := Ok None;
     p_complete stream _ _ _ _ := if stream then Err (RuntimeError "stream") else Ok (CText "I would rather not.");
     p_schema := None; p_validate _ := Err (ValidationError "plan");
     p_reflections := {| _reflections := []; _max := 20 |}; p_exc_text := exc_str; p_em_dash := "-"; p_now := fzero;
     p_ts_start := 1; p_ts_end := 2 |}.

Definition remote_request : dict :=
  [("request", PStr "fix the parser");
   ("_models", PDict [("planner", PDict [("provider", PStr "openai_compatible"); ("model", PStr "m")])]);
   ("_model_provider_runtime", PDict [("openai_compatible", PDict [("api_key", PStr "k")])]);
   ("_budget_max_loops", PInt 3)].

Definition started (env : PEnv) (state : dict) : dict := match planner_start env state with Ok s => s | Err _ => [] end.

Lemma planner_always_plans_witness :
  exists out plan, pr_state (planner failing_planner remote_request) = Ok out /\ dget out "plan" PNone = PDict plan /\
    some_criteria plan.
Proof.
  destruct (planner_always_plans failing_planner remote_request (started failing_planner remote_request))
    as (out & plan & p & H1 & H2 & _ & _ & _ & H3 & _); [vm_compute; reflexivity|vm_compute; reflexivity|].
  exists out, plan. split; [exact H1|split; [exact H2|exact H3]].
Defined.

(** The failure is remembered for the next prompt. *)
Example failure_reflected :
  List.map reflection (_reflections (pr_pool (planner failing_planner remote_request))) = ["Planner failed with JSONDecodeError"].
Proof. vm_compute. reflexivity. Qed.

(** A plan made without a model only reads: when the planner's slot is local, the
    tool calls of the plan are, whatever memories are recalled, to list the files and
    then to read the PDF the request names, or to search for TODOs; and the plan
    takes one iteration. *)
Theorem local_plan_only_reads env state s out :
  planner_start env state = Ok s -> local_slot s -> pr_state (planner env state) = Ok out ->
  exists plan,
    dget out "plan" PNone = PDict plan /\ dget plan "max_iterations" PNone = PInt 1 /\ calls_of plan =
      [PDict (ToolCall_dump list_files_call);
       PDict (ToolCall_dump match _extract_pdf_path (text s "request") with
                            | Some path => read_file_call path | None => search_todo_call end)].
Proof.
  intros Hs Hl Ho. destruct (planner_inv _ _ _ Ho) as (s' & plan & intent & Hs' & Hp).
  assert (s' = s) as -> by congruence. destruct (planned_state _ _ _ _ _ Hp) as (_ & Hplan & _).
  destruct (planned_recalled _ _ _ _ _ Hp) as (p & payload & [[Hr _]|Hd] & M & E); [by destruct Hr|].
  apply default_plan_inv in Hd as (Hm & _ & _ & Hcalls). exists plan. split; [exact Hplan|].
  pose proof (recall_kept s payload) as Hk. rewrite <- E in Hk. split.
  - destruct Hk as [F _]. rewrite (dlookup_dget _ _ _ _ (F "max_iterations" eq_refl)).
    destruct M as [_ (n & Hn & Hr & _) _]. rewrite Hn. do 2 f_equal. lia.
  - rewrite (plan_kept_calls _ _ Hk), (made_of_calls _ _ _ M). unfold planned_calls. rewrite Hcalls.
    unfold context_step. by destruct (_extract_pdf_path _).
Qed.

Definition local_request : dict := [("request", PStr "docs/spec.pdf: summarise")].

Lemma local_plan_only_reads_witness :
  exists out plan, pr_state (planner failing_planner local_request) = Ok out /\ dget out "plan" PNone = PDict plan /\ calls_of plan = [PDict (ToolCall_dump list_files_call); PDict (ToolCall_dump (read_file_call "docs/spec.pdf"))].
Proof.
  destruct (pr_state (planner failing_planner local_request)) as [out|] eqn:E; [|vm_compute in E; discriminate E].
  destruct (local_plan_only_reads failing_planner local_request (started failing_planner local_request) out)
    as (plan & H1 & _ & H2); [vm_compute; reflexivity|vm_compute; reflexivity|exact E|].
  exists out, plan. split; [reflexivity|]. split; [exact H1|]. rewrite H2. vm_compute. reflexivity.
Defined.

(** ** Diversity *)

(** The rotation of the diversity models never advances in the planner: when
    [LG_MODEL_DIVERSITY] is on and the configured list starts with the model [m],
    every call of the planner uses [m], in every state and whatever was called before. *)
Theorem planner_diversity_first env state cfg m ms :
  str_in (lower (p_diversity env)) ["true"; "1"; "yes"] = true -> m <> "" ->
  dget (dsub state "_model_routing_policy") "diversity_models" (PList []) = PList (PStr m :: ms) ->
  preferred_model env state cfg = Ok (with_model cfg m).
Proof.
  intros He Hm Hd. unfold preferred_model, get_routing_policy. rewrite Hd. cbn [list_or_empty List.map]. cbv zeta.
  unfold str_in in He. rewrite He. cbn [bind_res DiversityRoutingPolicy_init truthy is_str negb andb].
  apply String.eqb_neq in Hm. rewrite Hm. cbn [negb andb next_model snd _index _models].
  by rewrite Nat.Div0.mod_0_l.
Qed.

Lemma planner_diversity_first_witness :
  let state := [("_model_routing_policy", PDict [("diversity_models", PList [PStr "a"; PStr "b"])])] in
  let cfg := {| cc_base_url := "http://x"; cc_api_key := "k"; cc_timeout_s := 60; cc_model := "m" |} in
  let env := {| p_diversity := "TRUE"; p_read_file _ _ := Ok None; p_complete _ _ _ _ _ := Err (RuntimeError "off");
                p_schema := None; p_validate _ := Err (ValidationError "plan");
                p_reflections := {| _reflections := []; _max := 20 |}; p_exc_text := exc_str; p_em_dash := "-";
                p_now := fzero; p_ts_start := 1; p_ts_end := 2 |} in
  preferred_model env state cfg = Ok (with_model cfg "a").
Proof.
  intros state cfg env. apply (planner_diversity_first env state cfg "a" [PStr "b"]);
    [vm_compute; reflexivity|discriminate|vm_compute; reflexivity].
Defined.
