(* ===== verification/ContextProps.v ===== *)
(** * What the context builder guarantees

    The context handed to the planner is bounded whatever the runner, the tool
    servers and the stores return; the tools it surfaces come from the lists the
    configuration pinned; a reset forgets the stored context; and only malformed
    bookkeeping can make the node fail. *)
From Stdlib Require Import ZArith Lia String Ascii List Bool.
From stdpp Require Import base tactics list strings option.
From S2P Require Import Prelude PyStr StrFacts PyFloat PyVal Regex Json State Memory MemoryProps ModelRouting RunnerClient Mcp Executor Verifier Router ContextBuilder RouterProps NodeLlm NodeFrames.
Local Open Scope string_scope.
Local Open Scope Z_scope.

(** A small tree: a hidden entry, a directory and a file. *)
Definition sample_fs : FileSystem :=
  {| fs_is_dir name := String.eqb name "py";
     fs_list dir := match dir with
                    | [] => Some [("setup.cfg", false); (".git", true); ("py", true)]
                    | ["py"] => Some [("a.py", false)]
                    | _ => None end |}.

Example sample_map :
  _generate_repo_map sample_fs {| g_last := "L "; g_entry := "E "; g_bar := "|   " |} =
  join nl ["E py"; "|   L a.py"; "L setup.cfg"].
Proof. vm_compute. reflexivity. Qed.

(** ** The frame of the node *)

Definition context_keys : list string :=
  ["history_policy"; "telemetry"; "_trace_events"; "repo_context"; "provenance"; "mcp_tools"; "tool_results"].

Lemma provenance_frame s layers loop out :
  record_compression_provenance s layers loop = Ok out -> same_but ["provenance"] s out.
Proof.
  unfold record_compression_provenance. cbv zeta. intros H. inv_bind H. injection H as <-. apply same_but_dset. in_keys.
Qed.

(** How a run ends: the layers of the gathered context, and the state it leaves. *)
Inductive context_run (env : CEnv) (state out : dict) : Prop :=
| context_ran s root rc tools layers eps :
    context_start env state = Ok s -> gathered env s root = (rc, tools) ->
    build_context_layers s rc None = Ok (layers, eps) ->
    dget out "repo_context" PNone = PDict (with_layers layers rc) ->
    dget out "mcp_tools" PNone = PList (List.map PDict tools) ->
    same_but context_keys s out -> context_run env state out.

Lemma context_end_inv env s rc tools out :
  context_end env s rc tools = Ok out ->
  exists layers eps, build_context_layers s rc None = Ok (layers, eps) /\
    dget out "repo_context" PNone = PDict (with_layers layers rc) /\
    dget out "mcp_tools" PNone = PList (List.map PDict tools) /\ same_but context_keys s out.
Proof.
  unfold context_end. intros H. apply bind_Ok in H as ([layers eps] & Hl & H). cbv zeta in H. cbn [fst] in H.
  apply bind_Ok in H as (loop & _ & H). apply bind_Ok in H as (o1 & H1 & H). apply bind_Ok in H as (sum & _ & H).
  apply bind_Ok in H as (n & _ & H). apply bind_Ok in H as (o2 & H2 & H).
  exists layers, eps. split; [exact Hl|]. apply provenance_frame in H1.
  match type of H2 with append_event _ ?x _ _ = _ => set (o := x) in * end.
  assert (F : same_but ["_trace_events"; "history_policy"; "tool_results"; "provenance"] o out).
  { eapply same_but_trans; [eapply same_but_event; [exact H2|in_keys]|]. eapply same_but_prune_pre; [exact H|incl_keys]. }
  rewrite (dlookup_dget _ _ "repo_context" _ (F "repo_context" eq_refl)), (dlookup_dget _ _ "mcp_tools" _ (F "mcp_tools" eq_refl)).
  unfold o. dict_simpl. do 2 (split; [done|]).
  eapply same_but_trans; [eapply same_but_weaken; [|exact H1]; incl_keys|].
  eapply same_but_trans; [|eapply same_but_weaken; [|exact F]; incl_keys]. unfold o.
  repeat (eapply same_but_trans; [|apply same_but_dset; in_keys]). apply same_but_refl.
Qed.

Lemma context_builder_inv env state out : context_builder env state = Ok out -> context_run env state out.
Proof.
  unfold context_builder. intros H. apply bind_Ok in H as (s & Hs & H). apply bind_Ok in H as (root & _ & H).
  destruct (gathered env s root) as [rc tools] eqn:E.
  apply context_end_inv in H as (layers & eps & H1 & H2 & H3 & H4). by eapply context_ran.
Qed.

Lemma context_start_frame env state s :
  context_start env state = Ok s -> same_but ["history_policy"; "telemetry"; "_trace_events"] state s.
Proof.
  unfold context_start. intros H. apply bind_Ok in H as (s1 & H1 & H). apply bind_Ok in H as (s2 & H2 & H).
  eapply same_but_trans; [eapply same_but_policy; [exact H1|in_keys]|].
  eapply same_but_trans; [eapply same_but_route; [exact H2|in_keys]|]. eapply same_but_event; [exact H|in_keys].
Qed.

Lemma context_frame env state out : context_builder env state = Ok out -> same_but context_keys state out.
Proof.
  intros H. apply context_builder_inv in H as [s root rc tools layers eps Hs _ _ _ _ F].
  eapply same_but_trans; [|exact F]. eapply same_but_weaken; [|by eapply context_start_frame]. incl_keys.
Qed.

(** ** What a reset forgets *)

(** The keys of the repository context the node may set. *)
Definition later_keys : list string :=
  ["structural_ast_map"; "semantic_query"; "semantic_hits"; "mcp_capabilities"; "mcp_catalog"; "mcp_tools_catalog"; "mcp_hash_mismatches"; "mcp_recovery_hints"; "mcp_relevant_tools";
   "episodic_facts"; "semantic_memories"; "cached_procedures"; "stable_prefix"; "working_set"; "planner_context"; "compression"].
Definition computed_keys : list string :=
  (["repo_root"; "has_py"; "has_rs"; "top_level"; "repo_map"] ++ later_keys)%list.

Lemma set_dict_frame ks k v d : In k ks -> same_but ks d (set_dict k v d).
Proof. intros H. destruct v; [apply same_but_refl|by apply same_but_dset]. Qed.
Lemma set_dicts_frame ks k v d : In k ks -> same_but ks d (set_dicts k v d).
Proof. intros H. destruct v; [apply same_but_refl|by apply same_but_dset]. Qed.
Lemma set_str_frame ks k v d : In k ks -> same_but ks d (set_str k v d).
Proof. intros H. unfold set_str. destruct (String.eqb v ""); [apply same_but_refl|by apply same_but_dset]. Qed.

(** One step of a chain of settings of literal keys. *)
Ltac frame_step := eapply same_but_trans;
  [|first [apply same_but_dset; in_keys | apply set_dicts_frame; in_keys | apply set_dict_frame; in_keys
          | apply set_str_frame; in_keys]].

Lemma add_files_frame env root rc : same_but computed_keys rc (add_files env root rc).
Proof. unfold add_files. cbv zeta. repeat frame_step. apply same_but_refl. Qed.

Lemma add_snapshot_frame env s rc : same_but later_keys rc (add_snapshot env s rc).
Proof.
  unfold add_snapshot. destruct (_runner_context_snapshot env s) as [[[a h] q]|]; [|apply same_but_refl].
  repeat frame_step. apply same_but_refl.
Qed.

Lemma add_mcp_frame env s rc : same_but later_keys rc (fst (add_mcp env s rc)).
Proof.
  unfold add_mcp. destruct (_mcp_catalog_snapshot env s) as [[[sm c] t]|]; [|apply same_but_refl].
  cbv zeta. destruct (_mcp_recovery_hints s sm) as [h r]. cbn [fst]. do 2 frame_step.
  destruct (truthy _); [frame_step|]; repeat frame_step; apply same_but_refl.
Qed.

Lemma add_stores_frame env s rc : same_but later_keys rc (add_stores env s rc).
Proof. unfold add_stores. repeat frame_step. apply same_but_refl. Qed.

Lemma gathered_files env s root rc tools :
  gathered env s root = (rc, tools) -> same_but later_keys (add_files env root (kept_context s)) rc.
Proof.
  unfold gathered. pose proof (add_mcp_frame env s (add_snapshot env s (add_files env root (kept_context s)))) as Hm.
  destruct (add_mcp env s _) as [rc1 t]. intros [= <- <-].
  eapply same_but_trans; [apply add_snapshot_frame|]. eapply same_but_trans; [exact Hm|apply add_stores_frame].
Qed.

Lemma later_computed s s' : same_but later_keys s s' -> same_but computed_keys s s'.
Proof. apply same_but_weaken. intros k Hk. apply in_app_iff. by right. Qed.

Lemma gathered_frame env s root rc tools :
  gathered env s root = (rc, tools) -> same_but computed_keys (kept_context s) rc.
Proof.
  intros H. eapply same_but_trans; [apply add_files_frame|]. apply later_computed. by eapply gathered_files.
Qed.

Lemma with_layers_frame layers rc : same_but later_keys rc (with_layers layers rc).
Proof. unfold with_layers. cbn [layer_keys fold_left]. repeat frame_step. apply same_but_refl. Qed.

Definition reset_requested (state : dict) : bool := truthy (dget state "context_reset_requested" (PBool false)).

(** A requested reset forgets the stored repository context: of the keys the node
    does not compute, only [system_prompt] survives; without a reset every one does. *)
Theorem context_reset_forgets env state out :
  context_builder env state = Ok out ->
  exists rc, dget out "repo_context" PNone = PDict rc /\
    forall k, str_in k computed_keys = false ->
      dlookup k rc = if reset_requested state && negb (String.eqb k "system_prompt") then None
                     else dlookup k (dict_or_empty (dget state "repo_context" (PDict []))).
Proof.
  intros H. apply context_builder_inv in H as [s root rc tools layers eps Hs Hg _ Hrc _ _].
  eexists. split; [exact Hrc|]. intros k Hk.
  rewrite (later_computed _ _ (with_layers_frame layers rc) k Hk), (gathered_frame _ _ _ _ _ Hg k Hk).
  apply context_start_frame in Hs. unfold kept_context, reset_requested.
  rewrite !(dlookup_dget _ _ "context_reset_requested" _ (Hs "context_reset_requested" eq_refl)),
    !(dlookup_dget _ _ "repo_context" _ (Hs "repo_context" eq_refl)).
  set (old := dict_or_empty _). destruct (truthy _); cbn [andb]; [|done].
  assert (Hne : k <> "structural_ast_map" /\ k <> "semantic_hits") by (split; eapply str_in_neq; [exact Hk|in_keys|exact Hk|in_keys]).
  destruct Hne as [N1%String.eqb_neq N2%String.eqb_neq]. unfold _PERSISTENT_REPO_CONTEXT_KEYS. cbn [flat_map].
  destruct (String.eqb_spec k "system_prompt") as [->|Hn%String.eqb_neq]; cbn [negb];
    destruct (dlookup "system_prompt" old) eqn:E1, (dlookup "structural_ast_map" old), (dlookup "semantic_hits" old);
    cbn [app dlookup]; rewrite ?Hn, ?N1, ?N2; done.
Qed.

(** A world where nothing answers. *)
Definition silent_env : CEnv :=
  {| c_resolve v := Ok (py_str v); c_fs := sample_fs; c_glyphs := {| g_last := "L "; g_entry := "E "; g_bar := "|   " |};
     c_client_init _ _ _ := Ok tt; c_net _ _ := TransportError "connection refused";
     c_mcp_net _ _ _ := TransportError "connection refused"; c_episodes _ _ _ := Err (RuntimeError "db");
     c_memories _ _ := Err (RuntimeError "db"); c_procedures _ _ := Err (RuntimeError "db"); c_ts_start := 1; c_ts_end := 2 |}.

Definition reset_state : dict :=
  [("request", PStr "fix it"); ("context_reset_requested", PBool true); ("_runner_base_url", PStr "http://runner");
   ("repo_context", PDict [("system_prompt", PStr "be brief"); ("notes", PStr "old")])].

Lemma context_reset_forgets_witness :
  exists out rc, context_builder silent_env reset_state = Ok out /\ dget out "repo_context" PNone = PDict rc /\
    dlookup "notes" rc = None /\ dlookup "system_prompt" rc = Some (PStr "be brief").
Proof.
  destruct (context_builder silent_env reset_state) as [out|] eqn:E; [|vm_compute in E; discriminate E].
  destruct (context_reset_forgets silent_env reset_state out E) as (rc & H1 & H2).
  exists out, rc. split; [reflexivity|]. split; [exact H1|]. split; rewrite H2 by reflexivity; vm_compute; reflexivity.
Defined.

(** ** The size of the context *)

Lemma list_segment_len label v n : (length (list_segment label v n) <= 1)%nat.
Proof. destruct v as [| | | | |[|x l]| |]; cbn; lia. Qed.
Lemma text_segment_len label v : (length (text_segment label v) <= 1)%nat.
Proof. unfold text_segment. cbv zeta. destruct (String.eqb _ _); cbn; lia. Qed.

Lemma stable_segments_len s rc hits : (length (stable_segments s rc hits None) <= 8)%nat.
Proof.
  unfold stable_segments. cbv zeta. rewrite !length_app.
  repeat match goal with
  | |- context [length (text_segment ?a ?b)] => pose proof (text_segment_len a b); generalize dependent (length (text_segment a b)); intros
  | |- context [length (list_segment ?a ?b ?c)] => pose proof (list_segment_len a b c); generalize dependent (length (list_segment a b c)); intros
  end.
  destruct (truthy _); cbn; lia.
Qed.

Lemma working_segments_len s rc n : (length (working_segments s rc n) <= 9)%nat.
Proof.
  unfold working_segments. cbv zeta. rewrite !length_app.
  repeat match goal with
  | |- context [length (list_segment ?a ?b ?c)] => pose proof (list_segment_len a b c); generalize dependent (length (list_segment a b c)); intros
  | |- context [length (match ?d with [] => [] | _ :: _ => [?x] end)] =>
      assert (length (match d with [] => [] | _ :: _ => [x] end) <= 1)%nat by (destruct d; cbn; lia);
      generalize dependent (length (match d with [] => [] | _ :: _ => [x] end)); intros
  end. lia.
Qed.

Lemma budgets_range s b :
  context_budget_settings s = Ok b ->
  200 <= stable_prefix_tokens b <= 100000 /\ 200 <= working_set_tokens b <= 100000.
Proof.
  unfold context_budget_settings. cbv zeta. intros H. apply bind_Ok in H as (x & H1 & H).
  apply bind_Ok in H as (y & H2 & H). apply bind_Ok in H as (z & _ & H). injection H as <-. cbn.
  split; (eapply as_int_range; [|eassumption]); lia.
Qed.

Lemma layers_bounded s rc layers eps :
  build_context_layers s rc None = Ok (layers, eps) ->
  exists b content, context_budget_settings s = Ok b /\
    dget (dsub layers "planner_context") "content" PNone = PStr content /\
    dget (dsub layers "planner_context") "token_estimate" PNone = PInt (approx_token_count content) /\
    approx_token_count content <= stable_prefix_tokens b + working_set_tokens b + 14.
Proof.
  unfold build_context_layers. intros H. apply bind_Ok in H as (b & Hb & H). apply bind_Ok in H as (hits & _ & H).
  destruct (_fit_segments (stable_segments _ _ _ _) _) as [st sd] eqn:Es.
  destruct (_fit_segments (working_segments _ _ _) _) as [wt wd] eqn:Ew. cbv zeta in H. injection H as <- _.
  exists b. eexists. split; [exact Hb|]. split; [reflexivity|]. split; [reflexivity|].
  apply budgets_range in Hb as [R1 R2].
  apply approx_tokens_le; [lia|]. etransitivity; [apply py_len_strip|]. rewrite py_len_join.
  pose proof (fit_segments_bound (stable_segments s rc hits None) (stable_prefix_tokens b)) as B1.
  pose proof (fit_segments_bound (working_segments s rc (tool_result_summary_chars b)) (working_set_tokens b)) as B2.
  rewrite Es in B1. rewrite Ew in B2. cbn [fst] in B1, B2.
  pose proof (stable_segments_len s rc hits). pose proof (working_segments_len s rc (tool_result_summary_chars b)).
  assert (E : py_len (nl ++ nl) = 2) by reflexivity. rewrite E.
  pose proof (py_len_nonneg st). pose proof (py_len_nonneg wt). unfold total_len.
  destruct (negb (blank st)), (negb (blank wt)); cbn [fold_right length]; lia.
Qed.

Lemma with_layers_get layers rc k : In k layer_keys -> dget (with_layers layers rc) k PNone = dget layers k PNone.
Proof.
  intros Hk. unfold with_layers. cbn [layer_keys fold_left].
  repeat (destruct Hk as [<-|Hk]; [by dict_simpl|]). destruct Hk.
Qed.

(** C38: whatever the repository, the runner, the tool servers and the stores return,
    the context handed to the planner is within the configured budgets: its estimate
    is the token count of its text and exceeds the two budgets (200 to 100000 tokens
    each) by at most 14 tokens of separators and truncation marks. *)
Theorem context_bounded env state out :
  context_builder env state = Ok out ->
  exists rc b content,
    dget out "repo_context" PNone = PDict rc /\ context_budget_settings state = Ok b /\
    200 <= stable_prefix_tokens b <= 100000 /\ 200 <= working_set_tokens b <= 100000 /\
    dget (dsub rc "planner_context") "content" PNone = PStr content /\
    dget (dsub rc "planner_context") "token_estimate" PNone = PInt (approx_token_count content) /\
    approx_token_count content <= stable_prefix_tokens b + working_set_tokens b + 14.
Proof.
  intros H. apply context_builder_inv in H as [s root rc tools layers eps Hs _ Hl Hrc _ _].
  destruct (layers_bounded _ _ _ _ Hl) as (b & content & Hb & H1 & H2 & H3).
  exists (with_layers layers rc), b, content. split; [exact Hrc|].
  assert (Hb' : context_budget_settings state = Ok b).
  { rewrite <- Hb. unfold context_budget_settings. apply context_start_frame in Hs.
    by rewrite (dlookup_dget _ _ "_budget_context" _ (Hs "_budget_context" eq_refl)). }
  split; [exact Hb'|].
  assert (E : dsub (with_layers layers rc) "planner_context" = dsub layers "planner_context").
  { unfold dsub. pose proof (with_layers_get layers rc "planner_context" ltac:(in_keys)) as E. unfold dget in *.
    destruct (dlookup "planner_context" (with_layers layers rc)), (dlookup "planner_context" layers); by subst. }
  rewrite E. apply budgets_range in Hb as [R1 R2]. done.
Qed.

Lemma context_bounded_witness :
  exists out rc content, context_builder silent_env reset_state = Ok out /\ dget out "repo_context" PNone = PDict rc /\
    dget (dsub rc "planner_context") "content" PNone = PStr content /\ approx_token_count content <= 3214.
Proof.
  destruct (context_builder silent_env reset_state) as [out|] eqn:E; [|vm_compute in E; discriminate E].
  destruct (context_bounded silent_env reset_state out E) as (rc & b & content & H1 & H2 & _ & _ & H3 & _ & H4).
  exists out, rc, content. split; [reflexivity|]. split; [exact H1|]. split; [exact H3|].
  vm_compute in H2. injection H2 as <-. exact H4.
Defined.

(** ** The tools surfaced to the planner *)

(** The runner reported [l] as the tools of a server. *)
Definition reported (servers : dict) (net : network) (name : string) (l : list pyval) : Prop :=
  exists server env, _server_payload servers name = Ok server /\
    execute_tool net "mcp_discover" [("server_name", PStr name); ("server", PDict server)] = Ok env /\
    envelope_json env = Some (Ok (PList l)).

Lemma discover_from_In servers net i names tools t :
  discover_from servers net i names = Ok tools -> In t tools ->
  exists j name l, In name names /\ reported servers (net j) name l /\ In t (checked_tools servers name l).
Proof.
  revert i tools. induction names as [|name names IH]; intros i tools; cbn [discover_from]; [by intros [= <-]|].
  intros H Ht. apply bind_Ok in H as (ts & H1 & H). apply bind_Ok in H as (rest & H2 & H). injection H as <-.
  apply in_app_iff in Ht as [Ht|Ht].
  - unfold discover_server in H1. destruct (_server_payload servers name) as [server|e] eqn:Es.
    + apply bind_Ok in H1 as (env & He & H1). destruct (envelope_json env) as [[v|]|] eqn:Ej; try (by injection H1 as <-).
      destruct v; try (by injection H1 as <-). injection H1 as <-.
      exists i, name, l. split; [by left|]. split; [|exact Ht]. unfold reported. eauto.
    + destruct (is_value_error e); [by injection H1 as <-|done].
  - destruct (IH _ _ H2 Ht) as (j & n & l & Hn & Hr). exists j, n, l. split; [by right|exact Hr].
Qed.

Lemma snapshot_tools env s summary catalog tools t :
  _mcp_catalog_snapshot env s = Ok (summary, catalog, tools) -> In t tools ->
  exists raw, discover_tools (dsub s "_mcp_servers") (c_mcp_net env) = Ok raw /\ In t raw /\ mismatched t = false.
Proof.
  unfold _mcp_catalog_snapshot. destruct (negb _); [by intros [= <- <- <-]|]. intros H Ht.
  apply bind_Ok in H as (client & _ & H). fold (dsub s "_mcp_servers") in H.
  destruct client as [[]|]; [|by injection H as <- <- <-].
  destruct (dsub s "_mcp_servers") as [|kv servers] eqn:E; [by injection H as <- <- <-|].
  apply bind_Ok in H as (raw & Hr & H). injection H as <- <- <-.
  apply filter_In in Ht as [Ht Hm]. apply negb_true_iff in Hm. eauto.
Qed.

Lemma gathered_tools env s root rc tools :
  gathered env s root = (rc, tools) ->
  tools = [] \/ exists summary catalog, _mcp_catalog_snapshot env s = Ok (summary, catalog, tools).
Proof.
  unfold gathered, add_mcp. destruct (_mcp_catalog_snapshot env s) as [[[sm c] t]|].
  - cbv zeta. destruct (_mcp_recovery_hints s sm) as [h r]. intros [= _ <-]. eauto.
  - intros [= _ <-]. by left.
Qed.

(** C16: the tools surfaced to the planner are the ones the configuration trusts: each
    one was reported by a configured server and carries the hash of the reported list;
    when the server's configuration pins a hash, the list has that hash; the entries
    that stand for mismatched servers are never surfaced. *)
Theorem surfaced_tools_pinned env state out t :
  context_builder env state = Ok out -> In (PDict t) (list_or_empty (dget out "mcp_tools" PNone)) ->
  exists i name l tool, let servers := dsub state "_mcp_servers" in
    In name (List.map fst servers) /\ reported servers (c_mcp_net env i) name l /\ In (PDict tool) l /\
    t = tagged name (_compute_tools_hash l) tool /\
    (pinned_hash servers name = "" \/ _compute_tools_hash l = pinned_hash servers name) /\
    mismatched t = false.
Proof.
  intros H Ht. apply context_builder_inv in H as [s root rc tools layers eps Hs Hg _ _ Hm _].
  rewrite Hm in Ht. cbn [list_or_empty] in Ht. apply in_map_iff in Ht as (t' & [= ->] & Ht).
  destruct (gathered_tools _ _ _ _ _ Hg) as [->|(sm & c & Hsnap)]; [done|].
  destruct (snapshot_tools _ _ _ _ _ _ Hsnap Ht) as (raw & Hr & Hin & Hmis).
  apply context_start_frame in Hs.
  assert (E : dsub s "_mcp_servers" = dsub state "_mcp_servers")
    by (unfold dsub; by rewrite (dlookup_dget _ _ "_mcp_servers" _ (Hs "_mcp_servers" eq_refl))).
  rewrite E in Hr. unfold discover_tools in Hr.
  destruct (discover_from_In _ _ _ _ _ _ Hr Hin) as (j & name & l & Hn & Hrep & Hc).
  unfold server_names in Hn. apply py_sorted_In in Hn. unfold checked_tools in Hc. cbv zeta in Hc.
  destruct (negb (String.eqb (pinned_hash _ name) "") && negb _) eqn:Ep.
  - destruct Hc as [<-|[]]. discriminate Hmis.
  - apply in_map_iff in Hc as (tool & <- & Htool). exists j, name, l, tool. split; [exact Hn|]. split; [exact Hrep|].
    split; [by apply dicts_of_In|]. split; [done|]. split; [|exact Hmis].
    destruct (String.eqb_spec (pinned_hash (dsub state "_mcp_servers") name) ""); [by left|right].
    cbn [negb andb] in Ep. apply negb_false_iff, String.eqb_eq in Ep. exact Ep.
Qed.

Definition sample_listing : list pyval := [PDict [("name", PStr "grep"); ("description", PStr "search a file")]].

Definition pinned_state : dict :=
  [("request", PStr "search"); ("_mcp_enabled", PBool true); ("_runner_base_url", PStr "http://runner");
   ("_mcp_servers", PDict [("fs", PDict [("command", PStr "srv"); ("schema_hash", PStr (_compute_tools_hash sample_listing))]);
                           ("web", PDict [("command", PStr "srv"); ("schema_hash", PStr "00")])])].

Definition listing_env : CEnv :=
  {| c_resolve := c_resolve silent_env; c_fs := sample_fs; c_glyphs := c_glyphs silent_env;
     c_client_init _ _ _ := Ok tt; c_net := c_net silent_env;
     c_mcp_net _ _ _ := Success (Ok (PDict [("ok", PBool true); ("stdout", PStr (json_dumps true (PList sample_listing)))]));
     c_episodes := c_episodes silent_env; c_memories := c_memories silent_env; c_procedures := c_procedures silent_env;
     c_ts_start := 1; c_ts_end := 2 |}.

Definition state_of (r : res dict) : dict := match r with Ok out => out | Err _ => [] end.

Definition surfaced : dict :=
  match dget (state_of (context_builder listing_env pinned_state)) "mcp_tools" PNone with PList [PDict t] => t | _ => [] end.

Lemma surfaced_tools_pinned_witness :
  dget surfaced "name" PNone = PStr "grep" /\ exists i name l tool,
    In name ["fs"; "web"] /\ reported (dsub pinned_state "_mcp_servers") (c_mcp_net listing_env i) name l /\
    surfaced = tagged name (_compute_tools_hash l) tool.
Proof.
  split; [vm_compute; reflexivity|].
  destruct (surfaced_tools_pinned listing_env pinned_state (state_of (context_builder listing_env pinned_state)) surfaced)
    as (i & name & l & tool & H1 & H2 & _ & H3 & _); [vm_compute; reflexivity|vm_compute; left; reflexivity|].
  exists i, name, l, tool. split; [exact H1|]. split; [exact H2|exact H3].
Defined.

(** ** Only the bookkeeping can fail *)

(** A hit whose score is a finite or infinite float. *)
Definition plain_score (hit : dict) : Prop := exists f, score_of hit = Ok f /\ is_nan f = false.

Lemma dedupe_fold_plain hits best :
  List.Forall plain_score hits -> List.Forall (fun kv => plain_score (snd kv)) best ->
  exists best', fold_res dedupe_step best hits = Ok best' /\ List.Forall (fun kv => plain_score (snd kv)) best'.
Proof.
  intros Hh. revert best. induction Hh as [|hit hits Hhit _ IH]; intros best Hb; cbn [fold_res]; [eauto|].
  assert (Hset : List.Forall (fun kv : string * dict => plain_score (snd kv)) (dset (hit_key hit) hit best)).
  { apply List.Forall_forall. intros [k d] Hin. rewrite List.Forall_forall in Hb.
    apply In_dset in Hin as [[-> ->]|Hin]; [exact Hhit|exact (Hb _ Hin)]. }
  unfold dedupe_step at 1. cbv zeta. destruct (String.eqb _ ""); [by apply IH|].
  destruct Hhit as (f & Hf & _). rewrite Hf. cbn [bind_res].
  destruct (dlookup (hit_key hit) best) as [cur|] eqn:E; [|by apply IH].
  apply dlookup_In in E. rewrite List.Forall_forall in Hb. destruct (Hb _ E) as (g & Hg & _). cbn in Hg.
  rewrite Hg. cbn [bind_res]. destruct (fltb g f); apply IH; [exact Hset|]. by apply List.Forall_forall.
Qed.

Lemma dedupe_hits_total hits : List.Forall plain_score hits -> exists l, dedupe_semantic_hits hits = Ok l.
Proof.
  intros H. unfold dedupe_semantic_hits. destruct (dedupe_fold_plain hits [] H (List.Forall_nil _)) as (best & -> & Hb).
  cbn [bind_res].
  assert (E : exists keyed, map_res (fun kv : string * dict => let! s := score_of (snd kv) in Ok (s, snd kv)) best = Ok keyed /\
            existsb (fun p => is_nan (fst p)) keyed = false).
  { induction Hb as [|kv best (f & Hf & Hn) _ (keyed & Hk & Hne)]; cbn [map_res]; [by exists []|].
    rewrite Hf. cbn [bind_res]. rewrite Hk. cbn [bind_res]. eexists. split; [done|]. cbn. by rewrite Hn. }
  destruct E as (keyed & -> & Hne). cbn [bind_res]. rewrite Hne. eauto.
Qed.

(** A compression event whose counts are integers, as [get_compression_summary] needs. *)
Definition counts_ok (e : dict) : Prop :=
  forall k, In k ["total_compressed"; "total_dropped"; "pressure_score"; "loop"] -> exists z, get_int e k = Ok z.
Definition compression_events (s : dict) : list dict :=
  List.filter (fun e => String.eqb (str_strip (dget e "event" (PStr ""))) "context_compression") (_provenance s).

Lemma map_get_total k l :
  In k ["total_compressed"; "total_dropped"; "pressure_score"; "loop"] -> List.Forall counts_ok l ->
  exists zs, map_res (fun e => get_int e k) l = Ok zs.
Proof.
  intros Hk. induction 1 as [|e l He _ (zs & IH)]; cbn [map_res]; [by exists []|].
  destruct (He k Hk) as [z ->]. cbn [bind_res]. rewrite IH. cbn [bind_res]. eauto.
Qed.

Lemma summary_total s : List.Forall counts_ok (compression_events s) -> exists d, get_compression_summary s = Ok d.
Proof.
  unfold get_compression_summary. fold (compression_events s). cbv zeta.
  destruct (compression_events s) as [|e es]; [eauto|]. intros H. set (l := e :: es) in *.
  destruct (map_get_total "total_compressed" l ltac:(in_keys) H) as [z1 ->].
  destruct (map_get_total "total_dropped" l ltac:(in_keys) H) as [z2 ->].
  destruct (map_get_total "pressure_score" l ltac:(in_keys) H) as [z3 ->]. cbn [bind_res].
  match goal with |- context [map_res (fun e => get_int e "loop") ?l'] =>
    destruct (map_get_total "loop" l' ltac:(in_keys)) as [z4 ->] end; [|cbn [bind_res]; eauto].
  rewrite List.Forall_forall in *. intros x Hx. apply filter_In in Hx as [Hx _]. by apply H.
Qed.

Lemma layers_counts s rc layers eps k :
  build_context_layers s rc None = Ok (layers, eps) -> In k ["compressed_segments"; "dropped_segments"; "score"] ->
  exists z, get_int (dsub (dsub (dsub layers "compression") "pressure") "overall") k = Ok z.
Proof.
  unfold build_context_layers. intros H Hk. apply bind_Ok in H as (b & _ & H). apply bind_Ok in H as (hits & _ & H).
  destruct (_fit_segments (stable_segments _ _ _ _) _) as [st sd]. destruct (_fit_segments (working_segments _ _ _) _) as [wt wd].
  cbv zeta in H. injection H as <- _. repeat (destruct Hk as [<-|Hk]; [eexists; reflexivity|]). destruct Hk.
Qed.

Lemma last_n_In {A} n (l : list A) x : In x (last_n n l) -> In x l.
Proof. destruct (last_n_suffix n l) as [pre E]. intros H. rewrite E. apply in_app_iff. by right. Qed.

(** Recording a compression keeps the counts of the events readable. *)
Lemma provenance_total s rc layers eps loop :
  build_context_layers s rc None = Ok (layers, eps) -> List.Forall counts_ok (compression_events s) ->
  exists out, record_compression_provenance s layers loop = Ok out /\ List.Forall counts_ok (compression_events out).
Proof.
  intros Hl Hs. unfold record_compression_provenance. cbv zeta.
  fold (dsub layers "compression"). fold (dsub (dsub layers "compression") "pressure").
  fold (dsub (dsub (dsub layers "compression") "pressure") "overall").
  destruct (layers_counts _ _ _ _ "compressed_segments" Hl ltac:(in_keys)) as [z1 ->].
  destruct (layers_counts _ _ _ _ "dropped_segments" Hl ltac:(in_keys)) as [z2 ->].
  destruct (layers_counts _ _ _ _ "score" Hl ltac:(in_keys)) as [z3 ->]. cbn [bind_res].
  eexists. split; [reflexivity|]. unfold compression_events. rewrite provenance_dset.
  rewrite List.Forall_forall in *. intros e He. apply filter_In in He as [He Hev].
  apply last_n_In, in_app_iff in He as [Hin|[<-|[]]].
  - apply Hs. apply filter_In. split; [exact Hin|exact Hev].
  - intros k Hk. repeat (destruct Hk as [<-|Hk]; [eexists; reflexivity|]). destruct Hk.
Qed.

Lemma layers_total s rc :
  is_ok (context_budget_settings s) = true ->
  List.Forall plain_score (dicts_of (list_or_empty (dget rc "semantic_hits" (PList [])))) ->
  exists layers eps, build_context_layers s rc None = Ok (layers, eps).
Proof.
  intros Hb Hh. unfold build_context_layers. destruct (context_budget_settings s) as [b|]; [|done].
  cbn [bind_res]. destruct (dedupe_hits_total _ Hh) as [l ->]. cbn [bind_res].
  destruct (_fit_segments (stable_segments _ _ _ _) _). destruct (_fit_segments (working_segments _ _ _) _). cbv zeta. eauto.
Qed.

Lemma start_loop env state s :
  context_start env state = Ok s ->
  ensure_history_policy s = Ok s /\ events_ok s /\
  exists z, py_int (py_or (dget (dsub s "budgets") "current_loop" (PInt 0)) (PInt 0)) = Ok z.
Proof.
  unfold context_start. intros H. apply bind_Ok in H as (s1 & H1 & H). apply bind_Ok in H as (s2 & H2 & H).
  assert (F2 : same_but ["telemetry"] s1 s2) by (eapply same_but_route; [exact H2|in_keys]).
  assert (F3 : same_but ["_trace_events"] s2 s) by (eapply same_but_event; [exact H|in_keys]).
  split; [|split].
  - eapply ensure_policy_agree with (s := s1); [|by eapply ensure_policy_idem]. by rewrite F3, F2.
  - by eapply append_event_events_ok.
  - unfold record_model_route in H2. cbv zeta in H2. apply bind_Ok in H2 as (l & Hl & _).
    unfold dsub. rewrite (dlookup_dget _ _ "budgets" _ (F3 "budgets" eq_refl)), (dlookup_dget _ _ "budgets" _ (F2 "budgets" eq_refl)).
    unfold py_or. destruct (truthy _); [eauto|]. by exists 0.
Qed.

(** The context builder does without what it asks: once its own bookkeeping succeeds
    (policy, route, log, root, budgets, readable event counts), the node completes
    whatever the file system, the runner, the tool servers and the stores do; the only
    answer that can stop it is a search hit whose score is not a float. *)
Theorem context_builder_survives env state s root :
  context_start env state = Ok s -> c_resolve env (dget s "_repo_root" (PStr ".")) = Ok root ->
  is_ok (context_budget_settings s) = true -> List.Forall counts_ok (compression_events s) ->
  List.Forall plain_score (dicts_of (list_or_empty (dget (fst (gathered env s root)) "semantic_hits" (PList [])))) ->
  exists out, context_builder env state = Ok out.
Proof.
  intros Hs Hr Hb Hc Hh. unfold context_builder. rewrite Hs. cbn [bind_res]. rewrite Hr. cbn [bind_res].
  destruct (gathered env s root) as [rc tools] eqn:Eg. cbn [fst] in Hh.
  destruct (layers_total s rc Hb Hh) as (layers & eps & Hl). unfold context_end. rewrite Hl. cbn [bind_res fst].
  destruct (start_loop _ _ _ Hs) as (Hp & [ev He] & z & Hz). rewrite Hz. cbn [bind_res].
  destruct (provenance_total s rc layers eps z Hl Hc) as (o1 & Ho & Hc1). rewrite Ho. cbn [bind_res].
  apply provenance_frame in Ho. destruct (summary_total o1 Hc1) as [sum ->]. cbn [bind_res].
  assert (Et : exists l, dget (with_layers layers rc) "top_level" PNone = PList l).
  { assert (F : same_but later_keys (add_files env root (kept_context s)) (with_layers layers rc))
      by (eapply same_but_trans; [by eapply gathered_files|apply with_layers_frame]).
    rewrite (dlookup_dget _ _ "top_level" _ (F "top_level" eq_refl)). unfold add_files. cbv zeta. dict_simpl. by eexists. }
  destruct Et as [l Et]. rewrite Et. cbn [py_length bind_res].
  match goal with |- context [append_event _ ?x _ ?data] => set (o := x); set (dat := data) end.
  assert (F : same_but ["provenance"; "repo_context"; "telemetry"; "mcp_tools"] s o).
  { eapply same_but_trans; [eapply same_but_weaken; [|exact Ho]; incl_keys|]. unfold o. repeat frame_step. apply same_but_refl. }
  destruct (append_event_total (c_ts_end env) o "node" dat) as (o2 & Ho2 & _).
  { exists ev. rewrite <- He. by apply dlookup_dget, F. }
  rewrite Ho2. cbn [bind_res]. apply prune_pre_total. eapply ensure_policy_agree; [|exact Hp].
  rewrite (append_event_frame _ _ _ _ _ _ Ho2) by done. by apply F.
Qed.

Lemma context_builder_survives_witness :
  exists out, context_builder silent_env reset_state = Ok out.
Proof.
  assert (E1 : compression_events (state_of (context_start silent_env reset_state)) = []) by (vm_compute; reflexivity).
  assert (E2 : dicts_of (list_or_empty (dget (fst (gathered silent_env (state_of (context_start silent_env reset_state)) "."))
                 "semantic_hits" (PList []))) = []) by (vm_compute; reflexivity).
  apply (context_builder_survives silent_env reset_state (state_of (context_start silent_env reset_state)) ".");
    [vm_compute; reflexivity|vm_compute; reflexivity|vm_compute; reflexivity|rewrite E1; constructor|rewrite E2; constructor].
Defined.
