(* ===== verification/GraphProps.v ===== *)
(** * The graph terminates, and why it ends

    The run of the graph against the interface of its nodes: a potential that
    every superstep lowers, the reasons for a normal end, and the drawing of the
    graph.  The instance at the end runs the modelled nodes. *)
From Stdlib Require Import ZArith Lia String Ascii List Bool.
From stdpp Require Import base tactics list strings option.
From S2P Require Import Prelude PyStr PyVal State Policy Memory MemoryProps Executor Verifier Router NodeLlm Graph NodeFrames.
Local Open Scope string_scope.
Local Open Scope Z_scope.

(** The number of loops the configuration allows: at least one. *)
Definition loop_limit (state : dict) : Z :=
  match int_or (dget state "_budget_max_loops" (PInt 3)) 3 with Ok m => Z.max m 1 | Err _ => 1 end.

Lemma loop_limit_pos s : 1 <= loop_limit s.
Proof. unfold loop_limit. destruct (int_or _ _); lia. Qed.

Lemma loop_limit_frame s s' :
  dlookup "_budget_max_loops" s' = dlookup "_budget_max_loops" s -> loop_limit s' = loop_limit s.
Proof. intros H. unfold loop_limit. by rewrite (dlookup_dget _ _ _ _ H). Qed.

(** Supersteps and executor runs left from a node, when [c] loops were counted of [L]. *)
Definition steps_left (L c : Z) (n : Node) : Z :=
  let r := Z.max (L - c) 0 in
  match n with
  | n_ingest => 3 + 7 * L | n_policy_gate => 2 + 7 * r
  | n_context_builder => 8 + 7 * r | n_router => 7 + 7 * r | n_planner => 6 + 7 * r
  | n_coder => 5 + 7 * r | n_executor => 4 + 7 * r | n_verifier => 3 + 7 * r
  | n_reporter => 1 | n_END => 0
  end.

Definition executions_left (L c : Z) (n : Node) : Z :=
  let r := Z.max (L - c) 0 in
  match n with
  | n_ingest => L | n_policy_gate | n_verifier => r
  | n_context_builder | n_router | n_planner | n_coder | n_executor => 1 + r
  | n_reporter | n_END => 0
  end.

Definition executes (n : Node) : Z := match n with n_executor => 1 | _ => 0 end.
Definition executions (visited : list Node) : Z := fold_right (fun n z => executes n + z) 0 visited.

(** ** The abstract loop

    What the graph is meant to do, without any state but the number [c] of loops
    counted so far: a pipeline behind a gate that lets at most [L] loops through. *)

Inductive loop_step (L : Z) : Node * Z -> Node * Z -> Prop :=
| ls_start : loop_step L (n_ingest, 0) (n_policy_gate, 0)
| ls_enter c c' e : c < c' <= L -> In e [n_context_builder; n_router; n_planner; n_coder] ->
    loop_step L (n_policy_gate, c) (e, c')
| ls_refuse c : loop_step L (n_policy_gate, c) (n_reporter, c)
| ls_context c : loop_step L (n_context_builder, c) (n_router, c)
| ls_router c : loop_step L (n_router, c) (n_planner, c)
| ls_planner c : loop_step L (n_planner, c) (n_coder, c)
| ls_coder c : loop_step L (n_coder, c) (n_executor, c)
| ls_executor c : loop_step L (n_executor, c) (n_verifier, c)
| ls_retry c : loop_step L (n_verifier, c) (n_policy_gate, c)
| ls_pass c : loop_step L (n_verifier, c) (n_reporter, c)
| ls_done c : loop_step L (n_reporter, c) (n_END, c).

(** The nodes executed on the way from one position to another. *)
Inductive loop_path (L : Z) : Node * Z -> list Node -> Node * Z -> Prop :=
| lp_nil p : loop_path L p [] p
| lp_cons n c p visited q : loop_step L (n, c) p -> loop_path L p visited q -> loop_path L (n, c) (n :: visited) q.

(** Every abstract step lowers what is left. *)
Lemma loop_step_lowers L n c n' c' :
  1 <= L -> loop_step L (n, c) (n', c') ->
  1 + steps_left L c' n' <= steps_left L c n /\ executes n + executions_left L c' n' <= executions_left L c n.
Proof.
  intros HL H. inversion H as [|? ? ? Hc He| | | | | | | | |]; subst; cbn; try lia.
  repeat (destruct He as [<-|He]; [cbn; lia|]). destruct He.
Qed.

Section Loop.
Context {adapter : NonNegIntAdapter} {graph : OrchGraph} {contract : NodeContract adapter}.

(** What holds before a node runs, [c] being the loops counted so far. *)
Definition at_node (L : Z) (n : Node) (state : dict) (c : Z) : Prop :=
  loop_limit state = L /\ 0 <= c /\
  match n with
  | n_ingest => wf_keys state /\ c = 0
  | n_policy_gate => forall b, py_dict (dget state "budgets" (PDict [])) = Ok b ->
      c <= _coerce_non_negative_int (dget b "current_loop" PNone) 0
  | n_reporter | n_END => True
  | _ => loop_counter state c
  end.

Lemma counter_stored state c b :
  0 <= c -> loop_counter state c -> py_dict (dget state "budgets" (PDict [])) = Ok b ->
  c <= _coerce_non_negative_int (dget b "current_loop" PNone) 0.
Proof.
  intros Hc (b' & Hb & Hl) Hd. assert (E : dget state "budgets" (PDict []) = PDict b').
  { unfold dget in *. by destruct (dlookup "budgets" state); subst. }
  rewrite E in Hd. injection Hd as <-. rewrite Hl, coerce_int by done. lia.
Qed.

(** One decision of the gate: either the run halts, or a loop is counted. *)
Lemma gate_step L s u c :
  at_node L n_policy_gate s c -> run_node n_policy_gate s = Ok u ->
  loop_limit (merge s u) = L /\
  (halting (merge s u) = true \/
   (halting (merge s u) = false /\ exists c', c < c' <= L /\ loop_counter (merge s u) c')).
Proof.
  intros (HL & Hc & Hb) Hu. destruct (gate_is_policy s) as (t0 & t1 & E). rewrite E in Hu.
  apply policy_gate_inv in Hu as (m & p & tc & pb & b & g & cfg & Hu). cbv zeta in Hu.
  destruct Hu as (Hbud & _ & Hm & Ho & _ & Hh & _ & Hkeep).
  set (plan := if 1 <=? p then Some p else None) in *. set (d := enforce_loop_budget b m plan) in *.
  pose proof (enforce_meets_spec b m plan) as S. fold d in S.
  pose proof (enforce_counter b m plan) as C. cbv zeta in C. fold d in C.
  assert (Hlim : loop_limit s = Z.max m 1) by (unfold loop_limit; by rewrite Hm).
  assert (Hget : forall k v, In k loop_channels -> dget u k PNone = v -> v <> PNone -> dget (merge s u) k PNone = v).
  { intros k v Hk Hv Hn. unfold dget in *. rewrite merge_channel by done. destruct (dlookup k u); [done|congruence]. }
  split.
  { rewrite <- HL. apply loop_limit_frame. rewrite merge_channel by in_keys. rewrite Hkeep by in_keys.
    by destruct (dlookup _ s). }
  assert (Hhr : dget (merge s u) "halt_reason" (PStr "") = PStr (halt_reason d)).
  { eapply Hget in Hh; [|in_keys|done]. unfold dget in *. by destruct (dlookup "halt_reason" (merge s u)). }
  unfold halting. rewrite Hhr. destruct (allow d) eqn:Ea.
  - right. destruct (bs_allow _ _ _ S Ea) as [Hr ->]. split; [done|]. exists (current_loop d). split.
    + rewrite C. specialize (Hb _ Hbud). pose proof (bs_cap _ _ _ S). rewrite C in Hr. lia.
    + eexists. split; [eapply Hget; [in_keys|exact Ho|done]|]. apply policy_budgets_current.
  - left. by destruct (bs_deny _ _ _ S Ea) as [_ [-> | ->]].
Qed.

Lemma gate_target s : halting s = false ->
  In (route_after_policy_gate s) [n_context_builder; n_router; n_planner; n_coder].
Proof.
  intros H. unfold route_after_policy_gate. rewrite H.
  destruct (truthy _); [in_keys|]. repeat (destruct (py_eq _ _); [in_keys|]). in_keys.
Qed.

(** Every superstep is a step of the abstract loop. *)
Lemma step_simulates L n s c n' s' :
  at_node L n s c -> graph_step n s = Ok (n', s') -> n <> n_END ->
  exists c', loop_step L (n, c) (n', c') /\ at_node L n' s' c'.
Proof.
  intros H Hs Hn. apply bind_Ok in Hs as (u & Hu & Hs). injection Hs as Hn' Hs'.
  destruct (decide (n = n_policy_gate)) as [->|Hg].
  { destruct (gate_step L s u c H Hu) as (HL & Hstep). destruct H as (_ & Hc & _). rewrite Hs' in *. cbn in Hn'.
    destruct Hstep as [Hh|(Hh & c' & Hc' & Hl)].
    - unfold route_after_policy_gate in Hn'. rewrite Hh in Hn'. subst n'. exists c. split; [by constructor|done].
    - exists c'. pose proof (gate_target s' Hh) as Ht. rewrite Hn' in Ht. split; [by constructor|].
      split; [done|]. split; [lia|]. repeat (destruct Ht as [<-|Ht]; [done|]). destruct Ht. }
  destruct (decide (n = n_ingest)) as [->|Hi].
  { destruct H as (HL & _ & Hwf & ->). cbn in Hn'. subst n'. exists 0. split; [constructor|].
    split; [|split; [lia|intros b _; apply coerce_nonneg; lia]].
    rewrite <- HL, <- Hs'. apply loop_limit_frame. by apply ingest_limit. }
  destruct H as (HL & Hc & H). exists c.
  assert (HL' : loop_limit s' = L).
  { rewrite <- HL, <- Hs'. apply loop_limit_frame. apply (keeps_limit n); [|exact Hu]. intros [E|[E|[]]]; congruence. }
  assert (Hl : In n [n_context_builder; n_router; n_planner; n_coder; n_executor; n_verifier] -> loop_counter s' c).
  { intros Hin. rewrite <- Hs'. apply (keeps_counter n); [done|done|]. by repeat (destruct Hin as [<-|Hin]; [done|]). }
  destruct n; try done; cbn in Hn'; try (subst n'; split; [constructor|]; repeat split; auto; apply Hl; in_keys).
  (* after the verifier *)
  specialize (Hl ltac:(in_keys)). unfold route_after_verifier in Hn'.
  assert (Ht : n' = n_reporter \/ n' = n_policy_gate) by (repeat case_match; subst; auto).
  destruct Ht as [->| ->]; (split; [constructor|]); repeat split; auto. intros b. by apply counter_stored.
Qed.

Lemma step_lowers L n s c n' s' :
  at_node L n s c -> 1 <= L -> graph_step n s = Ok (n', s') -> n <> n_END ->
  exists c', at_node L n' s' c' /\ 1 + steps_left L c' n' <= steps_left L c n /\
    executes n + executions_left L c' n' <= executions_left L c n.
Proof.
  intros H HL Hs Hn. destruct (step_simulates _ _ _ _ _ _ H Hs Hn) as (c' & Hstep & H').
  destruct (loop_step_lowers L n c n' c' HL Hstep) as [H1 H2]. by exists c'.
Qed.

(** A run is a path of the abstract loop, up to the node that raises or the fuel. *)
Lemma run_simulates fuel L n s c visited outcome :
  at_node L n s c -> run_graph fuel n s = (visited, outcome) ->
  exists before n' c', loop_path L (n, c) before (n', c') /\
    match outcome with
    | Some (Ok _) => visited = before /\ n' = n_END
    | Some (Err _) => visited = (before ++ [n'])%list
    | None => visited = before /\ length visited = fuel
    end.
Proof.
  revert n s c visited. induction fuel as [|fuel IH]; intros n s c visited H; cbn [run_graph];
    destruct (bool_decide_reflect (n = n_END)) as [->|Hn].
  1, 3: intros [= <- <-]; exists [], n_END, c; (split; [constructor|done]).
  - intros [= <- <-]. exists [], n, c. split; [constructor|done].
  - destruct (graph_step n s) as [[n1 s1]|e] eqn:Es.
    + destruct (run_graph fuel n1 s1) as [v o] eqn:Er. intros [= <- <-].
      destruct (step_simulates _ _ _ _ _ _ H Es Hn) as (c1 & Hstep & H1).
      destruct (IH _ _ _ _ H1 Er) as (before & n' & c' & Hp & Ho). exists (n :: before), n', c'.
      split; [by econstructor|]. destruct o as [[out|e]|]; [|by rewrite Ho|].
      * destruct Ho as [-> ->]. done.
      * destruct Ho as [-> Ho]. split; [done|]. cbn. by rewrite Ho.
    + intros [= <- <-]. exists [], n, c. split; [constructor|done].
Qed.

Lemma run_terminates fuel L n s c :
  at_node L n s c -> 1 <= L -> steps_left L c n <= Z.of_nat fuel ->
  exists visited outcome, run_graph fuel n s = (visited, Some outcome) /\
    Z.of_nat (length visited) <= steps_left L c n /\ executions visited <= executions_left L c n.
Proof.
  revert n s c. induction fuel as [|fuel IH]; intros n s c H HL Hf; cbn [run_graph];
    destruct (bool_decide_reflect (n = n_END)) as [->|Hn].
  1, 3: by exists [], (Ok s).
  - destruct n; cbn in Hf; try lia. done.
  - destruct (graph_step n s) as [[n' s']|e] eqn:Es.
    + destruct (step_lowers _ _ _ _ _ _ H HL Es Hn) as (c' & H' & Hs & He).
      destruct (IH n' s' c' H' HL) as (v & o & Hr & Hlen & Hex); [lia|]. rewrite Hr.
      exists (n :: v), o. split; [done|]. cbn [length executions fold_right]. split; [lia|]. fold (executions v). lia.
    + exists [n], (Err e). split; [done|]. cbn. unfold executes.
      split; [destruct n; cbn in *; try lia; done|]. destruct n; cbn in *; try lia; done.
Qed.
End Loop.

(** ** Why a run ends *)

Section Outcome.
Context {graph : OrchGraph}.

(** The verification of the state is positive. *)
Definition passed (state : dict) : Prop :=
  exists v, dget state "verification" PNone = PDict v /\ truthy (dget v "ok" PNone) = true.

(** What sends a run to the reporter. *)
Definition reports (n : Node) (state : dict) : Prop :=
  (n = n_verifier /\ passed state) \/ (n = n_policy_gate /\ halting state = true).

Lemma to_reporter n state : successor n state = n_reporter -> reports n state.
Proof.
  destruct n; cbn; try done.
  - intros H. right. split; [done|]. destruct (halting state) eqn:E; [done|].
    pose proof (gate_target _ E) as Ht. rewrite H in Ht. by repeat destruct Ht as [Ht|Ht].
  - unfold route_after_verifier. destruct (dget state "verification" PNone) as [| | | | | | |v] eqn:E; try done.
    destruct (truthy (dget v "ok" PNone)) eqn:Ev; [|done]. intros _. left. split; [done|]. by exists v.
Qed.

Lemma to_END n state : n <> n_END -> successor n state = n_END -> n = n_reporter.
Proof.
  intros Hn H. destruct n; cbn in H; try done.
  - exfalso. destruct (halting state) eqn:E; [unfold route_after_policy_gate in H; by rewrite E in H|].
    pose proof (gate_target _ E) as Ht. rewrite H in Ht. by repeat destruct Ht as [Ht|Ht].
  - unfold route_after_verifier in H. by repeat case_match.
Qed.

(** The end of a run that began at [n] in [s]. *)
Definition ended (n : Node) (s : dict) (visited : list Node) (out : dict) : Prop :=
  exists before s' u, visited = (before ++ [n_reporter])%list /\ run_node n_reporter s' = Ok u /\ out = merge s' u /\
    ((before = [] /\ n = n_reporter /\ s' = s) \/ exists before' last, before = (before' ++ [last])%list /\ reports last s').

Lemma run_ended fuel n s visited out :
  run_graph fuel n s = (visited, Some (Ok out)) -> n = n_END /\ visited = [] /\ out = s \/ ended n s visited out.
Proof.
  revert n s visited. induction fuel as [|fuel IH]; intros n s visited; cbn [run_graph];
    destruct (bool_decide_reflect (n = n_END)) as [->|Hn].
  1, 3: intros [= <- <-]; by left.
  - done.
  - destruct (graph_step n s) as [[n' s']|e] eqn:Es; [|done].
    destruct (run_graph fuel n' s') as [v o] eqn:Er. intros [= <- ->]. right.
    apply bind_Ok in Es as (u & Hu & Es). injection Es as Hn' Hs'.
    destruct (IH _ _ _ Er) as [(-> & -> & ->)|(before & sr & ur & -> & Hr & -> & Hb)].
    + apply to_END in Hn' as ->; [|done]. exists [], s, u. split; [done|]. split; [exact Hu|]. split; [done|by left].
    + exists (n :: before), sr, ur. split; [done|]. split; [exact Hr|]. split; [done|]. right.
      destruct Hb as [(-> & -> & ->)|(before' & last & -> & Hb)]; [|by exists (n :: before'), last].
      exists [], n. split; [done|]. rewrite <- Hs'. by apply to_reporter.
Qed.

(** An exception that ends a run was raised by its last node. *)
Lemma run_raised fuel n s visited e :
  run_graph fuel n s = (visited, Some (Err e)) ->
  exists before n' s', visited = (before ++ [n'])%list /\ run_node n' s' = Err e.
Proof.
  revert n s visited. induction fuel as [|fuel IH]; intros n s visited; cbn [run_graph];
    destruct (bool_decide_reflect (n = n_END)) as [->|Hn]; try done.
  unfold graph_step at 1. destruct (run_node n s) as [u|e'] eqn:Eu; cbn [bind_res].
  - destruct (run_graph fuel _ _) as [v o] eqn:Er. intros [= <- ->].
    destruct (IH _ _ _ Er) as (before & n' & s' & -> & Hn'). by exists (n :: before), n', s'.
  - intros [= <- <-]. by exists [], n, s.
Qed.
End Outcome.

(** ** Claims on any graph with these nodes *)

(** C4: why a run ends: a run that completes has executed the reporter last, on a
    state [s'] that the node before it sent there either with a positive
    verification (the verifier) or with an exhausted budget (the policy gate); the
    final state is the reporter's update of [s']. *)
Theorem graph_outcome `{OrchGraph} fuel state visited out :
  invoke fuel state = (visited, Some (Ok out)) ->
  exists before last s' u,
    visited = (before ++ [last; n_reporter])%list /\ run_node n_reporter s' = Ok u /\ out = merge s' u /\
    ((last = n_verifier /\ passed s') \/ (last = n_policy_gate /\ halting s' = true)).
Proof.
  intros Hr. apply run_ended in Hr as [(E & _)|(before & s' & u & -> & Hu & -> & Hb)]; [done|].
  destruct Hb as [(_ & E & _)|(before' & last & -> & Hb)]; [done|].
  exists before', last, s', u. rewrite <- app_assoc. done.
Qed.

Definition sample_states : list dict :=
  [[("halt_reason", PStr "max_loops_exhausted"); ("verification", PDict [("ok", PBool true)])];
   [("context_reset_requested", PBool true)]; [("retry_target", PStr "router")]; [("retry_target", PStr "planner")];
   [("retry_target", PStr "coder")]].

(** The drawing is the graph: [export_mermaid] draws an edge exactly when some
    state makes the compiled graph take it, and its nodes are all the nodes. *)
Theorem mermaid_exact a b :
  (In (a, b) mermaid_edges <-> a <> n_END /\ exists state, successor a state = b) /\ In a mermaid_nodes.
Proof.
  split; [|destruct a; in_keys]. split.
  - intros Hin. assert (Ht : existsb (fun s => bool_decide (successor a s = b)) sample_states = true /\ a <> n_END).
    { cbn in Hin. repeat (destruct Hin as [[= <- <-]|Hin]; [by vm_compute|]). destruct Hin. }
    destruct Ht as [Ht Hn]. split; [done|]. apply existsb_exists in Ht as (s & _ & Hs). exists s. by apply bool_decide_eq_true in Hs.
  - intros [Hn (s & <-)]. destruct a; cbn [successor]; try (in_keys; fail).
    + unfold route_after_policy_gate. destruct (halting s); [in_keys|]. destruct (truthy _); [in_keys|].
      repeat (destruct (py_eq _ _); [in_keys|]). in_keys.
    + unfold route_after_verifier. repeat case_match; in_keys.
    + done.
Qed.

(** A graph of two visits: nodes that change nothing, a verifier that approves. *)
Definition approving_node (n : Node) (state : dict) : res dict :=
  Ok (match n with n_verifier => [("verification", PDict [("ok", PBool true)])] | _ => [] end).

Definition approving : OrchGraph.
Proof. by refine {| run_node := approving_node; merge s u := (u ++ s)%list |}; intros; rewrite dlookup_app. Defined.

Lemma graph_outcome_witness :
  exists before last, (fst (@invoke approving 9 []) = before ++ [last; n_reporter])%list /\ last = n_verifier.
Proof.
  destruct (graph_outcome (H := approving) 9 [] (fst (@invoke approving 9 [])) [("verification", PDict [("ok", PBool true)])])
    as (before & last & s' & u & Hv & Hu & Ho & Hl); [reflexivity|].
  exists before, last. split; [exact Hv|]. destruct Hl as [[-> _]|[-> Hh]]; [reflexivity|].
  cbn in Hu. injection Hu as <-. cbn in Ho. subst s'. discriminate Hh.
Defined.
