(* ===== verification/Lula.v ===== *)
(** * The program's graph

    [OrchGraph] with the modelled nodes.  What a node finds outside the state
    (clock, network, models, files) is given by a [World], a function of the
    state, so that every visit may find something else. *)
From Stdlib Require Import ZArith Lia String Ascii List Bool.
From stdpp Require Import base tactics list strings option.
From S2P Require Import Prelude PyStr PyFloat PyVal State Policy Memory MemoryProps RunnerClient Executor Verifier Router ModelRouting NodeLlm ContextBuilder ContextProps Planner PlannerProps Graph NodeFrames GraphProps.
Local Open Scope string_scope.
Local Open Scope Z_scope.

(** The channels [OrchStateDict] declares. *)
Definition channels : list string :=
  ["request"; "intent"; "repo_context"; "facts"; "plan"; "tool_results"; "patches"; "verification"; "final";
   "guards"; "budgets"; "approvals"; "security"; "telemetry"; "route"; "active_handoff"; "retry_target";
   "recovery_packet"; "context_reset_requested"; "plan_discarded"; "plan_discard_reason"; "halt_reason";
   "loop_summaries"; "history_policy"; "provenance"; "checkpoint"; "snapshots"; "undo"; "resume";
   "mcp_tools"; "worktree_path"; "long_term_memory_path"; "repo_root"; "runner_url"; "healing_job_id";
   "test_repair_mode"; "_run_id"; "_repo_root"; "_runner_base_url"; "_runner_api_key"; "_mcp_enabled";
   "_mcp_servers"; "_checkpoint"; "_models"; "_model_routing_policy"; "_model_provider_runtime";
   "_budget_max_loops"; "_budget_max_tool_calls_per_loop"; "_budget_max_patch_bytes"; "_budget_context";
   "_config_policy"; "_trace_enabled"; "_trace_out_dir"; "_trace_capture_model_metadata"; "_run_store_path";
   "_procedure_cache_path"; "_vericoding_enabled"; "_vericoding_extensions"; "_request_id";
   "_remote_api_context"; "_resume_approvals"; "_approval_context"; "_runner_enabled"; "_trace_events"].

(** A node's update replaces the declared channels it names; its other keys are dropped. *)
Definition declared (u : dict) : dict := List.filter (fun kv => str_in (fst kv) channels) u.

Definition merge_update (s u : dict) : dict :=
  (declared u ++ List.filter (fun kv => negb (dhas (fst kv) (declared u))) s)%list.

Lemma merge_update_channel s u k :
  str_in k channels = true ->
  dlookup k (merge_update s u) = match dlookup k u with Some v => Some v | None => dlookup k s end.
Proof.
  intros Hk. unfold merge_update. rewrite dlookup_app.
  assert (E : dlookup k (declared u) = dlookup k u) by (apply lookup_filter; intros; exact Hk).
  destruct (dlookup k (declared u)) as [v|] eqn:El; rewrite <- E; [done|].
  apply lookup_filter. intros v. unfold dhas. cbn. by rewrite El.
Qed.

(** What the nodes find outside the state. *)
Record World := {
  w_ingest : dict -> IngestEnv; w_gate : dict -> Z * Z; w_context_builder : dict -> CEnv;
  w_router : dict -> REnv; w_planner : dict -> PEnv; w_coder : dict -> LlmEnv; w_executor : dict -> Env;
  w_verifier : dict -> VEnv; w_reporter : dict -> LlmEnv }.

Section World.
Context (adapter : NonNegIntAdapter) (w : World).

Definition node (n : Node) (state : dict) : res dict :=
  match n with
  | n_ingest => ingest (w_ingest w state) state
  | n_policy_gate => policy_gate (fst (w_gate w state)) (snd (w_gate w state)) state
  | n_context_builder => context_builder (w_context_builder w state) state
  | n_router => router (w_router w state) state
  | n_planner => pr_state (planner (w_planner w state) state)
  | n_coder => Coder.coder (w_coder w state) state
  | n_executor => snd (executor (w_executor w state) state)
  | n_verifier => verifier (w_verifier w state) state
  | n_reporter => Reporter.reporter (w_reporter w state) state
  | n_END => Ok state
  end.

#[export] Instance lula : OrchGraph.
Proof.
  refine {| run_node := node; merge := merge_update |}.
  intros s u k Hk. apply merge_update_channel.
  by repeat (destruct Hk as [<-|Hk]; [reflexivity|]).
Defined.

(** What is asked of pydantic: [model_dump] spells the internal fields by their names,
    never by their aliases. *)
Definition dumps_names : Prop :=
  forall s req d, i_validate (w_ingest w s) req = Ok d -> dlookup "_budget_max_loops" d = None.

Lemma merge_same s u k :
  In k loop_channels -> dlookup k u = dlookup k s -> dlookup k (merge_update s u) = dlookup k s.
Proof.
  intros Hk E. rewrite merge_update_channel by (by repeat (destruct Hk as [<-|Hk]; [reflexivity|])).
  rewrite E. by destruct (dlookup k s).
Qed.

Lemma merge_counter s u c : loop_counter u c -> loop_counter (merge_update s u) c.
Proof.
  intros (b & Hb & Hc). exists b. split; [|done]. rewrite <- Hb. unfold dget in *.
  rewrite merge_update_channel by reflexivity. by destruct (dlookup "budgets" u).
Qed.

Lemma ingest_keeps_limit s u :
  dumps_names -> wf_keys s -> ingest (w_ingest w s) s = Ok u ->
  dlookup "_budget_max_loops" u = dlookup "_budget_max_loops" s.
Proof.
  intros Hd Hwf H. destruct (dlookup "_budget_max_loops" s) as [v|] eqn:E; [by eapply ingest_internal|].
  unfold ingest in H. cbv zeta in H. rewrite (append_event_frame _ _ _ _ _ _ H) by reflexivity.
  rewrite dupdate_lookup by (apply dset_NoDup, filter_wf, Hwf).
  unfold internal_keys. rewrite dlookup_dset_ne by done. rewrite lookup_filter by done. rewrite E.
  destruct (i_validate _ _) as [d|e] eqn:Ev; [by eapply Hd|reflexivity].
Qed.

(** The frame of each node of the loop. *)
Lemma node_frame n s u :
  ~ In n [n_ingest; n_policy_gate] -> node n s = Ok u ->
  dlookup "_budget_max_loops" u = dlookup "_budget_max_loops" s /\
  (forall c, loop_counter s c -> loop_counter u c).
Proof.
  intros Hn H.
  assert (Hframe : forall ks, same_but ks s u -> str_in "_budget_max_loops" ks = false -> str_in "budgets" ks = false ->
            dlookup "_budget_max_loops" u = dlookup "_budget_max_loops" s /\ (forall c, loop_counter s c -> loop_counter u c)).
  { intros ks Hf H1 H2. split; [by apply Hf|]. intros c. by eapply loop_counter_frame. }
  destruct n; cbn [node] in H.
  1, 2: exfalso; apply Hn; in_keys.
  - eapply Hframe; [eapply context_frame; exact H|done|done].
  - eapply Hframe; [eapply router_frame; exact H|done|done].
  - eapply Hframe; [eapply planner_frame; exact H|done|done].
  - eapply Hframe; [eapply coder_frame; exact H|done|done].
  - destruct (executor_frame _ _ _ H) as [Hf Hc].
    split; [by apply Hf|exact Hc].
  - destruct (verifier_frame _ _ _ H) as [Hf Hc]. split; [by apply Hf|exact Hc].
  - eapply Hframe; [eapply reporter_frame; exact H|done|done].
  - injection H as <-. done.
Qed.

Lemma lula_contract :
  dumps_names -> NodeContract adapter.
Proof.
  intros Hd. split.
  - intros s. by eexists _, _.
  - intros s u Hwf H. apply merge_same; [in_keys|]. by apply ingest_keeps_limit.
  - intros n s u Hn H. apply merge_same; [in_keys|]. by eapply node_frame.
  - intros n s u c Hn H Hc. apply merge_counter. eapply node_frame; [|exact H|exact Hc].
    intros [E|[E|[]]]; subst n; by repeat (destruct Hn as [Hn|Hn]; [discriminate Hn|]).
Qed.
End World.

(** ** Claims *)

(** A world whose runner cannot be reached and whose router, coder and reporter have
    no model. *)
Definition unreachable : network := fun _ _ => TransportError "connection refused".

Definition world_with (planner : PEnv) : World :=
  let llm := {| l_getenv _ := ""; l_complete _ _ _ _ := Err (RuntimeError "no model");
                l_stream _ _ _ _ _ := Err (RuntimeError "no model"); l_ts_start := 1; l_ts_end := 2 |} in
  {| w_ingest _ := {| i_validate _ := Err (ValidationError "off"); i_uuid := "run"; i_ts := 1 |};
     w_gate _ := (1, 2); w_context_builder _ := silent_env;
     w_router _ := {| r_prompt_file _ := Ok None; r_complete _ _ _ _ _ := Err (RuntimeError "no model");
                      r_validate _ := Err (ValidationError "no answer"); r_dump_json _ := "{}"; r_em_dash := "-";
                      r_ts_start := 1; r_ts_end := 2 |};
     w_planner _ := planner;
     w_coder _ := llm;
     w_executor _ := {| env_runner_base_url := None; env_glean_enabled := "false"; env_approval_secret := "";
                        token_iat _ _ := 0; token_nonce _ _ := ""; client_init _ _ _ := true; net _ := unreachable;
                        ts_start := 1; ts_step _ := 2; ts_glean := 3; ts_end := 4 |};
     w_verifier _ := {| v_client _ _ _ := Ok tt; v_net_calls := unreachable; v_net_formal := unreachable;
                        v_schema_ok _ := true; v_ts_start := 1; v_ts_end := 2 |};
     w_reporter _ := llm |}.

Definition offline : World := world_with failing_planner.

Definition task_state : dict := [("request", PStr "explain the build"); ("_budget_max_loops", PInt 2)].

Definition run (w : World) (fuel : nat) (state : dict) : list Node * option (res dict) :=
  @invoke (lula int_adapter w) fuel state.

Definition first_loop : list Node :=
  [n_ingest; n_policy_gate; n_context_builder; n_router; n_planner; n_coder; n_executor; n_verifier; n_policy_gate].

(** Without a model the plan allows one iteration: the gate refuses the second loop. *)
Example offline_run : fst (run offline 17 task_state) = (first_loop ++ [n_reporter])%list.
Proof. vm_compute. reflexivity. Qed.

(** A model whose plan runs the tests, twice if need be. *)
Definition answering_planner : PEnv :=
  {| p_diversity := "false"; p_read_file _ _ := Ok None; p_complete _ _ _ _ _ := Ok (CText "{}"); p_schema := None;
     p_validate _ := Ok {| po_steps := [{| ps_id := "s1"; ps_description := ""; ps_expected_outcome := "";
                             ps_tools := [{| tc_tool := "run_tests"; tc_input := [] |}]; ps_files_touched := [];
                             ps_handoff := None |}];
                           po_verification := []; po_rollback := ""; po_acceptance_criteria := []; po_max_iterations := 2;
                           po_recovery := None; po_recovery_packet := None |};
     p_reflections := {| _reflections := []; _max := 20 |}; p_exc_text := exc_str; p_em_dash := "-";
     p_now := fzero; p_ts_start := 1; p_ts_end := 2 |}.

(** Its two loops are run, and the gate then refuses the third. *)
Example answered_run :
  fst (run (world_with answering_planner) 17 (task_state ++ remote_request)%list) =
    (first_loop ++ [n_planner; n_coder; n_executor; n_verifier; n_policy_gate; n_reporter])%list.
Proof. vm_compute. reflexivity. Qed.

(** C1: every run of the graph ends, whatever the runner, the models and the clock
    answer: from any initial state, [app.invoke] ends (with a final state or an
    exception) after at most [7 * L + 3] supersteps and [L] executions of a plan,
    [L] being the configured loop limit (3 when absent, at least 1). *)
Theorem lula_terminates `{adapter : NonNegIntAdapter} w state fuel :
  dumps_names w -> wf_keys state ->
  7 * loop_limit state + 3 <= Z.of_nat fuel ->
  exists visited outcome,
    @invoke (lula adapter w) fuel state = (visited, Some outcome) /\
    Z.of_nat (length visited) <= 7 * loop_limit state + 3 /\ executions visited <= loop_limit state.
Proof.
  intros Hd Hwf Hf. pose proof (lula_contract adapter w Hd) as C.
  destruct (@run_terminates adapter (lula adapter w) C fuel (loop_limit state) n_ingest state 0)
    as (v & o & Hr & Hl & He); [|apply loop_limit_pos|cbn; lia|].
  - split; [done|]. by split; [lia|].
  - exists v, o. split; [exact Hr|]. cbn in Hl, He. split; [lia|exact He].
Qed.

Lemma lula_terminates_witness :
  exists visited outcome, run offline 17 task_state = (visited, Some outcome) /\
    Z.of_nat (length visited) <= 17 /\ executions visited <= 2.
Proof.
  apply (lula_terminates offline task_state 17).
  - done.
  - repeat constructor; cbn; intros H; by repeat destruct H as [H|H].
  - by vm_compute.
Defined.

(** C2: the program refines the abstract loop: the nodes any run executes, whatever the
    world does, are a path of [loop_step] from the entry with no loop counted, under
    the configured limit; the path leads to the end when the run completes, up to the
    node that raised when it does not, and as far as the supersteps when they run out. *)
Theorem lula_refines_loop `{adapter : NonNegIntAdapter} w state fuel visited outcome :
  dumps_names w -> wf_keys state -> @invoke (lula adapter w) fuel state = (visited, outcome) ->
  exists path n c, loop_path (loop_limit state) (n_ingest, 0) path (n, c) /\
    match outcome with
    | Some (Ok _) => visited = path /\ n = n_END
    | Some (Err _) => visited = (path ++ [n])%list
    | None => visited = path /\ length visited = fuel
    end.
Proof.
  intros Hd Hwf H. pose proof (lula_contract adapter w Hd) as C.
  apply (@run_simulates adapter (lula adapter w) C fuel (loop_limit state) n_ingest state 0); [|exact H].
  split; [done|]. by split; [lia|].
Qed.

Lemma lula_refines_loop_witness :
  exists path c, loop_path 2 (n_ingest, 0) path (n_END, c) /\ executions path = 1.
Proof.
  assert (E1 : match snd (run offline 17 task_state) with Some (Ok _) => true | _ => false end = true) by (vm_compute; reflexivity).
  assert (E2 : executions (fst (run offline 17 task_state)) = 1) by (vm_compute; reflexivity).
  pose proof (lula_refines_loop (adapter := int_adapter) offline task_state 17 (fst (run offline 17 task_state))
              (snd (run offline 17 task_state))) as R.
  destruct R as (path & n & c & Hp & Ho);
    [done|repeat constructor; cbn; intros H; by repeat destruct H as [H|H]|unfold run; exact (surjective_pairing _)|].
  destruct (snd (run offline 17 task_state)) as [[out|e]|]; try discriminate E1.
  destruct Ho as [Hv ->]. exists path, c. split; [exact Hp|]. rewrite <- Hv. exact E2.
Defined.

Lemma reporter_final env s u : Reporter.reporter env s = Ok u -> exists text, dlookup "final" u = Some (PStr text).
Proof.
  unfold Reporter.reporter. intros H. apply bind_Ok in H as (s1 & _ & H). eexists.
  rewrite (append_event_frame _ _ _ _ _ _ H) by done. apply dlookup_dset_eq.
Qed.

(** C3: the program answers: with [7 * L + 3] supersteps every run either executes the
    reporter last and leaves a text as its final answer, or ends with an exception that
    its last node raised. *)
Theorem lula_answers `{adapter : NonNegIntAdapter} w state fuel :
  dumps_names w -> wf_keys state -> 7 * loop_limit state + 3 <= Z.of_nat fuel ->
  exists before last outcome,
    @invoke (lula adapter w) fuel state = ((before ++ [last])%list, Some outcome) /\
    match outcome with
    | Ok out => last = n_reporter /\ exists text, dget out "final" PNone = PStr text
    | Err e => exists s, node adapter w last s = Err e
    end.
Proof.
  intros Hd Hwf Hf. pose proof (lula_contract adapter w Hd) as C.
  destruct (@run_terminates adapter (lula adapter w) C fuel (loop_limit state) n_ingest state 0)
    as (v & o & Hr & _ & _); [|apply loop_limit_pos|cbn; lia|].
  { split; [done|]. by split; [lia|]. }
  destruct o as [out|e].
  - destruct (@run_ended (lula adapter w) _ _ _ _ _ Hr) as [(E & _)|(before & s' & u & -> & Hu & -> & _)]; [done|].
    exists before, n_reporter. eexists. split; [exact Hr|]. split; [done|].
    apply reporter_final in Hu as [text Hu]. exists text. unfold dget. cbn [merge lula].
    rewrite merge_update_channel by reflexivity. by rewrite Hu.
  - destruct (@run_raised (lula adapter w) _ _ _ _ _ Hr) as (before & n & s & -> & Hn).
    exists before, n. eexists. split; [exact Hr|]. by exists s.
Qed.

Lemma lula_answers_witness :
  exists before last outcome, run offline 17 task_state = ((before ++ [last])%list, Some outcome).
Proof.
  destruct (lula_answers offline task_state 17) as (before & last & outcome & H & _);
    [done|repeat constructor; cbn; intros H; by repeat destruct H as [H|H]|by vm_compute|].
  exists before, last, outcome. exact H.
Defined.

(** The reason the sample run ends. *)
Definition offline_end : list Node * option (res dict) := run offline 17 task_state.

Definition final_state_of (r : list Node * option (res dict)) : dict :=
  match r with (_, Some (Ok out)) => out | _ => [] end.

Example offline_halts :
  dget (final_state_of offline_end) "halt_reason" PNone = PStr "plan_max_iterations_exhausted".
Proof. vm_compute. reflexivity. Qed.
