(* ===== verification/RunCommand.v ===== *)
(** * One run of the orchestrator: [commands/run.py] and [write_run_trace] of [trace.py]

    The process a user or the service starts: it builds the graph's first state from the
    configuration, its arguments and its environment, streams the graph's updates, and
    leaves a trace file and a record in the run store. *)
From Stdlib Require Import ZArith Lia String Ascii List Bool.
From stdpp Require Import base tactics list strings option.
From S2P Require Import Prelude PyStr PyFloat PyVal Sha256 Json State Policy Graph Lula RunRecord Configuration Sqlite RunStore.
Local Open Scope string_scope.
Local Open Scope Z_scope.

(** ** Arguments and surroundings *)

Inductive View := classic | console.

Record Args := {
  a_request : string; a_runner_base_url : option string; a_trace : bool; a_run_id : option string;
  a_trace_out_dir : option string; a_resume : bool; a_thread_id : option string; a_checkpoint_id : option string;
  a_view : View }.

(** What the process finds: its environment and the approvals file, a fresh uuid, the
    root of the repository and paths resolved from it, the checkpoint savers ([r_open] constructs one and pings it;
    [r_latest] is the [configurable] of the tuple [get_tuple] finds, [r_values] are the
    channels LangGraph starts from), the dashboard, the trace directory and file, the run store. *)
Record RunEnv := {
  r_getenv : string -> option string; r_read_text : string -> res string; r_uuid : string; r_repo_root : string;
  r_resolve : string -> string; r_open : string -> res unit; r_latest : bool -> dict -> res (option pyval);
  r_values : dict -> dict; r_render : dict -> res unit; r_mkdir : string -> res unit; r_write : string -> dict -> res unit;
  r_store : pyval -> res Database; r_now : string; r_facts_now : string }.

Definition _validated_run_id (value : option string) : option string :=
  match value with
  | None => None
  | Some v => if run_id_text (strip v) then Some (strip v) else None
  end.

(** [s or dflt] of an optional text. *)
Definition given (o : option string) (dflt : string) : string :=
  match o with Some s => if String.eqb s "" then dflt else s | None => dflt end.

(** ** Approvals of a resumed run *)

(** [json.loads] of a text, kept when it is an object. *)
Definition json_object (raw : string) : res (option dict) :=
  if String.eqb raw "" then Ok None
  else
    match json_loads raw with
    | Ok (PDict d) => Ok (Some d)
    | Ok _ => Ok None
    | Err e => if is_value_error e then Ok None else Err e
    end.

(** The text of the approvals: the file named in the environment, the environment itself
    when the file gives none. *)
Definition resume_approvals_raw (env : RunEnv) : res string :=
  let file := env_text (r_getenv env) "LG_RESUME_APPROVALS_FILE" in
  let! raw :=
    if String.eqb file "" then Ok ""
    else
      match r_read_text env file with
      | Ok s => Ok (strip s)
      | Err (OSError _) => Ok ""
      | Err e => Err e
      end in
  Ok (if String.eqb raw "" then env_text (r_getenv env) "LG_RESUME_APPROVALS_JSON" else raw).

Definition resume_approvals (env : RunEnv) : res (option dict) :=
  let! raw := resume_approvals_raw env in json_object raw.

Definition approval_context (env : RunEnv) : res (option dict) :=
  json_object (env_text (r_getenv env) "LG_APPROVAL_CONTEXT_JSON").

(** ** The checkpoint *)

Definition stable_checkpoint_thread_id (request thread_prefix : string) (provided : option string) : string :=
  let named := match provided with Some p => strip p | None => "" end in
  if String.eqb named ""
  then (let p := strip thread_prefix in if String.eqb p "" then "lg-orch" else p) ++ "-" ++ str_take 16 (sha256_hex request)
  else named.

(** The saver of a backend; Redis gives way to SQLite when it cannot be reached. *)
Definition open_saver (env : RunEnv) (backend : string) : res unit :=
  if String.eqb backend "redis" then
    match r_open env "redis" with Ok _ => Ok tt | Err _ => r_open env "sqlite" end
  else if String.eqb backend "postgres" then r_open env "postgres"
  else r_open env "sqlite".

(** The [checkpoint_id] of a [configurable], when it is a text. *)
Definition checkpoint_id_of (latest : option pyval) : string :=
  match latest with
  | Some (PDict c) => match dget c "checkpoint_id" PNone with PStr s => s | _ => "" end
  | _ => ""
  end.

(** [checkpoint_runtime]. *)
Definition runtime (enabled : bool) (path thread ns : string) (resume : bool) (id : string) : dict :=
  [("enabled", PBool enabled); ("db_path", PStr path); ("thread_id", PStr thread); ("checkpoint_ns", PStr ns);
   ("resume", PBool resume); ("resume_checkpoint_id", PStr id)].

Definition configurable (thread ns id : string) : dict :=
  ([("thread_id", PStr thread); ("checkpoint_ns", PStr ns)]
   ++ (if String.eqb id "" then [] else [("checkpoint_id", PStr id)]))%list.

(** The checkpoint to start from: the one that is named, or the latest one of the thread
    when a resumption is asked for. *)
Definition start_checkpoint (env : RunEnv) (args : Args) (thread ns : string) : res string :=
  let explicit := strip (given (a_checkpoint_id args) "") in
  if negb (String.eqb explicit "") then Ok explicit
  else if a_resume args then
    let! latest := r_latest env false (configurable thread ns "") in Ok (strip (checkpoint_id_of latest))
  else Ok "".

(** [checkpoint_runtime] and [run_config]. *)
Definition checkpoint_of (env : RunEnv) (args : Args) (c : Checkpoint) : res (dict * option dict) :=
  if cp_enabled c then
    let! _ := open_saver env (backend c) in
    let thread := stable_checkpoint_thread_id (a_request args) (thread_prefix c) (a_thread_id args) in
    let! id := start_checkpoint env args thread (namespace c) in
    Ok (runtime true (r_resolve env (db_path c)) thread (namespace c) (a_resume args) id,
        Some (configurable thread (namespace c) id))
  else Ok (runtime false "" "" (namespace c) (a_resume args) "", None).

(** ** The first state *)

Definition mcp_server (s : MCPServerConfig) : dict :=
  ([("command", PStr (command s)); ("args", PList (List.map PStr (args s)))]
   ++ match cwd s with Some d => [("cwd", PStr d)] | None => [] end
   ++ [("env", PDict (List.map (fun kv => (fst kv, PStr (snd kv))) (mcp_env s))); ("timeout_s", PInt (timeout_s s))])%list.

Definition endpoint (m : ModelEndpoint) : pyval :=
  PDict [("provider", PStr (provider m)); ("model", PStr (model m)); ("temperature", PFloat (temperature m))].

Definition serverless (s : Serverless) : pyval :=
  PDict [("base_url", PStr (sl_base_url s)); ("api_key", text_opt (sl_api_key s)); ("timeout_s", PInt (sl_timeout_s s))].

Definition texts (l : list string) : pyval := PList (List.map PStr l).

(** The keys that are only set when there is something to set. *)
Definition optional_keys (env : RunEnv) (approvals context : option dict) : dict :=
  let request_id := env_text (r_getenv env) "LG_REQUEST_ID" in
  let subject := env_text (r_getenv env) "LG_REMOTE_API_AUTH_SUBJECT" in
  let ip := env_text (r_getenv env) "LG_REMOTE_API_CLIENT_IP" in
  ((if String.eqb request_id "" then [] else [("_request_id", PStr request_id)])
   ++ (if String.eqb subject "" && String.eqb ip "" then []
       else [("_remote_api_context", PDict [("auth_subject", PStr subject); ("client_ip", PStr ip)])])
   ++ match approvals with Some d => [("_resume_approvals", PDict d)] | None => [] end
   ++ match context with Some d => [("_approval_context", PDict d)] | None => [] end)%list.

Definition initial_state (env : RunEnv) (args : Args) (cfg : AppConfig) (run_id : string) (checkpoint : dict)
    (approvals context : option dict) : dict :=
  let m := models cfg in
  let r := routing m in
  let b := budgets cfg in
  let p := policy cfg in
  let out_dir := match a_trace_out_dir args with Some s => strip s | None => "" end in
  ([("request", PStr (a_request args)); ("_run_id", PStr run_id); ("_repo_root", PStr (r_repo_root env));
    ("_runner_base_url", PStr (given (a_runner_base_url args) (base_url (runner cfg))));
    ("_runner_api_key", text_opt (api_key (runner cfg)));
    ("_mcp_enabled", PBool (mcp_enabled (mcp cfg)));
    ("_mcp_servers", PDict (List.map (fun ns => (fst ns, PDict (mcp_server (snd ns)))) (servers (mcp cfg))));
    ("_checkpoint", PDict checkpoint);
    ("_models", PDict [("router", endpoint (router m)); ("planner", endpoint (planner m))]);
    ("_model_routing_policy", PDict
      [("local_provider", PStr (local_provider r)); ("fallback_task_classes", texts (fallback_task_classes r));
       ("interactive_context_limit", PInt (interactive_context_limit r));
       ("deep_planning_context_limit", PInt (deep_planning_context_limit r));
       ("recovery_retry_threshold", PInt (recovery_retry_threshold r));
       ("default_cache_affinity", PStr (default_cache_affinity r))]);
    ("_model_provider_runtime", PDict
      [("digitalocean", serverless (digitalocean m)); ("openai_compatible", serverless (openai_compatible m))]);
    ("_budget_max_loops", PInt (max_loops b));
    ("_budget_max_tool_calls_per_loop", PInt (max_tool_calls_per_loop b));
    ("_budget_max_patch_bytes", PInt (max_patch_bytes b));
    ("_budget_context", PDict
      [("stable_prefix_tokens", PInt (stable_prefix_tokens b)); ("working_set_tokens", PInt (working_set_tokens b));
       ("tool_result_summary_chars", PInt (tool_result_summary_chars b))]);
    ("_config_policy", PDict
      [("network_default", PStr (network_default p));
       ("require_approval_for_mutations", PBool (require_approval_for_mutations p));
       ("allowed_write_paths", texts (allowed_write_paths p))]);
    ("_trace_enabled", PBool (a_trace args || trace_enabled (trace cfg)));
    ("_trace_out_dir", PStr (if String.eqb out_dir "" then output_dir (trace cfg) else out_dir));
    ("_trace_capture_model_metadata", PBool (capture_model_metadata (trace cfg)));
    ("_run_store_path", PStr (default "" (run_store_path (remote_api cfg))));
    ("_procedure_cache_path", PStr (default "" (procedure_cache_path (remote_api cfg))));
    ("_vericoding_enabled", PBool (vc_enabled (vericoding cfg)));
    ("_vericoding_extensions", texts (extensions (vericoding cfg)))]
   ++ optional_keys env approvals context)%list.

(** ** The stream of updates *)

(** [x[-1]]. *)
Definition last_item (v : pyval) : res pyval :=
  match v with
  | PList l | PTuple l => match List.last (List.map Some l) None with Some x => Ok x | None => Err (IndexError "list index out of range") end
  | PStr s => match List.last (List.map Some (chars s)) None with Some x => Ok x | None => Err (IndexError "string index out of range") end
  | PDict _ => Err (KeyError "-1")
  | _ => Err (TypeError (sq ++ type_name v ++ sq ++ " object is not subscriptable"))
  end.

(** What is printed for an update: only whether it raises. *)
Definition show_plan (plan : pyval) : res unit :=
  let! steps := get plan "steps" (PList []) in
  let! _ := py_length steps in
  let! l := py_iter steps in
  fold_res (fun _ s => let! _ := get s "id" PNone in let! _ := get s "description" PNone in Ok tt) tt l.

Definition show (view : View) (n : Node) (u : dict) : res unit :=
  match view with
  | console =>
      let! _ := py_iter (dget u "_trace_events" (PList [])) in
      let! _ := py_iter (dget u "tool_results" (PList [])) in
      Ok tt
  | classic =>
      match n with
      | n_planner => show_plan (dget u "plan" (PDict []))
      | n_executor =>
          let results := dget u "tool_results" (PList []) in
          if truthy results then
            let! last := last_item results in
            let! _ := get last "tool" PNone in let! _ := get last "ok" PNone in Ok tt
          else Ok tt
      | n_verifier => let! _ := get (dget u "verification" (PDict [])) "ok" PNone in Ok tt
      | _ => Ok tt
      end
  end.

Section Stream.
Context `{adapter : NonNegIntAdapter} (w : World) (view : View).

Definition recursion_error : pyexc := RuntimeError "Recursion limit reached without hitting a stop condition.".

(** [app.stream(state, stream_mode="updates")] from node [n], with [out.update] of every
    update (the order of the keys of [out] is not read); [limit] is LangGraph's recursion
    limit.  The nodes that were executed come along. *)
Fixpoint stream (limit : nat) (n : Node) (state out : dict) : list Node * res dict :=
  if bool_decide (n = n_END) then ([], Ok out)
  else
    match limit with
    | O => ([], Err recursion_error)
    | S limit' =>
        match node adapter w n state with
        | Err e => ([n], Err e)
        | Ok u =>
            match show view n (declared u) with
            | Err e => ([n], Err e)
            | Ok _ =>
                let state := merge_update state u in
                let '(visited, r) := stream limit' (successor n state) state (merge_update out u) in
                (n :: visited, r)
            end
        end
    end.
End Stream.

(** ** [write_run_trace] *)

(** [x if isinstance(x, dict) else {}] of a key. *)
Definition sub_dict (s : dict) (k : string) : pyval := PDict (dict_or_empty (dget s k (PDict []))).

(** [list(state.get(k, []) or [])]. *)
Definition listed (s : dict) (k : string) : res pyval :=
  let! l := py_iter (py_or (dget s k (PList [])) (PList [])) in Ok (PList l).

(** A text that is not blank, stripped. *)
Definition correlated (s : dict) (k key : string) : dict :=
  match dget s k PNone with
  | PStr v => if String.eqb (strip v) "" then [] else [(key, PStr (strip v))]
  | _ => []
  end.

Definition correlation (s : dict) : dict :=
  let context := dict_or_empty (dget s "_remote_api_context" (PDict [])) in
  (correlated s "_request_id" "request_id" ++ correlated context "auth_subject" "auth_subject"
   ++ correlated context "client_ip" "client_ip")%list.

Definition trace_run_id (uuid : string) (s : dict) : string := py_str (py_or (dget s "_run_id" PNone) (PStr uuid)).

Definition trace_payload (run_id : string) (s : dict) : res dict :=
  let! events := listed s "_trace_events" in
  let! tool_results := listed s "tool_results" in
  let! loop_summaries := listed s "loop_summaries" in
  let! snapshots := listed s "snapshots" in
  let! provenance := listed s "provenance" in
  let! telemetry := py_dict (py_or (dget s "telemetry" (PDict [])) (PDict [])) in
  Ok [("run_id", PStr run_id); ("request", dget s "request" PNone); ("intent", dget s "intent" PNone);
      ("route", dget s "route" PNone); ("final", dget s "final" PNone); ("events", events);
      ("tool_results", tool_results); ("verification", sub_dict s "verification");
      ("recovery_packet", match dget s "recovery_packet" (PDict []) with PDict d => PDict d | _ => PNone end);
      ("approval", sub_dict s "_approval_context"); ("loop_summaries", loop_summaries);
      ("checkpoint", sub_dict s "_checkpoint"); ("snapshots", snapshots); ("undo", sub_dict s "undo");
      ("correlation", PDict (correlation s)); ("telemetry", PDict telemetry); ("provenance", provenance)].

(** ** After the stream *)

(** [_checkpoint] with the ids of the run. *)
Definition checkpoint_meta (env : RunEnv) (run_id : string) (run_config : option dict) (out : dict) : res dict :=
  match run_config with
  | None => Ok out
  | Some c =>
      let! latest := r_latest env true c in
      let meta := dict_or_empty (dget out "_checkpoint" (PDict [])) in
      let meta := dset "thread_id" (PStr (py_str (dget c "thread_id" PNone))) meta in
      let meta := dset "checkpoint_ns" (PStr (py_str (dget c "checkpoint_ns" PNone))) meta in
      let meta := dset "latest_checkpoint_id" (PStr (checkpoint_id_of latest)) meta in
      let meta := dset "run_id" (PStr run_id) meta in
      Ok (dset "_checkpoint" (PDict meta) out)
  end.

(** The dashboard, and the lists the last log line counts. *)
Definition show_final (env : RunEnv) (args : Args) (out : dict) : res unit :=
  let! _ :=
    match a_view args with
    | console =>
        let! events := py_iter (dget out "_trace_events" (PList [])) in
        let! results := py_iter (dget out "tool_results" (PList [])) in
        r_render env [("request", PStr (a_request args)); ("intent", dget out "intent" PNone); ("events", PList events);
                      ("tool_results", PList results); ("final", dget out "final" (PStr ""))]
    | classic => Ok tt
    end in
  let! _ := py_iter (dget out "tool_results" (PList [])) in Ok tt.

Definition run_status (out : dict) : res string :=
  let! failure := get (py_or (dget out "recovery_packet" PNone) (PDict [])) "failure_class" PNone in
  Ok (if negb (dhas "final" out) || truthy failure then "failed" else "succeeded").

(** The row of the run. *)
Definition store_record (env : RunEnv) (path status : string) (out : dict) : dict :=
  let context := dict_or_empty (dget out "_remote_api_context" (PDict [])) in
  let shown k dflt := PStr (py_str (dget out k (PStr dflt))) in
  [("run_id", shown "_run_id" ""); ("request", shown "request" ""); ("status", PStr status);
   ("created_at", PStr (r_now env)); ("started_at", PStr (r_now env)); ("finished_at", PStr (r_now env));
   ("exit_code", PInt (if String.eqb status "succeeded" then 0 else 1));
   ("trace_out_dir", shown "_trace_out_dir" "artifacts/runs"); ("trace_path", PStr path);
   ("request_id", shown "_request_id" ""); ("auth_subject", PStr (py_str (dget context "auth_subject" (PStr ""))));
   ("client_ip", PStr (py_str (dget context "client_ip" (PStr "")))); ("final", shown "final" "")].

(** What the process leaves behind: the trace file and the rows of its store. *)
Record Left := { l_trace : option (string * dict); l_store : option Database }.

(** The run's store has no namespace. *)
Definition store_run (env : RunEnv) (path : string) (out : dict) : res (option Database) :=
  let store_path := dget out "_run_store_path" PNone in
  if truthy store_path then
    let! db := r_store env store_path in
    let! status := run_status out in
    let '(db, stored) := RunStore.upsert "" (store_record env path status out) db in
    let! _ := stored in
    let facts := list_or_empty (dget out "facts" (PList [])) in
    match facts with
    | [] => Ok (Some db)
    | _ =>
        let '(db, stored) := RunStore.upsert_recovery_facts "" (py_str (dget out "_run_id" (PStr ""))) (r_facts_now env) facts db in
        let! _ := stored in Ok (Some db)
    end
  else Ok None.

Definition trace_dir (env : RunEnv) (out : dict) : string :=
  r_resolve env (py_str (dget out "_trace_out_dir" (PStr "artifacts/runs"))).

Definition write_run_trace (env : RunEnv) (out : dict) : res (string * dict) :=
  let id := trace_run_id (r_uuid env) out in
  let dir := trace_dir env out in
  let! _ := r_mkdir env dir in
  let! payload := trace_payload id out in
  let path := dir ++ "/run-" ++ id ++ ".json" in
  let! _ := r_write env path payload in
  Ok (path, payload).

(** The trace and the row, when traces are enabled; an [OSError] ends in a warning. *)
Definition leave (env : RunEnv) (out : dict) : res Left :=
  if truthy (dget out "_trace_enabled" (PBool false)) then
    match write_run_trace env out with
    | Err (OSError _) => Ok {| l_trace := None; l_store := None |}
    | Err e => Err e
    | Ok t =>
        match store_run env (fst t) out with
        | Err (OSError _) => Ok {| l_trace := Some t; l_store := None |}
        | Err e => Err e
        | Ok db => Ok {| l_trace := Some t; l_store := db |}
        end
    end
  else Ok {| l_trace := None; l_store := None |}.

(** ** [run_command] *)

(** How the command ended: its exit status with what it left and the state it ended in,
    or the exception that left it; with the nodes that were executed. *)
Record Finished := { f_code : Z; f_out : dict; f_left : Left }.

Definition nothing_left : Left := {| l_trace := None; l_store := None |}.

Definition finish_run (env : RunEnv) (args : Args) (run_id : string) (run_config : option dict) (out : dict) : res Finished :=
  let! out := checkpoint_meta env run_id run_config out in
  let! _ := show_final env args out in
  let! l := leave env out in
  Ok {| f_code := 0; f_out := out; f_left := l |}.

(** The state the graph is started with, and the configuration of the stream. *)
Definition prepare (env : RunEnv) (args : Args) (cfg : AppConfig) (run_id : string) : res (dict * option dict) :=
  let! approvals := resume_approvals env in
  let! context := approval_context env in
  let! checkpoint := checkpoint_of env args (checkpoint cfg) in
  Ok (initial_state env args cfg run_id (fst checkpoint) approvals context, snd checkpoint).

(** The channels before the entry node: the input over what the checkpoint holds. *)
Definition entry_state (env : RunEnv) (run_config : option dict) (state : dict) : dict :=
  merge_update (match run_config with Some c => r_values env c | None => [] end) state.

Definition run_command `{NonNegIntAdapter} (w : World) (limit : nat) (env : RunEnv) (args : Args) (cfg : AppConfig)
    : list Node * res Finished :=
  let provided := _validated_run_id (a_run_id args) in
  match provided, given (a_run_id args) "" with
  | None, String _ _ => ([], Ok {| f_code := 2; f_out := []; f_left := nothing_left |})
  | _, _ =>
      let run_id := default (r_uuid env) provided in
      match prepare env args cfg run_id with
      | Err e => ([], Err e)
      | Ok (state, run_config) =>
          let '(visited, r) := stream w (a_view args) limit n_ingest (entry_state env run_config state) state in
          (visited, let! out := r in finish_run env args run_id run_config out)
      end
  end.
