(* ===== verification/RunProps.v ===== *)
(** * The run of the command: [RunCommand] over the graph, the configuration and the service *)
From Stdlib Require Import ZArith Lia String Ascii List Bool.
From stdpp Require Import base tactics list strings option.
From S2P Require Import Prelude PyStr StrFacts PyFloat PyVal Json JsonProps State Policy Memory MemoryProps RunnerClient Executor Verifier Router Mcp NodeLlm ContextBuilder ContextProps Planner PlannerProps Graph NodeFrames GraphProps Lula.
From S2P Require Import RunRecord Service Configuration ConfigProps Sqlite RunStore RunCommand.
Local Open Scope string_scope.
Local Open Scope Z_scope.

(** ** Channels no node writes *)

Definition gate_keys : list string := ["budgets"; "guards"; "halt_reason"; "verification"; "_trace_events"].

Lemma gate_frame `{adapter : NonNegIntAdapter} t0 t1 s u : policy_gate t0 t1 s = Ok u -> same_but gate_keys s u.
Proof.
  unfold policy_gate. intros H. destruct (append_event t0 s _ _) as [s0|] eqn:E0; simpl in H; [|done].
  inv_bind H. eapply same_but_trans; [eapply same_but_event; [exact E0|in_keys]|].
  eapply same_but_trans; [|eapply same_but_event; [exact H|in_keys]].
  destruct (allow _); repeat (eapply same_but_trans; [|apply same_but_dset; in_keys]); apply same_but_refl.
Qed.

(** The internal channels the command fills and every node leaves alone. *)
Definition command_keys : list string :=
  ["_repo_root"; "_runner_base_url"; "_runner_api_key"; "_mcp_enabled"; "_mcp_servers"; "_models"; "_model_routing_policy";
   "_model_provider_runtime"; "_budget_max_loops"; "_budget_max_tool_calls_per_loop"; "_budget_max_patch_bytes";
   "_budget_context"; "_config_policy"; "_trace_enabled"; "_trace_out_dir"; "_trace_capture_model_metadata";
   "_run_store_path"; "_procedure_cache_path"; "_vericoding_enabled"; "_vericoding_extensions"; "_request_id";
   "_remote_api_context"; "_resume_approvals"; "_approval_context"].

Section World.
Context `{adapter : NonNegIntAdapter} (w : World).

(** [model_dump] spells its fields by their names, none of which is an alias. *)
Definition dumps_no_alias : Prop :=
  forall s req d k, i_validate (w_ingest w s) req = Ok d -> startswith k "_" = true -> dlookup k d = None.

Lemma no_alias_names : dumps_no_alias -> dumps_names w.
Proof. intros H s req d Hd. by apply (H s req d "_budget_max_loops" Hd). Qed.

Lemma node_keeps n s u k :
  n <> n_ingest -> node adapter w n s = Ok u -> In k command_keys -> dlookup k u = dlookup k s.
Proof.
  intros Hn H Hk.
  assert (F : forall ks, same_but ks s u -> forallb (fun k => negb (str_in k ks)) command_keys = true -> dlookup k u = dlookup k s).
  { intros ks Hf Ha. apply Hf. rewrite forallb_forall in Ha. specialize (Ha _ Hk). by destruct (str_in k ks). }
  destruct n; cbn [node] in H; [by destruct Hn| | | | | | | | |].
  - eapply F; [eapply gate_frame; exact H|done].
  - eapply F; [eapply context_frame; exact H|done].
  - eapply F; [eapply router_frame; exact H|done].
  - eapply F; [eapply planner_frame; exact H|done].
  - eapply F; [eapply coder_frame; exact H|done].
  - destruct (executor_frame _ _ _ H) as [Hf _].
    eapply F; [exact Hf|done].
  - destruct (verifier_frame _ _ _ H) as [Hf _]. eapply F; [exact Hf|done].
  - eapply F; [eapply reporter_frame; exact H|done].
  - by injection H as <-.
Qed.

Lemma command_key k : In k command_keys ->
  startswith k "_" = true /\ str_in k ["_run_id"; "_trace_events"] = false /\ str_in k channels = true.
Proof. intros H. repeat (destruct H as [<-|H]; [by vm_compute|]). destruct H. Qed.

Lemma ingest_keeps s u k :
  dumps_no_alias -> wf_keys s -> node adapter w n_ingest s = Ok u -> In k command_keys -> dlookup k u = dlookup k s.
Proof.
  intros Hd Hwf H Hk. destruct (command_key k Hk) as (H1 & H2 & _). cbn [node] in H.
  destruct (dlookup k s) as [v|] eqn:E; [by eapply ingest_internal|].
  assert (Hne : k <> "_run_id" /\ k <> "_trace_events") by (split; intros ->; discriminate H2). destruct Hne as [Hr He].
  unfold ingest in H. cbv zeta in H. rewrite (append_event_frame _ _ _ _ _ k H) by (by apply String.eqb_neq).
  rewrite dupdate_lookup by (apply dset_NoDup, filter_wf, Hwf).
  unfold internal_keys. rewrite dlookup_dset_ne by done. rewrite lookup_filter by (intros; exact H1). rewrite E.
  destruct (i_validate _ _) as [d|e] eqn:Ev; [by eapply Hd|].
  repeat (destruct Hk as [<-|Hk]; [reflexivity|]). destruct Hk.
Qed.

Lemma step_keeps n s u k :
  dumps_no_alias -> (n = n_ingest -> wf_keys s) -> node adapter w n s = Ok u -> In k command_keys ->
  dlookup k (merge_update s u) = dlookup k s.
Proof.
  intros Hd Hwf H Hk. destruct (command_key k Hk) as (_ & _ & Hc). rewrite merge_update_channel by done.
  assert (E : dlookup k u = dlookup k s).
  { destruct (decide (n = n_ingest)) as [->|Hn]; [by eapply ingest_keeps; [| |exact H|]; auto|by eapply node_keeps]. }
  rewrite E. by destruct (dlookup k s).
Qed.

(** ** The stream and the run of the graph *)

Lemma successor_not_ingest n s : successor n s <> n_ingest.
Proof.
  destruct n; cbn [successor]; try done.
  - unfold route_after_policy_gate. cbv zeta. repeat case_match; done.
  - unfold route_after_verifier. repeat case_match; done.
Qed.

(** The channels the command fills end as they began. *)
Lemma run_keeps fuel n s visited out k :
  dumps_no_alias -> (n = n_ingest -> wf_keys s) -> @run_graph (lula adapter w) fuel n s = (visited, Some (Ok out)) ->
  In k command_keys -> dlookup k out = dlookup k s.
Proof.
  intros Hd. revert n s visited. induction fuel as [|fuel IH]; intros n s visited Hwf; cbn [run_graph];
    destruct (bool_decide_reflect (n = n_END)) as [->|Hn].
  1, 3: by intros [= _ <-].
  - done.
  - unfold graph_step. cbn [run_node merge lula]. destruct (node adapter w n s) as [u|e] eqn:Eu; [|done]. cbn [bind_res].
    destruct (run_graph fuel _ _) as [v o] eqn:Er. intros [= _ ->] Hk.
    rewrite (IH _ _ _ (fun E => False_rect _ (successor_not_ingest _ _ E)) Er Hk). by eapply step_keeps.
Qed.

(** Why a stream that does not complete stops. *)
Definition stopped (view : View) (o : option (res dict)) (e : pyexc) : Prop :=
  o = Some (Err e) \/ (o = None /\ e = recursion_error) \/ exists n u, show view n u = Err e.

(** The stream is the run of the graph, as far as its updates can be shown; what it
    collects agrees with the state on the channels it agreed on. *)
Lemma stream_run view fuel n s out visited r :
  stream w view fuel n s out = (visited, r) ->
  exists more o, @run_graph (lula adapter w) fuel n s = ((visited ++ more)%list, o) /\
    match r with
    | Ok out' => more = [] /\ exists s', o = Some (Ok s') /\
        forall k, str_in k channels = true -> dlookup k out = dlookup k s -> dlookup k out' = dlookup k s'
    | Err e => stopped view o e
    end.
Proof.
  revert n s out visited r. induction fuel as [|fuel IH]; intros n s out visited r; cbn [stream run_graph];
    destruct (bool_decide_reflect (n = n_END)) as [->|Hn].
  1, 3: intros [= <- <-]; exists [], (Some (Ok s)); repeat split; by exists s.
  - intros [= <- <-]. exists [], None. split; [done|]. right; left. done.
  - unfold graph_step. cbn [run_node merge lula]. destruct (node adapter w n s) as [u|e] eqn:Eu; cbn [bind_res].
    2: { intros [= <- <-]. exists [], (Some (Err e)). split; [done|]. by left. }
    destruct (run_graph fuel (successor n (merge_update s u)) (merge_update s u)) as [v o] eqn:Er.
    destruct (show view n (declared u)) as [[]|e] eqn:Es.
    2: { intros [= <- <-]. exists v, o. split; [done|]. right; right. by exists n, (declared u). }
    destruct (stream w view fuel _ _ _) as [v' r'] eqn:Et. intros [= <- <-].
    destruct (IH _ _ _ _ _ Et) as (more & o' & Hr & H). rewrite Er in Hr. injection Hr as -> ->.
    exists more, o'. split; [done|]. destruct r' as [out'|e']; [|exact H].
    destruct H as (-> & s' & -> & Ha). split; [done|]. exists s'. split; [done|].
    intros k Hk E. apply Ha; [done|]. rewrite !merge_update_channel by done. by rewrite E.
Qed.

Lemma executions_app a b : executions (a ++ b)%list = executions a + executions b.
Proof. induction a as [|n a IH]; cbn [executions fold_right app]; [done|]. fold (executions (a ++ b)%list) (executions a). lia. Qed.

Lemma executions_nonneg a : 0 <= executions a.
Proof. induction a as [|n a IH]; cbn [executions fold_right]; [done|]. fold (executions a). destruct n; cbn; lia. Qed.

(** What a stream that completes has collected ends with the reporter's text. *)
Lemma stream_final view fuel n s out visited out' :
  n <> n_END -> stream w view fuel n s out = (visited, Ok out') -> exists text, dget out' "final" PNone = PStr text.
Proof.
  revert n s out visited. induction fuel as [|fuel IH]; intros n s out visited Hn; cbn [stream];
    destruct (bool_decide_reflect (n = n_END)) as [E|_]; try done.
  destruct (node adapter w n s) as [u|e] eqn:Eu; [|done]. destruct (show _ _ _) as [[]|e]; [|done].
  destruct (stream w view fuel _ _ _) as [v r] eqn:Et. intros [= _ ->].
  destruct (decide (successor n (merge_update s u) = n_END)) as [E|E]; [|exact (IH _ _ _ _ E Et)].
  pose proof (to_END _ _ Hn E) as ->. rewrite E in Et. destruct fuel; cbn in Et; injection Et as _ <-.
  all: cbn [node] in Eu; apply reporter_final in Eu as [text Eu]; exists text; unfold dget;
    rewrite merge_update_channel by reflexivity; by rewrite Eu.
Qed.
End World.

(** ** The first state *)

Lemma merge_update_wf s u : wf_keys s -> wf_keys u -> wf_keys (merge_update s u).
Proof.
  intros Hs Hu. unfold merge_update, wf_keys. rewrite List.map_app. apply List.NoDup_app; [by apply filter_wf|by apply filter_wf|].
  intros k H1 H2. apply in_map_iff in H1 as ([k1 v1] & <- & H1), H2 as ([k2 v2] & E & H2). cbn in E. subst k2.
  apply filter_In in H2 as [_ H2]. cbn in H2. unfold dhas in H2.
  rewrite (In_dlookup_nodup _ v1) in H2; [done|by apply filter_wf|exact H1].
Qed.

Section First.
Context (env : RunEnv) (args : Args) (cfg : AppConfig).

Lemma initial_keys id c approvals context :
  exists keys, List.map fst (initial_state env args cfg id c approvals context) = keys /\ bool_decide (NoDup keys) = true.
Proof.
  eexists. split; [reflexivity|]. unfold initial_state, optional_keys. rewrite List.map_app. cbn [List.map fst].
  repeat case_match; vm_compute; reflexivity.
Qed.

Lemma initial_wf id c approvals context : wf_keys (initial_state env args cfg id c approvals context).
Proof.
  destruct (initial_keys id c approvals context) as (keys & E & H). unfold wf_keys. rewrite E.
  apply NoDup_ListNoDup. by apply bool_decide_eq_true in H.
Qed.

Lemma entry_channel c s k v : str_in k channels = true -> dlookup k s = Some v -> dlookup k (entry_state env c s) = Some v.
Proof. intros Hk E. unfold entry_state. rewrite merge_update_channel by done. by rewrite E. Qed.

(** What the command prepares. *)
Lemma prepare_inv id s c :
  prepare env args cfg id = Ok (s, c) ->
  exists approvals context meta, resume_approvals env = Ok approvals /\ approval_context env = Ok context /\
    checkpoint_of env args (checkpoint cfg) = Ok (meta, c) /\ s = initial_state env args cfg id meta approvals context.
Proof.
  unfold prepare. intros H. inv_bind H. injection H as <- <-. eexists _, _, _. split_and!; try done. by destruct a1.
Qed.

Lemma initial_limit id c approvals context rc :
  1 <= max_loops (budgets cfg) ->
  loop_limit (entry_state env rc (initial_state env args cfg id c approvals context)) = max_loops (budgets cfg).
Proof.
  intros Hb. unfold loop_limit.
  assert (E : dget (entry_state env rc (initial_state env args cfg id c approvals context)) "_budget_max_loops" (PInt 3)
              = PInt (max_loops (budgets cfg))) by (unfold dget; by erewrite entry_channel).
  rewrite E. cbn. lia.
Qed.

Lemma initial_context id c approvals context :
  dlookup "_approval_context" (initial_state env args cfg id c approvals context) = option_map PDict context.
Proof. unfold initial_state, optional_keys. rewrite dlookup_app. cbn. repeat case_match; reflexivity. Qed.
End First.

(** ** How the command ends *)

Section Command.
Context `{adapter : NonNegIntAdapter} (w : World) (limit : nat) (env : RunEnv) (args : Args) (cfg : AppConfig).

Lemma run_command_inv visited r :
  run_command w limit env args cfg = (visited, r) ->
  (visited = [] /\ r = Ok {| f_code := 2; f_out := []; f_left := nothing_left |}) \/
  (exists id e, visited = [] /\ prepare env args cfg id = Err e /\ r = Err e) \/
  exists id s c r', prepare env args cfg id = Ok (s, c) /\
    stream w (a_view args) limit n_ingest (entry_state env c s) s = (visited, r') /\
    r = let! out := r' in finish_run env args id c out.
Proof.
  unfold run_command. cbv zeta.
  assert (G : forall id, (match prepare env args cfg id with
    | Err e => ([], Err e)
    | Ok (state, run_config) =>
        let '(visited, r) := stream w (a_view args) limit n_ingest (entry_state env run_config state) state in
        (visited, let! out := r in finish_run env args id run_config out)
    end = (visited, r)) -> (exists id e, visited = [] /\ prepare env args cfg id = Err e /\ r = Err e) \/
      exists id s c r', prepare env args cfg id = Ok (s, c) /\
        stream w (a_view args) limit n_ingest (entry_state env c s) s = (visited, r') /\
        r = let! out := r' in finish_run env args id c out).
  { intros id H. destruct (prepare env args cfg id) as [[s c]|e] eqn:Ep; [right|left; injection H as <- <-; by exists id, e].
    destruct (stream w _ _ _ _ _) as [v r'] eqn:Es. injection H as <- <-. by exists id, s, c, r'. }
  destruct (_validated_run_id _) as [id|]; [intros H; right; exact (G _ H)|].
  destruct (given _ _); [intros H; right; exact (G _ H)|]. intros [= <- <-]. by left.
Qed.

Lemma checkpoint_meta_frame id c out out' : checkpoint_meta env id c out = Ok out' -> same_but ["_checkpoint"] out out'.
Proof.
  unfold checkpoint_meta. destruct c as [c|]; [|intros [= <-]; apply same_but_refl]. intros H. inv_bind H.
  injection H as <-. apply same_but_dset. by left.
Qed.

Lemma finish_inv id c out f :
  finish_run env args id c out = Ok f ->
  f_code f = 0 /\ checkpoint_meta env id c out = Ok (f_out f) /\ leave env (f_out f) = Ok (f_left f).
Proof. unfold finish_run. intros H. inv_bind H. by injection H as <-. Qed.

(** A trace file is written from the state the run ended in. *)
Lemma leave_trace out l path payload :
  leave env out = Ok l -> l_trace l = Some (path, payload) -> trace_payload (trace_run_id (r_uuid env) out) out = Ok payload.
Proof.
  unfold leave. destruct (truthy _); [|by intros [= <-]].
  destruct (write_run_trace env out) as [[p d]|e] eqn:Et; [|destruct e; try done; by intros [= <-]].
  intros H Hl. assert (l_trace l = Some (p, d)) by (destruct (store_run _ _ _) as [db|[]]; try done; by injection H as <-).
  unfold write_run_trace in Et. cbv zeta in Et. inv_bind Et. congruence.
Qed.

Lemma payload_fields id out payload :
  trace_payload id out = Ok payload ->
  exists results, py_iter (py_or (dget out "tool_results" (PList [])) (PList [])) = Ok results /\
    dget payload "tool_results" (PList []) = PList results /\
    dsub payload "approval" = dsub out "_approval_context" /\ dsub payload "checkpoint" = dsub out "_checkpoint".
Proof.
  unfold trace_payload. intros H. inv_bind H. injection H as <-. unfold listed in Hb0. inv_bind Hb0. injection Hb0 as <-.
  by exists a5.
Qed.
End Command.

(** ** The approval context a resumption passes on *)

Lemma strip_braces s : strip ("{" ++ s ++ "}") = "{" ++ s ++ "}".
Proof.
  unfold strip, rstrip. change ("{" ++ s ++ "}") with (String "{" s ++ "}"). by rewrite rstrip_by_app by done.
Qed.

(** The service's text is read back as an object that says nothing is pending. *)
Lemma context_read env history entry :
  List.Forall (fun d => jsonable (PDict d)) (entry :: history) ->
  r_getenv env "LG_APPROVAL_CONTEXT_JSON" = Some (Service.approval_context history entry) ->
  exists d, approval_context env = Ok (Some d) /\ dlookup "pending" d = Some (PBool false).
Proof.
  intros HJ E. unfold approval_context, env_text. rewrite E. cbn [from_option id]. unfold Service.approval_context.
  set (v := PDict _). assert (Hv : jsonable v).
  { inversion HJ as [|? ? He Hh]; subst. constructor; [repeat constructor; cbn; intuition discriminate|].
    repeat (apply List.Forall_cons; cbn [snd]); [constructor|constructor; by apply List.Forall_map|exact He|constructor]. }
  assert (Hs : strip (json_dumps false v) = json_dumps false v) by apply strip_braces.
  unfold json_object. rewrite Hs, (dumps_loads _ _ Hv). replace (String.eqb (json_dumps false v) "") with false by done.
  eexists. split; [reflexivity|]. reflexivity.
Qed.

(** ** The theorems *)

(** Where an exception that leaves the command comes from. *)
Definition raised `{NonNegIntAdapter} (w : World) (env : RunEnv) (args : Args) (cfg : AppConfig) (e : pyexc) : Prop :=
  (exists id, prepare env args cfg id = Err e) \/ (exists n s, node _ w n s = Err e) \/
  (exists n u, show (a_view args) n u = Err e) \/
  exists id c out text, dget out "final" PNone = PStr text /\ finish_run env args id c out = Err e.

(** C7: a loaded configuration bounds the run it starts: with a recursion limit of
    [7 * max_loops + 3] supersteps the command executes no more nodes than that and no
    more than [max_loops] plans, whatever its arguments, its environment, the checkpoint
    it starts from and the world; it refuses the run id, or returns 0 with a final text,
    or is left by an exception of its preparation, of a node, of what is printed or of
    what follows the stream, never by the recursion limit. *)
Theorem configured_run_ends `{adapter : NonNegIntAdapter} w limit env args cfg cfgenv root toml rs auth cs visited r :
  load_config cfgenv root toml rs auth cs = Ok cfg -> dumps_names w -> (forall c, wf_keys (r_values env c)) ->
  7 * max_loops (budgets cfg) + 3 <= Z.of_nat limit ->
  run_command w limit env args cfg = (visited, r) ->
  Z.of_nat (length visited) <= 7 * max_loops (budgets cfg) + 3 /\ executions visited <= max_loops (budgets cfg) /\
  match r with
  | Ok f => f_code f = 2 /\ visited = [] \/ f_code f = 0 /\ exists text, dget (f_out f) "final" PNone = PStr text
  | Err e => raised w env args cfg e
  end.
Proof.
  intros Hl Hd Hv Hlim H. destruct (load_config_sound _ _ _ _ _ _ _ Hl) as (? & ? & _ & _ & V).
  assert (Hb : 1 <= max_loops (budgets cfg)) by apply (v_budgets _ _ _ V).
  apply run_command_inv in H as [[-> ->]|[(id & e & -> & Hp & ->)|(id & s & c & r' & Hp & Hs & ->)]].
  { cbn. split; [lia|split; [lia|]]. by left. }
  { cbn. split; [lia|split; [lia|]]. left. by exists id. }
  destruct (prepare_inv _ _ _ _ _ _ Hp) as (approvals & context & meta & _ & _ & _ & ->).
  set (s0 := initial_state _ _ _ _ _ _ _) in *.
  assert (Hlimit : loop_limit (entry_state env c s0) = max_loops (budgets cfg)) by (by apply initial_limit).
  assert (Hwf : wf_keys (entry_state env c s0)).
  { apply merge_update_wf; [destruct c; [apply Hv|constructor]|apply initial_wf]. }
  destruct (stream_run _ _ _ _ _ _ _ _ Hs) as (more & o & Hr & Ho).
  destruct (@run_terminates adapter (lula adapter w) (lula_contract adapter w Hd) limit (max_loops (budgets cfg)) n_ingest
              (entry_state env c s0) 0) as (v & o' & Hr' & Hlen & Hex); [by split; [|split; [lia|split]]|done|cbn; lia|].
  rewrite Hr in Hr'. injection Hr' as <- ->. cbn [steps_left executions_left] in Hlen, Hex.
  rewrite length_app in Hlen. rewrite executions_app in Hex. pose proof (executions_nonneg more).
  split; [lia|]. split; [lia|]. destruct r' as [out|e]; cbn [bind_res].
  - destruct (stream_final w (a_view args) limit n_ingest _ _ _ _ (ltac:(discriminate) : n_ingest <> n_END) Hs) as [text Hf].
    destruct (finish_run env args id c out) as [f|e] eqn:Ef; [right|do 3 right; by exists id, c, out, text].
    apply finish_inv in Ef as (E0 & Em & _). split; [exact E0|]. exists text. rewrite <- Hf.
    apply dlookup_dget. by apply (checkpoint_meta_frame _ _ _ _ _ Em).
  - destruct Ho as [[= ->]|[[? _]|Hshow]]; [|done|by right; right; left].
    right; left. destruct (@run_raised (lula adapter w) _ _ _ _ _ Hr) as (_ & n & s' & _ & Hn). by exists n, s'.
Qed.

(** What the trace of a run holds: the approval context the run was given, the results of
    the state it ended in. *)
Lemma traced_run `{adapter : NonNegIntAdapter} w limit env args cfg visited f path payload :
  dumps_no_alias w -> (forall c, wf_keys (r_values env c)) -> 
  (approval_context env = Ok None -> forall c, dlookup "_approval_context" (r_values env c) = None) ->
  run_command w limit env args cfg = (visited, Ok f) -> l_trace (f_left f) = Some (path, payload) ->
  f_code f = 0 /\ exists context results, approval_context env = Ok context /\
    dsub payload "approval" = default [] context /\
    py_iter (py_or (dget (f_out f) "tool_results" (PList [])) (PList [])) = Ok results /\
    dget payload "tool_results" (PList []) = PList results /\ dsub payload "checkpoint" = dsub (f_out f) "_checkpoint" /\
    exists id c out, checkpoint_of env args (checkpoint cfg) = Ok c /\ checkpoint_meta env id (snd c) out = Ok (f_out f).
Proof.
  intros Hd Hv Hc H Ht. apply run_command_inv in H as [[_ [= ->]]|[(? & ? & _ & _ & [=])|(id & s & c & r' & Hp & Hs & E)]]; [done|].
  destruct r' as [out|e]; [|done]. symmetry in E. apply finish_inv in E as (E0 & Em & El).
  destruct (prepare_inv _ _ _ _ _ _ Hp) as (approvals & context & meta & _ & Ec & Ek & ->).
  destruct (payload_fields _ _ _ (leave_trace _ _ _ _ _ El Ht)) as (results & Hr1 & Hr2 & Ha & Hm).
  split; [exact E0|]. exists context, results. split; [exact Ec|]. split; [|repeat split; try done; by exists id, (meta, c), out].
  rewrite Ha. destruct (stream_run _ _ _ _ _ _ _ _ Hs) as (more & o & Hr & -> & s' & -> & Hk).
  set (s0 := initial_state _ _ _ _ _ _ _) in *.
  assert (E1 : dlookup "_approval_context" (entry_state env c s0) = option_map PDict context).
  { unfold entry_state. rewrite merge_update_channel by reflexivity. unfold s0. rewrite initial_context.
    destruct context; [done|]. destruct c; [by apply Hc|done]. }
  assert (Hwf : wf_keys (entry_state env c s0)) by (apply merge_update_wf; [destruct c; [apply Hv|constructor]|apply initial_wf]).
  assert (E2 : dlookup "_approval_context" (f_out f) = option_map PDict context).
  { rewrite (checkpoint_meta_frame _ _ _ _ _ Em) by reflexivity. rewrite (Hk "_approval_context" eq_refl); [|by rewrite E1; apply initial_context].
    rewrite (run_keeps w limit n_ingest _ _ _ "_approval_context" Hd (fun _ => Hwf) Hr) by (cbn; tauto). exact E1. }
  unfold dsub, dget. rewrite E2. by destruct context.
Qed.

(** The status the service gives a run whose process ended with [code] and left a trace. *)
Definition status_after (record : RunRecord) (code : Z) (now : string) (payload : dict) : RunStatus :=
  status (_apply_approval_state_to_record (finish code now record) (_approval_state_from_trace (Some payload))).

Lemma status_after_0 record now payload :
  status_after record 0 now payload =
    if cancel_requested record then cancelled
    else if as_pending (_approval_state_from_trace (Some payload)) then suspended else succeeded.
Proof.
  unfold status_after. generalize (_approval_state_from_trace (Some payload)). intros a.
  unfold _apply_approval_state_to_record, finish, end_status. cbn. by destruct (cancel_requested record), (as_pending a).
Qed.

Lemma configured_thread env args c meta conf :
  checkpoint_of env args c = Ok (meta, Some conf) ->
  dget conf "thread_id" PNone = PStr (stable_checkpoint_thread_id (a_request args) (thread_prefix c) (a_thread_id args)).
Proof.
  unfold checkpoint_of. destruct (cp_enabled c); [|done]. intros H. inv_bind H. by injection H as _ <-.
Qed.

(** The checkpoint a resumption of the run will name. *)
Definition resumption_named (env : RunEnv) (args : Args) (c : Checkpoint) (a : ApprovalState) : Prop :=
  exists meta conf, checkpoint_of env args c = Ok (meta, conf) /\
    forall configurable latest, conf = Some configurable -> r_latest env true configurable = Ok latest ->
      checkpoint_id_of latest <> "" ->
      as_thread_id a = strip (stable_checkpoint_thread_id (a_request args) (thread_prefix c) (a_thread_id args)) /\
      as_checkpoint_id a = strip (checkpoint_id_of latest).

(** C8: a run that was not resumed (it is given no approval context, and no checkpoint of
    its thread holds one that an earlier, resumed run left: [stale_context_not_suspended]
    is a run with one) is suspended by the service exactly when a tool result of its final
    state asks for an approval and its cancellation was not asked for: for any
    configuration and arguments, and any world whose [model_dump] spells the internal
    fields by their names and not by their aliases, the trace it leaves gives the last
    challenge among its results, and names the thread and the latest checkpoint that a
    resumption needs. *)
Theorem first_run_suspends `{adapter : NonNegIntAdapter} w limit env args cfg visited f path payload record now :
  dumps_no_alias w -> (forall c, wf_keys (r_values env c)) -> (forall c, dlookup "_approval_context" (r_values env c) = None) ->
  r_getenv env "LG_APPROVAL_CONTEXT_JSON" = None ->
  run_command w limit env args cfg = (visited, Ok f) -> l_trace (f_left f) = Some (path, payload) ->
  let a := _approval_state_from_trace (Some payload) in
  exists results, py_iter (py_or (dget (f_out f) "tool_results" (PList [])) (PList [])) = Ok results /\
    match first_challenge (rev (dicts_of results)) with
    | Some challenge => as_details a = challenge /\
        status_after record (f_code f) now payload = if cancel_requested record then cancelled else suspended
    | None => status_after record (f_code f) now payload = if cancel_requested record then cancelled else succeeded
    end /\
    resumption_named env args (checkpoint cfg) a.
Proof.
  intros Hd Hv Hs He H Ht a. destruct (traced_run w limit env args cfg _ _ _ _ Hd Hv (fun _ => Hs) H Ht)
    as (E0 & context & results & Ec & Ha & Hr & Hp & Hm & id & [meta conf] & out & Ek & Em).
  assert (context = None) as -> by (unfold approval_context, env_text in Ec; rewrite He in Ec; by injection Ec as <-).
  exists results. split; [exact Hr|]. rewrite E0, status_after_0. cbn [default from_option] in Ha.
  split; [subst a; unfold _approval_state_from_trace; rewrite Ha, Hp; cbn; by destruct (first_challenge _), (cancel_requested record)|].
  exists meta, conf. split; [exact Ek|]. intros configurable latest -> El Hne.
  assert (Hi : as_thread_id a = PlannerMemory.text (dsub (f_out f) "_checkpoint") "thread_id" /\
               as_checkpoint_id a = str_strip (py_or (dget (dsub (f_out f) "_checkpoint") "latest_checkpoint_id" PNone)
                 (py_or (dget (dsub (f_out f) "_checkpoint") "resume_checkpoint_id" PNone) (PStr "")))).
  { subst a. unfold _approval_state_from_trace. rewrite Hm. by repeat case_match. }
  destruct Hi as [-> ->]. unfold checkpoint_meta in Em. cbn [snd] in Em. rewrite El in Em. cbn [bind_res] in Em.
  injection Em as <-. unfold dsub. rewrite dget_dset_eq. cbn [dict_or_empty]. unfold PlannerMemory.text. dict_simpl.
  rewrite (configured_thread _ _ _ _ _ Ek). split; [done|]. unfold py_or. cbn [truthy].
  by destruct (checkpoint_id_of latest).
Qed.

(** C9: a resumed run is never suspended again: when the process was started by the
    approval of a challenge, with the approval context the service passes, the trace it
    leaves asks for no approval whatever challenges its results hold, and the service
    records the run as cancelled when its cancellation was asked for and as succeeded
    otherwise; for any configuration and arguments and any world as in C8. *)
Theorem resumed_run_never_suspended `{adapter : NonNegIntAdapter} w limit env args cfg visited f path payload record now history entry :
  dumps_no_alias w -> (forall c, wf_keys (r_values env c)) ->
  List.Forall (fun d => jsonable (PDict d)) (entry :: history) ->
  r_getenv env "LG_APPROVAL_CONTEXT_JSON" = Some (Service.approval_context history entry) ->
  run_command w limit env args cfg = (visited, Ok f) -> l_trace (f_left f) = Some (path, payload) ->
  as_pending (_approval_state_from_trace (Some payload)) = false /\
  status_after record (f_code f) now payload = if cancel_requested record then cancelled else succeeded.
Proof.
  intros Hd Hv HJ He H Ht. destruct (context_read env history entry HJ He) as (d & Ec & Hp).
  destruct (traced_run w limit env args cfg _ _ _ _ Hd Hv (fun E => ltac:(congruence)) H Ht)
    as (E0 & context & results & Ec' & Ha & _).
  rewrite Ec in Ec'. injection Ec' as <-. cbn [default from_option] in Ha.
  assert (Hn : as_pending (_approval_state_from_trace (Some payload)) = false).
  { assert (E1 : dhas "pending" d = true) by (unfold dhas; by rewrite Hp).
    assert (E2 : dget d "pending" (PBool false) = PBool false) by (unfold dget; by rewrite Hp).
    unfold _approval_state_from_trace. rewrite Ha. cbn [id]. by rewrite E1, E2. }
  split; [exact Hn|]. by rewrite E0, status_after_0, Hn.
Qed.

(** No pin reaches a run: whatever hashes the configuration pins, no server of the state
    a run starts with has one, so every list of tools is taken over as it comes. *)
Theorem pins_not_forwarded env args cfg id s c rc name tools :
  prepare env args cfg id = Ok (s, c) ->
  let servers := dsub (entry_state env rc s) "_mcp_servers" in
  Mcp.pinned_hash servers name = "" /\
  Mcp.checked_tools servers name tools = List.map (Mcp.tagged name (Mcp._compute_tools_hash tools)) (dicts_of tools).
Proof.
  intros H servers. destruct (prepare_inv _ _ _ _ _ _ H) as (approvals & context & meta & _ & _ & _ & ->).
  set (l := List.map (fun ns => (fst ns, PDict (mcp_server (snd ns)))) (Configuration.servers (mcp cfg))).
  assert (E : servers = l).
  { subst servers. unfold dsub, dget. rewrite (entry_channel env rc _ "_mcp_servers" (PDict l)) by reflexivity. reflexivity. }
  assert (Hp : Mcp.pinned_hash servers name = "").
  { unfold Mcp.pinned_hash, dget at 1. rewrite E. subst l. clear E servers.
    induction (Configuration.servers (mcp cfg)) as [|[n srv] l IH]; cbn [List.map dlookup fst snd]; [done|].
    destruct (String.eqb name n); [|exact IH]. unfold mcp_server. by destruct (cwd srv). }
  split; [exact Hp|]. unfold Mcp.checked_tools. by rewrite Hp.
Qed.

(** The approvals a thread's checkpoint holds are those of every later run on the thread
    that is given none. *)
Lemma saved_approvals env args cfg id s c :
  prepare env args cfg id = Ok (s, Some c) -> resume_approvals env = Ok None ->
  dlookup "_resume_approvals" (entry_state env (Some c) s) = dlookup "_resume_approvals" (r_values env c).
Proof.
  intros H Ha. destruct (prepare_inv _ _ _ _ _ _ H) as (approvals & context & meta & Ha' & _ & _ & ->).
  rewrite Ha in Ha'. injection Ha' as <-. unfold entry_state. rewrite merge_update_channel by reflexivity.
  assert (E : dlookup "_resume_approvals" (initial_state env args cfg id meta None context) = None).
  { unfold initial_state, optional_keys. rewrite dlookup_app. cbn. by repeat (case_match; cbn). }
  by rewrite E.
Qed.

(** ** Concrete runs *)

(** The environment of a process started with the given variables. *)
Definition process_env (vars : list (string * string)) : RunEnv :=
  {| r_getenv k := dlookup k vars; r_read_text _ := Err (OSError "no such file"); r_uuid := "u1"; r_repo_root := "/repo";
     r_resolve p := "/repo/" ++ p; r_open _ := Ok tt; r_latest _ _ := Ok (Some (PDict [("checkpoint_id", PStr "c9")]));
     r_values _ := []; r_render _ := Ok tt; r_mkdir _ := Ok tt; r_write _ _ := Ok tt; r_store _ := Ok new_database;
     r_now := "2026-01-01T00:00:00Z"; r_facts_now := "2026-01-01T00:00:00Z" |}.

Definition run_args : Args :=
  {| a_request := "fix the build"; a_runner_base_url := None; a_trace := true; a_run_id := Some " r1 ";
     a_trace_out_dir := None; a_resume := false; a_thread_id := None; a_checkpoint_id := None; a_view := classic |}.

Abbreviation run_with w vars cfg := (run_command (H := int_adapter) w 24 (process_env vars) run_args cfg).

Lemma process_env_values vars c : wf_keys (r_values (process_env vars) c).
Proof. constructor. Qed.

(** The configuration of a minimal file, with a tool server. *)
Definition sample_config : AppConfig :=
  ltac:(let r := eval vm_compute in (load pinned_server "" "") in match r with Ok ?c => exact c end).

Example sample_loads : load pinned_server "" "" = Ok sample_config.
Proof. vm_compute. reflexivity. Qed.

Lemma offline_command : exists r, run_with offline [] sample_config = ((first_loop ++ [n_reporter])%list, r).
Proof.
  assert (E : fst (run_with offline [] sample_config) = (first_loop ++ [n_reporter])%list) by (vm_compute; reflexivity).
  revert E. generalize (run_with offline [] sample_config). intros [v r] E. exists r. cbn in E. by rewrite E.
Qed.

Lemma configured_run_ends_witness :
  exists r, run_with offline [] sample_config = ((first_loop ++ [n_reporter])%list, r) /\
    Z.of_nat (length (first_loop ++ [n_reporter])) <= 24 /\ executions (first_loop ++ [n_reporter]) <= 3.
Proof.
  destruct offline_command as [r E]. exists r. split; [exact E|].
  destruct (configured_run_ends offline 24 (process_env []) run_args sample_config _ _ _ _ _ _
              (first_loop ++ [n_reporter])%list r sample_loads) as (H1 & H2 & _);
    [..|exact E|].
  - by intros s req d Hd.
  - apply process_env_values.
  - done.
  - exact (conj H1 H2).
Defined.

(** A runner that asks for an approval instead of running the tests. *)
Definition challenge : dict := [("challenge_id", PStr "approval:apply_patch:1"); ("operation_class", PStr "apply_patch")].
Definition challenging : network := fun _ _ =>
  Success (Ok (PDict [("results", PList [PDict [("tool", PStr "run_tests"); ("ok", PBool false); ("exit_code", PInt 1);
    ("artifacts", PDict [("error", PStr "approval_required"); ("approval", PDict challenge)])]])])).
Definition challenged : World :=
  let w := world_with answering_planner in
  {| w_ingest := w_ingest w; w_gate := w_gate w; w_context_builder := w_context_builder w; w_router := w_router w;
     w_planner := w_planner w; w_coder := w_coder w;
     w_executor _ := {| env_runner_base_url := None; env_glean_enabled := "false"; env_approval_secret := "";
                        token_iat _ _ := 0; token_nonce _ _ := ""; client_init _ _ _ := true; net _ := challenging;
                        ts_start := 1; ts_step _ := 2; ts_glean := 3; ts_end := 4 |};
     w_verifier := w_verifier w; w_reporter := w_reporter w |}.

(** The challenge among the results of a run that left a trace. *)
Definition asked (o : list Node * res Finished) : option dict :=
  match snd o with
  | Ok f =>
      match l_trace (f_left f), py_iter (py_or (dget (f_out f) "tool_results" (PList [])) (PList [])) with
      | Some _, Ok results => first_challenge (rev (dicts_of results))
      | _, _ => None
      end
  | Err _ => None
  end.

Lemma asked_inv o d : asked o = Some d -> exists visited f path payload results,
  o = (visited, Ok f) /\ l_trace (f_left f) = Some (path, payload) /\
  py_iter (py_or (dget (f_out f) "tool_results" (PList [])) (PList [])) = Ok results /\
  first_challenge (rev (dicts_of results)) = Some d.
Proof.
  unfold asked. destruct o as [visited [f|e]]; [|done]. cbn [snd]. destruct (l_trace (f_left f)) as [[path payload]|] eqn:Et; [|done].
  destruct (py_iter _) as [results|e] eqn:Ei; [|done]. intros H. by exists visited, f, path, payload, results.
Qed.

Definition started : RunRecord :=
  {| spec := {| run_id := "r1"; request := "fix the build"; RunRecord.trace_out_dir := "artifacts/runs";
                trace_path := "/repo/artifacts/runs/run-r1.json"; created_at := "2026-01-01T00:00:00Z"; request_id := "";
                auth_subject := ""; client_ip := "" |};
     argv := []; process := Some 0%nat; started_at := "2026-01-01T00:00:00Z"; status := running; finished_at := None;
     exit_code := None; logs := []; cancel_requested := false; RunRecord.thread_id := ""; RunRecord.checkpoint_id := "";
     pending := no_approval; approval_history := []; final := "" |}.

Lemma first_asks : asked (run_with challenged [] sample_config) = Some challenge.
Proof. vm_compute. reflexivity. Qed.

Lemma first_run_suspends_witness :
  exists visited f path payload, run_with challenged [] sample_config = (visited, Ok f) /\
    l_trace (f_left f) = Some (path, payload) /\ status_after started (f_code f) "now" payload = suspended.
Proof.
  destruct (asked_inv _ _ first_asks) as (visited & f & path & payload & results & Er & Et & Hi & Hc).
  exists visited, f, path, payload. split; [exact Er|]. split; [exact Et|].
  destruct (first_run_suspends challenged 24 (process_env []) run_args sample_config visited f path payload started "now")
    as (results' & Hi' & Hs & _).
  - by intros s req d k Hd.
  - apply process_env_values.
  - done.
  - done.
  - exact Er.
  - exact Et.
  - rewrite Hi in Hi'. injection Hi' as <-. rewrite Hc in Hs. apply Hs.
Defined.

(** The variables of a process that the approval of a challenge started. *)
Definition approved_vars : list (string * string) :=
  [("LG_APPROVAL_CONTEXT_JSON", Service.approval_context [] [("decision", PStr "approved"); ("challenge_id", PStr "c1")])].

Lemma second_asks : asked (run_with challenged approved_vars sample_config) = Some challenge.
Proof. vm_compute. reflexivity. Qed.

Lemma resumed_run_never_suspended_witness :
  exists visited f path payload, run_with challenged approved_vars sample_config = (visited, Ok f) /\
    l_trace (f_left f) = Some (path, payload) /\ asked (visited, Ok f) = Some challenge /\
    status_after started (f_code f) "now" payload = succeeded.
Proof.
  destruct (asked_inv _ _ second_asks) as (visited & f & path & payload & results & Er & Et & Hi & Hc).
  exists visited, f, path, payload. split; [exact Er|]. split; [exact Et|].
  split; [rewrite <- Er; exact second_asks|].
  apply (resumed_run_never_suspended challenged 24 (process_env approved_vars) run_args sample_config visited f path payload
           started "now" [] [("decision", PStr "approved"); ("challenge_id", PStr "c1")]).
  - by intros s req d k Hd.
  - apply process_env_values.
  - repeat constructor; cbn; intuition discriminate.
  - done.
  - exact Er.
  - exact Et.
Defined.

(** A run of a request whose thread an earlier, resumed run used: the context that run was
    given is in the checkpoint, the new run's trace takes it for its own, and its challenge
    suspends nothing. *)
Definition used_thread : RunEnv :=
  let env := process_env [] in
  {| r_getenv := r_getenv env; r_read_text := r_read_text env; r_uuid := r_uuid env; r_repo_root := r_repo_root env;
     r_resolve := r_resolve env; r_open := r_open env; r_latest := r_latest env;
     r_values _ := [("_approval_context", PDict [("pending", PBool false)])];
     r_render := r_render env; r_mkdir := r_mkdir env; r_write := r_write env; r_store := r_store env;
     r_now := r_now env; r_facts_now := r_facts_now env |}.

Example stale_context_not_suspended :
  let o := run_command (H := int_adapter) challenged 24 used_thread run_args sample_config in
  asked o = Some challenge /\
  match snd o with
  | Ok f => option_map (fun t => status_after started (f_code f) "now" (snd t)) (l_trace (f_left f)) = Some succeeded
  | Err _ => False
  end.
Proof. vm_compute. split; reflexivity. Qed.

Lemma pins_not_forwarded_witness :
  exists s c, prepare (process_env []) run_args sample_config "r1" = Ok (s, c) /\
    Mcp.pinned_hash (dsub (entry_state (process_env []) c s) "_mcp_servers") "fs" = "" /\
    match servers (mcp sample_config) with (name, server) :: _ => name = "fs" /\ is_Some (schema_hash server) | [] => False end.
Proof.
  destruct (prepare (process_env []) run_args sample_config "r1") as [[s c]|e] eqn:E; [|vm_compute in E; discriminate E].
  exists s, c. split; [done|]. split; [exact (proj1 (pins_not_forwarded _ _ _ _ s c c "fs" [] E))|].
  split; [done|by eexists].
Defined.
