(* ===== verification/Counting.v ===== *)
(** * The counts behind [pass_at_k] of [eval/run.py] *)
From Stdlib Require Import ZArith.
Local Open Scope Z_scope.

(** [math.comb(n, k)] for natural numbers. *)
Fixpoint comb (n k : nat) : Z :=
  match n, k with
  | _, O => 1
  | O, S _ => 0
  | S n', S k' => comb n' k + comb n' k'
  end.

(** [math.comb(n - c, k)] and [math.comb(n, k)], the two counts that are divided. *)
Definition draw_counts (n c k : Z) : Z * Z := (comb (Z.to_nat (n - c)) (Z.to_nat k), comb (Z.to_nat n) (Z.to_nat k)).

Example ten_samples : draw_counts 10 3 2 = (21, 45).
Proof. reflexivity. Qed.
