(* ===== verification/Eval.v ===== *)
(** * The evaluation harness: [eval/run.py]

    Tasks are read from files, run through the graph, scored by fifteen checks and the
    task's golden assertions, and summed up.  The files are arguments; a run of a task is a
    run of [Lula]'s graph in the world of that run. *)
From Stdlib Require Import ZArith Lia String Ascii List Bool.
From stdpp Require Import base tactics list strings option.
From S2P Require Import Prelude PyStr StrFacts PyFloat PyVal Json Policy MemoryProps Graph NodeFrames Lula.
From S2P Require Import Counting.
From S2P Require RunCommand.
Local Open Scope string_scope.
Local Open Scope Z_scope.

(** ** pass@k *)

(** [math.comb(n, k)] raises for negative arguments. *)
Definition pass_at_k (n c k : Z) : res float :=
  if n <? k then Err (ValueError ("k (" ++ str_of_Z k ++ ") must not exceed n (" ++ str_of_Z n ++ ")"))
  else if c =? 0 then Ok fzero
  else if n <=? c then Ok one
  else if n <? 0 then Err (ValueError "n must be a non-negative integer")
  else if k <? 0 then Err (ValueError "k must be a non-negative integer")
  else
    let '(misses, denom) := draw_counts n c k in
    if denom =? 0 then Ok fzero else let! q := int_div misses denom in Ok (fsub one q).

Example two_of_ten : pass_at_k 10 3 2 = Ok (fsub one (fdiv (float_of_Z 21) (float_of_Z 45))).
Proof. by vm_compute. Qed.

(** ** Tasks *)

Record EvalTask := {
  task_id : string; request : string; expected_intent : string; expected_halt_reason : string; require_final : bool;
  expected_acceptance_ok : bool; budget_max_loops : Z; expected_recovery_packet_present : bool; description : string;
  acceptance_criteria : list pyval; expected_tool_calls : list pyval; benchmark_class : string; difficulty : string;
  target_file : string; target_function : string; expected_status : string; expected_pending_approval : option bool;
  expected_checkpoint_present : option bool; expected_approval_history_present : option bool }.

Definition _normalise (stem : string) : string := lower (replace_char "_" "-" stem).

Definition bool_or_none (v : pyval) : option bool := match v with PBool b => Some b | _ => None end.

Definition item (d : dict) (k : string) : res pyval :=
  match dlookup k d with Some v => Ok v | None => Err (KeyError (repr_str k)) end.

Definition _build_task (d : dict) : res EvalTask :=
  let str k dflt := py_str (dget d k (PStr dflt)) in
  let flag k dflt := truthy (dget d k (PBool dflt)) in
  let! id := item d "id" in
  let! request := item d "request" in
  let! loops := py_int (dget d "budget_max_loops" (PInt 1)) in
  let! criteria := py_iter (dget d "acceptance_criteria" (PList [])) in
  let! calls := py_iter (dget d "expected_tool_calls" (PList [])) in
  Ok {| task_id := py_str id; request := py_str request; expected_intent := str "expected_intent" "code_change";
        expected_halt_reason := str "expected_halt_reason" ""; require_final := flag "require_final" false;
        expected_acceptance_ok := flag "expected_acceptance_ok" true; budget_max_loops := loops;
        expected_recovery_packet_present := flag "expected_recovery_packet_present" false; description := str "description" "";
        acceptance_criteria := criteria; expected_tool_calls := calls; benchmark_class := str "benchmark_class" "";
        difficulty := str "difficulty" ""; target_file := str "target_file" ""; target_function := str "target_function" "";
        expected_status := str "expected_status" "";
        expected_pending_approval := bool_or_none (dget d "expected_pending_approval" PNone);
        expected_checkpoint_present := bool_or_none (dget d "expected_checkpoint_present" PNone);
        expected_approval_history_present := bool_or_none (dget d "expected_approval_history_present" PNone) |}.

(** [item in container]. *)
Definition py_contains (item container : pyval) : res bool :=
  match container with
  | PList l | PTuple l => Ok (existsb (py_eq item) l)
  | PStr s =>
      match item with
      | PStr p => Ok (contains p s)
      | _ => Err (TypeError ("'in <string>' requires string as left operand, not " ++ type_name item))
      end
  | PDict d =>
      match item with
      | PStr k => Ok (dhas k d)
      | PList _ | PDict _ => Err (TypeError ("unhashable type: '" ++ type_name item ++ sq))
      | _ => Ok false
      end
  | _ => Err (TypeError ("argument of type '" ++ type_name container ++ "' is not iterable"))
  end.

(** [data["tasks"]] where ["tasks" in data]. *)
Definition index_tasks (data : pyval) : res pyval :=
  match data with
  | PDict d => item d "tasks"
  | PStr _ => Err (TypeError "string indices must be integers, not 'str'")
  | _ => Err (TypeError "list indices must be integers or slices, not str")
  end.

Definition inner_tasks (l : list pyval) : res (list EvalTask) :=
  map_res _build_task (List.filter (dhas "id") (dicts_of l)).

(** The tasks of one file; a file without an id is skipped. *)
Definition file_tasks (text : string) : res (list EvalTask) :=
  let! data := json_loads text in
  let! has_tasks := py_contains (PStr "tasks") data in
  let! tasks := if has_tasks then index_tasks data else Ok PNone in
  let! has_id := py_contains (PStr "id") data in
  match tasks, has_id with
  | PList inner, false => inner_tasks inner
  | _, false => Ok []
  | _, true => match data with PDict d => let! t := _build_task d in Ok [t] | _ => Err (attr_error data "setdefault") end
  end.

(** The files of the directory, sorted, as stems and texts. *)
Definition load_tasks (files : list (string * string)) (task_filter : option (list string)) : res (list EvalTask) :=
  let wanted stem :=
    match task_filter with
    | Some ((_ :: _) as f) => str_in (_normalise stem) (List.map _normalise f)
    | _ => true
    end in
  let! tasks := map_res (fun st => file_tasks (snd st)) (List.filter (fun st => wanted (fst st)) files) in
  Ok (concat tasks).

Definition swe_task (instance : pyval) : res EvalTask :=
  let! id := get instance "instance_id" (PStr "") in
  let! problem := get instance "problem_statement" (PStr "") in
  Ok {| task_id := py_str id; request := str_prefix ("Fix the issue described in: " ++ py_str problem) 500; expected_intent := "code_change";
        expected_halt_reason := "accepted"; require_final := true; expected_acceptance_ok := true; budget_max_loops := 1;
        expected_recovery_packet_present := false; description := py_str problem; acceptance_criteria := []; expected_tool_calls := [];
        benchmark_class := "swe_bench"; difficulty := "hard"; target_file := ""; target_function := ""; expected_status := "";
        expected_pending_approval := None; expected_checkpoint_present := None; expected_approval_history_present := None |}.

(** The limit is looked at after a task was added. *)
Fixpoint load_swe_bench_tasks (limit : option Z) (loaded : Z) (lines : list string) : res (list EvalTask) :=
  match lines with
  | [] => Ok []
  | line :: rest =>
      if String.eqb (strip line) "" then load_swe_bench_tasks limit loaded rest
      else
        let! instance := json_loads (strip line) in
        let! task := swe_task instance in
        if match limit with Some n => n <=? loaded + 1 | None => false end then Ok [task]
        else let! others := load_swe_bench_tasks limit (loaded + 1) rest in Ok (task :: others)
  end.

(** ** Golden assertions *)

(** [_NUMERIC_SUFFIX_RE.sub("", task_id)]: the end is that of the text, or of its last line
    when the text ends in a line feed. *)
Definition drop_suffix (s : string) : string :=
  let t := rstrip_by is_digit s in
  if negb (String.eqb t s) && endswith t "-" then str_prefix t (py_len t - 1) else s.

Definition base_id (task_id : string) : string :=
  if endswith task_id nl then drop_suffix (str_prefix task_id (py_len task_id - 1)) ++ nl else drop_suffix task_id.

Example base_ids : List.map base_id ["test-repair-001"; "canary"; "a-1-2"; "repair-"; "x1"] = ["test-repair"; "canary"; "a-1"; "repair-"; "x1"].
Proof. by vm_compute. Qed.

(** [golden_file stem]: the text of the file, when it exists. *)
Definition load_golden (golden_file : string -> option string) (task_id : string) : res (option pyval) :=
  match golden_file (base_id task_id) with
  | None => Ok None
  | Some text =>
      match json_loads text with
      | Ok PNone => Ok None
      | Ok v => Ok (Some v)
      | Err e => if is_json_error e then Ok None else Err e
      end
  end.

Fixpoint get_path (parts : list string) (current : pyval) : pyval :=
  match parts with
  | [] => current
  | part :: rest => match current with PDict d => get_path rest (dget d part PNone) | _ => PNone end
  end.

Definition _get_nested (obj : pyval) (path : string) : pyval := get_path (split_char "." path) obj.

(** [except (TypeError, ValueError): ok = False], [except TypeError: ok = False]. *)
Definition or_false (catches : pyexc -> bool) (r : res bool) : res bool :=
  match r with Ok b => Ok b | Err e => if catches e then Ok false else Err e end.

Definition is_type_error (e : pyexc) : bool := match e with TypeError _ => true | _ => false end.

Definition at_most (a b : pyval) : res bool :=
  or_false is_type_or_value_error (let! x := py_float a in let! y := py_float b in Ok (fleb x y)).

(** [None] for an unknown operator. *)
Definition holds_op (op : string) (actual expected : pyval) : res (option bool) :=
  if String.eqb op "eq" then Ok (Some (py_eq actual expected))
  else if String.eqb op "ne" then Ok (Some (negb (py_eq actual expected)))
  else if String.eqb op "lte" then let! b := at_most actual expected in Ok (Some b)
  else if String.eqb op "gte" then
    let! b := or_false is_type_or_value_error (let! x := py_float actual in let! y := py_float expected in Ok (fleb y x)) in Ok (Some b)
  else if String.eqb op "in" then let! b := or_false is_type_error (py_contains actual expected) in Ok (Some b)
  else if String.eqb op "contains" then let! b := or_false is_type_error (py_contains expected actual) in Ok (Some b)
  else Ok None.

Definition assertion_field (a : dict) : string := py_str (py_or (py_or (dget a "path" PNone) (dget a "field" PNone)) (PStr "")).
Definition assertion_op (a : dict) : string := strip (py_str (dget a "op" (PStr ""))).

Definition failure_message (field_key op : string) (expected actual : pyval) : string :=
  "golden assertion failed: " ++ field_key ++ " " ++ op ++ " " ++ repr expected ++ " (actual=" ++ repr actual ++ ")".

(** One assertion: how many passed, and the failures. *)
Definition evaluate_assertion (result : pyval) (acc : Z * list string) (a : dict) : res (Z * list string) :=
  let field_key := assertion_field a in
  let op := assertion_op a in
  let expected := dget a "value" PNone in
  if String.eqb field_key "" || String.eqb op "" then Ok acc
  else
    let actual := _get_nested result field_key in
    let! ok := holds_op op actual expected in
    Ok (match ok with
        | None => acc
        | Some true => (fst acc + 1, snd acc)
        | Some false => (fst acc, (snd acc ++ [failure_message field_key op expected actual])%list)
        end).

Definition evaluate_golden_assertions (result golden : pyval) : res (Z * Z * list string) :=
  let! assertions := get golden "assertions" (PList []) in
  match assertions with
  | PList l =>
      let! (passed, failures) := fold_res (evaluate_assertion result) (0, []) (dicts_of l) in
      Ok (passed, passed + Z.of_nat (length failures), failures)
  | _ => Ok (0, 0, [])
  end.

(** ** Scores *)

Definition text_at (d : dict) (k : string) : string := strip (py_str (dget d k (PStr ""))).

(** [t in used_tools], a set of texts. *)
Definition in_tools (used : list string) (t : pyval) : res bool :=
  match t with
  | PStr s => Ok (str_in s used)
  | PList _ | PDict _ => Err (TypeError ("unhashable type: '" ++ type_name t ++ sq))
  | _ => Ok false
  end.

Fixpoint all_in (used : list string) (l : list pyval) : res bool :=
  match l with [] => Ok true | t :: r => let! b := in_tools used t in if b then all_in used r else Ok false end.

Definition _score_tool_call_coverage (task : EvalTask) (output : dict) : res bool :=
  match expected_tool_calls task with
  | [] => Ok true
  | calls => all_in (List.map (fun r => text_at r "tool") (dicts_of (list_or_empty (dget output "tool_results" (PList []))))) calls
  end.

Definition _score_status_match (task : EvalTask) (output : dict) : bool :=
  String.eqb (expected_status task) "" || String.eqb (text_at output "status") (expected_status task).

Definition _score_pending_approval (task : EvalTask) (output : dict) : bool :=
  match expected_pending_approval task with
  | None => true
  | Some b => Bool.eqb (truthy (dget output "pending_approval" (PBool false))) b
  end.

Definition _score_checkpoint_presence (task : EvalTask) (output : dict) : bool :=
  match expected_checkpoint_present task with
  | None => true
  | Some b =>
      let id := text_at output "checkpoint_id" in
      let id :=
        if String.eqb id "" then
          let checkpoint := dict_or_empty (dget output "checkpoint" (PDict [])) in
          strip (py_str (py_or (py_or (dget checkpoint "latest_checkpoint_id" PNone) (dget checkpoint "resume_checkpoint_id" PNone)) (PStr "")))
        else id in
      Bool.eqb (negb (String.eqb id "")) b
  end.

Definition nonempty_list (v : pyval) : bool := match v with PList (_ :: _) => true | _ => false end.

Definition _score_approval_history (task : EvalTask) (output : dict) : bool :=
  match expected_approval_history_present task with
  | None => true
  | Some b =>
      let history :=
        match dget output "approval_history" PNone with
        | PList l => PList l
        | _ => dget (dict_or_empty (dget output "approval" (PDict []))) "history" (PList [])
        end in
      Bool.eqb (nonempty_list history) b
  end.

Definition _score_recovery_packet (task : EvalTask) (output : dict) : bool :=
  let packet := dget output "recovery_packet" PNone in
  Bool.eqb (is_dict packet && truthy packet) (expected_recovery_packet_present task).

Definition verified (output : dict) : bool :=
  match dget output "verification" (PDict []) with PDict v => truthy (dget v "ok" (PBool false)) | _ => false end.

Definition _score_loop_summary_quality (output : dict) : bool := verified output || nonempty_list (dget output "loop_summaries" (PList [])).

Definition _score_acceptance_criteria_tracking (output : dict) : bool :=
  match list_or_empty (dget output "loop_summaries" (PList [])) with
  | [] => verified output
  | summaries => existsb (fun s => nonempty_list (dget s "acceptance_criteria" PNone)) (dicts_of summaries)
  end.

Definition _score_failure_fingerprint_present (output : dict) : bool :=
  verified output
  || existsb (fun s => let f := text_at s "failure_fingerprint" in negb (String.eqb f "") && negb (String.eqb f "verification_failed"))
       (dicts_of (list_or_empty (dget output "loop_summaries" (PList [])))).

Definition _score_compression_tracking (output : dict) : res bool :=
  let telemetry := dict_or_empty (dget output "telemetry" (PDict [])) in
  match dget telemetry "compression_summary" (PDict []) with
  | PDict s => let! total := py_int (dget s "total_events" (PInt 0)) in Ok (0 <? total)
  | _ => Ok false
  end.

Definition acceptance_of (output : dict) : bool :=
  truthy (dget (dict_or_empty (dget output "verification" (PDict []))) "acceptance_ok" (PBool false)).

Definition checks_of (task : EvalTask) (output : dict) : res (list (string * bool)) :=
  let! lane := get (dget output "route" (PDict [])) "lane" (PStr "") in
  let! compression := _score_compression_tracking output in
  let! coverage := _score_tool_call_coverage task output in
  Ok [("intent_match", String.eqb (text_at output "intent") (expected_intent task));
      ("halt_reason_match", String.eqb (text_at output "halt_reason") (expected_halt_reason task));
      ("final_present", if require_final task then negb (String.eqb (text_at output "final") "") else true);
      ("acceptance_ok_match", Bool.eqb (acceptance_of output) (expected_acceptance_ok task));
      ("recovery_packet_match", _score_recovery_packet task output);
      ("loop_summary_quality", _score_loop_summary_quality output);
      ("route_lane_set", negb (String.eqb (strip (py_str lane)) ""));
      ("acceptance_criteria_tracking", _score_acceptance_criteria_tracking output);
      ("failure_fingerprint_present", _score_failure_fingerprint_present output);
      ("compression_tracking", compression);
      ("tool_call_coverage", coverage);
      ("status_match", _score_status_match task output);
      ("pending_approval_match", _score_pending_approval task output);
      ("checkpoint_presence_match", _score_checkpoint_presence task output);
      ("approval_history_match", _score_approval_history task output)].

Definition count_true {A : Type} (f : A -> bool) (l : list A) : Z := Z.of_nat (length (List.filter f l)).

Definition golden_result (golden_file : string -> option string) (task : EvalTask) (output : dict) : res (Z * Z * list string) :=
  let! golden := load_golden golden_file (task_id task) in
  match golden with Some g => evaluate_golden_assertions (PDict output) g | None => Ok (0, 0, []) end.

Definition score_task (golden_file : string -> option string) (task : EvalTask) (output : dict) : res dict :=
  let! checks := checks_of task output in
  let passed_checks := count_true snd checks in
  let max_checks := Z.of_nat (length checks) in
  let! score := if 0 <? max_checks then int_div passed_checks max_checks else Ok fzero in
  let! (golden_passed, golden_total, failures) := golden_result golden_file task output in
  Ok [("id", PStr (task_id task)); ("request", PStr (request task)); ("expected_intent", PStr (expected_intent task));
      ("actual_intent", PStr (text_at output "intent")); ("expected_halt_reason", PStr (expected_halt_reason task));
      ("actual_halt_reason", PStr (text_at output "halt_reason")); ("expected_status", PStr (expected_status task));
      ("actual_status", PStr (text_at output "status")); ("final_present", PBool (negb (String.eqb (text_at output "final") "")));
      ("acceptance_ok", PBool (acceptance_of output));
      ("tool_results_count", PInt (Z.of_nat (length (list_or_empty (dget output "tool_results" (PList []))))));
      ("checks", PDict (List.map (fun kb => (fst kb, PBool (snd kb))) checks)); ("score", PFloat score);
      ("golden_assertions_passed", PInt golden_passed); ("golden_assertions_total", PInt golden_total);
      ("golden_assertion_failures", PList (List.map PStr failures));
      ("golden_passed", PBool (match failures with [] => true | _ => false end));
      ("passed", PBool ((passed_checks =? max_checks) && match failures with [] => true | _ => false end))].

(** ** Runs *)

Definition task_input (task : EvalTask) (repo_root : string) (runner_enabled : bool) (temperature : float) : dict :=
  [("request", PStr (request task)); ("_repo_root", PStr repo_root); ("_runner_base_url", PStr "http://127.0.0.1:8088");
   ("_runner_enabled", PBool runner_enabled); ("_budget_max_loops", PInt (budget_max_loops task)); ("_temperature", PFloat temperature);
   ("_config_policy", PDict [("network_default", PStr "deny"); ("require_approval_for_mutations", PBool true);
                             ("allowed_write_paths", PList [])])].

Section Harness.
Context `{adapter : NonNegIntAdapter} (limit : nat) (golden_file : string -> option string) (repo_root : string).

(** [app.invoke]: the declared channels of the input, at most [limit] supersteps. *)
Definition run_task (w : World) (task : EvalTask) (runner_enabled : bool) (temperature : float) : res dict :=
  match snd (@invoke (lula adapter w) limit (merge_update [] (task_input task repo_root runner_enabled temperature))) with
  | Some r => r
  | None => Err RunCommand.recursion_error
  end.

Definition flag (k : string) (r : dict) : bool := truthy (dget r k (PBool false)).
Definition check_flag (k : string) (r : dict) : bool := truthy (dget (dict_or_empty (dget r "checks" (PDict []))) k (PBool false)).

Definition rate (n total : Z) : res float := if 0 <? total then int_div n total else Ok fzero.

Definition float_at (d : dict) (k : string) : res float := py_float (dget d k (PFloat fzero)).
Definition int_at (d : dict) (k : string) : res Z := py_int (dget d k (PInt 0)).

(** The names of the summary's rates, and the checks they count. *)
Definition check_rates : list (string * string) :=
  [("recovery_packet_accuracy", "recovery_packet_match"); ("loop_summary_quality", "loop_summary_quality");
   ("acceptance_criteria_tracking", "acceptance_criteria_tracking"); ("failure_fingerprint_present", "failure_fingerprint_present");
   ("compression_tracking", "compression_tracking"); ("tool_call_coverage", "tool_call_coverage"); ("status_accuracy", "status_match");
   ("pending_approval_accuracy", "pending_approval_match"); ("checkpoint_presence_accuracy", "checkpoint_presence_match");
   ("approval_history_accuracy", "approval_history_match")].

Definition summary_of (results : list dict) : res dict :=
  let total := Z.of_nat (length results) in
  let passed := count_true (flag "passed") results in
  let! scores := map_res (fun r => float_at r "score") results in
  let avg_score := if 0 <? total then fdiv (py_sum scores) (float_of_Z total) else fzero in
  let! tools := map_res (fun r => int_at r "tool_results_count") results in
  let! avg_tools := rate (fold_left Z.add tools 0) total in
  let! rates := map_res (fun nc => let! f := rate (count_true (check_flag (snd nc)) results) total in Ok (fst nc, PFloat f)) check_rates in
  let! resolved := rate (count_true (flag "acceptance_ok") results) total in
  let! pass_rate := rate passed total in
  let! intent := rate (count_true (check_flag "intent_match") results) total in
  Ok ([("total_tasks", PInt total); ("passed_tasks", PInt passed); ("failed_tasks", PInt (total - passed)); ("pass_rate", PFloat pass_rate);
       ("resolved_rate", PFloat resolved); ("intent_accuracy", PFloat intent); ("average_score", PFloat avg_score);
       ("average_tool_results", PFloat avg_tools)] ++ rates)%list.

(** [worlds i] is what run [i] finds. *)
Fixpoint run_all (worlds : nat -> World) (i : nat) (tasks : list EvalTask) (runner_enabled : bool) (temperature : float) : res (list dict) :=
  match tasks with
  | [] => Ok []
  | task :: rest =>
      let! output := run_task (worlds i) task runner_enabled temperature in
      let! result := score_task golden_file task output in
      let! others := run_all worlds (S i) rest runner_enabled temperature in
      Ok (result :: others)
  end.

Definition evaluate_tasks (worlds : nat -> World) (tasks : list EvalTask) (runner_enabled : bool) (temperature : float) : res dict :=
  let! results := run_all worlds 0 tasks runner_enabled temperature in
  let! summary := summary_of results in
  Ok [("summary", PDict summary); ("results", PList (List.map PDict results))].

(** ** Reports *)

(** The groups of [defaultdict(list)], sorted by name. *)
Definition groups {A : Type} (name : A -> string) (l : list A) : list (string * list A) :=
  let names := fold_left (fun acc x => if str_in (name x) acc then acc else (acc ++ [name x])%list) l [] in
  List.map (fun n => (n, List.filter (fun x => String.eqb (name x) n) l)) (py_sorted str_lt names).

Definition or_text (s dflt : string) : string := if String.eqb s "" then dflt else s.

Definition _fmt_result (r : dict) : res string :=
  let! score := float_at r "score" in
  let! tools := int_at r "tool_results_count" in
  Ok ("  [" ++ (if flag "passed" r then "PASS" else "FAIL") ++ "] " ++ py_str (dget r "id" (PStr "")) ++ " score=" ++ format_fixed 2 score
      ++ " intent=" ++ or_text (py_str (dget r "actual_intent" (PStr ""))) "(missing)" ++ " halt=" ++ or_text (text_at r "actual_halt_reason") "(none)"
      ++ " acceptance_ok=" ++ py_str (PBool (flag "acceptance_ok" r)) ++ " tools=" ++ str_of_Z tools).

(** The labels of the summary line, and its keys. *)
Definition summary_labels : list (string * string) :=
  [("pass_rate", "pass_rate"); ("resolved_rate", "resolved_rate"); ("intent_accuracy", "intent_accuracy"); ("avg_score", "average_score");
   ("recovery_packet_acc", "recovery_packet_accuracy"); ("loop_summary_quality", "loop_summary_quality");
   ("acceptance_criteria_track", "acceptance_criteria_tracking"); ("failure_fingerprint", "failure_fingerprint_present");
   ("compression_track", "compression_tracking"); ("tool_call_coverage", "tool_call_coverage"); ("status_acc", "status_accuracy");
   ("pending_approval_acc", "pending_approval_accuracy"); ("checkpoint_presence_acc", "checkpoint_presence_accuracy");
   ("approval_history_acc", "approval_history_accuracy")].

Definition summary_line (summary : dict) : res string :=
  let! passed := int_at summary "passed_tasks" in
  let! total := int_at summary "total_tasks" in
  let! parts := map_res (fun lk => let! f := float_at summary (snd lk) in Ok (fst lk ++ "=" ++ format_fixed 2 f)) summary_labels in
  Ok (join " " (("summary: passed=" ++ str_of_Z passed ++ "/" ++ str_of_Z total) :: parts)).

Definition group_lines (g : string * list dict) : res (list string) :=
  let! lines := map_res _fmt_result (snd g) in
  Ok ((nl ++ "[" ++ fst g ++ "] subtotal: " ++ str_of_Z (count_true (flag "passed") (snd g)) ++ "/" ++ str_of_Z (Z.of_nat (length (snd g)))) :: lines).

Definition _render_text_report (report : dict) : res string :=
  let summary := dict_or_empty (dget report "summary" (PDict [])) in
  let results := dicts_of (list_or_empty (dget report "results" (PList []))) in
  let! line := summary_line summary in
  let! lines := map_res group_lines (groups (fun r => or_text (py_str (dget r "benchmark_class" (PStr ""))) "default") results) in
  Ok (join nl (line :: concat lines)).

Record PakRow := { pak_task : string; runs : Z; correct : Z; pak_score : float; pak_class : string }.

(** [str.upper] on the characters that have a capital here. *)
Definition upper_char (c : ascii) : string :=
  let n := ord c in
  if n =? 223 then "SS"
  else if ((97 <=? n) && (n <=? 122)) || ((224 <=? n) && (n <=? 254) && negb (n =? 247)) then String (chr (n - 32)) "" else String c "".
Definition upper (s : string) : string := concat_map_str upper_char s.

Section Table.
Context (rows : list PakRow) (k : Z).

Definition col_task : Z := fold_left (fun m r => Z.max m (py_len (pak_task r))) rows 9.
Definition table_row (label : string) (runs correct score : string) : string :=
  pad_right col_task label ++ " | " ++ pad_left 4 runs ++ " | " ++ pad_left 7 correct ++ " | " ++ pad_left 7 score.
Definition header : string := table_row "task" "runs" "correct" "pass@k".
Definition separator : string := concat_map_str (fun _ => "-") header.
Definition total_of (f : PakRow -> Z) (l : list PakRow) : Z := fold_left Z.add (List.map f l) 0.

Definition _render_row (r : PakRow) : string :=
  table_row (pak_task r) (str_of_Z (runs r)) (str_of_Z (correct r)) (format_fixed 3 (pak_score r)).

(** [pass_at_k] of all runs of the rows. *)
Definition pooled_row (label : string) (l : list PakRow) : res string :=
  let n := total_of runs l in
  let c := total_of correct l in
  let! score := pass_at_k n c (Z.min k n) in
  Ok (table_row label (str_of_Z n) (str_of_Z c) (format_fixed 3 score)).

Definition _subtotal_row (label : string) (l : list PakRow) : res string :=
  if total_of runs l =? 0 then Ok (table_row label "0" (str_of_Z (total_of correct l)) (format_fixed 3 fzero)) else pooled_row label l.

Definition table_group (g : string * list PakRow) : res (list string) :=
  let! subtotal := match snd g with
                   | _ :: _ :: _ => let! row := _subtotal_row (upper (fst g) ++ "_TOTAL") (snd g) in Ok [separator; row]
                   | _ => Ok []
                   end in
  Ok ((nl ++ "# " ++ fst g)%string :: header :: separator :: List.map _render_row (snd g) ++ subtotal)%list.

Definition _render_pass_at_k_table : res string :=
  let! lines := map_res table_group (groups (fun r => or_text (pak_class r) "default") rows) in
  let! aggregate := match rows with
                    | _ :: _ :: _ => let! row := pooled_row "AGGREGATE" rows in Ok [(nl ++ separator)%string; row]
                    | _ => Ok []
                    end in
  Ok (join nl (concat lines ++ aggregate)%list).
End Table.

(** ** The command *)

(** [json.dumps(v, ensure_ascii=False, indent=2)] at a level of nesting. *)
Fixpoint json_pretty (level : nat) (v : pyval) : string :=
  let line l := nl ++ spaces (2 * l) in
  let block (o c : string) (items : list string) :=
    match items with [] => o ++ c | _ => o ++ line (S level) ++ join ("," ++ line (S level)) items ++ line level ++ c end in
  match v with
  | PList l | PTuple l => block "[" "]" (List.map (json_pretty (S level)) l)
  | PDict d => block "{" "}" (List.map (fun kv => json_str (fst kv) ++ ": " ++ json_pretty (S level) (snd kv)) d)
  | _ => json_dumps false v
  end.

Example pretty : json_pretty 0 (PDict [("a", PList [PInt 1; PNone]); ("b", PDict [])]) =
  "{" ++ nl ++ "  " ++ dq ++ "a" ++ dq ++ ": [" ++ nl ++ "    1," ++ nl ++ "    null" ++ nl ++ "  ]," ++ nl ++ "  " ++ dq ++ "b" ++ dq ++ ": {}" ++ nl ++ "}".
Proof. by vm_compute. Qed.

Record EvalArgs := {
  ea_format : string; ea_tasks : list string; ea_pass_at_k : Z; ea_runner_enabled : bool; ea_temperature : option float;
  ea_swe_bench : option (list string); ea_swe_bench_limit : option Z; ea_dry_run : bool }.

(** What the command printed and returned, or the message it exited with. *)
Inductive Exit := Printed (lines : list string) (code : Z) | Exited (message : string).

Definition opt_bool_repr (b : option bool) : string := match b with Some b => repr (PBool b) | None => "None" end.

(** The representation of the dataclass. *)
Definition task_repr (t : EvalTask) : string :=
  "EvalTask(id=" ++ repr_str (task_id t) ++ ", request=" ++ repr_str (request t) ++ ", expected_intent=" ++ repr_str (expected_intent t)
  ++ ", expected_halt_reason=" ++ repr_str (expected_halt_reason t) ++ ", require_final=" ++ repr (PBool (require_final t))
  ++ ", expected_acceptance_ok=" ++ repr (PBool (expected_acceptance_ok t)) ++ ", budget_max_loops=" ++ str_of_Z (budget_max_loops t)
  ++ ", expected_recovery_packet_present=" ++ repr (PBool (expected_recovery_packet_present t)) ++ ", description=" ++ repr_str (description t)
  ++ ", acceptance_criteria=" ++ repr (PList (acceptance_criteria t)) ++ ", expected_tool_calls=" ++ repr (PList (expected_tool_calls t))
  ++ ", benchmark_class=" ++ repr_str (benchmark_class t) ++ ", difficulty=" ++ repr_str (difficulty t) ++ ", target_file=" ++ repr_str (target_file t)
  ++ ", target_function=" ++ repr_str (target_function t) ++ ", expected_status=" ++ repr_str (expected_status t)
  ++ ", expected_pending_approval=" ++ opt_bool_repr (expected_pending_approval t)
  ++ ", expected_checkpoint_present=" ++ opt_bool_repr (expected_checkpoint_present t)
  ++ ", expected_approval_history_present=" ++ opt_bool_repr (expected_approval_history_present t) ++ ")".

Definition invalid_task (t : EvalTask) : bool := String.eqb (task_id t) "" || String.eqb (request t) "" || String.eqb (expected_intent t) "".

Definition dry_line (t : EvalTask) : string :=
  "task: " ++ task_id t ++ "  benchmark_class=" ++ or_text (benchmark_class t) "(none)" ++ "  difficulty=" ++ or_text (difficulty t) "(none)".

Definition temperature_of (args : EvalArgs) : float :=
  match ea_temperature args with Some f => f | None => if 1 <? ea_pass_at_k args then float_lit 8 1 else fzero end.

(** [n] runs of one task, from run [i] on. *)
Fixpoint repeat_task (worlds : nat -> World) (i n : nat) (task : EvalTask) (runner_enabled : bool) (temperature : float) : res (list dict) :=
  match n with
  | O => Ok []
  | S n =>
      let! output := run_task (worlds i) task runner_enabled temperature in
      let! result := score_task golden_file task output in
      let! others := repeat_task worlds (S i) n task runner_enabled temperature in
      Ok (result :: others)
  end.

(** The row of a task, with its results. *)
Definition sample_task (worlds : nat -> World) (i : nat) (k : Z) (runner_enabled : bool) (temperature : float) (task : EvalTask)
    : res (PakRow * list dict) :=
  let! results := repeat_task worlds i (Z.to_nat k) task runner_enabled temperature in
  let n_correct := count_true (flag "passed") results in
  let! score := pass_at_k k n_correct k in
  Ok ({| pak_task := task_id task; runs := k; correct := n_correct; pak_score := score; pak_class := benchmark_class task |}, results).

Fixpoint sample_all (worlds : nat -> World) (i : nat) (k : Z) (runner_enabled : bool) (temperature : float) (tasks : list EvalTask)
    : res (list (PakRow * list dict)) :=
  match tasks with
  | [] => Ok []
  | task :: rest =>
      let! r := sample_task worlds i k runner_enabled temperature task in
      let! others := sample_all worlds (i + Z.to_nat k) k runner_enabled temperature rest in
      Ok (r :: others)
  end.

Definition row_dict (r : PakRow) : dict :=
  [("task", PStr (pak_task r)); ("runs", PInt (runs r)); ("correct", PInt (correct r)); ("pass_at_k", PFloat (pak_score r));
   ("benchmark_class", PStr (pak_class r))].

Definition single_run (worlds : nat -> World) (args : EvalArgs) (tasks : list EvalTask) : res (list string) :=
  let! report := evaluate_tasks worlds tasks (ea_runner_enabled args) (temperature_of args) in
  let! resolved := float_at (dict_or_empty (dget report "summary" (PDict []))) "resolved_rate" in
  if String.eqb (ea_format args) "json" then Ok [json_pretty 0 (PDict report)]
  else let! text := _render_text_report report in Ok [text; "resolved_rate=" ++ format_fixed 3 resolved].

Definition multi_run (worlds : nat -> World) (args : EvalArgs) (tasks : list EvalTask) : res (list string) :=
  let k := ea_pass_at_k args in
  let! sampled := sample_all worlds 0 k (ea_runner_enabled args) (temperature_of args) tasks in
  let rows := List.map fst sampled in
  let reports := concat (List.map snd sampled) in
  let! resolved := rate (count_true (flag "acceptance_ok") reports) (Z.of_nat (length reports)) in
  if String.eqb (ea_format args) "json" then
    Ok [json_pretty 0 (PDict [("pass_at_k_rows", PList (List.map (fun r => PDict (row_dict r)) rows)); ("results", PList (List.map PDict reports));
                              ("resolved_rate", PFloat resolved)])]
  else let! table := _render_pass_at_k_table rows k in Ok [table; "resolved_rate=" ++ format_fixed 3 resolved].

(** [files] are those of the tasks' directory. *)
Definition main (worlds : nat -> World) (files : list (string * string)) (args : EvalArgs) : res Exit :=
  let! tasks := load_tasks files (match ea_tasks args with [] => None | l => Some l end) in
  let! swe := match ea_swe_bench args with Some lines => load_swe_bench_tasks (ea_swe_bench_limit args) 0 lines | None => Ok [] end in
  let tasks := (tasks ++ swe)%list in
  match tasks, List.find invalid_task tasks with
  | [], _ => Ok (Exited "no tasks")
  | _, Some t => Ok (Exited ("invalid task: " ++ task_repr t))
  | _, None =>
      if ea_dry_run args then Ok (Printed (List.map dry_line tasks) 0)
      else
        let! lines := (if ea_pass_at_k args <=? 1 then single_run else multi_run) worlds args tasks in
        Ok (Printed lines 0)
  end.
End Harness.

(** ** Properties *)

(** ** The final state has declared channels only *)

Definition declared_keys (d : dict) : Prop := forall k, str_in k channels = false -> dlookup k d = None.

Lemma merge_declared s u : declared_keys s -> declared_keys (merge_update s u).
Proof.
  intros Hs k Hk. unfold merge_update. rewrite dlookup_app.
  assert (E : dlookup k (declared u) = None).
  { apply dlookup_None_keys. intros Hin. apply in_map_iff in Hin as ([k' v] & <- & Hin). apply filter_In in Hin as [_ Hin]. cbn in *. congruence. }
  rewrite E. apply dlookup_None_keys. intros Hin. apply in_map_iff in Hin as ([k' v] & <- & Hin). apply filter_In in Hin as [Hin _].
  apply Hs, dlookup_None_keys in Hk. apply Hk. by apply (in_map fst) in Hin.
Qed.

Lemma empty_declared : declared_keys [].
Proof. by intros k _. Qed.

Section Harness.
Context `{adapter : NonNegIntAdapter} (limit : nat) (golden_file : string -> option string) (repo_root : string).

Lemma run_declared w fuel n state visited s :
  declared_keys state -> @run_graph (lula adapter w) fuel n state = (visited, Some (Ok s)) -> declared_keys s.
Proof.
  revert n state visited. induction fuel as [|fuel IH]; intros n state visited Hd; cbn [run_graph];
    (destruct (bool_decide (n = n_END)); [by intros [= _ <-]|]); [done|].
  unfold graph_step. destruct (run_node n state) as [u|e]; cbn [bind_res]; [|done].
  destruct (run_graph fuel _ _) as [v o] eqn:E. intros [= _ ->]. eapply IH; [|exact E]. by apply merge_declared.
Qed.

Lemma run_task_declared w task enabled temperature output :
  run_task (adapter := adapter) limit repo_root w task enabled temperature = Ok output -> declared_keys output.
Proof.
  unfold run_task. destruct (invoke limit _) as [v [[s|e]|]] eqn:E; cbn [snd]; try done. intros [= <-].
  eapply run_declared; [|exact E]. apply merge_declared, empty_declared.
Qed.

(** ** Expectations that fail *)

(** An assertion that needs a value under a key that is not there. *)
Definition needs_value (a : dict) : Prop :=
  assertion_op a = "lte" \/ assertion_op a = "gte" \/ (assertion_op a = "eq" /\ py_eq PNone (dget a "value" PNone) = false).

Definition undeclared_path (path : string) : Prop :=
  path <> "" /\ exists root rest, split_char "." path = root :: rest /\ str_in root channels = false.

Lemma path_missing output path : declared_keys output -> undeclared_path path -> _get_nested (PDict output) path = PNone.
Proof.
  intros Hd (_ & root & rest & E & Hr). unfold _get_nested. rewrite E. cbn [get_path]. unfold dget. rewrite (Hd root Hr). by destruct rest.
Qed.

Lemma needs_fails a : needs_value a -> holds_op (assertion_op a) PNone (dget a "value" PNone) = Ok (Some false).
Proof. intros [->|[->|[-> E]]]; [done|done|]. unfold holds_op. cbn [String.eqb Ascii.eqb Bool.eqb]. by rewrite E. Qed.

Lemma evaluate_step result acc a acc' :
  evaluate_assertion result acc a = Ok acc' -> exists more, snd acc' = (snd acc ++ more)%list.
Proof.
  unfold evaluate_assertion. destruct (_ || _); [intros [= <-]; exists []; by rewrite app_nil_r|].
  destruct (holds_op _ _ _) as [[[]|]|]; cbn [bind_res]; intros [= <-]; cbn; eexists; done || (symmetry; apply app_nil_r).
Qed.

Lemma evaluate_keeps result l acc acc' :
  fold_res (evaluate_assertion result) acc l = Ok acc' -> snd acc <> [] -> snd acc' <> [].
Proof.
  revert acc. induction l as [|a l IH]; intros acc; cbn [fold_res]; [by intros [= <-]|].
  destruct (evaluate_assertion result acc a) as [acc1|] eqn:E; [|done]. cbn [bind_res]. intros H Hn. apply (IH acc1 H).
  apply evaluate_step in E as [more E]. rewrite E. by destruct (snd acc).
Qed.

Lemma assertion_fails output l a acc acc' :
  declared_keys output -> In a l -> undeclared_path (assertion_field a) -> needs_value a ->
  fold_res (evaluate_assertion (PDict output)) acc l = Ok acc' -> snd acc' <> [].
Proof.
  intros Hd Hin Hp Hn. revert acc. induction l as [|b l IH]; [done|]. intros acc. cbn [fold_res].
  destruct (evaluate_assertion (PDict output) acc b) as [acc1|] eqn:E; [|done]. cbn [bind_res]. intros H.
  destruct Hin as [->|Hin]; [|by apply (IH Hin acc1)]. apply (evaluate_keeps _ _ _ _ H). unfold evaluate_assertion in E.
  rewrite (path_missing _ _ Hd Hp), (needs_fails _ Hn) in E.
  destruct (String.eqb_spec (assertion_field a) "") as [Ef|_]; [by destruct Hp|].
  assert (Ho : String.eqb (assertion_op a) "" = false) by (by destruct Hn as [->|[->|[-> _]]]).
  rewrite Ho in E. cbn [orb bind_res] in E. injection E as <-. cbn. by destruct (snd acc).
Qed.

(** What keeps a task from passing: a status or a pending approval is expected, or a golden
    assertion needs a value that is not in a channel. *)
Definition unreachable_expectation (task : EvalTask) : Prop :=
  expected_status task <> "" \/ expected_pending_approval task = Some true \/
  exists g l a, load_golden golden_file (task_id task) = Ok (Some (PDict g)) /\ dget g "assertions" (PList []) = PList l /\ In (PDict a) l /\
    undeclared_path (assertion_field a) /\ needs_value a.

Lemma all_counted {A} (f : A -> bool) l x : In x l -> f x = false -> (count_true f l =? Z.of_nat (length l)) = false.
Proof.
  intros Hin Hf. apply Z.eqb_neq. unfold count_true. enough (length (List.filter f l) < length l)%nat by lia.
  induction l as [|y l IH]; [done|]. cbn. pose proof (List.filter_length_le f l). destruct Hin as [->|Hin].
  - rewrite Hf. lia.
  - specialize (IH Hin). destruct (f y); cbn; lia.
Qed.

(** C27: Some evaluation tasks can never pass.  Whatever the nodes find outside, the final
    state of a run holds the declared channels only.  So a task that expects a status or a
    pending approval, or has a golden assertion with [lte], [gte], or [eq] of a non-null value
    on a path that does not begin with a channel (as [loop_count] of three of the golden
    files), is scored as not passed in every run that ends with a state. *)
Theorem unreachable_expectations_fail w task enabled temperature output result :
  unreachable_expectation task ->
  run_task (adapter := adapter) limit repo_root w task enabled temperature = Ok output ->
  score_task golden_file task output = Ok result ->
  dlookup "passed" result = Some (PBool false).
Proof.
  intros Hu Hr Hs. apply run_task_declared in Hr as Hd. unfold score_task in Hs.
  apply bind_Ok in Hs as (checks & Hc & Hs). apply bind_Ok in Hs as (score & _ & Hs).
  apply bind_Ok in Hs as ([[gp gt] failures] & Hg & [= <-]). cbn [dlookup String.eqb Ascii.eqb Bool.eqb]. do 2 f_equal.
  assert (G : forall name, In (name, false) checks -> (count_true snd checks =? Z.of_nat (length checks)) = false)
    by (intros name Hin; by apply (all_counted snd checks (name, false))).
  unfold checks_of in Hc. apply bind_Ok in Hc as (lane & _ & Hc). apply bind_Ok in Hc as (compression & _ & Hc).
  apply bind_Ok in Hc as (coverage & _ & [= <-]).
  assert (Hmiss : forall k d, str_in k channels = false -> dget output k d = d)
    by (intros k d Hk; unfold dget; by rewrite (Hd k Hk)).
  destruct Hu as [Hst|[Hpa|(g & l & a & Hl & Ha & Hin & Hp & Hn)]].
  - rewrite (G "status_match"); [done|]. unfold _score_status_match, text_at. rewrite (Hmiss "status") by reflexivity.
    apply String.eqb_neq in Hst. rewrite Hst. cbn [orb]. change (strip (py_str (PStr ""))) with "".
    rewrite (String.eqb_sym "" (expected_status task)), Hst. cbn [In]. tauto.
  - rewrite (G "pending_approval_match"); [done|]. unfold _score_pending_approval. rewrite Hpa, (Hmiss "pending_approval") by reflexivity.
    cbn [In truthy Bool.eqb]. tauto.
  - unfold golden_result in Hg. rewrite Hl in Hg. cbn [bind_res] in Hg. unfold evaluate_golden_assertions in Hg. cbn [get bind_res] in Hg.
    rewrite Ha in Hg. apply bind_Ok in Hg as ([n fs] & Hf & [= _ _ <-]).
    apply (assertion_fails output (dicts_of l) a _ _ Hd (proj2 (dicts_of_In _ _) Hin) Hp Hn) in Hf. cbn [snd] in Hf.
    destruct fs; [done|]. by rewrite andb_false_r.
Qed.

(** ** Repeated tasks *)

Lemma repeat_length worlds i n task enabled temperature results :
  repeat_task (adapter := adapter) limit golden_file repo_root worlds i n task enabled temperature = Ok results -> length results = n.
Proof.
  revert i results. induction n as [|n IH]; intros i results; cbn [repeat_task]; [by intros [= <-]|].
  intros H. apply bind_Ok in H as (output & _ & H). apply bind_Ok in H as (result & _ & H). apply bind_Ok in H as (others & E & [= <-]).
  cbn. by rewrite (IH _ _ E).
Qed.

Lemma comb_small n k : (n < k)%nat -> comb n k = 0.
Proof.
  revert k. induction n as [|n IH]; intros [|k] H; cbn [comb]; [lia|done|lia|]. rewrite !IH by lia. lia.
Qed.

Lemma comb_diagonal n : comb n n = 1.
Proof. induction n as [|n IH]; [done|]. cbn [comb]. rewrite (comb_small n (S n)) by lia. lia. Qed.

Lemma comb_nonneg n k : 0 <= comb n k.
Proof. revert k. induction n as [|n IH]; intros [|k]; cbn [comb]; [lia..|]. pose proof (IH k). pose proof (IH (S k)). lia. Qed.

Lemma comb_pos n k : (k <= n)%nat -> 0 < comb n k.
Proof.
  revert k. induction n as [|n IH]; intros [|k] H; cbn [comb]; [lia..|].
  assert (0 < comb n k) by (apply IH; lia). pose proof (comb_nonneg n (S k)). lia.
Qed.

Lemma comb_mono m n k : (m <= n)%nat -> comb m k <= comb n k.
Proof.
  revert m k. induction n as [|n IH]; intros [|m] [|k] H; cbn [comb]; try lia.
  - pose proof (comb_nonneg n k). pose proof (comb_nonneg n (S k)). lia.
  - assert (comb m k <= comb n k) by (apply IH; lia). assert (comb m (S k) <= comb n (S k)) by (apply IH; lia). lia.
Qed.

Lemma comb_fewer m n k : (m < n)%nat -> (1 <= k <= n)%nat -> comb m k < comb n k.
Proof.
  intros Hm Hk. destruct n as [|n]; [lia|]. destruct k as [|k]; [lia|]. cbn [comb].
  pose proof (comb_mono m n (S k) ltac:(lia)). pose proof (comb_pos n k ltac:(lia)). lia.
Qed.

(** The draws of [k] samples, without replacement and whatever their order. *)
Fixpoint draws {A : Type} (k : nat) (samples : list A) : list (list A) :=
  match k, samples with
  | O, _ => [[]]
  | S _, [] => []
  | S k', x :: rest => (List.map (cons x) (draws k' rest) ++ draws k rest)%list
  end.

Section Draws.
Context {A : Type}.
Implicit Types (samples d : list A).

Lemma draws_length k samples : Z.of_nat (length (draws k samples)) = comb (length samples) k.
Proof.
  revert k. induction samples as [|x rest IH]; intros [|k]; [done..|]. cbn [draws length comb].
  rewrite length_app, length_map, Nat2Z.inj_add. rewrite !IH. lia.
Qed.

Lemma draws_In k samples d : In d (draws k samples) <-> d `sublist_of` samples /\ length d = k.
Proof.
  revert k d. induction samples as [|x rest IH]; intros k d.
  - destruct k as [|k]; cbn [draws].
    + split; [intros [<-|[]]; split; [constructor|done]|]. intros [_ H]. left. by destruct d.
    + split; [done|]. intros [->%sublist_nil_r H]. discriminate H.
  - destruct k as [|k]; cbn [draws].
    + split; [intros [<-|[]]; split; [apply sublist_nil_l|done]|]. intros [_ H]. left. by destruct d.
    + rewrite in_app_iff, in_map_iff, (IH (S k)). split.
      * intros [(d' & <- & [Hd Hl]%IH)|[Hd Hl]]; (split; [|cbn; congruence]); [by apply sublist_skip|by apply sublist_cons].
      * intros [Hd Hl]. inversion Hd as [|? d' ? Hd' E1 E2|? d' ? Hd' E1 E2]; subst.
        -- left. exists d'. split; [done|]. apply IH. split; [done|]. cbn in Hl. lia.
        -- right. by split.
Qed.

Lemma sublist_In d samples x : d `sublist_of` samples -> In x d -> In x samples.
Proof. induction 1 as [|y l l' _ IH|y l l' _ IH]; cbn; [done|intros [->|H]; auto|auto]. Qed.

Lemma draws_NoDup k samples : NoDup samples -> NoDup (draws k samples).
Proof.
  intros Hn. revert k. induction Hn as [|x rest Hx _ IH]; intros [|k]; cbn [draws]; try apply NoDup_singleton; [constructor|].
  apply list.NoDup_app. split; [|split; [|apply IH]].
  - apply NoDup_fmap_2; [|apply IH]. by intros d d' [= ->].
  - intros d Hd Hd'. apply list_elem_of_fmap in Hd as (d' & -> & _). apply list_elem_of_In, draws_In in Hd' as [Hd' _].
    apply Hx, list_elem_of_In. apply (sublist_In _ _ x Hd'). by left.
Qed.

(** The draws without a correct sample are those of the samples that are not correct. *)
Lemma draws_filter (p : A -> bool) k samples : List.filter (forallb p) (draws k samples) = draws k (List.filter p samples).
Proof.
  revert k. induction samples as [|x rest IH]; intros [|k]; [done| |by destruct (List.filter p (x :: rest))|]; [done|].
  cbn [draws List.filter]. rewrite List.filter_app, IH.
  assert (E : List.filter (forallb p) (List.map (cons x) (draws k rest)) =
              if p x then List.map (cons x) (List.filter (forallb p) (draws k rest)) else []).
  { induction (draws k rest) as [|d l IHl]; [by destruct (p x)|]. cbn [List.map List.filter forallb]. rewrite IHl.
    destruct (p x); [|done]. cbn [andb]. by destruct (forallb p d). }
  rewrite E, IH. destruct (p x); [done|]. by destruct (List.filter p rest).
Qed.

Lemma filter_partition (p : A -> bool) samples :
  (length (List.filter p samples) + length (List.filter (fun x => negb (p x)) samples) = length samples)%nat.
Proof. induction samples as [|x l IH]; [done|]. cbn [List.filter length]. destruct (p x); cbn [negb length]; lia. Qed.
End Draws.

(** C26: [pass_at_k] estimates by counting draws.  For any samples, the correct ones among
    them and [1 <= k]: it raises [ValueError] when there are fewer than [k] samples; it is
    0.0 when no draw of [k] samples has a correct one and 1.0 when every draw has one, and
    else one minus the quotient, in floating point, of the number of draws without a
    correct sample by the number of all draws; the draws being each sublist of [k] samples,
    once. *)
Theorem pass_at_k_draws {A} (samples : list A) (correct : A -> bool) (k : nat) :
  NoDup samples -> (1 <= k)%nat ->
  let all := draws k samples in
  let misses := List.filter (forallb (fun x => negb (correct x))) all in
  let n := Z.of_nat (length samples) in
  (NoDup all /\ forall d, In d all <-> d `sublist_of` samples /\ length d = k) /\
  pass_at_k n (Z.of_nat (length (List.filter correct samples))) (Z.of_nat k) =
    if (length samples <? k)%nat then
      Err (ValueError ("k (" ++ str_of_Z (Z.of_nat k) ++ ") must not exceed n (" ++ str_of_Z n ++ ")"))
    else if (length misses =? length all)%nat then Ok fzero
    else match misses with
         | [] => Ok one
         | _ => let! q := int_div (Z.of_nat (length misses)) (Z.of_nat (length all)) in Ok (fsub one q)
         end.
Proof.
  intros Hnd Hk all misses n. split; [split; [by apply draws_NoDup|intros d; apply draws_In]|].
  set (c := length (List.filter correct samples)). set (good := List.filter (fun x => negb (correct x)) samples).
  assert (Hc : (c + length good = length samples)%nat) by apply filter_partition.
  assert (Em : misses = draws k good) by apply draws_filter. rewrite Em. clear misses Em.
  assert (Lm : Z.of_nat (length (draws k good)) = comb (length good) k) by apply draws_length.
  assert (La : Z.of_nat (length all) = comb (length samples) k) by apply draws_length. unfold pass_at_k.
  destruct (Nat.ltb_spec (length samples) k) as [Hlt|Hge]; [by destruct (Z.ltb_spec n (Z.of_nat k)); [|lia]|].
  destruct (Z.ltb_spec n (Z.of_nat k)); [lia|].
  destruct (Z.eqb_spec (Z.of_nat c) 0) as [E0|N0].
  { replace (length good) with (length samples) in Lm by lia. by destruct (Nat.eqb_spec (length (draws k good)) (length all)); [|lia]. }
  pose proof (comb_fewer (length good) (length samples) k ltac:(lia) ltac:(lia)) as Hfew.
  destruct (Nat.eqb_spec (length (draws k good)) (length all)); [lia|].
  destruct (Z.leb_spec n (Z.of_nat c)) as [Hall|Hsome].
  { destruct good as [|x good]; [by destruct k; [lia|]|cbn [length] in Hc; lia]. }
  destruct (Z.ltb_spec n 0); [lia|]. destruct (Z.ltb_spec (Z.of_nat k) 0); [lia|]. unfold draw_counts.
  replace (Z.to_nat (n - Z.of_nat c)) with (length good) by lia. unfold n. rewrite !Nat2Z.id, <- Lm, <- La.
  destruct (Z.eqb_spec (Z.of_nat (length all)) 0); [lia|].
  destruct (draws k good) as [|d l]; [|done]. cbn [length Z.of_nat]. rewrite int_div_zero by lia. by vm_compute.
Qed.

Lemma pass_at_k_draws_witness :
  NoDup [1; 2; 3; 4] /\ (1 <= 2)%nat /\
  pass_at_k 4 1 2 = (let! q := int_div 3 6 in Ok (fsub one q)) /\ In [1; 3] (draws 2 [1; 2; 3; 4]).
Proof.
  assert (Hn : NoDup [1; 2; 3; 4]) by (apply (bool_decide_unpack _); vm_compute; exact I).
  split; [exact Hn|]. split; [lia|].
  destruct (pass_at_k_draws [1; 2; 3; 4] (fun x => x =? 2) 2 Hn ltac:(lia)) as [[_ H] E]. split; [exact E|].
  apply H. split; [apply sublist_skip, sublist_cons, sublist_skip, sublist_nil_l|done].
Defined.

(** Draws of no sample are not counted: none of them has a correct sample. *)
Example draws_of_none : (pass_at_k 5 5 0, pass_at_k 5 4 0) = (Ok one, Ok fzero).
Proof. vm_compute. reflexivity. Qed.

(** As many samples as draws: the estimator only says whether one of them was correct. *)
Lemma pass_at_all k c : 0 < k -> 0 <= c <= k -> pass_at_k k c k = Ok (if c =? 0 then fzero else one).
Proof.
  intros Hk Hc. unfold pass_at_k. destruct (Z.ltb_spec k k); [lia|]. destruct (Z.eqb_spec c 0); [done|].
  destruct (Z.leb_spec k c); [done|]. destruct (Z.ltb_spec k 0); [lia|]. unfold draw_counts.
  rewrite comb_diagonal, comb_small by lia. done.
Qed.

(** The score of a task that was run [k] times with [--pass-at-k k] is one when a run passed
    and zero when none did: the estimator is always asked for all of its samples. *)
Theorem sample_score_is_any worlds i k enabled temperature task row results :
  1 <= k -> sample_task (adapter := adapter) limit golden_file repo_root worlds i k enabled temperature task = Ok (row, results) ->
  Z.of_nat (length results) = k /\ runs row = k /\ correct row = count_true (flag "passed") results /\
  pak_score row = if existsb (flag "passed") results then one else fzero.
Proof.
  intros Hk H. unfold sample_task in H. apply bind_Ok in H as (rs & Hr & H). apply bind_Ok in H as (score & Hs & [= <- <-]).
  apply repeat_length in Hr as Hl. assert (Hn : Z.of_nat (length rs) = k) by lia. cbn [runs correct pak_score].
  split; [done|]. split; [done|]. split; [done|]. unfold count_true in Hs. pose proof (List.filter_length_le (flag "passed") rs).
  rewrite pass_at_all in Hs by lia. injection Hs as <-. destruct (existsb (flag "passed") rs) eqn:E.
  - apply existsb_exists in E as (r & Hin & Hp). assert (Hf : In r (List.filter (flag "passed") rs)) by (by apply filter_In).
    by destruct (List.filter (flag "passed") rs).
  - replace (List.filter (flag "passed") rs) with (@nil dict); [done|]. symmetry. clear -E.
    induction rs as [|r rs IH]; [done|]. cbn in *. apply orb_false_iff in E as [E1 E2]. rewrite E1. by apply IH.
Qed.
End Harness.

(** ** The canary of the repository *)

Module Canary.
Definition json (s : string) : string := replace_char "'" "034" s.

(** The assertions of [eval/golden/canary.json]. *)
Definition golden_text : string := json
  "{'task': 'canary', 'assertions': [{'path': 'intent', 'op': 'eq', 'value': 'analysis'}, {'path': 'route.lane', 'op': 'eq', 'value': 'interactive'}, {'path': 'final', 'op': 'ne', 'value': ''}, {'path': 'loop_count', 'op': 'lte', 'value': 2}]}".

Definition golden_files (stem : string) : option string := if String.eqb stem "canary" then Some golden_text else None.

Definition task_file : string := json
  "{'id': 'canary-001', 'request': 'Summarize the repository structure and tell me which languages it contains.', 'expected_intent': 'analysis', 'expected_acceptance_ok': true, 'budget_max_loops': 1, 'expected_recovery_packet_present': false, 'require_final': true}".

Definition task : EvalTask := match file_tasks task_file with Ok (t :: _) => t | _ => Build_EvalTask "" "" "" "" false false 0 false "" [] [] "" "" "" "" "" None None None end.

Lemma loop_count_assertion : unreachable_expectation golden_files task.
Proof.
  right. right. eexists _, _, [("path", PStr "loop_count"); ("op", PStr "lte"); ("value", PInt 2)].
  split; [vm_compute; reflexivity|]. split; [reflexivity|]. split; [cbn; tauto|]. split; [|by left].
  split; [done|]. by exists "loop_count", [].
Qed.

Abbreviation run_canary := (run_task (adapter := int_adapter) 25 "/repo" offline task false fzero).

Lemma canary_runs : exists output result, run_canary = Ok output /\ score_task golden_files task output = Ok result.
Proof.
  assert (H : is_ok (let! output := run_canary in score_task golden_files task output) = true) by (vm_compute; reflexivity).
  destruct run_canary as [output|]; [|done]. cbn [bind_res] in H. exists output.
  destruct (score_task golden_files task output) as [result|]; [|done]. by exists result.
Qed.

Lemma unreachable_expectations_fail_witness :
  exists output result, run_canary = Ok output /\ score_task golden_files task output = Ok result /\
    dlookup "passed" result = Some (PBool false).
Proof.
  destruct canary_runs as (output & result & Hr & Hs). exists output, result. split; [exact Hr|]. split; [exact Hs|].
  exact (unreachable_expectations_fail 25 golden_files "/repo" offline task false fzero output result loop_count_assertion Hr Hs).
Defined.

(** The groups of the report have no class: no result names one. *)
Example reported_groups : exists text,
  (let! output := run_canary in let! r := score_task golden_files task output in
   let! s := summary_of [r] in _render_text_report [("summary", PDict s); ("results", PList [PDict r])]) = Ok text /\
  contains (nl ++ "[default] subtotal: 0/1") text = true.
Proof. eexists. split; [vm_compute; reflexivity|vm_compute; reflexivity]. Qed.
End Canary.
