(* ===== verification/TraceSite.v ===== *)
(** * The trace site and its server: [main.py] and [commands/trace.py]

    The trace directory is a reading: its file names, which of them are files, and their
    texts.  Answers are the status, the content type and the body. *)
From Stdlib Require Import ZArith Lia String Ascii List Bool Sorted Permutation.
From stdpp Require Import base tactics list strings option.
From S2P Require Import Prelude PyStr StrFacts PyFloat PyVal Json RunRecord Url Visualize.
From S2P Require Http Eval RunCommand.
Local Open Scope string_scope.
Local Open Scope Z_scope.

Record TraceDir := {
  names : list string;              (* what [glob] goes through *)
  is_file : string -> bool;
  read_text : string -> res string  (* [OSError], or a [UnicodeDecodeError], which is a [ValueError] *) }.

(** [glob("run-*.json")]. *)
Definition run_file (name : string) : bool := startswith name "run-" && endswith name ".json" && (9 <=? py_len name).

(** [Path(name).stem] of such a name. *)
Definition stem (name : string) : string := str_prefix name (py_len name - 5).
Definition removeprefix (p s : string) : string := if startswith s p then str_drop (String.length p) s else s.

(** The newest name first. *)
Definition sorted_runs (d : TraceDir) : list string := py_sorted (fun a b => str_lt b a) (List.filter run_file (names d)).

Definition _trace_payload_from_path (d : TraceDir) (name : string) : res (option dict) :=
  match read_text d name with
  | Err (OSError _) => Ok None
  | Err e => Err e
  | Ok text =>
      match json_loads text with
      | Ok (PDict payload) => Ok (Some payload)
      | Ok _ => Ok None
      | Err e => if is_json_error e then Ok None else Err e
      end
  end.

Definition _trace_run_id (name : string) (payload : dict) : string :=
  match dget payload "run_id" PNone with
  | PStr s => if String.eqb (strip s) "" then removeprefix "run-" (stem name) else strip s
  | _ => removeprefix "run-" (stem name)
  end.

Definition _trace_run_summary (name : string) (payload : dict) (dashboard_href trace_href : string) : dict :=
  let verification := section payload "verification" in
  let working_set := section (section (section payload "telemetry") "context_budget") "working_set" in
  let checkpoint := section payload "checkpoint" in
  let latest := dget checkpoint "latest_checkpoint_id" PNone in
  let resume := dget checkpoint "resume_checkpoint_id" PNone in
  let intent := match dget payload "intent" PNone with PStr s => or_text (strip s) "(pending)" | _ => "(pending)" end in
  let count k := PInt (Z.of_nat (length (list_or_empty (dget payload k (PList []))))) in
  [("run_id", PStr (_trace_run_id name payload)); ("request", PStr (or_text (str_strip (dget payload "request" (PStr ""))) "(empty request)"));
   ("intent", PStr intent); ("dashboard_href", PStr dashboard_href); ("trace_href", PStr trace_href);
   ("events_count", count "events"); ("tool_results_count", count "tool_results");
   ("verification_ok", dget verification "ok" PNone); ("acceptance_ok", dget verification "acceptance_ok" PNone);
   ("halt_reason", PStr (str_strip (dget payload "halt_reason" (PStr ""))));
   ("working_set_tokens", dget working_set "token_estimate" (PInt 0));
   ("checkpoint_thread_id", dget checkpoint "thread_id" (PStr ""));
   ("checkpoint_id", if truthy latest then latest else if truthy resume then resume else PStr "")].

Definition _trace_payload_for_run (d : TraceDir) (run_id : string) : res (option dict) :=
  match RunCommand._validated_run_id (Some run_id) with
  | None => Ok None
  | Some id => let name := "run-" ++ id ++ ".json" in if is_file d name then _trace_payload_from_path d name else Ok None
  end.

(** The payloads of the directory, with their names. *)
Fixpoint payloads (d : TraceDir) (l : list string) : res (list (string * dict)) :=
  match l with
  | [] => Ok []
  | name :: rest =>
      let! payload := _trace_payload_from_path d name in
      let! others := payloads d rest in
      Ok (match payload with Some p => (name, p) :: others | None => others end)
  end.

Definition run_entry (np : string * dict) : dict :=
  let '(name, payload) := np in
  let run_id := _trace_run_id name payload in
  _trace_run_summary name payload ("/runs/" ++ run_id) ("/v1/runs/" ++ run_id).

Definition html_type : string := "text/html; charset=utf-8".
Definition json_type : string := "application/json; charset=utf-8".
Definition text_type : string := "text/plain; charset=utf-8".
Definition Answer : Type := Z * string * string.

Section Server.
Context (em_dash : string) (d : TraceDir) (mermaid_graph : string).

Definition answer_route (route : string) (runs : list dict) : res Answer :=
  if str_in route ["/"; "/index.html"] then let! body := render_trace_site_index_html runs in Ok (200, html_type, body)
  else if String.eqb route "/v1/runs" then Ok (200, json_type, Eval.json_pretty 0 (PDict [("runs", PList (List.map PDict runs))]))
  else if startswith route "/v1/runs/" then
    let run_id := removeprefix "/v1/runs/" route in
    let! payload := _trace_payload_for_run d run_id in
    Ok (match payload with
        | None => (404, json_type, json_dumps false (PDict [("error", PStr "not_found"); ("run_id", PStr run_id)]))
        | Some p => (200, json_type, Eval.json_pretty 0 (PDict p))
        end)
  else if startswith route "/runs/" then
    let run_id := removeprefix "/runs/" route in
    let! payload := _trace_payload_for_run d run_id in
    match payload with
    | None => Ok (404, text_type, "run not found" ++ nl)
    | Some p =>
        let! body := render_trace_dashboard_html em_dash p (Some mermaid_graph) (Some "/") (Some ("/v1/runs/" ++ run_id)) in
        Ok (200, html_type, body)
    end
  else Ok (404, text_type, "not found" ++ nl).

Definition _trace_http_response (request_path : string) : res Answer :=
  let! url := urlsplit request_path in
  let! entries := payloads d (sorted_runs d) in
  answer_route (Http.route_of (u_path url)) (List.map run_entry entries).
End Server.

(** ** The commands *)

(** A command gives its exit code and the files it wrote; [writable] says whether a path can
    be written (and a directory made), the rest is an [OSError]. *)
Definition Written : Type := list (string * string).

Section Commands.
Context (em_dash : string) (mermaid_graph : string) (writable : string -> bool).

(** [trace-view]: what is printed is written to the output, under the name [-]. *)
Definition trace_view_html (text : option string) (output : option string) : res (Z * Written) :=
  match text with
  | None => Ok (2, [])
  | Some text =>
      match json_loads text with
      | Ok (PDict payload) =>
          let! page := render_trace_dashboard_html em_dash payload (Some mermaid_graph) None None in
          match given output with
          | None => Ok (0, [("-", page)])
          | Some path => Ok (if writable path then (0, [(path, page)]) else (2, []))
          end
      | Ok _ => Ok (2, [])
      | Err e => if is_json_error e then Ok (2, []) else Err e
      end
  end.

(** [trace-view] in both formats; what is shown on the console comes last. *)
Definition trace_view_command (full_block : string) (html : bool) (text : option string) (output : option string) : res (Z * Written * list Shown) :=
  if html then let! (code, written) := trace_view_html text output in Ok (code, written, [])
  else
    match text with
    | None => Ok (2, [], [])
    | Some text =>
        match json_loads text with
        | Ok (PDict payload) =>
            let! (first, rest) := render_trace_dashboard full_block payload in
            let! rest := rest in
            Ok (0, [], (first ++ rest)%list)
        | Ok _ => Ok (2, [], [])
        | Err e => if is_json_error e then Ok (2, [], []) else Err e
        end
    end.

(** The loop over the traces: [None] is an [OSError] of a write, with what was written before. *)
Fixpoint site_pages (d : TraceDir) (l : list string) : res (Written * option (list dict)) :=
  match l with
  | [] => Ok ([], Some [])
  | name :: rest =>
      let! payload := _trace_payload_from_path d name in
      match payload with
      | None => site_pages d rest
      | Some p =>
          let dashboard := stem name ++ ".html" in
          let trace := "traces/" ++ name in
          let! page := render_trace_dashboard_html em_dash p (Some mermaid_graph) (Some "index.html") (Some trace) in
          if negb (writable dashboard) then Ok ([], None)
          else if negb (writable trace) then Ok ([(dashboard, page)], None)
          else
            let! (written, runs) := site_pages d rest in
            Ok (((dashboard, page) :: (trace, Eval.json_pretty 0 (PDict p)) :: written),
                option_map (cons (_trace_run_summary name p dashboard trace)) runs)
      end
  end.

(** [trace-site] into its output directory; [made]: the directories could be made. *)
Definition trace_site_command (d : option TraceDir) (made : bool) : res (Z * Written) :=
  match d with
  | None => Ok (2, [])
  | Some d =>
      if negb made then Ok (2, [])
      else
        let! (written, runs) := site_pages d (sorted_runs d) in
        match runs with
        | None => Ok (2, written)
        | Some runs =>
            let! page := render_trace_site_index_html runs in
            Ok (if writable "index.html" then (0, (written ++ [("index.html", page)])%list) else (2, written))
        end
  end.
End Commands.

(** [trace-serve] and [serve-api] up to the server. *)
Definition valid_port (port : Z) : bool := negb ((port <=? 0) || (65535 <? port)).
Definition trace_serve_command (is_dir : bool) (port : Z) (serve : Z) : Z :=
  if negb is_dir then 2 else if negb (valid_port port) then 2 else serve.
Definition serve_command (port : Z) (serve : Z) : Z := if negb (valid_port port) then 2 else serve.

(** [heal]: the attributes [repo_path] and [poll_interval] of the arguments; the loop it
    starts, or the exit code 2. *)
Definition heal_command (repo_path poll_interval : pyval) (repo_root : string) : Z + string * float :=
  let path := if truthy repo_path then str_strip repo_path else repo_root in
  let interval := match poll_interval with
                  | PNone => Ok (float_of_Z 60)
                  | v => try_except (py_float v) is_type_or_value_error (fun _ => Ok (float_of_Z 60))
                  end in
  match interval with
  | Ok f => if fltb f one then inl 2 else inr (path, f)
  | Err _ => inl 1
  end.

(** ** The root of the repository *)

(** [configured dir]: [configs] is a directory and has a [runtime.*.toml], or [None] when
    reading it fails; directories are paths of components. *)
Fixpoint find_root (configured : list string -> option bool) (fuel : nat) (cur : list string) : option (list string) :=
  match fuel with
  | O => None
  | S fuel =>
      match configured cur with
      | Some true => Some cur
      | _ => match cur with [] => None | _ => find_root configured fuel (removelast cur) end
      end
  end.

(** [_resolve_repo_root]; [resolve] is [Path(p).expanduser().resolve()]. *)
Definition _resolve_repo_root (resolve : string -> list string) (configured : list string -> option bool) (repo_root_arg env_root : option string)
    (cwd package_dir : list string) : list string :=
  let named o := match o with Some s => if String.eqb (strip s) "" then None else Some (resolve s) | None => None end in
  match named repo_root_arg, named env_root with
  | Some r, _ | None, Some r => r
  | None, None =>
      match find_root configured 32 cwd, find_root configured 32 package_dir with
      | Some r, _ | None, Some r => r
      | None, None => cwd
      end
  end.

(** ** Properties *)

(** The files the server may read: they are in the directory itself. *)
Definition trace_name (n : string) : Prop := run_file n = true /\ lacks "/" n = true.

(** Two directories with the same traces. *)
Definition same_traces (d1 d2 : TraceDir) : Prop :=
  (forall n, In n (names d1) -> lacks "/" n = true) /\
  List.filter run_file (names d1) = List.filter run_file (names d2) /\
  forall n, trace_name n -> is_file d1 n = is_file d2 n /\ read_text d1 n = read_text d2 n.

Lemma id_char_no_slash c : (is_alnum c || contains (String c "") "._-")%bool = true -> negb (Ascii.eqb c "/") = true.
Proof. destruct c as [[] [] [] [] [] [] [] []]; vm_compute; auto. Qed.

Lemma run_id_lacks id : run_id_text id = true -> lacks "/" id = true /\ id <> "".
Proof.
  destruct id as [|c r]; [done|]. cbn [run_id_text]. intros [[Hc Hr]%andb_prop _]%andb_prop. split; [|done].
  unfold lacks. cbn [all_chars]. apply andb_true_intro. split; [apply id_char_no_slash; by rewrite Hc|].
  eapply all_chars_impl; [|exact Hr]. exact id_char_no_slash.
Qed.

(** The file of a valid id is a trace of the directory. *)
Lemma run_name_trace id : run_id_text id = true -> trace_name ("run-" ++ id ++ ".json").
Proof.
  intros [Hl Hn]%run_id_lacks. split.
  - unfold run_file. rewrite startswith_app, <- str_app_assoc, app_endswith. cbn [andb]. rewrite !py_len_app. apply Z.leb_le.
    change (py_len "run-") with 4. change (py_len ".json") with 5. pose proof (py_len_nonneg id). lia.
  - rewrite !lacks_app, Hl. done.
Qed.

Section Same.
Context (d1 d2 : TraceDir).
Hypothesis same : same_traces d1 d2.

Lemma same_payload n : trace_name n -> _trace_payload_from_path d1 n = _trace_payload_from_path d2 n.
Proof. intros H. unfold _trace_payload_from_path. destruct same as (_ & _ & Hs). by destruct (Hs n H) as [_ ->]. Qed.

Lemma same_for_run id : _trace_payload_for_run d1 id = _trace_payload_for_run d2 id.
Proof.
  unfold _trace_payload_for_run, RunCommand._validated_run_id. destruct (run_id_text (strip id)) eqn:E; [|done].
  pose proof (run_name_trace _ E) as H. rewrite (same_payload _ H). destruct same as (_ & _ & Hs). by destruct (Hs _ H) as [-> _].
Qed.

Lemma same_sorted : sorted_runs d1 = sorted_runs d2 /\ Forall trace_name (sorted_runs d1).
Proof.
  destruct same as (Hl & Hf & _). unfold sorted_runs. rewrite <- Hf. split; [done|]. apply List.Forall_forall. intros n Hn.
  apply py_sorted_In, filter_In in Hn as [Hn Hr]. split; [exact Hr|by apply Hl].
Qed.

Lemma same_payloads l : Forall trace_name l -> payloads d1 l = payloads d2 l.
Proof. induction 1 as [|n l Hn _ IH]; [done|]. cbn [payloads]. by rewrite (same_payload n Hn), IH. Qed.
End Same.

(** C33: The trace server shows the traces of its directory and nothing else.  If two
    directories have the same traces (the files [run-*.json] directly in them), they give the
    same answer to every request: whatever path a client sends, no other file and no other
    directory has an influence on what it gets. *)
Theorem trace_server_confined em_dash d1 d2 mermaid_graph request_path :
  same_traces d1 d2 ->
  _trace_http_response em_dash d1 mermaid_graph request_path = _trace_http_response em_dash d2 mermaid_graph request_path.
Proof.
  intros H. unfold _trace_http_response. destruct (urlsplit request_path) as [url|]; [|done]. cbn [bind_res].
  destruct (same_sorted d1 d2 H) as [Hs Hf]. rewrite <- Hs, (same_payloads d1 d2 H _ Hf). destruct (payloads d2 _) as [entries|]; [|done].
  cbn [bind_res]. unfold answer_route. by rewrite !(same_for_run d1 d2 H).
Qed.

(** ** A directory *)
Module Sample.

(** Two traces and a file that is none; the payload of the second names another run. *)
Definition text_of (n : string) : res string :=
  if String.eqb n "run-1.json" then Ok "{}"
  else if String.eqb n "run-2.json" then Ok (json_dumps false (PDict [("run_id", PStr "other")]))
  else if String.eqb n "notes.json" then Ok "{}" else Err (OSError "no such file").
Definition dir : TraceDir := {|
  names := ["run-1.json"; "notes.json"; "run-2.json"]; is_file := fun n => is_ok (text_of n);
  read_text := text_of |}.
Definition moved : TraceDir := {|
  names := ["run-1.json"; "run-2.json"; "secret.json"]; is_file := fun n => is_file dir n || String.eqb n "../run-3.json";
  read_text := fun n => if String.eqb n "notes.json" then Ok "changed" else if String.eqb n "../run-3.json" then Ok "{}" else text_of n |}.

Definition get (path : string) : res Answer := _trace_http_response "-" dir "graph LR" path.
Definition status (r : res Answer) : option Z := match r with Ok (s, _, _) => Some s | Err _ => None end.

Example answers :
  List.map (fun p => status (get p)) ["/"; "/index.html/"; "/v1/runs?x=1"; "/v1/runs/1"; "/runs/1"; "/runs/2/"; "/v1/runs/3"; "/runs/../1"; "/else"] =
  [Some 200; Some 200; Some 200; Some 200; Some 200; Some 200; Some 404; Some 404; Some 404].
Proof. vm_compute. reflexivity. Qed.

(** The list links a run by the id of its payload, the server looks it up by the name of its
    file: the link of the second trace answers 404. *)
Example dead_link :
  List.map (fun np => dget (run_entry np) "dashboard_href" PNone) (match payloads dir (sorted_runs dir) with Ok l => l | Err _ => [] end)
    = [PStr "/runs/other"; PStr "/runs/1"] /\
  status (get "/runs/other") = Some 404 /\ status (get "/runs/2") = Some 200.
Proof. vm_compute. auto. Qed.

(** A trace on the console. *)
Example shown :
  trace_view_command "-" "graph LR" (fun _ => true) "#" false
    (Some (json_dumps false (PDict [("request", PStr " fix it "); ("final", PStr "done");
       ("events", PList [PDict [("ts_ms", PInt 1000)]; PDict [("ts_ms", PInt 2500); ("kind", PStr "node")]])]))) None =
  Ok (0, [], [Panel "Lula Console" ("request: fix it" ++ nl ++ "intent:  (pending)"); Panel "Verification" "No verification summary captured.";
              Rows "Timeline" [["01"; "+0.00s"; "event"; middle_dot]; ["02"; "+1.50s"; "node"; "####"]];
              Panel "Tool Results" "No tool invocations captured."; Panel "Final Output" "done"]).
Proof. vm_compute. reflexivity. Qed.

Lemma trace_server_confined_witness :
  same_traces dir moved /\ _trace_http_response "-" dir "graph LR" "/runs/2" = _trace_http_response "-" moved "graph LR" "/runs/2".
Proof.
  assert (H : same_traces dir moved).
  { split; [|split; [reflexivity|]].
    - intros n [<-|[<-|[<-|[]]]]; reflexivity.
    - intros n [Hr Hl]. cbn [moved is_file read_text].
      destruct (String.eqb_spec n "../run-3.json") as [->|]; [discriminate|]. destruct (String.eqb_spec n "notes.json") as [->|]; [discriminate|].
      split; [by rewrite orb_false_r|reflexivity]. }
  split; [exact H|]. apply (trace_server_confined "-" dir moved "graph LR" "/runs/2"). exact H.
Defined.
End Sample.
