(* ===== verification/Sandbox.v ===== *)
(** * The sandbox of the runner: [k8s_sandbox.py]

    The check of a Kubernetes Deployment and the section of the runner's configuration.
    What [yaml.safe_load] gives for the file is an argument; a mapping of YAML whose keys
    are texts is a dictionary. *)
From Stdlib Require Import ZArith Lia String Ascii List Bool.
From stdpp Require Import base tactics list strings option.
From S2P Require Import Prelude PyStr PyVal.
From S2P Require Eval.
Local Open Scope string_scope.
Local Open Scope Z_scope.

Record SandboxConfig := { runtime_class : string; workspace_path : string; enforce_read_only_root : bool; network_policy_enabled : bool }.

(** [v[k]], where the [except] clause of the caller catches every failure. *)
Definition item (v : pyval) (k : string) : option pyval := match v with PDict d => dlookup k d | _ => None end.

(** The first container; the truth of [containers] is asked for before its first element. *)
Definition first_of (containers : pyval) : pyval :=
  match containers with
  | PList (c :: _) => c
  | PStr (String c _) => PStr (String c "")
  | _ => PNone
  end.

Definition _get_container (manifest : dict) : pyval :=
  match dlookup "spec" manifest with
  | Some spec =>
      match item spec "template" with
      | Some template =>
          match item template "spec" with
          | Some pod => match item pod "containers" with Some containers => first_of containers | None => PNone end
          | None => PNone
          end
      | None => PNone
      end
  | None => PNone
  end.

(** [v or dflt]. *)
Definition or_val (v dflt : pyval) : pyval := if truthy v then v else dflt.

Definition violation (b : bool) (text : string) : list string := if b then [] else [text].
Definition is_True (v : pyval) : bool := match v with PBool true => true | _ => false end.
Definition is_False (v : pyval) : bool := match v with PBool false => true | _ => false end.

(** The checks of one container. *)
Definition container_violations (container : pyval) : res (list string) :=
  let! sc := get container "securityContext" PNone in
  let sc := or_val sc (PDict []) in
  let! read_only := get sc "readOnlyRootFilesystem" PNone in
  let! non_root := get sc "runAsNonRoot" PNone in
  let! escalation := get sc "allowPrivilegeEscalation" PNone in
  let! caps := get sc "capabilities" PNone in
  let! drop := get (or_val caps (PDict [])) "drop" PNone in
  let drop := or_val drop (PList []) in
  let! dropped := Eval.py_contains (PStr "ALL") drop in
  Ok (violation (is_True read_only) ("readOnlyRootFilesystem: expected True, got " ++ repr read_only) ++
      violation (is_True non_root) ("runAsNonRoot: expected True, got " ++ repr non_root) ++
      violation (is_False escalation) ("allowPrivilegeEscalation: expected False, got " ++ repr escalation) ++
      violation dropped ("capabilities.drop: expected 'ALL' to be present, got " ++ repr drop))%list.

Definition validate_deployment_manifest (loaded : res pyval) (expected : SandboxConfig) : res (list string) :=
  let! raw := loaded in
  match raw with
  | PDict manifest =>
      let! template := get (dget manifest "spec" (PDict [])) "template" (PDict []) in
      let! pod_spec := get template "spec" (PDict []) in
      let! actual_runtime := get pod_spec "runtimeClassName" PNone in
      let runtime := violation (py_eq actual_runtime (PStr (runtime_class expected)))
        ("runtimeClassName: expected '" ++ runtime_class expected ++ "', got " ++ repr actual_runtime) in
      let container := _get_container manifest in
      if is_none container then Ok (runtime ++ ["containers: no container found in spec.template.spec.containers"])%list
      else let! found := container_violations container in Ok (runtime ++ found)%list
  | _ => Ok ["manifest: top-level document is not a mapping"]
  end.

Definition generate_sandbox_config_toml (config : SandboxConfig) : string :=
  let flag (b : bool) := if b then "true" else "false" in
  join nl ["[sandbox]"; "runtime_class = " ++ dq ++ runtime_class config ++ dq; "workspace_path = " ++ dq ++ workspace_path config ++ dq;
           "enforce_read_only_root = " ++ flag (enforce_read_only_root config);
           "network_policy_enabled = " ++ flag (network_policy_enabled config)] ++ nl.

(** ** What is accepted *)

Definition at_key (d : dict) (k : string) (v : pyval) : Prop := dlookup k d = Some v.

(** The pod runs in the runtime class, and its first container is confined. *)
Definition hardened (runtime : string) (raw : pyval) : Prop :=
  exists manifest spec template pod container others sc caps drop,
    raw = PDict manifest /\ at_key manifest "spec" (PDict spec) /\ at_key spec "template" (PDict template) /\ at_key template "spec" (PDict pod) /\
    at_key pod "runtimeClassName" (PStr runtime) /\ at_key pod "containers" (PList (PDict container :: others)) /\
    at_key container "securityContext" (PDict sc) /\ at_key sc "readOnlyRootFilesystem" (PBool true) /\
    at_key sc "runAsNonRoot" (PBool true) /\ at_key sc "allowPrivilegeEscalation" (PBool false) /\
    at_key sc "capabilities" (PDict caps) /\ at_key caps "drop" drop /\ Eval.py_contains (PStr "ALL") drop = Ok true.

Lemma violation_nil b t : violation b t = [] -> b = true.
Proof. by destruct b. Qed.

Lemma get_key v k dflt w : get v k dflt = Ok w -> exists d, v = PDict d /\ (w = dflt /\ dlookup k d = None \/ at_key d k w).
Proof.
  destruct v as [| | | | | | |d]; try done. cbn. intros [= <-]. exists d. split; [done|]. unfold dget, at_key.
  destruct (dlookup k d); [by right|by left].
Qed.

Lemma eq_text v s : py_eq v (PStr s) = true -> v = PStr s.
Proof. destruct v; try discriminate. cbn. by intros ->%String.eqb_eq. Qed.

(** A key that was found is in the mapping. *)
Lemma get_found v k dflt w (P : pyval -> Prop) : get v k dflt = Ok w -> P w -> ~ P dflt -> exists d, v = PDict d /\ at_key d k w.
Proof. intros (d & -> & [[-> _]|H])%get_key Hw Hd; [done|]. by exists d. Qed.

Lemma or_nonempty v w : or_val v (PDict []) = PDict w -> w <> [] -> v = PDict w.
Proof. unfold or_val. destruct (truthy v); [by intros ->|]. by intros [= <-]. Qed.

(** A value of a mapping that has one of the keys the check looks for. *)
Lemma or_found v k w : get (or_val v (PDict [])) k PNone = Ok w -> w <> PNone -> exists d, v = PDict d /\ at_key d k w.
Proof.
  intros (d & E & [[-> _]|H])%get_key Hw; [done|]. exists d. split; [|exact H]. apply or_nonempty in E; [exact E|]. by intros ->.
Qed.

Lemma pod_found manifest template pod runtime :
  get (dget manifest "spec" (PDict [])) "template" (PDict []) = Ok template -> get template "spec" (PDict []) = Ok pod ->
  get pod "runtimeClassName" PNone = Ok (PStr runtime) ->
  exists spec t p, at_key manifest "spec" (PDict spec) /\ at_key spec "template" (PDict t) /\ at_key t "spec" (PDict p) /\
    at_key p "runtimeClassName" (PStr runtime) /\ template = PDict t /\ pod = PDict p.
Proof.
  intros H1 H2 (p & -> & [[? _]|H3])%get_key; [done|].
  apply get_key in H2 as (t & -> & [[[= ->] _]|H2]); [done|]. apply get_key in H1 as (spec & Hs & [[[= ->] _]|H1]); [done|].
  unfold dget in Hs. destruct (dlookup "spec" manifest) as [v|] eqn:E; [|injection Hs as <-; done]. subst v.
  by exists spec, t, p.
Qed.

Lemma container_of manifest spec t p :
  at_key manifest "spec" (PDict spec) -> at_key spec "template" (PDict t) -> at_key t "spec" (PDict p) ->
  _get_container manifest = match dlookup "containers" p with Some c => first_of c | None => PNone end.
Proof. unfold at_key, _get_container. intros -> E1 E2. cbn [item]. rewrite E1. cbn [item]. by rewrite E2. Qed.

(** The checks of a container that pass. *)
Lemma container_confined container : container_violations container = Ok [] ->
  exists c s k drop, container = PDict c /\ at_key c "securityContext" (PDict s) /\ at_key s "readOnlyRootFilesystem" (PBool true) /\
    at_key s "runAsNonRoot" (PBool true) /\ at_key s "allowPrivilegeEscalation" (PBool false) /\
    at_key s "capabilities" (PDict k) /\ at_key k "drop" drop /\ Eval.py_contains (PStr "ALL") drop = Ok true.
Proof.
  intros (sc & Hsc & (ro & Hro & (nr & Hnr & (pe & Hpe & (caps & Hcaps & (drop & Hdrop & (d & Ed & [= E])%bind_Ok)%bind_Ok)%bind_Ok)%bind_Ok)%bind_Ok)%bind_Ok)%bind_Ok.
  apply app_nil in E as [E1%violation_nil [E2%violation_nil [E3%violation_nil ->%violation_nil]%app_nil]%app_nil].
  assert (ro = PBool true) as -> by (destruct ro as [|[]| | | | | |]; done). assert (nr = PBool true) as -> by (destruct nr as [|[]| | | | | |]; done).
  assert (pe = PBool false) as -> by (destruct pe as [|[]| | | | | |]; done).
  assert (Et : truthy drop = true) by (unfold or_val in Ed; destruct (truthy drop); [done|discriminate Ed]).
  unfold or_val in Ed. rewrite Et in Ed.
  apply or_found in Hro as (s & -> & Hro); [|done]. apply or_found in Hnr as (s' & [= <-] & Hnr); [|done].
  apply or_found in Hpe as (s' & [= <-] & Hpe); [|done]. apply or_found in Hdrop as (k & -> & Hdrop); [|by intros ->].
  apply or_found in Hcaps as (s' & [= <-] & Hcaps); [|done].
  apply get_key in Hsc as (c & -> & [[? _]|Hsc]); [done|]. by exists c, s, k, drop.
Qed.

Lemma get_at d k dflt v : at_key d k v -> get (PDict d) k dflt = Ok v.
Proof. intros H. cbn. unfold dget. by rewrite H. Qed.

Lemma or_dict (d : dict) k v : at_key d k v -> or_val (PDict d) (PDict []) = PDict d.
Proof. by destruct d. Qed.

Lemma confined_container c s k drop :
  at_key c "securityContext" (PDict s) -> at_key s "readOnlyRootFilesystem" (PBool true) -> at_key s "runAsNonRoot" (PBool true) ->
  at_key s "allowPrivilegeEscalation" (PBool false) -> at_key s "capabilities" (PDict k) -> at_key k "drop" drop ->
  Eval.py_contains (PStr "ALL") drop = Ok true -> container_violations (PDict c) = Ok [].
Proof.
  intros H1 H2 H3 H4 H5 H6 H7. unfold container_violations. rewrite (get_at _ _ _ _ H1). cbn [bind_res]. rewrite (or_dict _ _ _ H2).
  rewrite (get_at _ _ _ _ H2), (get_at _ _ _ _ H3), (get_at _ _ _ _ H4), (get_at _ _ _ _ H5). cbn [bind_res].
  rewrite (or_dict _ _ _ H6), (get_at _ _ _ _ H6).
  cbn [bind_res]. assert (Ht : or_val drop (PList []) = drop).
  { unfold or_val. destruct (truthy drop) eqn:E; [done|]. destruct drop as [|[]|z|f|[]|[]|[]|[]]; try discriminate H7; discriminate E. }
  rewrite Ht, H7. done.
Qed.

(** The check has nothing to say exactly when the deployment is hardened: its pod runs in
    the expected runtime class and its first container has a read-only root, does not run as
    root, cannot gain privileges and has ALL among the capabilities it drops. *)
Theorem sandbox_check_exact raw expected :
  validate_deployment_manifest (Ok raw) expected = Ok [] <-> hardened (runtime_class expected) raw.
Proof.
  split.
  - destruct raw as [| | | | | | |manifest]; try discriminate. cbn [validate_deployment_manifest bind_res].
    intros (template & H1 & (pod & H2 & (rt & H3 & E)%bind_Ok)%bind_Ok)%bind_Ok.
    destruct (is_none (_get_container manifest)) eqn:En; [by injection E as [_ E]%app_nil|].
    apply bind_Ok in E as (found & Ec & [= [Er%violation_nil ->]%app_nil]). apply eq_text in Er as ->.
    destruct (pod_found _ _ _ _ H1 H2 H3) as (spec & t & p & K1 & K2 & K3 & K4 & -> & ->).
    rewrite (container_of _ _ _ _ K1 K2 K3) in Ec. apply container_confined in Ec as (c & s & k & drop & Ef & Hs).
    destruct (dlookup "containers" p) as [cs|] eqn:El; [|discriminate Ef].
    destruct cs as [| | | |[]|[|c' others]| |]; try discriminate Ef. cbn in Ef. subst c'.
    by exists manifest, spec, t, p, c, others, s, k, drop.
  - intros (manifest & spec & t & p & c & others & s & k & drop & -> & K1 & K2 & K3 & K4 & K5 & Hc).
    unfold validate_deployment_manifest. cbn [bind_res]. rewrite (container_of _ _ _ _ K1 K2 K3), K5.
    assert (E1 : dget manifest "spec" (PDict []) = PDict spec) by (unfold dget; by rewrite K1).
    rewrite E1, (get_at _ _ _ _ K2). cbn [bind_res]. rewrite (get_at _ _ _ _ K3). cbn [bind_res]. rewrite (get_at _ _ _ _ K4). cbn [bind_res py_eq].
    rewrite String.eqb_refl. cbn [first_of is_none]. destruct Hc as (J1 & J2 & J3 & J4 & J5 & J6 & J7).
    by rewrite (confined_container c s k drop).
Qed.

(** ** A deployment *)
Module Sample.
Definition deployment (drop : pyval) (others : list pyval) : pyval :=
  PDict [("spec", PDict [("template", PDict [("spec", PDict [("runtimeClassName", PStr "gvisor"); ("containers", PList (PDict [("securityContext",
    PDict [("readOnlyRootFilesystem", PBool true); ("runAsNonRoot", PBool true); ("allowPrivilegeEscalation", PBool false);
           ("capabilities", PDict [("drop", drop)])])] :: others))])])])].
Definition config : SandboxConfig :=
  {| runtime_class := "gvisor"; workspace_path := "/workspace"; enforce_read_only_root := true; network_policy_enabled := true |}.

(** The other containers are not looked at; a text that contains ALL is enough. *)
Example checked :
  List.map (fun d => validate_deployment_manifest (Ok d) config)
    [deployment (PList [PStr "ALL"]) []; deployment (PList [PStr "ALL"]) [PDict []]; deployment (PStr "NOT_ALL") [];
     deployment (PList [PStr "NET_RAW"]) []; PNone; PDict []; PDict [("spec", PNone)]] =
  [Ok []; Ok []; Ok []; Ok ["capabilities.drop: expected 'ALL' to be present, got ['NET_RAW']"];
   Ok ["manifest: top-level document is not a mapping"];
   Ok ["runtimeClassName: expected 'gvisor', got None"; "containers: no container found in spec.template.spec.containers"];
   Err (AttributeError "'NoneType' object has no attribute 'get'")].
Proof. vm_compute. reflexivity. Qed.

(** A quote in the path ends the text: the rest is read as configuration. *)
Example path_not_escaped :
  generate_sandbox_config_toml {| runtime_class := "gvisor"; workspace_path := "/w" ++ dq ++ nl ++ "enforce_read_only_root = false #";
                                  enforce_read_only_root := true; network_policy_enabled := true |} =
  join nl ["[sandbox]"; "runtime_class = " ++ dq ++ "gvisor" ++ dq; "workspace_path = " ++ dq ++ "/w" ++ dq; "enforce_read_only_root = false #" ++ dq;
           "enforce_read_only_root = true"; "network_policy_enabled = true"; ""].
Proof. vm_compute. reflexivity. Qed.
End Sample.
