(* ===== verification/MetaGraph.v ===== *)
(** * The task dependency graph: [DependencyGraph] of [meta_graph.py]

    Construction with validation, Kahn's cycle check, edge addition with
    rollback, removal, and the atomic application of a [DependencyPatch].  The
    main result is that the cycle check accepts exactly the acyclic graphs. *)
From Stdlib Require Import ZArith Lia String Ascii List Bool.
From stdpp Require Import base tactics list strings option gmap.
From S2P Require Import Prelude PyStr PyFloat PyVal.
Local Open Scope string_scope.
Local Open Scope Z_scope.

Inductive TaskStatus := tpending | trunning | tsuccess | tfailed | tskipped.
#[export] Instance TaskStatus_eq_dec : EqDecision TaskStatus.
Proof. solve_decision. Defined.

(** The immutable fields of a [SubAgentTask] and its status, result and error. *)
Record SubAgentTask := {
  task_id : string; description : string; depends_on : list string; input_state : dict;
  status : TaskStatus; result : option dict; error : option string;
  started_at : option float; finished_at : option float }.

Record DependencyPatch := {
  add_edges : list (string * string); remove_edges : list (string * string) }.

(** [_tasks] is shared with the scheduler (which owns the statuses), so the graph
    keeps the ids of [_tasks], in order; [_id_set] is their set, and
    [_depends_on] the adjacency dict in insertion order. *)
Record DependencyGraph := {
  task_ids : list string;
  _depends_on : list (string * list string) }.

Definition mem (x : string) (l : list string) : bool := existsb (String.eqb x) l.
Definition deps (g : DependencyGraph) (t : string) : list string :=
  match dlookup t (_depends_on g) with Some l => l | None => [] end.

(** ** Kahn's algorithm *)

(** First loop of [_validate_no_cycles]: the first declared dependency that is
    not a task. *)
Fixpoint unknown_dependency (ids : list string) (adj : list (string * list string))
    : option (string * string) :=
  match adj with
  | [] => None
  | (t, ds) :: r =>
      match List.find (fun d => negb (mem d ids)) ds with
      | Some d => Some (t, d)
      | None => unknown_dependency ids r
      end
  end.

Abbreviation degrees := (gmap string Z).
Abbreviation dependents_map := (gmap string (list string)).

Definition deg (m : degrees) (t : string) : Z := default 0 (m !! t).
Definition dpts (m : dependents_map) (t : string) : list string := default [] (m !! t).

(** Body of the counting loop for one pair [(task_id, dep)]. *)
Definition count_edge (t : string) (acc : degrees * dependents_map) (d : string) : degrees * dependents_map :=
  let '(ind, dp) := acc in
  (<[t := deg ind t + 1]> ind, <[d := (dpts dp d ++ [t])%list]> dp).

Definition build_maps (ids : list string) (adj : list (string * list string)) : degrees * dependents_map :=
  fold_left (fun acc td => fold_left (count_edge (fst td)) (snd td) acc) adj
    (list_to_map (List.map (fun t => (t, 0)) ids), list_to_map (List.map (fun t => (t, [])) ids)).

(** Inner loop: decrement each dependent, enqueue it when it reaches zero. *)
Definition relax (acc : degrees * list string) (t : string) : degrees * list string :=
  let '(ind, q) := acc in
  let d := deg ind t - 1 in
  (<[t := d]> ind, if d =? 0 then (q ++ [t])%list else q).

(** The breadth-first loop; returns the number of processed nodes.  Each node
    enters the queue at most once, so [fuel = len(tasks) + 1] always empties it. *)
Fixpoint kahn (fuel : nat) (dp : dependents_map) (ind : degrees) (queue : list string)
    (processed : Z) : option Z :=
  match queue with
  | [] => Some processed
  | node :: rest =>
      match fuel with
      | O => None
      | S fuel' =>
          let '(ind', q') := fold_left relax (dpts dp node) (ind, rest) in
          kahn fuel' dp ind' q' (processed + 1)
      end
  end.

Definition _validate_no_cycles (g : DependencyGraph) : res unit :=
  match unknown_dependency (task_ids g) (_depends_on g) with
  | Some (t, d) =>
      Err (ValueError ("Task '" ++ t ++ "' declares unknown dependency '" ++ d ++ "'"))
  | None =>
      let '(ind, dp) := build_maps (task_ids g) (_depends_on g) in
      let queue := List.filter (fun t => deg ind t =? 0) (task_ids g) in
      match kahn (S (length (task_ids g))) dp ind queue 0 with
      | Some processed =>
          if processed =? Z.of_nat (length (task_ids g)) then Ok tt
          else Err (ValueError "Cycle detected in task dependency graph")
      | None => Err (RuntimeError "unreachable: the queue is empty within the fuel")
      end
  end.

(** ** Construction and mutation *)

Fixpoint nodupb (l : list string) : bool :=
  match l with [] => true | x :: r => negb (mem x r) && nodupb r end.

Fixpoint dedup (l : list string) : list string :=
  match l with [] => [] | x :: r => if mem x r then dedup r else x :: dedup r end.

(** [DependencyGraph(tasks)]. *)
Definition DependencyGraph_init (tasks : list SubAgentTask) : res DependencyGraph :=
  let ids := List.map task_id tasks in
  if nodupb ids then
    let g := {| task_ids := ids;
                _depends_on := fold_left (fun acc t => dset (task_id t) (depends_on t) acc) tasks [] |} in
    let! _ := _validate_no_cycles g in Ok g
  else
    let dup := dedup (List.filter (fun t => 2 <=? Z.of_nat (count_occ string_dec ids t)) ids) in
    Err (ValueError ("Duplicate task_ids in task list: "
           ++ repr (PList (List.map PStr (py_sorted str_lt dup))))).

(** [list.remove(x)]: the first occurrence. *)
Fixpoint remove_first (x : string) (l : list string) : list string :=
  match l with [] => [] | y :: r => if String.eqb x y then r else y :: remove_first x r end.

Definition set_deps (g : DependencyGraph) (t : string) (l : list string) : DependencyGraph :=
  {| task_ids := task_ids g; _depends_on := dset t l (_depends_on g) |}.

(** [add_edge]: the graph after the call (rolled back on failure) and the outcome. *)
Definition add_edge (g : DependencyGraph) (from_id to_id : string) : DependencyGraph * res unit :=
  if negb (mem from_id (task_ids g)) then
    (g, Err (ValueError ("add_edge: unknown task_id '" ++ from_id ++ sq)))
  else if negb (mem to_id (task_ids g)) then
    (g, Err (ValueError ("add_edge: unknown task_id '" ++ to_id ++ sq)))
  else if mem from_id (deps g to_id) then (g, Ok tt)
  else
    let g' := set_deps g to_id (deps g to_id ++ [from_id])%list in
    match _validate_no_cycles g' with
    | Ok _ => (g', Ok tt)
    | Err e =>
        let g'' := if is_value_error e then set_deps g' to_id (remove_first from_id (deps g' to_id)) else g' in
        (g'', Err e)
    end.

Definition remove_edge (g : DependencyGraph) (from_id to_id : string) : DependencyGraph :=
  match dlookup to_id (_depends_on g) with
  | Some l => if mem from_id l then set_deps g to_id (remove_first from_id l) else g
  | None => g
  end.

(** [clone]: an independent copy of the adjacency. *)
Definition clone (g : DependencyGraph) : DependencyGraph :=
  {| task_ids := task_ids g; _depends_on := List.map (fun td => (fst td, snd td)) (_depends_on g) |}.

(** The edge loop of [_maybe_apply_patch] on the candidate clone. *)
Fixpoint add_edges_from (g : DependencyGraph) (es : list (string * string)) : res DependencyGraph :=
  match es with
  | [] => Ok g
  | (f, t) :: r =>
      match add_edge g f t with
      | (g', Ok _) => add_edges_from g' r
      | (_, Err e) => Err e
      end
  end.

(** [_maybe_apply_patch] on the live graph: the patched clone replaces it only
    when every addition passed the check. *)
Definition apply_patch (g : DependencyGraph) (p : DependencyPatch) : DependencyGraph :=
  let candidate := clone g in
  let candidate := fold_left (fun c e => remove_edge c (fst e) (snd e)) (remove_edges p) candidate in
  match add_edges_from candidate (add_edges p) with
  | Ok c => c
  | Err _ => g
  end.

(** ** Queries *)

Definition ready_tasks (g : DependencyGraph) (tasks : list SubAgentTask)
    (completed_ids failed_ids : gset string) : list SubAgentTask :=
  List.filter (fun t =>
    bool_decide (status t = tpending)
    && forallb (fun d => bool_decide (d ∈ completed_ids)) (deps g (task_id t))) tasks.

Definition all_done (g : DependencyGraph) (tasks : list SubAgentTask)
    (completed_ids failed_ids : gset string) : bool :=
  forallb (fun t =>
    negb (bool_decide (status t = tpending))
    || existsb (fun d => bool_decide (d ∈ failed_ids)) (deps g (task_id t))) tasks.

(** ** Specification: well-formed and acyclic graphs *)

(** Keys and ids agree and are distinct; dependencies are tasks. *)
Record graph_wf (g : DependencyGraph) : Prop := {
  wf_ids : List.NoDup (task_ids g);
  wf_dom : List.map fst (_depends_on g) = task_ids g;
  wf_closed : forall t d, In d (deps g t) -> In d (task_ids g) }.

(** [depends g t d]: task [t] directly depends on [d]. *)
Definition depends (g : DependencyGraph) (t d : string) : Prop := In d (deps g t).

Inductive depends_plus (g : DependencyGraph) : string -> string -> Prop :=
| dp_one t d : depends g t d -> depends_plus g t d
| dp_step t d e : depends g t d -> depends_plus g d e -> depends_plus g t e.

Definition acyclic (g : DependencyGraph) : Prop := forall t, ~ depends_plus g t t.

(** ** Facts about graphs *)

Abbreviation occ := (count_occ string_dec).

(** ** Membership and counting *)

Lemma mem_In x l : mem x l = true <-> In x l.
Proof.
  unfold mem. rewrite existsb_exists. split.
  - intros (y & Hy & E). apply String.eqb_eq in E. by subst.
  - intros H. exists x. by rewrite String.eqb_refl.
Qed.

Lemma mem_false x l : mem x l = false <-> ~ In x l.
Proof. rewrite <- mem_In. by destruct (mem x l). Qed.

Lemma nodupb_NoDup l : nodupb l = true <-> List.NoDup l.
Proof.
  induction l as [|x l IH]; simpl.
  - split; [constructor|done].
  - rewrite andb_true_iff, negb_true_iff, mem_false, IH. split.
    + intros [? ?]. by constructor.
    + inversion 1; by subst.
Qed.

Lemma occ_nil x : occ [] x = 0%nat. Proof. done. Qed.

Lemma occ_cons x y l : occ (y :: l) x = ((if String.eqb y x then 1 else 0) + occ l x)%nat.
Proof.
  simpl. destruct (string_dec y x) as [->|Hn].
  - by rewrite String.eqb_refl.
  - apply String.eqb_neq in Hn. by rewrite Hn.
Qed.

Lemma occ_app x l m : occ (l ++ m) x = (occ l x + occ m x)%nat.
Proof. apply count_occ_app. Qed.

(** ** Reading the maps *)

Lemma deg_insert m t v t' : deg (<[t := v]> m) t' = if String.eqb t t' then v else deg m t'.
Proof.
  unfold deg. destruct (String.eqb_spec t t') as [->|H].
  - by rewrite lookup_insert_eq.
  - by rewrite lookup_insert_ne.
Qed.

Lemma dpts_insert m t v t' : dpts (<[t := v]> m) t' = if String.eqb t t' then v else dpts m t'.
Proof.
  unfold dpts. destruct (String.eqb_spec t t') as [->|H].
  - by rewrite lookup_insert_eq.
  - by rewrite lookup_insert_ne.
Qed.

Lemma deg_init ids t : deg (list_to_map (List.map (fun t => (t, 0)) ids)) t = 0.
Proof.
  unfold deg. destruct (_ !! t) as [v|] eqn:E; [|done].
  apply elem_of_list_to_map_2, list_elem_of_In, in_map_iff in E as (x & [= _ <-] & _). done.
Qed.

Lemma dpts_init ids t : dpts (list_to_map (List.map (fun t => (t, [])) ids)) t = [].
Proof.
  unfold dpts. destruct (_ !! t) as [v|] eqn:E; [|done].
  apply elem_of_list_to_map_2, list_elem_of_In, in_map_iff in E as (x & [= _ <-] & _). done.
Qed.

Lemma count_edges_spec t ds ind dp ind' dp' :
  fold_left (count_edge t) ds (ind, dp) = (ind', dp') ->
  (forall x, deg ind' x = deg ind x + if String.eqb t x then Z.of_nat (length ds) else 0) /\
  (forall n x, occ (dpts dp' n) x =
     (occ (dpts dp n) x + if String.eqb t x then occ ds n else 0)%nat).
Proof.
  revert ind dp; induction ds as [|d ds IH]; intros ind dp H.
  - injection H as <- <-. split; intros; destruct (String.eqb t x); rewrite ?occ_nil; simpl; lia.
  - apply IH in H as [H1 H2]. clear IH. split.
    + intros x. rewrite H1, deg_insert. destruct (String.eqb_spec t x) as [->|]; simpl length; lia.
    + intros n x. rewrite H2, dpts_insert, occ_cons.
      destruct (String.eqb_spec d n) as [->|].
      * rewrite occ_app, occ_cons, occ_nil. destruct (String.eqb t x); lia.
      * destruct (String.eqb t x); lia.
Qed.

Lemma build_fold_spec adj ind dp ind' dp' :
  List.NoDup (List.map fst adj) ->
  fold_left (fun acc td => fold_left (count_edge (fst td)) (snd td) acc) adj (ind, dp) = (ind', dp') ->
  (forall x, deg ind' x = deg ind x +
     match dlookup x adj with Some l => Z.of_nat (length l) | None => 0 end) /\
  (forall n x, occ (dpts dp' n) x =
     (occ (dpts dp n) x + match dlookup x adj with Some l => occ l n | None => 0 end)%nat).
Proof.
  revert ind dp; induction adj as [|[t ds] adj IH]; intros ind dp Hnd H; simpl in *.
  - injection H as <- <-. split; intros; lia.
  - inversion Hnd as [|? ? Hn Hnd']; subst.
    destruct (fold_left (count_edge t) ds (ind, dp)) as [ind1 dp1] eqn:E1.
    apply count_edges_spec in E1 as [D1 P1]. apply IH in H as [D2 P2]; [|done].
    split.
    + intros x. rewrite D2, D1. rewrite (String.eqb_sym x t).
      destruct (String.eqb_spec t x) as [->|]; [|lia].
      apply dlookup_None_keys in Hn. rewrite Hn. lia.
    + intros n x. rewrite P2, P1. rewrite (String.eqb_sym x t).
      destruct (String.eqb_spec t x) as [->|]; [|lia].
      apply dlookup_None_keys in Hn. rewrite Hn. lia.
Qed.

Lemma build_maps_spec g ind dp :
  graph_wf g -> build_maps (task_ids g) (_depends_on g) = (ind, dp) ->
  (forall x, deg ind x = Z.of_nat (length (deps g x))) /\
  (forall n x, occ (dpts dp n) x = occ (deps g x) n).
Proof.
  intros W H. apply build_fold_spec in H as [HD HP].
  2: { rewrite (wf_dom _ W). apply wf_ids, W. }
  unfold deps. split.
  - intros x. rewrite HD, deg_init. by destruct (dlookup x _).
  - intros n x. rewrite HP, dpts_init, occ_nil. by destruct (dlookup x _).
Qed.

(** ** The inner loop *)

Lemma relax_spec l ind q ind' q' :
  (forall x, Z.of_nat (occ l x) <= deg ind x \/ ~ In x l) ->
  fold_left relax l (ind, q) = (ind', q') ->
  (forall x, deg ind' x = deg ind x - Z.of_nat (occ l x)) /\
  exists new, q' = (q ++ new)%list /\ List.NoDup new /\
    (forall x, In x new <-> In x l /\ deg ind x = Z.of_nat (occ l x)).
Proof.
  revert ind q; induction l as [|t l IH]; intros ind q Hle H.
  - injection H as <- <-. split; [intros; rewrite occ_nil; lia|].
    exists []. rewrite app_nil_r. split; [done|]. split; [apply List.NoDup_nil|].
    intros x; simpl; tauto.
  - simpl in H.
    assert (Ht : Z.of_nat (occ (t :: l) t) <= deg ind t).
    { destruct (Hle t) as [?|Hn]; [done|]. exfalso. apply Hn. by left. }
    rewrite occ_cons, String.eqb_refl in Ht.
    assert (Hle1 : forall x, Z.of_nat (occ l x) <= deg (<[t:=deg ind t - 1]> ind) x \/ ~ In x l).
    { intros x. rewrite deg_insert. destruct (String.eqb_spec t x) as [->|Hx]; [left; lia|].
      destruct (Hle x) as [Hx'|Hx']; [left|right].
      - rewrite occ_cons in Hx'. apply String.eqb_neq in Hx. rewrite Hx in Hx'. lia.
      - intros Hi. apply Hx'. by right. }
    apply IH in H as (HD & new & -> & Hnd & Hnew); [|exact Hle1]. clear IH. split.
    { intros x. rewrite HD, deg_insert, occ_cons. destruct (String.eqb_spec t x) as [->|]; lia. }
    assert (Hne : forall x, x <> t ->
      (In x new <-> In x (t :: l) /\ deg ind x = Z.of_nat (occ (t :: l) x))).
    { intros x Hx. rewrite Hnew, deg_insert, occ_cons.
      assert (E : String.eqb t x = false) by (apply String.eqb_neq; congruence).
      rewrite E. simpl. split; [intros []; split; [by right|lia]|].
      intros [[?|?] ?]; [congruence|]. split; [done|lia]. }
    destruct (deg ind t - 1 =? 0) eqn:E0; bool_prop.
    + assert (Hocc : occ l t = 0%nat) by lia.
      assert (Htl : ~ In t l) by by apply (count_occ_not_In string_dec).
      exists (t :: new). rewrite <- app_assoc. split; [done|]. split.
      { constructor; [|done]. rewrite Hnew. tauto. }
      intros x. destruct (String.eqb_spec t x) as [<-|Hx].
      * split; [|by left]. intros _. split; [by left|].
        rewrite occ_cons, String.eqb_refl. lia.
      * simpl. rewrite Hne by done. simpl. split; [intros [?|?]; [congruence|done]|by right].
    + exists new. split; [done|]. split; [done|].
      intros x. destruct (String.eqb_spec t x) as [<-|Hx]; [|by apply Hne].
      rewrite Hnew, deg_insert, String.eqb_refl, occ_cons, String.eqb_refl.
      split; intros [Hi Hd]; [split; [by left|lia]|].
      split; [|lia]. apply (count_occ_In string_dec). lia.
Qed.

(** ** The breadth-first loop *)

Section Kahn.
Context (g : DependencyGraph) (W : graph_wf g).
Context (dp : dependents_map) (Hdp : forall n x, occ (dpts dp n) x = occ (deps g x) n).

(** The dependencies of [x] that are not yet in [P]. *)
Definition missing (P : list string) (x : string) : list string :=
  List.filter (fun d => negb (mem d P)) (deps g x).

(** [P] (latest first) is in dependency order. *)
Fixpoint topo (P : list string) : Prop :=
  match P with [] => True | t :: r => incl (deps g t) r /\ topo r end.

Record kahn_inv (P : list string) (ind : degrees) (queue : list string) : Prop := {
  ki_nodup : List.NoDup (P ++ queue);
  ki_incl : incl (P ++ queue) (task_ids g);
  ki_deg : forall x, deg ind x = Z.of_nat (length (missing P x));
  ki_zero : forall x, In x (task_ids g) -> (In x (P ++ queue) <-> deg ind x = 0);
  ki_topo : topo P }.

Lemma missing_cons P n x :
  ~ In n P -> length (missing P x) = (length (missing (n :: P) x) + occ (deps g x) n)%nat.
Proof.
  intros Hn. unfold missing. induction (deps g x) as [|d l IH]; [done|].
  rewrite occ_cons. cbn [List.filter].
  change (mem d (n :: P)) with (String.eqb d n || mem d P)%bool.
  apply mem_false in Hn as Hm.
  destruct (String.eqb_spec d n) as [->|]; [rewrite Hm|destruct (mem d P)]; simpl in *; lia.
Qed.

Lemma missing_nil_incl P x : length (missing P x) = 0%nat <-> incl (deps g x) P.
Proof.
  unfold missing, incl. induction (deps g x) as [|d l IH]; simpl.
  - split; [done|done].
  - destruct (mem d P) eqn:E; simpl.
    + apply mem_In in E. rewrite IH. split; [intros H a [<-|?]; auto|auto].
    + apply mem_false in E. split; [done|]. intros H. exfalso. apply E. auto.
Qed.

Lemma kahn_step P ind node rest ind' q' :
  kahn_inv P ind (node :: rest) ->
  fold_left relax (dpts dp node) (ind, rest) = (ind', q') ->
  kahn_inv (node :: P) ind' q'.
Proof.
  intros I H.
  assert (HnP : ~ In node P).
  { pose proof (List.NoDup_remove_2 _ _ _ (ki_nodup _ _ _ I)) as Hn. rewrite in_app_iff in Hn. tauto. }
  assert (Hnode : In node (task_ids g)).
  { apply (ki_incl _ _ _ I). rewrite in_app_iff. right. by left. }
  apply relax_spec in H as (HD & new & -> & Hnd & Hnew).
  2: { intros x. left. rewrite Hdp, (ki_deg _ _ _ I), (missing_cons P node x HnP). lia. }
  assert (HD' : forall x, deg ind' x = Z.of_nat (length (missing (node :: P) x))).
  { intros x. rewrite HD, (ki_deg _ _ _ I), Hdp, (missing_cons P node x HnP). lia. }
  (* a newly enqueued task was not enqueued before: it still missed [node] *)
  assert (Hfresh : forall x, In x new -> ~ In x (P ++ node :: rest) /\ In x (task_ids g)).
  { intros x [Hx Hdx]%Hnew.
    apply (count_occ_In string_dec) in Hx. rewrite Hdp in Hx.
    assert (Hin : In x (task_ids g)).
    { rewrite <- (wf_dom _ W). unfold deps in Hx.
      destruct (dlookup x (_depends_on g)) eqn:E; [|simpl in Hx; lia].
      apply dlookup_In in E. by apply (in_map fst) in E. }
    split; [|done]. rewrite (ki_zero _ _ _ I) by done. rewrite Hdp in Hdx. lia. }
  pose proof (ki_nodup _ _ _ I) as Hnd0.
  constructor.
  - rewrite app_assoc. apply List.NoDup_app; [|done|].
    + simpl. apply (Permutation.Permutation_NoDup (l := P ++ node :: rest)); [|done].
      symmetry. apply Permutation.Permutation_middle.
    + intros a Ha Hb. apply Hfresh in Hb as [Hb _]. apply Hb.
      simpl in Ha. rewrite in_app_iff in *. simpl. tauto.
  - intros x Hx. rewrite app_assoc, in_app_iff in Hx. destruct Hx as [Hx|Hx].
    + apply (ki_incl _ _ _ I). simpl in Hx. rewrite in_app_iff in *. simpl. tauto.
    + by apply Hfresh in Hx as [_ Hx].
  - exact HD'.
  - intros x Hx. rewrite app_assoc, in_app_iff, Hnew, Hdp.
    assert (Hold : In x ((node :: P) ++ rest) <-> deg ind x = 0).
    { rewrite <- (ki_zero _ _ _ I x Hx). simpl. rewrite !in_app_iff. simpl. tauto. }
    rewrite Hold, HD, Hdp. rewrite (count_occ_In string_dec), Hdp.
    rewrite (ki_deg _ _ _ I), (missing_cons P node x HnP). lia.
  - split; [|by apply (ki_topo _ _ _ I)].
    apply missing_nil_incl. apply Nat2Z.inj. rewrite <- (ki_deg _ _ _ I).
    apply (ki_zero _ _ _ I); [done|]. rewrite in_app_iff. right. by left.
Qed.

(** Enough fuel: the loop ends with an empty queue and a count of what it processed. *)
Lemma kahn_total fuel P ind queue :
  kahn_inv P ind queue -> (S (length (task_ids g)) <= length P + fuel)%nat ->
  exists P' ind', kahn fuel dp ind queue (Z.of_nat (length P)) = Some (Z.of_nat (length P'))
                  /\ kahn_inv P' ind' [].
Proof.
  revert P ind queue. induction fuel as [|fuel IH]; intros P ind queue I Hf.
  - pose proof (List.NoDup_incl_length (ki_nodup _ _ _ I) (ki_incl _ _ _ I)) as Hl.
    rewrite length_app in Hl. lia.
  - destruct queue as [|node rest]; simpl.
    + exists P, ind. by split.
    + destruct (fold_left relax (dpts dp node) (ind, rest)) as [ind' q'] eqn:E.
      pose proof (kahn_step _ _ _ _ _ _ I E) as I'.
      destruct (IH _ _ _ I') as (P' & ind'' & Hk & I''); [simpl; lia|].
      exists P', ind''. split; [|done]. rewrite <- Hk. f_equal. simpl length. lia.
Qed.

Lemma kahn_final P ind :
  kahn_inv P ind [] ->
  topo P /\ List.NoDup P /\ incl P (task_ids g) /\
  (forall x, In x (task_ids g) -> incl (deps g x) P -> In x P).
Proof.
  intros I. pose proof (ki_nodup _ _ _ I) as H1. pose proof (ki_incl _ _ _ I) as H2.
  pose proof (ki_zero _ _ _ I) as H3. rewrite app_nil_r in *.
  split; [apply (ki_topo _ _ _ I)|]. split; [done|]. split; [done|].
  intros x Hx Hd. apply H3; [done|]. rewrite (ki_deg _ _ _ I).
  apply missing_nil_incl in Hd. by rewrite Hd.
Qed.
End Kahn.

(** ** Topological orders and cycles *)

Lemma depends_plus_trans g a b c : depends_plus g a b -> depends_plus g b c -> depends_plus g a c.
Proof. induction 1; intros; eapply dp_step; eauto. Qed.

(** Everything reachable from a task of a topological order lies strictly below it. *)
Lemma topo_below g P t d :
  topo g P -> depends_plus g t d ->
  forall l1 l2, P = (l1 ++ t :: l2)%list -> In d l2.
Proof.
  intros HT Hp. revert P HT. induction Hp as [t d H|t d e H Hp IH]; intros P HT l1 l2 ->.
  - induction l1 as [|x l1 IHl]; simpl in HT; destruct HT as [Hi HT]; [by apply Hi|by apply IHl].
  - assert (Hd : In d l2).
    { clear IH. induction l1 as [|x l1 IHl]; simpl in HT; destruct HT as [Hi HT]; [by apply Hi|by apply IHl]. }
    apply in_split in Hd as (m1 & m2 & ->).
    rewrite in_app_iff. right. right.
    eapply (IH (l1 ++ t :: m1 ++ d :: m2)%list HT (l1 ++ t :: m1)%list m2).
    rewrite <- app_assoc. done.
Qed.

Lemma topo_acyclic g P : topo g P -> List.NoDup P -> forall t, In t P -> ~ depends_plus g t t.
Proof.
  intros HT Hnd t Ht Hp. apply in_split in Ht as (l1 & l2 & E).
  pose proof (topo_below g P t t HT Hp l1 l2 E) as Hin. subst P.
  apply List.NoDup_remove_2 in Hnd. apply Hnd. rewrite in_app_iff. by right.
Qed.

(** A chain: each element depends on the one before it in the list. *)
Fixpoint chain (g : DependencyGraph) (l : list string) : Prop :=
  match l with
  | [] => True
  | x :: r => match r with y :: _ => depends g y x | [] => True end /\ chain g r
  end.

Lemma chain_reach g l x m y :
  chain g (x :: l ++ y :: m) -> depends_plus g y x.
Proof.
  revert x; induction l as [|z l IH]; intros x H; simpl in H.
  - destruct H as [H _]. by apply dp_one.
  - destruct H as [H1 H2]. apply IH in H2. eapply depends_plus_trans; [exact H2|]. by apply dp_one.
Qed.

Lemma chain_app_r g l m : chain g (l ++ m) -> chain g m.
Proof.
  induction l as [|x l IH]; [done|]. intros [_ H]. by apply IH.
Qed.

(** In a finite set where every task has a dependency in the set there is a cycle. *)
Lemma stuck_cycle g (S : list string) x0 :
  In x0 S -> (forall x, In x S -> exists d, depends g x d /\ In d S) ->
  exists t, depends_plus g t t.
Proof.
  intros H0 Hs.
  assert (Hc : forall n, exists x l, length l = n /\ chain g (x :: l) /\ incl (x :: l) S).
  { induction n as [|n (x & l & Hl & Hch & Hi)].
    - exists x0, []. split; [done|]. split; [done|]. intros y [<-|[]]; done.
    - destruct (Hs x (Hi x (or_introl eq_refl))) as (d & Hd & HdS).
      exists d, (x :: l). split; [simpl; lia|]. split; [by split|].
      intros y [<-|Hy]; [done|]. by apply Hi. }
  destruct (Hc (length S)) as (x & l & Hl & Hch & Hi).
  destruct (ListDec.NoDup_dec string_dec (x :: l)) as [Hnd|Hnd].
  - pose proof (List.NoDup_incl_length Hnd Hi). simpl in *. lia.
  - assert (Hdup : exists a l1 l2 l3, x :: l = (l1 ++ a :: l2 ++ a :: l3)%list).
    { clear -Hnd. revert x Hnd. induction l as [|y l IH]; intros x Hnd.
      - exfalso. apply Hnd. constructor; [by intros []|constructor].
      - destruct (in_dec string_dec x (y :: l)) as [Hin|Hin].
        + apply in_split in Hin as (l2 & l3 & E). exists x, [], l2, l3. by rewrite E.
        + destruct (IH y) as (a & l1 & l2 & l3 & E).
          { intros Hy. apply Hnd. by constructor. }
          exists a, (x :: l1), l2, l3. by rewrite E. }
    destruct Hdup as (a & l1 & l2 & l3 & E). rewrite E in Hch.
    apply chain_app_r in Hch. exists a. by eapply chain_reach.
Qed.

(** ** The validation verdict *)

Lemma unknown_dependency_None ids adj :
  unknown_dependency ids adj = None <-> forall t ds d, In (t, ds) adj -> In d ds -> In d ids.
Proof.
  induction adj as [|[t ds] adj IH]; simpl.
  - split; [by intros _ ? ? ? []|done].
  - destruct (List.find _ ds) as [d|] eqn:E.
    + split; [done|]. intros H. apply List.find_some in E as [Hd Hm].
      apply negb_true_iff, mem_false in Hm. exfalso. apply Hm. eapply H; eauto.
    + rewrite IH. split.
      * intros H t' ds' d [[= <- <-]|Hin] Hd; [|by eapply H].
        apply (List.find_none _ _ E) in Hd. apply negb_false_iff in Hd. by apply mem_In.
      * intros H t' ds' d Hin Hd. eapply H; eauto.
Qed.

(** Distinct ids that are the keys of the adjacency (closedness not assumed). *)
Definition graph_keys (g : DependencyGraph) : Prop :=
  List.NoDup (task_ids g) /\ List.map fst (_depends_on g) = task_ids g.

Lemma In_dlookup {V} (l : list (string * V)) k v :
  List.NoDup (List.map fst l) -> In (k, v) l -> dlookup k l = Some v.
Proof.
  induction l as [|[k' v'] l IH]; simpl; [done|]. intros Hnd.
  inversion Hnd as [|? ? Hn Hnd']; subst. intros [[= -> ->]|H].
  - by rewrite String.eqb_refl.
  - destruct (String.eqb_spec k k') as [->|]; [|by apply IH].
    exfalso. apply Hn. by apply (in_map fst) in H.
Qed.

Lemma known_iff_closed g :
  graph_keys g ->
  unknown_dependency (task_ids g) (_depends_on g) = None <-> graph_wf g.
Proof.
  intros [Hnd Hk]. rewrite unknown_dependency_None. split.
  - intros H. constructor; [done|done|]. intros t d Hd. unfold deps in Hd.
    destruct (dlookup t _) eqn:E; [|done]. apply dlookup_In in E. by eapply H.
  - intros W t ds d Hin Hd. apply (wf_closed _ W t). unfold deps.
    by rewrite (In_dlookup _ _ _ (ltac:(by rewrite Hk)) Hin).
Qed.

Lemma kahn_verdict g :
  graph_wf g ->
  exists P, topo g P /\ List.NoDup P /\ incl P (task_ids g) /\
    (forall x, In x (task_ids g) -> incl (deps g x) P -> In x P) /\
    _validate_no_cycles g =
      if Z.of_nat (length P) =? Z.of_nat (length (task_ids g)) then Ok tt
      else Err (ValueError "Cycle detected in task dependency graph").
Proof.
  intros W. unfold _validate_no_cycles.
  assert (HU : unknown_dependency (task_ids g) (_depends_on g) = None)
    by (apply known_iff_closed; [split; apply W|done]).
  rewrite HU. destruct (build_maps _ _) as [ind dp] eqn:E.
  apply build_maps_spec in E as [HD HP]; [|done].
  set (q := List.filter _ _).
  assert (I : kahn_inv g [] ind q).
  { assert (Hmiss : forall x, missing g [] x = deps g x).
    { intros x. unfold missing. induction (deps g x) as [|d l IH]; [done|]. simpl. f_equal. exact IH. }
    constructor; simpl.
    - apply List.NoDup_filter, W.
    - apply List.incl_filter.
    - intros x. rewrite Hmiss. apply HD.
    - intros x Hx. unfold q. rewrite List.filter_In, Z.eqb_eq. tauto.
    - done. }
  destruct (kahn_total g W dp HP (S (length (task_ids g))) [] ind q I) as (P & ind' & Hk & I');
    [simpl; lia|].
  apply kahn_final in I' as (HT & Hnd & Hi & Hc).
  exists P. repeat (split; [assumption|]). change (Z.of_nat (length [])) with 0 in Hk. by rewrite Hk.
Qed.

Lemma validate_ok_iff g :
  graph_keys g -> _validate_no_cycles g = Ok tt <-> graph_wf g /\ acyclic g.
Proof.
  intros Hkeys. split.
  - intros Hv.
    assert (W : graph_wf g).
    { apply known_iff_closed; [done|]. unfold _validate_no_cycles in Hv.
      by destruct (unknown_dependency _ _) as [[? ?]|]. }
    split; [done|]. destruct (kahn_verdict g W) as (P & HT & Hnd & Hi & _ & E).
    rewrite Hv in E. destruct (_ =? _) eqn:El; [|done]. bool_prop.
    assert (Hall : incl (task_ids g) P).
    { apply List.NoDup_length_incl; [done|lia|done]. }
    intros t Hp. eapply topo_acyclic; [exact HT|exact Hnd| |exact Hp].
    apply Hall. rewrite <- (wf_dom _ W).
    assert (Hd : exists d, depends g t d) by (inversion Hp; eauto). destruct Hd as [d Hd].
    unfold depends, deps in Hd. destruct (dlookup t _) eqn:Et; [|done].
    apply dlookup_In in Et. by apply (in_map fst) in Et.
  - intros [W Ha]. destruct (kahn_verdict g W) as (P & HT & Hnd & Hi & Hc & ->).
    destruct (_ =? _) eqn:El; [done|]. exfalso. bool_prop.
    set (rest := List.filter (fun t => negb (mem t P)) (task_ids g)).
    destruct rest as [|x0 r0] eqn:Er.
    + apply El. f_equal. apply Nat.le_antisymm; [by apply List.NoDup_incl_length|].
      apply List.NoDup_incl_length; [apply W|]. intros t Ht.
      destruct (mem t P) eqn:Em; [by apply mem_In|]. exfalso.
      assert (Hx : In t rest) by (unfold rest; rewrite List.filter_In, Em; done).
      by rewrite Er in Hx.
    + destruct (stuck_cycle g rest x0) as [t Ht]; [rewrite Er; by left| |by eapply Ha].
      intros x Hx. unfold rest in Hx. rewrite List.filter_In, negb_true_iff, mem_false in Hx.
      destruct Hx as [Hx HxP].
      destruct (missing g P x) as [|d l] eqn:Em.
      * exfalso. apply HxP, Hc; [done|]. apply missing_nil_incl. by rewrite Em.
      * assert (Hd : In d (missing g P x)) by (rewrite Em; by left).
        unfold missing in Hd. apply List.filter_In in Hd as [Hd HdP]. exists d. split; [done|].
        unfold rest. rewrite List.filter_In. split; [by eapply (wf_closed _ W)|done].
Qed.

Lemma validate_err_value g e : _validate_no_cycles g = Err e -> graph_keys g -> is_value_error e = true.
Proof.
  intros He Hk. destruct (unknown_dependency (task_ids g) (_depends_on g)) as [[t d]|] eqn:E.
  - unfold _validate_no_cycles in He. rewrite E in He. by injection He as <-.
  - destruct (kahn_verdict g) as (P & _ & _ & _ & _ & Hv); [by apply known_iff_closed|].
    rewrite He in Hv. destruct (_ =? _); [done|]. by injection Hv as ->.
Qed.

(** ** Mutations *)

(** The invariant of a live graph. *)
Definition dag_ok (g : DependencyGraph) : Prop := graph_wf g /\ acyclic g.

Lemma deps_set_deps g t l t' :
  deps (set_deps g t l) t' = if String.eqb t' t then l else deps g t'.
Proof. unfold deps, set_deps; simpl. rewrite dlookup_dset. by destruct (String.eqb t' t). Qed.

Lemma deps_key g t : In t (task_ids g) -> graph_keys g -> dlookup t (_depends_on g) = Some (deps g t).
Proof.
  intros Ht [_ Hk]. unfold deps. destruct (dlookup t _) eqn:E; [done|].
  apply dlookup_None_keys in E. by rewrite Hk in E.
Qed.

Lemma set_deps_keys g t l : graph_keys g -> In t (task_ids g) -> graph_keys (set_deps g t l).
Proof.
  intros K Ht. pose proof (deps_key g t Ht K) as E. destruct K as [Hnd Hk]. split; [done|].
  simpl. rewrite dset_keys. unfold dhas. by rewrite E.
Qed.

Lemma remove_first_snoc x l : ~ In x l -> remove_first x (l ++ [x]) = l.
Proof.
  induction l as [|y l IH]; simpl; intros H.
  - by rewrite String.eqb_refl.
  - destruct (String.eqb_spec x y) as [->|]; [exfalso; apply H; by left|].
    rewrite IH; [done|]. intros Hi. apply H. by right.
Qed.

Lemma remove_first_incl x l : incl (remove_first x l) l.
Proof.
  induction l as [|y l IH]; simpl; [apply List.incl_refl|]. destruct (String.eqb x y).
  - intros z Hz. by right.
  - intros z [<-|Hz]; [by left|right; by apply IH].
Qed.

(** Rolling back restores the very adjacency. *)
Lemma rollback g f t :
  graph_keys g -> In t (task_ids g) -> ~ In f (deps g t) ->
  let g' := set_deps g t (deps g t ++ [f])%list in
  set_deps g' t (remove_first f (deps g' t)) = g.
Proof.
  intros K Ht Hf. simpl. rewrite deps_set_deps, String.eqb_refl, remove_first_snoc by done.
  unfold set_deps; simpl. rewrite dset_dset, dset_same by by apply deps_key. by destruct g.
Qed.

(** [add_edge] on a live graph, all branches. *)
Lemma add_edge_cases g f t :
  dag_ok g ->
  let g' := set_deps g t (deps g t ++ [f])%list in
  (~ In f (task_ids g) /\ fst (add_edge g f t) = g /\ is_ok (snd (add_edge g f t)) = false) \/
  (In f (task_ids g) /\ ~ In t (task_ids g) /\ fst (add_edge g f t) = g /\
     is_ok (snd (add_edge g f t)) = false) \/
  (In f (task_ids g) /\ In t (task_ids g) /\ In f (deps g t) /\ add_edge g f t = (g, Ok tt)) \/
  (In f (task_ids g) /\ In t (task_ids g) /\ ~ In f (deps g t) /\ acyclic g' /\
     dag_ok g' /\ add_edge g f t = (g', Ok tt)) \/
  (In f (task_ids g) /\ In t (task_ids g) /\ ~ In f (deps g t) /\ ~ acyclic g' /\
     fst (add_edge g f t) = g /\ is_ok (snd (add_edge g f t)) = false).
Proof.
  intros [W Ha] g'. unfold add_edge.
  destruct (mem f (task_ids g)) eqn:Ef; simpl; [apply mem_In in Ef|apply mem_false in Ef; tauto].
  destruct (mem t (task_ids g)) eqn:Et; simpl; [apply mem_In in Et|apply mem_false in Et; tauto].
  destruct (mem f (deps g t)) eqn:Ed; simpl; [apply mem_In in Ed; tauto|apply mem_false in Ed].
  assert (K : graph_keys g) by (split; apply W).
  assert (K' : graph_keys g') by by apply set_deps_keys.
  assert (W' : graph_wf g').
  { constructor; [apply W|apply K'|]. intros t' d. unfold g'. rewrite deps_set_deps; simpl.
    destruct (String.eqb_spec t' t) as [->|]; [|apply (wf_closed _ W)].
    rewrite in_app_iff. intros [Hd|[<-|[]]]; [by eapply (wf_closed _ W)|done]. }
  fold g'. destruct (_validate_no_cycles g') as [[]|e] eqn:Ev.
  - apply validate_ok_iff in Ev as [? ?]; [|done]. right; right; right; left.
    unfold dag_ok. tauto.
  - right; right; right; right. repeat (split; [done|]).
    split; [intros Hc; by rewrite (proj2 (validate_ok_iff g' K')) in Ev|].
    rewrite (validate_err_value _ _ Ev K'). split; [|done].
    by apply rollback.
Qed.

Lemma dag_ok_add g f t : dag_ok g -> dag_ok (fst (add_edge g f t)).
Proof.
  intros H. destruct (add_edge_cases g f t H) as [(_ & -> & _)|[(_ & _ & -> & _)|[(_ & _ & _ & ->)
    |[(_ & _ & _ & _ & H' & ->)|(_ & _ & _ & _ & -> & _)]]]]; done.
Qed.

(** Fewer dependencies: reachability shrinks. *)
Lemma depends_plus_mono g g' t d :
  (forall x y, depends g' x y -> depends g x y) -> depends_plus g' t d -> depends_plus g t d.
Proof. intros H. induction 1; [apply dp_one; auto|eapply dp_step; eauto]. Qed.

Lemma dag_ok_remove g f t : dag_ok g -> dag_ok (remove_edge g f t).
Proof.
  intros [W Ha]. unfold remove_edge. destruct (dlookup t (_depends_on g)) as [l|] eqn:E; [|done].
  destruct (mem f l); [|done].
  assert (Hl : deps g t = l) by (unfold deps; by rewrite E).
  assert (Ht : In t (task_ids g)).
  { rewrite <- (wf_dom _ W). apply dlookup_In in E. by apply (in_map fst) in E. }
  assert (Hsub : forall x y, depends (set_deps g t (remove_first f l)) x y -> depends g x y).
  { intros x y. unfold depends. rewrite deps_set_deps.
    destruct (String.eqb_spec x t) as [->|]; [|done]. rewrite Hl. apply remove_first_incl. }
  assert (K' : graph_keys (set_deps g t (remove_first f l))) by (apply set_deps_keys; [split; apply W|done]).
  split.
  - constructor; [apply W|apply K'|]. intros t' d Hd. simpl. eapply (wf_closed _ W). by apply Hsub.
  - intros x Hx. eapply Ha, depends_plus_mono; [exact Hsub|exact Hx].
Qed.

Lemma clone_id g : clone g = g.
Proof.
  destruct g as [ids adj]. unfold clone; simpl. f_equal.
  induction adj as [|[t l] adj IH]; simpl; [done|by rewrite IH].
Qed.

Lemma dag_ok_add_edges es g g' : dag_ok g -> add_edges_from g es = Ok g' -> dag_ok g'.
Proof.
  revert g; induction es as [|[f t] es IH]; intros g H E; simpl in E; [by injection E as <-|].
  pose proof (dag_ok_add g f t H) as H'.
  destruct (add_edge g f t) as [g1 [u|e]]; [|done]. by eapply IH.
Qed.

Lemma dag_ok_remove_all es g :
  dag_ok g -> dag_ok (fold_left (fun c e => remove_edge c (fst e) (snd e)) es g).
Proof. revert g; induction es as [|e es IH]; intros g H; simpl; [done|]. by apply IH, dag_ok_remove. Qed.

Lemma dag_ok_patch g p : dag_ok g -> dag_ok (apply_patch g p).
Proof.
  intros H. unfold apply_patch. rewrite clone_id.
  destruct (add_edges_from _ _) as [c|e] eqn:E; [|done].
  eapply dag_ok_add_edges; [|exact E]. by apply dag_ok_remove_all.
Qed.

Lemma task_ids_add g f t : task_ids (fst (add_edge g f t)) = task_ids g.
Proof.
  unfold add_edge. repeat (destruct (mem _ _); simpl; try done).
  destruct (_validate_no_cycles _); simpl; [done|]. by destruct (is_value_error e).
Qed.

Lemma task_ids_patch g p : task_ids (apply_patch g p) = task_ids g.
Proof.
  unfold apply_patch. rewrite clone_id.
  assert (Hr : forall es g, task_ids (fold_left (fun c e => remove_edge c (fst e) (snd e)) es g) = task_ids g).
  { induction es as [|e es IH]; intros g0; simpl; [done|]. rewrite IH. unfold remove_edge.
    destruct (dlookup _ _); [|done]. by destruct (mem _ _). }
  assert (Hd : forall es g g', add_edges_from g es = Ok g' -> task_ids g' = task_ids g).
  { induction es as [|[f t] es IH]; intros g0 g' E; simpl in E; [by injection E as <-|].
    pose proof (task_ids_add g0 f t) as Hid.
    destruct (add_edge g0 f t) as [g1 [u|e]]; [|done]. rewrite (IH _ _ E). done. }
  destruct (add_edges_from _ _) as [c|e] eqn:E; [|done]. by rewrite (Hd _ _ _ E), Hr.
Qed.

(** Additions never lose an edge. *)
Lemma add_edges_mono es g g' t f :
  add_edges_from g es = Ok g' -> dag_ok g -> depends g t f -> depends g' t f.
Proof.
  revert g; induction es as [|[a b] es IH]; intros g E H Hd; simpl in E; [by injection E as <-|].
  pose proof (dag_ok_add g a b H) as H1.
  assert (Hd1 : depends (fst (add_edge g a b)) t f).
  { destruct (add_edge_cases g a b H) as [(_ & -> & _)|[(_ & _ & -> & _)|[(_ & _ & _ & ->)
      |[(_ & _ & _ & _ & _ & ->)|(_ & _ & _ & _ & -> & _)]]]]; try done.
    simpl. unfold depends in *. rewrite deps_set_deps.
    destruct (String.eqb_spec t b) as [->|]; [|done]. rewrite in_app_iff. by left. }
  destruct (add_edge g a b) as [g1 [u|e]]; [|done]. by eapply IH.
Qed.
