(* ===== verification/Scheduler.v ===== *)
(** * The task scheduler: [MetaGraphScheduler.run] of [meta_graph.py]

    The asyncio main loop and the task coroutines it creates interleave at their
    awaits.  A state holds what they share; a step is a piece of code that runs
    without suspension: one turn of the launch loop, a coroutine passing the
    semaphore, a coroutine returning, the main loop waking from
    [asyncio.wait], and the cancellation phase of fail-fast. *)
From Stdlib Require Import ZArith Lia String Ascii List Bool.
From stdpp Require Import base tactics list strings option gmap.
From S2P Require Import Prelude PyStr PyFloat PyVal MetaGraph.
Local Open Scope string_scope.
Local Open Scope Z_scope.

Abbreviation ids := (gset string).

(** Where the main loop is suspended. *)
Inductive loop_pc := Top | Waiting | Cancelling | Finished.
#[export] Instance loop_pc_eq_dec : EqDecision loop_pc.
Proof. solve_decision. Defined.

Record sched := {
  tasks : list SubAgentTask;
  dag : DependencyGraph;
  completed_ids : ids; failed_ids : ids; started_ids : ids;
  running : ids;     (* keys of [running]: created asyncio tasks not collected yet *)
  done_set : ids;    (* those of them that have finished *)
  launched : list string;  (* the task of each [asyncio.create_task] so far, in order *)
  pc : loop_pc }.

Record config := { max_parallel : Z; fail_fast : bool; dynamic_rewiring : bool }.

(** [MetaGraphScheduler(max_parallel=n)]: at least one. *)
Definition parallel (c : config) : Z := Z.max 1 (max_parallel c).

(** ** Task objects *)

Definition with_status (st : TaskStatus) (t : SubAgentTask) : SubAgentTask :=
  {| task_id := task_id t; description := description t; depends_on := depends_on t;
     input_state := input_state t; status := st; result := result t; error := error t;
     started_at := started_at t; finished_at := finished_at t |}.

Definition with_outcome (st : TaskStatus) (r : option dict) (e : option string) (t : SubAgentTask) : SubAgentTask :=
  {| task_id := task_id t; description := description t; depends_on := depends_on t;
     input_state := input_state t; status := st;
     result := match r with Some _ => r | None => result t end;
     error := match e with Some _ => e | None => error t end;
     started_at := started_at t; finished_at := finished_at t |}.

(** Apply [f] to the task with id [i] (ids are distinct). *)
Definition on_task (i : string) (f : SubAgentTask -> SubAgentTask) (l : list SubAgentTask) : list SubAgentTask :=
  List.map (fun t => if String.eqb (task_id t) i then f t else t) l.

(** [for t in self.tasks: if t.status == a: t.status = b]. *)
Definition restatus (a b : TaskStatus) (l : list SubAgentTask) : list SubAgentTask :=
  List.map (fun t => if bool_decide (status t = a) then with_status b t else t) l.

Definition status_of (l : list SubAgentTask) (i : string) : option TaskStatus :=
  option_map status (List.find (fun t => String.eqb (task_id t) i) l).

(** ** Coroutines *)

(** The value under ["dependency_patch"] in a result. *)
Inductive raw_patch := NoPatch | InvalidPatch | Patch (p : DependencyPatch).

(** How [_run_task] returns: success with the final state, failure with the
    exception text, or (isolated mode only: [run_graph] succeeded and leaving the
    worktree lease raised) with the status still ["running"]. *)
Inductive outcome :=
| OSuccess (final_state : dict) (patch : raw_patch)
| OFailed (msg : string)
| OStuck.

Definition _maybe_apply_patch (c : config) (g : DependencyGraph) (p : raw_patch) : DependencyGraph :=
  if dynamic_rewiring c then match p with Patch q => apply_patch g q | _ => g end else g.

(** The end of [_run_task] for task [i]. *)
Definition run_task_end (c : config) (i : string) (o : outcome) (s : sched) : sched :=
  {| tasks := match o with
              | OSuccess r _ => on_task i (with_outcome tsuccess (Some r) None) (tasks s)
              | OFailed m => on_task i (with_outcome tfailed None (Some m)) (tasks s)
              | OStuck => tasks s
              end;
     dag := match o with OSuccess _ p => _maybe_apply_patch c (dag s) p | _ => dag s end;
     completed_ids := completed_ids s; failed_ids := failed_ids s; started_ids := started_ids s;
     running := running s; done_set := {[i]} ∪ done_set s; launched := launched s; pc := pc s |}.

(** [async with sema] entered: [task.status = "running"]. *)
Definition run_task_start (i : string) (s : sched) : sched :=
  {| tasks := on_task i (with_status trunning) (tasks s);
     dag := dag s; completed_ids := completed_ids s; failed_ids := failed_ids s;
     started_ids := started_ids s; running := running s; done_set := done_set s;
     launched := launched s; pc := pc s |}.

(** Coroutines holding the semaphore. *)
Definition active (s : sched) : ids :=
  filter (fun i => status_of (tasks s) i = Some trunning) (running s ∖ done_set s).

(** ** The main loop *)

(** [for task in ready]: skip the tasks already started; record each other one as
    started and create an asyncio task for it.  The ids started after the loop, and
    the tasks created by it. *)
Fixpoint launch_loop (started : ids) (ready : list SubAgentTask) : ids * list string :=
  match ready with
  | [] => (started, [])
  | task :: ready' =>
      if bool_decide (task_id task ∈ started) then launch_loop started ready'
      else let r := launch_loop ({[task_id task]} ∪ started) ready' in
           (fst r, task_id task :: snd r)
  end.

Definition launches (s : sched) : ids * list string :=
  launch_loop (started_ids s) (ready_tasks (dag s) (tasks s) (completed_ids s) (failed_ids s)).

(** One turn of the launch loop, up to the next await (or the final break). *)
Definition launch (s : sched) : sched :=
  let created := snd (launches s) in
  let running' := running s ∪ list_to_set created in
  let idle := bool_decide (running' = ∅) in
  {| tasks := if idle then restatus tpending tskipped (tasks s) else tasks s;
     dag := dag s; completed_ids := completed_ids s; failed_ids := failed_ids s;
     started_ids := fst (launches s); running := running'; done_set := done_set s;
     launched := launched s ++ created;
     pc := if idle then Finished else Waiting |}.

(** A collected coroutine that left its task ["running"] failed. *)
Definition settle (d : ids) (l : list SubAgentTask) : list SubAgentTask :=
  List.map (fun t => if bool_decide (task_id t ∈ d /\ status t = trunning)
                     then with_outcome tfailed None (Some "cancelled before completion") t else t) l.

(** Wake-up from [asyncio.wait(FIRST_COMPLETED)] and the bookkeeping that follows,
    up to the next turn, the final break or the second wait. *)
Definition collect (c : config) (s : sched) : sched :=
  let d := done_set s in
  let tasks1 := settle d (tasks s) in
  let ok : ids := filter (fun i => status_of tasks1 i = Some tsuccess) d in
  let bad : ids := d ∖ ok in
  let running' := running s ∖ d in
  let abort := (fail_fast c && negb (bool_decide (bad = ∅)))%bool in
  let idle := bool_decide (running' = ∅) in
  let tasks2 := if abort then restatus tpending tskipped tasks1 else tasks1 in
  {| tasks := if (abort && idle)%bool then restatus trunning tskipped tasks2 else tasks2;
     dag := dag s;
     completed_ids := completed_ids s ∪ ok; failed_ids := failed_ids s ∪ bad;
     started_ids := started_ids s; running := running'; done_set := ∅; launched := launched s;
     pc := if abort then (if idle then Finished else Cancelling) else Top |}.

(** A cancelled coroutine ends: its task keeps the status it has. *)
Definition cancelled (i : string) (s : sched) : sched :=
  {| tasks := tasks s; dag := dag s; completed_ids := completed_ids s; failed_ids := failed_ids s;
     started_ids := started_ids s; running := running s; done_set := {[i]} ∪ done_set s;
     launched := launched s; pc := pc s |}.

(** The end of the fail-fast branch, after [asyncio.wait(ALL_COMPLETED)]. *)
Definition abort_end (s : sched) : sched :=
  {| tasks := restatus trunning tskipped (tasks s);
     dag := dag s; completed_ids := completed_ids s; failed_ids := failed_ids s;
     started_ids := started_ids s; running := ∅; done_set := ∅; launched := launched s; pc := Finished |}.

Inductive step (c : config) : sched -> sched -> Prop :=
| s_launch s : pc s = Top -> step c s (launch s)
| s_acquire s i :
    pc s = Waiting -> i ∈ running s ∖ done_set s -> status_of (tasks s) i = Some tpending ->
    Z.of_nat (size (active s)) < parallel c -> step c s (run_task_start i s)
| s_finish s i o :
    pc s = Waiting \/ pc s = Cancelling ->
    i ∈ active s -> step c s (run_task_end c i o s)
| s_collect s : pc s = Waiting -> done_set s <> ∅ -> step c s (collect c s)
| s_cancelled s i : pc s = Cancelling -> i ∈ running s ∖ done_set s -> step c s (cancelled i s)
| s_abort_end s : pc s = Cancelling -> running s ⊆ done_set s -> step c s (abort_end s).

(** [run()] up to the first turn: the graph is validated, then the loop starts. *)
Definition init (ts : list SubAgentTask) : res sched :=
  let! g := DependencyGraph_init ts in
  Ok {| tasks := ts; dag := g; completed_ids := ∅; failed_ids := ∅; started_ids := ∅;
        running := ∅; done_set := ∅; launched := []; pc := Top |}.

Inductive reachable (c : config) (ts : list SubAgentTask) : sched -> Prop :=
| r_init s : init ts = Ok s -> reachable c ts s
| r_step s s' : reachable c ts s -> step c s s' -> reachable c ts s'.

(** ** The result *)

Record MetaRunResult := {
  r_tasks : list SubAgentTask; succeeded : Z; n_failed : Z; skipped : Z }.

Definition count_status (st : TaskStatus) (l : list SubAgentTask) : Z :=
  Z.of_nat (length (List.filter (fun t => bool_decide (status t = st)) l)).

Definition run_result (s : sched) : MetaRunResult :=
  {| r_tasks := tasks s; succeeded := count_status tsuccess (tasks s);
     n_failed := count_status tfailed (tasks s); skipped := count_status tskipped (tasks s) |}.

Definition all_succeeded (r : MetaRunResult) : bool := (n_failed r =? 0) && (skipped r =? 0).

(** ** Executable fragment: a round-robin driver, used to evaluate scenarios.
    It acquires the first waiting coroutine, else finishes the first active one
    with the outcome [oracle] gives, else collects. *)
Definition pick (P : string -> bool) (s : sched) : option string :=
  List.find P (List.map task_id (tasks s)).

Definition can_acquire (c : config) (s : sched) (i : string) : bool :=
  bool_decide (i ∈ running s ∖ done_set s) && bool_decide (status_of (tasks s) i = Some tpending)
  && (Z.of_nat (size (active s)) <? parallel c).
Definition is_active (s : sched) (i : string) : bool := bool_decide (i ∈ active s).
Definition is_live (s : sched) (i : string) : bool := bool_decide (i ∈ running s ∖ done_set s).

Definition drive1 (c : config) (oracle : string -> outcome) (s : sched) : sched :=
  match pc s with
  | Top => launch s
  | Waiting =>
      match pick (can_acquire c s) s with
      | Some i => run_task_start i s
      | None =>
          match pick (is_active s) s with
          | Some i => run_task_end c i (oracle i) s
          | None => if bool_decide (done_set s = ∅) then s else collect c s
          end
      end
  | Cancelling =>
      match pick (is_live s) s with
      | Some i => cancelled i s
      | None => if bool_decide (running s ⊆ done_set s) then abort_end s else s
      end
  | Finished => s
  end.

Fixpoint drive (n : nat) (c : config) (oracle : string -> outcome) (s : sched) : sched :=
  match n with O => s | S n' => drive n' c oracle (drive1 c oracle s) end.

(** ** Facts about the scheduler *)

(** ** Statuses after an update of the task list *)

Lemma status_of_map f h l j :
  (forall t, task_id (f t) = task_id t) ->
  (forall t, status (f t) = h (task_id t) (status t)) ->
  status_of (List.map f l) j = option_map (h j) (status_of l j).
Proof.
  intros Hid Hst. unfold status_of. induction l as [|t l IH]; simpl; [done|].
  rewrite Hid. destruct (String.eqb_spec (task_id t) j) as [<-|]; [|done]. simpl. by rewrite Hst.
Qed.

Lemma ids_map f l : (forall t, task_id (f t) = task_id t) ->
  List.map task_id (List.map f l) = List.map task_id l.
Proof. intros H. rewrite List.map_map. by apply List.map_ext. Qed.

Lemma on_task_ids i f l : (forall t, task_id (f t) = task_id t) ->
  List.map task_id (on_task i f l) = List.map task_id l.
Proof. intros H. apply ids_map. intros t. by destruct (String.eqb _ _). Qed.

Lemma restatus_ids a b l : List.map task_id (restatus a b l) = List.map task_id l.
Proof. apply ids_map. intros t. by case_bool_decide. Qed.

Lemma settle_ids d l : List.map task_id (settle d l) = List.map task_id l.
Proof. apply ids_map. intros t. by case_bool_decide. Qed.

Lemma status_on_task i f st l j :
  (forall t, task_id (f t) = task_id t) -> (forall t, status (f t) = st) ->
  status_of (on_task i f l) j =
    option_map (fun s => if String.eqb j i then st else s) (status_of l j).
Proof.
  intros Hid Hst. apply (status_of_map _ (fun j s => if String.eqb j i then st else s)).
  - intros t. by destruct (String.eqb _ _).
  - intros t. by destruct (String.eqb _ _).
Qed.

Lemma status_restatus a b l j :
  status_of (restatus a b l) j = option_map (fun s => if bool_decide (s = a) then b else s) (status_of l j).
Proof.
  apply (status_of_map _ (fun _ s => if bool_decide (s = a) then b else s)); intros t; by case_bool_decide.
Qed.

Lemma status_settle d l j :
  status_of (settle d l) j =
    option_map (fun s => if bool_decide (j ∈ d /\ s = trunning) then tfailed else s) (status_of l j).
Proof.
  unfold settle.
  rewrite (status_of_map _ (fun j s => if bool_decide (j ∈ d /\ s = trunning) then tfailed else s));
    [done|intros t; by case_bool_decide..].
Qed.

Lemma status_of_In l j : In j (List.map task_id l) <-> is_Some (status_of l j).
Proof.
  unfold status_of. induction l as [|t l IH]; simpl.
  - split; [done|by intros []].
  - destruct (String.eqb_spec (task_id t) j) as [->|Hn]; simpl.
    + split; [by eexists|by left].
    + rewrite <- IH. split; [by intros [?|?]|by right].
Qed.

(** The task object behind a status. *)
Lemma status_of_task l j st :
  status_of l j = Some st -> exists t, In t l /\ task_id t = j /\ status t = st.
Proof.
  unfold status_of. destruct (List.find _ l) as [t|] eqn:E; [|done]. intros [= <-].
  apply List.find_some in E as [Hin E]. apply String.eqb_eq in E. by exists t.
Qed.

Lemma task_status_of l t :
  List.NoDup (List.map task_id l) -> In t l -> status_of l (task_id t) = Some (status t).
Proof.
  intros Hnd Hin. unfold status_of. induction l as [|u l IH]; [done|]. simpl in *.
  inversion Hnd as [|? ? Hn Hnd']; subst. destruct Hin as [->|Hin].
  - by rewrite String.eqb_refl.
  - destruct (String.eqb_spec (task_id u) (task_id t)) as [E|]; [|by apply IH].
    exfalso. apply Hn. rewrite E. by apply in_map.
Qed.

(** ** The invariant *)

Definition final_status (st : TaskStatus) : Prop := st = tsuccess \/ st = tfailed \/ st = tskipped.

Definition aborting (p : loop_pc) : Prop := p = Cancelling \/ p = Finished.

(** What the status of a task can be, by where its coroutine is. *)
Definition status_ok (s : sched) (i : string) (st : TaskStatus) : Prop :=
  (i ∉ started_ids s -> (st = tpending /\ ~ aborting (pc s)) \/ (st = tskipped /\ aborting (pc s))) /\
  (i ∈ running s -> i ∉ done_set s ->
     (st = tpending /\ pc s = Waiting) \/ (st = trunning /\ pc s <> Finished) \/
     (st = tskipped /\ pc s = Cancelling) \/ (st = tpending /\ pc s = Top)) /\
  (i ∈ done_set s -> st = tsuccess \/ st = tfailed \/ st = trunning \/
     (st = tskipped /\ pc s = Cancelling)) /\
  (i ∈ started_ids s -> i ∉ running s ->
     (st = tsuccess /\ (i ∈ completed_ids s \/ pc s = Finished)) \/
     (st = tfailed /\ (i ∈ failed_ids s \/ pc s = Finished)) \/
     (st = tskipped /\ pc s = Finished)) /\
  (i ∈ completed_ids s -> st = tsuccess).

Record sinv (c : config) (s : sched) : Prop := {
  iv_ids : List.map task_id (tasks s) = task_ids (dag s);
  iv_dag : dag_ok (dag s);
  iv_started : forall i, i ∈ started_ids s -> In i (task_ids (dag s));
  iv_running : running s ⊆ started_ids s;
  iv_done : done_set s ⊆ running s;
  iv_completed : completed_ids s ⊆ started_ids s ∖ running s;
  iv_status : forall i st, status_of (tasks s) i = Some st -> status_ok s i st;
  iv_par : Z.of_nat (size (active s)) <= parallel c;
  iv_fin : pc s = Finished -> running s = ∅;
  iv_top : pc s = Top -> done_set s = ∅;
  iv_wait : pc s = Waiting -> running s <> ∅ }.

Lemma parallel_pos c : 1 <= parallel c.
Proof. unfold parallel. lia. Qed.

Lemma elem_of_active s i :
  i ∈ active s <-> status_of (tasks s) i = Some trunning /\ i ∈ running s /\ i ∉ done_set s.
Proof. unfold active. rewrite elem_of_filter, elem_of_difference. tauto. Qed.

Lemma active_mono s s' :
  (forall i, i ∈ active s' -> i ∈ active s) -> (size (active s') <= size (active s))%nat.
Proof. intros H. apply subseteq_size. intros i Hi. by apply H. Qed.

(** The graph component of a step. *)
Lemma patch_ok c g p : dag_ok g -> dag_ok (_maybe_apply_patch c g p) /\
  task_ids (_maybe_apply_patch c g p) = task_ids g.
Proof.
  intros H. unfold _maybe_apply_patch. destruct (dynamic_rewiring c); [|done].
  destruct p as [| |q]; [done|done|]. split; [by apply dag_ok_patch|apply task_ids_patch].
Qed.

(** ** Launch *)

Definition launch_new (s : sched) : ids := list_to_set (snd (launches s)).

Lemma launch_loop_fst started l :
  fst (launch_loop started l) = started ∪ list_to_set (snd (launch_loop started l)).
Proof.
  revert started; induction l as [|t l IH]; intros started; simpl; [set_solver|].
  case_bool_decide; [apply IH|]. simpl. rewrite IH. set_solver.
Qed.

Lemma launch_loop_In started l i :
  i ∈ snd (launch_loop started l) <-> i ∉ started /\ exists t, In t l /\ task_id t = i.
Proof.
  revert started; induction l as [|t l IH]; intros started; simpl.
  { split; [by intros ?%elem_of_nil|by intros (_ & ? & [] & _)]. }
  case_bool_decide as Hs; simpl; rewrite ?elem_of_cons, IH.
  - split; intros (Hn & u & Hu & Ht); (split; [done|]); [by exists u; auto|].
    destruct Hu as [<-|Hu]; [congruence|by exists u].
  - split.
    + intros [->|(Hn & u & Hu & Ht)]; [split; [done|by exists t; auto]|].
      split; [set_solver|by exists u; auto].
    + intros (Hn & u & [<-|Hu] & Ht); [by left|].
      destruct (decide (i = task_id t)); [by left|right].
      split; [set_solver|by exists u].
Qed.

Lemma launch_loop_NoDup started l : NoDup (snd (launch_loop started l)).
Proof.
  revert started; induction l as [|t l IH]; intros started; simpl; [constructor|].
  case_bool_decide; [apply IH|]. constructor; [|apply IH].
  rewrite launch_loop_In. set_solver.
Qed.

Lemma launch_new_spec s i :
  i ∈ launch_new s <->
  exists t, In t (tasks s) /\ task_id t = i /\ status t = tpending /\ i ∉ started_ids s /\
    forall d, In d (deps (dag s) i) -> d ∈ completed_ids s.
Proof.
  unfold launch_new, launches, ready_tasks. rewrite elem_of_list_to_set, launch_loop_In.
  split.
  - intros (Hs & t & Ht & <-). rewrite !List.filter_In,
      andb_true_iff, bool_decide_eq_true, forallb_forall in Ht.
    destruct Ht as [Hin [Hp Hd]]. exists t. repeat (split; [done|]).
    intros d Hd'. apply Hd in Hd'. by apply bool_decide_eq_true in Hd'.
  - intros (t & Hin & <- & Hp & Hs & Hd). split; [done|]. exists t. split; [|done].
    rewrite !List.filter_In, andb_true_iff,
      bool_decide_eq_true, forallb_forall. split; [done|]. split; [done|].
    intros d Hd'. apply bool_decide_eq_true. auto.
Qed.

Lemma launch_eq s :
  launch s =
  let idle := bool_decide (running s ∪ launch_new s = ∅) in
  {| tasks := if idle then restatus tpending tskipped (tasks s) else tasks s;
     dag := dag s; completed_ids := completed_ids s; failed_ids := failed_ids s;
     started_ids := started_ids s ∪ launch_new s; running := running s ∪ launch_new s;
     done_set := done_set s; launched := launched s ++ snd (launches s);
     pc := if idle then Finished else Waiting |}.
Proof. unfold launch, launch_new. f_equal. apply launch_loop_fst. Qed.

(** One asyncio task per started task: so the sets [running] and [started_ids] lose
    nothing. *)
Lemma launched_started c ts s :
  reachable c ts s -> NoDup (launched s) /\ forall i, i ∈ launched s <-> i ∈ started_ids s.
Proof.
  induction 1 as [s Hi|s s' Hr [IHn IHs] Hs].
  { unfold init in Hi. destruct (DependencyGraph_init ts); [|done]. injection Hi as <-. simpl.
    split; [constructor|]. intros i. split; [by intros ?%elem_of_nil|set_solver]. }
  destruct Hs; try done. rewrite launch_eq; simpl. split.
  - apply NoDup_app. split; [done|]. split; [|apply launch_loop_NoDup].
    intros i Hi Hn. apply launch_loop_In in Hn as [Hn _]. by apply Hn, IHs.
  - intros i. unfold launch_new. by rewrite elem_of_app, elem_of_union, elem_of_list_to_set, IHs.
Qed.

Lemma launch_new_pending c s i : sinv c s -> i ∈ launch_new s ->
  status_of (tasks s) i = Some tpending /\ i ∉ started_ids s /\ In i (task_ids (dag s)).
Proof.
  intros I (t & Hin & <- & Hp & Hs & _)%launch_new_spec.
  pose proof (wf_ids _ (proj1 (iv_dag _ _ I))) as Hnd. rewrite <- (iv_ids _ _ I) in *.
  rewrite <- Hp. split; [by apply task_status_of|]. split; [done|]. by apply in_map.
Qed.

Lemma inv_launch c s : sinv c s -> pc s = Top -> sinv c (launch s).
Proof.
  intros I Hpc. rewrite launch_eq. simpl.
  pose proof (iv_top _ _ I Hpc) as Hd0.
  pose proof (launch_new_pending c s) as Hnew.
  case_bool_decide as Hidle.
  - (* nothing is running: the blocked tasks are skipped *)
    assert (Hr : running s = ∅) by set_solver. assert (Hn : launch_new s = ∅) by set_solver.
    constructor; simpl; rewrite ?restatus_ids, ?Hn, ?union_empty_r_L.
    + apply I.
    + apply I.
    + apply I.
    + set_solver.
    + set_solver.
    + rewrite Hr. pose proof (iv_completed _ _ I). set_solver.
    + intros i st. rewrite status_restatus. destruct (status_of (tasks s) i) as [st0|] eqn:Est; [|done].
      intros [= <-]. destruct (iv_status _ _ I i st0 Est) as (H1 & H2 & H3 & H4 & H5).
      unfold status_ok; simpl. rewrite Hpc in *.
      pose proof (iv_completed _ _ I) as Hc.
      repeat split.
      * intros Hi. destruct H1 as [[-> _]|[-> [?|?]]]; [set_solver|right|done|done].
        case_bool_decide; [|done]. split; [done|by right].
      * set_solver.
      * set_solver.
      * intros Hi _. destruct H4 as [[-> [?|?]]|[[-> [?|?]]|[_ ?]]];
          [set_solver|set_solver|left|done|right; left|done|done];
          (case_bool_decide; [done|]); auto.
      * intros Hi. rewrite (H5 Hi). by case_bool_decide.
    + unfold active; simpl. rewrite Hr.
      set (x := size _). assert (x = 0%nat) as ->; [|pose proof (parallel_pos c); lia].
      unfold x. apply size_empty_iff. set_solver.
    + set_solver.
    + done.
    + done.
  - constructor; simpl.
    + apply I.
    + apply I.
    + intros i [Hi|Hi]%elem_of_union; [by apply (iv_started _ _ I)|]. by apply Hnew.
    + pose proof (iv_running _ _ I). set_solver.
    + pose proof (iv_done _ _ I). set_solver.
    + pose proof (iv_completed _ _ I) as Hc. intros i Hi. apply elem_of_difference.
      split; [set_solver|]. intros [Hr|Hr]%elem_of_union; [set_solver|].
      apply (Hnew i I) in Hr as (_ & Hr & _). set_solver.
    + intros i st Est. destruct (iv_status _ _ I i st Est) as (H1 & H2 & H3 & H4 & H5).
      unfold status_ok; simpl. rewrite Hpc in *.
      repeat split.
      * intros Hi. destruct H1 as [[-> _]|[_ [?|?]]]; [set_solver|left|done|done].
        split; [done|]. by intros [?|?].
      * intros [Hi|Hi]%elem_of_union Hnd.
        -- destruct H2 as [[_ ?]|[[-> _]|[[_ ?]|[-> _]]]]; try done.
           ++ right; left. done.
           ++ left. done.
        -- apply (Hnew i I) in Hi as (E & _). rewrite Est in E. injection E as ->. by left.
      * set_solver.
      * intros Hi Hr. destruct H4 as [[-> [?|?]]|[[-> [?|?]]|[_ ?]]]; try done.
        -- set_solver.
        -- set_solver.
        -- left. auto.
        -- right; left. auto.
      * exact H5.
    + etransitivity; [|apply (iv_par _ _ I)]. apply Nat2Z.inj_le, active_mono.
      intros i (Hs & Hr & Hnd)%elem_of_active. simpl in *. apply elem_of_active.
      split; [done|]. split; [|done]. apply elem_of_union in Hr as [Hr|Hr]; [done|].
      apply (Hnew i I) in Hr as (E & _). congruence.
    + done.
    + done.
    + done.
Qed.

(** ** The coroutine steps *)

(** Splits [status_ok] and unfolds the record projections of the new state. *)
Ltac open_status H :=
  let H1 := fresh "Hs" in let H2 := fresh "Hr" in let H3 := fresh "Hd" in
  let H4 := fresh "Hc" in let H5 := fresh "Hk" in
  destruct H as (H1 & H2 & H3 & H4 & H5); unfold status_ok; simpl.

Lemma inv_acquire c s i :
  sinv c s -> pc s = Waiting -> i ∈ running s ∖ done_set s -> status_of (tasks s) i = Some tpending ->
  Z.of_nat (size (active s)) < parallel c -> sinv c (run_task_start i s).
Proof.
  intros I Hpc [Hr Hd]%elem_of_difference Hi Hp.
  assert (Hst : forall j, status_of (tasks (run_task_start i s)) j =
    option_map (fun st => if String.eqb j i then trunning else st) (status_of (tasks s) j))
    by (intros j; by apply status_on_task).
  constructor; simpl; try apply I.
  - rewrite on_task_ids by done. apply I.
  - intros j st Ej. simpl in Hst. rewrite Hst in Ej.
    destruct (status_of (tasks s) j) as [st0|] eqn:E0; [|done]. injection Ej as <-.
    pose proof (iv_status _ _ I j st0 E0) as Hok.
    destruct (String.eqb_spec j i) as [->|Hn]; [|exact Hok].
    open_status Hok. rewrite Hpc. pose proof (iv_running _ _ I). pose proof (iv_completed _ _ I).
    repeat split; set_solver.
  - assert (Hsub : active (run_task_start i s) ⊆ {[i]} ∪ active s).
    { intros j (Es & Hj & Hjd)%elem_of_active. rewrite Hst in Es. simpl in Hj, Hjd.
      rewrite elem_of_union, elem_of_singleton, elem_of_active.
      destruct (decide (j = i)) as [?|Hn]; [by left|right].
      apply String.eqb_neq in Hn. rewrite Hn in Es.
      destruct (status_of (tasks s) j) as [st0|]; [|done]. by injection Es as ->. }
    apply subseteq_size in Hsub. rewrite size_union_alt, size_singleton in Hsub.
    assert (size (active s ∖ {[i]}) <= size (active s))%nat by (apply subseteq_size; set_solver).
    lia.
Qed.

(** A coroutine that ends moves to [done_set]; its new status is final, or it is
    left running, or it was cancelled while skipped. *)
Lemma inv_end c s s' i :
  sinv c s -> (pc s = Waiting \/ pc s = Cancelling) -> i ∈ running s ∖ done_set s ->
  pc s' = pc s -> started_ids s' = started_ids s -> running s' = running s ->
  done_set s' = {[i]} ∪ done_set s -> completed_ids s' = completed_ids s -> failed_ids s' = failed_ids s ->
  dag_ok (dag s') -> task_ids (dag s') = task_ids (dag s) ->
  List.map task_id (tasks s') = List.map task_id (tasks s) ->
  (forall j, j <> i -> status_of (tasks s') j = status_of (tasks s) j) ->
  (forall st, status_of (tasks s') i = Some st ->
     st = tsuccess \/ st = tfailed \/ st = trunning \/ (st = tskipped /\ pc s = Cancelling)) ->
  sinv c s'.
Proof.
  intros I Hpc [Hr Hd]%elem_of_difference Epc Es Er Ed Ec Ef Hdag Hids Htid Hne Hi.
  pose proof (iv_running _ _ I). pose proof (iv_completed _ _ I). pose proof (iv_done _ _ I).
  constructor; rewrite ?Epc, ?Es, ?Er, ?Ed, ?Ec, ?Htid, ?Hids; try apply I; try done.
  - set_solver.
  - intros j st Ej. destruct (String.eqb_spec j i) as [->|Hn].
    + apply Hi in Ej. unfold status_ok. rewrite Epc, Es, Er, Ed, Ec, Ef.
      repeat split; try set_solver.
    + rewrite Hne in Ej by done. pose proof (iv_status _ _ I j st Ej) as Hok.
      open_status Hok. rewrite Epc, Es, Er, Ed, Ec, Ef. repeat split; try assumption.
      * intros Hj Hjd. apply Hr0; [done|]. set_solver.
      * intros [Hj|Hj]%elem_of_union; [set_solver|]. by apply Hd0.
  - etransitivity; [|apply (iv_par _ _ I)]. apply Nat2Z.inj_le, active_mono.
    intros j (Ej & Hj & Hjd)%elem_of_active. rewrite Er in Hj. rewrite Ed in Hjd.
    apply elem_of_active. rewrite <- Hne by set_solver. split; [done|]. split; [done|]. set_solver.
  - intros E. destruct Hpc as [H'|H']; rewrite H' in E; done.
Qed.

Lemma inv_finish c s i o :
  sinv c s -> (pc s = Waiting \/ pc s = Cancelling) -> i ∈ active s -> sinv c (run_task_end c i o s).
Proof.
  intros I Hpc (Es & Hr & Hd)%elem_of_active.
  destruct (patch_ok c (dag s) (match o with OSuccess _ p => p | _ => NoPatch end) (iv_dag _ _ I)) as [Hok Hids].
  assert (Hg : dag (run_task_end c i o s) =
    _maybe_apply_patch c (dag s) (match o with OSuccess _ p => p | _ => NoPatch end)).
  { destruct o; simpl; [done| |]; unfold _maybe_apply_patch; by destruct (dynamic_rewiring c). }
  eapply (inv_end c s _ i); try done; try set_solver; rewrite ?Hg; try done.
  - destruct o; simpl; [by rewrite on_task_ids..|done].
  - intros j Hn. apply String.eqb_neq in Hn.
    destruct o as [r p|m|]; simpl; [rewrite (status_on_task _ _ tsuccess) by done
      |rewrite (status_on_task _ _ tfailed) by done|done];
    rewrite Hn; by destruct (status_of (tasks s) j).
  - intros st. destruct o as [r p|m|]; simpl; [rewrite (status_on_task _ _ tsuccess) by done
      |rewrite (status_on_task _ _ tfailed) by done|]; rewrite Es; simpl; rewrite ?String.eqb_refl;
    intros [= <-]; auto.
Qed.

Lemma inv_cancelled c s i :
  sinv c s -> pc s = Cancelling -> i ∈ running s ∖ done_set s -> sinv c (cancelled i s).
Proof.
  intros I Hpc Hi. pose proof Hi as [Hr Hd]%elem_of_difference.
  eapply (inv_end c s _ i); try done; try apply I; [by right|].
  intros st Est. simpl in Est. destruct (iv_status _ _ I i st Est) as (_ & H2 & _).
  destruct (H2 Hr Hd) as [[_ ?]|[[-> _]|[[-> ?]|[_ ?]]]]; [congruence|auto|auto|congruence].
Qed.

(** ** The main loop's bookkeeping *)

Definition collect_ok (s : sched) : ids :=
  filter (fun i => status_of (settle (done_set s) (tasks s)) i = Some tsuccess) (done_set s).

Lemma collect_ok_spec s i :
  i ∈ collect_ok s <-> i ∈ done_set s /\ status_of (tasks s) i = Some tsuccess.
Proof.
  unfold collect_ok. rewrite elem_of_filter, status_settle.
  destruct (status_of (tasks s) i) as [st|]; simpl; [|intuition congruence].
  case_bool_decide as H; [destruct H as [_ ->]|]; intuition congruence.
Qed.

(** The status of [i] after [collect], from the one before. *)
Definition collect_status (abort idle : bool) (d : ids) (i : string) (st : TaskStatus) : TaskStatus :=
  let st1 := if bool_decide (i ∈ d /\ st = trunning) then tfailed else st in
  let st2 := if (abort && bool_decide (st1 = tpending))%bool then tskipped else st1 in
  if (abort && idle && bool_decide (st2 = trunning))%bool then tskipped else st2.

Definition collect_abort (c : config) (s : sched) : bool :=
  (fail_fast c && negb (bool_decide (done_set s ∖ collect_ok s = ∅)))%bool.
Definition collect_idle (s : sched) : bool := bool_decide (running s ∖ done_set s = ∅).

Lemma collect_status_of c s i :
  status_of (tasks (collect c s)) i =
  option_map (collect_status (collect_abort c s) (collect_idle s) (done_set s) i) (status_of (tasks s) i).
Proof.
  unfold collect, collect_status. simpl. fold (collect_ok s). fold (collect_abort c s) (collect_idle s).
  destruct (collect_abort c s), (collect_idle s); simpl; rewrite ?status_restatus, status_settle;
    destruct (status_of (tasks s) i); simpl; try done; repeat case_bool_decide; try done; naive_solver.
Qed.

Lemma collect_ids c s : List.map task_id (tasks (collect c s)) = List.map task_id (tasks s).
Proof.
  unfold collect; simpl. fold (collect_ok s). fold (collect_abort c s) (collect_idle s).
  destruct (collect_abort c s), (collect_idle s); simpl; by rewrite ?restatus_ids, settle_ids.
Qed.

Lemma collect_status_in abort idle d i st :
  i ∈ d -> st = tsuccess \/ st = tfailed \/ st = trunning ->
  collect_status abort idle d i st = (if decide (st = tsuccess) then tsuccess else tfailed).
Proof.
  intros Hi Hst. unfold collect_status.
  destruct Hst as [->|[->| ->]]; [rewrite (bool_decide_eq_false_2 (i ∈ d /\ _)) by (by intros [_ ?])
    |rewrite (bool_decide_eq_false_2 (i ∈ d /\ _)) by (by intros [_ ?])|rewrite (bool_decide_eq_true_2 (i ∈ d /\ _)) by done];
    by destruct abort, idle.
Qed.

Lemma collect_status_notin abort idle d i st :
  i ∉ d ->
  collect_status abort idle d i st =
    match st with
    | tpending => if abort then tskipped else tpending
    | trunning => if (abort && idle)%bool then tskipped else trunning
    | _ => st
    end.
Proof.
  intros Hi. unfold collect_status. rewrite (bool_decide_eq_false_2 (i ∈ d /\ _)) by (by intros [? _]).
  by destruct st, abort, idle.
Qed.

(** The status clause of the invariant across [collect]. *)
Lemma collect_status_ok c s s' i st0 :
  sinv c s -> pc s = Waiting -> status_of (tasks s) i = Some st0 ->
  completed_ids s' = completed_ids s ∪ collect_ok s ->
  failed_ids s' = failed_ids s ∪ (done_set s ∖ collect_ok s) ->
  started_ids s' = started_ids s -> running s' = running s ∖ done_set s -> done_set s' = ∅ ->
  pc s' = (if collect_abort c s then (if collect_idle s then Finished else Cancelling) else Top) ->
  status_ok s' i (collect_status (collect_abort c s) (collect_idle s) (done_set s) i st0).
Proof.
  intros I Hpc E0 Ec Ef Es Er Ed Epc.
  pose proof (iv_running _ _ I) as HR. pose proof (iv_completed _ _ I) as HC.
  pose proof (iv_done _ _ I) as HD. pose proof (collect_ok_spec s i) as HO. rewrite E0 in HO.
  pose proof (iv_status _ _ I i st0 E0) as Hok. open_status Hok.
  rewrite Ec, Ef, Es, Er, Ed, Epc. rewrite Hpc in Hs, Hr, Hd, Hc. clear Ec Ef Es Er Ed Epc.
  set (ab := collect_abort c s) in *. set (idl := collect_idle s) in *.
  assert (Hidl : idl = true -> i ∉ running s ∖ done_set s).
  { intros Hx%bool_decide_eq_true_1. rewrite Hx. apply not_elem_of_empty. }
  clearbody ab idl.
  destruct (decide (i ∈ done_set s)) as [Hi|Hi].
  - assert (Hdone : st0 = tsuccess \/ st0 = tfailed \/ st0 = trunning)
      by (destruct (Hd Hi) as [?|[?|[?|[_ ?]]]]; auto; done).
    rewrite collect_status_in by done. apply HD in Hi as Hir. apply HR in Hir as His.
    split; [done|]. split; [by intros [_ ?]%elem_of_difference|].
    split; [by intros ?%not_elem_of_empty|]. split.
    + intros _ _. case_decide as Hx; [left|right; left]; (split; [done|left]); apply elem_of_union_r.
      * by apply HO; subst.
      * apply elem_of_difference. split; [done|]. rewrite HO. by intros [_ [= ?]].
    + intros [Hx|Hx]%elem_of_union.
      * by apply HC, elem_of_difference in Hx as [_ ?].
      * apply HO in Hx as [_ [= ->]]. by rewrite decide_True.
  - rewrite collect_status_notin by done.
    split; [|split; [|split; [by intros ?%not_elem_of_empty|split]]].
    + intros Hn. destruct (Hs Hn) as [[-> _]|[_ [?|?]]]; [|done|done].
      destruct ab; [right|left]; split; try done; unfold aborting.
      * destruct idl; auto.
      * by intros [?|?].
    + intros Hr' _. pose proof Hr' as [Hr'' _]%elem_of_difference.
      destruct (Hr Hr'' Hi) as [[-> _]|[[-> _]|[[_ ?]|[_ ?]]]]; try done.
      * destruct ab, idl; try (right; right; left; done); try (right; right; right; done).
        by exfalso; apply Hidl.
      * destruct ab, idl; try (right; left; done).
        by exfalso; apply Hidl.
    + intros Hst Hnr. destruct (decide (i ∈ running s)) as [Hx|Hx].
      { exfalso. by apply Hnr, elem_of_difference. }
      destruct (Hc Hst Hx) as [[-> [?|?]]|[[-> [?|?]]|[_ ?]]]; try done.
      * left. split; [done|]. left. by apply elem_of_union_l.
      * right; left. split; [done|]. left. by apply elem_of_union_l.
    + intros [Hx|Hx]%elem_of_union; [by rewrite (Hk Hx)|]. by apply HO in Hx as [? _].
Qed.

Lemma inv_collect c s : sinv c s -> pc s = Waiting -> sinv c (collect c s).
Proof.
  intros I Hpc.
  pose proof (iv_running _ _ I) as HR. pose proof (iv_completed _ _ I) as HC.
  pose proof (iv_done _ _ I) as HD. pose proof (collect_ok_spec s) as HO.
  assert (Hcoll : collect c s = {|
     tasks := tasks (collect c s); dag := dag s;
     completed_ids := completed_ids s ∪ collect_ok s;
     failed_ids := failed_ids s ∪ (done_set s ∖ collect_ok s);
     started_ids := started_ids s; running := running s ∖ done_set s; done_set := ∅;
     pc := if collect_abort c s then (if collect_idle s then Finished else Cancelling) else Top |})
    by reflexivity.
  assert (Hidle : collect_idle s = true -> running s ∖ done_set s = ∅)
    by (unfold collect_idle; apply bool_decide_eq_true_1).
  pose proof (collect_status_of c s) as Hst. pose proof (collect_ids c s) as Hids.
  rewrite Hcoll. set (ts := tasks (collect c s)) in *. clearbody ts. clear Hcoll.
  assert (Hstat : forall i st, status_of ts i = Some st -> exists st0,
     status_of (tasks s) i = Some st0 /\
     st = collect_status (collect_abort c s) (collect_idle s) (done_set s) i st0).
  { intros i st. rewrite Hst. destruct (status_of (tasks s) i) as [st0|]; [|done].
    intros [= <-]. by exists st0. }
  constructor; simpl.
  - rewrite Hids. apply I.
  - apply I.
  - apply I.
  - set_solver.
  - set_solver.
  - intros i Hi%elem_of_union. rewrite !elem_of_difference.
    destruct Hi as [Hi%HC|[Hi _]%HO].
    + apply elem_of_difference in Hi as [? ?]. split; [done|]. by intros [? _].
    + split; [by apply HR, HD|]. by intros [_ ?].
  - intros i st (st0 & E0 & ->)%Hstat.
    by apply collect_status_ok.
  - etransitivity; [|apply (iv_par _ _ I)]. apply Nat2Z.inj_le, active_mono.
    intros i (Es & Hr & _)%elem_of_active. simpl in *. apply elem_of_active.
    apply elem_of_difference in Hr as [Hr Hd]. split; [|done].
    apply Hstat in Es as (st0 & E0 & Es). rewrite E0. f_equal.
    rewrite collect_status_notin in Es by done.
    destruct st0, (collect_abort c s), (collect_idle s); done.
  - destruct (collect_abort c s), (collect_idle s); try done. intros _. by apply Hidle.
  - done.
  - destruct (collect_abort c s), (collect_idle s); done.
Qed.

Lemma inv_abort_end c s : sinv c s -> pc s = Cancelling -> running s ⊆ done_set s -> sinv c (abort_end s).
Proof.
  intros I Hpc Hall.
  constructor; simpl; rewrite ?restatus_ids; try done; try apply I.
  - intros i Hi. by apply (iv_completed _ _ I), elem_of_difference in Hi as [? _]; apply elem_of_difference.
  - intros i st. rewrite status_restatus. destruct (status_of (tasks s) i) as [st0|] eqn:E0; [|done].
    intros [= <-]. pose proof (iv_status _ _ I i st0 E0) as Hok. open_status Hok. rewrite Hpc in *.
    unfold aborting in *.
    split; [|split; [by intros ?%not_elem_of_empty|split; [by intros ?%not_elem_of_empty|split]]].
    + intros Hn. right. split; [|by right]. destruct (Hs Hn) as [[-> Hx]|[-> _]]; [|done].
      exfalso. apply Hx. by left.
    + intros Hst _. destruct (decide (i ∈ running s)) as [Hi|Hi].
      * apply Hall in Hi. destruct (Hd Hi) as [->|[->|[->|[-> _]]]]; simpl; auto 10.
      * destruct (Hc Hst Hi) as [[-> _]|[[-> _]|[-> _]]]; simpl; auto 10.
    + intros Hx. by rewrite (Hk Hx).
  - set (x := size _). assert (x = 0%nat) as ->; [|pose proof (parallel_pos c); lia].
    unfold x, active. apply size_empty_iff. simpl. set_solver.
Qed.

(** ** Reachable states *)

(** Every task of the input is ["pending"], as the dataclass default has it. *)
Definition all_pending (ts : list SubAgentTask) : Prop := forall t, In t ts -> status t = tpending.

Lemma inv_step c s s' : sinv c s -> step c s s' -> sinv c s'.
Proof.
  intros I Hs. destruct Hs.
  - by apply inv_launch.
  - by apply inv_acquire.
  - by apply inv_finish.
  - by apply inv_collect.
  - by apply inv_cancelled.
  - by apply inv_abort_end.
Qed.

(** The graph [run()] validates first. *)
Definition graph_of (ts : list SubAgentTask) : DependencyGraph :=
  {| task_ids := List.map task_id ts; _depends_on := List.map (fun t => (task_id t, depends_on t)) ts |}.

Lemma dset_fresh {V} (d : list (string * V)) k v : ~ In k (List.map fst d) -> dset k v d = (d ++ [(k, v)])%list.
Proof.
  induction d as [|[k' v'] d IH]; simpl; intros H; [done|].
  destruct (String.eqb_spec k k') as [->|]; [exfalso; apply H; by left|].
  rewrite IH; [done|]. intros Hi. apply H. by right.
Qed.

Lemma adjacency_of ts acc :
  List.NoDup (List.map fst acc ++ List.map task_id ts) ->
  fold_left (fun acc t => dset (task_id t) (depends_on t) acc) ts acc =
  (acc ++ List.map (fun t => (task_id t, depends_on t)) ts)%list.
Proof.
  revert acc; induction ts as [|t ts IH]; intros acc Hnd; simpl; [by rewrite app_nil_r|].
  pose proof (List.NoDup_remove_2 _ _ _ Hnd) as Hn. rewrite in_app_iff in Hn.
  rewrite dset_fresh by tauto. rewrite IH, <- app_assoc; [done|].
  rewrite List.map_app, <- app_assoc. done.
Qed.

Lemma init_graph ts g :
  DependencyGraph_init ts = Ok g <->
  g = graph_of ts /\ List.NoDup (List.map task_id ts) /\ graph_wf (graph_of ts) /\ acyclic (graph_of ts).
Proof.
  unfold DependencyGraph_init. destruct (nodupb _) eqn:En.
  - apply nodupb_NoDup in En. rewrite adjacency_of by done. simpl app. fold (graph_of ts).
    assert (K : graph_keys (graph_of ts)).
    { split; [done|]. simpl. rewrite List.map_map. done. }
    pose proof (validate_ok_iff _ K) as Hv.
    destruct (_validate_no_cycles (graph_of ts)) as [[]|e]; simpl.
    + split; [intros [= <-]; tauto|]. by intros [-> _].
    + split; [done|]. intros (_ & _ & ?). by apply Hv in H.
  - split; [done|]. intros (_ & Hn & _). apply nodupb_NoDup in Hn. congruence.
Qed.

Lemma init_inv c ts s : all_pending ts -> init ts = Ok s -> sinv c s.
Proof.
  intros Hp. unfold init. destruct (DependencyGraph_init ts) as [g|] eqn:Eg; [|done].
  intros [= <-]. apply init_graph in Eg as (-> & _ & W & Ha).
  constructor; simpl; try done; try set_solver.
  - intros i st (t & Hin & <- & <-)%status_of_task. rewrite (Hp t Hin).
    repeat split; try set_solver. intros _. left. split; [done|]. by intros [?|?].
  - set (x := size _). assert (x = 0%nat) as ->; [|pose proof (parallel_pos c); lia].
    unfold x, active. apply size_empty_iff. simpl. set_solver.
Qed.

Lemma reachable_inv c ts s : all_pending ts -> reachable c ts s -> sinv c s.
Proof. intros Hp. induction 1; [by eapply init_inv|by eapply inv_step]. Qed.

(** ** Progress *)

Lemma not_started_or_status c s i :
  sinv c s -> i ∈ started_ids s -> is_Some (status_of (tasks s) i).
Proof.
  intros I Hi. apply status_of_In. rewrite (iv_ids _ _ I). by apply (iv_started _ _ I).
Qed.

Lemma progress c s : sinv c s -> pc s <> Finished -> exists s', step c s s'.
Proof.
  intros I Hpc. destruct (pc s) eqn:Ep; [eexists; by apply s_launch| | |done].
  - destruct (decide (done_set s = ∅)) as [Hd|Hd]; [|eexists; by apply s_collect].
    destruct (decide (active s = ∅)) as [Ha|Ha].
    + destruct (decide (running s ∖ done_set s = ∅)) as [Hr|Hr].
      * exfalso. apply (iv_wait _ _ I Ep). set_solver.
      * apply set_choose_L in Hr as [i Hi]. exists (run_task_start i s).
        pose proof Hi as [Hr Hnd]%elem_of_difference.
        destruct (not_started_or_status c s i I) as [st Est]; [by apply (iv_running _ _ I)|].
        apply s_acquire; try done.
        -- destruct (iv_status _ _ I i st Est) as (_ & H2 & _).
           destruct (H2 Hr Hnd) as [[-> _]|[[-> _]|[[_ ?]|[_ ?]]]]; try congruence.
           exfalso. assert (i ∈ active s) by by apply elem_of_active. set_solver.
        -- rewrite Ha, size_empty. pose proof (parallel_pos c). lia.
    + apply set_choose_L in Ha as [i Hi]. eexists. apply (s_finish c s i OStuck); [by left|done].
  - destruct (decide (running s ∖ done_set s = ∅)) as [Hr|Hr].
    + eexists. apply s_abort_end; [done|]. set_solver.
    + apply set_choose_L in Hr as [i Hi]. eexists. by apply (s_cancelled c s i).
Qed.

(** ** Termination *)

(** Work left for a task: not launched, waiting, active, ended, collected. *)
Definition weight (s : sched) (i : string) : nat :=
  if decide (i ∈ started_ids s) then
    if decide (i ∈ running s) then
      if decide (i ∈ done_set s) then 1
      else if decide (status_of (tasks s) i = Some trunning) then 2 else 3
    else 0
  else 4.

Definition pc_weight (p : loop_pc) : nat := match p with Top => 2 | Finished => 0 | _ => 1 end.

Definition sum_weight (s : sched) : nat :=
  list_sum (List.map (weight s) (task_ids (dag s))).

Definition measure (s : sched) : nat := 3 * sum_weight s + pc_weight (pc s).

Lemma sum_le s s' l :
  (forall i, In i l -> (weight s' i <= weight s i)%nat) ->
  (list_sum (List.map (weight s') l) <= list_sum (List.map (weight s) l))%nat.
Proof.
  induction l as [|x l IH]; intros H; simpl; [done|].
  assert (weight s' x <= weight s x)%nat by (apply H; by left).
  assert (list_sum (List.map (weight s') l) <= list_sum (List.map (weight s) l))%nat
    by (apply IH; intros; apply H; by right). lia.
Qed.

Lemma sum_lt s s' l i :
  (forall j, In j l -> (weight s' j <= weight s j)%nat) -> In i l -> (weight s' i < weight s i)%nat ->
  (list_sum (List.map (weight s') l) < list_sum (List.map (weight s) l))%nat.
Proof.
  induction l as [|x l IH]; intros H Hi Hlt; [done|]. simpl.
  pose proof (H x (or_introl eq_refl)) as Hx.
  pose proof (sum_le s s' l (fun j Hj => H j (or_intror Hj))) as Hl.
  destruct Hi as [->|Hi]; [lia|].
  pose proof (IH (fun j Hj => H j (or_intror Hj)) Hi Hlt). lia.
Qed.

(** Ending coroutine [i] lowers its weight and touches no other. *)
Lemma weight_end s s' i :
  i ∈ running s ∖ done_set s -> running s ⊆ started_ids s ->
  started_ids s' = started_ids s -> running s' = running s -> done_set s' = {[i]} ∪ done_set s ->
  (forall j, j <> i -> status_of (tasks s') j = status_of (tasks s) j) ->
  (forall j, (weight s' j <= weight s j)%nat) /\ (weight s' i < weight s i)%nat.
Proof.
  intros [Hr Hd]%elem_of_difference HR Es Er Ed Hne. unfold weight. rewrite Es, Er, Ed.
  assert (Hi : (weight s' i < weight s i)%nat).
  { unfold weight. rewrite Es, Er, Ed.
    rewrite (decide_True (P := i ∈ started_ids s)), (decide_True (P := i ∈ running s)) by set_solver.
    rewrite (decide_True (P := i ∈ started_ids s)), (decide_True (P := i ∈ running s)) by set_solver.
    rewrite (decide_True (P := i ∈ {[i]} ∪ done_set s)) by set_solver.
    rewrite (decide_False (P := i ∈ done_set s)) by done. case_decide; lia. }
  split.
  - intros j. destruct (decide (j = i)) as [->|Hn].
    + unfold weight in Hi. rewrite Es, Er, Ed in Hi. lia.
    + rewrite Hne by done. repeat case_decide; try lia; set_solver.
  - unfold weight in Hi. by rewrite Es, Er, Ed in Hi.
Qed.

Lemma measure_of_weights s s' i :
  task_ids (dag s') = task_ids (dag s) -> In i (task_ids (dag s)) ->
  (forall j, (weight s' j <= weight s j)%nat) -> (weight s' i < weight s i)%nat ->
  (pc_weight (pc s') <= pc_weight (pc s) + 1)%nat -> (measure s' < measure s)%nat.
Proof.
  intros Hids Hi Hle Hlt Hpc. unfold measure, sum_weight. rewrite Hids.
  pose proof (sum_lt s s' (task_ids (dag s)) i (fun j _ => Hle j) Hi Hlt). lia.
Qed.

Lemma measure_launch c s : sinv c s -> pc s = Top -> (measure (launch s) < measure s)%nat.
Proof.
  intros I Hpc. unfold measure, sum_weight. rewrite launch_eq. rewrite Hpc. simpl dag. simpl pc.
  rewrite <- launch_eq.
  assert (Hw : (list_sum (List.map (weight (launch s)) (task_ids (dag s)))
             <= list_sum (List.map (weight s) (task_ids (dag s))))%nat).
  { apply sum_le. intros i _. rewrite launch_eq. unfold weight; simpl.
    pose proof (launch_new_pending c s i I) as Hn. pose proof (iv_top _ _ I Hpc) as Hd.
    destruct (decide (i ∈ launch_new s)) as [Hi|Hi].
    - apply Hn in Hi as (_ & Hs & _). rewrite (decide_False (P := i ∈ started_ids s)) by done.
      repeat case_decide; lia.
    - case_bool_decide as Hidle; repeat case_decide; try lia; set_solver. }
  case_bool_decide; simpl; lia.
Qed.

Lemma measure_collect c s :
  sinv c s -> pc s = Waiting -> done_set s <> ∅ -> (measure (collect c s) < measure s)%nat.
Proof.
  intros I Hpc [i Hi]%set_choose_L.
  pose proof (iv_done _ _ I) as HD. pose proof (iv_running _ _ I) as HR.
  apply (measure_of_weights _ _ i); [done|by apply (iv_started _ _ I), HR, HD| | |].
  - intros j. unfold weight.
    change (started_ids (collect c s)) with (started_ids s).
    change (running (collect c s)) with (running s ∖ done_set s).
    change (done_set (collect c s)) with (∅ : ids).
    destruct (decide (j ∈ started_ids s)); [|lia].
    destruct (decide (j ∈ running s)) as [Hr|Hr]; [|rewrite decide_False by set_solver; lia].
    destruct (decide (j ∈ done_set s)) as [Hd|Hd]; [rewrite decide_False by set_solver; lia|].
    rewrite decide_True by set_solver. rewrite decide_False by set_solver.
    destruct (decide (status_of (tasks s) j = Some trunning)) as [H2|H2]; [|by case_decide; lia].
    rewrite decide_True; [lia|]. rewrite collect_status_of, H2. simpl.
    rewrite collect_status_notin by done.
    destruct (collect_abort c s), (collect_idle s) eqn:Ei; try done.
    exfalso. apply bool_decide_eq_true_1 in Ei. set_solver.
  - unfold weight.
    change (started_ids (collect c s)) with (started_ids s).
    change (running (collect c s)) with (running s ∖ done_set s).
    apply HD in Hi as Hr. apply HR in Hr as Hs.
    rewrite !(decide_True (P := i ∈ started_ids s)) by done.
    rewrite (decide_True (P := i ∈ running s)), (decide_True (P := i ∈ done_set s)) by done.
    rewrite decide_False by set_solver. lia.
  - rewrite Hpc. simpl. repeat case_match; simpl; lia.
Qed.

Lemma measure_step c s s' : sinv c s -> step c s s' -> (measure s' < measure s)%nat.
Proof.
  intros I Hs. destruct Hs as [s Hpc|s i Hpc Hi Hst Hp|s i o Hpc Hi|s Hpc Hd|s i Hpc Hi|s Hpc Hr].
  - by eapply measure_launch.
  - pose proof Hi as [Hr Hd]%elem_of_difference. pose proof (iv_running _ _ I) as HR.
    apply (measure_of_weights _ _ i); simpl; try done; [by apply (iv_started _ _ I), HR| | |lia].
    + intros j. unfold weight; simpl. rewrite (status_on_task _ _ trunning) by done.
      destruct (String.eqb_spec j i) as [->|]; [rewrite Hst|destruct (status_of (tasks s) j)]; simpl;
        repeat case_decide; try lia; congruence.
    + unfold weight; simpl. rewrite (status_on_task _ _ trunning) by done. rewrite Hst; simpl.
      rewrite String.eqb_refl. rewrite !(decide_True (P := i ∈ started_ids s)) by set_solver.
      rewrite !(decide_True (P := i ∈ running s)), !(decide_False (P := i ∈ done_set s)) by done.
      repeat case_decide; try lia; congruence.
  - apply elem_of_active in Hi as (Es & Hr & Hd). pose proof (iv_running _ _ I) as HR.
    destruct (weight_end s (run_task_end c i o s) i) as [H1 H2]; try done; [by apply elem_of_difference| |].
    { intros j Hn. apply String.eqb_neq in Hn.
      destruct o as [r p|m|]; simpl; [rewrite (status_on_task _ _ tsuccess) by done
        |rewrite (status_on_task _ _ tfailed) by done|done];
      rewrite Hn; by destruct (status_of (tasks s) j). }
    apply (measure_of_weights _ _ i); try done; [|by apply (iv_started _ _ I), HR|simpl; lia].
    destruct o; simpl; [by apply patch_ok, I|done|done].
  - by apply measure_collect.
  - pose proof Hi as [Hr Hd]%elem_of_difference. pose proof (iv_running _ _ I) as HR.
    destruct (weight_end s (cancelled i s) i) as [H1 H2]; try done.
    apply (measure_of_weights _ _ i); try done; [by apply (iv_started _ _ I), HR|simpl; lia].
  - unfold measure, sum_weight; simpl. rewrite Hpc; simpl.
    enough (list_sum (List.map (weight (abort_end s)) (task_ids (dag s)))
             <= list_sum (List.map (weight s) (task_ids (dag s))))%nat by lia.
    apply sum_le. intros i _. unfold weight; simpl.
    repeat case_decide; try lia; set_solver.
Qed.

(** A run of [n] steps. *)
Inductive run_of (c : config) : nat -> sched -> sched -> Prop :=
| ro_nil s : run_of c 0 s s
| ro_cons n s s' s'' : step c s s' -> run_of c n s' s'' -> run_of c (S n) s s''.

Lemma run_measure c n s s' : sinv c s -> run_of c n s s' -> (n + measure s' <= measure s)%nat.
Proof.
  intros I Hr. induction Hr as [s|n s s' s'' Hs Hr IH]; [lia|].
  pose proof (measure_step _ _ _ I Hs). pose proof (IH (inv_step _ _ _ I Hs)). lia.
Qed.

Lemma measure_init ts s : init ts = Ok s -> measure s = (12 * length ts + 2)%nat.
Proof.
  unfold init. destruct (DependencyGraph_init ts) as [g|] eqn:Eg; [|done]. intros [= <-].
  apply init_graph in Eg as (-> & _ & _ & _).
  unfold measure, sum_weight. simpl pc. simpl dag. simpl task_ids.
  enough (H : forall l s, started_ids s = ∅ -> list_sum (List.map (weight s) l) = (4 * length l)%nat).
  { rewrite H by done. rewrite List.length_map. simpl. lia. }
  intros l s Hs. induction l as [|x l IH]; [done|]. cbn [List.map list_sum].
  change (list_sum (weight s x :: List.map (weight s) l)) with (weight s x + list_sum (List.map (weight s) l))%nat.
  rewrite IH. unfold weight. rewrite Hs, decide_False by set_solver. simpl. lia.
Qed.

(** ** Finished runs *)

Lemma finished_status c s i st :
  sinv c s -> pc s = Finished -> status_of (tasks s) i = Some st -> final_status st.
Proof.
  intros I Hpc E. destruct (iv_status _ _ I i st E) as (H1 & _ & _ & H4 & _).
  pose proof (iv_fin _ _ I Hpc) as Hr. unfold final_status.
  destruct (decide (i ∈ started_ids s)) as [Hi|Hi].
  - rewrite Hr in H4. destruct (H4 Hi (not_elem_of_empty i)) as [[-> _]|[[-> _]|[-> _]]]; auto.
  - destruct (H1 Hi) as [[_ Hx]|[-> _]]; [|auto]. exfalso. apply Hx. by right.
Qed.

Lemma count_partition l :
  (forall t, In t l -> final_status (status t)) ->
  count_status tsuccess l + count_status tfailed l + count_status tskipped l = Z.of_nat (length l).
Proof.
  unfold count_status. induction l as [|t l IH]; intros H; [done|].
  assert (Ht : final_status (status t)) by (apply H; by left).
  assert (IH' := IH (fun u Hu => H u (or_intror Hu))). simpl List.filter. simpl (length (t :: l)).
  destruct Ht as [->|[->| ->]]; simpl; lia.
Qed.

(** Without fail-fast and rewiring: what holds besides [sinv]. *)
Record plain_inv (g0 : DependencyGraph) (s : sched) : Prop := {
  pl_dag : dag s = g0;
  pl_started : forall i d, i ∈ started_ids s -> In d (deps g0 i) -> d ∈ completed_ids s;
  pl_pc : pc s <> Cancelling;
  pl_blocked : pc s = Finished -> forall i, In i (task_ids g0) -> i ∉ started_ids s ->
     exists d, In d (deps g0 i) /\ d ∉ completed_ids s;
  pl_success : pc s = Finished -> forall i, status_of (tasks s) i = Some tsuccess -> i ∈ completed_ids s }.

Lemma exists_incomplete (l : list string) (c : ids) :
  ~ (forall d, In d l -> d ∈ c) -> exists d, In d l /\ d ∉ c.
Proof.
  induction l as [|x l IH]; intros H; [exfalso; apply H; by intros ? []|].
  destruct (decide (x ∈ c)) as [Hx|Hx]; [|exists x; split; [by left|done]].
  destruct IH as (d & Hd & Hc); [|exists d; split; [by right|done]].
  intros Hl. apply H. intros d [<-|Hd]; auto.
Qed.

Lemma plain_launch c g0 s : sinv c s -> plain_inv g0 s -> pc s = Top -> plain_inv g0 (launch s).
Proof.
  intros I P Hpc. rewrite launch_eq. constructor; simpl.
  - apply P.
  - intros i d [Hi|Hi]%elem_of_union Hd; [by eapply P|].
    apply launch_new_spec in Hi as (t & _ & <- & _ & _ & Hc). apply Hc. by rewrite (pl_dag _ _ P).
  - by case_bool_decide.
  - case_bool_decide as Hidle; [|done]. intros _ i Hi Hs.
    apply exists_incomplete. intros Hall.
    assert (Hn : i ∈ launch_new s); [|set_solver].
    apply launch_new_spec.
    assert (Hin : In i (List.map task_id (tasks s))) by (rewrite (iv_ids _ _ I), (pl_dag _ _ P); done).
    apply in_map_iff in Hin as (t & Ht & Hin). exists t.
    assert (Est : status_of (tasks s) i = Some (status t)).
    { rewrite <- Ht. apply task_status_of; [|done]. rewrite (iv_ids _ _ I). apply wf_ids, (iv_dag _ _ I). }
    destruct (iv_status _ _ I i _ Est) as (H1 & _). rewrite Hpc in H1.
    split; [done|]. split; [done|]. split; [|split; [set_solver|by rewrite (pl_dag _ _ P)]].
    destruct H1 as [[-> _]|[_ [?|?]]]; [set_solver|done|done|done].
  - case_bool_decide as Hidle; [|done]. intros _ i. rewrite status_restatus.
    destruct (status_of (tasks s) i) as [st|] eqn:Est; [|done].
    simpl. case_bool_decide; [done|]. intros [= ->].
    destruct (iv_status _ _ I i _ Est) as (H1 & _ & _ & H4 & _).
    destruct (decide (i ∈ started_ids s)) as [Hi|Hi].
    + rewrite Hpc in H4. destruct H4 as [[_ [?|?]]|[[? _]|[? _]]]; try done. set_solver.
    + destruct (H1 Hi) as [[? _]|[? _]]; done.
Qed.

Lemma plain_step c g0 s s' :
  fail_fast c = false -> dynamic_rewiring c = false ->
  sinv c s -> plain_inv g0 s -> step c s s' -> plain_inv g0 s'.
Proof.
  intros Hff Hdr I P Hs. destruct Hs as [s Hpc|s i Hpc _ _ _|s i o Hpc _|s Hpc _|s i Hpc _|s Hpc _].
  - by eapply plain_launch.
  - destruct P. constructor; simpl; try done; congruence.
  - destruct P as [P1 P2 P3 P4 P5].
    assert (pc s <> Finished) by (destruct Hpc; congruence).
    constructor; simpl; try done. unfold _maybe_apply_patch. rewrite Hdr. by destruct o.
  - destruct P as [P1 P2 P3 P4 P5].
    constructor; simpl; rewrite ?Hff; simpl; try done. intros i d Hi Hd. apply elem_of_union_l. by eapply P2.
  - by apply pl_pc in P.
  - by apply pl_pc in P.
Qed.

Lemma plain_reachable c ts s :
  all_pending ts -> fail_fast c = false -> dynamic_rewiring c = false ->
  reachable c ts s -> plain_inv (graph_of ts) s.
Proof.
  intros Hp Hff Hdr Hr. induction Hr as [s Hi|s s' Hr IH Hs].
  - unfold init in Hi. destruct (DependencyGraph_init ts) as [g|] eqn:Eg; [|done].
    injection Hi as <-. apply init_graph in Eg as (-> & _). constructor; simpl; try done; set_solver.
  - eapply plain_step; try eassumption. by eapply reachable_inv.
Qed.

(** Once final, a status never changes. *)
Lemma final_stable c s s' i st :
  sinv c s -> step c s s' -> final_status st ->
  status_of (tasks s) i = Some st -> status_of (tasks s') i = Some st.
Proof.
  intros I Hs Hf E.
  assert (Hp : st <> tpending /\ st <> trunning) by (destruct Hf as [->|[->| ->]]; done).
  destruct Hp as [Hp Hr].
  destruct Hs as [s Hpc|s j Hpc Hi Hst Hpar|s j o Hpc Hi|s Hpc Hd|s j Hpc Hi|s Hpc Hall].
  - rewrite launch_eq; simpl. case_bool_decide; [|done].
    rewrite status_restatus, E; simpl. by rewrite bool_decide_eq_false_2.
  - simpl. rewrite (status_on_task _ _ trunning), E by done. simpl.
    destruct (String.eqb_spec i j) as [->|]; [congruence|done].
  - apply elem_of_active in Hi as (Es & _ & _).
    assert (Hn : String.eqb i j = false) by (apply String.eqb_neq; congruence).
    destruct o as [r p|m|]; simpl; [rewrite (status_on_task _ _ tsuccess) by done
        |rewrite (status_on_task _ _ tfailed) by done|done]; by rewrite E; simpl; rewrite Hn.
  - rewrite collect_status_of, E. simpl. f_equal. unfold collect_status.
    rewrite (bool_decide_eq_false_2 (i ∈ done_set s /\ st = trunning)) by (by intros [_ ?]).
    rewrite (bool_decide_eq_false_2 (st = tpending)) by done. rewrite andb_false_r.
    rewrite (bool_decide_eq_false_2 (st = trunning)) by done. by rewrite andb_false_r.
  - done.
  - simpl. rewrite status_restatus, E; simpl. by rewrite bool_decide_eq_false_2.
Qed.

(** ** The driver only takes steps of the relation *)

Lemma drive1_step c o s : drive1 c o s = s \/ step c s (drive1 c o s).
Proof.
  unfold drive1. destruct (pc s) eqn:Ep.
  - right. by apply s_launch.
  - destruct (pick (can_acquire c s) s) as [i|] eqn:E1.
    + right. apply List.find_some in E1 as [_ H].
      apply andb_prop in H as [[H1 H2]%andb_prop H3].
      apply bool_decide_eq_true_1 in H1, H2. apply Z.ltb_lt in H3. by apply s_acquire.
    + destruct (pick (is_active s) s) as [i|] eqn:E2.
      * right. apply List.find_some in E2 as [_ H%bool_decide_eq_true_1].
        apply s_finish; [by left|done].
      * case_bool_decide; [by left|right]. by apply s_collect.
  - destruct (pick (is_live s) s) as [i|] eqn:E1.
    + right. apply List.find_some in E1 as [_ H%bool_decide_eq_true_1]. by apply s_cancelled.
    + case_bool_decide; [right; by apply s_abort_end|by left].
  - by left.
Qed.

Lemma drive_reachable n c o ts s : reachable c ts s -> reachable c ts (drive n c o s).
Proof.
  revert s; induction n as [|n IH]; intros s Hr; simpl; [done|]. apply IH.
  destruct (drive1_step c o s) as [->|Hs]; [done|]. by eapply r_step.
Qed.

(** Without fail-fast a launched task is never skipped. *)
Lemma launched_not_skipped c ts s i :
  all_pending ts -> fail_fast c = false -> reachable c ts s ->
  i ∈ started_ids s -> status_of (tasks s) i <> Some tskipped.
Proof.
  intros Hp Hff Hr.
  assert (H : pc s <> Cancelling /\ (i ∈ started_ids s -> status_of (tasks s) i <> Some tskipped)); [|by apply H].
  induction Hr as [s Hi|s s' Hr [IHp IH] Hs].
  { unfold init in Hi. destruct (DependencyGraph_init ts); [|done]. injection Hi as <-. simpl.
    split; [done|]. set_solver. }
  pose proof (reachable_inv _ _ _ Hp Hr) as I.
  destruct Hs as [s Hpc|s j Hpc Hj _ _|s j o Hpc Hj|s Hpc _|s j Hpc _|s Hpc _]; try done.
  - rewrite launch_eq; simpl. split; [by case_bool_decide|]. case_bool_decide as Hidle.
    + assert (Hn : launch_new s = ∅) by set_solver. rewrite Hn, union_empty_r_L. intros Hst.
      rewrite status_restatus. destruct (status_of (tasks s) i) as [st|] eqn:E; [|done].
      simpl. case_bool_decide as Hx; [subst st|by apply IH].
      exfalso. destruct (iv_status _ _ I i _ E) as (_ & _ & _ & H4 & _).
      rewrite Hpc in H4. destruct H4 as [[? _]|[[? _]|[? _]]]; try done. set_solver.
    + intros [Hi|Hi]%elem_of_union; [by apply IH|].
      apply (launch_new_pending c s i I) in Hi as (-> & _). done.
  - simpl. split; [done|]. intros Hst. rewrite (status_on_task _ _ trunning) by done.
    specialize (IH Hst). destruct (status_of (tasks s) i); [|done]. simpl.
    by destruct (String.eqb i j).
  - simpl. split; [done|]. intros Hst. specialize (IH Hst).
    destruct o as [r p|m|]; [rewrite (status_on_task _ _ tsuccess) by done
      |rewrite (status_on_task _ _ tfailed) by done|done];
    (destruct (status_of (tasks s) i); [|done]); simpl; by destruct (String.eqb i j).
  - assert (Ha : collect_abort c s = false) by (unfold collect_abort; by rewrite Hff).
    split; [simpl; by rewrite Hff|]. intros Hst. simpl in Hst. specialize (IH Hst).
    rewrite collect_status_of, Ha. destruct (status_of (tasks s) i) as [st|]; [|done]. simpl.
    unfold collect_status. simpl. case_bool_decide; [done|]. intros [= ->]. done.
Qed.
