(* ===== verification/MetaGraphProps.v ===== *)
(** * Properties of the meta-graph: graph validation, rewiring and scheduling *)
From Stdlib Require Import ZArith Lia String Ascii List Bool.
From stdpp Require Import base tactics list strings option gmap.
From S2P Require Import Prelude PyStr PyFloat PyVal MetaGraph Scheduler.
Local Open Scope string_scope.
Local Open Scope Z_scope.

(** ** A concrete task set for the witnesses: a diamond *)

Definition mk_task (i : string) (ds : list string) : SubAgentTask :=
  {| task_id := i; description := ""; depends_on := ds; input_state := []; status := tpending;
     result := None; error := None; started_at := None; finished_at := None |}.

Definition diamond : list SubAgentTask :=
  [mk_task "d" ["b"; "c"]; mk_task "b" ["a"]; mk_task "c" ["a"]; mk_task "a" []].

Definition start : sched :=
  match init diamond with Ok s => s | Err _ =>
    {| tasks := []; dag := graph_of []; completed_ids := ∅; failed_ids := ∅; started_ids := ∅;
       running := ∅; done_set := ∅; launched := []; pc := Top |} end.

Definition cfg (ff : bool) : config := {| max_parallel := 1; fail_fast := ff; dynamic_rewiring := false |}.

(** Task ["b"] fails, the others succeed. *)
Definition b_fails (i : string) : outcome :=
  if String.eqb i "b" then OFailed "boom" else OSuccess [] NoPatch.

Lemma diamond_pending : all_pending diamond.
Proof. by intros t [<-|[<-|[<-|[<-|[]]]]]. Qed.

Lemma diamond_reachable n c o : reachable c diamond (drive n c o start).
Proof. apply drive_reachable, r_init. vm_compute. reflexivity. Qed.

Lemma diamond_ok : dag_ok (graph_of diamond).
Proof.
  destruct (DependencyGraph_init diamond) as [g|e] eqn:E.
  - pose proof E as E'. apply init_graph in E' as (-> & _ & ? & ?). by split.
  - vm_compute in E. discriminate E.
Qed.

(** ** Graph construction and rewiring *)

(** Constructing a [DependencyGraph] succeeds exactly for task lists with
    distinct ids, whose dependencies are all tasks of the list, and whose
    dependency relation has no cycle; the graph holds each task's own
    dependencies.  Kahn's loop thus neither misses a cycle nor reports one that
    is not there, and always terminates within its fuel. *)
Theorem DependencyGraph_init_accepts ts g :
  DependencyGraph_init ts = Ok g <->
  g = graph_of ts /\ List.NoDup (List.map task_id ts) /\
  (forall t d, In t ts -> In d (depends_on t) -> In d (List.map task_id ts)) /\
  acyclic (graph_of ts).
Proof.
  rewrite init_graph.
  assert (Hdeps : List.NoDup (List.map task_id ts) -> forall t, In t ts -> deps (graph_of ts) (task_id t) = depends_on t).
  { intros Hnd t Hin. unfold deps; simpl.
    rewrite (In_dlookup _ (task_id t) (depends_on t)); [done|by rewrite List.map_map|].
    apply in_map_iff. by exists t. }
  split; intros (-> & Hnd & Hc & Ha); (split; [done|]; split; [done|]; split; [|done]).
  - intros t d Hin Hd. apply (wf_closed _ Hc (task_id t)). by rewrite Hdeps.
  - constructor; [done|simpl; by rewrite List.map_map|].
    intros t d Hd. unfold deps in Hd; simpl in Hd.
    destruct (dlookup t _) as [l|] eqn:E; [|done].
    apply dlookup_In, in_map_iff in E as (u & [= <- <-] & Hu). by apply (Hc u).
Qed.

(** [add_edge] on a live graph succeeds exactly when both ends are tasks and
    the edge is already there or closes no cycle; it then adds that edge only,
    the graph staying well formed and acyclic, and on failure the graph is
    rolled back to exactly what it was. *)
Theorem add_edge_spec g f t :
  dag_ok g ->
  let g' := set_deps g t (deps g t ++ [f])%list in
  (snd (add_edge g f t) = Ok tt <->
     In f (task_ids g) /\ In t (task_ids g) /\ (In f (deps g t) \/ acyclic g')) /\
  (snd (add_edge g f t) = Ok tt ->
     fst (add_edge g f t) = (if mem f (deps g t) then g else g')) /\
  (snd (add_edge g f t) <> Ok tt -> fst (add_edge g f t) = g) /\
  dag_ok (fst (add_edge g f t)).
Proof.
  intros H g'.
  assert (Hno : forall r : res unit, is_ok r = false -> r <> Ok tt) by (by intros r Hr ->).
  destruct (add_edge_cases g f t H) as [(H1 & Hf & Hr%Hno)|[(H1 & H2 & Hf & Hr%Hno)|[(H1 & H2 & H3 & Hr)
    |[(H1 & H2 & H3 & H4 & H5 & Hr)|(H1 & H2 & H3 & H4 & Hf & Hr%Hno)]]]];
    try rewrite Hf; try (rewrite Hr; simpl); fold g'.
  - repeat split; try tauto; try apply H.
  - repeat split; try tauto; try apply H.
  - rewrite (proj2 (mem_In _ _) H3). repeat split; try tauto; try apply H.
  - rewrite (proj2 (mem_false _ _) H3). repeat split; try tauto; try apply H5.
  - repeat split; try tauto; try apply H.
Qed.

Lemma add_edge_spec_witness :
  snd (add_edge (graph_of diamond) "d" "a") <> Ok tt /\ fst (add_edge (graph_of diamond) "d" "a") = graph_of diamond.
Proof.
  assert (Hf : snd (add_edge (graph_of diamond) "d" "a") <> Ok tt) by (vm_compute; discriminate).
  split; [exact Hf|].
  exact (proj1 (proj2 (proj2 (add_edge_spec (graph_of diamond) "d" "a" diamond_ok))) Hf).
Defined.

(** Applying a [DependencyPatch] to the live graph keeps it well formed and
    acyclic with the same tasks, and is all or nothing: when any addition is
    refused the live graph is the one before the patch. *)
Theorem apply_patch_atomic g p :
  dag_ok g ->
  let candidate := fold_left (fun c e => remove_edge c (fst e) (snd e)) (remove_edges p) g in
  dag_ok (apply_patch g p) /\ task_ids (apply_patch g p) = task_ids g /\
  match add_edges_from candidate (add_edges p) with
  | Ok g' => apply_patch g p = g' /\ (forall f t, In (f, t) (add_edges p) -> depends g' t f)
  | Err _ => apply_patch g p = g
  end.
Proof.
  intros H candidate. split; [by apply dag_ok_patch|]. split; [apply task_ids_patch|].
  unfold apply_patch. rewrite clone_id. fold candidate.
  assert (Hc : dag_ok candidate) by by apply dag_ok_remove_all.
  destruct (add_edges_from candidate (add_edges p)) as [g'|e] eqn:E; [split; [done|]|done].
  clearbody candidate. clear H. revert candidate Hc E.
  induction (add_edges p) as [|[f t] es IH]; intros c Hc E; [by intros ? ? []|]. simpl in E.
  pose proof (dag_ok_add c f t Hc) as Hc1.
  assert (Hdep : snd (add_edge c f t) = Ok tt -> depends (fst (add_edge c f t)) t f).
  { destruct (add_edge_cases c f t Hc) as [(_ & _ & Hr)|[(_ & _ & _ & Hr)|[(_ & _ & Hd & ->)
      |[(_ & _ & _ & _ & _ & ->)|(_ & _ & _ & _ & _ & Hr)]]]];
      try (intros Hx; rewrite Hx in Hr; discriminate Hr); intros _; simpl; [done|].
    unfold depends. rewrite deps_set_deps, String.eqb_refl, in_app_iff. right. by left. }
  destruct (add_edge c f t) as [c1 [[]|e]]; [|done]. simpl in *.
  intros f' t' [[= <- <-]|Hin]; [|by eapply IH].
  eapply add_edges_mono; [exact E|done|]. by apply Hdep.
Qed.

(** ** Scheduling *)

Lemma apply_patch_atomic_witness :
  let p := {| add_edges := [("d", "a")]; remove_edges := [] |} in
  task_ids (apply_patch (graph_of diamond) p) = task_ids (graph_of diamond).
Proof.
  intros p. exact (proj1 (proj2 (apply_patch_atomic (graph_of diamond) p diamond_ok))).
Defined.

(** In every reachable state of every interleaving, at most
    [max(1, max_parallel)] task coroutines hold the semaphore, i.e. are in
    ["running"] and not finished. *)
Theorem scheduler_parallel_bound c ts s :
  all_pending ts -> reachable c ts s -> Z.of_nat (size (active s)) <= Z.max 1 (max_parallel c).
Proof. intros Hp Hr. apply (iv_par c s), (reachable_inv _ ts); done. Qed.

Lemma scheduler_parallel_bound_witness :
  Z.of_nat (size (active (drive 2 (cfg true) b_fails start))) <= 1 /\
  size (active (drive 2 (cfg true) b_fails start)) = 1%nat.
Proof.
  split; [|vm_compute; reflexivity].
  exact (scheduler_parallel_bound (cfg true) diamond _ diamond_pending (diamond_reachable 2 (cfg true) b_fails)).
Defined.

(** C5: for tasks that are all pending when the scheduler starts, in every interleaving:
    no task is launched twice ([asyncio.create_task] is called at most once for it, in
    the whole run); only a turn of the launch loop launches; and such a turn launches
    tasks that are ["pending"] and all of whose dependencies in the live (possibly
    rewired) graph have been collected as successes, the live graph being acyclic at
    that moment. *)
Theorem scheduler_launch_order c ts s :
  all_pending ts -> reachable c ts s ->
  NoDup (launched s) /\
  (forall s', step c s s' -> pc s <> Top -> launched s' = launched s) /\
  (pc s = Top -> acyclic (dag s) /\
     exists new, launched (launch s) = (launched s ++ new)%list /\ NoDup (launched s ++ new)%list /\
       forall i, i ∈ new -> status_of (tasks s) i = Some tpending /\
         forall d, depends (dag s) i d ->
           d ∈ completed_ids s /\ status_of (tasks s) d = Some tsuccess).
Proof.
  intros Hp Hr. pose proof (reachable_inv _ _ _ Hp Hr) as I.
  split; [apply (launched_started _ _ _ Hr)|]. split; [by intros s' []|].
  intros Hpc. split; [apply (iv_dag _ _ I)|]. exists (snd (launches s)). split; [done|].
  split; [apply (launched_started c ts (launch s)); by eapply r_step, s_launch|].
  intros i Hn. assert (Hi : i ∈ launch_new s) by by apply elem_of_list_to_set.
  split; [by eapply launch_new_pending|]. apply launch_new_spec in Hi as (t & _ & _ & _ & _ & Hc).
  intros d Hd. apply Hc in Hd. split; [done|].
  destruct (not_started_or_status c s d I) as [st Est].
  { by apply (iv_completed _ _ I), elem_of_difference in Hd as [? _]. }
  rewrite Est. f_equal. by apply (iv_status _ _ I d st Est).
Qed.

Lemma scheduler_launch_order_witness :
  let s := drive 4 (cfg false) b_fails start in
  launched s = ["a"] /\ launched (launch s) = ["a"; "b"; "c"] /\
  status_of (tasks s) "b" = Some tpending /\
  (forall d, depends (dag s) "b" d -> d ∈ completed_ids s /\ status_of (tasks s) d = Some tsuccess).
Proof.
  intros s.
  assert (H := scheduler_launch_order (cfg false) diamond s diamond_pending
                 (diamond_reachable 4 (cfg false) b_fails)).
  destruct H as (_ & _ & H). destruct H as (_ & new & Hl & _ & H); [vm_compute; reflexivity|].
  assert (Hs : launched s = ["a"]) by (vm_compute; reflexivity).
  assert (Hs' : launched (launch s) = ["a"; "b"; "c"]) by (vm_compute; reflexivity).
  split; [exact Hs|]. split; [exact Hs'|]. apply H.
  rewrite Hs, Hs' in Hl. injection Hl as <-. by left.
Defined.

(** A turn of the loop meets tasks it has launched before: with one slot, task ["c"] is
    still pending when ["b"] has finished and is collected. *)
Example launch_meets_started_task :
  let s := collect (cfg false) (drive 7 (cfg false) b_fails start) in
  pc s = Top /\ List.map task_id (ready_tasks (dag s) (tasks s) (completed_ids s) (failed_ids s)) = ["c"] /\
  launched (launch s) = ["a"; "b"; "c"].
Proof. vm_compute. repeat split; reflexivity. Qed.

(** C6: the scheduler neither deadlocks nor diverges: a reachable state that is
    not finished always has a next step, whatever happened before, and no run
    from the start is longer than [12 * len(tasks) + 2] steps. *)
Theorem scheduler_terminates c ts s0 :
  all_pending ts -> init ts = Ok s0 ->
  (forall s, reachable c ts s -> pc s <> Finished -> exists s', step c s s') /\
  (forall n s, run_of c n s0 s -> (n <= 12 * length ts + 2)%nat).
Proof.
  intros Hp Hi. split.
  - intros s Hr Hpc. eapply progress; [by eapply reachable_inv|done].
  - intros n s Hrun. pose proof (init_inv c ts s0 Hp Hi) as I.
    pose proof (run_measure _ _ _ _ I Hrun) as Hm. rewrite (measure_init ts s0 Hi) in Hm. lia.
Qed.

Lemma scheduler_terminates_witness :
  init diamond = Ok start /\
  (exists s', step (cfg true) start s') /\
  (forall n s, run_of (cfg true) n start s -> (n <= 50)%nat).
Proof.
  assert (Hi : init diamond = Ok start) by (vm_compute; reflexivity).
  destruct (scheduler_terminates (cfg true) diamond start diamond_pending Hi) as [H1 H2].
  split; [exact Hi|]. split; [|exact H2].
  apply H1; [by apply r_init|vm_compute; discriminate].
Defined.

(** When the scheduler has finished, every task is in one of the statuses
    success, failed and skipped, so the three counters of [MetaRunResult] add up
    to the number of tasks; [all_succeeded] holds exactly when every task
    succeeded. *)
Theorem run_result_accounts c ts s :
  all_pending ts -> reachable c ts s -> pc s = Finished ->
  let r := run_result s in
  succeeded r + n_failed r + skipped r = Z.of_nat (length (r_tasks r)) /\
  (all_succeeded r = true <-> succeeded r = Z.of_nat (length (r_tasks r))).
Proof.
  intros Hp Hr Hpc r. pose proof (reachable_inv _ _ _ Hp Hr) as I.
  assert (Hf : forall t, In t (tasks s) -> final_status (status t)).
  { intros t Hin. eapply finished_status; [exact I|done|].
    apply task_status_of; [|done]. rewrite (iv_ids _ _ I). apply wf_ids, (iv_dag _ _ I). }
  pose proof (count_partition _ Hf) as Hsum. unfold all_succeeded; simpl.
  split; [exact Hsum|]. rewrite andb_true_iff, !Z.eqb_eq.
  assert (0 <= count_status tfailed (tasks s)) by (unfold count_status; lia).
  assert (0 <= count_status tskipped (tasks s)) by (unfold count_status; lia). lia.
Qed.

Lemma run_result_accounts_witness :
  let r := run_result (drive 12 (cfg true) b_fails start) in
  succeeded r + n_failed r + skipped r = 4 /\ (succeeded r, n_failed r, skipped r) = (2, 1, 1).
Proof.
  intros r. split; [|vm_compute; reflexivity].
  assert (H := run_result_accounts (cfg true) diamond _ diamond_pending
                 (diamond_reachable 12 (cfg true) b_fails)).
  apply H. vm_compute. reflexivity.
Defined.

(** Without fail-fast and rewiring the scheduler runs as much as it can: in
    a finished state a task is skipped exactly when one of its dependencies did
    not succeed; every other task was run and ended in success or failure. *)
Theorem scheduler_skips_only_blocked c ts s i :
  all_pending ts -> fail_fast c = false -> dynamic_rewiring c = false ->
  reachable c ts s -> pc s = Finished -> In i (List.map task_id ts) ->
  status_of (tasks s) i = Some tskipped <->
  exists d, depends (graph_of ts) i d /\ status_of (tasks s) d <> Some tsuccess.
Proof.
  intros Hp Hff Hdr Hr Hpc Hi. pose proof (reachable_inv _ _ _ Hp Hr) as I.
  destruct (plain_reachable _ _ _ Hp Hff Hdr Hr) as [P1 P2 _ P4 P5].
  assert (Hst : is_Some (status_of (tasks s) i)).
  { apply status_of_In. by rewrite (iv_ids _ _ I), P1. }
  destruct Hst as [st Est]. rewrite Est.
  destruct (iv_status _ _ I i st Est) as (H1 & _ & _ & H4 & _).
  destruct (decide (i ∈ started_ids s)) as [Hs|Hs].
  - (* launched: its dependencies are completed, so it was not skipped *)
    assert (Hdeps : forall d, depends (graph_of ts) i d -> status_of (tasks s) d = Some tsuccess).
    { intros d Hd. pose proof (P2 i d Hs Hd) as Hc.
      destruct (not_started_or_status c s d I) as [st' Est'].
      { by apply (iv_completed _ _ I), elem_of_difference in Hc as [? _]. }
      rewrite Est'. f_equal. by apply (iv_status _ _ I d st' Est'). }
    split; [|intros (d & Hd & Hn); by rewrite Hdeps in Hn].
    intros [= ->]. exfalso. by eapply (launched_not_skipped c ts s i).
  - destruct (P4 Hpc i Hi Hs) as (d & Hd & Hc). split.
    + intros _. exists d. split; [done|]. intros Hx. by apply Hc, P5.
    + intros _. destruct (H1 Hs) as [[_ Hx]|[-> _]]; [|done]. exfalso. apply Hx. by right.
Qed.

Lemma scheduler_skips_only_blocked_witness :
  let s := drive 20 (cfg false) b_fails start in
  status_of (tasks s) "d" = Some tskipped /\
  exists d, depends (graph_of diamond) "d" d /\ status_of (tasks s) d <> Some tsuccess.
Proof.
  intros s.
  assert (Hd : status_of (tasks s) "d" = Some tskipped) by (vm_compute; reflexivity).
  split; [exact Hd|].
  apply (scheduler_skips_only_blocked (cfg false) diamond s "d" diamond_pending eq_refl eq_refl
           (diamond_reachable 20 (cfg false) b_fails)); [vm_compute; reflexivity|by left|exact Hd].
Defined.

(** ** Observations *)

(** [all_done] is documented as "no pending task could still be launched", but
    it looks at direct dependencies only: with [a] failed, [c] (which depends on
    the blocked [b]) can never be launched, and [all_done] is [False]. *)
Example all_done_misses_transitive_block :
  let g := graph_of [mk_task "a" []; mk_task "b" ["a"]; mk_task "c" ["b"]] in
  let ts := [with_status tfailed (mk_task "a" []); mk_task "b" ["a"]; mk_task "c" ["b"]] in
  all_done g ts ∅ {["a"]} = false /\ ready_tasks g ts ∅ {["a"]} = [].
Proof. vm_compute. split; reflexivity. Qed.

(** [remove_edge] drops one occurrence: a dependency declared twice survives it. *)
Example remove_edge_keeps_duplicate :
  depends (remove_edge (graph_of [mk_task "a" []; mk_task "b" ["a"; "a"]]) "a" "b") "b" "a".
Proof. vm_compute. by left. Qed.
