(* ===== verification/ScipIndex.v ===== *)
(** * The symbol index: [scip_index.py] *)
From Stdlib Require Import ZArith Lia String Ascii List Bool.
From stdpp Require Import base tactics list strings option.
From S2P Require Import Prelude PyStr StrFacts PyFloat PyVal Json.
Local Open Scope string_scope.
Local Open Scope Z_scope.

Record ScipSymbol := {
  name : string; kind : string; file_path : string; start_line : Z; end_line : Z; references : list string }.

Record ScipIndex := { repo_root : string; symbols : list ScipSymbol; _stale : bool }.

Definition empty_index (root : string) : ScipIndex := {| repo_root := root; symbols := []; _stale := false |}.
Definition mark_stale (i : ScipIndex) : ScipIndex := {| repo_root := repo_root i; symbols := symbols i; _stale := true |}.

(** ** Queries *)

Definition find_symbol (n : string) (i : ScipIndex) : list ScipSymbol := List.filter (fun s => String.eqb (name s) n) (symbols i).

(** The name after the last [:] of a reference, or all of it. *)
Definition ref_name (ref : string) : string := List.last (split_char ":" ref) "".

Example ref_names : List.map ref_name ["src/bar.py:use_it"; "plain"; "a:b:c"; "x:"] = ["use_it"; "plain"; "c"; ""].
Proof. reflexivity. Qed.

Definition find_references (symbol_name : string) (i : ScipIndex) : list ScipSymbol :=
  List.filter (fun s => existsb (fun ref => String.eqb (ref_name ref) symbol_name) (references s)) (symbols i).

Definition symbols_in_file (relative_path : string) (i : ScipIndex) : list ScipSymbol :=
  List.filter (fun s => String.eqb (file_path s) relative_path) (symbols i).

(** [other_by_name]: the symbols of each name, in their order. *)
Definition by_name (l : list ScipSymbol) : list (string * list ScipSymbol) :=
  fold_left (fun g s => dset (name s) (default [] (dlookup (name s) g) ++ [s])%list g) l [].

Definition cross_repo_deps (self other : ScipIndex) : list (ScipSymbol * ScipSymbol) :=
  let other_by_name := by_name (symbols other) in
  flat_map (fun local_sym =>
    flat_map (fun ref => List.map (pair local_sym) (default [] (dlookup (ref_name ref) other_by_name))) (references local_sym)) (symbols self).

(** ** The sidecar *)

(** [int(v) if isinstance(v, (int, float)) else 0]. *)
Definition line_number (v : pyval) : res Z :=
  match v with PInt _ | PBool _ | PFloat _ => py_int v | _ => Ok 0 end.

Definition strings_of (v : pyval) : list string :=
  match v with PList l => flat_map (fun r => match r with PStr s => [s] | _ => [] end) l | _ => [] end.

Definition parse_symbol (relative_path : string) (sym_raw : pyval) : res (list ScipSymbol) :=
  match sym_raw with
  | PDict d =>
      let name := py_str (dget d "name" (PStr "")) in
      if String.eqb name "" then Ok []
      else
        let! start_line := line_number (dget d "start_line" (PInt 0)) in
        let! end_line := line_number (dget d "end_line" (PInt 0)) in
        Ok [{| name := name; kind := py_str (dget d "kind" (PStr "")); file_path := relative_path; start_line := start_line;
               end_line := end_line; references := strings_of (dget d "references" (PList [])) |}]
  | _ => Ok []
  end.

Definition parse_document (doc : pyval) : res (list ScipSymbol) :=
  match doc with
  | PDict d =>
      match dget d "symbols" (PList []) with
      | PList l => let! syms := map_res (parse_symbol (py_str (dget d "relative_path" (PStr "")))) l in Ok (List.concat syms)
      | _ => Ok []
      end
  | _ => Ok []
  end.

Definition _parse_sidecar (data : pyval) (root : string) : res ScipIndex :=
  match data with
  | PDict d =>
      match dget d "documents" (PList []) with
      | PList docs => let! syms := map_res parse_document docs in Ok {| repo_root := root; symbols := List.concat syms; _stale := false |}
      | _ => Ok (empty_index root)
      end
  | _ => Ok (empty_index root)
  end.

(** [read]: the text of the sidecar file, [None] when it cannot be opened or read. *)
Definition load_scip_index (read : string -> option string) (root : string) : res ScipIndex :=
  match read root with
  | None => Ok (empty_index root)
  | Some text =>
      match json_loads text with
      | Ok data => _parse_sidecar data root
      | Err e => if is_json_error e then Ok (empty_index root) else Err e
      end
  end.

(** ** Properties *)

Lemma by_name_lookup l g n :
  default [] (dlookup n (fold_left (fun g s => dset (name s) (default [] (dlookup (name s) g) ++ [s])%list g) l g)) =
    (default [] (dlookup n g) ++ List.filter (fun s => String.eqb (name s) n) l)%list.
Proof.
  revert g. induction l as [|s l IH]; intros g; cbn [fold_left List.filter]; [by rewrite app_nil_r|]. rewrite IH, dlookup_dset, (String.eqb_sym n (name s)).
  destruct (String.eqb_spec (name s) n) as [->|Hn]; [|done]. simpl. by rewrite <- app_assoc.
Qed.

(** The index by name gives what a search through all symbols gives: each reference is
    joined with the symbols of its name, in the order of both indices. *)
Theorem cross_repo_deps_joins self other :
  cross_repo_deps self other =
    flat_map (fun l => flat_map (fun ref => List.map (pair l) (find_symbol (ref_name ref) other)) (references l)) (symbols self).
Proof.
  unfold cross_repo_deps. apply flat_map_ext. intros l. apply flat_map_ext. intros ref. unfold by_name. by rewrite by_name_lookup.
Qed.

(** An index that loads has named symbols only. *)
Lemma parsed_named data root i : _parse_sidecar data root = Ok i -> Forall (fun s => name s <> "") (symbols i).
Proof.
  unfold _parse_sidecar. destruct data as [| | | | | | |d]; try (intros [= <-]; constructor).
  destruct (dget d "documents" (PList [])) as [| | | | |docs| |]; try (intros [= <-]; constructor).
  intros (syms & H & [= <-])%bind_Ok. cbn [symbols]. apply List.Forall_forall. intros s (ds & Hds & Hs)%in_concat.
  destruct (map_res_In _ _ _ _ H Hds) as (doc & _ & Hd). unfold parse_document in Hd.
  destruct doc as [| | | | | | |d']; try (injection Hd as <-; destruct Hs).
  destruct (dget d' "symbols" (PList [])) as [| | | | |l| |]; try (injection Hd as <-; destruct Hs).
  apply bind_Ok in Hd as (ss & Hl & [= <-]). apply in_concat in Hs as (one & Hone & Hs).
  destruct (map_res_In _ _ _ _ Hl Hone) as (raw & _ & Hr). unfold parse_symbol in Hr.
  destruct raw as [| | | | | | |d'']; try (injection Hr as <-; destruct Hs).
  destruct (String.eqb_spec (py_str (dget d'' "name" (PStr ""))) "") as [E|E]; [injection Hr as <-; destruct Hs|].
  apply bind_Ok in Hr as (? & _ & Hr). apply bind_Ok in Hr as (? & _ & [= <-]). by destruct Hs as [<-|[]].
Qed.

(** A line number that is not finite is an error of the loader, not a default. *)
Example infinite_line :
  load_scip_index (fun _ => Some ("{" ++ dq ++ "documents" ++ dq ++ ": [{" ++ dq ++ "symbols" ++ dq ++ ": [{" ++ dq ++ "name" ++ dq ++ ": " ++ dq ++ "f" ++ dq ++
     ", " ++ dq ++ "start_line" ++ dq ++ ": Infinity}]}]}")) "/repo" = Err (OverflowError "cannot convert float infinity to integer").
Proof. by vm_compute. Qed.
