(* ===== verification/MultiRepo.v ===== *)
(** * Several repositories: [multi_repo.py] and the [run-multi] command of [main.py]

    Both hand their tasks to the scheduler of [meta_graph.py].  What the graph function they
    give it can do decides how a task ends: the scheduler's relation, restricted to those
    outcomes. *)
From Stdlib Require Import ZArith Lia String Ascii List Bool.
From Stdlib Require DecimalN.
From stdpp Require Import base tactics list strings option gmap.
From S2P Require Import Prelude PyStr StrFacts PyFloat PyVal MetaGraph Scheduler.
From S2P Require ScipIndex.
Local Open Scope string_scope.
Local Open Scope Z_scope.

Abbreviation ScipIndex := ScipIndex.ScipIndex.
Abbreviation ScipSymbol := ScipIndex.ScipSymbol.

(** ** Repositories and handoffs *)

Definition _SCIP_SUMMARY_LIMIT : nat := 20.

Record RepoConfig := { name : string; root_path : string; runner_url : string; scip_index : option ScipIndex }.

Record CrossRepoHandoff := {
  source_repo : string; target_repo : string; shared_symbols : list string; objective : string; context_patch : dict }.

(** [dataclasses.asdict]. *)
Definition handoff_dict (h : CrossRepoHandoff) : dict :=
  [("source_repo", PStr (source_repo h)); ("target_repo", PStr (target_repo h));
   ("shared_symbols", PList (List.map PStr (shared_symbols h))); ("objective", PStr (objective h));
   ("context_patch", PDict (context_patch h))].

Definition symbol_dict (s : ScipSymbol) : dict :=
  [("name", PStr (ScipIndex.name s)); ("kind", PStr (ScipIndex.kind s)); ("file_path", PStr (ScipIndex.file_path s));
   ("start_line", PInt (ScipIndex.start_line s)); ("end_line", PInt (ScipIndex.end_line s))].

Definition by_name (a b : ScipSymbol) : bool := str_lt (ScipIndex.name a) (ScipIndex.name b).

Definition _scip_summary (index : option ScipIndex) : list pyval :=
  match index with
  | None => []
  | Some i => List.map (fun s => PDict (symbol_dict s)) (firstn _SCIP_SUMMARY_LIMIT (py_sorted by_name (ScipIndex.symbols i)))
  end.

(** ** The scheduler of several repositories *)

Record MultiRepoScheduler := {
  _repos : list (string * RepoConfig); _task_repo_map : list (string * string); _concurrency : Z;
  _worktree_isolation : bool; _dynamic_rewiring : bool }.

Definition MultiRepoScheduler_init (repos : list RepoConfig) (task_repo_map : list (string * string)) (concurrency : Z) (isolation rewiring : bool)
    : MultiRepoScheduler :=
  {| _repos := fold_left (fun d r => dset (name r) r d) repos []; _task_repo_map := task_repo_map; _concurrency := concurrency;
     _worktree_isolation := isolation; _dynamic_rewiring := rewiring |}.

Section Preparation.
Context (self : MultiRepoScheduler).
(** [load_scip_index] at a root. *)
Context (load : string -> res ScipIndex).

Definition _resolve_repo (repos : list (string * RepoConfig)) (task_id : string) : res RepoConfig :=
  match dlookup task_id (_task_repo_map self) with
  | None => Err (ValueError ("MultiRepoScheduler: task_id '" ++ task_id ++ "' not found in task_repo_map"))
  | Some repo_name =>
      match dlookup repo_name repos with
      | None => Err (ValueError ("MultiRepoScheduler: repo '" ++ repo_name ++ "' (mapped from task '" ++ task_id ++ "') not found in repos list"))
      | Some r => Ok r
      end
  end.

Definition with_index (i : ScipIndex) (r : RepoConfig) : RepoConfig :=
  {| name := name r; root_path := root_path r; runner_url := runner_url r; scip_index := Some i |}.

Definition with_input (d : dict) (t : SubAgentTask) : SubAgentTask :=
  {| task_id := task_id t; description := description t; depends_on := depends_on t; input_state := d;
     status := status t; result := result t; error := error t; started_at := started_at t; finished_at := finished_at t |}.

(** The repositories keep the index that was loaded; each task has its own input state. *)
Definition _enrich_task (handoffs : list CrossRepoHandoff) (repos : list (string * RepoConfig)) (task : SubAgentTask)
    : res (list (string * RepoConfig) * SubAgentTask) :=
  let! repo := _resolve_repo repos (task_id task) in
  let! index := match scip_index repo with Some i => Ok i | None => load (root_path repo) end in
  let repo_name := default "" (dlookup (task_id task) (_task_repo_map self)) in
  let state := dset "scip_summary" (PList (_scip_summary (Some index)))
                 (dset "runner_url" (PStr (runner_url repo)) (dset "repo_root" (PStr (root_path repo)) (input_state task))) in
  let state := match List.find (fun h => String.eqb (target_repo h) repo_name) handoffs with
               | Some h => dset "active_handoff" (PDict (handoff_dict h)) state
               | None => state
               end in
  Ok (dset repo_name (with_index index repo) repos, with_input state task).

Fixpoint enrich_all (handoffs : list CrossRepoHandoff) (repos : list (string * RepoConfig)) (tasks : list SubAgentTask)
    : res (list SubAgentTask) :=
  match tasks with
  | [] => Ok []
  | t :: rest =>
      let! (repos, t) := _enrich_task handoffs repos t in
      let! rest := enrich_all handoffs repos rest in
      Ok (t :: rest)
  end.

(** [run] up to the inner scheduler. *)
Definition prepare (tasks : list SubAgentTask) (handoffs : list CrossRepoHandoff) : res (list SubAgentTask) :=
  let! _ := map_res (fun t => _resolve_repo (_repos self) (task_id t)) tasks in
  enrich_all handoffs (_repos self) tasks.

Definition inner_config : config :=
  {| max_parallel := _concurrency self; fail_fast := true; dynamic_rewiring := _dynamic_rewiring self |}.
End Preparation.

(** [_missing_run_graph], and a worktree that cannot be made: every coroutine raises. *)
Definition missing_run_graph (i : string) (o : outcome) : Prop := exists m, o = OFailed m.

(** ** Runs with given outcomes *)

Inductive step_if (can : string -> outcome -> Prop) (c : config) : sched -> sched -> Prop :=
| i_launch s : pc s = Top -> step_if can c s (launch s)
| i_acquire s i :
    pc s = Waiting -> i ∈ running s ∖ done_set s -> status_of (tasks s) i = Some tpending ->
    Z.of_nat (size (active s)) < parallel c -> step_if can c s (run_task_start i s)
| i_finish s i o : pc s = Waiting \/ pc s = Cancelling -> i ∈ active s -> can i o -> step_if can c s (run_task_end c i o s)
| i_collect s : pc s = Waiting -> done_set s <> ∅ -> step_if can c s (collect c s)
| i_cancelled s i : pc s = Cancelling -> i ∈ running s ∖ done_set s -> step_if can c s (cancelled i s)
| i_abort_end s : pc s = Cancelling -> running s ⊆ done_set s -> step_if can c s (abort_end s).

Inductive reachable_if (can : string -> outcome -> Prop) (c : config) (ts : list SubAgentTask) : sched -> Prop :=
| ri_init s : init ts = Ok s -> reachable_if can c ts s
| ri_step s s' : reachable_if can c ts s -> step_if can c s s' -> reachable_if can c ts s'.

(** ** The [run-multi] command *)

(** [repos]: the resolved paths. *)
Definition multi_tasks (request : string) (repos : list string) : list SubAgentTask :=
  List.map (fun '(i, repo) =>
    {| task_id := "repo-" ++ str_of_Z (Z.of_nat i); description := request; depends_on := [];
       input_state := [("request", PStr request); ("repo_root", PStr repo)]; status := tpending; result := None; error := None;
       started_at := None; finished_at := None |}) (combine (seq 0 (length repos)) repos).

(** [_run_graph], a placeholder, returns the state it is given. *)
Definition placeholder (ts : list SubAgentTask) (i : string) (o : outcome) : Prop :=
  exists t p, In t ts /\ task_id t = i /\ o = OSuccess (input_state t) p.

Definition multi_config (repos : list string) : config :=
  {| max_parallel := Z.max 1 (Z.of_nat (length repos)); fail_fast := true; dynamic_rewiring := false |}.

Definition status_text (st : TaskStatus) : string :=
  match st with tpending => "pending" | trunning => "running" | tsuccess => "success" | tfailed => "failed" | tskipped => "skipped" end.

(** What is printed, and the exit code. *)
Definition task_line (t : SubAgentTask) : string :=
  "  [" ++ status_text (status t) ++ "] " ++ task_id t ++ ": " ++
  match error t with Some e => if String.eqb e "" then "ok" else e | None => "ok" end.

Definition multi_report (r : MetaRunResult) : list string * Z :=
  let counts := "Succeeded: " ++ str_of_Z (succeeded r) ++ "  Failed: " ++ str_of_Z (n_failed r) ++ "  Skipped: " ++ str_of_Z (skipped r) in
  ((""%string :: "--- Starting Lula Platform Meta-Agent ---" :: ""%string :: counts :: ""%string :: "--- Final Output ---" ::
    List.map task_line (r_tasks r))%list,
   if all_succeeded r then 0 else 1).

(** ** Facts on restricted runs *)

Lemma step_if_step can c s s' : step_if can c s s' -> step c s s'.
Proof. intros []; by econstructor. Qed.

Lemma reachable_if_reachable can c ts s : reachable_if can c ts s -> reachable c ts s.
Proof. induction 1 as [|s s' _ IH Hs]; [by constructor|]. eapply r_step; [exact IH|by eapply step_if_step]. Qed.

(** A run that has not ended goes on, whatever the coroutines can do, if they can end. *)
Lemma progress_if can c s : (forall i, i ∈ active s -> exists o, can i o) -> sinv c s -> pc s <> Finished -> exists s', step_if can c s s'.
Proof.
  intros Hc I Hpc. destruct (progress c s I Hpc) as [s' Hs]. destruct Hs as [s ?|s i ? ? ? ?|s i o ? ?|s ? ?|s i ? ?|s ? ?].
  3: destruct (Hc i) as [o' Ho]; [assumption|].
  all: eexists; econstructor; eassumption.
Qed.

(** A status that no step gives stays away. *)
Definition without (st : TaskStatus) (s : sched) : Prop := forall t, In t (tasks s) -> status t <> st.

Lemma without_map st (f : SubAgentTask -> SubAgentTask) l :
  (forall t, status t <> st -> status (f t) <> st) -> (forall t, In t l -> status t <> st) -> forall t, In t (List.map f l) -> status t <> st.
Proof. intros Hf Hl t (u & <- & Hu)%in_map_iff. apply Hf, Hl, Hu. Qed.

Ltac without_step := intros ? ?; cbn; repeat case_match; cbn; try done; try congruence.

Lemma no_success_step c s s' : step_if missing_run_graph c s s' -> without tsuccess s -> without tsuccess s'.
Proof.
  unfold without. intros Hs Hw. destruct Hs as [s ?|s i ? ? ? ?|s i o ? ? [m ->]|s ? ?|s i ? ?|s ? ?]; cbn.
  - case_match; [|exact Hw]. apply without_map; [without_step|exact Hw].
  - apply without_map; [without_step|exact Hw].
  - apply without_map; [without_step|exact Hw].
  - repeat case_match; repeat (apply without_map; [without_step|]); exact Hw.
  - exact Hw.
  - apply without_map; [without_step|exact Hw].
Qed.

Lemma step_if_ids can c s s' : step_if can c s s' -> List.map task_id (tasks s') = List.map task_id (tasks s).
Proof. intros []; cbn; repeat case_match; rewrite ?restatus_ids, ?settle_ids, ?on_task_ids by done; reflexivity. Qed.

(** Induction on a restricted run: the states satisfy what holds at its start and is kept. *)
Lemma reachable_if_ind' (P : sched -> Prop) can c ts :
  (forall s, init ts = Ok s -> P s) -> (forall s s', reachable_if can c ts s -> P s -> step_if can c s s' -> P s') ->
  forall s, reachable_if can c ts s -> P s.
Proof. intros H0 H1 s H. induction H as [s Hi|s s' Hr IH Hs]; [by apply H0|exact (H1 s s' Hr IH Hs)]. Qed.

Lemma init_tasks ts s : init ts = Ok s -> tasks s = ts.
Proof. unfold init. destruct (DependencyGraph_init ts); [|done]. by intros [= <-]. Qed.

Lemma run_ids can c ts s : reachable_if can c ts s -> List.map task_id (tasks s) = List.map task_id ts.
Proof.
  apply (reachable_if_ind' (fun s => List.map task_id (tasks s) = List.map task_id ts)); [intros s' H; by rewrite (init_tasks _ _ H)|].
  intros s1 s2 _ IH Hs. by rewrite (step_if_ids _ _ _ _ Hs).
Qed.

Lemma run_length can c ts s : reachable_if can c ts s -> length (tasks s) = length ts.
Proof. intros H%run_ids. by rewrite <- (length_map task_id), H, length_map. Qed.

(** The driver of [Scheduler] takes restricted steps when its outcomes are allowed. *)
Lemma drive_if can c ts oracle n s :
  (forall i, In i (List.map task_id ts) -> can i (oracle i)) -> reachable_if can c ts s -> reachable_if can c ts (drive n c oracle s).
Proof.
  intros Ho. revert s. induction n as [|n IH]; intros s Hr; cbn [drive]; [exact Hr|]. apply IH. clear IH.
  unfold drive1. destruct (pc s) eqn:Ep.
  - eapply ri_step; [exact Hr|by constructor].
  - destruct (pick (can_acquire c s) s) as [i|] eqn:E1.
    { apply List.find_some in E1 as [_ H]. apply andb_prop in H as [[H1 H2]%andb_prop H3].
      apply bool_decide_eq_true_1 in H1, H2. apply Z.ltb_lt in H3. eapply ri_step; [exact Hr|by apply i_acquire]. }
    destruct (pick (is_active s) s) as [i|] eqn:E2.
    { apply List.find_some in E2 as [Hin H%bool_decide_eq_true_1]. rewrite (run_ids _ _ _ _ Hr) in Hin.
      eapply ri_step; [exact Hr|apply i_finish; [by left|done|by apply Ho]]. }
    case_bool_decide; [exact Hr|]. eapply ri_step; [exact Hr|by apply i_collect].
  - destruct (pick (is_live s) s) as [i|] eqn:E1.
    { apply List.find_some in E1 as [_ H%bool_decide_eq_true_1]. eapply ri_step; [exact Hr|by apply i_cancelled]. }
    case_bool_decide; [|exact Hr]. eapply ri_step; [exact Hr|by apply i_abort_end].
  - exact Hr.
Qed.

(** ** Several repositories *)

Lemma enrich_task_same self load handoffs repos task repos' task' :
  _enrich_task self load handoffs repos task = Ok (repos', task') -> status task' = status task /\ task_id task' = task_id task.
Proof.
  unfold _enrich_task. intros (repo & _ & H)%bind_Ok. apply bind_Ok in H as (index & _ & [= _ <-]). done.
Qed.

Lemma enrich_all_statuses self load handoffs tasks : forall repos ts,
  enrich_all self load handoffs repos tasks = Ok ts -> List.map (fun t => (task_id t, status t)) ts = List.map (fun t => (task_id t, status t)) tasks.
Proof.
  induction tasks as [|t tasks IH]; intros repos ts; cbn [enrich_all]; [by intros [= <-]|].
  intros ([repos' t'] & Ht & (rest & Hr & [= <-])%bind_Ok)%bind_Ok. apply enrich_task_same in Ht as [Es Ei]. cbn [List.map].
  by rewrite Es, Ei, (IH _ _ Hr).
Qed.

Lemma prepared_statuses self load handoffs tasks ts :
  prepare self load tasks handoffs = Ok ts -> List.map (fun t => (task_id t, status t)) ts = List.map (fun t => (task_id t, status t)) tasks.
Proof. unfold prepare. intros (? & _ & H)%bind_Ok. by apply enrich_all_statuses in H. Qed.

Lemma prepared_pending self load handoffs tasks ts : all_pending tasks -> prepare self load tasks handoffs = Ok ts -> all_pending ts.
Proof.
  intros Hp H%prepared_statuses t Hin. apply (in_map (fun t => (task_id t, status t))) in Hin. rewrite H in Hin.
  apply in_map_iff in Hin as (u & [= _ E] & Hu). rewrite <- E. by apply Hp.
Qed.

Lemma count_none st l : (forall t, In t l -> status t <> st) -> count_status st l = 0.
Proof.
  intros H. unfold count_status. induction l as [|t l IH]; [done|]. cbn [List.filter].
  rewrite bool_decide_eq_false_2 by (apply H; by left). apply IH. intros u Hu. apply H. by right.
Qed.

(** C28: A run over several repositories never succeeds.  Its scheduler is made without a
    graph function, so every coroutine raises: whatever the repositories, the mapping, the
    handoffs and the interleaving, in every state of the run no task is successful; a run
    that has not ended can go on, and when it ends with at least one task the result is a
    failure in which every task failed or was skipped. *)
Theorem multi_repo_never_succeeds self load handoffs tasks0 ts s :
  all_pending tasks0 -> tasks0 <> [] -> prepare self load tasks0 handoffs = Ok ts ->
  reachable_if missing_run_graph (inner_config self) ts s ->
  succeeded (run_result s) = 0 /\
  (pc s <> Finished -> exists s', step_if missing_run_graph (inner_config self) s s') /\
  (pc s = Finished -> all_succeeded (run_result s) = false /\
     n_failed (run_result s) + skipped (run_result s) = Z.of_nat (length tasks0)).
Proof.
  intros Hp0 Hne Hprep Hr. pose proof (prepared_pending _ _ _ _ _ Hp0 Hprep) as Hp.
  assert (Hw : without tsuccess s).
  { revert s Hr. apply reachable_if_ind'; [|intros s1 s2 _ Hw Hs; by eapply no_success_step].
    intros s Hi t Ht. rewrite (init_tasks _ _ Hi) in Ht. by rewrite (Hp t Ht). }
  pose proof (reachable_inv _ _ _ Hp (reachable_if_reachable _ _ _ _ Hr)) as I.
  assert (H0 : succeeded (run_result s) = 0) by exact (count_none _ _ Hw).
  split; [exact H0|]. split; [intros Hpc; apply progress_if; [intros i _; exists (OFailed ""); by exists ""|exact I|exact Hpc]|].
  intros Hpc. assert (Hlen : length (tasks s) = length tasks0).
  { rewrite (run_length _ _ _ _ Hr), <- (length_map (fun t => (task_id t, status t)) ts), (prepared_statuses _ _ _ _ _ Hprep). apply length_map. }
  assert (Hc : count_status tsuccess (tasks s) + count_status tfailed (tasks s) + count_status tskipped (tasks s) = Z.of_nat (length (tasks s))).
  { apply count_partition. intros t Ht. eapply finished_status; [exact I|exact Hpc|]. apply task_status_of; [|exact Ht].
    rewrite (iv_ids _ _ I). apply wf_ids, (iv_dag _ _ I). }
  cbn [run_result succeeded n_failed skipped] in *. rewrite Hlen in Hc. unfold all_succeeded. cbn [n_failed skipped].
  destruct tasks0 as [|t0 rest]; [done|]. cbn [length] in *. split; [|lia].
  apply andb_false_iff. rewrite !Z.eqb_neq. cbn [run_result n_failed skipped]. lia.
Qed.

(** ** The placeholder *)

Lemma digits_inj u v : digits_of_uint u = digits_of_uint v -> u = v.
Proof. revert v. induction u as [|u IH|u IH|u IH|u IH|u IH|u IH|u IH|u IH|u IH|u IH]; intros []; cbn; try done; intros [= E]; by rewrite (IH _ E). Qed.

Lemma str_of_nat_inj i j : str_of_Z (Z.of_nat i) = str_of_Z (Z.of_nat j) -> i = j.
Proof.
  assert (G : forall n, str_of_Z (Z.of_nat n) = digits_of_uint (N.to_uint (N.of_nat n))) by (intros [|n]; reflexivity).
  rewrite !G. intros E%digits_inj%DecimalN.Unsigned.to_uint_inj. lia.
Qed.

Lemma map_fst_combine {A B : Type} (l : list A) (m : list B) : length l = length m -> List.map fst (combine l m) = l.
Proof. revert m. induction l as [|x l IH]; intros [|y m] H; try done. cbn. f_equal. apply IH. by injection H. Qed.

Lemma NoDup_map_injective {A B : Type} (f : A -> B) l : (forall x y, f x = f y -> x = y) -> List.NoDup l -> List.NoDup (List.map f l).
Proof.
  intros Hf. induction 1 as [|x l Hx _ IH]; constructor; [|exact IH]. intros (y & E & Hy)%in_map_iff. by apply Hf in E as ->.
Qed.

Lemma multi_tasks_ids request repos : List.NoDup (List.map task_id (multi_tasks request repos)).
Proof.
  unfold multi_tasks. rewrite List.map_map, (List.map_ext _ (fun x => "repo-" ++ str_of_Z (Z.of_nat (fst x)))) by (by intros []).
  rewrite <- (List.map_map fst (fun i => "repo-" ++ str_of_Z (Z.of_nat i))), map_fst_combine by apply length_seq.
  apply NoDup_map_injective; [intros i j E; apply str_of_nat_inj; by injection E|apply seq_NoDup].
Qed.

Lemma multi_task_fresh request repos t : In t (multi_tasks request repos) -> depends_on t = [] /\ status t = tpending /\ result t = None.
Proof. unfold multi_tasks. by intros ([i r] & <- & _)%in_map_iff. Qed.

Lemma multi_pending request repos : all_pending (multi_tasks request repos).
Proof. intros t Ht. destruct (multi_task_fresh _ _ _ Ht) as (_ & H & _). exact H. Qed.

Lemma multi_deps request repos t : deps (graph_of (multi_tasks request repos)) t = [].
Proof.
  unfold deps, graph_of. cbn [_depends_on]. destruct (dlookup t _) as [l|] eqn:E; [|done]. apply dlookup_In in E.
  apply in_map_iff in E as (u & [= _ <-] & Hu). destruct (multi_task_fresh _ _ _ Hu) as (H & _ & _). exact H.
Qed.

(** The command's tasks make a valid graph. *)
Lemma multi_init request repos : exists s, init (multi_tasks request repos) = Ok s.
Proof.
  assert (H : DependencyGraph_init (multi_tasks request repos) = Ok (graph_of (multi_tasks request repos))).
  { apply init_graph. split; [done|]. split; [apply multi_tasks_ids|]. assert (Hn : forall t d, ~ depends (graph_of (multi_tasks request repos)) t d)
      by (intros t d; unfold depends; rewrite multi_deps; intros []).
    split.
    - constructor; [apply multi_tasks_ids|exact (List.map_map _ _ _)|intros t d Hd; by destruct (Hn t d)].
    - intros t Hd. destruct Hd; by eapply Hn. }
  unfold init. rewrite H. by eexists.
Qed.

(** What holds in a run of the placeholder: nothing fails, and what succeeded has its own
    input as its result. *)
Record echoing (ts : list SubAgentTask) (s : sched) : Prop := {
  ec_failed : without tfailed s;
  ec_done : forall i, i ∈ done_set s -> status_of (tasks s) i = Some tsuccess;
  ec_pc : pc s <> Cancelling;
  ec_same : List.map (fun t => (task_id t, input_state t)) (tasks s) = List.map (fun t => (task_id t, input_state t)) ts;
  ec_result : forall t, In t (tasks s) -> status t = tsuccess -> result t = Some (input_state t) }.

Section Echo.
Context (ts : list SubAgentTask) (c : config).
Hypothesis ts_nodup : List.NoDup (List.map task_id ts).
Hypothesis no_rewiring : dynamic_rewiring c = false.
(** The scheduler without fail-fast, on which the run is the same. *)
Definition patient : config := {| max_parallel := max_parallel c; fail_fast := false; dynamic_rewiring := false |}.

Lemma nothing_bad s i : echoing ts s -> i ∈ done_set s -> status_of (settle (done_set s) (tasks s)) i = Some tsuccess.
Proof. intros E Hi. rewrite status_settle, (ec_done _ _ E i Hi). cbn. by rewrite bool_decide_eq_false_2 by (by intros [_ ?]). Qed.

Lemma collect_patient s : echoing ts s -> collect c s = collect patient s.
Proof.
  intros E. unfold collect. set (d := done_set s). set (ok := filter _ d).
  assert (Hb : d ∖ ok = ∅) by (apply leibniz_equiv; intros i; unfold ok; rewrite elem_of_difference, elem_of_filter; split;
    [intros [Hi Hn]; exfalso; apply Hn; split; [by apply (nothing_bad s)|done]|set_solver]).
  rewrite Hb, (bool_decide_eq_true_2 _ eq_refl). cbn [negb]. by rewrite !andb_false_r.
Qed.

Lemma step_patient s s' : echoing ts s -> step_if (placeholder ts) c s s' -> step patient s s'.
Proof.
  intros E Hs. destruct Hs as [s Hpc|s i Hpc Hi Hst Hpar|s i o Hpc Hi Ho|s Hpc Hd|s i Hpc Hi|s Hpc Hi].
  - by constructor.
  - by apply s_acquire.
  - replace (run_task_end c i o s) with (run_task_end patient i o s); [by apply s_finish|].
    unfold run_task_end, _maybe_apply_patch. by rewrite no_rewiring.
  - rewrite (collect_patient s E). by apply s_collect.
  - by destruct (ec_pc _ _ E).
  - by destruct (ec_pc _ _ E).
Qed.

Lemma ids_nodup s : sinv c s -> List.NoDup (List.map task_id (tasks s)).
Proof. intros I. rewrite (iv_ids _ _ I). apply wf_ids, (iv_dag _ _ I). Qed.

Lemma collect_tasks s : sinv c s -> echoing ts s -> tasks (collect c s) = tasks s.
Proof.
  intros I E. rewrite (collect_patient s E). unfold collect. cbn [tasks fail_fast patient andb].
  unfold settle. transitivity (List.map (fun t => t) (tasks s)); [|apply List.map_id]. apply List.map_ext_in. intros t Ht.
  rewrite bool_decide_eq_false_2; [done|]. intros [Hd Hs].
  pose proof (ec_done _ _ E _ Hd) as Hx. rewrite (task_status_of _ _ (ids_nodup s I) Ht), Hs in Hx. discriminate Hx.
Qed.

Lemma same_map (f : SubAgentTask -> SubAgentTask) l :
  (forall t, task_id (f t) = task_id t /\ input_state (f t) = input_state t) ->
  List.map (fun t => (task_id t, input_state t)) (List.map f l) = List.map (fun t => (task_id t, input_state t)) l.
Proof. intros H. rewrite List.map_map. apply List.map_ext. intros t. by destruct (H t) as [-> ->]. Qed.

Lemma own_input s t t0 : echoing ts s -> In t (tasks s) -> In t0 ts -> task_id t0 = task_id t -> input_state t0 = input_state t.
Proof.
  intros E Ht Ht0 Hid. apply (in_map (fun t => (task_id t, input_state t))) in Ht. rewrite (ec_same _ _ E) in Ht.
  apply in_map_iff in Ht as (t1 & [= E1 <-] & Ht1). f_equal. rewrite <- Hid in E1. clear - ts_nodup Ht0 Ht1 E1.
  induction ts as [|x l IH]; [done|]. cbn in ts_nodup. inversion_clear ts_nodup as [|? ? Hx Hl].
  destruct Ht0 as [->|H0], Ht1 as [->|H1]; try done; [| |by apply IH].
  - destruct Hx. rewrite <- E1. by apply in_map.
  - destruct Hx. rewrite E1. by apply in_map.
Qed.

Lemma echo_step s s' : sinv c s -> echoing ts s -> step_if (placeholder ts) c s s' -> echoing ts s'.
Proof.
  intros I E Hs. pose proof E as [E1 E2 E3 E4 E5].
  destruct Hs as [s Hpc|s i Hpc Hi Hst Hpar|s i o Hpc Hi (t0 & p & Ht0 & Hid & ->)|s Hpc Hd|s i Hpc Hi|s Hpc Hi]; [| | | |done..].
  - constructor; unfold without; cbn.
    + case_match; [|exact E1]. apply without_map; [without_step|exact E1].
    + intros i Hi. case_match; [|by apply E2]. rewrite status_restatus, (E2 i Hi). done.
    + by case_match.
    + case_match; [|exact E4]. rewrite <- E4. apply same_map. intros t. by case_match.
    + case_match; [|exact E5]. intros t (u & <- & Hu)%in_map_iff. case_match; [done|]. by apply E5.
  - apply elem_of_difference in Hi as [_ Hi]. constructor; unfold without; cbn; [apply without_map; [without_step|exact E1]| |done| |].
    + intros j Hj. rewrite (status_on_task _ _ trunning), (E2 j Hj) by done. cbn. destruct (String.eqb_spec j i) as [->|]; [done|done].
    + rewrite <- E4. apply same_map. intros t. by case_match.
    + intros t (u & <- & Hu)%in_map_iff. case_match; [done|]. by apply E5.
  - apply elem_of_active in Hi as (Hi & _ & _). constructor; unfold without; cbn; [apply without_map; [without_step|exact E1]| |done| |].
    + intros j Hj. rewrite (status_on_task _ _ tsuccess) by done. destruct (String.eqb_spec j i) as [->|Hn]; [by rewrite Hi|].
      rewrite E2 by set_solver. done.
    + rewrite <- E4. apply same_map. intros t. by case_match.
    + intros t (u & <- & Hu)%in_map_iff. destruct (String.eqb_spec (task_id u) i) as [Hu'|_]; [|by apply E5].
      intros _. cbn. f_equal. eapply own_input; [exact E|exact Hu|exact Ht0|by rewrite Hid].
  - constructor; unfold without; rewrite ?(collect_tasks s I E); [exact E1| | |exact E4|exact E5].
    + intros j Hj. cbn in Hj. set_solver.
    + rewrite (collect_patient s E). by cbn.
Qed.
End Echo.

Lemma echo_reachable request repos s :
  let ts := multi_tasks request repos in
  reachable_if (placeholder ts) (multi_config repos) ts s ->
  echoing ts s /\ reachable (patient (multi_config repos)) ts s.
Proof.
  intros ts. revert s. apply reachable_if_ind'.
  - intros s Hi. split; [|by apply r_init]. pose proof (init_tasks _ _ Hi) as Ht.
    constructor; rewrite ?Ht; [| | |done|].
    + unfold without. intros t Hin. rewrite Ht in Hin. destruct (multi_task_fresh _ _ _ Hin) as (_ & -> & _). done.
    + unfold init in Hi. destruct (DependencyGraph_init ts); [|done]. injection Hi as <-. cbn. set_solver.
    + unfold init in Hi. destruct (DependencyGraph_init ts); [|done]. injection Hi as <-. done.
    + intros t Hin. destruct (multi_task_fresh _ _ _ Hin) as (_ & -> & _). done.
  - intros s s' Hr [E R] Hs. pose proof (reachable_inv _ _ _ (multi_pending request repos) (reachable_if_reachable _ _ _ _ Hr)) as I.
    split; [exact (echo_step ts (multi_config repos) (multi_tasks_ids request repos) eq_refl s s' I E Hs)|].
    eapply r_step; [exact R|]. exact (step_patient ts (multi_config repos) (multi_tasks_ids request repos) eq_refl s s' E Hs).
Qed.

(** Nothing is blocked, nothing failed: an ended run has only successes. *)
Lemma finished_succeeds request repos s :
  let ts := multi_tasks request repos in
  echoing ts s /\ reachable (patient (multi_config repos)) ts s -> sinv (multi_config repos) s -> pc s = Finished ->
  forall t, In t (tasks s) -> status t = tsuccess.
Proof.
  intros ts [E R] I Hpc t Ht. pose proof (multi_pending request repos) as Hp.
  pose proof (task_status_of _ _ (ids_nodup _ _ I) Ht) as Hst.
  pose proof (plain_reachable (patient (multi_config repos)) _ _ Hp eq_refl eq_refl R) as P.
  destruct (decide (task_id t ∈ started_ids s)) as [Hi|Hi].
  - destruct (finished_status _ _ _ _ I Hpc Hst) as [H|[H|H]]; [exact H|by destruct (ec_failed _ _ E t Ht)|].
    destruct (launched_not_skipped (patient (multi_config repos)) _ _ _ Hp eq_refl R Hi). by rewrite Hst, H.
  - destruct (pl_blocked _ _ P Hpc (task_id t)) as (d & Hd & _); [|exact Hi|by rewrite multi_deps in Hd].
    rewrite <- (pl_dag _ _ P), <- (iv_ids _ _ I). by apply in_map.
Qed.

Lemma all_zero s : (forall t, In t (tasks s) -> status t = tsuccess) -> snd (multi_report (run_result s)) = 0.
Proof.
  intros H. unfold multi_report, all_succeeded, run_result. cbn [n_failed skipped snd].
  rewrite !count_none by (intros t Ht; by rewrite (H t Ht)). done.
Qed.

(** [run-multi] reports success without running anything.  Its graph function is a
    placeholder: for every request and every list of repositories, in every interleaving,
    the run can go on until it ends, and when it has ended each task is successful with its
    own input as the result, and the command exits with 0. *)
Theorem run_multi_echoes request repos s :
  let ts := multi_tasks request repos in
  reachable_if (placeholder ts) (multi_config repos) ts s ->
  (pc s <> Finished -> exists s', step_if (placeholder ts) (multi_config repos) s s') /\
  (pc s = Finished ->
     snd (multi_report (run_result s)) = 0 /\ length (r_tasks (run_result s)) = length repos /\
     forall t, In t (r_tasks (run_result s)) ->
       status t = tsuccess /\ result t = Some (input_state t) /\
       exists repo, In repo repos /\ input_state t = [("request", PStr request); ("repo_root", PStr repo)]).
Proof.
  intros ts Hr. pose proof (multi_pending request repos) as Hp.
  destruct (echo_reachable request repos s Hr) as [E R].
  pose proof (reachable_inv _ _ _ Hp (reachable_if_reachable _ _ _ _ Hr)) as I.
  assert (Hin : forall t, In t (tasks s) -> exists t0, In t0 ts /\ task_id t0 = task_id t /\ input_state t0 = input_state t).
  { intros t Ht. apply (in_map (fun t => (task_id t, input_state t))) in Ht. rewrite (ec_same _ _ E) in Ht.
    apply in_map_iff in Ht as (t0 & [= H1 H2] & H3). by exists t0. }
  split.
  - intros Hpc. apply progress_if; [|exact I|exact Hpc]. intros i (Hi & _ & _)%elem_of_active.
    apply status_of_task in Hi as (t & Ht & <- & _). destruct (Hin t Ht) as (t0 & Ht0 & Hid & _).
    exists (OSuccess (input_state t0) NoPatch). by exists t0, NoPatch.
  - change (r_tasks (run_result s)) with (tasks s). intros Hpc. assert (Hs : forall t, In t (tasks s) -> status t = tsuccess).
    { intros t Ht. apply (finished_succeeds request repos s (conj E R) I Hpc). exact Ht. }
    split; [by apply all_zero|]. split.
    { rewrite (run_length _ _ _ _ Hr). unfold ts, multi_tasks. by rewrite length_map, length_combine, length_seq, Nat.min_id. }
    intros t Ht. split; [by apply Hs|]. split; [apply (ec_result _ _ E); [exact Ht|by apply Hs]|].
    destruct (Hin t Ht) as (t0 & Ht0 & _ & <-). unfold ts, multi_tasks in Ht0. apply in_map_iff in Ht0 as ([i r] & <- & Hc).
    exists r. split; [by apply in_combine_r in Hc|done].
Qed.

(** ** Two services *)
Module Sample.
Definition repo (n : string) : RepoConfig := {| name := n; root_path := "/srv/" ++ n; runner_url := "http://" ++ n; scip_index := None |}.
Definition self : MultiRepoScheduler := MultiRepoScheduler_init [repo "auth"; repo "web"] [("t1", "auth"); ("t2", "web")] 4 false false.
Definition load (root : string) : res ScipIndex :=
  ScipIndex._parse_sidecar (PDict [("documents", PList [PDict [("relative_path", PStr "a.py"); ("symbols", PList [PDict [("name", PStr "login")]])]])]) root.
Definition task (i : string) (ds : list string) : SubAgentTask :=
  {| task_id := i; description := ""; depends_on := ds; input_state := []; status := tpending; result := None; error := None;
     started_at := None; finished_at := None |}.
Definition handoff : CrossRepoHandoff :=
  {| source_repo := "auth"; target_repo := "web"; shared_symbols := ["login"]; objective := "rename"; context_patch := [] |}.

Definition tasks0 : list SubAgentTask := [task "t1" []; task "t2" ["t1"]].
Definition prepared : list SubAgentTask := match prepare self load tasks0 [handoff] with Ok ts => ts | Err _ => [] end.

(** Each task gets its repository, its symbols and the handoff to it. *)
Example enriched :
  prepare self load tasks0 [handoff] = Ok prepared /\
  List.map (fun t => List.map fst (input_state t)) prepared =
    [["repo_root"; "runner_url"; "scip_summary"]; ["repo_root"; "runner_url"; "scip_summary"; "active_handoff"]].
Proof. by vm_compute. Qed.

Definition start (ts : list SubAgentTask) : sched :=
  {| tasks := ts; dag := graph_of ts; completed_ids := ∅; failed_ids := ∅; started_ids := ∅; running := ∅; done_set := ∅; launched := []; pc := Top |}.
Definition fails (i : string) : outcome := OFailed "MetaGraphScheduler.run() called but no run_graph was provided.".
Definition ended : sched := drive 12 (inner_config self) fails (start prepared).

Lemma prepared_init : init prepared = Ok (start prepared).
Proof. by vm_compute. Qed.

Lemma ended_reachable : reachable_if missing_run_graph (inner_config self) prepared ended.
Proof. apply drive_if; [intros i _; by eexists|]. apply ri_init, prepared_init. Qed.

Lemma multi_repo_never_succeeds_witness :
  pc ended = Finished /\ succeeded (run_result ended) = 0 /\ all_succeeded (run_result ended) = false.
Proof.
  assert (Hpc : pc ended = Finished) by (vm_compute; reflexivity).
  destruct (multi_repo_never_succeeds self load [handoff] tasks0 prepared ended) as (H0 & _ & H1).
  - intros t [<-|[<-|[]]]; reflexivity.
  - discriminate.
  - exact (proj1 enriched).
  - exact ended_reachable.
  - split; [exact Hpc|]. split; [exact H0|]. exact (proj1 (H1 Hpc)).
Defined.

Definition repos : list string := ["/srv/auth"; "/srv/web"].
Definition echo (i : string) : outcome :=
  match List.find (fun t => String.eqb (task_id t) i) (multi_tasks "fix it" repos) with
  | Some t => OSuccess (input_state t) NoPatch
  | None => OStuck
  end.
Definition echoed : sched := drive 12 (multi_config repos) echo (start (multi_tasks "fix it" repos)).

Lemma multi_start : init (multi_tasks "fix it" repos) = Ok (start (multi_tasks "fix it" repos)).
Proof. by vm_compute. Qed.

Lemma echoed_reachable : reachable_if (placeholder (multi_tasks "fix it" repos)) (multi_config repos) (multi_tasks "fix it" repos) echoed.
Proof.
  apply drive_if; [|apply ri_init, multi_start].
  intros i [<-|[<-|[]]]; unfold placeholder; do 2 eexists; (split; [|split; [|reflexivity]]); [by left|reflexivity|right; by left|reflexivity].
Qed.

Lemma run_multi_echoes_witness :
  pc echoed = Finished /\ snd (multi_report (run_result echoed)) = 0 /\ length (r_tasks (run_result echoed)) = 2%nat.
Proof.
  assert (Hpc : pc echoed = Finished) by (vm_compute; reflexivity).
  destruct (run_multi_echoes "fix it" repos echoed echoed_reachable) as [_ H]. destruct (H Hpc) as (H1 & H2 & _).
  split; [exact Hpc|]. split; [exact H1|exact H2].
Defined.
End Sample.
