(* ===== verification/Worktree.v ===== *)
(** * Branch isolation: [worktree.py] and the isolated tasks of [meta_graph.py]

    git is a program that changes a world [W]: an interface gives its exit code and its
    output for a command line, and the cancellations that reach a coroutine while it waits
    for one.  The operations are written over it, so the same code runs on
    a world that also records the command lines; the theorems speak of that record. *)
From Stdlib Require Import ZArith Lia String Ascii List Bool.
From stdpp Require Import base tactics list strings option.
From S2P Require Import Prelude PyStr StrFacts PyFloat PyVal Vericoding MetaGraph Scheduler.
Local Open Scope string_scope.
Local Open Scope Z_scope.

(** [git_process w args cwd]: the exit code, the output and the errors, or why the process
    could not be run.  [git_cancelled w args cwd]: whether the coroutine that awaits this
    command is cancelled meanwhile; then the world is whatever the process, which asyncio
    does not wait for, makes of it. *)
Class Git (W : Type) := {
  git_process : W -> list string -> string -> W * res (Z * string * string);
  git_cancelled : W -> list string -> string -> option W }.

(** ** Computations *)

(** [WorktreeError], an exception of Python's, or [asyncio.CancelledError], which is not an
    [Exception]. *)
Inductive exc := WorktreeError (message : string) | Raised (e : pyexc) | CancelledError.

Definition exc_text (x : exc) : string := match x with WorktreeError m => m | Raised e => exc_str e | CancelledError => "" end.

Definition GitM (W A : Type) : Type := W -> W * (A + exc).

Definition ret {W A : Type} (a : A) : GitM W A := fun w => (w, inl a).
Definition raise {W A : Type} (x : exc) : GitM W A := fun w => (w, inr x).
Definition bind {W A B : Type} (m : GitM W A) (k : A -> GitM W B) : GitM W B :=
  fun w => match m w with (w, inl a) => k a w | (w, inr x) => (w, inr x) end.
Notation "'let*' x ':=' m 'in' k" := (bind m (fun x => k)) (at level 10, x pattern, m at level 200, k at level 200).

Definition os_join (a b : string) : string :=
  if startswith b "/" then b else if String.eqb a "" || endswith a "/" then a ++ b else a ++ "/" ++ b.

(** [os.path.abspath], in the directory [cwd]. *)
Definition abspath (cwd path : string) : string := path_text (normpath (to_path (os_join cwd path))).
(** [Path(p).parent]. *)
Definition parent (p : Path) : Path := {| anchor := anchor p; parts := removelast (parts p) |}.

Record WorktreeContext := { run_id : string; branch : string; worktree_path : string; base_branch : string }.

Definition rc_text (rc : Z) : string := "(rc=" ++ str_of_Z rc ++ ")".

Section Operations.
Context {W : Type} {git : Git W}.
(** The directory of the process. *)
Context (process_dir : string).

Definition _run_git (args : list string) (cwd : string) : GitM W (Z * string * string) :=
  fun w => match git_cancelled w args cwd with
           | Some w => (w, inr CancelledError)
           | None =>
               match git_process w args cwd with
               | (w, Ok (rc, out, err)) => (w, inl (rc, strip out, strip err))
               | (w, Err e) => (w, inr (Raised e))
               end
           end.

Definition create_worktree (run_id base_path : string) : GitM W WorktreeContext :=
  let branch := "lg-orch/" ++ run_id in
  let worktree_path := os_join (os_join base_path ".lg_orch_worktrees") run_id in
  let* (rc, current_branch, err) := _run_git ["rev-parse"; "--abbrev-ref"; "HEAD"] base_path in
  if negb (rc =? 0) then raise (WorktreeError ("git rev-parse --abbrev-ref HEAD failed " ++ rc_text rc ++ ": " ++ err))
  else
    let base_branch := if String.eqb current_branch "" then "main" else current_branch in
    let* (rc, _, err) := _run_git ["worktree"; "add"; "-b"; branch; worktree_path] base_path in
    if negb (rc =? 0) then raise (WorktreeError ("git worktree add failed for run_id=" ++ repr_str run_id ++ " " ++ rc_text rc ++ ": " ++ err))
    else ret {| run_id := run_id; branch := branch; worktree_path := abspath process_dir worktree_path; base_branch := base_branch |}.

(** [str(Path(ctx.worktree_path).parent.parent)]. *)
Definition base_of (ctx : WorktreeContext) : string := path_text (parent (parent (to_path (worktree_path ctx)))).

Definition remove_worktree (ctx : WorktreeContext) : GitM W unit :=
  let* _ := _run_git ["worktree"; "remove"; "--force"; worktree_path ctx] (base_of ctx) in
  let* _ := _run_git ["branch"; "-D"; branch ctx] (base_of ctx) in
  ret tt.

Definition merge_worktree (ctx : WorktreeContext) (strategy : string) : GitM W unit :=
  let* (rc, _, err) := _run_git ["checkout"; base_branch ctx] (base_of ctx) in
  if negb (rc =? 0) then raise (WorktreeError ("git checkout " ++ repr_str (base_branch ctx) ++ " failed " ++ rc_text rc ++ ": " ++ err))
  else
    let* (rc, _, err) := _run_git ["merge"; "--no-ff"; "--strategy=" ++ strategy; branch ctx] (base_of ctx) in
    if negb (rc =? 0) then
      raise (WorktreeError ("git merge of " ++ repr_str (branch ctx) ++ " into " ++ repr_str (base_branch ctx) ++ " failed " ++ rc_text rc ++ ": " ++ err))
    else ret tt.

(** ** The lease *)

(** [except WorktreeError: _log.warning(...)]. *)
Definition merge_or_warn (ctx : WorktreeContext) : GitM W unit :=
  fun w => match merge_worktree ctx "ours" w with (w, inr (WorktreeError _)) => (w, inl tt) | r => r end.

Definition __aexit__ (merge failed : bool) (ctx : WorktreeContext) : GitM W unit :=
  let* _ := if negb failed && merge then merge_or_warn ctx else ret tt in
  remove_worktree ctx.

(** How a lease ended: it was not entered, or the body ended and then [__aexit__]. *)
Inductive lease_end (A : Type) := NotEntered (x : exc) | Left (body : A + exc) (exit : unit + exc).
#[global] Arguments NotEntered {A} x.
#[global] Arguments Left {A} body exit.

Definition failed {A : Type} (r : A + exc) : bool := match r with inl _ => false | inr _ => true end.

(** [async with WorktreeLease(run_id, base_path, merge) as ctx: body(ctx)]. *)
Definition lease {A : Type} (run_id base_path : string) (merge : bool) (body : WorktreeContext -> GitM W A) : W -> W * lease_end A :=
  fun w =>
    match create_worktree run_id base_path w with
    | (w, inr x) => (w, NotEntered x)
    | (w, inl ctx) =>
        let '(w, r) := body ctx w in
        let '(w, x) := __aexit__ merge (failed r) ctx w in
        (w, Left r x)
    end.

(** What the [async with] statement gives: an exception of [__aexit__] replaces the body's. *)
Definition lease_result {A : Type} (l : lease_end A) : A + exc :=
  match l with NotEntered x => inr x | Left r (inl _) => r | Left _ (inr x) => inr x end.

(** ** A task in its worktree *)

(** [patch_of]: the value under ["dependency_patch"]; [run_graph] is the sub-agent.  When the
    graph returned and leaving the lease raised, the task keeps its status; no outcome: the
    coroutine ends cancelled ([Scheduler.cancelled]). *)
Definition _run_task_isolated (patch_of : dict -> raw_patch) (run_graph : dict -> GitM W dict) (base_path : string) (task : SubAgentTask)
    : W -> W * option outcome :=
  fun w =>
    let body ctx := run_graph (dset "worktree_path" (PStr (worktree_path ctx)) (input_state task)) in
    let '(w, l) := lease (task_id task) base_path true body w in
    (w, match l, lease_result l with
        | _, inl final_state => Some (OSuccess final_state (patch_of final_state))
        | _, inr CancelledError => None
        | Left (inl _) _, inr _ => Some OStuck
        | _, inr x => Some (OFailed (exc_text x))
        end).

(** ** Orphans *)

(** [Path(p).exists()]. *)
Context (path_exists : W -> string -> res bool).

(** The loop over the lines: the path and the branch of the current block, and what was removed. *)
Record Scan := { current_path : option string; current_branch : option string; removed : list string }.

Definition branch_short (current_branch : string) : string :=
  if startswith current_branch "refs/heads/" then str_drop 11 current_branch else current_branch.

(** [subprocess.run] twice; an exception of either is logged. *)
Definition remove_orphan (base_path path branch : string) (removed : list string) : W -> W * list string :=
  fun w =>
    match git_process w ["worktree"; "remove"; "--force"; path] base_path with
    | (w, Err _) => (w, removed)
    | (w, Ok _) =>
        match git_process w ["branch"; "-D"; branch] base_path with
        | (w, Err _) => (w, removed)
        | (w, Ok _) => (w, (removed ++ [path])%list)
        end
    end.

(** Whether [current_path and current_branch] holds, and then the orphan it names. *)
Definition block_of (s : Scan) : option (string * string) :=
  match current_path s, current_branch s with
  | Some p, Some b => if negb (String.eqb p "") && negb (String.eqb b "") then Some (p, branch_short b) else None
  | _, _ => None
  end.

(** One line; the exception is that of [exists]. *)
Definition scan_line (base_path line : string) (s : Scan) : W -> W * res Scan :=
  fun w =>
    if startswith line "worktree " then
      (w, Ok {| current_path := Some (strip (str_drop 9 line)); current_branch := None; removed := removed s |})
    else if startswith line "branch " then
      (w, Ok {| current_path := current_path s; current_branch := Some (strip (str_drop 7 line)); removed := removed s |})
    else if String.eqb line "" then
      match block_of s with
      | None => (w, Ok s)
      | Some (path, branch) =>
          let next r := {| current_path := None; current_branch := None; removed := r |} in
          if startswith branch "lg-orch/" then
            match path_exists w path with
            | Err e => (w, Err e)
            | Ok true => (w, Ok (next (removed s)))
            | Ok false => let '(w, r) := remove_orphan base_path path branch (removed s) w in (w, Ok (next r))
            end
          else (w, Ok (next (removed s)))
      end
    else (w, Ok s).

Fixpoint scan (base_path : string) (lines : list string) (s : Scan) : W -> W * list string :=
  fun w =>
    match lines with
    | [] => (w, removed s)
    | line :: rest =>
        match scan_line base_path line s w with
        | (w, Ok s) => scan base_path rest s w
        | (w, Err _) => (w, removed s)
        end
    end.

Definition cleanup_orphaned_worktrees (base_path : string) : W -> W * list string :=
  fun w =>
    match git_process w ["worktree"; "list"; "--porcelain"] base_path with
    | (w, Err _) => (w, [])
    | (w, Ok (rc, out, _)) =>
        if negb (rc =? 0) then (w, [])
        else scan base_path (splitlines out) {| current_path := None; current_branch := None; removed := [] |} w
    end.
End Operations.

(** ** Properties *)

(** A command line, where it was run, and its exit code ([None]: it could not be run, or the
    coroutine that awaited it was cancelled). *)
Definition Command : Type := list string * string * option Z.

#[export] Instance recorded {W : Type} (git : Git W) : Git (W * list Command) := {|
  git_process w args cwd :=
    let '(w', r) := git_process (fst w) args cwd in
    ((w', (snd w ++ [(args, cwd, match r with Ok (rc, _, _) => Some rc | Err _ => None end)])%list), r);
  git_cancelled w args cwd := option_map (fun w' => (w', (snd w ++ [(args, cwd, None)])%list)) (git_cancelled (fst w) args cwd) |}.

Lemma recorded_process {W : Type} (git : Git W) (w : W * list Command) args cwd :
  git_process (Git := recorded git) w args cwd =
    let '(w', r) := git_process (fst w) args cwd in
    ((w', (snd w ++ [(args, cwd, match r with Ok (rc, _, _) => Some rc | Err _ => None end)])%list), r).
Proof. reflexivity. Qed.

(** A computation that is not recorded. *)
Definition unrecorded {W A : Type} (m : GitM W A) : GitM (W * list Command) A :=
  fun w => let '(w', r) := m (fst w) in ((w', snd w), r).

(** The two commands that create a worktree. *)
Definition head (base : string) : list string * string := (["rev-parse"; "--abbrev-ref"; "HEAD"], base).
Definition add (base run_id : string) : list string * string :=
  (["worktree"; "add"; "-b"; "lg-orch/" ++ run_id; os_join (os_join base ".lg_orch_worktrees") run_id], base).

Section Lease.
Context {W : Type} {git : Git W} (process_dir : string).
(** git is installed and its directories exist. *)
Hypothesis git_runs : forall w args cwd, exists rc out err, snd (git_process w args cwd) = Ok (rc, out, err).

(** An awaited command: it ends, or the coroutine is cancelled. *)
Lemma run_git_recorded args cwd w (log : list Command) :
  exists w',
    (exists rc out err, _run_git args cwd (w, log) = ((w', (log ++ [(args, cwd, Some rc) : Command])%list), inl (rc, out, err))) \/
    _run_git args cwd (w, log) = ((w', (log ++ [(args, cwd, None) : Command])%list), inr CancelledError).
Proof.
  unfold _run_git. cbn [git_cancelled recorded fst snd]. destruct (git_cancelled w args cwd) as [w'|]; cbn [option_map]; [exists w'; by right|].
  destruct (git_runs w args cwd) as (rc & out & err & H). cbn [git_process recorded fst snd].
  destruct (git_process w args cwd) as [w' r]. cbn [snd] in H. subst r. exists w'. left. by exists rc, (strip out), (strip err).
Qed.

(** Runs the next command of the goal: where it ends, then where it is cancelled. *)
Ltac run_next :=
  match goal with
  | |- context [_run_git ?args ?cwd (?w, ?log)] =>
      let H := fresh in destruct (run_git_recorded args cwd w log) as (? & [(?rc & ? & ? & H)|H]); rewrite H; clear H; cbv beta iota
  end.

Lemma create_recorded run_id base w (log : list Command) :
  exists w' cmds r, create_worktree process_dir run_id base (w, log) = ((w', (log ++ cmds)%list), r) /\
    match r with
    | inl ctx => cmds = [(head base, Some 0); (add base run_id, Some 0)] /\ branch ctx = "lg-orch/" ++ run_id
    | inr (WorktreeError _) => exists rc, rc <> 0 /\ (cmds = [(head base, Some rc)] \/ cmds = [(head base, Some 0); (add base run_id, Some rc)])
    | inr CancelledError => cmds = [(head base, None)] \/ cmds = [(head base, Some 0); (add base run_id, None)]
    | inr (Raised _) => False
    end.
Proof.
  unfold create_worktree, bind. run_next; [|do 3 eexists; split; [reflexivity|]; by left].
  destruct (Z.eqb_spec rc 0) as [->|Hrc]; cbn [negb].
  2: { do 3 eexists. split; [reflexivity|]. exists rc. auto. }
  run_next; rewrite <- app_assoc; [|do 3 eexists; split; [reflexivity|]; by right].
  destruct (Z.eqb_spec rc 0) as [->|Hrc]; cbn [negb]; do 3 eexists; (split; [reflexivity|]); [done|]. exists rc. auto.
Qed.

Definition remove (ctx : WorktreeContext) : list string * string := (["worktree"; "remove"; "--force"; worktree_path ctx], base_of ctx).
Definition delete (ctx : WorktreeContext) : list string * string := (["branch"; "-D"; branch ctx], base_of ctx).
Definition checkout (ctx : WorktreeContext) : list string * string := (["checkout"; base_branch ctx], base_of ctx).
Definition merge_of (ctx : WorktreeContext) : list string * string := (["merge"; "--no-ff"; "--strategy=ours"; branch ctx], base_of ctx).

(** The commands of a removal, whatever their exit codes; one that is cancelled. *)
Definition removal (ctx : WorktreeContext) (c1 c2 : Z) : list Command := [(remove ctx, Some c1); (delete ctx, Some c2)].
Definition removal_cut (ctx : WorktreeContext) (cmds : list Command) : Prop :=
  cmds = [(remove ctx, None)] \/ exists c, cmds = [(remove ctx, Some c); (delete ctx, None)].

(** What a merge runs: the second command only after the first succeeded. *)
Definition merging (ctx : WorktreeContext) (cmds : list Command) : Prop :=
  exists rc, (rc <> 0 /\ cmds = [(checkout ctx, Some rc)]) \/ cmds = [(checkout ctx, Some 0); (merge_of ctx, Some rc)].
Definition merging_cut (ctx : WorktreeContext) (cmds : list Command) : Prop :=
  cmds = [(checkout ctx, None)] \/ cmds = [(checkout ctx, Some 0); (merge_of ctx, None)].

(** What leaving a lease runs, and how it ends. *)
Definition leaves (merges : bool) (ctx : WorktreeContext) (cmds : list Command) (x : unit + exc) : Prop :=
  (x = inr CancelledError /\ merges = true /\ merging_cut ctx cmds) \/
  exists m r, cmds = (m ++ r)%list /\ (if merges then merging ctx m else m = []) /\
    ((x = inl tt /\ exists c1 c2, r = removal ctx c1 c2) \/ (x = inr CancelledError /\ removal_cut ctx r)).

Lemma merge_recorded ctx w (log : list Command) :
  exists w' cmds x, merge_or_warn ctx (w, log) = ((w', (log ++ cmds)%list), x) /\
    ((x = inl tt /\ merging ctx cmds) \/ (x = inr CancelledError /\ merging_cut ctx cmds)).
Proof.
  unfold merge_or_warn, merge_worktree, bind, merging, merging_cut.
  run_next; [|do 3 eexists; split; [reflexivity|]; eauto 6].
  destruct (Z.eqb_spec rc 0) as [->|Hrc]; cbn [negb].
  2: { do 3 eexists. split; [reflexivity|]. left. split; [done|]. exists rc. by left. }
  run_next; rewrite <- app_assoc; [|do 3 eexists; split; [reflexivity|]; eauto 6].
  destruct (rc =? 0); cbn [negb]; do 3 eexists; (split; [reflexivity|]); left; (split; [done|]); exists rc; by right.
Qed.

Lemma remove_recorded ctx w (log : list Command) :
  exists w' cmds x, remove_worktree ctx (w, log) = ((w', (log ++ cmds)%list), x) /\
    ((x = inl tt /\ exists c1 c2, cmds = removal ctx c1 c2) \/ (x = inr CancelledError /\ removal_cut ctx cmds)).
Proof.
  unfold remove_worktree, bind, removal, removal_cut.
  run_next; [|do 3 eexists; split; [reflexivity|]; eauto 6].
  run_next; rewrite <- app_assoc; do 3 eexists; (split; [reflexivity|]); eauto 8.
Qed.

Lemma exit_recorded merge failed ctx w (log : list Command) :
  exists w' cmds x, __aexit__ merge failed ctx (w, log) = ((w', (log ++ cmds)%list), x) /\ leaves (merge && negb failed) ctx cmds x.
Proof.
  unfold __aexit__, leaves. rewrite (andb_comm merge). destruct (negb failed && merge); unfold bind at 1.
  - destruct (merge_recorded ctx w log) as (w1 & m & x & -> & [[-> Hm]|[-> Hm]]); [|do 3 eexists; split; [reflexivity|]; by left].
    destruct (remove_recorded ctx w1 (log ++ m)%list) as (w2 & r & x & -> & Hx). rewrite <- app_assoc.
    do 3 eexists. split; [reflexivity|]. right. by exists m, r.
  - unfold ret at 1. destruct (remove_recorded ctx w log) as (w2 & r & x & -> & Hx).
    do 3 eexists. split; [reflexivity|]. right. by exists [], r.
Qed.

Lemma exit_runs merge failed ctx w : exists w' x, __aexit__ merge failed ctx w = (w', x) /\ (x = inl tt \/ x = inr CancelledError).
Proof.
  assert (G : forall args cwd w, exists w', (exists x, _run_git args cwd w = (w', inl x)) \/ _run_git args cwd w = (w', inr CancelledError)).
  { intros args cwd w0. unfold _run_git. destruct (git_cancelled w0 args cwd) as [w'|]; [eauto|].
    destruct (git_runs w0 args cwd) as (rc & out & err & H).
    destruct (git_process w0 args cwd) as [w' r]. cbn [snd] in H. subst r. eauto. }
  unfold __aexit__, merge_or_warn, merge_worktree, remove_worktree, bind, raise, ret.
  repeat (match goal with
          | |- context [_run_git ?a ?c ?w0] => destruct (G a c w0) as (? & [([[? ?] ?] & ->)| ->])
          | |- context [if ?b then _ else _] => destruct b
          end; cbv beta iota); eauto.
Qed.

(** C29: What a lease runs, whatever git answers and whenever its coroutine is cancelled.
    When git can be run: a lease that is not entered fails with a [WorktreeError] or is
    cancelled, and nothing runs after the command at which that happened.  Of a lease that
    was entered, the two commands that create the worktree succeeded.  It is left, giving
    what its body gave: when it merges and the body did not raise, with the checkout of the
    base and, only if that succeeded, the merge; and always last with the removal of the
    worktree and the deletion of the branch, also after a merge that failed.  Or leaving it
    is cancelled, which replaces what the body gave: during the merge, and then nothing is
    removed, or during the removal, and then the commands after the cancelled one do not
    run. *)
Theorem lease_protocol {A : Type} run_id base_path merge (body : WorktreeContext -> GitM W A) w :
  let '((_, log), l) := lease process_dir run_id base_path merge (fun ctx => unrecorded (body ctx)) (w, []) in
  match l with
  | NotEntered (WorktreeError _) => exists rc, rc <> 0 /\
      (log = [(head base_path, Some rc)] \/ log = [(head base_path, Some 0); (add base_path run_id, Some rc)])
  | NotEntered CancelledError => log = [(head base_path, None)] \/ log = [(head base_path, Some 0); (add base_path run_id, None)]
  | NotEntered (Raised _) => False
  | Left r x => lease_result l = match x with inl _ => r | inr e => inr e end /\
      exists ctx w1 cmds, branch ctx = "lg-orch/" ++ run_id /\ snd (body ctx w1) = r /\
        log = ([(head base_path, Some 0); (add base_path run_id, Some 0)] ++ cmds)%list /\
        leaves (merge && negb (failed r)) ctx cmds x
  end.
Proof.
  unfold lease. destruct (create_recorded run_id base_path w []) as (w1 & cmds & [ctx|x] & -> & H); cbv beta iota; [|by destruct x].
  destruct H as [-> Hb]. unfold unrecorded at 1. cbn [fst snd]. destruct (body ctx w1) as [w2 r] eqn:Eb.
  destruct (exit_recorded merge (failed r) ctx w2 [(head base_path, Some 0); (add base_path run_id, Some 0)]) as (w3 & cmds & x & E & Hm).
  cbn [app] in *. rewrite E. split; [by destruct x|]. exists ctx, w1, cmds. by rewrite Eb.
Qed.

(** A task in a worktree is never left running: its outcome is what its graph gave, or the
    reason why it has no worktree, unless its coroutine was cancelled. *)
Theorem isolated_task_settles patch_of run_graph base_path task w :
  match snd (_run_task_isolated process_dir patch_of run_graph base_path task w) with
  | Some OStuck => False
  | Some (OSuccess d p) => p = patch_of d /\
      exists path w1, snd (run_graph (dset "worktree_path" (PStr path) (input_state task)) w1) = inl d
  | Some (OFailed _) | None => True
  end.
Proof.
  unfold _run_task_isolated, lease. destruct (create_worktree _ _ _ w) as [w1 [ctx|x]]; cbn; [|by destruct x].
  destruct (run_graph _ w1) as [w2 r] eqn:Eg. destruct (exit_runs true (failed r) ctx w2) as (w3 & x & Ex & [-> | ->]); rewrite Ex; cbn; [|by destruct r].
  destruct r as [d|x]; cbn; [|by destruct x]. split; [done|]. exists (worktree_path ctx), w1. by rewrite Eg.
Qed.
End Lease.

(** ** The cleanup *)

(** What a worktree has checked out. *)
Inductive Checkout := Bare | Detached (commit : string) | OnBranch (commit ref : string).

(** A block of the output of [git worktree list --porcelain]: [git-worktree(1)], "Porcelain
    Format".  The reasons of [locked] and [prunable] may be empty; git quotes their line
    breaks. *)
Record Block := { b_path : string; b_checkout : Checkout; b_locked : option string; b_prunable : option string }.

Definition checkout_lines (c : Checkout) : list string :=
  match c with
  | Bare => ["bare"]
  | Detached h => ["HEAD " ++ h; "detached"]
  | OnBranch h r => ["HEAD " ++ h; "branch " ++ r]
  end.
Definition annotation (label : string) (reason : option string) : list string :=
  match reason with None => [] | Some r => [if String.eqb r "" then label else label ++ " " ++ r] end.
Definition annotations (b : Block) : list string := (annotation "locked" (b_locked b) ++ annotation "prunable" (b_prunable b))%list.
Definition block_lines (b : Block) : list string :=
  (("worktree " ++ b_path b)%string :: checkout_lines (b_checkout b) ++ annotations b ++ [""])%list.
Definition porcelain (blocks : list Block) : string :=
  fold_right (fun line text => line ++ String "010" text) "" (flat_map block_lines blocks).

Definition b_ref (b : Block) : option string := match b_checkout b with OnBranch _ r => Some r | _ => None end.
Definition b_texts (b : Block) : list string :=
  (match b_checkout b with Bare => [] | Detached h | OnBranch h _ => [h] end ++
   match b_locked b with Some r => [r] | None => [] end ++ match b_prunable b with Some r => [r] | None => [] end)%list.

(** Paths and references without white space around them, texts of one line. *)
Definition one_line (s : string) : bool := all_chars (fun c => negb (is_linebreak c)) s.
Definition name_ok (s : string) : Prop := s <> "" /\ strip s = s /\ one_line s = true.
Definition block_ok (b : Block) : Prop :=
  name_ok (b_path b) /\ (forall r, b_ref b = Some r -> name_ok r) /\ forall t, In t (b_texts b) -> one_line t = true.

(** What is to be removed: the path is gone, and the branch is one of the orchestrator's. *)
Definition orphan_branch (ex : string -> bool) (b : Block) : option string :=
  match b_ref b with
  | Some r => if startswith (branch_short r) "lg-orch/" && negb (ex (b_path b)) then Some (branch_short r) else None
  | None => None
  end.

Lemma splitlines_line l r : one_line l = true -> splitlines (l ++ String "010" r) = l :: splitlines r.
Proof.
  induction l as [|c l IH]; intros H; [by destruct r|]. unfold one_line in *. cbn [all_chars] in H. bool_prop.
  specialize (IH H0). change ((String c l ++ String "010" r)%string) with (String c (l ++ String "010" r)).
  cbn [splitlines]. rewrite H. destruct l as [|d l].
  - change (("" ++ String "010" r)%string) with (String "010" r) in *. rewrite IH. done.
  - change ((String d l ++ String "010" r)%string) with (String d (l ++ String "010" r)) in *. rewrite IH.
    cbn [all_chars] in H0. bool_prop. by rewrite H0.
Qed.

Lemma splitlines_porcelain lines : (forall l, In l lines -> one_line l = true) ->
  splitlines (fold_right (fun line text => line ++ String "010" text) "" lines) = lines.
Proof.
  induction lines as [|l lines IH]; intros H; [done|]. cbn [fold_right]. rewrite splitlines_line by (apply H; by left).
  f_equal. apply IH. intros x Hx. apply H. by right.
Qed.

Lemma one_line_app a b : one_line (a ++ b) = one_line a && one_line b.
Proof. apply all_chars_app. Qed.

Lemma annotation_line label reason l : one_line label = true -> (forall r, reason = Some r -> one_line r = true) ->
  In l (annotation label reason) -> one_line l = true.
Proof.
  unfold annotation. destruct reason as [r|]; [|done]. intros Hl Hr [<-|[]]. specialize (Hr r eq_refl).
  destruct (String.eqb r ""); [done|]. by rewrite !one_line_app, Hl, Hr.
Qed.

(** Every line of a block is one line. *)
Lemma block_one_line b l : block_ok b -> In l (block_lines b) -> one_line l = true.
Proof.
  intros ((_ & _ & Hp) & Hr & Ht) [<-|Hin]; [by rewrite one_line_app, Hp|]. unfold b_texts, b_ref in *.
  apply in_app_iff in Hin as [Hin|[Hin|[<-|[]]]%in_app_iff]; [| |done].
  - destruct (b_checkout b) as [|h|h r]; cbn [checkout_lines] in Hin.
    + by destruct Hin as [<-|[]].
    + destruct Hin as [<-|[<-|[]]]; [|done]. rewrite one_line_app. apply Ht. by left.
    + destruct (Hr r eq_refl) as (_ & _ & H1). destruct Hin as [<-|[<-|[]]]; rewrite one_line_app; [apply Ht; by left|exact H1].
  - apply in_app_iff in Hin as [Hin|Hin]; eapply annotation_line; try exact Hin; try done; intros r E; apply Ht; rewrite E, !in_app_iff; cbn; tauto.
Qed.

Section Cleanup.
Context {W : Type} {git : Git W} (ex : string -> bool) (base_path : string).
Hypothesis git_runs : forall w args cwd, exists rc out err, snd (git_process w args cwd) = Ok (rc, out, err).

Abbreviation scan_all := (scan (git := recorded git) (fun _ p => Ok (ex p)) base_path).
(** The command lines, without their exit codes. *)
Abbreviation lines_of log := (List.map fst (log : list Command)).

Lemma removal_recorded path br rem w (log : list Command) :
  exists w' c1 c2, remove_orphan base_path path br rem (w, log) =
    ((w', (log ++ [(["worktree"; "remove"; "--force"; path], base_path, Some c1); (["branch"; "-D"; br], base_path, Some c2)] : list Command)%list),
     (rem ++ [path])%list).
Proof.
  unfold remove_orphan. cbn [git_process recorded fst snd]. destruct (git_runs w ["worktree"; "remove"; "--force"; path] base_path) as (c1 & ? & ? & H1).
  destruct (git_process w _ _) as [w1 r1]. cbn [fst snd] in *. subst r1.
  destruct (git_runs w1 ["branch"; "-D"; br] base_path) as (c2 & ? & ? & H2).
  destruct (git_process w1 _ _) as [w2 r2]. cbn [snd] in H2. subst r2. exists w2, c1, c2. by rewrite <- app_assoc.
Qed.

Lemma scan_other lines rest s w :
  (forall l, In l lines -> l <> "" /\ startswith l "worktree " = false /\ startswith l "branch " = false) ->
  scan_all (lines ++ rest)%list s w = scan_all rest s w.
Proof.
  induction lines as [|l lines IH]; intros H; [done|]. destruct (H l (or_introl eq_refl)) as (Hn & H1 & H2).
  cbn [app scan]. unfold scan_line at 1. rewrite H1, H2, (proj2 (String.eqb_neq _ _) Hn). apply IH. intros x Hx. apply H. by right.
Qed.

Lemma annotation_other label reason l : In label ["locked"; "prunable"] -> In l (annotation label reason) ->
  l <> "" /\ startswith l "worktree " = false /\ startswith l "branch " = false.
Proof.
  unfold annotation. destruct reason as [r|]; [|done]. intros Hl [<-|[]].
  destruct Hl as [<-|[<-|[]]]; by destruct (String.eqb r "").
Qed.

Lemma annotations_other b l : In l (annotations b) -> l <> "" /\ startswith l "worktree " = false /\ startswith l "branch " = false.
Proof. intros [H|H]%in_app_iff; (eapply annotation_other; [|exact H]); cbn; tauto. Qed.

(** What the scan of a block runs and removes. *)
Definition removal_lines (b : Block) : list (list string * string) :=
  match orphan_branch ex b with
  | Some br => [(["worktree"; "remove"; "--force"; b_path b], base_path); (["branch"; "-D"; br], base_path)]
  | None => []
  end.
Definition is_orphan (b : Block) : bool := match orphan_branch ex b with Some _ => true | None => false end.

Lemma scan_block b rest s w (log : list Command) :
  block_ok b ->
  exists s' w' cmds, scan_all (block_lines b ++ rest)%list s (w, log) = scan_all rest s' (w', (log ++ cmds)%list) /\
    lines_of cmds = removal_lines b /\ removed s' = (removed s ++ (if is_orphan b then [b_path b] else []))%list.
Proof.
  intros ((Hp & Hps & _) & Hr & _). unfold block_lines. rewrite <- app_comm_cons, <- !app_assoc. cbn [scan]. unfold scan_line at 1.
  rewrite startswith_app. change (str_drop 9 ("worktree " ++ b_path b)) with (b_path b). rewrite Hps.
  set (s1 := {| current_path := Some (b_path b) |}).
  assert (Hskip : forall l s2, (forall x, In x l -> x <> "" /\ startswith x "worktree " = false /\ startswith x "branch " = false) ->
    scan_all (l ++ annotations b ++ [""] ++ rest)%list s2 (w, log) = scan_all ([""] ++ rest)%list s2 (w, log)).
  { intros l s2 Hl. rewrite scan_other by exact Hl. apply scan_other. apply annotations_other. }
  unfold removal_lines, is_orphan, orphan_branch, b_ref in *.
  destruct (b_checkout b) as [|h|h r]; cbn [checkout_lines].
  1, 2: rewrite Hskip by (intros x Hx; repeat (destruct Hx as [<-|Hx]; [by repeat split|]); destruct Hx);
    exists s1, w, []; rewrite !app_nil_r; by split.
  destruct (Hr r eq_refl) as (Hn & Hs & _). cbn [app scan]. unfold scan_line at 1.
  change (startswith ("HEAD " ++ h) "worktree ") with false. change (startswith ("HEAD " ++ h) "branch ") with false.
  change (String.eqb ("HEAD " ++ h) "") with false. cbv beta iota. unfold scan_line at 1.
  change (startswith ("branch " ++ r) "worktree ") with false. rewrite startswith_app. change (str_drop 7 ("branch " ++ r)) with r.
  rewrite Hs, (Hskip []) by done. cbn [app scan removed current_path s1]. unfold scan_line at 1, block_of. cbn [current_path current_branch removed].
  change (startswith "" "worktree ") with false. change (startswith "" "branch ") with false. cbv beta iota.
  rewrite (proj2 (String.eqb_neq _ _) Hp), (proj2 (String.eqb_neq _ _) Hn). cbn [String.eqb negb andb].
  destruct (startswith (branch_short r) "lg-orch/"); cbn [andb].
  2: { do 2 eexists. exists []. rewrite !app_nil_r. split; [reflexivity|done]. }
  destruct (ex (b_path b)); cbn [negb]; [do 2 eexists; exists []; rewrite !app_nil_r; split; [reflexivity|done]|].
  destruct (removal_recorded (b_path b) (branch_short r) (removed s) w log) as (w' & c1 & c2 & ->).
  do 3 eexists. split; [reflexivity|done].
Qed.

Lemma scan_blocks blocks s w (log : list Command) :
  Forall block_ok blocks ->
  exists w' cmds, scan_all (flat_map block_lines blocks) s (w, log) =
      ((w', (log ++ cmds)%list), (removed s ++ List.map b_path (List.filter is_orphan blocks))%list) /\
    lines_of cmds = flat_map removal_lines blocks.
Proof.
  intros H. revert s w log. induction H as [|b blocks Hb _ IH]; intros s w log; cbn [flat_map].
  { exists w, []. cbn. by rewrite !app_nil_r. }
  destruct (scan_block b (flat_map block_lines blocks) s w log Hb) as (s1 & w1 & c1 & -> & Hc1 & Hr).
  destruct (IH s1 w1 (log ++ c1)%list) as (w2 & c2 & -> & Hc2). exists w2, (c1 ++ c2)%list.
  split; [|by rewrite <- Hc1, <- Hc2, <- map_app]. rewrite Hr, <- !app_assoc. do 2 f_equal. cbn [List.filter]. by destruct (is_orphan b).
Qed.

(** C30: The cleanup removes the orphans and nothing else.  When git can be run and lists the
    worktrees in its porcelain format (bare, detached or on a branch, locked or prunable or
    not, with paths and references without white space around them), and no path comes or
    goes meanwhile, the cleanup forces the removal of exactly the worktrees whose path is
    gone and whose branch is one of the orchestrator's, deletes their branches, in the order
    of the list, and reports their paths. *)
Theorem cleanup_removes_orphans blocks err w w' :
  Forall block_ok blocks ->
  git_process w ["worktree"; "list"; "--porcelain"] base_path = (w', Ok (0, porcelain blocks, err)) ->
  let '((_, log), paths) := cleanup_orphaned_worktrees (git := recorded git) (fun _ p => Ok (ex p)) base_path (w, []) in
  paths = List.map b_path (List.filter is_orphan blocks) /\
  lines_of log = (["worktree"; "list"; "--porcelain"], base_path) :: flat_map removal_lines blocks.
Proof.
  intros Hok Hl. unfold cleanup_orphaned_worktrees. rewrite recorded_process. cbn [fst snd]. rewrite Hl. cbn [negb Z.eqb].
  unfold porcelain. rewrite splitlines_porcelain.
  2: { intros l (b & Hb & Hin)%in_flat_map. rewrite List.Forall_forall in Hok. exact (block_one_line b l (Hok b Hb) Hin). }
  match goal with |- context [scan _ _ _ ?s (?w, ?log)] => destruct (scan_blocks blocks s w log Hok) as (w2 & cmds & -> & Hc) end.
  split; [done|]. by rewrite <- Hc.
Qed.
End Cleanup.

(** ** A git whose merges fail *)
Module Sample.
Definition block (path : string) (c : Checkout) : Block := {| b_path := path; b_checkout := c; b_locked := None; b_prunable := None |}.
Definition gone : string := "gitdir file points to non-existent location".
(** A bare repository with worktrees on branches, of which git sees that one can be pruned,
    one locked and one without a branch. *)
Definition blocks : list Block :=
  [block "/repo.git" Bare;
   block "/repo" (OnBranch "1f" "refs/heads/main");
   {| b_path := "/repo/.lg_orch_worktrees/t1"; b_checkout := OnBranch "2f" "refs/heads/lg-orch/t1"; b_locked := None; b_prunable := Some gone |};
   {| b_path := "/repo/.lg_orch_worktrees/t2"; b_checkout := OnBranch "3f" "refs/heads/lg-orch/t2"; b_locked := Some ""; b_prunable := None |};
   block "/tmp/x" (Detached "4f")].

(** The world counts the processes; nothing is cancelled. *)
#[export] Instance sample_git : Git nat := {|
  git_process w args cwd :=
    (S w, Ok (match args with
              | "rev-parse" :: _ => (0, "main" ++ nl, "")
              | "merge" :: _ => (1, "", "conflict")
              | ["worktree"; "list"; _] => (0, porcelain blocks, "")
              | _ => (0, "", "") end));
  git_cancelled _ _ _ := None |}.

(** The same, with a cancellation that arrives while the process [n] is awaited. *)
Definition cancelling (n : nat) : Git nat := {|
  git_process := git_process;
  git_cancelled w args cwd := if Nat.eqb w n then Some (S w) else None |}.

Lemma sample_runs : forall w args cwd, exists rc out err, snd (git_process w args cwd) = Ok (rc, out, err).
Proof. intros w args cwd. cbn [git_process sample_git snd]. destruct (match args with "rev-parse" :: _ => _ | _ => _ end) as [[rc out] err]. eauto. Qed.

(** [name_ok], computed. *)
Definition name_okb (s : string) : bool := negb (String.eqb s "") && String.eqb (strip s) s && one_line s.
Lemma name_okb_ok s : name_okb s = true -> name_ok s.
Proof.
  unfold name_okb, name_ok. intros [[H1%negb_true_iff%String.eqb_neq H2%String.eqb_eq]%andb_prop H3]%andb_prop. done.
Qed.

Lemma sample_blocks_ok : Forall block_ok blocks.
Proof.
  repeat apply List.Forall_cons; [..|apply List.Forall_nil].
  all: split; [by apply name_okb_ok|]; split; [by intros r [= <-]; apply name_okb_ok|].
  all: intros t Ht; cbn in Ht; repeat (destruct Ht as [<-|Ht]; [done|]); destruct Ht.
Qed.

(** The path of [t1] is gone. *)
Definition ex (p : string) : bool := negb (String.eqb p "/repo/.lg_orch_worktrees/t1").

Abbreviation run := (lease "/" "t9" "/repo" true (fun ctx => unrecorded (ret (worktree_path ctx))) (0%nat, [])).

(** The agent's work is not merged, and its branch is deleted. *)
Example failed_merge_loses_branch :
  snd run = Left (inl "/repo/.lg_orch_worktrees/t9") (inl tt) /\
  List.map (fun c => (fst (fst c), snd c)) (skipn 2 (snd (fst run))) =
    [(["checkout"; "main"], Some 0); (["merge"; "--no-ff"; "--strategy=ours"; "lg-orch/t9"], Some 1);
     (["worktree"; "remove"; "--force"; "/repo/.lg_orch_worktrees/t9"], Some 0); (["branch"; "-D"; "lg-orch/t9"], Some 0)].
Proof. by vm_compute. Qed.

(** A cancellation during the merge: the worktree and its branch stay.  One while git adds
    the worktree: it stays as well, when git was able to make it. *)
Example cancelled_merge_leaks :
  let run n := lease (git := recorded (cancelling n)) "/" "t9" "/repo" true (fun ctx => unrecorded (ret (worktree_path ctx))) (0%nat, []) in
  let ran n := List.map (fun c => (hd "" (fst (fst c)), snd c)) (snd (fst (run n))) in
  (ran 3%nat, lease_result (snd (run 3%nat))) =
    ([("rev-parse", Some 0); ("worktree", Some 0); ("checkout", Some 0); ("merge", None)], inr CancelledError) /\
  (ran 1%nat, lease_result (snd (run 1%nat))) = ([("rev-parse", Some 0); ("worktree", None)], inr CancelledError).
Proof. by vm_compute. Qed.

Lemma lease_protocol_witness :
  let '((_, log), l) := run in
  match l with
  | NotEntered (WorktreeError _) => exists rc, rc <> 0 /\
      (log = [(head "/repo", Some rc)] \/ log = [(head "/repo", Some 0); (add "/repo" "t9", Some rc)])
  | NotEntered CancelledError => log = [(head "/repo", None)] \/ log = [(head "/repo", Some 0); (add "/repo" "t9", None)]
  | NotEntered (Raised _) => False
  | Left r x => lease_result l = match x with inl _ => r | inr e => inr e end /\
      exists ctx (w1 : nat) cmds, branch ctx = "lg-orch/" ++ "t9" /\ snd (ret (worktree_path ctx) w1) = r /\
        log = ([(head "/repo", Some 0); (add "/repo" "t9", Some 0)] ++ cmds)%list /\
        leaves (true && negb (failed r)) ctx cmds x
  end.
Proof. exact (lease_protocol "/" sample_runs "t9" "/repo" true (fun ctx => ret (worktree_path ctx)) 0%nat). Defined.

Lemma cleanup_removes_orphans_witness :
  let '((_, log), paths) := cleanup_orphaned_worktrees (git := recorded sample_git) (fun _ p => Ok (ex p)) "/repo" (0%nat, []) in
  paths = ["/repo/.lg_orch_worktrees/t1"] /\
  List.map fst log = (["worktree"; "list"; "--porcelain"], "/repo") :: flat_map (removal_lines ex "/repo") blocks.
Proof.
  exact (cleanup_removes_orphans ex "/repo" sample_runs blocks "" 0%nat 1%nat sample_blocks_ok eq_refl).
Defined.

(** With a relative base git takes the path relative to the base once more: the worktree is
    not where the context says. *)
Example relative_base :
  List.map fst (snd (fst (create_worktree "/home" "t9" "repo" (0%nat, [])))) =
    [head "repo"; (["worktree"; "add"; "-b"; "lg-orch/t9"; "repo/.lg_orch_worktrees/t9"], "repo")] /\
  exists ctx, snd (create_worktree "/home" "t9" "repo" (0%nat, [])) = inl ctx /\ worktree_path ctx = "/home/repo/.lg_orch_worktrees/t9".
Proof. split; [reflexivity|]. eexists. split; vm_compute; reflexivity. Qed.
End Sample.
